(* ===== verification/_CoqProject ===== *)
-Q . S2P
Prelude.v
RingBuffer.v
SplInl.v
SplVec.v
RealFFT.v
Resample.v
ResampleSpec.v
Vad.v
VadSpec.v
VadMinimum.v
G711.v
G711Spec.v
G722.v
G722Spec.v
LinPred.v
LinPredSpec.v
Filters.v
FiltersSpec.v
Cng.v
CngSpec.v
Float32.v
DelayEstimator.v
DelayTrack.v
DelayEstimatorWrapper.v
AecmCore.v
AecmInv.v
AecmBlock.v
AecmBlockSpec.v
AecmFrame.v
AecmFrameSpec.v
EchoControlMobile.v
EchoControlMobileSpec.v
WaveIO.v
WaveIOSpec.v
TestProgram.v
TestProgramSpec.v
