(* ===== verification/Prelude.v ===== *)
(** Verification of the mobile echo canceller (AECM) and of neighbouring audio code.

    The program under src/ is a copy of the WebRTC tree whose own target, the
    test program main.cpp, feeds a far-end and a near-end signal through AECM.
    This library models that program: main.cpp and WaveIO.cpp, and AECM down to
    its signal processing primitives.  Of the rest of the tree it models three
    self-contained parts written in C: the sample rate converters, the voice
    activity detector, and the codecs G.711, G.722, 16-bit PCM and comfort noise.
    File names below are relative to src/webrtc/.

    * The program and its model

    A call of the interface (modules/audio_processing/aecm/echo_control_mobile.c)
    works on an [AecMobile]: far-end samples wait in a ring buffer
    (common_audio/ring_buffer.c) until the near end of the same moment arrives.
    After a start-up phase, [WebRtcAecm_Process] hands frames of 80 samples to the
    core (aecm_core.c), which delays the far end by a known delay, queues the
    signals in four more ring buffers, and whenever 256 samples are complete runs
    a block function (aecm_core_c.c): transform far and near end, estimate the
    delay between them (utility/delay_estimator.c by its wrapper), adapt the echo
    channel, filter the echo away, add comfort noise, transform back.

    - Prelude: machine integers, C memory as lists, the error monad, loops, record
      updates, the lemmas and tactics all files share.
    - RingBuffer: [Ring] models ring_buffer.c; [RingSpec] gives the contract, a FIFO
      with a region of stale elements, and the refinement.
    - SplInl, SplVec: common_audio/signal_processing, the scalar operations
      (include/spl_inl.h, division_operations.c, spl_sqrt_floor.c) and the vector
      operations (min_max_operations.c, vector_scaling_operations.c,
      randomization_functions.c, ...).
    - RealFFT: complex_bit_reverse.c, complex_fft.c, real_fft.c.
    - Float32: the IEEE types [float] and [double] on the Standard Library's
      executable [spec_float].
    - DelayEstimator, DelayEstimatorWrapper: utility/delay_estimator.c and
      utility/delay_estimator_wrapper.c.  DelayTrack: the estimate on an echo, and why
      it becomes the delay of the echo.
    - AecmCore: the state [AecmCore] of aecm_core.h and the operations of
      aecm_core.c but for the frame function; AecmInv: the invariant [core_wf] of the
      state, and its establishment.
    - AecmBlock, AecmBlockSpec: aecm_core_c.c, both block functions, and their
      properties.
    - AecmFrame, AecmFrameSpec: [WebRtcAecm_ProcessFrame] of aecm_core.c.  Its
      theorems are proved against the class [BlockContract], what a block function
      owes to its caller; both block functions are instances.
    - EchoControlMobile, EchoControlMobileSpec: the interface.
    - WaveIO, WaveIOSpec: the wave files of src/WaveIO.cpp, the class [CWavFileOp]
      over a stream that is its contents and a position.
    - TestProgram, TestProgramSpec: src/main.cpp, its playback filters and [main] as a
      function from the contents of the input files to those of the output.

    - Resample, ResampleSpec: the converters between 8, 16, 22 and 48 kHz of
      resample.c, resample_48khz.c and their filters in resample_by_2_internal.c and
      resample_fractional.c.
    - Vad, VadSpec, VadMinimum: common_audio/vad, the voice activity detector.  It splits a
      frame of 8 kHz, to which other rates are converted first, into six bands,
      compares their energies with two Gaussian models of noise and two of speech,
      and adapts the models; VadMinimum relates its memory of small features to an ordered list.
    - G711, G711Spec: the codecs of modules/audio_coding/codecs/g711 (u-law, A-law, their
      transcoding) and pcm16b.
    - G722, G722Spec: modules/audio_coding/codecs/g722, a codec that splits the signal into
      two bands and sends the difference of each from an adaptive prediction.  Its
      definitions take the width of the integers as an argument, so that the code
      and the computation over unbounded integers are two instances of them.
    - LinPred, LinPredSpec: linear prediction in common_audio/signal_processing
      (auto_correlation.c, levinson_durbin.c, filter_ar.c, get_hanning_window.c, spl_sqrt.c).
    - Filters, FiltersSpec: its other filters: splitting_filter.c, resample_by_2.c, the fast
      filters, the conversions between correlations, reflection coefficients and filters,
      and the elementwise operations of ilbc_specific_functions.c.
    - Cng, CngSpec: modules/audio_coding/codecs/cng, comfort noise.  The encoder averages the
      energy and the spectrum of what it hears and sends them in a packet at an interval; the
      decoder generates noise that approaches what the last packet says.

    Each component has a module with its data and one definition per function of
    the source, under the source's name, and a module with its properties.  A
    function that is too long for one definition is cut at its comments into
    definitions that the main one composes in the source's order.

    * Conventions

    A C integer of width [w] is a [Z]; the conversion to a type is written where
    the source converts.  A signed overflow is given the wrapped value, an access
    outside an array, a failed assertion, a division by zero and the use of a
    pointer that was never set are [None]: a theorem that a run is [Some] is a
    theorem that none of these happens.  (One access outside an array is not [None]: the shift in
    [WebRtcVad_FindMinimum] reads the entry behind two vectors, and the model takes what it gives as an argument;
    see [next_entry] in Vad.)  A shift has its mathematical value: [WEBRTC_SPL_SHIFT_W32] and
    [WEBRTC_SPL_SHIFT_U32], and a shift written out in an expression, have it for a count outside
    0 to 31 too, which C leaves undefined; only [shift_right] of Vad and [scale] of G722
    give [None] for such a count.  NULL is [None] where a function tests
    for it.  The outcome of an allocation, with the contents of fresh memory, is an
    argument.  [size_t] has 64 bits.  Floating-point expressions are evaluated in
    their type, rounding to nearest even, without contraction.  State is passed
    explicitly; the far-end delay estimator, which the source shares by pointer, is a
    separate argument; the output array of the interface may be one of its input
    arrays, which [OutArg] says.

    [m ⤳ Q] says that the run [m] is defined and its result satisfies [Q];
    [result_bind] composes such statements along [let*].

    * What is shown

    - The ring buffer refines the FIFO for every sequence of operations; far-end
      delay line and spectrum history return what was stored, delayed.
    - Arithmetic: the square root, the norms, the division and the bit count
      compute their mathematical counterparts; the transforms equal those over
      unbounded integers, the inverse one on all inputs and in both modes; the window overlap-adds to
      at most one; the noise generator has full period.
    - The delay estimator is safe for every sequence of operations and decides for
      the first minimum of its smoothed distances.
      If the near end is the far end delayed, its estimate becomes that delay
      after a bounded number of blocks, whatever its state was.
    - The sample rate converters stay inside their frames, states and scratch
      memory, and write every sample of their frame and nothing else; their filters, which overwrite their input, compute the convolutions of
      filters with separate arrays.
    - The splitting filter and the conversions by two are pairs of allpass filters,
      computed without overflow or saturation from every state that frames lead to.
    - The voice activity detector: an invariant bounds its models, so that any
      sequence of calls is defined, but for the read behind two vectors, whose value is
      shown not to matter, and what the calls return; errors
      change nothing; silence ends the activity, digital silence is never speech;
      the minimum search refines an ordered memory; a 48 kHz frame is judged by its
      first ten milliseconds.
    - The codecs: G.722 computes what it would over unbounded integers, for any packets and for any
      frames of an even length, its decoder stays in step with its encoder where a code is a byte, and a difference inside the
      range of the quantiser is decoded within a bound; u-law and A-law are the quantisers
      that keep the five leading bits of a magnitude, with their bound on the
      error, and codes survive decoding and encoding; 16-bit PCM loses nothing.
    - Comfort noise: correlations are exact sums, scaled so that they do not overflow; any
      sequence of calls is defined; a packet carries level and coefficients within its
      quantisation and is sent when the interval is over; the energy in use reaches that of
      the packet in 32 frames, and without a packet there is silence.
    - The core: creation and initialisation establish the invariant, and every block
      and every frame keeps it; channels stay in range, gains and coefficients
      are the functions intended, noise follows the minimum.
    - Frames: any run of frames is a sequential run of the block function on the
      consecutive blocks of the signals, with an output delayed by 240 samples.
    - The interface: any sequence of calls is defined; errors return their codes, and -1 for a NULL handle, and
      change nothing (but a bad echo mode, found after the comfort noise mode is set); start-up ends within 51 rounds where its counters count (and
      never for 80 samples at 16 kHz); the echo path round-trips; a call that
      overwrites its input does what a call with an output of its own does.
    - Wave files: what is written is read back, under a header that counts it on top of
      what the first header counted; the data is found behind other
      chunks.
    - The test program: the low pass is the recursive filter of its coefficients
      over unbounded integers, saturated at the output; [main] writes the filtered far end for every pair of
      wave files of one rate, and returns 0 on every error.

    The lemmas that show unintended behaviour have it in their name:
    [mixed_clean_leaves_memory], [wideband_80_never_starts],
    [nlp_skips_bin_254], [near_filter_wraps], [open_without_data_never_returns],
    [output_header_counts_twice], [calc_vad_48khz_first_10ms], [noise_std_overflows],
    [odd_count_reads_past_the_end], [packed_code_is_held], [bottom_bit_lowest],
    [empty_sid_leaves_memory], [short_frame_mixes_states] and others.

    * Bounds and fuel

    Loops with a fixed count are [for_loop] and [for_pure] or a table [tab].  The
    loops of the far-end delay line have the length of the frame as fuel, and
    [buffer_far_ok] and [fetch_far_ok] show that they end for frames of at most 1024
    samples; the loop over blocks has fuel 2, and [block_loop_terminates] shows that
    it ends after at most one turn; the loops of the transforms have the number of
    stages, at most 10, as fuel.  Opening a wave file has a fuel for the recursion
    over its chunks, of which one more than there are chunks is enough, and the loop
    of [main] one more than there are frames.  The loop of the G.722 encoder has the number
    of samples as fuel; that of its decoder twice the number of bytes and one, since a
    packed buffer can give a code without a byte, but not twice in a row: [encode_loop_ok] and
    [decode_loop_ok].  The loop that undoes the shifts of the comfort noise encoder has one turn
    per shift, and [undo_shifts_ok] shows that these are enough.

    * Not modelled

    The functions that only release memory; the NEON, MIPS and ARM variants;
    debug dumps that are compiled out; spl_init.c, which sets function pointers; the C++ classes around the converters, the detector and the
    codecs; the assembler that finds the highest bit on i386 and x86_64; the other
    stages of audio processing and the rest of the WebRTC tree; the messages on the console, and streams whose operations fail: [fopen] is
    a parameter, [fwrite] succeeds.  The safety theorems ask that the clean near end
    is given always or never, that arrays have the length they are passed with,
    that an echo path set by the user is not negative, and that a comfort noise frame has at
    least as many samples as the largest order; the theorem on [main] asks
    for headers whose sizes agree with their formats. *)

From Stdlib Require Export ZArith Lia.
From stdpp Require Export base list list_numbers option numbers.

#[global] Open Scope Z_scope.

(** ** Machine integers

    A C integer of width [w] is a [Z]; the conversion to a type is written out
    wherever the source converts or assigns.  [i16], [i32], [u16], [u32],
    [u64] are the conversions of two's-complement targets.  A signed overflow
    in an [int] expression, undefined in C, is given the wrapped value. *)

Definition i16 (x : Z) : Z := (x + 32768) mod 65536 - 32768.
Definition i32 (x : Z) : Z := (x + 2147483648) mod 4294967296 - 2147483648.
Definition u8 (x : Z) : Z := x mod 256.
Definition u16 (x : Z) : Z := x mod 65536.
Definition u32 (x : Z) : Z := x mod 4294967296.
Definition u64 (x : Z) : Z := x mod 18446744073709551616.

Definition in_i16 (x : Z) : Prop := -32768 <= x <= 32767.
Definition in_i32 (x : Z) : Prop := -2147483648 <= x <= 2147483647.
Definition in_u8 (x : Z) : Prop := 0 <= x <= 255.
Definition in_u16 (x : Z) : Prop := 0 <= x <= 65535.
Definition in_u32 (x : Z) : Prop := 0 <= x <= 4294967295.

(** Truth values of C comparisons, [0] or [1]. *)
Definition c_bool (b : bool) : Z := if b then 1 else 0.

(** C's division truncates towards zero. *)
Definition c_div (a b : Z) : Z := Z.quot a b.

Create HintDb cint.

Lemma i16_id x : in_i16 x -> i16 x = x.
Proof. unfold in_i16, i16. intros. rewrite Z.mod_small by lia. lia. Qed.
Lemma i32_id x : in_i32 x -> i32 x = x.
Proof. unfold in_i32, i32. intros. rewrite Z.mod_small by lia. lia. Qed.
Lemma u8_id x : in_u8 x -> u8 x = x.
Proof. unfold in_u8, u8. intros. apply Z.mod_small. lia. Qed.
Lemma u16_id x : in_u16 x -> u16 x = x.
Proof. unfold in_u16, u16. intros. apply Z.mod_small. lia. Qed.
Lemma u32_id x : in_u32 x -> u32 x = x.
Proof. unfold in_u32, u32. intros. apply Z.mod_small. lia. Qed.
Lemma u64_id x : 0 <= x < 18446744073709551616 -> u64 x = x.
Proof. unfold u64. intros. apply Z.mod_small. lia. Qed.

Lemma i16_range x : in_i16 (i16 x).
Proof. unfold in_i16, i16. pose proof (Z.mod_pos_bound (x + 32768) 65536). lia. Qed.
Lemma i32_range x : in_i32 (i32 x).
Proof. unfold in_i32, i32. pose proof (Z.mod_pos_bound (x + 2147483648) 4294967296). lia. Qed.
Lemma u8_range x : in_u8 (u8 x).
Proof. unfold in_u8, u8. pose proof (Z.mod_pos_bound x 256). lia. Qed.
Lemma u16_range x : in_u16 (u16 x).
Proof. unfold in_u16, u16. pose proof (Z.mod_pos_bound x 65536). lia. Qed.
Lemma u32_range x : in_u32 (u32 x).
Proof. unfold in_u32, u32. pose proof (Z.mod_pos_bound x 4294967296). lia. Qed.

#[export] Hint Resolve i16_range i32_range u8_range u16_range u32_range : cint.

Lemma mul_i16 a b : in_i16 a -> in_i16 b -> Z.abs (a * b) <= 1073741824.
Proof.
  unfold in_i16. intros. rewrite Z.abs_mul. change 1073741824 with (32768 * 32768).
  apply Z.mul_le_mono_nonneg; lia.
Qed.

(** [rng] closes goals that bound machine integers; [unwrap] removes the
    conversions that are the identity on their argument's range. *)
Ltac rng := unfold in_i16, in_i32, in_u16, in_u32 in *; lia.
Ltac unwrap :=
  repeat match goal with
  | |- context [i16 ?x] => rewrite (i16_id x) by rng
  | |- context [i32 ?x] => rewrite (i32_id x) by rng
  | |- context [u16 ?x] => rewrite (u16_id x) by rng
  | |- context [u32 ?x] => rewrite (u32_id x) by rng
  | |- context [u64 ?x] => rewrite (u64_id x) by lia
  end.
Ltac unwrap_in H :=
  repeat match type of H with
  | context [i16 ?x] => rewrite (i16_id x) in H by rng
  | context [i32 ?x] => rewrite (i32_id x) in H by rng
  | context [u16 ?x] => rewrite (u16_id x) in H by rng
  | context [u32 ?x] => rewrite (u32_id x) in H by rng
  | context [u64 ?x] => rewrite (u64_id x) in H by lia
  end.

(** [dlia] is [lia] on goals with quotients and remainders; [cint_lia] also opens
    the conversions. *)
Ltac dlia := Z.to_euclidean_division_equations; lia.
Ltac cint_lia := unfold in_i16, in_i32, in_u16, in_u32, i16, i32, u16, u32 in *; dlia.

(** Case analysis on the boolean comparisons of the source's conditions. *)
Ltac bcase_eq E :=
  lazymatch type of E with
  | (_ && _)%bool = true => apply andb_true_iff in E; destruct E
  | (_ && _)%bool = false => apply andb_false_iff in E; destruct E
  | (_ || _)%bool = true => apply orb_true_iff in E; destruct E
  | (_ || _)%bool = false => apply orb_false_iff in E; destruct E
  | negb _ = true => apply negb_true_iff in E
  | negb _ = false => apply negb_false_iff in E
  | (_ <? _) = true => apply Z.ltb_lt in E
  | (_ <? _) = false => apply Z.ltb_ge in E
  | (_ <=? _) = true => apply Z.leb_le in E
  | (_ <=? _) = false => apply Z.leb_gt in E
  | (_ >? _) = true => apply Z.gtb_lt in E
  | (_ >? _) = false => rewrite Z.gtb_ltb in E; apply Z.ltb_ge in E
  | (_ >=? _) = true => rewrite Z.geb_leb in E; apply Z.leb_le in E
  | (_ >=? _) = false => rewrite Z.geb_leb in E; apply Z.leb_gt in E
  | (_ =? _) = true => apply Z.eqb_eq in E
  | (_ =? _) = false => apply Z.eqb_neq in E
  end.
Ltac breflect := repeat match goal with E : _ = _ :> bool |- _ => bcase_eq E end.
Ltac no_if c := lazymatch c with context [if _ then _ else _] => fail | _ => idtac end.
Ltac bcase :=
  match goal with
  | |- context [if ?c then _ else _] => no_if c; let E := fresh "E" in destruct c eqn:E
  end; breflect.
Ltac bcase_in H :=
  match type of H with
  | context [if ?c then _ else _] => no_if c; let E := fresh "E" in destruct c eqn:E
  end; breflect.

(** ** Arrays

    A C array is a list indexed by [Z].  [aget] and [aset] answer [None] on an
    index outside the array, and [memcpy], [memset] on a range outside it: an
    access that C leaves undefined.  [znth] reads an array at an index the
    source keeps in range by its loop bounds, with default [0]. *)

Abbreviation zlen l := (Z.of_nat (length l)).

Definition aget {A} (l : list A) (i : Z) : option A :=
  if 0 <=? i then l !! Z.to_nat i else None.

Definition aset {A} (l : list A) (i : Z) (x : A) : option (list A) :=
  if (0 <=? i) && (i <? zlen l) then Some (<[Z.to_nat i := x]> l) else None.

Definition znth (l : list Z) (i : Z) : Z := default 0 (aget l i).

(** [n] elements of [l] from position [p]. *)
Definition slice {A} (l : list A) (p n : Z) : list A :=
  take (Z.to_nat n) (drop (Z.to_nat p) l).

Definition range_ok {A} (l : list A) (p n : Z) : bool :=
  (0 <=? p) && (0 <=? n) && (p + n <=? zlen l).

(** [memcpy(dst + dpos, src, n)] for a source range already read. *)
Definition splice {A} (dst : list A) (dpos : Z) (xs : list A) : list A :=
  take (Z.to_nat dpos) dst ++ xs ++ drop (Z.to_nat dpos + length xs) dst.

Definition memcpy {A} (dst : list A) (dpos : Z) (src : list A) (spos n : Z) : option (list A) :=
  if range_ok dst dpos n && range_ok src spos n
  then Some (splice dst dpos (slice src spos n)) else None.

Definition memset {A} (dst : list A) (dpos : Z) (x : A) (n : Z) : option (list A) :=
  if range_ok dst dpos n
  then Some (splice dst dpos (replicate (Z.to_nat n) x)) else None.

(** [n] entries [x], the array [memset] or an initialiser list fills. *)
Definition zreplicate {A} (n : Z) (x : A) : list A := replicate (Z.to_nat n) x.

Section arrays.
Context {A : Type}.
Implicit Types (l dst src xs : list A) (i p n : Z).

Lemma range_ok_spec l p n : range_ok l p n = true <-> 0 <= p /\ 0 <= n /\ p + n <= zlen l.
Proof. unfold range_ok. rewrite !andb_true_iff, !Z.leb_le. tauto. Qed.

Lemma aget_range l i : 0 <= i < zlen l -> exists x, aget l i = Some x.
Proof.
  intros H. unfold aget. destruct (Z.leb_spec 0 i); [|lia].
  destruct (lookup_lt_is_Some_2 l (Z.to_nat i)) as [x Hx]; [lia|eauto].
Qed.

Lemma aget_Some_range l i x : aget l i = Some x -> 0 <= i < zlen l.
Proof.
  unfold aget. destruct (Z.leb_spec 0 i); [|done].
  intros Hl%lookup_lt_Some. lia.
Qed.

Lemma aget_None l i : i < 0 \/ zlen l <= i -> aget l i = None.
Proof.
  intros H. destruct (aget l i) eqn:E; [|done]. apply aget_Some_range in E. lia.
Qed.

Lemma aget_nat l (k : nat) : aget l (Z.of_nat k) = l !! k.
Proof. unfold aget. destruct (Z.leb_spec 0 (Z.of_nat k)); [|lia]. by rewrite Nat2Z.id. Qed.

Lemma aget_app l1 l2 i : 0 <= i ->
  aget (l1 ++ l2) i = if i <? zlen l1 then aget l1 i else aget l2 (i - zlen l1).
Proof.
  intros Hi. unfold aget. destruct (Z.leb_spec 0 i); [|lia].
  destruct (Z.ltb_spec i (zlen l1)).
  - by rewrite lookup_app_l by lia.
  - destruct (Z.leb_spec 0 (i - zlen l1)); [|lia].
    rewrite lookup_app_r by lia. f_equal. lia.
Qed.

Lemma aget_slice l p n i : 0 <= p -> 0 <= i < n -> aget (slice l p n) i = aget l (p + i).
Proof.
  intros Hp Hi. unfold slice, aget. destruct (Z.leb_spec 0 i); [|lia].
  destruct (Z.leb_spec 0 (p + i)); [|lia].
  rewrite lookup_take_lt by lia. rewrite lookup_drop. f_equal. lia.
Qed.

Lemma length_slice l p n : 0 <= p -> 0 <= n -> p + n <= zlen l -> zlen (slice l p n) = n.
Proof. intros. unfold slice. rewrite length_take, length_drop. lia. Qed.

Lemma length_splice dst p xs : 0 <= p -> p + zlen xs <= zlen dst ->
  length (splice dst p xs) = length dst.
Proof.
  intros. unfold splice. rewrite !length_app, length_take, length_drop. lia.
Qed.

Lemma aget_splice dst p xs i : 0 <= p -> p + zlen xs <= zlen dst ->
  aget (splice dst p xs) i =
  if (p <=? i) && (i <? p + zlen xs) then aget xs (i - p) else aget dst i.
Proof.
  intros Hp Hl. unfold splice, aget.
  destruct (Z.leb_spec 0 i).
  2:{ destruct (Z.leb_spec p i); [lia|done]. }
  destruct (Z.leb_spec p i); simpl.
  - rewrite lookup_app_r; rewrite length_take; [|lia].
    destruct (Z.ltb_spec i (p + zlen xs)).
    + destruct (Z.leb_spec 0 (i - p)); [|lia].
      rewrite lookup_app_l by lia. f_equal. lia.
    + rewrite lookup_app_r by lia. rewrite lookup_drop. f_equal. lia.
  - rewrite lookup_app_l by (rewrite length_take; lia).
    rewrite lookup_take_lt by lia. done.
Qed.

Lemma aset_Some l i x : 0 <= i < zlen l -> aset l i x = Some (<[Z.to_nat i := x]> l).
Proof.
  intros. unfold aset. destruct (Z.leb_spec 0 i), (Z.ltb_spec i (zlen l)); try lia. done.
Qed.

Lemma list_ext l1 l2 : length l1 = length l2 ->
  (forall i, 0 <= i < zlen l1 -> aget l1 i = aget l2 i) -> l1 = l2.
Proof.
  intros Hlen H. apply list_eq. intros k.
  destruct (decide (k < length l1)%nat).
  - rewrite <- !aget_nat. apply H. lia.
  - rewrite !lookup_ge_None_2 by lia. done.
Qed.

Lemma memcpy_Some dst p src q n :
  0 <= p -> 0 <= n -> p + n <= zlen dst -> 0 <= q -> q + n <= zlen src ->
  memcpy dst p src q n = Some (splice dst p (slice src q n)).
Proof.
  intros. unfold memcpy.
  by rewrite (proj2 (range_ok_spec dst p n)), (proj2 (range_ok_spec src q n)).
Qed.

Lemma memset_Some dst p x n : 0 <= p -> 0 <= n -> p + n <= zlen dst ->
  memset dst p x n = Some (splice dst p (replicate (Z.to_nat n) x)).
Proof. intros. unfold memset. by rewrite (proj2 (range_ok_spec dst p n)). Qed.

Lemma memset_all dst x n : n = zlen dst -> memset dst 0 x n = Some (zreplicate n x).
Proof.
  intros ->. rewrite memset_Some by lia. unfold splice, zreplicate.
  rewrite take_0, drop_ge, app_nil_r by (rewrite length_replicate; lia). done.
Qed.
End arrays.

(** ** Option as the monad of undefined behaviour

    [None] is an execution that leaves the defined behaviour of C: an access
    outside an array or a failed [assert]. *)

Notation "'let*' x := e 'in' k" := (mbind (fun x => k) e)
  (at level 10, x pattern, e at level 200, k at level 200) : stdpp_scope.

Definition c_assert (b : bool) : option unit := if b then Some tt else None.

(** [m ⤳ Q]: the run [m] stays defined and its result satisfies [Q]. *)
Definition has_result {A} (m : option A) (Q : A -> Prop) : Prop := exists x, m = Some x /\ Q x.
Notation "m ⤳ Q" := (has_result m Q) (at level 70, no associativity) : stdpp_scope.

Lemma result_ret {A} (x : A) (Q : A -> Prop) : Q x -> Some x ⤳ Q.
Proof. intros H. by exists x. Qed.

Lemma result_eq {A} (m : option A) x (Q : A -> Prop) : m = Some x -> Q x -> m ⤳ Q.
Proof. intros. by exists x. Qed.
Lemma result_bind {A B} (m : option A) (k : A -> option B) (P : A -> Prop) (Q : B -> Prop) :
  m ⤳ P -> (forall x, P x -> k x ⤳ Q) -> mbind k m ⤳ Q.
Proof. intros (x & -> & Hx) Hk. by apply Hk. Qed.

Lemma result_weaken {A} (m : option A) (P Q : A -> Prop) : m ⤳ P -> (forall x, P x -> Q x) -> m ⤳ Q.
Proof. intros (x & E & Hx) H. exists x. auto. Qed.

Lemma result_assert (b : bool) (Q : unit -> Prop) : b = true -> Q tt -> c_assert b ⤳ Q.
Proof. intros -> H. by exists tt. Qed.

(** A [for (i = lo; i < lo + n; i++)] loop whose body may fail. *)
Fixpoint for_loop {S} (body : Z -> S -> option S) (i : Z) (n : nat) (s : S) : option S :=
  match n with
  | O => Some s
  | Datatypes.S n' => let* s' := body i s in for_loop body (i + 1) n' s'
  end.

(** The same loop when no access of the body depends on data. *)
Fixpoint for_pure {S} (body : Z -> S -> S) (i : Z) (n : nat) (s : S) : S :=
  match n with
  | O => s
  | Datatypes.S n' => for_pure body (i + 1) n' (body i s)
  end.

Section loops.
Context {S : Type} (P : Z -> S -> Prop).

Lemma for_loop_inv body lo n s :
  P lo s ->
  (forall i s, lo <= i < lo + Z.of_nat n -> P i s -> exists s', body i s = Some s' /\ P (i + 1) s') ->
  exists s', for_loop body lo n s = Some s' /\ P (lo + Z.of_nat n) s'.
Proof.
  revert lo s. induction n as [|n IH]; intros lo s H0 Hstep.
  - exists s. rewrite Z.add_0_r. done.
  - replace (lo + Z.of_nat (Datatypes.S n)) with (lo + 1 + Z.of_nat n) in * by lia.
    destruct (Hstep lo s) as (s1 & E1 & H1); [lia|done|].
    destruct (IH (lo + 1) s1 H1) as (s2 & E2 & H2).
    { intros i s' Hi. apply Hstep. lia. }
    exists s2. cbn [for_loop]. rewrite E1. done.
Qed.

Lemma for_pure_inv body lo n s :
  P lo s ->
  (forall i s, lo <= i < lo + Z.of_nat n -> P i s -> P (i + 1) (body i s)) ->
  P (lo + Z.of_nat n) (for_pure body lo n s).
Proof.
  revert lo s. induction n as [|n IH]; intros lo s H0 Hstep.
  - by rewrite Z.add_0_r.
  - replace (lo + Z.of_nat (Datatypes.S n)) with (lo + 1 + Z.of_nat n) in * by lia.
    cbn [for_pure]. apply IH; [apply Hstep; [lia|done]|]. intros i s' Hi. apply Hstep. lia.
Qed.
End loops.

(** Exhaustive check of [lo .. lo + n - 1]. *)
Fixpoint all_from (p : Z -> bool) (lo : Z) (n : nat) : bool :=
  match n with O => true | S n' => p lo && all_from p (lo + 1) n' end.

Lemma all_from_spec p lo n : all_from p lo n = true ->
  forall a, lo <= a < lo + Z.of_nat n -> p a = true.
Proof.
  revert lo. induction n as [|n IH]; intros lo H a Ha; [lia|].
  cbn [all_from] in H. apply andb_true_iff in H as [H1 H2].
  destruct (Z.eqb_spec a lo) as [->|]; [done|]. apply (IH (lo + 1)); [done|lia].
Qed.

(** ** Record updates

    [r <| f := v |>] is the record [r] with field [f] set to [v], the model of
    an assignment [r->f = v].  A record type takes part by an instance of
    [Rebuild] that spells out its constructor and projections. *)

Class Rebuild (R : Type) := rebuild : R -> R.
Class Update {R T : Type} (proj : R -> T) := update : (T -> T) -> R -> R.
Arguments update {R T} proj {_} f r /.

Ltac find_update :=
  lazymatch goal with
  | |- @Update ?R ?T ?proj =>
      let e := eval hnf in (@rebuild R _) in
      lazymatch eval pattern proj in e with
      | ?g _ => exact (fun (f : T -> T) (r : R) => g (fun r' => f (proj r')) r)
      end
  end.
#[export] Hint Extern 1 (Update _) => find_update : typeclass_instances.

Notation "r <| f := v |>" := (update f (fun _ => v) r)
  (at level 1, left associativity, f at level 9, v at level 200,
   format "r  <| f  :=  v |>") : stdpp_scope.

(** ** Tabulated arrays

    [tab f n] is the array [f 0 .. f (n - 1)], what a loop that stores one
    entry per index builds. *)

Definition tab {A} (f : Z -> A) (n : Z) : list A := f <$> seqZ 0 n.

Section tab.
Context {A : Type}.
Implicit Types (f g : Z -> A).

Lemma length_tab f n : 0 <= n -> zlen (tab f n) = n.
Proof. intros. unfold tab. rewrite length_fmap, length_seqZ. lia. Qed.

Lemma aget_tab f n i : 0 <= i < n -> aget (tab f n) i = Some (f i).
Proof.
  intros. unfold aget, tab. destruct (Z.leb_spec 0 i); [|lia].
  rewrite list_lookup_fmap, lookup_seqZ_lt by lia. simpl. do 2 f_equal. lia.
Qed.

Lemma aget_tab_None f n i : i < 0 \/ n <= i -> aget (tab f n) i = None.
Proof.
  intros. apply aget_None. unfold tab. rewrite length_fmap, length_seqZ. lia.
Qed.

Lemma tab_ext f g n : (forall i, 0 <= i < n -> f i = g i) -> tab f n = tab g n.
Proof.
  intros H. apply list_fmap_ext. intros k x Hx. apply lookup_seqZ in Hx. apply H. lia.
Qed.

Lemma tab_app f n m : 0 <= n -> 0 <= m -> tab f (n + m) = tab f n ++ tab (fun i => f (n + i)) m.
Proof.
  intros. apply list_ext.
  { rewrite length_app. apply Nat2Z.inj. rewrite Nat2Z.inj_add, !length_tab by lia. done. }
  rewrite length_tab by lia. intros i Hi. rewrite aget_tab, aget_app, length_tab by lia.
  destruct (Z.ltb_spec i n).
  - by rewrite aget_tab by lia.
  - rewrite aget_tab by lia. do 2 f_equal. lia.
Qed.

Lemma tab_1 f : tab f 1 = [f 0].
Proof. done. Qed.

Lemma tab_snoc f n : 0 <= n -> tab f (n + 1) = tab f n ++ [f n].
Proof. intros. rewrite tab_app by lia. by rewrite tab_1, Z.add_0_r. Qed.

Lemma tab_list (l : list A) f : (forall i x, aget l i = Some x -> f i = x) -> tab f (zlen l) = l.
Proof.
  intros H. apply list_ext; [apply Nat2Z.inj; rewrite length_tab; lia|].
  rewrite length_tab by lia. intros i Hi. rewrite aget_tab by lia.
  destruct (aget_range l i Hi) as [x Hx]. rewrite Hx. f_equal. eauto.
Qed.

Lemma take_tab f n k : 0 <= k <= n -> take (Z.to_nat k) (tab f n) = tab f k.
Proof.
  intros. replace n with (k + (n - k)) by lia. rewrite tab_app by lia.
  apply take_app_length'. pose proof (length_tab f k). lia.
Qed.

Lemma drop_tab f n k : 0 <= k <= n -> drop (Z.to_nat k) (tab f n) = tab (fun i => f (k + i)) (n - k).
Proof.
  intros. replace n with (k + (n - k)) at 1 by lia. rewrite tab_app by lia.
  apply drop_app_length'. pose proof (length_tab f k). lia.
Qed.
End tab.

Lemma znth_aget l i x : aget l i = Some x -> znth l i = x.
Proof. intros H. unfold znth. by rewrite H. Qed.

Lemma aget_znth l i : 0 <= i < zlen l -> aget l i = Some (znth l i).
Proof. intros H. destruct (aget_range l i H) as [x Hx]. by rewrite (znth_aget _ _ _ Hx). Qed.

Lemma slice_tab l p n : 0 <= p -> 0 <= n -> p + n <= zlen l -> slice l p n = tab (fun i => znth l (p + i)) n.
Proof.
  intros. apply list_ext.
  { apply Nat2Z.inj. rewrite length_slice, length_tab by lia. done. }
  rewrite length_slice by lia. intros i Hi.
  rewrite aget_slice, aget_tab by lia. apply aget_znth. lia.
Qed.

Lemma znth_splice dst p xs i : 0 <= p -> p + zlen xs <= zlen dst ->
  znth (splice dst p xs) i =
  if (p <=? i) && (i <? p + zlen xs) then znth xs (i - p) else znth dst i.
Proof. intros. unfold znth. rewrite aget_splice by lia. by destruct ((p <=? i) && _). Qed.

Lemma znth_slice l p n i : 0 <= p -> 0 <= i < n -> znth (slice l p n) i = znth l (p + i).
Proof. intros. unfold znth. by rewrite aget_slice by lia. Qed.

(** ** Bit masks *)

(** A mask of the bits [k .. w-1] clears the low [k] bits of a [w]-bit word. *)
Lemma land_high_mask w k x : 0 <= k <= w -> 0 <= x < 2 ^ w ->
  Z.land (2 ^ w - 2 ^ k) x = x / 2 ^ k * 2 ^ k.
Proof.
  intros Hk Hx.
  replace (2 ^ w - 2 ^ k) with (Z.shiftl (Z.ones (w - k)) k).
  2:{ rewrite Z.shiftl_mul_pow2, Z.ones_equiv by lia. replace (2 ^ w) with (2 ^ (w - k) * 2 ^ k).
      - lia.
      - rewrite <- Z.pow_add_r by lia. f_equal. lia. }
  rewrite <- Z.shiftr_div_pow2, <- Z.shiftl_mul_pow2 by lia.
  apply Z.bits_inj'. intros i Hi. rewrite Z.land_spec.
  destruct (Z.ltb_spec i k) as [Hlt|Hge].
  - rewrite !Z.shiftl_spec_low by lia. done.
  - rewrite !Z.shiftl_spec, Z.shiftr_spec by lia. replace (i - k + k) with i by lia.
    destruct (Z.ltb_spec i w).
    + rewrite Z.ones_spec_low by lia. done.
    + rewrite Z.ones_spec_high by lia. simpl. symmetry.
      rewrite <- (Z.mod_small x (2 ^ w)) by lia. apply Z.mod_pow2_bits_high. lia.
Qed.

Lemma land_high_mask_eqb w k x : 0 <= k <= w -> 0 <= x < 2 ^ w ->
  (Z.land (2 ^ w - 2 ^ k) x =? 0) = (x <? 2 ^ k).
Proof.
  intros Hk Hx. rewrite land_high_mask by done.
  assert (Hp : 0 < 2 ^ k) by (apply Z.pow_pos_nonneg; lia).
  destruct (Z.ltb_spec x (2 ^ k)).
  - rewrite Z.div_small by lia. done.
  - apply Z.eqb_neq. assert (1 <= x / 2 ^ k) by (apply Z.div_le_lower_bound; lia). nia.
Qed.

(** Disjoint words: [lor] is addition. *)
Lemma lor_disjoint k a b : 0 <= k -> a mod 2 ^ k = 0 -> 0 <= b < 2 ^ k -> Z.lor a b = a + b.
Proof.
  intros Hk Ha Hb. rewrite <- Z.lxor_lor, <- Z.add_nocarry_lxor; [done| |];
    apply Z.bits_inj'; intros i Hi; rewrite Z.land_spec, Z.bits_0;
    (destruct (Z.ltb_spec i k);
      [ rewrite <- (Z.mod_pow2_bits_low a k i), Ha, Z.bits_0 by lia; done
      | rewrite <- (Z.mod_small b (2 ^ k)), Z.mod_pow2_bits_high by lia; apply andb_false_r ]).
Qed.

(** ** Sums *)

(** [zsum g lo n] is [g lo + ... + g (lo + n - 1)]. *)
Fixpoint zsum (g : Z -> Z) (lo : Z) (n : nat) : Z :=
  match n with O => 0 | S n' => g lo + zsum g (lo + 1) n' end.

Lemma zsum_le g h lo n : (forall i, lo <= i < lo + Z.of_nat n -> g i <= h i) -> zsum g lo n <= zsum h lo n.
Proof.
  revert lo. induction n as [|n IH]; intros lo H; cbn [zsum]; [lia|].
  apply Z.add_le_mono; [apply H|apply IH; intros i Hi; apply H]; lia.
Qed.

Lemma zsum_const c lo n : zsum (fun _ => c) lo n = Z.of_nat n * c.
Proof. revert lo. induction n as [|n IH]; intros lo; cbn [zsum]; rewrite ?IH; lia. Qed.

Lemma zsum_nonneg g lo n : (forall i, lo <= i < lo + Z.of_nat n -> 0 <= g i) -> 0 <= zsum g lo n.
Proof. intros H. pose proof (zsum_le (fun _ => 0) g lo n H). rewrite zsum_const in *. lia. Qed.

(** An accumulation in an [int32_t] whose absolute terms fit is the sum. *)
Lemma for_loop_sum body (g : Z -> Z) lo n a :
  (forall i acc, lo <= i < lo + Z.of_nat n -> body i acc = Some (i32 (acc + g i))) ->
  Z.abs a + zsum (fun i => Z.abs (g i)) lo n <= 2147483647 ->
  for_loop body lo n a = Some (a + zsum g lo n).
Proof.
  revert lo a. induction n as [|n IH]; intros lo a Hb Hs; cbn [for_loop zsum] in *.
  { f_equal. lia. }
  assert (0 <= zsum (fun i => Z.abs (g i)) (lo + 1) n) by (apply zsum_nonneg; lia).
  rewrite Hb by lia. simpl. rewrite i32_id by (unfold in_i32; lia).
  rewrite IH; [f_equal; lia| |lia]. intros i acc Hi. apply Hb. lia.
Qed.

Lemma zsum_ext g h lo n : (forall i, lo <= i < lo + Z.of_nat n -> g i = h i) -> zsum g lo n = zsum h lo n.
Proof. intros H. apply Z.le_antisymm; apply zsum_le; intros i Hi; rewrite H by lia; lia. Qed.

Lemma zsum_snoc g lo n : zsum g lo (S n) = zsum g lo n + g (lo + Z.of_nat n).
Proof.
  revert lo. induction n as [|n IH]; intros lo; [cbn [zsum]; change (Z.of_nat 0) with 0; rewrite !Z.add_0_r; reflexivity|].
  change (zsum g lo (S (S n))) with (g lo + zsum g (lo + 1) (S n)). rewrite IH. cbn [zsum].
  replace (lo + 1 + Z.of_nat n) with (lo + Z.of_nat (S n)) by lia. lia.
Qed.

(** An accumulation in a [uint32_t] that does not overflow is the sum. *)
Lemma for_pure_sum g M lo n a : (forall i, 0 <= g i <= M) -> 0 <= a -> a + Z.of_nat n * M < 4294967296 ->
  for_pure (fun i acc => u32 (acc + g i)) lo n a = a + zsum g lo n.
Proof.
  intros Hg. revert lo a. induction n as [|n IH]; intros lo a H0 Hn; cbn [for_pure zsum]; [lia|]. pose proof (Hg lo).
  rewrite u32_id by (unfold in_u32; nia). rewrite IH by lia. lia.
Qed.

Lemma zsum_bounds g M lo n : (forall i, 0 <= g i <= M) -> 0 <= zsum g lo n <= Z.of_nat n * M.
Proof.
  intros Hg. split; [apply zsum_nonneg; intros; apply Hg|].
  rewrite <- (zsum_const M lo n). apply zsum_le. intros. apply Hg.
Qed.

Lemma Forall_aget {A} (P : A -> Prop) l i x : Forall P l -> aget l i = Some x -> P x.
Proof. intros Hl. unfold aget. destruct (0 <=? i); [|done]. by apply Forall_lookup_1. Qed.

Lemma shiftr_mono a b n : a <= b -> Z.shiftr a n <= Z.shiftr b n.
Proof.
  intros H. destruct (Z.leb_spec 0 n).
  - rewrite !Z.shiftr_div_pow2 by lia. apply Z.div_le_mono; [apply Z.pow_pos_nonneg|]; lia.
  - rewrite <- !Z.shiftl_opp_r, !Z.shiftl_mul_pow2 by lia.
    apply Z.mul_le_mono_nonneg_r; [apply Z.pow_nonneg|]; lia.
Qed.

Lemma Forall_slice {A} (P : A -> Prop) l p n : Forall P l -> Forall P (slice l p n).
Proof. intros. by apply Forall_take, Forall_drop. Qed.

Lemma Forall_elem {A} (P : A -> Prop) l : Forall P l -> forall x, x ∈ l -> P x.
Proof. intros Hl x [k Hk]%list_elem_of_lookup. by apply (Forall_lookup_1 _ _ _ _ Hl Hk). Qed.

(** A literal vector of [int16_t] values. *)
Ltac forall_i16 := repeat first [apply Forall_nil_2 | apply Forall_cons_2; [unfold in_i16; lia|]].

(** ** Loops that fill an array *)

Lemma aset_self {A} (l : list A) i x : aget l i = Some x -> aset l i x = Some l.
Proof.
  intros H. pose proof (aget_Some_range _ _ _ H). rewrite aset_Some by lia. f_equal.
  unfold aget in H. destruct (0 <=? i); [|done]. by apply list_insert_id.
Qed.

Lemma length_aset {A} (l l' : list A) i x : aset l i x = Some l' -> length l' = length l.
Proof.
  unfold aset. destruct ((0 <=? i) && (i <? zlen l)); [|done]. intros [= <-]. apply length_insert.
Qed.

Lemma aget_aset {A} (l l' : list A) i j x : aset l i x = Some l' ->
  aget l' j = if j =? i then Some x else aget l j.
Proof.
  unfold aset. destruct (Z.leb_spec 0 i), (Z.ltb_spec i (zlen l)); try done. intros [= <-].
  unfold aget. destruct (Z.eqb_spec j i) as [->|].
  - destruct (Z.leb_spec 0 i); [|lia]. apply list_lookup_insert_eq. lia.
  - destruct (Z.leb_spec 0 j); [|done]. apply list_lookup_insert_ne. lia.
Qed.

(** A loop that stores [f i] at each index [i] in turn, reading only entries
    it has not stored yet. *)
Lemma fill_loop {A} (body : Z -> list A -> option (list A)) (f : Z -> A) n l :
  0 <= n <= zlen l ->
  (forall i l', 0 <= i < n -> length l' = length l -> (forall j, i <= j -> aget l' j = aget l j) ->
     body i l' = aset l' i (f i)) ->
  for_loop body 0 (Z.to_nat n) l = Some (tab f n ++ drop (Z.to_nat n) l).
Proof.
  intros Hn Hb.
  destruct (for_loop_inv (fun i l' => length l' = length l /\
      forall j, aget l' j = if (0 <=? j) && (j <? i) then Some (f j) else aget l j) body 0 (Z.to_nat n) l)
    as (l' & E & Hlen & Hl').
  - split; [done|]. intros j. destruct (Z.leb_spec 0 j), (Z.ltb_spec j 0); done || lia.
  - intros i l' Hi [Hlen Hl']. rewrite Hb; [|lia|done|].
    2:{ intros j Hj. rewrite Hl'. destruct (Z.leb_spec 0 j), (Z.ltb_spec j i); done || lia. }
    rewrite aset_Some by lia. eexists. split; [done|]. split; [by rewrite length_insert|].
    intros j. rewrite (aget_aset l' _ i j (f i)) by (apply aset_Some; lia). rewrite Hl'.
    destruct (Z.eqb_spec j i), (Z.leb_spec 0 j), (Z.ltb_spec j i), (Z.ltb_spec j (i + 1)); simpl; congruence || lia.
  - rewrite E. f_equal. pose proof (length_tab f n ltac:(lia)).
    apply list_ext; [rewrite length_app, length_drop; lia|]. intros j Hj.
    rewrite Hl', aget_app by lia. destruct (Z.leb_spec 0 j); [|lia]. simpl.
    destruct (Z.ltb_spec j (0 + Z.of_nat (Z.to_nat n))), (Z.ltb_spec j (zlen (tab f n))); try lia.
    + by rewrite aget_tab by lia.
    + unfold aget. destruct (Z.leb_spec 0 j), (Z.leb_spec 0 (j - zlen (tab f n))); try lia.
      rewrite lookup_drop. f_equal. lia.
Qed.

Lemma Forall_tab {A} (P : A -> Prop) f n : (forall i, 0 <= i < n -> P (f i)) -> Forall P (tab f n).
Proof.
  intros H. apply Forall_lookup_2. intros k x Hk. unfold tab in Hk.
  rewrite list_lookup_fmap in Hk. destruct (seqZ 0 n !! k) eqn:E; [|done].
  apply lookup_seqZ in E. simpl in Hk. injection Hk as <-. apply H. lia.
Qed.
