(* ===== verification/RingBuffer.v ===== *)
(** The ring buffer of src/webrtc/common_audio/ring_buffer.c.

    [Ring] translates the file: the record [RingBuffer] and its operations.
    Positions and counts are in elements; the source scales every offset and
    length of its byte copies by [element_size], so element [i] of [data] is
    the bytes from [i * element_size].  The elements of every buffer of the
    program are 16-bit samples, here [Z].

    [RingSpec] states the contract: a FIFO of the readable [items] together
    with the [stale] elements that a backward move of the read position makes
    readable again, and the lemmas that each operation of [Ring] implements
    its operation on [Fifo]. *)

From S2P Require Import Prelude.

Module Ring.

Inductive Wrap := SAME_WRAP | DIFF_WRAP.

#[export] Instance Wrap_eq_dec : EqDecision Wrap.
Proof. solve_decision. Defined.

Record RingBuffer := mkRingBuffer {
  read_pos : Z;
  write_pos : Z;
  element_count : Z;
  element_size : Z;
  rw_wrap : Wrap;
  data : list Z
}.

#[export] Instance RingBuffer_rebuild : Rebuild RingBuffer := fun r =>
  mkRingBuffer (read_pos r) (write_pos r) (element_count r) (element_size r) (rw_wrap r) (data r).

(** The [WebRtc_] functions take the handle as the source does, [None] being
    the NULL pointer. *)

Definition WebRtc_available_read (handle : option RingBuffer) : Z :=
  match handle with
  | None => 0
  | Some self =>
      match rw_wrap self with
      | SAME_WRAP => u64 (write_pos self - read_pos self)
      | DIFF_WRAP => u64 (element_count self - read_pos self + write_pos self)
      end
  end.

Definition WebRtc_available_write (handle : option RingBuffer) : Z :=
  match handle with
  | None => 0
  | Some self => u64 (element_count self - WebRtc_available_read handle)
  end.

(** The two regions of a read, as offset and length in elements. *)
Record Regions := mkRegions {
  read_elements : Z;
  ptr_1 : Z; len_1 : Z;
  ptr_2 : option Z; len_2 : Z
}.

Definition GetBufferReadRegions (buf : RingBuffer) (count : Z) : Regions :=
  let readable_elements := WebRtc_available_read (Some buf) in
  let n := if readable_elements <? count then readable_elements else count in
  let margin := u64 (element_count buf - read_pos buf) in
  if n >? margin then
    mkRegions n (read_pos buf) margin (Some 0) (u64 (n - margin))
  else
    mkRegions n (read_pos buf) n None 0.

Definition WebRtc_InitBuffer (self : RingBuffer) : option RingBuffer :=
  let self := self <| read_pos := 0 |> <| write_pos := 0 |> <| rw_wrap := SAME_WRAP |> in
  let* d := memset (data self) 0 0 (element_count self) in
  Some (self <| data := d |>).

(** [malloc_self] and [malloc_data] are the outcomes of the two allocations,
    the second with the (arbitrary) contents of the fresh memory. *)
Definition WebRtc_CreateBuffer (malloc_self : bool) (malloc_data : option (list Z))
    (count size : Z) : option (option RingBuffer) :=
  if (count =? 0) || (size =? 0) then Some None
  else if negb malloc_self then Some None
  else match malloc_data with
       | None => Some None
       | Some fresh =>
           let* self := WebRtc_InitBuffer (mkRingBuffer 0 0 count size SAME_WRAP fresh) in
           Some (Some self)
       end.

Definition WebRtc_MoveReadPtr (handle : option RingBuffer) (count : Z) : Z * option RingBuffer :=
  match handle with
  | None => (0, None)
  | Some self =>
      let free_elements := i32 (WebRtc_available_write handle) in
      let readable_elements := i32 (WebRtc_available_read handle) in
      let rpos := i32 (read_pos self) in
      let count := if count >? readable_elements then readable_elements else count in
      let count := if count <? i32 (- free_elements) then i32 (- free_elements) else count in
      let rpos := i32 (rpos + count) in
      let '(rpos, wrap) :=
        if rpos >? i32 (element_count self)
        then (i32 (rpos - i32 (element_count self)), SAME_WRAP) else (rpos, rw_wrap self) in
      let '(rpos, wrap) :=
        if rpos <? 0
        then (i32 (rpos + i32 (element_count self)), DIFF_WRAP) else (rpos, wrap) in
      (count, Some (self <| rw_wrap := wrap |> <| read_pos := u64 rpos |>))
  end.

(** Where [*data_ptr] points after a read: at an offset of the buffer's own
    memory, or at the caller's |data|. *)
Inductive Ptr := InBuffer (off : Z) | InData.

Record ReadResult := mkReadResult {
  rr_count : Z;
  rr_self : option RingBuffer;
  rr_data : option (list Z);
  rr_ptr : option Ptr
}.

(** [want_ptr] says whether the caller passed a non-NULL |data_ptr|; [dst] is
    the memory at |data|. *)
Definition WebRtc_ReadBuffer (handle : option RingBuffer) (want_ptr : bool)
    (dst : option (list Z)) (count : Z) : option ReadResult :=
  match handle, dst with
  | None, _ => Some (mkReadResult 0 None dst None)
  | Some _, None => Some (mkReadResult 0 handle dst None)
  | Some self, Some d =>
      let r := GetBufferReadRegions self count in
      let* (d', p) :=
        if len_2 r >? 0 then
          let* d1 := memcpy d 0 (data self) (ptr_1 r) (len_1 r) in
          let* d2 := memcpy d1 (len_1 r) (data self) (default 0 (ptr_2 r)) (len_2 r) in
          Some (d2, InData)
        else if negb want_ptr then
          let* d1 := memcpy d 0 (data self) (ptr_1 r) (len_1 r) in
          Some (d1, InBuffer (ptr_1 r))
        else Some (d, InBuffer (ptr_1 r)) in
      let '(_, self') := WebRtc_MoveReadPtr handle (i32 (read_elements r)) in
      Some (mkReadResult (read_elements r) self' (Some d') (if want_ptr then Some p else None))
  end.

Definition WebRtc_WriteBuffer (handle : option RingBuffer) (src : option (list Z)) (count : Z)
    : option (Z * option RingBuffer) :=
  match handle, src with
  | None, _ => Some (0, None)
  | Some _, None => Some (0, handle)
  | Some self, Some xs =>
      let free_elements := WebRtc_available_write handle in
      let write_elements := if free_elements <? count then free_elements else count in
      let margin := u64 (element_count self - write_pos self) in
      let* (self, n) :=
        if write_elements >? margin then
          let* d := memcpy (data self) (write_pos self) xs 0 margin in
          Some (self <| data := d |> <| write_pos := 0 |> <| rw_wrap := DIFF_WRAP |>,
                u64 (write_elements - margin))
        else Some (self, write_elements) in
      let* d := memcpy (data self) (write_pos self) xs (u64 (write_elements - n)) n in
      Some (write_elements, Some (self <| data := d |> <| write_pos := u64 (write_pos self + n) |>))
  end.

(** The samples a caller finds at [*data_ptr]. *)
Definition deref (p : Ptr) (buf : RingBuffer) (d : list Z) (n : Z) : list Z :=
  match p with InBuffer off => slice (data buf) off n | InData => slice d 0 n end.

End Ring.

Module RingSpec.
Import Ring.

(** ** The abstract buffer *)

Record Fifo := mkFifo { items : list Z; stale : list Z }.

Definition fifo_write (xs : list Z) (f : Fifo) : Fifo :=
  let w := Nat.min (length xs) (length (stale f)) in
  mkFifo (items f ++ take w xs) (drop w (stale f)).

(** Moving forward by [k] makes the [k] oldest items stale. *)
Definition fifo_skip (k : Z) (f : Fifo) : Fifo :=
  mkFifo (drop (Z.to_nat k) (items f)) (stale f ++ take (Z.to_nat k) (items f)).

(** Moving backward by [k] makes the [k] newest stale elements readable again. *)
Definition fifo_unread (k : Z) (f : Fifo) : Fifo :=
  let m := (length (stale f) - Z.to_nat k)%nat in
  mkFifo (drop m (stale f) ++ items f) (take m (stale f)).

Definition fifo_move (k : Z) (f : Fifo) : Fifo :=
  if 0 <=? k then fifo_skip k f else fifo_unread (- k) f.

(** ** Well-formed buffers and their abstraction *)

(** [WebRtc_MoveReadPtr] adds a count to a position in [int] arithmetic; a
    buffer of at most this many elements keeps the sum from overflowing. *)
Definition MAX_COUNT : Z := 1073741823.

Record wf (b : RingBuffer) : Prop := mkWf {
  wf_count : 0 < element_count b <= MAX_COUNT;
  wf_size : 0 < element_size b;
  wf_data : zlen (data b) = element_count b;
  wf_read : 0 <= read_pos b <= element_count b;
  wf_write : 0 <= write_pos b <= element_count b;
  wf_wrap : match rw_wrap b with
            | SAME_WRAP => read_pos b <= write_pos b
            | DIFF_WRAP => write_pos b <= read_pos b
            end
}.

Ltac wf_solve :=
  constructor; cbn; unfold MAX_COUNT in *;
  repeat match goal with w : Wrap |- _ => destruct w end; try lia.

Definition avail (b : RingBuffer) : Z :=
  match rw_wrap b with
  | SAME_WRAP => write_pos b - read_pos b
  | DIFF_WRAP => element_count b - read_pos b + write_pos b
  end.

(** The element [i] places after the read position, around the ring. *)
Definition view (b : RingBuffer) (i : Z) : Z :=
  znth (data b) ((read_pos b + i) mod element_count b).

Definition abs (b : RingBuffer) : Fifo :=
  mkFifo (tab (view b) (avail b))
         (tab (fun i => view b (avail b + i)) (element_count b - avail b)).

Lemma avail_range b : wf b -> 0 <= avail b <= element_count b.
Proof. intros []. unfold avail. destruct (rw_wrap b); lia. Qed.

Lemma available_read_avail b : wf b -> WebRtc_available_read (Some b) = avail b.
Proof.
  intros H. pose proof (avail_range b H). destruct H. unfold MAX_COUNT in *.
  unfold WebRtc_available_read, avail in *. destruct (rw_wrap b); apply u64_id; lia.
Qed.

Lemma available_write_avail b : wf b -> WebRtc_available_write (Some b) = element_count b - avail b.
Proof.
  intros H. pose proof (avail_range b H). pose proof (wf_count b H). unfold MAX_COUNT in *.
  unfold WebRtc_available_write. rewrite available_read_avail by done. apply u64_id. lia.
Qed.

Lemma abs_lengths b : wf b ->
  zlen (items (abs b)) = avail b /\ zlen (stale (abs b)) = element_count b - avail b.
Proof. intros H. pose proof (avail_range b H). simpl. rewrite !length_tab by lia. done. Qed.

(** ** Moving the read position *)

(** The clamped distance of a move. *)
Definition clamp_move (b : RingBuffer) (k : Z) : Z :=
  Z.max (avail b - element_count b) (Z.min k (avail b)).

Lemma mod_shift a n : 0 < n -> (a + n) mod n = a mod n /\ (a - n) mod n = a mod n.
Proof.
  intros. split.
  - replace (a + n) with (a + 1 * n) by lia. by rewrite Z_mod_plus_full.
  - replace (a - n) with (a + (-1) * n) by lia. by rewrite Z_mod_plus_full.
Qed.

Lemma move_concrete b k : wf b ->
  exists b', WebRtc_MoveReadPtr (Some b) k = (clamp_move b k, Some b') /\ wf b' /\
    element_count b' = element_count b /\
    avail b' = avail b - clamp_move b k /\
    (forall i, view b' i = view b (i + clamp_move b k)).
Proof.
  intros H. pose proof (avail_range b H) as Ha.
  assert (Hc : i32 (element_count b) = element_count b /\ i32 (read_pos b) = read_pos b /\
               i32 (avail b) = avail b /\
               i32 (- i32 (element_count b - avail b)) = avail b - element_count b).
  { destruct H. unfold MAX_COUNT in *. unwrap. lia. }
  destruct Hc as (Hn & Hr & Hav & Hfr).
  unfold WebRtc_MoveReadPtr.
  rewrite available_read_avail, available_write_avail, Hn, Hr, Hav, Hfr by done.
  assert (Hk : (if (if k >? avail b then avail b else k) <? avail b - element_count b
                then avail b - element_count b else (if k >? avail b then avail b else k))
               = clamp_move b k).
  { unfold clamp_move. repeat bcase; lia. }
  rewrite Hk. clear Hk.
  assert (Hkr : avail b - element_count b <= clamp_move b k <= avail b) by (unfold clamp_move; lia).
  set (c := clamp_move b k) in *. clearbody c. clear Hn Hr Hav Hfr.
  destruct H as [Hn Hs Hd Hr Hw Hwr]. unfold MAX_COUNT in *.
  destruct b as [rp wp n sz wr d]; cbn [read_pos write_pos element_count element_size rw_wrap data] in *.
  unfold avail in Ha, Hkr |- *; cbn [read_pos write_pos element_count rw_wrap] in *.
  replace (i32 (rp + c)) with (rp + c) by (destruct wr; unwrap; lia).
  unfold view; cbn [read_pos element_count data].
  destruct (Z.gtb_spec (rp + c) n); [| destruct (Z.ltb_spec (rp + c) 0)].
  - destruct wr; [lia|]. rewrite (i32_id (rp + c - n)) by rng.
    destruct (Z.ltb_spec (rp + c - n) 0); [lia|].
    eexists. split; [reflexivity|]. cbn. rewrite u64_id by lia.
    split_and!; [wf_solve | lia | lia |].
    intros i. f_equal. replace (rp + c - n + i) with (rp + (i + c) - n) by lia. apply mod_shift; lia.
  - destruct wr; [|lia]. rewrite (i32_id (rp + c + n)) by rng.
    eexists. split; [reflexivity|]. cbn. rewrite u64_id by lia.
    split_and!; [wf_solve | lia | lia |].
    intros i. f_equal. replace (rp + c + n + i) with (rp + (i + c) + n) by lia. apply mod_shift; lia.
  - eexists. split; [reflexivity|]. cbn. rewrite u64_id by lia.
    split_and!; [wf_solve | lia | destruct wr; lia |].
    intros i. do 2 f_equal. lia.
Qed.

(** A move implements the move of the abstract buffer, clamped to what is
    readable (forward) or free (backward). *)
Lemma move_refines b k : wf b ->
  exists b', WebRtc_MoveReadPtr (Some b) k = (clamp_move b k, Some b') /\ wf b' /\
    element_count b' = element_count b /\ abs b' = fifo_move (clamp_move b k) (abs b).
Proof.
  intros H. destruct (move_concrete b k H) as (b' & E & H' & En & Ea & Ev).
  exists b'. split_and!; [done..|]. pose proof (avail_range b H) as Ha.
  assert (Hc : avail b - element_count b <= clamp_move b k <= avail b) by (unfold clamp_move; lia).
  set (c := clamp_move b k) in *. clearbody c.
  unfold fifo_move, fifo_skip, fifo_unread, abs; simpl. rewrite Ea, En.
  destruct (Z.leb_spec 0 c); f_equal.
  - rewrite drop_tab by lia. apply tab_ext. intros i Hi. rewrite Ev. f_equal. lia.
  - rewrite take_tab by lia.
    replace (element_count b - (avail b - c)) with (element_count b - avail b + c) by lia.
    rewrite tab_app by lia. f_equal; apply tab_ext; intros i Hi; rewrite Ev.
    + f_equal. lia.
    + unfold view. f_equal.
      replace (read_pos b + (avail b - c + (element_count b - avail b + i) + c))
        with (read_pos b + i + element_count b) by lia.
      apply mod_shift. apply H.
  - replace (length _ - Z.to_nat (- c))%nat with (Z.to_nat (element_count b - avail b + c))
      by (pose proof (length_tab (fun i => view b (avail b + i)) (element_count b - avail b)); lia).
    rewrite drop_tab by lia.
    replace (element_count b - avail b - (element_count b - avail b + c)) with (- c) by lia.
    replace (avail b - c) with (- c + avail b) by lia. rewrite tab_app by lia.
    f_equal; apply tab_ext; intros i Hi; rewrite Ev.
    + unfold view. f_equal.
      replace (read_pos b + (avail b + (element_count b - avail b + c + i)))
        with (read_pos b + (i + c) + element_count b) by lia.
      symmetry. apply mod_shift. apply H.
    + f_equal. lia.
  - replace (length _ - Z.to_nat (- c))%nat with (Z.to_nat (element_count b - avail b + c))
      by (pose proof (length_tab (fun i => view b (avail b + i)) (element_count b - avail b)); lia).
    rewrite take_tab by lia.
    replace (element_count b - (avail b - c)) with (element_count b - avail b + c) by lia.
    apply tab_ext. intros i Hi. rewrite Ev. f_equal. lia.
Qed.

(** ** Writing *)

Lemma view_wrap b i : wf b -> 0 <= i <= element_count b ->
  view b i = znth (data b) (if read_pos b + i <? element_count b then read_pos b + i
                            else if read_pos b + i <? 2 * element_count b
                                 then read_pos b + i - element_count b
                                 else read_pos b + i - 2 * element_count b).
Proof.
  intros [] Hi. unfold view. f_equal. repeat bcase.
  - rewrite Z.mod_small; lia.
  - replace (read_pos b + i) with (read_pos b + i - element_count b + 1 * element_count b) at 1 by lia.
    rewrite Z_mod_plus_full. rewrite Z.mod_small; lia.
  - replace (read_pos b + i) with (read_pos b + i - 2 * element_count b + 2 * element_count b) at 1 by lia.
    rewrite Z_mod_plus_full. rewrite Z.mod_small; lia.
Qed.

(** The number of elements a write stores. *)
Definition write_count (b : RingBuffer) (k : Z) : Z := Z.min (element_count b - avail b) k.

(** What a write of [w] elements leaves in the ring. *)
Definition written (b b' : RingBuffer) (xs : list Z) (w : Z) : Prop :=
  wf b' /\ element_count b' = element_count b /\ avail b' = avail b + w /\
  (forall i, 0 <= i < element_count b ->
    view b' i = if (avail b <=? i) && (i <? avail b + w) then znth xs (i - avail b) else view b i).

(** One copy, when the space up to the end of the array is enough. *)
Lemma write_straight b xs w :
  wf b -> 0 <= w <= zlen xs -> avail b + w <= element_count b -> w <= element_count b - write_pos b ->
  written b (mkRingBuffer (read_pos b) (write_pos b + w) (element_count b) (element_size b)
               (rw_wrap b) (splice (data b) (write_pos b) (slice xs 0 w))) xs w.
Proof.
  intros H Hw Hfit Hm. pose proof (avail_range b H) as Ha.
  pose proof H as [Hn Hs Hd Hr Hwp Hwr]. unfold MAX_COUNT, avail in *.
  assert (Hl : zlen (splice (data b) (write_pos b) (slice xs 0 w)) = element_count b)
    by (rewrite length_splice; rewrite ?length_slice; lia).
  match goal with |- written _ ?b' _ _ => assert (Hwf' : wf b') end.
  { constructor; cbn; unfold MAX_COUNT; try lia. destruct (rw_wrap b); lia. }
  split_and!; [exact Hwf'|done|unfold avail; cbn; destruct (rw_wrap b); lia|].
  intros i Hi. unfold avail in *. rewrite !view_wrap by (try done; cbn; lia). cbn -[Z.add Z.sub].
  rewrite !znth_splice by (rewrite ?length_slice; lia).
  rewrite !length_slice by lia.
  destruct (rw_wrap b); repeat bcase; try lia; rewrite ?znth_slice by lia; f_equal; lia.
Qed.

(** Two copies, around the end of the array. *)
Lemma write_around b xs w m :
  wf b -> rw_wrap b = SAME_WRAP -> m = element_count b - write_pos b ->
  m < w <= zlen xs -> avail b + w <= element_count b ->
  written b (mkRingBuffer (read_pos b) (w - m) (element_count b) (element_size b) DIFF_WRAP
               (splice (splice (data b) (write_pos b) (slice xs 0 m)) 0 (slice xs m (w - m)))) xs w.
Proof.
  intros H Hsame Hm Hw Hfit.
  pose proof H as [Hn Hs Hd Hr Hwp Hwr]. unfold MAX_COUNT, avail in *. rewrite Hsame in *.
  assert (Hl1 : zlen (splice (data b) (write_pos b) (slice xs 0 m)) = element_count b)
    by (rewrite length_splice; rewrite ?length_slice; lia).
  assert (Hl2 : zlen (splice (splice (data b) (write_pos b) (slice xs 0 m)) 0
                        (slice xs m (w - m))) = element_count b)
    by (rewrite length_splice; rewrite ?length_slice; lia).
  match goal with |- written _ ?b' _ _ => assert (Hwf' : wf b') end.
  { constructor; cbn; unfold MAX_COUNT; lia. }
  split_and!; [exact Hwf'|done|unfold avail; rewrite Hsame; cbn; lia|].
  intros i Hi. unfold avail. rewrite Hsame. rewrite !view_wrap by (try done; cbn; lia).
  cbn -[Z.add Z.sub].
  rewrite !znth_splice by (rewrite ?length_slice; lia).
  rewrite !length_slice by lia.
  repeat bcase; try lia; rewrite ?znth_slice by lia; f_equal; lia.
Qed.

Lemma write_concrete b xs k : wf b -> 0 <= k <= zlen xs ->
  exists b', WebRtc_WriteBuffer (Some b) (Some xs) k = Some (write_count b k, Some b') /\
    written b b' xs (write_count b k).
Proof.
  intros H Hk. pose proof (avail_range b H) as Ha.
  unfold WebRtc_WriteBuffer. rewrite available_write_avail by done.
  replace (if element_count b - avail b <? k then element_count b - avail b else k)
    with (write_count b k) by (unfold write_count; bcase; lia).
  assert (Hw : 0 <= write_count b k <= element_count b - avail b /\ write_count b k <= k)
    by (unfold write_count; lia).
  set (w := write_count b k) in *. clearbody w.
  pose proof H as [Hn Hs Hd Hr Hwp Hwr]. unfold MAX_COUNT in *.
  rewrite (u64_id (element_count b - write_pos b)) by lia.
  destruct (Z.gtb_spec w (element_count b - write_pos b)) as [Hgt|Hle].
  - assert (Hsame : rw_wrap b = SAME_WRAP) by (unfold avail in *; destruct (rw_wrap b); [done|lia]).
    rewrite memcpy_Some by lia. cbn -[Z.add Z.sub].
    set (m := element_count b - write_pos b) in *.
    assert (Hm : 0 <= m) by lia. assert (Hfr : w - m <= element_count b) by lia.
    rewrite (u64_id (w - m)), (u64_id (w - (w - m))) by lia.
    rewrite memcpy_Some by (rewrite ?length_splice; rewrite ?length_slice; lia).
    cbn -[Z.add Z.sub]. rewrite u64_id by lia. replace (w - (w - m)) with m by lia.
    eexists. split; [reflexivity|]. rewrite Z.add_0_l. apply write_around; lia || done.
  - cbn -[Z.add Z.sub]. rewrite Z.sub_diag, (u64_id 0) by lia.
    rewrite memcpy_Some by lia. cbn -[Z.add Z.sub]. rewrite (u64_id (write_pos b + w)) by lia.
    eexists. split; [reflexivity|]. apply write_straight; lia || done.
Qed.

(** A write appends the first [write_count] elements of the source. *)
Lemma write_refines b xs k : wf b -> 0 <= k <= zlen xs ->
  exists b', WebRtc_WriteBuffer (Some b) (Some xs) k = Some (write_count b k, Some b') /\ wf b' /\
    element_count b' = element_count b /\ abs b' = fifo_write (slice xs 0 k) (abs b).
Proof.
  intros H Hk. destruct (write_concrete b xs k H Hk) as (b' & E & H' & En & Ea & Ev).
  exists b'. split_and!; [done..|]. pose proof (avail_range b H) as Ha.
  destruct (abs_lengths b H) as [_ Hst].
  assert (Hw : Nat.min (length (slice xs 0 k)) (length (stale (abs b))) = Z.to_nat (write_count b k))
    by (pose proof (length_slice xs 0 k); unfold write_count; lia).
  unfold fifo_write. rewrite Hw.
  assert (Hwr : 0 <= write_count b k <= element_count b - avail b /\ write_count b k <= k)
    by (unfold write_count; lia).
  set (w := write_count b k) in *. clearbody w. unfold abs; simpl. rewrite Ea, En.
  rewrite slice_tab, take_tab, tab_app, drop_tab by lia. f_equal; [f_equal|].
  - apply tab_ext. intros i Hi. rewrite Ev by lia. by repeat (bcase; try lia).
  - apply tab_ext. intros i Hi. rewrite Ev by lia. repeat (bcase; try lia). f_equal. lia.
  - replace (element_count b - (avail b + w)) with (element_count b - avail b - w) by lia.
    apply tab_ext. intros i Hi. rewrite Ev by lia. repeat (bcase; try lia). f_equal. lia.
Qed.

(** ** Reading *)

Definition read_count (b : RingBuffer) (k : Z) : Z := Z.min (avail b) k.

(** The readable prefix of the ring, as the array segments the read copies. *)
Lemma regions_view b n : wf b -> 0 <= n <= avail b ->
  tab (view b) n =
  if n >? element_count b - read_pos b
  then slice (data b) (read_pos b) (element_count b - read_pos b)
       ++ slice (data b) 0 (n - (element_count b - read_pos b))
  else slice (data b) (read_pos b) n.
Proof.
  intros H Hn. pose proof (avail_range b H) as Ha. pose proof H as [? ? Hd ? ? ?].
  destruct (Z.gtb_spec n (element_count b - read_pos b)).
  - set (m := element_count b - read_pos b) in *. replace n with (m + (n - m)) at 1 by lia.
    rewrite tab_app, !slice_tab by lia. f_equal; apply tab_ext; intros i Hi;
      rewrite view_wrap by (done || lia); repeat (bcase; try lia); f_equal; lia.
  - rewrite slice_tab by lia. apply tab_ext. intros i Hi.
    rewrite view_wrap by (done || lia). repeat (bcase; try lia); done.
Qed.

Lemma move_data b k c b' : WebRtc_MoveReadPtr (Some b) k = (c, Some b') -> data b' = data b.
Proof. unfold WebRtc_MoveReadPtr. repeat bcase; intros [= <- <-]; done. Qed.

(** The copy phase of a read: the caller finds the [n] oldest items at
    |data_ptr|, and in |data| when it asked for a copy or the data wrapped. *)
Lemma regions_read b k : wf b -> 0 <= k ->
  GetBufferReadRegions b k =
  let n := read_count b k in let m := element_count b - read_pos b in
  if n >? m then mkRegions n (read_pos b) m (Some 0) (n - m) else mkRegions n (read_pos b) n None 0.
Proof.
  intros H Hk. pose proof (avail_range b H). pose proof H as [? ? ? ? ? ?]. unfold MAX_COUNT in *.
  unfold GetBufferReadRegions. rewrite available_read_avail by done.
  replace (if avail b <? k then avail b else k) with (read_count b k) by (unfold read_count; bcase; lia).
  assert (0 <= read_count b k <= element_count b) by (unfold read_count; lia). cbv zeta.
  rewrite (u64_id (element_count b - read_pos b)) by lia.
  destruct (Z.gtb_spec (read_count b k) (element_count b - read_pos b)); [|done].
  by rewrite u64_id by lia.
Qed.

Lemma splice_prefix {A} (d xs : list A) : zlen xs <= zlen d -> slice (splice d 0 xs) 0 (zlen xs) = xs.
Proof.
  intros. unfold splice, slice. rewrite take_0, drop_0. simpl. apply take_app_length'. lia.
Qed.

Lemma splice_two {A} (d xs ys : list A) : zlen xs + zlen ys <= zlen d ->
  splice (splice d 0 xs) (zlen xs) ys = splice d 0 (xs ++ ys).
Proof.
  intros. unfold splice. rewrite !take_0, !Nat2Z.id. simpl.
  rewrite take_app_length, length_app, <- !app_assoc. do 2 f_equal.
  rewrite drop_app_ge by lia. rewrite drop_drop. f_equal. lia.
Qed.

Definition read_post (b b' : RingBuffer) (want_ptr : bool) (d : list Z) (n : Z) (r : ReadResult) : Prop :=
  exists d', rr_data r = Some d' /\ length d' = length d /\
    (if want_ptr
     then exists p, rr_ptr r = Some p /\ deref p b' d' n = take (Z.to_nat n) (items (abs b)) /\
            (forall off, p = InBuffer off -> range_ok (data b') off n = true)
     else rr_ptr r = None /\ slice d' 0 n = take (Z.to_nat n) (items (abs b))).

Ltac read_red :=
  cbn [read_elements ptr_1 len_1 ptr_2 len_2 default mbind option_bind negb id].

Lemma read_refines b want_ptr d k : wf b -> 0 <= k <= zlen d ->
  exists r b', WebRtc_ReadBuffer (Some b) want_ptr (Some d) k = Some r /\
    rr_count r = read_count b k /\ rr_self r = Some b' /\ wf b' /\
    element_count b' = element_count b /\ abs b' = fifo_skip (read_count b k) (abs b) /\
    read_post b b' want_ptr d (read_count b k) r.
Proof.
  intros H Hk. pose proof (avail_range b H) as Ha.
  assert (Hn : 0 <= read_count b k <= avail b /\ read_count b k <= k) by (unfold read_count; lia).
  pose proof H as [Hc Hs Hd Hr Hwp Hwr]. unfold MAX_COUNT in *.
  destruct (move_refines b (read_count b k) H) as (b' & Em & H' & En & Eabs).
  assert (Ec : clamp_move b (read_count b k) = read_count b k) by (unfold clamp_move; lia).
  pose proof (move_data _ _ _ _ Em) as Ed. rewrite Ec in Em, Eabs.
  unfold WebRtc_ReadBuffer. rewrite regions_read by (done || lia). cbv zeta.
  assert (Hitems : take (Z.to_nat (read_count b k)) (items (abs b)) = tab (view b) (read_count b k))
    by (simpl; apply take_tab; lia).
  pose proof (length_tab (view b) (read_count b k)) as Hl.
  rewrite regions_view in Hitems, Hl by (done || lia).
  set (n := read_count b k) in *. clearbody n.
  unfold fifo_move in Eabs. rewrite (proj2 (Z.leb_le 0 n)) in Eabs by lia.
  remember (element_count b - read_pos b) as m eqn:Hm.
  destruct (Z.gtb_spec n m).
  - read_red. destruct (Z.gtb_spec (n - m) 0); [|lia].
    rewrite memcpy_Some by lia. read_red.
    rewrite memcpy_Some by (rewrite ?length_splice; rewrite ?length_slice; lia). read_red.
    rewrite i32_id, Em by rng. do 2 eexists. split; [reflexivity|].
    cbn [rr_count rr_self]. split_and!; try done. unfold read_post; cbn [rr_data rr_ptr].
    set (xs := slice (data b) (read_pos b) m) in *. set (ys := slice (data b) 0 (n - m)) in *.
    assert (Hx : zlen xs = m) by (apply length_slice; lia).
    eexists. split; [done|]. rewrite Hitems, <- Hx, splice_two by (rewrite length_app in Hl; lia).
    split; [rewrite length_splice; lia|].
    replace n with (zlen (xs ++ ys)) by lia.
    destruct want_ptr; [eexists; split; [done|]; split; [|by intros]|split; [done|]]; apply splice_prefix; lia.
  - read_red. destruct want_ptr; read_red.
    + rewrite i32_id, Em by rng. do 2 eexists. split; [reflexivity|].
    cbn [rr_count rr_self]. split_and!; try done. unfold read_post; cbn [rr_data rr_ptr].
      eexists. split_and!; [done..|]. eexists. split; [done|]. cbn [deref]. split; [by rewrite Ed, Hitems|].
      intros off [= <-]. rewrite Ed. apply range_ok_spec. lia.
    + rewrite memcpy_Some by lia. read_red.
      rewrite i32_id, Em by rng. do 2 eexists. split; [reflexivity|].
    cbn [rr_count rr_self]. split_and!; try done. unfold read_post; cbn [rr_data rr_ptr].
      eexists. split; [done|]. rewrite Hitems. set (xs := slice (data b) (read_pos b) n) in *.
      split; [rewrite length_splice; lia|]. split; [done|].
      replace n with (zlen xs) by lia. apply splice_prefix. lia.
Qed.

(** ** Creation *)

Lemma init_refines b : 0 < element_count b <= MAX_COUNT -> 0 < element_size b ->
  zlen (data b) = element_count b ->
  exists b', WebRtc_InitBuffer b = Some b' /\ wf b' /\ element_count b' = element_count b /\
    abs b' = mkFifo [] (zreplicate (element_count b) 0).
Proof.
  intros Hn Hs Hd. unfold WebRtc_InitBuffer. cbn -[memset]. rewrite memset_all by done. cbn.
  eexists. split; [reflexivity|]. split_and!; [|done|].
  - constructor; cbn; try lia. unfold zreplicate. rewrite length_replicate. lia.
  - unfold abs, avail; cbn. f_equal. unfold view; cbn.
    transitivity (tab (fun _ : Z => 0) (element_count b)).
    + match goal with |- tab _ ?m = _ => replace m with (element_count b) by (cbn; lia) end.
      apply tab_ext. intros i Hi. apply znth_aget. rewrite Z.mod_small by lia.
      match goal with |- aget _ ?j = _ => replace j with i by lia end.
      unfold aget, zreplicate. destruct (Z.leb_spec 0 i); [|lia].
      apply lookup_replicate_2. lia.
    + unfold tab, zreplicate. rewrite (const_fmap _ _ 0) by done. by rewrite length_seqZ.
Qed.

(** ** Runs of operations *)

Inductive Op := Write (xs : list Z) | Read (want_ptr : bool) (k : Z) | Move (k : Z).
Inductive Out := Wrote (n : Z) | Got (xs : list Z) | Moved (n : Z).

(** A read supplies a |data| array of its size and takes the samples from
    where |data_ptr| points, or from |data| if it passed none. *)
Definition step (b : RingBuffer) (o : Op) : option (Out * RingBuffer) :=
  match o with
  | Write xs =>
      let* (n, h) := WebRtc_WriteBuffer (Some b) (Some xs) (zlen xs) in
      let* b' := h in Some (Wrote n, b')
  | Read want_ptr k =>
      let* r := WebRtc_ReadBuffer (Some b) want_ptr (Some (zreplicate k 0)) k in
      let* b' := rr_self r in
      let* d := rr_data r in
      Some (Got (deref (default InData (rr_ptr r)) b' d (rr_count r)), b')
  | Move k =>
      let '(n, h) := WebRtc_MoveReadPtr (Some b) k in
      let* b' := h in Some (Moved n, b')
  end.

Definition fstep (f : Fifo) (o : Op) : Out * Fifo :=
  match o with
  | Write xs => (Wrote (Z.min (zlen (stale f)) (zlen xs)), fifo_write xs f)
  | Read _ k => (Got (take (Z.to_nat k) (items f)), fifo_skip (Z.min (zlen (items f)) k) f)
  | Move k =>
      let c := Z.max (- zlen (stale f)) (Z.min k (zlen (items f))) in (Moved c, fifo_move c f)
  end.

Fixpoint run (b : RingBuffer) (ops : list Op) : option (list Out * RingBuffer) :=
  match ops with
  | [] => Some ([], b)
  | o :: ops' =>
      let* (x, b1) := step b o in
      let* (xs, b2) := run b1 ops' in Some (x :: xs, b2)
  end.

Fixpoint frun (f : Fifo) (ops : list Op) : list Out * Fifo :=
  match ops with
  | [] => ([], f)
  | o :: ops' =>
      let '(x, f1) := fstep f o in
      let '(xs, f2) := frun f1 ops' in (x :: xs, f2)
  end.

Definition op_ok (o : Op) : Prop := match o with Read _ k => 0 <= k | _ => True end.

Lemma slice_full {A} (xs : list A) : slice xs 0 (zlen xs) = xs.
Proof. unfold slice. rewrite drop_0, Nat2Z.id. by apply firstn_all2. Qed.

Lemma take_min {A} (l : list A) k : 0 <= k ->
  take (Z.to_nat (Z.min (zlen l) k)) l = take (Z.to_nat k) l.
Proof.
  intros. destruct (Z.leb_spec (zlen l) k).
  - rewrite !firstn_all2; [done|lia..].
  - f_equal. lia.
Qed.

Lemma step_refines b o : wf b -> op_ok o ->
  exists b', step b o = Some (fst (fstep (abs b) o), b') /\ wf b' /\
    element_count b' = element_count b /\ abs b' = snd (fstep (abs b) o).
Proof.
  intros H Ho. destruct (abs_lengths b H) as [Hi Hst]. destruct o as [xs|want_ptr k|k]; simpl in Ho.
  - destruct (write_refines b xs (zlen xs) H) as (b' & E & H' & En & Ea); [lia|].
    exists b'. unfold step. rewrite E. cbn [mbind option_bind fstep fst snd].
    rewrite slice_full in Ea. split_and!; try done. by rewrite Hst.
  - assert (Hd : zlen (zreplicate k 0) = k) by (unfold zreplicate; rewrite length_replicate; lia).
    destruct (read_refines b want_ptr (zreplicate k 0) k H) as (r & b' & E & Ec & Es & H' & En & Ea & d & Ed & _ & Hp);
      [lia|].
    exists b'. unfold step. rewrite E. cbn [mbind option_bind]. rewrite Es. cbn [mbind option_bind].
    rewrite Ed. cbn [mbind option_bind fstep fst snd]. rewrite Hi. fold (read_count b k).
    split_and!; [|done..]. do 3 f_equal. rewrite Ec. rewrite <- (take_min _ k), Hi by lia.
    fold (read_count b k). destruct want_ptr.
    + destruct Hp as (p & -> & Hp & _). exact Hp.
    + destruct Hp as [-> Hp]. exact Hp.
  - destruct (move_refines b k H) as (b' & E & H' & En & Ea). exists b'. unfold step. rewrite E.
    cbn [mbind option_bind fstep fst snd]. rewrite Hi, Hst.
    replace (- (element_count b - avail b)) with (avail b - element_count b) by lia.
    fold (clamp_move b k). done.
Qed.

(** ** Properties *)

Lemma run_refines ops : forall b, wf b -> Forall op_ok ops ->
  exists b', run b ops = Some (fst (frun (abs b) ops), b') /\ wf b' /\
    element_count b' = element_count b /\ abs b' = snd (frun (abs b) ops).
Proof.
  induction ops as [|o ops IH]; intros b H Hops; [by exists b|].
  inversion Hops as [|? ? Ho Hops']; subst. cbn [run frun].
  destruct (step_refines b o H Ho) as (b1 & E1 & H1 & En1 & Ea1). rewrite E1. cbn [mbind option_bind].
  destruct (fstep (abs b) o) as [x f1]. cbn [fst snd] in *. subst f1.
  destruct (IH b1 H1 Hops') as (b2 & E2 & H2 & En2 & Ea2). rewrite E2. cbn [mbind option_bind].
  destruct (frun (abs b1) ops) as [xs f2]. cbn [fst snd] in *.
  exists b2. split_and!; try done. congruence.
Qed.

Lemma create_refines fresh count size : 0 < count <= MAX_COUNT -> 0 < size -> zlen fresh = count ->
  exists b, WebRtc_CreateBuffer true (Some fresh) count size = Some (Some b) /\ wf b /\
    element_count b = count /\ abs b = mkFifo [] (zreplicate count 0).
Proof.
  intros Hn Hs Hf. unfold WebRtc_CreateBuffer.
  destruct (Z.eqb_spec count 0), (Z.eqb_spec size 0); try lia. cbn [orb negb].
  destruct (init_refines (mkRingBuffer 0 0 count size SAME_WRAP fresh)) as (b & -> & H); [done..|].
  by exists b.
Qed.

(** C14. Refinement: a buffer made by [WebRtc_CreateBuffer] (with any memory
    contents from [malloc]) and put through any sequence of writes, reads
    (copying or through |data_ptr|) and read-pointer moves never accesses
    memory outside its array, stays well formed, and returns exactly what the
    abstract FIFO with its stale region returns. *)
Theorem ring_refines_fifo fresh count size ops :
  0 < count <= MAX_COUNT -> 0 < size -> zlen fresh = count -> Forall op_ok ops ->
  exists b b', WebRtc_CreateBuffer true (Some fresh) count size = Some (Some b) /\
    run b ops = Some (fst (frun (mkFifo [] (zreplicate count 0)) ops), b') /\
    wf b' /\ abs b' = snd (frun (mkFifo [] (zreplicate count 0)) ops).
Proof.
  intros Hn Hs Hf Hops. destruct (create_refines fresh count size Hn Hs Hf) as (b & E & H & En & Ea).
  destruct (run_refines ops b H Hops) as (b' & E' & H' & _ & Ea'). rewrite Ea in *.
  by exists b, b'.
Qed.

Lemma ring_refines_fifo_witness :
  let ops := [Write [1; 2; 3]; Move (-2); Read true 4; Write [4; 5; 6]; Read false 5] in
  exists b b', WebRtc_CreateBuffer true (Some [7; 7; 7; 7; 7]) 5 2 = Some (Some b) /\
    run b ops = Some ([Wrote 3; Moved (-2); Got [0; 0; 1; 2]; Wrote 3; Got [3; 4; 5; 6]], b') /\
    wf b' /\ abs b' = snd (frun (mkFifo [] (zreplicate 5 0)) ops).
Proof.
  apply (ring_refines_fifo [7; 7; 7; 7; 7] 5 2); try done; unfold MAX_COUNT; try lia.
  repeat constructor; simpl; lia.
Defined.

(** Round trip: what fits is read back unchanged and in order.  After
    writing [xs] to a well-formed buffer with room for it and skipping the items
    that were there before, a read returns [xs] and leaves the buffer empty. *)
Theorem ring_write_read_roundtrip b xs want_ptr :
  wf b -> avail b + zlen xs <= element_count b ->
  exists b', run b [Write xs; Move (avail b); Read want_ptr (zlen xs)] =
    Some ([Wrote (zlen xs); Moved (avail b); Got xs], b') /\ wf b' /\ items (abs b') = [].
Proof.
  intros H Hfit. destruct (abs_lengths b H) as [Hi Hst]. pose proof (avail_range b H) as Ha.
  destruct (run_refines [Write xs; Move (avail b); Read want_ptr (zlen xs)] b H) as (b' & E & H' & _ & Ea).
  { repeat constructor; simpl; lia. }
  exists b'. revert E Ea. destruct (abs b) as [old st]. cbn [items stale] in *.
  assert (Hskip : drop (Z.to_nat (zlen old)) (old ++ xs) = xs) by (by rewrite Nat2Z.id, drop_app_length).
  cbn [frun fstep fst snd items stale]. unfold fifo_write, fifo_move, fifo_skip. cbn [items stale].
  rewrite Nat.min_l, firstn_all by lia. rewrite !length_app, length_drop.
  replace (Z.min (zlen st) (zlen xs)) with (zlen xs) by lia.
  rewrite Z.max_r by lia. rewrite Z.min_l by lia. rewrite <- Hi.
  destruct (Z.leb_spec 0 (zlen old)); [|lia]. cbn [items stale]. rewrite Hskip.
  rewrite Z.min_id, Nat2Z.id, firstn_all, drop_all. intros E Ea. rewrite E, Ea. done.
Qed.

Lemma ring_write_read_roundtrip_witness :
  let b := mkRingBuffer 3 1 4 2 DIFF_WRAP [10; 20; 30; 40] in
  exists b', run b [Write [5; 6]; Move 2; Read true 2] =
    Some ([Wrote 2; Moved 2; Got [5; 6]], b') /\ wf b' /\ items (abs b') = [].
Proof.
  apply (ring_write_read_roundtrip (mkRingBuffer 3 1 4 2 DIFF_WRAP [10; 20; 30; 40]) [5; 6] true).
  - constructor; cbn; unfold MAX_COUNT; lia.
  - cbn. lia.
Defined.

End RingSpec.
