(* ===== verification/SplInl.v ===== *)
(** Scalar operations of the signal processing library:
    src/webrtc/common_audio/signal_processing/include/spl_inl.h (saturating
    arithmetic, norms), the macros of signal_processing_library.h the program
    uses, division_operations.c and spl_sqrt_floor.c.

    The theorems relate each bit-level routine to the arithmetic function it
    computes: clamped sums, [Z.log2], the truncated quotient, [Z.sqrt]. *)

From S2P Require Import Prelude.

Module Spl.

(** ** Macros *)

Definition WEBRTC_SPL_WORD16_MAX : Z := 32767.
Definition WEBRTC_SPL_WORD16_MIN : Z := -32768.
Definition WEBRTC_SPL_WORD32_MAX : Z := 2147483647.
Definition WEBRTC_SPL_WORD32_MIN : Z := -2147483648.

Definition WEBRTC_SPL_MIN (a b : Z) : Z := if a <? b then a else b.
Definition WEBRTC_SPL_MAX (a b : Z) : Z := if a >? b then a else b.
Definition WEBRTC_SPL_ABS_W16 (a : Z) : Z := if i16 a >=? 0 then i16 a else - i16 a.
Definition WEBRTC_SPL_ABS_W32 (a : Z) : Z := if i32 a >=? 0 then i32 a else i32 (- i32 a).
Definition WEBRTC_SPL_UMUL_32_16 (a b : Z) : Z := u32 (u32 a * u16 b).
Definition WEBRTC_SPL_MUL_16_U16 (a b : Z) : Z := i32 (i16 a * u16 b).
Definition WEBRTC_SPL_MUL_16_16 (a b : Z) : Z := i32 (i16 a * i16 b).
Definition WEBRTC_SPL_MUL_16_16_RSFT_WITH_ROUND (a b c : Z) : Z :=
  Z.shiftr (i32 (WEBRTC_SPL_MUL_16_16 a b + Z.shiftl 1 (c - 1))) c.
Definition WEBRTC_SPL_SAT (a b c : Z) : Z := if b >? a then a else if b <? c then c else b.
(** [x] of type [int32_t], respectively [uint32_t]. A count of 32 or more in either
    direction, which C does not define, has its mathematical value. *)
Definition WEBRTC_SPL_SHIFT_W32 (x c : Z) : Z :=
  if c >=? 0 then i32 (Z.shiftl x c) else Z.shiftr x (- c).
Definition WEBRTC_SPL_SHIFT_U32 (x c : Z) : Z :=
  if c >=? 0 then u32 (Z.shiftl x c) else Z.shiftr x (- c).

(** ** Saturating arithmetic *)

Definition WebRtcSpl_SatW32ToW16 (value32 : Z) : Z :=
  let out16 := i16 value32 in
  if value32 >? 32767 then 32767
  else if value32 <? -32768 then -32768
  else out16.

Definition WebRtcSpl_AddSatW32 (l_var1 l_var2 : Z) : Z :=
  let l_sum := i32 (l_var1 + l_var2) in
  if l_var1 <? 0 then
    if (l_var2 <? 0) && (l_sum >=? 0) then i32 0x80000000 else l_sum
  else
    if (l_var2 >? 0) && (l_sum <? 0) then i32 0x7FFFFFFF else l_sum.

Definition WebRtcSpl_SubSatW32 (l_var1 l_var2 : Z) : Z :=
  let l_diff := i32 (l_var1 - l_var2) in
  if l_var1 <? 0 then
    if (l_var2 >? 0) && (l_diff >? 0) then i32 0x80000000 else l_diff
  else
    if (l_var2 <? 0) && (l_diff <? 0) then i32 0x7FFFFFFF else l_diff.

Definition WebRtcSpl_AddSatW16 (a b : Z) : Z := WebRtcSpl_SatW32ToW16 (a + b).
Definition WebRtcSpl_SubSatW16 (var1 var2 : Z) : Z := WebRtcSpl_SatW32ToW16 (var1 - var2).

(** ** Norms *)

Definition WebRtcSpl_GetSizeInBits (n : Z) : Z :=
  let bits := if negb (Z.land 0xFFFF0000 n =? 0) then 16 else 0 in
  let bits := if negb (Z.land 0x0000FF00 (Z.shiftr n bits) =? 0) then bits + 8 else bits in
  let bits := if negb (Z.land 0x000000F0 (Z.shiftr n bits) =? 0) then bits + 4 else bits in
  let bits := if negb (Z.land 0x0000000C (Z.shiftr n bits) =? 0) then bits + 2 else bits in
  let bits := if negb (Z.land 0x00000002 (Z.shiftr n bits) =? 0) then bits + 1 else bits in
  let bits := if negb (Z.land 0x00000001 (Z.shiftr n bits) =? 0) then bits + 1 else bits in
  bits.

Definition WebRtcSpl_NormW32 (a : Z) : Z :=
  if a =? 0 then 0
  else
    let a := if a <? 0 then Z.lnot a else a in
    let zeros := if Z.land 0xFFFF8000 (u32 a) =? 0 then 16 else 0 in
    let zeros := if Z.land 0xFF800000 (u32 (Z.shiftl a zeros)) =? 0 then zeros + 8 else zeros in
    let zeros := if Z.land 0xF8000000 (u32 (Z.shiftl a zeros)) =? 0 then zeros + 4 else zeros in
    let zeros := if Z.land 0xE0000000 (u32 (Z.shiftl a zeros)) =? 0 then zeros + 2 else zeros in
    let zeros := if Z.land 0xC0000000 (u32 (Z.shiftl a zeros)) =? 0 then zeros + 1 else zeros in
    zeros.

Definition WebRtcSpl_NormU32 (a : Z) : Z :=
  if a =? 0 then 0
  else
    let zeros := if Z.land 0xFFFF0000 (u32 a) =? 0 then 16 else 0 in
    let zeros := if Z.land 0xFF000000 (u32 (Z.shiftl a zeros)) =? 0 then zeros + 8 else zeros in
    let zeros := if Z.land 0xF0000000 (u32 (Z.shiftl a zeros)) =? 0 then zeros + 4 else zeros in
    let zeros := if Z.land 0xC0000000 (u32 (Z.shiftl a zeros)) =? 0 then zeros + 2 else zeros in
    let zeros := if Z.land 0x80000000 (u32 (Z.shiftl a zeros)) =? 0 then zeros + 1 else zeros in
    zeros.

Definition WebRtcSpl_NormW16 (a : Z) : Z :=
  if a =? 0 then 0
  else
    let a := if a <? 0 then Z.lnot a else a in
    let zeros := if Z.land 0xFF80 a =? 0 then 8 else 0 in
    let zeros := if Z.land 0xF800 (Z.shiftl a zeros) =? 0 then zeros + 4 else zeros in
    let zeros := if Z.land 0xE000 (Z.shiftl a zeros) =? 0 then zeros + 2 else zeros in
    let zeros := if Z.land 0xC000 (Z.shiftl a zeros) =? 0 then zeros + 1 else zeros in
    zeros.

(** ** Divisions *)

Definition WebRtcSpl_DivU32U16 (num den : Z) : Z :=
  if negb (den =? 0) then u32 (c_div num den) else 0xFFFFFFFF.

Definition WebRtcSpl_DivW32W16 (num den : Z) : Z :=
  if negb (den =? 0) then i32 (c_div num den) else i32 0x7FFFFFFF.

Definition WebRtcSpl_DivW32W16ResW16 (num den : Z) : Z :=
  if negb (den =? 0) then i16 (c_div num den) else i16 0x7FFF.

(** One turn of the [while (k--)] loop, on [(L_num, div)]. *)
Definition div_q31_step (L_den : Z) (s : Z * Z) : Z * Z :=
  let '(L_num, div) := s in
  let div := i32 (Z.shiftl div 1) in
  let L_num := i32 (Z.shiftl L_num 1) in
  if L_num >=? L_den then (i32 (L_num - L_den), i32 (div + 1)) else (L_num, div).

Definition WebRtcSpl_DivResultInQ31 (num den : Z) : Z :=
  if num =? 0 then 0
  else
    let '(change_sign, L_num) := if num <? 0 then (1, i32 (- num)) else (0, num) in
    let '(change_sign, L_den) := if den <? 0 then (change_sign + 1, i32 (- den)) else (change_sign, den) in
    let '(_, div) := Nat.iter 31 (div_q31_step L_den) (L_num, 0) in
    if change_sign =? 1 then i32 (- div) else div.

(** ** Square root *)

(** The macro WEBRTC_SPL_SQRT_ITER, on [(value, root)]. *)
Definition WEBRTC_SPL_SQRT_ITER (N : Z) (s : Z * Z) : Z * Z :=
  let '(value, root) := s in
  let try1 := i32 (root + Z.shiftl 1 N) in
  if value >=? i32 (Z.shiftl try1 N)
  then (i32 (value - i32 (Z.shiftl try1 N)), Z.lor root (Z.shiftl 2 N))
  else (value, root).

Definition WebRtcSpl_SqrtFloor (value : Z) : Z :=
  let s := (value, 0) in
  let s := WEBRTC_SPL_SQRT_ITER 15 s in
  let s := WEBRTC_SPL_SQRT_ITER 14 s in
  let s := WEBRTC_SPL_SQRT_ITER 13 s in
  let s := WEBRTC_SPL_SQRT_ITER 12 s in
  let s := WEBRTC_SPL_SQRT_ITER 11 s in
  let s := WEBRTC_SPL_SQRT_ITER 10 s in
  let s := WEBRTC_SPL_SQRT_ITER 9 s in
  let s := WEBRTC_SPL_SQRT_ITER 8 s in
  let s := WEBRTC_SPL_SQRT_ITER 7 s in
  let s := WEBRTC_SPL_SQRT_ITER 6 s in
  let s := WEBRTC_SPL_SQRT_ITER 5 s in
  let s := WEBRTC_SPL_SQRT_ITER 4 s in
  let s := WEBRTC_SPL_SQRT_ITER 3 s in
  let s := WEBRTC_SPL_SQRT_ITER 2 s in
  let s := WEBRTC_SPL_SQRT_ITER 1 s in
  let s := WEBRTC_SPL_SQRT_ITER 0 s in
  let '(_, root) := s in
  Z.shiftr root 1.

End Spl.

Module SplSpec.
Import Spl.

(** The value of [x] clamped to [lo .. hi]. *)
Definition clamp (lo hi x : Z) : Z := Z.max lo (Z.min hi x).

Lemma SatW32ToW16_clamp x : WebRtcSpl_SatW32ToW16 x = clamp (-32768) 32767 x.
Proof.
  unfold WebRtcSpl_SatW32ToW16, clamp. repeat bcase; try lia. rewrite i16_id by rng. lia.
Qed.

Lemma SatW32ToW16_range x : in_i16 (WebRtcSpl_SatW32ToW16 x).
Proof. rewrite SatW32ToW16_clamp. unfold clamp. rng. Qed.

Lemma AddSatW32_clamp a b : in_i32 a -> in_i32 b ->
  WebRtcSpl_AddSatW32 a b = clamp (-2147483648) 2147483647 (a + b).
Proof.
  unfold WebRtcSpl_AddSatW32, clamp. intros. repeat bcase; cint_lia.
Qed.

Lemma SubSatW32_clamp a b : in_i32 a -> in_i32 b ->
  WebRtcSpl_SubSatW32 a b = clamp (-2147483648) 2147483647 (a - b).
Proof.
  unfold WebRtcSpl_SubSatW32, clamp. intros. repeat bcase; cint_lia.
Qed.

(** ** Norms *)

(** A mask test of the norm routines is a comparison with a power of two. *)
Lemma mask32_test m t k x : m = 4294967296 - t -> t = 2 ^ k -> 0 <= k <= 32 -> in_u32 x ->
  (Z.land m x =? 0) = (x <? t).
Proof.
  intros -> -> Hk Hx. apply (land_high_mask_eqb 32 k x); [lia|]. unfold in_u32 in Hx. lia.
Qed.

(** One stage of a norm: the test on [a << zeros] against a mask with
    threshold [t]. *)
Lemma norm_stage m t k a z : m = 4294967296 - t -> t = 2 ^ k -> 0 <= k <= 32 -> 0 <= z ->
  0 <= a * 2 ^ z < 4294967296 ->
  (Z.land m (u32 (Z.shiftl a z)) =? 0) = (a * 2 ^ z <? t).
Proof.
  intros Hm Ht Hk Hz Ha. rewrite Z.shiftl_mul_pow2, u32_id by rng.
  apply (mask32_test m t k); try done; rng.
Qed.

Ltac norm_stage m t k :=
  match goal with
  | |- context [Z.land m (u32 (Z.shiftl ?a ?z)) =? 0] =>
      rewrite (norm_stage m t k a z) by (try reflexivity; lia);
      let E := fresh "E" in destruct (a * 2 ^ z <? t) eqn:E; breflect
  end.

Lemma NormU32_bounds a : 0 < a < 4294967296 ->
  0 <= WebRtcSpl_NormU32 a <= 31 /\ 2147483648 <= a * 2 ^ WebRtcSpl_NormU32 a < 4294967296.
Proof.
  intros Ha. unfold WebRtcSpl_NormU32. destruct (Z.eqb_spec a 0); [lia|].
  rewrite (u32_id a), (mask32_test 0xFFFF0000 65536 16) by (try reflexivity; rng).
  destruct (Z.ltb_spec a 65536);
    norm_stage 0xFF000000 16777216 24; norm_stage 0xF0000000 268435456 28;
    norm_stage 0xC0000000 1073741824 30; norm_stage 0x80000000 2147483648 31; lia.
Qed.

Lemma log2_by_scale a n : 0 < a -> 0 <= n <= 31 -> 2147483648 <= a * 2 ^ n < 4294967296 -> n = 31 - Z.log2 a.
Proof.
  intros Ha Hn Hs. enough (Z.log2 a = 31 - n) by lia.
  assert (Hp : 0 < 2 ^ n) by (apply Z.pow_pos_nonneg; lia).
  apply Z.log2_unique; [lia|].
  assert (H31 : 2 ^ (31 - n) * 2 ^ n = 2147483648).
  { rewrite <- Z.pow_add_r by lia. replace (31 - n + n) with 31 by lia. done. }
  replace (Z.succ (31 - n)) with (1 + (31 - n)) by lia. rewrite Z.pow_add_r, Z.pow_1_r by lia. nia.
Qed.

Lemma NormU32_log2 a : 0 < a < 4294967296 -> WebRtcSpl_NormU32 a = 31 - Z.log2 a.
Proof. intros Ha. destruct (NormU32_bounds a Ha). apply log2_by_scale; lia. Qed.

Lemma NormU32_range a : in_u32 a -> 0 <= WebRtcSpl_NormU32 a <= 31.
Proof.
  intros Ha. unfold in_u32 in Ha. destruct (Z.eqb_spec a 0) as [->|]; [done|].
  apply NormU32_bounds. lia.
Qed.

(** The norm of a 32-bit value is the largest shift that keeps its sign bit. *)
Lemma NormW32_nonneg a : 0 <= a < 2147483648 -> a <> 0 ->
  0 <= WebRtcSpl_NormW32 a <= 31 /\ 1073741824 <= a * 2 ^ WebRtcSpl_NormW32 a < 2147483648.
Proof.
  intros Ha Hnz. unfold WebRtcSpl_NormW32. destruct (Z.eqb_spec a 0); [lia|].
  destruct (Z.ltb_spec a 0); [lia|].
  rewrite (u32_id a), (mask32_test 0xFFFF8000 32768 15) by (try reflexivity; rng).
  destruct (Z.ltb_spec a 32768);
    norm_stage 0xFF800000 8388608 23; norm_stage 0xF8000000 134217728 27;
    norm_stage 0xE0000000 536870912 29; norm_stage 0xC0000000 1073741824 30; lia.
Qed.

Lemma NormW32_neg a : -2147483648 <= a < 0 ->
  0 <= WebRtcSpl_NormW32 a <= 31 /\ -2147483648 <= a * 2 ^ WebRtcSpl_NormW32 a < -1073741824.
Proof.
  intros Ha. unfold WebRtcSpl_NormW32. destruct (Z.eqb_spec a 0); [lia|].
  destruct (Z.ltb_spec a 0); [|lia]. cbv zeta.
  assert (Hl : exists b, Z.lnot a = b /\ b = - a - 1) by (eexists; split; [done|]; unfold Z.lnot; lia).
  destruct Hl as (b & -> & Hb).
  rewrite (u32_id b), (mask32_test 0xFFFF8000 32768 15) by (try reflexivity; rng).
  destruct (Z.ltb_spec b 32768);
    norm_stage 0xFF800000 8388608 23; norm_stage 0xF8000000 134217728 27;
    norm_stage 0xE0000000 536870912 29; norm_stage 0xC0000000 1073741824 30; lia.
Qed.

Lemma NormW32_range a : in_i32 a -> 0 <= WebRtcSpl_NormW32 a <= 31.
Proof.
  intros Ha. unfold in_i32 in Ha. destruct (Z.eqb_spec a 0) as [->|]; [done|].
  destruct (Z.ltb_spec a 0); [apply NormW32_neg | apply NormW32_nonneg]; lia.
Qed.

(** 16-bit routines are checked on every input. *)
Definition all_i16 (p : Z -> bool) : bool := all_from p (-32768) (Z.to_nat 65536).

Lemma all_i16_spec p : all_i16 p = true -> forall a, in_i16 a -> p a = true.
Proof.
  unfold in_i16, all_i16. intros H a Ha. apply (all_from_spec _ _ _ H).
  rewrite Z2Nat.id by done. lia.
Qed.

Lemma NormW16_check :
  all_i16 (fun a =>
    let n := WebRtcSpl_NormW16 a in
    if a =? 0 then n =? 0
    else (0 <=? n) && (n <=? 15) && (-32768 <=? a * 2 ^ n) && (a * 2 ^ n <=? 32767) &&
         ((16384 <=? a * 2 ^ n) || (a * 2 ^ n <? -16384))) = true.
Proof. vm_compute. reflexivity. Qed.

Lemma NormW16_spec a : in_i16 a -> a <> 0 ->
  0 <= WebRtcSpl_NormW16 a <= 15 /\ in_i16 (a * 2 ^ WebRtcSpl_NormW16 a) /\
  (16384 <= a * 2 ^ WebRtcSpl_NormW16 a \/ a * 2 ^ WebRtcSpl_NormW16 a < -16384).
Proof.
  intros Ha Hnz. pose proof (all_i16_spec _ NormW16_check a Ha) as H. cbv beta zeta in H.
  destruct (Z.eqb_spec a 0); [done|]. unfold in_i16. breflect; lia.
Qed.

Lemma NormW16_range a : in_i16 a -> 0 <= WebRtcSpl_NormW16 a <= 15.
Proof.
  intros Ha. destruct (Z.eqb_spec a 0) as [->|]; [done|]. by apply NormW16_spec.
Qed.

Lemma size_stage m w k n z : m = 2 ^ w - 2 ^ k -> 0 <= k <= w -> 0 <= z -> 0 <= n < 2 ^ (w + z) ->
  negb (Z.land m (Z.shiftr n z) =? 0) = (2 ^ (k + z) <=? n).
Proof.
  intros -> Hk Hz Hn. assert (Hp : 0 < 2 ^ z) by (apply Z.pow_pos_nonneg; lia).
  rewrite Z.pow_add_r in Hn by lia.
  assert (Hd : 0 <= n / 2 ^ z < 2 ^ w)
    by (split; [apply Z.div_pos; lia | apply Z.div_lt_upper_bound; lia]).
  rewrite Z.shiftr_div_pow2, land_high_mask_eqb, Z.pow_add_r by lia.
  destruct (Z.ltb_spec (n / 2 ^ z) (2 ^ k)), (Z.leb_spec (2 ^ k * 2 ^ z) n); try done; exfalso.
  - assert (2 ^ k <= n / 2 ^ z) by (apply Z.div_le_lower_bound; lia). lia.
  - assert (n / 2 ^ z < 2 ^ k) by (apply Z.div_lt_upper_bound; lia). lia.
Qed.

Ltac size_stage m w k :=
  match goal with
  | |- context [negb (Z.land m (Z.shiftr ?n ?z) =? 0)] =>
      rewrite (size_stage m w k n z) by (try reflexivity; lia);
      let E := fresh "E" in destruct (2 ^ (k + z) <=? n) eqn:E; breflect
  end.

Lemma GetSizeInBits_bounds n : 0 < n < 4294967296 ->
  let b := WebRtcSpl_GetSizeInBits n in 1 <= b <= 32 /\ 2 ^ (b - 1) <= n < 2 ^ b.
Proof.
  intros Hn. unfold WebRtcSpl_GetSizeInBits.
  replace (negb (Z.land 0xFFFF0000 n =? 0)) with (65536 <=? n)
    by (rewrite (mask32_test 0xFFFF0000 65536 16) by (try reflexivity; rng);
        destruct (Z.ltb_spec n 65536), (Z.leb_spec 65536 n); lia || done).
  destruct (Z.leb_spec 65536 n);
    size_stage 0x0000FF00 16 8; size_stage 0x000000F0 8 4; size_stage 0x0000000C 4 2;
    size_stage 0x00000002 2 1; size_stage 0x00000001 1 0; cbv zeta; lia.
Qed.

(** ** Square root *)

(** Before the stage with bit [N]: the bits of the root above [N] are found,
    and [value] is what is left of the input [v]. *)
Definition sqrt_inv (v N : Z) (s : Z * Z) : Prop :=
  exists q, let r := q * 2 ^ (N + 1) in
    0 <= q /\ snd s = 2 * r /\ fst s = v - r * r /\ r * r <= v < (r + 2 ^ (N + 1)) * (r + 2 ^ (N + 1)).

Lemma sqrt_stage v N s : 0 <= v < 2147483648 -> 0 <= N <= 15 ->
  sqrt_inv v N s -> sqrt_inv v (N - 1) (WEBRTC_SPL_SQRT_ITER N s).
Proof.
  intros Hv HN (q & Hq & Hroot & Hval & Hr). destruct s as [value root]. cbn [fst snd] in *. subst.
  replace (N - 1 + 1) with N in * by lia.
  assert (Hp : 0 < 2 ^ N) by (apply Z.pow_pos_nonneg; lia).
  assert (HpN : 2 ^ N <= 32768) by (apply (Z.pow_le_mono_r 2 N 15); lia).
  assert (E1 : 2 ^ (N + 1) = 2 * 2 ^ N) by (rewrite Z.pow_add_r by lia; lia).
  rewrite E1 in *. set (p := 2 ^ N) in *.
  set (r := q * (2 * p)) in *. assert (Hr46 : r <= 46340) by nia.
  assert (Htry : (2 * r + p) * p = (r + p) * (r + p) - r * r) by lia.
  assert (Hb : 0 <= (2 * r + p) * p <= 2147483647).
  { destruct (Z.eqb_spec N 15) as [->|]; [unfold r, p in *; nia|].
    assert (p <= 16384) by (apply (Z.pow_le_mono_r 2 N 14); lia). nia. }
  unfold WEBRTC_SPL_SQRT_ITER. rewrite !Z.shiftl_mul_pow2 by lia. rewrite Z.mul_1_l. fold p.
  rewrite (i32_id (2 * r + p)) by (unfold in_i32; nia).
  rewrite (i32_id ((2 * r + p) * p)) by rng.
  destruct (Z.geb_spec (v - r * r) ((2 * r + p) * p)) as [Hge|Hlt].
  - rewrite i32_id by (unfold in_i32; nia).
    exists (2 * q + 1). replace (N - 1 + 1) with N by lia. fold p. cbn [fst snd].
    assert (Er : (2 * q + 1) * p = r + p) by (unfold r; lia). rewrite Er.
    split_and!; try lia.
    rewrite (lor_disjoint (N + 2)); [lia|lia| |].
    + rewrite Z.pow_add_r by lia. fold p. replace (2 * r) with (q * (p * 2 ^ 2)) by (unfold r; lia).
      apply Z_mod_mult.
    + rewrite Z.pow_add_r by lia. fold p. lia.
  - exists (2 * q). replace (N - 1 + 1) with N by lia. fold p. cbn [fst snd].
    assert (Er : 2 * q * p = r) by (unfold r; lia). rewrite Er. split_and!; lia.
Qed.

Lemma SqrtFloor_sqrt v : 0 <= v < 2147483648 -> WebRtcSpl_SqrtFloor v = Z.sqrt v.
Proof.
  intros Hv. assert (H : sqrt_inv v 15 (v, 0)).
  { exists 0. cbn. lia. }
  do 16 (match type of H with sqrt_inv _ ?N _ =>
    apply (sqrt_stage v N _ Hv) in H; [|lia];
    let m := eval cbv in (N - 1) in change (N - 1) with m in H end).
  destruct H as (q & Hq & Hroot & _ & Hr). rewrite Z.pow_0_r, Z.mul_1_r in *.
  unfold WebRtcSpl_SqrtFloor. destruct (WEBRTC_SPL_SQRT_ITER 0 _) as [value root]. cbn [snd] in Hroot.
  rewrite Hroot, Z.shiftr_div_pow2, Z.pow_1_r, Z.mul_comm, Z.div_mul by lia.
  symmetry. apply Z.sqrt_unique. lia.
Qed.

Lemma sqrt_iter_neg v N : v < 0 -> 0 <= N <= 15 -> WEBRTC_SPL_SQRT_ITER N (v, 0) = (v, 0).
Proof.
  intros Hv HN. unfold WEBRTC_SPL_SQRT_ITER. rewrite !Z.shiftl_mul_pow2, Z.add_0_l, Z.mul_1_l by lia.
  assert (0 < 2 ^ N) by (apply Z.pow_pos_nonneg; lia).
  assert (2 ^ N <= 32768) by (apply (Z.pow_le_mono_r 2 N 15); lia).
  rewrite (i32_id (2 ^ N)), (i32_id (2 ^ N * 2 ^ N)) by (unfold in_i32; nia).
  destruct (Z.geb_spec v (2 ^ N * 2 ^ N)); [nia|done].
Qed.

Lemma SqrtFloor_neg v : v < 0 -> WebRtcSpl_SqrtFloor v = 0.
Proof. intros Hv. unfold WebRtcSpl_SqrtFloor. rewrite !sqrt_iter_neg by lia. done. Qed.

(** ** Division in Q31 *)

(** After [j] turns: [num * 2^j = div * den + L_num]. *)
Lemma div_q31_loop num den j : 0 < num < den -> den <= 1073741824 -> (j <= 31)%nat ->
  let s := Nat.iter j (div_q31_step den) (num, 0) in
  num * 2 ^ Z.of_nat j = snd s * den + fst s /\ 0 <= fst s < den /\ 0 <= snd s < 2 ^ Z.of_nat j.
Proof.
  intros Hn Hd. induction j as [|j IH]; intros Hj; cbv zeta; [cbn; lia|].
  rewrite Nat2Z.inj_succ, Z.pow_succ_r by lia.
  change (Nat.iter (S j) (div_q31_step den) (num, 0))
    with (div_q31_step den (Nat.iter j (div_q31_step den) (num, 0))).
  destruct IH as (E & Hf & Hs); [lia|]. destruct (Nat.iter j _ _) as [l d]. cbn [fst snd] in *.
  assert (2 ^ Z.of_nat j <= 1073741824) by (apply (Z.pow_le_mono_r 2 _ 30); lia).
  unfold div_q31_step. rewrite !Z.shiftl_mul_pow2, !Z.pow_1_r by lia.
  rewrite (i32_id (d * 2)), (i32_id (l * 2)) by rng.
  destruct (Z.geb_spec (l * 2) den); cbn [fst snd]; unwrap; lia.
Qed.

Lemma DivResultInQ31_pos num den : 0 < num < den -> den <= 1073741824 ->
  WebRtcSpl_DivResultInQ31 num den = num * 2 ^ 31 / den.
Proof.
  intros Hn Hd. unfold WebRtcSpl_DivResultInQ31.
  destruct (Z.eqb_spec num 0), (Z.ltb_spec num 0), (Z.ltb_spec den 0); try lia.
  destruct (div_q31_loop num den 31 Hn Hd) as (E & Hf & Hs); [lia|].
  destruct (Nat.iter 31 _ _) as [l d]. cbn [fst snd] in *. cbn.
  apply (Z.div_unique_pos _ _ _ l); lia.
Qed.

(** ** Properties *)

(** The saturating 32- and 16-bit sums and differences are the exact sum
    and difference clamped to the range of the type, on every pair of operands. *)
Theorem saturating_arithmetic a b :
  (in_i32 a -> in_i32 b ->
    WebRtcSpl_AddSatW32 a b = clamp (-2147483648) 2147483647 (a + b) /\
    WebRtcSpl_SubSatW32 a b = clamp (-2147483648) 2147483647 (a - b)) /\
  WebRtcSpl_AddSatW16 a b = clamp (-32768) 32767 (a + b) /\
  WebRtcSpl_SubSatW16 a b = clamp (-32768) 32767 (a - b).
Proof.
  split_and!; intros; [split|..]; eauto using AddSatW32_clamp, SubSatW32_clamp, SatW32ToW16_clamp;
    apply SatW32ToW16_clamp.
Qed.

Lemma saturating_arithmetic_witness :
  WebRtcSpl_AddSatW32 2147483647 1 = 2147483647 /\ WebRtcSpl_SubSatW32 2147483647 1 = 2147483646.
Proof. apply (saturating_arithmetic 2147483647 1); unfold in_i32; lia. Defined.

(** The norms are leading-bit counts: [WebRtcSpl_NormU32] is
    [31 - log2 a], [WebRtcSpl_GetSizeInBits] is [log2 a + 1], and shifting a
    non-zero signed value left by its [WebRtcSpl_NormW32] keeps the sign, stays
    within 32 bits and reaches the top magnitude bit. *)
Theorem norms_correct a :
  (0 < a < 4294967296 ->
    WebRtcSpl_NormU32 a = 31 - Z.log2 a /\ WebRtcSpl_GetSizeInBits a = Z.log2 a + 1) /\
  (in_i32 a -> a <> 0 ->
    let s := a * 2 ^ WebRtcSpl_NormW32 a in
    in_i32 s /\ (if 0 <? a then 1073741824 <= s else s < -1073741824)).
Proof.
  split; [intros Ha; split | intros Ha Hnz; cbv zeta].
  - by apply NormU32_log2.
  - destruct (GetSizeInBits_bounds a Ha) as [Hb Hp].
    enough (Z.log2 a = WebRtcSpl_GetSizeInBits a - 1) by lia.
    apply Z.log2_unique; [lia|].
    by replace (Z.succ (WebRtcSpl_GetSizeInBits a - 1)) with (WebRtcSpl_GetSizeInBits a) by lia.
  - unfold in_i32 in *. destruct (Z.ltb_spec 0 a).
    + destruct (NormW32_nonneg a) as [_ H']; lia.
    + destruct (NormW32_neg a) as [_ H']; lia.
Qed.

Lemma norms_correct_witness :
  WebRtcSpl_NormU32 100000 = 15 /\ WebRtcSpl_GetSizeInBits 100000 = 17 /\
  in_i32 (-3 * 2 ^ WebRtcSpl_NormW32 (-3)).
Proof.
  pose proof (norms_correct 100000) as [H _]. destruct H as [H1 H2]; [lia|].
  split_and!; [exact H1|exact H2|]. destruct (norms_correct (-3)) as [_ H].
  apply H; [unfold in_i32; lia|lia].
Defined.

(** [WebRtcSpl_SqrtFloor] computes the integer square root of every
    non-negative 32-bit value and [0] for negative ones; none of its sixteen
    unrolled stages overflows. *)
Theorem sqrt_floor_correct v : in_i32 v ->
  WebRtcSpl_SqrtFloor v = if v <? 0 then 0 else Z.sqrt v.
Proof.
  intros Hv. unfold in_i32 in Hv. destruct (Z.ltb_spec v 0).
  - by apply SqrtFloor_neg.
  - apply SqrtFloor_sqrt. lia.
Qed.

Lemma sqrt_floor_correct_witness : WebRtcSpl_SqrtFloor 2147483647 = 46340.
Proof. apply (sqrt_floor_correct 2147483647). unfold in_i32; lia. Defined.

Lemma quot_sgn_abs num den k : den <> 0 -> 0 <= k ->
  Z.quot (num * k) den = Z.sgn num * Z.sgn den * Z.quot (Z.abs num * k) (Z.abs den).
Proof.
  intros Hd Hk. destruct (Z.eqb_spec num 0) as [->|]; [exact (Z.quot_0_l den Hd)|].
  destruct (Z.lt_trichotomy num 0) as [?|[?|?]], (Z.lt_trichotomy den 0) as [?|[?|?]]; try lia;
    rewrite ?(Z.abs_neq num), ?(Z.abs_neq den), ?(Z.abs_eq num), ?(Z.abs_eq den) by lia;
    rewrite ?Z.mul_opp_l, ?Z.quot_opp_opp, ?Z.quot_opp_l, ?Z.quot_opp_r by lia;
    rewrite ?(Z.sgn_neg num), ?(Z.sgn_pos num), ?(Z.sgn_neg den), ?(Z.sgn_pos den) by lia; lia.
Qed.

(** For [|num| < |den| <= 2^30] the shift-and-subtract loop of
    [WebRtcSpl_DivResultInQ31] returns the quotient [num * 2^31 / den]
    truncated towards zero. *)
Theorem div_result_in_q31_correct num den :
  Z.abs num < Z.abs den -> Z.abs den <= 1073741824 ->
  WebRtcSpl_DivResultInQ31 num den = Z.quot (num * 2 ^ 31) den.
Proof.
  intros Hlt Hd. destruct (Z.eqb_spec num 0) as [->|Hnz]; [by rewrite Z.quot_0_l by lia|].
  pose proof (DivResultInQ31_pos (Z.abs num) (Z.abs den) ltac:(lia) ltac:(lia)) as E.
  rewrite quot_sgn_abs by lia. rewrite <- Z.quot_div_nonneg in E by lia.
  assert (Hq : 0 <= Z.quot (Z.abs num * 2 ^ 31) (Z.abs den) < 2 ^ 31)
    by (split; [apply Z.quot_pos; lia | apply Z.quot_lt_upper_bound; lia]).
  rewrite <- E in Hq |- *. clear E. revert Hq. unfold WebRtcSpl_DivResultInQ31.
  rewrite (proj2 (Z.eqb_neq num 0)), (proj2 (Z.eqb_neq (Z.abs num) 0)) by lia.
  rewrite (proj2 (Z.ltb_ge (Z.abs num) 0)), (proj2 (Z.ltb_ge (Z.abs den) 0)) by lia.
  destruct (Z.ltb_spec num 0), (Z.ltb_spec den 0);
    rewrite ?(i32_id (- num)), ?(i32_id (- den)) by rng;
    rewrite ?(Z.abs_neq num), ?(Z.abs_neq den), ?(Z.abs_eq num), ?(Z.abs_eq den) by lia;
    destruct (Nat.iter 31 _ _) as [l d]; cbn -[Z.mul Z.quot Z.pow Z.sgn]; intros Hq;
    rewrite ?i32_id by rng;
    rewrite ?(Z.sgn_neg num), ?(Z.sgn_pos num), ?(Z.sgn_neg den), ?(Z.sgn_pos den) by lia; simpl (_ =? 1); cbv iota; lia.
Qed.

Lemma div_result_in_q31_correct_witness :
  WebRtcSpl_DivResultInQ31 (-1) 3 = -715827882.
Proof. apply (div_result_in_q31_correct (-1) 3); lia. Defined.

(** The documented precondition [|num| < |den|] of
    [WebRtcSpl_DivResultInQ31] is not enough: with [den > 2^30] the shifted
    numerator overflows and the result is not the quotient. *)
Theorem div_result_in_q31_large_den :
  WebRtcSpl_DivResultInQ31 0x50000000 0x60000000 <> Z.quot (0x50000000 * 2 ^ 31) 0x60000000.
Proof. vm_compute. discriminate. Qed.

Lemma DivW32W16_range n d : in_i32 (WebRtcSpl_DivW32W16 n d).
Proof. unfold WebRtcSpl_DivW32W16. destruct (negb _); apply i32_range. Qed.

End SplSpec.
