(* ===== verification/SplVec.v ===== *)
(** Vector operations of the signal processing library, under
    src/webrtc/common_audio/signal_processing/: min_max_operations.c,
    copy_set_operations.c, vector_scaling_operations.c,
    randomization_functions.c, cross_correlation.c, downsample_fast.c,
    get_scaling_square.c and energy.c.

    A vector argument and its length are one list, the [length] samples from
    the pointer.  The theorems say what each reduction computes, that the
    sample-rate reduction never reads outside its input once its argument
    check passes, that the energy never overflows (and on which input it does),
    and that the noise generator has full period. *)

From S2P Require Import Prelude SplInl.

Module SplVec.
Import Spl.

(** ** min_max_operations.c *)

Definition max_abs_loop (abs : Z -> Z) (vector : list Z) : Z :=
  foldl (fun maximum x => let absolute := abs x in if absolute >? maximum then absolute else maximum)
    0 vector.

Definition WebRtcSpl_MaxAbsValueW16C (vector : list Z) : option Z :=
  let* _ := c_assert (zlen vector >? 0) in
  let maximum := max_abs_loop Z.abs vector in
  let maximum := if maximum >? WEBRTC_SPL_WORD16_MAX then WEBRTC_SPL_WORD16_MAX else maximum in
  Some (i16 maximum).

(** [abs((int)x)] stored in a [uint32_t]. *)
Definition abs_u32 (x : Z) : Z := u32 (i32 (Z.abs x)).

Definition WebRtcSpl_MaxAbsValueW32C (vector : list Z) : option Z :=
  let* _ := c_assert (zlen vector >? 0) in
  let maximum := max_abs_loop abs_u32 vector in
  let maximum := WEBRTC_SPL_MIN maximum WEBRTC_SPL_WORD32_MAX in
  Some (i32 maximum).

Definition max_loop (maximum : Z) (vector : list Z) : Z :=
  foldl (fun maximum x => if x >? maximum then x else maximum) maximum vector.
Definition min_loop (minimum : Z) (vector : list Z) : Z :=
  foldl (fun minimum x => if x <? minimum then x else minimum) minimum vector.

Definition WebRtcSpl_MaxValueW16C (vector : list Z) : option Z :=
  let* _ := c_assert (zlen vector >? 0) in Some (max_loop WEBRTC_SPL_WORD16_MIN vector).
Definition WebRtcSpl_MaxValueW32C (vector : list Z) : option Z :=
  let* _ := c_assert (zlen vector >? 0) in Some (max_loop WEBRTC_SPL_WORD32_MIN vector).
Definition WebRtcSpl_MinValueW16C (vector : list Z) : option Z :=
  let* _ := c_assert (zlen vector >? 0) in Some (min_loop WEBRTC_SPL_WORD16_MAX vector).
Definition WebRtcSpl_MinValueW32C (vector : list Z) : option Z :=
  let* _ := c_assert (zlen vector >? 0) in Some (min_loop WEBRTC_SPL_WORD32_MAX vector).

(** The four index searches share one loop: [better x best] is the
    comparison, [f] what is compared; the state is [(i, index, best)]. *)
Definition index_step (better : Z -> Z -> bool) (f : Z -> Z) (s : Z * Z * Z) (x : Z) : Z * Z * Z :=
  let '(i, index, best) := s in
  if better (f x) best then (i + 1, i, f x) else (i + 1, index, best).

Definition index_loop (better : Z -> Z -> bool) (f : Z -> Z) (best : Z) (vector : list Z) : Z :=
  let '(_, index, _) := foldl (index_step better f) (0, 0, best) vector in index.

Definition WebRtcSpl_MaxAbsIndexW16 (vector : list Z) : option Z :=
  let* _ := c_assert (zlen vector >? 0) in Some (index_loop Z.gtb Z.abs 0 vector).
Definition WebRtcSpl_MaxIndexW16 (vector : list Z) : option Z :=
  let* _ := c_assert (zlen vector >? 0) in
  Some (index_loop Z.gtb (fun x => x) WEBRTC_SPL_WORD16_MIN vector).
Definition WebRtcSpl_MaxIndexW32 (vector : list Z) : option Z :=
  let* _ := c_assert (zlen vector >? 0) in
  Some (index_loop Z.gtb (fun x => x) WEBRTC_SPL_WORD32_MIN vector).
Definition WebRtcSpl_MinIndexW16 (vector : list Z) : option Z :=
  let* _ := c_assert (zlen vector >? 0) in
  Some (index_loop Z.ltb (fun x => x) WEBRTC_SPL_WORD16_MAX vector).
Definition WebRtcSpl_MinIndexW32 (vector : list Z) : option Z :=
  let* _ := c_assert (zlen vector >? 0) in
  Some (index_loop Z.ltb (fun x => x) WEBRTC_SPL_WORD32_MAX vector).

(** ** copy_set_operations.c *)

Definition WebRtcSpl_MemSetW16 (ptr : list Z) (set_value length : Z) : option (list Z) :=
  memset ptr 0 set_value length.
Definition WebRtcSpl_MemSetW32 (ptr : list Z) (set_value length : Z) : option (list Z) :=
  memset ptr 0 set_value length.

(** [dest] points at entry [dpos] of its array. *)
Definition WebRtcSpl_MemCpyReversedOrder (dest : list Z) (dpos : Z) (source : list Z) (length : Z)
    : option (list Z) :=
  for_loop (fun j dest => let* x := aget source j in aset dest (dpos - j) x) 0 (Z.to_nat length) dest.

Definition WebRtcSpl_CopyFromEndW16 (vector_in : list Z) (length samples : Z) (vector_out : list Z)
    : option (list Z) :=
  memcpy vector_out 0 vector_in (u64 (length - samples)) samples.

Definition WebRtcSpl_ZerosArrayW16 (vector : list Z) (length : Z) : option (list Z) :=
  WebRtcSpl_MemSetW16 vector 0 length.
Definition WebRtcSpl_ZerosArrayW32 (vector : list Z) (length : Z) : option (list Z) :=
  WebRtcSpl_MemSetW32 vector 0 length.

(** ** vector_scaling_operations.c *)

Definition WebRtcSpl_VectorBitShiftW16 (vin : list Z) (right_shifts : Z) : list Z :=
  if right_shifts >? 0 then (fun x => i16 (Z.shiftr x right_shifts)) <$> vin
  else (fun x => i16 (i32 (Z.shiftl x (- right_shifts)))) <$> vin.

Definition WebRtcSpl_VectorBitShiftW32 (in_vector : list Z) (right_shifts : Z) : list Z :=
  if right_shifts >? 0 then (fun x => Z.shiftr x right_shifts) <$> in_vector
  else (fun x => i32 (Z.shiftl x (- right_shifts))) <$> in_vector.

Definition WebRtcSpl_VectorBitShiftW32ToW16 (vin : list Z) (right_shifts : Z) : list Z :=
  if right_shifts >=? 0 then (fun x => WebRtcSpl_SatW32ToW16 (Z.shiftr x right_shifts)) <$> vin
  else
    let left_shifts := - right_shifts in
    (fun x => WebRtcSpl_SatW32ToW16 (i32 (Z.shiftl x left_shifts))) <$> vin.

Definition WebRtcSpl_ScaleVector (in_vector : list Z) (gain right_shifts : Z) : list Z :=
  (fun x => i16 (Z.shiftr (i32 (x * gain)) right_shifts)) <$> in_vector.

Definition WebRtcSpl_ScaleVectorWithSat (in_vector : list Z) (gain right_shifts : Z) : list Z :=
  (fun x => WebRtcSpl_SatW32ToW16 (Z.shiftr (i32 (x * gain)) right_shifts)) <$> in_vector.

Definition WebRtcSpl_ScaleAndAddVectors (in1 : list Z) (gain1 shift1 : Z)
    (in2 : list Z) (gain2 shift2 : Z) : list Z :=
  zip_with (fun x y => i16 (i16 (Z.shiftr (i32 (gain1 * x)) shift1) +
                            i16 (Z.shiftr (i32 (gain2 * y)) shift2))) in1 in2.

(** The pointers are [None] when NULL; the result is the return value and the
    output vector. *)
Definition WebRtcSpl_ScaleAndAddVectorsWithRoundC (in_vector1 : option (list Z)) (in_vector1_scale : Z)
    (in_vector2 : option (list Z)) (in_vector2_scale right_shifts : Z)
    (out_vector : option (list Z)) (length : Z) : Z * option (list Z) :=
  let round_value := Z.shiftr (i32 (Z.shiftl 1 right_shifts)) 1 in
  match in_vector1, in_vector2, out_vector with
  | Some v1, Some v2, Some _ =>
      if (length =? 0) || (right_shifts <? 0) then (-1, out_vector)
      else (0, Some (zip_with (fun x y =>
                  i16 (Z.shiftr (i32 (i32 (i32 (x * in_vector1_scale) + i32 (y * in_vector2_scale))
                                      + round_value)) right_shifts)) v1 v2))
  | _, _, _ => (-1, out_vector)
  end.

(** ** randomization_functions.c *)

Definition kMaxSeedUsed : Z := 0x80000000.
Definition kRandNTable : list Z :=
  [
   9178; -7260; 40; 10189; 4894; -3531; -13779; 14764; -4008; -8884; -8990; 1008;
   7368; 5184; 3251; -5817; -9786; 5963; 1770; 8066; -7135; 10772; -2298; 1361;
   6484; 2241; -8633; 792; 199; -3344; 6553; -10079; -15040; 95; 11608; -12469;
   14161; -4176; 2476; 6403; 13685; -16005; 6646; 2239; 10916; -3004; -602; -3141;
   2142; 14144; -5829; 5305; 8209; 4713; 2697; -5112; 16092; -1210; -2891; -6631;
   -5360; -11878; -6781; -2739; -6392; 536; 10923; 10872; 5059; -4748; -7770; 5477;
   38; -1025; -2892; 1638; 6304; 14375; -11028; 1553; -1565; 10762; -393; 4040;
   5257; 12310; 6554; -4799; 4899; -6354; 1603; -1048; -2220; 8247; -186; -8944;
   -12004; 2332; 4801; -4933; 6371; 131; 8614; -5927; -8287; -22760; 4033; -15162;
   3385; 3246; 3153; -5250; 3766; 784; 6494; -62; 3531; -1582; 15572; 662;
   -3952; -330; -3196; 669; 7236; -2678; -6569; 23319; -8645; -741; 14830; -15976;
   4903; 315; -11342; 10311; 1858; -7777; 2145; 5436; 5677; -113; -10033; 826;
   -1353; 17210; 7768; 986; -1471; 8291; -4982; 8207; -14911; -6255; -2449; -11881;
   -7059; -11703; -4338; 8025; 7538; -2823; -12490; 9470; -1613; -2529; -10092; -7807;
   9480; 6970; -12844; 5123; 3532; 4816; 4803; -8455; -5045; 14032; -4378; -1643;
   5756; -11041; -2732; -16618; -6430; -18375; -3320; 6098; 5131; -4269; -8840; 2482;
   -7048; 1547; -21890; -6505; -7414; -424; -11722; 7955; 1653; -17299; 1823; 473;
   -9232; 3337; 1111; 873; 4018; -8982; 9889; 3531; -11763; -3799; 7373; -4539;
   3231; 7054; -8537; 7616; 6244; 16635; 447; -2915; 13967; 705; -2669; -1520;
   -1771; -16188; 5956; 5117; 6371; -9936; -1448; 2480; 5128; 7550; -8130; 5236;
   8213; -6443; 7707; -1950; -13811; 7218; 7031; -3883; 67; 5731; -2874; 13480;
   -3743; 9298; -3280; 3552; -4425; -18; -3785; -9988; -5357; 5477; -11794; 2117;
   1416; -9935; 3376; 802; -5079; -8243; 12652; 66; 3653; -2368; 6781; -21895;
   -7227; 2487; 7839; -385; 6646; -7016; -4658; 5531; -1705; 834; 129; 3694;
   -1343; 2238; -22640; -6417; -11139; 11301; -2945; -3494; -5626; 185; -3615; -2041;
   -7972; -3106; -60; -23497; -1566; 17064; 3519; 2518; 304; -6805; -10269; 2105;
   1936; -426; -736; -8122; -1467; 4238; -6939; -13309; 360; 7402; -7970; 12576;
   3287; 12194; -6289; -16006; 9171; 4042; -9193; 9123; -2512; 6388; -4734; -8739;
   1028; -5406; -1696; 5889; -666; -4736; 4971; 3565; 9362; -6292; 3876; -3652;
   -19666; 7523; -4061; 391; -11773; 7502; -3763; 4929; -9478; 13278; 2805; 4496;
   7814; 16419; 12455; -14773; 2127; -2746; 3763; 4847; 3698; 6978; 4751; -6957;
   -3581; -45; 6252; 1513; -4797; -7925; 11270; 16188; -2359; -5269; 9376; -10777;
   7262; 20031; -6515; -2208; -5353; 8085; -1341; -1303; 7333; 5576; 3625; 5763;
   -7931; 9833; -3371; -10305; 6534; -13539; -9971; 997; 8464; -4064; -1495; 1857;
   13624; 5458; 9490; -11086; -4524; 12022; -550; -198; 408; -8455; -7068; 10289;
   9712; -3366; 9028; -7621; -5243; 2362; 6909; 4672; -4933; -1799; 4709; -4563;
   -62; -566; 1624; -7010; 14730; -17791; -3697; -2344; -1741; 7099; -9509; -6855;
   -1989; 3495; -2289; 2031; 12784; 891; 14189; -3963; -5683; 421; -12575; 1724;
   -12682; -5970; -8169; 3143; -1824; -5488; -5130; 8536; 12799; 794; 5738; 3459;
   -11689; -258; -3738; -3775; -8742; 2333; 8312; -9383; 10331; 13119; 8398; 10644;
   -19433; -6446; -16277; -11793; 16284; 9345; 15222; 15834; 2009; -7349; 130; -14547;
   338; -5998; 3337; 21492; 2406; 7703; -951; 11196; -564; 3406; 2217; 4806;
   2374; -5797; 11839; 8940; -11874; 18213; 2855; 10492].

Definition IncreaseSeed (seed : Z) : Z := Z.land (u32 (u32 (seed * 69069) + 1)) (kMaxSeedUsed - 1).

(** The random functions return the drawn value and the new seed. *)
Definition WebRtcSpl_RandU (seed : Z) : Z * Z :=
  let seed := IncreaseSeed seed in (i16 (Z.shiftr seed 16), seed).

Definition WebRtcSpl_RandN (seed : Z) : option (Z * Z) :=
  let seed := IncreaseSeed seed in
  let* r := aget kRandNTable (Z.shiftr seed 23) in Some (r, seed).

Fixpoint RandUArray_loop (n : nat) (seed : Z) : list Z * Z :=
  match n with
  | O => ([], seed)
  | S n' =>
      let '(x, seed) := WebRtcSpl_RandU seed in
      let '(xs, seed) := RandUArray_loop n' seed in (x :: xs, seed)
  end.

Definition WebRtcSpl_RandUArray (vector_length seed : Z) : list Z * Z :=
  RandUArray_loop (Z.to_nat vector_length) seed.

(** ** cross_correlation.c *)

Definition corr_step (seq1 seq2 : list Z) (off right_shifts j corr : Z) : option Z :=
  let* a := aget seq1 j in
  let* b := aget seq2 (off + j) in
  Some (i32 (corr + Z.shiftr (i32 (a * b)) right_shifts)).

Fixpoint CrossCorrelation_loop (seq1 seq2 : list Z) (off dim_seq : Z) (n : nat)
    (right_shifts step_seq2 : Z) : option (list Z) :=
  match n with
  | O => Some []
  | S n' =>
      let* corr := for_loop (corr_step seq1 seq2 off right_shifts) 0 (Z.to_nat dim_seq) 0 in
      let* rest := CrossCorrelation_loop seq1 seq2 (off + step_seq2) dim_seq n' right_shifts step_seq2 in
      Some (corr :: rest)
  end.

Definition WebRtcSpl_CrossCorrelationC (seq1 seq2 : list Z) (dim_seq dim_cross_correlation : Z)
    (right_shifts step_seq2 : Z) : option (list Z) :=
  CrossCorrelation_loop seq1 seq2 0 dim_seq (Z.to_nat dim_cross_correlation) right_shifts step_seq2.

(** ** downsample_fast.c *)

Definition fir_tap (data_in coefficients : list Z) (i j out_s32 : Z) : option Z :=
  let* c := aget coefficients j in
  let* d := aget data_in (i - j) in
  Some (i32 (out_s32 + i32 (c * d))).

(** [for (i = delay; i < endpos; i += factor)].  [data_out++] is the index
    [k]; the loop stores one entry per turn, so one turn more than
    [data_out_length] ends in an access outside [data_out]. *)
Fixpoint DownsampleFast_loop (data_in data_out coefficients : list Z)
    (i endpos factor k : Z) (fuel : nat) : option (list Z) :=
  match fuel with
  | O => None
  | S fuel' =>
      if i <? endpos then
        let* out_s32 := for_loop (fir_tap data_in coefficients i) 0 (length coefficients) 2048 in
        let out_s32 := Z.shiftr out_s32 12 in
        let* data_out := aset data_out k (WebRtcSpl_SatW32ToW16 out_s32) in
        DownsampleFast_loop data_in data_out coefficients (u64 (i + u64 factor)) endpos factor (k + 1) fuel'
      else Some data_out
  end.

Definition WebRtcSpl_DownsampleFastC (data_in : list Z) (data_in_length : Z)
    (data_out : list Z) (data_out_length : Z) (coefficients : list Z) (factor delay : Z)
    : option (Z * list Z) :=
  let endpos := u64 (u64 (delay + u64 (u64 factor * u64 (data_out_length - 1))) + 1) in
  if (data_out_length =? 0) || (zlen coefficients =? 0) || (data_in_length <? endpos)
  then Some (-1, data_out)
  else
    let* data_out := DownsampleFast_loop data_in data_out coefficients delay endpos factor 0
                       (S (length data_out)) in
    Some (0, data_out).

(** ** get_scaling_square.c, energy.c *)

Definition scaling_smax_step (smax x : Z) : Z :=
  let sabs := i16 (if x >? 0 then x else - x) in
  if sabs >? smax then sabs else smax.

Definition WebRtcSpl_GetScalingSquare (in_vector : list Z) (times : Z) : Z :=
  let nbits := WebRtcSpl_GetSizeInBits (u32 times) in
  let smax := foldl scaling_smax_step (-1) in_vector in
  let t := WebRtcSpl_NormW32 (i32 (smax * smax)) in
  if smax =? 0 then 0 else if t >? nbits then 0 else i16 (nbits - t).

(** Returns the energy and [*scale_factor]. *)
Definition WebRtcSpl_Energy (vector : list Z) : Z * Z :=
  let scaling := WebRtcSpl_GetScalingSquare vector (zlen vector) in
  let en := foldl (fun en x => i32 (en + Z.shiftr (i32 (x * x)) scaling)) 0 vector in
  (en, scaling).

End SplVec.

Module SplVecSpec.
Import Spl SplSpec SplVec.

(** ** Searches for extrema *)

(** [k] is the first position of [v] at which [f] is largest, [x] the entry there. *)
Definition first_best (f : Z -> Z) (v : list Z) (k x : Z) : Prop :=
  aget v k = Some x /\ (forall y, y ∈ v -> f y <= f x) /\
  (forall j y, j < k -> aget v j = Some y -> f y < f x).

Lemma elem_snoc (z y : Z) v : z ∈ v ++ [y] <-> z ∈ v \/ z = y.
Proof. by rewrite elem_of_app, list_elem_of_singleton. Qed.

Lemma first_best_snoc f v k x y : first_best f v k x ->
  if f y >? f x then first_best f (v ++ [y]) (zlen v) y else first_best f (v ++ [y]) k x.
Proof.
  intros (Hk & Hmax & Hfst). pose proof (aget_Some_range _ _ _ Hk) as Hr. destruct (Z.gtb_spec (f y) (f x)).
  - split_and!.
    + by rewrite aget_app, Z.ltb_irrefl, Z.sub_diag by lia.
    + intros z [Hz| ->]%elem_snoc; [|lia]. specialize (Hmax z Hz). lia.
    + intros j z Hj Hz. pose proof (aget_Some_range _ _ _ Hz).
      rewrite aget_app in Hz by lia. destruct (Z.ltb_spec j (zlen v)); [|lia].
      unfold aget in Hz. destruct (0 <=? j); [|done].
      apply list_elem_of_lookup_2 in Hz. specialize (Hmax z Hz). lia.
  - split_and!.
    + rewrite aget_app by lia. by destruct (Z.ltb_spec k (zlen v)); [|lia].
    + intros z [Hz| ->]%elem_snoc; [by apply Hmax|lia].
    + intros j z Hj Hz. pose proof (aget_Some_range _ _ _ Hz).
      rewrite aget_app in Hz by lia. destruct (Z.ltb_spec j (zlen v)); [|lia]. by apply (Hfst j).
Qed.

Lemma index_loop_state f best v : v <> [] -> (forall x, x ∈ v -> best <= f x) ->
  exists k x, foldl (index_step Z.gtb f) (0, 0, best) v = (zlen v, k, f x) /\ first_best f v k x.
Proof.
  induction v as [|y v IH] using rev_ind; [done|]. intros _ Hb.
  rewrite foldl_app. cbn [foldl]. destruct v as [|z v].
  { exists 0, y. split.
    - unfold index_step. simpl. specialize (Hb y). destruct (Z.gtb_spec (f y) best); [done|].
      specialize (Hb ltac:(by apply list_elem_of_singleton)). repeat f_equal. lia.
    - split_and!; [done| |].
      + intros w Hw%list_elem_of_singleton. subst. lia.
      + intros j w Hj Hw%aget_Some_range. lia. }
  destruct IH as (k & x & E & H); [done|intros; apply Hb, elem_snoc; auto|].
  rewrite E. unfold index_step. pose proof (first_best_snoc f _ k x y H) as Hs.
  rewrite length_app. replace (Z.of_nat (length (z :: v) + length [y])) with (zlen (z :: v) + 1) by (simpl; lia).
  destruct (f y >? f x); eauto.
Qed.

Lemma index_step_value better f v i k best :
  (foldl (index_step better f) (i, k, best) v).2 =
  foldl (fun m x => if better (f x) m then f x else m) best v.
Proof.
  revert i k best. induction v as [|x v IH]; intros; simpl; [done|].
  destruct (better (f x) best); apply IH.
Qed.

(** The index search and the value search agree: one finds the first
    position of the largest [f], the other its value. *)
Lemma max_searches f best v : v <> [] -> (forall x, x ∈ v -> best <= f x) ->
  exists k x, index_loop Z.gtb f best v = k /\ first_best f v k x /\
    foldl (fun m x => if f x >? m then f x else m) best v = f x.
Proof.
  intros Hv Hb. destruct (index_loop_state f best v Hv Hb) as (k & x & E & H).
  exists k, x. unfold index_loop. rewrite E. split_and!; [done..|].
  pose proof (index_step_value Z.gtb f v 0 0 best) as Hval. by rewrite E in Hval.
Qed.

Lemma min_loop_opp best v i k :
  foldl (index_step Z.ltb (fun x => x)) (i, k, best) v =
  (let '(i', k', b) := foldl (index_step Z.gtb Z.opp) (i, k, - best) v in (i', k', - b)).
Proof.
  revert i k best. induction v as [|x v IH]; intros; simpl; [by rewrite Z.opp_involutive|].
  rewrite !Z.gtb_ltb. destruct (Z.ltb_spec x best), (Z.ltb_spec (- best) (- x)); try lia; apply IH.
Qed.

Lemma min_searches best v : v <> [] -> (forall x, x ∈ v -> x <= best) ->
  exists k x, index_loop Z.ltb (fun x => x) best v = k /\ first_best Z.opp v k x /\ min_loop best v = x.
Proof.
  intros Hv Hb. destruct (index_loop_state Z.opp (- best) v Hv) as (k & x & E & H).
  { intros x Hx. specialize (Hb x Hx). lia. }
  exists k, x. unfold index_loop, min_loop. split_and!; [|done|].
  - by rewrite min_loop_opp, E.
  - pose proof (index_step_value Z.ltb (fun x => x) v 0 0 best) as Hval.
    rewrite min_loop_opp, E in Hval. simpl in Hval. rewrite <- Hval. lia.
Qed.

Lemma foldl_i32_range (g : Z -> Z -> Z) a v : in_i32 a -> in_i32 (foldl (fun en x => i32 (g en x)) a v).
Proof. revert a. induction v as [|x v IH]; intros a Ha; simpl; [done|]. apply IH. auto with cint. Qed.

(** ** Energy *)

Lemma smax_loop m v : -1 <= m <= 32767 -> Forall (fun x => -32767 <= x <= 32767) v ->
  let s := foldl scaling_smax_step m v in
  m <= s <= 32767 /\ Forall (fun x => Z.abs x <= s) v.
Proof.
  revert m. induction v as [|x v IH]; intros m Hm Hv; simpl; [split; [lia|constructor]|].
  apply Forall_cons_1 in Hv as [Hx Hv].
  assert (Hs : scaling_smax_step m x = Z.max m (Z.abs x)).
  { unfold scaling_smax_step. destruct (Z.gtb_spec x 0); rewrite i16_id by rng;
      match goal with |- context [?a >? m] => destruct (Z.gtb_spec a m) end; lia. }
  rewrite Hs. destruct (IH (Z.max m (Z.abs x))) as [H1 H2]; [lia|done|].
  split; [lia|]. constructor; [lia|done].
Qed.

Lemma energy_loop (t : Z -> Z) T a v : Forall (fun x => 0 <= t x <= T) v -> 0 <= a ->
  a + zlen v * T <= 2147483647 ->
  foldl (fun en x => i32 (en + t x)) a v = a + zsum (fun i => t (znth v i)) 0 (length v).
Proof.
  enough (G : forall k, (k <= length v)%nat -> Forall (fun x => 0 <= t x <= T) v -> 0 <= a ->
      a + Z.of_nat k * T <= 2147483647 ->
      foldl (fun en x => i32 (en + t x)) a (drop (length v - k) v) =
      a + zsum (fun i => t (znth v i)) (zlen v - Z.of_nat k) k).
  { intros Hv Ha Hs. specialize (G (length v) ltac:(lia) Hv Ha Hs).
    by rewrite Nat.sub_diag, drop_0, Z.sub_diag in G. }
  intros k. revert a. induction k as [|k IH]; intros a Hk Hv Ha Hs.
  { rewrite Nat.sub_0_r, drop_all. simpl. lia. }
  destruct (lookup_lt_is_Some_2 v (length v - S k)) as [x Hx]; [lia|].
  rewrite (drop_S v x _ Hx). replace (S (length v - S k)) with (length v - k)%nat by lia.
  assert (Hn : znth v (zlen v - Z.of_nat (S k)) = x).
  { apply znth_aget. unfold aget. destruct (Z.leb_spec 0 (zlen v - Z.of_nat (S k))); [|lia].
    rewrite <- Hx. f_equal. lia. }
  pose proof (proj1 (Forall_lookup _ _) Hv _ _ Hx) as Ht. simpl in Ht.
  cbn [foldl zsum]. rewrite Hn, i32_id by (unfold in_i32; nia).
  rewrite IH by (try done; nia). replace (zlen v - Z.of_nat (S k) + 1) with (zlen v - Z.of_nat k) by lia. lia.
Qed.

Lemma scaled_square_bound n nbits t q : 0 < n < 2 ^ nbits -> 0 <= nbits <= 32 -> 0 <= t <= 31 ->
  0 <= q -> q * 2 ^ t < 2147483648 ->
  n * Z.shiftr q (if t >? nbits then 0 else nbits - t) <= 2147483647.
Proof.
  intros Hn Hb Ht Hq Hs. rewrite Z.shiftr_div_pow2 by (destruct (Z.gtb_spec t nbits); lia).
  destruct (Z.gtb_spec t nbits).
  - rewrite Z.pow_0_r, Z.div_1_r.
    assert (2 ^ nbits <= 2 ^ t) by (apply Z.pow_le_mono_r; lia). nia.
  - assert (Hp : 0 < 2 ^ (nbits - t)) by (apply Z.pow_pos_nonneg; lia).
    pose proof (Z.mul_div_le q (2 ^ (nbits - t)) Hp).
    assert (Hq' : 0 <= q / 2 ^ (nbits - t)) by (apply Z.div_pos; lia).
    assert (E : 2 ^ (nbits - t) * 2 ^ t = 2 ^ nbits) by (rewrite <- Z.pow_add_r by lia; f_equal; lia).
    assert (0 < 2 ^ t) by (apply Z.pow_pos_nonneg; lia).
    assert (q / 2 ^ (nbits - t) * 2 ^ nbits < 2147483648) by (rewrite <- E; nia). nia.
Qed.

(** When no sample is [-32768], [WebRtcSpl_Energy] accumulates without
    overflow: it returns the exact sum of the squares, each shifted by the
    scale factor it reports. *)
Theorem energy_no_overflow v en scaling :
  Forall (fun x => -32767 <= x <= 32767) v -> zlen v < 4294967296 ->
  WebRtcSpl_Energy v = (en, scaling) ->
  en = zsum (fun i => Z.shiftr (znth v i * znth v i) scaling) 0 (length v) /\ in_i32 en.
Proof.
  intros Hv Hlen. unfold WebRtcSpl_Energy, WebRtcSpl_GetScalingSquare. intros [= <- <-].
  destruct (smax_loop (-1) v ltac:(lia) Hv) as [Hs Habs].
  set (s := foldl scaling_smax_step (-1) v) in *. cbv zeta in *.
  split; [|destruct v; [simpl; rng | apply foldl_i32_range; done]].
  destruct (decide (v = [])) as [->|Hne]; [done|].
  assert (0 < zlen v) by (destruct v; [done|simpl; lia]).
  assert (0 <= s).
  { destruct v as [|x v']; [done|]. apply Forall_cons_1 in Habs as [? _]. lia. }
  rewrite (i32_id (s * s)), u32_id by (unfold in_i32, in_u32; nia).
  destruct (GetSizeInBits_bounds (zlen v) ltac:(lia)) as [Hb Hn].
  set (sc := if s =? 0 then 0 else _).
  assert (HT : zlen v * Z.shiftr (s * s) sc <= 2147483647 /\ 0 <= sc).
  { subst sc. destruct (Z.eqb_spec s 0) as [E0|]; [rewrite E0; change (Z.shiftr (0 * 0) 0) with 0; lia|].
    destruct (NormW32_nonneg (s * s)) as [Ht Hm]; [nia|nia|].
    rewrite i16_id by (unfold in_i16; lia).
    split; [apply scaled_square_bound; lia|].
    destruct (Z.gtb_spec (WebRtcSpl_NormW32 (s * s)) (WebRtcSpl_GetSizeInBits (zlen v))); lia. }
  rewrite (energy_loop (fun x => Z.shiftr (i32 (x * x)) sc) (Z.shiftr (s * s) sc)); [|clear HT|lia|lia].
  - apply zsum_ext. intros i Hi. rewrite i32_id; [done|].
    pose proof (aget_znth v i ltac:(lia)) as Ha. apply Forall_aget with (1 := Hv) in Ha. simpl in Ha.
    unfold in_i32. nia.
  - rewrite Forall_forall in Habs |- *. intros x Hx. specialize (Habs x Hx). simpl in Habs.
    rewrite i32_id by (unfold in_i32; nia). split; [apply Z.shiftr_nonneg; nia|].
    apply shiftr_mono. nia.
Qed.

Lemma energy_no_overflow_witness :
  536838146 = zsum (fun i => Z.shiftr (znth [32767; -32767; 3; 0] i * znth [32767; -32767; 3; 0] i) 2) 0 4
  /\ in_i32 536838146.
Proof.
  refine (energy_no_overflow [32767; -32767; 3; 0] _ 2 _ _ _).
  - repeat (constructor; [lia|]). constructor.
  - simpl. lia.
  - vm_compute. reflexivity.
Defined.

(** A sample of [-32768] defeats the scaling: its 16-bit absolute value
    stays negative, so the maximum ignores it and two such samples overflow
    the accumulator. *)
Theorem energy_overflow_min_sample :
  WebRtcSpl_Energy [-32768; -32768] = (-2147483648, 0).
Proof. vm_compute. reflexivity. Qed.

(** ** Extrema *)

Lemma assert_nonempty (v : list Z) : v <> [] -> c_assert (zlen v >? 0) = Some tt.
Proof. by destruct v. Qed.

(** The absolute maximum of a vector, clamped at 32767. *)
Lemma MaxAbsValue_bound v : v <> [] -> Forall in_i16 v ->
  exists M, WebRtcSpl_MaxAbsValueW16C v = Some M /\ 0 <= M <= 32767 /\
    Forall (fun x => Z.abs x <= M \/ M = 32767) v.
Proof.
  intros Hne Hv. pose proof (Forall_elem _ _ Hv) as Hv'. unfold in_i16 in Hv'.
  destruct (max_searches Z.abs 0 v Hne) as (ka & a & Ea & (_ & Ha & _) & Va); [lia|].
  unfold WebRtcSpl_MaxAbsValueW16C, max_abs_loop, WEBRTC_SPL_WORD16_MAX.
  rewrite assert_nonempty by done. cbn [mbind option_bind]. rewrite Va.
  exists (Z.min 32767 (Z.abs a)). split_and!; try lia.
  - f_equal. destruct (Z.gtb_spec (Z.abs a) 32767); rewrite i16_id by (unfold in_i16; lia); lia.
  - apply Forall_lookup_2. intros k x Hx. apply list_elem_of_lookup_2 in Hx. specialize (Ha x Hx). cbv beta in Ha. lia.
Qed.

(** On a non-empty vector of [int16_t] the searches of
    min_max_operations.c agree with each other: the index functions return the
    first position of the extremum, the value functions the extremum itself,
    the absolute maximum being clamped at 32767. *)
Theorem min_max_w16 v : v <> [] -> Forall in_i16 v ->
  exists ka a kM M km m,
    (WebRtcSpl_MaxAbsIndexW16 v = Some ka /\ first_best Z.abs v ka a /\
     WebRtcSpl_MaxAbsValueW16C v = Some (Z.min 32767 (Z.abs a))) /\
    (WebRtcSpl_MaxIndexW16 v = Some kM /\ first_best (fun x => x) v kM M /\
     WebRtcSpl_MaxValueW16C v = Some M) /\
    (WebRtcSpl_MinIndexW16 v = Some km /\ first_best Z.opp v km m /\
     WebRtcSpl_MinValueW16C v = Some m).
Proof.
  intros Hne Hv. pose proof (Forall_elem _ _ Hv) as Hv'. clear Hv. unfold in_i16 in Hv'.
  destruct (max_searches Z.abs 0 v Hne) as (ka & a & Ea & Ha & Va); [lia|].
  destruct (max_searches (fun x => x) (-32768) v Hne) as (kM & M & EM & HM & VM); [apply Hv'|].
  destruct (min_searches 32767 v Hne) as (km & m & Em & Hm & Vm); [apply Hv'|].
  exists ka, a, kM, M, km, m.
  unfold WebRtcSpl_MaxAbsIndexW16, WebRtcSpl_MaxAbsValueW16C, WebRtcSpl_MaxIndexW16,
    WebRtcSpl_MaxValueW16C, WebRtcSpl_MinIndexW16, WebRtcSpl_MinValueW16C, max_abs_loop, max_loop,
    WEBRTC_SPL_WORD16_MIN, WEBRTC_SPL_WORD16_MAX.
  rewrite assert_nonempty by done. cbn [mbind option_bind]. rewrite Va, VM, Vm. split_and!; try (by f_equal); try done.
  f_equal. destruct (Z.gtb_spec (Z.abs a) 32767); rewrite i16_id by (unfold in_i16; lia); lia.
Qed.

Lemma min_max_w16_witness :
  exists ka a kM M km m,
    (WebRtcSpl_MaxAbsIndexW16 [5; -32768; 7; 7] = Some ka /\ first_best Z.abs [5; -32768; 7; 7] ka a /\
     WebRtcSpl_MaxAbsValueW16C [5; -32768; 7; 7] = Some (Z.min 32767 (Z.abs a))) /\
    (WebRtcSpl_MaxIndexW16 [5; -32768; 7; 7] = Some kM /\ first_best (fun x => x) [5; -32768; 7; 7] kM M /\
     WebRtcSpl_MaxValueW16C [5; -32768; 7; 7] = Some M) /\
    (WebRtcSpl_MinIndexW16 [5; -32768; 7; 7] = Some km /\ first_best Z.opp [5; -32768; 7; 7] km m /\
     WebRtcSpl_MinValueW16C [5; -32768; 7; 7] = Some m).
Proof. apply min_max_w16; [done|]. forall_i16. Defined.

(** ** Random numbers *)

Lemma IncreaseSeed_mod s : IncreaseSeed s = (69069 * s + 1) mod 2147483648.
Proof.
  unfold IncreaseSeed, kMaxSeedUsed. change (0x80000000 - 1) with (Z.ones 31).
  rewrite Z.land_ones by lia. change (2 ^ 31) with 2147483648. cint_lia.
Qed.

(** [2^k] draws are one affine step with coefficients obtained by squaring. *)
Fixpoint lcg_pow (k : nat) : Z * Z :=
  match k with
  | O => (69069, 1)
  | S k' => let '(a, b) := lcg_pow k' in ((a * a) mod 2147483648, (a * b + b) mod 2147483648)
  end.

Lemma lcg_pow_spec k s :
  Nat.iter (2 ^ k) IncreaseSeed s = ((lcg_pow k).1 * s + (lcg_pow k).2) mod 2147483648.
Proof.
  revert s. induction k as [|k IH]; intros s.
  - simpl. rewrite IncreaseSeed_mod. done.
  - replace (2 ^ S k)%nat with (2 ^ k + 2 ^ k)%nat by (simpl; lia).
    rewrite Nat.iter_add, !IH. cbn [lcg_pow]. destruct (lcg_pow k) as [a b]. cbn [fst snd].
    rewrite Zplus_mod_idemp_r. rewrite <- (Z.add_mod_idemp_l (a * _)), Z.mul_mod_idemp_r, Z.add_mod_idemp_l by lia.
    rewrite <- (Z.add_mod_idemp_l ((a * a) mod _ * s)), Z.mul_mod_idemp_l, Z.add_mod_idemp_l by lia.
    f_equal. lia.
Qed.

(** The coefficients of [2^k] draws: [1] and [2^k] modulo [2^(k+1)]. *)
Lemma lcg_pow_residues k : (k <= 30)%nat ->
  (lcg_pow k).1 mod 2 ^ (Z.of_nat k + 1) = 1 /\ (lcg_pow k).2 mod 2 ^ (Z.of_nat k + 1) = 2 ^ Z.of_nat k.
Proof.
  intros Hk.
  assert (C : forallb (fun k => ((lcg_pow k).1 mod 2 ^ (Z.of_nat k + 1) =? 1) &&
                ((lcg_pow k).2 mod 2 ^ (Z.of_nat k + 1) =? 2 ^ Z.of_nat k)) (seq 0 31) = true)
    by (vm_compute; reflexivity).
  rewrite forallb_forall in C. specialize (C k). rewrite andb_true_iff, !Z.eqb_eq in C.
  apply C, in_seq. lia.
Qed.

Lemma mod_pow2_mod x k : 0 <= k <= 31 -> (x mod 2147483648) mod 2 ^ k = x mod 2 ^ k.
Proof.
  intros Hk. change 2147483648 with (2 ^ 31). replace 31 with (k + (31 - k)) at 1 by lia.
  rewrite Z.pow_add_r, Z.rem_mul_r by (try apply Z.pow_nonzero; try apply Z.pow_pos_nonneg; lia).
  rewrite (Z.mul_comm (2 ^ k)), Z_mod_plus_full, Z.mod_mod by (apply Z.pow_nonzero; lia). done.
Qed.

Lemma iter_block k (m : nat) s : (k <= 30)%nat -> let M := 2 ^ (Z.of_nat k + 1) in
  Nat.iter (2 ^ k * m) IncreaseSeed s mod M = (s + Z.of_nat m * 2 ^ Z.of_nat k) mod M.
Proof.
  intros Hk M. assert (HM : M <> 0) by (apply Z.pow_nonzero; lia).
  destruct (lcg_pow_residues k Hk) as [HA HB]. fold M in HA, HB.
  induction m as [|m IH].
  { rewrite Nat.mul_0_r. simpl. by rewrite Z.add_0_r. }
  replace (2 ^ k * S m)%nat with (2 ^ k + 2 ^ k * m)%nat by lia.
  rewrite Nat.iter_add, lcg_pow_spec. unfold M at 1. rewrite mod_pow2_mod by lia. fold M.
  rewrite Z.add_mod, Z.mul_mod, HA, HB, IH, Z.mul_1_l, Z.mod_mod by done.
  rewrite Z.add_mod_idemp_l by done. f_equal. lia.
Qed.

Lemma odd_part (n : nat) : (0 < n)%nat -> exists k m, n = (2 ^ k * (2 * m + 1))%nat.
Proof.
  induction n as [n IH] using lt_wf_ind. intros Hn.
  destruct (Nat.Even_or_Odd n) as [[h E]|[h E]].
  - destruct (IH h) as (k & m & Eh); [lia..|]. exists (S k), m. rewrite Nat.pow_succ_r'. lia.
  - exists O, h. simpl. lia.
Qed.

Lemma half_turn p t : 0 < p -> t mod (p * 2) <> (t + p) mod (p * 2).
Proof.
  intros Hp E. pose proof (Z.div_mod t (p * 2) ltac:(lia)). pose proof (Z.div_mod (t + p) (p * 2) ltac:(lia)).
  assert (Hz : p * (1 - 2 * ((t + p) / (p * 2) - t / (p * 2))) = 0) by lia.
  apply Z.mul_eq_0 in Hz. lia.
Qed.

(** C40. The generator behind [WebRtcSpl_RandU] has full period: the seeds
    after [i] and [j] draws differ unless [2^31] divides [j - i] (here: the
    draws are less than [2^31] apart), and after [2^31] draws the seed is back;
    so the comfort noise does not repeat. *)
Theorem rand_full_period s (i j : nat) : (i < j)%nat -> Z.of_nat j - Z.of_nat i < 2 ^ 31 ->
  0 <= s < 2 ^ 31 ->
  Nat.iter i IncreaseSeed s <> Nat.iter j IncreaseSeed s /\ Nat.iter (2 ^ 31) IncreaseSeed s = s.
Proof.
  intros Hij Hd Hs. split.
  - replace j with ((j - i) + i)%nat by lia. rewrite Nat.iter_add.
    set (t := Nat.iter i _ s). intros E.
    destruct (odd_part (j - i) ltac:(lia)) as (k & m & Em).
    assert (Hk : (k <= 30)%nat).
    { apply Nat.nlt_ge. intros Hk. assert (2 ^ 31 <= Z.of_nat (2 ^ k)).
      { rewrite Nat2Z.inj_pow. apply Z.pow_le_mono_r; lia. }
      nia. }
    apply (f_equal (fun x => x mod 2 ^ (Z.of_nat k + 1))) in E.
    rewrite Em in E. rewrite (iter_block k (2 * m + 1) t Hk) in E.
    rewrite Z.pow_add_r, Z.pow_1_r in E by lia.
    assert (Hp : 0 < 2 ^ Z.of_nat k) by (apply Z.pow_pos_nonneg; lia).
    replace (t + Z.of_nat (2 * m + 1) * 2 ^ Z.of_nat k)
      with (t + 2 ^ Z.of_nat k + Z.of_nat m * (2 ^ Z.of_nat k * 2)) in E by nia.
    rewrite Z_mod_plus_full in E. by apply (half_turn _ _ Hp) in E.
  - rewrite lcg_pow_spec. replace (lcg_pow 31) with (1, 0) by (vm_compute; reflexivity).
    cbn [fst snd]. rewrite Z.mod_small; lia.
Qed.

Lemma rand_full_period_witness :
  Nat.iter 0 IncreaseSeed 666 <> Nat.iter 3 IncreaseSeed 666 /\ Nat.iter (2 ^ 31) IncreaseSeed 666 = 666.
Proof. apply (rand_full_period 666 0 3); lia. Defined.

Lemma RandUArray_length n seed : length (RandUArray_loop n seed).1 = n.
Proof.
  revert seed. induction n as [|n IH]; intros seed; simpl; [done|].
  specialize (IH (IncreaseSeed seed)). destruct (RandUArray_loop n _). simpl in *. by f_equal.
Qed.

(** The draws are non-negative, and the seed stays below [2^31]. *)
Lemma RandUArray_range n seed : 0 <= seed < 2 ^ 31 ->
  Forall (fun r => 0 <= r <= 32767) (RandUArray_loop n seed).1 /\ 0 <= (RandUArray_loop n seed).2 < 2 ^ 31.
Proof.
  revert seed. induction n as [|n IH]; intros seed Hs; cbn [RandUArray_loop].
  { cbn. split; [apply Forall_nil_2|lia]. }
  unfold WebRtcSpl_RandU. cbv zeta beta iota.
  assert (H : 0 <= IncreaseSeed seed < 2 ^ 31) by (rewrite IncreaseSeed_mod; apply Z.mod_pos_bound; lia).
  specialize (IH _ H). destruct (RandUArray_loop n _) as [xs s']. cbn [fst snd] in *. destruct IH. split; [|done].
  apply Forall_cons_2; [|done]. assert (0 <= Z.shiftr (IncreaseSeed seed) 16 <= 32767).
  { rewrite Z.shiftr_div_pow2 by lia. change (2 ^ 16) with 65536. change (2 ^ 31) with 2147483648 in H. dlia. }
  rewrite i16_id by (unfold in_i16; lia). done.
Qed.

(** ** Filtering and correlation *)

(** The filter output before rounding, and what is stored for it. *)
Definition fir (data_in coefficients : list Z) (i : Z) : Z :=
  zsum (fun j => znth coefficients j * znth data_in (i - j)) 0 (length coefficients).
Definition fir_out (data_in coefficients : list Z) (i : Z) : Z :=
  clamp (-32768) 32767 (Z.shiftr (2048 + fir data_in coefficients i) 12).

(** The sum of the absolute values of the coefficients. *)
Definition gain (coefficients : list Z) : Z :=
  zsum (fun j => Z.abs (znth coefficients j)) 0 (length coefficients).

Lemma zsum_scale c g lo n : zsum (fun i => g i * c) lo n = zsum g lo n * c.
Proof. revert lo. induction n as [|n IH]; intros; cbn [zsum]; rewrite ?IH; lia. Qed.

Lemma znth_i16 v i : Forall in_i16 v -> in_i16 (znth v i).
Proof.
  intros Hv. unfold znth. destruct (aget v i) eqn:E; simpl; [|rng].
  by apply (Forall_aget _ _ _ _ Hv E).
Qed.

Lemma DownsampleFast_unfold data_in out coefficients i endpos factor k fuel :
  DownsampleFast_loop data_in out coefficients i endpos factor k (S fuel) =
  if i <? endpos then
    let* out_s32 := for_loop (fir_tap data_in coefficients i) 0 (length coefficients) 2048 in
    let* out := aset out k (WebRtcSpl_SatW32ToW16 (Z.shiftr out_s32 12)) in
    DownsampleFast_loop data_in out coefficients (u64 (i + u64 factor)) endpos factor (k + 1) fuel
  else Some out.
Proof. done. Qed.

Section downsample.
Context (data_in coefficients : list Z) (factor delay N : Z).
Context (Hdata : Forall in_i16 data_in) (Hcoef : Forall in_i16 coefficients).
Context (Hgain : 2048 + gain coefficients * 32768 <= 2147483647).

Lemma fir_loop i : zlen coefficients - 1 <= i < zlen data_in ->
  for_loop (fir_tap data_in coefficients i) 0 (length coefficients) 2048 =
  Some (2048 + fir data_in coefficients i).
Proof.
  intros Hi. apply for_loop_sum.
  - intros j acc Hj. unfold fir_tap. rewrite (aget_znth coefficients j), (aget_znth data_in (i - j)) by lia.
    simpl. rewrite (i32_id (_ * _)); [done|].
    pose proof (znth_i16 coefficients j Hcoef). pose proof (znth_i16 data_in (i - j) Hdata).
    unfold in_i16, in_i32 in *. nia.
  - etransitivity; [|exact Hgain]. apply Z.add_le_mono_l. unfold gain. rewrite <- zsum_scale.
    apply zsum_le. intros j Hj. rewrite Z.abs_mul. pose proof (znth_i16 data_in (i - j) Hdata).
    unfold in_i16 in *. nia.
Qed.

Context (HN : 0 < N < 4294967296) (Hf : 0 < factor < 2147483648).
Context (Hdelay : zlen coefficients - 1 <= delay < 4294967296) (Hd0 : 0 <= delay).
Context (Hend : delay + factor * (N - 1) + 1 <= zlen data_in).

Lemma downsample_loop n : forall k out, k + Z.of_nat n = N -> 0 <= k -> zlen out = N ->
  exists res, DownsampleFast_loop data_in out coefficients (delay + factor * k)
    (delay + factor * (N - 1) + 1) factor k (S n) = Some res /\ zlen res = N /\
    forall k', 0 <= k' < N ->
      aget res k' = if k' <? k then aget out k' else Some (fir_out data_in coefficients (delay + factor * k')).
Proof.
  induction n as [|n IH]; intros k out Hk Hk0 Hout; rewrite DownsampleFast_unfold.
  - destruct (Z.ltb_spec (delay + factor * k) (delay + factor * (N - 1) + 1)); [nia|].
    exists out. split_and!; [done|done|]. intros k' Hk'. destruct (Z.ltb_spec k' k); [done|lia].
  - destruct (Z.ltb_spec (delay + factor * k) (delay + factor * (N - 1) + 1)); [|nia].
    assert (0 <= factor * k <= factor * (N - 1))
      by (split; [apply Z.mul_nonneg_nonneg|apply Z.mul_le_mono_nonneg_l]; lia).
    rewrite fir_loop by lia. cbn [mbind option_bind].
    rewrite aset_Some by lia. cbn [mbind option_bind]. rewrite SatW32ToW16_clamp.
    rewrite (u64_id factor) by lia. rewrite u64_id by nia.
    replace (delay + factor * k + factor) with (delay + factor * (k + 1)) by lia.
    destruct (IH (k + 1) (<[Z.to_nat k := fir_out data_in coefficients (delay + factor * k)]> out))
      as (res & E & Hl & Hr); [lia|lia|by rewrite length_insert|].
    exists res. split_and!; [exact E|done|]. intros k' Hk'. rewrite Hr by done.
    destruct (Z.ltb_spec k' (k + 1)), (Z.ltb_spec k' k); try lia; [| |done].
    + unfold aget. destruct (0 <=? k'); [|done]. apply list_lookup_insert_ne. lia.
    + replace k' with k by lia. unfold aget. destruct (Z.leb_spec 0 k); [|lia].
      apply list_lookup_insert_eq. lia.
Qed.
End downsample.

(** [WebRtcSpl_DownsampleFastC] refuses an input that is too short and
    otherwise stores, for every output sample, the saturated FIR sum at
    position [delay + factor * k]; no read or write leaves its array when
    [delay >= coefficients_length - 1], and the accumulator does not overflow
    for coefficients of total gain below 16. *)
Theorem downsample_fast_correct data_in data_out coefficients factor delay :
  Forall in_i16 data_in -> Forall in_i16 coefficients ->
  gain coefficients <= 65535 -> coefficients <> [] ->
  0 < zlen data_out < 4294967296 -> zlen data_in < 4294967296 -> 0 < factor < 2147483648 ->
  zlen coefficients - 1 <= delay < 4294967296 ->
  let last := delay + factor * (zlen data_out - 1) + 1 in
  WebRtcSpl_DownsampleFastC data_in (zlen data_in) data_out (zlen data_out) coefficients factor delay =
  Some (if zlen data_in <? last then (-1, data_out)
        else (0, tab (fun k => fir_out data_in coefficients (delay + factor * k)) (zlen data_out))).
Proof.
  intros Hdata Hcoef Hgain Hne HN Hlen Hf Hdelay last. unfold WebRtcSpl_DownsampleFastC.
  rewrite (u64_id factor), (u64_id (zlen data_out - 1)) by lia.
  assert (0 < zlen coefficients) by (destruct coefficients; [done|simpl; lia]).
  assert (0 <= factor * (zlen data_out - 1) <= 2147483648 * 4294967296)
    by (split; [apply Z.mul_nonneg_nonneg|apply Z.mul_le_mono_nonneg]; lia).
  rewrite (u64_id (factor * _)), (u64_id (delay + _)), u64_id by lia. fold last.
  rewrite (proj2 (Z.eqb_neq (zlen data_out) 0)), (proj2 (Z.eqb_neq (zlen coefficients) 0)) by lia.
  cbn [orb]. destruct (Z.ltb_spec (zlen data_in) last) as [|Hend]; [done|].
  destruct (downsample_loop data_in coefficients factor delay (zlen data_out) Hdata Hcoef ltac:(lia)
    HN Hf Hdelay ltac:(lia) Hend (length data_out) 0 data_out) as (res & E & Hl & Hr); [lia..|].
  rewrite Z.mul_0_r, Z.add_0_r in E. change last with (delay + factor * (zlen data_out - 1) + 1).
  rewrite E. simpl. do 2 f_equal.
  apply list_ext; [apply Nat2Z.inj; rewrite length_tab by lia; lia|].
  intros k Hk. rewrite aget_tab, Hr by lia. destruct (Z.ltb_spec k 0); [lia|done].
Qed.

Lemma downsample_fast_correct_witness :
  WebRtcSpl_DownsampleFastC [100; 200; 300; 400] 4 [0; 0] 2 [2048; 2048] 2 1 = Some (0, [150; 350]).
Proof.
  etransitivity; [apply (downsample_fast_correct [100; 200; 300; 400] [0; 0] [2048; 2048] 2 1)|];
    try (vm_compute; reflexivity); try (vm_compute; lia); try done;
    forall_i16.
Defined.

Lemma shiftr_abs_le x s : 0 <= s <= 30 -> Z.abs x <= 1073741824 -> Z.abs (Z.shiftr x s) <= Z.shiftr 1073741824 s.
Proof.
  intros Hs Hx. pose proof (shiftr_mono x 1073741824 s ltac:(lia)).
  pose proof (shiftr_mono (- 1073741824) x s ltac:(lia)) as Hlo.
  enough (Z.shiftr (- 1073741824) s = - Z.shiftr 1073741824 s) by lia.
  rewrite !Z.shiftr_div_pow2 by lia.
  assert (E : 1073741824 = 2 ^ (30 - s) * 2 ^ s).
  { rewrite <- Z.pow_add_r by lia. by replace (30 - s + s) with 30 by lia. }
  change (-1073741824) with (Z.opp 1073741824). rewrite E, <- Z.mul_opp_l, !Z.div_mul by (apply Z.pow_nonzero; lia). done.
Qed.

(** Every lag of [WebRtcSpl_CrossCorrelationC] is the sum of the shifted
    products, when the lags stay inside [seq2] and [right_shifts] leaves room
    for the sum. *)
Theorem cross_correlation_correct seq1 seq2 dim_seq n right_shifts step :
  Forall in_i16 seq1 -> Forall in_i16 seq2 -> 0 <= dim_seq <= zlen seq1 -> 0 <= n -> 0 <= right_shifts <= 30 ->
  dim_seq * Z.shiftr 1073741824 right_shifts <= 2147483647 ->
  (forall k, 0 <= k < n -> 0 <= k * step /\ k * step + dim_seq <= zlen seq2) ->
  WebRtcSpl_CrossCorrelationC seq1 seq2 dim_seq n right_shifts step =
  Some (tab (fun k => zsum (fun j => Z.shiftr (znth seq1 j * znth seq2 (k * step + j)) right_shifts)
                        0 (Z.to_nat dim_seq)) n).
Proof.
  intros H1 H2 Hd Hn Hr Hs Hoff. unfold WebRtcSpl_CrossCorrelationC.
  enough (G : forall m k, 0 <= k -> k + Z.of_nat m = n ->
    CrossCorrelation_loop seq1 seq2 (k * step) dim_seq m right_shifts step =
    Some (tab (fun i => zsum (fun j => Z.shiftr (znth seq1 j * znth seq2 ((k + i) * step + j)) right_shifts)
                          0 (Z.to_nat dim_seq)) (Z.of_nat m))).
  { specialize (G (Z.to_nat n) 0 ltac:(lia) ltac:(lia)). rewrite Z.mul_0_l in G. rewrite G.
    rewrite Z2Nat.id by lia. done. }
  induction m as [|m IH]; intros k Hk Hm; cbn [CrossCorrelation_loop]; [done|].
  destruct (Hoff k ltac:(lia)) as [Ho1 Ho2].
  rewrite (for_loop_sum _ (fun j => Z.shiftr (znth seq1 j * znth seq2 (k * step + j)) right_shifts)).
  - cbn [mbind option_bind]. replace (k * step + step) with ((k + 1) * step) by lia.
    rewrite IH by lia. cbn [mbind option_bind]. f_equal.
    replace (Z.of_nat (S m)) with (1 + Z.of_nat m) by lia. rewrite tab_app by lia.
    rewrite tab_1, Z.add_0_l, Z.add_0_r. simpl. f_equal. apply tab_ext. intros i Hi.
    apply zsum_ext. intros j Hj. by rewrite Z.add_assoc.
  - intros j acc Hj. unfold corr_step.
    rewrite (aget_znth seq1 j), (aget_znth seq2 (k * step + j)) by lia. simpl.
    pose proof (znth_i16 seq1 j H1). pose proof (znth_i16 seq2 (k * step + j) H2).
    rewrite (i32_id (_ * _)); [done|]. unfold in_i16, in_i32 in *. nia.
  - change (Z.abs 0) with 0. rewrite Z.add_0_l. etransitivity; [|exact Hs].
    transitivity (zsum (fun _ => Z.shiftr 1073741824 right_shifts) 0 (Z.to_nat dim_seq)).
    + apply zsum_le. intros j Hj. apply shiftr_abs_le; [lia|].
      apply mul_i16; by apply znth_i16.
    + rewrite zsum_const, Z2Nat.id; lia.
Qed.

Lemma cross_correlation_correct_witness :
  WebRtcSpl_CrossCorrelationC [1; -2; 3] [4; 5; 6; 7] 3 2 1 1 = Some [6; 6].
Proof.
  etransitivity; [apply (cross_correlation_correct [1; -2; 3] [4; 5; 6; 7] 3 2 1 1)|];
    try (vm_compute; reflexivity); try (simpl; lia); try (by vm_compute);
    forall_i16.
Defined.

End SplVecSpec.
