(* ===== verification/RealFFT.v ===== *)
(** The fixed-point FFT of src/webrtc/common_audio/signal_processing:
    complex_bit_reverse.c, complex_fft.c with its table complex_fft_tables.h, and
    the real-valued wrappers of real_fft.c.

    [Module RealFFT] has the functions (the C versions, without the ARM
    assembler), [Module RealFFTSpec] their properties: the index arithmetic of
    the bit reversal, the absence of overflow in the butterflies and the bounds
    of all array accesses.  A complex array is the flat array of its [int16_t]
    parts, as in the source. *)

From S2P Require Import Prelude SplInl SplVec.

Module RealFFT.
Import Spl SplVec.

Definition kMaxFFTOrder : Z := 10.
Definition CFFTSFT : Z := 14.
Definition CFFTRND : Z := 1.
Definition CFFTRND2 : Z := 16384.
Definition CIFFTSFT : Z := 14.
Definition CIFFTRND : Z := 1.

Definition kSinTable1024 : list Z :=
  [
   0; 201; 402; 603; 804; 1005; 1206; 1406; 1607; 1808; 2009; 2209; 2410; 2610; 2811; 3011; 3211; 3411;
   3611; 3811; 4011; 4210; 4409; 4608; 4807; 5006; 5205; 5403; 5601; 5799; 5997; 6195; 6392; 6589; 6786;
   6982; 7179; 7375; 7571; 7766; 7961; 8156; 8351; 8545; 8739; 8932; 9126; 9319; 9511; 9703; 9895; 10087;
   10278; 10469; 10659; 10849; 11038; 11227; 11416; 11604; 11792; 11980; 12166; 12353; 12539; 12724; 12909;
   13094; 13278; 13462; 13645; 13827; 14009; 14191; 14372; 14552; 14732; 14911; 15090; 15268; 15446; 15623;
   15799; 15975; 16150; 16325; 16499; 16672; 16845; 17017; 17189; 17360; 17530; 17699; 17868; 18036; 18204;
   18371; 18537; 18702; 18867; 19031; 19194; 19357; 19519; 19680; 19840; 20000; 20159; 20317; 20474; 20631;
   20787; 20942; 21096; 21249; 21402; 21554; 21705; 21855; 22004; 22153; 22301; 22448; 22594; 22739; 22883;
   23027; 23169; 23311; 23452; 23592; 23731; 23869; 24006; 24143; 24278; 24413; 24546; 24679; 24811; 24942;
   25072; 25201; 25329; 25456; 25582; 25707; 25831; 25954; 26077; 26198; 26318; 26437; 26556; 26673; 26789;
   26905; 27019; 27132; 27244; 27355; 27466; 27575; 27683; 27790; 27896; 28001; 28105; 28208; 28309; 28410;
   28510; 28608; 28706; 28802; 28897; 28992; 29085; 29177; 29268; 29358; 29446; 29534; 29621; 29706; 29790;
   29873; 29955; 30036; 30116; 30195; 30272; 30349; 30424; 30498; 30571; 30643; 30713; 30783; 30851; 30918;
   30984; 31049; 31113; 31175; 31236; 31297; 31356; 31413; 31470; 31525; 31580; 31633; 31684; 31735; 31785;
   31833; 31880; 31926; 31970; 32014; 32056; 32097; 32137; 32176; 32213; 32249; 32284; 32318; 32350; 32382;
   32412; 32441; 32468; 32495; 32520; 32544; 32567; 32588; 32609; 32628; 32646; 32662; 32678; 32692; 32705;
   32717; 32727; 32736; 32744; 32751; 32757; 32761; 32764; 32766; 32767; 32766; 32764; 32761; 32757; 32751;
   32744; 32736; 32727; 32717; 32705; 32692; 32678; 32662; 32646; 32628; 32609; 32588; 32567; 32544; 32520;
   32495; 32468; 32441; 32412; 32382; 32350; 32318; 32284; 32249; 32213; 32176; 32137; 32097; 32056; 32014;
   31970; 31926; 31880; 31833; 31785; 31735; 31684; 31633; 31580; 31525; 31470; 31413; 31356; 31297; 31236;
   31175; 31113; 31049; 30984; 30918; 30851; 30783; 30713; 30643; 30571; 30498; 30424; 30349; 30272; 30195;
   30116; 30036; 29955; 29873; 29790; 29706; 29621; 29534; 29446; 29358; 29268; 29177; 29085; 28992; 28897;
   28802; 28706; 28608; 28510; 28410; 28309; 28208; 28105; 28001; 27896; 27790; 27683; 27575; 27466; 27355;
   27244; 27132; 27019; 26905; 26789; 26673; 26556; 26437; 26318; 26198; 26077; 25954; 25831; 25707; 25582;
   25456; 25329; 25201; 25072; 24942; 24811; 24679; 24546; 24413; 24278; 24143; 24006; 23869; 23731; 23592;
   23452; 23311; 23169; 23027; 22883; 22739; 22594; 22448; 22301; 22153; 22004; 21855; 21705; 21554; 21402;
   21249; 21096; 20942; 20787; 20631; 20474; 20317; 20159; 20000; 19840; 19680; 19519; 19357; 19194; 19031;
   18867; 18702; 18537; 18371; 18204; 18036; 17868; 17699; 17530; 17360; 17189; 17017; 16845; 16672; 16499;
   16325; 16150; 15975; 15799; 15623; 15446; 15268; 15090; 14911; 14732; 14552; 14372; 14191; 14009; 13827;
   13645; 13462; 13278; 13094; 12909; 12724; 12539; 12353; 12166; 11980; 11792; 11604; 11416; 11227; 11038;
   10849; 10659; 10469; 10278; 10087; 9895; 9703; 9511; 9319; 9126; 8932; 8739; 8545; 8351; 8156; 7961;
   7766; 7571; 7375; 7179; 6982; 6786; 6589; 6392; 6195; 5997; 5799; 5601; 5403; 5205; 5006; 4807; 4608;
   4409; 4210; 4011; 3811; 3611; 3411; 3211; 3011; 2811; 2610; 2410; 2209; 2009; 1808; 1607; 1406; 1206;
   1005; 804; 603; 402; 201; 0; -201; -402; -603; -804; -1005; -1206; -1406; -1607; -1808; -2009; -2209;
   -2410; -2610; -2811; -3011; -3211; -3411; -3611; -3811; -4011; -4210; -4409; -4608; -4807; -5006; -5205;
   -5403; -5601; -5799; -5997; -6195; -6392; -6589; -6786; -6982; -7179; -7375; -7571; -7766; -7961; -8156;
   -8351; -8545; -8739; -8932; -9126; -9319; -9511; -9703; -9895; -10087; -10278; -10469; -10659; -10849;
   -11038; -11227; -11416; -11604; -11792; -11980; -12166; -12353; -12539; -12724; -12909; -13094; -13278;
   -13462; -13645; -13827; -14009; -14191; -14372; -14552; -14732; -14911; -15090; -15268; -15446; -15623;
   -15799; -15975; -16150; -16325; -16499; -16672; -16845; -17017; -17189; -17360; -17530; -17699; -17868;
   -18036; -18204; -18371; -18537; -18702; -18867; -19031; -19194; -19357; -19519; -19680; -19840; -20000;
   -20159; -20317; -20474; -20631; -20787; -20942; -21096; -21249; -21402; -21554; -21705; -21855; -22004;
   -22153; -22301; -22448; -22594; -22739; -22883; -23027; -23169; -23311; -23452; -23592; -23731; -23869;
   -24006; -24143; -24278; -24413; -24546; -24679; -24811; -24942; -25072; -25201; -25329; -25456; -25582;
   -25707; -25831; -25954; -26077; -26198; -26318; -26437; -26556; -26673; -26789; -26905; -27019; -27132;
   -27244; -27355; -27466; -27575; -27683; -27790; -27896; -28001; -28105; -28208; -28309; -28410; -28510;
   -28608; -28706; -28802; -28897; -28992; -29085; -29177; -29268; -29358; -29446; -29534; -29621; -29706;
   -29790; -29873; -29955; -30036; -30116; -30195; -30272; -30349; -30424; -30498; -30571; -30643; -30713;
   -30783; -30851; -30918; -30984; -31049; -31113; -31175; -31236; -31297; -31356; -31413; -31470; -31525;
   -31580; -31633; -31684; -31735; -31785; -31833; -31880; -31926; -31970; -32014; -32056; -32097; -32137;
   -32176; -32213; -32249; -32284; -32318; -32350; -32382; -32412; -32441; -32468; -32495; -32520; -32544;
   -32567; -32588; -32609; -32628; -32646; -32662; -32678; -32692; -32705; -32717; -32727; -32736; -32744;
   -32751; -32757; -32761; -32764; -32766; -32767; -32766; -32764; -32761; -32757; -32751; -32744; -32736;
   -32727; -32717; -32705; -32692; -32678; -32662; -32646; -32628; -32609; -32588; -32567; -32544; -32520;
   -32495; -32468; -32441; -32412; -32382; -32350; -32318; -32284; -32249; -32213; -32176; -32137; -32097;
   -32056; -32014; -31970; -31926; -31880; -31833; -31785; -31735; -31684; -31633; -31580; -31525; -31470;
   -31413; -31356; -31297; -31236; -31175; -31113; -31049; -30984; -30918; -30851; -30783; -30713; -30643;
   -30571; -30498; -30424; -30349; -30272; -30195; -30116; -30036; -29955; -29873; -29790; -29706; -29621;
   -29534; -29446; -29358; -29268; -29177; -29085; -28992; -28897; -28802; -28706; -28608; -28510; -28410;
   -28309; -28208; -28105; -28001; -27896; -27790; -27683; -27575; -27466; -27355; -27244; -27132; -27019;
   -26905; -26789; -26673; -26556; -26437; -26318; -26198; -26077; -25954; -25831; -25707; -25582; -25456;
   -25329; -25201; -25072; -24942; -24811; -24679; -24546; -24413; -24278; -24143; -24006; -23869; -23731;
   -23592; -23452; -23311; -23169; -23027; -22883; -22739; -22594; -22448; -22301; -22153; -22004; -21855;
   -21705; -21554; -21402; -21249; -21096; -20942; -20787; -20631; -20474; -20317; -20159; -20000; -19840;
   -19680; -19519; -19357; -19194; -19031; -18867; -18702; -18537; -18371; -18204; -18036; -17868; -17699;
   -17530; -17360; -17189; -17017; -16845; -16672; -16499; -16325; -16150; -15975; -15799; -15623; -15446;
   -15268; -15090; -14911; -14732; -14552; -14372; -14191; -14009; -13827; -13645; -13462; -13278; -13094;
   -12909; -12724; -12539; -12353; -12166; -11980; -11792; -11604; -11416; -11227; -11038; -10849; -10659;
   -10469; -10278; -10087; -9895; -9703; -9511; -9319; -9126; -8932; -8739; -8545; -8351; -8156; -7961;
   -7766; -7571; -7375; -7179; -6982; -6786; -6589; -6392; -6195; -5997; -5799; -5601; -5403; -5205; -5006;
   -4807; -4608; -4409; -4210; -4011; -3811; -3611; -3411; -3211; -3011; -2811; -2610; -2410; -2209; -2009;
   -1808; -1607; -1406; -1206; -1005; -804; -603; -402; -201].

Definition index_7 : list Z :=
  [
   1; 64; 2; 32; 3; 96; 4; 16; 5; 80; 6; 48; 7; 112; 9; 72; 10; 40; 11; 104; 12; 24; 13; 88; 14; 56; 15;
   120; 17; 68; 18; 36; 19; 100; 21; 84; 22; 52; 23; 116; 25; 76; 26; 44; 27; 108; 29; 92; 30; 60; 31; 124;
   33; 66; 35; 98; 37; 82; 38; 50; 39; 114; 41; 74; 43; 106; 45; 90; 46; 58; 47; 122; 49; 70; 51; 102; 53;
   86; 55; 118; 57; 78; 59; 110; 61; 94; 63; 126; 67; 97; 69; 81; 71; 113; 75; 105; 77; 89; 79; 121; 83;
   101; 87; 117; 91; 109; 95; 125; 103; 115; 111; 123].

Definition index_8 : list Z :=
  [
   1; 128; 2; 64; 3; 192; 4; 32; 5; 160; 6; 96; 7; 224; 8; 16; 9; 144; 10; 80; 11; 208; 12; 48; 13; 176;
   14; 112; 15; 240; 17; 136; 18; 72; 19; 200; 20; 40; 21; 168; 22; 104; 23; 232; 25; 152; 26; 88; 27; 216;
   28; 56; 29; 184; 30; 120; 31; 248; 33; 132; 34; 68; 35; 196; 37; 164; 38; 100; 39; 228; 41; 148; 42; 84;
   43; 212; 44; 52; 45; 180; 46; 116; 47; 244; 49; 140; 50; 76; 51; 204; 53; 172; 54; 108; 55; 236; 57;
   156; 58; 92; 59; 220; 61; 188; 62; 124; 63; 252; 65; 130; 67; 194; 69; 162; 70; 98; 71; 226; 73; 146;
   74; 82; 75; 210; 77; 178; 78; 114; 79; 242; 81; 138; 83; 202; 85; 170; 86; 106; 87; 234; 89; 154; 91;
   218; 93; 186; 94; 122; 95; 250; 97; 134; 99; 198; 101; 166; 103; 230; 105; 150; 107; 214; 109; 182; 110;
   118; 111; 246; 113; 142; 115; 206; 117; 174; 119; 238; 121; 158; 123; 222; 125; 190; 127; 254; 131; 193;
   133; 161; 135; 225; 137; 145; 139; 209; 141; 177; 143; 241; 147; 201; 149; 169; 151; 233; 155; 217; 157;
   185; 159; 249; 163; 197; 167; 229; 171; 213; 173; 181; 175; 245; 179; 205; 183; 237; 187; 221; 191; 253;
   199; 227; 203; 211; 207; 243; 215; 235; 223; 251; 239; 247].

(** ** Bit reversal *)

(** Exchange of two complex numbers, each loaded and stored as one [int32_t]. *)
Definition swap_complex (complex_data : list Z) (a b : Z) : option (list Z) :=
  let* ar := aget complex_data (2 * a) in
  let* ai := aget complex_data (2 * a + 1) in
  let* br := aget complex_data (2 * b) in
  let* bi := aget complex_data (2 * b + 1) in
  let* d := aset complex_data (2 * a) br in
  let* d := aset d (2 * a + 1) bi in
  let* d := aset d (2 * b) ar in
  aset d (2 * b + 1) ai.

(** [do l >>= 1; while (l > bound)]; [None] when [fuel] turns are not enough. *)
Fixpoint halve_until (fuel : nat) (l bound : Z) : option Z :=
  match fuel with
  | O => None
  | S fuel' =>
      let l := Z.shiftr l 1 in
      if l >? bound then halve_until fuel' l bound else Some l
  end.

(** Turn [m] of the loop without tables, on [(complex_data, mr)]. *)
Definition bit_reverse_step (stages n m : Z) (s : list Z * Z) : option (list Z * Z) :=
  let '(complex_data, mr) := s in
  let nn := n - 1 in
  let* l := halve_until (Z.to_nat stages + 1) n (nn - mr) in
  let mr := Z.land mr (l - 1) + l in
  if mr <=? m then Some (complex_data, mr)
  else let* complex_data := swap_complex complex_data m mr in Some (complex_data, mr).

(** Turn [t] of the loop over a table, [m = 2 t]. *)
Definition table_swap (index : list Z) (t : Z) (d : list Z) : option (list Z) :=
  let m := 2 * t in
  let* a := aget index m in
  let* b := aget index (m + 1) in
  swap_complex d a b.

Definition WebRtcSpl_ComplexBitReverse (complex_data : list Z) (stages : Z) : option (list Z) :=
  if (stages =? 7) || (stages =? 8) then
    let '(len, index) := if stages =? 8 then (240, index_8) else (112, index_7) in
    for_loop (table_swap index) 0 (Z.to_nat (len / 2)) complex_data
  else
    let n := Z.shiftl 1 stages in
    let* (d, _) := for_loop (bit_reverse_step stages n) 1 (Z.to_nat (n - 1)) (complex_data, 0) in
    Some d.

(** ** Butterflies

    From the factor [wr + i wi], the number [q] at index [i] and [x] at index
    [j]: the numbers stored at [j] and at [i]. *)

Definition fft_bf (mode wr wi qr qi xr xi : Z) : Z * Z * Z * Z :=
  if mode =? 0 then
    let tr32 := Z.shiftr (i32 (wr * xr - wi * xi)) 15 in
    let ti32 := Z.shiftr (i32 (wr * xi + wi * xr)) 15 in
    (i16 (Z.shiftr (qr - tr32) 1), i16 (Z.shiftr (qi - ti32) 1),
     i16 (Z.shiftr (qr + tr32) 1), i16 (Z.shiftr (qi + ti32) 1))
  else
    let tr32 := Z.shiftr (i32 (wr * xr - wi * xi + CFFTRND)) (15 - CFFTSFT) in
    let ti32 := Z.shiftr (i32 (wr * xi + wi * xr + CFFTRND)) (15 - CFFTSFT) in
    let qr32 := i32 (Z.shiftl qr CFFTSFT) in
    let qi32 := i32 (Z.shiftl qi CFFTSFT) in
    (i16 (Z.shiftr (i32 (qr32 - tr32 + CFFTRND2)) (1 + CFFTSFT)),
     i16 (Z.shiftr (i32 (qi32 - ti32 + CFFTRND2)) (1 + CFFTSFT)),
     i16 (Z.shiftr (i32 (qr32 + tr32 + CFFTRND2)) (1 + CFFTSFT)),
     i16 (Z.shiftr (i32 (qi32 + ti32 + CFFTRND2)) (1 + CFFTSFT))).

Definition ifft_bf (mode shift round2 wr wi qr qi xr xi : Z) : Z * Z * Z * Z :=
  if mode =? 0 then
    let tr32 := Z.shiftr (i32 (wr * xr - wi * xi)) 15 in
    let ti32 := Z.shiftr (i32 (wr * xi + wi * xr)) 15 in
    (i16 (Z.shiftr (qr - tr32) shift), i16 (Z.shiftr (qi - ti32) shift),
     i16 (Z.shiftr (qr + tr32) shift), i16 (Z.shiftr (qi + ti32) shift))
  else
    let tr32 := Z.shiftr (i32 (wr * xr - wi * xi + CIFFTRND)) (15 - CIFFTSFT) in
    let ti32 := Z.shiftr (i32 (wr * xi + wi * xr + CIFFTRND)) (15 - CIFFTSFT) in
    let qr32 := i32 (Z.shiftl qr CIFFTSFT) in
    let qi32 := i32 (Z.shiftl qi CIFFTSFT) in
    (i16 (Z.shiftr (i32 (qr32 - tr32 + round2)) (shift + CIFFTSFT)),
     i16 (Z.shiftr (i32 (qi32 - ti32 + round2)) (shift + CIFFTSFT)),
     i16 (Z.shiftr (i32 (qr32 + tr32 + round2)) (shift + CIFFTSFT)),
     i16 (Z.shiftr (i32 (qi32 + ti32 + round2)) (shift + CIFFTSFT))).

(** The body of the innermost loop: loads, butterfly, stores. *)
Definition butterfly (bf : Z -> Z -> Z -> Z -> Z * Z * Z * Z) (i j : Z) (frfi : list Z) : option (list Z) :=
  let* xr := aget frfi (2 * j) in
  let* xi := aget frfi (2 * j + 1) in
  let* qr := aget frfi (2 * i) in
  let* qi := aget frfi (2 * i + 1) in
  let '(jr, ji, ir, ii) := bf qr qi xr xi in
  let* f := aset frfi (2 * j) jr in
  let* f := aset f (2 * j + 1) ji in
  let* f := aset f (2 * i) ir in
  aset f (2 * i + 1) ii.

(** [for (i = m; i < n; i += istep)]. *)
Definition inner_loop (bf : Z -> Z -> Z -> Z -> Z * Z * Z * Z) (n l m : Z) (frfi : list Z) : option (list Z) :=
  let istep := Z.shiftl l 1 in
  for_loop (fun t f => let i := m + t * istep in butterfly bf i (i + l) f)
    0 (Z.to_nat ((n - m + istep - 1) / istep)) frfi.

(** One turn of the [while (l < n)] loop: [for (m = 0; m < l; ++m)] with the
    factors of the table; [sign] is the sign of [wi]. *)
Definition fft_stage (bf : Z -> Z -> Z -> Z -> Z -> Z -> Z * Z * Z * Z) (sign n l k : Z) (frfi : list Z)
    : option (list Z) :=
  for_loop (fun m f =>
    let j := Z.shiftl m k in
    let* wr := aget kSinTable1024 (j + 256) in
    let* s := aget kSinTable1024 j in
    inner_loop (bf wr (i16 (sign * s))) n l m f) 0 (Z.to_nat l) frfi.

(** The [while (l < n)] loop of the forward transform, for the butterfly [bf] of
    the mode; [None] when [fuel] turns
    are not enough. *)
Fixpoint fft_loop (bf : Z -> Z -> Z -> Z -> Z -> Z -> Z * Z * Z * Z) (fuel : nat) (n l k : Z) (frfi : list Z)
    : option (list Z) :=
  if l <? n then
    match fuel with
    | O => None
    | S fuel' =>
        let* frfi := fft_stage bf (-1) n l k frfi in
        fft_loop bf fuel' n (Z.shiftl l 1) (k - 1) frfi
    end
  else Some frfi.

Definition WebRtcSpl_ComplexFFT (frfi : list Z) (stages mode : Z) : option (Z * list Z) :=
  let n := Z.shiftl 1 stages in
  if n >? 1024 then Some (-1, frfi)
  else let* frfi := fft_loop (fft_bf mode) (Z.to_nat stages) n 1 9 frfi in Some (0, frfi).

(** The scaling of a stage of the inverse transform, by the largest value:
    [(shift, round2)]. *)
Definition ifft_scaling (tmp32 : Z) : Z * Z :=
  let '(shift, round2) := (0, 8192) in
  let '(shift, round2) := if tmp32 >? 13573 then (shift + 1, Z.shiftl round2 1) else (shift, round2) in
  if tmp32 >? 27146 then (shift + 1, Z.shiftl round2 1) else (shift, round2).

Fixpoint ifft_loop (bf : Z -> Z -> Z -> Z -> Z -> Z -> Z -> Z -> Z * Z * Z * Z) (fuel : nat) (n l k scale : Z)
    (frfi : list Z) : option (Z * list Z) :=
  if l <? n then
    match fuel with
    | O => None
    | S fuel' =>
        let* _ := c_assert (range_ok frfi 0 (2 * n)) in
        let* tmp32 := WebRtcSpl_MaxAbsValueW16C (slice frfi 0 (2 * n)) in
        let '(shift, round2) := ifft_scaling tmp32 in
        let* frfi := fft_stage (bf shift round2) 1 n l k frfi in
        ifft_loop bf fuel' n (Z.shiftl l 1) (k - 1) (scale + shift) frfi
    end
  else Some (scale, frfi).

Definition WebRtcSpl_ComplexIFFT (frfi : list Z) (stages mode : Z) : option (Z * list Z) :=
  let n := Z.shiftl 1 stages in
  if n >? 1024 then Some (-1, frfi)
  else ifft_loop (ifft_bf mode) (Z.to_nat stages) n 1 9 0 frfi.

(** ** Real-valued transforms *)

Record RealFFT := mkRealFFT { order : Z }.

(** [malloc_self] is the outcome of the allocation. *)
Definition WebRtcSpl_CreateRealFFT (malloc_self : bool) (order : Z) : option RealFFT :=
  if (order >? kMaxFFTOrder) || (order <? 0) then None
  else if negb malloc_self then None
  else Some (mkRealFFT order).

(** The uninitialised [complex_buffer] of the wrappers is the argument
    [buffer], of [2 << kMaxFFTOrder] elements. *)
Definition WebRtcSpl_RealForwardFFT (buffer : list Z) (self : RealFFT) (real_data_in complex_data_out : list Z)
    : option (Z * list Z) :=
  let n := Z.shiftl 1 (order self) in
  let* b := for_loop (fun i b =>
      let* x := aget real_data_in i in
      let* b := aset b (2 * i) x in
      aset b (2 * i + 1) 0) 0 (Z.to_nat n) buffer in
  let* b := WebRtcSpl_ComplexBitReverse b (order self) in
  let* (result, b) := WebRtcSpl_ComplexFFT b (order self) 1 in
  let* out := memcpy complex_data_out 0 b 0 (n + 2) in
  Some (result, out).

(** Turn [t] of the loop that mirrors the spectrum, [i = n + 2 + 2 t]. *)
Definition mirror_step (n : Z) (complex_data_in : list Z) (t : Z) (b : list Z) : option (list Z) :=
  let i := n + 2 + 2 * t in
  let* x := aget complex_data_in (2 * n - i) in
  let* b := aset b i x in
  let* y := aget complex_data_in (2 * n - i + 1) in
  aset b (i + 1) (i16 (- y)).

Definition WebRtcSpl_RealInverseFFT (buffer : list Z) (self : RealFFT) (complex_data_in real_data_out : list Z)
    : option (Z * list Z) :=
  let n := Z.shiftl 1 (order self) in
  let* b := memcpy buffer 0 complex_data_in 0 (n + 2) in
  let* b := for_loop (mirror_step n complex_data_in) 0 (Z.to_nat ((n - 2 + 1) / 2)) b in
  let* b := WebRtcSpl_ComplexBitReverse b (order self) in
  let* (result, b) := WebRtcSpl_ComplexIFFT b (order self) 1 in
  let* out := for_loop (fun i out =>
      let* x := aget b (2 * i) in
      aset out i x) 0 (Z.to_nat n) real_data_out in
  Some (result, out).

End RealFFT.

Module RealFFTSpec.
Import Spl SplVec SplVecSpec RealFFT.

(** ** Two runs of a loop side by side *)

Lemma for_loop_inv2 {S} (P : Z -> S -> Prop) body body' lo n s :
  P lo s ->
  (forall i s, lo <= i < lo + Z.of_nat n -> P i s ->
     exists s', body i s = Some s' /\ body' i s = Some s' /\ P (i + 1) s') ->
  exists s', for_loop body lo n s = Some s' /\ for_loop body' lo n s = Some s' /\ P (lo + Z.of_nat n) s'.
Proof.
  revert lo s. induction n as [|n IH]; intros lo s H0 Hstep.
  - exists s. rewrite Z.add_0_r. done.
  - replace (lo + Z.of_nat (Datatypes.S n)) with (lo + 1 + Z.of_nat n) in * by lia.
    destruct (Hstep lo s) as (s1 & E1 & E1' & H1); [lia|done|].
    destruct (IH (lo + 1) s1 H1) as (s2 & E2 & E2' & H2).
    { intros i s' Hi. apply Hstep. lia. }
    exists s2. cbn [for_loop]. rewrite E1, E1'. done.
Qed.

(** ** The factors *)

Record twiddle_ok (wr wi : Z) : Prop := mkTwiddle {
  tw_norm : wr * wr + wi * wi <= 1073741824;
  tw_sum : Z.abs wr + Z.abs wi <= 46338 }.

Definition twiddle_check (j : Z) : bool :=
  match aget kSinTable1024 (j + 256), aget kSinTable1024 j with
  | Some wr, Some s =>
      (wr * wr + s * s <=? 1073741824) && (Z.abs wr + Z.abs s <=? 46338) && (Z.abs s <=? 32767)
  | _, _ => false
  end.

Lemma twiddles j : 0 <= j < 512 -> exists wr s,
  aget kSinTable1024 (j + 256) = Some wr /\ aget kSinTable1024 j = Some s /\
  forall sign, Z.abs sign = 1 -> twiddle_ok wr (i16 (sign * s)).
Proof.
  intros Hj.
  assert (H : twiddle_check j = true) by (apply (all_from_spec twiddle_check 0 512); [by vm_compute|lia]).
  unfold twiddle_check in H. destruct (aget _ (j + 256)) as [wr|]; [|done]. destruct (aget _ j) as [s|]; [|done].
  breflect. exists wr, s. split_and!; [done..|]. intros sign Hs.
  rewrite i16_id by (unfold in_i16; lia). constructor; [|lia].
  assert (sign = 1 \/ sign = -1) as [-> | ->] by lia; lia.
Qed.

(** ** One stage *)

Definition holds (P : Z -> Z -> Prop) (f : list Z) (c : Z) : Prop :=
  exists re im, aget f (2 * c) = Some re /\ aget f (2 * c + 1) = Some im /\ P re im.

Definition all_c (P : Z -> Z -> Prop) (n : Z) (f : list Z) : Prop := forall c, 0 <= c < n -> holds P f c.

(** [bf] and [bf'] agree on [P] and lead from [P] to [Q]. *)
Definition bf_spec (P Q : Z -> Z -> Prop) (bf bf' : Z -> Z -> Z -> Z -> Z * Z * Z * Z) : Prop :=
  forall qr qi xr xi, P qr qi -> P xr xi ->
    bf qr qi xr xi = bf' qr qi xr xi /\
    let '(jr, ji, ir, ii) := bf' qr qi xr xi in Q jr ji /\ Q ir ii.

Lemma butterfly_ok P Q bf bf' i j f : bf_spec P Q bf bf' -> i <> j -> holds P f i -> holds P f j ->
  exists f', butterfly bf i j f = Some f' /\ butterfly bf' i j f = Some f' /\ length f' = length f /\
    holds Q f' i /\ holds Q f' j /\
    forall p, p <> 2 * i -> p <> 2 * i + 1 -> p <> 2 * j -> p <> 2 * j + 1 -> aget f' p = aget f p.
Proof.
  intros Hbf Hij (qr & qi & Eqr & Eqi & Hq) (xr & xi & Exr & Exi & Hx).
  destruct (Hbf qr qi xr xi Hq Hx) as [Heq Hout].
  pose proof (aget_Some_range _ _ _ Eqr). pose proof (aget_Some_range _ _ _ Eqi).
  pose proof (aget_Some_range _ _ _ Exr). pose proof (aget_Some_range _ _ _ Exi).
  unfold butterfly. rewrite Exr, Exi, Eqr, Eqi. cbn [mbind option_bind]. rewrite Heq.
  destruct (bf' qr qi xr xi) as [[[jr ji] ir] ii]. destruct Hout as [Hj Hi].
  destruct (aset f (2 * j) jr) as [f1|] eqn:E1; [|rewrite aset_Some in E1 by lia; done].
  pose proof (length_aset _ _ _ _ E1). cbn [mbind option_bind].
  destruct (aset f1 (2 * j + 1) ji) as [f2|] eqn:E2; [|rewrite aset_Some in E2 by lia; done].
  pose proof (length_aset _ _ _ _ E2). cbn [mbind option_bind].
  destruct (aset f2 (2 * i) ir) as [f3|] eqn:E3; [|rewrite aset_Some in E3 by lia; done].
  pose proof (length_aset _ _ _ _ E3). cbn [mbind option_bind].
  destruct (aset f3 (2 * i + 1) ii) as [f4|] eqn:E4; [|rewrite aset_Some in E4 by lia; done].
  pose proof (length_aset _ _ _ _ E4).
  assert (Hget : forall p, aget f4 p = if p =? 2 * i + 1 then Some ii else if p =? 2 * i then Some ir
     else if p =? 2 * j + 1 then Some ji else if p =? 2 * j then Some jr else aget f p).
  { intros p. by rewrite (aget_aset _ _ _ _ _ E4), (aget_aset _ _ _ _ _ E3), (aget_aset _ _ _ _ _ E2),
      (aget_aset _ _ _ _ _ E1). }
  exists f4. split_and!; [done|done|congruence| | |].
  - exists ir, ii. rewrite !Hget. repeat (case_match; breflect; try lia); done.
  - exists jr, ji. rewrite !Hget. repeat (case_match; breflect; try lia); done.
  - intros p ????. rewrite Hget. repeat (case_match; breflect; try lia). done.
Qed.

(** The numbers a stage with half-step [l] has replaced before turn [t] of
    column [m]. *)
Definition done_at (l m t c : Z) : Prop := c mod l < m \/ c mod l = m /\ c / (2 * l) < t.

Lemma column_index l m t c : 0 < l -> 0 <= m < l -> 0 <= t ->
  c mod l = m /\ c / (2 * l) = t <-> c = m + t * (2 * l) \/ c = m + t * (2 * l) + l.
Proof.
  intros Hl Hm Ht. split.
  - intros [H1 H2]. pose proof (Z.div_mod c (2 * l) ltac:(lia)) as E. rewrite H2 in E.
    pose proof (Z.mod_pos_bound c (2 * l) ltac:(lia)).
    assert (Hr : (c mod (2 * l)) mod l = m).
    { rewrite <- H1. rewrite E at 2. replace (2 * l * t + c mod (2 * l)) with (c mod (2 * l) + (2 * t) * l) by lia.
      by rewrite Z_mod_plus_full. }
    destruct (Z.ltb_spec (c mod (2 * l)) l) as [Hc|Hc].
    + rewrite Z.mod_small in Hr by lia. left. lia.
    + right. replace (c mod (2 * l)) with (c mod (2 * l) - l + 1 * l) in Hr by lia.
      rewrite Z_mod_plus_full, Z.mod_small in Hr by lia. lia.
  - intros [-> | ->].
    + replace (m + t * (2 * l)) with (m + (2 * t) * l) at 1 by lia. rewrite Z_mod_plus_full, Z.mod_small by lia.
      rewrite Z.div_add, Z.div_small by lia. lia.
    + replace (m + t * (2 * l) + l) with (m + (2 * t + 1) * l) at 1 by lia. rewrite Z_mod_plus_full, Z.mod_small by lia.
      replace (m + t * (2 * l) + l) with (m + l + t * (2 * l)) by lia. rewrite Z.div_add, Z.div_small by lia. lia.
Qed.

Section stage.
Context (P Q : Z -> Z -> Prop) (n l N : Z) (f0 : list Z).
Context (Hl : 0 < l) (HN : 0 <= N) (Hn : n = 2 * l * N).

Record stage_inv (m t : Z) (f : list Z) : Prop := mkStageInv {
si_len : length f = length f0;
si_done : forall c, 0 <= c < n -> done_at l m t c -> holds Q f c;
si_pending : forall c, 0 <= c < n -> ~ done_at l m t c -> holds P f c;
si_rest : forall p, 2 * n <= p -> aget f p = aget f0 p }.

Lemma holds_frame R f f' c : aget f' (2 * c) = aget f (2 * c) -> aget f' (2 * c + 1) = aget f (2 * c + 1) ->
holds R f c -> holds R f' c.
Proof. intros E1 E2 (re & im & H1 & H2 & H). exists re, im. by rewrite E1, E2. Qed.

Lemma stage_step bf bf' m t f : bf_spec P Q bf bf' -> 0 <= m < l -> 0 <= t < N -> stage_inv m t f ->
let i := m + t * (2 * l) in
exists f', butterfly bf i (i + l) f = Some f' /\ butterfly bf' i (i + l) f = Some f' /\ stage_inv m (t + 1) f'.
Proof.
intros Hbf Hm Ht [Hlen Hd Hp Hr] i. pose proof (column_index l m t) as Hci.
assert (Hi : 0 <= i /\ i + l < n) by (subst i n; nia).
destruct (proj2 (Hci i Hl Hm ltac:(lia)) ltac:(left; lia)) as [Hi1 Hi2].
destruct (proj2 (Hci (i + l) Hl Hm ltac:(lia)) ltac:(right; lia)) as [Hj1 Hj2].
destruct (butterfly_ok P Q bf bf' i (i + l) f Hbf ltac:(lia)) as (f' & E & E' & Hl' & Hqi & Hqj & Hoth).
{ apply Hp; [lia|]. unfold done_at. lia. }
{ apply Hp; [lia|]. unfold done_at. lia. }
exists f'. split_and!; [done..|]. constructor.
- congruence.
- intros c Hc Hdone. destruct (decide (c = i)) as [->|]; [done|]. destruct (decide (c = i + l)) as [->|]; [done|].
  apply (holds_frame Q f); [apply Hoth; lia..|]. apply Hd; [done|].
  destruct Hdone as [?|[Hc1 Hc2]]; [by left|right]. split; [done|].
  destruct (decide (c / (2 * l) = t)); [|lia]. exfalso.
  pose proof (proj1 (Hci c Hl Hm ltac:(lia)) ltac:(done)). lia.
- intros c Hc Hnd. assert (c <> i /\ c <> i + l) as [Hc1 Hc2].
  { split; intros ->; apply Hnd; right; lia. }
  apply (holds_frame P f); [apply Hoth; lia..|]. apply Hp; [done|].
  intros Hdone. apply Hnd. destruct Hdone; [by left|right; lia].
- intros p Hp'. rewrite Hoth by lia. by apply Hr.
Qed.

Lemma column_count m : 0 <= m < l -> (n - m + 2 * l - 1) / (2 * l) = N.
Proof.
intros Hm. replace (n - m + 2 * l - 1) with (2 * l - 1 - m + N * (2 * l)) by lia.
rewrite Z.div_add, Z.div_small by lia. lia.
Qed.

Lemma div_lt_N c : 0 <= c < n -> 0 <= c / (2 * l) < N.
Proof. intros Hc. split; [apply Z.div_pos; lia|apply Z.div_lt_upper_bound; lia]. Qed.

Lemma inner_loop_ok bf bf' m f : bf_spec P Q bf bf' -> 0 <= m < l -> stage_inv m 0 f ->
exists f', inner_loop bf n l m f = Some f' /\ inner_loop bf' n l m f = Some f' /\ stage_inv (m + 1) 0 f'.
Proof.
intros Hbf Hm Hf. unfold inner_loop. replace (Z.shiftl l 1) with (2 * l) by (rewrite Z.shiftl_mul_pow2 by lia; lia).
rewrite column_count by done.
destruct (for_loop_inv2 (stage_inv m) (fun t f => let i := m + t * (2 * l) in butterfly bf i (i + l) f)
  (fun t f => let i := m + t * (2 * l) in butterfly bf' i (i + l) f) 0 (Z.to_nat N) f Hf) as (f' & E & E' & Hf').
{ intros t s Ht Hs. apply stage_step; [done|done|lia|done]. }
exists f'. split_and!; [done..|]. destruct Hf' as [Hlen Hd Hp Hr]. constructor; [done| | |done].
- intros c Hc Hdone. apply Hd; [done|]. pose proof (div_lt_N c Hc). pose proof (Z.mod_pos_bound c l Hl).
  unfold done_at in *. lia.
- intros c Hc Hnd. apply Hp; [done|]. intros Hdone. apply Hnd. unfold done_at in *. lia.
Qed.
End stage.

Lemma fft_stage_ok P Q bf bf' sign n l k f : Z.abs sign = 1 ->
  (forall wr wi, twiddle_ok wr wi -> bf_spec P Q (bf wr wi) (bf' wr wi)) ->
  0 < l -> (exists N, 0 <= N /\ n = 2 * l * N) -> 0 <= k -> l * 2 ^ k = 512 -> all_c P n f ->
  exists f', fft_stage bf sign n l k f = Some f' /\ fft_stage bf' sign n l k f = Some f' /\
    all_c Q n f' /\ length f' = length f /\ forall p, 2 * n <= p -> aget f' p = aget f p.
Proof.
  intros Hs Hbf Hl (N & HN & Hn) Hk Hlk HP. unfold fft_stage.
  edestruct (for_loop_inv2 (fun m f' => stage_inv P Q n l f m 0 f')) as (f' & E & E' & Hf').
  3:{ exists f'. split_and!; [exact E|exact E'|..]; destruct Hf' as [Hlen Hd Hp Hr]; [|done..].
      intros c Hc. apply Hd; [done|]. left. pose proof (Z.mod_pos_bound c l Hl). lia. }
  - constructor; [done| |intros c Hc _; by apply HP|done].
    intros c Hc [?|[? ?]]; pose proof (Z.mod_pos_bound c l Hl); [lia|]. pose proof (Z.div_pos c (2 * l)). lia.
  - intros m s Hm Hi. cbv beta.
    assert (Hj : 0 <= Z.shiftl m k < 512).
    { rewrite Z.shiftl_mul_pow2 by lia. assert (0 < 2 ^ k) by (apply Z.pow_pos_nonneg; lia). nia. }
    destruct (twiddles _ Hj) as (wr & w & -> & -> & Htw). cbn [mbind option_bind].
    apply (inner_loop_ok P Q n l N f Hl HN Hn); [exact (Hbf _ _ (Htw sign Hs))|lia|done].
Qed.

(** ** The butterfly over unbounded integers

    [(q -+ w x / 2^15) / 2^shift], rounded; the product is first rounded to 14
    fractional bits. *)

Definition exact_bf (shift wr wi qr qi xr xi : Z) : Z * Z * Z * Z :=
  let tr := (wr * xr - wi * xi + 1) / 2 in
  let ti := (wr * xi + wi * xr + 1) / 2 in
  let round x := (x + 2 ^ (13 + shift)) / 2 ^ (14 + shift) in
  (round (qr * 16384 - tr), round (qi * 16384 - ti), round (qr * 16384 + tr), round (qi * 16384 + ti)).

(** Magnitude at most [A / 4]. *)
Definition mag (A re im : Z) : Prop := 16 * (re * re + im * im) <= A * A.
Definition box (M re im : Z) : Prop := Z.abs re <= M /\ Z.abs im <= M.
Definition int16s (re im : Z) : Prop := in_i16 re /\ in_i16 im.

Lemma triangle a b c d X Y : 0 <= X -> 0 <= Y -> a * a + b * b <= X * X -> c * c + d * d <= Y * Y ->
  (a + c) * (a + c) + (b + d) * (b + d) <= (X + Y) * (X + Y).
Proof.
  intros HX HY H1 H2. assert (a * c + b * d <= X * Y); [|lia].
  apply Z.square_le_simpl_nonneg; [nia|].
  assert (H3 : (a * c + b * d) * (a * c + b * d) <= (a * a + b * b) * (c * c + d * d))
    by (pose proof (Z.square_nonneg (a * d - b * c)); lia).
  assert (H4 : (a * a + b * b) * (c * c + d * d) <= (X * X) * (Y * Y)) by (apply Z.mul_le_mono_nonneg; nia).
  lia.
Qed.

Lemma mag_box A re im : 0 <= A -> mag A re im -> 4 * Z.abs re <= A /\ 4 * Z.abs im <= A.
Proof.
  unfold mag. intros HA H. split; (apply Z.square_le_simpl_nonneg; [done|]); nia.
Qed.

Lemma mag_half A qr qi ur ui dr di zr zi : 0 <= A ->
  mag A qr qi -> 16 * (ur * ur + ui * ui) <= (32768 * A) * (32768 * A) ->
  Z.abs dr <= 32769 -> Z.abs di <= 32769 ->
  65536 * zr = 32768 * qr + ur + dr -> 65536 * zi = 32768 * qi + ui + di -> mag (A + 3) zr zi.
Proof.
  unfold mag. intros HA Hq Hu Hdr Hdi Er Ei.
  assert (H1 : (4 * (32768 * qr) + 4 * ur) * (4 * (32768 * qr) + 4 * ur) +
               (4 * (32768 * qi) + 4 * ui) * (4 * (32768 * qi) + 4 * ui) <= (32768 * A + 32768 * A) * (32768 * A + 32768 * A)).
  { apply triangle; lia. }
  assert (H2 : (4 * dr) * (4 * dr) + (4 * di) * (4 * di) <= 196608 * 196608) by nia.
  pose proof (triangle _ _ _ _ (32768 * A + 32768 * A) 196608 ltac:(lia) ltac:(lia) H1 H2) as H3.
  replace (4 * (32768 * qr) + 4 * ur + 4 * dr) with (4 * (65536 * zr)) in H3 by lia.
  replace (4 * (32768 * qi) + 4 * ui + 4 * di) with (4 * (65536 * zi)) in H3 by lia.
  lia.
Qed.

Lemma product_mag A wr wi xr xi : twiddle_ok wr wi -> mag A xr xi ->
  16 * ((wr * xr - wi * xi) * (wr * xr - wi * xi) + (wr * xi + wi * xr) * (wr * xi + wi * xr)) <=
    (32768 * A) * (32768 * A).
Proof.
  unfold mag. intros [Hw _] Hx.
  replace (16 * _) with ((wr * wr + wi * wi) * (16 * (xr * xr + xi * xi))) by lia.
  replace (32768 * A * (32768 * A)) with (1073741824 * (A * A)) by lia.
  apply Z.mul_le_mono_nonneg; nia.
Qed.

Lemma exact_bf_mag A wr wi qr qi xr xi : 0 <= A -> twiddle_ok wr wi -> mag A qr qi -> mag A xr xi ->
  let '(jr, ji, ir, ii) := exact_bf 1 wr wi qr qi xr xi in mag (A + 3) jr ji /\ mag (A + 3) ir ii.
Proof.
  intros HA Hw Hq Hx. unfold exact_bf. pose proof (product_mag A wr wi xr xi Hw Hx) as Hu.
  set (ur := wr * xr - wi * xi) in *. set (ui := wr * xi + wi * xr) in *.
  change (2 ^ (13 + 1)) with 16384. change (2 ^ (14 + 1)) with 32768. split.
  - apply (mag_half A qr qi (- ur) (- ui)
      (65536 * ((qr * 16384 - (ur + 1) / 2 + 16384) / 32768) - 32768 * qr + ur)
      (65536 * ((qi * 16384 - (ui + 1) / 2 + 16384) / 32768) - 32768 * qi + ui)); try done; try lia; dlia.
  - apply (mag_half A qr qi ur ui
      (65536 * ((qr * 16384 + (ur + 1) / 2 + 16384) / 32768) - 32768 * qr - ur)
      (65536 * ((qi * 16384 + (ui + 1) / 2 + 16384) / 32768) - 32768 * qi - ui)); try done; try lia; dlia.
Qed.

(** Products with a factor fit 32 bits. *)
Lemma product_box M wr wi xr xi : twiddle_ok wr wi -> box M xr xi ->
  Z.abs (wr * xr - wi * xi) <= 46338 * M /\ Z.abs (wr * xi + wi * xr) <= 46338 * M.
Proof. unfold box. intros [_ Hw] [H1 H2]. nia. Qed.

Lemma shifts_14 a : Z.shiftl a 14 = a * 16384 /\ Z.shiftr a 1 = a / 2.
Proof. by rewrite Z.shiftl_mul_pow2, Z.shiftr_div_pow2 by lia. Qed.

Lemma fft_bf_exact wr wi qr qi xr xi : twiddle_ok wr wi -> box 32768 qr qi -> box 32768 xr xi ->
  fft_bf 1 wr wi qr qi xr xi =
  let '(jr, ji, ir, ii) := exact_bf 1 wr wi qr qi xr xi in (i16 jr, i16 ji, i16 ir, i16 ii).
Proof.
  intros Hw [Hq1 Hq2] Hx. destruct (product_box _ _ _ _ _ Hw Hx) as [Hu1 Hu2]. unfold fft_bf, exact_bf.
  change (1 =? 0) with false. cbv iota. unfold CFFTSFT, CFFTRND, CFFTRND2.
  set (ur := wr * xr - wi * xi) in *. set (ui := wr * xi + wi * xr) in *.
  change (15 - 14) with 1. change (1 + 14) with 15. change (2 ^ (13 + 1)) with 16384. change (2 ^ (14 + 1)) with 32768.
  rewrite !(proj1 (shifts_14 _)), !(proj2 (shifts_14 _)), !Z.shiftr_div_pow2 by lia. change (2 ^ 15) with 32768.
  rewrite (i32_id (ur + 1)), (i32_id (ui + 1)), (i32_id (qr * 16384)), (i32_id (qi * 16384)) by (unfold in_i32; lia).
  rewrite !i32_id by (unfold in_i32; dlia). done.
Qed.

Lemma ifft_bf_exact shift wr wi qr qi xr xi : 0 <= shift <= 2 -> twiddle_ok wr wi ->
  box 32768 qr qi -> box 32768 xr xi ->
  ifft_bf 1 shift (2 ^ (13 + shift)) wr wi qr qi xr xi =
  let '(jr, ji, ir, ii) := exact_bf shift wr wi qr qi xr xi in (i16 jr, i16 ji, i16 ir, i16 ii).
Proof.
  intros Hs Hw [Hq1 Hq2] Hx. destruct (product_box _ _ _ _ _ Hw Hx) as [Hu1 Hu2]. unfold ifft_bf, exact_bf.
  change (1 =? 0) with false. cbv iota. unfold CIFFTSFT, CIFFTRND.
  set (ur := wr * xr - wi * xi) in *. set (ui := wr * xi + wi * xr) in *.
  change (15 - 14) with 1. assert (Hp : 0 < 2 ^ (13 + shift) <= 32768).
  { split; [apply Z.pow_pos_nonneg; lia|]. apply (Z.pow_le_mono_r 2 (13 + shift) 15); lia. }
  set (r := 2 ^ (13 + shift)) in *.
  rewrite !(proj1 (shifts_14 _)), !(proj2 (shifts_14 _)), !Z.shiftr_div_pow2 by lia.
  replace (shift + 14) with (14 + shift) by lia.
  rewrite (i32_id (ur + 1)), (i32_id (ui + 1)), (i32_id (qr * 16384)), (i32_id (qi * 16384)) by (unfold in_i32; lia).
  rewrite !i32_id by (unfold in_i32; dlia). done.
Qed.

(** The butterfly of the low-accuracy mode of the inverse transform, over unbounded integers. *)
Definition exact_low_bf (shift wr wi qr qi xr xi : Z) : Z * Z * Z * Z :=
  let tr := (wr * xr - wi * xi) / 32768 in
  let ti := (wr * xi + wi * xr) / 32768 in
  ((qr - tr) / 2 ^ shift, (qi - ti) / 2 ^ shift, (qr + tr) / 2 ^ shift, (qi + ti) / 2 ^ shift).

Lemma ifft_bf_low shift round2 wr wi qr qi xr xi : 0 <= shift -> twiddle_ok wr wi -> box 32768 xr xi ->
  ifft_bf 0 shift round2 wr wi qr qi xr xi =
  let '(jr, ji, ir, ii) := exact_low_bf shift wr wi qr qi xr xi in (i16 jr, i16 ji, i16 ir, i16 ii).
Proof.
  intros Hs Hw Hx. destruct (product_box _ _ _ _ _ Hw Hx) as [Hu1 Hu2]. unfold ifft_bf, exact_low_bf. change (0 =? 0) with true. cbv iota zeta.
  rewrite (i32_id (wr * xr - wi * xi)), (i32_id (wr * xi + wi * xr)) by (unfold in_i32; lia).
  rewrite !Z.shiftr_div_pow2 by lia. done.
Qed.

Lemma exact_low_bf_box M shift wr wi qr qi xr xi : twiddle_ok wr wi -> box M qr qi -> box M xr xi ->
  M <= 13573 /\ shift = 0 \/ M <= 27146 /\ shift = 1 \/ M <= 32768 /\ shift = 2 ->
  let '(jr, ji, ir, ii) := exact_low_bf shift wr wi qr qi xr xi in int16s jr ji /\ int16s ir ii.
Proof.
  intros Hw [Hq1 Hq2] Hx Hs. destruct (product_box _ _ _ _ _ Hw Hx) as [Hu1 Hu2]. unfold exact_low_bf.
  set (ur := wr * xr - wi * xi) in *. set (ui := wr * xi + wi * xr) in *. cbv zeta. unfold int16s, in_i16.
  destruct Hs as [[HM ->]|[[HM ->]|[HM ->]]]; [change (2 ^ 0) with 1|change (2 ^ 1) with 2|change (2 ^ 2) with 4]; dlia.
Qed.

(** The largest value tells the scaling that keeps the next stage in range. *)
Lemma exact_bf_box M shift wr wi qr qi xr xi : twiddle_ok wr wi -> box M qr qi -> box M xr xi ->
  M <= 13573 /\ shift = 0 \/ M <= 27146 /\ shift = 1 \/ M <= 32768 /\ shift = 2 ->
  let '(jr, ji, ir, ii) := exact_bf shift wr wi qr qi xr xi in int16s jr ji /\ int16s ir ii.
Proof.
  intros Hw [Hq1 Hq2] Hx Hs. destruct (product_box _ _ _ _ _ Hw Hx) as [Hu1 Hu2]. unfold exact_bf.
  set (ur := wr * xr - wi * xi) in *. set (ui := wr * xi + wi * xr) in *. unfold int16s, in_i16.
  destruct Hs as [[HM ->]|[[HM ->]|[HM ->]]];
    [change (2 ^ (13 + 0)) with 8192; change (2 ^ (14 + 0)) with 16384
    |change (2 ^ (13 + 1)) with 16384; change (2 ^ (14 + 1)) with 32768
    |change (2 ^ (13 + 2)) with 32768; change (2 ^ (14 + 2)) with 65536]; dlia.
Qed.

(** ** All stages *)

Lemma stage_shape stages a : 0 <= a < stages -> stages <= 10 ->
  0 < 2 ^ a /\ (exists N, 0 <= N /\ 2 ^ stages = 2 * 2 ^ a * N) /\ 0 <= 9 - a /\ 2 ^ a * 2 ^ (9 - a) = 512 /\
  Z.shiftl (2 ^ a) 1 = 2 ^ (a + 1) /\ (2 ^ a <? 2 ^ stages) = true.
Proof.
  intros Ha Hs. split_and!; [apply Z.pow_pos_nonneg; lia| |lia| | |].
  - exists (2 ^ (stages - (a + 1))). split; [apply Z.pow_nonneg; lia|].
    replace (2 * 2 ^ a) with (2 ^ (a + 1)) by (rewrite Z.pow_add_r by lia; lia).
    rewrite <- Z.pow_add_r by lia. f_equal. lia.
  - rewrite <- Z.pow_add_r by lia. by replace (a + (9 - a)) with 9 by lia.
  - rewrite Z.shiftl_mul_pow2, Z.pow_add_r by lia. lia.
  - apply Z.ltb_lt, Z.pow_lt_mono_r; lia.
Qed.

(** The loop of the forward transform, for butterflies that lead from [F a] to
    [F (a + 1)] in stage [a]. *)
Lemma fft_loop_ok (F : Z -> Z -> Z -> Prop) bf bf' stages fuel : stages <= 10 ->
  (forall a wr wi, 0 <= a < stages -> twiddle_ok wr wi -> bf_spec (F a) (F (a + 1)) (bf wr wi) (bf' wr wi)) ->
  forall a f, 0 <= a -> a + Z.of_nat fuel = stages -> all_c (F a) (2 ^ stages) f ->
  exists f', fft_loop bf fuel (2 ^ stages) (2 ^ a) (9 - a) f = Some f' /\
    fft_loop bf' fuel (2 ^ stages) (2 ^ a) (9 - a) f = Some f' /\
    all_c (F stages) (2 ^ stages) f' /\ length f' = length f /\
    forall p, 2 * 2 ^ stages <= p -> aget f' p = aget f p.
Proof.
  intros Hst Hbf. induction fuel as [|fuel IH]; intros a f Ha Hs Hf.
  - replace a with stages in * by lia. cbn [fft_loop]. rewrite Z.ltb_irrefl. eauto 10.
  - destruct (stage_shape stages a) as (Hl & HN & Hk & H512 & Hsh & Hlt); [lia..|].
    cbn [fft_loop]. rewrite Hlt.
    destruct (fft_stage_ok (F a) (F (a + 1)) bf bf' (-1) (2 ^ stages) (2 ^ a) (9 - a) f)
      as (f1 & E1 & E1' & Hf1 & Hl1 & Hr1); [done| |done..|].
    { intros wr wi Hw. apply Hbf; [lia|done]. }
    rewrite E1, E1', Hsh. cbn [mbind option_bind]. replace (9 - a - 1) with (9 - (a + 1)) by lia.
    destruct (IH (a + 1) f1) as (f2 & E2 & E2' & Hf2 & Hl2 & Hr2); [lia|lia|done|].
    exists f2. split_and!; [done..|congruence|]. intros p Hp. rewrite Hr2 by done. by apply Hr1.
Qed.

Lemma max_abs_box n f : 0 < n -> all_c int16s n f -> 2 * n <= zlen f ->
  exists M, WebRtcSpl_MaxAbsValueW16C (slice f 0 (2 * n)) = Some M /\ 0 <= M <= 32767 /\
    all_c (box (if M =? 32767 then 32768 else M)) n f.
Proof.
  intros Hn Hf Hlen.
  assert (Hs : zlen (slice f 0 (2 * n)) = 2 * n) by (apply length_slice; lia).
  assert (Hf' : forall p x, 0 <= p < 2 * n -> aget f p = Some x -> in_i16 x).
  { intros p x Hp Hx. destruct (Hf (p / 2)) as (re & im & E1 & E2 & H1 & H2); [dlia|].
    assert (p = 2 * (p / 2) \/ p = 2 * (p / 2) + 1) as [Ep|Ep] by dlia; rewrite <- Ep in *; congruence. }
  destruct (MaxAbsValue_bound (slice f 0 (2 * n))) as (M & E & HM & Hall).
  - intros E. rewrite E in Hs. simpl in Hs. lia.
  - apply Forall_lookup_2. intros k x Hx. pose proof (lookup_lt_Some _ _ _ Hx).
    rewrite <- aget_nat, aget_slice in Hx by lia. eapply Hf'; [|exact Hx]. lia.
  - exists M. split_and!; [done|lia|lia|]. intros c Hc. destruct (Hf c Hc) as (re & im & E1 & E2 & H1 & H2).
    exists re, im. split_and!; [done..|].
    assert (Hb : forall p x, 0 <= p < 2 * n -> aget f p = Some x -> Z.abs x <= M \/ M = 32767).
    { intros p x Hp Hx. rewrite <- (Z.add_0_l p), <- (aget_slice f 0 (2 * n)) in Hx by lia.
      by apply (Forall_aget _ _ _ _ Hall) in Hx. }
    pose proof (Hb (2 * c) re ltac:(lia) E1). pose proof (Hb (2 * c + 1) im ltac:(lia) E2).
    unfold box, int16s, in_i16 in *. destruct (Z.eqb_spec M 32767); lia.
Qed.

Lemma ifft_scaling_ok M : 0 <= M <= 32767 ->
  let '(shift, round2) := ifft_scaling M in
  let M' := if M =? 32767 then 32768 else M in
  0 <= shift <= 2 /\ round2 = 2 ^ (13 + shift) /\ M' <= 32768 /\
  (M' <= 13573 /\ shift = 0 \/ M' <= 27146 /\ shift = 1 \/ M' <= 32768 /\ shift = 2).
Proof.
  intros HM. unfold ifft_scaling.
  destruct (Z.gtb_spec M 13573), (Z.gtb_spec M 27146), (Z.eqb_spec M 32767); cbn -[Z.pow]; try lia;
    split_and!; try lia; done.
Qed.

(** The butterfly of the inverse transform over unbounded integers, in both modes. *)
Definition exact_ifft_bf (mode shift round2 wr wi qr qi xr xi : Z) : Z * Z * Z * Z :=
  if mode =? 0 then exact_low_bf shift wr wi qr qi xr xi else exact_bf shift wr wi qr qi xr xi.

Lemma ifft_bf_ok mode M shift wr wi : twiddle_ok wr wi -> 0 <= shift <= 2 -> M <= 32768 ->
  M <= 13573 /\ shift = 0 \/ M <= 27146 /\ shift = 1 \/ M <= 32768 /\ shift = 2 ->
  bf_spec (box M) int16s (ifft_bf mode shift (2 ^ (13 + shift)) wr wi) (exact_ifft_bf mode shift (2 ^ (13 + shift)) wr wi).
Proof.
  intros Hw Hs HM Hcase qr qi xr xi Hq Hx. assert (Hb : forall re im, box M re im -> box 32768 re im) by (unfold box; lia).
  unfold exact_ifft_bf. destruct (Z.eqb_spec mode 0) as [->|Hmode].
  - rewrite ifft_bf_low by (done || lia || by apply Hb). pose proof (exact_low_bf_box M shift wr wi qr qi xr xi Hw Hq Hx Hcase) as Hout.
    destruct (exact_low_bf shift wr wi qr qi xr xi) as [[[jr ji] ir] ii]. split; [|done]. destruct Hout as [[? ?] [? ?]]. by rewrite !i16_id.
  - assert (E : ifft_bf mode = ifft_bf 1) by (unfold ifft_bf; by rewrite (proj2 (Z.eqb_neq mode 0) Hmode)). rewrite E.
    rewrite ifft_bf_exact by (done || by apply Hb). pose proof (exact_bf_box M shift wr wi qr qi xr xi Hw Hq Hx Hcase) as Hout.
    destruct (exact_bf shift wr wi qr qi xr xi) as [[[jr ji] ir] ii]. split; [|done]. destruct Hout as [[? ?] [? ?]]. by rewrite !i16_id.
Qed.

Lemma ifft_loop_ok mode stages fuel : stages <= 10 ->
  forall a f scale, 0 <= a -> a + Z.of_nat fuel = stages -> all_c int16s (2 ^ stages) f -> 2 * 2 ^ stages <= zlen f ->
  exists r f', ifft_loop (ifft_bf mode) fuel (2 ^ stages) (2 ^ a) (9 - a) scale f = Some (r, f') /\
    ifft_loop (exact_ifft_bf mode) fuel (2 ^ stages) (2 ^ a) (9 - a) scale f = Some (r, f') /\
    all_c int16s (2 ^ stages) f' /\ length f' = length f /\ scale <= r <= scale + 2 * Z.of_nat fuel.
Proof.
  intros Hst. induction fuel as [|fuel IH]; intros a f scale Ha Hs Hf Hlen.
  - replace a with stages in * by lia. cbn [ifft_loop]. rewrite Z.ltb_irrefl. exists scale, f.
    split_and!; try done; lia.
  - destruct (stage_shape stages a) as (Hl & HN & Hk & H512 & Hsh & Hlt); [lia..|].
    assert (Hp : 0 < 2 ^ stages) by (apply Z.pow_pos_nonneg; lia).
    cbn [ifft_loop]. rewrite Hlt. rewrite (proj2 (range_ok_spec f 0 (2 * 2 ^ stages))) by lia.
    cbn [c_assert mbind option_bind]. destruct (max_abs_box (2 ^ stages) f Hp Hf Hlen) as (M & -> & HM & Hbox).
    cbn [mbind option_bind]. pose proof (ifft_scaling_ok M HM) as Hsc. destruct (ifft_scaling M) as [shift round2].
    destruct Hsc as (Hshift & -> & HM' & Hcase). set (M' := if M =? 32767 then 32768 else M) in *.
    destruct (fft_stage_ok (box M') int16s (ifft_bf mode shift (2 ^ (13 + shift)))
      (exact_ifft_bf mode shift (2 ^ (13 + shift))) 1 (2 ^ stages) (2 ^ a) (9 - a) f)
      as (f1 & E1 & E1' & Hf1 & Hl1 & Hr1); [done| |done..|].
    { intros wr wi Hw. by apply ifft_bf_ok. }
    rewrite E1, E1', Hsh. cbn [mbind option_bind]. replace (9 - a - 1) with (9 - (a + 1)) by lia.
    destruct (IH (a + 1) f1 (scale + shift)) as (r & f2 & E2 & E2' & Hf2 & Hl2 & Hr2); [lia..|done|lia|].
    exists r, f2. split_and!; try done; try congruence; lia.
Qed.

(** ** Bit reversal

    The exchanges do not look at the data: what they do to the array of its own
    indices, which evaluation shows, they do to every array. *)

(** The low [k] bits of [x] in reverse order. *)
Fixpoint rev_bits (k : nat) (x : Z) : Z :=
  match k with O => 0 | S k' => x mod 2 * 2 ^ Z.of_nat k' + rev_bits k' (x / 2) end.

(** Where entry [p] of the flat array comes from. *)
Definition rev_index (k : nat) (p : Z) : Z := 2 * rev_bits k (p / 2) + p mod 2.

(** [d] is the index array [ix], read in [g], before [rest]. *)
Definition renamed (g : Z -> Z) (rest ix d : list Z) : Prop := d = (g <$> ix) ++ rest.

Lemma aget_renamed (g : Z -> Z) (rest ix : list Z) i x : aget ix i = Some x -> aget ((g <$> ix) ++ rest) i = Some (g x).
Proof.
  intros H. pose proof (aget_Some_range _ _ _ H). rewrite aget_app, length_fmap by lia.
  destruct (Z.ltb_spec i (zlen ix)); [|lia]. unfold aget in *. destruct (0 <=? i); [|done].
  by rewrite list_lookup_fmap, H.
Qed.

Lemma aset_renamed (g : Z -> Z) (rest ix ix' : list Z) i x : aset ix i x = Some ix' ->
  aset ((g <$> ix) ++ rest) i (g x) = Some ((g <$> ix') ++ rest).
Proof.
  unfold aset. rewrite length_app, length_fmap.
  destruct (Z.leb_spec 0 i), (Z.ltb_spec i (zlen ix)); simpl; try done. intros [= <-].
  destruct (Z.ltb_spec i (Z.of_nat (length ix + length rest))); [|lia]. f_equal.
  rewrite insert_app_l by (rewrite length_fmap; lia). by rewrite list_fmap_insert.
Qed.

Ltac step_renamed H :=
  match type of H with
  | mbind _ (aget ?l ?i) = Some _ =>
      let E := fresh "E" in destruct (aget l i) eqn:E; [|done]; cbn [mbind option_bind] in H;
      rewrite (aget_renamed _ _ _ _ _ E); cbn [mbind option_bind]
  | mbind _ (aset ?l ?i ?x) = Some _ =>
      let E := fresh "E" in destruct (aset l i x) eqn:E; [|done]; cbn [mbind option_bind] in H;
      rewrite (aset_renamed _ _ _ _ _ _ E); cbn [mbind option_bind]
  end.

Lemma swap_renamed (g : Z -> Z) (rest ix ix' : list Z) a b : swap_complex ix a b = Some ix' ->
  swap_complex ((g <$> ix) ++ rest) a b = Some ((g <$> ix') ++ rest).
Proof.
  unfold swap_complex. intros H. repeat step_renamed H. by apply aset_renamed.
Qed.

Lemma for_loop_sim {S T} (R : S -> T -> Prop) body body' lo n s s' t :
  (forall i s s' t, body i s = Some s' -> R s t -> exists t', body' i t = Some t' /\ R s' t') ->
  R s t -> for_loop body lo n s = Some s' -> exists t', for_loop body' lo n t = Some t' /\ R s' t'.
Proof.
  intros Hb. revert lo s t. induction n as [|n IH]; intros lo s t HR H; cbn [for_loop] in *.
  - injection H as <-. eauto.
  - destruct (body lo s) as [s1|] eqn:E; [|done]. destruct (Hb _ _ _ _ E HR) as (t1 & -> & H1). by apply (IH _ s1).
Qed.

Lemma table_swap_renamed (g : Z -> Z) (rest index : list Z) i s s' t : table_swap index i s = Some s' ->
  renamed g rest s t -> exists t', table_swap index i t = Some t' /\ renamed g rest s' t'.
Proof.
  intros H ->. unfold table_swap in *. cbv zeta in *. destruct (aget index (2 * i)) as [a|]; [|done].
  destruct (aget index (2 * i + 1)) as [b|]; [|done]. cbn [mbind option_bind] in *.
  eexists. split; [by apply swap_renamed|done].
Qed.

Lemma bit_reverse_step_renamed (g : Z -> Z) (rest : list Z) stages n i (s s' t : list Z * Z) :
  bit_reverse_step stages n i s = Some s' -> renamed g rest s.1 t.1 /\ s.2 = t.2 ->
  exists t', bit_reverse_step stages n i t = Some t' /\ renamed g rest s'.1 t'.1 /\ s'.2 = t'.2.
Proof.
  destruct s as [s1 s2], s' as [s1' s2'], t as [t1 t2]. intros H [Ht1 Ht2]. cbn in Ht1, Ht2. subst t2.
  rewrite Ht1. clear Ht1.
  unfold bit_reverse_step in *. destruct (halve_until _ _ _) as [l|]; [|done]. cbn [mbind option_bind] in *.
  destruct (_ <=? i); [injection H as <- <-; eexists; split; [done|by split]|].
  destruct (swap_complex s1 i _) as [d1|] eqn:E; [|done]. injection H as <- <-.
  rewrite (swap_renamed g rest _ _ _ _ E). eexists. split; [done|by split].
Qed.

Lemma bit_reverse_renamed (g : Z -> Z) (rest ix ix' : list Z) stages : WebRtcSpl_ComplexBitReverse ix stages = Some ix' ->
  WebRtcSpl_ComplexBitReverse ((g <$> ix) ++ rest) stages = Some ((g <$> ix') ++ rest).
Proof.
  unfold WebRtcSpl_ComplexBitReverse. destruct ((stages =? 7) || (stages =? 8)).
  - destruct (if stages =? 8 then (240, index_8) else (112, index_7)) as [len index]. intros H.
    destruct (for_loop_sim (renamed g rest) (table_swap index) (table_swap index) 0 (Z.to_nat (len / 2)) ix ix'
      ((g <$> ix) ++ rest) (table_swap_renamed g rest index) eq_refl H) as (t & -> & ->). done.
  - intros H. destruct (for_loop (bit_reverse_step stages (Z.shiftl 1 stages)) 1 _ (ix, 0)) as [[d mr]|] eqn:E; [|done].
    injection H as <-.
    destruct (for_loop_sim (fun s t => renamed g rest s.1 t.1 /\ s.2 = t.2) _
      (bit_reverse_step stages (Z.shiftl 1 stages)) _ _ (ix, 0) (d, mr) ((g <$> ix) ++ rest, 0)
      (bit_reverse_step_renamed g rest stages (Z.shiftl 1 stages))
      (conj eq_refl eq_refl) E) as ([d' mr'] & -> & [Hd _]). cbn in *. by rewrite Hd.
Qed.

Definition bit_reverse_check (stages : nat) : bool :=
  let n := 2 ^ Z.of_nat stages in
  match WebRtcSpl_ComplexBitReverse (seqZ 0 (2 * n)) (Z.of_nat stages) with
  | Some ix => bool_decide (ix = rev_index stages <$> seqZ 0 (2 * n)) &&
               forallb (fun p => (0 <=? rev_bits stages p) && (rev_bits stages p <? n) &&
                                 (rev_bits stages (rev_bits stages p) =? p)) (seqZ 0 n)
  | None => false
  end.

Lemma bit_reverse_checked stages : (stages <= 10)%nat -> bit_reverse_check stages = true.
Proof.
  intros H. assert (C : forallb bit_reverse_check (seq 0 11) = true) by (vm_compute; reflexivity).
  rewrite forallb_forall in C. apply C, in_seq. lia.
Qed.

Lemma rev_bits_ok k c : (k <= 10)%nat -> 0 <= c < 2 ^ Z.of_nat k ->
  0 <= rev_bits k c < 2 ^ Z.of_nat k /\ rev_bits k (rev_bits k c) = c.
Proof.
  intros Hk Hc. pose proof (bit_reverse_checked k Hk) as H. unfold bit_reverse_check in H.
  destruct (WebRtcSpl_ComplexBitReverse _ _); [|done]. apply andb_true_iff in H as [_ H].
  rewrite forallb_forall in H. specialize (H c). rewrite !andb_true_iff, Z.eqb_eq, Z.leb_le, Z.ltb_lt in H.
  destruct H as [[? ?] ?]; [|done]. apply list_elem_of_In, elem_of_seqZ. lia.
Qed.

Lemma split_indices d m : 0 <= m <= zlen d -> d = (znth d <$> seqZ 0 m) ++ drop (Z.to_nat m) d.
Proof.
  intros Hm. rewrite <- (take_drop (Z.to_nat m) d) at 1. f_equal. change (znth d <$> seqZ 0 m) with (tab (znth d) m).
  apply list_ext; [apply Nat2Z.inj; rewrite length_tab, length_take by lia; lia|].
  rewrite length_take. intros i Hi. rewrite aget_tab by lia. rewrite <- aget_znth by lia.
  unfold aget. destruct (0 <=? i); [|done]. apply lookup_take_lt. lia.
Qed.

(** What the bit reversal does to any array. *)
Lemma bit_reverse_ok k d : (k <= 10)%nat -> 2 * 2 ^ Z.of_nat k <= zlen d ->
  exists d', WebRtcSpl_ComplexBitReverse d (Z.of_nat k) = Some d' /\ length d' = length d /\
    (forall c, 0 <= c < 2 ^ Z.of_nat k -> aget d' (2 * c) = aget d (2 * rev_bits k c) /\
       aget d' (2 * c + 1) = aget d (2 * rev_bits k c + 1)) /\
    (forall p, 2 * 2 ^ Z.of_nat k <= p -> aget d' p = aget d p).
Proof.
  intros Hk Hlen. pose proof (bit_reverse_checked k Hk) as H. unfold bit_reverse_check in H.
  set (n := 2 ^ Z.of_nat k) in *. assert (Hn : 0 < n) by (apply Z.pow_pos_nonneg; lia).
  destruct (WebRtcSpl_ComplexBitReverse (seqZ 0 (2 * n)) (Z.of_nat k)) as [ix|] eqn:E; [|done].
  apply andb_true_iff in H as [H _]. apply bool_decide_eq_true in H. subst ix.
  pose proof (split_indices d (2 * n) ltac:(lia)) as Hd. set (rest := drop (Z.to_nat (2 * n)) d) in *.
  apply (bit_reverse_renamed (znth d) rest) in E. rewrite <- Hd in E. eexists. split; [exact E|].
  assert (Hl : zlen (znth d <$> (rev_index k <$> seqZ 0 (2 * n))) = 2 * n) by (rewrite !length_fmap, length_seqZ; lia).
  assert (Hix : forall p, 0 <= p < 2 * n ->
    aget ((znth d <$> (rev_index k <$> seqZ 0 (2 * n))) ++ rest) p = Some (znth d (rev_index k p))).
  { intros p Hp. rewrite aget_app by lia. destruct (Z.ltb_spec p (zlen (znth d <$> (rev_index k <$> seqZ 0 (2 * n))))); [|lia].
    rewrite <- list_fmap_compose. by apply (aget_tab (znth d ∘ rev_index k)). }
  split_and!.
  - unfold rest. rewrite length_app, length_drop. lia.
  - intros c Hc. destruct (rev_bits_ok k c Hk Hc) as [Hr _]. fold n in Hr.
    rewrite !Hix by lia. unfold rev_index.
    replace (2 * c / 2) with c by dlia. replace ((2 * c) mod 2) with 0 by dlia.
    replace ((2 * c + 1) / 2) with c by dlia. replace ((2 * c + 1) mod 2) with 1 by dlia.
    rewrite Z.add_0_r, <- !aget_znth by lia. done.
  - intros p Hp. rewrite aget_app by lia.
    destruct (Z.ltb_spec p (zlen (znth d <$> (rev_index k <$> seqZ 0 (2 * n))))); [lia|]. rewrite Hl.
    unfold rest, aget. destruct (Z.leb_spec 0 p), (Z.leb_spec 0 (p - 2 * n)); try lia.
    rewrite lookup_drop. f_equal. lia.
Qed.

Lemma bit_reverse_all_c P k d d' : (k <= 10)%nat -> 2 * 2 ^ Z.of_nat k <= zlen d ->
  WebRtcSpl_ComplexBitReverse d (Z.of_nat k) = Some d' -> all_c P (2 ^ Z.of_nat k) d -> all_c P (2 ^ Z.of_nat k) d'.
Proof.
  intros Hk Hl E HP c Hc. destruct (bit_reverse_ok k d Hk Hl) as (d1 & E1 & _ & Hg & _).
  rewrite E in E1. injection E1 as <-. destruct (Hg c Hc) as [E1 E2].
  destruct (rev_bits_ok k c Hk Hc) as [Hr _]. destruct (HP _ Hr) as (re & im & H1 & H2 & H).
  exists re, im. by rewrite E1, E2.
Qed.

(** ** The real-valued transforms *)

(** An array with its first [m] entries replaced. *)
Lemma prefix_determined (g : Z -> Z) m (b b' : list Z) : 0 <= m <= zlen b -> length b' = length b ->
  (forall p, aget b' p = if (0 <=? p) && (p <? m) then Some (g p) else aget b p) ->
  b' = tab g m ++ drop (Z.to_nat m) b.
Proof.
  intros Hm Hl Hg. pose proof (length_tab g m ltac:(lia)). apply list_ext; [rewrite length_app, length_drop; lia|].
  intros p Hp. rewrite Hg, aget_app by lia.
  destruct (Z.leb_spec 0 p), (Z.ltb_spec p m), (Z.ltb_spec p (zlen (tab g m))); try lia; cbn [andb].
  - by rewrite aget_tab by lia.
  - unfold aget. destruct (Z.leb_spec 0 p), (Z.leb_spec 0 (p - zlen (tab g m))); try lia.
    rewrite lookup_drop. f_equal. lia.
Qed.

(** The input with zeros for the imaginary parts. *)
Lemma interleave_ok (P : Z -> Z -> Prop) n x b : 0 <= n <= zlen x -> 2 * n <= zlen b ->
  (forall i, 0 <= i < n -> P (znth x i) 0) ->
  exists b', for_loop (fun i b => let* x := aget x i in let* b := aset b (2 * i) x in aset b (2 * i + 1) 0)
      0 (Z.to_nat n) b = Some b' /\ length b' = length b /\ all_c P n b' /\
    b' = tab (fun p => if p mod 2 =? 0 then znth x (p / 2) else 0) (2 * n) ++ drop (Z.to_nat (2 * n)) b.
Proof.
  intros Hn Hb HP.
  edestruct (for_loop_inv (fun i b' => length b' = length b /\
    forall p, aget b' p = if (0 <=? p) && (p <? 2 * i) then Some (if p mod 2 =? 0 then znth x (p / 2) else 0) else aget b p))
    as (b' & E & Hl & Hg).
  3:{ exists b'. split; [exact E|]. split; [done|]. rewrite Z.add_0_l, Z2Nat.id in Hg by lia. split.
      - intros c Hc. exists (znth x c), 0. rewrite !Hg.
        destruct (Z.leb_spec 0 (2 * c)), (Z.leb_spec 0 (2 * c + 1)), (Z.ltb_spec (2 * c) (2 * n)),
          (Z.ltb_spec (2 * c + 1) (2 * n)); try lia. cbn [andb].
        replace ((2 * c) mod 2) with 0 by dlia. replace ((2 * c + 1) mod 2) with 1 by dlia.
        replace (2 * c / 2) with c by dlia. split_and!; [done..|by apply HP].
      - apply prefix_determined; [lia|done|]. intros p. rewrite Hg. done. }
  - split; [done|]. intros p. destruct (Z.leb_spec 0 p), (Z.ltb_spec p (2 * 0)); done || lia.
  - intros i b1 Hi [Hl Hg]. cbv beta. rewrite (aget_znth x i) by lia. cbn [mbind option_bind].
    destruct (aset b1 (2 * i) (znth x i)) as [b2|] eqn:E1; [|rewrite aset_Some in E1 by lia; done].
    pose proof (length_aset _ _ _ _ E1). cbn [mbind option_bind].
    destruct (aset b2 (2 * i + 1) 0) as [b3|] eqn:E2; [|rewrite aset_Some in E2 by lia; done].
    pose proof (length_aset _ _ _ _ E2). exists b3. split; [done|]. split; [congruence|].
    intros p. rewrite (aget_aset _ _ _ _ _ E2), (aget_aset _ _ _ _ _ E1), Hg.
    destruct (Z.eqb_spec p (2 * i + 1)) as [->|].
    { replace ((2 * i + 1) mod 2) with 1 by dlia.
      destruct (Z.leb_spec 0 (2 * i + 1)), (Z.ltb_spec (2 * i + 1) (2 * (i + 1))); done || lia. }
    destruct (Z.eqb_spec p (2 * i)) as [->|].
    { replace ((2 * i) mod 2) with 0 by dlia. replace (2 * i / 2) with i by dlia.
      destruct (Z.leb_spec 0 (2 * i)), (Z.ltb_spec (2 * i) (2 * (i + 1))); done || lia. }
    destruct (Z.leb_spec 0 p), (Z.ltb_spec p (2 * i)), (Z.ltb_spec p (2 * (i + 1))); done || lia.
Qed.

Lemma shiftl_1 k : 0 <= k -> Z.shiftl 1 k = 2 ^ k.
Proof. intros. rewrite Z.shiftl_mul_pow2 by lia. lia. Qed.

Lemma pow_order k : (k <= 10)%nat -> 0 < 2 ^ Z.of_nat k <= 1024.
Proof.
  intros. split; [apply Z.pow_pos_nonneg; lia|]. apply (Z.pow_le_mono_r 2 _ 10); lia.
Qed.

Lemma ComplexFFT_ok F bf' k f : (k <= 10)%nat ->
  (forall a wr wi, 0 <= a < Z.of_nat k -> twiddle_ok wr wi -> bf_spec (F a) (F (a + 1)) (fft_bf 1 wr wi) (bf' wr wi)) ->
  all_c (F 0) (2 ^ Z.of_nat k) f ->
  exists f', WebRtcSpl_ComplexFFT f (Z.of_nat k) 1 = Some (0, f') /\
    fft_loop bf' k (2 ^ Z.of_nat k) 1 9 f = Some f' /\
    all_c (F (Z.of_nat k)) (2 ^ Z.of_nat k) f' /\ length f' = length f /\
    forall p, 2 * 2 ^ Z.of_nat k <= p -> aget f' p = aget f p.
Proof.
  intros Hk HF Hf. unfold WebRtcSpl_ComplexFFT. rewrite shiftl_1 by lia. pose proof (pow_order k Hk).
  destruct (Z.gtb_spec (2 ^ Z.of_nat k) 1024); [lia|].
  destruct (fft_loop_ok F (fft_bf 1) bf' (Z.of_nat k) k ltac:(lia) HF 0 f ltac:(lia) ltac:(lia) Hf)
    as (f' & E & E' & Hf' & Hl & Hr).
  change (2 ^ 0) with 1 in *. change (9 - 0) with 9 in *. rewrite Nat2Z.id, E. exists f'. done.
Qed.

Lemma fft_bf_int16s wr wi : bf_spec int16s int16s (fft_bf 1 wr wi) (fft_bf 1 wr wi).
Proof. intros qr qi xr xi _ _. split; [done|]. cbn [fft_bf Z.eqb]. unfold int16s. auto with cint. Qed.

Lemma fft_bf_mag A wr wi : 0 <= A -> A + 3 <= 131068 -> twiddle_ok wr wi ->
  bf_spec (mag A) (mag (A + 3)) (fft_bf 1 wr wi) (exact_bf 1 wr wi).
Proof.
  intros HA HA3 Hw qr qi xr xi Hq Hx. destruct (mag_box A qr qi HA Hq), (mag_box A xr xi HA Hx).
  rewrite fft_bf_exact by (done || unfold box; lia). pose proof (exact_bf_mag A wr wi qr qi xr xi HA Hw Hq Hx) as Hout.
  destruct (exact_bf 1 wr wi qr qi xr xi) as [[[jr ji] ir] ii]. split; [|done]. destruct Hout as [Hj Hi].
  destruct (mag_box (A + 3) jr ji ltac:(lia) Hj), (mag_box (A + 3) ir ii ltac:(lia) Hi). rewrite !i16_id by (unfold in_i16; lia). done.
Qed.

(** The forward transform of real data, for a family as in [fft_loop_ok]. *)
Lemma RealForward_ok F bf' k buffer x out : (1 <= k <= 10)%nat ->
  (forall a wr wi, 0 <= a < Z.of_nat k -> twiddle_ok wr wi -> bf_spec (F a) (F (a + 1)) (fft_bf 1 wr wi) (bf' wr wi)) ->
  zlen buffer = 2048 -> 2 ^ Z.of_nat k <= zlen x -> 2 ^ Z.of_nat k + 2 <= zlen out ->
  (forall i, 0 <= i < 2 ^ Z.of_nat k -> F 0 (znth x i) 0) ->
  exists out', WebRtcSpl_RealForwardFFT buffer (mkRealFFT (Z.of_nat k)) x out = Some (0, out') /\
    length out' = length out /\ all_c (F (Z.of_nat k)) (2 ^ (Z.of_nat k - 1) + 1) out'.
Proof.
  intros Hk HF Hb Hx Ho HF0. unfold WebRtcSpl_RealForwardFFT. cbn [order]. rewrite shiftl_1 by lia.
  pose proof (pow_order k ltac:(lia)) as Hn. set (n := 2 ^ Z.of_nat k) in *.
  assert (Hn2 : n = 2 * 2 ^ (Z.of_nat k - 1)) by (subst n; rewrite <- Z.pow_succ_r by lia; f_equal; lia).
  destruct (interleave_ok (F 0) n x buffer ltac:(lia) ltac:(lia) HF0) as (b1 & -> & Hl1 & H1 & _).
  cbn [mbind option_bind].
  destruct (bit_reverse_ok k b1 ltac:(lia) ltac:(lia)) as (b2 & E2 & Hl2 & _). rewrite E2.
  apply (bit_reverse_all_c (F 0)) in E2; [|lia|lia|done]. cbn [mbind option_bind].
  destruct (ComplexFFT_ok F bf' k b2 ltac:(lia) HF E2) as (b3 & -> & _ & H3 & Hl3 & _). cbn [mbind option_bind].
  rewrite memcpy_Some by lia. cbn [mbind option_bind]. eexists. split; [done|].
  assert (Hls : zlen (slice b3 0 (n + 2)) = n + 2) by (apply length_slice; lia).
  split; [apply length_splice; lia|]. intros c Hc. destruct (H3 c ltac:(fold n; lia)) as (re & im & Er & Ei & H).
  exists re, im. rewrite !aget_splice, Hls by lia.
  destruct (Z.leb_spec 0 (2 * c)), (Z.leb_spec 0 (2 * c + 1)), (Z.ltb_spec (2 * c) (0 + (n + 2))),
    (Z.ltb_spec (2 * c + 1) (0 + (n + 2))); try lia. cbn [andb].
  rewrite !aget_slice, !Z.add_0_l, !Z.sub_0_r by lia. done.
Qed.

(** The mirrored half of the inverse transform's input. *)
Definition mirrored (n : Z) (c : list Z) (p : Z) : Z :=
  if p <? n + 2 then znth c p
  else if p mod 2 =? 0 then znth c (2 * n - p) else i16 (- znth c (2 * n - (p - 1) + 1)).

Lemma mirror_ok n c b : 2 <= n <= 1024 -> n mod 2 = 0 -> n + 2 <= zlen c -> Forall in_i16 c -> zlen b = 2048 ->
  exists b', (let* b := memcpy b 0 c 0 (n + 2) in
      for_loop (mirror_step n c) 0 (Z.to_nat ((n - 2 + 1) / 2)) b) = Some b' /\ length b' = length b /\
    all_c int16s n b' /\ b' = tab (mirrored n c) (2 * n) ++ drop (Z.to_nat (2 * n)) b.
Proof.
  intros Hn Heven Hc Hi16 Hb. rewrite memcpy_Some by lia. cbn [mbind option_bind].
  assert (Hls : zlen (slice c 0 (n + 2)) = n + 2) by (apply length_slice; lia).
  assert (Hci : forall p, 0 <= p < zlen c -> in_i16 (znth c p)).
  { intros p Hp. eapply Forall_aget; [exact Hi16|]. apply aget_znth. lia. }
  edestruct (for_loop_inv (fun t b' => length b' = length b /\
    forall p, aget b' p = if (0 <=? p) && (p <? n + 2 + 2 * t) then Some (mirrored n c p) else aget b p))
    as (b' & E & Hl & Hg).
  3:{ exists b'. split; [exact E|]. split; [done|].
      replace (n + 2 + 2 * (0 + Z.of_nat (Z.to_nat ((n - 2 + 1) / 2)))) with (2 * n) in Hg by dlia.
      assert (Hm : forall p, 0 <= p < 2 * n -> in_i16 (mirrored n c p)).
      { intros p Hp. unfold mirrored. repeat case_match; breflect; auto with cint; apply Hci; lia. }
      split; [|apply prefix_determined; [lia|done|exact Hg]].
      intros q Hq. exists (mirrored n c (2 * q)), (mirrored n c (2 * q + 1)). rewrite !Hg.
      destruct (Z.leb_spec 0 (2 * q)), (Z.leb_spec 0 (2 * q + 1)), (Z.ltb_spec (2 * q) (2 * n)),
          (Z.ltb_spec (2 * q + 1) (2 * n)); try lia. split_and!; [done..|]. split; apply Hm; lia. }
  - split; [apply length_splice; lia|]. intros p. rewrite aget_splice, Hls by lia. unfold mirrored.
    destruct (Z.leb_spec 0 p), (Z.ltb_spec p (0 + (n + 2))), (Z.ltb_spec p (n + 2 + 2 * 0)), (Z.ltb_spec p (n + 2));
      cbn [andb]; try done; try lia. rewrite aget_slice, aget_znth by lia. do 2 f_equal. lia.
  - intros t b1 Ht [Hl Hg]. unfold mirror_step. cbv zeta.
    assert (Hrng : 0 <= 2 * n - (n + 2 + 2 * t) /\ n + 2 + 2 * t + 1 < 2048) by dlia.
    set (i := n + 2 + 2 * t) in *. rewrite (aget_znth c (2 * n - i)) by lia. cbn [mbind option_bind].
    destruct (aset b1 _ _) as [b2|] eqn:E1; [|rewrite aset_Some in E1 by lia; done].
    pose proof (length_aset _ _ _ _ E1). cbn [mbind option_bind].
    rewrite (aget_znth c) by lia. cbn [mbind option_bind].
    destruct (aset b2 _ _) as [b3|] eqn:E2; [|rewrite aset_Some in E2 by lia; done].
    pose proof (length_aset _ _ _ _ E2). exists b3. split; [done|]. split; [congruence|].
    intros p. rewrite (aget_aset _ _ _ _ _ E2), (aget_aset _ _ _ _ _ E1), Hg. unfold mirrored.
    replace (n + 2 + 2 * (t + 1)) with (i + 2) by lia.
    destruct (Z.eqb_spec p (i + 1)) as [->|].
    { replace ((i + 1) mod 2) with 1 by dlia. replace (i + 1 - 1) with i by lia.
      destruct (Z.leb_spec 0 (i + 1)), (Z.ltb_spec (i + 1) (i + 2)), (Z.ltb_spec (i + 1) (n + 2)); done || lia. }
    destruct (Z.eqb_spec p i) as [->|].
    { replace (i mod 2) with 0 by dlia.
      destruct (Z.leb_spec 0 i), (Z.ltb_spec i (i + 2)), (Z.ltb_spec i (n + 2)); done || lia. }
    destruct (Z.leb_spec 0 p), (Z.ltb_spec p i), (Z.ltb_spec p (i + 2)); done || lia.
Qed.

Lemma ComplexIFFT_ok mode k f : (k <= 10)%nat -> all_c int16s (2 ^ Z.of_nat k) f -> 2 * 2 ^ Z.of_nat k <= zlen f ->
  exists r f', WebRtcSpl_ComplexIFFT f (Z.of_nat k) mode = Some (r, f') /\
    ifft_loop (exact_ifft_bf mode) k (2 ^ Z.of_nat k) 1 9 0 f = Some (r, f') /\
    all_c int16s (2 ^ Z.of_nat k) f' /\ length f' = length f /\ 0 <= r <= 2 * Z.of_nat k.
Proof.
  intros Hk Hf Hl. unfold WebRtcSpl_ComplexIFFT. rewrite shiftl_1 by lia. pose proof (pow_order k Hk).
  destruct (Z.gtb_spec (2 ^ Z.of_nat k) 1024); [lia|].
  destruct (ifft_loop_ok mode (Z.of_nat k) k ltac:(lia) 0 f 0 ltac:(lia) ltac:(lia) Hf Hl) as (r & f' & E & E' & Hf' & Hl' & Hr).
  change (2 ^ 0) with 1 in *. change (9 - 0) with 9 in *. rewrite Nat2Z.id, E. exists r, f'. split_and!; try done; lia.
Qed.

Lemma RealInverse_ok k buffer c out : (1 <= k <= 10)%nat -> zlen buffer = 2048 ->
  2 ^ Z.of_nat k + 2 <= zlen c -> Forall in_i16 c -> 2 ^ Z.of_nat k <= zlen out -> Forall in_i16 out ->
  exists r out', WebRtcSpl_RealInverseFFT buffer (mkRealFFT (Z.of_nat k)) c out = Some (r, out') /\
    length out' = length out /\ Forall in_i16 out' /\ 0 <= r <= 2 * Z.of_nat k.
Proof.
  intros Hk Hb Hc Hi16 Ho Hoi. unfold WebRtcSpl_RealInverseFFT. cbn [order]. rewrite shiftl_1 by lia.
  pose proof (pow_order k ltac:(lia)) as Hn.
  assert (Hn2 : 2 ^ Z.of_nat k = 2 * 2 ^ (Z.of_nat k - 1)) by (rewrite <- Z.pow_succ_r by lia; f_equal; lia).
  assert (0 < 2 ^ (Z.of_nat k - 1)) by (apply Z.pow_pos_nonneg; lia).
  set (n := 2 ^ Z.of_nat k) in *.
  destruct (mirror_ok n c buffer) as (b1 & E1 & Hl1 & H1 & _); [lia|dlia|lia|done|lia|].
  destruct (memcpy buffer 0 c 0 (n + 2)) as [b0|]; [|done]. cbn [mbind option_bind] in *. rewrite E1. cbn [mbind option_bind].
  destruct (bit_reverse_ok k b1 ltac:(lia) ltac:(lia)) as (b2 & E2 & Hl2 & _). rewrite E2.
  apply (bit_reverse_all_c int16s) in E2; [|lia|lia|done]. cbn [mbind option_bind].
  destruct (ComplexIFFT_ok 1 k b2 ltac:(lia) E2 ltac:(fold n; lia)) as (r & b3 & -> & _ & H3 & Hl3 & Hr). cbn [mbind option_bind].
  rewrite (fill_loop _ (fun i => znth b3 (2 * i))) by (lia || intros i l' Hi _ _; by rewrite (aget_znth b3) by lia).
  cbn [mbind option_bind]. eexists r, _. split; [done|].
  split_and!; [rewrite length_app, length_drop; pose proof (length_tab (fun i => znth b3 (2 * i)) n); lia| |lia|lia].
  apply Forall_app_2; [|by apply Forall_drop]. apply Forall_tab. intros i Hi.
  destruct (H3 i Hi) as (re & im & Er & _ & Hre & _). by rewrite (znth_aget _ _ _ Er).
Qed.

(** ** The scratch buffer is not read *)

Section extend.
Context (rest : list Z).
Definition extended (s t : list Z) : Prop := t = s ++ rest.

Lemma aget_ext s i x : aget s i = Some x -> aget (s ++ rest) i = Some x.
Proof. intros H. pose proof (aget_renamed id rest s i x H) as E. by rewrite list_fmap_id in E. Qed.

Lemma aset_ext s s' i x : aset s i x = Some s' -> aset (s ++ rest) i x = Some (s' ++ rest).
Proof. intros H. pose proof (aset_renamed id rest s s' i x H) as E. by rewrite !list_fmap_id in E. Qed.

Ltac step_ext H :=
match type of H with
| mbind _ (aget ?l ?i) = Some _ =>
    let E := fresh "E" in destruct (aget l i) eqn:E; [|done]; cbn [mbind option_bind] in H;
    rewrite (aget_ext _ _ _ E); cbn [mbind option_bind]
| mbind _ (aset ?l ?i ?x) = Some _ =>
    let E := fresh "E" in destruct (aset l i x) eqn:E; [|done]; cbn [mbind option_bind] in H;
    rewrite (aset_ext _ _ _ _ E); cbn [mbind option_bind]
end.

Lemma bit_reverse_ext s s' stages : WebRtcSpl_ComplexBitReverse s stages = Some s' ->
WebRtcSpl_ComplexBitReverse (s ++ rest) stages = Some (s' ++ rest).
Proof. intros H. apply (bit_reverse_renamed id rest) in H. by rewrite !list_fmap_id in H. Qed.

Lemma butterfly_ext bf i j s s' : butterfly bf i j s = Some s' -> butterfly bf i j (s ++ rest) = Some (s' ++ rest).
Proof.
unfold butterfly. intros H. do 4 step_ext H. destruct (bf _ _ _ _) as [[[jr ji] ir] ii].
do 3 step_ext H. by apply aset_ext.
Qed.

Lemma for_loop_ext body lo n s s' :
  (forall i s s', body i s = Some s' -> body i (s ++ rest) = Some (s' ++ rest)) ->
  for_loop body lo n s = Some s' -> for_loop body lo n (s ++ rest) = Some (s' ++ rest).
Proof.
  intros Hb H. destruct (for_loop_sim extended body body lo n s s' (s ++ rest)) as (t & E & ->); try done.
  intros i s1 s1' t E ->. eexists. split; [by apply Hb|done].
Qed.

Lemma for_loop_length body lo n (s s' : list Z) :
  (forall i s s', body i s = Some s' -> length s' = length s) ->
  for_loop body lo n s = Some s' -> length s' = length s.
Proof.
  intros Hb. revert lo s. induction n as [|n IH]; intros lo s; cbn [for_loop]; [by intros [= <-]|].
  destruct (body lo s) as [s1|] eqn:E; [|done]. intros H. rewrite <- (Hb _ _ _ E). by apply (IH (lo + 1)).
Qed.

Lemma butterfly_length bf i j s s' : butterfly bf i j s = Some s' -> length s' = length s.
Proof.
  unfold butterfly. destruct (aget s (2 * j)); [|done]. destruct (aget s (2 * j + 1)); [|done].
  destruct (aget s (2 * i)); [|done]. destruct (aget s (2 * i + 1)); [|done]. cbn [mbind option_bind].
  destruct (bf _ _ _ _) as [[[jr ji] ir] ii].
  destruct (aset s (2 * j) jr) as [s1|] eqn:?; [|done]. cbn [mbind option_bind].
  destruct (aset s1 (2 * j + 1) ji) as [s2|] eqn:?; [|done]. cbn [mbind option_bind].
  destruct (aset s2 (2 * i) ir) as [s3|] eqn:?; [|done]. cbn [mbind option_bind]. intros H.
  repeat match goal with H : aset _ _ _ = Some _ |- _ => apply length_aset in H end. congruence.
Qed.

Lemma fft_stage_ext bf sign n l k s s' : fft_stage bf sign n l k s = Some s' ->
  fft_stage bf sign n l k (s ++ rest) = Some (s' ++ rest).
Proof.
  unfold fft_stage. apply for_loop_ext. clear s s'. intros m s s' H. cbv beta zeta in *.
  destruct (aget kSinTable1024 (Z.shiftl m k + 256)) as [wr|]; [|done]. cbn [mbind option_bind] in *.
  destruct (aget kSinTable1024 (Z.shiftl m k)) as [w|]; [|done]. cbn [mbind option_bind] in *.
  revert H. apply for_loop_ext. intros i s1 s1'. apply butterfly_ext.
Qed.

Lemma fft_stage_length bf sign n l k s s' : fft_stage bf sign n l k s = Some s' -> length s' = length s.
Proof.
  unfold fft_stage. apply for_loop_length. clear s s'. intros m s s' H. cbv beta zeta in *.
  destruct (aget kSinTable1024 (Z.shiftl m k + 256)) as [wr|]; [|done]. cbn [mbind option_bind] in *.
  destruct (aget kSinTable1024 (Z.shiftl m k)) as [w|]; [|done]. cbn [mbind option_bind] in *.
  revert H. apply for_loop_length. intros i s1 s1'. apply butterfly_length.
Qed.

Lemma fft_loop_ext bf fuel : forall n l k s s', fft_loop bf fuel n l k s = Some s' ->
fft_loop bf fuel n l k (s ++ rest) = Some (s' ++ rest).
Proof.
induction fuel as [|fuel IH]; intros n l k s s'; cbn [fft_loop]; destruct (l <? n); try done;
  try (intros [= <-]; done).
intros H. destruct (fft_stage bf (-1) n l k s) as [s1|] eqn:E; [|done]. rewrite (fft_stage_ext _ _ _ _ _ _ _ E).
by apply IH.
Qed.

Lemma ifft_loop_ext bf fuel : forall n l k scale s r s', 2 * n <= zlen s ->
  ifft_loop bf fuel n l k scale s = Some (r, s') ->
  ifft_loop bf fuel n l k scale (s ++ rest) = Some (r, s' ++ rest).
Proof.
  induction fuel as [|fuel IH]; intros n l k scale s r s' Hn; cbn [ifft_loop]; destruct (l <? n); try done;
    try (intros [= <- <-]; done).
  destruct (range_ok s 0 (2 * n)) eqn:Er; [|done]. apply range_ok_spec in Er.
  rewrite (proj2 (range_ok_spec (s ++ rest) 0 (2 * n))) by (rewrite length_app; lia). cbn [c_assert mbind option_bind].
  replace (slice (s ++ rest) 0 (2 * n)) with (slice s 0 (2 * n)) by (unfold slice; rewrite !drop_0, take_app_le by lia; done).
  destruct (WebRtcSpl_MaxAbsValueW16C _) as [M|]; [|done]. cbn [mbind option_bind].
  destruct (ifft_scaling M) as [shift round2]. intros H.
  destruct (fft_stage (bf shift round2) 1 n l k s) as [s1|] eqn:E; [|done]. rewrite (fft_stage_ext _ _ _ _ _ _ _ E).
  apply IH; [|done]. rewrite (fft_stage_length _ _ _ _ _ _ _ E). done.
Qed.
End extend.

(** *** Independence *)

Lemma memcpy_ext (dst s rest : list Z) n : 0 <= n <= zlen s -> memcpy dst 0 (s ++ rest) 0 n = memcpy dst 0 s 0 n.
Proof.
  intros Hn. unfold memcpy. rewrite (proj2 (range_ok_spec s 0 n)), (proj2 (range_ok_spec (s ++ rest) 0 n))
    by (rewrite ?length_app; lia).
  destruct (range_ok dst 0 n); [|done]. simpl. unfold slice. by rewrite !drop_0, take_app_le by lia.
Qed.

Lemma RealForward_buffer k b1 b2 x out : (1 <= k <= 10)%nat -> zlen b1 = 2048 -> zlen b2 = 2048 ->
  2 ^ Z.of_nat k <= zlen x -> Forall in_i16 x ->
  WebRtcSpl_RealForwardFFT b1 (mkRealFFT (Z.of_nat k)) x out =
  WebRtcSpl_RealForwardFFT b2 (mkRealFFT (Z.of_nat k)) x out.
Proof.
  intros Hk Hb1 Hb2 Hx Hi16. unfold WebRtcSpl_RealForwardFFT. cbn [order]. rewrite shiftl_1 by lia.
  pose proof (pow_order k ltac:(lia)) as Hn.
  assert (Hn2 : 2 ^ Z.of_nat k = 2 * 2 ^ (Z.of_nat k - 1)) by (rewrite <- Z.pow_succ_r by lia; f_equal; lia).
  assert (0 < 2 ^ (Z.of_nat k - 1)) by (apply Z.pow_pos_nonneg; lia). set (n := 2 ^ Z.of_nat k) in *.
  assert (HF0 : forall i, 0 <= i < n -> int16s (znth x i) 0).
  { intros i Hi. split; [|unfold in_i16; lia]. eapply Forall_aget; [exact Hi16|]. apply aget_znth. lia. }
  destruct (interleave_ok int16s n x b1 ltac:(lia) ltac:(lia) HF0) as (? & -> & _ & _ & ->).
  destruct (interleave_ok int16s n x b2 ltac:(lia) ltac:(lia) HF0) as (? & -> & _ & _ & ->).
  destruct (interleave_ok int16s n x (zreplicate (2 * n) 0) ltac:(lia)
    ltac:(unfold zreplicate; rewrite length_replicate; lia) HF0) as (d & _ & Hld & Hd & Ed).
  unfold zreplicate in Ed, Hld. rewrite length_replicate in Hld.
  rewrite drop_ge, app_nil_r in Ed by (rewrite length_replicate; lia). rewrite <- Ed.
  destruct (bit_reverse_ok k d ltac:(lia) ltac:(fold n; lia)) as (d1 & E1 & Hl1 & _).
  pose proof (bit_reverse_all_c int16s k d d1 ltac:(lia) ltac:(fold n; lia) E1 Hd) as Hd1.
  cbn [mbind option_bind]. rewrite !(bit_reverse_ext _ _ _ _ E1). cbn [mbind option_bind].
  destruct (ComplexFFT_ok (fun _ => int16s) (fft_bf 1) k d1 ltac:(lia) ltac:(intros; apply fft_bf_int16s) Hd1)
    as (d2 & _ & E2 & _ & Hl2 & _).
  unfold WebRtcSpl_ComplexFFT. rewrite shiftl_1 by lia. destruct (Z.gtb_spec (2 ^ Z.of_nat k) 1024); [lia|].
  rewrite Nat2Z.id. rewrite !(fft_loop_ext _ _ _ _ _ _ _ _ E2). cbn [mbind option_bind].
  rewrite !memcpy_ext by lia. done.
Qed.

Lemma RealInverse_buffer k b1 b2 c out : (1 <= k <= 10)%nat -> zlen b1 = 2048 -> zlen b2 = 2048 ->
  2 ^ Z.of_nat k + 2 <= zlen c -> Forall in_i16 c -> 2 ^ Z.of_nat k <= zlen out ->
  WebRtcSpl_RealInverseFFT b1 (mkRealFFT (Z.of_nat k)) c out =
  WebRtcSpl_RealInverseFFT b2 (mkRealFFT (Z.of_nat k)) c out.
Proof.
  intros Hk Hb1 Hb2 Hc Hi16 Ho. unfold WebRtcSpl_RealInverseFFT. cbn [order]. rewrite shiftl_1 by lia.
  pose proof (pow_order k ltac:(lia)) as Hn.
  assert (Hn2 : 2 ^ Z.of_nat k = 2 * 2 ^ (Z.of_nat k - 1)) by (rewrite <- Z.pow_succ_r by lia; f_equal; lia).
  assert (0 < 2 ^ (Z.of_nat k - 1)) by (apply Z.pow_pos_nonneg; lia). set (n := 2 ^ Z.of_nat k) in *.
  destruct (mirror_ok n c b1) as (e1 & Em1 & Hl1 & Hd & ->); [lia|dlia|lia|done|lia|].
  destruct (mirror_ok n c b2) as (e2 & Em2 & _ & _ & ->); [lia|dlia|lia|done|lia|].
  destruct (memcpy b1 0 c 0 (n + 2)) as [f1|]; [|done]. destruct (memcpy b2 0 c 0 (n + 2)) as [f2|]; [|done].
  cbn [mbind option_bind] in *. rewrite Em1, Em2. cbn [mbind option_bind]. set (d := tab (mirrored n c) (2 * n)) in *.
  assert (Hld : zlen d = 2 * n) by (apply length_tab; lia).
  assert (Hd0 : all_c int16s n d).
  { intros q Hq. destruct (Hd q Hq) as (re & im & E1 & E2 & Hri). rewrite !aget_app in E1, E2 by lia.
    destruct (Z.ltb_spec (2 * q) (zlen d)), (Z.ltb_spec (2 * q + 1) (zlen d)); try lia. by exists re, im. }
  destruct (bit_reverse_ok k d ltac:(lia) ltac:(fold n; lia)) as (d1 & E1 & Hl2 & _).
  pose proof (bit_reverse_all_c int16s k d d1 ltac:(lia) ltac:(fold n; lia) E1 Hd0) as Hd1.
  rewrite !(bit_reverse_ext _ _ _ _ E1). cbn [mbind option_bind].
  destruct (ComplexIFFT_ok 1 k d1 ltac:(lia) Hd1 ltac:(fold n; lia)) as (r & d2 & E2 & _ & _ & Hl3 & _).
  unfold WebRtcSpl_ComplexIFFT in *. rewrite shiftl_1 in * by lia. destruct (Z.gtb_spec (2 ^ Z.of_nat k) 1024); [lia|].
  assert (Hlx : 2 * 2 ^ Z.of_nat k <= zlen d1) by (fold n; lia).
  rewrite !(ifft_loop_ext _ _ _ _ _ _ _ _ _ _ Hlx E2). cbn [mbind option_bind].
  rewrite !(fill_loop _ (fun i => znth d2 (2 * i))); try lia; try done.
  all: intros i l' Hi _ _; by rewrite (aget_ext _ d2 (2 * i) (znth d2 (2 * i))) by (apply aget_znth; lia).
Qed.

(** ** Properties *)

(** Bit reversal, by the tables for 7 and 8 stages and by the counting loop
    for the others, is for every order up to 10 and every data the exchange of
    each number with the one at the index of reversed bits; it touches nothing
    beyond the transform, and applied twice it restores the data. *)
Theorem bit_reverse_correct k d : (k <= 10)%nat -> 2 * 2 ^ Z.of_nat k <= zlen d ->
  exists d', WebRtcSpl_ComplexBitReverse d (Z.of_nat k) = Some d' /\ length d' = length d /\
    (forall c, 0 <= c < 2 ^ Z.of_nat k -> 0 <= rev_bits k c < 2 ^ Z.of_nat k /\
       aget d' (2 * c) = aget d (2 * rev_bits k c) /\ aget d' (2 * c + 1) = aget d (2 * rev_bits k c + 1)) /\
    (forall p, 2 * 2 ^ Z.of_nat k <= p -> aget d' p = aget d p) /\
    WebRtcSpl_ComplexBitReverse d' (Z.of_nat k) = Some d.
Proof.
  intros Hk Hl. destruct (bit_reverse_ok k d Hk Hl) as (d' & E & Hl' & Hg & Hr). exists d'.
  split_and!; [done|done| |done|].
  { intros c Hc. destruct (rev_bits_ok k c Hk Hc). split; [done|]. by apply Hg. }
  destruct (bit_reverse_ok k d' Hk ltac:(lia)) as (d'' & E' & Hl'' & Hg' & Hr'). rewrite E'. f_equal.
  apply list_ext; [congruence|]. intros p Hp. destruct (Z.leb_spec (2 * 2 ^ Z.of_nat k) p).
  { rewrite Hr' by lia. by apply Hr. }
  assert (Hc : 0 <= p / 2 < 2 ^ Z.of_nat k) by dlia. destruct (rev_bits_ok k _ Hk Hc) as [Hrb Einv].
  destruct (Hg' _ Hc) as [E1 E2], (Hg _ Hrb) as [E3 E4]. rewrite Einv in E3, E4.
  assert (p = 2 * (p / 2) \/ p = 2 * (p / 2) + 1) as [-> | ->] by dlia; congruence.
Qed.

Lemma bit_reverse_correct_witness :
  exists d', WebRtcSpl_ComplexBitReverse [0; 1; 2; 3; 4; 5; 6; 7; 8] 2 = Some d' /\ length d' = 9%nat /\
    (forall c, 0 <= c < 4 -> 0 <= rev_bits 2 c < 4 /\
       aget d' (2 * c) = aget [0; 1; 2; 3; 4; 5; 6; 7; 8] (2 * rev_bits 2 c) /\
       aget d' (2 * c + 1) = aget [0; 1; 2; 3; 4; 5; 6; 7; 8] (2 * rev_bits 2 c + 1)) /\
    (forall p, 8 <= p -> aget d' p = aget [0; 1; 2; 3; 4; 5; 6; 7; 8] p) /\
    WebRtcSpl_ComplexBitReverse d' 2 = Some [0; 1; 2; 3; 4; 5; 6; 7; 8].
Proof. apply (bit_reverse_correct 2 [0; 1; 2; 3; 4; 5; 6; 7; 8]); simpl; lia. Defined.

(** The forward transform does not overflow: on complex numbers of magnitude
    at most [B] (with a margin of [3/4] per stage below 32767) the 16- and
    32-bit butterflies give what they give over unbounded integers, and each
    stage adds at most [3/4] to the magnitude. *)
Theorem forward_fft_exact k B f : (k <= 10)%nat -> 0 <= B -> 4 * B + 3 * Z.of_nat k <= 4 * 32767 ->
  all_c (mag (4 * B)) (2 ^ Z.of_nat k) f ->
  exists f', WebRtcSpl_ComplexFFT f (Z.of_nat k) 1 = Some (0, f') /\
    fft_loop (exact_bf 1) k (2 ^ Z.of_nat k) 1 9 f = Some f' /\
    all_c (mag (4 * B + 3 * Z.of_nat k)) (2 ^ Z.of_nat k) f'.
Proof.
  intros Hk HB Hm Hf.
  destruct (ComplexFFT_ok (fun a => mag (4 * B + 3 * a)) (exact_bf 1) k f Hk) as (f' & E & E' & Hf' & _).
  - intros a wr wi Ha Hw. replace (4 * B + 3 * (a + 1)) with (4 * B + 3 * a + 3) by lia.
    apply fft_bf_mag; [lia|lia|done].
  - by rewrite Z.mul_0_r, Z.add_0_r.
  - exists f'. done.
Qed.

Definition sample_spectrum : list Z := [32000; 0; -32000; 0; 0; 32000; 1; -1].

Lemma sample_spectrum_mag : all_c (mag (4 * 32000)) (2 ^ Z.of_nat 2) sample_spectrum.
Proof.
  intros c Hc. change (2 ^ Z.of_nat 2) with 4 in Hc.
  assert (c = 0 \/ c = 1 \/ c = 2 \/ c = 3) as [-> | [-> | [-> | ->]]] by lia;
    eexists _, _; split_and!; try reflexivity; unfold mag; lia.
Qed.

Lemma forward_fft_exact_witness :
  exists f', WebRtcSpl_ComplexFFT sample_spectrum 2 1 = Some (0, f') /\
    fft_loop (exact_bf 1) 2 4 1 9 sample_spectrum = Some f' /\ all_c (mag (4 * 32000 + 3 * 2)) 4 f'.
Proof. apply (forward_fft_exact 2 32000 sample_spectrum); [lia..|exact sample_spectrum_mag]. Defined.

(** C28. The inverse transform never overflows, in either mode (0, of low accuracy, and 1, with rounding, which
    the program uses), for orders up to 10: on any 16-bit data the scaling by
    the largest value (thresholds 13573 and 27146) keeps every butterfly within
    16 bits, so the transform equals the one over unbounded integers; the scale
    returned counts the shifts, at most two per stage. *)
Theorem inverse_fft_exact mode k f : (k <= 10)%nat -> all_c int16s (2 ^ Z.of_nat k) f -> 2 * 2 ^ Z.of_nat k <= zlen f ->
  exists r f', WebRtcSpl_ComplexIFFT f (Z.of_nat k) mode = Some (r, f') /\
    ifft_loop (exact_ifft_bf mode) k (2 ^ Z.of_nat k) 1 9 0 f = Some (r, f') /\
    all_c int16s (2 ^ Z.of_nat k) f' /\ 0 <= r <= 2 * Z.of_nat k.
Proof. intros Hk Hf Hl. destruct (ComplexIFFT_ok mode k f Hk Hf Hl) as (r & f' & ? & ? & ? & _ & ?). eauto 10. Qed.

Lemma inverse_fft_exact_witness :
  exists r f', WebRtcSpl_ComplexIFFT sample_spectrum 2 0 = Some (r, f') /\
    ifft_loop (exact_ifft_bf 0) 2 4 1 9 0 sample_spectrum = Some (r, f') /\ all_c int16s 4 f' /\ 0 <= r <= 2 * 2.
Proof.
  apply (inverse_fft_exact 0 2 sample_spectrum); [lia| |simpl; lia].
  intros c Hc. destruct (sample_spectrum_mag c Hc) as (re & im & E1 & E2 & Hm). exists re, im. split_and!; [done..|].
  destruct (mag_box (4 * 32000) re im ltac:(lia) Hm). split; unfold in_i16; lia.
Defined.

(** The real-valued wrappers are safe: for every order from 1 to 10 and any
    16-bit data of the right length they succeed without leaving an array, give
    16-bit results and a scale of 0 to twice the order, and the uninitialised
    scratch buffer has no influence on the result; orders above 10 are refused
    by the transform and at creation. *)
Theorem real_fft_safe k b1 b2 x c out_c out_x : (1 <= k <= 10)%nat -> zlen b1 = 2048 -> zlen b2 = 2048 ->
  2 ^ Z.of_nat k <= zlen x -> Forall in_i16 x -> 2 ^ Z.of_nat k + 2 <= zlen c -> Forall in_i16 c ->
  2 ^ Z.of_nat k + 2 <= zlen out_c -> 2 ^ Z.of_nat k <= zlen out_x -> Forall in_i16 out_x ->
  let self := mkRealFFT (Z.of_nat k) in
  (exists out, WebRtcSpl_RealForwardFFT b1 self x out_c = Some (0, out) /\ length out = length out_c /\
     all_c int16s (2 ^ (Z.of_nat k - 1) + 1) out /\ WebRtcSpl_RealForwardFFT b2 self x out_c = Some (0, out)) /\
  (exists r out, WebRtcSpl_RealInverseFFT b1 self c out_x = Some (r, out) /\ length out = length out_x /\
     Forall in_i16 out /\ 0 <= r <= 2 * Z.of_nat k /\ WebRtcSpl_RealInverseFFT b2 self c out_x = Some (r, out)) /\
  (forall order, 10 < order <= 30 -> WebRtcSpl_CreateRealFFT true order = None /\
     WebRtcSpl_ComplexFFT c order 1 = Some (-1, c) /\ WebRtcSpl_ComplexIFFT c order 1 = Some (-1, c)).
Proof.
  intros Hk Hb1 Hb2 Hx Hxi Hc Hci Hoc Hox Hoi self. split_and!.
  - destruct (RealForward_ok (fun _ => int16s) (fft_bf 1) k b1 x out_c) as (out & E & Hl & Ho); try done; try lia.
    { intros. apply fft_bf_int16s. }
    { intros i Hi. split; [|unfold in_i16; lia]. eapply Forall_aget; [exact Hxi|]. apply aget_znth. lia. }
    exists out. split_and!; try done. unfold self. by rewrite <- (RealForward_buffer k b1 b2 x out_c).
  - destruct (RealInverse_ok k b1 c out_x) as (r & out & E & Hl & Ho & Hr); try done; try lia.
    exists r, out. split_and!; try done; try lia. unfold self. by rewrite <- (RealInverse_buffer k b1 b2 c out_x).
  - intros o Ho. unfold WebRtcSpl_CreateRealFFT, WebRtcSpl_ComplexFFT, WebRtcSpl_ComplexIFFT, kMaxFFTOrder.
    rewrite shiftl_1 by lia. assert (2 ^ 11 <= 2 ^ o) by (apply Z.pow_le_mono_r; lia).
    destruct (Z.gtb_spec o 10), (Z.gtb_spec (2 ^ o) 1024); try lia. done.
Qed.

Lemma real_fft_safe_witness :
  exists out, WebRtcSpl_RealForwardFFT (zreplicate 2048 5) (mkRealFFT 2) [1; -2; 30000; 4] (zreplicate 6 0) = Some (0, out) /\
    length out = 6%nat /\ all_c int16s (2 ^ (2 - 1) + 1) out /\
    WebRtcSpl_RealForwardFFT (zreplicate 2048 9) (mkRealFFT 2) [1; -2; 30000; 4] (zreplicate 6 0) = Some (0, out).
Proof.
  apply (real_fft_safe 2 (zreplicate 2048 5) (zreplicate 2048 9) [1; -2; 30000; 4] [1; 2; 3; 4; 5; 6]
    (zreplicate 6 0) (zreplicate 4 0)); try done; try lia; forall_i16.
Defined.

End RealFFTSpec.
