(* ===== verification/Resample.v ===== *)
(** Sample rate conversion, translated from common_audio/signal_processing:
    the all-pass half-band filters of resample_by_2_internal.c and
    resample_by_2.c, the polyphase filters of resample_fractional.c and
    resample.c, and the converters of resample_48khz.c and resample.c built from
    them.

    A converter works in one scratch array, with input and output of a stage at
    different offsets of it, so that stages overlap; the arrays here are lists
    with explicit offsets, and the overlap is in the model.  [Module Resample]
    has the definitions, [Module ResampleSpec] in ResampleSpec.v the properties. *)

From S2P Require Import Prelude SplInl.

Module Resample.

(** ** Half-band filters (resample_by_2_internal.c) *)

Definition kResampleAllpass : list (list Z) := [[821; 6110; 12382]; [3050; 9368; 15063]].

(** [diff = diff >> 14; if (diff < 0) diff += 1;] *)
Definition scale_truncate (diff : Z) : Z :=
  let diff := Z.shiftr diff 14 in if diff <? 0 then i32 (diff + 1) else diff.

(** One sample [tmp0] through the three sections whose cells are
    [state[b] .. state[b + 3]]; the last cell is the output. *)
Definition allpass (row : list Z) (b tmp0 : Z) (state : list Z) : option (Z * list Z) :=
  let* s0 := aget state b in
  let* s1 := aget state (b + 1) in
  let* s2 := aget state (b + 2) in
  let* s3 := aget state (b + 3) in
  let diff := i32 (tmp0 - s1) in
  let diff := Z.shiftr (i32 (diff + Z.shiftl 1 13)) 14 in
  let tmp1 := i32 (s0 + i32 (diff * znth row 0)) in
  let* state := aset state b tmp0 in
  let diff := scale_truncate (i32 (tmp1 - s2)) in
  let tmp0 := i32 (s1 + i32 (diff * znth row 1)) in
  let* state := aset state (b + 1) tmp1 in
  let diff := scale_truncate (i32 (tmp0 - s3)) in
  let out := i32 (s2 + i32 (diff * znth row 2)) in
  let* state := aset state (b + 3) out in
  let* state := aset state (b + 2) tmp0 in
  Some (out, state).

(** The rows of the two cascades. *)
Definition upper : list Z := nth 0 kResampleAllpass [].
Definition lower : list Z := nth 1 kResampleAllpass [].

(** A loop over [len] samples through one cascade: the sample of turn [i] is
    loaded from the array, and the output stored into it. *)
Definition branch (load : Z -> list Z -> option Z) (row : list Z) (b : Z)
    (store : Z -> Z -> list Z -> option (list Z)) (len : Z) (mem state : list Z) : option (list Z * list Z) :=
  for_loop (fun i (s : list Z * list Z) =>
    let (mem, state) := s in
    let* tmp0 := load i mem in
    let* (y, state) := allpass row b tmp0 state in
    let* mem := store i y mem in Some (mem, state)) 0 (Z.to_nat len) (mem, state).

(** [((int32_t)in[i] << 15) + (1 << 14)] *)
Definition short_to_int (x : Z) : Z := i32 (i32 (Z.shiftl x 15) + Z.shiftl 1 14).

(** Loads: sample [step * i + pos] of a 16-bit input, or of the array itself. *)
Definition load_short (in_ : list Z) (pos step i : Z) (_ : list Z) : option Z := short_to_int <$> aget in_ (pos + step * i).
Definition load_int (pos step i : Z) (mem : list Z) : option Z := aget mem (pos + step * i).

(** Stores: the output shifted by [r], put, averaged with what is there, or
    saturated to 16 bits. *)
Definition store_shift (r pos step i y : Z) (mem : list Z) : option (list Z) := aset mem (pos + step * i) (Z.shiftr y r).
Definition store_add (pos step i y : Z) (mem : list Z) : option (list Z) :=
  let* x := aget mem (pos + step * i) in aset mem (pos + step * i) (i32 (x + Z.shiftr y 1)).
Definition store_average (pos step i y : Z) (mem : list Z) : option (list Z) :=
  let* x := aget mem (pos + step * i) in aset mem (pos + step * i) (Z.shiftr (i32 (x + Z.shiftr y 1)) 15).

Definition saturate (tmp : Z) : Z :=
  let tmp := if tmp >? 32767 then 32767 else tmp in if tmp <? -32768 then -32768 else i16 tmp.

(** The output of [len / 2] samples, in pairs. *)
Definition combine_step (in_ : Z) (mem : list Z) (out_ : Z) (k : Z) (out : list Z) : option (list Z) :=
  let i := 2 * k in
  let* a := aget mem (in_ + 2 * i) in
  let* b := aget mem (in_ + 2 * i + 1) in
  let* c := aget mem (in_ + 2 * i + 2) in
  let* d := aget mem (in_ + 2 * i + 3) in
  let* out := aset out (out_ + i) (saturate (Z.shiftr (i32 (a + b)) 15)) in
  aset out (out_ + i + 1) (saturate (Z.shiftr (i32 (c + d)) 15)).

(** [in] is at [in_] of [mem] and is overwritten; [out] at [out_] of another array. *)
Definition WebRtcSpl_DownBy2IntToShort (mem : list Z) (in_ len : Z) (out : list Z) (out_ : Z) (state : list Z)
    : option (list Z * list Z * list Z) :=
  let len := Z.shiftr len 1 in
  let* (mem, state) := branch (load_int in_ 2) lower 0 (store_shift 1 in_ 2) len mem state in
  let* (mem, state) := branch (load_int (in_ + 1) 2) upper 4 (store_shift 1 (in_ + 1) 2) len mem state in
  let* out := for_loop (combine_step in_ mem out_) 0 (Z.to_nat ((len + 1) / 2)) out in
  Some (mem, out, state).

Definition WebRtcSpl_DownBy2ShortToInt (in_ : list Z) (pos len : Z) (mem : list Z) (out_ : Z) (state : list Z)
    : option (list Z * list Z) :=
  let len := Z.shiftr len 1 in
  let* (mem, state) := branch (load_short in_ pos 2) lower 0 (store_shift 1 out_ 1) len mem state in
  branch (load_short in_ (pos + 1) 2) upper 4 (store_add out_ 1) len mem state.

Definition WebRtcSpl_UpBy2ShortToInt (in_ : list Z) (pos len : Z) (mem : list Z) (out_ : Z) (state : list Z)
    : option (list Z * list Z) :=
  let* (mem, state) := branch (load_short in_ pos 1) upper 4 (store_shift 15 out_ 2) len mem state in
  branch (load_short in_ pos 1) lower 0 (store_shift 15 (out_ + 1) 2) len mem state.

Definition WebRtcSpl_UpBy2IntToInt (mem : list Z) (in_ len out_ : Z) (state : list Z) : option (list Z * list Z) :=
  let* (mem, state) := branch (load_int in_ 1) upper 4 (store_shift 0 out_ 2) len mem state in
  branch (load_int in_ 1) lower 0 (store_shift 0 (out_ + 1) 2) len mem state.

(** The output is another array than the input here. *)
Definition up_to_short (mem : list Z) (in_ : Z) (row : list Z) (b out_ len : Z) (out state : list Z)
    : option (list Z * list Z) :=
  branch (fun i _ => aget mem (in_ + i)) row b (fun i y out => aset out (out_ + 2 * i) (saturate (Z.shiftr y 15))) len out state.
Definition WebRtcSpl_UpBy2IntToShort (mem : list Z) (in_ len : Z) (out : list Z) (out_ : Z) (state : list Z)
    : option (list Z * list Z) :=
  let* (out, state) := up_to_short mem in_ upper 4 out_ len out state in
  up_to_short mem in_ lower 0 (out_ + 1) len out state.

(** The branch with the polyphase delay: turn [i] filters the sample loaded by
    turn [i - 1], the first turn the one kept in [state[12]]. *)
Definition delayed_branch (load : Z -> list Z -> option Z) (row : list Z) (b : Z)
    (store : Z -> Z -> list Z -> option (list Z)) (len : Z) (mem state : list Z) : option (list Z * list Z) :=
  let* tmp0 := aget state 12 in
  let* (_, mem, state) := for_loop (fun i (s : Z * list Z * list Z) =>
    let '(tmp0, mem, state) := s in
    let* (y, state) := allpass row b tmp0 state in
    let* mem := store i y mem in
    let* tmp0 := load i mem in Some (tmp0, mem, state)) 0 (Z.to_nat len) (tmp0, mem, state) in
  Some (mem, state).

Definition lp_by_2 (load : Z -> Z -> list Z -> option Z) (len : Z) (mem : list Z) (out_ : Z) (state : list Z)
    : option (list Z * list Z) :=
  let len := Z.shiftr len 1 in
  let* (mem, state) := delayed_branch (load 1) lower 0 (store_shift 1 out_ 2) len mem state in
  let* (mem, state) := branch (load 0) upper 4 (store_average out_ 2) len mem state in
  let* (mem, state) := branch (load 0) lower 8 (store_shift 1 (out_ + 1) 2) len mem state in
  branch (load 1) upper 12 (store_average (out_ + 1) 2) len mem state.

Definition WebRtcSpl_LPBy2ShortToInt (in_ : list Z) (pos len : Z) (mem : list Z) (out_ : Z) (state : list Z)
    : option (list Z * list Z) := lp_by_2 (fun k => load_short in_ (pos + k) 2) len mem out_ state.

Definition WebRtcSpl_LPBy2IntToInt (mem : list Z) (in_ len out_ : Z) (state : list Z) : option (list Z * list Z) :=
  lp_by_2 (fun k => load_int (in_ + k) 2) len mem out_ state.

(** ** Polyphase filters (resample_fractional.c, resample.c) *)

Definition kCoefficients48To32 : list (list Z) :=
  [[778; -2050; 1087; 23285; 12903; -3783; 441; 222]; [222; 441; -3783; 12903; 23285; 1087; -2050; 778]].
Definition kCoefficients32To24 : list (list Z) :=
  [[767; -2362; 2434; 24406; 10620; -3838; 721; 90]; [386; -381; -2646; 19062; 19062; -2646; -381; 386];
   [90; 721; -3838; 10620; 24406; 2434; -2362; 767]].
Definition kCoefficients44To32 : list (list Z) :=
  [[117; -669; 2245; -6183; 26267; 13529; -3245; 845; -138]; [-101; 612; -2283; 8532; 29790; -5138; 1789; -524; 91];
   [50; -292; 1016; -3064; 32010; 3933; -1147; 315; -53]; [-156; 974; -3863; 18603; 21691; -6246; 2353; -712; 126]].
Definition kCoefficients32To22 : list (list Z) :=
  [[127; -712; 2359; -6333; 23456; 16775; -3695; 945; -154]; [-39; 230; -830; 2785; 32366; -2324; 760; -218; 38];
   [117; -663; 2222; -6133; 26634; 13070; -3174; 831; -137]; [-77; 457; -1677; 5958; 31175; -4136; 1405; -408; 71];
   [98; -560; 1900; -5406; 29240; 9423; -2480; 663; -110]].

(** [tmp += coef[j] * in[dir * j]] for every coefficient, from the entry at
    [pos], starting at one half in Q15. *)
Fixpoint dot (coef : list Z) (mem : list Z) (pos dir tmp : Z) : option Z :=
  match coef with
  | [] => Some tmp
  | c :: coef => let* x := aget mem pos in dot coef mem (pos + dir) dir (i32 (tmp + i32 (c * x)))
  end.

Definition filter_at (table : list (list Z)) (k : nat) (mem : list Z) (pos dir : Z) : option Z :=
  dot (nth k table []) mem pos dir (Z.shiftl 1 14).

(** The blocks of a filter: block [m] has its input at [In + step_in * m] and its
    output at [Out + step_out * m] of the same array. *)
Definition blocks (block : Z -> Z -> list Z -> option (list Z)) (In Out step_in step_out K : Z) (mem : list Z)
    : option (list Z) :=
  for_loop (fun m mem => block (In + step_in * m) (Out + step_out * m) mem) 0 (Z.to_nat K) mem.

Definition block_48_32 (In Out : Z) (mem : list Z) : option (list Z) :=
  let* tmp := filter_at kCoefficients48To32 0 mem In 1 in
  let* mem := aset mem Out tmp in
  let* tmp := filter_at kCoefficients48To32 1 mem (In + 1) 1 in
  aset mem (Out + 1) tmp.
Definition WebRtcSpl_Resample48khzTo32khz (mem : list Z) (In Out K : Z) : option (list Z) :=
  blocks block_48_32 In Out 3 2 K mem.

Definition block_32_24 (In Out : Z) (mem : list Z) : option (list Z) :=
  let* tmp := filter_at kCoefficients32To24 0 mem In 1 in
  let* mem := aset mem Out tmp in
  let* tmp := filter_at kCoefficients32To24 1 mem (In + 1) 1 in
  let* mem := aset mem (Out + 1) tmp in
  let* tmp := filter_at kCoefficients32To24 2 mem (In + 2) 1 in
  aset mem (Out + 2) tmp.
Definition WebRtcSpl_Resample32khzTo24khz (mem : list Z) (In Out K : Z) : option (list Z) :=
  blocks block_32_24 In Out 4 3 K mem.

(** Two inner products, one forwards from [in1], one backwards from [in2]; both
    are computed before either is stored. *)
Definition two_products (table : list (list Z)) (k : nat) (mem : list Z) (in1 in2 : Z) : option (Z * Z) :=
  let* tmp1 := filter_at table k mem in1 1 in
  let* tmp2 := filter_at table k mem in2 (-1) in Some (tmp1, tmp2).
Definition WebRtcSpl_ResampDotProduct (table : list (list Z)) (k : nat) (in1 in2 out1 out2 : Z) (mem : list Z)
    : option (list Z) :=
  let* (tmp1, tmp2) := two_products table k mem in1 in2 in
  let* mem := aset mem out1 tmp1 in aset mem out2 tmp2.

Definition block_44_32 (In Out : Z) (mem : list Z) : option (list Z) :=
  let* x := aget mem (In + 3) in
  let* mem := aset mem Out (i32 (i32 (Z.shiftl x 15) + Z.shiftl 1 14)) in
  let* tmp := filter_at kCoefficients44To32 3 mem (In + 5) 1 in
  let* mem := aset mem (Out + 4) tmp in
  let* mem := WebRtcSpl_ResampDotProduct kCoefficients44To32 0 In (In + 17) (Out + 1) (Out + 7) mem in
  let* mem := WebRtcSpl_ResampDotProduct kCoefficients44To32 1 (In + 2) (In + 15) (Out + 2) (Out + 6) mem in
  WebRtcSpl_ResampDotProduct kCoefficients44To32 2 (In + 3) (In + 14) (Out + 3) (Out + 5) mem.
Definition WebRtcSpl_Resample44khzTo32khz (mem : list Z) (In Out K : Z) : option (list Z) :=
  blocks block_44_32 In Out 11 8 K mem.

Definition WebRtcSpl_DotProdIntToInt (k : nat) (in1 in2 out1 out2 : Z) (mem : list Z) : option (list Z) :=
  WebRtcSpl_ResampDotProduct kCoefficients32To22 k in1 in2 out1 out2 mem.
Definition block_32_22_int (In Out : Z) (mem : list Z) : option (list Z) :=
  let* x := aget mem (In + 3) in
  let* mem := aset mem Out (i32 (i32 (Z.shiftl x 15) + Z.shiftl 1 14)) in
  let* mem := WebRtcSpl_DotProdIntToInt 0 In (In + 22) (Out + 1) (Out + 10) mem in
  let* mem := WebRtcSpl_DotProdIntToInt 1 (In + 2) (In + 20) (Out + 2) (Out + 9) mem in
  let* mem := WebRtcSpl_DotProdIntToInt 2 (In + 3) (In + 19) (Out + 3) (Out + 8) mem in
  let* mem := WebRtcSpl_DotProdIntToInt 3 (In + 5) (In + 17) (Out + 4) (Out + 7) mem in
  WebRtcSpl_DotProdIntToInt 4 (In + 6) (In + 16) (Out + 5) (Out + 6) mem.
Definition WebRtcSpl_32khzTo22khzIntToInt (mem : list Z) (In Out K : Z) : option (list Z) :=
  blocks block_32_22_int In Out 16 11 K mem.

(** The same with a 16-bit output array. *)
Definition WebRtcSpl_DotProdIntToShort (mem : list Z) (k : nat) (in1 in2 out1 out2 : Z) (out : list Z)
    : option (list Z) :=
  let* (tmp1, tmp2) := two_products kCoefficients32To22 k mem in1 in2 in
  let* out := aset out out1 (saturate (Z.shiftr tmp1 15)) in aset out out2 (saturate (Z.shiftr tmp2 15)).
Definition block_32_22_short (mem : list Z) (In Out : Z) (out : list Z) : option (list Z) :=
  let* tmp := aget mem (In + 3) in
  let* out := aset out Out (saturate tmp) in
  let* out := WebRtcSpl_DotProdIntToShort mem 0 In (In + 22) (Out + 1) (Out + 10) out in
  let* out := WebRtcSpl_DotProdIntToShort mem 1 (In + 2) (In + 20) (Out + 2) (Out + 9) out in
  let* out := WebRtcSpl_DotProdIntToShort mem 2 (In + 3) (In + 19) (Out + 3) (Out + 8) out in
  let* out := WebRtcSpl_DotProdIntToShort mem 3 (In + 5) (In + 17) (Out + 4) (Out + 7) out in
  WebRtcSpl_DotProdIntToShort mem 4 (In + 6) (In + 16) (Out + 5) (Out + 6) out.
Definition WebRtcSpl_32khzTo22khzIntToShort (mem : list Z) (In : Z) (out : list Z) (Out K : Z) : option (list Z) :=
  blocks (block_32_22_short mem) In Out 16 11 K out.

(** ** Converters (resample_48khz.c)

    [exchange]: the eight samples before the input of a stage come from the
    state, and the last eight of its input are kept there. *)

Definition exchange (mem S : list Z) (to from : Z) : option (list Z * list Z) :=
  let* mem := memcpy mem to S 0 8 in
  let* S := memcpy S 0 mem from 8 in Some (mem, S).

Record WebRtcSpl_State48khzTo16khz := mkState48To16 { at_48_16_S_48_48 : list Z; at_48_16_S_48_32 : list Z; at_48_16_S_32_16 : list Z }.
Definition WebRtcSpl_ResetResample48khzTo16khz (state : WebRtcSpl_State48khzTo16khz) : option WebRtcSpl_State48khzTo16khz :=
  let* s0 := memset (at_48_16_S_48_48 state) 0 0 16 in
  let* s1 := memset (at_48_16_S_48_32 state) 0 0 8 in
  let* s2 := memset (at_48_16_S_32_16 state) 0 0 8 in
  Some (mkState48To16 s0 s1 s2).
Definition WebRtcSpl_Resample48khzTo16khz (in_ : list Z) (pos : Z) (out : list Z) (out_ : Z) (state : WebRtcSpl_State48khzTo16khz) (mem : list Z)
    : option (list Z * WebRtcSpl_State48khzTo16khz * list Z) :=
  let* (mem, s0) := WebRtcSpl_LPBy2ShortToInt in_ pos 480 mem 16 (at_48_16_S_48_48 state) in
  let* (mem, s1) := exchange mem (at_48_16_S_48_32 state) 8 488 in
  let* mem := WebRtcSpl_Resample48khzTo32khz mem 8 0 160 in
  let* (mem, out, s2) := WebRtcSpl_DownBy2IntToShort mem 0 320 out out_ (at_48_16_S_32_16 state) in
  Some (out, mkState48To16 s0 s1 s2, mem).

Record WebRtcSpl_State16khzTo48khz := mkState16To48 { at_16_48_S_16_32 : list Z; at_16_48_S_32_24 : list Z; at_16_48_S_24_48 : list Z }.
Definition WebRtcSpl_ResetResample16khzTo48khz (state : WebRtcSpl_State16khzTo48khz) : option WebRtcSpl_State16khzTo48khz :=
  let* s0 := memset (at_16_48_S_16_32 state) 0 0 8 in
  let* s1 := memset (at_16_48_S_32_24 state) 0 0 8 in
  let* s2 := memset (at_16_48_S_24_48 state) 0 0 8 in
  Some (mkState16To48 s0 s1 s2).
Definition WebRtcSpl_Resample16khzTo48khz (in_ : list Z) (pos : Z) (out : list Z) (out_ : Z) (state : WebRtcSpl_State16khzTo48khz) (mem : list Z)
    : option (list Z * WebRtcSpl_State16khzTo48khz * list Z) :=
  let* (mem, s0) := WebRtcSpl_UpBy2ShortToInt in_ pos 160 mem 16 (at_16_48_S_16_32 state) in
  let* (mem, s1) := exchange mem (at_16_48_S_32_24 state) 8 328 in
  let* mem := WebRtcSpl_Resample32khzTo24khz mem 8 0 80 in
  let* (out, s2) := WebRtcSpl_UpBy2IntToShort mem 0 240 out out_ (at_16_48_S_24_48 state) in
  Some (out, mkState16To48 s0 s1 s2, mem).

Record WebRtcSpl_State48khzTo8khz := mkState48To8 { at_48_8_S_48_24 : list Z; at_48_8_S_24_24 : list Z; at_48_8_S_24_16 : list Z; at_48_8_S_16_8 : list Z }.
Definition WebRtcSpl_ResetResample48khzTo8khz (state : WebRtcSpl_State48khzTo8khz) : option WebRtcSpl_State48khzTo8khz :=
  let* s0 := memset (at_48_8_S_48_24 state) 0 0 8 in
  let* s1 := memset (at_48_8_S_24_24 state) 0 0 16 in
  let* s2 := memset (at_48_8_S_24_16 state) 0 0 8 in
  let* s3 := memset (at_48_8_S_16_8 state) 0 0 8 in
  Some (mkState48To8 s0 s1 s2 s3).
Definition WebRtcSpl_Resample48khzTo8khz (in_ : list Z) (pos : Z) (out : list Z) (out_ : Z) (state : WebRtcSpl_State48khzTo8khz) (mem : list Z)
    : option (list Z * WebRtcSpl_State48khzTo8khz * list Z) :=
  let* (mem, s0) := WebRtcSpl_DownBy2ShortToInt in_ pos 480 mem 256 (at_48_8_S_48_24 state) in
  let* (mem, s1) := WebRtcSpl_LPBy2IntToInt mem 256 240 16 (at_48_8_S_24_24 state) in
  let* (mem, s2) := exchange mem (at_48_8_S_24_16 state) 8 248 in
  let* mem := WebRtcSpl_Resample48khzTo32khz mem 8 0 80 in
  let* (mem, out, s3) := WebRtcSpl_DownBy2IntToShort mem 0 160 out out_ (at_48_8_S_16_8 state) in
  Some (out, mkState48To8 s0 s1 s2 s3, mem).

Record WebRtcSpl_State8khzTo48khz := mkState8To48 { at_8_48_S_8_16 : list Z; at_8_48_S_16_12 : list Z; at_8_48_S_12_24 : list Z; at_8_48_S_24_48 : list Z }.
Definition WebRtcSpl_ResetResample8khzTo48khz (state : WebRtcSpl_State8khzTo48khz) : option WebRtcSpl_State8khzTo48khz :=
  let* s0 := memset (at_8_48_S_8_16 state) 0 0 8 in
  let* s1 := memset (at_8_48_S_16_12 state) 0 0 8 in
  let* s2 := memset (at_8_48_S_12_24 state) 0 0 8 in
  let* s3 := memset (at_8_48_S_24_48 state) 0 0 8 in
  Some (mkState8To48 s0 s1 s2 s3).
Definition WebRtcSpl_Resample8khzTo48khz (in_ : list Z) (pos : Z) (out : list Z) (out_ : Z) (state : WebRtcSpl_State8khzTo48khz) (mem : list Z)
    : option (list Z * WebRtcSpl_State8khzTo48khz * list Z) :=
  let* (mem, s0) := WebRtcSpl_UpBy2ShortToInt in_ pos 80 mem 264 (at_8_48_S_8_16 state) in
  let* (mem, s1) := exchange mem (at_8_48_S_16_12 state) 256 416 in
  let* mem := WebRtcSpl_Resample32khzTo24khz mem 256 240 40 in
  let* (mem, s2) := WebRtcSpl_UpBy2IntToInt mem 240 120 0 (at_8_48_S_12_24 state) in
  let* (out, s3) := WebRtcSpl_UpBy2IntToShort mem 0 240 out out_ (at_8_48_S_24_48 state) in
  Some (out, mkState8To48 s0 s1 s2 s3, mem).

(** ** Converters (resample.c)

    The frame of 10 ms is converted in sub-blocks. *)

Definition SUB_BLOCKS_22_16 : Z := 5.
Definition SUB_BLOCKS_16_22 : Z := 4.
Definition SUB_BLOCKS_22_8 : Z := 2.
Definition SUB_BLOCKS_8_22 : Z := 2.

Record WebRtcSpl_State22khzTo16khz := mkState22To16 { at_22_16_S_22_44 : list Z; at_22_16_S_44_32 : list Z; at_22_16_S_32_16 : list Z }.
Definition WebRtcSpl_ResetResample22khzTo16khz (state : WebRtcSpl_State22khzTo16khz) : option WebRtcSpl_State22khzTo16khz :=
  let* s0 := memset (at_22_16_S_22_44 state) 0 0 8 in
  let* s1 := memset (at_22_16_S_44_32 state) 0 0 8 in
  let* s2 := memset (at_22_16_S_32_16 state) 0 0 8 in
  Some (mkState22To16 s0 s1 s2).
Definition sub_block_22_16 (in_ : list Z) (pos out_ : Z) (s : list Z * WebRtcSpl_State22khzTo16khz * list Z)
    : option (list Z * WebRtcSpl_State22khzTo16khz * list Z) :=
  let '(out, state, mem) := s in
  let* (mem, s0) := WebRtcSpl_UpBy2ShortToInt in_ pos (220 / SUB_BLOCKS_22_16) mem 16 (at_22_16_S_22_44 state) in
  let* (mem, s1) := exchange mem (at_22_16_S_44_32 state) 8 (440 / SUB_BLOCKS_22_16 + 8) in
  let* mem := WebRtcSpl_Resample44khzTo32khz mem 8 0 (40 / SUB_BLOCKS_22_16) in
  let* (mem, out, s2) := WebRtcSpl_DownBy2IntToShort mem 0 (320 / SUB_BLOCKS_22_16) out out_ (at_22_16_S_32_16 state) in
  Some (out, mkState22To16 s0 s1 s2, mem).
Definition WebRtcSpl_Resample22khzTo16khz (in_ : list Z) (pos : Z) (out : list Z) (out_ : Z) (state : WebRtcSpl_State22khzTo16khz) (mem : list Z)
    : option (list Z * WebRtcSpl_State22khzTo16khz * list Z) :=
  for_loop (fun k => sub_block_22_16 in_ (pos + 220 / SUB_BLOCKS_22_16 * k) (out_ + 160 / SUB_BLOCKS_22_16 * k)) 0 (Z.to_nat SUB_BLOCKS_22_16) (out, state, mem).

Record WebRtcSpl_State16khzTo22khz := mkState16To22 { at_16_22_S_16_32 : list Z; at_16_22_S_32_22 : list Z }.
Definition WebRtcSpl_ResetResample16khzTo22khz (state : WebRtcSpl_State16khzTo22khz) : option WebRtcSpl_State16khzTo22khz :=
  let* s0 := memset (at_16_22_S_16_32 state) 0 0 8 in
  let* s1 := memset (at_16_22_S_32_22 state) 0 0 8 in
  Some (mkState16To22 s0 s1).
Definition sub_block_16_22 (in_ : list Z) (pos out_ : Z) (s : list Z * WebRtcSpl_State16khzTo22khz * list Z)
    : option (list Z * WebRtcSpl_State16khzTo22khz * list Z) :=
  let '(out, state, mem) := s in
  let* (mem, s0) := WebRtcSpl_UpBy2ShortToInt in_ pos (160 / SUB_BLOCKS_16_22) mem 8 (at_16_22_S_16_32 state) in
  let* (mem, s1) := exchange mem (at_16_22_S_32_22 state) 0 (320 / SUB_BLOCKS_16_22) in
  let* out := WebRtcSpl_32khzTo22khzIntToShort mem 0 out out_ (20 / SUB_BLOCKS_16_22) in
  Some (out, mkState16To22 s0 s1, mem).
Definition WebRtcSpl_Resample16khzTo22khz (in_ : list Z) (pos : Z) (out : list Z) (out_ : Z) (state : WebRtcSpl_State16khzTo22khz) (mem : list Z)
    : option (list Z * WebRtcSpl_State16khzTo22khz * list Z) :=
  for_loop (fun k => sub_block_16_22 in_ (pos + 160 / SUB_BLOCKS_16_22 * k) (out_ + 220 / SUB_BLOCKS_16_22 * k)) 0 (Z.to_nat SUB_BLOCKS_16_22) (out, state, mem).

Record WebRtcSpl_State22khzTo8khz := mkState22To8 { at_22_8_S_22_22 : list Z; at_22_8_S_22_16 : list Z; at_22_8_S_16_8 : list Z }.
Definition WebRtcSpl_ResetResample22khzTo8khz (state : WebRtcSpl_State22khzTo8khz) : option WebRtcSpl_State22khzTo8khz :=
  let* s0 := memset (at_22_8_S_22_22 state) 0 0 16 in
  let* s1 := memset (at_22_8_S_22_16 state) 0 0 8 in
  let* s2 := memset (at_22_8_S_16_8 state) 0 0 8 in
  Some (mkState22To8 s0 s1 s2).
Definition sub_block_22_8 (in_ : list Z) (pos out_ : Z) (s : list Z * WebRtcSpl_State22khzTo8khz * list Z)
    : option (list Z * WebRtcSpl_State22khzTo8khz * list Z) :=
  let '(out, state, mem) := s in
  let* (mem, s0) := WebRtcSpl_LPBy2ShortToInt in_ pos (220 / SUB_BLOCKS_22_8) mem 16 (at_22_8_S_22_22 state) in
  let* (mem, s1) := exchange mem (at_22_8_S_22_16 state) 8 (220 / SUB_BLOCKS_22_8 + 8) in
  let* mem := WebRtcSpl_Resample44khzTo32khz mem 8 0 (20 / SUB_BLOCKS_22_8) in
  let* (mem, out, s2) := WebRtcSpl_DownBy2IntToShort mem 0 (160 / SUB_BLOCKS_22_8) out out_ (at_22_8_S_16_8 state) in
  Some (out, mkState22To8 s0 s1 s2, mem).
Definition WebRtcSpl_Resample22khzTo8khz (in_ : list Z) (pos : Z) (out : list Z) (out_ : Z) (state : WebRtcSpl_State22khzTo8khz) (mem : list Z)
    : option (list Z * WebRtcSpl_State22khzTo8khz * list Z) :=
  for_loop (fun k => sub_block_22_8 in_ (pos + 220 / SUB_BLOCKS_22_8 * k) (out_ + 80 / SUB_BLOCKS_22_8 * k)) 0 (Z.to_nat SUB_BLOCKS_22_8) (out, state, mem).

Record WebRtcSpl_State8khzTo22khz := mkState8To22 { at_8_22_S_8_16 : list Z; at_8_22_S_16_11 : list Z; at_8_22_S_11_22 : list Z }.
Definition WebRtcSpl_ResetResample8khzTo22khz (state : WebRtcSpl_State8khzTo22khz) : option WebRtcSpl_State8khzTo22khz :=
  let* s0 := memset (at_8_22_S_8_16 state) 0 0 8 in
  let* s1 := memset (at_8_22_S_16_11 state) 0 0 8 in
  let* s2 := memset (at_8_22_S_11_22 state) 0 0 8 in
  Some (mkState8To22 s0 s1 s2).
Definition sub_block_8_22 (in_ : list Z) (pos out_ : Z) (s : list Z * WebRtcSpl_State8khzTo22khz * list Z)
    : option (list Z * WebRtcSpl_State8khzTo22khz * list Z) :=
  let '(out, state, mem) := s in
  let* (mem, s0) := WebRtcSpl_UpBy2ShortToInt in_ pos (80 / SUB_BLOCKS_8_22) mem 18 (at_8_22_S_8_16 state) in
  let* (mem, s1) := exchange mem (at_8_22_S_16_11 state) 10 (160 / SUB_BLOCKS_8_22 + 10) in
  let* mem := WebRtcSpl_32khzTo22khzIntToInt mem 10 0 (10 / SUB_BLOCKS_8_22) in
  let* (out, s2) := WebRtcSpl_UpBy2IntToShort mem 0 (110 / SUB_BLOCKS_8_22) out out_ (at_8_22_S_11_22 state) in
  Some (out, mkState8To22 s0 s1 s2, mem).
Definition WebRtcSpl_Resample8khzTo22khz (in_ : list Z) (pos : Z) (out : list Z) (out_ : Z) (state : WebRtcSpl_State8khzTo22khz) (mem : list Z)
    : option (list Z * WebRtcSpl_State8khzTo22khz * list Z) :=
  for_loop (fun k => sub_block_8_22 in_ (pos + 80 / SUB_BLOCKS_8_22 * k) (out_ + 220 / SUB_BLOCKS_8_22 * k)) 0 (Z.to_nat SUB_BLOCKS_8_22) (out, state, mem).

End Resample.
