(* ===== verification/ResampleSpec.v ===== *)
(** Properties of the sample rate converters of Resample.v: every converter
    stays inside its arrays and a scratch array no longer than its callers give it, writes
    16-bit samples to all of its output frame and nothing outside it, and keeps its
    state. *)

From S2P Require Import Prelude SplInl Resample.

Module ResampleSpec.
Import Resample.

(** ** The half-band filters *)

(** An output array of which the entries in [done] have been stored, as 16-bit samples, and those
    outside the [n] entries from [lo] on are unchanged.  The array [out0] before may hold any
    integers: an entry that is no 16-bit sample stands for one that has never been written. *)
Record stored (done : Z -> Prop) (out0 : list Z) (lo n : Z) (out : list Z) : Prop := mkStored {
  st_len : zlen out = zlen out0;
  st_done : forall j, done j -> aget out j ⤳ in_i16;
  st_rest : forall j, j < lo \/ lo + n <= j -> aget out j = aget out0 j }.

(** All [n] samples from [lo] on have been written, and nothing else. *)
Definition written (out0 : list Z) (lo n : Z) (out : list Z) : Prop := stored (fun j => lo <= j < lo + n) out0 lo n out.

Lemma stored_start (done : Z -> Prop) out lo n : (forall j, ~ done j) -> stored done out lo n out.
Proof. intros H. constructor; [done| |done]. intros j Hj. by destruct (H j). Qed.

Lemma stored_weaken (done done' : Z -> Prop) out0 lo n out : (forall j, done' j -> done j) ->
  stored done out0 lo n out -> stored done' out0 lo n out.
Proof. intros H [Hl Hd Hr]. constructor; [done| |done]. intros j Hj. by apply Hd, H. Qed.

(** What is written over a frame of 16-bit samples is an array of 16-bit samples again. *)
Lemma written_i16 out0 lo n out : Forall in_i16 out0 -> written out0 lo n out -> Forall in_i16 out.
Proof.
  intros HF [Hl Hd Hr]. apply Forall_lookup_2. intros i x Hx. rewrite <- aget_nat in Hx.
  destruct (decide (lo <= Z.of_nat i < lo + n)) as [H|H].
  - destruct (Hd _ H) as (y & E & Hy). congruence.
  - rewrite Hr in Hx by lia. by apply (Forall_aget in_i16 _ _ _ HF Hx).
Qed.

Lemma aset_sized l i (x : Z) M : 0 <= i < M -> zlen l = M -> aset l i x ⤳ (fun l' => zlen l' = M).
Proof.
  intros Hi Hl. rewrite aset_Some by lia. apply result_ret. by rewrite length_insert.
Qed.

Lemma aget_ok l i M : 0 <= i < M -> zlen l = M -> aget l i ⤳ (fun _ : Z => True).
Proof. intros Hi Hl. destruct (aget_range l i ltac:(lia)) as [x ->]. by apply result_ret. Qed.

Lemma aset_stored done out0 lo n out i x : lo <= i < lo + n -> 0 <= lo -> lo + n <= zlen out0 -> in_i16 x ->
  stored done out0 lo n out -> aset out i x ⤳ stored (fun j => done j \/ j = i) out0 lo n.
Proof.
  intros Hi Hlo Hn Hx [Hl Hr Hrest]. destruct (aset out i x) as [out'|] eqn:E.
  2: { rewrite aset_Some in E by lia. done. }
  apply result_ret. constructor.
  - by rewrite (length_aset _ _ _ _ E).
  - intros j Hj. rewrite (aget_aset _ _ _ j _ E). destruct (Z.eqb_spec j i); [by apply result_ret|]. apply Hr. by destruct Hj.
  - intros j Hj. rewrite (aget_aset _ _ _ j _ E). destruct (Z.eqb_spec j i); [lia|]. by apply Hrest.
Qed.

Lemma saturate_i16 x : in_i16 (saturate x).
Proof.
  unfold saturate, in_i16. destruct (Z.gtb_spec x 32767); [done|].
  destruct (Z.ltb_spec x (-32768)); [done|]. rewrite i16_id by (unfold in_i16; lia). lia.
Qed.

Lemma allpass_ok row b x state M : 0 <= b -> b + 4 <= M -> zlen state = M ->
  allpass row b x state ⤳ (fun '(_, state') => zlen state' = M).
Proof.
  intros Hb HM Hs. unfold allpass. do 4 (eapply result_bind; [apply (aget_ok _ _ M); [lia|done]|]; intros ? _).
  cbv zeta. do 3 (eapply result_bind; [apply (aset_sized _ _ _ M); [lia|assumption]|]; intros ? ?).
  eapply result_bind; [apply (aset_sized _ _ _ M); [lia|assumption]|]. intros ? ?. by apply result_ret.
Qed.

Section branches.
Context (I : Z -> list Z -> Prop) (len M : Z) (load : Z -> list Z -> option Z) (store : Z -> Z -> list Z -> option (list Z)).
Context (Hload : forall i j mem, 0 <= i < len -> I j mem -> load i mem ⤳ (fun _ => True)).
Context (Hstore : forall i y mem, 0 <= i < len -> I i mem -> store i y mem ⤳ I (i + 1)).

Lemma branch_ok row b mem state : 0 <= len -> 0 <= b -> b + 4 <= M -> I 0 mem -> zlen state = M ->
  branch load row b store len mem state ⤳ (fun '(mem', state') => I len mem' /\ zlen state' = M).
Proof.
  intros Hlen Hb HM Hmem Hst. unfold branch.
  destruct (for_loop_inv (fun i (s : list Z * list Z) => I i s.1 /\ zlen s.2 = M)
    (fun i s => let (mem, state) := s in
      let* tmp0 := load i mem in
      let* (y, state) := allpass row b tmp0 state in
      let* mem := store i y mem in Some (mem, state)) 0 (Z.to_nat len) (mem, state)) as (s & E & H).
  { done. }
  { intros i [m st] Hi [H1 H2]. cbn [fst snd] in *.
    eapply result_bind; [apply (Hload i i); [lia|done]|]. intros x _.
    eapply result_bind; [by apply (allpass_ok _ _ _ _ M)|]. intros [y st'] Hs'.
    eapply result_bind; [apply Hstore; [lia|done]|]. intros m' Hm'. by apply result_ret. }
  exists s. split; [done|]. rewrite Z.add_0_l, Z2Nat.id in H by lia. by destruct s.
Qed.

Lemma delayed_branch_ok row b mem state : 0 <= len -> 0 <= b -> b + 4 <= M -> 13 <= M -> I 0 mem -> zlen state = M ->
  delayed_branch load row b store len mem state ⤳ (fun '(mem', state') => I len mem' /\ zlen state' = M).
Proof.
  intros Hlen Hb HM HM' Hmem Hst. unfold delayed_branch.
  eapply result_bind; [apply (aget_ok _ _ M); [lia|done]|]. intros t0 _.
  match goal with |- context [for_loop ?body _ _ ?start] =>
    destruct (for_loop_inv (fun i (r : Z * list Z * list Z) => I i r.1.2 /\ zlen r.2 = M) body 0 (Z.to_nat len) start)
      as ([[t m] st] & E & H) end.
  { done. }
  { intros i [[t m] st] Hi [H1 H2]. cbn [fst snd] in *.
    eapply result_bind; [by apply (allpass_ok _ _ _ _ M)|]. intros [y st'] Hs'.
    eapply result_bind; [apply Hstore; [lia|done]|]. intros m' Hm'.
    eapply result_bind; [apply (Hload i (i + 1)); [lia|done]|]. intros t' _. by apply result_ret. }
  rewrite E. rewrite Z.add_0_l, Z2Nat.id in H by lia. by apply result_ret.
Qed.
End branches.

(** *** Loads and stores *)

Lemma load_short_ok in_ pos step i mem N : zlen in_ = N -> 0 <= pos + step * i < N ->
  load_short in_ pos step i mem ⤳ (fun _ => True).
Proof.
  intros HN Hi. unfold load_short. destruct (aget_range in_ (pos + step * i) ltac:(lia)) as [x ->]. by apply result_ret.
Qed.

Lemma store_average_ok pos step i y mem M : zlen mem = M -> 0 <= pos + step * i < M ->
  store_average pos step i y mem ⤳ (fun m => zlen m = M).
Proof.
  intros HM Hi. unfold store_average. eapply result_bind; [by apply (aget_ok _ _ M)|]. intros x _. by apply aset_sized.
Qed.

Lemma store_add_ok pos step i y mem M : zlen mem = M -> 0 <= pos + step * i < M ->
  store_add pos step i y mem ⤳ (fun m => zlen m = M).
Proof.
  intros HM Hi. unfold store_add. eapply result_bind; [by apply (aget_ok _ _ M)|]. intros x _. by apply aset_sized.
Qed.

(** *** The stages: the scratch array and the state keep their sizes *)

Definition sizes (M S : Z) (r : list Z * list Z) : Prop := zlen r.1 = M /\ zlen r.2 = S.

Lemma branch_sizes M S load row b store len mem state :
  (forall i m, 0 <= i < len -> zlen m = M -> load i m ⤳ (fun _ => True)) ->
  (forall i y m, 0 <= i < len -> zlen m = M -> store i y m ⤳ (fun m' => zlen m' = M)) ->
  0 <= len -> 0 <= b -> b + 4 <= S -> zlen mem = M -> zlen state = S ->
  branch load row b store len mem state ⤳ sizes M S.
Proof.
  intros. eapply result_weaken; [apply (branch_ok (fun _ m => zlen m = M) len S); eauto|]. by intros [].
Qed.

Lemma delayed_branch_sizes M S load row b store len mem state :
  (forall i m, 0 <= i < len -> zlen m = M -> load i m ⤳ (fun _ => True)) ->
  (forall i y m, 0 <= i < len -> zlen m = M -> store i y m ⤳ (fun m' => zlen m' = M)) ->
  0 <= len -> 0 <= b -> b + 4 <= S -> 13 <= S -> zlen mem = M -> zlen state = S ->
  delayed_branch load row b store len mem state ⤳ sizes M S.
Proof.
  intros. eapply result_weaken; [apply (delayed_branch_ok (fun _ m => zlen m = M) len S); eauto|]. by intros [].
Qed.

Ltac load_store :=
  intros; first
    [ eapply load_short_ok; [reflexivity|lia]
    | unfold load_int; eapply aget_ok; [|eassumption]; lia
    | unfold store_shift; apply aset_sized; [lia|eassumption]
    | apply store_average_ok; [eassumption|lia]
    | apply store_add_ok; [eassumption|lia] ].
Ltac run_branch :=
  first [eapply branch_sizes; [| | | | |eassumption|eassumption]
        | eapply delayed_branch_sizes; [| | | | | |eassumption|eassumption]]; [load_store|load_store|lia..].
Ltac next_branch := eapply result_bind; [run_branch|]; intros [? ?] [? ?]; cbn [fst snd] in *.
Ltac half := match goal with |- context [Z.shiftr (2 * ?len) 1] =>
  replace (Z.shiftr (2 * len) 1) with len by (rewrite Z.shiftr_div_pow2 by lia; dlia) end.

Section stages.
Context (M : Z) (mem state : list Z) (Hmem : zlen mem = M).

Lemma DownBy2ShortToInt_ok in_ pos len out_ : 0 <= pos -> pos + 2 * len <= zlen in_ -> 0 <= len ->
  0 <= out_ -> out_ + len <= M -> zlen state = 8 ->
  WebRtcSpl_DownBy2ShortToInt in_ pos (2 * len) mem out_ state ⤳ sizes M 8.
Proof. intros. unfold WebRtcSpl_DownBy2ShortToInt. half. next_branch. run_branch. Qed.

Lemma UpBy2ShortToInt_ok in_ pos len out_ : 0 <= pos -> pos + len <= zlen in_ -> 0 <= len ->
  0 <= out_ -> out_ + 2 * len <= M -> zlen state = 8 ->
  WebRtcSpl_UpBy2ShortToInt in_ pos len mem out_ state ⤳ sizes M 8.
Proof. intros. unfold WebRtcSpl_UpBy2ShortToInt. next_branch. run_branch. Qed.

Lemma UpBy2IntToInt_ok in_ len out_ : 0 <= in_ -> in_ + len <= M -> 0 <= len ->
  0 <= out_ -> out_ + 2 * len <= M -> zlen state = 8 ->
  WebRtcSpl_UpBy2IntToInt mem in_ len out_ state ⤳ sizes M 8.
Proof. intros. unfold WebRtcSpl_UpBy2IntToInt. next_branch. run_branch. Qed.

Lemma LPBy2ShortToInt_ok in_ pos len out_ : 0 <= pos -> pos + 2 * len <= zlen in_ -> 0 <= len ->
  0 <= out_ -> out_ + 2 * len <= M -> zlen state = 16 ->
  WebRtcSpl_LPBy2ShortToInt in_ pos (2 * len) mem out_ state ⤳ sizes M 16.
Proof.
  intros. unfold WebRtcSpl_LPBy2ShortToInt, lp_by_2. half. do 3 next_branch. run_branch.
Qed.

Lemma LPBy2IntToInt_ok in_ len out_ : 0 <= in_ -> in_ + 2 * len <= M -> 0 <= len ->
  0 <= out_ -> out_ + 2 * len <= M -> zlen state = 16 ->
  WebRtcSpl_LPBy2IntToInt mem in_ (2 * len) out_ state ⤳ sizes M 16.
Proof.
  intros. unfold WebRtcSpl_LPBy2IntToInt, lp_by_2. half. do 3 next_branch. run_branch.
Qed.

End stages.

(** *** Stages with a 16-bit output *)

Lemma combine_step_ok in_ mem out_ len k out0 out : 0 <= k < len -> 0 <= in_ -> in_ + 4 * len <= zlen mem ->
  0 <= out_ -> out_ + 2 * len <= zlen out0 -> stored (fun j => out_ <= j < out_ + 2 * k) out0 out_ (2 * len) out ->
  combine_step in_ mem out_ k out ⤳ stored (fun j => out_ <= j < out_ + 2 * (k + 1)) out0 out_ (2 * len).
Proof.
  intros Hk Hi Hm Ho Hn Hw. unfold combine_step. cbv zeta.
  do 4 (eapply result_bind; [apply (aget_ok _ _ (zlen mem)); [lia|done]|]; intros ? _).
  eapply result_bind; [eapply aset_stored; [| | |apply saturate_i16|exact Hw]; lia|]. intros out' Hw'.
  eapply result_weaken; [eapply aset_stored; [| | |apply saturate_i16|exact Hw']; lia|].
  intros o. apply stored_weaken. intros j Hj. lia.
Qed.

Lemma DownBy2IntToShort_ok M mem in_ len out out_ state : zlen mem = M -> 0 <= in_ -> in_ + 4 * len <= M -> 0 <= len ->
  0 <= out_ -> out_ + 2 * len <= zlen out -> zlen state = 8 ->
  WebRtcSpl_DownBy2IntToShort mem in_ (2 * (2 * len)) out out_ state ⤳
    (fun '(mem', out', state') => zlen mem' = M /\ written out out_ (2 * len) out' /\ zlen state' = 8).
Proof.
  intros. unfold WebRtcSpl_DownBy2IntToShort. half. do 2 next_branch.
  replace ((2 * len + 1) / 2) with len by dlia. rename l1 into mem', l2 into state'.
  destruct (for_loop_inv (fun k o => stored (fun j => out_ <= j < out_ + 2 * k) out out_ (2 * len) o) (combine_step in_ mem' out_) 0 (Z.to_nat len) out)
    as (o & -> & Ho); [apply stored_start; lia|intros; apply combine_step_ok; try (done || lia)|].
  rewrite Z.add_0_l, Z2Nat.id in Ho by lia. by apply result_ret.
Qed.

(** Every second sample is stored, with those of [before]. *)
Lemma up_to_short_ok before mem in_ row b out0 out_ lo n len out state : 0 <= in_ -> in_ + len <= zlen mem -> 0 <= len ->
  lo <= out_ -> out_ + 2 * (len - 1) < lo + n -> 0 <= lo -> lo + n <= zlen out0 -> 0 <= b -> b + 4 <= 8 -> zlen state = 8 ->
  stored before out0 lo n out ->
  up_to_short mem in_ row b out_ len out state ⤳ (fun '(out', state') =>
    stored (fun j => before j \/ exists i, 0 <= i < len /\ j = out_ + 2 * i) out0 lo n out' /\ zlen state' = 8).
Proof.
  intros. unfold up_to_short.
  apply (branch_ok (fun k => stored (fun j => before j \/ exists i, 0 <= i < k /\ j = out_ + 2 * i) out0 lo n)); try (done || lia).
  - intros i j m Hi _. apply (aget_ok _ _ (zlen mem)); [lia|done].
  - intros i y o Hi Ho. eapply result_weaken; [eapply aset_stored; [| | |apply saturate_i16|exact Ho]; lia|].
    intros o'. apply stored_weaken. intros j [Hj|(k & Hk & ->)]; [by do 2 left|].
    destruct (Z.eq_dec k i) as [->|]; [by right|]. left. right. exists k. split; [lia|done].
  - eapply stored_weaken; [|eassumption]. intros j [Hj|(i & Hi & _)]; [done|lia].
Qed.

Lemma UpBy2IntToShort_ok mem in_ len out out_ state : 0 <= in_ -> in_ + len <= zlen mem -> 0 <= len ->
  0 <= out_ -> out_ + 2 * len <= zlen out -> zlen state = 8 ->
  WebRtcSpl_UpBy2IntToShort mem in_ len out out_ state ⤳
    (fun '(out', state') => written out out_ (2 * len) out' /\ zlen state' = 8).
Proof.
  intros. unfold WebRtcSpl_UpBy2IntToShort. eapply result_bind.
  { apply (up_to_short_ok (fun _ => False) mem in_ upper 4 out out_ out_ (2 * len)); first [done | lia | by apply stored_start]. }
  intros [o s] [Ho Hs]. eapply result_weaken; [eapply (up_to_short_ok _ mem in_ lower 0 out (out_ + 1) out_ (2 * len)); try eassumption; lia|].
  intros [o' s'] [Ho' Hs']. split; [|done]. eapply stored_weaken; [|exact Ho']. intros j Hj.
  assert (Hq : j = out_ + 2 * ((j - out_) / 2) \/ j = out_ + 1 + 2 * ((j - out_) / 2)) by dlia.
  destruct Hq as [Hq|Hq]; [left; right|right]; exists ((j - out_) / 2); (split; [dlia|exact Hq]).
Qed.

(** ** The polyphase filters *)

Lemma dot_ok coef mem pos dir tmp : 0 <= pos < zlen mem -> 0 <= pos + dir * (zlen coef - 1) < zlen mem ->
  dot coef mem pos dir tmp ⤳ (fun _ => True).
Proof.
  revert pos tmp. induction coef as [|c coef IH]; intros pos tmp H1 H2; [by apply result_ret|]. simpl.
  eapply result_bind; [by apply (aget_ok _ _ (zlen mem))|]. intros x _.
  destruct coef as [|c' coef]; [by apply result_ret|].
  assert (Hn : 0 <= zlen coef) by lia. cbn [length] in *.
  apply IH; nia.
Qed.

(** A block reads its taps inside the array and keeps the size of the array. *)
Ltac read_tap := first
  [ apply dot_ok; cbn [nth length kCoefficients48To32 kCoefficients32To24 kCoefficients44To32 kCoefficients32To22]; lia
  | eapply aget_ok; [|eassumption]; lia ].
Ltac block_step :=
  lazymatch goal with
  | |- aset _ _ _ ⤳ _ => apply aset_sized; [lia|assumption]
  | |- mbind _ (aset _ _ _) ⤳ _ => eapply result_bind; [eapply aset_sized; [|eassumption]; lia|]; intros ? ?; cbv beta in *
  | |- mbind _ _ ⤳ _ => eapply result_bind; [read_tap|]; intros ? _
  end.

Lemma two_products_ok table k mem in1 in2 : zlen (nth k table []) = 9 -> 0 <= in1 -> in1 + 9 <= zlen mem ->
  8 <= in2 < zlen mem -> two_products table k mem in1 in2 ⤳ (fun _ => True).
Proof.
  intros Hk H1 H2 H3. unfold two_products, filter_at.
  do 2 (eapply result_bind; [apply dot_ok; rewrite ?Hk; lia|]; intros ? _). by apply result_ret.
Qed.

Lemma ResampDotProduct_ok M table k in1 in2 out1 out2 mem : zlen (nth k table []) = 9 -> 0 <= in1 -> in1 + 9 <= M ->
  8 <= in2 < M -> 0 <= out1 < M -> 0 <= out2 < M -> zlen mem = M ->
  WebRtcSpl_ResampDotProduct table k in1 in2 out1 out2 mem ⤳ (fun m => zlen m = M).
Proof.
  intros. unfold WebRtcSpl_ResampDotProduct.
  eapply result_bind; [apply two_products_ok; (done || lia)|]. intros [t1 t2] _. do 2 block_step.
Qed.

Lemma blocks_ok (I : Z -> list Z -> Prop) block In Out si so K mem : 0 <= K -> I 0 mem ->
  (forall m x, 0 <= m < K -> I m x -> block (In + si * m) (Out + so * m) x ⤳ I (m + 1)) ->
  blocks block In Out si so K mem ⤳ I K.
Proof.
  intros HK Hm Hb. unfold blocks.
  destruct (for_loop_inv I (fun m mem => block (In + si * m) (Out + so * m) mem) 0 (Z.to_nat K) mem Hm)
    as (m & E & H); [intros i x Hi Hx; apply Hb; [lia|done]|]. rewrite Z.add_0_l, Z2Nat.id in H by lia. by exists m.
Qed.

Section fractional.
Context (M : Z) (mem : list Z) (Hmem : zlen mem = M) (In Out K : Z) (HI : 0 <= In) (HO : 0 <= Out) (HK : 0 <= K).

Lemma Resample48khzTo32khz_ok : In + 3 * K + 6 <= M -> Out + 2 * K <= M ->
  WebRtcSpl_Resample48khzTo32khz mem In Out K ⤳ (fun m => zlen m = M).
Proof.
  intros. unfold WebRtcSpl_Resample48khzTo32khz. apply (blocks_ok (fun _ m => zlen m = M)); [done|done|].
  intros m x Hm Hx. unfold block_48_32, filter_at. repeat block_step.
Qed.

Lemma Resample32khzTo24khz_ok : In + 4 * K + 6 <= M -> Out + 3 * K <= M ->
  WebRtcSpl_Resample32khzTo24khz mem In Out K ⤳ (fun m => zlen m = M).
Proof.
  intros. unfold WebRtcSpl_Resample32khzTo24khz. apply (blocks_ok (fun _ m => zlen m = M)); [done|done|].
  intros m x Hm Hx. unfold block_32_24, filter_at. repeat block_step.
Qed.

Ltac products :=
  lazymatch goal with
  | |- WebRtcSpl_ResampDotProduct _ _ _ _ _ _ _ ⤳ _ => eapply ResampDotProduct_ok; [reflexivity|..]; (eassumption || lia)
  | |- mbind _ (WebRtcSpl_ResampDotProduct _ _ _ _ _ _ _) ⤳ _ =>
      eapply result_bind; [eapply ResampDotProduct_ok; [reflexivity|..|eassumption]; lia|]; intros ? ?; cbv beta in *
  | _ => block_step
  end.

Lemma Resample44khzTo32khz_ok : In + 11 * K + 7 <= M -> Out + 8 * K <= M ->
  WebRtcSpl_Resample44khzTo32khz mem In Out K ⤳ (fun m => zlen m = M).
Proof.
  intros. unfold WebRtcSpl_Resample44khzTo32khz. apply (blocks_ok (fun _ m => zlen m = M)); [done|done|].
  intros m x Hm Hx. unfold block_44_32. unfold filter_at. repeat products.
Qed.

Lemma Resample32khzTo22khz_ok : In + 16 * K + 7 <= M -> Out + 11 * K <= M ->
  WebRtcSpl_32khzTo22khzIntToInt mem In Out K ⤳ (fun m => zlen m = M).
Proof.
  intros. unfold WebRtcSpl_32khzTo22khzIntToInt. apply (blocks_ok (fun _ m => zlen m = M)); [done|done|].
  intros m x Hm Hx. unfold block_32_22_int, WebRtcSpl_DotProdIntToInt. repeat products.
Qed.
End fractional.

Lemma short_products_ok done mem k in1 in2 out0 lo n out1 out2 out : zlen (nth k kCoefficients32To22 []) = 9 ->
  0 <= in1 -> in1 + 9 <= zlen mem -> 8 <= in2 < zlen mem -> 0 <= lo -> lo + n <= zlen out0 ->
  lo <= out1 < lo + n -> lo <= out2 < lo + n -> stored done out0 lo n out ->
  WebRtcSpl_DotProdIntToShort mem k in1 in2 out1 out2 out ⤳ stored (fun j => (done j \/ j = out1) \/ j = out2) out0 lo n.
Proof.
  intros. unfold WebRtcSpl_DotProdIntToShort.
  eapply result_bind; [apply two_products_ok; (done || lia)|]. intros [t1 t2] _.
  eapply result_bind; [eapply aset_stored; [| | |apply saturate_i16|eassumption]; lia|]. intros o Ho.
  eapply aset_stored; [| | |apply saturate_i16|eassumption]; lia.
Qed.

Lemma Resample32khzTo22khz_short_ok mem In out Out K : 0 <= In -> In + 16 * K + 7 <= zlen mem -> 0 <= K ->
  0 <= Out -> Out + 11 * K <= zlen out ->
  WebRtcSpl_32khzTo22khzIntToShort mem In out Out K ⤳ written out Out (11 * K).
Proof.
  intros. unfold WebRtcSpl_32khzTo22khzIntToShort.
  apply (blocks_ok (fun m => stored (fun j => Out <= j < Out + 11 * m) out Out (11 * K))); [done|apply stored_start; lia|].
  intros m o Hm Ho. unfold block_32_22_short.
  eapply result_bind; [apply (aget_ok _ _ (zlen mem)); [lia|done]|]. intros t _.
  eapply result_bind; [eapply aset_stored; [| | |apply saturate_i16|exact Ho]; lia|]. intros o1 Ho1.
  do 4 (eapply result_bind; [eapply short_products_ok; [done| | | | | | | |eassumption]; lia|]; intros ? ?).
  eapply result_weaken; [eapply short_products_ok; [done| | | | | | | |eassumption]; lia|].
  intros o'. apply stored_weaken. intros j Hj. lia.
Qed.

(** ** The converters *)

Lemma exchange_ok mem S to from M : zlen mem = M -> zlen S = 8 -> 0 <= to -> to + 8 <= M -> 0 <= from -> from + 8 <= M ->
  exchange mem S to from ⤳ sizes M 8.
Proof.
  intros Hm HS H1 H2 H3 H4. unfold exchange. rewrite memcpy_Some by lia. cbn [mbind option_bind].
  assert (zlen (splice mem to (slice S 0 8)) = M) by (rewrite length_splice; rewrite ?length_slice; lia).
  rewrite memcpy_Some by lia. apply result_ret. split; [done|]. cbn [snd].
  rewrite length_splice; rewrite ?length_slice; lia.
Qed.

(** What a converter owes to its callers: its state can be reset, and for every
    frame of [n_in] samples of an input, every output array and every scratch array of [n_mem]
    entries or more it writes all [n_out] samples of the output frame with 16-bit values,
    nothing outside the frame, and keeps the state usable. *)
Record converter_ok {T} (reset : T -> option T)
    (convert : list Z -> Z -> list Z -> Z -> T -> list Z -> option (list Z * T * list Z))
    (state_ok : T -> Prop) (n_in n_out n_mem : Z) : Prop := mkConverterOk {
  cv_reset : forall state, state_ok state -> reset state ⤳ state_ok;
  cv_convert : forall in_ pos out out_ state mem, 0 <= pos -> pos + n_in <= zlen in_ -> 0 <= out_ ->
    out_ + n_out <= zlen out -> state_ok state -> n_mem <= zlen mem ->
    convert in_ pos out out_ state mem ⤳ (fun '(out', state', mem') =>
      written out out_ n_out out' /\ state_ok state' /\ zlen mem' = zlen mem) }.

Lemma memset_sized (l : list Z) n : zlen l = n -> memset l 0 0 n ⤳ (fun l' => zlen l' = n).
Proof.
  intros <-. rewrite memset_all by done. apply result_ret. unfold zreplicate. rewrite length_replicate. lia.
Qed.

(** The steps of a converter, one stage after the other. *)
Create HintDb resample.
#[local] Hint Resolve DownBy2ShortToInt_ok UpBy2ShortToInt_ok UpBy2IntToInt_ok LPBy2ShortToInt_ok LPBy2IntToInt_ok
  Resample48khzTo32khz_ok Resample32khzTo24khz_ok Resample44khzTo32khz_ok Resample32khzTo22khz_ok exchange_ok
  memset_sized : resample.

Definition ok_48_16 (s : WebRtcSpl_State48khzTo16khz) : Prop :=
  zlen (at_48_16_S_48_48 s) = 16 /\ zlen (at_48_16_S_48_32 s) = 8 /\ zlen (at_48_16_S_32_16 s) = 8.
Definition ok_16_48 (s : WebRtcSpl_State16khzTo48khz) : Prop :=
  zlen (at_16_48_S_16_32 s) = 8 /\ zlen (at_16_48_S_32_24 s) = 8 /\ zlen (at_16_48_S_24_48 s) = 8.
Definition ok_48_8 (s : WebRtcSpl_State48khzTo8khz) : Prop :=
  zlen (at_48_8_S_48_24 s) = 8 /\ zlen (at_48_8_S_24_24 s) = 16 /\ zlen (at_48_8_S_24_16 s) = 8 /\ zlen (at_48_8_S_16_8 s) = 8.
Definition ok_8_48 (s : WebRtcSpl_State8khzTo48khz) : Prop :=
  zlen (at_8_48_S_8_16 s) = 8 /\ zlen (at_8_48_S_16_12 s) = 8 /\ zlen (at_8_48_S_12_24 s) = 8 /\ zlen (at_8_48_S_24_48 s) = 8.
Definition ok_22_16 (s : WebRtcSpl_State22khzTo16khz) : Prop :=
  zlen (at_22_16_S_22_44 s) = 8 /\ zlen (at_22_16_S_44_32 s) = 8 /\ zlen (at_22_16_S_32_16 s) = 8.
Definition ok_16_22 (s : WebRtcSpl_State16khzTo22khz) : Prop :=
  zlen (at_16_22_S_16_32 s) = 8 /\ zlen (at_16_22_S_32_22 s) = 8.
Definition ok_22_8 (s : WebRtcSpl_State22khzTo8khz) : Prop :=
  zlen (at_22_8_S_22_22 s) = 16 /\ zlen (at_22_8_S_22_16 s) = 8 /\ zlen (at_22_8_S_16_8 s) = 8.
Definition ok_8_22 (s : WebRtcSpl_State8khzTo22khz) : Prop :=
  zlen (at_8_22_S_8_16 s) = 8 /\ zlen (at_8_22_S_16_11 s) = 8 /\ zlen (at_8_22_S_11_22 s) = 8.

#[local] Hint Unfold ok_48_16 ok_16_48 ok_48_8 ok_8_48 ok_22_16 ok_16_22 ok_22_8 ok_8_22 : resample.
Ltac reset_tac := intros s Hs; autounfold with resample in Hs; destruct_and? Hs; hnf;
  repeat (eapply result_bind; [apply memset_sized; eassumption|]; intros ? ?; cbv beta in * ); apply result_ret;
  autounfold with resample; split_and?; assumption.
Tactic Notation "stage" uconstr(lem) := eapply result_bind; [eapply lem; try eassumption; try reflexivity; lia|]; intros [? ?] [? ?]; cbn [fst snd] in *.
Tactic Notation "fractional" uconstr(lem) := eapply result_bind; [eapply lem; try eassumption; try reflexivity; lia|]; intros ? ?; cbv beta in *.
Ltac finish := apply result_ret; autounfold with resample; split_and?; first [assumption | congruence].

Lemma converter_48_16 : converter_ok WebRtcSpl_ResetResample48khzTo16khz WebRtcSpl_Resample48khzTo16khz ok_48_16 480 160 496.
Proof.
  split; [reset_tac|]. intros in_ pos out out_ s mem Hp Hin Ho Hout (H1 & H2 & H3) Hm.
  unfold WebRtcSpl_Resample48khzTo16khz.
  stage (LPBy2ShortToInt_ok (zlen mem) mem _ eq_refl in_ pos 240).
  stage exchange_ok. fractional Resample48khzTo32khz_ok.
  eapply result_bind; [eapply (DownBy2IntToShort_ok (zlen mem) _ _ 80); (eassumption || lia)|].
  intros [[? ?] ?] (? & ? & ?). finish.
Qed.

Lemma converter_16_48 : converter_ok WebRtcSpl_ResetResample16khzTo48khz WebRtcSpl_Resample16khzTo48khz ok_16_48 160 480 336.
Proof.
  split; [reset_tac|]. intros in_ pos out out_ s mem Hp Hin Ho Hout (H1 & H2 & H3) Hm.
  unfold WebRtcSpl_Resample16khzTo48khz.
  stage (UpBy2ShortToInt_ok (zlen mem) mem _ eq_refl in_ pos 160).
  stage exchange_ok. fractional Resample32khzTo24khz_ok.
  eapply result_bind; [eapply (UpBy2IntToShort_ok _ _ 240); (eassumption || lia)|].
  intros [? ?] (? & ?). finish.
Qed.

Lemma converter_48_8 : converter_ok WebRtcSpl_ResetResample48khzTo8khz WebRtcSpl_Resample48khzTo8khz ok_48_8 480 80 496.
Proof.
  split; [reset_tac|]. intros in_ pos out out_ s mem Hp Hin Ho Hout (H1 & H2 & H3 & H4) Hm.
  unfold WebRtcSpl_Resample48khzTo8khz.
  stage (DownBy2ShortToInt_ok (zlen mem) mem _ eq_refl in_ pos 240).
  stage (fun H => LPBy2IntToInt_ok (zlen mem) _ _ H 256 120).
  stage exchange_ok. fractional Resample48khzTo32khz_ok.
  eapply result_bind; [eapply (DownBy2IntToShort_ok (zlen mem) _ _ 40); (eassumption || lia)|].
  intros [[? ?] ?] (? & ? & ?). finish.
Qed.

Lemma converter_8_48 : converter_ok WebRtcSpl_ResetResample8khzTo48khz WebRtcSpl_Resample8khzTo48khz ok_8_48 80 480 424.
Proof.
  split; [reset_tac|]. intros in_ pos out out_ s mem Hp Hin Ho Hout (H1 & H2 & H3 & H4) Hm.
  unfold WebRtcSpl_Resample8khzTo48khz.
  stage (UpBy2ShortToInt_ok (zlen mem) mem _ eq_refl in_ pos 80).
  stage exchange_ok. fractional Resample32khzTo24khz_ok.
  stage UpBy2IntToInt_ok.
  eapply result_bind; [eapply (UpBy2IntToShort_ok _ _ 240); (eassumption || lia)|].
  intros [? ?] (? & ?). finish.
Qed.


(** The four converters that work in sub-blocks, of [step] samples each. *)
Definition so_far {T} (state_ok : T -> Prop) out0 out_ n_out (M : nat) (count : Z) (r : list Z * T * list Z) : Prop :=
  let '(o, st, m) := r in stored (fun j => out_ <= j < out_ + count) out0 out_ n_out o /\ state_ok st /\ zlen m = Z.of_nat M.

Lemma sub_blocks_ok {T} (sub : Z -> list Z * T * list Z -> option (list Z * T * list Z)) (state_ok : T -> Prop)
    (n M : nat) out0 out_ st (mem : list Z) n_out step :
  state_ok st -> length mem = M -> n_out = step * Z.of_nat n ->
  (forall k r, 0 <= k < Z.of_nat n -> so_far state_ok out0 out_ n_out M (step * k) r ->
     sub k r ⤳ so_far state_ok out0 out_ n_out M (step * (k + 1))) ->
  for_loop sub 0 n (out0, st, mem) ⤳
    (fun '(o', st', m') => written out0 out_ n_out o' /\ state_ok st' /\ zlen m' = Z.of_nat M).
Proof.
  intros Hs Hm Hn Hstep.
  destruct (for_loop_inv (fun k => so_far state_ok out0 out_ n_out M (step * k)) sub 0 n (out0, st, mem)) as ([[o' st'] m'] & -> & H).
  { split_and!; [apply stored_start; lia|done|cbn; lia]. }
  { intros k r Hk Hr. apply Hstep; [lia|done]. }
  apply result_ret. rewrite Z.add_0_l, <- Hn in H. exact H.
Qed.

(** A stage that writes the next part of the frame. *)
Lemma stored_part out0 lo n out count lo' n' out' : 0 <= count -> lo' = lo + count -> count + n' <= n ->
  stored (fun j => lo <= j < lo + count) out0 lo n out -> written out lo' n' out' ->
  stored (fun j => lo <= j < lo + (count + n')) out0 lo n out'.
Proof.
  intros H1 -> H2 [Hl Hd Hr] [Hl' Hd' Hr']. constructor; [congruence| |].
  - intros j Hj. destruct (decide (lo + count <= j)) as [Hc|Hc]; [apply Hd'; lia|]. rewrite Hr' by lia. apply Hd. lia.
  - intros j Hj. rewrite Hr', Hr by lia. done.
Qed.

Ltac part k step := apply result_ret; replace (step * (k + 1)) with (step * k + step) by lia; unfold so_far; split;
  [eapply stored_part; [| | |eassumption|eassumption]; lia|autounfold with resample; cbn; split_and?; first [assumption | lia]].

Lemma converter_22_16 : converter_ok WebRtcSpl_ResetResample22khzTo16khz WebRtcSpl_Resample22khzTo16khz ok_22_16 220 160 104.
Proof.
  split; [reset_tac|]. intros in_ pos out out_ s mem Hp Hin Ho Hout Hs Hm.
  unfold WebRtcSpl_Resample22khzTo16khz.
  apply (sub_blocks_ok _ ok_22_16 (Z.to_nat SUB_BLOCKS_22_16) (length mem) out out_ s mem 160 32 Hs eq_refl eq_refl).
  intros k [[o st] m] Hk (Ho' & (H1 & H2 & H3) & Hm'). pose proof (st_len _ _ _ _ _ Ho').
  change (Z.of_nat (Z.to_nat SUB_BLOCKS_22_16)) with 5 in Hk. unfold sub_block_22_16.
  change (220 / SUB_BLOCKS_22_16) with 44. change (440 / SUB_BLOCKS_22_16) with 88. change (40 / SUB_BLOCKS_22_16) with 8. change (160 / SUB_BLOCKS_22_16) with 32. change (320 / SUB_BLOCKS_22_16) with 64.
  stage (UpBy2ShortToInt_ok (zlen mem) m _ ltac:(lia) in_ (pos + 44 * k) 44).
  stage exchange_ok. fractional Resample44khzTo32khz_ok.
  eapply result_bind; [eapply (fun H => DownBy2IntToShort_ok (zlen mem) _ _ 16 o _ _ H); (eassumption || lia)|].
  intros [[? ?] ?] (? & ? & ?). part k 32.
Qed.

Lemma converter_16_22 : converter_ok WebRtcSpl_ResetResample16khzTo22khz WebRtcSpl_Resample16khzTo22khz ok_16_22 160 220 88.
Proof.
  split; [reset_tac|]. intros in_ pos out out_ s mem Hp Hin Ho Hout Hs Hm.
  unfold WebRtcSpl_Resample16khzTo22khz.
  apply (sub_blocks_ok _ ok_16_22 (Z.to_nat SUB_BLOCKS_16_22) (length mem) out out_ s mem 220 55 Hs eq_refl eq_refl).
  intros k [[o st] m] Hk (Ho' & (H1 & H2) & Hm'). pose proof (st_len _ _ _ _ _ Ho').
  change (Z.of_nat (Z.to_nat SUB_BLOCKS_16_22)) with 4 in Hk. unfold sub_block_16_22.
  change (20 / SUB_BLOCKS_16_22) with 5. change (220 / SUB_BLOCKS_16_22) with 55. change (160 / SUB_BLOCKS_16_22) with 40. change (320 / SUB_BLOCKS_16_22) with 80.
  stage (UpBy2ShortToInt_ok (zlen mem) m _ ltac:(lia) in_ (pos + 40 * k) 40).
  stage exchange_ok.
  eapply result_bind; [eapply (fun H => Resample32khzTo22khz_short_ok _ 0 o _ 5 H); (eassumption || lia)|].
  intros ? ?. part k 55.
Qed.

Lemma converter_22_8 : converter_ok WebRtcSpl_ResetResample22khzTo8khz WebRtcSpl_Resample22khzTo8khz ok_22_8 220 80 126.
Proof.
  split; [reset_tac|]. intros in_ pos out out_ s mem Hp Hin Ho Hout Hs Hm.
  unfold WebRtcSpl_Resample22khzTo8khz.
  apply (sub_blocks_ok _ ok_22_8 (Z.to_nat SUB_BLOCKS_22_8) (length mem) out out_ s mem 80 40 Hs eq_refl eq_refl).
  intros k [[o st] m] Hk (Ho' & (H1 & H2 & H3) & Hm'). pose proof (st_len _ _ _ _ _ Ho').
  change (Z.of_nat (Z.to_nat SUB_BLOCKS_22_8)) with 2 in Hk. unfold sub_block_22_8.
  change (80 / SUB_BLOCKS_22_8) with 40. change (20 / SUB_BLOCKS_22_8) with 10. change (220 / SUB_BLOCKS_22_8) with 110. change (160 / SUB_BLOCKS_22_8) with 80.
  stage (LPBy2ShortToInt_ok (zlen mem) m _ ltac:(lia) in_ (pos + 110 * k) 55).
  stage exchange_ok. fractional Resample44khzTo32khz_ok.
  eapply result_bind; [eapply (fun H => DownBy2IntToShort_ok (zlen mem) _ _ 20 o _ _ H); (eassumption || lia)|].
  intros [[? ?] ?] (? & ? & ?). part k 40.
Qed.

Lemma converter_8_22 : converter_ok WebRtcSpl_ResetResample8khzTo22khz WebRtcSpl_Resample8khzTo22khz ok_8_22 80 220 98.
Proof.
  split; [reset_tac|]. intros in_ pos out out_ s mem Hp Hin Ho Hout Hs Hm.
  unfold WebRtcSpl_Resample8khzTo22khz.
  apply (sub_blocks_ok _ ok_8_22 (Z.to_nat SUB_BLOCKS_8_22) (length mem) out out_ s mem 220 110 Hs eq_refl eq_refl).
  intros k [[o st] m] Hk (Ho' & (H1 & H2 & H3) & Hm'). pose proof (st_len _ _ _ _ _ Ho').
  change (Z.of_nat (Z.to_nat SUB_BLOCKS_8_22)) with 2 in Hk. unfold sub_block_8_22.
  change (80 / SUB_BLOCKS_8_22) with 40. change (220 / SUB_BLOCKS_8_22) with 110. change (10 / SUB_BLOCKS_8_22) with 5. change (110 / SUB_BLOCKS_8_22) with 55. change (160 / SUB_BLOCKS_8_22) with 80.
  stage (UpBy2ShortToInt_ok (zlen mem) m _ ltac:(lia) in_ (pos + 40 * k) 40).
  stage exchange_ok. fractional Resample32khzTo22khz_ok.
  eapply result_bind; [eapply (fun H => UpBy2IntToShort_ok _ 0 55 o _ _ H); (eassumption || lia)|].
  intros [? ?] (? & ?). part k 110.
Qed.

(** ** The polyphase filters in place

    The outputs of a block overwrite the inputs of earlier blocks only: the
    filters compute, in one array, what they would compute from a copy. *)

(** Output [j] of the block whose input is at [In], from an array that is not
    written. *)
Definition out_48_32 (mem : list Z) (In j : Z) : option Z := filter_at kCoefficients48To32 (Z.to_nat j) mem (In + j) 1.
Definition out_32_24 (mem : list Z) (In j : Z) : option Z := filter_at kCoefficients32To24 (Z.to_nat j) mem (In + j) 1.
Definition rounded (mem : list Z) (pos : Z) : option Z := short_to_int <$> aget mem pos.
Definition out_44_32 (mem : list Z) (In j : Z) : option Z :=
  match j with
  | 0 => rounded mem (In + 3) | 4 => filter_at kCoefficients44To32 3 mem (In + 5) 1
  | 1 => filter_at kCoefficients44To32 0 mem In 1 | 7 => filter_at kCoefficients44To32 0 mem (In + 17) (-1)
  | 2 => filter_at kCoefficients44To32 1 mem (In + 2) 1 | 6 => filter_at kCoefficients44To32 1 mem (In + 15) (-1)
  | 3 => filter_at kCoefficients44To32 2 mem (In + 3) 1 | _ => filter_at kCoefficients44To32 2 mem (In + 14) (-1)
  end.
Definition out_32_22 (mem : list Z) (In j : Z) : option Z :=
  match j with
  | 0 => rounded mem (In + 3)
  | 1 => filter_at kCoefficients32To22 0 mem In 1 | 10 => filter_at kCoefficients32To22 0 mem (In + 22) (-1)
  | 2 => filter_at kCoefficients32To22 1 mem (In + 2) 1 | 9 => filter_at kCoefficients32To22 1 mem (In + 20) (-1)
  | 3 => filter_at kCoefficients32To22 2 mem (In + 3) 1 | 8 => filter_at kCoefficients32To22 2 mem (In + 19) (-1)
  | 4 => filter_at kCoefficients32To22 3 mem (In + 5) 1 | 7 => filter_at kCoefficients32To22 3 mem (In + 17) (-1)
  | 5 => filter_at kCoefficients32To22 4 mem (In + 6) 1 | _ => filter_at kCoefficients32To22 4 mem (In + 16) (-1)
  end.

(** [x] agrees with [mem] from [p] on. *)
Definition agree (mem x : list Z) (p : Z) : Prop := zlen x = zlen mem /\ forall j, p <= j -> aget x j = aget mem j.

Lemma dot_agree coef mem x p pos dir tmp : agree mem x p -> p <= pos -> p <= pos + dir * (zlen coef - 1) ->
  dot coef x pos dir tmp = dot coef mem pos dir tmp.
Proof.
  intros [Hl Ha]. revert pos tmp. induction coef as [|c coef IH]; intros pos tmp H1 H2; [done|]. simpl.
  rewrite Ha by done. destruct (aget mem pos) as [y|]; [|done]. simpl.
  destruct coef as [|c' coef]; [done|]. cbn [length] in *. apply IH; nia.
Qed.

(** A write below the region of agreement. *)
Lemma aset_below mem x p i v : agree mem x p -> 0 <= i -> i < p -> i < zlen mem ->
  exists x', aset x i v = Some x' /\ agree mem x' p /\ forall j, aget x' j = if j =? i then Some v else aget x j.
Proof.
  intros [Hl Ha] H0 Hi Hm. destruct (aset x i v) as [x'|] eqn:E.
  2: { rewrite aset_Some in E by lia. done. }
  exists x'. split; [done|]. split.
  - split; [by rewrite (length_aset _ _ _ _ E)|]. intros j Hj. rewrite (aget_aset _ _ _ j _ E).
    destruct (Z.eqb_spec j i); [lia|]. by apply Ha.
  - intros j. apply (aget_aset _ _ _ j _ E).
Qed.

(** What a block must do: with its outputs at least [gap] below its inputs, it
    stores [n] outputs of the original array. *)
Definition block_exact (block : Z -> Z -> list Z -> option (list Z)) (out : list Z -> Z -> Z -> option Z) (n gap reach : Z) : Prop :=
  forall In Out x mem, 0 <= Out -> Out + gap <= In -> In + reach <= zlen mem -> agree mem x In ->
  exists x', block In Out x = Some x' /\ zlen x' = zlen mem /\ (forall j, 0 <= j < n -> aget x' (Out + j) = out mem In j) /\
    forall j, j < Out \/ Out + n <= j -> aget x' j = aget x j.

Lemma blocks_exact block out n gap reach si In Out K mem : block_exact block out n gap reach ->
  0 < n <= si -> 0 <= gap -> n <= gap + si -> 0 <= Out -> Out + gap <= In -> 0 <= K -> In + si * (K - 1) + reach <= zlen mem ->
  exists mem', blocks block In Out si n K mem = Some mem' /\
    forall m j, 0 <= m < K -> 0 <= j < n -> aget mem' (Out + n * m + j) = out mem (In + si * m) j.
Proof.
  intros Hb Hn Hg Hgn HO HI HK Hl. unfold blocks.
  destruct (for_loop_inv (fun i x => agree mem x (In + si * i) /\
      forall m j, 0 <= m < i -> 0 <= j < n -> aget x (Out + n * m + j) = out mem (In + si * m) j)
    (fun m mem => block (In + si * m) (Out + n * m) mem) 0 (Z.to_nat K) mem) as (x & E & _ & H).
  - split; [done|]. lia.
  - intros i x Hi [Ha Hx]. destruct (Hb (In + si * i) (Out + n * i) x mem) as (x' & E & Hl' & Hout & Hrest); [nia|nia|nia|done|].
    exists x'. split; [done|]. split.
    + split; [done|]. intros j Hj. rewrite Hrest by nia. apply Ha. nia.
    + intros m j Hm Hj. destruct (Z.eqb_spec m i) as [->|]; [by apply Hout|].
      rewrite Hrest by nia. apply Hx; lia.
  - exists x. split; [done|]. intros m j Hm Hj. apply H; lia.
Qed.

(** Steps of a block: a read from the original, a write below it. *)
Ltac taps := cbn [nth length kCoefficients48To32 kCoefficients32To24 kCoefficients44To32 kCoefficients32To22 Z.of_nat Pos.of_succ_nat Pos.succ] in *.
Ltac read_filter :=
  match goal with |- context [filter_at ?t ?k ?x ?pos ?dir] =>
    lazymatch x with
    | ?y => is_var y; match goal with Ha : agree ?mem y ?p |- _ =>
        let v := fresh "v" in let E := fresh "E" in
        destruct (filter_at t k mem pos dir) as [v|] eqn:E;
        [|exfalso; destruct (dot_ok (nth k t []) mem pos dir (Z.shiftl 1 14)) as (? & E' & _); [taps; lia|taps; lia|];
          unfold filter_at in E; congruence];
        replace (filter_at t k y pos dir) with (Some v) by (rewrite <- E; symmetry; unfold filter_at; apply (dot_agree _ _ _ p); [done|taps; lia|taps; lia]);
        cbn [mbind option_bind] end
    end end.

Ltac read_int :=
  match goal with Ha : agree ?mem ?y ?p |- context [aget ?y ?i] =>
    rewrite (proj2 Ha i) by lia;
    let v := fresh "v" in let E := fresh "E" in
    destruct (aget mem i) as [v|] eqn:E; [|exfalso; destruct (aget_range mem i ltac:(lia)); congruence];
    cbn [mbind option_bind] end.
Ltac write_below :=
  match goal with Ha : agree ?mem ?y ?p |- context [aset ?y ?i ?v] =>
    let x := fresh "x" in let E := fresh "E" in let Ha' := fresh "Ha" in let Hx := fresh "Hx" in
    destruct (aset_below mem y p i v Ha) as (x & E & Ha' & Hx); [lia|lia|lia|]; rewrite E; clear E; cbn [mbind option_bind]
  end.
(** The outputs read back. *)
Ltac look := repeat match goal with Hx : forall j, aget ?x j = @?f j |- context [aget ?x ?i] =>
  rewrite (Hx i); match goal with |- context [?a =? ?b] => destruct (Z.eqb_spec a b); [try lia|try lia] end end; try done.
Ltac close_block := eexists; split; [reflexivity|]; split; [by match goal with Ha : agree _ ?x _ |- context [length ?x] => apply Ha end|]; split;
  [|intros j Hj; look].

Lemma block_48_32_exact : block_exact block_48_32 out_48_32 2 2 9.
Proof.
  intros In Out x mem HO HI Hm Ha. unfold block_48_32. read_filter. write_below. read_filter. write_below.
  close_block.
  intros j Hj. assert (j = 0 \/ j = 1) as [->| ->] by lia; unfold out_48_32; rewrite ?Z.add_0_r; look; simpl Z.to_nat; congruence.
Qed.

Lemma block_32_24_exact : block_exact block_32_24 out_32_24 3 3 10.
Proof.
  intros In Out x mem HO HI Hm Ha. unfold block_32_24. do 3 (read_filter; write_below). close_block.
  intros j Hj. assert (j = 0 \/ j = 1 \/ j = 2) as [->|[->| ->]] by lia; unfold out_32_24; rewrite ?Z.add_0_r; look; simpl Z.to_nat; congruence.
Qed.

Lemma block_44_32_exact : block_exact block_44_32 out_44_32 8 8 18.
Proof.
  intros In Out x mem HO HI Hm Ha. unfold block_44_32, WebRtcSpl_ResampDotProduct, two_products.
  read_int. write_below. read_filter. write_below. do 3 (do 2 read_filter; do 2 write_below). close_block.
  intros j Hj. assert (j = 0 \/ j = 1 \/ j = 2 \/ j = 3 \/ j = 4 \/ j = 5 \/ j = 6 \/ j = 7) as Hc by lia.
  repeat (destruct Hc as [->|Hc]); try subst j; unfold out_44_32, rounded, short_to_int; rewrite ?Z.add_0_r; look;
    rewrite ?E; cbn [fmap option_fmap option_map]; congruence.
Qed.

(** The outermost products are read before the last output of the block is
    written over the first input. *)
Lemma agree_weaken mem x p p' : p <= p' -> agree mem x p -> agree mem x p'.
Proof. intros Hp [Hl Ha]. split; [done|]. intros j Hj. apply Ha. lia. Qed.

Lemma block_32_22_exact : block_exact block_32_22_int out_32_22 11 10 23.
Proof.
  intros In Out x mem HO HI Hm Ha.
  unfold block_32_22_int, WebRtcSpl_DotProdIntToInt, WebRtcSpl_ResampDotProduct, two_products.
  read_int. write_below. do 2 read_filter.
  match goal with H : agree mem ?y In |- context [aset ?y _ _] => apply (agree_weaken _ _ _ (In + 1)) in H; [|lia] end.
  do 2 write_below. do 4 (do 2 read_filter; do 2 write_below). close_block.
  intros j Hj.
  assert (j = 0 \/ j = 1 \/ j = 2 \/ j = 3 \/ j = 4 \/ j = 5 \/ j = 6 \/ j = 7 \/ j = 8 \/ j = 9 \/ j = 10) as Hc by lia.
  repeat (destruct Hc as [->|Hc]); try subst j; unfold out_32_22, rounded, short_to_int; rewrite ?Z.add_0_r; look;
    rewrite ?E; cbn [fmap option_fmap option_map]; congruence.
Qed.

(** ** Properties *)

(** C21. Each of the eight converters can be reset, and on every frame it stays
    inside its arrays and a scratch memory of the size given: of what resampler.cc allocates
    for the six converters it calls, 496 of the 736 entries that the voice activity
    detector passes for 48 to 8 kHz, and 424 for 8 to 48 kHz, which has no caller. It writes
    every sample of the output frame, with 16-bit values whatever the array held, and nothing
    outside the frame, and leaves a state for the next frame. *)
Theorem converters_safe :
  converter_ok WebRtcSpl_ResetResample48khzTo16khz WebRtcSpl_Resample48khzTo16khz ok_48_16 480 160 496 /\
  converter_ok WebRtcSpl_ResetResample16khzTo48khz WebRtcSpl_Resample16khzTo48khz ok_16_48 160 480 336 /\
  converter_ok WebRtcSpl_ResetResample48khzTo8khz WebRtcSpl_Resample48khzTo8khz ok_48_8 480 80 496 /\
  converter_ok WebRtcSpl_ResetResample8khzTo48khz WebRtcSpl_Resample8khzTo48khz ok_8_48 80 480 424 /\
  converter_ok WebRtcSpl_ResetResample22khzTo16khz WebRtcSpl_Resample22khzTo16khz ok_22_16 220 160 104 /\
  converter_ok WebRtcSpl_ResetResample16khzTo22khz WebRtcSpl_Resample16khzTo22khz ok_16_22 160 220 88 /\
  converter_ok WebRtcSpl_ResetResample22khzTo8khz WebRtcSpl_Resample22khzTo8khz ok_22_8 220 80 126 /\
  converter_ok WebRtcSpl_ResetResample8khzTo22khz WebRtcSpl_Resample8khzTo22khz ok_8_22 80 220 98.
Proof.
  split_and!; [exact converter_48_16|exact converter_16_48|exact converter_48_8|exact converter_8_48
    |exact converter_22_16|exact converter_16_22|exact converter_22_8|exact converter_8_22].
Qed.

(** C35. The polyphase filters work in place: when the output lies below the input
    of the same array, by the distances that the converters use or less, every
    output is the inner product of the original samples, although inputs are
    overwritten on the way. *)
Theorem polyphase_in_place mem In Out K : 0 <= Out -> 0 <= K ->
  (Out + 2 <= In -> In + 3 * (K - 1) + 9 <= zlen mem ->
   exists mem', WebRtcSpl_Resample48khzTo32khz mem In Out K = Some mem' /\
     forall m j, 0 <= m < K -> 0 <= j < 2 -> aget mem' (Out + 2 * m + j) = out_48_32 mem (In + 3 * m) j) /\
  (Out + 3 <= In -> In + 4 * (K - 1) + 10 <= zlen mem ->
   exists mem', WebRtcSpl_Resample32khzTo24khz mem In Out K = Some mem' /\
     forall m j, 0 <= m < K -> 0 <= j < 3 -> aget mem' (Out + 3 * m + j) = out_32_24 mem (In + 4 * m) j) /\
  (Out + 8 <= In -> In + 11 * (K - 1) + 18 <= zlen mem ->
   exists mem', WebRtcSpl_Resample44khzTo32khz mem In Out K = Some mem' /\
     forall m j, 0 <= m < K -> 0 <= j < 8 -> aget mem' (Out + 8 * m + j) = out_44_32 mem (In + 11 * m) j) /\
  (Out + 10 <= In -> In + 16 * (K - 1) + 23 <= zlen mem ->
   exists mem', WebRtcSpl_32khzTo22khzIntToInt mem In Out K = Some mem' /\
     forall m j, 0 <= m < K -> 0 <= j < 11 -> aget mem' (Out + 11 * m + j) = out_32_22 mem (In + 16 * m) j).
Proof.
  intros HO HK. split_and!; intros HI Hm.
  - by apply (blocks_exact _ _ _ 2 9 3 _ _ _ _ block_48_32_exact).
  - by apply (blocks_exact _ _ _ 3 10 4 _ _ _ _ block_32_24_exact).
  - by apply (blocks_exact _ _ _ 8 18 11 _ _ _ _ block_44_32_exact).
  - by apply (blocks_exact _ _ _ 10 23 16 _ _ _ _ block_32_22_exact).
Qed.

Lemma polyphase_in_place_witness :
  exists mem', WebRtcSpl_Resample48khzTo32khz (tab (fun i => 32768 * i) 20) 8 0 2 = Some mem' /\
     forall m j, 0 <= m < 2 -> 0 <= j < 2 -> aget mem' (0 + 2 * m + j) = out_48_32 (tab (fun i => 32768 * i) 20) (8 + 3 * m) j.
Proof. apply (polyphase_in_place (tab (fun i => 32768 * i) 20) 8 0 2); [lia|lia|lia|vm_compute; discriminate]. Defined.

(** At full scale a difference of the half-band filter leaves the 32-bit range:
    after two samples of 32767, the sample -32768 less the cell of the first section
    is below the smallest [int32_t]. *)
Lemma half_band_overflows :
  exists mem state, branch (load_short [32767; 32767; -32768] 0 1) lower 0 (store_shift 1 0 1) 2
    (zreplicate 3 0) (zreplicate 8 0) = Some (mem, state) /\
  short_to_int (-32768) - znth state 1 = -2310122630.
Proof. eexists _, _. split; [vm_compute; reflexivity|]. vm_compute. reflexivity. Qed.

End ResampleSpec.
