(* ===== verification/Vad.v ===== *)
(** The voice activity detector, translated from common_audio/vad: vad_filterbank.c
    (features), vad_gmm.c (Gaussian probability), vad_sp.c (downsampling, minimum
    of the features), vad_core.c (decision and adaptation of the models) and
    webrtc_vad.c (interface).

    [GmmProbability] is cut at its comments; [channel_likelihood], [update_gaussian],
    [separate_models] and [limit_means] are the bodies of its loops. *)

From S2P Require Import Prelude SplInl SplVec Resample.

Module Vad.
Import Spl SplVec Resample.

(** ** Constants and data (vad_core.h, vad_core.c) *)

Definition kNumChannels : Z := 6.
Definition kNumGaussians : Z := 2.
Definition kTableSize : Z := kNumChannels * kNumGaussians.
Definition kMinEnergy : Z := 10.
Definition kInitCheck : Z := 42.

Definition kSpectrumWeight : list Z := [6; 8; 10; 12; 14; 16].
Definition kNoiseUpdateConst : Z := 655.
Definition kSpeechUpdateConst : Z := 6554.
Definition kBackEta : Z := 154.
Definition kMinimumDifference : list Z := [544; 544; 576; 576; 576; 576].
Definition kMaximumSpeech : list Z := [11392; 11392; 11520; 11520; 11520; 11520].
Definition kMinimumMean : list Z := [640; 768].
Definition kMaximumNoise : list Z := [9216; 9088; 8960; 8832; 8704; 8576].
Definition kNoiseDataWeights : list Z := [34; 62; 72; 66; 53; 25; 94; 66; 56; 62; 75; 103].
Definition kSpeechDataWeights : list Z := [48; 82; 45; 87; 50; 47; 80; 46; 83; 41; 78; 81].
Definition kNoiseDataMeans : list Z := [6738; 4892; 7065; 6715; 6771; 3369; 7646; 3863; 7820; 7266; 5020; 4362].
Definition kSpeechDataMeans : list Z :=
  [8306; 10085; 10078; 11823; 11843; 6309; 9473; 9571; 10879; 7581; 8180; 7483].
Definition kNoiseDataStds : list Z := [378; 1064; 493; 582; 688; 593; 474; 697; 475; 688; 421; 455].
Definition kSpeechDataStds : list Z := [555; 505; 567; 524; 585; 1231; 509; 828; 492; 1540; 1079; 850].
Definition kMaxSpeechFrames : Z := 6.
Definition kMinStd : Z := 384.
Definition kDefaultMode : Z := 0.

(** The thresholds of a mode: [kOverHangMax1], [kOverHangMax2], [kLocalThreshold],
    [kGlobalThreshold]. *)
Definition mode_thresholds (mode : Z) : option (list Z * list Z * list Z * list Z) :=
  match mode with
  | 0 => Some ([8; 4; 3], [14; 7; 5], [24; 21; 24], [57; 48; 57])
  | 1 => Some ([8; 4; 3], [14; 7; 5], [37; 32; 37], [100; 80; 100])
  | 2 => Some ([6; 3; 2], [9; 5; 3], [82; 78; 82], [285; 260; 285])
  | 3 => Some ([6; 3; 2], [9; 5; 3], [94; 94; 94], [1100; 1050; 1100])
  | _ => None
  end.

Record VadInstT := mkVad {
  vad : Z;
  downsampling_filter_states : list Z;
  state_48_to_8 : WebRtcSpl_State48khzTo8khz;
  noise_means : list Z;
  speech_means : list Z;
  noise_stds : list Z;
  speech_stds : list Z;
  frame_counter : Z;
  over_hang : Z;
  num_of_speech : Z;
  index_vector : list Z;
  low_value_vector : list Z;
  mean_value : list Z;
  upper_state : list Z;
  lower_state : list Z;
  hp_filter_state : list Z;
  over_hang_max_1 : list Z;
  over_hang_max_2 : list Z;
  individual : list Z;
  total : list Z;
  init_flag : Z }.

#[export] Instance rebuild_Vad : Rebuild VadInstT := fun r =>
  mkVad (vad r) (downsampling_filter_states r) (state_48_to_8 r) (noise_means r) (speech_means r)
    (noise_stds r) (speech_stds r) (frame_counter r) (over_hang r) (num_of_speech r) (index_vector r)
    (low_value_vector r) (mean_value r) (upper_state r) (lower_state r) (hp_filter_state r)
    (over_hang_max_1 r) (over_hang_max_2 r) (individual r) (total r) (init_flag r).

(** ** Features (vad_filterbank.c) *)

Definition kLogConst : Z := 24660.
Definition kLogEnergyIntPart : Z := 14336.
Definition kHpZeroCoefs : list Z := [6631; -13262; 6631].
Definition kHpPoleCoefs : list Z := [16384; -7756; 5620].
Definition kAllPassCoefsQ15 : list Z := [20972; 5571].
Definition kOffsetVector : list Z := [368; 368; 272; 176; 176; 176].

(** The outputs of a filter are the list of the samples it writes. *)

(** One turn of the high pass: the state and the output. *)
Definition high_pass_sample (s : list Z) (x : Z) : list Z * Z :=
  let tmp32 := i32 (znth kHpZeroCoefs 0 * x) in
  let tmp32 := i32 (tmp32 + i32 (znth kHpZeroCoefs 1 * znth s 0)) in
  let tmp32 := i32 (tmp32 + i32 (znth kHpZeroCoefs 2 * znth s 1)) in
  let tmp32 := i32 (tmp32 - i32 (znth kHpPoleCoefs 1 * znth s 2)) in
  let tmp32 := i32 (tmp32 - i32 (znth kHpPoleCoefs 2 * znth s 3)) in
  let y := i16 (Z.shiftr tmp32 14) in
  ([x; znth s 0; y; znth s 2], y).

Definition HighPassFilter (data_in : list Z) (data_length : Z) (filter_state : list Z) : option (list Z * list Z) :=
  for_loop (fun i (s : list Z * list Z) =>
    let (state, out) := s in
    let* x := aget data_in i in
    let (state, y) := high_pass_sample state x in
    Some (state, out ++ [y])) 0 (Z.to_nat data_length) (filter_state, []).

(** One turn of the all-pass filter: [state32] and the output. *)
Definition all_pass_sample (filter_coefficient state32 x : Z) : Z * Z :=
  let tmp32 := i32 (state32 + i32 (filter_coefficient * x)) in
  let tmp16 := i16 (Z.shiftr tmp32 16) in
  let state32 := i32 (i32 (Z.shiftl x 14) - i32 (filter_coefficient * tmp16)) in
  (i32 (Z.shiftl state32 1), tmp16).

(** Every other sample from [pos] on. *)
Definition AllPassFilter (data_in : list Z) (pos data_length filter_coefficient filter_state : Z)
    : option (Z * list Z) :=
  let* (state32, out) := for_loop (fun i (s : Z * list Z) =>
      let (state32, out) := s in
      let* x := aget data_in (pos + 2 * i) in
      let (state32, y) := all_pass_sample filter_coefficient state32 x in
      Some (state32, out ++ [y])) 0 (Z.to_nat data_length) (i32 (Z.shiftl filter_state 16), []) in
  Some (i16 (Z.shiftr state32 16), out).

(** The result: both states, the upper and the lower half of the spectrum. *)
Definition SplitFilter (data_in : list Z) (data_length upper_state lower_state : Z)
    : option (Z * Z * list Z * list Z) :=
  let half_length := Z.shiftr data_length 1 in
  let* (upper_state, hp) := AllPassFilter data_in 0 half_length (znth kAllPassCoefsQ15 0) upper_state in
  let* (lower_state, lp) := AllPassFilter data_in 1 half_length (znth kAllPassCoefsQ15 1) lower_state in
  Some (upper_state, lower_state, zip_with (fun h l => i16 (h - l)) hp lp, zip_with (fun h l => i16 (l + h)) hp lp).

(** The energy is added to [total_energy] as long as that is small; the result is
    [log_energy] and [total_energy]. *)
Definition LogOfEnergy (data_in : list Z) (data_length offset total_energy : Z) : option (Z * Z) :=
  let* _ := c_assert (data_length >? 0) in
  let* _ := c_assert (range_ok data_in 0 data_length) in
  let (en, tot_rshifts) := WebRtcSpl_Energy (slice data_in 0 data_length) in
  let energy := u32 en in
  if negb (energy =? 0) then
    let normalizing_rshifts := 17 - WebRtcSpl_NormU32 energy in
    let tot_rshifts := tot_rshifts + normalizing_rshifts in
    let energy := if normalizing_rshifts <? 0 then u32 (Z.shiftl energy (- normalizing_rshifts))
                  else Z.shiftr energy normalizing_rshifts in
    let log2_energy := i16 (kLogEnergyIntPart + i16 (Z.shiftr (Z.land energy 16383) 4)) in
    let log_energy := i16 (Z.shiftr (i32 (kLogConst * log2_energy)) 19 + Z.shiftr (i32 (tot_rshifts * kLogConst)) 9) in
    let log_energy := if log_energy <? 0 then 0 else log_energy in
    let log_energy := i16 (log_energy + offset) in
    let total_energy :=
      if total_energy <=? kMinEnergy then
        if tot_rshifts >=? 0 then i16 (total_energy + (kMinEnergy + 1))
        else i16 (total_energy + i16 (Z.shiftr energy (- tot_rshifts)))
      else total_energy in
    Some (log_energy, total_energy)
  else Some (offset, total_energy).

(** [SplitFilter] with the states of a frequency band. *)
Definition split_band (self : VadInstT) (frequency_band : Z) (data_in : list Z) (length : Z)
    : option (VadInstT * list Z * list Z) :=
  let* u := aget (upper_state self) frequency_band in
  let* l := aget (lower_state self) frequency_band in
  let* (u, l, hp, lp) := SplitFilter data_in length u l in
  let* us := aset (upper_state self) frequency_band u in
  let* ls := aset (lower_state self) frequency_band l in
  Some (self <| upper_state := us |> <| lower_state := ls |>, hp, lp).

(** The features and the total energy. *)
Definition WebRtcVad_CalculateFeatures (self : VadInstT) (data_in : list Z) (data_length : Z)
    : option (VadInstT * list Z * Z) :=
  let half_data_length := Z.shiftr data_length 1 in
  let length := half_data_length in
  let* _ := c_assert (data_length <=? 240) in
  let* (self, hp_120, lp_120) := split_band self 0 data_in data_length in
  let* (self, hp_60, lp_60) := split_band self 1 hp_120 length in
  let length := Z.shiftr length 1 in
  let* (f5, total_energy) := LogOfEnergy hp_60 length (znth kOffsetVector 5) 0 in
  let* (f4, total_energy) := LogOfEnergy lp_60 length (znth kOffsetVector 4) total_energy in
  let length := half_data_length in
  let* (self, hp_60, lp_60) := split_band self 2 lp_120 length in
  let length := Z.shiftr length 1 in
  let* (f3, total_energy) := LogOfEnergy hp_60 length (znth kOffsetVector 3) total_energy in
  let* (self, hp_120, lp_120) := split_band self 3 lp_60 length in
  let length := Z.shiftr length 1 in
  let* (f2, total_energy) := LogOfEnergy hp_120 length (znth kOffsetVector 2) total_energy in
  let* (self, hp_60, lp_60) := split_band self 4 lp_120 length in
  let length := Z.shiftr length 1 in
  let* (f1, total_energy) := LogOfEnergy hp_60 length (znth kOffsetVector 1) total_energy in
  let* (hp_state, hp_120) := HighPassFilter lp_60 length (hp_filter_state self) in
  let self := self <| hp_filter_state := hp_state |> in
  let* (f0, total_energy) := LogOfEnergy hp_120 length (znth kOffsetVector 0) total_energy in
  Some (self, [f0; f1; f2; f3; f4; f5], total_energy).

(** ** Downsampling and minimum (vad_sp.c) *)

Definition kAllPassCoefsQ13 : list Z := [5243; 1392].
Definition kSmoothingDown : Z := 6553.
Definition kSmoothingUp : Z := 32439.

(** A branch of the downsampling filter: its state and output. *)
Definition downsampling_branch (coef tmp32 x : Z) : Z * Z :=
  let tmp16 := i16 (Z.shiftr tmp32 1 + Z.shiftr (i32 (coef * x)) 14) in
  (i32 (x - Z.shiftr (i32 (coef * tmp16)) 12), tmp16).

Definition downsampling_step (signal_in : list Z) (n : Z) (s : Z * Z * list Z) : option (Z * Z * list Z) :=
  let '(tmp32_1, tmp32_2, out) := s in
  let* x := aget signal_in (2 * n) in
  let (tmp32_1, tmp16_1) := downsampling_branch (znth kAllPassCoefsQ13 0) tmp32_1 x in
  let* x := aget signal_in (2 * n + 1) in
  let (tmp32_2, tmp16_2) := downsampling_branch (znth kAllPassCoefsQ13 1) tmp32_2 x in
  Some (tmp32_1, tmp32_2, out ++ [i16 (tmp16_1 + tmp16_2)]).

(** The state is at [pos] of [states]. *)
Definition WebRtcVad_Downsampling (signal_in states : list Z) (pos in_length : Z) : option (list Z * list Z) :=
  let* tmp32_1 := aget states pos in
  let* tmp32_2 := aget states (pos + 1) in
  let half_length := Z.shiftr in_length 1 in
  let* (tmp32_1, tmp32_2, out) := for_loop (downsampling_step signal_in) 0 (Z.to_nat half_length) (tmp32_1, tmp32_2, []) in
  let* states := aset states pos tmp32_1 in
  let* states := aset states (pos + 1) tmp32_2 in
  Some (out, states).

(** The entry [i] of one of the two vectors of 96 entries. The last turn of the shift
    below asks for the entry 16 of a channel. For the last channel that is the entry 96,
    one behind the array: C does not define this access, and what it gives is a
    parameter here, [behind]. *)
Definition next_entry (l : list Z) (behind i : Z) : option Z :=
  if i =? 16 * kNumChannels then Some behind else aget l i.

(** [smallest_values[j] = smallest_values[j + 1]; age[j] = age[j + 1];] *)
Definition shift_step (behind_age behind_value offset j : Z) (s : list Z * list Z) : option (list Z * list Z) :=
  let (age, smallest_values) := s in
  let* v := next_entry smallest_values behind_value (offset + j + 1) in
  let* smallest_values := aset smallest_values (offset + j) v in
  let* a := next_entry age behind_age (offset + j + 1) in
  let* age := aset age (offset + j) a in
  Some (age, smallest_values).

(** Turn [i] of the loop over the ages. *)
Definition age_step (behind_age behind_value offset i : Z) (s : list Z * list Z) : option (list Z * list Z) :=
  let (age, smallest_values) := s in
  let* a := aget age (offset + i) in
  if negb (a =? 100) then
    let* age := aset age (offset + i) (i16 (a + 1)) in Some (age, smallest_values)
  else
    let* (age, smallest_values) := for_loop (shift_step behind_age behind_value offset) i (Z.to_nat (16 - i)) (age, smallest_values) in
    let* age := aset age (offset + 15) 101 in
    let* smallest_values := aset smallest_values (offset + 15) 10000 in
    Some (age, smallest_values).

Definition find_position (low : Z -> Z) (feature_value : Z) : Z :=
  if feature_value <? low 7 then
    if feature_value <? low 3 then
      if feature_value <? low 1 then
        if feature_value <? low 0 then 0 else 1
      else if feature_value <? low 2 then 2 else 3
    else if feature_value <? low 5 then
      if feature_value <? low 4 then 4 else 5
    else if feature_value <? low 6 then 6 else 7
  else if feature_value <? low 15 then
    if feature_value <? low 11 then
      if feature_value <? low 9 then
        if feature_value <? low 8 then 8 else 9
      else if feature_value <? low 10 then 10 else 11
    else if feature_value <? low 13 then
      if feature_value <? low 12 then 12 else 13
    else if feature_value <? low 14 then 14 else 15
  else -1.

(** [for (i = 15; i > position; i--)]; turn [k] has [i = 15 - k]. *)
Definition insert_step (offset k : Z) (s : list Z * list Z) : option (list Z * list Z) :=
  let (age, smallest_values) := s in
  let i := 15 - k in
  let* v := aget smallest_values (offset + i - 1) in
  let* smallest_values := aset smallest_values (offset + i) v in
  let* a := aget age (offset + i - 1) in
  let* age := aset age (offset + i) a in
  Some (age, smallest_values).

Definition insert_value (offset position feature_value : Z) (s : list Z * list Z) : option (list Z * list Z) :=
  if position >? -1 then
    let* (age, smallest_values) := for_loop (insert_step offset) 0 (Z.to_nat (15 - position)) s in
    let* smallest_values := aset smallest_values (offset + position) feature_value in
    let* age := aset age (offset + position) 1 in
    Some (age, smallest_values)
  else Some s.

(** The function, with what the accesses behind the two arrays give. *)
Definition find_minimum (behind_age behind_value : Z) (self : VadInstT) (feature_value channel : Z) : option (VadInstT * Z) :=
  let offset := Z.shiftl channel 4 in
  let* _ := c_assert (channel <? kNumChannels) in
  let* (age, smallest_values) :=
    for_loop (age_step behind_age behind_value offset) 0 16 (index_vector self, low_value_vector self) in
  let position := find_position (fun j => znth smallest_values (offset + j)) feature_value in
  let* (age, smallest_values) := insert_value offset position feature_value (age, smallest_values) in
  let* current_median :=
    if frame_counter self >? 2 then aget smallest_values (offset + 2)
    else if frame_counter self >? 0 then aget smallest_values offset
    else Some 1600 in
  let* m := aget (mean_value self) channel in
  let alpha := if frame_counter self >? 0 then
      if current_median <? m then kSmoothingDown else kSmoothingUp else 0 in
  let tmp32 := i32 ((alpha + 1) * m) in
  let tmp32 := i32 (tmp32 + i32 ((WEBRTC_SPL_WORD16_MAX - alpha) * current_median)) in
  let tmp32 := i32 (tmp32 + 16384) in
  let m := i16 (Z.shiftr tmp32 15) in
  let* means := aset (mean_value self) channel m in
  Some (self <| index_vector := age |> <| low_value_vector := smallest_values |> <| mean_value := means |>, m).

(** In the layout of [VadInstT_], [low_value_vector] lies behind [index_vector], and
    [mean_value] behind [low_value_vector]: their first entries are what a compiler
    without other ideas makes the accesses give. ([find_minimum_behind] of
    VadSpec.v shows that the result does not depend on them.) *)
Definition WebRtcVad_FindMinimum (self : VadInstT) (feature_value channel : Z) : option (VadInstT * Z) :=
  find_minimum (znth (low_value_vector self) 0) (znth (mean_value self) 0) self feature_value channel.

(** ** Gaussian probability (vad_gmm.c) *)

Definition kCompVar : Z := 22005.
Definition kLog2Exp : Z := 5909.

(** [x >> n]; a count outside [0 .. 31] is undefined. *)
Definition shift_right (x n : Z) : option Z := if (0 <=? n) && (n <? 32) then Some (Z.shiftr x n) else None.

(** [1 / s] in Q10 and [1 / s^2] in Q14. *)
Definition inverse_std (std : Z) : Z := i16 (WebRtcSpl_DivW32W16 (i32 (131072 + Z.shiftr std 1)) std).
Definition inverse_variance (inv_std : Z) : Z :=
  let tmp16 := Z.shiftr inv_std 2 in i16 (Z.shiftr (i32 (tmp16 * tmp16)) 2).

(** [exp(-tmp32)] in Q10. *)
Definition exponential (tmp32 : Z) : option Z :=
  if tmp32 <? kCompVar then
    let tmp16 := i16 (Z.shiftr (i32 (kLog2Exp * tmp32)) 12) in
    let tmp16 := i16 (- tmp16) in
    let exp_value := i16 (Z.lor 1024 (Z.land tmp16 1023)) in
    let tmp16 := i16 (Z.lxor tmp16 65535) in
    let tmp16 := Z.shiftr tmp16 10 in
    let tmp16 := i16 (tmp16 + 1) in
    shift_right exp_value tmp16
  else Some 0.

(** The probability and [*delta]. *)
Definition WebRtcVad_GaussianProbability (input mean std : Z) : option (Z * Z) :=
  let inv_std := inverse_std std in
  let inv_std2 := inverse_variance inv_std in
  let tmp16 := i16 (Z.shiftl input 3) in
  let tmp16 := i16 (tmp16 - mean) in
  let delta := i16 (Z.shiftr (i32 (inv_std2 * tmp16)) 10) in
  let tmp32 := Z.shiftr (i32 (delta * tmp16)) 9 in
  let* exp_value := exponential tmp32 in
  Some (i32 (inv_std * exp_value), delta).

(** ** Decision (vad_core.c) *)

(** The weighted average, and the data moved by [offset]. *)
Definition weighted_step (offset channel : Z) (weights : list Z) (k : Z) (s : list Z * Z) : option (list Z * Z) :=
  let (data, weighted_average) := s in
  let* x := aget data (channel + k * kNumChannels) in
  let* data := aset data (channel + k * kNumChannels) (i16 (x + offset)) in
  let* x := aget data (channel + k * kNumChannels) in
  let* w := aget weights (channel + k * kNumChannels) in
  Some (data, i32 (weighted_average + i32 (x * w))).
Definition WeightedAverage (data : list Z) (channel offset : Z) (weights : list Z) : option (list Z * Z) :=
  for_loop (weighted_step offset channel weights) 0 (Z.to_nat kNumGaussians) (data, 0).

(** The arrays of [GmmProbability] over the Gaussians; those of the
    probabilities start with zeros, those of the differences are written before
    they are read. *)
Record Gmm := mkGmm {
  deltaN : list Z; deltaS : list Z; ngprvec : list Z; sgprvec : list Z;
  sum_log_likelihood_ratios : Z; vadflag : Z }.
#[export] Instance rebuild_Gmm : Rebuild Gmm := fun r =>
  mkGmm (deltaN r) (deltaS r) (ngprvec r) (sgprvec r) (sum_log_likelihood_ratios r) (vadflag r).

(** The probabilities of the two Gaussians of a channel under one hypothesis,
    their sum, and the differences. *)
Definition probability_step (feature channel : Z) (means stds weights : list Z) (k : Z) (s : list Z * list Z * Z)
    : option (list Z * list Z * Z) :=
  let '(delta, probability, test) := s in
  let gaussian := channel + k * kNumChannels in
  let* m := aget means gaussian in
  let* sd := aget stds gaussian in
  let* (p, d) := WebRtcVad_GaussianProbability feature m sd in
  let* delta := aset delta gaussian d in
  let p := i32 (znth weights gaussian * p) in
  let* probability := aset probability k p in
  Some (delta, probability, i32 (test + p)).
Definition hypothesis (feature channel : Z) (means stds weights delta : list Z) : option (list Z * list Z * Z) :=
  for_loop (probability_step feature channel means stds weights) 0 (Z.to_nat kNumGaussians) (delta, [0; 0], 0).

(** The shares of the Gaussians in the probability of a channel. *)
Definition high_probability (probability : list Z) (h channel : Z) (gprvec : list Z) : option (list Z) :=
  let tmp1_s32 := i32 (u32 (Z.shiftl (Z.land (u32 (znth probability 0)) 4294963200) 2)) in
  let q := i16 (WebRtcSpl_DivW32W16 tmp1_s32 h) in
  let* gprvec := aset gprvec channel q in
  aset gprvec (channel + kNumChannels) (i16 (16384 - q)).

Definition shifts_of (test : Z) : Z := if test =? 0 then 31 else i16 (WebRtcSpl_NormW32 test).

(** The body of the first loop over the channels. *)
Definition channel_likelihood (self : VadInstT) (features : list Z) (individualTest channel : Z) (g : Gmm) : option Gmm :=
  let* feature := aget features channel in
  let* (dN, noise_probability, h0_test) :=
    hypothesis feature channel (noise_means self) (noise_stds self) kNoiseDataWeights (deltaN g) in
  let* (dS, speech_probability, h1_test) :=
    hypothesis feature channel (speech_means self) (speech_stds self) kSpeechDataWeights (deltaS g) in
  let log_likelihood_ratio := i16 (shifts_of h0_test - shifts_of h1_test) in
  let sum := i32 (sum_log_likelihood_ratios g + log_likelihood_ratio * znth kSpectrumWeight channel) in
  let flag := if Z.shiftl log_likelihood_ratio 2 >? individualTest then 1 else vadflag g in
  let h0 := i16 (Z.shiftr h0_test 12) in
  let* ng := if h0 >? 0 then high_probability noise_probability h0 channel (ngprvec g)
             else aset (ngprvec g) channel 16384 in
  let h1 := i16 (Z.shiftr h1_test 12) in
  let* sg := if h1 >? 0 then high_probability speech_probability h1 channel (sgprvec g) else Some (sgprvec g) in
  Some (mkGmm dN dS ng sg sum flag).

(** The noise mean of a Gaussian. *)
Definition noise_mean_update (g : Gmm) (nmk feature_minimum tmp1_s16 channel k : Z) : Z :=
  let gaussian := channel + k * kNumChannels in
  let nmk2 :=
    if vadflag g =? 0 then
      let delt := i16 (Z.shiftr (i32 (znth (ngprvec g) gaussian * znth (deltaN g) gaussian)) 11) in
      i16 (nmk + i16 (Z.shiftr (i32 (delt * kNoiseUpdateConst)) 22))
    else nmk in
  let ndelt := i16 (Z.shiftl feature_minimum 4 - tmp1_s16) in
  let nmk3 := i16 (nmk2 + i16 (Z.shiftr (i32 (ndelt * kBackEta)) 9)) in
  let tmp_s16 := i16 (Z.shiftl (k + 5) 7) in
  let nmk3 := if nmk3 <? tmp_s16 then tmp_s16 else nmk3 in
  let tmp_s16 := i16 (Z.shiftl (72 + k - channel) 7) in
  if nmk3 >? tmp_s16 then tmp_s16 else nmk3.

Definition speech_mean_update (g : Gmm) (smk maxspe channel k : Z) : Z :=
  let gaussian := channel + k * kNumChannels in
  let delt := i16 (Z.shiftr (i32 (znth (sgprvec g) gaussian * znth (deltaS g) gaussian)) 11) in
  let tmp_s16 := i16 (Z.shiftr (i32 (delt * kSpeechUpdateConst)) 21) in
  let smk2 := i16 (smk + Z.shiftr (tmp_s16 + 1) 1) in
  let maxmu := i16 (maxspe + 640) in
  let smk2 := if smk2 <? znth kMinimumMean k then znth kMinimumMean k else smk2 in
  if smk2 >? maxmu then maxmu else smk2.

(** The quotient of the magnitude with the sign put back, in 16 bits. *)
Definition signed_quotient (x d : Z) : Z :=
  if x >? 0 then i16 (WebRtcSpl_DivW32W16 x d)
  else i16 (- i16 (WebRtcSpl_DivW32W16 (i32 (- x)) d)).

(** The factor of the update of a deviation, [delta * (x - mean) - 1] in Q12. *)
Definition deviation_factor (delta tmp_s16 : Z) : Z := i32 (Z.shiftr (i32 (delta * tmp_s16)) 3 - 4096).

Definition speech_std_update (g : Gmm) (feature smk ssk channel k : Z) : Z :=
  let gaussian := channel + k * kNumChannels in
  let tmp_s16 := i16 (Z.shiftr (smk + 4) 3) in
  let tmp_s16 := i16 (feature - tmp_s16) in
  let tmp2_s32 := deviation_factor (znth (deltaS g) gaussian) tmp_s16 in
  let tmp_s16 := i16 (Z.shiftr (znth (sgprvec g) gaussian) 2) in
  let tmp1_s32 := i32 (tmp_s16 * tmp2_s32) in
  let tmp2_s32 := Z.shiftr tmp1_s32 4 in
  let tmp_s16 := signed_quotient tmp2_s32 (i16 (ssk * 10)) in
  let tmp_s16 := i16 (tmp_s16 + 128) in
  let ssk := i16 (ssk + Z.shiftr tmp_s16 8) in
  if ssk <? kMinStd then kMinStd else ssk.

Definition noise_std_update (g : Gmm) (feature nmk nsk channel k : Z) : Z :=
  let gaussian := channel + k * kNumChannels in
  let tmp_s16 := i16 (feature - Z.shiftr nmk 3) in
  let tmp1_s32 := deviation_factor (znth (deltaN g) gaussian) tmp_s16 in
  let tmp_s16 := i16 (Z.shiftr (znth (ngprvec g) gaussian + 2) 2) in
  let tmp2_s32 := i32 (tmp_s16 * tmp1_s32) in
  let tmp1_s32 := Z.shiftr tmp2_s32 14 in
  let tmp_s16 := signed_quotient tmp1_s32 nsk in
  let tmp_s16 := i16 (tmp_s16 + 32) in
  let nsk := i16 (nsk + Z.shiftr tmp_s16 6) in
  if nsk <? kMinStd then kMinStd else nsk.

(** The body of the loop over the Gaussians of a channel. *)
Definition update_gaussian (g : Gmm) (feature feature_minimum tmp1_s16 maxspe channel k : Z) (self : VadInstT)
    : option VadInstT :=
  let gaussian := channel + k * kNumChannels in
  let* nmk := aget (noise_means self) gaussian in
  let* smk := aget (speech_means self) gaussian in
  let* nsk := aget (noise_stds self) gaussian in
  let* ssk := aget (speech_stds self) gaussian in
  let* nm := aset (noise_means self) gaussian (noise_mean_update g nmk feature_minimum tmp1_s16 channel k) in
  let self := self <| noise_means := nm |> in
  if negb (vadflag g =? 0) then
    let* sm := aset (speech_means self) gaussian (speech_mean_update g smk maxspe channel k) in
    let* ss := aset (speech_stds self) gaussian (speech_std_update g feature smk ssk channel k) in
    Some (self <| speech_means := sm |> <| speech_stds := ss |>)
  else
    let* ns := aset (noise_stds self) gaussian (noise_std_update g feature nmk nsk channel k) in
    Some (self <| noise_stds := ns |>).

(** Separate the models of a channel if they are too close; the result has the
    global means of speech and noise. *)
Definition separate_models (channel : Z) (self : VadInstT) : option (VadInstT * Z * Z) :=
  let* (nm, noise_global_mean) := WeightedAverage (noise_means self) channel 0 kNoiseDataWeights in
  let* (sm, speech_global_mean) := WeightedAverage (speech_means self) channel 0 kSpeechDataWeights in
  let self := self <| noise_means := nm |> <| speech_means := sm |> in
  let diff := i16 (i16 (Z.shiftr speech_global_mean 9) - i16 (Z.shiftr noise_global_mean 9)) in
  if diff <? znth kMinimumDifference channel then
    let tmp_s16 := i16 (znth kMinimumDifference channel - diff) in
    let tmp1_s16 := i16 (Z.shiftr (13 * tmp_s16) 2) in
    let tmp2_s16 := i16 (Z.shiftr (3 * tmp_s16) 2) in
    let* (sm, speech_global_mean) := WeightedAverage (speech_means self) channel tmp1_s16 kSpeechDataWeights in
    let* (nm, noise_global_mean) := WeightedAverage (noise_means self) channel (i16 (- tmp2_s16)) kNoiseDataWeights in
    Some (self <| speech_means := sm |> <| noise_means := nm |>, speech_global_mean, noise_global_mean)
  else Some (self, speech_global_mean, noise_global_mean).

(** Subtract the excess of a global mean over its limit from both means. *)
Definition lower_means (channel global_mean limit : Z) (means : list Z) : option (list Z) :=
  let tmp2_s16 := i16 (Z.shiftr global_mean 7) in
  if tmp2_s16 >? limit then
    let tmp2_s16 := i16 (tmp2_s16 - limit) in
    for_loop (fun k means =>
      let* x := aget means (channel + k * kNumChannels) in
      aset means (channel + k * kNumChannels) (i16 (x - tmp2_s16))) 0 (Z.to_nat kNumGaussians) means
  else Some means.

(** The body of the second loop over the channels, with [maxspe]. *)
Definition update_channel (g : Gmm) (features : list Z) (channel : Z) (s : VadInstT * Z) : option (VadInstT * Z) :=
  let (self, maxspe) := s in
  let* feature := aget features channel in
  let* (self, feature_minimum) := WebRtcVad_FindMinimum self feature channel in
  let* (nm, noise_global_mean) := WeightedAverage (noise_means self) channel 0 kNoiseDataWeights in
  let self := self <| noise_means := nm |> in
  let tmp1_s16 := i16 (Z.shiftr noise_global_mean 6) in
  let* self := for_loop (update_gaussian g feature feature_minimum tmp1_s16 maxspe channel) 0
                 (Z.to_nat kNumGaussians) self in
  let* (self, speech_global_mean, noise_global_mean) := separate_models channel self in
  let maxspe := znth kMaximumSpeech channel in
  let* sm := lower_means channel speech_global_mean maxspe (speech_means self) in
  let* nm := lower_means channel noise_global_mean (znth kMaximumNoise channel) (noise_means self) in
  Some (self <| speech_means := sm |> <| noise_means := nm |>, maxspe).

Definition start_gmm : Gmm :=
  mkGmm (zreplicate kTableSize 0) (zreplicate kTableSize 0) (zreplicate kTableSize 0) (zreplicate kTableSize 0) 0 0.

(** The likelihoods of all channels, with the global decision. *)
Definition likelihoods (self : VadInstT) (features : list Z) (individualTest totalTest : Z) : option Gmm :=
  let* g := for_loop (channel_likelihood self features individualTest) 0 (Z.to_nat kNumChannels) start_gmm in
  Some (g <| vadflag := Z.lor (vadflag g) (c_bool (sum_log_likelihood_ratios g >=? totalTest)) |>).

(** Smoothing of the decision. *)
Definition hang_over (self : VadInstT) (flag overhead1 overhead2 : Z) : VadInstT * Z :=
  if flag =? 0 then
    let (self, flag) :=
      if over_hang self >? 0
      then (self <| over_hang := i16 (over_hang self - 1) |>, i16 (2 + over_hang self)) else (self, flag) in
    (self <| num_of_speech := 0 |>, flag)
  else
    let self := self <| num_of_speech := i16 (num_of_speech self + 1) |> in
    let self := if num_of_speech self >? kMaxSpeechFrames
                then self <| num_of_speech := kMaxSpeechFrames |> <| over_hang := overhead2 |>
                else self <| over_hang := overhead1 |> in
    (self, flag).

Definition GmmProbability (self : VadInstT) (features : list Z) (total_power frame_length : Z)
    : option (VadInstT * Z) :=
  let i := if frame_length =? 80 then 0 else if frame_length =? 160 then 1 else 2 in
  let* overhead1 := aget (over_hang_max_1 self) i in
  let* overhead2 := aget (over_hang_max_2 self) i in
  let* individualTest := aget (individual self) i in
  let* totalTest := aget (total self) i in
  let* (self, flag) :=
    if total_power >? kMinEnergy then
      let* g := likelihoods self features individualTest totalTest in
      let* (self, _) := for_loop (update_channel g features) 0 (Z.to_nat kNumChannels) (self, 12800) in
      Some (self <| frame_counter := i32 (frame_counter self + 1) |>, vadflag g)
    else Some (self, 0) in
  Some (hang_over self flag overhead1 overhead2).

(** ** Initialisation and decision by rate (vad_core.c) *)

Definition WebRtcVad_set_mode_core (self : VadInstT) (mode : Z) : option (Z * VadInstT) :=
  match mode_thresholds mode with
  | Some (m1, m2, local, global) =>
      let* a := memcpy (over_hang_max_1 self) 0 m1 0 3 in
      let* b := memcpy (over_hang_max_2 self) 0 m2 0 3 in
      let* c := memcpy (individual self) 0 local 0 3 in
      let* d := memcpy (total self) 0 global 0 3 in
      Some (0, self <| over_hang_max_1 := a |> <| over_hang_max_2 := b |> <| individual := c |> <| total := d |>)
  | None => Some (-1, self)
  end.

(** [a[i] = f(i)] for [n] entries. *)
Definition set_all (a : list Z) (f : Z -> Z) (n : Z) : option (list Z) :=
  for_loop (fun i a => aset a i (f i)) 0 (Z.to_nat n) a.

Definition WebRtcVad_InitCore (self : option VadInstT) : option (Z * option VadInstT) :=
  match self with
  | None => Some (-1, None)
  | Some self =>
      let self := self <| vad := 1 |> <| frame_counter := 0 |> <| over_hang := 0 |> <| num_of_speech := 0 |> in
      let* ds := memset (downsampling_filter_states self) 0 0 4 in
      let* s48 := WebRtcSpl_ResetResample48khzTo8khz (state_48_to_8 self) in
      let* nm := set_all (noise_means self) (znth kNoiseDataMeans) kTableSize in
      let* sm := set_all (speech_means self) (znth kSpeechDataMeans) kTableSize in
      let* ns := set_all (noise_stds self) (znth kNoiseDataStds) kTableSize in
      let* ss := set_all (speech_stds self) (znth kSpeechDataStds) kTableSize in
      let* low := set_all (low_value_vector self) (fun _ => 10000) (16 * kNumChannels) in
      let* age := set_all (index_vector self) (fun _ => 0) (16 * kNumChannels) in
      let* us := memset (upper_state self) 0 0 5 in
      let* ls := memset (lower_state self) 0 0 5 in
      let* hp := memset (hp_filter_state self) 0 0 4 in
      let* mv := set_all (mean_value self) (fun _ => 1600) kNumChannels in
      let self := self <| downsampling_filter_states := ds |> <| state_48_to_8 := s48 |>
        <| noise_means := nm |> <| speech_means := sm |> <| noise_stds := ns |> <| speech_stds := ss |>
        <| low_value_vector := low |> <| index_vector := age |> <| upper_state := us |> <| lower_state := ls |>
        <| hp_filter_state := hp |> <| mean_value := mv |> in
      let* (r, self) := WebRtcVad_set_mode_core self kDefaultMode in
      if negb (r =? 0) then Some (-1, Some self)
      else Some (0, Some (self <| init_flag := kInitCheck |>))
  end.

Definition WebRtcVad_CalcVad8khz (inst : VadInstT) (speech_frame : list Z) (frame_length : Z) : option (Z * VadInstT) :=
  let* (inst, feature_vector, total_power) := WebRtcVad_CalculateFeatures inst speech_frame frame_length in
  let* (inst, v) := GmmProbability inst feature_vector total_power frame_length in
  let inst := inst <| vad := v |> in
  Some (vad inst, inst).

Definition WebRtcVad_CalcVad16khz (inst : VadInstT) (speech_frame : list Z) (frame_length : Z) : option (Z * VadInstT) :=
  let* (speechNB, s) := WebRtcVad_Downsampling speech_frame (downsampling_filter_states inst) 0 frame_length in
  let inst := inst <| downsampling_filter_states := s |> in
  let len := frame_length / 2 in
  WebRtcVad_CalcVad8khz inst speechNB len.

Definition WebRtcVad_CalcVad32khz (inst : VadInstT) (speech_frame : list Z) (frame_length : Z) : option (Z * VadInstT) :=
  let* (speechWB, s) := WebRtcVad_Downsampling speech_frame (downsampling_filter_states inst) 2 frame_length in
  let inst := inst <| downsampling_filter_states := s |> in
  let len := frame_length / 2 in
  let* (speechNB, s) := WebRtcVad_Downsampling speechWB (downsampling_filter_states inst) 0 len in
  let inst := inst <| downsampling_filter_states := s |> in
  let len := len / 2 in
  WebRtcVad_CalcVad8khz inst speechNB len.

(** [speech_nb0] is the content of the local array before. *)
Definition WebRtcVad_CalcVad48khz (speech_nb0 : list Z) (inst : VadInstT) (speech_frame : list Z) (frame_length : Z)
    : option (Z * VadInstT) :=
  let tmp_mem := zreplicate (480 + 256) 0 in
  let kFrameLen10ms48khz := 480 in
  let kFrameLen10ms8khz := 80 in
  let num_10ms_frames := frame_length / kFrameLen10ms48khz in
  let* (speech_nb, state, _) := for_loop (fun i (s : list Z * WebRtcSpl_State48khzTo8khz * list Z) =>
      let '(speech_nb, state, tmp_mem) := s in
      WebRtcSpl_Resample48khzTo8khz speech_frame 0 speech_nb (i * kFrameLen10ms8khz) state tmp_mem)
    0 (Z.to_nat num_10ms_frames) (speech_nb0, state_48_to_8 inst, tmp_mem) in
  let inst := inst <| state_48_to_8 := state |> in
  WebRtcVad_CalcVad8khz inst speech_nb (frame_length / 6).

(** ** Interface (webrtc_vad.c) *)

Definition kValidRates : list Z := [8000; 16000; 32000; 48000].
Definition kMaxFrameLengthMs : Z := 30.

(** The memory of the instance is an argument; [malloc] is not checked, and a
    failure is the [None] of undefined behaviour. *)
Definition WebRtcVad_Create (fresh : option VadInstT) : option VadInstT :=
  let* self := fresh in Some (self <| init_flag := 0 |>).

Definition WebRtcVad_Init (handle : option VadInstT) : option (Z * option VadInstT) := WebRtcVad_InitCore handle.

Definition WebRtcVad_set_mode (handle : option VadInstT) (mode : Z) : option (Z * option VadInstT) :=
  match handle with
  | None => Some (-1, None)
  | Some self =>
      if negb (init_flag self =? kInitCheck) then Some (-1, handle)
      else let* (r, self) := WebRtcVad_set_mode_core self mode in Some (r, Some self)
  end.

(** The loop over the valid lengths, and over the rates; both end at the first
    match. *)
Fixpoint length_loop (n : nat) (rate frame_length valid_length_ms return_value : Z) : Z :=
  match n with
  | O => return_value
  | S n =>
      if valid_length_ms <=? kMaxFrameLengthMs then
        let valid_length := u64 (i32 (c_div rate 1000 * valid_length_ms)) in
        if frame_length =? valid_length then 0
        else length_loop n rate frame_length (valid_length_ms + 10) return_value
      else return_value
  end.
Fixpoint rate_loop (rates : list Z) (rate frame_length return_value : Z) : Z :=
  match rates with
  | [] => return_value
  | r :: rates =>
      if r =? rate then length_loop (Z.to_nat kMaxFrameLengthMs) r frame_length 10 return_value
      else rate_loop rates rate frame_length return_value
  end.
Definition WebRtcVad_ValidRateAndFrameLength (rate frame_length : Z) : Z := rate_loop kValidRates rate frame_length (-1).

Definition WebRtcVad_Process (speech_nb0 : list Z) (handle : option VadInstT) (fs : Z) (audio_frame : option (list Z))
    (frame_length : Z) : option (Z * option VadInstT) :=
  match handle with
  | None => Some (-1, None)
  | Some self =>
      if negb (init_flag self =? kInitCheck) then Some (-1, handle)
      else match audio_frame with
      | None => Some (-1, handle)
      | Some audio_frame =>
          if negb (WebRtcVad_ValidRateAndFrameLength fs frame_length =? 0) then Some (-1, handle)
          else
            let* (v, self) :=
              if fs =? 48000 then WebRtcVad_CalcVad48khz speech_nb0 self audio_frame frame_length
              else if fs =? 32000 then WebRtcVad_CalcVad32khz self audio_frame frame_length
              else if fs =? 16000 then WebRtcVad_CalcVad16khz self audio_frame frame_length
              else if fs =? 8000 then WebRtcVad_CalcVad8khz self audio_frame frame_length
              else Some (-1, self) in
            Some (if v >? 0 then 1 else v, Some self)
      end
  end.

End Vad.
