(* ===== verification/VadSpec.v ===== *)
(** Properties of the voice activity detector of Vad.v.

    The invariant [vad_wf] bounds the means and deviations of the models so that
    nothing in the evaluation of a Gaussian overflows; every frame keeps it, and
    with it every call of the interface is defined. *)

From S2P Require Import Prelude SplInl SplVec Resample ResampleSpec Vad.

Module VadSpec.
Import Spl SplSpec SplVec SplVecSpec Resample ResampleSpec Vad.

(** ** Features *)

Lemma AllPassFilter_ok data_in pos n coef state : 0 <= pos -> 0 <= n -> pos + 2 * (n - 1) < zlen data_in ->
  AllPassFilter data_in pos n coef state ⤳ (fun '(_, out) => zlen out = n).
Proof.
  intros Hp Hn Hl. unfold AllPassFilter. eapply result_bind.
  { match goal with |- context [for_loop ?body _ _ ?start] =>
      destruct (for_loop_inv (fun i (r : Z * list Z) => zlen r.2 = i) body 0 (Z.to_nat n) start)
        as ([s32 out] & E & H) end.
    - done.
    - intros i [s32 out] Hi Ho. cbn [snd] in Ho. destruct (aget_range data_in (pos + 2 * i) ltac:(lia)) as [x ->]. simpl.
      destruct (all_pass_sample coef s32 x) as [s y]. eexists. split; [done|]. cbn [snd]. rewrite length_app. cbn [length]. lia.
    - rewrite E. by apply (result_ret (s32, out) (fun r => zlen r.2 = 0 + Z.of_nat (Z.to_nat n))). }
  intros [s32 out] H. cbn [snd] in H. apply result_ret. lia.
Qed.

Lemma SplitFilter_ok data_in n u l : 0 <= n -> 2 * n <= zlen data_in ->
  SplitFilter data_in (2 * n) u l ⤳ (fun '(_, _, hp, lp) => zlen hp = n /\ zlen lp = n).
Proof.
  intros Hn Hl. unfold SplitFilter.
  replace (Z.shiftr (2 * n) 1) with n by (rewrite Z.shiftr_div_pow2 by lia; dlia). cbv zeta.
  eapply result_bind; [apply AllPassFilter_ok; lia|]. intros [u' hp] Hhp.
  eapply result_bind; [apply AllPassFilter_ok; lia|]. intros [l' lp] Hlp.
  apply result_ret. rewrite !length_zip_with. lia.
Qed.

Lemma HighPassFilter_ok data_in n state : 0 <= n <= zlen data_in -> zlen state = 4 ->
  HighPassFilter data_in n state ⤳ (fun '(state', out) => zlen state' = 4 /\ zlen out = n).
Proof.
  intros Hn Hs. unfold HighPassFilter.
  match goal with |- context [for_loop ?body _ _ ?start] =>
    destruct (for_loop_inv (fun i (r : list Z * list Z) => zlen r.1 = 4 /\ zlen r.2 = i) body 0 (Z.to_nat n) start)
      as ([st out] & -> & H1 & H2) end; [done| |].
  - intros i [st out] Hi [H1 H2]. cbn [fst snd] in *. destruct (aget_range data_in i ltac:(lia)) as [x ->]. simpl.
    eexists. split; [done|]. cbn [fst snd]. rewrite length_app. cbn [length]. lia.
  - apply result_ret. cbn [fst snd] in *. lia.
Qed.

(** *** The logarithm of the energy *)

Lemma smax_range v m : -1 <= m <= 32767 -> -1 <= foldl scaling_smax_step m v <= 32767.
Proof.
  revert m. induction v as [|x v IH]; intros m Hm; [done|]. simpl. apply IH. unfold scaling_smax_step. cbv zeta.
  destruct (x >? 0); match goal with |- context [i16 ?a] => pose proof (i16_range a) as Hr; unfold in_i16 in Hr;
    destruct (Z.gtb_spec (i16 a) m); lia end.
Qed.

Lemma scaling_range v k : 0 < zlen v < 2 ^ k -> 1 <= k <= 6 -> 0 <= (WebRtcSpl_Energy v).2 < k.
Proof.
  intros Hv Hk. unfold WebRtcSpl_Energy, WebRtcSpl_GetScalingSquare. cbn [snd].
  assert (2 ^ k <= 64) by (change 64 with (2 ^ 6); apply Z.pow_le_mono_r; lia).
  rewrite u32_id by (unfold in_u32; lia).
  destruct (GetSizeInBits_bounds (zlen v) ltac:(lia)) as [Hb [Hn _]].
  assert (Hbk : WebRtcSpl_GetSizeInBits (zlen v) <= k).
  { destruct (Z.leb_spec (WebRtcSpl_GetSizeInBits (zlen v)) k); [done|].
    assert (2 ^ k <= 2 ^ (WebRtcSpl_GetSizeInBits (zlen v) - 1)) by (apply Z.pow_le_mono_r; lia). lia. }
  pose proof (smax_range v (-1) ltac:(lia)) as Hm. set (s := foldl scaling_smax_step (-1) v) in *.
  destruct (Z.eqb_spec s 0); [lia|]. rewrite i32_id by (unfold in_i32; nia).
  destruct (NormW32_nonneg (s * s)) as [Ht Hs]; [nia|nia|].
  set (t := WebRtcSpl_NormW32 (s * s)) in *.
  assert (1 <= t). { destruct (Z.eqb_spec t 0) as [E|]; [|lia]. rewrite E in Hs. nia. }
  destruct (Z.gtb_spec t (WebRtcSpl_GetSizeInBits (zlen v))); [lia|]. rewrite i16_id by (unfold in_i16; lia). lia.
Qed.

(** The feature of a band lies above the offset of the band by at most that of
    the largest energy of so many samples. *)
Lemma LogOfEnergy_ok data n k offset total : 0 < n <= zlen data -> n < 2 ^ k -> 1 <= k <= 6 -> 0 <= offset <= 368 ->
  LogOfEnergy data n offset total ⤳ (fun '(f, _) => offset <= f <= 722 + (16 + k) * 24660 / 512 + offset).
Proof.
  intros Hn Hk Hk6 Ho. unfold LogOfEnergy. destruct (Z.gtb_spec n 0); [|lia]. cbn [c_assert mbind option_bind].
  rewrite (proj2 (range_ok_spec data 0 n)) by lia. cbn [c_assert mbind option_bind].
  pose proof (scaling_range (slice data 0 n) k) as Hs. rewrite length_slice in Hs by lia. specialize (Hs ltac:(lia) ltac:(lia)).
  destruct (WebRtcSpl_Energy (slice data 0 n)) as [en sc]. cbn [snd] in Hs. cbv zeta.
  assert (0 <= (16 + k) * 24660 / 512) by (apply Z.div_pos; lia).
  destruct (Z.eqb_spec (u32 en) 0); cbn [negb]; [apply result_ret; lia|].
  pose proof (u32_range en) as Hu. pose proof (NormU32_range (u32 en) Hu) as Hr.
  apply result_ret.
  match goal with |- context [Z.land ?e 16383] => set (energy := e) end.
  assert (Hfrac : 0 <= Z.shiftr (Z.land energy 16383) 4 <= 1023).
  { change 16383 with (Z.ones 14). rewrite Z.land_ones, Z.shiftr_div_pow2 by lia. dlia. }
  clearbody energy. unfold kLogEnergyIntPart, kLogConst.
  rewrite (i16_id (Z.shiftr (Z.land energy 16383) 4)), (i16_id (14336 + _)) by (unfold in_i16; lia).
  set (frac := Z.shiftr (Z.land energy 16383) 4) in *.
  set (tot := sc + (17 - WebRtcSpl_NormU32 (u32 en))). assert (-14 <= tot <= 16 + k) by lia.
  rewrite (i32_id (24660 * (14336 + frac))), (i32_id (tot * 24660)) by (unfold in_i32; lia).
  rewrite !Z.shiftr_div_pow2 by lia. change (2 ^ 19) with 524288. change (2 ^ 9) with 512.
  assert (674 <= 24660 * (14336 + frac) / 524288 <= 722) by dlia.
  assert (-675 <= tot * 24660 / 512 <= (16 + k) * 24660 / 512).
  { split; [dlia|]. apply Z.div_le_mono; lia. }
  assert ((16 + k) * 24660 / 512 <= 1060) by (apply Z.div_le_upper_bound; lia).
  rewrite (i16_id (_ / _ + _)) by (unfold in_i16; lia).
  match goal with |- context [?x <? 0] => destruct (Z.ltb_spec x 0) end; rewrite i16_id by (unfold in_i16; lia); lia.
Qed.

(** *** All features of a frame *)

Definition feature_ok (f : Z) : Prop := 176 <= f <= 2053.

(** The filter states have their sizes, and [self'] differs from [self] in them
    only. *)
Definition filters_sized (self : VadInstT) : Prop :=
  zlen (upper_state self) = 5 /\ zlen (lower_state self) = 5 /\ zlen (hp_filter_state self) = 4.
Definition same_but_filters (self self' : VadInstT) : Prop :=
  filters_sized self' /\
  self' = self <| upper_state := upper_state self' |> <| lower_state := lower_state self' |>
               <| hp_filter_state := hp_filter_state self' |>.

Lemma same_but_filters_trans a b c : same_but_filters a b -> same_but_filters b c -> same_but_filters a c.
Proof.
  intros [_ Hb] [Hs Hc]. split; [done|]. rewrite Hc at 1. rewrite Hb. reflexivity.
Qed.

Lemma split_band_ok self band data len n : len = 2 * n -> filters_sized self -> 0 <= band < 5 -> 0 <= n -> len <= zlen data ->
  split_band self band data len ⤳ (fun '(self', hp, lp) => same_but_filters self self' /\ zlen hp = n /\ zlen lp = n).
Proof.
  intros -> (Hu & Hl & Hh) Hb Hn Hd. unfold split_band.
  destruct (aget_range (upper_state self) band ltac:(lia)) as [u ->].
  destruct (aget_range (lower_state self) band ltac:(lia)) as [l ->]. cbn [mbind option_bind].
  eapply result_bind; [by apply SplitFilter_ok|]. intros [[[u' l'] hp] lp] [Hhp Hlp].
  eapply result_bind; [apply (aset_sized _ _ _ 5); [lia|done]|]. intros us Hus.
  eapply result_bind; [apply (aset_sized _ _ _ 5); [lia|done]|]. intros ls Hls.
  apply result_ret. split; [|done]. split; [done|]. by destruct self.
Qed.

Ltac follow H :=
  try match goal with H0 : same_but_filters ?a ?b |- _ =>
    lazymatch type of H with same_but_filters b _ => apply (same_but_filters_trans _ _ _ H0) in H; clear H0 end end;
  match goal with H1 : filters_sized _ |- _ => clear H1 end; pose proof (proj1 H).
Ltac band q := eapply result_bind; [eapply (split_band_ok _ _ _ _ q); [lia|assumption|lia..]|];
  let H := fresh "Hsame" in intros [[? ?] ?] (H & ? & ?); follow H.
Ltac energy k := eapply result_bind; [eapply (LogOfEnergy_ok _ _ k); lia|]; intros [? ?] ?.
Lemma CalculateFeatures_ok self data q : filters_sized self -> 1 <= q <= 15 -> 16 * q <= zlen data ->
  WebRtcVad_CalculateFeatures self data (16 * q) ⤳
    (fun '(self', f, _) => same_but_filters self self' /\ zlen f = 6 /\ Forall feature_ok f).
Proof.
  intros Hs Hq Hd. unfold WebRtcVad_CalculateFeatures. cbv zeta.
  change (znth kOffsetVector 5) with 176. change (znth kOffsetVector 4) with 176. change (znth kOffsetVector 3) with 176.
  change (znth kOffsetVector 2) with 272. change (znth kOffsetVector 1) with 368. change (znth kOffsetVector 0) with 368.
  assert (E : forall k, 0 <= k -> Z.shiftr (2 * k) 1 = k) by (intros; rewrite Z.shiftr_div_pow2 by lia; dlia).
  replace (Z.shiftr (16 * q) 1) with (8 * q) by (rewrite <- (E (8 * q)) by lia; f_equal; lia).
  replace (Z.shiftr (8 * q) 1) with (4 * q) by (rewrite <- (E (4 * q)) by lia; f_equal; lia).
  replace (Z.shiftr (4 * q) 1) with (2 * q) by (rewrite <- (E (2 * q)) by lia; f_equal; lia).
  rewrite (E q) by lia. clear E.
  destruct (Z.leb_spec (16 * q) 240); [|lia]. cbn [c_assert mbind option_bind].
  band (8 * q). band (4 * q). energy 6. energy 6. band (4 * q). energy 6. band (2 * q). energy 5. band q. energy 4.
  eapply result_bind.
  { apply HighPassFilter_ok; [lia|]. match goal with H : filters_sized _ |- _ => apply H end. }
  intros [hp out] [Hhp Hout]. energy 4. apply result_ret. split_and!; [|done|].
  - match goal with H : same_but_filters self ?s |- _ => apply (same_but_filters_trans _ _ _ H); destruct H as [(? & ? & ?) _] end.
    split; [done|]. match goal with |- _ = ?s <| upper_state := _ |> <| lower_state := _ |> <| hp_filter_state := _ |> => by destruct s end.
  - unfold feature_ok. repeat (constructor; [dlia|]). constructor.

Qed.

(** ** Gaussian probability *)

Lemma exponential_check :
  all_from (fun t => match exponential t with Some e => (0 <=? e) && (e <=? 2047) | None => false end) 0 (Z.to_nat 22005) = true.
Proof. vm_compute. reflexivity. Qed.

Lemma exponential_ok t : 0 <= t -> exponential t ⤳ (fun e => 0 <= e <= 2047).
Proof.
  intros Ht. destruct (Z.ltb_spec t kCompVar) as [Hlt|Hge].
  - pose proof (all_from_spec _ _ _ exponential_check t ltac:(unfold kCompVar in *; lia)) as H. cbv beta in H.
    destruct (exponential t) as [e|]; [|done]. apply result_ret. breflect. lia.
  - unfold exponential. destruct (Z.ltb_spec t kCompVar); [lia|]. by apply result_ret.
Qed.

Lemma inverse_range s : 378 <= s <= 32767 ->
  0 <= inverse_std s <= 347 /\ 0 <= inverse_variance (inverse_std s) <= (if s <? 384 then 1849 else 1806).
Proof.
  intros Hs.
  assert (H : 0 <= inverse_std s <= if s <? 384 then 347 else 341).
  { unfold inverse_std, WebRtcSpl_DivW32W16. rewrite Z.shiftr_div_pow2 by lia. change (2 ^ 1) with 2.
    rewrite (i32_id (131072 + _)) by (unfold in_i32; dlia). destruct (Z.eqb_spec s 0); [lia|]. unfold c_div. cbn [negb].
    assert (Hq : 0 <= Z.quot (131072 + s / 2) s <= if s <? 384 then 347 else 341).
    { rewrite Z.quot_div_nonneg by dlia. split; [apply Z.div_pos; dlia|]. destruct (Z.ltb_spec s 384); apply Z.lt_succ_r, Z.div_lt_upper_bound; dlia. }
    rewrite i32_id, i16_id by (unfold in_i16, in_i32; destruct (s <? 384); lia). done. }
  split; [destruct (s <? 384); lia|]. unfold inverse_variance. cbv zeta. rewrite !Z.shiftr_div_pow2 by lia. change (2 ^ 2) with 4.
  set (i := inverse_std s) in *. assert (H4 : 0 <= i / 4 <= if s <? 384 then 86 else 85) by (destruct (s <? 384); dlia).
  set (j := i / 4) in *. assert (Hj : 0 <= j * j <= if s <? 384 then 7396 else 7225) by (destruct (s <? 384); nia).
  rewrite i32_id, i16_id by (unfold in_i16, in_i32; destruct (s <? 384); dlia). destruct (s <? 384); dlia.
Qed.

(** The distance of a feature from a mean for which the evaluation of the
    Gaussian does not leave its types. *)
Definition in_reach (mean std : Z) : Prop :=
  378 <= std <= 32767 /\ forall f, feature_ok f -> Z.abs (8 * f - mean) <= (if std <? 384 then 18146 else 18579).

Lemma Gaussian_ok f mean std : feature_ok f -> in_reach mean std ->
  WebRtcVad_GaussianProbability f mean std ⤳ (fun '(p, delta) => 0 <= p <= 710309 /\ in_i16 delta).
Proof.
  intros Hf [Hs Hm]. specialize (Hm f Hf). unfold feature_ok in Hf. unfold WebRtcVad_GaussianProbability.
  destruct (inverse_range std Hs) as [Hi Hv]. set (i := inverse_std std) in *. set (v := inverse_variance i) in *. cbv zeta.
  rewrite Z.shiftl_mul_pow2 by lia. change (2 ^ 3) with 8. rewrite (i16_id (f * 8)) by (unfold in_i16; lia).
  replace (f * 8 - mean) with (8 * f - mean) by lia. set (d := 8 * f - mean) in *.
  assert (Hd : Z.abs d <= 18579 /\ Z.abs (v * d) <= 33553674).
  { rewrite Z.abs_mul. revert Hm Hv. destruct (std <? 384); intros; nia. }
  destruct Hd as [Hd Hvd].
  rewrite (i16_id d) by (unfold in_i16; lia). rewrite (i32_id (v * d)) by (unfold in_i32; lia).
  rewrite Z.shiftr_div_pow2 by lia. change (2 ^ 10) with 1024.
  assert (Hq : -32768 <= v * d / 1024 <= 32767) by dlia. rewrite (i16_id (v * d / 1024)) by done.
  set (q := v * d / 1024) in *.
  assert (Hqd : 0 <= q * d <= 32768 * 18579).
  { destruct (Z.leb_spec 0 d).
    - assert (0 <= q) by (apply Z.div_pos; nia). nia.
    - assert (q <= 0). { unfold q. assert (v * d <= 0) by nia. dlia. } nia. }
  rewrite (i32_id (q * d)) by (unfold in_i32; lia).
  eapply result_bind; [apply exponential_ok, Z.shiftr_nonneg; lia|]. intros e He. cbv beta in He.
  assert (0 <= i * e <= 710309) by nia. apply result_ret. rewrite i32_id by (unfold in_i32; lia). done.
Qed.

(** *** The probabilities of a channel *)

(** Gaussian [k] of channel [c]. *)
Definition cell (l : list Z) (c k : Z) : Z := znth l (c + k * 6).

Lemma aget_cell l c k : zlen l = 12 -> 0 <= c < 6 -> 0 <= k < 2 -> aget l (c + k * 6) = Some (cell l c k).
Proof. intros. apply aget_znth. lia. Qed.

Lemma hypothesis_ok f c means stds weights delta : feature_ok f -> 0 <= c < 6 -> zlen means = 12 -> zlen stds = 12 ->
  zlen delta = 12 -> (forall k, 0 <= k < 2 -> in_reach (cell means c k) (cell stds c k)) ->
  hypothesis f c means stds weights delta ⤳ (fun '(delta', probability, test) =>
    zlen delta' = 12 /\ zlen probability = 2 /\ in_i32 test).
Proof.
  intros Hf Hc Hm Hs Hd Hr. unfold hypothesis, kNumGaussians.
  destruct (for_loop_inv (fun _ (r : list Z * list Z * Z) => zlen r.1.1 = 12 /\ zlen r.1.2 = 2 /\ in_i32 r.2)
    (probability_step f c means stds weights) 0 (Z.to_nat 2) (delta, [0; 0], 0)) as ([[d p] t] & -> & H).
  - split_and!; [done|done|unfold in_i32; cbn; lia].
  - intros k [[d p] t] Hk (H1 & H2 & H3). cbn [fst snd] in *. unfold probability_step, kNumChannels.
    rewrite (aget_cell means), (aget_cell stds) by lia. cbn [mbind option_bind].
    destruct (Gaussian_ok f _ _ Hf (Hr k ltac:(lia))) as ([q de] & -> & _). cbn [mbind option_bind].
    destruct (aset_sized d (c + k * 6) de 12 ltac:(lia) H1) as (d' & -> & Hd'). cbn [mbind option_bind].
    destruct (aset_sized p k (i32 (znth weights (c + k * 6) * q)) 2 ltac:(lia) H2) as (p' & -> & Hp'). cbn [mbind option_bind].
    eexists. split; [done|]. cbn [fst snd]. split_and!; [done|done|apply i32_range].
  - apply result_ret. done.
Qed.

(** *** The likelihoods of all channels *)

(** The bounds of the models of a channel: [n0], [n1], [s0], [s1] are the means of
    noise and speech. *)
Definition model_ok (c n0 n1 s0 s1 : Z) : Prop :=
  -1722 <= n0 <= 9344 /\ -1722 <= n1 <= 9344 /\ 640 <= s0 /\ 640 <= s1 /\
  Z.abs (s0 - s1) <= (if c =? 0 then 12800 else 11520) /\
  (cell kSpeechDataWeights c 0 * s0 + cell kSpeechDataWeights c 1 * s1) / 128 <= znth kMaximumSpeech c.

Definition std_ok (lo x : Z) : Prop := lo <= x <= 32767.

Definition models_ok (self : VadInstT) : Prop := forall c, 0 <= c < 6 ->
  model_ok c (cell (noise_means self) c 0) (cell (noise_means self) c 1)
             (cell (speech_means self) c 0) (cell (speech_means self) c 1) /\
  forall k, 0 <= k < 2 -> std_ok 378 (cell (noise_stds self) c k) /\ std_ok 384 (cell (speech_stds self) c k).

(** Case analysis on a channel, with the tables evaluated. *)
Ltac channels c := let H := fresh in
  assert (c = 0 \/ c = 1 \/ c = 2 \/ c = 3 \/ c = 4 \/ c = 5) as H by lia;
  repeat (destruct H as [->|H]); [..|subst c].
Ltac is_table t := lazymatch t with
  | kSpeechDataWeights => idtac | kNoiseDataWeights => idtac | kMaximumSpeech => idtac | kMaximumNoise => idtac
  | kMinimumDifference => idtac | kMinimumMean => idtac end.
Ltac table e := let v := eval vm_compute in e in change e with v in *.
Ltac tables := repeat match goal with
  | |- context [cell ?t ?c ?k] => is_table t; table (cell t c k)
  | |- context [znth ?t ?c] => is_table t; table (znth t c)
  | H : context [cell ?t ?c ?k] |- _ => is_table t; table (cell t c k)
  | H : context [znth ?t ?c] |- _ => is_table t; table (znth t c)
  end; cbn [Z.eqb Pos.eqb] in *.

Lemma model_in_reach c n0 n1 s0 s1 ns ss : 0 <= c < 6 -> model_ok c n0 n1 s0 s1 -> std_ok 378 ns -> std_ok 384 ss ->
  in_reach n0 ns /\ in_reach n1 ns /\ in_reach s0 ss /\ in_reach s1 ss.
Proof.
  unfold model_ok, std_ok, in_reach, feature_ok. intros Hc (H1 & H2 & H3 & H4 & H5 & H6) Hns Hss.
  assert (Hs : s0 <= 19987 /\ s1 <= 19987).
  { clear H1 H2 Hns Hss. channels c; tables; dlia. }
  destruct (Z.ltb_spec ss 384); [lia|].
  split_and!; try lia; intros f Hf; try destruct (ns <? 384); lia.
Qed.

Definition gmm_sized (g : Gmm) : Prop :=
  zlen (deltaN g) = 12 /\ zlen (deltaS g) = 12 /\ zlen (ngprvec g) = 12 /\ zlen (sgprvec g) = 12 /\ 0 <= vadflag g <= 1.

Record sized (self : VadInstT) : Prop := mkSized {
  sz_nm : zlen (noise_means self) = 12; sz_sm : zlen (speech_means self) = 12;
  sz_ns : zlen (noise_stds self) = 12; sz_ss : zlen (speech_stds self) = 12;
  sz_age : zlen (index_vector self) = 96; sz_low : zlen (low_value_vector self) = 96;
  sz_mean : zlen (mean_value self) = 6 }.

Lemma high_probability_ok probability h c gprvec : 0 <= c < 6 -> zlen gprvec = 12 ->
  high_probability probability h c gprvec ⤳ (fun g => zlen g = 12).
Proof.
  intros Hc Hg. unfold high_probability, kNumChannels.
  eapply result_bind; [apply (aset_sized _ _ _ 12); [lia|done]|]. intros g Hg'. apply aset_sized; [lia|done].
Qed.

Lemma channel_likelihood_ok self features test c g : models_ok self -> sized self -> zlen features = 6 ->
  Forall feature_ok features -> 0 <= c < 6 -> gmm_sized g ->
  channel_likelihood self features test c g ⤳ gmm_sized.
Proof.
  intros Hm Hs Hl Hf Hc (H1 & H2 & H3 & H4 & H5). destruct Hs. destruct (Hm c Hc) as [Hmod Hstd].
  assert (Hreach : forall k, 0 <= k < 2 -> in_reach (cell (noise_means self) c k) (cell (noise_stds self) c k) /\
                                      in_reach (cell (speech_means self) c k) (cell (speech_stds self) c k)).
  { intros k Hk. destruct (Hstd k Hk) as [Hns Hss].
    destruct (model_in_reach c _ _ _ _ _ _ Hc Hmod Hns Hss) as (? & ? & ? & ?).
    assert (k = 0 \/ k = 1) as [->| ->] by lia; done. }
  unfold channel_likelihood. destruct (aget_range features c ltac:(lia)) as [f Ef]. rewrite Ef. cbn [mbind option_bind].
  pose proof (Forall_aget _ _ _ _ Hf Ef) as Hfeat.
  eapply result_bind; [apply hypothesis_ok; try done; intros k Hk; apply (Hreach k Hk)|]. intros [[dN np] t0] (HdN & Hnp & Ht0).
  eapply result_bind; [apply hypothesis_ok; try done; intros k Hk; apply (Hreach k Hk)|]. intros [[dS sp] t1] (HdS & Hsp & Ht1).
  cbv zeta. eapply (result_bind _ _ (fun l => zlen l = 12)).
  { destruct (i16 (Z.shiftr t0 12) >? 0); [by apply high_probability_ok|apply aset_sized; [lia|done]]. }
  intros ng Hng. eapply (result_bind _ _ (fun l => zlen l = 12)).
  { destruct (i16 (Z.shiftr t1 12) >? 0); [by apply high_probability_ok|by apply result_ret]. }
  intros sg Hsg. apply result_ret. split_and!; cbn; try done; destruct (_ >? test); lia.
Qed.

Lemma likelihoods_ok self features test total : models_ok self -> sized self -> zlen features = 6 ->
  Forall feature_ok features -> likelihoods self features test total ⤳ gmm_sized.
Proof.
  intros Hm Hs Hl Hf. unfold likelihoods, kNumChannels.
  destruct (for_loop_inv (fun _ => gmm_sized) (channel_likelihood self features test) 0 (Z.to_nat 6) start_gmm)
    as (g & -> & Hg); [by split_and!| |].
  2:{ cbn [mbind option_bind]. apply result_ret. destruct Hg as (? & ? & ? & ? & Hf1). split_and!; [done..|cbn|cbn]; destruct (_ >=? total);
      assert (vadflag g = 0 \/ vadflag g = 1) as [-> | ->] by lia; vm_compute; split_and?; discriminate. }
  intros c g Hc Hg. destruct (channel_likelihood_ok self features test c g) as (g' & E & H); [done..|lia|done|]. by exists g'.
Qed.

(** ** Adaptation of the models *)

(** The cells of channel [c] set to [x0] and [x1], the others as in [l]. *)
Definition put2 (l : list Z) (c x0 x1 : Z) (l' : list Z) : Prop :=
  zlen l' = 12 /\ forall c' k, 0 <= c' < 6 -> 0 <= k < 2 ->
    cell l' c' k = if c' =? c then (if k =? 0 then x0 else x1) else cell l c' k.

Lemma aset_cell l c k x : zlen l = 12 -> 0 <= c < 6 -> 0 <= k < 2 ->
  exists l', aset l (c + k * 6) x = Some l' /\ zlen l' = 12 /\
    forall c' k', 0 <= c' < 6 -> 0 <= k' < 2 -> cell l' c' k' = if (c' =? c) && (k' =? k) then x else cell l c' k'.
Proof.
  intros Hl Hc Hk. destruct (aset_sized l (c + k * 6) x 12 ltac:(lia) Hl) as (l' & E & Hl'). exists l'. split_and!; [done|done|].
  intros c' k' Hc' Hk'. unfold cell, znth. rewrite (aget_aset _ _ _ _ _ E).
  destruct (Z.eqb_spec (c' + k' * 6) (c + k * 6)), (Z.eqb_spec c' c), (Z.eqb_spec k' k); cbn [andb default]; done || lia.
Qed.

(** The two turns of a loop over the Gaussians. *)
Lemma two_turns {S} (body : Z -> S -> option S) s : for_loop body 0 (Z.to_nat kNumGaussians) s =
  let* s1 := body 0 s in body 1 s1.
Proof. change (Z.to_nat kNumGaussians) with 2%nat. cbn [for_loop]. destruct (body 0 s) as [s1|]; cbn [mbind option_bind]; [|done]. change (0 + 1) with 1. by destruct (body 1 s1). Qed.

Lemma WeightedAverage_ok data c off weights : zlen data = 12 -> zlen weights = 12 -> 0 <= c < 6 ->
  exists data', WeightedAverage data c off weights = Some (data',
      i32 (i32 (i16 (cell data c 0 + off) * cell weights c 0) + i32 (i16 (cell data c 1 + off) * cell weights c 1))) /\
    put2 data c (i16 (cell data c 0 + off)) (i16 (cell data c 1 + off)) data'.
Proof.
  intros Hd Hw Hc. unfold WeightedAverage. rewrite two_turns. unfold weighted_step, kNumChannels.
  rewrite (aget_cell data) by (done || lia). cbn [mbind option_bind].
  destruct (aset_cell data c 0 (i16 (cell data c 0 + off)) Hd Hc ltac:(lia)) as (d1 & -> & Hd1 & H1). cbn [mbind option_bind].
  rewrite (aget_cell d1 c 0), (aget_cell weights c 0) by (done || lia). cbn [mbind option_bind].
  rewrite (aget_cell d1 c 1) by (done || lia). cbn [mbind option_bind]. rewrite !H1 by lia. rewrite Z.eqb_refl. cbn [Z.eqb andb].
  destruct (aset_cell d1 c 1 (i16 (cell data c 1 + off)) Hd1 Hc ltac:(lia)) as (d2 & -> & Hd2 & H2). cbn [mbind option_bind].
  rewrite (aget_cell d2), (aget_cell weights c 1) by (done || lia). cbn [mbind option_bind].
  rewrite H2 by lia. rewrite Z.eqb_refl. cbn [Z.eqb Pos.eqb andb].
  exists d2. split.
  - rewrite Z.add_0_l, (i32_id (i32 _)) by apply i32_range. done.
  - split; [done|]. intros c' k Hc' Hk. rewrite H2, H1 by lia.
    destruct (Z.eqb_spec c' c); cbn [andb]; [|done]. assert (k = 0 \/ k = 1) as [->| ->] by lia; done.
Qed.

(** [self'] differs from [self] in the models and the minimum memory only. *)
Definition same_but_models (self self' : VadInstT) : Prop :=
  self' = self <| noise_means := noise_means self' |> <| speech_means := speech_means self' |>
               <| noise_stds := noise_stds self' |> <| speech_stds := speech_stds self' |>
               <| index_vector := index_vector self' |> <| low_value_vector := low_value_vector self' |>
               <| mean_value := mean_value self' |>.

Lemma same_but_models_trans a b c : same_but_models a b -> same_but_models b c -> same_but_models a c.
Proof. unfold same_but_models. intros Hb Hc. rewrite Hc at 1. rewrite Hb. reflexivity. Qed.

(** The models of the Gaussians where [p] holds are those of [self]. *)
Definition models_same (p : Z -> Z -> Prop) (self self' : VadInstT) : Prop :=
  forall c k, 0 <= c < 6 -> 0 <= k < 2 -> p c k ->
    cell (noise_means self') c k = cell (noise_means self) c k /\ cell (speech_means self') c k = cell (speech_means self) c k /\
    cell (noise_stds self') c k = cell (noise_stds self) c k /\ cell (speech_stds self') c k = cell (speech_stds self) c k.

Lemma noise_mean_update_range g nmk fm t c k : 0 <= c < 6 -> 0 <= k < 2 -> 640 <= noise_mean_update g nmk fm t c k <= 9344.
Proof.
  intros Hc Hk. unfold noise_mean_update. cbv zeta.
  match goal with |- context [i16 (?a + i16 ?b)] => set (x := i16 (a + i16 b)) end. clearbody x.
  rewrite !Z.shiftl_mul_pow2 by lia. change (2 ^ 7) with 128.
  rewrite (i16_id ((k + 5) * 128)), (i16_id ((72 + k - c) * 128)) by (unfold in_i16; lia).
  destruct (Z.ltb_spec x ((k + 5) * 128)); match goal with |- context [?a >? ?b] => destruct (Z.gtb_spec a b) end; lia.
Qed.

Lemma speech_mean_update_range g smk maxspe c k : 0 <= k < 2 -> 11392 <= maxspe <= 12800 ->
  640 <= speech_mean_update g smk maxspe c k <= maxspe + 640.
Proof.
  intros Hk Hm. unfold speech_mean_update. cbv zeta.
  match goal with |- context [i16 (?a + Z.shiftr ?b 1)] => set (x := i16 (a + Z.shiftr b 1)) end. clearbody x.
  rewrite (i16_id (maxspe + 640)) by (unfold in_i16; lia).
  assert (Hmin : 640 <= znth kMinimumMean k <= 768) by (assert (k = 0 \/ k = 1) as [->| ->] by lia; vm_compute; split; discriminate).
  destruct (Z.ltb_spec x (znth kMinimumMean k)); match goal with |- context [?a >? ?b] => destruct (Z.gtb_spec a b) end; lia.
Qed.

Lemma clipped_std x : std_ok 384 (if i16 x <? kMinStd then kMinStd else i16 x).
Proof.
  unfold std_ok, kMinStd. pose proof (i16_range x) as H. unfold in_i16 in H. destruct (Z.ltb_spec (i16 x) 384); lia.
Qed.

(** Gaussian [k] of channel [c] is adapted. *)
Record adapted (g : Gmm) (maxspe c k : Z) (self self' : VadInstT) : Prop := mkAdapted {
  ad_sized : sized self';
  ad_rest : same_but_models self self';
  ad_others : models_same (fun c' k' => c' <> c \/ k' <> k) self self';
  ad_noise : 640 <= cell (noise_means self') c k <= 9344;
  ad_speech : if vadflag g =? 0 then cell (speech_means self') c k = cell (speech_means self) c k
              else 640 <= cell (speech_means self') c k <= maxspe + 640;
  ad_std : std_ok 378 (cell (noise_stds self) c k) /\ std_ok 384 (cell (speech_stds self) c k) ->
           std_ok 378 (cell (noise_stds self') c k) /\ std_ok 384 (cell (speech_stds self') c k) }.

Ltac split_cells := repeat match goal with H : forall c' k', _ -> _ -> cell ?l c' k' = _ |- context [cell ?l ?a ?b] =>
  rewrite (H a b) by lia end.

Lemma update_gaussian_ok g feature fm t maxspe c k self : sized self -> 0 <= c < 6 -> 0 <= k < 2 -> 11392 <= maxspe <= 12800 ->
  update_gaussian g feature fm t maxspe c k self ⤳ adapted g maxspe c k self.
Proof.
  intros [Hnm Hsm Hns Hss Ha Hl Hmv] Hc Hk Hmax. unfold update_gaussian, kNumChannels. cbv zeta.
  rewrite (aget_cell (noise_means self)), (aget_cell (speech_means self)), (aget_cell (noise_stds self)),
    (aget_cell (speech_stds self)) by done. cbn [mbind option_bind].
  destruct (aset_cell (noise_means self) c k (noise_mean_update g (cell (noise_means self) c k) fm t c k) Hnm Hc Hk)
    as (nm & -> & Hnm' & Hnmc). cbn [mbind option_bind].
  pose proof (noise_mean_update_range g (cell (noise_means self) c k) fm t c k Hc Hk).
  assert (Hne : forall c' k', c' <> c \/ k' <> k -> (c' =? c) && (k' =? k) = false).
  { intros c' k' Hn. destruct (Z.eqb_spec c' c), (Z.eqb_spec k' k); done || lia. }
  destruct (Z.eqb_spec (vadflag g) 0) as [Hv|Hv]; cbn [negb].
  - destruct (aset_cell (noise_stds self) c k (noise_std_update g feature (cell (noise_means self) c k) (cell (noise_stds self) c k) c k) Hns Hc Hk)
      as (ns & E & Hns' & Hnsc). cbn -[aset noise_std_update]. rewrite E. cbn [mbind option_bind]. apply result_ret. constructor; cbn -[cell std_ok Z.eqb].
    + by constructor.
    + by destruct self.
    + intros c' k' Hc' Hk' Hn. cbn -[cell]. rewrite Hnmc, Hnsc, Hne by done. done.
    + rewrite Hnmc, !Z.eqb_refl by done. done.
    + by rewrite Hv.
    + intros [_ Hs]. split; [|done]. rewrite Hnsc, !Z.eqb_refl by done. cbn [andb].
      assert (Hr : std_ok 384 (noise_std_update g feature (cell (noise_means self) c k) (cell (noise_stds self) c k) c k))
        by apply clipped_std. unfold std_ok in *. lia.
  - destruct (aset_cell (speech_means self) c k (speech_mean_update g (cell (speech_means self) c k) maxspe c k) Hsm Hc Hk)
      as (sm & E & Hsm' & Hsmc). cbn -[aset speech_std_update speech_mean_update]. rewrite E. cbn [mbind option_bind].
    destruct (aset_cell (speech_stds self) c k (speech_std_update g feature (cell (speech_means self) c k) (cell (speech_stds self) c k) c k) Hss Hc Hk)
      as (ss & E' & Hss' & Hssc). rewrite E'. cbn [mbind option_bind]. apply result_ret. constructor; cbn -[cell std_ok Z.eqb].
    + by constructor.
    + by destruct self.
    + intros c' k' Hc' Hk' Hn. cbn -[cell]. rewrite Hnmc, Hsmc, Hssc, Hne by done. done.
    + rewrite Hnmc, !Z.eqb_refl by done. done.
    + destruct (Z.eqb_spec (vadflag g) 0); [done|]. rewrite Hsmc, !Z.eqb_refl by done. by apply speech_mean_update_range.
    + intros [Hs _]. split; [done|]. rewrite Hssc, !Z.eqb_refl by done. apply clipped_std.
Qed.

(** *** Separation and limits *)

(** The global mean of two Gaussians, in the width of the code. *)
Definition global (w : list Z) (c x0 x1 : Z) : Z := x0 * cell w c 0 + x1 * cell w c 1.

Lemma weights_range c k : 0 <= c < 6 -> 0 <= k < 2 ->
  0 <= cell kNoiseDataWeights c k <= 103 /\ 0 <= cell kSpeechDataWeights c k <= 103.
Proof.
  intros Hc Hk. assert (k = 0 \/ k = 1) as [->| ->] by lia; channels c; tables; lia.
Qed.

Lemma WeightedAverage_exact data c off w x0 x1 : zlen data = 12 -> zlen w = 12 -> 0 <= c < 6 ->
  x0 = cell data c 0 + off -> x1 = cell data c 1 + off -> in_i16 x0 -> in_i16 x1 ->
  (forall k, 0 <= k < 2 -> 0 <= cell w c k <= 103) ->
  exists data', WeightedAverage data c off w = Some (data', global w c x0 x1) /\ put2 data c x0 x1 data'.
Proof.
  intros Hd Hw Hc -> -> H0 H1 Hr. destruct (WeightedAverage_ok data c off w Hd Hw Hc) as (d & -> & Hp).
  rewrite !i16_id in * by done. exists d. split; [|done]. unfold global. do 2 f_equal.
  pose proof (Hr 0 ltac:(lia)). pose proof (Hr 1 ltac:(lia)). unfold in_i16 in *.
  rewrite (i32_id (_ * cell w c 0)), (i32_id (_ * cell w c 1)), i32_id by (unfold in_i32; nia). done.
Qed.

Lemma put2_same l c l' x0 x1 : put2 l c x0 x1 l' -> x0 = cell l c 0 -> x1 = cell l c 1 ->
  forall c' k, 0 <= c' < 6 -> 0 <= k < 2 -> cell l' c' k = cell l c' k.
Proof.
  intros [_ H] -> -> c' k Hc Hk. rewrite H by done. destruct (Z.eqb_spec c' c) as [->|]; [|done].
  assert (k = 0 \/ k = 1) as [->| ->] by lia; done.
Qed.

Lemma put2_at l c l' x0 x1 : put2 l c x0 x1 l' -> 0 <= c < 6 -> cell l' c 0 = x0 /\ cell l' c 1 = x1.
Proof. intros [_ H] Hc. rewrite !H by lia. by rewrite Z.eqb_refl. Qed.

Lemma put2_trans l c l1 l2 x0 x1 y0 y1 : put2 l c x0 x1 l1 -> put2 l1 c y0 y1 l2 -> put2 l c y0 y1 l2.
Proof.
  intros [H1 H] [H2 H']. split; [done|]. intros c' k Hc Hk. rewrite H' by done.
  destruct (Z.eqb_spec c' c); [done|]. rewrite H by done. by destruct (Z.eqb_spec c' c).
Qed.

Lemma lower_means_ok l c g limit x0 x1 : zlen l = 12 -> 0 <= c < 6 -> cell l c 0 = x0 -> cell l c 1 = x1 ->
  in_i16 (g / 128) -> 0 <= limit <= 11520 -> let e := Z.max 0 (g / 128 - limit) in in_i16 (x0 - e) -> in_i16 (x1 - e) ->
  lower_means c g limit l ⤳ put2 l c (x0 - e) (x1 - e).
Proof.
  intros Hl Hc E0 E1 Hg Hlim e H0 H1. unfold lower_means. rewrite Z.shiftr_div_pow2 by lia. change (2 ^ 7) with 128.
  rewrite (i16_id (g / 128)) by done. destruct (Z.gtb_spec (g / 128) limit) as [Hgt|Hle].
  - rewrite (i16_id (g / 128 - limit)) by (unfold in_i16 in *; lia). rewrite two_turns. unfold kNumChannels.
    rewrite (aget_cell l c 0) by (done || lia). cbn [mbind option_bind].
    destruct (aset_cell l c 0 (i16 (cell l c 0 - (g / 128 - limit))) Hl Hc ltac:(lia)) as (l1 & -> & Hl1 & Hc1). cbn [mbind option_bind].
    rewrite (aget_cell l1 c 1) by (done || lia). cbn [mbind option_bind]. rewrite Hc1 by lia. rewrite Z.eqb_refl. cbn [Z.eqb andb].
    destruct (aset_cell l1 c 1 (i16 (cell l c 1 - (g / 128 - limit))) Hl1 Hc ltac:(lia)) as (l2 & -> & Hl2 & Hc2). cbn [mbind option_bind].
    apply result_ret. split; [done|]. intros c' k Hc' Hk. rewrite Hc2, Hc1 by lia. rewrite E0, E1.
    replace (g / 128 - limit) with e by (unfold e; lia). rewrite !i16_id by done.
    destruct (Z.eqb_spec c' c); cbn [andb]; [|done]. assert (k = 0 \/ k = 1) as [->| ->] by lia; done.
  - apply result_ret. split; [done|]. intros c' k Hc' Hk. unfold e in *. rewrite Z.max_l by lia. rewrite !Z.sub_0_r.
    destruct (Z.eqb_spec c' c) as [->|]; [|done]. assert (k = 0 \/ k = 1) as [->| ->] by lia; done.
Qed.

(** The numbers before the separation: clamped noise means, speech means that
    are apart by no more than the limits of their update. *)
Definition before_separation (c n0 n1 s0 s1 : Z) : Prop :=
  640 <= n0 <= 9344 /\ 640 <= n1 <= 9344 /\ 640 <= s0 <= 19987 /\ 640 <= s1 <= 19987 /\
  Z.abs (s0 - s1) <= (if c =? 0 then 12800 else 11520).

(** The distance by which the models of channel [c] are too close, in Q5. *)
Definition shortage (c n0 n1 s0 s1 : Z) : Z :=
  Z.max 0 (znth kMinimumDifference c - (global kSpeechDataWeights c s0 s1 / 512 - global kNoiseDataWeights c n0 n1 / 512)).

Lemma shortage_range c n0 n1 s0 s1 : 0 <= c < 6 -> before_separation c n0 n1 s0 s1 ->
  0 <= shortage c n0 n1 s0 s1 <= 2752 /\
  0 <= global kSpeechDataWeights c s0 s1 <= 2558336 /\ 0 <= global kNoiseDataWeights c n0 n1 <= 1196032.
Proof.
  intros Hc (H1 & H2 & H3 & H4 & _). unfold shortage, global. channels c; tables; dlia.
Qed.

(** The bounds after the separation and the limits. *)
Lemma limited_model c n0 n1 s0 s1 t : 0 <= c < 6 -> before_separation c n0 n1 s0 s1 -> 0 <= t <= 2752 ->
  let s0 := s0 + 13 * t / 4 in let s1 := s1 + 13 * t / 4 in
  let n0 := n0 - 3 * t / 4 in let n1 := n1 - 3 * t / 4 in
  let es := Z.max 0 (global kSpeechDataWeights c s0 s1 / 128 - znth kMaximumSpeech c) in
  let en := Z.max 0 (global kNoiseDataWeights c n0 n1 / 128 - znth kMaximumNoise c) in
  model_ok c (n0 - en) (n1 - en) (s0 - es) (s1 - es).
Proof.
  intros Hc (H1 & H2 & H3 & H4 & H5) Ht. unfold model_ok, global. channels c; tables; split_and!; dlia.
Qed.


Lemma global_zero_move (w : list Z) c x0 x1 l l' : put2 l c x0 x1 l' -> 0 <= c < 6 ->
  x0 = cell l' c 0 + 0 /\ x1 = cell l' c 1 + 0.
Proof. intros H Hc. destruct (put2_at l c l' x0 x1 H Hc). lia. Qed.

(** Both means of a channel moved as the separation moves them. *)
Lemma separate_models_ok c self n0 n1 s0 s1 : sized self -> 0 <= c < 6 ->
  cell (noise_means self) c 0 = n0 -> cell (noise_means self) c 1 = n1 ->
  cell (speech_means self) c 0 = s0 -> cell (speech_means self) c 1 = s1 ->
  before_separation c n0 n1 s0 s1 ->
  let t := shortage c n0 n1 s0 s1 in
  let s0 := s0 + 13 * t / 4 in let s1 := s1 + 13 * t / 4 in
  let n0 := n0 - 3 * t / 4 in let n1 := n1 - 3 * t / 4 in
  exists nm sm, put2 (noise_means self) c n0 n1 nm /\ put2 (speech_means self) c s0 s1 sm /\
    separate_models c self = Some (self <| noise_means := nm |> <| speech_means := sm |>,
      global kSpeechDataWeights c s0 s1, global kNoiseDataWeights c n0 n1).
Proof.
  intros Hs Hc En0 En1 Es0 Es1 Hb t s0' s1' n0' n1'. destruct (shortage_range c n0 n1 s0 s1 Hc Hb) as (Ht & Hgs & Hgn). fold t in Ht.
  destruct Hs as [Hnm Hsm _ _ _ _ _]. destruct Hb as (H1 & H2 & H3 & H4 & _).
  unfold separate_models.
  destruct (WeightedAverage_exact (noise_means self) c 0 kNoiseDataWeights n0 n1) as (nm & -> & Pn); try done; try lia; try (unfold in_i16; lia).
  { intros k Hk. by apply weights_range. }
  destruct (WeightedAverage_exact (speech_means self) c 0 kSpeechDataWeights s0 s1) as (sm & E & Ps); try done; try lia; try (unfold in_i16; lia).
  { intros k Hk. by apply weights_range. }
  cbn [mbind option_bind]. rewrite E. cbn [mbind option_bind]. clear E. cbv zeta.
  rewrite !Z.shiftr_div_pow2 by lia. change (2 ^ 9) with 512.
  assert (Hdiv : 0 <= global kSpeechDataWeights c s0 s1 / 512 <= 4997 /\ 0 <= global kNoiseDataWeights c n0 n1 / 512 <= 2336) by dlia.
  rewrite (i16_id (_ / 512)) by (unfold in_i16; lia). rewrite (i16_id (global kNoiseDataWeights c n0 n1 / 512)) by (unfold in_i16; lia).
  rewrite (i16_id (_ - _)) by (unfold in_i16; lia).
  destruct (Z.ltb_spec (global kSpeechDataWeights c s0 s1 / 512 - global kNoiseDataWeights c n0 n1 / 512) (znth kMinimumDifference c)) as [Hlt|Hge].
  - assert (Et : znth kMinimumDifference c - (global kSpeechDataWeights c s0 s1 / 512 - global kNoiseDataWeights c n0 n1 / 512) = t)
      by (unfold t, shortage; lia).
    rewrite Et. rewrite (i16_id t) by (unfold in_i16; lia). change (2 ^ 2) with 4.
    rewrite (i16_id (13 * t / 4)), (i16_id (3 * t / 4)), (i16_id (- _)) by (unfold in_i16; dlia).
    destruct (put2_at _ _ _ _ _ Pn Hc) as [An0 An1]. destruct (put2_at _ _ _ _ _ Ps Hc) as [As0 As1].
    cbn -[WeightedAverage global put2 Z.mul Z.div t].
    destruct (WeightedAverage_exact sm c (13 * t / 4) kSpeechDataWeights s0' s1') as (sm' & -> & Ps');
      [apply Ps|done|done|unfold s0'; lia|unfold s1'; lia|unfold s0', in_i16; dlia|unfold s1', in_i16; dlia|by intros; apply weights_range|].
    cbn [mbind option_bind].
    destruct (WeightedAverage_exact nm c (- (3 * t / 4)) kNoiseDataWeights n0' n1') as (nm' & E & Pn');
      [apply Pn|done|done|unfold n0'; lia|unfold n1'; lia|unfold n0', in_i16; dlia|unfold n1', in_i16; dlia|by intros; apply weights_range|].
    rewrite E. cbn [mbind option_bind]. exists nm', sm'. split_and!; [by eapply put2_trans|by eapply put2_trans|].
    by destruct self.
  - assert (Et : t = 0) by (unfold t, shortage; lia).
    assert (n0' = n0 /\ n1' = n1 /\ s0' = s0 /\ s1' = s1) as (-> & -> & -> & ->).
    { unfold n0', n1', s0', s1'. rewrite Et. change (13 * 0 / 4) with 0. change (3 * 0 / 4) with 0. lia. }
    exists nm, sm. done.
Qed.

(** *** The minimum of the features *)

Definition memory_sized (s : list Z * list Z) : Prop := zlen s.1 = 96 /\ zlen s.2 = 96.

Ltac in_range l i x := destruct (aget_range l i ltac:(rewrite ?length_app; lia)) as [x ->]; cbn [mbind option_bind].
Ltac store l i v := let l' := fresh "l" in let H := fresh "Hl" in
  destruct (aset_sized l i v 96 ltac:(lia) ltac:(lia)) as (l' & -> & H); cbn [mbind option_bind].

(** Every access but the one behind the array is inside it. *)
Lemma next_entry_inside l behind i : zlen l = 96 -> 0 <= i < 96 -> next_entry l behind i = Some (znth l i).
Proof. intros Hl Hi. unfold next_entry. destruct (Z.eqb_spec i (16 * kNumChannels)); [unfold kNumChannels in *; lia|]. apply aget_znth. lia. Qed.

Lemma next_entry_defined l behind i : zlen l = 96 -> 0 <= i <= 96 -> exists x, next_entry l behind i = Some x.
Proof.
  intros Hl Hi. destruct (Z.eq_dec i 96) as [->|]; [by exists behind|]. rewrite next_entry_inside by lia. by eexists.
Qed.

Ltac next l b i x := destruct (next_entry_defined l b i ltac:(assumption) ltac:(lia)) as [x ->]; cbn [mbind option_bind].

Lemma shift_step_ok ba bv offset j s : memory_sized s -> 0 <= offset + j < 96 ->
  shift_step ba bv offset j s ⤳ memory_sized.
Proof.
  intros [H1 H2] Hj. destruct s as [age low]. cbn [fst snd] in *. unfold shift_step.
  next low bv (offset + j + 1) v. store low (offset + j) v.
  next age ba (offset + j + 1) a. store age (offset + j) a. by apply result_ret.
Qed.

Lemma loop_keeps {S} (P : S -> Prop) body lo n s : P s -> (forall i s, lo <= i < lo + Z.of_nat n -> P s -> body i s ⤳ P) ->
  for_loop body lo n s ⤳ P.
Proof. intros Hs Hb. by apply (for_loop_inv (fun _ => P)). Qed.

Lemma for_loop_eq {S} (body body' : Z -> S -> option S) lo n s :
  (forall i s, lo <= i < lo + Z.of_nat n -> body i s = body' i s) -> for_loop body lo n s = for_loop body' lo n s.
Proof.
  revert lo s. induction n as [|n IH]; intros lo s H; [done|]. cbn [for_loop]. rewrite H by lia.
  destruct (body' lo s) as [s'|]; [|done]. cbn [mbind option_bind]. apply IH. intros i t Hi. apply H. lia.
Qed.

Lemma age_step_ok ba bv offset i s : memory_sized s -> 0 <= offset <= 80 -> 0 <= i < 16 ->
  age_step ba bv offset i s ⤳ memory_sized.
Proof.
  intros Hs Ho Hi. destruct s as [age low]. destruct (Hs) as [H1 H2]. cbn [fst snd] in H1, H2. unfold age_step.
  in_range age (offset + i) a. destruct (negb (a =? 100)).
  - store age (offset + i) (i16 (a + 1)). by apply result_ret.
  - eapply (result_bind _ _ memory_sized).
    { apply loop_keeps; [done|]. intros j s Hj Hs'. apply shift_step_ok; [done|lia]. }
    intros [age' low'] [H1' H2']. cbn [fst snd] in *. store age' (offset + 15) 101. store low' (offset + 15) 10000. by apply result_ret.
Qed.

Lemma insert_value_ok offset position v s : memory_sized s -> 0 <= offset <= 80 -> -1 <= position <= 15 ->
  insert_value offset position v s ⤳ memory_sized.
Proof.
  intros Hs Ho Hp. unfold insert_value. destruct (Z.gtb_spec position (-1)); [|by apply result_ret].
  eapply (result_bind _ _ memory_sized).
  - apply loop_keeps; [done|]. intros k [age low] Hk [H1 H2]. cbn [fst snd] in *. unfold insert_step. cbv zeta.
    in_range low (offset + (15 - k) - 1) w. store low (offset + (15 - k)) w.
    in_range age (offset + (15 - k) - 1) a. store age (offset + (15 - k)) a. by apply result_ret.
  - intros [age low] [H1 H2]. cbn [fst snd] in *. store low (offset + position) v. store age (offset + position) 1. by apply result_ret.
Qed.

Lemma find_position_range low v : -1 <= find_position low v <= 15.
Proof. unfold find_position. repeat match goal with |- context [if ?b then _ else _] => destruct b end; lia. Qed.

Lemma FindMinimum_ok self v c : sized self -> 0 <= c < 6 ->
  WebRtcVad_FindMinimum self v c ⤳ (fun '(self', m) => in_i16 m /\ sized self' /\
    self' = self <| index_vector := index_vector self' |> <| low_value_vector := low_value_vector self' |>
                 <| mean_value := mean_value self' |>).
Proof.
  intros [Hnm Hsm Hns Hss Ha Hl Hmv] Hc. unfold WebRtcVad_FindMinimum, find_minimum, kNumChannels. rewrite Z.shiftl_mul_pow2 by lia. change (2 ^ 4) with 16. cbv zeta.
  destruct (Z.ltb_spec c 6); [|lia]. cbn [c_assert mbind option_bind].
  eapply (result_bind _ _ memory_sized).
  { apply loop_keeps; [done|]. intros i s Hi Hs. apply age_step_ok; [done|lia|lia]. }
  intros [age low] Hs. eapply (result_bind _ _ memory_sized); [apply insert_value_ok; [done|lia|apply find_position_range]|].
  intros [age' low'] [H1 H2]. cbn [fst snd] in *. eapply (result_bind _ _ (fun _ => True)).
  { destruct (frame_counter self >? 2); [in_range low' (c * 16 + 2) x; by apply result_ret|].
    destruct (frame_counter self >? 0); [in_range low' (c * 16) x|]; by apply result_ret. }
  intros median _. in_range (mean_value self) c m.
  eapply result_bind; [apply (aset_sized _ _ _ 6); lia|]. intros mv Hmv'. apply result_ret. split_and!.
  - apply i16_range.
  - by constructor.
  - by destruct self.
Qed.

(** The access behind the array is outside it, and what it gives is overwritten before
    anything looks at it. *)
Lemma next_entry_behind (l : list Z) : zlen l = 96 -> aget l (16 * kNumChannels) = None.
Proof. intros Hl. apply aget_None. unfold kNumChannels. lia. Qed.





(** *** A channel, a frame *)

Definition channel_ok (self : VadInstT) (c : Z) : Prop :=
  model_ok c (cell (noise_means self) c 0) (cell (noise_means self) c 1)
             (cell (speech_means self) c 0) (cell (speech_means self) c 1) /\
  forall k, 0 <= k < 2 -> std_ok 378 (cell (noise_stds self) c k) /\ std_ok 384 (cell (speech_stds self) c k).

Lemma models_ok_others self self' c : models_ok self -> models_same (fun c' _ => c' <> c) self self' -> channel_ok self' c ->
  models_ok self'.
Proof.
  intros Hm Hs Hc c' Hc'. destruct (Z.eq_dec c' c) as [->|Hne]; [done|]. destruct (Hm c' Hc') as [H1 H2].
  destruct (Hs c' 0 Hc' ltac:(lia) Hne) as (-> & -> & _ & _). destruct (Hs c' 1 Hc' ltac:(lia) Hne) as (-> & -> & _ & _).
  split; [done|]. intros k Hk. destruct (Hs c' k Hc' Hk Hne) as (_ & _ & -> & ->). by apply H2.
Qed.

Lemma models_same_trans (p : Z -> Z -> Prop) a b c : models_same p a b -> models_same p b c -> models_same p a c.
Proof.
  intros H1 H2 ch k Hc Hk Hp. destruct (H1 ch k Hc Hk Hp) as (<- & <- & <- & <-). by apply H2.
Qed.

Lemma models_same_weaken (p q : Z -> Z -> Prop) a b : (forall c k, q c k -> p c k) -> models_same p a b -> models_same q a b.
Proof. intros Hpq H c k Hc Hk Hq. apply H; auto. Qed.

Definition start_of_channel (c maxspe : Z) : Prop := 11392 <= maxspe <= 12800 /\ (c <> 0 -> maxspe <= 11520).

(** Both Gaussians of a channel adapted. *)
Lemma adapt_gaussians_ok g feature fm t maxspe c self : sized self -> 0 <= c < 6 -> start_of_channel c maxspe -> channel_ok self c ->
  for_loop (update_gaussian g feature fm t maxspe c) 0 (Z.to_nat kNumGaussians) self ⤳ (fun self' =>
    sized self' /\ same_but_models self self' /\ models_same (fun c' _ => c' <> c) self self' /\
    before_separation c (cell (noise_means self') c 0) (cell (noise_means self') c 1)
                        (cell (speech_means self') c 0) (cell (speech_means self') c 1) /\
    forall k, 0 <= k < 2 -> std_ok 378 (cell (noise_stds self') c k) /\ std_ok 384 (cell (speech_stds self') c k)).
Proof.
  intros Hs Hc [Hm1 Hm2] [Hmod Hstd]. rewrite two_turns.
  eapply result_bind; [by apply update_gaussian_ok|]. intros s1 A1.
  eapply result_weaken; [apply update_gaussian_ok; [apply A1|done..]|]. intros s2 A2.
  destruct A1 as [Sz1 R1 O1 N1 S1 D1], A2 as [Sz2 R2 O2 N2 S2 D2].
  destruct (O1 c 1 Hc ltac:(lia) ltac:(cbv beta; lia)) as (En1 & Es1 & Ens1 & Ess1).
  destruct (O2 c 0 Hc ltac:(lia) ltac:(cbv beta; lia)) as (En2 & Es2 & Ens2 & Ess2).
  split_and!; [done|by eapply same_but_models_trans| | |].
  - eapply models_same_trans; eapply models_same_weaken; [|exact O1| |exact O2]; intros; cbv beta in *; lia.
  - unfold before_separation. rewrite En2, Es2. rewrite Es1 in S2. destruct Hmod as (_ & _ & H3 & H4 & H5 & H6).
    assert (Hs01 : (cell (speech_means s1) c 0 = cell (speech_means self) c 0 /\ cell (speech_means s2) c 1 = cell (speech_means self) c 1) \/
                   (640 <= cell (speech_means s1) c 0 <= maxspe + 640 /\ 640 <= cell (speech_means s2) c 1 <= maxspe + 640)).
    { destruct (vadflag g =? 0); [by left|by right]. }
    clear -Hs01 H3 H4 H5 H6 N1 N2 Hm1 Hm2 Hc.
    generalize dependent (cell (speech_means s1) c 0). generalize dependent (cell (speech_means s2) c 1).
    generalize dependent (cell (speech_means self) c 0). generalize dependent (cell (speech_means self) c 1). intros a Ha b Hb Hd Hw x y Hxy.
    split; [done|]. split; [done|]. destruct Hxy as [[-> ->]|Hxy].
    + split_and!; try done; channels c; tables; dlia.
    + destruct (Z.eqb_spec c 0) as [->|Hne]; [|specialize (Hm2 Hne)]; lia.
  - intros k Hk. assert (k = 0 \/ k = 1) as [->| ->] by lia.
    + rewrite Ens2, Ess2. apply D1. by apply Hstd.
    + apply D2. rewrite Ens1, Ess1. by apply Hstd.
Qed.

Lemma put2_others l c x0 x1 l' : put2 l c x0 x1 l' -> forall c' k, 0 <= c' < 6 -> 0 <= k < 2 -> c' <> c -> cell l' c' k = cell l c' k.
Proof. intros [_ H] c' k Hc Hk Hne. rewrite H by done. by destruct (Z.eqb_spec c' c). Qed.

(** What follows the adaptation of a channel. *)
Definition finish_channel (channel : Z) (self : VadInstT) : option (VadInstT * Z) :=
  let* (self, speech_global_mean, noise_global_mean) := separate_models channel self in
  let maxspe := znth kMaximumSpeech channel in
  let* sm := lower_means channel speech_global_mean maxspe (speech_means self) in
  let* nm := lower_means channel noise_global_mean (znth kMaximumNoise channel) (noise_means self) in
  Some (self <| speech_means := sm |> <| noise_means := nm |>, maxspe).

Lemma finish_channel_ok c self : sized self -> 0 <= c < 6 ->
  before_separation c (cell (noise_means self) c 0) (cell (noise_means self) c 1)
                      (cell (speech_means self) c 0) (cell (speech_means self) c 1) ->
  (forall k, 0 <= k < 2 -> std_ok 378 (cell (noise_stds self) c k) /\ std_ok 384 (cell (speech_stds self) c k)) ->
  finish_channel c self ⤳ (fun '(self', m) => m = znth kMaximumSpeech c /\ sized self' /\ same_but_models self self' /\
    models_same (fun c' _ => c' <> c) self self' /\ channel_ok self' c).
Proof.
  intros Hs Hc Hb Hstd. unfold finish_channel.
  destruct (separate_models_ok c self _ _ _ _ Hs Hc eq_refl eq_refl eq_refl eq_refl Hb) as (nm & sm & Pn & Ps & ->).
  pose proof (shortage_range c _ _ _ _ Hc Hb) as (Ht & _). pose proof (limited_model c _ _ _ _ _ Hc Hb Ht) as Hmod. cbv zeta in Hmod.
  set (t := shortage c _ _ _ _) in *. destruct (put2_at _ _ _ _ _ Pn Hc) as [An0 An1]. destruct (put2_at _ _ _ _ _ Ps Hc) as [As0 As1].
  set (s0 := cell (speech_means self) c 0 + 13 * t / 4) in *. set (s1 := cell (speech_means self) c 1 + 13 * t / 4) in *.
  set (n0 := cell (noise_means self) c 0 - 3 * t / 4) in *. set (n1 := cell (noise_means self) c 1 - 3 * t / 4) in *.
  assert (HR : -2064 <= n0 <= 9344 /\ -2064 <= n1 <= 9344 /\ 0 <= s0 <= 28931 /\ 0 <= s1 <= 28931).
  { destruct Hb as (? & ? & ? & ? & _). unfold n0, n1, s0, s1. dlia. }
  assert (HG : -311 * 2064 <= global kSpeechDataWeights c s0 s1 <= 128 * 28931 /\ -128 * 2064 <= global kNoiseDataWeights c n0 n1 <= 128 * 9344).
  { unfold global. clearbody s0 s1 n0 n1. clear -HR Hc. channels c; tables; lia. }
  assert (HM : 11392 <= znth kMaximumSpeech c <= 11520 /\ 8576 <= znth kMaximumNoise c <= 9216) by (clear -Hc; channels c; tables; lia).
  cbn -[lower_means separate_models global znth Z.add]. fold s0 s1 n0 n1.
  destruct (lower_means_ok sm c (global kSpeechDataWeights c s0 s1) (znth kMaximumSpeech c) s0 s1) as (sm' & -> & Ps');
    [apply Ps|done|done|done|unfold in_i16; dlia|lia|unfold in_i16; dlia|unfold in_i16; dlia|]. cbn [mbind option_bind].
  destruct (lower_means_ok nm c (global kNoiseDataWeights c n0 n1) (znth kMaximumNoise c) n0 n1) as (nm' & -> & Pn');
    [apply Pn|done|done|done|unfold in_i16; dlia|lia|unfold in_i16; dlia|unfold in_i16; dlia|]. cbn [mbind option_bind].
  pose proof (put2_trans _ _ _ _ _ _ _ _ Ps Ps') as Qs. pose proof (put2_trans _ _ _ _ _ _ _ _ Pn Pn') as Qn.
  apply result_ret. destruct Hs. split_and!; [done| |by destruct self| |].
  - constructor; cbn; try done; [apply Qn|apply Qs].
  - intros c' k Hc' Hk Hne. cbn -[cell]. by rewrite (put2_others _ _ _ _ _ Qn), (put2_others _ _ _ _ _ Qs).
  - unfold channel_ok. cbn -[cell model_ok std_ok].
    destruct (put2_at _ _ _ _ _ Qn Hc) as [-> ->]. destruct (put2_at _ _ _ _ _ Qs Hc) as [-> ->]. split; [exact Hmod|done].
Qed.

Lemma update_channel_ok g features c self maxspe : sized self -> models_ok self -> zlen features = 6 -> 0 <= c < 6 ->
  start_of_channel c maxspe ->
  update_channel g features c (self, maxspe) ⤳ (fun '(self', m) =>
    m = znth kMaximumSpeech c /\ sized self' /\ models_ok self' /\ same_but_models self self').
Proof.
  intros Hs Hm Hf Hc Hmax. unfold update_channel. destruct (aget_range features c ltac:(lia)) as [f ->]. cbn [mbind option_bind].
  eapply result_bind; [by apply FindMinimum_ok|]. intros [self1 fm] (_ & Hs1 & E1).
  assert (R1 : same_but_models self self1) by (rewrite E1; by destruct self).
  assert (Hm1 : models_ok self1) by (rewrite E1; exact Hm). clear E1.
  destruct (Hm1 c Hc) as [Hmod Hstd]. pose proof Hmod as (B0 & B1 & _).
  destruct (WeightedAverage_exact (noise_means self1) c 0 kNoiseDataWeights (cell (noise_means self1) c 0) (cell (noise_means self1) c 1))
    as (nm & -> & Pn); try done; try lia; try (unfold in_i16; lia); [apply Hs1|by intros; apply weights_range|]. cbn [mbind option_bind].
  pose proof (put2_same _ _ _ _ _ Pn eq_refl eq_refl) as Esame.
  set (self2 := self1 <| noise_means := nm |>).
  assert (Hs2 : sized self2) by (destruct Hs1; constructor; try done; apply Pn).
  assert (Hm2 : models_ok self2).
  { intros ch Hch. destruct (Hm1 ch Hch) as [H1 H2]. split; [|exact H2].
    change (noise_means self2) with nm. change (speech_means self2) with (speech_means self1). by rewrite !Esame by (done || lia). }
  assert (R2 : same_but_models self1 self2) by (by destruct self1).
  clearbody self2. clear Pn Esame Hmod Hstd B0 B1.
  eapply result_bind; [apply (adapt_gaussians_ok _ _ _ _ _ c); [done|done|done|exact (Hm2 c Hc)]|].
  intros self3 (Hs3 & R3 & O3 & Hb3 & Hstd3). change (finish_channel c self3 ⤳ (fun '(self', m) =>
    m = znth kMaximumSpeech c /\ sized self' /\ models_ok self' /\ same_but_models self self')).
  eapply result_weaken; [by apply finish_channel_ok|]. intros [self4 m] (-> & Hs4 & R4 & O4 & Hc4). split_and!; [done|done| |].
  - eapply models_ok_others; [exact Hm2| |exact Hc4]. eapply models_same_trans; eassumption.
  - eapply same_but_models_trans; [|exact R4]. eapply same_but_models_trans; [|exact R3]. by eapply same_but_models_trans.
Qed.

(** The states between two channels. *)
Definition between_channels (self : VadInstT) (c : Z) (s : VadInstT * Z) : Prop :=
  sized s.1 /\ models_ok s.1 /\ same_but_models self s.1 /\ s.2 = if c =? 0 then 12800 else znth kMaximumSpeech (c - 1).

Lemma update_channels_ok g features self : sized self -> models_ok self -> zlen features = 6 ->
  for_loop (update_channel g features) 0 (Z.to_nat kNumChannels) (self, 12800) ⤳ (fun '(self', _) =>
    sized self' /\ models_ok self' /\ same_but_models self self').
Proof.
  intros Hs Hm Hf. destruct (for_loop_inv (between_channels self) (update_channel g features) 0 (Z.to_nat kNumChannels) (self, 12800))
    as ([self' m] & -> & H1 & H2 & H3 & _).
  - split_and!; [done|done|by destruct self|done].
  - intros c [s m] Hc (H1 & H2 & H3 & H4). cbn [fst snd] in *. change (Z.of_nat (Z.to_nat kNumChannels)) with 6 in Hc.
    destruct (update_channel_ok g features c s m) as ([s' m'] & E & Em & Hs' & Hm' & R); [done|done|done|lia| |].
    { assert (0 <= c < 6) by lia. unfold start_of_channel. rewrite H4. clear -H. channels c; tables; cbn; lia. }
    eexists. split; [exact E|]. split_and!; [done|done|by eapply same_but_models_trans|]. cbn [snd].
    rewrite Em. destruct (Z.eqb_spec (c + 1) 0); [lia|]. f_equal; lia.
  - apply result_ret. done.
Qed.

(** ** The invariant *)

Definition small (x : Z) : Prop := 0 <= x <= 14.

(** The over-hang state is bounded by the tables of the modes. *)
Record decision_ok (self : VadInstT) : Prop := mkDecisionOk {
  d_max_1 : zlen (over_hang_max_1 self) = 3 /\ Forall small (over_hang_max_1 self);
  d_max_2 : zlen (over_hang_max_2 self) = 3 /\ Forall small (over_hang_max_2 self);
  d_individual : zlen (individual self) = 3;
  d_total : zlen (total self) = 3;
  d_over_hang : small (over_hang self);
  d_speech : 0 <= num_of_speech self <= 6 }.

Record vad_wf (self : VadInstT) : Prop := mkVadWf {
  wf_sized : sized self;
  wf_filters : filters_sized self;
  wf_downsampling : zlen (downsampling_filter_states self) = 4;
  wf_48_8 : ok_48_8 (state_48_to_8 self);
  wf_models : models_ok self;
  wf_decision : decision_ok self;
  wf_flag : init_flag self = kInitCheck }.

Lemma hang_over_ok self flag o1 o2 : small (over_hang self) -> small o1 -> small o2 -> 0 <= num_of_speech self <= 6 -> 0 <= flag <= 1 ->
  let '(self', v) := hang_over self flag o1 o2 in
  0 <= v <= 16 /\ small (over_hang self') /\ 0 <= num_of_speech self' <= 6 /\
  self' = self <| num_of_speech := num_of_speech self' |> <| over_hang := over_hang self' |>.
Proof.
  unfold small. intros Ho H1 H2 Hn Hf. unfold hang_over. destruct (Z.eqb_spec flag 0) as [->|].
  - destruct (Z.gtb_spec (over_hang self) 0); cbn -[Z.add Z.sub i16]; rewrite ?i16_id by (unfold in_i16; lia); split_and!; try lia; by destruct self.
  - cbn -[Z.add i16]. rewrite i16_id by (unfold in_i16; lia).
    destruct (Z.gtb_spec (num_of_speech self + 1) kMaxSpeechFrames); cbn -[Z.add]; unfold kMaxSpeechFrames in *;
      split_and!; try lia; by destruct self.
Qed.

(** What a frame keeps: everything but the features, the models, the counters. *)
Definition same_settings (self self' : VadInstT) : Prop :=
  downsampling_filter_states self' = downsampling_filter_states self /\ state_48_to_8 self' = state_48_to_8 self /\
  over_hang_max_1 self' = over_hang_max_1 self /\ over_hang_max_2 self' = over_hang_max_2 self /\
  individual self' = individual self /\ total self' = total self /\ init_flag self' = init_flag self.

Lemma same_but_models_settings self self' : same_but_models self self' ->
  same_settings self self' /\ upper_state self' = upper_state self /\ lower_state self' = lower_state self /\
  hp_filter_state self' = hp_filter_state self /\ over_hang self' = over_hang self /\ num_of_speech self' = num_of_speech self.
Proof. intros ->. done. Qed.

Lemma GmmProbability_ok self features total_power n : vad_wf self -> zlen features = 6 -> Forall feature_ok features ->
  GmmProbability self features total_power n ⤳ (fun '(self', v) => vad_wf self' /\ 0 <= v <= 16).
Proof.
  intros [Hs Hfl Hds H48 Hm Hd Hi] Hl Hf. unfold GmmProbability.
  set (i := if n =? 80 then 0 else if n =? 160 then 1 else 2). assert (Hi3 : 0 <= i < 3) by (unfold i; destruct (n =? 80), (n =? 160); lia).
  clearbody i. destruct Hd as [[D1 D1'] [D2 D2'] D3 D4 D5 D6].
  destruct (aget_range (over_hang_max_1 self) i ltac:(lia)) as [o1 E1]. destruct (aget_range (over_hang_max_2 self) i ltac:(lia)) as [o2 E2].
  pose proof (Forall_aget _ _ _ _ D1' E1) as Ho1. pose proof (Forall_aget _ _ _ _ D2' E2) as Ho2.
  destruct (aget_range (individual self) i ltac:(lia)) as [it E3]. destruct (aget_range (total self) i ltac:(lia)) as [tt E4].
  rewrite E1, E2, E3, E4. cbn [mbind option_bind].
  eapply (result_bind _ _ (fun '(self', flag) => sized self' /\ models_ok self' /\ 0 <= flag <= 1 /\
    same_but_models (self <| frame_counter := frame_counter self' |>) self')).
  - destruct (total_power >? kMinEnergy).
    + eapply result_bind; [by apply likelihoods_ok|]. intros g (_ & _ & _ & _ & Hg).
      eapply result_bind; [by apply update_channels_ok|]. intros [self' m] (Hs' & Hm' & R). apply result_ret. split_and!; try done.
      * destruct Hs'; by constructor.
      * lia.
      * lia.
      * unfold same_but_models in *. rewrite R. by destruct self.
    + apply result_ret. split_and!; try done. by destruct self.
  - intros [self' flag] (Hs' & Hm' & Hflag & R). destruct (same_but_models_settings _ _ R) as ((Q1 & Q2 & Q3 & Q4 & Q5 & Q6 & Q7) & P1 & P2 & P3 & P4 & P5).
    cbn in Q1, Q2, Q3, Q4, Q5, Q6, Q7, P1, P2, P3, P4, P5. rewrite <- P4 in D5. rewrite <- P5 in D6.
    pose proof (hang_over_ok self' flag o1 o2 D5 Ho1 Ho2 D6 Hflag) as H. destruct (hang_over self' flag o1 o2) as [self2 v].
    destruct H as (Hv & Ho & Hn & E). apply result_ret. split; [|done]. rewrite E. unfold filters_sized in Hfl.
    constructor; cbn; try (destruct Hs'; by constructor); try done; try congruence.
    + unfold filters_sized; cbn. congruence.
    + constructor; cbn; first [split; congruence|congruence|done].
Qed.

Lemma Downsampling_ok signal_in states pos n : 0 <= n -> 2 * n <= zlen signal_in -> zlen states = 4 -> 0 <= pos <= 2 ->
  WebRtcVad_Downsampling signal_in states pos (2 * n) ⤳ (fun '(out, states') => zlen out = n /\ zlen states' = 4).
Proof.
  intros Hn Hl Hs Hp. unfold WebRtcVad_Downsampling.
  replace (Z.shiftr (2 * n) 1) with n by (rewrite Z.shiftr_div_pow2 by lia; dlia).
  in_range states pos t1. in_range states (pos + 1) t2. eapply (result_bind _ _ (fun '(_, _, out) => zlen out = n)).
  - destruct (for_loop_inv (fun i (r : Z * Z * list Z) => zlen r.2 = i) (downsampling_step signal_in) 0 (Z.to_nat n) (t1, t2, []))
      as ([[u1 u2] out] & -> & H); [done| |].
    + intros i [[a b] out] Hi Ho. cbn [snd] in Ho. unfold downsampling_step.
      in_range signal_in (2 * i) x. destruct (downsampling_branch (znth kAllPassCoefsQ13 0) a x) as [a' y].
      in_range signal_in (2 * i + 1) x'. destruct (downsampling_branch (znth kAllPassCoefsQ13 1) b x') as [b' y'].
      eexists. split; [done|]. cbn [snd]. rewrite length_app. cbn [length]. lia.
    + apply result_ret. cbn [snd] in H. lia.
  - intros [[u1 u2] out] Hout. eapply result_bind; [apply (aset_sized _ _ _ 4); [lia|done]|]. intros s1 H1.
    eapply result_bind; [apply (aset_sized _ _ _ 4); [lia|done]|]. intros s2 H2. by apply result_ret.
Qed.

(** ** The decision by rate *)

Ltac keep_wf := constructor; cbn in *; solve [assumption | constructor; assumption | congruence].

Definition frame_result (r : Z * VadInstT) : Prop := vad_wf r.2 /\ 0 <= r.1 <= 16.

Lemma CalcVad8khz_ok self data q : vad_wf self -> 1 <= q <= 15 -> 16 * q <= zlen data ->
  WebRtcVad_CalcVad8khz self data (16 * q) ⤳ frame_result.
Proof.
  intros Hwf Hq Hd. unfold WebRtcVad_CalcVad8khz.
  eapply result_bind; [apply CalculateFeatures_ok; [apply Hwf|done..]|]. intros [[self1 f] tp] ([Hfl E] & Hf & Hfok).
  eapply result_bind; [apply GmmProbability_ok; [|done..]|].
  - rewrite E. destruct Hwf as [[] ? ? ? ? [] ?]. keep_wf.
  - intros [self2 v] [Hwf2 Hv]. apply result_ret. split; [|done]. destruct Hwf2 as [[] ? ? ? ? [] ?]. keep_wf.
Qed.

Lemma with_downsampling self s : vad_wf self -> zlen s = 4 -> vad_wf (self <| downsampling_filter_states := s |>).
Proof. intros [[] ? ? ? ? [] ?] Hs. keep_wf. Qed.

Lemma half_length n : 2 * n / 2 = n.
Proof. dlia. Qed.

Lemma CalcVad16khz_ok self data q : vad_wf self -> 1 <= q <= 15 -> 32 * q <= zlen data ->
  WebRtcVad_CalcVad16khz self data (32 * q) ⤳ frame_result.
Proof.
  intros Hwf Hq Hd. unfold WebRtcVad_CalcVad16khz. replace (32 * q) with (2 * (16 * q)) by lia. rewrite half_length.
  eapply result_bind; [apply (Downsampling_ok _ _ _ (16 * q)); [lia|lia|apply Hwf|lia]|]. intros [out s] [Ho Hs].
  apply CalcVad8khz_ok; [by apply with_downsampling|done|lia].
Qed.

Lemma CalcVad32khz_ok self data q : vad_wf self -> 1 <= q <= 15 -> 64 * q <= zlen data ->
  WebRtcVad_CalcVad32khz self data (64 * q) ⤳ frame_result.
Proof.
  intros Hwf Hq Hd. unfold WebRtcVad_CalcVad32khz. replace (64 * q) with (2 * (2 * (16 * q))) by lia. rewrite !half_length.
  eapply result_bind; [apply (Downsampling_ok _ _ _ (2 * (16 * q))); [lia|lia|apply Hwf|lia]|]. intros [wb s] [Ho Hs].
  eapply result_bind; [apply (Downsampling_ok _ _ _ (16 * q)); [lia|lia|done|lia]|]. intros [nb s'] [Ho' Hs'].
  cbv beta zeta. rewrite ?half_length. apply CalcVad8khz_ok; [apply with_downsampling; [by apply with_downsampling|done]|done|lia].
Qed.

(** The content of the local array of the 48 kHz decision. *)
Definition local_array (a : list Z) : Prop := zlen a = 240 /\ Forall in_i16 a.

Lemma CalcVad48khz_ok a0 self data q : local_array a0 -> vad_wf self -> 1 <= q <= 3 -> 480 <= zlen data ->
  WebRtcVad_CalcVad48khz a0 self data (480 * q) ⤳ frame_result.
Proof.
  intros [Ha Ha'] Hwf Hq Hd. unfold WebRtcVad_CalcVad48khz. cbv zeta.
  replace (480 * q / 480) with q by dlia. replace (480 * q / 6) with (16 * (5 * q)) by dlia.
  eapply (result_bind _ _ (fun '(nb, state, _) => local_array nb /\ ok_48_8 state)).
  - match goal with |- context [for_loop ?body _ _ ?start] =>
      destruct (for_loop_inv (fun _ (r : list Z * WebRtcSpl_State48khzTo8khz * list Z) =>
        local_array r.1.1 /\ ok_48_8 r.1.2 /\ zlen r.2 = 736) body 0 (Z.to_nat q) start) as ([[nb st] m] & -> & H1 & H2 & _) end.
    + cbn [fst snd]. split; [by split|]. split; [apply Hwf|]. done.
    + intros i [[nb st] m] Hi ([H1 H1'] & H2 & H3). cbn [fst snd] in *.
      destruct (cv_convert _ _ _ _ _ _ converter_48_8 data 0 nb (i * 80) st m) as ([[nb' st'] m'] & -> & Hw & Hst & Hm); try done; try lia.
      eexists. split; [done|]. cbn [fst snd]. split_and!; [|done|lia]. split; [rewrite <- H1; apply (st_len _ _ _ _ _ Hw)|by apply (written_i16 nb (i * 80) 80)].
    + by apply result_ret.
  - intros [[nb st] m] [[Hn _] Hst]. apply CalcVad8khz_ok; [|lia|lia]. destruct Hwf as [[] ? ? ? ? [] ?]. keep_wf.
Qed.

(** ** The interface *)

(** The arrays of an instance have the sizes of its type. *)
Record allocated (self : VadInstT) : Prop := mkAllocated {
  al_sized : sized self;
  al_filters : filters_sized self;
  al_downsampling : zlen (downsampling_filter_states self) = 4;
  al_48_8 : ok_48_8 (state_48_to_8 self);
  al_tables : zlen (over_hang_max_1 self) = 3 /\ zlen (over_hang_max_2 self) = 3 /\ zlen (individual self) = 3 /\ zlen (total self) = 3 }.

Lemma vad_wf_allocated self : vad_wf self -> allocated self.
Proof. intros [? ? ? ? ? [[] [] ? ? ? ?] ?]. by constructor. Qed.

(** The state after the initialisation. *)
Definition initial_state : VadInstT :=
  mkVad 1 (zreplicate 4 0) (mkState48To8 (zreplicate 8 0) (zreplicate 16 0) (zreplicate 8 0) (zreplicate 8 0))
    kNoiseDataMeans kSpeechDataMeans kNoiseDataStds kSpeechDataStds 0 0 0 (zreplicate 96 0) (zreplicate 96 10000)
    (zreplicate 6 1600) (zreplicate 5 0) (zreplicate 5 0) (zreplicate 4 0)
    [8; 4; 3] [14; 7; 5] [24; 21; 24] [57; 48; 57] kInitCheck.

Lemma memcpy_all {A} (dst src : list A) n : zlen dst = n -> zlen src = n -> memcpy dst 0 src 0 n = Some src.
Proof.
  intros Hd Hs. rewrite memcpy_Some by lia. unfold splice, slice. rewrite take_0, drop_0, take_ge by lia.
  rewrite drop_ge by lia. by rewrite app_nil_r.
Qed.

Lemma mode_thresholds_sizes mode a b c d : mode_thresholds mode = Some (a, b, c, d) ->
  zlen a = 3 /\ zlen b = 3 /\ zlen c = 3 /\ zlen d = 3.
Proof.
  unfold mode_thresholds. intros E. repeat match type of E with context [match ?x with _ => _ end] => is_var x; destruct x end;
    first [discriminate E | injection E as <- <- <- <-; cbn; lia].
Qed.

Lemma set_mode_core_exact self mode : allocated self -> WebRtcVad_set_mode_core self mode =
  match mode_thresholds mode with
  | Some (a, b, c, d) => Some (0, self <| over_hang_max_1 := a |> <| over_hang_max_2 := b |> <| individual := c |> <| total := d |>)
  | None => Some (-1, self)
  end.
Proof.
  intros [_ _ _ _ (H1 & H2 & H3 & H4)]. unfold WebRtcVad_set_mode_core.
  destruct (mode_thresholds mode) as [[[[a b] c] d]|] eqn:E; [|done].
  pose proof (mode_thresholds_sizes _ _ _ _ _ E) as Hl.
  rewrite !memcpy_all by apply Hl || done. cbn [mbind option_bind]. done.
Qed.

Lemma set_all_exact a f n : zlen a = n -> set_all a f n = Some (tab f n).
Proof.
  intros Ha. unfold set_all. rewrite (fill_loop _ f n a) by (done || lia). rewrite drop_ge by lia. by rewrite app_nil_r.
Qed.

Lemma InitCore_exact self : allocated self -> WebRtcVad_InitCore (Some self) = Some (0, Some initial_state).
Proof.
  intros Ha. destruct self as [x1 ds [t1 t2 t3 t4] nm sm ns ss x2 x3 x4 age low mv us ls hp a b c d x5].
  assert (Ha' : allocated (mkVad 1 ds (mkState48To8 t1 t2 t3 t4) nm sm ns ss 0 0 0 age low mv us ls hp a b c d x5)).
  { destruct Ha as [[] ? ? ? ?]. constructor; [constructor| | | |]; assumption. }
  clear Ha. destruct Ha' as [[] (Hu & Hl & Hh) Hd (S1 & S2 & S3 & S4) Ht].
  unfold WebRtcVad_InitCore, WebRtcSpl_ResetResample48khzTo8khz.
  cbv beta iota zeta delta [vad downsampling_filter_states state_48_to_8 noise_means speech_means noise_stds speech_stds frame_counter
    over_hang num_of_speech low_value_vector index_vector upper_state lower_state hp_filter_state mean_value over_hang_max_1
    over_hang_max_2 individual total init_flag update rebuild rebuild_Vad at_48_8_S_48_24 at_48_8_S_24_24 at_48_8_S_24_16 at_48_8_S_16_8] in *.
  rewrite !memset_all by done. cbn [mbind option_bind].
  rewrite !set_all_exact by done. cbn [mbind option_bind].
  rewrite set_mode_core_exact.
  - reflexivity.
  - constructor; [constructor| | | |]; try assumption; done.
Qed.

Lemma initial_wf : vad_wf initial_state.
Proof.
  constructor; try done.
  - intros c Hc. unfold initial_state, model_ok. cbn [noise_means speech_means noise_stds speech_stds]. split.
    + channels c; vm_compute; split_and!; discriminate.
    + intros k Hk. assert (k = 0 \/ k = 1) as [->| ->] by lia; channels c; vm_compute; split_and!; discriminate.
  - constructor; cbn; try (split; [done|repeat constructor; unfold small; lia]); try done; unfold small; lia.
Qed.

(** The rates and the lengths of 10, 20 or 30 ms that are accepted. *)
Definition accepted (fs n : Z) : Prop :=
  (fs = 8000 \/ fs = 16000 \/ fs = 32000 \/ fs = 48000) /\ (n = fs / 100 \/ n = fs / 50 \/ n = 3 * fs / 100).
#[export] Instance accepted_dec fs n : Decision (accepted fs n).
Proof. unfold accepted. apply _. Defined.

Lemma length_loop_exact r n : In r kValidRates -> length_loop (Z.to_nat kMaxFrameLengthMs) r n 10 (-1) =
  if n =? r / 100 then 0 else if n =? r / 50 then 0 else if n =? 3 * r / 100 then 0 else -1.
Proof. intros [<-|[<-|[<-|[<-|[]]]]]; vm_compute; reflexivity. Qed.

Lemma ValidRateAndFrameLength_exact fs n : WebRtcVad_ValidRateAndFrameLength fs n = if decide (accepted fs n) then 0 else -1.
Proof.
  unfold WebRtcVad_ValidRateAndFrameLength, kValidRates, rate_loop.
  assert (Hloop : forall r, In r kValidRates -> length_loop (Z.to_nat kMaxFrameLengthMs) r n 10 (-1) = if decide (accepted r n) then 0 else -1).
  { intros r Hr. rewrite length_loop_exact by done. unfold accepted. cbn in Hr.
    destruct (Z.eqb_spec n (r / 100)), (Z.eqb_spec n (r / 50)), (Z.eqb_spec n (3 * r / 100)), (decide _) as [[_ H]|H]; try done; exfalso;
      first [apply H; split; lia | lia]. }
  destruct (Z.eqb_spec 8000 fs) as [<-|]; [apply Hloop; cbn; tauto|]. destruct (Z.eqb_spec 16000 fs) as [<-|]; [apply Hloop; cbn; tauto|].
  destruct (Z.eqb_spec 32000 fs) as [<-|]; [apply Hloop; cbn; tauto|]. destruct (Z.eqb_spec 48000 fs) as [<-|]; [apply Hloop; cbn; tauto|].
  destruct (decide _) as [[H _]|]; [lia|done].
Qed.

(** What [WebRtcVad_Process] is given is good: memory behind the pointers. *)
Definition frame_readable (fs : Z) (audio_frame : option (list Z)) (n : Z) : Prop :=
  forall frame, audio_frame = Some frame -> accepted fs n -> n <= zlen frame.

Ltac multiple k m n Hlen q := assert (exists q, n = k * q /\ 1 <= q <= m) as (q & -> & Hq);
  [exists (n / k); destruct Hlen as [->|[->| ->]]; vm_compute; split_and!; first [reflexivity|discriminate] |].
Lemma vad_frame_ok a0 self fs frame n : local_array a0 -> vad_wf self -> accepted fs n -> n <= zlen frame ->
  WebRtcVad_Process a0 (Some self) fs (Some frame) n ⤳ (fun '(r, handle) => 0 <= r <= 1 /\ exists self', handle = Some self' /\ vad_wf self').
Proof.
  intros Ha Hwf Hacc Hn. unfold WebRtcVad_Process. rewrite (wf_flag _ Hwf). cbn [Z.eqb kInitCheck Pos.eqb negb].
  rewrite ValidRateAndFrameLength_exact, decide_True by done. cbn [Z.eqb negb].
  assert (Hcalc : forall m, m ⤳ frame_result ->
    (let* (v, self) := m in Some (if v >? 0 then 1 else v, Some self)) ⤳ (fun '(r, handle) => 0 <= r <= 1 /\ exists self', handle = Some self' /\ vad_wf self')).
  { intros m Hm. eapply result_bind; [exact Hm|]. intros [v self'] [Hwf' Hv]. apply result_ret. cbn [fst snd] in *. split; [|by exists self'].
    destruct (Z.gtb_spec v 0); lia. }
  destruct Hacc as [[->|[->|[->| ->]]] Hlen]; cbn [Z.eqb Pos.eqb]; apply Hcalc.
  - multiple 16 15 n Hlen q. apply CalcVad8khz_ok; [done|lia|done].
  - multiple 32 15 n Hlen q. apply CalcVad16khz_ok; [done|lia|done].
  - multiple 64 15 n Hlen q. apply CalcVad32khz_ok; [done|lia|done].
  - multiple 480 3 n Hlen q. apply CalcVad48khz_ok; [done|done|lia|lia].
Qed.

Lemma Process_rejects a0 handle fs frame n :
  handle = None \/ (exists self, handle = Some self /\ init_flag self <> kInitCheck) \/ frame = None \/ ~ accepted fs n ->
  WebRtcVad_Process a0 handle fs frame n = Some (-1, handle).
Proof.
  intros H. unfold WebRtcVad_Process. destruct handle as [self|]; [|done].
  destruct (Z.eqb_spec (init_flag self) kInitCheck); cbn [negb]; [|done]. destruct frame as [frame|]; [|done].
  rewrite ValidRateAndFrameLength_exact, decide_False; [done|]. destruct H as [H|[(s & [= <-] & H)|[H|H]]]; done.
Qed.

(** *** Calls in any order *)

Inductive vad_call :=
| VadInit
| VadSetMode (mode : Z)
| VadProcess (local : list Z) (fs : Z) (frame : option (list Z)) (n : Z).

Definition vad_call_run (c : vad_call) (handle : option VadInstT) : option (Z * option VadInstT) :=
  match c with
  | VadInit => WebRtcVad_Init handle
  | VadSetMode mode => WebRtcVad_set_mode handle mode
  | VadProcess a0 fs frame n => WebRtcVad_Process a0 handle fs frame n
  end.

(** The results of the calls and the instance at the end. *)
Fixpoint vad_calls_run (calls : list vad_call) (handle : option VadInstT) : option (list Z * option VadInstT) :=
  match calls with
  | [] => Some ([], handle)
  | c :: calls =>
      let* (r, handle) := vad_call_run c handle in
      let* (rs, handle) := vad_calls_run calls handle in
      Some (r :: rs, handle)
  end.

Definition vad_session (memory : VadInstT) (calls : list vad_call) : option (list Z * option VadInstT) :=
  let* self := WebRtcVad_Create (Some memory) in vad_calls_run calls (Some self).





Lemma set_mode_wf self mode : vad_wf self -> WebRtcVad_set_mode_core self mode ⤳ (fun '(r, self') =>
  r = (if (0 <=? mode) && (mode <=? 3) then 0 else -1) /\ vad_wf self' /\ (r <> 0 -> self' = self)).
Proof.
  intros Hwf. rewrite set_mode_core_exact by by apply vad_wf_allocated.
  assert (Hd : forall a b c d r, zlen a = 3 /\ Forall small a -> zlen b = 3 /\ Forall small b -> zlen c = 3 -> zlen d = 3 -> r = 0 ->
    Some (0, self <| over_hang_max_1 := a |> <| over_hang_max_2 := b |> <| individual := c |> <| total := d |>) ⤳
    (fun '(r', self') => r' = r /\ vad_wf self' /\ (r' <> 0 -> self' = self))).
  { intros a b c d r Ha Hb Hc Hdd ->. apply result_ret. split; [done|]. split; [|done]. destruct Hwf as [[] ? ? ? ? [] ?]. keep_wf. }
  unfold mode_thresholds. repeat match goal with |- context [match ?x with _ => _ end] => is_var x; destruct x end.
  all: first [apply Hd; [split; [done|repeat constructor; unfold small; lia]..|done|done|done] | by apply result_ret].
Qed.



(** Memory that holds whatever the allocator left in it. *)
Definition some_memory : VadInstT :=
  mkVad 7 (zreplicate 4 (-1)) (mkState48To8 (zreplicate 8 5) (zreplicate 16 6) (zreplicate 8 7) (zreplicate 8 8))
    (zreplicate 12 1) (zreplicate 12 2) (zreplicate 12 0) (zreplicate 12 0) 3 4 5 (zreplicate 96 9) (zreplicate 96 9)
    (zreplicate 6 9) (zreplicate 5 9) (zreplicate 5 9) (zreplicate 4 9)
    (zreplicate 3 99) (zreplicate 3 99) (zreplicate 3 0) (zreplicate 3 0) kInitCheck.

Lemma some_memory_allocated : allocated some_memory.
Proof. constructor; [constructor|..]; try done; split_and!; done. Qed.

Lemma zeros_local : local_array (zreplicate 240 0).
Proof. split; [done|]. apply Forall_replicate. unfold in_i16. lia. Qed.

Definition saw (n : Z) : list Z := tab (fun i => 500 * (i mod 40) - 9000) n.


Definition refused (handle : option VadInstT) (fs : Z) (frame : option (list Z)) (n : Z) : Prop :=
  handle = None \/ (exists self, handle = Some self /\ init_flag self <> kInitCheck) \/ frame = None \/ ~ accepted fs n.

(** C34. A frame is refused exactly when the handle or the frame is a null pointer, the
    instance is not initialised, or rate and length are not 10, 20 or 30 ms at 8, 16,
    32 or 48 kHz; a refusal is -1 and leaves the instance as it is, an accepted frame gives 0 or 1
    and keeps the invariant. A mode is refused exactly when the handle is null, the
    instance is not initialised or the mode is not 0 to 3, again with -1 and no change. *)
Theorem vad_errors a0 handle fs frame n mode : local_array a0 -> frame_readable fs frame n ->
  (forall self, handle = Some self -> init_flag self = kInitCheck -> vad_wf self) ->
  (refused handle fs frame n -> WebRtcVad_Process a0 handle fs frame n = Some (-1, handle)) /\
  (~ refused handle fs frame n -> WebRtcVad_Process a0 handle fs frame n ⤳ (fun '(r, handle') =>
     (r = 0 \/ r = 1) /\ exists self', handle' = Some self' /\ vad_wf self')) /\
  WebRtcVad_set_mode handle mode ⤳ (fun '(r, handle') =>
    (r = 0 <-> 0 <= mode <= 3 /\ exists self, handle = Some self /\ init_flag self = kInitCheck) /\
    (r <> 0 -> r = -1 /\ handle' = handle)).
Proof.
  intros Ha Hr Hwf. split_and!; [by apply Process_rejects| |].
  - intros Hn. unfold refused in Hn. destruct handle as [self|]; [|tauto]. destruct frame as [f|]; [|tauto].
    destruct (decide (accepted fs n)) as [Hacc|]; [|tauto].
    destruct (decide (init_flag self = kInitCheck)) as [Hi|Hi]; [|exfalso; apply Hn; right; left; by exists self].
    eapply result_weaken; [apply vad_frame_ok; auto|]. intros [r h] (Hr' & H). split; [lia|done].
  - unfold WebRtcVad_set_mode. destruct handle as [self|].
    + destruct (Z.eqb_spec (init_flag self) kInitCheck) as [Hi|Hi]; cbn [negb].
      * eapply result_bind; [apply (set_mode_wf self mode); auto|]. intros [r self'] (Hr' & _ & Hsame). apply result_ret. subst r.
        destruct (Z.leb_spec 0 mode), (Z.leb_spec mode 3); cbn [andb] in *; split; try lia; try (intros; split; [done|f_equal; by apply Hsame]).
        split; [|done]. intros _. split; [done|by exists self].
      * apply result_ret. split; [|done]. split; [done|]. intros (_ & s & [= ->] & E). done.
    + apply result_ret. split; [|done]. split; [done|]. by intros (_ & s & [=] & _).
Qed.

Lemma vad_errors_witness :
  (refused (Some initial_state) 8000 (Some (saw 240)) 240 -> WebRtcVad_Process (zreplicate 240 0) (Some initial_state) 8000 (Some (saw 240)) 240
     = Some (-1, Some initial_state)) /\
  (~ refused (Some initial_state) 8000 (Some (saw 240)) 240 -> WebRtcVad_Process (zreplicate 240 0) (Some initial_state) 8000 (Some (saw 240)) 240
     ⤳ (fun '(r, handle') => (r = 0 \/ r = 1) /\ exists self', handle' = Some self' /\ vad_wf self')) /\
  WebRtcVad_set_mode (Some initial_state) 7 ⤳ (fun '(r, handle') =>
    (r = 0 <-> 0 <= 7 <= 3 /\ exists self, Some initial_state = Some self /\ init_flag self = kInitCheck) /\
    (r <> 0 -> r = -1 /\ handle' = Some initial_state)).
Proof.
  apply vad_errors; [exact zeros_local| |].
  - intros f [= <-] _. vm_compute. discriminate.
  - intros s [= <-] _. exact initial_wf.
Defined.

(** ** Silence *)








(** *** Digital silence *)

Definition steady_48_8 : WebRtcSpl_State48khzTo8khz :=
  mkState48To8 (zreplicate 8 16384) (zreplicate 16 16384) (zreplicate 8 0) (zreplicate 8 16384).

(** The states that digital silence reaches; the thresholds are those of any mode. *)
Definition silent_state (v : Z) (s48 : WebRtcSpl_State48khzTo8khz) (m1 m2 ind tot : list Z) : VadInstT :=
  initial_state <| vad := v |> <| state_48_to_8 := s48 |> <| over_hang_max_1 := m1 |> <| over_hang_max_2 := m2 |>
    <| individual := ind |> <| total := tot |>.

Definition silent (self : VadInstT) : Prop := exists v s48 m1 m2 ind tot, self = silent_state v s48 m1 m2 ind tot /\
  (s48 = state_48_to_8 initial_state \/ s48 = steady_48_8) /\ zlen m1 = 3 /\ zlen m2 = 3 /\ zlen ind = 3 /\ zlen tot = 3.

Lemma length_3 (l : list Z) : zlen l = 3 -> exists a b c, l = [a; b; c].
Proof. destruct l as [|a [|b [|c [|d l]]]]; cbn [length]; try lia. intros _. by exists a, b, c. Qed.

Definition silent_process (a0 : list Z) (self : VadInstT) (fs n : Z) : option (Z * option VadInstT) :=
  WebRtcVad_Process a0 (Some self) fs (Some (zreplicate n 0)) n.

Lemma silent_narrow a0 v s48 a1 a2 a3 b1 b2 b3 c1 c2 c3 d1 d2 d3 fs n : accepted fs n -> fs <> 48000 ->
  silent_process a0 (silent_state v s48 [a1; a2; a3] [b1; b2; b3] [c1; c2; c3] [d1; d2; d3]) fs n =
  Some (0, Some (silent_state 0 s48 [a1; a2; a3] [b1; b2; b3] [c1; c2; c3] [d1; d2; d3])).
Proof.
  intros [Hfs Hn] Hne; destruct Hfs as [->|[->|[->| ->]]]; [..|done]; destruct Hn as [->|[->| ->]]; vm_compute; reflexivity.
Qed.

(** Ten milliseconds of zeros at 48 kHz. *)
Lemma silent_conversion f g l s48 pos :
  s48 = state_48_to_8 initial_state /\ pos = 0 \/ s48 = steady_48_8 /\ (pos = 0 \/ pos = 80 \/ pos = 160) ->
  WebRtcSpl_Resample48khzTo8khz (zreplicate 480 0 ++ l) 0 (tab f 240) pos s48 (tab g 736) ⤳ (fun '(o, st, m) =>
    o = splice (tab f 240) pos (zreplicate 80 0) /\ st = steady_48_8 /\ zlen m = 736).
Proof.
  intros [[-> ->]|[-> [->|[->| ->]]]]; eexists; (split; [vm_compute; reflexivity|]); (split; [vm_compute; reflexivity|]); split; reflexivity.
Qed.

Lemma silent_after l v s48 a1 a2 a3 b1 b2 b3 c1 c2 c3 d1 d2 d3 q : q = 1 \/ q = 2 \/ q = 3 ->
  WebRtcVad_CalcVad8khz (silent_state v s48 [a1; a2; a3] [b1; b2; b3] [c1; c2; c3] [d1; d2; d3]) (zreplicate (80 * q) 0 ++ l) (80 * q) =
  Some (0, silent_state 0 s48 [a1; a2; a3] [b1; b2; b3] [c1; c2; c3] [d1; d2; d3]).
Proof. intros [->|[->| ->]]; vm_compute; reflexivity. Qed.

(** The local array, the state and the scratch memory after [i] conversions. *)
Definition converted (s48 : WebRtcSpl_State48khzTo8khz) (i : Z) (r : list Z * WebRtcSpl_State48khzTo8khz * list Z) : Prop :=
  zlen r.1.1 = 240 /\ (forall j, 0 <= j < 80 * i -> aget r.1.1 j = Some 0) /\ r.1.2 = (if i =? 0 then s48 else steady_48_8) /\ zlen r.2 = 736.

Lemma silent_converted a0 l s48 q : zlen a0 = 240 -> s48 = state_48_to_8 initial_state \/ s48 = steady_48_8 -> 0 <= q <= 3 ->
  for_loop (fun i (s : list Z * WebRtcSpl_State48khzTo8khz * list Z) =>
      let '(speech_nb, state, tmp_mem) := s in
      WebRtcSpl_Resample48khzTo8khz (zreplicate 480 0 ++ l) 0 speech_nb (i * 80) state tmp_mem)
    0 (Z.to_nat q) (a0, s48, zreplicate (480 + 256) 0) ⤳ converted s48 q.
Proof.
  intros Ha Hs Hq. match goal with |- for_loop ?body _ _ ?start ⤳ _ =>
    destruct (for_loop_inv (converted s48) body 0 (Z.to_nat q) start) as (r & -> & H) end.
  - split_and!; try done. intros j Hj. lia.
  - intros i [[o st] m] Hi (H1 & H2 & H3 & H4). cbn [fst snd] in *.
    assert (Eo : tab (znth o) 240 = o) by (rewrite <- H1; apply tab_list, znth_aget).
    assert (Em : tab (znth m) 736 = m) by (rewrite <- H4; apply tab_list, znth_aget).
    destruct (silent_conversion (znth o) (znth m) l st (i * 80)) as ([[o' st'] m'] & E & Eo' & -> & Hm).
    { rewrite H3. destruct (Z.eqb_spec i 0) as [->|]; [destruct Hs as [->| ->]; auto|right; split; [done|lia]]. }
    rewrite Eo, Em in E. rewrite Eo in Eo'. subst o'. rewrite E.
    assert (Hz : zlen (zreplicate 80 0) = 80) by done.
    eexists. split; [done|]. split_and!; cbn [fst snd]; [rewrite length_splice; rewrite ?Hz; lia| | |done].
    + intros j Hj. rewrite aget_splice by (rewrite ?Hz; lia). rewrite Hz.
      destruct (Z.leb_spec (i * 80) j), (Z.ltb_spec j (i * 80 + 80)); cbn [andb]; try lia; [|apply H2; lia].
      unfold aget. destruct (Z.leb_spec 0 (j - i * 80)); [|lia]. unfold zreplicate. rewrite lookup_replicate_2 by lia. done.
    + destruct (Z.eqb_spec (i + 1) 0); [lia|done].
  - rewrite Z2Nat.id, Z.add_0_l in H by lia. by apply result_ret.
Qed.

Lemma zeros_first l n : 0 <= n -> (forall j, 0 <= j < n -> aget l j = Some 0) -> l = zreplicate n 0 ++ drop (Z.to_nat n) l.
Proof.
  intros Hn H. rewrite <- (take_drop (Z.to_nat n) l) at 1. f_equal. unfold zreplicate.
  assert (Hl : n <= zlen l). { destruct (Z.eq_dec n 0); [lia|]. pose proof (aget_Some_range _ _ _ (H (n - 1) ltac:(lia))). lia. }
  apply list_eq_same_length with (n := Z.to_nat n).
  - by rewrite length_replicate.
  - rewrite length_take. lia.
  - intros i x y Hi Hx Hy. apply lookup_take_Some in Hx as [Hx _]. specialize (H (Z.of_nat i) ltac:(lia)). rewrite aget_nat in H.
    apply lookup_replicate in Hy as [-> _]. congruence.
Qed.

Lemma silent_frame a0 v s48 a1 a2 a3 b1 b2 b3 c1 c2 c3 d1 d2 d3 fs n : zlen a0 = 240 -> accepted fs n ->
  s48 = state_48_to_8 initial_state \/ s48 = steady_48_8 ->
  silent_process a0 (silent_state v s48 [a1; a2; a3] [b1; b2; b3] [c1; c2; c3] [d1; d2; d3]) fs n =
  Some (0, Some (silent_state 0 (if fs =? 48000 then steady_48_8 else s48) [a1; a2; a3] [b1; b2; b3] [c1; c2; c3] [d1; d2; d3])).
Proof.
  intros Ha Hacc Hs. destruct (Z.eqb_spec fs 48000) as [->|Hne]; [|by apply silent_narrow].
  unfold silent_process, WebRtcVad_Process. change (init_flag (silent_state v s48 _ _ _ _)) with kInitCheck. rewrite Z.eqb_refl. cbn [negb].
  rewrite ValidRateAndFrameLength_exact, decide_True by done. rewrite !Z.eqb_refl. cbn [negb].
  assert (exists q, (q = 1 \/ q = 2 \/ q = 3) /\ n = 480 * q) as (q & Hq & ->).
  { destruct Hacc as [_ [->|[->| ->]]]; [exists 1|exists 2|exists 3]; split; tauto || reflexivity. }
  assert (exists l, zreplicate (480 * q) 0 = zreplicate 480 0 ++ l) as [l ->].
  { exists (zreplicate (480 * (q - 1)) 0). unfold zreplicate. rewrite <- replicate_add. f_equal. lia. }
  unfold WebRtcVad_CalcVad48khz. cbv zeta. replace (480 * q / 480) with q by dlia. replace (480 * q / 6) with (80 * q) by dlia.
  change (state_48_to_8 (silent_state v s48 _ _ _ _)) with s48.
  destruct (silent_converted a0 l s48 q Ha Hs ltac:(lia)) as ([[o st] m] & -> & H1 & H2 & H3 & _). cbn [fst snd mbind option_bind] in *.
  destruct (Z.eqb_spec q 0); [lia|]. subst st. rewrite (zeros_first o (80 * q)) by (lia || done).
  change ((silent_state v s48 ?x ?y ?z ?t) <| state_48_to_8 := steady_48_8 |>) with (silent_state v steady_48_8 x y z t).
  rewrite silent_after by done. done.
Qed.

(** Frames of zeros in any accepted format, and any other call. *)
Definition silent_call (c : vad_call) : Prop :=
  match c with VadProcess a0 fs frame n => local_array a0 /\ accepted fs n /\ frame = Some (zreplicate n 0) | _ => True end.
Definition inactive (c : vad_call) (r : Z) : Prop := match c with VadProcess _ _ _ _ => r = 0 | _ => True end.

Lemma silent_initial : silent initial_state.
Proof. unfold silent. do 6 eexists. split; [reflexivity|]. split; [by left|]. done. Qed.

Lemma silent_allocated self : silent self -> allocated self /\ init_flag self = kInitCheck.
Proof.
  intros (v & s48 & m1 & m2 & ind & tot & -> & Hs & H1 & H2 & H3 & H4). split; [|done].
  destruct (vad_wf_allocated _ initial_wf) as [[] ? ? H ?]. constructor; [constructor|..]; try assumption; [by destruct Hs as [->| ->]|done].
Qed.

Lemma silent_set_mode self mode : silent self -> WebRtcVad_set_mode (Some self) mode ⤳ (fun '(_, handle) =>
  exists self', handle = Some self' /\ silent self').
Proof.
  intros Hs. destruct (silent_allocated self Hs) as [Ha Hi]. unfold WebRtcVad_set_mode. rewrite Hi. change (kInitCheck =? kInitCheck) with true.
  cbn [negb]. rewrite set_mode_core_exact by done.
  destruct (mode_thresholds mode) as [[[[a b] c] d]|] eqn:E; cbn [mbind option_bind]; apply result_ret; eexists; (split; [reflexivity|]); [|done].
  pose proof (mode_thresholds_sizes _ _ _ _ _ E) as Hl. destruct Hs as (v & s48 & m1 & m2 & ind & tot & -> & Hs & _).
  exists v, s48, a, b, c, d. split; [reflexivity|done].
Qed.

Lemma silent_process_ok self a0 fs n : silent self -> zlen a0 = 240 -> accepted fs n ->
  silent_process a0 self fs n ⤳ (fun '(r, handle) => r = 0 /\ exists self', handle = Some self' /\ silent self').
Proof.
  intros (v & s48 & m1 & m2 & ind & tot & -> & Hs & H1 & H2 & H3 & H4) Hl Hacc.
  destruct (length_3 m1 H1) as (x1 & x2 & x3 & ->), (length_3 m2 H2) as (y1 & y2 & y3 & ->), (length_3 ind H3) as (z1 & z2 & z3 & ->),
    (length_3 tot H4) as (w1 & w2 & w3 & ->).
  eapply result_eq; [by apply silent_frame|]. split; [reflexivity|]. eexists. split; [reflexivity|].
  do 6 eexists. split; [reflexivity|]. split; [destruct (fs =? 48000); auto|done].
Qed.

Lemma silent_call_run self c : silent self -> silent_call c ->
  vad_call_run c (Some self) ⤳ (fun '(r, handle) => inactive c r /\ exists self', handle = Some self' /\ silent self').
Proof.
  intros Hs Hc. destruct c as [|mode|a0 fs frame n].
  - destruct (silent_allocated self Hs) as [Ha _]. cbn [vad_call_run]. unfold WebRtcVad_Init. rewrite InitCore_exact by done.
    apply result_ret. split; [done|]. exists initial_state. split; [done|apply silent_initial].
  - eapply result_weaken; [by apply silent_set_mode|]. by intros [r h] H.
  - destruct Hc as ([Hl _] & Hacc & ->). by apply silent_process_ok.
Qed.

(** C23. Once the instance is initialised, digital silence is never taken for speech:
    in any sequence of frames of zeros in any of the accepted formats, mixed with
    changes of the mode and further initialisations, every frame is decided as inactive. *)
Theorem digital_silence_is_inactive memory calls : allocated memory -> Forall silent_call calls ->
  vad_session memory (VadInit :: calls) ⤳ (fun '(results, _) => Forall2 inactive (VadInit :: calls) results).
Proof.
  intros Ha Hc. unfold vad_session, WebRtcVad_Create. cbn [mbind option_bind vad_calls_run vad_call_run].
  unfold WebRtcVad_Init. rewrite InitCore_exact. 2:{ destruct Ha as [[] ? ? ? ?]. constructor; [by constructor|..]; assumption. }
  cbn [mbind option_bind]. eapply result_bind.
  - assert (H : forall self, silent self -> vad_calls_run calls (Some self) ⤳ (fun '(rs, _) => Forall2 inactive calls rs)).
    { clear -Hc. induction Hc as [|c calls H Hc IH]; intros self Hs; [by apply result_ret|]. cbn [vad_calls_run].
      eapply result_bind; [by apply silent_call_run|]. intros [r h] (Hr & self' & -> & Hs'). eapply result_bind; [by apply IH|].
      intros [rs h] Hrs. apply result_ret. by constructor. }
    apply H, silent_initial.
  - intros [rs h] Hrs. apply result_ret. by constructor.
Qed.

Lemma digital_silence_is_inactive_witness :
  let calls := [VadProcess (zreplicate 240 0) 48000 (Some (zreplicate 480 0)) 480; VadSetMode 3;
                VadProcess (zreplicate 240 0) 8000 (Some (zreplicate 240 0)) 240] in
  vad_session some_memory (VadInit :: calls) ⤳ (fun '(results, _) => Forall2 inactive (VadInit :: calls) results).
Proof.
  apply digital_silence_is_inactive; [exact some_memory_allocated|].
  repeat apply Forall_cons_2; try apply Forall_nil_2; try exact I; (split; [exact zeros_local|]); split; try reflexivity; vm_compute; tauto.
Defined.

(** *** What the 48 kHz decision looks at *)

Lemma branch_eq load load' row b store len mem state : (forall i mem, 0 <= i < len -> load i mem = load' i mem) ->
  branch load row b store len mem state = branch load' row b store len mem state.
Proof. intros H. apply for_loop_eq. intros i [m s] Hi. by rewrite H by lia. Qed.

Lemma Resample48khzTo8khz_first data data' out pos st mem : (forall j, 0 <= j < 480 -> aget data j = aget data' j) ->
  WebRtcSpl_Resample48khzTo8khz data 0 out pos st mem = WebRtcSpl_Resample48khzTo8khz data' 0 out pos st mem.
Proof.
  intros H. unfold WebRtcSpl_Resample48khzTo8khz, WebRtcSpl_DownBy2ShortToInt. change (Z.shiftr 480 1) with 240.
  rewrite (branch_eq (load_short data 0 2) (load_short data' 0 2)).
  2:{ intros i m Hi. unfold load_short. by rewrite H by lia. }
  destruct (branch (load_short data' 0 2) _ _ _ _ _ _) as [[m s]|]; [|done]. cbn [mbind option_bind].
  rewrite (branch_eq (load_short data (0 + 1) 2) (load_short data' (0 + 1) 2)); [done|].
  intros i m' Hi. unfold load_short. by rewrite H by lia.
Qed.

(** At 48 kHz the decision on a frame of 20 or 30 ms looks at its first ten
    milliseconds only: the loop over the pieces of ten milliseconds converts the first
    480 samples again and again. Frames that agree there give the same decision and
    the same state, whatever the other 480 or 960 samples are. *)
Theorem calc_vad_48khz_first_10ms a0 self frame frame' n :
  (forall j, 0 <= j < 480 -> aget frame j = aget frame' j) ->
  WebRtcVad_Process a0 (Some self) 48000 (Some frame) n = WebRtcVad_Process a0 (Some self) 48000 (Some frame') n.
Proof.
  intros H. unfold WebRtcVad_Process. destruct (negb (init_flag self =? kInitCheck)); [done|].
  destruct (negb _); [done|]. rewrite Z.eqb_refl. unfold WebRtcVad_CalcVad48khz. cbv zeta.
  match goal with |- context [for_loop ?body] => rewrite (for_loop_eq body (fun i (s : list Z * WebRtcSpl_State48khzTo8khz * list Z) =>
    let '(speech_nb, state, tmp_mem) := s in
    WebRtcSpl_Resample48khzTo8khz frame' 0 speech_nb (i * 80) state tmp_mem)) end; [done|].
  intros i [[nb st] m] _. by apply Resample48khzTo8khz_first.
Qed.

Lemma calc_vad_48khz_first_10ms_witness :
  WebRtcVad_Process (zreplicate 240 0) (Some initial_state) 48000 (Some (zreplicate 480 0 ++ saw 960)) 1440 =
  WebRtcVad_Process (zreplicate 240 0) (Some initial_state) 48000 (Some (zreplicate 480 0 ++ zreplicate 960 0)) 1440.
Proof.
  apply calc_vad_48khz_first_10ms. intros j Hj. rewrite !aget_app by lia.
  assert (E : zlen (zreplicate 480 0) = 480) by reflexivity. rewrite E. destruct (Z.ltb_spec j 480); [reflexivity|lia].
Defined.

(** *** Widths that are left *)

(** The product of the update of a noise deviation before it is put in 32 bits. *)
Definition std_product (g : Gmm) (feature nmk channel k : Z) : Z :=
  let gaussian := channel + k * kNumChannels in
  i16 (Z.shiftr (znth (ngprvec g) gaussian + 2) 2) * deviation_factor (znth (deltaN g) gaussian) (i16 (feature - Z.shiftr nmk 3)).

(** The step of a noise mean before it is put in 16 bits. *)
Definition noise_mean_step (g : Gmm) (channel k : Z) : Z :=
  let gaussian := channel + k * kNumChannels in Z.shiftr (znth (ngprvec g) gaussian * znth (deltaN g) gaussian) 11.

(** Ten milliseconds of +3, -3, +3, ... at 8 kHz. *)
Definition faint : list Z := tab (fun i => if i mod 2 =? 0 then 3 else -3) 80.

(** On the second of two faint frames after the initialisation the product for the
    noise deviation of channel 2 leaves the 32 bits of its type. *)
Lemma noise_std_overflows : exists self1 self2 features total_power g,
  WebRtcVad_Process (zreplicate 240 0) (Some initial_state) 8000 (Some faint) 80 = Some (0, Some self1) /\
  WebRtcVad_CalculateFeatures self1 faint 80 = Some (self2, features, total_power) /\ total_power > kMinEnergy /\
  likelihoods self2 features (znth (individual self2) 0) (znth (total self2) 0) = Some g /\ vadflag g = 0 /\
  std_product g (znth features 2) (znth (noise_means self2) 2) 2 0 = 2992160768.
Proof.
  do 5 eexists. split; [vm_compute; reflexivity|]. split; [vm_compute; reflexivity|]. split; [reflexivity|].
  split; [vm_compute; reflexivity|]. split; vm_compute; reflexivity.
Qed.

(** On the first such frame the step of a noise mean leaves 16 bits, and the cast turns
    a step down into a step up. *)
Lemma noise_mean_step_wraps : exists self1 features total_power g,
  WebRtcVad_CalculateFeatures initial_state faint 80 = Some (self1, features, total_power) /\ total_power > kMinEnergy /\
  likelihoods self1 features (znth (individual self1) 0) (znth (total self1) 0) = Some g /\ vadflag g = 0 /\
  noise_mean_step g 0 0 = -54808 /\ i16 (noise_mean_step g 0 0) = 10728.
Proof.
  do 4 eexists. split; [vm_compute; reflexivity|]. split; [reflexivity|]. split; [vm_compute; reflexivity|].
  split; [vm_compute; reflexivity|]. split; vm_compute; reflexivity.
Qed.
End VadSpec.
