(* ===== verification/VadMinimum.v ===== *)
(** The memory of small features of the voice activity detector (vad_sp.c).

    [WebRtcVad_FindMinimum] keeps, for each channel, sixteen values with their ages in
    two arrays of the instance. Here the arrays are related to an abstract memory, a list of pairs
    (value, age), on which a call is [remember]: old entries expire, the feature is
    inserted in its place, the largest entry is dropped. *)

From stdpp Require Import sorting.
From S2P Require Import Prelude SplInl SplVec Resample ResampleSpec Vad VadSpec.

Module VadMinimum.
Import Spl SplVec ResampleSpec Vad VadSpec.

(** ** The abstract memory *)

(** An entry is a value and its age. This one is put behind the others when an entry is
    removed. *)
Definition filler : Z * Z := (10000, 101).

(** [n] entries are looked at. An entry of age 100 is removed; the entry that takes
    its place is not looked at. *)
Fixpoint expire (n : nat) (l : list (Z * Z)) : list (Z * Z) :=
  match n, l with
  | S n, (v, a) :: l =>
      if a =? 100 then match l ++ [filler] with e :: l => e :: expire n l | [] => [] end
      else (v, i16 (a + 1)) :: expire n l
  | _, _ => l
  end.

(** A new entry goes in front of the first larger one. *)
Fixpoint insert_entry (f : Z) (l : list (Z * Z)) : list (Z * Z) :=
  match l with
  | [] => [(f, 1)]
  | e :: l => if f <? e.1 then (f, 1) :: e :: l else e :: insert_entry f l
  end.

Definition remember (f : Z) (l : list (Z * Z)) : list (Z * Z) := take 16 (insert_entry f (expire 16 l)).

(** The entries are in order. *)
Definition ordered (l : list (Z * Z)) : Prop :=
  StronglySorted (fun e e' => e.1 <= e'.1) l /\ Forall (fun e => 0 <= e.1 <= 10000) l.

(** *** The order is kept *)

Lemma expire_Forall (P : Z -> Prop) n l : P 10000 -> Forall (fun e => P e.1) l -> Forall (fun e => P e.1) (expire n l).
Proof.
  intros H0. revert l. induction n as [|n IH]; intros l Hl; [done|]. destruct l as [|[v a] l]; [done|].
  inversion Hl as [|? ? Hv Hl']; subst. cbn [expire]. destruct (a =? 100).
  - assert (Hf : Forall (fun e => P e.1) (l ++ [filler])) by (apply Forall_app; split; [done|constructor; [exact H0|constructor]]).
    destruct (l ++ [filler]) as [|e l1]; [constructor|]. inversion Hf; subst. constructor; [done|by apply IH].
  - constructor; [done|by apply IH].
Qed.

Lemma sorted_snoc l : ordered l -> ordered (l ++ [filler]).
Proof.
  intros [Hs Hf]. split; [|apply Forall_app; split; [done|repeat constructor; cbn; lia]].
  induction Hs as [|e l Hs IH He]; [by repeat constructor|]. inversion Hf; subst. cbn [app]. constructor; [by apply IH|].
  apply Forall_app. split; [done|]. repeat constructor. cbn. lia.
Qed.

Lemma ordered_cons e l : ordered (e :: l) -> ordered l /\ Forall (fun e' => e.1 <= e'.1) l /\ 0 <= e.1 <= 10000.
Proof. intros [Hs Hf]. inversion Hs; inversion Hf; subst. done. Qed.

Lemma ordered_expire n l : ordered l -> ordered (expire n l).
Proof.
  revert l. induction n as [|n IH]; intros l Hl; [done|]. destruct l as [|[v a] l]; [done|].
  destruct (ordered_cons _ _ Hl) as (Hl' & Hv & Hv'). cbn [expire]. destruct (a =? 100).
  - pose proof (sorted_snoc l Hl') as Hs. destruct (l ++ [filler]) as [|e l1]; [split; constructor|]. destruct (ordered_cons _ _ Hs) as (H1 & H2 & H3).
    destruct (IH l1 H1) as [I1 I2]. split; constructor; try done. apply (expire_Forall (fun x => e.1 <= x)); [lia|done].
  - destruct (IH l Hl') as [I1 I2]. split; constructor; try done. apply (expire_Forall (fun x => v <= x)); [cbn in Hv'; lia|done].
Qed.

Lemma insert_Forall (P : Z -> Prop) f l : P f -> Forall (fun e => P e.1) l -> Forall (fun e => P e.1) (insert_entry f l).
Proof.
  intros Hf Hl. induction Hl as [|e l He Hl IH]; [by repeat constructor|]. cbn [insert_entry].
  destruct (f <? e.1); repeat constructor; done.
Qed.

Lemma ordered_insert f l : 0 <= f <= 10000 -> ordered l -> ordered (insert_entry f l).
Proof.
  intros Hf [Hs Hb]. split; [|by apply (insert_Forall (fun x => 0 <= x <= 10000))]. clear Hb. induction Hs as [|e l Hs IH He]; [by repeat constructor|].
  cbn [insert_entry]. destruct (Z.ltb_spec f e.1).
  - constructor; [by constructor|]. constructor; [cbn; lia|]. eapply Forall_impl; [|exact He]. intros e' H'. cbn in *. lia.
  - constructor; [done|]. by apply (insert_Forall (fun x => e.1 <= x)).
Qed.

Lemma ordered_take n l : ordered l -> ordered (take n l).
Proof.
  intros [Hs Hb]. split; [|by apply Forall_take]. revert n. induction Hs as [|e l Hs IH He]; intros [|n]; cbn; constructor; [|by apply Forall_take].
  apply IH. by inversion Hb.
Qed.

Lemma ordered_remember f l : 0 <= f <= 10000 -> ordered l -> ordered (remember f l).
Proof. intros Hf Hl. by apply ordered_take, ordered_insert, ordered_expire. Qed.


(** ** The arrays *)

(** The entries of channel [c]. *)
Definition entries_of (c : Z) (s : list Z * list Z) : list (Z * Z) :=
  tab (fun j => (znth s.2 (16 * c + j), znth s.1 (16 * c + j))) 16.

(** The arrays outside channel [c] are those of [s]. *)
Definition others_same (c : Z) (s s' : list Z * list Z) : Prop :=
  forall k, k < 16 * c \/ 16 * c + 16 <= k -> znth s'.1 k = znth s.1 k /\ znth s'.2 k = znth s.2 k.

Lemma store_exact l i x : zlen l = 96 -> 0 <= i < 96 ->
  exists l', aset l i x = Some l' /\ zlen l' = 96 /\ forall k, znth l' k = if k =? i then x else znth l k.
Proof.
  intros Hl Hi. destruct (aset_sized l i x 96 Hi Hl) as (l' & E & Hl'). exists l'. split_and!; [done|done|].
  intros k. unfold znth. rewrite (aget_aset _ _ _ _ _ E). by destruct (k =? i).
Qed.

Ltac store_at l i v := let l' := fresh "l" in let Hl := fresh "Hl" in let Hz := fresh "Hz" in
  destruct (store_exact l i v ltac:(assumption) ltac:(lia)) as (l' & -> & Hl & Hz); cbn [mbind option_bind].

(** The arrays while the entries behind [i] move down. *)
Definition shifted (c i j : Z) (s0 s : list Z * list Z) : Prop :=
  memory_sized s /\
  (forall k, k < 16 * c + i \/ 16 * c + 16 <= k \/ 16 * c + j <= k -> znth s.1 k = znth s0.1 k /\ znth s.2 k = znth s0.2 k) /\
  (forall k, 16 * c + i <= k < 16 * c + Z.min j 15 -> znth s.1 k = znth s0.1 (k + 1) /\ znth s.2 k = znth s0.2 (k + 1)).

Lemma shift_loop ba bv c i s0 : memory_sized s0 -> 0 <= c < 6 -> 0 <= i < 16 ->
  for_loop (shift_step ba bv (16 * c)) i (Z.to_nat (16 - i)) s0 ⤳ shifted c i 16 s0.
Proof.
  intros Hs Hc Hi. destruct (for_loop_inv (fun j => shifted c i j s0) (shift_step ba bv (16 * c)) i (Z.to_nat (16 - i)) s0) as (s & -> & H).
  - split_and!; [done|done|]. intros k Hk. lia.
  - intros j [age low] Hj ([H1 H2] & Hsame & Hmoved). cbn [fst snd] in *. unfold shift_step.
    destruct (next_entry_defined low bv (16 * c + j + 1) ltac:(done) ltac:(lia)) as [v Ev]. rewrite Ev. cbn [mbind option_bind].
    store_at low (16 * c + j) v.
    destruct (next_entry_defined age ba (16 * c + j + 1) ltac:(done) ltac:(lia)) as [a Ea]. rewrite Ea. cbn [mbind option_bind].
    store_at age (16 * c + j) a. eexists. split; [done|].
    assert (Hread : j < 15 -> v = znth s0.2 (16 * c + j + 1) /\ a = znth s0.1 (16 * c + j + 1)).
    { intros Hj'. destruct (Hsame (16 * c + j + 1) ltac:(lia)) as [<- <-]. rewrite next_entry_inside in Ev by lia. rewrite next_entry_inside in Ea by lia.
      split; congruence. }
    split_and!; [done| |]; cbn [fst snd]; intros k Hk; rewrite Hz, Hz0; destruct (Z.eqb_spec k (16 * c + j)).
    + lia.
    + apply Hsame. lia.
    + subst k. destruct Hread as [-> ->]; [lia|]. done.
    + apply Hmoved. lia.
  - rewrite Z2Nat.id in H by lia. replace (i + (16 - i)) with 16 in H by lia. by apply result_ret.
Qed.

(** *** Ageing *)

(** Turn [i] of the loop on the entries. *)
Definition turn (i : nat) (l : list (Z * Z)) : list (Z * Z) :=
  match drop i l with
  | (v, a) :: r => if a =? 100 then take i l ++ r ++ [filler] else take i l ++ (v, i16 (a + 1)) :: r
  | [] => l
  end.

Lemma tab_split {A} (g : Z -> A) i : 0 <= i < 16 -> tab g 16 = tab g i ++ g i :: tab (fun j => g (i + (1 + j))) (15 - i).
Proof.
  intros Hi. replace 16 with (i + (1 + (15 - i))) at 1 by lia. rewrite tab_app, tab_app, tab_1 by lia. cbn [app]. by rewrite Z.add_0_r.
Qed.

Lemma tab_last {A} (g : Z -> A) i : 0 <= i < 16 -> tab g 16 = tab g i ++ tab (fun j => g (i + j)) (15 - i) ++ [g 15].
Proof.
  intros Hi. replace 16 with (i + ((15 - i) + 1)) at 1 by lia. rewrite tab_app, tab_app, tab_1 by lia. do 4 f_equal. lia.
Qed.

Lemma turn_tab g i : 0 <= i < 16 -> turn (Z.to_nat i) (tab g 16) =
  tab (fun j => if (g i).2 =? 100 then (if j <? i then g j else if j <? 15 then g (j + 1) else filler)
                else (if j =? i then ((g i).1, i16 ((g i).2 + 1)) else g j)) 16.
Proof.
  intros Hi. unfold turn. rewrite (tab_split g i Hi) at 1. pose proof (length_tab g i ltac:(lia)) as Hl.
  rewrite drop_app_length' by lia. destruct (g i) as [v a] eqn:Eg. cbn [fst snd].
  rewrite (tab_split g i Hi). rewrite Eg. rewrite take_app_length' by lia. destruct (a =? 100).
  - rewrite (tab_last _ i Hi). f_equal; [|f_equal].
    + apply tab_ext. intros j Hj. destruct (Z.ltb_spec j i); [done|lia].
    + apply tab_ext. intros j Hj. destruct (Z.ltb_spec (i + j) i); [lia|]. destruct (Z.ltb_spec (i + j) 15); [|lia]. f_equal. lia.
    + destruct (Z.ltb_spec 15 i); [lia|]. done.
  - rewrite (tab_split _ i Hi). rewrite Z.eqb_refl. f_equal; [|f_equal].
    + apply tab_ext. intros j Hj. destruct (Z.eqb_spec j i); [lia|done].
    + apply tab_ext. intros j Hj. destruct (Z.eqb_spec (i + (1 + j)) i); [lia|done].
Qed.

Fixpoint turns (i n : nat) (l : list (Z * Z)) : list (Z * Z) :=
  match n with O => l | S n => turns (S i) n (turn i l) end.

Lemma turns_snoc i n l : turns i (S n) l = turn (i + n) (turns i n l).
Proof.
  revert i l. induction n as [|n IH]; intros i l; [cbn; by rewrite Nat.add_0_r|].
  cbn [turns]. change (turns (S i) (S n) (turn i l) = turn (i + S n) (turns (S i) n (turn i l))). rewrite IH. f_equal. lia.
Qed.

Lemma split_behind {A} (l : list A) e r i : length l = i -> take (S i) (l ++ e :: r) = l ++ [e] /\ drop (S i) (l ++ e :: r) = r.
Proof.
  intros Hl. change (e :: r) with ([e] ++ r). rewrite app_assoc.
  rewrite take_app_length', drop_app_length' by (rewrite length_app; cbn [length]; lia). done.
Qed.

Lemma turns_expire n i l : length l = (i + n)%nat -> turns i n l = take i l ++ expire n (drop i l).
Proof.
  revert i l. induction n as [|n IH]; intros i l Hl.
  - cbn [turns expire]. by rewrite take_drop.
  - cbn [turns]. destruct (drop i l) as [|[v a] r] eqn:Ed; [apply (f_equal length) in Ed; rewrite length_drop in Ed; cbn in Ed; lia|].
    assert (Hti : length (take i l) = i) by (rewrite length_take; lia).
    assert (Hr : length r = n). { apply (f_equal length) in Ed. rewrite length_drop in Ed. cbn in Ed. lia. }
    unfold turn. rewrite Ed. cbn [expire]. destruct (a =? 100).
    + destruct (r ++ [filler]) as [|e r'] eqn:Er; [by destruct r|].
      assert (Hr' : length r' = n). { apply (f_equal length) in Er. rewrite length_app in Er. cbn in Er. lia. }
      rewrite IH by (rewrite length_app; cbn [length]; lia).
      destruct (split_behind (take i l) e r' i Hti) as [-> ->]. by rewrite <- app_assoc.
    + rewrite IH by (rewrite length_app; cbn [length]; lia).
      destruct (split_behind (take i l) (v, i16 (a + 1)) r i Hti) as [-> ->]. by rewrite <- app_assoc.
Qed.

Lemma age_step_turn ba bv c i s : memory_sized s -> 0 <= c < 6 -> 0 <= i < 16 ->
  age_step ba bv (16 * c) i s ⤳ (fun s' => memory_sized s' /\ others_same c s s' /\ entries_of c s' = turn (Z.to_nat i) (entries_of c s)).
Proof.
  intros Hs Hc Hi. unfold entries_of at 2. rewrite turn_tab by done. cbn [fst snd]. destruct s as [age low]. destruct (Hs) as [H1 H2]. cbn [fst snd] in *.
  unfold age_step. rewrite aget_znth by lia. cbn [mbind option_bind]. destruct (Z.eqb_spec (znth age (16 * c + i)) 100) as [E|E]; cbn [negb].
  - eapply result_bind; [by apply shift_loop|]. intros [age' low'] ([H1' H2'] & Hsame & Hmoved). cbn [fst snd] in *.
    store_at age' (16 * c + 15) 101. store_at low' (16 * c + 15) 10000. apply result_ret. split; [done|]. split.
    + intros k Hk. cbn [fst snd]. rewrite Hz, Hz0. destruct (Z.eqb_spec k (16 * c + 15)); [lia|]. apply Hsame. lia.
    + apply tab_ext. intros j Hj. cbn [fst snd]. rewrite Hz, Hz0. destruct (Z.eqb_spec (16 * c + j) (16 * c + 15)), (Z.ltb_spec j i), (Z.ltb_spec j 15); try lia.
      * done.
      * destruct (Hsame (16 * c + j) ltac:(lia)) as [-> ->]. done.
      * destruct (Hmoved (16 * c + j) ltac:(lia)) as [-> ->]. by rewrite !Z.add_assoc.
  - store_at age (16 * c + i) (i16 (znth age (16 * c + i) + 1)). apply result_ret. split; [done|]. split.
    + intros k Hk. cbn [fst snd]. rewrite Hz. destruct (Z.eqb_spec k (16 * c + i)); [lia|done].
    + apply tab_ext. intros j Hj. cbn [fst snd]. rewrite Hz. destruct (Z.eqb_spec (16 * c + j) (16 * c + i)), (Z.eqb_spec j i); try lia; [by subst j|done].
Qed.

Lemma ageing ba bv c s : memory_sized s -> 0 <= c < 6 ->
  for_loop (age_step ba bv (16 * c)) 0 16 s ⤳ (fun s' => memory_sized s' /\ others_same c s s' /\ entries_of c s' = expire 16 (entries_of c s)).
Proof.
  intros Hs Hc.
  destruct (for_loop_inv (fun i s' => memory_sized s' /\ others_same c s s' /\ entries_of c s' = turns 0 (Z.to_nat i) (entries_of c s))
    (age_step ba bv (16 * c)) 0 16 s) as (s' & -> & H1 & H2 & H3).
  - done.
  - intros i s1 Hi (H1 & H2 & H3). destruct (age_step_turn ba bv c i s1 H1 Hc ltac:(lia)) as (s2 & -> & H1' & H2' & H3').
    exists s2. split; [done|]. split; [done|]. split.
    + intros k Hk. destruct (H2' k Hk) as [-> ->]. by apply H2.
    + rewrite H3', H3. replace (Z.to_nat (i + 1)) with (S (Z.to_nat i)) by lia. by rewrite turns_snoc.
  - apply result_ret. split; [done|]. split; [done|]. rewrite H3. change (Z.to_nat (0 + Z.of_nat 16)) with 16%nat. rewrite turns_expire; [done|].
    pose proof (length_tab (fun j => (znth s.2 (16 * c + j), znth s.1 (16 * c + j))) 16 ltac:(lia)). unfold entries_of. lia.
Qed.

(** *** Insertion *)

Lemma insert_entry_app f l l' : Forall (fun e => e.1 <= f) l -> insert_entry f (l ++ l') = l ++ insert_entry f l'.
Proof. induction 1 as [|e l He Hl IH]; [done|]. cbn. destruct (Z.ltb_spec f e.1); [lia|]. by rewrite IH. Qed.

Lemma insert_tab f g p : 0 <= p < 16 -> (forall j, 0 <= j < p -> (g j).1 <= f) -> f < (g p).1 ->
  take 16 (insert_entry f (tab g 16)) = tab (fun j => if j <? p then g j else if j =? p then (f, 1) else g (j - 1)) 16.
Proof.
  intros Hp Hbelow Habove. rewrite (tab_split g p Hp). rewrite insert_entry_app by (apply Forall_tab; exact Hbelow).
  cbn [insert_entry]. destruct (Z.ltb_spec f (g p).1); [|lia]. rewrite (tab_split _ p Hp). rewrite Z.eqb_refl, Z.ltb_irrefl.
  pose proof (length_tab g p ltac:(lia)) as Hl. rewrite take_app. rewrite take_ge by lia. f_equal.
  - apply tab_ext. intros j Hj. destruct (Z.ltb_spec j p); [done|lia].
  - replace (16 - length (tab g p))%nat with (S (Z.to_nat (15 - p))) by lia. cbn [take]. f_equal.
    set (h := fun j => g (p + j)). transitivity (take (Z.to_nat (15 - p)) (tab h (1 + (15 - p)))).
    + rewrite tab_app, tab_1 by lia. unfold h. cbn [app]. by rewrite Z.add_0_r.
    + rewrite take_tab by lia. apply tab_ext. intros j Hj. unfold h.
      destruct (Z.ltb_spec (p + (1 + j)) p), (Z.eqb_spec (p + (1 + j)) p); try lia. f_equal. lia.
Qed.

Lemma insert_none f g : (forall j, 0 <= j < 16 -> (g j).1 <= f) -> take 16 (insert_entry f (tab g 16)) = tab g 16.
Proof.
  intros H. rewrite <- (app_nil_r (tab g 16)) at 1. rewrite insert_entry_app by (apply Forall_tab; exact H).
  pose proof (length_tab g 16 ltac:(lia)). rewrite take_app_length' by lia. done.
Qed.

Lemma ordered_tab g i j : ordered (tab g 16) -> 0 <= i <= j -> j < 16 -> (g i).1 <= (g j).1.
Proof.
  intros [Hs _] Hi Hj. destruct (Z.eq_dec i j) as [->|]; [lia|]. rewrite (tab_split g i ltac:(lia)) in Hs.
  apply StronglySorted_app_1_r in Hs. inversion Hs as [|? ? _ Hf]; subst.
  pose proof (Forall_aget _ _ (j - (i + 1)) (g j) Hf) as H. cbv beta in H. apply H. rewrite aget_tab by lia. do 2 f_equal. lia.
Qed.

(** The decision tree compares the feature with the neighbours of its result. *)
Lemma find_position_spec low f : let p := find_position low f in
  p = -1 /\ low 15 <= f \/ 0 <= p <= 15 /\ f < low p /\ (p = 0 \/ low (p - 1) <= f).
Proof.
  unfold find_position.
  repeat match goal with |- context [if ?a <? ?b then _ else _] => destruct (Z.ltb_spec a b) end; cbn [Z.sub Z.add Z.opp Z.pos_sub Pos.pred_double];
    first [right; split; [lia|]; split; [done|]; first [by left | right; assumption] | left; done].
Qed.

(** The arrays while the entries from the end down to [16 - k] have moved up. *)
Definition raised (c k : Z) (s0 s : list Z * list Z) : Prop :=
  memory_sized s /\
  (forall i, i <= 16 * c + 15 - k \/ 16 * c + 16 <= i -> znth s.1 i = znth s0.1 i /\ znth s.2 i = znth s0.2 i) /\
  (forall i, 16 * c + 15 - k < i <= 16 * c + 15 -> znth s.1 i = znth s0.1 (i - 1) /\ znth s.2 i = znth s0.2 (i - 1)).

Lemma insert_loop c p s0 : memory_sized s0 -> 0 <= c < 6 -> 0 <= p <= 15 ->
  for_loop (insert_step (16 * c)) 0 (Z.to_nat (15 - p)) s0 ⤳ raised c (15 - p) s0.
Proof.
  intros Hs Hc Hp. destruct (for_loop_inv (fun k => raised c k s0) (insert_step (16 * c)) 0 (Z.to_nat (15 - p)) s0) as (s & -> & H).
  - split_and!; [done|done|]. intros i Hi. lia.
  - intros k [age low] Hk ([H1 H2] & Hsame & Hmoved). cbn [fst snd] in *. unfold insert_step. cbv zeta.
    rewrite (aget_znth low) by lia. cbn [mbind option_bind]. store_at low (16 * c + (15 - k)) (znth low (16 * c + (15 - k) - 1)).
    rewrite (aget_znth age) by lia. cbn [mbind option_bind]. store_at age (16 * c + (15 - k)) (znth age (16 * c + (15 - k) - 1)).
    eexists. split; [done|]. destruct (Hsame (16 * c + (15 - k) - 1) ltac:(lia)) as [E1 E2].
    split_and!; [done| |]; cbn [fst snd]; intros i Hi; rewrite Hz, Hz0; destruct (Z.eqb_spec i (16 * c + (15 - k))).
    + lia.
    + apply Hsame. lia.
    + subst i. done.
    + apply Hmoved. lia.
  - rewrite Z2Nat.id, Z.add_0_l in H by lia. by apply result_ret.
Qed.

Lemma insertion c f s : memory_sized s -> 0 <= c < 6 -> ordered (entries_of c s) ->
  insert_value (16 * c) (find_position (fun j => znth s.2 (16 * c + j)) f) f s ⤳ (fun s' =>
    memory_sized s' /\ others_same c s s' /\ entries_of c s' = take 16 (insert_entry f (entries_of c s))).
Proof.
  intros Hs Hc Hord. pose proof (find_position_spec (fun j => znth s.2 (16 * c + j)) f) as Hspec. cbv beta zeta in Hspec.
  set (p := find_position _ f) in *. clearbody p. unfold insert_value.
  assert (Hmono : forall i j, 0 <= i <= j -> j < 16 -> znth s.2 (16 * c + i) <= znth s.2 (16 * c + j)).
  { intros i j Hi Hj. apply (ordered_tab _ i j Hord Hi Hj). }
  destruct Hspec as [[-> Hle]|(Hp & Hlt & Hprev)]; cbn [Z.gtb Z.compare].
  - apply result_ret. split; [done|]. split; [done|]. symmetry. apply insert_none. intros j Hj. cbn [fst].
    specialize (Hmono j 15 ltac:(lia) ltac:(lia)). lia.
  - destruct (Z.gtb_spec p (-1)); [|lia]. eapply result_bind; [by apply (insert_loop c p)|].
    intros [age low] ([H1 H2] & Hsame & Hmoved). cbn [fst snd] in *. store_at low (16 * c + p) f. store_at age (16 * c + p) 1.
    apply result_ret. split; [done|]. split.
    + intros k Hk. cbn [fst snd]. rewrite Hz, Hz0. destruct (Z.eqb_spec k (16 * c + p)); [lia|]. apply Hsame. lia.
    + unfold entries_of at 2. rewrite (insert_tab f _ p); [|lia| |exact Hlt].
      * apply tab_ext. intros j Hj. cbn [fst snd]. rewrite Hz, Hz0.
        destruct (Z.eqb_spec (16 * c + j) (16 * c + p)), (Z.ltb_spec j p), (Z.eqb_spec j p); try lia; [done| |].
        -- destruct (Hsame (16 * c + j) ltac:(lia)) as [-> ->]. done.
        -- destruct (Hmoved (16 * c + j) ltac:(lia)) as [-> ->]. replace (16 * c + j - 1) with (16 * c + (j - 1)) by lia. done.
      * intros j Hj. cbn [fst]. destruct Hprev as [->|Hprev]; [lia|]. specialize (Hmono j (p - 1) ltac:(lia) ltac:(lia)). lia.
Qed.

(** ** The whole function *)

Definition memory (self : VadInstT) : list Z * list Z := (index_vector self, low_value_vector self).
Definition entries (self : VadInstT) (c : Z) : list (Z * Z) := entries_of c (memory self).

(** The value that the mean of a channel follows: the median of the five smallest
    values, the smallest one in the first frames, a constant before. *)
Definition median_of (counter : Z) (l : list (Z * Z)) : Z :=
  if counter >? 2 then fst (default filler (l !! 2%nat)) else if counter >? 0 then fst (default filler (l !! 0%nat)) else 1600.

Definition memory_ok (self : VadInstT) : Prop := forall c, 0 <= c < 6 ->
  ordered (entries self c) /\ 0 <= znth (mean_value self) c <= 10000.

Lemma aget_store l l' i x : aset l i x = Some l' -> forall k, znth l' k = if k =? i then x else znth l k.
Proof. intros E k. unfold znth. rewrite (aget_aset _ _ _ _ _ E). by destruct (k =? i). Qed.

Lemma ordered_bounds l k : ordered l -> 0 <= fst (default filler (l !! k)) <= 10000.
Proof.
  intros [_ Hb]. destruct (l !! k) as [e|] eqn:E; [|cbn; lia]. exact (Forall_lookup_1 _ _ _ _ Hb E).
Qed.

Lemma entries_lookup s c k : (k < 16)%nat -> fst (default filler (entries_of c s !! k)) = znth s.2 (16 * c + Z.of_nat k).
Proof.
  intros Hk. unfold entries_of. rewrite <- aget_nat, aget_tab by lia. done.
Qed.

(** The smoothing stays between the two numbers it averages. *)
Lemma smoothing_between a m x : 0 <= a <= 32767 -> 0 <= m <= 10000 -> 0 <= x <= 10000 ->
  Z.min m x <= i16 (Z.shiftr (i32 (i32 (i32 ((a + 1) * m) + i32 ((32767 - a) * x)) + 16384)) 15) <= Z.max m x.
Proof.
  intros Ha Hm Hx. assert (H1 : 0 <= (a + 1) * m <= 327680000) by nia. assert (H2 : 0 <= (32767 - a) * x <= 327670000) by nia.
  rewrite (i32_id ((a + 1) * m)), (i32_id ((32767 - a) * x)) by (unfold in_i32; lia).
  rewrite (i32_id ((a + 1) * m + _)), i32_id by (unfold in_i32; lia).
  rewrite Z.shiftr_div_pow2 by lia. change (2 ^ 15) with 32768.
  assert (H : Z.min m x * 32768 <= (a + 1) * m + (32767 - a) * x <= Z.max m x * 32768) by nia.
  rewrite i16_id by (unfold in_i16; dlia). dlia.
Qed.

(** C22. The two arrays of the minimum search implement the abstract memory: a call turns the
    entries of its channel into [remember feature_value entries] - the entries that have been
    there for a hundred frames expire, the feature takes its place in the order, the largest of
    seventeen is dropped - and leaves the other channels alone, although the vectors of all channels share one array.
    The entries of every channel stay in ascending order, and the result lies
    between the previous mean and the current median of the smallest values. *)
Theorem find_minimum_refines self f c : sized self -> memory_ok self -> feature_ok f -> 0 <= c < 6 ->
  WebRtcVad_FindMinimum self f c ⤳ (fun '(self', m) =>
    entries self' c = remember f (entries self c) /\
    (forall c', 0 <= c' < 6 -> c' <> c -> entries self' c' = entries self c' /\ znth (mean_value self') c' = znth (mean_value self) c') /\
    memory_ok self' /\ m = znth (mean_value self') c /\
    let median := median_of (frame_counter self) (entries self' c) in
    Z.min (znth (mean_value self) c) median <= m <= Z.max (znth (mean_value self) c) median).
Proof.
  intros [Hnm Hsm Hns Hss Ha Hl Hmv] Hok Hf Hc. unfold WebRtcVad_FindMinimum, find_minimum, kNumChannels.
  rewrite Z.shiftl_mul_pow2 by lia. change (2 ^ 4) with 16. rewrite (Z.mul_comm c 16). cbv zeta.
  destruct (Z.ltb_spec c 6); [|lia]. cbn [c_assert mbind option_bind]. unfold feature_ok in Hf.
  destruct (Hok c Hc) as [Hord Hmean].
  eapply result_bind; [by apply (ageing _ _ c (memory self))|]. intros [age1 low1] (S1 & O1 & E1).
  assert (Hord1 : ordered (entries_of c (age1, low1))) by (rewrite E1; apply ordered_expire, Hord).
  eapply result_bind; [exact (insertion c f (age1, low1) S1 Hc Hord1)|]. intros [age low] ([S2 S2'] & O2 & E2). cbn [fst snd] in S2, S2'.
  assert (E : entries_of c (age, low) = remember f (entries self c)) by (rewrite E2, E1; done). clear E1 E2.
  assert (Hord2 : ordered (entries_of c (age, low))) by (rewrite E; apply ordered_remember; [lia|exact Hord]).
  eapply (result_bind _ _ (eq (median_of (frame_counter self) (entries_of c (age, low))))).
  { unfold median_of. destruct (frame_counter self >? 2); [|destruct (frame_counter self >? 0)]; [| |by apply result_ret].
    - rewrite aget_znth by lia. apply result_ret. by rewrite entries_lookup by lia.
    - rewrite aget_znth by lia. apply result_ret. rewrite entries_lookup by lia. f_equal. lia. }
  intros median <-. rewrite (aget_znth (mean_value self)) by lia. cbn [mbind option_bind].
  set (median := median_of (frame_counter self) (entries_of c (age, low))).
  assert (Hmed : 0 <= median <= 10000).
  { unfold median, median_of. destruct (_ >? 2); [by apply ordered_bounds|]. destruct (_ >? 0); [by apply ordered_bounds|lia]. }
  set (alpha := if frame_counter self >? 0 then _ else 0).
  assert (Halpha : 0 <= alpha <= 32767). { unfold alpha, kSmoothingDown, kSmoothingUp. destruct (_ >? 0); [destruct (_ <? _)|]; lia. }
  pose proof (smoothing_between alpha _ _ Halpha Hmean Hmed) as Hb. change WEBRTC_SPL_WORD16_MAX with 32767.
  match type of Hb with _ <= ?v <= _ => set (m := v) in * end. clearbody m.
  destruct (aset (mean_value self) c m) as [mv|] eqn:Emv; [|rewrite aset_Some in Emv by lia; done]. cbn [mbind option_bind].
  pose proof (aget_store _ _ _ _ Emv) as Hstore.
  assert (Hother : forall c', 0 <= c' < 6 -> c' <> c -> entries_of c' (age, low) = entries self c' /\ znth mv c' = znth (mean_value self) c').
  { intros c' Hc' Hne. split.
    - apply tab_ext. intros j Hj. destruct (O2 (16 * c' + j) ltac:(lia)) as [-> ->]. destruct (O1 (16 * c' + j) ltac:(lia)) as [-> ->]. done.
    - rewrite Hstore. by destruct (Z.eqb_spec c' c). }
  apply result_ret. split_and!; cbn [fst snd].
  - exact E.
  - exact Hother.
  - intros c' Hc'. change (ordered (entries_of c' (age, low)) /\ 0 <= znth mv c' <= 10000). destruct (Z.eq_dec c' c) as [->|Hne].
    + split; [done|]. rewrite Hstore, Z.eqb_refl. lia.
    + destruct (Hother c' Hc' Hne) as [-> ->]. by apply Hok.
  - change (m = znth mv c). by rewrite Hstore, Z.eqb_refl.
  - apply Hb.
  - apply Hb.
Qed.

Lemma initial_memory : memory_ok initial_state.
Proof.
  intros c Hc. split.
  - channels c; vm_compute; (split; repeat constructor; intros H; discriminate H).
  - channels c; vm_compute; split; discriminate.
Qed.

Lemma find_minimum_refines_witness :
  WebRtcVad_FindMinimum initial_state 500 5 ⤳ (fun '(self', m) =>
    entries self' 5 = remember 500 (entries initial_state 5) /\
    (forall c', 0 <= c' < 6 -> c' <> 5 -> entries self' c' = entries initial_state c' /\ znth (mean_value self') c' = znth (mean_value initial_state) c') /\
    memory_ok self' /\ m = znth (mean_value self') 5 /\
    let median := median_of (frame_counter initial_state) (entries self' 5) in
    Z.min (znth (mean_value initial_state) 5) median <= m <= Z.max (znth (mean_value initial_state) 5) median) /\
  remember 500 (entries initial_state 5) = (500, 1) :: replicate 15 (10000, 1).
Proof.
  split; [|vm_compute; reflexivity]. apply find_minimum_refines.
  - apply initial_wf.
  - exact initial_memory.
  - unfold feature_ok. lia.
  - lia.
Defined.
End VadMinimum.
