(* ===== verification/G711.v ===== *)
(** The speech codecs G.711 and 16-bit PCM, translated from
    modules/audio_coding/codecs: g711/g711.h, g711/g711.c, g711/g711_interface.c and
    pcm16b/pcm16b.c.

    The search for a bit is the portable one of g711.h; the other branches of the conditional
    are assembler for i386 and x86_64. *)

From S2P Require Import Prelude.

Module G711.

(** ** Positions of bits *)

(** A stage of [top_bit]: bits in the mask leave only themselves, and add to the count. *)
Definition top_stage (mask count : Z) (s : Z * Z) : Z * Z :=
  if Z.land s.1 mask =? 0 then s else (Z.land s.1 mask, s.2 + count).
Definition top_bit (bits : Z) : Z :=
  if bits =? 0 then -1
  else (top_stage 2863311530 1 (top_stage 3435973836 2 (top_stage 4042322160 4 (top_stage 4278255360 8 (top_stage 4294901760 16 (bits, 0)))))).2.

Definition bottom_stage (mask count : Z) (s : Z * Z) : Z * Z :=
  if Z.land s.1 mask =? 0 then s else (Z.land s.1 mask, s.2 - count).
Definition bottom_bit (bits : Z) : Z :=
  if bits =? 0 then -1
  else (bottom_stage 1431655765 1 (bottom_stage 858993459 2 (bottom_stage 252645135 4 (bottom_stage 16711935 8 (bottom_stage 65535 16 (bits, 32)))))).2.

(** ** u-law *)

Definition ULAW_BIAS : Z := 132.

Definition linear_to_ulaw (linear : Z) : Z :=
  let (linear, mask) := if linear <? 0 then (i32 (ULAW_BIAS - linear - 1), 127) else (i32 (ULAW_BIAS + linear), 255) in
  let seg := top_bit (u32 (Z.lor linear 255)) - 7 in
  if seg >=? 8 then u8 (Z.lxor 127 mask)
  else u8 (Z.lxor (Z.lor (Z.shiftl seg 4) (Z.land (Z.shiftr linear (seg + 3)) 15)) mask).

Definition ulaw_to_linear (ulaw : Z) : Z :=
  let ulaw := u8 (Z.lnot ulaw) in
  let t := Z.shiftl (Z.shiftl (Z.land ulaw 15) 3 + ULAW_BIAS) (Z.shiftr (Z.land ulaw 112) 4) in
  i16 (if negb (Z.land ulaw 128 =? 0) then ULAW_BIAS - t else t - ULAW_BIAS).

(** ** A-law *)

Definition ALAW_AMI_MASK : Z := 85.

Definition linear_to_alaw (linear : Z) : Z :=
  let (linear, mask) := if linear >=? 0 then (linear, Z.lor ALAW_AMI_MASK 128) else (i32 (- linear - 1), ALAW_AMI_MASK) in
  let seg := top_bit (u32 (Z.lor linear 255)) - 7 in
  if seg >=? 8 then
    if linear >=? 0 then u8 (Z.lxor 127 mask) else u8 (Z.lxor 0 mask)
  else u8 (Z.lxor (Z.lor (Z.shiftl seg 4) (Z.land (Z.shiftr linear (if negb (seg =? 0) then seg + 3 else 4)) 15)) mask).

Definition alaw_to_linear (alaw : Z) : Z :=
  let alaw := Z.lxor alaw ALAW_AMI_MASK in
  let i := Z.shiftl (Z.land alaw 15) 4 in
  let seg := Z.shiftr (Z.land alaw 112) 4 in
  let i := if negb (seg =? 0) then Z.shiftl (i + 264) (seg - 1) else i + 8 in
  i16 (if negb (Z.land alaw 128 =? 0) then i else - i).

(** ** Transcoding *)

Definition ulaw_to_alaw_table : list Z :=
  [42; 43; 40; 41; 46; 47; 44; 45; 34; 35; 32; 33; 38; 39; 36; 37;
   58; 59; 56; 57; 62; 63; 60; 61; 50; 51; 48; 49; 54; 55; 52; 53;
   10; 11; 8; 9; 14; 15; 12; 13; 2; 3; 0; 1; 6; 7; 4; 26;
   27; 24; 25; 30; 31; 28; 29; 18; 19; 16; 17; 22; 23; 20; 21; 106;
   104; 105; 110; 111; 108; 109; 98; 99; 96; 97; 102; 103; 100; 101; 122; 120;
   126; 127; 124; 125; 114; 115; 112; 113; 118; 119; 116; 117; 75; 73; 79; 77;
   66; 67; 64; 65; 70; 71; 68; 69; 90; 91; 88; 89; 94; 95; 92; 93;
   82; 82; 83; 83; 80; 80; 81; 81; 86; 86; 87; 87; 84; 84; 85; 85;
   170; 171; 168; 169; 174; 175; 172; 173; 162; 163; 160; 161; 166; 167; 164; 165;
   186; 187; 184; 185; 190; 191; 188; 189; 178; 179; 176; 177; 182; 183; 180; 181;
   138; 139; 136; 137; 142; 143; 140; 141; 130; 131; 128; 129; 134; 135; 132; 154;
   155; 152; 153; 158; 159; 156; 157; 146; 147; 144; 145; 150; 151; 148; 149; 234;
   232; 233; 238; 239; 236; 237; 226; 227; 224; 225; 230; 231; 228; 229; 250; 248;
   254; 255; 252; 253; 242; 243; 240; 241; 246; 247; 244; 245; 203; 201; 207; 205;
   194; 195; 192; 193; 198; 199; 196; 197; 218; 219; 216; 217; 222; 223; 220; 221;
   210; 210; 211; 211; 208; 208; 209; 209; 214; 214; 215; 215; 212; 212; 213; 213].
Definition alaw_to_ulaw_table : list Z :=
  [42; 43; 40; 41; 46; 47; 44; 45; 34; 35; 32; 33; 38; 39; 36; 37;
   57; 58; 55; 56; 61; 62; 59; 60; 49; 50; 47; 48; 53; 54; 51; 52;
   10; 11; 8; 9; 14; 15; 12; 13; 2; 3; 0; 1; 6; 7; 4; 5;
   26; 27; 24; 25; 30; 31; 28; 29; 18; 19; 16; 17; 22; 23; 20; 21;
   98; 99; 96; 97; 102; 103; 100; 101; 93; 93; 92; 92; 95; 95; 94; 94;
   116; 118; 112; 114; 124; 126; 120; 122; 106; 107; 104; 105; 110; 111; 108; 109;
   72; 73; 70; 71; 76; 77; 74; 75; 64; 65; 63; 63; 68; 69; 66; 67;
   86; 87; 84; 85; 90; 91; 88; 89; 79; 79; 78; 78; 82; 83; 80; 81;
   170; 171; 168; 169; 174; 175; 172; 173; 162; 163; 160; 161; 166; 167; 164; 165;
   185; 186; 183; 184; 189; 190; 187; 188; 177; 178; 175; 176; 181; 182; 179; 180;
   138; 139; 136; 137; 142; 143; 140; 141; 130; 131; 128; 129; 134; 135; 132; 133;
   154; 155; 152; 153; 158; 159; 156; 157; 146; 147; 144; 145; 150; 151; 148; 149;
   226; 227; 224; 225; 230; 231; 228; 229; 221; 221; 220; 220; 223; 223; 222; 222;
   244; 246; 240; 242; 252; 254; 248; 250; 234; 235; 232; 233; 238; 239; 236; 237;
   200; 201; 198; 199; 204; 205; 202; 203; 192; 193; 191; 191; 196; 197; 194; 195;
   214; 215; 212; 213; 218; 219; 216; 217; 207; 207; 206; 206; 210; 211; 208; 209].

Definition alaw_to_ulaw (alaw : Z) : option Z := aget alaw_to_ulaw_table alaw.
Definition ulaw_to_alaw (ulaw : Z) : option Z := aget ulaw_to_alaw_table ulaw.

(** ** Frames *)

(** [for (n = 0; n < len; n++) dst[n] = f(src[n]);] *)
Definition convert (f : Z -> Z) (src : list Z) (len : Z) (dst : list Z) : option (list Z) :=
  for_loop (fun n dst => let* v := aget src n in aset dst n (f v)) 0 (Z.to_nat len) dst.

(** The encoded bytes and the length; the decoders also give the type of speech. *)
Definition WebRtcG711_EncodeA (speechIn : list Z) (len : Z) (encoded : list Z) : option (list Z * Z) :=
  let* encoded := convert linear_to_alaw speechIn len encoded in Some (encoded, len).
Definition WebRtcG711_EncodeU (speechIn : list Z) (len : Z) (encoded : list Z) : option (list Z * Z) :=
  let* encoded := convert linear_to_ulaw speechIn len encoded in Some (encoded, len).
Definition WebRtcG711_DecodeA (encoded : list Z) (len : Z) (decoded : list Z) : option (list Z * Z * Z) :=
  let* decoded := convert alaw_to_linear encoded len decoded in Some (decoded, 1, len).
Definition WebRtcG711_DecodeU (encoded : list Z) (len : Z) (decoded : list Z) : option (list Z * Z * Z) :=
  let* decoded := convert ulaw_to_linear encoded len decoded in Some (decoded, 1, len).

(** [strncpy] of the text 2.0.0 with [lenBytes] as its unsigned count. *)
Definition WebRtcG711_Version (version : list Z) (lenBytes : Z) : option (list Z * Z) :=
  let n := u64 lenBytes in
  if range_ok version 0 n then Some (splice version 0 (tab (fun i => znth [50; 46; 48; 46; 48] i) n), 0) else None.

(** ** 16-bit PCM *)

Definition WebRtcPcm16b_Encode (speech : list Z) (len : Z) (encoded : list Z) : option (list Z * Z) :=
  let* encoded := for_loop (fun i encoded =>
    let* v := aget speech i in
    let s := u16 v in
    let* encoded := aset encoded (2 * i) (u8 (Z.shiftr s 8)) in
    aset encoded (2 * i + 1) (u8 s)) 0 (Z.to_nat len) encoded in
  Some (encoded, 2 * len).

Definition WebRtcPcm16b_Decode (encoded : list Z) (len : Z) (speech : list Z) : option (list Z * Z) :=
  let* speech := for_loop (fun i speech =>
    let* hi := aget encoded (2 * i) in
    let* lo := aget encoded (2 * i + 1) in
    aset speech i (i16 (Z.lor (Z.shiftl hi 8) lo))) 0 (Z.to_nat (len / 2)) speech in
  Some (speech, len / 2).

End G711.
