(* ===== verification/G711Spec.v ===== *)
(** Properties of the codecs of G711.v: the search for a bit, the quantisers of G.711
    against their specification, round trips. *)

From S2P Require Import Prelude G711.

Module G711Spec.
Import G711.

(** ** The search for a bit *)

Section search.
(** [up]: the search goes for the highest bit. *)
Context (up : bool) (bits t : Z).

(** The bits left before the stage of width [2 ^ e]: those of a block of twice the
    width, and the bit that is searched is one of them. *)
Definition in_block (e : Z) (v : Z) : Prop :=
  0 <= v < 4294967296 /\ Z.testbit v t = true /\ forall j, Z.testbit v j = true -> Z.testbit bits j = true /\ j / 2 ^ e = t / 2 ^ e.

(** The mask of a stage has the upper, or the lower, half of each block. *)
Definition mask_ok (mask e : Z) : bool :=
  (0 <=? mask) && (mask <? 4294967296) && all_from (fun j => eqb (Z.testbit mask j) (eqb (Z.testbit j e) up)) 0 32.

Lemma below_32 v j : 0 <= v < 4294967296 -> Z.testbit v j = true -> 0 <= j < 32.
Proof.
  intros Hv Hj. destruct (Z.ltb_spec j 0); [by rewrite Z.testbit_neg_r in Hj|]. destruct (Z.ltb_spec j 32); [lia|].
  rewrite Z.testbit_eqb in Hj by lia. assert (H32 : 2 ^ 32 <= 2 ^ j) by (apply Z.pow_le_mono_r; lia).
  rewrite Z.div_small in Hj by lia. done.
Qed.

Lemma mask_bit mask e j : mask_ok mask e = true -> 0 <= j < 32 -> Z.testbit mask j = eqb (Z.testbit j e) up.
Proof.
  unfold mask_ok. rewrite !andb_true_iff. intros [_ H] Hj. pose proof (all_from_spec _ _ _ H j ltac:(lia)) as Hb. cbv beta in Hb. by apply eqb_prop.
Qed.

End search.

Lemma land_below_32 v mask : 0 <= v < 4294967296 -> Z.land v mask < 4294967296.
Proof.
  intros Hv. assert (E : v = Z.land v (Z.ones 32)) by (rewrite Z.land_ones, Z.mod_small by lia; done).
  rewrite E, (Z.land_comm v), <- Z.land_assoc, Z.land_comm, Z.land_ones by lia. apply Z.mod_pos_bound. lia.
Qed.

(** In a block of indices the bit [e] orders the halves, and fixes the half. *)
Lemma halves e i j : 0 <= e -> j / 2 ^ (e + 1) = i / 2 ^ (e + 1) ->
  (Z.testbit j e = true -> Z.testbit i e = false -> i < j) /\ (Z.testbit j e = Z.testbit i e -> j / 2 ^ e = i / 2 ^ e).
Proof.
  intros He. rewrite !Z.testbit_odd, !Z.shiftr_div_pow2 by lia. rewrite !Z.pow_add_r, <- !Z.div_div by lia. change (2 ^ 1) with 2.
  assert (0 < 2 ^ e) by (apply Z.pow_pos_nonneg; lia). pose proof (Z.div_le_mono j i (2 ^ e)) as Hm.
  set (a := j / 2 ^ e) in *. set (b := i / 2 ^ e) in *. pose proof (Z.div2_odd a) as Ha. pose proof (Z.div2_odd b) as Hb. rewrite !Z.div2_div in *.
  intros Hq. split; [intros Hj Hi; rewrite Hj in Ha; rewrite Hi in Hb; cbn [Z.b2z] in *; destruct (Z.ltb_spec i j); lia|].
  intros E. rewrite E in Ha. lia.
Qed.

Section stages.
Context (up : bool) (bits t : Z).
Hypothesis (t_extreme : forall j, Z.testbit bits j = true -> if up then j <= t else t <= j).

Lemma stage_bits v mask e j : 0 <= e -> mask_ok up mask e = true -> in_block bits t (e + 1) v ->
  Z.testbit (Z.land v mask) j = Z.testbit v j && eqb (Z.testbit j e) up /\
  (Z.testbit v j = true -> eqb (Z.testbit j e) up = true -> eqb (Z.testbit t e) up = true).
Proof.
  intros He Hm (Hv & Ht & Hb). rewrite Z.land_spec. split.
  - destruct (Z.testbit v j) eqn:Ej; [|done]. by rewrite (mask_bit _ _ _ _ Hm (below_32 _ _ Hv Ej)).
  - intros Ej Hj. destruct (Hb j Ej) as [Hj1 Hj2]. pose proof (t_extreme j Hj1) as Hx. apply eqb_prop in Hj. destruct (Z.testbit t e) eqn:Et, up; try done.
    + destruct (halves e j t He ltac:(done)) as [H _]. specialize (H Et Hj). lia.
    + destruct (halves e t j He Hj2) as [H _]. specialize (H Hj Et). lia.
Qed.

(** A stage: the test is for the bit [e] of the index, and halves the block. *)
Lemma stage_ok v mask e : 0 <= e -> mask_ok up mask e = true -> in_block bits t (e + 1) v ->
  (Z.land v mask =? 0) = negb (eqb (Z.testbit t e) up) /\ in_block bits t e (if Z.land v mask =? 0 then v else Z.land v mask).
Proof.
  intros He Hm Hin. pose proof (fun j => stage_bits v mask e j He Hm Hin) as Hs. destruct Hin as (Hv & Ht & Hb).
  assert (E : (Z.land v mask =? 0) = negb (eqb (Z.testbit t e) up)).
  { destruct (eqb (Z.testbit t e) up) eqn:Et; cbn [negb].
    - apply Z.eqb_neq. intros E. pose proof (proj1 (Hs t)) as H. by rewrite E, Z.bits_0, Ht, Et in H.
    - apply Z.eqb_eq. apply Z.bits_inj'. intros j Hj. rewrite Z.bits_0, (proj1 (Hs j)). destruct (Z.testbit v j) eqn:Ej; [|done].
      destruct (eqb (Z.testbit j e) up) eqn:Eu; [|done]. pose proof (proj2 (Hs j) Ej Eu). congruence. }
  split; [exact E|]. assert (Hh : forall j, Z.testbit v j = true -> eqb (Z.testbit j e) up = eqb (Z.testbit t e) up -> Z.testbit bits j = true /\ j / 2 ^ e = t / 2 ^ e).
  { intros j Ej Hj. destruct (Hb j Ej) as [H1 H2]. split; [done|]. apply (halves e t j He H2). destruct (Z.testbit j e), (Z.testbit t e), up; done. }
  rewrite E. destruct (eqb (Z.testbit t e) up) eqn:Et; cbn [negb].
  - split_and!; [apply Z.land_nonneg; lia| |by rewrite (proj1 (Hs t)), Ht, Et|].
    + apply land_below_32. lia.
    + intros j. rewrite (proj1 (Hs j)). intros Hj. apply andb_true_iff in Hj as [H1 H2]. apply Hh; [done|]. by rewrite H2.
  - split_and!; try lia; [done|]. intros j Ej. apply Hh; [done|]. destruct (eqb (Z.testbit j e) up) eqn:Eu; [|done].
    pose proof (proj2 (Hs j) Ej Eu). congruence.
Qed.
End stages.


Lemma first_block bits t : 0 <= bits < 4294967296 -> 0 <= t < 32 -> Z.testbit bits t = true -> in_block bits t 5 bits.
Proof.
  intros Hb Ht Hbit. split; [done|]. split; [done|]. intros j Hj. split; [done|]. pose proof (below_32 _ _ Hb Hj). by rewrite !Z.div_small by lia.
Qed.

Lemma top_stage_ok bits t mask e s : (forall j, Z.testbit bits j = true -> j <= t) -> 0 <= e -> mask_ok true mask e = true -> in_block bits t (e + 1) s.1 ->
  in_block bits t e (top_stage mask (2 ^ e) s).1 /\ (top_stage mask (2 ^ e) s).2 = s.2 + (if Z.testbit t e then 2 ^ e else 0).
Proof.
  intros Hx He Hm Hin. destruct (stage_ok true bits t Hx s.1 mask e He Hm Hin) as [E Hb]. unfold top_stage. rewrite E in *.
  destruct (Z.testbit t e); cbn [eqb negb fst snd] in *; (split; [done|lia]).
Qed.

Lemma bottom_stage_ok bits t mask e s : (forall j, Z.testbit bits j = true -> t <= j) -> 0 <= e -> mask_ok false mask e = true -> in_block bits t (e + 1) s.1 ->
  in_block bits t e (bottom_stage mask (2 ^ e) s).1 /\ (bottom_stage mask (2 ^ e) s).2 = s.2 - (if Z.testbit t e then 0 else 2 ^ e).
Proof.
  intros Hx He Hm Hin. destruct (stage_ok false bits t Hx s.1 mask e He Hm Hin) as [E Hb]. unfold bottom_stage. rewrite E in *.
  destruct (Z.testbit t e); cbn [eqb negb fst snd] in *; (split; [done|lia]).
Qed.

Lemma bits_of_32 : all_from (fun t => let b e v := if Z.testbit t e then v else 0 in let c e v := if Z.testbit t e then 0 else v in
  (0 + b 4 16 + b 3 8 + b 2 4 + b 1 2 + b 0 1 =? t) && (32 - c 4 16 - c 3 8 - c 2 4 - c 1 2 - c 0 1 =? t + 1)) 0 32 = true.
Proof. vm_compute. reflexivity. Qed.

Lemma top_bit_highest bits t : 0 <= bits < 4294967296 -> Z.testbit bits t = true -> (forall j, Z.testbit bits j = true -> j <= t) -> top_bit bits = t.
Proof.
  intros Hb Ht Hx. pose proof (below_32 _ _ Hb Ht) as Hr. unfold top_bit. destruct (Z.eqb_spec bits 0) as [->|]; [by rewrite Z.bits_0 in Ht|].
  destruct (top_stage_ok bits t 4294901760 4 (bits, 0) Hx ltac:(lia) ltac:(done) (first_block _ _ Hb Hr Ht)) as [B4 E4]. change (2 ^ 4) with 16 in B4, E4.
  destruct (top_stage_ok bits t 4278255360 3 _ Hx ltac:(lia) ltac:(done) B4) as [B3 E3]. change (2 ^ 3) with 8 in B3, E3.
  destruct (top_stage_ok bits t 4042322160 2 _ Hx ltac:(lia) ltac:(done) B3) as [B2 E2]. change (2 ^ 2) with 4 in B2, E2.
  destruct (top_stage_ok bits t 3435973836 1 _ Hx ltac:(lia) ltac:(done) B2) as [B1 E1]. change (2 ^ 1) with 2 in B1, E1.
  destruct (top_stage_ok bits t 2863311530 0 _ Hx ltac:(lia) ltac:(done) B1) as [_ E0]. change (2 ^ 0) with 1 in E0.
  rewrite E0, E1, E2, E3, E4. pose proof (all_from_spec _ _ _ bits_of_32 t ltac:(lia)) as H. cbv beta zeta in H. cbn [snd]. apply andb_true_iff in H as [H1 H2]. apply Z.eqb_eq in H1, H2. lia.
Qed.

Lemma top_bit_log2 bits : 0 < bits < 4294967296 -> top_bit bits = Z.log2 bits.
Proof.
  intros Hb. apply top_bit_highest; [lia|apply Z.bit_log2; lia|]. intros j Hj. destruct (Z.leb_spec j (Z.log2 bits)); [done|].
  rewrite Z.bits_above_log2 in Hj by lia. done.
Qed.

(** The portable search for the lowest bit counts from one. *)
Lemma bottom_bit_lowest bits t : 0 <= bits < 4294967296 -> Z.testbit bits t = true -> (forall j, Z.testbit bits j = true -> t <= j) -> bottom_bit bits = t + 1.
Proof.
  intros Hb Ht Hx. pose proof (below_32 _ _ Hb Ht) as Hr. unfold bottom_bit. destruct (Z.eqb_spec bits 0) as [->|]; [by rewrite Z.bits_0 in Ht|].
  destruct (bottom_stage_ok bits t 65535 4 (bits, 32) Hx ltac:(lia) ltac:(done) (first_block _ _ Hb Hr Ht)) as [B4 E4]. change (2 ^ 4) with 16 in B4, E4.
  destruct (bottom_stage_ok bits t 16711935 3 _ Hx ltac:(lia) ltac:(done) B4) as [B3 E3]. change (2 ^ 3) with 8 in B3, E3.
  destruct (bottom_stage_ok bits t 252645135 2 _ Hx ltac:(lia) ltac:(done) B3) as [B2 E2]. change (2 ^ 2) with 4 in B2, E2.
  destruct (bottom_stage_ok bits t 858993459 1 _ Hx ltac:(lia) ltac:(done) B2) as [B1 E1]. change (2 ^ 1) with 2 in B1, E1.
  destruct (bottom_stage_ok bits t 1431655765 0 _ Hx ltac:(lia) ltac:(done) B1) as [_ E0]. change (2 ^ 0) with 1 in E0.
  rewrite E0, E1, E2, E3, E4. pose proof (all_from_spec _ _ _ bits_of_32 t ltac:(lia)) as H. cbv beta zeta in H. cbn [snd]. apply andb_true_iff in H as [H1 H2]. apply Z.eqb_eq in H1, H2. lia.
Qed.

(** ** The quantisers *)

(** The middle of the interval that keeps the five leading bits of [m]. *)
Definition midpoint (m : Z) : Z := let s := Z.log2 m - 4 in (2 * (m / 2 ^ s) + 1) * 2 ^ (s - 1).

(** The levels of A-law: uniform below [256]. *)
Definition alaw_level (m : Z) : Z := if m <? 256 then 16 * (m / 16) + 8 else midpoint m.

Lemma segment m : 32 <= m -> exists s, 1 <= s /\ Z.log2 m = s + 4 /\ midpoint m = (2 * (m / 2 ^ s) + 1) * 2 ^ (s - 1) /\
  2 ^ s = 2 * 2 ^ (s - 1) /\ 0 < 2 ^ (s - 1) /\ 16 * 2 ^ s <= m < 32 * 2 ^ s /\ 2 ^ s * (m / 2 ^ s) <= m < 2 ^ s * (m / 2 ^ s) + 2 ^ s.
Proof.
  intros Hm. assert (H5 : 5 <= Z.log2 m) by (change 5 with (Z.log2 32); apply Z.log2_le_mono; lia).
  exists (Z.log2 m - 4). pose proof (Z.log2_spec m ltac:(lia)) as H. set (s := Z.log2 m - 4) in *.
  replace (Z.log2 m) with (4 + s) in H by (unfold s; lia). replace (Z.succ (4 + s)) with (5 + s) in H by lia. rewrite !Z.pow_add_r in H by (unfold s; lia).
  assert (Hs : 2 ^ s = 2 * 2 ^ (s - 1)) by (replace s with (1 + (s - 1)) at 1 by lia; rewrite Z.pow_add_r by (unfold s; lia); done).
  assert (Hp : 0 < 2 ^ (s - 1)) by (apply Z.pow_pos_nonneg; unfold s; lia). pose proof (Z.div_mod m (2 ^ s) ltac:(lia)). pose proof (Z.mod_pos_bound m (2 ^ s) ltac:(lia)).
  split_and!; try lia; done.
Qed.

Lemma midpoint_error m : 32 <= m -> 32 * (midpoint m - m) <= m /\ 32 * (m + 1 - midpoint m) <= m.
Proof. intros Hm. destruct (segment m Hm) as (s & _ & _ & -> & E & Hp & H1 & H2). rewrite E in *. set (q := m / _) in *. clearbody q. nia. Qed.

Lemma midpoint_mono m m' : 32 <= m <= m' -> midpoint m <= midpoint m'.
Proof.
  intros Hm. pose proof (Z.log2_le_mono m m' ltac:(lia)) as Hlog.
  destruct (segment m ltac:(lia)) as (s & S1 & L & -> & E & Hp & H1 & H2). destruct (segment m' ltac:(lia)) as (s' & S1' & L' & -> & E' & Hp' & H1' & H2').
  destruct (Z.eq_dec s s') as [<-|Hne].
  - pose proof (Z.div_le_mono m m' (2 ^ s) ltac:(lia) ltac:(lia)). nia.
  - assert (Hd : 2 * 2 ^ s <= 2 ^ s').
    { change 2 with (2 ^ 1) at 1. rewrite <- Z.pow_add_r by lia. apply Z.pow_le_mono_r; lia. }
    assert (m / 2 ^ s < 32) by (apply Z.div_lt_upper_bound; lia). assert (16 <= m' / 2 ^ s') by (apply Z.div_le_lower_bound; lia). nia.
Qed.

Lemma alaw_level_error m : 0 <= m -> 32 * (alaw_level m - m) <= Z.max m 256 /\ 32 * (m + 1 - alaw_level m) <= Z.max m 256.
Proof. intros Hm. unfold alaw_level. destruct (Z.ltb_spec m 256); [split; dlia|]. pose proof (midpoint_error m ltac:(lia)). lia. Qed.

Lemma alaw_level_mono m m' : 0 <= m <= m' -> alaw_level m <= alaw_level m'.
Proof.
  intros Hm. unfold alaw_level. destruct (Z.ltb_spec m 256), (Z.ltb_spec m' 256); [dlia| |lia|apply midpoint_mono; lia].
  apply Z.le_trans with (midpoint 256); [change (midpoint 256) with 264; dlia|apply midpoint_mono; lia].
Qed.

(** The segment that the encoders compute. *)
Lemma code_segment m : 0 <= m < 65536 -> top_bit (u32 (Z.lor m 255)) - 7 = Z.max (Z.log2 m) 7 - 7.
Proof.
  intros Hm. pose proof (Z.log2_lor m 255 ltac:(lia) ltac:(lia)) as E. change (Z.log2 255) with 7 in E.
  assert (Hn : Z.lor m 255 <> 0) by (intros H; apply Z.lor_eq_0_iff in H; lia).
  assert (H0 : 0 <= Z.lor m 255) by (apply Z.lor_nonneg; lia).
  assert (Hl : Z.log2 m < 16) by (destruct (Z.eq_dec m 0) as [->|]; [done|]; apply Z.log2_lt_pow2; lia).
  assert (H : Z.lor m 255 < 65536) by (change 65536 with (2 ^ 16); apply Z.log2_lt_pow2; lia).
  rewrite u32_id by (unfold in_u32; lia). rewrite top_bit_log2 by lia. lia.
Qed.

(** The four bits after the leading one. *)
Lemma interval_bits m s : 0 <= s -> 16 * 2 ^ s <= m < 32 * 2 ^ s -> Z.land (Z.shiftr m s) 15 = m / 2 ^ s - 16 /\ 0 <= m / 2 ^ s - 16 < 16.
Proof.
  intros Hs Hm. assert (Hp : 0 < 2 ^ s) by (apply Z.pow_pos_nonneg; lia). rewrite Z.shiftr_div_pow2 by lia. change 15 with (Z.ones 4). rewrite Z.land_ones by lia. change (2 ^ 4) with 16.
  assert (m / 2 ^ s < 32) by (apply Z.div_lt_upper_bound; lia). assert (16 <= m / 2 ^ s) by (apply Z.div_le_lower_bound; lia).
  set (q := m / 2 ^ s) in *. clearbody q. split; [dlia|lia].
Qed.

Lemma codes_check : all_from (fun seg => all_from (fun q =>
  let c := Z.lor (Z.shiftl seg 4) q in let u := (8 * q + 132) * 2 ^ seg - 132 in
  let a := if seg =? 0 then 16 * q + 8 else (16 * q + 264) * 2 ^ (seg - 1) in
  (ulaw_to_linear (u8 (Z.lxor c 255)) =? u) && (ulaw_to_linear (u8 (Z.lxor c 127)) =? - u) &&
  (alaw_to_linear (u8 (Z.lxor c 213)) =? a) && (alaw_to_linear (u8 (Z.lxor c 85)) =? - a)) 0 16) 0 8 = true.
Proof. vm_compute. reflexivity. Qed.

(** The samples of the codes. *)
Lemma code_samples seg q : 0 <= seg < 8 -> 0 <= q < 16 -> let c := Z.lor (Z.shiftl seg 4) q in
  let u := (8 * q + 132) * 2 ^ seg - 132 in let a := if seg =? 0 then 16 * q + 8 else (16 * q + 264) * 2 ^ (seg - 1) in
  ulaw_to_linear (u8 (Z.lxor c 255)) = u /\ ulaw_to_linear (u8 (Z.lxor c 127)) = - u /\
  alaw_to_linear (u8 (Z.lxor c 213)) = a /\ alaw_to_linear (u8 (Z.lxor c 85)) = - a.
Proof.
  intros Hs Hq. pose proof (all_from_spec _ _ _ codes_check seg ltac:(lia)) as H. cbv beta in H.
  pose proof (all_from_spec _ _ _ H q ltac:(lia)) as H'. cbv beta zeta in H'. rewrite !andb_true_iff, !Z.eqb_eq in H'. destruct H' as [[[H1 H2] H3] H4]. done.
Qed.

(** Magnitude of a sample as the encoders take it. *)
Definition ulaw_magnitude (v : Z) : Z := if v <? 0 then 131 - v else 132 + v.
Definition alaw_magnitude (v : Z) : Z := if v <? 0 then - v - 1 else v.

Definition signed (v l : Z) : Z := if v <? 0 then - l else l.

Lemma ulaw_quantiser v : in_i16 v -> ulaw_to_linear (linear_to_ulaw v) = signed v (midpoint (Z.min (ulaw_magnitude v) 32767) - 132).
Proof.
  intros Hv. unfold in_i16 in Hv. set (m := ulaw_magnitude v). assert (Hm : 131 <= m <= 32899) by (unfold m, ulaw_magnitude; destruct (Z.ltb_spec v 0); lia).
  assert (E : linear_to_ulaw v = (let seg := top_bit (u32 (Z.lor m 255)) - 7 in let mask := if v <? 0 then 127 else 255 in
    if seg >=? 8 then u8 (Z.lxor 127 mask) else u8 (Z.lxor (Z.lor (Z.shiftl seg 4) (Z.land (Z.shiftr m (seg + 3)) 15)) mask))).
  { unfold linear_to_ulaw, ULAW_BIAS, m, ulaw_magnitude. destruct (Z.ltb_spec v 0).
    - replace (132 - v - 1) with (131 - v) by lia. by rewrite i32_id by (unfold in_i32; lia).
    - by rewrite i32_id by (unfold in_i32; lia). }
  rewrite E. clear E. rewrite code_segment by lia. cbv zeta. destruct (segment m ltac:(lia)) as (s & Hs & L & Emid & E2 & Hp & Hb & _).
  destruct (Z.leb_spec m 32767) as [Hle|Hgt].
  - assert (Hlog : 7 <= Z.log2 m < 15) by (split; [change 7 with (Z.log2 128); apply Z.log2_le_mono; lia|apply Z.log2_lt_pow2; lia]).
    replace (Z.max (Z.log2 m) 7 - 7) with (s - 3) by lia. destruct (Z.geb_spec (s - 3) 8); [lia|]. replace (s - 3 + 3) with s by lia.
    destruct (interval_bits m s ltac:(lia) Hb) as [-> Hq]. destruct (code_samples (s - 3) _ ltac:(lia) Hq) as (U1 & U2 & _). rewrite Z.min_l by lia. rewrite Emid.
    assert (Ev : (8 * (m / 2 ^ s - 16) + 132) * 2 ^ (s - 3) = (2 * (m / 2 ^ s) + 1) * 2 ^ (s - 1)).
    { replace (s - 1) with (2 + (s - 3)) by lia. rewrite Z.pow_add_r by lia. change (2 ^ 2) with 4. lia. }
    unfold signed. destruct (v <? 0); [rewrite U2|rewrite U1]; lia.
  - assert (Hlog : Z.log2 m = 15) by (apply Z.log2_unique; lia). rewrite Hlog. rewrite Z.min_r by lia. unfold signed. by destruct (v <? 0).
Qed.

Lemma alaw_quantiser v : in_i16 v -> alaw_to_linear (linear_to_alaw v) = signed v (alaw_level (alaw_magnitude v)).
Proof.
  intros Hv. unfold in_i16 in Hv. set (m := alaw_magnitude v). assert (Hm : 0 <= m <= 32767) by (unfold m, alaw_magnitude; destruct (Z.ltb_spec v 0); lia).
  assert (Hlog : Z.log2 m < 15) by (destruct (Z.eq_dec m 0) as [->|]; [done|]; apply Z.log2_lt_pow2; lia).
  assert (E : linear_to_alaw v = (let seg := Z.max (Z.log2 m) 7 - 7 in let mask := if v <? 0 then 85 else 213 in
    u8 (Z.lxor (Z.lor (Z.shiftl seg 4) (Z.land (Z.shiftr m (if negb (seg =? 0) then seg + 3 else 4)) 15)) mask))).
  { unfold linear_to_alaw, ALAW_AMI_MASK. rewrite Z.geb_leb. unfold m, alaw_magnitude in *. destruct (Z.ltb_spec v 0), (Z.leb_spec 0 v); try lia; cbv zeta.
    - rewrite i32_id by (unfold in_i32; lia). rewrite code_segment by lia. destruct (Z.geb_spec (Z.max (Z.log2 (- v - 1)) 7 - 7) 8); [lia|done].
    - rewrite code_segment by lia. destruct (Z.geb_spec (Z.max (Z.log2 v) 7 - 7) 8); [lia|done]. }
  rewrite E. clear E. cbv zeta. unfold alaw_level. destruct (Z.ltb_spec m 256) as [H256|H256].
  - assert (Z.log2 m < 8) by (destruct (Z.eq_dec m 0) as [->|]; [done|]; apply Z.log2_lt_pow2; lia).
    replace (Z.max (Z.log2 m) 7 - 7) with 0 by lia. cbn [Z.eqb negb].
    assert (Hq : Z.land (Z.shiftr m 4) 15 = m / 16 /\ 0 <= m / 16 < 16).
    { rewrite Z.shiftr_div_pow2 by lia. change 15 with (Z.ones 4). rewrite Z.land_ones by lia. change (2 ^ 4) with 16. split; dlia. }
    destruct Hq as [-> Hq]. destruct (code_samples 0 _ ltac:(lia) Hq) as (_ & _ & A1 & A2). cbn [Z.eqb] in A1, A2.
    unfold signed. destruct (v <? 0); [exact A2|exact A1].
  - destruct (segment m ltac:(lia)) as (s & Hs & L & Emid & E2 & Hp & Hb & _). assert (8 <= Z.log2 m) by (change 8 with (Z.log2 256); apply Z.log2_le_mono; lia).
    replace (Z.max (Z.log2 m) 7 - 7) with (s - 3) by lia. destruct (Z.eqb_spec (s - 3) 0); [lia|]. cbn [negb]. replace (s - 3 + 3) with s by lia.
    destruct (interval_bits m s ltac:(lia) Hb) as [-> Hq]. destruct (code_samples (s - 3) _ ltac:(lia) Hq) as (_ & _ & A1 & A2). rewrite Emid.
    destruct (Z.eqb_spec (s - 3) 0); [lia|].
    assert (Ev : (16 * (m / 2 ^ s - 16) + 264) * 2 ^ (s - 3 - 1) = (2 * (m / 2 ^ s) + 1) * 2 ^ (s - 1)).
    { replace (s - 1) with (3 + (s - 3 - 1)) by lia. rewrite Z.pow_add_r by lia. change (2 ^ 3) with 8. lia. }
    unfold signed. destruct (v <? 0); [rewrite A2|rewrite A1]; lia.
Qed.

(** C17. The error of the companding codecs over every 16-bit sample: u-law gives it back
    within one part in 32 of its magnitude plus the bias, A-law within one part in 32 of its
    magnitude or eight units; and both codecs keep the order of samples. *)
Theorem companding_error v : in_i16 v ->
  32 * Z.abs (ulaw_to_linear (linear_to_ulaw v) - v) <= Z.abs v + 132 /\
  32 * Z.abs (alaw_to_linear (linear_to_alaw v) - v) <= Z.max (Z.abs v) 256 /\
  (forall v', in_i16 v' -> v <= v' ->
    ulaw_to_linear (linear_to_ulaw v) <= ulaw_to_linear (linear_to_ulaw v') /\
    alaw_to_linear (linear_to_alaw v) <= alaw_to_linear (linear_to_alaw v')).
Proof.
  intros Hv. rewrite ulaw_quantiser, alaw_quantiser by done. unfold signed, ulaw_magnitude, alaw_magnitude. split_and!.
  - unfold in_i16 in Hv. set (m := if v <? 0 then 131 - v else 132 + v). assert (Hm : 131 <= m <= 32899) by (unfold m; destruct (Z.ltb_spec v 0); lia).
    destruct (Z.leb_spec m 32767).
    + rewrite Z.min_l by lia. pose proof (midpoint_error m ltac:(lia)). unfold m in *. destruct (Z.ltb_spec v 0); lia.
    + rewrite Z.min_r by lia. change (midpoint 32767) with 32256. unfold m in *. destruct (Z.ltb_spec v 0); lia.
  - unfold in_i16 in Hv. destruct (Z.ltb_spec v 0); [pose proof (alaw_level_error (- v - 1) ltac:(lia))|pose proof (alaw_level_error v ltac:(lia))]; lia.
  - intros v' Hv' Hle. rewrite ulaw_quantiser, alaw_quantiser by done. unfold signed, ulaw_magnitude, alaw_magnitude, in_i16 in *.
    assert (M : forall m m', 131 <= m <= m' -> midpoint (Z.min m 32767) <= midpoint (Z.min m' 32767)) by (intros; apply midpoint_mono; lia).
    assert (P : forall m, 131 <= m -> 132 <= midpoint (Z.min m 32767)) by (intros m Hm; change 132 with (midpoint 131); apply midpoint_mono; lia).
    assert (Q : forall m, 0 <= m -> 8 <= alaw_level m) by (intros m Hm; change 8 with (alaw_level 0); apply alaw_level_mono; lia).
    destruct (Z.ltb_spec v 0), (Z.ltb_spec v' 0); try lia.
    + pose proof (M (131 - v') (131 - v) ltac:(lia)). pose proof (alaw_level_mono (- v' - 1) (- v - 1) ltac:(lia)). lia.
    + pose proof (P (131 - v) ltac:(lia)). pose proof (P (132 + v') ltac:(lia)). pose proof (Q (- v - 1) ltac:(lia)). pose proof (Q v' ltac:(lia)). lia.
    + pose proof (M (132 + v) (132 + v') ltac:(lia)). pose proof (alaw_level_mono v v' ltac:(lia)). lia.
Qed.

Lemma companding_error_witness : in_i16 (-1000) /\
  32 * Z.abs (ulaw_to_linear (linear_to_ulaw (-1000)) - -1000) <= Z.abs (-1000) + 132 /\
  32 * Z.abs (alaw_to_linear (linear_to_alaw (-1000)) - -1000) <= Z.max (Z.abs (-1000)) 256 /\
  (forall v', in_i16 v' -> -1000 <= v' ->
    ulaw_to_linear (linear_to_ulaw (-1000)) <= ulaw_to_linear (linear_to_ulaw v') /\
    alaw_to_linear (linear_to_alaw (-1000)) <= alaw_to_linear (linear_to_alaw v')).
Proof. split; [unfold in_i16; lia|]. apply (companding_error (-1000)). unfold in_i16. lia. Defined.

(** ** Frames *)

Lemma convert_ok f src len dst : 0 <= len <= zlen src -> len <= zlen dst ->
  convert f src len dst = Some (tab (fun i => f (znth src i)) len ++ drop (Z.to_nat len) dst).
Proof.
  intros Hs Hd. apply fill_loop; [lia|]. intros i l' Hi _ _. by rewrite (aget_znth src i) by lia.
Qed.

Lemma tab_zlen l f : (forall i, 0 <= i < zlen l -> f i = znth l i) -> tab f (zlen l) = l.
Proof. intros H. apply tab_list. intros i x Hx. rewrite H by (by eapply aget_Some_range). by apply znth_aget. Qed.

Lemma bytes_check : all_from (fun c => (linear_to_ulaw (ulaw_to_linear c) =? (if c =? 127 then 255 else c)) && (linear_to_alaw (alaw_to_linear c) =? c)) 0 256 = true.
Proof. vm_compute. reflexivity. Qed.

Lemma byte_survives c : in_u8 c -> linear_to_ulaw (ulaw_to_linear c) = (if c =? 127 then 255 else c) /\ linear_to_alaw (alaw_to_linear c) = c.
Proof. intros Hc. unfold in_u8 in Hc. pose proof (all_from_spec _ _ _ bytes_check c ltac:(lia)) as H. cbv beta in H. by rewrite andb_true_iff, !Z.eqb_eq in H. Qed.

Lemma znth_front f n l i : 0 <= i < n -> znth (tab f n ++ l) i = f i.
Proof. intros Hi. apply znth_aget. rewrite aget_app by lia. rewrite length_tab by lia. destruct (Z.ltb_spec i n); [|lia]. by apply aget_tab. Qed.

(** C20. Codes survive: what the decoders of G.711 make of any packet is encoded to the
    same packet again, except that u-law has two codes of zero, and 127 comes back as 255; the
    decoded samples have 16 bits, and the decoders report speech and as many samples as bytes. *)
Theorem g711_codes_survive encoded decoded buffer : Forall in_u8 encoded -> zlen encoded <= zlen decoded -> zlen encoded <= zlen buffer ->
  (exists speech, WebRtcG711_DecodeA encoded (zlen encoded) decoded = Some (speech, 1, zlen encoded) /\
    Forall in_i16 (take (length encoded) speech) /\
    WebRtcG711_EncodeA speech (zlen encoded) buffer = Some (encoded ++ drop (length encoded) buffer, zlen encoded)) /\
  (exists speech, WebRtcG711_DecodeU encoded (zlen encoded) decoded = Some (speech, 1, zlen encoded) /\
    Forall in_i16 (take (length encoded) speech) /\
    WebRtcG711_EncodeU speech (zlen encoded) buffer =
      Some (((fun c => if c =? 127 then 255 else c) <$> encoded) ++ drop (length encoded) buffer, zlen encoded)).
Proof.
  intros Hb Hd Hbuf. assert (Hc : forall i, 0 <= i < zlen encoded -> in_u8 (znth encoded i)).
  { intros i Hi. apply (Forall_aget in_u8 encoded i _ Hb). by apply aget_znth. }
  assert (Hl : forall f : Z -> Z, length (tab f (zlen encoded)) = length encoded) by (intros f; pose proof (length_tab f (zlen encoded)); lia).
  split; eexists; unfold WebRtcG711_DecodeA, WebRtcG711_DecodeU, WebRtcG711_EncodeA, WebRtcG711_EncodeU;
    (rewrite convert_ok by lia; cbn [mbind option_bind]; split; [reflexivity|]);
    (split; [rewrite take_app_le by (rewrite Hl; lia); rewrite take_ge by (rewrite Hl; lia); apply Forall_tab; intros; apply i16_range|]);
    rewrite convert_ok by (rewrite ?length_app, ?Hl; lia); cbn [mbind option_bind]; rewrite Nat2Z.id; do 3 f_equal.
  - apply tab_zlen. intros i Hi. rewrite znth_front by done. by apply byte_survives, Hc.
  - apply list_ext; [by rewrite Hl, length_fmap|]. intros i Hi. rewrite Hl in Hi. rewrite aget_tab by lia. rewrite znth_front by lia.
    rewrite (proj1 (byte_survives _ (Hc i ltac:(lia)))). unfold aget. destruct (Z.leb_spec 0 i); [|lia]. rewrite list_lookup_fmap.
    pose proof (aget_znth encoded i ltac:(lia)) as E. unfold aget in E. destruct (Z.leb_spec 0 i); [|lia]. by rewrite E.
Qed.

Lemma g711_codes_survive_witness : Forall in_u8 [0; 127; 255] /\
  (exists speech, WebRtcG711_DecodeA [0; 127; 255] 3 [0; 0; 0; 9] = Some (speech, 1, 3) /\ Forall in_i16 (take 3 speech) /\
    WebRtcG711_EncodeA speech 3 [0; 0; 0] = Some ([0; 127; 255], 3)) /\
  (exists speech, WebRtcG711_DecodeU [0; 127; 255] 3 [0; 0; 0; 9] = Some (speech, 1, 3) /\ Forall in_i16 (take 3 speech) /\
    WebRtcG711_EncodeU speech 3 [0; 0; 0] = Some ([0; 255; 255], 3)).
Proof.
  assert (H : Forall in_u8 [0; 127; 255]) by (repeat first [apply Forall_nil_2|apply Forall_cons_2; [unfold in_u8; lia|]]).
  split; [exact H|]. apply (g711_codes_survive [0; 127; 255] [0; 0; 0; 9] [0; 0; 0] H); cbn; lia.
Defined.

(** ** 16-bit PCM *)

(** The next entry of a list that is filled from its front. *)
Lemma store_next (f : Z -> Z) p l : 0 <= p < zlen l ->
  aset (tab f p ++ drop (Z.to_nat p) l) p (f p) = Some (tab f (p + 1) ++ drop (Z.to_nat (p + 1)) l).
Proof.
  intros Hp. pose proof (length_tab f p ltac:(lia)) as Hl. destruct (aget_range l p Hp) as [y Hy]. unfold aget in Hy. destruct (Z.leb_spec 0 p); [|lia].
  rewrite aset_Some by (rewrite length_app, length_drop; lia). rewrite (drop_S _ _ _ Hy). rewrite insert_app_r_alt by lia.
  replace (Z.to_nat p - length (tab f p))%nat with 0%nat by lia. cbn. rewrite tab_app, tab_1, Z.add_0_r, <- app_assoc by lia.
  by replace (Z.to_nat (p + 1)) with (S (Z.to_nat p)) by lia.
Qed.

(** Byte [k] of the samples, most significant byte first. *)
Definition pcm_byte (speech : list Z) (k : Z) : Z :=
  let s := u16 (znth speech (k / 2)) in if k mod 2 =? 0 then u8 (Z.shiftr s 8) else u8 s.
Definition pcm_sample (encoded : list Z) (i : Z) : Z := i16 (Z.lor (Z.shiftl (znth encoded (2 * i)) 8) (znth encoded (2 * i + 1))).

Lemma Pcm16b_Encode_ok speech len encoded : 0 <= len <= zlen speech -> 2 * len <= zlen encoded ->
  WebRtcPcm16b_Encode speech len encoded = Some (tab (pcm_byte speech) (2 * len) ++ drop (Z.to_nat (2 * len)) encoded, 2 * len).
Proof.
  intros Hs He. unfold WebRtcPcm16b_Encode. set (body := fun i encoded => _).
  destruct (for_loop_inv (fun i l => l = tab (pcm_byte speech) (2 * i) ++ drop (Z.to_nat (2 * i)) encoded) body 0 (Z.to_nat len) encoded) as (l & E & ->).
  - done.
  - intros i l Hi ->. unfold body. rewrite (aget_znth speech i) by lia. cbn [mbind option_bind].
    assert (E0 : u8 (Z.shiftr (u16 (znth speech i)) 8) = pcm_byte speech (2 * i)).
    { unfold pcm_byte. cbv zeta. replace (2 * i / 2) with i by dlia. by replace (2 * i mod 2) with 0 by dlia. }
    assert (E1 : u8 (u16 (znth speech i)) = pcm_byte speech (2 * i + 1)).
    { unfold pcm_byte. cbv zeta. replace ((2 * i + 1) / 2) with i by dlia. by replace ((2 * i + 1) mod 2) with 1 by dlia. }
    rewrite E0, E1, store_next by lia. cbn [mbind option_bind]. rewrite store_next by lia. eexists. split; [done|].
    by replace (2 * i + 1 + 1) with (2 * (i + 1)) by lia.
  - rewrite E. cbn [mbind option_bind]. by rewrite Z.add_0_l, Z2Nat.id by lia.
Qed.

Lemma Pcm16b_Decode_ok encoded len speech : 0 <= len <= zlen encoded -> len / 2 <= zlen speech ->
  WebRtcPcm16b_Decode encoded len speech = Some (tab (pcm_sample encoded) (len / 2) ++ drop (Z.to_nat (len / 2)) speech, len / 2).
Proof.
  intros He Hs. assert (Hlen : 0 <= len / 2 /\ 2 * (len / 2) <= len) by dlia. unfold WebRtcPcm16b_Decode. rewrite (fill_loop _ (pcm_sample encoded)); [done|lia|].
  intros i l' Hi _ _. by rewrite (aget_znth encoded (2 * i)), (aget_znth encoded (2 * i + 1)) by lia.
Qed.

Lemma pcm_split hi lo : in_u8 hi -> in_u8 lo -> Z.lor (Z.shiftl hi 8) lo = 256 * hi + lo.
Proof.
  intros Hh Hl. unfold in_u8 in *. rewrite Z.shiftl_mul_pow2 by lia. rewrite (lor_disjoint 8); [lia|lia| |lia].
  by rewrite Z.mod_mul.
Qed.

Lemma pcm_bytes speech i : 0 <= i -> in_i16 (znth speech i) ->
  256 * pcm_byte speech (2 * i) + pcm_byte speech (2 * i + 1) = u16 (znth speech i) /\ in_u8 (pcm_byte speech (2 * i)) /\ in_u8 (pcm_byte speech (2 * i + 1)).
Proof.
  intros Hi Hv. unfold pcm_byte. cbv zeta. replace (2 * i / 2) with i by dlia. replace (2 * i mod 2) with 0 by dlia.
  replace ((2 * i + 1) / 2) with i by dlia. replace ((2 * i + 1) mod 2) with 1 by dlia. cbn [Z.eqb].
  pose proof (u16_range (znth speech i)) as Hu. unfold in_u16 in Hu. set (s := u16 (znth speech i)) in *. clearbody s.
  rewrite Z.shiftr_div_pow2 by lia. change (2 ^ 8) with 256. unfold u8, in_u8. rewrite (Z.mod_small (s / 256)) by dlia. dlia.
Qed.

Lemma i16_u16 v : in_i16 v -> i16 (u16 v) = v.
Proof. intros Hv. unfold i16, u16, in_i16 in *. dlia. Qed.

(** Linear 16-bit samples come back as they were, and so do packets of a whole number
    of samples: decoding the bytes of any samples gives the samples, and encoding what a packet
    is decoded to gives the packet, in buffers at least as long. *)
Theorem pcm16b_roundtrip speech encoded bytes samples : Forall in_i16 speech -> Forall in_u8 bytes ->
  2 * zlen speech <= zlen encoded -> zlen speech <= zlen samples -> zlen bytes mod 2 = 0 -> zlen bytes <= zlen encoded -> zlen bytes / 2 <= zlen samples ->
  (exists packet, WebRtcPcm16b_Encode speech (zlen speech) encoded = Some (packet, 2 * zlen speech) /\
    WebRtcPcm16b_Decode packet (2 * zlen speech) samples = Some (speech ++ drop (length speech) samples, zlen speech)) /\
  (exists sound, WebRtcPcm16b_Decode bytes (zlen bytes) samples = Some (sound, zlen bytes / 2) /\
    WebRtcPcm16b_Encode sound (zlen bytes / 2) encoded = Some (bytes ++ drop (length bytes) encoded, zlen bytes)).
Proof.
  intros Hs Hb Hse Hss Hev Hbe Hbs. split; eexists.
  - rewrite Pcm16b_Encode_ok by lia. split; [done|]. set (packet := _ ++ _).
    assert (Hp : 2 * zlen speech <= zlen packet) by (unfold packet; rewrite length_app; pose proof (length_tab (pcm_byte speech) (2 * zlen speech)); lia).
    replace (2 * zlen speech) with (zlen speech * 2) in * by lia. rewrite Pcm16b_Decode_ok by (rewrite ?Z.div_mul by lia; lia). rewrite Z.div_mul, Nat2Z.id by lia. do 3 f_equal.
    apply tab_zlen. intros i Hi. assert (Hv : in_i16 (znth speech i)) by (apply (Forall_aget in_i16 speech i _ Hs); by apply aget_znth).
    destruct (pcm_bytes speech i ltac:(lia) Hv) as (E & H1 & H2). unfold pcm_sample, packet. rewrite !znth_front by lia.
    rewrite pcm_split, E by done. by apply i16_u16.
  - rewrite Pcm16b_Decode_ok by lia. split; [done|]. set (sound := _ ++ _).
    assert (Hp : zlen bytes / 2 <= zlen sound) by (unfold sound; rewrite length_app; pose proof (length_tab (pcm_sample bytes) (zlen bytes / 2)); dlia).
    assert (E2 : 2 * (zlen bytes / 2) = zlen bytes) by dlia. rewrite Pcm16b_Encode_ok by dlia. rewrite E2, Nat2Z.id. do 3 f_equal.
    apply tab_zlen. intros k Hk. assert (Hc : forall i, 0 <= i < zlen bytes -> in_u8 (znth bytes i)) by (intros i Hi; apply (Forall_aget in_u8 bytes i _ Hb); by apply aget_znth).
    unfold pcm_byte, sound. cbv zeta. rewrite znth_front by dlia. unfold pcm_sample. rewrite pcm_split by (apply Hc; dlia).
    pose proof (Hc (2 * (k / 2)) ltac:(dlia)) as H1. pose proof (Hc (2 * (k / 2) + 1) ltac:(dlia)) as H2.
    set (hi := znth bytes (2 * (k / 2))) in *. set (lo := znth bytes (2 * (k / 2) + 1)) in *. unfold in_u8 in *.
    assert (E : u16 (i16 (256 * hi + lo)) = 256 * hi + lo) by (clearbody hi lo; unfold u16, i16; dlia). rewrite E.
    rewrite Z.shiftr_div_pow2 by lia. change (2 ^ 8) with 256. destruct (Z.eqb_spec (k mod 2) 0).
    + replace k with (2 * (k / 2)) by dlia. fold hi. clearbody hi lo. unfold u8. dlia.
    + replace k with (2 * (k / 2) + 1) by dlia. fold lo. clearbody hi lo. unfold u8. dlia.
Qed.

Lemma pcm16b_roundtrip_witness : Forall in_i16 [-2; 513] /\ Forall in_u8 [128; 0; 1; 2] /\
  (exists packet, WebRtcPcm16b_Encode [-2; 513] 2 [0; 0; 0; 0; 7] = Some (packet, 4) /\ WebRtcPcm16b_Decode packet 4 [0; 0] = Some ([-2; 513], 2)) /\
  (exists sound, WebRtcPcm16b_Decode [128; 0; 1; 2] 4 [0; 0] = Some (sound, 2) /\ WebRtcPcm16b_Encode sound 2 [0; 0; 0; 0; 7] = Some ([128; 0; 1; 2; 7], 4)).
Proof.
  assert (H1 : Forall in_i16 [-2; 513]) by forall_i16.
  assert (H2 : Forall in_u8 [128; 0; 1; 2]) by (repeat first [apply Forall_nil_2|apply Forall_cons_2; [unfold in_u8; lia|]]).
  split; [exact H1|]. split; [exact H2|]. apply (pcm16b_roundtrip [-2; 513] [0; 0; 0; 0; 7] [128; 0; 1; 2] [0; 0] H1 H2); vm_compute; done.
Defined.

(** An odd byte at the end of a packet is not decoded. *)
Lemma pcm16b_odd_byte bytes b samples : zlen bytes mod 2 = 0 -> zlen bytes / 2 <= zlen samples ->
  WebRtcPcm16b_Decode (bytes ++ [b]) (zlen (bytes ++ [b])) samples = WebRtcPcm16b_Decode bytes (zlen bytes) samples.
Proof.
  intros Hev Hs. assert (El : zlen (bytes ++ [b]) = zlen bytes + 1) by (rewrite length_app; cbn [length]; lia). rewrite El.
  assert (Ed : (zlen bytes + 1) / 2 = zlen bytes / 2) by dlia.
  rewrite !Pcm16b_Decode_ok by dlia. rewrite Ed. do 3 f_equal. apply tab_ext. intros i Hi. unfold pcm_sample.
  assert (E : forall k, 0 <= k < zlen bytes -> znth (bytes ++ [b]) k = znth bytes k).
  { intros k Hk. unfold znth. rewrite aget_app by lia. destruct (Z.ltb_spec k (zlen bytes)); [done|lia]. }
  by rewrite !E by dlia.
Qed.

(** ** Transcoding *)

Definition transcoded (table : Z -> option Z) (from to : Z -> Z) (bound : Z -> Z) (code : Z) : bool :=
  match table code with
  | Some code' => let v := from code in let v' := to code' in
      (0 <=? code') && (code' <=? 255) && (32 * Z.abs (v' - v) <=? bound (Z.abs v)) && (0 <=? v * v')
  | None => false
  end.

Lemma transcoded_spec table from to bound code : transcoded table from to bound code = true ->
  exists code', table code = Some code' /\ in_u8 code' /\ 32 * Z.abs (to code' - from code) <= bound (Z.abs (from code)) /\ 0 <= from code * to code'.
Proof.
  unfold transcoded. destruct (table code) as [code'|]; [|done]. cbv zeta. rewrite !andb_true_iff, !Z.leb_le. intros [[[H1 H2] H3] H4].
  exists code'. by split_and!.
Qed.

Lemma tables_check : all_from (fun c => transcoded alaw_to_ulaw alaw_to_linear ulaw_to_linear (fun v => v + 132) c &&
  transcoded ulaw_to_alaw ulaw_to_linear alaw_to_linear (fun v => Z.max v 256) c) 0 256 = true.
Proof. vm_compute. reflexivity. Qed.

(** Transcoding is as good as coding: for every byte the table of either direction has
    a code, whose sample has the sign of the sample of the byte, and is as close to it as the
    encoder of that law promises for a sample of that magnitude. *)
Theorem transcoding_error code : in_u8 code ->
  (exists ulaw, alaw_to_ulaw code = Some ulaw /\ in_u8 ulaw /\
    32 * Z.abs (ulaw_to_linear ulaw - alaw_to_linear code) <= Z.abs (alaw_to_linear code) + 132 /\ 0 <= alaw_to_linear code * ulaw_to_linear ulaw) /\
  (exists alaw, ulaw_to_alaw code = Some alaw /\ in_u8 alaw /\
    32 * Z.abs (alaw_to_linear alaw - ulaw_to_linear code) <= Z.max (Z.abs (ulaw_to_linear code)) 256 /\ 0 <= ulaw_to_linear code * alaw_to_linear alaw).
Proof.
  intros Hc. unfold in_u8 in Hc. pose proof (all_from_spec _ _ _ tables_check code ltac:(lia)) as H. cbv beta in H. apply andb_true_iff in H as [HA HU].
  split; [exact (transcoded_spec _ _ _ _ _ HA)|exact (transcoded_spec _ _ _ _ _ HU)].
Qed.

Lemma transcoding_error_witness : in_u8 5 /\
  (exists ulaw, alaw_to_ulaw 5 = Some ulaw /\ in_u8 ulaw /\
    32 * Z.abs (ulaw_to_linear ulaw - alaw_to_linear 5) <= Z.abs (alaw_to_linear 5) + 132 /\ 0 <= alaw_to_linear 5 * ulaw_to_linear ulaw) /\
  (exists alaw, ulaw_to_alaw 5 = Some alaw /\ in_u8 alaw /\
    32 * Z.abs (alaw_to_linear alaw - ulaw_to_linear 5) <= Z.max (Z.abs (ulaw_to_linear 5)) 256 /\ 0 <= ulaw_to_linear 5 * alaw_to_linear alaw).
Proof. split; [unfold in_u8; lia|]. apply (transcoding_error 5). unfold in_u8. lia. Defined.

(** The tables do not go back and forth: the A-law code 5 comes back as 26, its level's
    neighbour. *)
Lemma transcoding_not_inverse : (let* u := alaw_to_ulaw 5 in ulaw_to_alaw u) = Some 26.
Proof. reflexivity. Qed.

(** The version has no terminating zero in a buffer of up to five bytes. *)
Lemma version_unterminated version : zlen version = 5 -> WebRtcG711_Version version 5 = Some ([50; 46; 48; 46; 48], 0).
Proof.
  intros Hl. unfold WebRtcG711_Version. change (u64 5) with 5. cbv zeta. unfold range_ok. rewrite Hl. cbn [Z.leb andb Z.compare Z.add Pos.add Pos.succ Pos.compare Pos.compare_cont].
  do 5 (destruct version as [|? version]; [done|]). destruct version; [done|]. cbn [length] in Hl. lia.
Qed.
End G711Spec.
