(* ===== verification/G722.v ===== *)
(** The speech codec G.722, translated from modules/audio_coding/codecs/g722:
    g722_encode.c, g722_decode.c and g722_interface.c.

    Every expression of type [int] goes through the argument [w] of the section:
    with [i32] the definitions are the code, with the identity the same
    computation over unbounded integers.  The tables are read with [aget], so that an index
    outside a table is [None]; the arrays of a band, which are read at constant indices, are
    lists of their length. *)

From S2P Require Import Prelude.

Module G722.

(** ** Tables *)

Definition q6 : list Z :=
  [0; 35; 72; 110; 150; 190; 233; 276; 323; 370; 422; 473; 530; 587; 650; 714;
   786; 858; 940; 1023; 1121; 1219; 1339; 1458; 1612; 1765; 1980; 2195; 2557; 2919; 0; 0].
Definition iln : list Z :=
  [0; 63; 62; 31; 30; 29; 28; 27; 26; 25; 24; 23; 22; 21; 20; 19;
   18; 17; 16; 15; 14; 13; 12; 11; 10; 9; 8; 7; 6; 5; 4; 0].
Definition ilp : list Z :=
  [0; 61; 60; 59; 58; 57; 56; 55; 54; 53; 52; 51; 50; 49; 48; 47;
   46; 45; 44; 43; 42; 41; 40; 39; 38; 37; 36; 35; 34; 33; 32; 0].
Definition wl : list Z := [-60; -30; 58; 172; 334; 538; 1198; 3042].
Definition rl42 : list Z := [0; 7; 6; 5; 4; 3; 2; 1; 7; 6; 5; 4; 3; 2; 1; 0].
Definition ilb : list Z :=
  [2048; 2093; 2139; 2186; 2233; 2282; 2332; 2383; 2435; 2489; 2543; 2599; 2656; 2714; 2774; 2834;
   2896; 2960; 3025; 3091; 3158; 3228; 3298; 3371; 3444; 3520; 3597; 3676; 3756; 3838; 3922; 4008].
Definition qm4 : list Z :=
  [0; -20456; -12896; -8968; -6288; -4240; -2584; -1200; 20456; 12896; 8968; 6288; 4240; 2584; 1200; 0].
Definition qm2 : list Z := [-7408; -1616; 7408; 1616].
Definition qmf_coeffs : list Z := [3; -11; 12; 32; -210; 951; 3876; -805; 362; -156; 53; -11].
Definition ihn : list Z := [0; 1; 0].
Definition ihp : list Z := [0; 3; 2].
Definition wh : list Z := [0; -214; 798].
Definition rh2 : list Z := [2; 1; 2; 1].
Definition qm5 : list Z :=
  [-280; -280; -23352; -17560; -14120; -11664; -9752; -8184; -6864; -5712; -4696; -3784; -2960; -2208; -1520; -880;
   23352; 17560; 14120; 11664; 9752; 8184; 6864; 5712; 4696; 3784; 2960; 2208; 1520; 880; 280; -280].
Definition qm6 : list Z :=
  [-136; -136; -136; -136; -24808; -21904; -19008; -16704; -14984; -13512; -12280; -11192; -10232; -9360; -8576; -7856;
   -7192; -6576; -6000; -5456; -4944; -4464; -4008; -3576; -3168; -2776; -2400; -2032; -1688; -1360; -1040; -728;
   24808; 21904; 19008; 16704; 14984; 13512; 12280; 11192; 10232; 9360; 8576; 7856; 7192; 6576; 6000; 5456;
   4944; 4464; 4008; 3576; 3168; 2776; 2400; 2032; 1688; 1360; 1040; 728; 432; 136; -432; -136].

Definition G722_SAMPLE_RATE_8000 : Z := 1.
Definition G722_PACKED : Z := 2.

(** ** State (g722_enc_dec.h) *)

Record Band := mkBand {
  b_s : Z; b_sp : Z; b_sz : Z;
  b_r : list Z; b_a : list Z; b_ap : list Z; b_p : list Z;
  b_d : list Z; b_b : list Z; b_bp : list Z; b_sg : list Z;
  b_nb : Z; b_det : Z }.

Record G722EncoderState := mkG722 {
  itu_test_mode : Z; packed : Z; eight_k : Z; bits_per_sample : Z;
  x : list Z; band0 : Band; band1 : Band;
  in_buffer : Z; in_bits : Z; out_buffer : Z; out_bits : Z }.
#[export] Instance rebuild_G722 : Rebuild G722EncoderState := fun r =>
  mkG722 (itu_test_mode r) (packed r) (eight_k r) (bits_per_sample r) (x r) (band0 r) (band1 r)
    (in_buffer r) (in_bits r) (out_buffer r) (out_bits r).

(** The decoder's state has the members of the encoder's. *)
Definition G722DecoderState : Type := G722EncoderState.

Definition saturate (amp : Z) : Z :=
  let amp16 := i16 amp in
  if amp =? amp16 then amp16 else if amp >? 32767 then 32767 else -32768.

(** ** The adaptive predictor *)

Section width.
Context (w : Z -> Z).

Definition uppol2 (a p : list Z) : Z :=
  let sg i := Z.shiftr (znth p i) 15 in
  let wd1 := saturate (w (Z.shiftl (znth a 1) 2)) in
  let wd2 := if sg 0 =? sg 1 then w (- wd1) else wd1 in
  let wd2 := if wd2 >? 32767 then 32767 else wd2 in
  let wd3 := w (Z.shiftr wd2 7 + (if sg 0 =? sg 2 then 128 else -128)) in
  let wd3 := w (wd3 + Z.shiftr (w (znth a 2 * 32512)) 15) in
  if wd3 >? 12288 then 12288 else if wd3 <? -12288 then -12288 else wd3.

(** The decoder adds in another order. *)
Definition decoder_uppol2 (a p : list Z) : Z :=
  let sg i := Z.shiftr (znth p i) 15 in
  let wd1 := saturate (w (Z.shiftl (znth a 1) 2)) in
  let wd2 := if sg 0 =? sg 1 then w (- wd1) else wd1 in
  let wd2 := if wd2 >? 32767 then 32767 else wd2 in
  let wd3 := if sg 0 =? sg 2 then 128 else -128 in
  let wd3 := w (wd3 + Z.shiftr wd2 7) in
  let wd3 := w (wd3 + Z.shiftr (w (znth a 2 * 32512)) 15) in
  if wd3 >? 12288 then 12288 else if wd3 <? -12288 then -12288 else wd3.

Definition uppol1 (a p : list Z) (ap2 : Z) : Z :=
  let sg i := Z.shiftr (znth p i) 15 in
  let wd1 := if sg 0 =? sg 1 then 192 else -192 in
  let wd2 := Z.shiftr (w (znth a 1 * 32640)) 15 in
  let ap1 := saturate (w (wd1 + wd2)) in
  let wd3 := saturate (w (15360 - ap2)) in
  if ap1 >? wd3 then wd3 else if ap1 <? - wd3 then - wd3 else ap1.

(** [sg] and [bp] after the update of the zeros; [d] has the new difference in front. *)
Definition upzero_sg (d : list Z) : list Z := tab (fun i => Z.shiftr (znth d i) 15) 7.
Definition upzero (d b bp : list Z) : list Z :=
  let wd1 := if znth d 0 =? 0 then 0 else 128 in
  tab (fun i =>
    if i =? 0 then znth bp 0 else
    let wd2 := if Z.shiftr (znth d i) 15 =? Z.shiftr (znth d 0) 15 then wd1 else - wd1 in
    let wd3 := Z.shiftr (w (znth b i * 32640)) 15 in
    saturate (w (wd2 + wd3))) 7.

(** [l[i] = l[i - 1]] from the end; the first entry stays. *)
Definition delaya (l : list Z) (n : Z) : list Z := tab (fun i => if i =? 0 then znth l 0 else znth l (i - 1)) n.
(** [l[i] = l'[i]] for the entries behind the first. *)
Definition take_over (l l' : list Z) (n : Z) : list Z := tab (fun i => if i =? 0 then znth l 0 else znth l' i) n.

Definition filtep (a r : list Z) : Z :=
  let wd1 := saturate (w (znth r 1 + znth r 1)) in
  let wd1 := Z.shiftr (w (znth a 1 * wd1)) 15 in
  let wd2 := saturate (w (znth r 2 + znth r 2)) in
  let wd2 := Z.shiftr (w (znth a 2 * wd2)) 15 in
  saturate (w (wd1 + wd2)).

Definition filtez_step (b d : list Z) (sz i : Z) : Z :=
  let wd1 := saturate (w (znth d i + znth d i)) in
  w (sz + Z.shiftr (w (znth b i * wd1)) 15).
Definition filtez (b d : list Z) : Z := saturate (foldl (filtez_step b d) 0 [6; 5; 4; 3; 2; 1]).

(** From the difference [d0]; [uppol2] is that of the encoder or of the decoder. *)
Definition block4_of (uppol2 : list Z -> list Z -> Z) (band : Band) (d0 : Z) : Band :=
  let d := <[0%nat := d0]> (b_d band) in
  let r := <[0%nat := saturate (w (b_s band + d0))]> (b_r band) in
  let p := <[0%nat := saturate (w (b_sz band + d0))]> (b_p band) in
  let ap2 := uppol2 (b_a band) p in
  let ap1 := uppol1 (b_a band) p ap2 in
  let ap := <[1%nat := ap1]> (<[2%nat := ap2]> (b_ap band)) in
  let bp := upzero d (b_b band) (b_bp band) in
  let sg := upzero_sg d in
  let d := delaya d 7 in
  let b := take_over (b_b band) bp 7 in
  let r := delaya r 3 in
  let p := delaya p 3 in
  let a := take_over (b_a band) ap 3 in
  let sp := filtep a r in
  let sz := filtez b d in
  mkBand (saturate (w (sp + sz))) sp sz r a ap p d b bp sg (b_nb band) (b_det band).

Definition block4 : Band -> Z -> Band := block4_of uppol2.
Definition decoder_block4 : Band -> Z -> Band := block4_of decoder_uppol2.

(** ** The adaptive quantiser *)

(** Clipping of the logarithmic scale factor. *)
Definition logscl (nb weight limit : Z) : Z :=
  let nb := w (Z.shiftr (w (nb * 127)) 7 + weight) in
  if nb <? 0 then 0 else if nb >? limit then limit else nb.

(** A shift by a count outside [0 .. 31] is undefined. *)
Definition scale (base nb : Z) : option Z :=
  let wd1 := Z.land (Z.shiftr nb 6) 31 in
  let wd2 := w (base - Z.shiftr nb 11) in
  let* v := aget ilb wd1 in
  let* _ := c_assert ((-32 <? wd2) && (wd2 <? 32)) in
  let wd3 := if wd2 <? 0 then w (Z.shiftl v (- wd2)) else Z.shiftr v wd2 in
  Some (w (Z.shiftl wd3 2)).

Definition set_scale (band : Band) (nb det : Z) : Band :=
  mkBand (b_s band) (b_sp band) (b_sz band) (b_r band) (b_a band) (b_ap band) (b_p band) (b_d band) (b_b band)
    (b_bp band) (b_sg band) nb det.

(** [for (i = 1; i < 30; i++)], ending at the first level above [wd]; [n] turns are
    left. *)
Fixpoint quantl (n : nat) (i wd det : Z) : option Z :=
  match n with
  | O => Some i
  | S n =>
      let* q := aget q6 i in
      if wd <? Z.shiftr (w (q * det)) 12 then Some i else quantl n (i + 1) wd det
  end.

(** The low band of a sample: [ilow] and the band. *)
Definition encode_low (band : Band) (xlow : Z) : option (Z * Band) :=
  let el := saturate (w (xlow - b_s band)) in
  let wd := if el >=? 0 then el else - (el + 1) in
  let* i := quantl 29 1 wd (b_det band) in
  let* ilow := if el <? 0 then aget iln i else aget ilp i in
  let ril := Z.shiftr ilow 2 in
  let* wd2 := aget qm4 ril in
  let dlow := Z.shiftr (w (b_det band * wd2)) 15 in
  let* il4 := aget rl42 ril in
  let* weight := aget wl il4 in
  let nb := logscl (b_nb band) weight 18432 in
  let* det := scale 8 nb in
  Some (ilow, block4 (set_scale band nb det) dlow).

Definition encode_high (band : Band) (xhigh : Z) : option (Z * Band) :=
  let eh := saturate (w (xhigh - b_s band)) in
  let wd := if eh >=? 0 then eh else - (eh + 1) in
  let wd1 := Z.shiftr (w (564 * b_det band)) 12 in
  let mih := if wd >=? wd1 then 2 else 1 in
  let* ihigh := if eh <? 0 then aget ihn mih else aget ihp mih in
  let* wd2 := aget qm2 ihigh in
  let dhigh := Z.shiftr (w (b_det band * wd2)) 15 in
  let* ih2 := aget rh2 ihigh in
  let* weight := aget wh ih2 in
  let nb := logscl (b_nb band) weight 22528 in
  let* det := scale 10 nb in
  Some (ihigh, block4 (set_scale band nb det) dhigh).

(** ** The encoder *)

(** The transmit filter: the even and the odd sum. *)
Definition qmf_step (x : list Z) (s : Z * Z) (i : Z) : Z * Z :=
  (w (s.1 + w (znth x (2 * i + 1) * znth qmf_coeffs (11 - i))), w (s.2 + w (znth x (2 * i) * znth qmf_coeffs i))).
Definition qmf (x : list Z) : Z * Z := foldl (qmf_step x) (0, 0) [0; 1; 2; 3; 4; 5; 6; 7; 8; 9; 10; 11].

(** The history moved down by two. *)
Definition shuffle (x : list Z) (x22 x23 : Z) : list Z := slice x 2 22 ++ [x22; x23].

(** The samples of the bands: the state, [j], [xlow], [xhigh]. *)
Definition split_bands (s : G722EncoderState) (amp : list Z) (j xhigh : Z) : option (G722EncoderState * Z * Z * Z) :=
  if negb (itu_test_mode s =? 0) then
    let* v := aget amp j in
    Some (s, j + 1, Z.shiftr v 1, Z.shiftr v 1)
  else if negb (eight_k s =? 0) then
    let* v := aget amp j in
    Some (s, j + 1, Z.shiftr v 1, xhigh)
  else
    let* x22 := aget amp j in
    let* x23 := aget amp (j + 1) in
    let s := s <| x := shuffle (x s) x22 x23 |> in
    let (sumeven, sumodd) := qmf (x s) in
    Some (s, j + 2, Z.shiftr (w (sumeven + sumodd)) 14, Z.shiftr (w (sumeven - sumodd)) 14).

(** The code of a sample. *)
Definition encode_bands (s : G722EncoderState) (xlow xhigh : Z) : option (Z * G722EncoderState) :=
  let* (ilow, b0) := encode_low (band0 s) xlow in
  let s := s <| band0 := b0 |> in
  if negb (eight_k s =? 0) then Some (Z.shiftr (Z.lor 192 ilow) (8 - bits_per_sample s), s)
  else
    let* (ihigh, b1) := encode_high (band1 s) xhigh in
    Some (Z.shiftr (Z.lor (Z.shiftl ihigh 6) ilow) (8 - bits_per_sample s), s <| band1 := b1 |>).

(** The code put into the output, or into the buffer of bits. *)
Definition emit (s : G722EncoderState) (code : Z) (g722_data : list Z) : G722EncoderState * list Z :=
  if negb (packed s =? 0) then
    let s := s <| out_buffer := Z.lor (out_buffer s) (u32 (Z.shiftl code (out_bits s))) |> in
    let s := s <| out_bits := out_bits s + bits_per_sample s |> in
    if out_bits s >=? 8 then
      let g722_data := g722_data ++ [Z.land (out_buffer s) 255] in
      (s <| out_bits := out_bits s - 8 |> <| out_buffer := Z.shiftr (out_buffer s) 8 |>, g722_data)
    else (s, g722_data)
  else (s, g722_data ++ [Z.land code 255]).

(** The loop over the samples; [xhigh] keeps its value from turn to turn. *)
Fixpoint encode_loop (fuel : nat) (amp : list Z) (len j xhigh : Z) (s : G722EncoderState) (g722_data : list Z)
    : option (list Z * G722EncoderState) :=
  if j <? len then
    match fuel with
    | O => None
    | S fuel =>
        let* (s, j, xlow, xhigh) := split_bands s amp j xhigh in
        let* (code, s) := encode_bands s xlow xhigh in
        let (s, g722_data) := emit s code g722_data in
        encode_loop fuel amp len j xhigh s g722_data
    end
  else Some (g722_data, s).

(** The bytes that are written; their count is the result of the function. *)
Definition WebRtc_g722_encode (s : G722EncoderState) (amp : list Z) (len : Z) : option (list Z * G722EncoderState) :=
  encode_loop (Z.to_nat len) amp len 0 0 s [].

(** ** The decoder *)

(** The next code: the state, [j], the code. *)
Definition next_code (s : G722DecoderState) (g722_data : list Z) (j : Z) : option (G722DecoderState * Z * Z) :=
  if negb (packed s =? 0) then
    let* (s, j) :=
      if in_bits s <? bits_per_sample s then
        let* v := aget g722_data j in
        Some (s <| in_buffer := Z.lor (in_buffer s) (u32 (Z.shiftl v (in_bits s))) |> <| in_bits := in_bits s + 8 |>, j + 1)
      else Some (s, j) in
    let code := Z.land (in_buffer s) (Z.shiftl 1 (bits_per_sample s) - 1) in
    Some (s <| in_buffer := Z.shiftr (in_buffer s) (bits_per_sample s) |> <| in_bits := in_bits s - bits_per_sample s |>, j, code)
  else
    let* v := aget g722_data j in Some (s, j + 1, v).

(** The fields of a code: [wd1], [ihigh] and the level [wd2]. *)
Definition fields (bits code : Z) : option (Z * Z * Z) :=
  match bits with
  | 7 => let wd1 := Z.land code 31 in
         let* wd2 := aget qm5 wd1 in Some (Z.shiftr wd1 1, Z.land (Z.shiftr code 5) 3, wd2)
  | 6 => let wd1 := Z.land code 15 in
         let* wd2 := aget qm4 wd1 in Some (wd1, Z.land (Z.shiftr code 4) 3, wd2)
  | _ => let wd1 := Z.land code 63 in
         let* wd2 := aget qm6 wd1 in Some (Z.shiftr wd1 2, Z.land (Z.shiftr code 6) 3, wd2)
  end.

Definition limit14 (v : Z) : Z := if v >? 16383 then 16383 else if v <? -16384 then -16384 else v.

(** The low band: [rlow] and the band. *)
Definition decode_low (band : Band) (wd1 wd2 : Z) : option (Z * Band) :=
  let wd2 := Z.shiftr (w (b_det band * wd2)) 15 in
  let rlow := limit14 (w (b_s band + wd2)) in
  let* wd2 := aget qm4 wd1 in
  let dlowt := Z.shiftr (w (b_det band * wd2)) 15 in
  let* wd2 := aget rl42 wd1 in
  let* weight := aget wl wd2 in
  let nb := logscl (b_nb band) weight 18432 in
  let* det := scale 8 nb in
  Some (rlow, decoder_block4 (set_scale band nb det) dlowt).

Definition decode_high (band : Band) (ihigh : Z) : option (Z * Band) :=
  let* wd2 := aget qm2 ihigh in
  let dhigh := Z.shiftr (w (b_det band * wd2)) 15 in
  let rhigh := limit14 (w (dhigh + b_s band)) in
  let* wd2 := aget rh2 ihigh in
  let* weight := aget wh wd2 in
  let nb := logscl (b_nb band) weight 22528 in
  let* det := scale 10 nb in
  Some (rhigh, decoder_block4 (set_scale band nb det) dhigh).

(** The samples of a code. *)
Definition join_bands (s : G722DecoderState) (rlow rhigh : Z) (amp : list Z) : G722DecoderState * list Z :=
  if negb (itu_test_mode s =? 0) then (s, amp ++ [i16 (Z.shiftl rlow 1); i16 (Z.shiftl rhigh 1)])
  else if negb (eight_k s =? 0) then (s, amp ++ [i16 (Z.shiftl rlow 1)])
  else
    let s := s <| x := shuffle (x s) (w (rlow + rhigh)) (w (rlow - rhigh)) |> in
    let (xout1, xout2) := qmf (x s) in
    (s, amp ++ [saturate (Z.shiftr xout1 11); saturate (Z.shiftr xout2 11)]).

Definition decode_bands (s : G722DecoderState) (code rhigh : Z) : option (Z * Z * G722DecoderState) :=
  let* (wd1, ihigh, wd2) := fields (bits_per_sample s) code in
  let* (rlow, b0) := decode_low (band0 s) wd1 wd2 in
  let s := s <| band0 := b0 |> in
  if negb (eight_k s =? 0) then Some (rlow, rhigh, s)
  else let* (rhigh, b1) := decode_high (band1 s) ihigh in Some (rlow, rhigh, s <| band1 := b1 |>).

Fixpoint decode_loop (fuel : nat) (g722_data : list Z) (len j rhigh : Z) (s : G722DecoderState) (amp : list Z)
    : option (list Z * G722DecoderState) :=
  if j <? len then
    match fuel with
    | O => None
    | S fuel =>
        let* (s, j, code) := next_code s g722_data j in
        let* (rlow, rhigh, s) := decode_bands s code rhigh in
        let (s, amp) := join_bands s rlow rhigh amp in
        decode_loop fuel g722_data len j rhigh s amp
    end
  else Some (amp, s).

(** A packed buffer can give a code without reading a byte, but not twice in a row. *)
Definition WebRtc_g722_decode (s : G722DecoderState) (g722_data : list Z) (len : Z) : option (list Z * G722DecoderState) :=
  decode_loop (2 * Z.to_nat len + 1) g722_data len 0 0 s [].

End width.

(** ** Initialisation and interface *)

Definition zero_band (det : Z) : Band :=
  mkBand 0 0 0 (zreplicate 3 0) (zreplicate 3 0) (zreplicate 3 0) (zreplicate 3 0) (zreplicate 7 0) (zreplicate 7 0)
    (zreplicate 7 0) (zreplicate 7 0) 0 det.

Definition reset_state (rate options : Z) : G722EncoderState :=
  let bits := if rate =? 48000 then 6 else if rate =? 56000 then 7 else 8 in
  mkG722 0 (if negb (Z.land options G722_PACKED =? 0) && negb (bits =? 8) then 1 else 0)
    (if negb (Z.land options G722_SAMPLE_RATE_8000 =? 0) then 1 else 0) bits
    (zreplicate 24 0) (zero_band 32) (zero_band 8) 0 0 0 0.

(** [memory] is the state, or the outcome of [malloc] when there is none. *)
Definition WebRtc_g722_encode_init (s memory : option G722EncoderState) (rate options : Z) : option G722EncoderState :=
  match s with
  | Some _ => Some (reset_state rate options)
  | None => match memory with Some _ => Some (reset_state rate options) | None => None end
  end.

(** The outer [None] is the use of a null pointer by [memset]. *)
Definition WebRtc_g722_decode_init (s memory : option G722DecoderState) (rate options : Z) : option G722DecoderState :=
  let* _ := match s with Some s => Some s | None => memory end in
  Some (reset_state rate options).

Definition WebRtcG722_CreateEncoder (memory : option G722EncoderState) : Z * option G722EncoderState :=
  match memory with Some _ => (0, memory) | None => (-1, None) end.
(** The pointer is passed by value: memory that the initialisation allocates is lost. *)
Definition WebRtcG722_EncoderInit (G722enc_inst memory : option G722EncoderState) : Z * option G722EncoderState :=
  match WebRtc_g722_encode_init G722enc_inst memory 64000 2 with
  | None => (-1, G722enc_inst)
  | Some s => (0, match G722enc_inst with Some _ => Some s | None => None end)
  end.
Definition WebRtcG722_Encode (G722enc_inst : G722EncoderState) (speechIn : list Z) (len : Z)
    : option (list Z * G722EncoderState) :=
  WebRtc_g722_encode i32 G722enc_inst speechIn len.

Definition WebRtcG722_CreateDecoder (memory : option G722DecoderState) : Z * option G722DecoderState :=
  match memory with Some _ => (0, memory) | None => (-1, None) end.
Definition WebRtcG722_DecoderInit (inst memory : option G722DecoderState) : option (option G722DecoderState) :=
  let* s := WebRtc_g722_decode_init inst memory 64000 2 in
  Some (match inst with Some _ => Some s | None => None end).
Definition G722_WEBRTC_SPEECH : Z := 1.
(** The samples, the type of speech, the state. *)
Definition WebRtcG722_Decode (G722dec_inst : G722DecoderState) (encoded : list Z) (len : Z)
    : option (list Z * Z * G722DecoderState) :=
  let* (decoded, s) := WebRtc_g722_decode i32 G722dec_inst encoded len in
  Some (decoded, G722_WEBRTC_SPEECH, s).

(** [free] gives the memory back; the result is zero. *)
Definition WebRtc_g722_encode_release (s : option G722EncoderState) : Z := 0.
Definition WebRtc_g722_decode_release (s : option G722DecoderState) : Z := 0.
Definition WebRtcG722_FreeEncoder (G722enc_inst : option G722EncoderState) : Z := WebRtc_g722_encode_release G722enc_inst.
Definition WebRtcG722_FreeDecoder (G722dec_inst : option G722DecoderState) : Z := WebRtc_g722_decode_release G722dec_inst.

(** The text 2.0.0 with a new line and a zero; [len] is compared as an unsigned number. *)
Definition WebRtcG722_Version (versionStr : list Z) (len : Z) : option (Z * list Z) :=
  if 6 <? u32 len then
    if range_ok versionStr 0 7 then Some (0, splice versionStr 0 [50; 46; 48; 46; 48; 10; 0]) else None
  else Some (-1, versionStr).

End G722.
