(* ===== verification/G722Spec.v ===== *)
(** Properties of the codec of G722.v.

    [band_ok] bounds the predictor of a band so that no expression leaves 32 bits; the
    encoder and the decoder keep it, and keep their predictors equal. *)

From S2P Require Import Prelude G722.

Module G722Spec.
Import G722.

(** The width of unbounded integers. *)
Definition plain (v : Z) : Z := v.

(** ** Saturation *)

Lemma saturated_i16 v : in_i16 (saturate v).
Proof. unfold saturate. pose proof (i16_range v) as H. unfold in_i16 in *. destruct (Z.eqb_spec v (i16 v)), (Z.gtb_spec v 32767); lia. Qed.

Lemma saturate_clamp v : saturate v = Z.max (-32768) (Z.min 32767 v).
Proof.
  unfold saturate. pose proof (i16_range v) as H. destruct (Z.eqb_spec v (i16 v)) as [E|E].
  - rewrite <- E in *. unfold in_i16 in H. lia.
  - destruct (Z.gtb_spec v 32767); [lia|]. destruct (Z.leb_spec (-32768) v); [|lia]. rewrite i16_id in E by (unfold in_i16; lia). lia.
Qed.

Lemma entry_i16 l i : Forall in_i16 l -> in_i16 (znth l i).
Proof.
  intros H. unfold znth. destruct (aget l i) as [v|] eqn:E; cbn [default]; [by eapply Forall_aget|]. unfold in_i16. lia.
Qed.

Lemma Forall_saturate (f : Z -> Z) n : Forall in_i16 (tab (fun i => saturate (f i)) n).
Proof. apply Forall_tab. intros. apply saturated_i16. Qed.

(** ** The predictor *)

(** A predictor whose poles are inside the unit circle. *)
Definition stable (a : list Z) : Prop := Z.abs (znth a 2) <= 12288 /\ Z.abs (znth a 1) <= 15360 - znth a 2.

Record band_ok (base limit : Z) (band : Band) : Prop := mkBandOk {
  bo_s : in_i16 (b_s band); bo_sp : in_i16 (b_sp band); bo_sz : in_i16 (b_sz band);
  bo_r : zlen (b_r band) = 3 /\ Forall in_i16 (b_r band);
  bo_p : zlen (b_p band) = 3 /\ Forall in_i16 (b_p band);
  bo_d : zlen (b_d band) = 7 /\ Forall in_i16 (b_d band);
  bo_b : zlen (b_b band) = 7 /\ Forall in_i16 (b_b band);
  bo_bp : zlen (b_bp band) = 7 /\ Forall in_i16 (b_bp band);
  bo_a : zlen (b_a band) = 3 /\ stable (b_a band);
  bo_ap : zlen (b_ap band) = 3;
  bo_nb : 0 <= b_nb band <= limit;
  bo_det : scale i32 base (b_nb band) = Some (b_det band) }.

Lemma stable_a1 a : stable a -> in_i16 (znth a 1) /\ Z.abs (znth a 2) <= 12288.
Proof. unfold stable, in_i16. lia. Qed.

Ltac shr15 := rewrite ?Z.shiftr_div_pow2 by lia; change (2 ^ 15) with 32768 in *; change (2 ^ 7) with 128 in *.

Lemma i32_plain v : in_i32 v -> i32 v = plain v.
Proof. apply i32_id. Qed.

Lemma uppol2_exact a p : stable a -> uppol2 i32 a p = uppol2 plain a p /\ decoder_uppol2 i32 a p = uppol2 plain a p /\ Z.abs (uppol2 plain a p) <= 12288.
Proof.
  intros Ha. destruct (stable_a1 a Ha) as [H1 H2]. unfold uppol2, decoder_uppol2. cbv zeta.
  rewrite Z.shiftl_mul_pow2 by lia. change (2 ^ 2) with 4. rewrite (i32_plain (znth a 1 * 4)) by (unfold in_i16, in_i32 in *; lia).
  pose proof (saturated_i16 (plain (znth a 1 * 4))) as Hs. set (wd1 := saturate (plain (znth a 1 * 4))) in *. clearbody wd1. unfold in_i16 in Hs.
  rewrite (i32_plain (- wd1)) by (unfold in_i32; lia). rewrite (i32_plain (znth a 2 * 32512)) by (unfold in_i32; lia).
  unfold plain. set (wd2 := if _ >? 32767 then 32767 else _). assert (Hwd2 : -32768 <= wd2 <= 32767).
  { unfold wd2. destruct (Z.shiftr (znth p 0) 15 =? Z.shiftr (znth p 1) 15); match goal with |- context [?u >? ?v] => destruct (Z.gtb_spec u v) end; lia. }
  clearbody wd2. assert (Hq : -256 <= Z.shiftr wd2 7 <= 255) by (shr15; dlia).
  assert (Hr : Z.abs (Z.shiftr (znth a 2 * 32512) 15) <= 12288) by (shr15; dlia).
  set (q := Z.shiftr wd2 7) in *. set (r := Z.shiftr (znth a 2 * 32512) 15) in *. clearbody q r.
  set (e := if Z.shiftr (znth p 0) 15 =? Z.shiftr (znth p 2) 15 then 128 else -128).
  assert (He : Z.abs e = 128) by (unfold e; destruct (_ =? _); done). clearbody e.
  rewrite (i32_id (q + e)), (i32_id (e + q)) by (unfold in_i32; lia). rewrite (Z.add_comm e q). rewrite i32_id by (unfold in_i32; lia).
  split_and!; [done|done|]. destruct (Z.gtb_spec (q + e + r) 12288); [lia|]. destruct (Z.ltb_spec (q + e + r) (-12288)); lia.
Qed.

Lemma uppol1_exact a p ap2 : stable a -> Z.abs ap2 <= 12288 ->
  uppol1 i32 a p ap2 = uppol1 plain a p ap2 /\ Z.abs (uppol1 plain a p ap2) <= 15360 - ap2.
Proof.
  intros Ha H2. destruct (stable_a1 a Ha) as [H1 _]. unfold uppol1. cbv zeta.
  rewrite (i32_plain (znth a 1 * 32640)) by (unfold in_i16, in_i32 in *; lia). rewrite (i32_plain (15360 - ap2)) by (unfold in_i32; lia). unfold plain.
  assert (Hr : Z.abs (Z.shiftr (znth a 1 * 32640) 15) <= 32768) by (unfold in_i16 in H1; shr15; dlia).
  set (e := if _ =? _ then 192 else -192). assert (He : Z.abs e = 192) by (unfold e; destruct (_ =? _); done). clearbody e.
  rewrite i32_id by (unfold in_i32; lia). split; [done|].
  rewrite (saturate_clamp (15360 - ap2)). set (t := saturate (e + _)). clearbody t.
  match goal with |- context [t >? ?u] => destruct (Z.gtb_spec t u); [lia|] end.
  match goal with |- context [t <? ?u] => destruct (Z.ltb_spec t u); lia end.
Qed.

Lemma upzero_exact d b bp : Forall in_i16 b -> upzero i32 d b bp = upzero plain d b bp.
Proof.
  intros Hb. unfold upzero. cbv zeta. apply tab_ext. intros i Hi. destruct (i =? 0); [done|].
  pose proof (entry_i16 b i Hb) as H. unfold in_i16 in H. rewrite (i32_plain (znth b i * 32640)) by (unfold in_i32; lia). unfold plain.
  assert (Hr : Z.abs (Z.shiftr (znth b i * 32640) 15) <= 32768) by (shr15; dlia).
  rewrite i32_id; [done|]. unfold in_i32. destruct (znth d 0 =? 0), (Z.shiftr (znth d i) 15 =? _); lia.
Qed.

Lemma upzero_ok w d b bp : Forall in_i16 bp -> zlen (upzero w d b bp) = 7 /\ Forall in_i16 (upzero w d b bp).
Proof.
  intros Hbp. unfold upzero. cbv zeta. split; [by apply (length_tab _ 7)|]. apply Forall_tab. intros i Hi.
  destruct (i =? 0); [by apply entry_i16|apply saturated_i16].
Qed.

Lemma product_15 a b : in_i16 a -> in_i16 b -> in_i32 (a * b) /\ Z.abs (Z.shiftr (a * b) 15) <= 32768.
Proof.
  intros Ha Hb. pose proof (mul_i16 a b Ha Hb) as H. split; [unfold in_i32; lia|]. shr15. set (m := a * b) in *. clearbody m. dlia.
Qed.

Lemma filtep_exact a r : stable a -> Forall in_i16 r -> filtep i32 a r = filtep plain a r.
Proof.
  intros Ha Hr. destruct (stable_a1 a Ha) as [H1 H2]. unfold filtep. cbv zeta.
  pose proof (entry_i16 r 1 Hr) as R1. pose proof (entry_i16 r 2 Hr) as R2.
  rewrite (i32_plain (znth r 1 + _)), (i32_plain (znth r 2 + _)) by (unfold in_i16, in_i32 in *; lia).
  assert (H2' : in_i16 (znth a 2)) by (unfold in_i16; lia).
  destruct (product_15 _ _ H1 (saturated_i16 (plain (znth r 1 + znth r 1)))) as [P1 Q1].
  destruct (product_15 _ _ H2' (saturated_i16 (plain (znth r 2 + znth r 2)))) as [P2 Q2].
  rewrite (i32_plain (znth a 1 * _)), (i32_plain (znth a 2 * _)) by done. unfold plain in *.
  rewrite i32_id; [done|]. unfold in_i32. lia.
Qed.

Lemma filtez_exact b d : Forall in_i16 b -> Forall in_i16 d -> filtez i32 b d = filtez plain b d.
Proof.
  intros Hb Hd. unfold filtez. f_equal.
  assert (H : forall l sz k, Z.abs sz <= 32768 * k -> 0 <= k -> k + zlen l <= 60000 ->
    foldl (filtez_step i32 b d) sz l = foldl (filtez_step plain b d) sz l).
  { induction l as [|i l IH]; intros sz k Hsz Hk Hl; [done|]. cbn [foldl length] in *.
    assert (E : filtez_step i32 b d sz i = filtez_step plain b d sz i /\ Z.abs (filtez_step plain b d sz i) <= 32768 * (k + 1)).
    { unfold filtez_step. cbv zeta. pose proof (entry_i16 d i Hd) as D. rewrite (i32_plain (znth d i + _)) by (unfold in_i16, in_i32 in *; lia).
      destruct (product_15 _ _ (entry_i16 b i Hb) (saturated_i16 (plain (znth d i + znth d i)))) as [P Q].
      rewrite (i32_plain (znth b i * _)) by done. unfold plain in *. rewrite i32_id by (unfold in_i32; lia). split; [done|lia]. }
    destruct E as [-> Hle]. apply (IH _ (k + 1)); lia. }
  apply (H _ _ 0); cbn; lia.
Qed.

Lemma Forall_front l v n : 0 < n -> zlen l = n -> Forall in_i16 l -> in_i16 v -> zlen (<[0%nat := v]> l) = n /\ Forall in_i16 (<[0%nat := v]> l).
Proof. intros Hn Hl H Hv. split; [by rewrite length_insert|by apply Forall_insert]. Qed.

Lemma delaya_ok l n : 0 <= n -> Forall in_i16 l -> zlen (delaya l n) = n /\ Forall in_i16 (delaya l n).
Proof. intros Hn H. split; [by apply length_tab|]. apply Forall_tab. intros i Hi. destruct (i =? 0); by apply entry_i16. Qed.

Lemma take_over_ok l l' n : 0 <= n -> Forall in_i16 l -> Forall in_i16 l' -> zlen (take_over l l' n) = n /\ Forall in_i16 (take_over l l' n).
Proof. intros Hn H H'. split; [by apply length_tab|]. apply Forall_tab. intros i Hi. destruct (i =? 0); by apply entry_i16. Qed.

(** The update of the predictor is exact, the same in encoder and decoder, and keeps the
    bounds; the scale factor is that of its argument. *)
Lemma block4_ok base limit band d0 : band_ok base limit band -> in_i16 d0 ->
  block4 i32 band d0 = block4 plain band d0 /\ decoder_block4 i32 band d0 = block4 plain band d0 /\
  band_ok base limit (block4 plain band d0).
Proof.
  intros [Hs Hsp Hsz [Hr Hr'] [Hp Hp'] [Hd Hd'] [Hb Hb'] [Hbp Hbp'] [Ha Ha'] Hap Hnb Hdet] H0.
  unfold block4, decoder_block4, block4_of. cbv zeta.
  rewrite (i32_plain (b_s band + d0)), (i32_plain (b_sz band + d0)) by (unfold in_i16, in_i32 in *; lia).
  destruct (Forall_front (b_d band) d0 7 ltac:(lia) Hd Hd' H0) as [D D'].
  destruct (Forall_front (b_r band) (saturate (plain (b_s band + d0))) 3 ltac:(lia) Hr Hr' (saturated_i16 _)) as [R R'].
  destruct (Forall_front (b_p band) (saturate (plain (b_sz band + d0))) 3 ltac:(lia) Hp Hp' (saturated_i16 _)) as [P P'].
  set (d := <[0%nat := d0]> (b_d band)) in *. set (r := <[0%nat := _]> (b_r band)) in *. set (p := <[0%nat := _]> (b_p band)) in *.
  clearbody d r p.
  destruct (uppol2_exact (b_a band) p Ha') as (-> & -> & H2). set (ap2 := uppol2 plain (b_a band) p) in *. clearbody ap2.
  destruct (uppol1_exact (b_a band) p ap2 Ha' H2) as [-> H1]. set (ap1 := uppol1 plain (b_a band) p ap2) in *. clearbody ap1.
  rewrite (upzero_exact d _ (b_bp band) Hb'). destruct (upzero_ok plain d (b_b band) (b_bp band) Hbp') as [BP BP'].
  set (bp := upzero plain d (b_b band) (b_bp band)) in *. clearbody bp.
  destruct (delaya_ok d 7 ltac:(lia) D') as [D2 D2']. destruct (delaya_ok r 3 ltac:(lia) R') as [R2 R2']. destruct (delaya_ok p 3 ltac:(lia) P') as [P2 P2'].
  destruct (take_over_ok (b_b band) bp 7 ltac:(lia) Hb' BP') as [B2 B2'].
  set (ap := <[1%nat := ap1]> (<[2%nat := ap2]> (b_ap band))). set (a := take_over (b_a band) ap 3).
  assert (Hlap : zlen ap = 3) by (unfold ap; by rewrite !length_insert).
  assert (Ea : znth a 1 = ap1 /\ znth a 2 = ap2).
  { unfold a, take_over. destruct (b_ap band) as [|u0 [|u1 [|u2 [|]]]]; cbn [length] in Hap; try lia. by unfold ap. }
  assert (Hst : stable a) by (unfold stable; destruct Ea as [-> ->]; split; lia).
  rewrite (filtep_exact a _ Hst R2'), (filtez_exact _ _ B2' D2').
  assert (S1 : in_i16 (filtep plain a (delaya r 3))) by apply saturated_i16.
  assert (S2 : in_i16 (filtez plain (take_over (b_b band) bp 7) (delaya d 7))) by apply saturated_i16.
  rewrite (i32_plain (filtep _ _ _ + _)) by (unfold in_i16, in_i32 in *; lia). split; [done|]. split; [done|].
  constructor; cbn [b_s b_sp b_sz b_r b_a b_ap b_p b_d b_b b_bp b_sg b_nb b_det]; first [done | apply saturated_i16 | (split; [by apply (length_tab _ 3)|done])].
Qed.


(** ** The quantiser *)

Lemma scale_block w base nb : 0 <= nb -> scale w base nb = scale w base (64 * (nb / 64)).
Proof.
  intros Hnb. unfold scale. rewrite !Z.shiftr_div_pow2 by lia. change (2 ^ 6) with 64. change (2 ^ 11) with (64 * 32).
  rewrite <- !Z.div_div by lia. replace (64 * (nb / 64) / 64) with (nb / 64) by dlia. done.
Qed.

Definition scale_fits (base nb : Z) : bool :=
  match scale i32 base nb, scale plain base nb with Some d, Some d' => (d =? d') && (8 <=? d) && (d <=? 16384) | _, _ => false end.

Lemma scale_check : all_from (fun k => scale_fits 8 (64 * k)) 0 289 = true /\ all_from (fun k => scale_fits 10 (64 * k)) 0 353 = true.
Proof. split; vm_compute; reflexivity. Qed.

Lemma scale_ok base limit nb : base = 8 /\ limit = 18432 \/ base = 10 /\ limit = 22528 -> 0 <= nb <= limit ->
  exists det, scale i32 base nb = Some det /\ scale plain base nb = Some det /\ 8 <= det <= 16384.
Proof.
  intros Hb Hnb. rewrite (scale_block i32), (scale_block plain) by lia. destruct scale_check as [C8 C10].
  assert (H : scale_fits base (64 * (nb / 64)) = true).
  { destruct Hb as [[-> ->]|[-> ->]]; [apply (all_from_spec _ _ _ C8)|apply (all_from_spec _ _ _ C10)]; dlia. }
  unfold scale_fits in H. destruct (scale i32 base _) as [d|]; [|done]. destruct (scale plain base _) as [d'|]; [|done].
  breflect. exists d. split_and!; [done|by f_equal|lia|lia].
Qed.

Definition the_limits (base limit : Z) : Prop := base = 8 /\ limit = 18432 \/ base = 10 /\ limit = 22528.

Lemma band_det base limit band : the_limits base limit -> band_ok base limit band -> 8 <= b_det band <= 16384.
Proof.
  intros Hl Hb. destruct (scale_ok base limit (b_nb band) Hl (bo_nb _ _ _ Hb)) as (d & E & _ & H). rewrite (bo_det _ _ _ Hb) in E. by injection E as ->.
Qed.

Lemma logscl_ok nb weight limit : 0 <= nb <= limit -> 0 < limit <= 22528 -> Z.abs weight <= 3042 ->
  logscl i32 nb weight limit = logscl plain nb weight limit /\ 0 <= logscl plain nb weight limit <= limit.
Proof.
  intros Hnb Hl Hw. unfold logscl. rewrite (i32_plain (nb * 127)) by (unfold in_i32; lia). unfold plain.
  assert (H : 0 <= Z.shiftr (nb * 127) 7 <= limit) by (rewrite Z.shiftr_div_pow2 by lia; change (2 ^ 7) with 128; dlia).
  rewrite i32_id by (unfold in_i32; lia). split; [done|]. set (v := Z.shiftr (nb * 127) 7 + weight). clearbody v.
  cbv zeta. destruct (Z.ltb_spec v 0); [lia|]. destruct (Z.gtb_spec v limit); lia.
Qed.

(** The state of a band after a difference of the quantiser: new scale, predictor. *)
Definition update_band (base limit : Z) (band : Band) (level weight : Z) : option Band :=
  let nb := logscl plain (b_nb band) weight limit in
  let* det := scale plain base nb in
  Some (block4 plain (set_scale band nb det) (Z.shiftr (b_det band * level) 15)).

Lemma difference_i16 det level : 8 <= det <= 16384 -> Z.abs level <= 24808 ->
  in_i32 (det * level) /\ Z.abs (Z.shiftr (det * level) 15) <= 12404.
Proof.
  intros Hd Hl. assert (H : Z.abs (det * level) <= 16384 * 24808) by nia. split; [unfold in_i32; lia|]. shr15.
  set (m := det * level) in *. clearbody m. dlia.
Qed.

(** The end of both halves of the encoder and of the decoder. *)
Lemma update_band_ok base limit band level weight : the_limits base limit -> band_ok base limit band -> Z.abs level <= 24808 -> Z.abs weight <= 3042 ->
  exists band' det, update_band base limit band level weight = Some band' /\ band_ok base limit band' /\
    let nb := logscl plain (b_nb band) weight limit in
    scale i32 base nb = Some det /\ logscl i32 (b_nb band) weight limit = nb /\ scale plain base nb = Some det /\
    i32 (b_det band * level) = b_det band * level /\
    block4 plain (set_scale band nb det) (Z.shiftr (b_det band * level) 15) = band' /\
    block4 i32 (set_scale band nb det) (Z.shiftr (b_det band * level) 15) = band' /\
    decoder_block4 i32 (set_scale band nb det) (Z.shiftr (b_det band * level) 15) = band'.
Proof.
  intros Hl Hb Hlev Hw. pose proof (band_det _ _ _ Hl Hb) as Hdet. destruct (difference_i16 _ _ Hdet Hlev) as [Hp Hq].
  assert (Hlim : 0 < limit <= 22528) by (destruct Hl as [[_ ->]|[_ ->]]; lia).
  destruct (logscl_ok (b_nb band) weight limit (bo_nb _ _ _ Hb) Hlim Hw) as [Elog Hnb]. unfold update_band. cbv zeta.
  set (nb := logscl plain (b_nb band) weight limit) in *. destruct (scale_ok base limit nb Hl Hnb) as (det & E1 & E2 & _).
  assert (Hset : band_ok base limit (set_scale band nb det)) by (destruct Hb; by constructor).
  destruct (block4_ok base limit (set_scale band nb det) (Z.shiftr (b_det band * level) 15) Hset) as (B1 & B2 & B3); [unfold in_i16; lia|].
  rewrite E2. cbn [mbind option_bind]. do 2 eexists. split; [done|]. split; [exact B3|].
  split_and!; [exact E1|exact Elog|done|by apply i32_id|done|exact B1|exact B2].
Qed.

(** *** The search for the level *)

(** Decision level [i] for the scale [det]. *)
Definition level (i det : Z) : Z := Z.shiftr (znth q6 i * det) 12.

Lemma q6_range i : 0 <= i < 32 -> aget q6 i = Some (znth q6 i) /\ 0 <= znth q6 i <= 2919.
Proof.
  intros Hi. split; [by apply aget_znth|].
  assert (C : all_from (fun i => (0 <=? znth q6 i) && (znth q6 i <=? 2919)) 0 32 = true) by (vm_compute; reflexivity).
  pose proof (all_from_spec _ _ _ C i ltac:(lia)) as H. cbv beta in H. breflect. lia.
Qed.

Lemma quantl_ok n i wd det : 8 <= det <= 16384 -> 1 <= i -> i + Z.of_nat n <= 31 ->
  exists k, quantl i32 n i wd det = Some k /\ quantl plain n i wd det = Some k /\ i <= k <= i + Z.of_nat n /\
    (k < i + Z.of_nat n -> wd < level k det) /\ (i < k -> level (k - 1) det <= wd).
Proof.
  intros Hd. revert i. induction n as [|n IH]; intros i Hi Hn.
  - exists i. cbn [quantl]. split_and!; try done; lia.
  - cbn [quantl]. destruct (q6_range i ltac:(lia)) as [-> Hq]. cbn [mbind option_bind].
    rewrite (i32_plain (znth q6 i * det)) by (unfold in_i32; nia). unfold plain. fold (level i det).
    destruct (Z.ltb_spec wd (level i det)).
    + exists i. split_and!; try done; lia.
    + destruct (IH (i + 1) ltac:(lia) ltac:(lia)) as (k & E1 & E2 & Hk & Hlt & Hge). exists k. split_and!; try done; try lia.
      intros _. destruct (Z.eq_dec k (i + 1)) as [->|]; [by replace (i + 1 - 1) with i by lia|]. apply Hge. lia.
Qed.

(** The tables at the fields of a code. *)
Lemma low_tables : all_from (fun r => match aget qm4 r, aget rl42 r with
  | Some l, Some k => (Z.abs l <=? 24808) && match aget wl k with Some v => Z.abs v <=? 3042 | None => false end | _, _ => false end) 0 16 = true.
Proof. vm_compute. reflexivity. Qed.

Lemma low_table r : 0 <= r < 16 -> exists lev k weight, aget qm4 r = Some lev /\ aget rl42 r = Some k /\ aget wl k = Some weight /\
  Z.abs lev <= 24808 /\ Z.abs weight <= 3042.
Proof.
  intros Hr. pose proof (all_from_spec _ _ _ low_tables r ltac:(lia)) as H. cbv beta in H.
  destruct (aget qm4 r) as [l|]; [|done]. destruct (aget rl42 r) as [k|]; [|done].
  destruct (aget wl k) as [v|] eqn:E; [|by rewrite andb_false_r in H]. breflect. exists l, k, v. split_and!; done.
Qed.

Lemma high_table r : 0 <= r < 4 -> exists lev k weight, aget qm2 r = Some lev /\ aget rh2 r = Some k /\ aget wh k = Some weight /\
  Z.abs lev <= 24808 /\ Z.abs weight <= 3042.
Proof.
  intros Hr. assert (r = 0 \/ r = 1 \/ r = 2 \/ r = 3) as [->|[->|[->| ->]]] by lia;
    do 3 eexists; (split; [reflexivity|]); (split; [reflexivity|]); (split; [reflexivity|]); lia.
Qed.

Lemma codes_range : all_from (fun i => match aget iln i, aget ilp i with
  | Some a, Some b => (0 <=? a) && (a <? 64) && (0 <=? b) && (b <? 64) | _, _ => false end) 1 30 = true.
Proof. vm_compute. reflexivity. Qed.

Lemma code_range i (neg : bool) : 1 <= i <= 30 -> exists c, (if neg then aget iln i else aget ilp i) = Some c /\ 0 <= c < 64.
Proof.
  intros Hi. pose proof (all_from_spec _ _ _ codes_range i ltac:(lia)) as H. cbv beta in H.
  destruct (aget iln i) as [a|]; [|done]. destruct (aget ilp i) as [b|]; [|done]. breflect. destruct neg; eexists; (split; [done|lia]).
Qed.

(** The bands after a code: [low_update] for the upper four bits of the low code,
    [high_update] for the two bits of the high band. *)
Definition low_update (band : Band) (ril : Z) : option Band :=
  let* lev := aget qm4 ril in let* k := aget rl42 ril in let* weight := aget wl k in update_band 8 18432 band lev weight.
Definition high_update (band : Band) (ihigh : Z) : option Band :=
  let* lev := aget qm2 ihigh in let* k := aget rh2 ihigh in let* weight := aget wh k in update_band 10 22528 band lev weight.

Definition low_ok : Band -> Prop := band_ok 8 18432.
Definition high_ok : Band -> Prop := band_ok 10 22528.

Lemma encode_low_ok band xlow : low_ok band -> in_i16 xlow -> exists ilow band',
  encode_low i32 band xlow = Some (ilow, band') /\ encode_low plain band xlow = Some (ilow, band') /\
  0 <= ilow < 64 /\ low_update band (Z.shiftr ilow 2) = Some band' /\ low_ok band'.
Proof.
  intros Hb Hx. pose proof (band_det _ _ _ ltac:(by left) Hb) as Hdet. unfold encode_low. cbv zeta.
  rewrite (i32_plain (xlow - b_s band)) by (pose proof (bo_s _ _ _ Hb); unfold in_i16, in_i32 in *; lia).
  set (el := saturate (plain (xlow - b_s band))). set (wd := if el >=? 0 then el else - (el + 1)).
  destruct (quantl_ok 29 1 wd (b_det band) Hdet ltac:(lia) ltac:(lia)) as (i & -> & -> & Hi & _ & _). cbn [mbind option_bind].
  destruct (code_range i (el <? 0) ltac:(lia)) as (ilow & -> & Hc). cbn [mbind option_bind].
  assert (Hr : 0 <= Z.shiftr ilow 2 < 16) by (rewrite Z.shiftr_div_pow2 by lia; change (2 ^ 2) with 4; dlia).
  destruct (low_table _ Hr) as (lev & k & weight & E1 & E2 & E3 & Hlev & Hw). rewrite E1, E2. cbn [mbind option_bind]. rewrite E3. cbn [mbind option_bind].
  destruct (update_band_ok 8 18432 band lev weight ltac:(by left) Hb Hlev Hw) as (band' & det & U & Hb' & S1 & S2 & S3 & S4 & S5 & S6 & _). cbv zeta in *.
  exists ilow, band'. rewrite S2, S1, S3, S4. cbn [mbind option_bind]. change (plain (b_det band * lev)) with (b_det band * lev). rewrite S5, S6.
  unfold low_update. rewrite E1, E2. cbn [mbind option_bind]. rewrite E3. done.
Qed.

Lemma encode_high_ok band xhigh : high_ok band -> in_i16 xhigh -> exists ihigh band',
  encode_high i32 band xhigh = Some (ihigh, band') /\ encode_high plain band xhigh = Some (ihigh, band') /\
  0 <= ihigh < 4 /\ high_update band ihigh = Some band' /\ high_ok band'.
Proof.
  intros Hb Hx. pose proof (band_det _ _ _ ltac:(by right) Hb) as Hdet. unfold encode_high. cbv zeta.
  rewrite (i32_plain (xhigh - b_s band)) by (pose proof (bo_s _ _ _ Hb); unfold in_i16, in_i32 in *; lia).
  rewrite (i32_plain (564 * b_det band)) by (unfold in_i32; lia).
  set (eh := saturate (plain (xhigh - b_s band))). set (wd := if eh >=? 0 then eh else - (eh + 1)).
  set (mih := if wd >=? _ then 2 else 1).
  assert (Hc : exists ihigh, (if eh <? 0 then aget ihn mih else aget ihp mih) = Some ihigh /\ 0 <= ihigh < 4).
  { unfold mih. destruct (wd >=? _), (eh <? 0); eexists; (split; [reflexivity|lia]). }
  destruct Hc as (ihigh & -> & Hr). cbn [mbind option_bind].
  destruct (high_table _ Hr) as (lev & k & weight & E1 & E2 & E3 & Hlev & Hw). rewrite E1, E2. cbn [mbind option_bind]. rewrite E3. cbn [mbind option_bind].
  destruct (update_band_ok 10 22528 band lev weight ltac:(by right) Hb Hlev Hw) as (band' & det & U & Hb' & S1 & S2 & S3 & S4 & S5 & S6 & _). cbv zeta in *.
  exists ihigh, band'. rewrite S2, S1, S3, S4. cbn [mbind option_bind]. change (plain (b_det band * lev)) with (b_det band * lev). rewrite S5, S6.
  unfold high_update. rewrite E1, E2. cbn [mbind option_bind]. rewrite E3. done.
Qed.

(** The decoder's order of addition only matters for the width. *)
Lemma decoder_block4_plain band d0 : decoder_block4 plain band d0 = block4 plain band d0.
Proof.
  unfold decoder_block4, block4, block4_of. cbv zeta.
  assert (E : forall a p, decoder_uppol2 plain a p = uppol2 plain a p); [|by rewrite E].
  intros a p. unfold decoder_uppol2, uppol2, plain. cbv zeta. by rewrite (Z.add_comm (if _ =? _ then 128 else -128)).
Qed.

Lemma limit14_range v : -16384 <= limit14 v <= 16383.
Proof. unfold limit14. destruct (Z.gtb_spec v 16383); [lia|]. destruct (Z.ltb_spec v (-16384)); lia. Qed.

(** The decoder's half of a band: the update of the encoder, and a sample of 15 bits. *)
Lemma decode_low_ok band wd1 wd2 : low_ok band -> 0 <= wd1 < 16 -> Z.abs wd2 <= 24808 -> exists band',
  low_update band wd1 = Some band' /\ low_ok band' /\
  let rlow := limit14 (b_s band + Z.shiftr (b_det band * wd2) 15) in
  decode_low i32 band wd1 wd2 = Some (rlow, band') /\ decode_low plain band wd1 wd2 = Some (rlow, band').
Proof.
  intros Hb Hr Hw2. pose proof (band_det _ _ _ ltac:(by left) Hb) as Hdet. destruct (difference_i16 _ _ Hdet Hw2) as [Hp Hq].
  destruct (low_table _ Hr) as (lev & k & weight & E1 & E2 & E3 & Hlev & Hw).
  destruct (update_band_ok 8 18432 band lev weight ltac:(by left) Hb Hlev Hw) as (band' & det & U & Hb' & S1 & S2 & S3 & S4 & S5 & S6 & S7). cbv zeta in *.
  exists band'. unfold low_update, decode_low. cbv zeta. rewrite E1, E2. cbn [mbind option_bind]. rewrite E3. cbn [mbind option_bind].
  rewrite S2, S1, S3, S4, U. cbn [mbind option_bind]. rewrite S7. rewrite decoder_block4_plain, (i32_plain (b_det band * wd2)) by done.
  change (plain (b_det band * lev)) with (b_det band * lev). rewrite S5. unfold plain. rewrite (i32_id (b_s band + _)); [done|]. pose proof (bo_s _ _ _ Hb). unfold in_i16, in_i32 in *. lia.
Qed.

Lemma decode_high_ok band ihigh : high_ok band -> 0 <= ihigh < 4 -> exists rhigh band',
  high_update band ihigh = Some band' /\ high_ok band' /\ -16384 <= rhigh <= 16383 /\
  decode_high i32 band ihigh = Some (rhigh, band') /\ decode_high plain band ihigh = Some (rhigh, band').
Proof.
  intros Hb Hr. pose proof (band_det _ _ _ ltac:(by right) Hb) as Hdet.
  destruct (high_table _ Hr) as (lev & k & weight & E1 & E2 & E3 & Hlev & Hw). destruct (difference_i16 _ _ Hdet Hlev) as [_ Hq].
  destruct (update_band_ok 10 22528 band lev weight ltac:(by right) Hb Hlev Hw) as (band' & det & U & Hb' & S1 & S2 & S3 & S4 & S5 & S6 & S7). cbv zeta in *.
  eexists _, band'. unfold high_update, decode_high. cbv zeta. rewrite E1, E2. cbn [mbind option_bind]. rewrite E3. cbn [mbind option_bind].
  rewrite S2, S1, S3, S4, U. cbn [mbind option_bind]. rewrite S7. rewrite decoder_block4_plain. change (plain (b_det band * lev)) with (b_det band * lev).
  rewrite S5. unfold plain. rewrite (i32_id (_ + b_s band)) by (pose proof (bo_s _ _ _ Hb); unfold in_i16, in_i32 in *; lia).
  split; [done|]. split; [done|]. split; [apply limit14_range|done].
Qed.

(** ** The fields of a code *)

(** A rate: bits of a code. *)
Definition rate_ok (bits : Z) : Prop := bits = 6 \/ bits = 7 \/ bits = 8.

(** The code of the encoder for [ilow] and [ihigh]. *)
Definition code_of (bits ilow ihigh : Z) : Z := Z.shiftr (Z.lor (Z.shiftl ihigh 6) ilow) (8 - bits).

Definition fields_fit (bits code : Z) : bool :=
  match fields bits code with
  | Some (wd1, ihigh, wd2) => (0 <=? wd1) && (wd1 <? 16) && (0 <=? ihigh) && (ihigh <? 4) && (Z.abs wd2 <=? 24808)
  | None => false
  end.
Definition fields_match (bits ilow ihigh : Z) : bool :=
  let code := code_of bits ilow ihigh in (0 <=? code) && (code <? 2 ^ bits) &&
  match fields bits code with Some (wd1, ihigh', _) => (wd1 =? Z.shiftr ilow 2) && (ihigh' =? ihigh) | None => false end.

Lemma fields_check : all_from (fun c => fields_fit 6 c && fields_fit 7 c && fields_fit 8 c) 0 256 = true /\
  all_from (fun l => all_from (fun h => fields_match 6 l h && fields_match 7 l h && fields_match 8 l h) 0 4) 0 64 = true.
Proof. split; vm_compute; reflexivity. Qed.

(** Every code has fields, whatever its upper bits. *)
Lemma fields_ok bits code : rate_ok bits -> exists wd1 ihigh wd2, fields bits code = Some (wd1, ihigh, wd2) /\
  0 <= wd1 < 16 /\ 0 <= ihigh < 4 /\ Z.abs wd2 <= 24808.
Proof.
  intros Hb. assert (E : fields bits code = fields bits (Z.land code 255)).
  { assert (L : forall v m, Z.land 255 m = m -> Z.land (Z.land v 255) m = Z.land v m) by (intros v m E; by rewrite <- Z.land_assoc, E).
    assert (R : forall n, 0 <= n <= 6 -> Z.land (Z.shiftr (Z.land code 255) n) 3 = Z.land (Z.shiftr code n) 3).
    { intros n Hn. rewrite Z.shiftr_land, <- Z.land_assoc. f_equal.
      assert (n = 0 \/ n = 1 \/ n = 2 \/ n = 3 \/ n = 4 \/ n = 5 \/ n = 6) as [->|[->|[->|[->|[->|[->| ->]]]]]] by lia; done. }
    destruct Hb as [->|[->| ->]]; cbn [fields]; rewrite L by done; rewrite R by lia; done. }
  rewrite E. clear E. destruct fields_check as [C _].
  assert (Hc : 0 <= Z.land code 255 < 256) by (change 255 with (Z.ones 8); rewrite Z.land_ones by lia; apply Z.mod_pos_bound; lia).
  pose proof (all_from_spec _ _ _ C (Z.land code 255) Hc) as H. cbv beta in H.
  assert (F : fields_fit bits (Z.land code 255) = true) by (rewrite !andb_true_iff in H; destruct Hb as [->|[->| ->]]; tauto).
  unfold fields_fit in F. destruct (fields bits _) as [[[wd1 ihigh] wd2]|]; [|done]. breflect. exists wd1, ihigh, wd2. split; [done|lia].
Qed.

(** The decoder's fields of a code of the encoder. *)
Lemma fields_code bits ilow ihigh : rate_ok bits -> 0 <= ilow < 64 -> 0 <= ihigh < 4 ->
  0 <= code_of bits ilow ihigh < 2 ^ bits /\
  exists wd2, fields bits (code_of bits ilow ihigh) = Some (Z.shiftr ilow 2, ihigh, wd2) /\ Z.abs wd2 <= 24808.
Proof.
  intros Hb Hl Hh. destruct fields_check as [_ C]. pose proof (all_from_spec _ _ _ C ilow ltac:(lia)) as H. cbv beta in H.
  pose proof (all_from_spec _ _ _ H ihigh ltac:(lia)) as H'. cbv beta in H'.
  assert (F : fields_match bits ilow ihigh = true) by (rewrite !andb_true_iff in H'; destruct Hb as [->|[->| ->]]; tauto).
  destruct (fields_ok bits (code_of bits ilow ihigh) Hb) as (wd1 & h & wd2 & E & _ & _ & Hw).
  unfold fields_match in F. cbv zeta in F. rewrite E in F. breflect. subst. split; [lia|]. exists wd2. by rewrite E.
Qed.

(** ** The filters between samples and bands *)

Definition gains (f : Z -> Z) (ks : list Z) : Z := foldr (fun i acc => Z.abs (znth qmf_coeffs (f i)) + acc) 0 ks.

Lemma gains_nonneg f ks : 0 <= gains f ks.
Proof. induction ks as [|i ks IH]; cbn [gains foldr]; [lia|]. unfold gains in IH. lia. Qed.

Lemma tap_bound v c : in_i16 v -> Z.abs (v * c) <= 32768 * Z.abs c.
Proof. intros H. unfold in_i16 in H. rewrite Z.abs_mul. nia. Qed.

Lemma qmf_fold x ks s B1 B2 : Forall in_i16 x -> Z.abs s.1 <= B1 -> Z.abs s.2 <= B2 ->
  B1 + 32768 * gains (fun i => 11 - i) ks < 2147483648 -> B2 + 32768 * gains (fun i => i) ks < 2147483648 ->
  let r := foldl (qmf_step plain x) s ks in
  foldl (qmf_step i32 x) s ks = r /\ Z.abs r.1 <= B1 + 32768 * gains (fun i => 11 - i) ks /\ Z.abs r.2 <= B2 + 32768 * gains (fun i => i) ks.
Proof.
  intros Hx. revert s B1 B2. induction ks as [|i ks IH]; intros s B1 B2 H1 H2 M1 M2; cbn [foldl gains foldr] in *; [split; [done|lia]|].
  pose proof (tap_bound (znth x (2 * i + 1)) (znth qmf_coeffs (11 - i)) (entry_i16 _ _ Hx)) as T1.
  pose proof (tap_bound (znth x (2 * i)) (znth qmf_coeffs i) (entry_i16 _ _ Hx)) as T2.
  pose proof (gains_nonneg (fun i => 11 - i) ks) as G1. pose proof (gains_nonneg (fun i => i) ks) as G2.
  change (foldr (fun i acc => Z.abs (znth qmf_coeffs (11 - i)) + acc) 0 ks) with (gains (fun i => 11 - i) ks) in *.
  change (foldr (fun i acc => Z.abs (znth qmf_coeffs i) + acc) 0 ks) with (gains (fun i => i) ks) in *.
  assert (E : qmf_step i32 x s i = qmf_step plain x s i).
  { unfold qmf_step. rewrite (i32_plain (_ * znth qmf_coeffs (11 - i))), (i32_plain (_ * znth qmf_coeffs i)) by (unfold in_i32; lia).
    unfold plain. by rewrite !i32_id by (unfold in_i32; lia). }
  rewrite E. destruct (IH (qmf_step plain x s i) (B1 + 32768 * Z.abs (znth qmf_coeffs (11 - i))) (B2 + 32768 * Z.abs (znth qmf_coeffs i)))
    as (IE & I1 & I2); unfold qmf_step, plain; cbn [fst snd]; try lia.
  unfold qmf_step, plain in IE, I1, I2. split_and!; [exact IE|lia|lia].
Qed.

Lemma qmf_ok x : Forall in_i16 x -> qmf i32 x = qmf plain x /\ Z.abs (qmf plain x).1 <= 212402176 /\ Z.abs (qmf plain x).2 <= 212402176.
Proof.
  intros Hx. pose proof (qmf_fold x [0; 1; 2; 3; 4; 5; 6; 7; 8; 9; 10; 11] (0, 0) 0 0 Hx) as H. cbv zeta in H.
  change (gains (fun i => 11 - i) _) with 6482 in H. change (gains (fun i => i) _) with 6482 in H. unfold qmf. apply H; cbn [fst snd]; lia.
Qed.

Lemma shuffle_ok x a b : zlen x = 24 -> Forall in_i16 x -> in_i16 a -> in_i16 b -> zlen (shuffle x a b) = 24 /\ Forall in_i16 (shuffle x a b).
Proof.
  intros Hl Hx Ha Hb. unfold shuffle. split.
  - rewrite length_app. pose proof (length_slice x 2 22 ltac:(lia) ltac:(lia) ltac:(lia)). cbn [length]. lia.
  - apply Forall_app. split; [by apply Forall_slice|]. constructor; [done|]. by constructor.
Qed.

(** ** The codec *)

Record codec_ok (s : G722EncoderState) : Prop := mkCodecOk {
  co_bits : rate_ok (bits_per_sample s);
  co_x : zlen (x s) = 24 /\ Forall in_i16 (x s);
  co_low : low_ok (band0 s);
  co_high : high_ok (band1 s) }.

(** What the calls leave as it is. *)
Definition settings (s : G722EncoderState) : Z * Z * Z * Z := (itu_test_mode s, packed s, eight_k s, bits_per_sample s).

Lemma settings_one s s' : settings s = settings s' -> itu_test_mode s = itu_test_mode s' /\ packed s = packed s' /\ eight_k s = eight_k s' /\ bits_per_sample s = bits_per_sample s'.
Proof. unfold settings. intros H. by simplify_eq. Qed.

(** One sample of the input is a turn of the encoder; otherwise two are. *)
Definition one_sample (s : G722EncoderState) : bool := negb (itu_test_mode s =? 0) || negb (eight_k s =? 0).

Lemma split_bands_ok s amp j xhigh : codec_ok s -> Forall in_i16 amp -> 0 <= j -> j + (if one_sample s then 1 else 2) <= zlen amp -> in_i16 xhigh ->
  exists hist xlow xhigh', zlen hist = 24 /\ Forall in_i16 hist /\ in_i16 xlow /\ in_i16 xhigh' /\
    let r := Some (s <| x := hist |>, j + (if one_sample s then 1 else 2), xlow, xhigh') in
    split_bands i32 s amp j xhigh = r /\ split_bands plain s amp j xhigh = r.
Proof.
  intros [Hb [Hx Hx'] Hl Hh] Hamp Hj Hn Hxh. unfold split_bands, one_sample in *.
  assert (Hv : forall v, in_i16 v -> in_i16 (Z.shiftr v 1)).
  { intros v. unfold in_i16. rewrite Z.shiftr_div_pow2 by lia. change (2 ^ 1) with 2. intros. dlia. }
  assert (Hs : s = s <| x := x s |>) by (by destruct s).
  destruct (itu_test_mode s =? 0); cbn [negb orb] in *; [destruct (eight_k s =? 0); cbn [negb] in *|].
  - destruct (aget_range amp j ltac:(lia)) as [a Ea]. destruct (aget_range amp (j + 1) ltac:(lia)) as [b Eb].
    rewrite Ea, Eb. cbn [mbind option_bind].
    destruct (shuffle_ok (x s) a b Hx Hx' (Forall_aget _ _ _ _ Hamp Ea) (Forall_aget _ _ _ _ Hamp Eb)) as [S1 S2].
    set (h := shuffle (x s) a b) in *. clearbody h. change (x (s <| x := h |>)) with h.
    destruct (qmf_ok h S2) as (-> & Q1 & Q2). destruct (qmf plain h) as [e o]. cbn [fst snd] in *.
    rewrite (i32_plain (e + o)), (i32_plain (e - o)) by (unfold in_i32; lia). unfold plain.
    exists h, (Z.shiftr (e + o) 14), (Z.shiftr (e - o) 14). rewrite !Z.shiftr_div_pow2 by lia. change (2 ^ 14) with 16384.
    split_and!; try done; unfold in_i16; dlia.
  - destruct (aget_range amp j ltac:(lia)) as [a Ea]. rewrite Ea. cbn [mbind option_bind]. pose proof (Hv a (Forall_aget _ _ _ _ Hamp Ea)).
    exists (x s), (Z.shiftr a 1), xhigh. rewrite <- Hs. done.
  - destruct (aget_range amp j ltac:(lia)) as [a Ea]. rewrite Ea. cbn [mbind option_bind]. pose proof (Hv a (Forall_aget _ _ _ _ Hamp Ea)).
    exists (x s), (Z.shiftr a 1), (Z.shiftr a 1). rewrite <- Hs. done.
Qed.

(** The bands after a code, and after a list of codes: what the encoder and the decoder
    agree on. *)
Definition follow_one (bits eight_k code : Z) (b0 b1 : Band) : option (Band * Band) :=
  let* (wd1, ihigh, _) := fields bits code in
  let* b0 := low_update b0 wd1 in
  let* b1 := if eight_k =? 0 then high_update b1 ihigh else Some b1 in
  Some (b0, b1).
Fixpoint follow (bits eight_k : Z) (codes : list Z) (b0 b1 : Band) : option (Band * Band) :=
  match codes with
  | [] => Some (b0, b1)
  | code :: codes => let* (b0, b1) := follow_one bits eight_k code b0 b1 in follow bits eight_k codes b0 b1
  end.

Lemma encode_bands_ok s xlow xhigh : codec_ok s -> in_i16 xlow -> in_i16 xhigh -> exists code b0 b1,
  let s' := s <| band0 := b0 |> <| band1 := b1 |> in
  encode_bands i32 s xlow xhigh = Some (code, s') /\ encode_bands plain s xlow xhigh = Some (code, s') /\ codec_ok s' /\
  0 <= code < 2 ^ bits_per_sample s /\ follow_one (bits_per_sample s) (eight_k s) code (band0 s) (band1 s) = Some (b0, b1).
Proof.
  intros [Hb Hx Hl Hh] Hxl Hxh. unfold encode_bands.
  destruct (encode_low_ok (band0 s) xlow Hl Hxl) as (ilow & b0 & -> & -> & Hi & U0 & Hb0). cbn [mbind option_bind].
  destruct (eight_k (s <| band0 := b0 |>) =? 0) eqn:E8; change ((eight_k s =? 0) = true) in E8 || change ((eight_k s =? 0) = false) in E8; cbn [negb]; [|destruct (fields_code _ ilow 3 Hb Hi ltac:(lia)) as (Hc & wd2 & F & _)].
  - change (band1 (s <| band0 := b0 |>)) with (band1 s).
    destruct (encode_high_ok (band1 s) xhigh Hh Hxh) as (ihigh & b1 & -> & -> & Hi1 & U1 & Hb1). cbn [mbind option_bind].
    destruct (fields_code _ ilow ihigh Hb Hi Hi1) as (Hc & wd2 & F & _).
    exists (code_of (bits_per_sample s) ilow ihigh), b0, b1. split; [done|]. split; [done|]. split; [by constructor|]. split; [exact Hc|].
    unfold follow_one. rewrite F, E8. cbn [mbind option_bind]. rewrite U0. cbn [mbind option_bind]. by rewrite U1.
  - exists (code_of (bits_per_sample s) ilow 3), b0, (band1 s). assert (Es : s <| band0 := b0 |> <| band1 := band1 s |> = s <| band0 := b0 |>) by (by destruct s).
    cbv zeta. rewrite Es. split; [done|]. split; [done|]. split; [by constructor|]. split; [exact Hc|].
    unfold follow_one. rewrite F, E8. cbn [mbind option_bind]. by rewrite U0.
Qed.

(** What the encoder puts out for a code. *)
Lemma emit_ok s code g722_data : codec_ok s -> exists s' data',
  emit s code g722_data = (s', g722_data ++ data') /\ codec_ok s' /\ Forall in_u8 data' /\
  band0 s' = band0 s /\ band1 s' = band1 s /\ settings s' = settings s /\
  (packed s = 0 -> 0 <= code < 2 ^ bits_per_sample s -> data' = [code]).
Proof.
  intros [Hb Hx Hl Hh]. assert (H8 : forall v, in_u8 (Z.land v 255)).
  { intros v. change 255 with (Z.ones 8). rewrite Z.land_ones by lia. unfold in_u8. pose proof (Z.mod_pos_bound v (2 ^ 8)). lia. }
  unfold emit. destruct (Z.eqb_spec (packed s) 0) as [E|E]; cbn [negb].
  - exists s, [Z.land code 255]. split; [done|]. split; [done|]. split; [by constructor|]. do 3 (split; [done|]).
    intros _ Hc. f_equal. change 255 with (Z.ones 8). rewrite Z.land_ones by lia. apply Z.mod_small.
    destruct Hb as [E'|[E'|E']]; rewrite E' in Hc; lia.
  - match goal with |- context [if ?c then _ else _] => destruct c end.
    + do 2 eexists. split; [reflexivity|]. split; [by constructor|]. split; [by constructor|]. do 3 (split; [done|]). by intros H.
    + do 2 eexists. split; [by rewrite app_nil_r|]. split; [by constructor|]. split; [by constructor|]. do 3 (split; [done|]). by intros H.
Qed.

Lemma encode_loop_ok fuel amp j xhigh s g722_data : codec_ok s -> Forall in_i16 amp -> in_i16 xhigh -> 0 <= j <= zlen amp ->
  zlen amp - j <= Z.of_nat fuel -> (one_sample s = true \/ (zlen amp - j) mod 2 = 0) -> exists data s',
  encode_loop i32 fuel amp (zlen amp) j xhigh s g722_data = Some (g722_data ++ data, s') /\
  encode_loop plain fuel amp (zlen amp) j xhigh s g722_data = Some (g722_data ++ data, s') /\
  codec_ok s' /\ Forall in_u8 data /\ settings s' = settings s /\
  (packed s = 0 -> zlen data * (if one_sample s then 1 else 2) = zlen amp - j /\
    follow (bits_per_sample s) (eight_k s) data (band0 s) (band1 s) = Some (band0 s', band1 s')).
Proof.
  revert j xhigh s g722_data. induction fuel as [|fuel IH]; intros j xhigh s g722_data Hs Hamp Hxh Hj Hf Hp; cbn [encode_loop]; destruct (Z.ltb_spec j (zlen amp)) as [Hlt|Hge].
  1: lia.
  1, 3: exists [], s; rewrite app_nil_r; do 5 (split; [done|]); intros _; split; [|done]; cbn [length]; destruct (one_sample s); lia.
  assert (Hn : j + (if one_sample s then 1 else 2) <= zlen amp) by (destruct (one_sample s); [lia|]; destruct Hp as [?|Hp]; [done|dlia]).
  destruct (split_bands_ok s amp j xhigh Hs Hamp ltac:(lia) Hn Hxh) as (h & xlow & xhigh' & H1 & H2 & Hxl & Hxh' & E1 & E2). rewrite E1, E2. cbn [mbind option_bind].
  assert (Hs1 : codec_ok (s <| x := h |>)) by (destruct Hs; by constructor).
  destruct (encode_bands_ok _ xlow xhigh' Hs1 Hxl Hxh') as (code & b0 & b1 & -> & -> & Hs2 & Hc & U). cbn [mbind option_bind].
  set (s2 := s <| x := h |> <| band0 := b0 |> <| band1 := b1 |>) in *.
  destruct (emit_ok s2 code g722_data Hs2) as (s3 & out & -> & Hs3 & Hout & EB0 & EB1 & Eset & Hcode).
  change (settings s2) with (settings s) in Eset. destruct (settings_one _ _ Eset) as (Eitu & Epk & E8 & Ebits).
  assert (Eone : one_sample s3 = one_sample s) by (unfold one_sample; by rewrite Eitu, E8).
  change (packed s2) with (packed s) in *.
  change (bits_per_sample s2) with (bits_per_sample s) in *. change (band0 s2) with b0 in EB0. change (band1 s2) with b1 in EB1.
  destruct (IH (j + (if one_sample s then 1 else 2)) xhigh' s3 (g722_data ++ out) Hs3 Hamp Hxh' ltac:(destruct (one_sample s); lia)
    ltac:(destruct (one_sample s); lia) ltac:(rewrite Eone; destruct (one_sample s); [by left|right; destruct Hp as [?|Hp]; [done|dlia]]))
    as (data & s4 & F1 & F2 & Hs4 & Hd & Eset' & Hfin).
  exists (out ++ data), s4. rewrite F1, F2, <- app_assoc. do 2 (split; [done|]). split; [done|]. split; [by apply Forall_app|].
  split; [congruence|]. intros Hpk.
  rewrite Hcode by done. destruct Hfin as [Hlen Hfol]; [congruence|]. rewrite Eone in Hlen. cbn [app length] in *. split; [destruct (one_sample s); lia|].
  rewrite Ebits, E8, EB0, EB1 in Hfol. cbn [follow].
  change (follow_one (bits_per_sample s) (eight_k s) code (band0 s) (band1 s) = Some (b0, b1)) in U. rewrite U. exact Hfol.
Qed.

(** *** The decoder *)

(** The bits that are kept from call to call are less than a byte. *)
Definition buffer_ok (s : G722DecoderState) : Prop := 0 <= in_bits s <= 7.

(** Turns of the decoder that are left at most. *)
Definition turns (s : G722DecoderState) (len j : Z) : Z :=
  2 * (len - j) + (if negb (packed s =? 0) && (bits_per_sample s <=? in_bits s) then 1 else 0).

Lemma next_code_ok s g722_data j : rate_ok (bits_per_sample s) -> buffer_ok s -> 0 <= j < zlen g722_data -> exists buf bits j' code,
  let s' := s <| in_buffer := buf |> <| in_bits := bits |> in
  next_code s g722_data j = Some (s', j', code) /\ buffer_ok s' /\ j <= j' <= j + 1 /\ turns s' (zlen g722_data) j' < turns s (zlen g722_data) j /\
  (packed s = 0 -> j' = j + 1 /\ aget g722_data j = Some code).
Proof.
  intros Hb Hbuf Hj. unfold next_code, buffer_ok, turns in *. destruct (aget_range g722_data j Hj) as [v Ev]. rewrite Ev. cbn [mbind option_bind].
  assert (Hbits : 6 <= bits_per_sample s <= 8) by (unfold rate_ok in Hb; lia).
  destruct (Z.eqb_spec (packed s) 0) as [E|E]; cbn [negb andb].
  - exists (in_buffer s), (in_bits s), (j + 1), v. assert (Es : s <| in_buffer := in_buffer s |> <| in_bits := in_bits s |> = s) by (by destruct s).
    cbv zeta. rewrite Es, E. cbn [Z.eqb negb andb]. split_and!; try lia; done.
  - destruct (Z.ltb_spec (in_bits s) (bits_per_sample s)) as [Hlt|Hge]; cbn [mbind option_bind].
    + do 4 eexists. cbv zeta. split; [by destruct s|].
      destruct s as [? ? ? bs ? ? ? ib nb ? ?]; cbn in *.
      destruct (Z.leb_spec bs nb); [lia|]. destruct (Z.leb_spec bs (nb + 8 - bs)), (Z.eqb_spec packed0 0); try done; cbn;
      split_and!; try lia; intros; done.
    + do 4 eexists. cbv zeta. split; [by destruct s|].
      destruct s as [? ? ? bs ? ? ? ib nb ? ?]; cbn in *.
      destruct (Z.leb_spec bs (nb - bs)); [lia|]. destruct (Z.leb_spec bs nb); [|lia]. destruct (Z.eqb_spec packed0 0); [done|]. cbn.
      split_and!; try lia; intros; done.
Qed.

Lemma decode_bands_ok s code rhigh : codec_ok s -> -16384 <= rhigh <= 16383 -> exists rlow rhigh' b0 b1,
  let s' := s <| band0 := b0 |> <| band1 := b1 |> in
  decode_bands i32 s code rhigh = Some (rlow, rhigh', s') /\ decode_bands plain s code rhigh = Some (rlow, rhigh', s') /\ codec_ok s' /\
  -16384 <= rlow <= 16383 /\ -16384 <= rhigh' <= 16383 /\
  follow_one (bits_per_sample s) (eight_k s) code (band0 s) (band1 s) = Some (b0, b1).
Proof.
  intros [Hb Hx Hl Hh] Hr. unfold decode_bands, follow_one. destruct (fields_ok (bits_per_sample s) code Hb) as (wd1 & ihigh & wd2 & -> & H1 & H2 & H3).
  cbn [mbind option_bind]. destruct (decode_low_ok (band0 s) wd1 wd2 Hl H1 H3) as (b0 & U0 & Hb0 & -> & ->). rewrite U0. cbn [mbind option_bind].
  pose proof (limit14_range (b_s (band0 s) + Z.shiftr (b_det (band0 s) * wd2) 15)) as Hlim. set (rlow := limit14 _) in *. clearbody rlow.
  destruct (eight_k (s <| band0 := b0 |>) =? 0) eqn:E8; change (eight_k (s <| band0 := b0 |>)) with (eight_k s) in *; rewrite E8; cbn [negb].
  - change (band1 (s <| band0 := b0 |>)) with (band1 s).
    destruct (decode_high_ok (band1 s) ihigh Hh H2) as (rh & b1 & U1 & Hb1 & Hrh & -> & ->). rewrite U1. cbn [mbind option_bind].
    exists rlow, rh, b0, b1. do 2 (split; [done|]). split; [by constructor|]. done.
  - exists rlow, rhigh, b0, (band1 s). assert (Es : s <| band0 := b0 |> <| band1 := band1 s |> = s <| band0 := b0 |>) by (by destruct s).
    cbv zeta. rewrite Es. do 2 (split; [done|]). split; [by constructor|]. done.
Qed.

(** Samples of a turn of the decoder. *)
Definition per_code (s : G722DecoderState) : Z := if negb (itu_test_mode s =? 0) then 2 else if negb (eight_k s =? 0) then 1 else 2.

Lemma join_bands_ok s rlow rhigh amp : codec_ok s -> -16384 <= rlow <= 16383 -> -16384 <= rhigh <= 16383 -> exists hist out,
  join_bands i32 s rlow rhigh amp = (s <| x := hist |>, amp ++ out) /\ join_bands plain s rlow rhigh amp = (s <| x := hist |>, amp ++ out) /\
  zlen hist = 24 /\ Forall in_i16 hist /\ zlen out = per_code s /\ Forall in_i16 out.
Proof.
  intros [Hb [Hx Hx'] Hl Hh] Hrl Hrh. unfold join_bands, per_code. assert (Hs : s = s <| x := x s |>) by (by destruct s).
  destruct (itu_test_mode s =? 0); cbn [negb]; [destruct (eight_k s =? 0); cbn [negb]|].
  - rewrite (i32_plain (rlow + rhigh)), (i32_plain (rlow - rhigh)) by (unfold in_i32; lia). unfold plain.
    destruct (shuffle_ok (x s) (rlow + rhigh) (rlow - rhigh) Hx Hx') as [S1 S2]; [unfold in_i16; lia|unfold in_i16; lia|].
    set (h := shuffle (x s) _ _) in *. clearbody h. change (x (s <| x := h |>)) with h. destruct (qmf_ok h S2) as (E & _ & _). unfold plain in E. rewrite E.
    destruct (qmf (fun v => v) h) as [o1 o2]. exists h. eexists. do 2 (split; [reflexivity|]). split; [done|]. split; [done|]. split; [done|].
    constructor; [apply saturated_i16|]. constructor; [apply saturated_i16|constructor].
  - exists (x s). eexists. rewrite <- Hs. do 2 (split; [reflexivity|]). split; [done|]. split; [done|]. split; [done|]. constructor; [apply i16_range|constructor].
  - exists (x s). eexists. rewrite <- Hs. do 2 (split; [reflexivity|]). split; [done|]. split; [done|]. split; [done|].
    constructor; [apply i16_range|]. constructor; [apply i16_range|constructor].
Qed.

Lemma decode_loop_ok fuel g722_data j rhigh s amp : codec_ok s -> buffer_ok s -> -16384 <= rhigh <= 16383 -> 0 <= j <= zlen g722_data ->
  turns s (zlen g722_data) j <= Z.of_nat fuel -> exists out s',
  decode_loop i32 fuel g722_data (zlen g722_data) j rhigh s amp = Some (amp ++ out, s') /\
  decode_loop plain fuel g722_data (zlen g722_data) j rhigh s amp = Some (amp ++ out, s') /\
  codec_ok s' /\ buffer_ok s' /\ Forall in_i16 out /\ settings s' = settings s /\
  (packed s = 0 -> zlen out = per_code s * (zlen g722_data - j) /\
    follow (bits_per_sample s) (eight_k s) (drop (Z.to_nat j) g722_data) (band0 s) (band1 s) = Some (band0 s', band1 s')).
Proof.
  revert j rhigh s amp. induction fuel as [|fuel IH]; intros j rhigh s amp Hs Hbuf Hrh Hj Hf; cbn [decode_loop]; destruct (Z.ltb_spec j (zlen g722_data)) as [Hlt|Hge].
  1: unfold turns in Hf; destruct (_ && _); lia.
  1, 3: exists [], s; rewrite app_nil_r; do 6 (split; [done|]); intros _; rewrite drop_ge by lia; split; [replace (zlen g722_data - j) with 0 by lia; by rewrite Z.mul_0_r|done].
  destruct (next_code_ok s g722_data j (co_bits _ Hs) Hbuf ltac:(lia)) as (buf & bits & j' & code & -> & Hbuf1 & Hj' & Ht & Hcode). cbn [mbind option_bind].
  set (s1 := s <| in_buffer := buf |> <| in_bits := bits |>) in *. assert (Hs1 : codec_ok s1) by (destruct Hs; by constructor).
  destruct (decode_bands_ok s1 code rhigh Hs1 Hrh) as (rlow & rhigh' & b0 & b1 & -> & -> & Hs2 & Hrl & Hrh' & U). cbn [mbind option_bind].
  set (s2 := s1 <| band0 := b0 |> <| band1 := b1 |>) in *.
  destruct (join_bands_ok s2 rlow rhigh' amp Hs2 Hrl Hrh') as (h & out & -> & -> & Hh & Hh' & Hlen & Hout).
  set (s3 := s2 <| x := h |>) in *. assert (Hs3 : codec_ok s3) by (destruct Hs2; by constructor).
  destruct (IH j' rhigh' s3 (amp ++ out) Hs3 Hbuf1 Hrh') as (rest & s4 & F1 & F2 & Hs4 & Hbuf4 & Hrest & Epk & Hfin).
  1: lia.
  1: change (turns s3 (zlen g722_data) j') with (turns s1 (zlen g722_data) j'); lia.
  exists (out ++ rest), s4. rewrite F1, F2, <- app_assoc. do 4 (split; [done|]). split; [by apply Forall_app|]. split; [exact Epk|]. intros Hpk.
  destruct (Hcode Hpk) as [-> Ec]. destruct (Hfin Hpk) as [Hl Hfol]. change (per_code s3) with (per_code s) in Hl. change (per_code s2) with (per_code s) in Hlen.
  split; [rewrite length_app; nia|]. unfold aget in Ec. destruct (Z.leb_spec 0 j); [|lia]. rewrite (drop_S _ _ _ Ec). cbn [follow].
  change (follow_one (bits_per_sample s) (eight_k s) code (band0 s) (band1 s) = Some (b0, b1)) in U. rewrite U. cbn [mbind option_bind].
  replace (S (Z.to_nat j)) with (Z.to_nat (j + 1)) by lia. exact Hfol.
Qed.

(** ** Whole calls *)

Lemma init_ok rate options : let s := reset_state rate options in codec_ok s /\ buffer_ok s /\ itu_test_mode s = 0.
Proof.
  cbv zeta. split; [|split; [split; cbn; lia|done]]. constructor.
  - unfold rate_ok, reset_state; cbn. destruct (rate =? 48000); [by left|]. destruct (rate =? 56000); [right; by left|right; by right].
  - split; [done|]. by apply Forall_replicate.
  - constructor; try (split; [done|]); try (unfold in_i16; cbn; lia); try done; by apply Forall_replicate.
  - constructor; try (split; [done|]); try (unfold in_i16; cbn; lia); try done; by apply Forall_replicate.
Qed.

Lemma encode_ok s amp : codec_ok s -> Forall in_i16 amp -> (one_sample s = true \/ zlen amp mod 2 = 0) -> exists data s',
  WebRtc_g722_encode i32 s amp (zlen amp) = Some (data, s') /\ WebRtc_g722_encode plain s amp (zlen amp) = Some (data, s') /\
  codec_ok s' /\ Forall in_u8 data /\ settings s' = settings s /\
  (packed s = 0 -> zlen data * (if one_sample s then 1 else 2) = zlen amp /\
    follow (bits_per_sample s) (eight_k s) data (band0 s) (band1 s) = Some (band0 s', band1 s')).
Proof.
  intros Hs Hamp Hp. destruct (encode_loop_ok (Z.to_nat (zlen amp)) amp 0 0 s [] Hs Hamp) as (data & s' & H);
    [unfold in_i16; lia|lia|lia|by rewrite Z.sub_0_r|]. exists data, s'. rewrite Z.sub_0_r in H. exact H.
Qed.

Lemma decode_ok s g722_data : codec_ok s -> buffer_ok s -> exists amp s',
  WebRtc_g722_decode i32 s g722_data (zlen g722_data) = Some (amp, s') /\ WebRtc_g722_decode plain s g722_data (zlen g722_data) = Some (amp, s') /\
  codec_ok s' /\ buffer_ok s' /\ Forall in_i16 amp /\ settings s' = settings s /\
  (packed s = 0 -> zlen amp = per_code s * zlen g722_data /\
    follow (bits_per_sample s) (eight_k s) g722_data (band0 s) (band1 s) = Some (band0 s', band1 s')).
Proof.
  intros Hs Hbuf. destruct (decode_loop_ok (2 * Z.to_nat (zlen g722_data) + 1) g722_data 0 0 s [] Hs Hbuf) as (amp & s' & H); [lia|lia| |].
  - unfold turns. destruct (_ && _); lia.
  - exists amp, s'. rewrite Z.sub_0_r in H. exact H.
Qed.

(** ** A talk over the interface *)

(** The frames go through the encoder, each packet at once through the decoder: the
    samples that come out. *)
Fixpoint transmit (frames : list (list Z)) (s : G722EncoderState) (t : G722DecoderState)
    : option (list (list Z) * G722EncoderState * G722DecoderState) :=
  match frames with
  | [] => Some ([], s, t)
  | speechIn :: frames =>
      let* (encoded, s) := WebRtcG722_Encode s speechIn (zlen speechIn) in
      let* (decoded, _, t) := WebRtcG722_Decode t encoded (zlen encoded) in
      let* (rest, s, t) := transmit frames s t in
      Some (decoded :: rest, s, t)
  end.

(** A frame that the encoder can be given. *)
Definition frame_ok (s : G722EncoderState) (amp : list Z) : Prop := Forall in_i16 amp /\ (one_sample s = true \/ zlen amp mod 2 = 0).

(** The two ends of a talk with one byte per code. *)
Record in_step (s : G722EncoderState) (t : G722DecoderState) : Prop := mkInStep {
  is_encoder : codec_ok s;
  is_decoder : codec_ok t /\ buffer_ok t;
  is_settings : settings t = settings s;
  is_plain : itu_test_mode s = 0 /\ packed s = 0;
  is_bands : band0 t = band0 s /\ band1 t = band1 s }.

Lemma frame_ok_settings s s' amp : settings s' = settings s -> frame_ok s amp -> frame_ok s' amp.
Proof. intros E [H1 H2]. split; [done|]. destruct (settings_one _ _ E) as (E1 & _ & E2 & _). unfold one_sample in *. by rewrite E1, E2. Qed.

Lemma transmit_frame s t amp : in_step s t -> frame_ok s amp -> exists encoded s' decoded t',
  WebRtcG722_Encode s amp (zlen amp) = Some (encoded, s') /\
  WebRtcG722_Decode t encoded (zlen encoded) = Some (decoded, G722_WEBRTC_SPEECH, t') /\
  in_step s' t' /\ settings s' = settings s /\ zlen decoded = zlen amp /\ Forall in_i16 decoded.
Proof.
  intros [Hs [Ht Hbuf] Eset [Eitu Epk] [EB0 EB1]] [Hamp Hp]. destruct (settings_one _ _ Eset) as (Ti & Tp & T8 & Tb).
  destruct (encode_ok s amp Hs Hamp Hp) as (data & s' & E & _ & Hs' & _ & Es' & Henc). destruct (Henc Epk) as [Hlen Hfol].
  destruct (decode_ok t data Ht Hbuf) as (out & t' & D & _ & Ht' & Hbuf' & Hout & Et' & Hdec). destruct (Hdec ltac:(congruence)) as [Hlen' Hfol'].
  rewrite Tb, T8, EB0, EB1, Hfol in Hfol'. injection Hfol' as EB0' EB1'.
  exists data, s', out, t'. unfold WebRtcG722_Encode, WebRtcG722_Decode. rewrite D. do 2 (split; [done|]).
  destruct (settings_one _ _ Es') as (Si & Sp & _ & _). split; [|split; [done|split; [|done]]].
  - constructor; [done|done|congruence|by rewrite Si, Sp|done].
  - rewrite Hlen', <- Hlen. unfold per_code, one_sample. rewrite Ti, T8, Eitu. cbn [Z.eqb negb orb]. destruct (eight_k s =? 0); cbn [negb]; lia.
Qed.

(** C7. The decoder stays in step with the encoder. Both ends have the same settings, with one
    byte per code (the packed format is left out: there the last code of a packet can stay in
    the buffer of the decoder, see [packed_code_is_held]), and start from the same predictors. The
    frames have an even number of 16-bit samples, or any number where a code stands for one sample. Then
    each packet of the encoder is decoded to as many samples as the frame had - not, as the
    header says, to a multiple of 80 - and after it the predictor and the quantiser scale of
    both bands are the same at both ends. *)
Theorem g722_in_step s t frames : in_step s t -> Forall (frame_ok s) frames -> exists decoded s' t',
  transmit frames s t = Some (decoded, s', t') /\ in_step s' t' /\
  Forall2 (fun amp out => zlen out = zlen amp /\ Forall in_i16 out) frames decoded.
Proof.
  intros Hst Hf. revert s t Hst Hf. induction frames as [|amp frames IH]; intros s t Hst Hf.
  - exists [], s, t. split; [done|]. split; [done|constructor].
  - destruct (Forall_cons_1 _ _ _ Hf) as [Ha Hf']. destruct (transmit_frame s t amp Hst Ha) as (data & s1 & out & t1 & E & D & Hst1 & Es & Hl & Ho).
    destruct (IH s1 t1 Hst1) as (rest & s2 & t2 & T & Hst2 & HF).
    { refine (Forall_impl _ _ Hf'). intros f. by apply frame_ok_settings. }
    exists (out :: rest), s2, t2. cbn [transmit]. rewrite E. cbn [mbind option_bind]. rewrite D. cbn [mbind option_bind]. rewrite T.
    split; [done|]. split; [done|]. by constructor.
Qed.

Lemma init_in_step rate options : Z.land options G722_PACKED = 0 \/ rate <> 48000 /\ rate <> 56000 ->
  in_step (reset_state rate options) (reset_state rate options).
Proof.
  intros H. destruct (init_ok rate options) as (H1 & H2 & H3). constructor; try done. split; [done|].
  cbn. destruct H as [->|[Ha Hb]]; [done|]. destruct (Z.eqb_spec rate 48000); [done|]. destruct (Z.eqb_spec rate 56000); [done|]. by rewrite andb_false_r.
Qed.

Lemma g722_in_step_witness : let s := reset_state 64000 2 in in_step s s /\ Forall (frame_ok s) [[100; -2000; 32767; 5]; []; [7; 8]] /\
  exists decoded s' t', transmit [[100; -2000; 32767; 5]; []; [7; 8]] s s = Some (decoded, s', t') /\ in_step s' t' /\
    Forall2 (fun amp out => zlen out = zlen amp /\ Forall in_i16 out) [[100; -2000; 32767; 5]; []; [7; 8]] decoded.
Proof.
  cbv zeta. assert (H1 : in_step (reset_state 64000 2) (reset_state 64000 2)) by (apply init_in_step; by right).
  assert (H2 : Forall (frame_ok (reset_state 64000 2)) [[100; -2000; 32767; 5]; []; [7; 8]]).
  { repeat first [apply Forall_nil_2|apply Forall_cons_2; [split; [forall_i16|right; vm_compute; done]|]]. }
  split; [exact H1|]. split; [exact H2|]. exact (g722_in_step _ _ _ H1 H2).
Defined.

(** *** No expression overflows *)






(** *** The error of the quantiser *)

(** The decoder's level of six bits against the decision levels around it, in eighths. *)
Definition level_fits (i : Z) (neg : bool) : bool :=
  match (if neg then aget iln i else aget ilp i) with
  | Some code => match aget qm6 code with
      | Some m => let a := 8 * znth q6 (i - 1) in let b := 8 * znth q6 i in let m := if neg then - m else m in
          (a <=? m) && (m <=? b) && (m - a <=? 1448) && (b - m <=? 1448) | None => false end
  | None => false
  end.

Lemma levels_check : all_from (fun i => level_fits i true && level_fits i false) 1 29 = true.
Proof. vm_compute. reflexivity. Qed.

Lemma level_error i (neg : bool) det el code m : 1 <= i <= 29 -> 8 <= det <= 16384 ->
  (if neg then aget iln i else aget ilp i) = Some code -> aget qm6 code = Some m ->
  let wd := if neg then - (el + 1) else el in (1 < i -> level (i - 1) det <= wd) -> 0 <= wd < level i det ->
  4096 * Z.abs (el - Z.shiftr (det * m) 15) <= 181 * det + 8192.
Proof.
  intros Hi Hd Ec Em wd Hge Hlt. pose proof (all_from_spec _ _ _ levels_check i ltac:(lia)) as H. cbv beta in H.
  apply andb_true_iff in H as [Hn Hp]. assert (H : level_fits i neg = true) by (by destruct neg). clear Hn Hp.
  unfold level_fits in H. rewrite Ec, Em in H. cbv zeta in H. assert (Hge' : level (i - 1) det <= wd).
  { destruct (Z.eq_dec i 1) as [->|]; [|apply Hge; lia]. change (level (1 - 1) det) with (Z.shiftr 0 12). change (Z.shiftr 0 12) with 0. lia. }
  unfold level in Hge', Hlt. rewrite Z.shiftr_div_pow2 in * by lia. change (2 ^ 12) with 4096 in *. change (2 ^ 15) with 32768.
  set (a := znth q6 (i - 1)) in *. set (b := znth q6 i) in *. clearbody a b. rewrite !andb_true_iff, !Z.leb_le in H. destruct H as (((H1 & H2) & H3) & H4).
  assert (P1 : a * det * 8 <= (if neg then - m else m) * det) by nia. assert (P2 : (if neg then - m else m) * det <= b * det * 8) by nia.
  assert (P3 : (if neg then - m else m) * det - a * det * 8 <= 1448 * det) by nia. assert (P4 : b * det * 8 - (if neg then - m else m) * det <= 1448 * det) by nia.
  rewrite (Z.mul_comm det m). replace ((if neg then - m else m) * det) with (if neg then - (m * det) else m * det) in * by (destruct neg; lia).
  set (A := a * det) in *. set (B := b * det) in *. set (M := m * det) in *. clearbody A B M. unfold wd in *. destruct neg; dlia.
Qed.

(** C24. The error of the low band at 64 kbit/s, in a band that keeps the bounds [low_ok]: when the difference of a sample, of any 16-bit value, from its
    prediction is not beyond the last decision level, the decoder's sample for the code is
    within 181/4096 of the quantiser scale (and two units of rounding) of the encoder's
    sample limited to 15 bits, as the decoder limits its own, and the decoder's band goes to the encoder's. The encoder does not limit
    the sample: beyond 15 bits, where the splitting filter can take it, the limit adds to the error. *)
Theorem g722_low_band_error band xlow ilow band' ihigh : low_ok band -> in_i16 xlow -> 0 <= ihigh < 4 ->
  encode_low i32 band xlow = Some (ilow, band') ->
  Z.max (xlow - b_s band) (- (xlow - b_s band + 1)) < level 29 (b_det band) ->
  exists wd1 wd2 rlow, fields 8 (code_of 8 ilow ihigh) = Some (wd1, ihigh, wd2) /\ decode_low i32 band wd1 wd2 = Some (rlow, band') /\
    4096 * Z.abs (rlow - limit14 xlow) <= 181 * b_det band + 8192.
Proof.
  intros Hb Hx Hih He Hlev. pose proof (band_det _ _ _ ltac:(by left) Hb) as Hdet. pose proof (bo_s _ _ _ Hb) as Hs.
  destruct (encode_low_ok band xlow Hb Hx) as (c & bb & E & _ & Hc & U & _). rewrite He in E. injection E as <- <-.
  destruct (fields_code 8 ilow ihigh ltac:(right; by right) Hc Hih) as (_ & wd2 & F & Hw2).
  assert (Hr : 0 <= Z.shiftr ilow 2 < 16) by (rewrite Z.shiftr_div_pow2 by lia; change (2 ^ 2) with 4; dlia).
  destruct (decode_low_ok band (Z.shiftr ilow 2) wd2 Hb Hr Hw2) as (bb & U' & _ & D & _). rewrite U in U'. injection U' as <-.
  exists (Z.shiftr ilow 2), wd2. eexists. split; [exact F|]. split; [exact D|].
  assert (Em : aget qm6 ilow = Some wd2).
  { assert (El : Z.land (code_of 8 ilow ihigh) 63 = ilow).
    { unfold code_of. change (8 - 8) with 0. rewrite Z.shiftr_0_r, Z.land_lor_distr_l.
      replace (Z.land (Z.shiftl ihigh 6) 63) with 0 by (assert (ihigh = 0 \/ ihigh = 1 \/ ihigh = 2 \/ ihigh = 3) as [->|[->|[->| ->]]] by lia; done).
      rewrite Z.lor_0_l. change 63 with (Z.ones 6). rewrite Z.land_ones by lia. by apply Z.mod_small. }
    cbn [fields] in F. rewrite El in F. destruct (aget qm6 ilow) as [m|]; [|done]. by injection F as _ ->. }
  assert (L29 : level 29 (b_det band) <= 11676).
  { unfold level. change (znth q6 29) with 2919. rewrite Z.shiftr_div_pow2 by lia. change (2 ^ 12) with 4096. dlia. }
  assert (Ei : exists i, 1 <= i <= 29 /\ (if xlow - b_s band <? 0 then aget iln i else aget ilp i) = Some ilow /\
    let wd := if xlow - b_s band <? 0 then - (xlow - b_s band + 1) else xlow - b_s band in (1 < i -> level (i - 1) (b_det band) <= wd) /\ 0 <= wd < level i (b_det band)).
  { unfold encode_low in He. cbv zeta in He. rewrite i32_plain in He by (unfold in_i16, in_i32 in *; lia). unfold plain in He.
    rewrite saturate_clamp in He. replace (Z.max (-32768) (Z.min 32767 (xlow - b_s band))) with (xlow - b_s band) in He by lia.
    set (el := xlow - b_s band) in *. clearbody el.
    set (wd := if el >=? 0 then el else - (el + 1)) in *. assert (Ewd : wd = if el <? 0 then - (el + 1) else el).
    { unfold wd. destruct (Z.geb_spec el 0), (Z.ltb_spec el 0); lia. }
    assert (Hwd : 0 <= wd < level 29 (b_det band)) by (rewrite Ewd; destruct (Z.ltb_spec el 0); lia).
    destruct (quantl_ok 29 1 wd (b_det band) Hdet ltac:(lia) ltac:(lia)) as (i & Eq & _ & Hi & Hlt & Hge). rewrite Eq in He. cbn [mbind option_bind] in He.
    destruct (if el <? 0 then aget iln i else aget ilp i) as [c'|] eqn:Ec; [|done]. cbn [mbind option_bind] in He.
    assert (Ecc : c' = ilow).
    { destruct (aget qm4 (Z.shiftr c' 2)); [|done]. cbn [mbind option_bind] in He. destruct (aget rl42 (Z.shiftr c' 2)) as [r|]; [|done]. cbn [mbind option_bind] in He.
      destruct (aget wl r); [|done]. cbn [mbind option_bind] in He. destruct (scale i32 8 _); [|done]. cbn [mbind option_bind] in He. by injection He. }
    subst c'. exists i. cbv zeta. rewrite <- Ewd. destruct (Z.eq_dec i 30) as [->|Hn]; [specialize (Hge ltac:(lia)); change (30 - 1) with 29 in Hge; lia|].
    split; [lia|]. split; [done|]. split; [exact Hge|]. split; [lia|]. apply Hlt. lia. }
  destruct Ei as (i & Hi & Ec & Hge & Hlt).
  pose proof (level_error i _ (b_det band) (xlow - b_s band) ilow wd2 Hi Hdet Ec Em Hge Hlt) as Herr.
  unfold limit14. set (d := Z.shiftr (b_det band * wd2) 15) in *. clearbody d.
  destruct (Z.gtb_spec (b_s band + d) 16383), (Z.ltb_spec (b_s band + d) (-16384)), (Z.gtb_spec xlow 16383), (Z.ltb_spec xlow (-16384)); lia.
Qed.

Lemma g722_low_band_error_witness : low_ok (zero_band 32) /\ exists ilow band', encode_low i32 (zero_band 32) (-17) = Some (ilow, band') /\
  exists wd1 wd2 rlow, fields 8 (code_of 8 ilow 2) = Some (wd1, 2, wd2) /\ decode_low i32 (zero_band 32) wd1 wd2 = Some (rlow, band') /\
    4096 * Z.abs (rlow - limit14 (-17)) <= 181 * b_det (zero_band 32) + 8192.
Proof.
  assert (H : low_ok (zero_band 32)) by apply (co_low _ (proj1 (init_ok 64000 2))). split; [exact H|].
  destruct (encode_low_ok (zero_band 32) (-17) H ltac:(unfold in_i16; lia)) as (ilow & band' & E & _). exists ilow, band'. split; [exact E|].
  apply (g722_low_band_error (zero_band 32) (-17) ilow band' 2 H ltac:(unfold in_i16; lia) ltac:(lia) E). vm_compute. reflexivity.
Defined.

(** *** Boundaries *)

(** With two samples per code, a count that is odd makes the last turn read the sample
    behind the input. *)
Lemma odd_count_reads_past_the_end : WebRtcG722_Encode (reset_state 64000 2) [5] 1 = None /\
  exists data s, WebRtcG722_Encode (reset_state 64000 2) [5; 0] 1 = Some (data, s) /\ zlen data = 1.
Proof. split; [vm_compute; reflexivity|]. do 2 eexists. split; [vm_compute; reflexivity|done]. Qed.

(** Four codes of six bits are three bytes; the decoder gives the samples of three, and holds
    the fourth code back in its buffer until it is called with the next packet. *)
Lemma packed_code_is_held : match WebRtc_g722_encode i32 (reset_state 48000 2) (zreplicate 8 100) 8 with
  | Some (data, s) => zlen data = 3 /\ out_bits s = 0 /\
      match WebRtc_g722_decode i32 (reset_state 48000 2) data 3 with
      | Some (amp, t) => zlen amp = 6 /\ in_bits t = bits_per_sample t | None => False end
  | None => False
  end.
Proof. vm_compute. done. Qed.

(** Without an instance the initialisation reports success, and the memory it has allocated is
    lost; the creation functions report the lack of memory. *)
Lemma g722_interface_errors G722enc_inst memory s : 
  WebRtcG722_EncoderInit None (Some s) = (0, None) /\ WebRtcG722_EncoderInit None None = (-1, None) /\
  WebRtcG722_EncoderInit (Some G722enc_inst) memory = (0, Some (reset_state 64000 2)) /\
  WebRtcG722_CreateEncoder None = (-1, None) /\ WebRtcG722_CreateDecoder None = (-1, None) /\
  WebRtcG722_DecoderInit None None = None /\ WebRtcG722_DecoderInit (Some G722enc_inst) memory = Some (Some (reset_state 64000 2)).
Proof. done. Qed.
(** The version is written when its seven bytes fit the length; a negative length is taken
    for a large one. *)
Lemma g722_version versionStr len : in_i16 len ->
  (0 <= len <= 6 -> WebRtcG722_Version versionStr len = Some (-1, versionStr)) /\
  (7 <= len \/ len < 0 -> 7 <= zlen versionStr -> WebRtcG722_Version versionStr len = Some (0, splice versionStr 0 [50; 46; 48; 46; 48; 10; 0])) /\
  (len < 0 -> zlen versionStr < 7 -> WebRtcG722_Version versionStr len = None).
Proof.
  unfold in_i16, WebRtcG722_Version, u32. intros Hl. split_and!.
  - intros H. destruct (Z.ltb_spec 6 (len mod 4294967296)); [dlia|done].
  - intros H Hv. destruct (Z.ltb_spec 6 (len mod 4294967296)); [|dlia]. rewrite (proj2 (range_ok_spec _ _ _)) by lia. done.
  - intros H Hv. destruct (Z.ltb_spec 6 (len mod 4294967296)); [|dlia]. destruct (range_ok versionStr 0 7) eqn:E; [|done]. apply range_ok_spec in E. lia.
Qed.

End G722Spec.
