(* ===== verification/LinPred.v ===== *)
(** Linear prediction in the signal processing library, under
    common_audio/signal_processing: spl_sqrt.c, get_hanning_window.c,
    auto_correlation.c, levinson_durbin.c, filter_ar.c, WebRtcSpl_DivW32HiLow of
    division_operations.c and WebRtcSpl_ElementwiseVectorMult of ilbc_specific_functions.c.

    A local array that the code fills from its front is the list of what has been stored, so that
    an entry that has not been stored yet is [None]. *)

From S2P Require Import Prelude SplInl SplVec.

Module LinPred.
Import Spl SplVec.

(** A value of 32 bits as a high part and 15 low bits. *)
Definition hi16 (v : Z) : Z := i16 (Z.shiftr v 16).
Definition low15 (v : Z) : Z := i16 (Z.shiftr (i32 (v - i32 (Z.shiftl (hi16 v) 16))) 1).

Definition WEBRTC_SPL_LSHIFT_W32 (x c : Z) : Z := i32 (Z.shiftl x c).

(** ** spl_sqrt.c *)

Definition WebRtcSpl_SqrtLocal (in_ : Z) : Z :=
  let B := c_div in_ 2 in
  let B := i32 (B - 1073741824) in
  let x_half := i16 (Z.shiftr B 16) in
  let B := i32 (B + 1073741824) in
  let B := i32 (B + 1073741824) in
  let x2 := i32 (i32 (x_half * x_half) * 2) in
  let A := i32 (- x2) in
  let B := i32 (B + Z.shiftr A 1) in
  let A := Z.shiftr A 16 in
  let A := i32 (i32 (A * A) * 2) in
  let t16 := i16 (Z.shiftr A 16) in
  let B := i32 (B + i32 (i32 (-20480 * t16) * 2)) in
  let A := i32 (i32 (x_half * t16) * 2) in
  let t16 := i16 (Z.shiftr A 16) in
  let B := i32 (B + i32 (i32 (28672 * t16) * 2)) in
  let t16 := i16 (Z.shiftr x2 16) in
  let A := i32 (i32 (x_half * t16) * 2) in
  let B := i32 (B + Z.shiftr A 1) in
  i32 (B + 32768).

Definition WebRtcSpl_Sqrt (value : Z) : option Z :=
  let k_sqrt_2 := 23170 in
  let A := value in
  if A =? 0 then Some 0 else
  let sh := i16 (WebRtcSpl_NormW32 A) in
  let A := WEBRTC_SPL_LSHIFT_W32 A sh in
  let A := if A <? WEBRTC_SPL_WORD32_MAX - 32767 then i32 (A + 32768) else WEBRTC_SPL_WORD32_MAX in
  let x_norm := i16 (Z.shiftr A 16) in
  let nshift := i16 (c_div sh 2) in
  let* _ := c_assert (nshift >=? 0) in
  let A := WEBRTC_SPL_LSHIFT_W32 x_norm 16 in
  let A := WEBRTC_SPL_ABS_W32 A in
  let A := WebRtcSpl_SqrtLocal A in
  let A :=
    if 2 * nshift =? sh then
      let t16 := i16 (Z.shiftr A 16) in
      let A := i32 (i32 (k_sqrt_2 * t16) * 2) in
      let A := i32 (A + 32768) in
      let A := Z.land A 2147418112 in
      Z.shiftr A 15
    else Z.shiftr A 16 in
  let A := Z.land A 65535 in
  Some (Z.shiftr A nshift).

(** ** division_operations.c *)

Definition WebRtcSpl_DivW32HiLow (num den_hi den_low : Z) : Z :=
  let approx := i16 (WebRtcSpl_DivW32W16 536870911 den_hi) in
  let tmpW32 := i32 (i32 (Z.shiftl (i32 (den_hi * approx)) 1) + i32 (Z.shiftl (Z.shiftr (i32 (den_low * approx)) 15) 1)) in
  let tmpW32 := i32 (2147483647 - tmpW32) in
  let tmp_hi := hi16 tmpW32 in
  let tmp_low := low15 tmpW32 in
  let tmpW32 := i32 (Z.shiftl (i32 (i32 (tmp_hi * approx) + Z.shiftr (i32 (tmp_low * approx)) 15)) 1) in
  let tmp_hi := hi16 tmpW32 in
  let tmp_low := low15 tmpW32 in
  let num_hi := hi16 num in
  let num_low := low15 num in
  let tmpW32 := i32 (i32 (i32 (num_hi * tmp_hi) + Z.shiftr (i32 (num_hi * tmp_low)) 15) + Z.shiftr (i32 (num_low * tmp_hi)) 15) in
  WEBRTC_SPL_LSHIFT_W32 tmpW32 3.

(** ** get_hanning_window.c, ilbc_specific_functions.c *)

Definition kHanningTable : list Z :=
  [1; 2; 6; 10; 15; 22; 30; 39; 50; 62; 75; 89; 104; 121; 138; 157;
   178; 199; 222; 246; 271; 297; 324; 353; 383; 413; 446; 479; 513; 549; 586; 624;
   663; 703; 744; 787; 830; 875; 920; 967; 1015; 1064; 1114; 1165; 1218; 1271; 1325; 1381;
   1437; 1494; 1553; 1612; 1673; 1734; 1796; 1859; 1924; 1989; 2055; 2122; 2190; 2259; 2329; 2399;
   2471; 2543; 2617; 2691; 2765; 2841; 2918; 2995; 3073; 3152; 3232; 3312; 3393; 3475; 3558; 3641;
   3725; 3809; 3895; 3980; 4067; 4154; 4242; 4330; 4419; 4509; 4599; 4689; 4781; 4872; 4964; 5057;
   5150; 5244; 5338; 5432; 5527; 5622; 5718; 5814; 5910; 6007; 6104; 6202; 6299; 6397; 6495; 6594;
   6693; 6791; 6891; 6990; 7090; 7189; 7289; 7389; 7489; 7589; 7690; 7790; 7890; 7991; 8091; 8192;
   8293; 8393; 8494; 8594; 8694; 8795; 8895; 8995; 9095; 9195; 9294; 9394; 9493; 9593; 9691; 9790;
   9889; 9987; 10085; 10182; 10280; 10377; 10474; 10570; 10666; 10762; 10857; 10952; 11046; 11140; 11234; 11327;
   11420; 11512; 11603; 11695; 11785; 11875; 11965; 12054; 12142; 12230; 12317; 12404; 12489; 12575; 12659; 12743;
   12826; 12909; 12991; 13072; 13152; 13232; 13311; 13389; 13466; 13543; 13619; 13693; 13767; 13841; 13913; 13985;
   14055; 14125; 14194; 14262; 14329; 14395; 14460; 14525; 14588; 14650; 14711; 14772; 14831; 14890; 14947; 15003;
   15059; 15113; 15166; 15219; 15270; 15320; 15369; 15417; 15464; 15509; 15554; 15597; 15640; 15681; 15721; 15760;
   15798; 15835; 15871; 15905; 15938; 15971; 16001; 16031; 16060; 16087; 16113; 16138; 16162; 16185; 16206; 16227;
   16246; 16263; 16280; 16295; 16309; 16322; 16334; 16345; 16354; 16362; 16369; 16374; 16378; 16382; 16383; 16384].

Definition WebRtcSpl_GetHanningWindow (v : list Z) (size : Z) : option (list Z) :=
  let factor := WebRtcSpl_DivW32W16 1073741824 (i16 size) in
  let index := if size <? 513 then -2097152 else -1048576 in
  let* (_, v) := for_loop (fun jj '(index, v) =>
    let index := i32 (index + factor) in
    let* h := aget kHanningTable (Z.shiftr index 22) in
    let* v := aset v jj h in
    Some (index, v)) 0 (Z.to_nat size) (index, v) in
  Some v.

Definition WebRtcSpl_ElementwiseVectorMult (out in_ win : list Z) (vector_length right_shifts : Z) : option (list Z) :=
  for_loop (fun i out =>
    let* a := aget in_ i in
    let* b := aget win i in
    aset out i (i16 (Z.shiftr (i32 (a * b)) right_shifts))) 0 (Z.to_nat vector_length) out.

(** ** auto_correlation.c *)

(** Of the two loops the first, unrolled by four, leaves the last products to the
    second. *)
Definition correlation_at (in_vector : list Z) (scaling i : Z) : option Z :=
  for_loop (fun j sum =>
    let* a := aget in_vector j in
    let* b := aget in_vector (i + j) in
    Some (i32 (sum + Z.shiftr (i32 (a * b)) scaling))) 0 (Z.to_nat (zlen in_vector - i)) 0.

Definition correlation_scaling (in_vector : list Z) : option Z :=
  let* smax := WebRtcSpl_MaxAbsValueW16C in_vector in
  if smax =? 0 then Some 0 else
  let nbits := WebRtcSpl_GetSizeInBits (u32 (zlen in_vector)) in
  let t := WebRtcSpl_NormW32 (i32 (smax * smax)) in
  if t >? nbits then Some 0 else Some (nbits - t).

(** The correlations and the scale. *)
Definition WebRtcSpl_AutoCorrelation (in_vector : list Z) (order : Z) : option (list Z * Z) :=
  let* _ := c_assert (order <=? zlen in_vector) in
  let* scaling := correlation_scaling in_vector in
  let* result := mapM (correlation_at in_vector scaling) (seqZ 0 (order + 1)) in
  Some (result, scaling).

(** ** levinson_durbin.c *)

Definition SPL_LEVINSON_MAXORDER : Z := 20.

(** The quotient with the sign of [- num]. *)
Definition negated_quotient (num den_hi den_low : Z) : Z :=
  let q := WebRtcSpl_DivW32HiLow (WEBRTC_SPL_ABS_W32 num) den_hi den_low in
  if num >? 0 then i32 (- q) else q.

(** [1 - K * K] in Q31. *)
Definition one_minus_square (K_hi K_low : Z) : Z :=
  let temp1W32 := i32 (Z.shiftl (i32 (Z.shiftr (i32 (K_hi * K_low)) 14 + i32 (K_hi * K_hi))) 1) in
  i32 (2147483647 - WEBRTC_SPL_ABS_W32 temp1W32).

(** Product of two values in high and low parts. *)
Definition mul_hi_low (a_hi a_low b_hi b_low : Z) : Z :=
  i32 (Z.shiftl (i32 (i32 (i32 (a_hi * b_hi) + Z.shiftr (i32 (a_hi * b_low)) 15) + Z.shiftr (i32 (a_low * b_hi)) 15)) 1).

(** The parts put together. *)
Definition join_hi_low (v_hi v_low : Z) : Z := i32 (WEBRTC_SPL_LSHIFT_W32 v_hi 16 + WEBRTC_SPL_LSHIFT_W32 v_low 1).

(** Between the stages: [A] with its high and low parts from [A[1]] on, the coefficients
    stored in [K], and [Alpha] with its exponent. *)
Record Levinson := mkLevinson { l_A : list (Z * Z); l_K : list Z; Alpha_hi : Z; Alpha_low : Z; Alpha_exp : Z }.

(** The sum over [R[j] * A[i - j]]. *)
Definition correlate (R A : list (Z * Z)) (i : Z) : option Z :=
  for_loop (fun j temp1W32 =>
    let* (R_hi, R_low) := aget R j in
    let* (A_hi, A_low) := aget A (i - j - 1) in
    Some (i32 (temp1W32 + i32 (i32 (Z.shiftl (i32 (R_hi * A_hi)) 1) +
      i32 (Z.shiftl (i32 (Z.shiftr (i32 (R_hi * A_low)) 15 + Z.shiftr (i32 (R_low * A_hi)) 15)) 1)))))
    1 (Z.to_nat (i - 1)) 0.

(** [K] in Q31 for the sum of stage [i]. *)
Definition reflection (s : Levinson) (temp1W32 : Z) : Z :=
  let temp3W32 := negated_quotient temp1W32 (Alpha_hi s) (Alpha_low s) in
  let norm := WebRtcSpl_NormW32 temp3W32 in
  if (Alpha_exp s <=? norm) || (temp3W32 =? 0) then WEBRTC_SPL_LSHIFT_W32 temp3W32 (Alpha_exp s)
  else if temp3W32 >? 0 then 2147483647 else -2147483648.

Definition updated_coefficient (A : list (Z * Z)) (K_hi K_low i j : Z) : option (Z * Z) :=
  let* (A_hi, A_low) := aget A (j - 1) in
  let* (B_hi, B_low) := aget A (i - j - 1) in
  let temp1W32 := i32 (join_hi_low A_hi A_low + mul_hi_low K_hi K_low B_hi B_low) in
  Some (hi16 temp1W32, low15 temp1W32).

(** Stage [i]: whether the filter is stable, and the state. *)
Definition levinson_step (R : list (Z * Z)) (i : Z) (s : Levinson) : option (bool * Levinson) :=
  let* temp1W32 := correlate R (l_A s) i in
  let temp1W32 := WEBRTC_SPL_LSHIFT_W32 temp1W32 4 in
  let* (R_hi, R_low) := aget R i in
  let temp1W32 := i32 (temp1W32 + join_hi_low R_hi R_low) in
  let temp3W32 := reflection s temp1W32 in
  let K_hi := hi16 temp3W32 in
  let K_low := low15 temp3W32 in
  let K := l_K s ++ [K_hi] in
  if WEBRTC_SPL_ABS_W16 K_hi >? 32750 then Some (false, mkLevinson (l_A s) K (Alpha_hi s) (Alpha_low s) (Alpha_exp s))
  else
    let* A_upd := mapM (updated_coefficient (l_A s) K_hi K_low i) (seqZ 1 (i - 1)) in
    let temp3W32 := Z.shiftr temp3W32 4 in
    let A_upd := A_upd ++ [(hi16 temp3W32, low15 temp3W32)] in
    let temp1W32 := one_minus_square K_hi K_low in
    let tmp_hi := hi16 temp1W32 in
    let tmp_low := low15 temp1W32 in
    let temp1W32 := mul_hi_low (Alpha_hi s) (Alpha_low s) tmp_hi tmp_low in
    let norm := i16 (WebRtcSpl_NormW32 temp1W32) in
    let temp1W32 := WEBRTC_SPL_LSHIFT_W32 temp1W32 norm in
    Some (true, mkLevinson A_upd K (hi16 temp1W32) (low15 temp1W32) (i16 (Alpha_exp s + norm))).

(** The loop over the stages ends at the first unstable one; [n] are left. *)
Fixpoint levinson_loop (R : list (Z * Z)) (i : Z) (n : nat) (s : Levinson) : option (bool * Levinson) :=
  match n with
  | O => Some (true, s)
  | S n =>
      let* (stable, s) := levinson_step R i s in
      if (stable : bool) then levinson_loop R (i + 1) n s else Some (false, s)
  end.

(** The state after the first coefficient. *)
Definition levinson_start (R : list (Z * Z)) : option Levinson :=
  let* (R0_hi, R0_low) := aget R 0 in
  let* (R1_hi, R1_low) := aget R 1 in
  let temp1W32 := negated_quotient (join_hi_low R1_hi R1_low) R0_hi R0_low in
  let K_hi := hi16 temp1W32 in
  let K_low := low15 temp1W32 in
  let temp1W32 := Z.shiftr temp1W32 4 in
  let A1 := (hi16 temp1W32, low15 temp1W32) in
  let temp1W32 := one_minus_square K_hi K_low in
  let tmp_hi := hi16 temp1W32 in
  let tmp_low := low15 temp1W32 in
  let temp1W32 := mul_hi_low R0_hi R0_low tmp_hi tmp_low in
  let Alpha_exp := i16 (WebRtcSpl_NormW32 temp1W32) in
  let temp1W32 := WEBRTC_SPL_LSHIFT_W32 temp1W32 Alpha_exp in
  Some (mkLevinson [A1] [K_hi] (hi16 temp1W32) (low15 temp1W32) Alpha_exp).

(** The return value, [A] when the filter is stable, and the coefficients stored in [K]. *)
Definition WebRtcSpl_LevinsonDurbin (R : list Z) (order : Z) : option (Z * list Z * list Z) :=
  let* _ := c_assert (order <=? SPL_LEVINSON_MAXORDER) in
  let* R0 := aget R 0 in
  let norm := i16 (WebRtcSpl_NormW32 R0) in
  let* R_parts := mapM (fun i => let* r := aget R i in let r := WEBRTC_SPL_LSHIFT_W32 r norm in Some (hi16 r, low15 r)) (seqZ 0 (order + 1)) in
  let* s := levinson_start R_parts in
  let* (stable, s) := levinson_loop R_parts 2 (Z.to_nat (order - 1)) s in
  if negb stable then Some (0, [], l_K s)
  else
    let A := (fun '(A_hi, A_low) => i16 (Z.shiftr (i32 (i32 (Z.shiftl (join_hi_low A_hi A_low) 1) + 32768)) 16)) <$> l_A s in
    Some (1, 4096 :: A, l_K s).

(** ** filter_ar.c *)

(** A product of the sums [o] and [oLOW]. *)
Definition ar_tap (a v low : Z) (s : Z * Z) : Z * Z := (i32 (s.1 - i32 (a * v)), i32 (s.2 - i32 (a * low))).

(** Sample [i]: the samples before it are those that have been filtered, and before these the
    state from its end. *)
Definition ar_sample (a x state state_low : list Z) (a_length state_length i : Z) (f : list Z * list Z) : option (list Z * list Z) :=
  let* xi := aget x i in
  let stop := if i <? a_length then i + 1 else a_length in
  let* s := for_loop (fun j (s : Z * Z) =>
    let* c := aget a j in let* v := aget f.1 (i - j) in let* low := aget f.2 (i - j) in Some (ar_tap c v low s))
    1 (Z.to_nat (stop - 1)) (i32 (Z.shiftl xi 12), 0) in
  let* (o, oLOW) := for_loop (fun j (s : Z * Z) =>
    let* c := aget a j in
    let* v := aget state (state_length - 1 - (j - (i + 1))) in
    let* low := aget state_low (state_length - 1 - (j - (i + 1))) in Some (ar_tap c v low s))
    (i + 1) (Z.to_nat (a_length - (i + 1))) s in
  let o := i32 (o + Z.shiftr oLOW 12) in
  let v := i16 (Z.shiftr (i32 (o + 2048)) 12) in
  Some (f.1 ++ [v], f.2 ++ [i16 (i32 (o - i32 (Z.shiftl v 12)))]).

(** The state moved by less than its length: both rows of samples go to [state]. *)
Definition shift_state (state state_low filtered filtered_low : list Z) (state_length x_length : Z) : option (list Z * list Z) :=
  let* (state, state_low) := for_loop (fun i (p : list Z * list Z) =>
    let (state, state_low) := p in
    let* v := aget state (i + x_length) in
    let* state := aset state i v in
    let* low := aget state_low (i + x_length) in
    let* state_low := aset state_low i low in
    Some (state, state_low)) 0 (Z.to_nat (state_length - x_length)) (state, state_low) in
  let* state := for_loop (fun i state =>
    let* v := aget filtered i in
    let* state := aset state (state_length - x_length + i) v in
    let* low := aget filtered_low i in
    aset state (state_length - x_length + i) low) 0 (Z.to_nat x_length) state in
  Some (state, state_low).

(** The filtered samples, their low parts, and the states. *)
Definition WebRtcSpl_FilterAR (a : list Z) (a_length : Z) (x : list Z) (x_length : Z) (state : list Z) (state_length : Z) (state_low : list Z)
    : option (list Z * list Z * list Z * list Z) :=
  let* (filtered, filtered_low) := for_loop (ar_sample a x state state_low a_length state_length) 0 (Z.to_nat x_length) ([], []) in
  let* (state, state_low) :=
    if x_length >=? state_length then
      let* state := WebRtcSpl_CopyFromEndW16 filtered x_length (a_length - 1) state in
      let* state_low := WebRtcSpl_CopyFromEndW16 filtered_low x_length (a_length - 1) state_low in
      Some (state, state_low)
    else shift_state state state_low filtered filtered_low state_length x_length in
  Some (filtered, filtered_low, state, state_low).

End LinPred.
