(* ===== verification/LinPredSpec.v ===== *)
(** Properties of LinPred.v: the functions stay in their arrays and give values of their
    types; what a stable result of the Levinson-Durbin recursion promises. *)

From S2P Require Import Prelude SplInl SplVec LinPred.

Module LinPredSpec.
Import Spl SplSpec SplVec SplVecSpec LinPred.

(** ** Arrays of a type *)

(** [l] is an array of [n] values that satisfy [P]. *)
Definition row {A} (P : A -> Prop) (n : Z) (l : list A) : Prop := zlen l = n /\ Forall P l.

Lemma aget_row {A} (P : A -> Prop) n l i : row P n l -> 0 <= i < n -> aget l i ⤳ P.
Proof. intros [Hl HP] Hi. destruct (aget_range l i ltac:(lia)) as [x E]. rewrite E. apply result_ret. by eapply Forall_aget. Qed.

Lemma aset_row {A} (P : A -> Prop) n l i x : row P n l -> 0 <= i < n -> P x -> aset l i x ⤳ row P n.
Proof.
  intros [Hl HP] Hi Hx. rewrite aset_Some by lia. apply result_ret. split; [by rewrite length_insert|]. by apply Forall_insert.
Qed.

Lemma row_snoc {A} (P : A -> Prop) n l x : row P n l -> P x -> row P (n + 1) (l ++ [x]).
Proof. intros [Hl HP] Hx. split; [rewrite length_app; cbn [length]; lia|]. apply Forall_app. by split; [|apply Forall_singleton]. Qed.

Lemma row_weaken {A} (P Q : A -> Prop) n l : row P n l -> (forall x, P x -> Q x) -> row Q n l.
Proof. intros [Hl HP] H. split; [done|]. by eapply Forall_impl. Qed.

Lemma row_slice (P : Z -> Prop) l p n : Forall P l -> 0 <= p -> 0 <= n -> p + n <= zlen l -> row P n (slice l p n).
Proof. intros HP Hp Hn Hl. split; [by apply length_slice|by apply Forall_slice]. Qed.

Lemma row_fmap {A B} (P : A -> Prop) (Q : B -> Prop) (f : A -> B) n l : row P n l -> (forall x, P x -> Q (f x)) -> row Q n (f <$> l).
Proof. intros [Hl HP] H. split; [by rewrite length_fmap|]. apply Forall_fmap. refine (Forall_impl _ _ HP). intros x Hx. by apply H. Qed.

Lemma loop_result {S} (P : Z -> S -> Prop) body lo n s : 0 <= n -> P lo s ->
  (forall i s, lo <= i < lo + n -> P i s -> body i s ⤳ P (i + 1)) -> for_loop body lo (Z.to_nat n) s ⤳ P (lo + n).
Proof.
  intros Hn H0 Hs. destruct (for_loop_inv P body lo (Z.to_nat n) s H0) as (s' & E & H).
  - intros i s1 Hi HP. destruct (Hs i s1 ltac:(lia) HP) as (s2 & E & H2). by exists s2.
  - exists s'. split; [done|]. by rewrite Z2Nat.id in H by lia.
Qed.

(** A loop that keeps a property of its state. *)
Lemma loop_keeps_result {S} (P : S -> Prop) body lo n s : P s -> (forall i s, lo <= i < lo + Z.max 0 n -> P s -> body i s ⤳ P) ->
  for_loop body lo (Z.to_nat n) s ⤳ P.
Proof.
  intros H0 Hs. replace (Z.to_nat n) with (Z.to_nat (Z.max 0 n)) by lia. apply (loop_result (fun _ => P)); [lia|done|]. intros i s1 Hi HP. by apply Hs.
Qed.

Lemma mapM_row {A} (P : A -> Prop) (f : Z -> option A) lo n : 0 <= n -> (forall i, lo <= i < lo + n -> f i ⤳ P) -> mapM f (seqZ lo n) ⤳ row P n.
Proof.
  intros Hn. revert lo. pattern n. apply natlike_ind; [| |done].
  - intros lo _. exists []. split; [done|]. split; [done|constructor].
  - intros m Hm IH lo Hf. rewrite seqZ_cons by lia. cbn [mapM]. rewrite Z.pred_succ.
    destruct (Hf lo ltac:(lia)) as (x & -> & Hx). cbn [mbind option_bind].
    destruct (IH (Z.succ lo)) as (l & -> & Hl & HP); [intros i Hi; apply Hf; lia|].
    exists (x :: l). split; [done|]. split; [cbn [length]; lia|by constructor].
Qed.

Lemma hi16_range v : in_i16 (hi16 v).
Proof. apply i16_range. Qed.

(** ** Square root *)

Lemma Sqrt_ok value : in_i32 value -> WebRtcSpl_Sqrt value ⤳ (fun _ => True).
Proof.
  intros Hv. unfold WebRtcSpl_Sqrt. cbv zeta. destruct (value =? 0); [by apply result_ret|].
  pose proof (NormW32_range value Hv) as Hn. rewrite (i16_id (WebRtcSpl_NormW32 value)) by rng.
  rewrite i16_id by (unfold c_div, in_i16; dlia).
  eapply result_bind; [apply (result_assert _ (fun _ => True)); [|done]; unfold c_div; apply Z.geb_le; dlia|]. intros _ _. by apply result_ret.
Qed.

(** ** Window *)

Lemma window_index size jj : 1 <= size <= 320 -> 0 <= jj <= size ->
  let factor := WebRtcSpl_DivW32W16 1073741824 (i16 size) in let index := -2097152 + jj * factor in
  in_i32 (index + factor) /\ (jj < size -> 0 <= Z.shiftr (index + factor) 22 < 256).
Proof.
  intros Hs Hj. cbv zeta. rewrite i16_id by rng. unfold WebRtcSpl_DivW32W16, c_div. destruct (Z.eqb_spec size 0); [lia|]. cbn [negb].
  rewrite Z.quot_div_nonneg by lia. rewrite i32_id by (unfold in_i32; dlia). rewrite Z.shiftr_div_pow2 by lia. change (2 ^ 22) with 4194304.
  assert (H1 : size * (1073741824 / size) <= 1073741824) by (apply Z.mul_div_le; lia).
  assert (H2 : 3355443 <= 1073741824 / size) by (apply Z.div_le_lower_bound; lia).
  assert (H3 : 1073741824 / size <= 1073741824) by (apply Z.div_le_upper_bound; nia).
  set (q := 1073741824 / size) in *. clearbody q. split; [unfold in_i32; nia|]. intros Hlt. assert (0 <= -2097152 + jj * q + q < 1073741824) by nia. dlia.
Qed.

Lemma GetHanningWindow_ok v size : 0 <= size <= 320 -> size <= zlen v -> WebRtcSpl_GetHanningWindow v size ⤳ (fun v' => zlen v' = zlen v).
Proof.
  intros Hs Hv. unfold WebRtcSpl_GetHanningWindow. cbv zeta. destruct (Z.ltb_spec size 513); [|lia].
  eapply result_bind.
  - apply (loop_result (fun jj '(index, v') => index = -2097152 + jj * WebRtcSpl_DivW32W16 1073741824 (i16 size) /\ zlen v' = zlen v)); [lia|split; [lia|done]|].
    intros jj [index v'] Hj [-> Hl]. destruct (window_index size jj ltac:(lia) ltac:(lia)) as [H1 H2]. cbv zeta in H1, H2.
    rewrite i32_id by done. eapply result_bind; [apply (aget_row (fun _ => True) 256); [split; [done|by apply Forall_true]|lia]|]. intros h _.
    rewrite aset_Some by lia. apply result_ret. split; [lia|by rewrite length_insert].
  - intros [index v'] [_ Hl]. by apply result_ret.
Qed.

Lemma ElementwiseVectorMult_ok out in_ win n shifts : 0 <= n -> n <= zlen in_ -> n <= zlen win -> row in_i16 n out ->
  WebRtcSpl_ElementwiseVectorMult out in_ win n shifts ⤳ row in_i16 n.
Proof.
  intros Hn Hi Hw Ho. apply loop_keeps_result; [done|]. intros i out' Hr Ho'.
  rewrite (aget_znth in_ i), (aget_znth win i) by lia. cbn [mbind option_bind]. apply (aset_row _ n); [done|lia|apply i16_range].
Qed.

(** ** Correlations *)

Lemma correlation_at_ok v scaling i : 0 <= i -> correlation_at v scaling i ⤳ in_i32.
Proof.
  intros Hi. unfold correlation_at. apply loop_keeps_result; [unfold in_i32; lia|]. intros j sum Hj _.
  rewrite (aget_znth v j), (aget_znth v (i + j)) by lia. apply result_ret, i32_range.
Qed.

Lemma AutoCorrelation_ok v order : 0 <= order <= zlen v -> 0 < zlen v -> WebRtcSpl_AutoCorrelation v order ⤳ (fun '(r, _) => row in_i32 (order + 1) r).
Proof.
  intros Ho Hv. unfold WebRtcSpl_AutoCorrelation. eapply result_bind; [apply (result_assert _ (fun _ => True)); [by apply Z.leb_le; lia|done]|]. intros _ _.
  assert (Hs : correlation_scaling v ⤳ (fun _ => True)).
  { unfold correlation_scaling, WebRtcSpl_MaxAbsValueW16C. destruct (Z.gtb_spec (zlen v) 0); [|lia]. cbn [c_assert mbind option_bind]. cbv zeta.
    destruct (_ =? 0); [by apply result_ret|]. destruct (_ >? _); by apply result_ret. }
  eapply result_bind; [exact Hs|]. intros scaling _. eapply result_bind; [apply (mapM_row in_i32); [lia|]|].
  - intros i Hi. apply correlation_at_ok. lia.
  - intros r Hr. by apply result_ret.
Qed.

(** ** The Levinson-Durbin recursion *)

Definition parts_ok (p : Z * Z) : Prop := in_i16 p.1 /\ in_i16 p.2.

Lemma parts_range v : parts_ok (hi16 v, low15 v).
Proof. split; apply i16_range. Qed.

(** A coefficient of a stable filter. *)
Definition stable_coef (k : Z) : Prop := Z.abs k <= 32750.

(** After [n] stages: the coefficients but the first have passed the test. *)
Record levinson_ok (n : Z) (s : Levinson) : Prop := mkLevinsonOk {
  lo_A : row parts_ok n (l_A s);
  lo_K : exists k0 ks, l_K s = k0 :: ks /\ in_i16 k0 /\ row stable_coef (n - 1) ks;
  lo_Alpha : in_i16 (Alpha_hi s) /\ in_i16 (Alpha_low s) /\ in_i16 (Alpha_exp s) }.

Lemma levinson_start_ok R n : row parts_ok n R -> 2 <= n -> levinson_start R ⤳ levinson_ok 1.
Proof.
  intros HR Hn. unfold levinson_start. eapply result_bind; [apply (aget_row _ _ _ _ HR); lia|]. intros [R0 R0'] _.
  eapply result_bind; [apply (aget_row _ _ _ _ HR); lia|]. intros [R1 R1'] _. apply result_ret. constructor; cbn [l_A l_K Alpha_hi Alpha_low LinPred.Alpha_exp].
  - split; [done|]. apply Forall_singleton, parts_range.
  - do 2 eexists. split; [reflexivity|]. split; [apply i16_range|split; [done|constructor]].
  - split_and!; apply i16_range.
Qed.

Lemma correlate_ok R A i N : row parts_ok N R -> row parts_ok (i - 1) A -> 2 <= i < N -> correlate R A i ⤳ in_i32.
Proof.
  intros HR HA Hi. unfold correlate. apply loop_keeps_result; [unfold in_i32; lia|]. intros j v Hj _.
  eapply result_bind; [apply (aget_row _ _ _ _ HR); lia|]. intros [a b] _. eapply result_bind; [apply (aget_row _ _ _ _ HA); lia|]. intros [c d] _.
  apply result_ret, i32_range.
Qed.

Lemma levinson_step_ok R i s N : row parts_ok N R -> 2 <= i < N -> levinson_ok (i - 1) s ->
  levinson_step R i s ⤳ (fun '(stable, s') => stable = true -> levinson_ok i s').
Proof.
  intros HR Hi [HA (k0 & ks & EK & Hk0 & Hks) HAlpha]. unfold levinson_step. eapply result_bind; [by apply (correlate_ok _ _ _ N)|]. intros sum _.
  eapply result_bind; [apply (aget_row _ _ _ _ HR); lia|]. intros [Rh Rl] _. cbv zeta. set (t := reflection s _). clearbody t.
  match goal with |- context [?a >? 32750] => destruct (Z.gtb_spec a 32750) as [Hbig|Hsmall] end; [by apply result_ret|].
  eapply result_bind; [apply (mapM_row parts_ok); [lia|]|].
  - intros j Hj. unfold updated_coefficient. eapply result_bind; [apply (aget_row _ _ _ _ HA); lia|]. intros [a b] _.
    eapply result_bind; [apply (aget_row _ _ _ _ HA); lia|]. intros [c d] _. apply result_ret, parts_range.
  - intros A_upd HU. apply result_ret. intros _. constructor; cbn [l_A l_K Alpha_hi Alpha_low LinPred.Alpha_exp].
    + replace i with (i - 1 + 1) at 1 by lia. apply row_snoc; [done|apply parts_range].
    + rewrite EK. exists k0, (ks ++ [hi16 t]). split; [done|]. split; [done|]. replace (i - 1) with (i - 1 - 1 + 1) by lia. apply row_snoc; [done|].
      unfold stable_coef. unfold WEBRTC_SPL_ABS_W16 in Hsmall. rewrite i16_id in Hsmall by apply hi16_range. destruct (Z.geb_spec (hi16 t) 0); lia.
    + split_and!; apply i16_range.
Qed.

Lemma levinson_loop_ok R i n s N : row parts_ok N R -> 2 <= i -> i + Z.of_nat n <= N -> levinson_ok (i - 1) s ->
  levinson_loop R i n s ⤳ (fun '(stable, s') => stable = true -> levinson_ok (i + Z.of_nat n - 1) s').
Proof.
  intros HR. revert i s. induction n as [|n IH]; intros i s Hi HN Hs; cbn [levinson_loop].
  - apply result_ret. intros _. by replace (i + Z.of_nat 0 - 1) with (i - 1) by lia.
  - eapply result_bind; [apply (levinson_step_ok _ _ _ N); [done|lia|done]|]. intros [stable s'] Hs'. destruct stable; [|by apply result_ret].
    replace (i + Z.of_nat (S n) - 1) with (i + 1 + Z.of_nat n - 1) by lia. apply IH; [lia|lia|]. replace (i + 1 - 1) with i by lia. by apply Hs'.
Qed.

(** The filter has all its coefficients when it is stable, each but the first inside the bound
    of the test. *)
Lemma LevinsonDurbin_ok R order : 1 <= order <= SPL_LEVINSON_MAXORDER -> row in_i32 (order + 1) R ->
  WebRtcSpl_LevinsonDurbin R order ⤳ (fun '(stab, A, K) => stab = 0 \/ stab = 1 /\ row in_i16 (order + 1) A /\ row in_i16 order K /\
    (forall i, 1 <= i < order -> stable_coef (znth K i))).
Proof.
  intros Ho HR. unfold WebRtcSpl_LevinsonDurbin. eapply result_bind; [apply (result_assert _ (fun _ => True)); [by apply Z.leb_le; lia|done]|]. intros _ _.
  eapply result_bind; [apply (aget_row _ _ _ _ HR); lia|]. intros R0 HR0. cbv zeta. set (norm := i16 _). clearbody norm.
  eapply result_bind; [apply (mapM_row parts_ok); [lia|]|].
  { intros i Hi. eapply result_bind; [apply (aget_row _ _ _ _ HR); lia|]. intros r _. apply result_ret, parts_range. }
  intros parts HP. eapply result_bind; [apply (levinson_start_ok _ _ HP); lia|]. intros s Hs.
  eapply result_bind; [apply (levinson_loop_ok _ 2 (Z.to_nat (order - 1)) s (order + 1) HP); [lia|lia|done]|].
  intros [stable s'] Hs'. destruct stable; cbn [negb]; [|apply result_ret; by left]. apply result_ret. right. split; [done|].
  replace (2 + Z.of_nat (Z.to_nat (order - 1)) - 1) with order in Hs' by lia. destruct (Hs' eq_refl) as [HA (k0 & ks & EK & Hk0 & Hks) _]. split_and!.
  - destruct (row_fmap _ in_i16 (fun '(A_hi, A_low) => i16 (Z.shiftr (i32 (i32 (Z.shiftl (join_hi_low A_hi A_low) 1) + 32768)) 16)) _ _ HA) as [Hl HF].
    { intros [a b] _. apply i16_range. }
    split; [cbn [length]; lia|]. constructor; [unfold in_i16; lia|exact HF].
  - rewrite EK. destruct Hks as [Hl HF]. split; [cbn [length]; lia|]. constructor; [done|]. refine (Forall_impl _ _ HF). unfold stable_coef, in_i16. lia.
  - intros i Hi. rewrite EK. destruct (aget_row _ _ _ (i - 1) Hks ltac:(lia)) as (k & E & Hk).
    assert (E' : aget (k0 :: ks) i = Some k).
    { unfold aget in *. destruct (Z.leb_spec 0 i); [|lia]. destruct (Z.leb_spec 0 (i - 1)); [|lia]. by replace (Z.to_nat i) with (S (Z.to_nat (i - 1))) by lia. }
    by rewrite (znth_aget _ _ _ E').
Qed.

(** ** The recursive filter *)

Lemma memcpy_row (P : Z -> Prop) dst src p n N : row P N dst -> Forall P src -> 0 <= p -> 0 <= n <= N -> p + n <= zlen src -> memcpy dst 0 src p n ⤳ row P N.
Proof.
  intros [Hl HP] Hs Hp Hn Hr. rewrite memcpy_Some by lia. apply result_ret. pose proof (length_slice src p n Hp ltac:(lia) Hr) as E.
  split; [rewrite length_splice by lia; lia|]. unfold splice. apply Forall_app. split; [by apply Forall_take|]. apply Forall_app. split; [by apply Forall_slice|by apply Forall_drop].
Qed.

(** What the filter keeps: a property [P] of the samples and of their low parts, by a property
    [Q] of the sums. *)
Section Filter.
Variables (P : Z -> Prop) (Q : Z * Z -> Prop).
Hypothesis start_ok : forall x, P x -> Q (i32 (Z.shiftl x 12), 0).
Hypothesis tap_ok : forall c v low s, P v -> P low -> Q s -> Q (ar_tap c v low s).
Hypothesis sample_ok : forall o oLOW, Q (o, oLOW) ->
  let o := i32 (o + Z.shiftr oLOW 12) in let v := i16 (Z.shiftr (i32 (o + 2048)) 12) in P v /\ P (i16 (i32 (o - i32 (Z.shiftl v 12)))).

Definition ar_state_ok (n : Z) (f : list Z * list Z) : Prop := row P n f.1 /\ row P n f.2.

Lemma ar_sample_ok a x state state_low a_length state_length i f N M : row P N state -> row P M state_low -> a_length <= zlen a -> 0 <= i < zlen x -> Forall P x ->
  a_length - 1 <= state_length <= N -> state_length <= M -> ar_state_ok i f ->
  ar_sample a x state state_low a_length state_length i f ⤳ ar_state_ok (i + 1).
Proof.
  intros HS HL Ha Hi Hx HN HM [H1 H2]. unfold ar_sample. eapply result_bind; [apply (aget_row P (zlen x)); [by split|lia]|]. intros xi Hxi. cbv zeta.
  eapply result_bind; [apply (loop_keeps_result Q); [by apply start_ok|]|].
  - intros j s Hj Hs. assert (Hj' : 1 <= j <= i /\ j < a_length) by (destruct (Z.ltb_spec i a_length); lia). rewrite (aget_znth a j) by lia. cbn [mbind option_bind].
    eapply result_bind; [apply (aget_row _ _ _ _ H1); lia|]. intros v Hv. eapply result_bind; [apply (aget_row _ _ _ _ H2); lia|]. intros low Hlow. by apply result_ret, tap_ok.
  - intros s Hs. eapply result_bind; [apply (loop_keeps_result Q); [exact Hs|]|].
    + intros j s' Hj Hs'. rewrite (aget_znth a j) by lia. cbn [mbind option_bind].
      eapply result_bind; [apply (aget_row _ _ _ _ HS); lia|]. intros v Hv. eapply result_bind; [apply (aget_row _ _ _ _ HL); lia|]. intros low Hlow. by apply result_ret, tap_ok.
    + intros [o oLOW] Ho. apply result_ret. destruct (sample_ok o oLOW Ho). by split; apply row_snoc.
Qed.

Lemma shift_state_ok state state_low filtered filtered_low k n N M : row P N state -> row P M state_low -> 0 <= n < k -> k <= N -> k <= M ->
  ar_state_ok n (filtered, filtered_low) -> shift_state state state_low filtered filtered_low k n ⤳ (fun '(s, l) => row P N s /\ row P M l).
Proof.
  intros HS HL Hn HN HM [H1 H2]. cbn [fst snd] in H1, H2. unfold shift_state.
  eapply result_bind; [apply (loop_keeps_result (fun p => row P N p.1 /\ row P M p.2)); [done|]|].
  - intros i [s l] Hi [Hs Hl]. cbn [fst snd] in Hs, Hl. eapply result_bind; [apply (aget_row _ _ _ _ Hs); lia|]. intros v Hv.
    eapply result_bind; [apply (aset_row P N); [done|lia|done]|]. intros s' Hs'. eapply result_bind; [apply (aget_row _ _ _ _ Hl); lia|]. intros w Hw.
    eapply result_bind; [apply (aset_row P M); [done|lia|done]|]. intros l' Hl'. by apply result_ret.
  - intros [s l] [Hs Hl]. cbn [fst snd] in Hs, Hl. eapply result_bind; [apply (loop_keeps_result (row P N)); [done|]|].
    + intros i s' Hi Hs'. eapply result_bind; [apply (aget_row _ _ _ _ H1); lia|]. intros v Hv. eapply result_bind; [apply (aset_row P N); [done|lia|done]|].
      intros s2 Hs2. eapply result_bind; [apply (aget_row _ _ _ _ H2); lia|]. intros w Hw. apply (aset_row P N); [done|lia|done].
    + intros s' Hs'. by apply result_ret.
Qed.

(** The filter of an order that its state has room for. *)
Lemma FilterAR_keeps a a_length x x_length state state_length state_low N M : row P N state -> row P M state_low -> 1 <= a_length <= zlen a ->
  0 <= x_length <= zlen x -> Forall P x -> x_length < 18446744073709551616 -> a_length - 1 = state_length -> state_length <= N -> state_length <= M ->
  WebRtcSpl_FilterAR a a_length x x_length state state_length state_low ⤳ (fun '(f, fl, s, l) => row P x_length f /\ row P x_length fl /\ row P N s /\ row P M l).
Proof.
  intros HS HL Ha Hx HFx H64 Es HN HM. unfold WebRtcSpl_FilterAR. eapply result_bind; [apply (loop_result ar_state_ok); [lia|by split; split|]|].
  - intros i f Hi Hf. apply (ar_sample_ok _ _ _ _ _ _ _ _ N M); try done; lia.
  - intros [f fl] Hf. rewrite Z.add_0_l in Hf. pose proof Hf as [H1 H2]. cbn [fst snd] in H1, H2. pose proof H1 as [Hl1 HF1]. pose proof H2 as [Hl2 HF2]. destruct (Z.geb_spec x_length state_length).
    + eapply result_bind; [eapply result_bind; [|intros s Hs; eapply result_bind; [|intros l Hl; apply (result_ret (s, l) (fun '(s, l) => row P N s /\ row P M l)); split; [exact Hs|exact Hl]]]|].
      * unfold WebRtcSpl_CopyFromEndW16. rewrite u64_id by lia. apply memcpy_row; [done|done|lia|lia|lia].
      * unfold WebRtcSpl_CopyFromEndW16. rewrite u64_id by lia. apply memcpy_row; [done|done|lia|lia|lia].
      * intros [s l] [Hs Hl]. by apply result_ret.
    + eapply result_bind; [apply (shift_state_ok _ _ _ _ _ _ N M); try done; lia|]. intros [s l] [Hs Hl]. by apply result_ret.
Qed.
End Filter.

Lemma FilterAR_ok a a_length x x_length state state_length state_low N M : row in_i16 N state -> row in_i16 M state_low -> 1 <= a_length <= zlen a ->
  0 <= x_length <= zlen x -> Forall in_i16 x -> x_length < 18446744073709551616 -> a_length - 1 = state_length -> state_length <= N -> state_length <= M ->
  WebRtcSpl_FilterAR a a_length x x_length state state_length state_low ⤳ (fun '(f, fl, s, l) => row in_i16 x_length f /\ row in_i16 x_length fl /\ row in_i16 N s /\ row in_i16 M l).
Proof. apply (FilterAR_keeps in_i16 (fun _ => True)); [done|done|]. intros o oLOW _. cbv zeta. split; apply i16_range. Qed.

(** Silence in, silence out. *)
Lemma FilterAR_silent a a_length x x_length state state_length state_low N M : row (eq 0) N state -> row (eq 0) M state_low -> 1 <= a_length <= zlen a ->
  0 <= x_length <= zlen x -> Forall (eq 0) x -> x_length < 18446744073709551616 -> a_length - 1 = state_length -> state_length <= N -> state_length <= M ->
  WebRtcSpl_FilterAR a a_length x x_length state state_length state_low ⤳ (fun '(f, fl, s, l) => row (eq 0) x_length f /\ row (eq 0) x_length fl /\ row (eq 0) N s /\ row (eq 0) M l).
Proof.
  apply (FilterAR_keeps (eq 0) (eq (0, 0))).
  - by intros ? <-.
  - intros c v low s <- <- <-. unfold ar_tap. cbn [fst snd]. by rewrite Z.mul_0_r.
  - intros o oLOW [= <- <-]. done.
Qed.

(** With fewer samples than the state holds, the low parts of the samples go into the state of the
    samples, and the state of the low parts keeps its old end. *)
Lemma short_frame_mixes_states : WebRtcSpl_FilterAR [4096; -2047; 0] 3 [1001] 1 [5; 6] 2 [7; 8] = Some ([1004], [-3], [6; -3], [8; 8]).
Proof. vm_compute. reflexivity. Qed.
(** ** The correlations in full *)

Lemma mapM_tab {A} (f : Z -> option A) g n : (forall i, 0 <= i < n -> f i = Some (g i)) -> mapM f (seqZ 0 n) = Some (tab g n).
Proof.
  intros Hf. unfold tab. assert (H : forall i, i ∈ seqZ 0 n -> f i = Some (g i)) by (intros i Hi; apply Hf; apply elem_of_seqZ in Hi; lia).
  induction (seqZ 0 n) as [|i l IH]; [done|]. cbn [mapM]. rewrite H by left. cbn [mbind option_bind]. rewrite IH; [done|]. intros j Hj. apply H. by right.
Qed.

(** A scaled sum of products of which each is at most [2 ^ (31 - t)]. *)
Lemma scaled_term_bound p t nbits : 0 <= t <= 31 -> 0 <= nbits <= 31 -> Z.abs p <= 2 ^ (31 - t) ->
  Z.abs (Z.shiftr p (if t >? nbits then 0 else nbits - t)) <= 2 ^ (31 - nbits).
Proof.
  intros Ht Hb Hp. destruct (Z.gtb_spec t nbits).
  - rewrite Z.shiftr_0_r. pose proof (Z.pow_le_mono_r 2 (31 - t) (31 - nbits) ltac:(lia) ltac:(lia)). lia.
  - rewrite Z.shiftr_div_pow2 by lia. assert (E : 2 ^ (31 - t) = 2 ^ (nbits - t) * 2 ^ (31 - nbits)) by (rewrite <- Z.pow_add_r by lia; f_equal; lia).
    assert (H0 : 0 < 2 ^ (nbits - t)) by (apply Z.pow_pos_nonneg; lia). rewrite E in Hp. set (m := 2 ^ (31 - nbits)) in *. set (d := 2 ^ (nbits - t)) in *.
    assert (p / d <= m) by (apply Z.div_le_upper_bound; lia). assert (- m <= p / d) by (apply Z.div_le_lower_bound; lia). lia.
Qed.

Lemma sum_loop_exact body (g : Z -> Z) T n : 0 <= T -> Z.of_nat n * T <= 2147483647 -> (forall j s, 0 <= j < Z.of_nat n -> body j s = Some (i32 (s + g j))) ->
  (forall j, 0 <= j < Z.of_nat n -> Z.abs (g j) <= T) -> for_loop body 0 n 0 = Some (zsum g 0 n) /\ Z.abs (zsum g 0 n) <= Z.of_nat n * T.
Proof.
  intros HT Hn Hb Hg. assert (G : forall m lo s, 0 <= lo -> lo + Z.of_nat m <= Z.of_nat n -> Z.abs s + Z.of_nat m * T <= 2147483647 ->
    for_loop body lo m s = Some (s + zsum g lo m) /\ Z.abs (zsum g lo m) <= Z.of_nat m * T).
  { induction m as [|m IH]; intros lo s Hlo Hm Hs; cbn [for_loop zsum]; [rewrite Z.add_0_r; split; [done|lia]|].
    rewrite Hb by lia. cbn [mbind option_bind]. pose proof (Hg lo ltac:(lia)). rewrite i32_id by (unfold in_i32; lia).
    destruct (IH (lo + 1) (s + g lo)) as [E HB]; [lia|lia|lia|]. rewrite E. split; [f_equal; lia|lia]. }
  destruct (G n 0 0) as [E HB]; [lia|lia|lia|]. by rewrite Z.add_0_l in E.
Qed.

Lemma correlation_scaling_fits v : 0 < zlen v < 2147483648 -> Forall in_i16 v ->
  exists s T, correlation_scaling v = Some s /\ 0 <= s /\ 0 <= T /\ zlen v * T <= 2147483647 /\
    forall x y, x ∈ v -> y ∈ v -> in_i32 (x * y) /\ Z.abs (Z.shiftr (x * y) s) <= T.
Proof.
  intros Hl Hv. assert (Hne : v <> []) by (intros ->; cbn in Hl; lia). destruct (MaxAbsValue_bound v Hne Hv) as (M & EM & HM & Hx).
  unfold correlation_scaling. rewrite EM. cbn [mbind option_bind]. pose proof (Forall_elem _ _ Hx) as Hx'. cbv beta in Hx'. pose proof (Forall_elem _ _ Hv) as Hi. unfold in_i16 in Hi.
  destruct (Z.eqb_spec M 0) as [->|HM0].
  { exists 0, 0. split_and!; try done; [lia|]. intros x y Hxv Hyv. destruct (Hx' x Hxv) as [|?]; [|lia]. replace x with 0 by lia. done. }
  cbv zeta. rewrite u32_id by rng. destruct (GetSizeInBits_bounds (zlen v) ltac:(lia)) as [Hb Hn]. set (nbits := WebRtcSpl_GetSizeInBits _) in *. clearbody nbits.
  assert (Hb31 : 0 <= nbits <= 31) by (split; [lia|]; destruct (Z.le_gt_cases nbits 31); [done|]; assert (2 ^ 31 <= 2 ^ (nbits - 1)) by (apply Z.pow_le_mono_r; lia); lia).
  rewrite i32_id by (unfold in_i32; nia). destruct (NormW32_nonneg (M * M)) as [Ht Hm]; [nia|nia|]. set (t := WebRtcSpl_NormW32 _) in *.
  exists (if t >? nbits then 0 else nbits - t), (2 ^ (31 - nbits)). split; [by destruct (t >? nbits)|]. split; [destruct (Z.gtb_spec t nbits); lia|].
  split; [apply Z.pow_nonneg; lia|]. assert (E31 : 2 ^ nbits * 2 ^ (31 - nbits) = 2147483648) by (rewrite <- Z.pow_add_r by lia; replace (nbits + (31 - nbits)) with 31 by lia; done).
  assert (Hp : 0 < 2 ^ (31 - nbits)) by (apply Z.pow_pos_nonneg; lia). split; [nia|]. intros x y Hxv Hyv. pose proof (Hi x Hxv). pose proof (Hi y Hyv).
  split; [unfold in_i32; nia|]. apply scaled_term_bound; [lia|lia|]. assert (Et : 2 ^ t * 2 ^ (31 - t) = 2147483648) by (rewrite <- Z.pow_add_r by lia; replace (t + (31 - t)) with 31 by lia; done).
  assert (H2t : 0 < 2 ^ t) by (apply Z.pow_pos_nonneg; lia). rewrite Z.abs_mul. destruct (Z.eq_dec M 32767) as [EM2|].
  - assert (E2 : 2 ^ t = 2).
    { subst M. destruct (Z.eq_dec t 0) as [E0|]; [rewrite E0 in Hm; lia|]. destruct (Z.eq_dec t 1) as [->|]; [done|]. assert (2 ^ 2 <= 2 ^ t) by (apply Z.pow_le_mono_r; lia). lia. }
    nia.
  - assert (Z.abs x <= M) by (destruct (Hx' x Hxv); lia). assert (Z.abs y <= M) by (destruct (Hx' y Hyv); lia). assert (Z.abs x * Z.abs y <= M * M) by nia. nia.
Qed.

(** C39. The correlations are scaled so that nothing overflows: for any frame of 16-bit
    samples, the smallest included, each result is the exact sum of the products of the samples a
    lag apart, every product shifted by the scale that is reported. *)
Theorem autocorrelation_exact v order : Forall in_i16 v -> 0 < zlen v < 2147483648 -> 0 <= order <= zlen v ->
  exists r scale, WebRtcSpl_AutoCorrelation v order = Some (r, scale) /\ 0 <= scale /\ zlen r = order + 1 /\
    forall i, 0 <= i <= order -> let sum := zsum (fun j => Z.shiftr (znth v j * znth v (i + j)) scale) 0 (Z.to_nat (zlen v - i)) in
      aget r i = Some sum /\ in_i32 sum.
Proof.
  intros Hv Hl Ho. destruct (correlation_scaling_fits v Hl Hv) as (s & T & Es & Hs & HT & HnT & Hterm).
  set (g := fun i j => Z.shiftr (znth v j * znth v (i + j)) s). assert (Hin : forall j, 0 <= j < zlen v -> znth v j ∈ v).
  { intros j Hj. pose proof (aget_znth v j Hj) as E. unfold aget in E. destruct (Z.leb_spec 0 j); [|lia]. by eapply list_elem_of_lookup_2. }
  assert (Hc : forall i, 0 <= i <= order -> correlation_at v s i = Some (zsum (g i) 0 (Z.to_nat (zlen v - i))) /\ in_i32 (zsum (g i) 0 (Z.to_nat (zlen v - i)))).
  { intros i Hi. unfold correlation_at. destruct (sum_loop_exact (fun j sum => let* a := aget v j in let* b := aget v (i + j) in Some (i32 (sum + Z.shiftr (i32 (a * b)) s))) (g i) T (Z.to_nat (zlen v - i))) as [E HB]; [done|nia| | |].
    - intros j sum Hj. rewrite (aget_znth v j), (aget_znth v (i + j)) by lia. cbn [mbind option_bind]. destruct (Hterm (znth v j) (znth v (i + j))) as [H32 _]; [apply Hin; lia|apply Hin; lia|]. unfold g. by rewrite (i32_id _ H32).
    - intros j Hj. apply Hterm; apply Hin; lia.
    - split; [exact E|]. unfold in_i32. nia. }
  exists (tab (fun i => zsum (g i) 0 (Z.to_nat (zlen v - i))) (order + 1)), s. unfold WebRtcSpl_AutoCorrelation. destruct (Z.leb_spec order (zlen v)); [|lia]. cbn [c_assert mbind option_bind]. rewrite Es. cbn [mbind option_bind].
  rewrite (mapM_tab _ (fun i => zsum (g i) 0 (Z.to_nat (zlen v - i)))) by (intros i Hi; apply Hc; lia). split; [done|]. split; [done|]. split; [apply length_tab; lia|].
  intros i Hi. split; [by rewrite aget_tab by lia|by apply Hc].
Qed.

Lemma autocorrelation_exact_witness : let v := [-32768; -32768; 32767; -1] in
  Forall in_i16 v /\ 0 < zlen v < 2147483648 /\ 0 <= 2 <= zlen v /\
  exists r scale, WebRtcSpl_AutoCorrelation v 2 = Some (r, scale) /\ 0 <= scale /\ zlen r = 2 + 1 /\
    forall i, 0 <= i <= 2 -> let sum := zsum (fun j => Z.shiftr (znth v j * znth v (i + j)) scale) 0 (Z.to_nat (zlen v - i)) in
      aget r i = Some sum /\ in_i32 sum.
Proof.
  intros v. assert (Hv : Forall in_i16 v) by (repeat (apply Forall_cons_2; [unfold in_i16; lia|]); apply Forall_nil_2).
  split; [exact Hv|]. split; [done|]. split; [done|]. exact (autocorrelation_exact v 2 Hv ltac:(done) ltac:(done)).
Defined.
End LinPredSpec.
