(* ===== verification/Filters.v ===== *)
(** The other filters and vector operations of the signal processing library, under
    common_audio/signal_processing: splitting_filter.c, resample_by_2.c (the portable
    branch), filter_ma_fast_q12.c, filter_ar_fast_q12.c, auto_corr_to_refl_coef.c,
    lpc_to_refl_coef.c, refl_coef_to_lpc.c, dot_product_with_scale.c,
    sqrt_of_one_minus_x_squared.c and ilbc_specific_functions.c.

    An array that a function only fills from its front is the list of what it stores. *)

From S2P Require Import Prelude SplInl SplVec LinPred.

Module Filters.
Import Spl SplVec LinPred.

Definition WEBRTC_SPL_SCALEDIFF32 (A B C : Z) : Z :=
  i32 (u32 (i32 (C + i32 (Z.shiftr B 16 * A)) + Z.shiftr (u32 (u32 (Z.land 65535 B) * A)) 16)).

(** ** splitting_filter.c *)

Definition kMaxBandFrameLength : Z := 320.
Definition WebRtcSpl_kAllPassFilter1 : list Z := [6418; 36982; 57261].
Definition WebRtcSpl_kAllPassFilter2 : list Z := [21333; 49062; 63010].

(** A cascade: from one array to the other, with the states of both. *)
Definition cascade (coefficient : Z) (from : list Z) (data_length in_state out_state : Z) : option (list Z) :=
  let* x := aget from 0 in
  let diff := WebRtcSpl_SubSatW32 x out_state in
  for_loop (fun k to =>
    let* x := aget from k in
    let* y := aget to (k - 1) in
    let diff := WebRtcSpl_SubSatW32 x y in
    let* x := aget from (k - 1) in
    Some (to ++ [WEBRTC_SPL_SCALEDIFF32 coefficient diff x]))
    1 (Z.to_nat (data_length - 1)) [WEBRTC_SPL_SCALEDIFF32 coefficient diff in_state].

(** The output and the filter state; the second cascade leaves its output in [in_data], which no
    caller uses. *)
Definition WebRtcSpl_AllPassQMF (in_data : list Z) (data_length : Z) (filter_coefficients filter_state : list Z) : option (list Z * list Z) :=
  let* c0 := aget filter_coefficients 0 in
  let* s0 := aget filter_state 0 in
  let* s1 := aget filter_state 1 in
  let* out_data := cascade c0 in_data data_length s0 s1 in
  let* x := aget in_data (data_length - 1) in
  let* filter_state := aset filter_state 0 x in
  let* y := aget out_data (data_length - 1) in
  let* filter_state := aset filter_state 1 y in
  let* c1 := aget filter_coefficients 1 in
  let* s2 := aget filter_state 2 in
  let* s3 := aget filter_state 3 in
  let* in_data := cascade c1 out_data data_length s2 s3 in
  let* x := aget out_data (data_length - 1) in
  let* filter_state := aset filter_state 2 x in
  let* y := aget in_data (data_length - 1) in
  let* filter_state := aset filter_state 3 y in
  let* c2 := aget filter_coefficients 2 in
  let* s4 := aget filter_state 4 in
  let* s5 := aget filter_state 5 in
  let* out_data := cascade c2 in_data data_length s4 s5 in
  let* x := aget in_data (data_length - 1) in
  let* filter_state := aset filter_state 4 x in
  let* y := aget out_data (data_length - 1) in
  let* filter_state := aset filter_state 5 y in
  Some (out_data, filter_state).

(** The bands and the filter states. *)
Definition WebRtcSpl_AnalysisQMF (in_data : list Z) (in_data_length : Z) (filter_state1 filter_state2 : list Z) : option (list Z * list Z * list Z * list Z) :=
  let band_length := in_data_length / 2 in
  let* _ := c_assert (in_data_length mod 2 =? 0) in
  let* _ := c_assert (band_length <=? kMaxBandFrameLength) in
  let* half_in2 := mapM (fun i => let* x := aget in_data (i16 (2 * i)) in Some (WEBRTC_SPL_LSHIFT_W32 x 10)) (seqZ 0 band_length) in
  let* half_in1 := mapM (fun i => let* x := aget in_data (i16 (2 * i) + 1) in Some (WEBRTC_SPL_LSHIFT_W32 x 10)) (seqZ 0 band_length) in
  let* (filter1, filter_state1) := WebRtcSpl_AllPassQMF half_in1 band_length WebRtcSpl_kAllPassFilter1 filter_state1 in
  let* (filter2, filter_state2) := WebRtcSpl_AllPassQMF half_in2 band_length WebRtcSpl_kAllPassFilter2 filter_state2 in
  let* low_band := mapM (fun i => let* a := aget filter1 i in let* b := aget filter2 i in
    Some (WebRtcSpl_SatW32ToW16 (Z.shiftr (i32 (i32 (a + b) + 1024)) 11))) (seqZ 0 band_length) in
  let* high_band := mapM (fun i => let* a := aget filter1 i in let* b := aget filter2 i in
    Some (WebRtcSpl_SatW32ToW16 (Z.shiftr (i32 (i32 (a - b) + 1024)) 11))) (seqZ 0 band_length) in
  Some (low_band, high_band, filter_state1, filter_state2).

(** The samples and the filter states. *)
Definition WebRtcSpl_SynthesisQMF (low_band high_band : list Z) (band_length : Z) (filter_state1 filter_state2 : list Z) : option (list Z * list Z * list Z) :=
  let* _ := c_assert (band_length <=? kMaxBandFrameLength) in
  let* half_in1 := mapM (fun i => let* l := aget low_band i in let* h := aget high_band i in Some (WEBRTC_SPL_LSHIFT_W32 (i32 (l + h)) 10)) (seqZ 0 band_length) in
  let* half_in2 := mapM (fun i => let* l := aget low_band i in let* h := aget high_band i in Some (WEBRTC_SPL_LSHIFT_W32 (i32 (l - h)) 10)) (seqZ 0 band_length) in
  let* (filter1, filter_state1) := WebRtcSpl_AllPassQMF half_in1 band_length WebRtcSpl_kAllPassFilter2 filter_state1 in
  let* (filter2, filter_state2) := WebRtcSpl_AllPassQMF half_in2 band_length WebRtcSpl_kAllPassFilter1 filter_state2 in
  let* out_data := for_loop (fun i out_data =>
    let* even := aget filter2 i in
    let* odd := aget filter1 i in
    Some (out_data ++ [WebRtcSpl_SatW32ToW16 (Z.shiftr (i32 (even + 512)) 10); WebRtcSpl_SatW32ToW16 (Z.shiftr (i32 (odd + 512)) 10)]))
    0 (Z.to_nat band_length) [] in
  Some (out_data, filter_state1, filter_state2).

(** ** resample_by_2.c *)

Definition kResampleAllpass1 : Z * Z * Z := (3284, 24441, 49528).
Definition kResampleAllpass2 : Z * Z * Z := (12199, 37471, 60255).

Definition MUL_ACCUM_1 (a b c : Z) : Z := WEBRTC_SPL_SCALEDIFF32 a b c.
Definition MUL_ACCUM_2 (a b c : Z) : Z := WEBRTC_SPL_SCALEDIFF32 a b c.

(** An allpass filter: a value and four of the states. *)
Definition allpass_filter (k : Z * Z * Z) (in32 : Z) (state : Z * Z * Z * Z) : Z * Z * Z * Z :=
  let '(k0, k1, k2) := k in
  let '(state0, state1, state2, state3) := state in
  let diff := i32 (in32 - state1) in
  let tmp1 := MUL_ACCUM_1 k0 diff state0 in
  let diff := i32 (tmp1 - state2) in
  let tmp2 := MUL_ACCUM_2 k1 diff state1 in
  let diff := i32 (tmp2 - state3) in
  (in32, tmp1, tmp2, MUL_ACCUM_2 k2 diff state2).

Definition load_states (filtState : list Z) : option ((Z * Z * Z * Z) * (Z * Z * Z * Z)) :=
  match filtState with
  | s0 :: s1 :: s2 :: s3 :: s4 :: s5 :: s6 :: s7 :: _ => Some (s0, s1, s2, s3, (s4, s5, s6, s7))
  | _ => None
  end.
Definition store_states (filtState : list Z) (s : (Z * Z * Z * Z) * (Z * Z * Z * Z)) : list Z :=
  let '(s0, s1, s2, s3, (s4, s5, s6, s7)) := s in [s0; s1; s2; s3; s4; s5; s6; s7] ++ drop 8 filtState.

(** A turn of the loop, over the output and the states of both filters. *)
Definition downsample_step (in_ : list Z) (i : Z) (s : list Z * (Z * Z * Z * Z) * (Z * Z * Z * Z)) : option (list Z * (Z * Z * Z * Z) * (Z * Z * Z * Z)) :=
  let '(out, lower, upper) := s in
  let* x := aget in_ (2 * i) in
  let lower := allpass_filter kResampleAllpass2 (i32 (Z.shiftl x 10)) lower in
  let* x := aget in_ (2 * i + 1) in
  let upper := allpass_filter kResampleAllpass1 (i32 (Z.shiftl x 10)) upper in
  let out32 := Z.shiftr (i32 (i32 (lower.2 + upper.2) + 1024)) 11 in
  Some (out ++ [WebRtcSpl_SatW32ToW16 out32], lower, upper).

(** The samples and the filter state. *)
Definition WebRtcSpl_DownsampleBy2 (in_ : list Z) (len : Z) (filtState : list Z) : option (list Z * list Z) :=
  let* (lower, upper) := load_states filtState in
  let* (out, lower, upper) := for_loop (downsample_step in_) 0 (Z.to_nat (Z.shiftr len 1)) ([], lower, upper) in
  Some (out, store_states filtState (lower, upper)).

Definition upsample_step (in_ : list Z) (i : Z) (s : list Z * (Z * Z * Z * Z) * (Z * Z * Z * Z)) : option (list Z * (Z * Z * Z * Z) * (Z * Z * Z * Z)) :=
  let '(out, lower, upper) := s in
  let* x := aget in_ i in
  let in32 := i32 (Z.shiftl x 10) in
  let lower := allpass_filter kResampleAllpass1 in32 lower in
  let upper := allpass_filter kResampleAllpass2 in32 upper in
  Some (out ++ [WebRtcSpl_SatW32ToW16 (Z.shiftr (i32 (lower.2 + 512)) 10); WebRtcSpl_SatW32ToW16 (Z.shiftr (i32 (upper.2 + 512)) 10)], lower, upper).

Definition WebRtcSpl_UpsampleBy2 (in_ : list Z) (len : Z) (filtState : list Z) : option (list Z * list Z) :=
  let* (lower, upper) := load_states filtState in
  let* (out, lower, upper) := for_loop (upsample_step in_) 0 (Z.to_nat len) ([], lower, upper) in
  Some (out, store_states filtState (lower, upper)).

(** ** filter_ma_fast_q12.c, filter_ar_fast_q12.c *)

(** [in_ptr] points to the entry [pos] of [in_]. *)
Definition WebRtcSpl_FilterMAFastQ12 (in_ : list Z) (pos : Z) (B : list Z) (B_length length : Z) : option (list Z) :=
  mapM (fun i =>
    let* o := for_loop (fun j o => let* b := aget B j in let* x := aget in_ (pos + (i - j)) in Some (i32 (o + i32 (b * x)))) 0 (Z.to_nat B_length) 0 in
    let o := WEBRTC_SPL_SAT 134215679 o (-134217728) in
    Some (i16 (Z.shiftr (i32 (o + 2048)) 12))) (seqZ 0 length).

(** [data_out] points to the entry [pos] of the array that is returned. *)
Definition WebRtcSpl_FilterARFastQ12 (data_in data_out : list Z) (pos : Z) (coefficients : list Z) (coefficients_length data_length : Z) : option (list Z) :=
  let* _ := c_assert (data_length >? 0) in
  let* _ := c_assert (coefficients_length >? 1) in
  for_loop (fun i data_out =>
    let* sum := for_loop (fun t sum =>
      let j := coefficients_length - 1 - t in
      let* c := aget coefficients j in let* y := aget data_out (pos + (i - j)) in Some (i32 (sum + i32 (c * y))))
      0 (Z.to_nat (coefficients_length - 1)) 0 in
    let* c := aget coefficients 0 in
    let* x := aget data_in i in
    let output := i32 (i32 (c * x) - sum) in
    let output := WEBRTC_SPL_SAT 134215679 output (-134217728) in
    aset data_out (pos + i) (i16 (Z.shiftr (i32 (output + 2048)) 12))) 0 (Z.to_nat data_length) data_out.

(** ** dot_product_with_scale.c *)

(** Of the two loops the first, unrolled by four, leaves the last products to the second. *)
Definition WebRtcSpl_DotProductWithScale (vector1 vector2 : list Z) (length scaling : Z) : option Z :=
  for_loop (fun i sum =>
    let* a := aget vector1 i in
    let* b := aget vector2 i in
    Some (i32 (sum + Z.shiftr (i32 (a * b)) scaling))) 0 (Z.to_nat length) 0.

(** ** Reflection coefficients *)

Definition WEBRTC_SPL_MAX_LPC_ORDER : Z := 14.

(** The quotient of [tmp] and [den] in Q15, bit by bit. *)
Definition schur_quotient (tmp den : Z) : Z :=
  if tmp =? 0 then 0 else
  (for_pure (fun _ '(K, L_num) =>
    let K := i16 (i32 (Z.shiftl K 1)) in
    let L_num := i32 (Z.shiftl L_num 1) in
    if L_num >=? den then (i16 (K + 1), i32 (L_num - den)) else (K, L_num)) 0 15 (0, tmp)).1.

Definition schur_product (x K : Z) : Z := i16 (Z.shiftr (i32 (i32 (x * K) + 16384)) 15).

(** The recursion over [P] and over [W] from its entry 1 on. *)
Definition schur_recursion (P W : list Z) (K use_order n : Z) : option (list Z * list Z) :=
  let* p1 := aget P 1 in
  let* p0 := aget P 0 in
  let* P := aset P 0 (WebRtcSpl_AddSatW16 p0 (schur_product p1 K)) in
  for_loop (fun i '(P, W) =>
    let* w := aget W (i - 1) in
    let* next := aget P (i + 1) in
    let* P := aset P i (WebRtcSpl_AddSatW16 next (schur_product w K)) in
    let* p := aget P (i + 1) in
    let* W := aset W (i - 1) (WebRtcSpl_AddSatW16 w (schur_product p K)) in
    Some (P, W)) 1 (Z.to_nat (use_order - n)) (P, W).

(** The coefficients from stage [n] on; [turns] are left. *)
Fixpoint schur_stages (turns : nat) (n use_order : Z) (P W : list Z) : option (list Z) :=
  match turns with
  | O => Some []
  | S turns =>
      let* p1 := aget P 1 in
      let* p0 := aget P 0 in
      let tmp := i16 (WEBRTC_SPL_ABS_W16 p1) in
      if p0 <? tmp then Some (zreplicate (use_order - n + 1) 0)
      else
        let K := schur_quotient tmp p0 in
        let K := if p1 >? 0 then i16 (- K) else K in
        if n =? use_order then Some [K]
        else
          let* (P, W) := schur_recursion P W K use_order n in
          let* Ks := schur_stages turns (n + 1) use_order P W in
          Some (K :: Ks)
  end.

Definition WebRtcSpl_AutoCorrToReflCoef (R : list Z) (use_order : Z) : option (list Z) :=
  let* R0 := aget R 0 in
  let tmp := i16 (WebRtcSpl_NormW32 R0) in
  let* _ := c_assert (use_order <? WEBRTC_SPL_MAX_LPC_ORDER) in
  let* P := mapM (fun i => let* r := aget R i in Some (i16 (Z.shiftr (i32 (Z.shiftl r tmp)) 16))) (seqZ 0 (use_order + 1)) in
  schur_stages (Z.to_nat use_order) 1 use_order P (drop 1 P).

Definition SPL_LPC_TO_REFL_COEF_MAX_AR_MODEL_ORDER : Z := 50.

(** The quotients [tmp32[1]] to [tmp32[m]]. *)
Definition step_down (a16 : list Z) (k m tmp_inv_denom16 : Z) : option (list Z) :=
  mapM (fun j =>
    let* a := aget a16 j in
    let* b := aget a16 (m - j + 1) in
    let tmp32 := i32 (i32 (Z.shiftl a 16) - i32 (Z.shiftl (i32 (k * b)) 1)) in
    Some (WebRtcSpl_DivW32W16 tmp32 tmp_inv_denom16)) (seqZ 1 m).

(** The coefficients; [a16] changes as well. *)
Definition WebRtcSpl_LpcToReflCoef (a16 : list Z) (use_order : Z) (k16 : list Z) : option (list Z * list Z) :=
  let* a := aget a16 use_order in
  let* k16 := aset k16 (use_order - 1) (i16 (Z.shiftl a 3)) in
  let* (k16, a16) := for_loop (fun t '(k16, a16) =>
    let m := use_order - 1 - t in
    let* _ := c_assert (m <? SPL_LPC_TO_REFL_COEF_MAX_AR_MODEL_ORDER) in
    let* km := aget k16 m in
    let tmp_inv_denom32 := i32 (1073741823 - i32 (km * km)) in
    let tmp_inv_denom16 := i16 (Z.shiftr tmp_inv_denom32 15) in
    let* tmp32 := step_down a16 km m tmp_inv_denom16 in
    let* a16 := for_loop (fun k a16 => let* v := aget tmp32 (k - 1) in aset a16 k (i16 (Z.shiftr v 1))) 1 (Z.to_nat (m - 1)) a16 in
    let* v := aget tmp32 (m - 1) in
    let v := WEBRTC_SPL_SAT 8191 v (-8191) in
    let* k16 := aset k16 (m - 1) (i16 (WEBRTC_SPL_LSHIFT_W32 v 2)) in
    Some (k16, a16)) 0 (Z.to_nat (use_order - 1)) (k16, a16) in
  Some (k16, a16).

(** Stage [m] of the polynomial. *)
Definition step_up (k : list Z) (m : Z) (a : list Z) : option (list Z) :=
  let* km := aget k m in
  let* a0 := aget a 0 in
  let* any := mapM (fun i =>
    let* x := aget a (1 + i) in
    let* y := aget a (m - i) in
    Some (i16 (x + i16 (Z.shiftr (i32 (y * km)) 15)))) (seqZ 0 m) in
  Some (a0 :: any ++ [Z.shiftr km 3]).

Definition WebRtcSpl_ReflCoefToLpc (k : list Z) (use_order : Z) : option (list Z) :=
  let* k0 := aget k 0 in
  let* _ := c_assert (use_order <=? WEBRTC_SPL_MAX_LPC_ORDER) in
  for_loop (step_up k) 1 (Z.to_nat (use_order - 1)) [4096; Z.shiftr k0 3].

(** ** Elementwise operations *)

Definition WebRtcSpl_SqrtOfOneMinusXSquared (xQ15 : list Z) (vector_length : Z) : option (list Z) :=
  mapM (fun m =>
    let* tmp := aget xQ15 m in
    let sq := i32 (tmp * tmp) in
    let sq := i32 (1073741823 - sq) in
    let* sq := WebRtcSpl_Sqrt sq in
    Some (i16 sq)) (seqZ 0 vector_length).

(** [win] points to the entry [pos] of its array and moves backwards. *)
Definition WebRtcSpl_ReverseOrderMultArrayElements (in_ win : list Z) (pos vector_length right_shifts : Z) : option (list Z) :=
  mapM (fun i => let* x := aget in_ i in let* w := aget win (pos - i) in Some (i16 (Z.shiftr (i32 (x * w)) right_shifts))) (seqZ 0 vector_length).

Definition WebRtcSpl_AddVectorsAndShift (in1 in2 : list Z) (vector_length right_shifts : Z) : option (list Z) :=
  mapM (fun i => let* a := aget in1 i in let* b := aget in2 i in Some (i16 (Z.shiftr (i32 (a + b)) right_shifts))) (seqZ 0 vector_length).

Definition affine (x gain add_constant right_shifts : Z) : Z := i16 (Z.shiftr (i32 (i32 (x * gain) + add_constant)) right_shifts).

Definition WebRtcSpl_AddAffineVectorToVector (out in_ : list Z) (gain add_constant right_shifts vector_length : Z) : option (list Z) :=
  for_loop (fun i out => let* x := aget in_ i in let* o := aget out i in aset out i (i16 (o + affine x gain add_constant right_shifts)))
    0 (Z.to_nat vector_length) out.

Definition WebRtcSpl_AffineTransformVector (in_ : list Z) (gain add_constant right_shifts vector_length : Z) : option (list Z) :=
  mapM (fun i => let* x := aget in_ i in Some (affine x gain add_constant right_shifts)) (seqZ 0 vector_length).

End Filters.
