(* ===== verification/FiltersSpec.v ===== *)
(** Properties of Filters.v: the allpass filters of the splitting filter and of the conversions by
    two compute over unbounded integers; the other functions stay in their arrays. *)

From S2P Require Import Prelude SplInl SplVec LinPred LinPredSpec Filters.

Module FiltersSpec.
Import Spl SplSpec SplVec SplVecSpec LinPred LinPredSpec Filters.

(** ** A section *)

(** [y] for the value [x], after [x1] and [y1]; the coefficient is in Q16. *)
Definition allpass_section (a x x1 y1 : Z) : Z := x1 + a * (x - y1) / 65536.

Lemma SCALEDIFF32_wraps A B C : 0 <= A <= 65535 -> WEBRTC_SPL_SCALEDIFF32 A B C = i32 (C + A * B / 65536).
Proof.
  intros HA. unfold WEBRTC_SPL_SCALEDIFF32. rewrite Z.land_comm. change 65535 with (Z.ones 16). rewrite Z.land_ones by lia. rewrite !Z.shiftr_div_pow2 by lia. change (2 ^ 16) with 65536.
  assert (Hl : 0 <= B mod 65536 < 65536) by (apply Z.mod_pos_bound; lia). pose proof (Z.div_mod B 65536 ltac:(lia)) as E. set (h := B / 65536) in *. set (l := B mod 65536) in *.
  assert (E2 : A * B / 65536 = h * A + l * A / 65536) by (rewrite E; replace (A * (65536 * h + l)) with (h * A * 65536 + l * A) by lia; rewrite Z.div_add_l by lia; done).
  rewrite E2. clearbody h l. rewrite (u32_id l), (u32_id (l * A)) by (unfold in_u32; nia). set (p := h * A). set (q := l * A / 65536). clearbody p q. unfold i32, u32. dlia.
Qed.

(** What bounds a section: the values by [X], and the part of the next value that is known by
    [W]. *)
Definition memory_bound (a X : Z) : Z := ((65536 + a) * X + 65535) / 65536 + 65535 / (65536 - a) + 1.
Definition output_bound (a X : Z) : Z := memory_bound a X + X + 1.

Definition section_ok (a X x1 y1 : Z) : Prop :=
  Z.abs x1 <= X /\ Z.abs (65536 * x1 - a * y1) <= 65536 * memory_bound a X /\ Z.abs y1 <= output_bound a X.

Lemma memory_bound_enough a X : 0 <= a <= 65535 -> 0 <= X ->
  (65536 * 65536 - a * a) * X + a * 65536 + a * 65536 * memory_bound a X <= 65536 * 65536 * memory_bound a X.
Proof.
  intros Ha HX. unfold memory_bound. set (p := ((65536 + a) * X + 65535) / 65536). set (q := 65535 / (65536 - a)).
  assert (Hp : (65536 + a) * X <= 65536 * p) by (unfold p; dlia). assert (Hq : 65535 < (65536 - a) * (q + 1)).
  { pose proof (Z.mul_succ_div_gt 65535 (65536 - a) ltac:(lia)). unfold q. lia. }
  clearbody p q. assert (H1 : (65536 - a) * ((65536 + a) * X) <= (65536 - a) * (65536 * p)) by (apply Z.mul_le_mono_nonneg_l; lia).
  assert (H2 : 65536 * a <= 65536 * ((65536 - a) * (q + 1))) by lia. nia.
Qed.

Lemma section_keeps a X x x1 y1 : 0 <= a <= 65535 -> 0 <= X -> section_ok a X x1 y1 -> Z.abs x <= X ->
  let y := allpass_section a x x1 y1 in section_ok a X x y /\ Z.abs y <= output_bound a X.
Proof.
  intros Ha HX (H1 & HW & HY) Hx y. pose proof (memory_bound_enough a X Ha HX) as Henough. assert (HW0 : 0 <= memory_bound a X).
  { unfold memory_bound. assert (0 <= ((65536 + a) * X + 65535) / 65536) by (apply Z.div_pos; nia). assert (0 <= 65535 / (65536 - a)) by (apply Z.div_pos; lia). lia. }
  set (u := 65536 * x1 - a * y1) in *. assert (Hy : u + a * x - 65535 <= 65536 * y <= u + a * x).
  { unfold y, allpass_section, u. pose proof (Z.div_mod (a * (x - y1)) 65536 ltac:(lia)). pose proof (Z.mod_pos_bound (a * (x - y1)) 65536 ltac:(lia)). nia. }
  clearbody u y. clear HY H1 y1 x1. unfold output_bound, section_ok, output_bound. cbv zeta. set (W := memory_bound a X) in *. clearbody W.
  assert (Hax : - (a * X) <= a * x <= a * X) by nia. assert (HaX : a * X <= 65535 * X) by nia.
  assert (HyB : Z.abs y <= W + X + 1) by lia. split; [|exact HyB]. split; [done|]. split; [|exact HyB].
  assert (Hp1 : a * (u + a * x - 65535) <= a * (65536 * y)) by (apply Z.mul_le_mono_nonneg_l; lia). assert (Hp2 : a * (65536 * y) <= a * (u + a * x)) by (apply Z.mul_le_mono_nonneg_l; lia).
  assert (Hq1 : - ((65536 * 65536 - a * a) * X) <= (65536 * 65536 - a * a) * x <= (65536 * 65536 - a * a) * X) by nia.
  assert (Hq2 : - (a * (65536 * W)) <= a * u <= a * (65536 * W)) by nia.
  apply Z.abs_le. nia.
Qed.

(** ** The filter of three sections *)

Definition allpass_reference (k : Z * Z * Z) (x : Z) (s : Z * Z * Z * Z) : Z * Z * Z * Z :=
  let '(k0, k1, k2) := k in
  let '(s0, s1, s2, s3) := s in
  let y1 := allpass_section k0 x s0 s1 in
  let y2 := allpass_section k1 y1 s1 s2 in
  (x, y1, y2, allpass_section k2 y2 s2 s3).

(** The outputs for successive values, and the last state. *)
Fixpoint allpass_run (k : Z * Z * Z) (xs : list Z) (s : Z * Z * Z * Z) : list Z * (Z * Z * Z * Z) :=
  match xs with
  | [] => ([], s)
  | x :: xs => let s := allpass_reference k x s in let (ys, s') := allpass_run k xs s in (s.2 :: ys, s')
  end.

(** States that the filter reaches on values of at most [X]. *)
Definition filter_ok (k : Z * Z * Z) (X : Z) (s : Z * Z * Z * Z) : Prop :=
  let '(k0, k1, k2) := k in
  let '(s0, s1, s2, s3) := s in
  section_ok k0 X s0 s1 /\ section_ok k1 (output_bound k0 X) s1 s2 /\ section_ok k2 (output_bound k1 (output_bound k0 X)) s2 s3.

(** Coefficients for which nothing leaves 32 bits. *)
Definition fits (k : Z * Z * Z) (X : Z) : bool :=
  let '(k0, k1, k2) := k in
  let Y1 := output_bound k0 X in
  let Y2 := output_bound k1 Y1 in
  let Y3 := output_bound k2 Y2 in
  (0 <=? k0) && (k0 <=? 65535) && (0 <=? k1) && (k1 <=? 65535) && (0 <=? k2) && (k2 <=? 65535) && (0 <=? X) && (0 <=? Y1) && (0 <=? Y2) &&
  (X + Y1 <=? 2147483647) && (Y1 + Y2 <=? 2147483647) && (Y2 + Y3 <=? 2147483647).

Definition filter_bound (k : Z * Z * Z) (X : Z) : Z := let '(k0, k1, k2) := k in output_bound k2 (output_bound k1 (output_bound k0 X)).

Ltac split_fits H := unfold fits in H; rewrite !andb_true_iff, !Z.leb_le in H; destruct H as [[[[[[[[[[[? ?] ?] ?] ?] ?] ?] ?] ?] ?] ?] ?].

Lemma reference_keeps k X x s : fits k X = true -> filter_ok k X s -> Z.abs x <= X ->
  filter_ok k X (allpass_reference k x s) /\ Z.abs (allpass_reference k x s).2 <= filter_bound k X.
Proof.
  destruct k as [[k0 k1] k2], s as [[[s0 s1] s2] s3]. intros Hf (H0 & H1 & H2) Hx. split_fits Hf. unfold allpass_reference, filter_ok, filter_bound. cbv zeta. cbn [snd].
  destruct (section_keeps k0 X x s0 s1) as [G0 B0]; [lia|lia|done|done|]. destruct (section_keeps k1 (output_bound k0 X) (allpass_section k0 x s0 s1) s1 s2) as [G1 B1]; [lia|lia|done|done|].
  destruct (section_keeps k2 (output_bound k1 (output_bound k0 X)) (allpass_section k1 (allpass_section k0 x s0 s1) s1 s2) s2 s3) as [G2 B2]; [lia|lia|done|done|]. done.
Qed.

Lemma section_exact a X x x1 y1 : 0 <= a <= 65535 -> 0 <= X -> section_ok a X x1 y1 -> Z.abs x <= X -> X + output_bound a X <= 2147483647 ->
  in_i32 (x - y1) /\ WEBRTC_SPL_SCALEDIFF32 a (x - y1) x1 = allpass_section a x x1 y1.
Proof.
  intros Ha HX Hok Hx Hb. pose proof Hok as (_ & _ & HY). split; [unfold in_i32; lia|]. rewrite SCALEDIFF32_wraps by done. apply i32_id.
  destruct (section_keeps a X x x1 y1 Ha HX Hok Hx) as [_ B]. cbv zeta in B. fold (allpass_section a x x1 y1). revert B. generalize (allpass_section a x x1 y1). intros y B. unfold in_i32. lia.
Qed.

Lemma allpass_filter_exact k X x s : fits k X = true -> filter_ok k X s -> Z.abs x <= X -> allpass_filter k x s = allpass_reference k x s.
Proof.
  destruct k as [[k0 k1] k2], s as [[[s0 s1] s2] s3]. intros Hf (H0 & H1 & H2) Hx. split_fits Hf. unfold allpass_filter, allpass_reference, MUL_ACCUM_1, MUL_ACCUM_2. cbv zeta.
  destruct (section_exact k0 X x s0 s1) as [I0 E0]; [lia|lia|done|done|lia|]. rewrite (i32_id _ I0), E0. destruct (section_keeps k0 X x s0 s1) as [_ B0]; [lia|lia|done|done|]. cbv zeta in B0.
  destruct (section_exact k1 (output_bound k0 X) (allpass_section k0 x s0 s1) s1 s2) as [I1 E1]; [lia|lia|done|done|lia|]. rewrite (i32_id _ I1), E1.
  destruct (section_keeps k1 (output_bound k0 X) (allpass_section k0 x s0 s1) s1 s2) as [_ B1]; [lia|lia|done|done|]. cbv zeta in B1.
  destruct (section_exact k2 (output_bound k1 (output_bound k0 X)) (allpass_section k1 (allpass_section k0 x s0 s1) s1 s2) s2 s3) as [I2 E2]; [lia|lia|done|done|lia|]. by rewrite (i32_id _ I2), E2.
Qed.

(** ** Runs of the filter *)

Lemma allpass_run_snoc k xs x s : allpass_run k (xs ++ [x]) s =
  let (ys, s') := allpass_run k xs s in let s'' := allpass_reference k x s' in (ys ++ [s''.2], s'').
Proof.
  revert s. induction xs as [|y xs IH]; intros s; cbn [allpass_run app]; [done|]. cbv zeta. rewrite IH. destruct (allpass_run k xs _) as [ys s']. done.
Qed.

Lemma allpass_run_keeps k X xs s : fits k X = true -> filter_ok k X s -> Forall (fun x => Z.abs x <= X) xs ->
  let (ys, s') := allpass_run k xs s in zlen ys = zlen xs /\ Forall (fun y => Z.abs y <= filter_bound k X) ys /\ filter_ok k X s'.
Proof.
  intros Hf. revert s. induction xs as [|x xs IH]; intros s Hs HF; cbn [allpass_run]; [done|]. destruct (Forall_cons_1 _ _ _ HF) as [Hx HF2].
  destruct (reference_keeps k X x s Hf Hs Hx) as [Hs' Hy]. specialize (IH _ Hs' HF2). cbv zeta. destruct (allpass_run k xs _) as [ys s']. destruct IH as (Hl & HB & Hok).
  split; [cbn [length]; lia|]. split; [by constructor|done].
Qed.

Lemma bounded_tab X f n : (forall j, Z.abs (f j) <= X) -> Forall (fun x => Z.abs x <= X) (tab f n).
Proof. intros Hb. apply Forall_tab. intros j _. apply Hb. Qed.

(** One more value. *)
Lemma run_step k X f i s ys s' : fits k X = true -> filter_ok k X s -> (forall j, Z.abs (f j) <= X) -> 0 <= i -> allpass_run k (tab f i) s = (ys, s') ->
  allpass_filter k (f i) s' = allpass_reference k (f i) s' /\
  allpass_run k (tab f (i + 1)) s = (ys ++ [(allpass_reference k (f i) s').2], allpass_reference k (f i) s') /\
  zlen ys = i /\ Z.abs (allpass_reference k (f i) s').2 <= filter_bound k X.
Proof.
  intros Hf Hs Hb Hi E. pose proof (allpass_run_keeps k X (tab f i) s Hf Hs (bounded_tab _ _ _ Hb)) as H. rewrite E in H. destruct H as (Hl & _ & Hok). rewrite length_tab in Hl by done.
  split; [by apply (allpass_filter_exact k X)|]. split; [by rewrite tab_snoc, allpass_run_snoc, E by done|]. split; [done|]. by apply (reference_keeps k X).
Qed.

(** ** Conversions by two *)

Definition half_range : Z := 33554432.

Lemma halving_fits : fits kResampleAllpass1 half_range = true /\ fits kResampleAllpass2 half_range = true /\
  filter_bound kResampleAllpass1 half_range + filter_bound kResampleAllpass2 half_range + 1024 <= 2147483647.
Proof. vm_compute. split; [done|]. split; [done|]. discriminate. Qed.

Lemma widened x : in_i16 x -> i32 (Z.shiftl x 10) = 1024 * x /\ Z.abs (1024 * x) <= half_range.
Proof. intros Hx. unfold in_i16 in Hx. rewrite Z.shiftl_mul_pow2 by lia. change (2 ^ 10) with 1024. rewrite i32_id by (unfold in_i32; lia). unfold half_range. lia. Qed.

(** Entry [i] of an array of samples, widened; all other entries are 0. *)
Lemma widened_entry in_ i : Forall in_i16 in_ -> Z.abs (1024 * znth in_ i) <= half_range.
Proof.
  intros HF. destruct (aget in_ i) as [x|] eqn:E; [rewrite (znth_aget _ _ _ E); apply widened; by eapply Forall_aget|]. unfold znth. rewrite E. done.
Qed.

Definition round_to (shift x : Z) : Z := clamp (-32768) 32767 ((x + 2 ^ (shift - 1)) / 2 ^ shift).

Lemma round_exact shift x : 1 <= shift <= 30 -> Z.abs x + 2 ^ (shift - 1) <= 2147483647 -> WebRtcSpl_SatW32ToW16 (Z.shiftr (i32 (x + 2 ^ (shift - 1))) shift) = round_to shift x.
Proof.
  intros Hs Hx. pose proof (Z.pow_pos_nonneg 2 (shift - 1) ltac:(lia) ltac:(lia)). rewrite i32_id by (unfold in_i32; lia). rewrite Z.shiftr_div_pow2 by lia. apply SatW32ToW16_clamp.
Qed.

(** C12. Halving the rate computes over unbounded integers: from every state that samples lead to,
    and for every frame, each output is the rounded mean of two allpass filters of three
    sections, one of the even and one of the odd samples, and the states are those of the
    filters: nothing overflows. *)
Theorem halving_exact in_ len filtState lower upper : Forall in_i16 in_ -> 0 <= len <= zlen in_ -> load_states filtState = Some (lower, upper) ->
  filter_ok kResampleAllpass2 half_range lower -> filter_ok kResampleAllpass1 half_range upper ->
  let n := len / 2 in
  let (ys, lower') := allpass_run kResampleAllpass2 (tab (fun i => 1024 * znth in_ (2 * i)) n) lower in
  let (zs, upper') := allpass_run kResampleAllpass1 (tab (fun i => 1024 * znth in_ (2 * i + 1)) n) upper in
  filter_ok kResampleAllpass2 half_range lower' /\ filter_ok kResampleAllpass1 half_range upper' /\
  exists filtState', WebRtcSpl_DownsampleBy2 in_ len filtState = Some (zip_with (fun y z => round_to 11 (y + z)) ys zs, filtState') /\
    load_states filtState' = Some (lower', upper').
Proof.
  intros HF Hl HS Hlo Hup. cbv zeta. destruct halving_fits as (F1 & F2 & F3). set (f := fun i => 1024 * znth in_ (2 * i)). set (g := fun i => 1024 * znth in_ (2 * i + 1)).
  assert (Hn : 0 <= len / 2 /\ 2 * (len / 2) <= len) by dlia. set (n := len / 2) in *.
  assert (Bf : forall j, Z.abs (f j) <= half_range) by (intros j; by apply widened_entry). assert (Bg : forall j, Z.abs (g j) <= half_range) by (intros j; by apply widened_entry).
  pose proof (allpass_run_keeps _ _ (tab f n) lower F2 Hlo (bounded_tab _ _ _ Bf)) as K1. pose proof (allpass_run_keeps _ _ (tab g n) upper F1 Hup (bounded_tab _ _ _ Bg)) as K2.
  assert (HL : for_loop (downsample_step in_) 0 (Z.to_nat n) ([], lower, upper) ⤳
    (fun '(out, lo, up) => exists ys zs, allpass_run kResampleAllpass2 (tab f n) lower = (ys, lo) /\ allpass_run kResampleAllpass1 (tab g n) upper = (zs, up) /\
      out = zip_with (fun y z => round_to 11 (y + z)) ys zs)).
  { eapply result_weaken; [apply (loop_result (fun i '(out, lo, up) => exists ys zs, allpass_run kResampleAllpass2 (tab f i) lower = (ys, lo) /\ allpass_run kResampleAllpass1 (tab g i) upper = (zs, up) /\
      out = zip_with (fun y z => round_to 11 (y + z)) ys zs)); [lia|exists [], []; split_and!; reflexivity|]|intros [[? ?] ?]; rewrite Z.add_0_l; exact id].
    intros i [[out lo] up] Hi (ys & zs & Ey & Ez & ->). unfold downsample_step. rewrite (aget_znth in_ (2 * i)), (aget_znth in_ (2 * i + 1)) by lia. cbn [mbind option_bind]. cbv zeta.
    destruct (run_step _ _ f i lower ys lo F2 Hlo Bf ltac:(lia) Ey) as (X1 & R1 & L1 & B1). destruct (run_step _ _ g i upper zs up F1 Hup Bg ltac:(lia) Ez) as (X2 & R2 & L2 & B2).
    assert (W1 : i32 (Z.shiftl (znth in_ (2 * i)) 10) = f i) by (apply widened; eapply (Forall_aget in_i16); [exact HF|apply aget_znth; lia]).
    assert (W2 : i32 (Z.shiftl (znth in_ (2 * i + 1)) 10) = g i) by (apply widened; eapply (Forall_aget in_i16); [exact HF|apply aget_znth; lia]).
    rewrite W1, W2, X1, X2. apply result_ret. eexists _, _. split; [exact R1|]. split; [exact R2|]. rewrite zip_with_app by lia. cbn [zip_with]. do 2 f_equal.
    set (y := (allpass_reference kResampleAllpass2 _ _).2) in *. set (z := (allpass_reference kResampleAllpass1 _ _).2) in *. clearbody y z.
    rewrite (i32_id (y + z)) by (unfold in_i32; lia). apply (round_exact 11); [lia|]. change (2 ^ (11 - 1)) with 1024. lia. }
  destruct (allpass_run kResampleAllpass2 (tab f n) lower) as [ys lower'] eqn:Ey. destruct (allpass_run kResampleAllpass1 (tab g n) upper) as [zs upper'] eqn:Ez.
  split; [apply K1|]. split; [apply K2|]. destruct HL as ([[out lo] up] & E & ys' & zs' & [= <- <-] & [= <- <-] & ->).
  unfold WebRtcSpl_DownsampleBy2. rewrite HS. cbn [mbind option_bind fst snd]. rewrite Z.shiftr_div_pow2 by lia. change (2 ^ 1) with 2. fold n. rewrite E. cbn [mbind option_bind].
  eexists. split; [reflexivity|]. destruct lower' as [[[? ?] ?] ?], upper' as [[[? ?] ?] ?]. done.
Qed.

(** Doubling the rate computes over unbounded integers in the same way: each sample gives two,
    the rounded outputs of the two filters. *)
Theorem doubling_exact in_ len filtState lower upper : Forall in_i16 in_ -> 0 <= len <= zlen in_ -> load_states filtState = Some (lower, upper) ->
  filter_ok kResampleAllpass1 half_range lower -> filter_ok kResampleAllpass2 half_range upper ->
  let xs := tab (fun i => 1024 * znth in_ i) len in
  let (ys, lower') := allpass_run kResampleAllpass1 xs lower in
  let (zs, upper') := allpass_run kResampleAllpass2 xs upper in
  filter_ok kResampleAllpass1 half_range lower' /\ filter_ok kResampleAllpass2 half_range upper' /\
  exists filtState', WebRtcSpl_UpsampleBy2 in_ len filtState = Some (mjoin (zip_with (fun y z => [round_to 10 y; round_to 10 z]) ys zs), filtState') /\
    load_states filtState' = Some (lower', upper').
Proof.
  intros HF Hl HS Hlo Hup. cbv zeta. destruct halving_fits as (F1 & F2 & F3). set (f := fun i => 1024 * znth in_ i).
  assert (Bf : forall j, Z.abs (f j) <= half_range) by (intros j; by apply widened_entry).
  pose proof (allpass_run_keeps _ _ (tab f len) lower F1 Hlo (bounded_tab _ _ _ Bf)) as K1. pose proof (allpass_run_keeps _ _ (tab f len) upper F2 Hup (bounded_tab _ _ _ Bf)) as K2.
  assert (HL : for_loop (upsample_step in_) 0 (Z.to_nat len) ([], lower, upper) ⤳
    (fun '(out, lo, up) => exists ys zs, allpass_run kResampleAllpass1 (tab f len) lower = (ys, lo) /\ allpass_run kResampleAllpass2 (tab f len) upper = (zs, up) /\
      out = mjoin (zip_with (fun y z => [round_to 10 y; round_to 10 z]) ys zs))).
  { eapply result_weaken; [apply (loop_result (fun i '(out, lo, up) => exists ys zs, allpass_run kResampleAllpass1 (tab f i) lower = (ys, lo) /\ allpass_run kResampleAllpass2 (tab f i) upper = (zs, up) /\
      out = mjoin (zip_with (fun y z => [round_to 10 y; round_to 10 z]) ys zs))); [lia|exists [], []; split_and!; reflexivity|]|intros [[? ?] ?]; rewrite Z.add_0_l; exact id].
    intros i [[out lo] up] Hi (ys & zs & Ey & Ez & ->). unfold upsample_step. rewrite (aget_znth in_ i) by lia. cbn [mbind option_bind]. cbv zeta.
    destruct (run_step _ _ f i lower ys lo F1 Hlo Bf ltac:(lia) Ey) as (X1 & R1 & L1 & B1). destruct (run_step _ _ f i upper zs up F2 Hup Bf ltac:(lia) Ez) as (X2 & R2 & L2 & B2).
    assert (W1 : i32 (Z.shiftl (znth in_ i) 10) = f i) by (apply widened; eapply (Forall_aget in_i16); [exact HF|apply aget_znth; lia]).
    rewrite W1, X1, X2. apply result_ret. eexists _, _. split; [exact R1|]. split; [exact R2|]. rewrite zip_with_app by lia. cbn [zip_with].
    set (y := (allpass_reference kResampleAllpass1 _ _).2) in *. set (z := (allpass_reference kResampleAllpass2 _ _).2) in *. clearbody y z.
    assert (P0 : 0 <= filter_bound kResampleAllpass1 half_range /\ 0 <= filter_bound kResampleAllpass2 half_range) by lia.
    rewrite join_app. cbn. do 2 f_equal; [|f_equal]; apply (round_exact 10); try lia; change (2 ^ (10 - 1)) with 512; lia. }
  destruct (allpass_run kResampleAllpass1 (tab f len) lower) as [ys lower'] eqn:Ey. destruct (allpass_run kResampleAllpass2 (tab f len) upper) as [zs upper'] eqn:Ez.
  split; [apply K1|]. split; [apply K2|]. destruct HL as ([[out lo] up] & E & ys' & zs' & [= <- <-] & [= <- <-] & ->).
  unfold WebRtcSpl_UpsampleBy2. rewrite HS. cbn [mbind option_bind]. rewrite E. cbn [mbind option_bind].
  eexists. split; [reflexivity|]. destruct lower' as [[[? ?] ?] ?], upper' as [[[? ?] ?] ?]. done.
Qed.

(** ** The splitting filter *)

Lemma aget_cons {A} (x : A) l i : 0 < i -> aget (x :: l) i = aget l (i - 1).
Proof. intros Hi. unfold aget. destruct (Z.leb_spec 0 i), (Z.leb_spec 0 (i - 1)); try lia. by replace (Z.to_nat i) with (S (Z.to_nat (i - 1))) by lia. Qed.

Fixpoint section_run (a : Z) (xs : list Z) (x1 y1 : Z) : list Z :=
  match xs with [] => [] | x :: xs => let y := allpass_section a x x1 y1 in y :: section_run a xs x y end.

(** The last entry, or [d]. *)
Definition latest (d : Z) (xs : list Z) : Z := foldl (fun _ x => x) d xs.

Lemma aget_latest d xs : xs <> [] -> aget xs (zlen xs - 1) = Some (latest d xs).
Proof.
  revert d. induction xs as [|x xs IH]; intros d Hn; [done|]. destruct xs as [|y xs]; [done|]. rewrite aget_cons by (cbn [length]; lia).
  replace (zlen (x :: y :: xs) - 1 - 1) with (zlen (y :: xs) - 1) by (cbn [length]; lia). rewrite (IH x) by done. done.
Qed.

Lemma length_section_run a xs x1 y1 : length (section_run a xs x1 y1) = length xs.
Proof. revert x1 y1. induction xs as [|x xs IH]; intros; cbn [section_run length]; [done|]. by rewrite IH. Qed.

(** A filter is its sections one after the other. *)
Lemma run_sections k0 k1 k2 xs s0 s1 s2 s3 : let ys1 := section_run k0 xs s0 s1 in let ys2 := section_run k1 ys1 s1 s2 in let ys3 := section_run k2 ys2 s2 s3 in
  allpass_run (k0, k1, k2) xs (s0, s1, s2, s3) = (ys3, (latest s0 xs, latest s1 ys1, latest s2 ys2, latest s3 ys3)).
Proof.
  revert s0 s1 s2 s3. induction xs as [|x xs IH]; intros s0 s1 s2 s3; [done|]. cbv zeta in *. cbn [allpass_run section_run]. unfold allpass_reference. cbv zeta. by rewrite IH.
Qed.

Lemma section_run_at a X xs : 0 <= a <= 65535 -> 0 <= X -> Forall (fun x => Z.abs x <= X) xs -> forall x1 y1, section_ok a X x1 y1 ->
  forall i, 0 <= i < zlen xs -> exists x y x' y', aget xs i = Some x /\ aget (section_run a xs x1 y1) i = Some y /\ y = allpass_section a x x' y' /\ section_ok a X x' y' /\ Z.abs x <= X /\
    (if i =? 0 then x' = x1 /\ y' = y1 else aget xs (i - 1) = Some x' /\ aget (section_run a xs x1 y1) (i - 1) = Some y').
Proof.
  intros Ha HX HF. induction HF as [|x xs Hx HF IH]; intros x1 y1 Hok i Hi; cbn [length] in Hi; [lia|]. destruct (section_keeps a X x x1 y1 Ha HX Hok Hx) as [Hok' _]. cbv zeta in Hok'.
  cbn [section_run]. cbv zeta. destruct (Z.eqb_spec i 0) as [->|Hne].
  - exists x, (allpass_section a x x1 y1), x1, y1. done.
  - destruct (IH x (allpass_section a x x1 y1) Hok' (i - 1) ltac:(lia)) as (x2 & y2 & x' & y' & E1 & E2 & E3 & H4 & H5 & H6). exists x2, y2, x', y'. rewrite !aget_cons by lia.
    split_and!; try done. all: destruct (Z.eqb_spec (i - 1) 0) as [E0|]; [rewrite E0; destruct H6 as [-> ->]; done|]; rewrite aget_cons by lia; apply H6.
Qed.

Lemma section_run_bound a X xs x1 y1 : 0 <= a <= 65535 -> 0 <= X -> Forall (fun x => Z.abs x <= X) xs -> section_ok a X x1 y1 ->
  Forall (fun y => Z.abs y <= output_bound a X) (section_run a xs x1 y1).
Proof.
  intros Ha HX HF. revert x1 y1. induction HF as [|x xs Hx HF IH]; intros x1 y1 Hok; cbn [section_run]; [done|]. destruct (section_keeps a X x x1 y1 Ha HX Hok Hx) as [Hok' Hy].
  constructor; [exact Hy|]. by apply IH.
Qed.

Lemma SubSat_exact x y : in_i32 x -> in_i32 y -> in_i32 (x - y) -> WebRtcSpl_SubSatW32 x y = x - y.
Proof. intros Hx Hy Hd. rewrite SubSatW32_clamp by done. unfold clamp, in_i32 in *. lia. Qed.

Lemma cascade_exact a X xs n x1 y1 : 0 <= a <= 65535 -> 0 <= X -> X + output_bound a X <= 2147483647 -> Forall (fun x => Z.abs x <= X) xs -> section_ok a X x1 y1 ->
  n = zlen xs -> 1 <= n -> cascade a xs n x1 y1 = Some (section_run a xs x1 y1).
Proof.
  intros Ha HX HB HF Hok -> Hn. pose proof (section_run_at a X xs Ha HX HF x1 y1 Hok) as Hat. set (r := section_run a xs x1 y1) in *. assert (Hr : zlen r = zlen xs) by (unfold r; by rewrite length_section_run).
  assert (Hsec : forall i x' y' x, section_ok a X x' y' -> Z.abs x <= X -> 0 <= i -> WEBRTC_SPL_SCALEDIFF32 a (WebRtcSpl_SubSatW32 x y') x' = allpass_section a x x' y').
  { intros i x' y' x Hok' Hx _. destruct (section_exact a X x x' y' Ha HX Hok' Hx HB) as [I E]. destruct Hok' as (? & _ & ?). rewrite SubSat_exact; [done|unfold in_i32; lia|unfold in_i32; lia|done]. }
  unfold cascade. destruct (Hat 0 ltac:(lia)) as (x & y & x' & y' & Ex & Ey & -> & Hok' & Hx & -> & ->). rewrite Ex. cbn [mbind option_bind]. cbv zeta. rewrite (Hsec 0 x1 y1 x) by done.
  assert (E0 : [allpass_section a x x1 y1] = take (Z.to_nat 1) r).
  { change (Z.to_nat 1) with 1%nat. unfold aget in Ey. cbn [Z.leb Z.compare] in Ey. destruct r as [|r0 r']; [done|]. injection Ey as ->. by destruct r'. }
  rewrite E0. assert (HL : for_loop (fun k to => let* x := aget xs k in let* y := aget to (k - 1) in let diff := WebRtcSpl_SubSatW32 x y in let* x := aget xs (k - 1) in
    Some (to ++ [WEBRTC_SPL_SCALEDIFF32 a diff x])) 1 (Z.to_nat (zlen xs - 1)) (take (Z.to_nat 1) r) ⤳ (fun to => to = r)).
  { eapply result_weaken; [apply (loop_result (fun k to => to = take (Z.to_nat k) r)); [lia|done|]|].
    - intros k to Hk ->. destruct (Hat k ltac:(lia)) as (xk & yk & xp & yp & E1 & E2 & E3 & H4 & H5 & H6). destruct (Z.eqb_spec k 0); [lia|]. destruct H6 as [E6 E7].
      rewrite E1. cbn [mbind option_bind]. assert (E8 : aget (take (Z.to_nat k) r) (k - 1) = Some yp).
      { unfold aget in E7 |- *. destruct (Z.leb_spec 0 (k - 1)); [|lia]. rewrite lookup_take_lt by lia. exact E7. }
      rewrite E8. cbn [mbind option_bind]. cbv zeta. rewrite E6. cbn [mbind option_bind]. rewrite (Hsec k xp yp xk) by (done || lia). apply result_ret. rewrite <- E3.
      replace (Z.to_nat (k + 1)) with (S (Z.to_nat k)) by lia. symmetry. apply take_S_r. unfold aget in E2. destruct (Z.leb_spec 0 k); [done|lia].
    - intros to ->. apply firstn_all2. lia. }
  destruct HL as (to & E & ->). exact E.
Qed.

(** The states of the filter as the array that the code keeps. *)
Definition qmf_state (s : Z * Z * Z * Z) : list Z := let '(s0, s1, s2, s3) := s in [s0; s1; s1; s2; s2; s3].

Lemma AllPassQMF_exact k0 k1 k2 X xs n s : fits (k0, k1, k2) X = true -> filter_ok (k0, k1, k2) X s -> Forall (fun x => Z.abs x <= X) xs -> n = zlen xs -> 1 <= n ->
  WebRtcSpl_AllPassQMF xs n [k0; k1; k2] (qmf_state s) = let (ys, s') := allpass_run (k0, k1, k2) xs s in Some (ys, qmf_state s').
Proof.
  destruct s as [[[s0 s1] s2] s3]. intros Hf (H0 & H1 & H2) HF Hn Hn1. split_fits Hf. rewrite run_sections. cbv zeta.
  unfold WebRtcSpl_AllPassQMF, qmf_state. change (aget [k0; k1; k2] 0) with (Some k0). change (aget [k0; k1; k2] 1) with (Some k1). change (aget [k0; k1; k2] 2) with (Some k2).
  assert (Hx : xs <> []) by (intros ->; cbn in Hn; lia).
  set (ys1 := section_run k0 xs s0 s1). set (ys2 := section_run k1 ys1 s1 s2). set (ys3 := section_run k2 ys2 s2 s3).
  assert (L1 : zlen ys1 = n) by (unfold ys1; rewrite length_section_run; lia). assert (L2 : zlen ys2 = n) by (unfold ys2; rewrite length_section_run; lia). assert (L3 : zlen ys3 = n) by (unfold ys3; rewrite length_section_run; lia).
  assert (B1 : Forall (fun y => Z.abs y <= output_bound k0 X) ys1) by (apply section_run_bound; done || lia).
  assert (B2 : Forall (fun y => Z.abs y <= output_bound k1 (output_bound k0 X)) ys2) by (apply section_run_bound; done || lia).
  assert (C0 : cascade k0 xs n s0 s1 = Some ys1) by (apply (cascade_exact k0 X); done || lia).
  assert (C1 : cascade k1 ys1 n s1 s2 = Some ys2) by (apply (cascade_exact k1 (output_bound k0 X)); done || lia).
  assert (C2 : cascade k2 ys2 n s2 s3 = Some ys3) by (apply (cascade_exact k2 (output_bound k1 (output_bound k0 X))); done || lia).
  assert (A0 : aget xs (n - 1) = Some (latest s0 xs)) by (rewrite Hn; by apply aget_latest).
  assert (A1 : aget ys1 (n - 1) = Some (latest s1 ys1)) by (rewrite <- L1; apply aget_latest; intros E; rewrite E in L1; cbn in L1; lia).
  assert (A2 : aget ys2 (n - 1) = Some (latest s2 ys2)) by (rewrite <- L2; apply aget_latest; intros E; rewrite E in L2; cbn in L2; lia).
  assert (A3 : aget ys3 (n - 1) = Some (latest s3 ys3)) by (rewrite <- L3; apply aget_latest; intros E; rewrite E in L3; cbn in L3; lia).
  set (l0 := latest s0 xs) in *. set (l1 := latest s1 ys1) in *. set (l2 := latest s2 ys2) in *. set (l3 := latest s3 ys3) in *. clearbody l0 l1 l2 l3 ys1 ys2 ys3. clear - C0 C1 C2 A0 A1 A2 A3.
  repeat first [rewrite C0|rewrite C1|rewrite C2|rewrite A0|rewrite A1|rewrite A2|rewrite A3
    |match goal with |- context [aget (?x :: ?l) ?i] => let v := eval cbv in (aget (x :: l) i) in change (aget (x :: l) i) with v end
    |match goal with |- context [aset (?x :: ?l) ?i ?y] => let v := eval cbv in (aset (x :: l) i y) in change (aset (x :: l) i y) with v end
    |progress cbn [mbind option_bind]]. done.
Qed.

Definition analysis_range : Z := 33554432.
Definition synthesis_range : Z := 67108864.

(** The coefficients of the two filters. *)
Definition filter1_k : Z * Z * Z := (6418, 36982, 57261).
Definition filter2_k : Z * Z * Z := (21333, 49062, 63010).

Lemma bands_fit : fits filter1_k analysis_range = true /\ fits filter2_k analysis_range = true /\ fits filter1_k synthesis_range = true /\ fits filter2_k synthesis_range = true /\
  filter_bound filter1_k analysis_range + filter_bound filter2_k analysis_range + 1024 <= 2147483647 /\
  filter_bound filter1_k synthesis_range + 512 <= 2147483647 /\ filter_bound filter2_k synthesis_range + 512 <= 2147483647.
Proof. vm_compute. repeat split; try done; discriminate. Qed.

(** C11. The analysis filter computes over unbounded integers: from every state that frames lead
    to, and for every frame of an even number of samples, the bands are the rounded sum and
    difference of two allpass filters of the odd and the even samples; no subtraction
    saturates and nothing overflows. *)
Theorem analysis_exact in_ n s1 s2 : Forall in_i16 in_ -> 1 <= n <= 320 -> 2 * n <= zlen in_ -> filter_ok filter1_k analysis_range s1 -> filter_ok filter2_k analysis_range s2 ->
  let (ys, s1') := allpass_run filter1_k (tab (fun i => 1024 * znth in_ (2 * i + 1)) n) s1 in
  let (zs, s2') := allpass_run filter2_k (tab (fun i => 1024 * znth in_ (2 * i)) n) s2 in
  filter_ok filter1_k analysis_range s1' /\ filter_ok filter2_k analysis_range s2' /\
  WebRtcSpl_AnalysisQMF in_ (2 * n) (qmf_state s1) (qmf_state s2) =
    Some (tab (fun i => round_to 11 (znth ys i + znth zs i)) n, tab (fun i => round_to 11 (znth ys i - znth zs i)) n, qmf_state s1', qmf_state s2').
Proof.
  intros HF Hn Hl H1 H2. destruct bands_fit as (F1 & F2 & _ & _ & F3 & _). set (f := fun i => 1024 * znth in_ (2 * i + 1)). set (g := fun i => 1024 * znth in_ (2 * i)).
  assert (Bf : forall j, Z.abs (f j) <= analysis_range) by (intros j; by apply widened_entry). assert (Bg : forall j, Z.abs (g j) <= analysis_range) by (intros j; by apply widened_entry).
  pose proof (allpass_run_keeps _ _ (tab f n) s1 F1 H1 (bounded_tab _ _ _ Bf)) as K1. pose proof (allpass_run_keeps _ _ (tab g n) s2 F2 H2 (bounded_tab _ _ _ Bg)) as K2.
  pose proof (AllPassQMF_exact _ _ _ analysis_range (tab f n) n s1 F1 H1 (bounded_tab _ _ _ Bf)) as Q1. pose proof (AllPassQMF_exact _ _ _ analysis_range (tab g n) n s2 F2 H2 (bounded_tab _ _ _ Bg)) as Q2.
  rewrite !length_tab in Q1, Q2 by lia. specialize (Q1 eq_refl ltac:(lia)). specialize (Q2 eq_refl ltac:(lia)). fold filter1_k in Q1. fold filter2_k in Q2.
  destruct (allpass_run filter1_k (tab f n) s1) as [ys s1']. destruct (allpass_run filter2_k (tab g n) s2) as [zs s2']. rewrite !length_tab in K1, K2 by lia. destruct K1 as (L1 & B1 & K1), K2 as (L2 & B2 & K2).
  split; [done|]. split; [done|]. unfold WebRtcSpl_AnalysisQMF. replace (2 * n / 2) with n by dlia. replace (2 * n mod 2) with 0 by dlia. unfold kMaxBandFrameLength. destruct (Z.leb_spec n 320); [|lia].
  cbn [Z.eqb c_assert mbind option_bind]. cbv zeta.
  assert (W : forall j, 0 <= j < zlen in_ -> WEBRTC_SPL_LSHIFT_W32 (znth in_ j) 10 = 1024 * znth in_ j).
  { intros j Hj. apply widened. eapply (Forall_aget in_i16); [exact HF|by apply aget_znth]. }
  rewrite (mapM_tab (fun i => let* x := aget in_ (i16 (2 * i)) in _) g). 2:{ intros i Hi. rewrite i16_id by (unfold in_i16; lia). rewrite (aget_znth in_) by lia. cbn [mbind option_bind]. by rewrite W by lia. } cbn [mbind option_bind].
  rewrite (mapM_tab _ f). 2:{ intros i Hi. rewrite i16_id by (unfold in_i16; lia). rewrite (aget_znth in_) by lia. cbn [mbind option_bind]. by rewrite W by lia. } cbn [mbind option_bind].
  change WebRtcSpl_kAllPassFilter1 with [6418; 36982; 57261]. change WebRtcSpl_kAllPassFilter2 with [21333; 49062; 63010]. rewrite Q1. cbn [mbind option_bind]. rewrite Q2. cbn [mbind option_bind].
  assert (Bi : forall i, 0 <= i < n -> Z.abs (znth ys i) <= filter_bound filter1_k analysis_range /\ Z.abs (znth zs i) <= filter_bound filter2_k analysis_range).
  { intros i Hi. split; [apply (Forall_aget _ _ _ _ B1 (aget_znth ys i ltac:(lia)))|apply (Forall_aget _ _ _ _ B2 (aget_znth zs i ltac:(lia)))]. }
  rewrite (mapM_tab (fun i => let* a := aget ys i in let* b := aget zs i in Some (WebRtcSpl_SatW32ToW16 (Z.shiftr (i32 (i32 (a + b) + 1024)) 11))) (fun i => round_to 11 (znth ys i + znth zs i))). 2:{ intros i Hi. rewrite (aget_znth ys i), (aget_znth zs i) by lia. cbn [mbind option_bind]. destruct (Bi i Hi).
    rewrite (i32_id (znth ys i + znth zs i)) by (unfold in_i32; lia). f_equal. apply (round_exact 11); [lia|]. change (2 ^ (11 - 1)) with 1024. lia. }
  cbn [mbind option_bind].
  rewrite (mapM_tab (fun i => let* a := aget ys i in let* b := aget zs i in Some (WebRtcSpl_SatW32ToW16 (Z.shiftr (i32 (i32 (a - b) + 1024)) 11))) (fun i => round_to 11 (znth ys i - znth zs i))). 2:{ intros i Hi. rewrite (aget_znth ys i), (aget_znth zs i) by lia. cbn [mbind option_bind]. destruct (Bi i Hi).
    rewrite (i32_id (znth ys i - znth zs i)) by (unfold in_i32; lia). f_equal. apply (round_exact 11); [lia|]. change (2 ^ (11 - 1)) with 1024. lia. }
  done.
Qed.

(** The synthesis filter computes over unbounded integers as well: the even and the odd samples
    are the rounded outputs of two allpass filters of the difference and of the sum of the
    bands. *)
Theorem synthesis_exact low high n s1 s2 : Forall in_i16 low -> Forall in_i16 high -> 1 <= n <= 320 -> n <= zlen low -> n <= zlen high ->
  filter_ok filter2_k synthesis_range s1 -> filter_ok filter1_k synthesis_range s2 ->
  let (ys, s1') := allpass_run filter2_k (tab (fun i => 1024 * (znth low i + znth high i)) n) s1 in
  let (zs, s2') := allpass_run filter1_k (tab (fun i => 1024 * (znth low i - znth high i)) n) s2 in
  filter_ok filter2_k synthesis_range s1' /\ filter_ok filter1_k synthesis_range s2' /\
  WebRtcSpl_SynthesisQMF low high n (qmf_state s1) (qmf_state s2) =
    Some (mjoin (tab (fun i => [round_to 10 (znth zs i); round_to 10 (znth ys i)]) n), qmf_state s1', qmf_state s2').
Proof.
  intros HFl HFh Hn Hl Hh H1 H2. destruct bands_fit as (_ & _ & F1 & F2 & _ & F4 & F5). set (f := fun i => 1024 * (znth low i + znth high i)). set (g := fun i => 1024 * (znth low i - znth high i)).
  assert (B16 : forall l j, Forall in_i16 l -> in_i16 (znth l j)).
  { intros l j HF. destruct (aget l j) as [x|] eqn:E; [rewrite (znth_aget _ _ _ E); by eapply Forall_aget|]. unfold znth. rewrite E. unfold in_i16. cbn. lia. }
  assert (Bf : forall j, Z.abs (f j) <= synthesis_range) by (intros j; pose proof (B16 low j HFl); pose proof (B16 high j HFh); unfold f, in_i16, synthesis_range in *; lia).
  assert (Bg : forall j, Z.abs (g j) <= synthesis_range) by (intros j; pose proof (B16 low j HFl); pose proof (B16 high j HFh); unfold g, in_i16, synthesis_range in *; lia).
  pose proof (allpass_run_keeps _ _ (tab f n) s1 F2 H1 (bounded_tab _ _ _ Bf)) as K1. pose proof (allpass_run_keeps _ _ (tab g n) s2 F1 H2 (bounded_tab _ _ _ Bg)) as K2.
  pose proof (AllPassQMF_exact _ _ _ synthesis_range (tab f n) n s1 F2 H1 (bounded_tab _ _ _ Bf)) as Q1. pose proof (AllPassQMF_exact _ _ _ synthesis_range (tab g n) n s2 F1 H2 (bounded_tab _ _ _ Bg)) as Q2.
  rewrite !length_tab in Q1, Q2 by lia. specialize (Q1 eq_refl ltac:(lia)). specialize (Q2 eq_refl ltac:(lia)). fold filter2_k in Q1. fold filter1_k in Q2.
  destruct (allpass_run filter2_k (tab f n) s1) as [ys s1']. destruct (allpass_run filter1_k (tab g n) s2) as [zs s2']. rewrite !length_tab in K1, K2 by lia. destruct K1 as (L1 & B1 & K1), K2 as (L2 & B2 & K2).
  split; [done|]. split; [done|]. unfold WebRtcSpl_SynthesisQMF, kMaxBandFrameLength. destruct (Z.leb_spec n 320); [|lia]. cbn [c_assert mbind option_bind].
  assert (W : forall x, Z.abs x <= 65536 -> WEBRTC_SPL_LSHIFT_W32 (i32 x) 10 = 1024 * x).
  { intros x Hx. unfold WEBRTC_SPL_LSHIFT_W32. rewrite (i32_id x) by (unfold in_i32; lia). rewrite Z.shiftl_mul_pow2 by lia. change (2 ^ 10) with 1024. rewrite i32_id by (unfold in_i32; lia). lia. }
  assert (HW : forall i, Z.abs (znth low i + znth high i) <= 65536 /\ Z.abs (znth low i - znth high i) <= 65536) by (intros i; pose proof (B16 low i HFl); pose proof (B16 high i HFh); unfold in_i16 in *; lia).
  rewrite (mapM_tab (fun i => let* l := aget low i in let* h := aget high i in Some (WEBRTC_SPL_LSHIFT_W32 (i32 (l + h)) 10)) f).
  2:{ intros i Hi. rewrite (aget_znth low i), (aget_znth high i) by lia. cbn [mbind option_bind]. by rewrite W by apply HW. }
  cbn [mbind option_bind]. rewrite (mapM_tab (fun i => let* l := aget low i in let* h := aget high i in Some (WEBRTC_SPL_LSHIFT_W32 (i32 (l - h)) 10)) g).
  2:{ intros i Hi. rewrite (aget_znth low i), (aget_znth high i) by lia. cbn [mbind option_bind]. by rewrite W by apply HW. }
  cbn [mbind option_bind]. change WebRtcSpl_kAllPassFilter1 with [6418; 36982; 57261]. change WebRtcSpl_kAllPassFilter2 with [21333; 49062; 63010]. rewrite Q1. cbn [mbind option_bind]. rewrite Q2. cbn [mbind option_bind].
  set (out := fun i => [round_to 10 (znth zs i); round_to 10 (znth ys i)]).
  match goal with |- context [for_loop ?b 0 (Z.to_nat n) []] => assert (HL : for_loop b 0 (Z.to_nat n) [] ⤳ (fun l => l = mjoin (tab out n))) end.
  { eapply result_weaken; [apply (loop_result (fun i l => l = mjoin (tab out i))); [lia|reflexivity|]|intros l; rewrite Z.add_0_l; exact id].
    intros i l Hi ->. rewrite (aget_znth ys i), (aget_znth zs i) by lia. cbn [mbind option_bind]. apply result_ret. rewrite tab_snoc by lia. rewrite join_app. f_equal. cbn.
    pose proof (Forall_aget _ _ _ _ B1 (aget_znth ys i ltac:(lia))) as Y1. pose proof (Forall_aget _ _ _ _ B2 (aget_znth zs i ltac:(lia))) as Y2. cbv beta in Y1, Y2.
    unfold out. f_equal; [|f_equal]; apply (round_exact 10); try lia; change (2 ^ (10 - 1)) with 512; lia. }
  destruct HL as (l & E & ->). by rewrite E.
Qed.

(** The states after initialisation. *)
Lemma zero_filter_ok k X : fits k X = true -> filter_ok k X (0, 0, 0, 0).
Proof.
  destruct k as [[k0 k1] k2]. intros Hf. split_fits Hf. assert (HZ : forall a Y, 0 <= a <= 65535 -> 0 <= Y -> section_ok a Y 0 0).
  { intros a Y Ha HY. pose proof (memory_bound_enough a Y Ha HY). assert (0 <= memory_bound a Y).
    { unfold memory_bound. assert (0 <= ((65536 + a) * Y + 65535) / 65536) by (apply Z.div_pos; nia). assert (0 <= 65535 / (65536 - a)) by (apply Z.div_pos; lia). lia. }
    unfold section_ok, output_bound. lia. }
  split_and!; apply HZ; lia.
Qed.

Definition speech_frame : list Z := tab (fun i => (i * i * 7919 + i * 104729) mod 65536 - 32768) 160.

Lemma speech_frame_i16 : Forall in_i16 speech_frame.
Proof. apply Forall_tab. intros i _. unfold in_i16. dlia. Qed.

Lemma halving_exact_witness : let s := (0, 0, 0, 0) in
  let (ys, lower') := allpass_run kResampleAllpass2 (tab (fun i => 1024 * znth speech_frame (2 * i)) 80) s in
  let (zs, upper') := allpass_run kResampleAllpass1 (tab (fun i => 1024 * znth speech_frame (2 * i + 1)) 80) s in
  filter_ok kResampleAllpass2 half_range lower' /\ filter_ok kResampleAllpass1 half_range upper' /\
  exists filtState', WebRtcSpl_DownsampleBy2 speech_frame 160 (zreplicate 8 0) = Some (zip_with (fun y z => round_to 11 (y + z)) ys zs, filtState') /\
    load_states filtState' = Some (lower', upper').
Proof.
  exact (halving_exact speech_frame 160 (zreplicate 8 0) (0, 0, 0, 0) (0, 0, 0, 0) speech_frame_i16 ltac:(split; [done|by vm_compute]) eq_refl
    (zero_filter_ok _ _ (proj1 (proj2 halving_fits))) (zero_filter_ok _ _ (proj1 halving_fits))).
Defined.

Lemma doubling_exact_witness : let s := (0, 0, 0, 0) in let xs := tab (fun i => 1024 * znth speech_frame i) 80 in
  let (ys, lower') := allpass_run kResampleAllpass1 xs s in
  let (zs, upper') := allpass_run kResampleAllpass2 xs s in
  filter_ok kResampleAllpass1 half_range lower' /\ filter_ok kResampleAllpass2 half_range upper' /\
  exists filtState', WebRtcSpl_UpsampleBy2 speech_frame 80 (zreplicate 8 0) = Some (mjoin (zip_with (fun y z => [round_to 10 y; round_to 10 z]) ys zs), filtState') /\
    load_states filtState' = Some (lower', upper').
Proof.
  exact (doubling_exact speech_frame 80 (zreplicate 8 0) (0, 0, 0, 0) (0, 0, 0, 0) speech_frame_i16 ltac:(split; [done|by vm_compute]) eq_refl
    (zero_filter_ok _ _ (proj1 halving_fits)) (zero_filter_ok _ _ (proj1 (proj2 halving_fits)))).
Defined.

Lemma analysis_exact_witness : let s := (0, 0, 0, 0) in
  let (ys, s1') := allpass_run filter1_k (tab (fun i => 1024 * znth speech_frame (2 * i + 1)) 80) s in
  let (zs, s2') := allpass_run filter2_k (tab (fun i => 1024 * znth speech_frame (2 * i)) 80) s in
  filter_ok filter1_k analysis_range s1' /\ filter_ok filter2_k analysis_range s2' /\
  WebRtcSpl_AnalysisQMF speech_frame (2 * 80) (qmf_state s) (qmf_state s) =
    Some (tab (fun i => round_to 11 (znth ys i + znth zs i)) 80, tab (fun i => round_to 11 (znth ys i - znth zs i)) 80, qmf_state s1', qmf_state s2').
Proof.
  exact (analysis_exact speech_frame 80 (0, 0, 0, 0) (0, 0, 0, 0) speech_frame_i16 ltac:(done) ltac:(by vm_compute)
    (zero_filter_ok _ _ (proj1 bands_fit)) (zero_filter_ok _ _ (proj1 (proj2 bands_fit)))).
Defined.

Lemma synthesis_exact_witness : let s := (0, 0, 0, 0) in
  let (ys, s1') := allpass_run filter2_k (tab (fun i => 1024 * (znth speech_frame i + znth speech_frame i)) 80) s in
  let (zs, s2') := allpass_run filter1_k (tab (fun i => 1024 * (znth speech_frame i - znth speech_frame i)) 80) s in
  filter_ok filter2_k synthesis_range s1' /\ filter_ok filter1_k synthesis_range s2' /\
  WebRtcSpl_SynthesisQMF speech_frame speech_frame 80 (qmf_state s) (qmf_state s) =
    Some (mjoin (tab (fun i => [round_to 10 (znth zs i); round_to 10 (znth ys i)]) 80), qmf_state s1', qmf_state s2').
Proof.
  exact (synthesis_exact speech_frame speech_frame 80 (0, 0, 0, 0) (0, 0, 0, 0) speech_frame_i16 speech_frame_i16 ltac:(done) ltac:(by vm_compute) ltac:(by vm_compute)
    (zero_filter_ok _ _ (proj1 (proj2 (proj2 (proj2 bands_fit))))) (zero_filter_ok _ _ (proj1 (proj2 (proj2 bands_fit))))).
Defined.

(** ** Filters in Q12 *)

(** The limits of the sum are those of the rounded result. *)
Lemma q12_round o : in_i32 o -> i16 (Z.shiftr (i32 (WEBRTC_SPL_SAT 134215679 o (-134217728) + 2048)) 12) = clamp (-32768) 32767 ((o + 2048) / 4096).
Proof.
  intros Ho. unfold WEBRTC_SPL_SAT, clamp, in_i32 in *. rewrite Z.shiftr_div_pow2 by lia. change (2 ^ 12) with 4096.
  destruct (Z.gtb_spec o 134215679); [change (i32 (134215679 + 2048) / 4096) with 32767; change (i16 32767) with 32767; dlia|].
  destruct (Z.ltb_spec o (-134217728)); [change (i32 (-134217728 + 2048) / 4096) with (-32768); change (i16 (-32768)) with (-32768); dlia|].
  rewrite i32_id by (unfold in_i32; lia). rewrite i16_id by (unfold in_i16; dlia). dlia.
Qed.

Lemma product_bound M b x : Z.abs b <= M -> in_i16 x -> Z.abs (b * x) <= M * 32768.
Proof. unfold in_i16. intros Hb Hx. rewrite Z.abs_mul. nia. Qed.

(** The moving average is the rounded and limited sum, where [M] bounds the coefficients such that
    no sum overflows; the samples before the frame are those before [pos]. *)
Lemma ma_filter_exact in_ pos B B_length length M : Forall in_i16 in_ -> Forall (fun b => Z.abs b <= M) B -> 0 <= B_length <= zlen B -> B_length * (M * 32768) <= 2147483647 -> 0 <= M ->
  B_length - 1 <= pos -> 0 <= pos -> 0 <= length -> pos + length <= zlen in_ ->
  WebRtcSpl_FilterMAFastQ12 in_ pos B B_length length =
    Some (tab (fun i => clamp (-32768) 32767 ((zsum (fun j => znth B j * znth in_ (pos + (i - j))) 0 (Z.to_nat B_length) + 2048) / 4096)) length).
Proof.
  intros HF HB Hl Hs HM Hp Hp0 Hn Hi. unfold WebRtcSpl_FilterMAFastQ12. apply mapM_tab. intros i Hii.
  destruct (sum_loop_exact (fun j o => let* b := aget B j in let* x := aget in_ (pos + (i - j)) in Some (i32 (o + i32 (b * x)))) (fun j => znth B j * znth in_ (pos + (i - j))) (M * 32768) (Z.to_nat B_length)) as [E HB'];
    [lia|lia| | |].
  - intros j s Hj. rewrite (aget_znth B j), (aget_znth in_) by lia. cbn [mbind option_bind]. rewrite (i32_id (znth B j * _)); [done|].
    pose proof (product_bound M _ _ (Forall_aget _ _ _ _ HB (aget_znth B j ltac:(lia))) (Forall_aget _ _ _ _ HF (aget_znth in_ (pos + (i - j)) ltac:(lia)))). unfold in_i32. nia.
  - intros j Hj. apply product_bound; [exact (Forall_aget _ _ _ _ HB (aget_znth B j ltac:(lia)))|exact (Forall_aget _ _ _ _ HF (aget_znth in_ (pos + (i - j)) ltac:(lia)))].
  - rewrite E. cbn [mbind option_bind]. f_equal. apply q12_round. unfold in_i32. lia.
Qed.

(** ** Reflection coefficients *)

(** The bitwise division gives the quotient in Q15, at most 32767. *)
Lemma schur_quotient_exact tmp den : 0 <= tmp <= den -> den <= 32767 -> schur_quotient tmp den = if tmp <? den then tmp * 32768 / den else if tmp =? 0 then 0 else 32767.
Proof.
  intros Ht Hd. unfold schur_quotient. destruct (Z.eqb_spec tmp 0) as [->|H0]; [destruct (Z.ltb_spec 0 den); by rewrite ?Z.div_0_l by lia|].
  set (step := fun _ '(K, L_num) => _). assert (G : forall (n : nat) i K L, 0 <= K -> 0 <= L <= den -> (K + 1) * 2 ^ Z.of_nat n <= 32768 ->
    exists K' L', for_pure step i n (K, L) = (K', L') /\ 0 <= L' <= den /\ (L < den -> L' < den) /\ K * 2 ^ Z.of_nat n * den + L * 2 ^ Z.of_nat n = K' * den + L' /\ K' < (K + 1) * 2 ^ Z.of_nat n /\ (L = den -> L' = den /\ K' = (K + 1) * 2 ^ Z.of_nat n - 1)).
  { induction n as [|n IH]; intros i K L HK HL Hb; cbn [for_pure]; [exists K, L; change (2 ^ Z.of_nat 0) with 1; split; [done|]; lia|].
    rewrite Nat2Z.inj_succ, Z.pow_succ_r in Hb |- * by lia. assert (Hp : 1 <= 2 ^ Z.of_nat n) by (pose proof (Z.pow_pos_nonneg 2 (Z.of_nat n) ltac:(lia) ltac:(lia)); lia).
    set (P := 2 ^ Z.of_nat n) in *. clearbody P. assert (HK16 : K <= 16383) by nia. unfold step at 2. rewrite !Z.shiftl_mul_pow2 by lia. change (2 ^ 1) with 2.
    rewrite (i32_id (K * 2)), (i32_id (L * 2)) by (unfold in_i32; lia). rewrite (i16_id (K * 2)) by (unfold in_i16; lia). cbv zeta.
    destruct (Z.geb_spec (L * 2) den).
    - rewrite i16_id by (unfold in_i16; lia). rewrite i32_id by (unfold in_i32; lia). destruct (IH (i + 1) (K * 2 + 1) (L * 2 - den)) as (K' & L' & E & H1 & H2 & H3 & H4 & H5); [lia|lia|nia|].
      exists K', L'. split; [exact E|]. split; [done|]. split; [intros; apply H2; lia|]. split; [nia|]. split; [nia|]. intros ->. destruct H5 as [-> ->]; [lia|]. split; [done|nia].
    - destruct (IH (i + 1) (K * 2) (L * 2)) as (K' & L' & E & H1 & H2 & H3 & H4 & H5); [lia|lia|nia|]. exists K', L'. split; [exact E|]. split; [done|]. split; [intros; apply H2; lia|]. split; [nia|]. split; [nia|lia]. }
  destruct (G 15%nat 0 0 tmp) as (K' & L' & E & H1 & H2 & H3 & H4 & H5); [lia|lia|vm_compute; discriminate|]. rewrite E. cbn [fst]. change (2 ^ Z.of_nat 15) with 32768 in *.
  destruct (Z.ltb_spec tmp den); [|destruct (H5 ltac:(lia)); lia]. apply (Z.div_unique_pos _ _ _ L'); [specialize (H2 ltac:(lia)); lia|lia].
Qed.

(** A round trip of the recursions on the polynomial of one stage. *)
Lemma step_up_ok k m a : Forall in_i16 k -> 1 <= m < zlen k -> row in_i16 (m + 1) a -> step_up k m a ⤳ row in_i16 (m + 2).
Proof.
  intros Hk Hm Ha. unfold step_up. eapply result_bind; [apply (aget_row in_i16 (zlen k)); [by split|lia]|]. intros km Hkm. eapply result_bind; [apply (aget_row _ _ _ _ Ha); lia|]. intros a0 Ha0.
  eapply result_bind; [apply (mapM_row in_i16); [lia|]|].
  - intros i Hi. eapply result_bind; [apply (aget_row _ _ _ _ Ha); lia|]. intros x _. eapply result_bind; [apply (aget_row _ _ _ _ Ha); lia|]. intros y _. apply result_ret, i16_range.
  - intros any Hany. apply result_ret. destruct (row_snoc _ _ _ (Z.shiftr km 3) Hany) as [Hl HF]; [unfold in_i16 in *; rewrite Z.shiftr_div_pow2 by lia; change (2 ^ 3) with 8; dlia|].
    split; [cbn [length]; lia|by constructor].
Qed.

Lemma ReflCoefToLpc_ok k use_order : Forall in_i16 k -> 1 <= use_order <= 14 -> use_order <= zlen k -> WebRtcSpl_ReflCoefToLpc k use_order ⤳ row in_i16 (use_order + 1).
Proof.
  intros Hk Ho Hl. unfold WebRtcSpl_ReflCoefToLpc, WEBRTC_SPL_MAX_LPC_ORDER. eapply result_bind; [apply (aget_row in_i16 (zlen k)); [by split|lia]|]. intros k0 Hk0.
  eapply result_bind; [apply (result_assert _ (fun _ => True)); [by apply Z.leb_le; lia|done]|]. intros _ _. replace (use_order + 1) with (1 + (use_order - 1) + 1) by lia.
  apply (loop_result (fun m a => row in_i16 (m + 1) a) _ 1 (use_order - 1)); [lia| |].
  - split; [done|]. repeat (apply Forall_cons_2; [unfold in_i16 in *; rewrite ?Z.shiftr_div_pow2 by lia; try change (2 ^ 3) with 8; dlia|]). apply Forall_nil_2.
  - intros m a Hm Ha. replace (m + 1 + 1) with (m + 2) by lia. apply step_up_ok; [done|lia|done].
Qed.

Lemma schur_recursion_ok P W K use_order n N : row in_i16 (N + 1) P -> row in_i16 N W -> 1 <= n < use_order -> use_order <= N -> schur_recursion P W K use_order n ⤳ (fun '(P, W) => row in_i16 (N + 1) P /\ row in_i16 N W).
Proof.
  intros HP HW Hn HN. unfold schur_recursion. eapply result_bind; [apply (aget_row _ _ _ _ HP); lia|]. intros p1 _. eapply result_bind; [apply (aget_row _ _ _ _ HP); lia|]. intros p0 _.
  assert (HA : forall a b, in_i16 (WebRtcSpl_AddSatW16 a b)) by (intros a b; unfold WebRtcSpl_AddSatW16; rewrite SatW32ToW16_clamp; unfold clamp, in_i16; lia).
  eapply result_bind; [apply (aset_row in_i16 (N + 1)); [done|lia|apply HA]|]. intros P1 HP1.
  apply (loop_keeps_result (fun '(P, W) => row in_i16 (N + 1) P /\ row in_i16 N W)); [done|]. intros i [P2 W2] Hi [HP2 HW2].
  eapply result_bind; [apply (aget_row _ _ _ _ HW2); lia|]. intros w _. eapply result_bind; [apply (aget_row _ _ _ _ HP2); lia|]. intros nx _.
  eapply result_bind; [apply (aset_row in_i16 (N + 1)); [done|lia|apply HA]|]. intros P3 HP3. eapply result_bind; [apply (aget_row _ _ _ _ HP3); lia|]. intros p _.
  eapply result_bind; [apply (aset_row in_i16 N); [done|lia|apply HA]|]. intros W3 HW3. by apply result_ret.
Qed.

Lemma AutoCorrToReflCoef_ok R use_order : row in_i32 (use_order + 1) R -> 1 <= use_order <= 13 -> WebRtcSpl_AutoCorrToReflCoef R use_order ⤳ row in_i16 use_order.
Proof.
  intros HR Ho. unfold WebRtcSpl_AutoCorrToReflCoef, WEBRTC_SPL_MAX_LPC_ORDER. eapply result_bind; [apply (aget_row _ _ _ _ HR); lia|]. intros R0 _. cbv zeta.
  eapply result_bind; [apply (result_assert _ (fun _ => True)); [by apply Z.ltb_lt; lia|done]|]. intros _ _. eapply result_bind; [apply (mapM_row in_i16); [lia|]|].
  { intros i Hi. eapply result_bind; [apply (aget_row _ _ _ _ HR); lia|]. intros r _. apply result_ret, i16_range. }
  intros P HP. assert (HW : row in_i16 use_order (drop 1 P)) by (destruct HP as [Hl HF]; split; [rewrite length_drop; lia|by apply Forall_drop]).
  set (W := drop 1 P) in *. clearbody W. assert (G : forall t n P W, n + Z.of_nat t = use_order + 1 -> 1 <= n -> row in_i16 (use_order + 1) P -> row in_i16 use_order W ->
    schur_stages t n use_order P W ⤳ row in_i16 (Z.of_nat t)).
  { induction t as [|t IH]; intros n P' W' Hn Hn1 HP' HW'; cbn [schur_stages]; [by apply result_ret|]. eapply result_bind; [apply (aget_row _ _ _ _ HP'); lia|]. intros p1 Hp1.
    eapply result_bind; [apply (aget_row _ _ _ _ HP'); lia|]. intros p0 Hp0. cbv zeta. destruct (p0 <? _).
    { apply result_ret. unfold zreplicate. split; [rewrite length_replicate; lia|apply Forall_replicate; unfold in_i16; lia]. }
    set (K := if p1 >? 0 then _ else _). assert (HK : in_i16 K).
    { unfold K. destruct (p1 >? 0); [apply i16_range|]. unfold schur_quotient. destruct (_ =? 0); [unfold in_i16; lia|]. set (body := fun _ '(K, L_num) => _).
      assert (Hb : forall m i s, in_i16 s.1 -> in_i16 (for_pure body i m s).1).
      { induction m as [|m IHm]; intros i [K0 L0] Hs; [done|]. cbn [for_pure]. apply IHm. unfold body. cbv zeta. destruct (_ >=? _); apply i16_range. }
      apply Hb. unfold in_i16. cbn. lia. }
    destruct (Z.eqb_spec n use_order); [apply result_ret; replace (S t) with 1%nat by lia; by apply (row_snoc in_i16 0 [])|].
    eapply result_bind; [apply (schur_recursion_ok P' W' K use_order n use_order); done || lia|]. intros [P2 W2] [HP2 HW2]. eapply result_bind; [apply (IH (n + 1)); done || lia|]. intros Ks [Hl HF]. apply result_ret.
    split; [cbn [length]; lia|by constructor]. }
  replace use_order with (Z.of_nat (Z.to_nat use_order)) at 3 by lia. apply G; done || lia.
Qed.

Lemma LpcToReflCoef_ok a16 use_order k16 N M : row in_i16 N a16 -> row in_i16 M k16 -> 1 <= use_order <= 50 -> use_order < N -> use_order <= M ->
  WebRtcSpl_LpcToReflCoef a16 use_order k16 ⤳ (fun '(k, a) => row in_i16 M k /\ row in_i16 N a).
Proof.
  intros Ha Hk Ho HN HM. unfold WebRtcSpl_LpcToReflCoef, SPL_LPC_TO_REFL_COEF_MAX_AR_MODEL_ORDER. eapply result_bind; [apply (aget_row _ _ _ _ Ha); lia|]. intros a0 _.
  eapply result_bind; [apply (aset_row in_i16 M); [done|lia|apply i16_range]|]. intros k Hk1.
  eapply result_bind; [apply (loop_keeps_result (fun '(k, a) => row in_i16 M k /\ row in_i16 N a)); [done|]|].
  - intros t [k2 a2] Ht [Hk2 Ha2]. cbv zeta. set (m := use_order - 1 - t). assert (Hm : 1 <= m < use_order) by lia.
    eapply result_bind; [apply (result_assert _ (fun _ => True)); [by apply Z.ltb_lt; lia|done]|]. intros _ _. eapply result_bind; [apply (aget_row _ _ _ _ Hk2); lia|]. intros km _.
    eapply result_bind; [instantiate (1 := row in_i32 m); apply (mapM_row in_i32); [lia|]|].
    { intros j Hj. eapply result_bind; [apply (aget_row _ _ _ _ Ha2); lia|]. intros x _. eapply result_bind; [apply (aget_row _ _ _ _ Ha2); lia|]. intros y _. apply result_ret, DivW32W16_range. }
    intros tmp Htmp. eapply result_bind; [apply (loop_keeps_result (row in_i16 N)); [exact Ha2|]|].
    { intros j a3 Hj Ha3. eapply result_bind; [apply (aget_row _ _ _ _ Htmp); lia|]. intros v _. apply (aset_row in_i16 N); [done|lia|apply i16_range]. }
    intros a3 Ha3. eapply result_bind; [apply (aget_row _ _ _ _ Htmp); lia|]. intros v _. eapply result_bind; [apply (aset_row in_i16 M); [done|lia|apply i16_range]|]. intros k3 Hk3. by apply result_ret.
  - intros [k2 a2] H. by apply result_ret.
Qed.

Lemma ar_filter_ok data_in data_out pos coefficients clen n N : Forall in_i16 data_in -> row in_i16 N data_out -> 1 < clen <= zlen coefficients -> 0 < n <= zlen data_in ->
  clen - 1 <= pos -> pos + n <= N -> WebRtcSpl_FilterARFastQ12 data_in data_out pos coefficients clen n ⤳ row in_i16 N.
Proof.
  intros Hi Ho Hc Hn Hp HN. unfold WebRtcSpl_FilterARFastQ12. eapply result_bind; [apply (result_assert _ (fun _ => True)); [by apply Z.gtb_lt; lia|done]|]. intros _ _.
  eapply result_bind; [apply (result_assert _ (fun _ => True)); [by apply Z.gtb_lt; lia|done]|]. intros _ _.
  apply loop_keeps_result; [done|]. intros i d Hii Hd. eapply result_bind; [apply (loop_keeps_result in_i32); [unfold in_i32; lia|]|].
  - intros t s Ht _. cbv zeta. rewrite (aget_znth coefficients) by lia. cbn [mbind option_bind]. eapply result_bind; [apply (aget_row _ _ _ _ Hd); lia|]. intros y _. apply result_ret, i32_range.
  - intros s _. rewrite (aget_znth coefficients), (aget_znth data_in) by lia. cbn [mbind option_bind]. cbv zeta. apply (aset_row in_i16 N); [done|lia|apply i16_range].
Qed.

Lemma DotProduct_ok v w n scaling : 0 <= n <= zlen v -> n <= zlen w -> WebRtcSpl_DotProductWithScale v w n scaling ⤳ in_i32.
Proof.
  intros Hn Hw. apply loop_keeps_result; [unfold in_i32; lia|]. intros i s Hi _. rewrite (aget_znth v), (aget_znth w) by lia. apply result_ret, i32_range.
Qed.

Lemma DownsampleBy2_ok in_ len filtState : Forall in_i16 in_ -> 0 <= len <= zlen in_ -> 8 <= zlen filtState ->
  WebRtcSpl_DownsampleBy2 in_ len filtState ⤳ (fun '(out, st) => row in_i16 (len / 2) out /\ zlen st = zlen filtState).
Proof.
  intros HF Hl HS. unfold WebRtcSpl_DownsampleBy2. destruct filtState as [|s0 [|s1 [|s2 [|s3 [|s4 [|s5 [|s6 [|s7 rest]]]]]]]]; cbn [length] in HS; try lia. cbn [load_states mbind option_bind].
  rewrite Z.shiftr_div_pow2 by lia. change (2 ^ 1) with 2. assert (Hn : 0 <= len / 2 /\ 2 * (len / 2) <= len) by dlia.
  eapply result_bind; [apply (loop_result (fun i '(out, _, _) => row in_i16 i out)); [lia|done|]|].
  - intros i [[out lo] up] Hi Hout. unfold downsample_step. rewrite (aget_znth in_ (2 * i)), (aget_znth in_ (2 * i + 1)) by lia. cbn [mbind option_bind]. cbv zeta. apply result_ret.
    apply row_snoc; [done|]. rewrite SatW32ToW16_clamp. unfold clamp, in_i16. lia.
  - intros [[out lo] up] Hout. apply result_ret. rewrite Z.add_0_l in Hout. split; [done|]. destruct lo as [[[? ?] ?] ?], up as [[[? ?] ?] ?]. reflexivity.
Qed.

(** The arrays of the Schur recursion have room for 13 coefficients, not for 14. *)
Lemma schur_order_14 R : WebRtcSpl_AutoCorrToReflCoef R 14 = None.
Proof. unfold WebRtcSpl_AutoCorrToReflCoef. by destruct (aget R 0). Qed.
End FiltersSpec.
