(* ===== verification/Cng.v ===== *)
(** The comfort noise codec, translated from modules/audio_coding/codecs/cng:
    webrtc_cng.c and cng_helpfuns.c.

    The encoder measures the energy and the spectrum of background noise, and now and then sends
    them in a packet of a few bytes; the decoder generates noise like it. *)

From S2P Require Import Prelude SplInl SplVec LinPred.

Module Cng.
Import Spl SplVec LinPred.

Definition WEBRTC_CNG_MAX_LPC_ORDER : Z := 12.
Definition WEBRTC_CNG_MAX_OUTSIZE_ORDER : Z := 640.
Definition CNG_ENCODER_NOT_INITIATED : Z := 6120.
Definition CNG_DISALLOWED_LPC_ORDER : Z := 6130.
Definition CNG_DISALLOWED_FRAME_SIZE : Z := 6140.
Definition CNG_DECODER_NOT_INITIATED : Z := 6220.

Record WebRtcCngDecoder := mkCngDecoder {
  dec_seed : Z; dec_target_energy : Z; dec_used_energy : Z;
  dec_target_reflCoefs : list Z; dec_used_reflCoefs : list Z;
  dec_filtstate : list Z; dec_filtstateLow : list Z; dec_Efiltstate : list Z; dec_EfiltstateLow : list Z;
  dec_order : Z; dec_target_scale_factor : Z; dec_used_scale_factor : Z; target_scale_factor : Z;
  dec_errorcode : Z; dec_initflag : Z }.
#[export] Instance rebuild_CngDecoder : Rebuild WebRtcCngDecoder := fun r =>
  mkCngDecoder (dec_seed r) (dec_target_energy r) (dec_used_energy r) (dec_target_reflCoefs r) (dec_used_reflCoefs r)
    (dec_filtstate r) (dec_filtstateLow r) (dec_Efiltstate r) (dec_EfiltstateLow r)
    (dec_order r) (dec_target_scale_factor r) (dec_used_scale_factor r) (target_scale_factor r) (dec_errorcode r) (dec_initflag r).

Record WebRtcCngEncoder := mkCngEncoder {
  enc_nrOfCoefs : Z; enc_sampfreq : Z; enc_interval : Z; enc_msSinceSID : Z; enc_Energy : Z;
  enc_reflCoefs : list Z; enc_corrVector : list Z; enc_seed : Z; enc_errorcode : Z; enc_initflag : Z }.
#[export] Instance rebuild_CngEncoder : Rebuild WebRtcCngEncoder := fun r =>
  mkCngEncoder (enc_nrOfCoefs r) (enc_sampfreq r) (enc_interval r) (enc_msSinceSID r) (enc_Energy r)
    (enc_reflCoefs r) (enc_corrVector r) (enc_seed r) (enc_errorcode r) (enc_initflag r).

Definition WebRtcCng_kDbov : list Z :=
  [1081109975; 858756178; 682134279; 541838517; 430397633; 341876992;
   271562548; 215709799; 171344384; 136103682; 108110997; 85875618;
   68213428; 54183852; 43039763; 34187699; 27156255; 21570980;
   17134438; 13610368; 10811100; 8587562; 6821343; 5418385;
   4303976; 3418770; 2715625; 2157098; 1713444; 1361037;
   1081110; 858756; 682134; 541839; 430398; 341877;
   271563; 215710; 171344; 136104; 108111; 85876;
   68213; 54184; 43040; 34188; 27156; 21571;
   17134; 13610; 10811; 8588; 6821; 5418;
   4304; 3419; 2716; 2157; 1713; 1361;
   1081; 859; 682; 542; 430; 342;
   272; 216; 171; 136; 108; 86;
   68; 54; 43; 34; 27; 22;
   17; 14; 11; 9; 7; 5;
   4; 3; 3; 2; 2; 1;
   1; 1; 1; 1].
Definition WebRtcCng_kCorrWindow : list Z :=
  [32702; 32636; 32570; 32505; 32439; 32374; 32309; 32244; 32179; 32114; 32049; 31985].

Definition WEBRTC_SPL_MUL_16_16_RSFT (a b c : Z) : Z := Z.shiftr (WEBRTC_SPL_MUL_16_16 a b) c.

(** ** Creation and initialisation *)

(** [valid]: the pointer to the pointer is not NULL; [memory] is the outcome of [malloc]. *)
Definition WebRtcCng_CreateEnc (valid : bool) (memory : option WebRtcCngEncoder) : Z * option WebRtcCngEncoder :=
  if valid then
    match memory with
    | Some inst => (0, Some (inst <| enc_errorcode := 0 |> <| enc_initflag := 0 |>))
    | None => (-1, None)
    end
  else (-1, None).
Definition WebRtcCng_CreateDec (valid : bool) (memory : option WebRtcCngDecoder) : Z * option WebRtcCngDecoder :=
  if valid then
    match memory with
    | Some inst => (0, Some (inst <| dec_errorcode := 0 |> <| dec_initflag := 0 |>))
    | None => (-1, None)
    end
  else (-1, None).

Definition zero_encoder : WebRtcCngEncoder := mkCngEncoder 0 0 0 0 0 (zreplicate 13 0) (zreplicate 13 0) 0 0 0.
Definition zero_decoder : WebRtcCngDecoder :=
  mkCngDecoder 0 0 0 (zreplicate 13 0) (zreplicate 13 0) (zreplicate 13 0) (zreplicate 13 0) (zreplicate 13 0) (zreplicate 13 0) 0 0 0 0 0 0.

Definition WebRtcCng_InitEnc (inst : WebRtcCngEncoder) (fs interval quality : Z) : Z * WebRtcCngEncoder :=
  let inst := zero_encoder in
  if (quality >? WEBRTC_CNG_MAX_LPC_ORDER) || (quality <=? 0) then (-1, inst <| enc_errorcode := CNG_DISALLOWED_LPC_ORDER |>)
  else
    let inst := inst <| enc_sampfreq := fs |> <| enc_interval := interval |> <| enc_nrOfCoefs := quality |> <| enc_seed := 7777 |> in
    (0, inst <| enc_initflag := 1 |>).

Definition WebRtcCng_InitDec (inst : WebRtcCngDecoder) : WebRtcCngDecoder :=
  zero_decoder <| dec_seed := 7777 |> <| dec_order := 5 |> <| dec_initflag := 1 |>.

Definition WebRtcCng_FreeEnc (inst : option WebRtcCngEncoder) : Z := 0.
Definition WebRtcCng_FreeDec (inst : option WebRtcCngDecoder) : Z := 0.

Definition WebRtcCng_GetErrorCodeEnc (inst : WebRtcCngEncoder) : Z := enc_errorcode inst.
Definition WebRtcCng_GetErrorCodeDec (inst : WebRtcCngDecoder) : Z := dec_errorcode inst.

(** ** The encoder *)

(** [while (outShifts > 0)]. *)
Fixpoint undo_shifts (fuel : nat) (outEnergy factor outShifts : Z) : option (Z * Z) :=
  if outShifts >? 0 then
    match fuel with
    | O => None
    | S fuel =>
        if outShifts >? 5 then undo_shifts fuel (i32 (Z.shiftl outEnergy (outShifts - 5))) factor 5
        else undo_shifts fuel outEnergy (factor / 2) (outShifts - 1)
    end
  else Some (outEnergy, factor).

Definition frame_energy (speechBuf : list Z) : option Z :=
  let (outEnergy, outShifts) := WebRtcSpl_Energy speechBuf in
  let* (outEnergy, factor) := undo_shifts (S (Z.to_nat outShifts)) outEnergy (zlen speechBuf) outShifts in
  Some (WebRtcSpl_DivW32W16 outEnergy (i16 factor)).

(** The window of the code: the first half from the table, the second its mirror image;
    with an odd number of samples the middle entry of [hanningW] keeps what it holds. *)
Definition hanning (hanningW : list Z) (nrOfSamples : Z) : option (list Z) :=
  let* hanningW := WebRtcSpl_GetHanningWindow hanningW (nrOfSamples / 2) in
  for_loop (fun i hanningW => let* v := aget hanningW i in aset hanningW (nrOfSamples - i - 1) v) 0 (Z.to_nat (nrOfSamples / 2)) hanningW.

(** A correlation times a weight in Q15, by parts of 16 bits. *)
Definition expand (aptr bptr : Z) : Z :=
  let negate := bptr <? 0 in
  let bptr := if negate then i32 (- bptr) else bptr in
  let blo := i32 (aptr * Z.land bptr 65535) in
  let bhi := i32 (Z.land (Z.shiftr blo 16) 65535 + i32 (aptr * Z.land (Z.shiftr bptr 16) 65535)) in
  let blo := i32 (Z.lor (Z.land blo 65535) (i32 (Z.shiftl (Z.land bhi 65535) 16))) in
  let bptr := i32 (Z.lor (u32 (Z.shiftl (Z.land (Z.shiftr bhi 16) 32767) 17)) (Z.shiftr (u32 blo) 15)) in
  if negate then i32 (- bptr) else bptr.

Definition expand_bandwidth (corrVector : list Z) (order : Z) : option (list Z) :=
  for_loop (fun ind corrVector =>
    let* a := aget WebRtcCng_kCorrWindow ind in
    let* b := aget corrVector ind in
    aset corrVector ind (expand a b)) 0 (Z.to_nat order) corrVector.

(** The reflection coefficients of a frame, or [None] inside when the filter is not stable. *)
Definition analyse (speechBuf hanningW : list Z) (order outEnergy : Z) : option (option (list Z)) :=
  if outEnergy >? 1 then
    let nrOfSamples := zlen speechBuf in
    let* hanningW := hanning hanningW nrOfSamples in
    let* speechBuf := WebRtcSpl_ElementwiseVectorMult speechBuf hanningW speechBuf nrOfSamples 14 in
    let* (corrVector, _) := WebRtcSpl_AutoCorrelation speechBuf order in
    let* c0 := aget corrVector 0 in
    let* corrVector := if c0 =? 0 then aset corrVector 0 WEBRTC_SPL_WORD16_MAX else Some corrVector in
    let* corrVector := expand_bandwidth corrVector order in
    let* (stab, _, refCs) := WebRtcSpl_LevinsonDurbin corrVector order in
    Some (if stab =? 0 then None else Some refCs)
  else Some (Some (zreplicate order 0)).

(** Coefficients and energy of the encoder after a frame. *)
Definition average (inst : WebRtcCngEncoder) (refCs : list Z) (outEnergy forceSID : Z) : option WebRtcCngEncoder :=
  let order := enc_nrOfCoefs inst in
  if negb (forceSID =? 0) then
    let* reflCoefs := for_loop (fun i l => let* r := aget refCs i in aset l i r) 0 (Z.to_nat order) (enc_reflCoefs inst) in
    Some (inst <| enc_reflCoefs := reflCoefs |> <| enc_Energy := outEnergy |>)
  else
    let* reflCoefs := for_loop (fun i l =>
      let* e := aget l i in
      let* r := aget refCs i in
      let e := i16 (WEBRTC_SPL_MUL_16_16_RSFT e 19661 15) in
      aset l i (i16 (e + i16 (WEBRTC_SPL_MUL_16_16_RSFT r 13107 15)))) 0 (Z.to_nat order) (enc_reflCoefs inst) in
    Some (inst <| enc_reflCoefs := reflCoefs |>
               <| enc_Energy := i32 (i32 (Z.shiftr outEnergy 2 + Z.shiftr (enc_Energy inst) 1) + Z.shiftr (enc_Energy inst) 2) |>).

(** [for (i = 1; i < 93; i++)], ending at the first level below the energy; [n] turns are left. *)
Fixpoint find_dbov (n : nat) (i energy : Z) : option Z :=
  match n with
  | O => Some 94
  | S n =>
      let* level := aget WebRtcCng_kDbov i in
      if i32 (energy - level) >? 0 then Some i else find_dbov n (i + 1) energy
  end.

Definition quantise (order reflCoef : Z) : Z :=
  if order =? WEBRTC_CNG_MAX_LPC_ORDER then u8 (Z.shiftr (reflCoef + 128) 8) else u8 (127 + Z.shiftr (reflCoef + 128) 8).

(** The packet, stored in [SIDdata]. *)
Definition write_sid (inst : WebRtcCngEncoder) (SIDdata : list Z) : option (list Z) :=
  let* index := find_dbov 92 1 (enc_Energy inst) in
  let* SIDdata := aset SIDdata 0 (u8 index) in
  for_loop (fun i SIDdata => let* r := aget (enc_reflCoefs inst) i in aset SIDdata (i + 1) (quantise (enc_nrOfCoefs inst) r))
    0 (Z.to_nat (enc_nrOfCoefs inst)) SIDdata.

(** The milliseconds of a frame; the rate is converted to [size_t]. *)
Definition frame_ms (inst : WebRtcCngEncoder) (nrOfSamples : Z) : option Z :=
  let* _ := c_assert (negb (u64 (enc_sampfreq inst) =? 0)) in Some (i16 (u64 (1000 * nrOfSamples) / u64 (enc_sampfreq inst))).

(** The result, [*bytesOut], [SIDdata] and the instance. [hanningW] is the local array. *)
Definition WebRtcCng_Encode (inst : WebRtcCngEncoder) (speech : list Z) (nrOfSamples : Z) (SIDdata : list Z) (bytesOut forceSID : Z) (hanningW : list Z)
    : option (Z * Z * list Z * WebRtcCngEncoder) :=
  if negb (enc_initflag inst =? 1) then Some (-1, bytesOut, SIDdata, inst <| enc_errorcode := CNG_ENCODER_NOT_INITIATED |>)
  else if nrOfSamples >? WEBRTC_CNG_MAX_OUTSIZE_ORDER then Some (-1, bytesOut, SIDdata, inst <| enc_errorcode := CNG_DISALLOWED_FRAME_SIZE |>)
  else
    let* _ := c_assert (range_ok speech 0 nrOfSamples) in
    let speechBuf := slice speech 0 nrOfSamples in
    let* outEnergy := frame_energy speechBuf in
    let* refCs := analyse speechBuf hanningW (enc_nrOfCoefs inst) outEnergy in
    match refCs with
    | None => Some (0, 0, SIDdata, inst)
    | Some refCs =>
        let* inst := average inst refCs outEnergy forceSID in
        let inst := if enc_Energy inst <? 1 then inst <| enc_Energy := 1 |> else inst in
        if (enc_msSinceSID inst >? enc_interval inst - 1) || negb (forceSID =? 0) then
          let* SIDdata := write_sid inst SIDdata in
          let inst := inst <| enc_msSinceSID := 0 |> in
          let* ms := frame_ms inst nrOfSamples in
          let bytesOut := enc_nrOfCoefs inst + 1 in
          Some (i32 (enc_nrOfCoefs inst + 1), bytesOut, SIDdata, inst <| enc_msSinceSID := i16 (enc_msSinceSID inst + ms) |>)
        else
          let* ms := frame_ms inst nrOfSamples in
          Some (0, 0, SIDdata, inst <| enc_msSinceSID := i16 (enc_msSinceSID inst + ms) |>)
    end.

(** ** The decoder *)

Definition dequantise (order sid : Z) : Z :=
  if order =? WEBRTC_CNG_MAX_LPC_ORDER then i16 (Z.shiftl sid 8) else i16 (Z.shiftl (sid - 127) 8).

(** The result, the packet, whose first byte may change, and the instance. *)
Definition WebRtcCng_UpdateSid (inst : WebRtcCngDecoder) (SID : list Z) (length : Z) : option (Z * list Z * WebRtcCngDecoder) :=
  if negb (dec_initflag inst =? 1) then Some (-1, SID, inst <| dec_errorcode := CNG_DECODER_NOT_INITIATED |>)
  else
    let length := if length >? WEBRTC_CNG_MAX_LPC_ORDER + 1 then WEBRTC_CNG_MAX_LPC_ORDER + 1 else length in
    let order := i16 (i16 length - 1) in
    let* sid := aget SID 0 in
    let* SID := if sid >? 93 then aset SID 0 93 else Some SID in
    let* sid := aget SID 0 in
    let* targetEnergy := aget WebRtcCng_kDbov sid in
    let targetEnergy := Z.shiftr targetEnergy 1 in
    let targetEnergy := i32 (targetEnergy + Z.shiftr targetEnergy 2) in
    let* coefs := for_loop (fun i l => let* v := aget SID (i + 1) in aset l i (dequantise order v)) 0 (Z.to_nat order) (dec_target_reflCoefs inst) in
    let* coefs := for_loop (fun i l => aset l i 0) order (Z.to_nat (WEBRTC_CNG_MAX_LPC_ORDER - order)) coefs in
    Some (0, SID, inst <| dec_order := order |> <| dec_target_energy := targetEnergy |> <| dec_target_reflCoefs := coefs |>).

(** Stage [m] of the polynomial [a] of the coefficients [k]. *)
Definition k2a_step (k : list Z) (m : Z) (a : list Z) : option (list Z) :=
  let* km := aget k m in
  let* a0 := aget a 0 in
  let* any := mapM (fun i =>
    let* x := aget a (1 + i) in
    let* y := aget a (m - i) in
    Some (i16 (x + i16 (Z.shiftr (i32 (i32 (y * km) + 16384)) 15)))) (seqZ 0 m) in
  Some (a0 :: any ++ [i16 (Z.shiftr (km + 4) 3)]).

Definition WebRtcCng_K2a16 (k : list Z) (useOrder : Z) : option (list Z) :=
  let* k0 := aget k 0 in
  for_loop (k2a_step k) 1 (Z.to_nat (useOrder - 1)) [4096; i16 (Z.shiftr (k0 + 4) 3)].

(** The filter's energy, [1.0] in Q13 at the start. *)
Definition filter_energy (coefs : list Z) : option Z :=
  for_loop (fun i En =>
    let* c := aget coefs i in
    let temp16 := i16 (WEBRTC_SPL_MUL_16_16_RSFT c c 15) in
    let temp16 := i16 (32767 - temp16) in
    Some (i16 (WEBRTC_SPL_MUL_16_16_RSFT En temp16 15))) 0 (Z.to_nat WEBRTC_CNG_MAX_LPC_ORDER) 8192.

(** [excitation[i] = WebRtcSpl_RandN(&seed) >> 1]. *)
Definition excite (nrOfSamples seed : Z) : option (list Z * Z) :=
  for_loop (fun i (s : list Z * Z) => let* (r, seed) := WebRtcSpl_RandN s.2 in Some (s.1 ++ [Z.shiftr r 1], seed)) 0 (Z.to_nat nrOfSamples) ([], seed).

(** The weights of the mean with the target: [Beta], [BetaC], for a new period or not. *)
Definition betas (new_period : Z) : Z * Z := if negb (new_period =? 0) then (19661, 13107) else (26214, 6553).

Definition approach (Beta BetaC used target : Z) : Z :=
  i16 (i16 (WEBRTC_SPL_MUL_16_16_RSFT used Beta 15) + i16 (WEBRTC_SPL_MUL_16_16_RSFT target BetaC 15)).

(** The coefficients and the energy in use move towards the target. *)
Definition approach_target (inst : WebRtcCngDecoder) (new_period : Z) : option WebRtcCngDecoder :=
  let (Beta, BetaC) := betas new_period in
  let inst := if negb (new_period =? 0) then inst <| dec_used_scale_factor := dec_target_scale_factor inst |> else inst in
  let tmp1 := i16 (Z.shiftl (dec_used_scale_factor inst) 2) in
  let tmp2 := i16 (Z.shiftl (dec_target_scale_factor inst) 2) in
  let tmp3 := approach Beta BetaC tmp1 tmp2 in
  let inst := inst <| dec_used_scale_factor := Z.shiftr tmp3 2 |> in
  let inst := inst <| dec_used_energy := Z.shiftr (dec_used_energy inst) 1 |> in
  let inst := inst <| dec_used_energy := i32 (dec_used_energy inst + Z.shiftr (dec_target_energy inst) 1) |> in
  let* coefs := for_loop (fun i l =>
    let* u := aget l i in
    let* t := aget (dec_target_reflCoefs inst) i in
    aset l i (approach Beta BetaC u t)) 0 (Z.to_nat WEBRTC_CNG_MAX_LPC_ORDER) (dec_used_reflCoefs inst) in
  Some (inst <| dec_used_reflCoefs := coefs |>).

(** [sqrt(En * target energy / excitation energy)]. *)
Definition scale_factor (inst : WebRtcCngDecoder) : option Z :=
  let* En := filter_energy (dec_used_reflCoefs inst) in
  let* targetEnergy := WebRtcSpl_Sqrt (dec_used_energy inst) in
  let* En := WebRtcSpl_Sqrt En in
  let En := i16 (i32 (Z.shiftl (i16 En) 6)) in
  let En := i16 (Z.shiftr (i32 (En * 3)) 1) in
  Some (i16 (Z.shiftr (i32 (En * targetEnergy)) 12)).

(** The result, [outData] and the instance. *)
Definition WebRtcCng_Generate (inst : WebRtcCngDecoder) (outData : list Z) (nrOfSamples new_period : Z) : option (Z * list Z * WebRtcCngDecoder) :=
  if nrOfSamples >? WEBRTC_CNG_MAX_OUTSIZE_ORDER then Some (-1, outData, inst <| dec_errorcode := CNG_DISALLOWED_FRAME_SIZE |>)
  else
    let* inst := approach_target inst new_period in
    let* lpPoly := WebRtcCng_K2a16 (dec_used_reflCoefs inst) WEBRTC_CNG_MAX_LPC_ORDER in
    let* scale := scale_factor inst in
    let* (excitation, seed) := excite nrOfSamples (dec_seed inst) in
    let inst := inst <| dec_used_scale_factor := scale |> <| dec_seed := seed |> in
    let excitation := WebRtcSpl_ScaleVector excitation scale 13 in
    let* (filtered, _, state, state_low) := WebRtcSpl_FilterAR lpPoly (WEBRTC_CNG_MAX_LPC_ORDER + 1) excitation nrOfSamples
      (dec_filtstate inst) WEBRTC_CNG_MAX_LPC_ORDER (dec_filtstateLow inst) in
    let* outData := memcpy outData 0 filtered 0 nrOfSamples in
    Some (0, outData, inst <| dec_filtstate := state |> <| dec_filtstateLow := state_low |>).

End Cng.
