(* ===== verification/CngSpec.v ===== *)
(** Properties of the comfort noise codec of Cng.v. *)

From S2P Require Import Prelude SplInl SplVec LinPred LinPredSpec Cng.

Module CngSpec.
Import Spl SplSpec SplVec SplVecSpec LinPred LinPredSpec Cng.

(** ** The encoder *)

Lemma undo_shifts_ok fuel outEnergy factor outShifts : in_i32 outEnergy ->
  (outShifts <= Z.of_nat fuel /\ outShifts <= 5 \/ 5 < outShifts /\ 6 <= Z.of_nat fuel) ->
  undo_shifts fuel outEnergy factor outShifts ⤳ (fun '(e, _) => in_i32 e).
Proof.
  revert outEnergy factor outShifts. induction fuel as [|fuel IH]; intros e f o He Ho; cbn [undo_shifts]; destruct (Z.gtb_spec o 0).
  1: lia.
  1, 3: by apply result_ret.
  destruct (Z.gtb_spec o 5); apply IH; [apply i32_range|lia|done|lia].
Qed.

Lemma frame_energy_ok speechBuf : frame_energy speechBuf ⤳ in_i32.
Proof.
  unfold frame_energy, WebRtcSpl_Energy. cbv zeta. set (scaling := WebRtcSpl_GetScalingSquare _ _). clearbody scaling.
  eapply result_bind; [apply undo_shifts_ok; [apply (foldl_i32_range (fun en x => en + Z.shiftr (i32 (x * x)) scaling)); unfold in_i32; lia|lia]|].
  - intros [e f] _. apply result_ret, DivW32W16_range.
Qed.
Lemma hanning_ok hanningW n : 0 <= n <= 640 -> zlen hanningW = 640 -> hanning hanningW n ⤳ (fun w => zlen w = 640).
Proof.
  intros Hn Hw. unfold hanning. eapply result_bind; [apply GetHanningWindow_ok; dlia|]. intros w Hl. rewrite Hw in Hl.
  apply loop_keeps_result; [done|]. intros i w' Hi Hw'. assert (Hi' : 0 <= i < n / 2 /\ n / 2 <= n - i - 1) by dlia.
  rewrite (aget_znth w' i) by lia. cbn [mbind option_bind]. rewrite aset_Some by lia. apply result_ret. by rewrite length_insert.
Qed.

Lemma expand_range a b : in_i32 (expand a b).
Proof. unfold expand. cbv zeta. destruct (b <? 0); apply i32_range. Qed.

(** The weighting of a correlation by parts of 16 bits is the product in Q15, rounded towards
    zero. *)
Lemma expand_correct a b : 0 <= a <= 32767 -> -2147483647 <= b <= 2147483647 -> expand a b = Z.sgn b * (Z.abs b * a / 32768).
Proof.
  intros Ha Hb. unfold expand. cbv zeta. set (c := if b <? 0 then i32 (- b) else b). assert (Ec : c = Z.abs b) by (unfold c; destruct (Z.ltb_spec b 0); [rewrite i32_id by (unfold in_i32; lia)|]; lia).
  clearbody c. assert (Hc : 0 <= c <= 2147483647) by lia. change 65535 with (Z.ones 16). change 32767 with (Z.ones 15). rewrite !Z.land_ones by lia. rewrite !Z.shiftr_div_pow2, !Z.shiftl_mul_pow2 by lia.
  change (2 ^ 16) with 65536. change (2 ^ 15) with 32768. change (2 ^ 17) with 131072.
  set (c0 := c mod 65536). set (c1 := c / 65536). rewrite (Z.mod_small c1) by (unfold c1; dlia). assert (Hc0 : 0 <= c0 <= 65535) by (unfold c0; dlia). assert (Hc1 : 0 <= c1 <= 32767) by (unfold c1; dlia).
  assert (Ecc : c = c1 * 65536 + c0) by (unfold c0, c1; dlia). clearbody c0 c1.
  assert (H0 : 0 <= a * c0 <= 2147385345) by nia. assert (H1 : 0 <= a * c1 <= 1073676289) by nia. rewrite (i32_id (a * c0)), (i32_id (a * c1)) by (unfold in_i32; lia).
  rewrite (Z.mod_small (a * c0 / 65536)) by dlia. set (p0 := a * c0) in *. set (p1 := a * c1) in *. rewrite (i32_id (p0 / 65536 + p1)) by (unfold in_i32; dlia).
  set (bhi := p0 / 65536 + p1). assert (Hh : 0 <= bhi <= 1073709056) by (unfold bhi; dlia).
  assert (E : c * a = bhi * 65536 + p0 mod 65536) by (unfold bhi; rewrite Ecc; replace ((c1 * 65536 + c0) * a) with (p1 * 65536 + p0) by (unfold p0, p1; lia); dlia).
  assert (Hl : 0 <= p0 mod 65536 < 65536) by dlia. set (l := p0 mod 65536) in *. clearbody l bhi.
  set (m := bhi mod 65536). set (k := bhi / 65536). assert (Em : bhi = k * 65536 + m) by (unfold m, k; dlia). assert (Hm : 0 <= m < 65536) by (unfold m; dlia). assert (Hk : 0 <= k < 32768) by (unfold k; dlia). clearbody m k.
  rewrite (Z.mod_small k 32768) by lia. rewrite (u32_id (k * 131072)) by (unfold in_u32; lia).
  assert (El : u32 (i32 (Z.lor l (i32 (m * 65536)))) = m * 65536 + l).
  { rewrite Z.lor_comm, (lor_disjoint 16) by (try lia; unfold i32; change (2 ^ 16) with 65536; dlia). unfold u32, i32. dlia. }
  rewrite El. rewrite (lor_disjoint 17) by (change (2 ^ 17) with 131072; dlia).
  assert (ER : k * 131072 + (m * 65536 + l) / 32768 = c * a / 32768) by (rewrite E, Em; dlia). rewrite ER, Ec. set (q := Z.abs b * a / 32768). assert (Hq : 0 <= q <= 2147483647) by (unfold q; split; [apply Z.div_pos; nia|apply Z.div_le_upper_bound; nia]).
  rewrite (i32_id q) by (unfold in_i32; lia). destruct (Z.ltb_spec b 0); [rewrite i32_id by (unfold in_i32; lia)|]; destruct (Z.eq_dec b 0) as [->|]; try (unfold q; cbn; done); nia.
Qed.

Lemma expand_bandwidth_ok c order : 0 <= order <= 12 -> row in_i32 (order + 1) c -> expand_bandwidth c order ⤳ row in_i32 (order + 1).
Proof.
  intros Ho Hc. unfold expand_bandwidth. apply loop_keeps_result; [done|]. intros i c' Hi Hc'.
  rewrite (aget_znth WebRtcCng_kCorrWindow i) by (cbn [length WebRtcCng_kCorrWindow]; lia). cbn [mbind option_bind].
  eapply result_bind; [apply (aget_row _ _ _ _ Hc'); lia|]. intros b _. apply (aset_row in_i32 (order + 1)); [done|lia|apply expand_range].
Qed.

(** The coefficients of a frame: those of a stable filter, or none. *)
Lemma analyse_ok speechBuf hanningW order outEnergy : Forall in_i16 speechBuf -> 1 <= order <= 12 -> order <= zlen speechBuf <= 640 -> zlen hanningW = 640 ->
  analyse speechBuf hanningW order outEnergy ⤳ (fun r => match r with
    | Some refCs => row in_i16 order refCs /\ (forall i, 1 <= i < order -> stable_coef (znth refCs i)) | None => True end).
Proof.
  intros HF Ho Hn Hw. unfold analyse. destruct (outEnergy >? 1); cbv zeta.
  - eapply result_bind; [apply hanning_ok; lia|]. intros w Hlw. cbv beta in Hlw.
    eapply result_bind; [apply (ElementwiseVectorMult_ok _ _ _ (zlen speechBuf)); [lia|lia|lia|by split]|]. intros buf [Hlb HFb].
    eapply result_bind; [apply (AutoCorrelation_ok _ order); lia|]. intros [c sc] Hc.
    eapply result_bind; [apply (aget_row _ _ _ 0 Hc); lia|]. intros c0 _.
    eapply result_bind; [instantiate (1 := row in_i32 (order + 1))|].
    { destruct (c0 =? 0); [|by apply result_ret]. apply (aset_row in_i32 (order + 1)); [done|lia|unfold WEBRTC_SPL_WORD16_MAX, in_i32; lia]. }
    intros c1 Hc1. eapply result_bind; [apply (expand_bandwidth_ok _ order); [lia|done]|]. intros c2 Hc2.
    eapply result_bind; [apply (LevinsonDurbin_ok _ order); [unfold SPL_LEVINSON_MAXORDER; lia|done]|]. intros [[stab A] K] HK. apply result_ret.
    destruct HK as [->|(-> & _ & HK & Hst)]; [done|]. done.
  - apply result_ret. unfold zreplicate. split; [split; [rewrite length_replicate; lia|apply Forall_replicate; unfold in_i16; lia]|].
    intros i Hi. unfold znth, aget. destruct (Z.leb_spec 0 i); [|lia]. rewrite lookup_replicate_2 by lia. unfold stable_coef. cbn. lia.
Qed.

(** An initialised encoder. *)
Record enc_ok (inst : WebRtcCngEncoder) : Prop := mkEncOk {
  eo_order : 1 <= enc_nrOfCoefs inst <= 12;
  eo_rate : in_i32 (enc_sampfreq inst) /\ enc_sampfreq inst <> 0;
  eo_energy : in_i32 (enc_Energy inst);
  eo_coefs : row in_i16 13 (enc_reflCoefs inst);
  eo_since : in_i16 (enc_msSinceSID inst) }.

Lemma average_ok inst refCs outEnergy forceSID : enc_ok inst -> row in_i16 (enc_nrOfCoefs inst) refCs -> in_i32 outEnergy ->
  average inst refCs outEnergy forceSID ⤳ (fun inst' => exists coefs energy, inst' = inst <| enc_reflCoefs := coefs |> <| enc_Energy := energy |> /\
    row in_i16 13 coefs /\ in_i32 energy).
Proof.
  intros [Ho Hr He Hc Hs] Hrow Hout. unfold average. destruct (forceSID =? 0); cbn [negb].
  - eapply result_bind; [apply (loop_keeps_result (row in_i16 13)); [done|]|].
    + intros i l Hi Hl. eapply result_bind; [apply (aget_row _ _ _ _ Hl); lia|]. intros e _. eapply result_bind; [apply (aget_row _ _ _ _ Hrow); lia|]. intros r _.
      apply (aset_row in_i16 13); [done|lia|apply i16_range].
    + intros l Hl. apply result_ret. do 2 eexists. split; [reflexivity|]. split; [done|apply i32_range].
  - eapply result_bind; [apply (loop_keeps_result (row in_i16 13)); [done|]|].
    + intros i l Hi Hl. eapply result_bind; [apply (aget_row _ _ _ _ Hrow); lia|]. intros r Hr'. apply (aset_row in_i16 13); [done|lia|done].
    + intros l Hl. apply result_ret. do 2 eexists. by split.
Qed.

Lemma find_dbov_ok n i energy : 0 <= i -> i + Z.of_nat n <= 94 -> exists k, find_dbov n i energy = Some k /\ (i <= k < i + Z.of_nat n \/ k = 94).
Proof.
  revert i. induction n as [|n IH]; intros i Hi Hn; cbn [find_dbov]; [exists 94; split; [done|by right]|].
  rewrite (aget_znth WebRtcCng_kDbov i) by (cbn [length WebRtcCng_kDbov]; lia). cbn [mbind option_bind].
  destruct (_ >? 0); [exists i; split; [done|left; lia]|]. destruct (IH (i + 1) ltac:(lia) ltac:(lia)) as (k & E & Hk). exists k. split; [done|]. lia.
Qed.

Lemma quantise_u8 order k : in_u8 (quantise order k).
Proof. unfold quantise. destruct (_ =? _); apply u8_range. Qed.

Lemma write_sid_ok inst SIDdata : enc_ok inst -> enc_nrOfCoefs inst < zlen SIDdata -> Forall in_u8 SIDdata ->
  write_sid inst SIDdata ⤳ row in_u8 (zlen SIDdata).
Proof.
  intros [Ho Hr He Hc Hs] Hl HF. unfold write_sid. destruct (find_dbov_ok 92 1 (enc_Energy inst)) as (k & -> & _); [lia|lia|]. cbn [mbind option_bind].
  eapply result_bind; [apply (aset_row in_u8 (zlen SIDdata)); [by split|lia|apply u8_range]|]. intros d Hd.
  apply loop_keeps_result; [done|]. intros i d' Hi Hd'. eapply result_bind; [apply (aget_row _ _ _ _ Hc); lia|]. intros r _.
  apply (aset_row in_u8); [done|lia|apply quantise_u8].
Qed.

Lemma frame_ms_ok inst n : enc_ok inst -> frame_ms inst n ⤳ in_i16.
Proof.
  intros [Ho [Hr Hr0] He Hc Hs]. unfold frame_ms. eapply result_bind; [apply (result_assert _ (fun _ => True)); [|done]|].
  - apply negb_true_iff, Z.eqb_neq. unfold u64, in_i32 in *. dlia.
  - intros _ _. apply result_ret, i16_range.
Qed.


(** What a call of the encoder may be given. *)
Record frame_given (speech : list Z) (nrOfSamples : Z) (SIDdata hanningW : list Z) : Prop := mkFrameGiven {
  fg_speech : Forall in_i16 speech /\ (640 < nrOfSamples \/ 12 <= nrOfSamples <= zlen speech);
  fg_sid : 13 <= zlen SIDdata /\ Forall in_u8 SIDdata;
  fg_stack : zlen hanningW = 640 }.

(** Its state afterwards. *)
Definition enc_wf (inst : WebRtcCngEncoder) : Prop := enc_initflag inst = 1 -> enc_ok inst.

Lemma Encode_ok inst speech n SIDdata bytesOut forceSID hanningW : enc_wf inst -> frame_given speech n SIDdata hanningW ->
  WebRtcCng_Encode inst speech n SIDdata bytesOut forceSID hanningW ⤳ (fun '(r, bytes, sid, inst') => enc_wf inst' /\
    row in_u8 (zlen SIDdata) sid /\ (r = -1 /\ bytes = bytesOut /\ sid = SIDdata \/ r = 0 /\ bytes = 0 /\ sid = SIDdata \/ enc_initflag inst = 1 /\ r = enc_nrOfCoefs inst + 1 /\ bytes = r)).
Proof.
  intros Hwf [[HF Hn] [Hd HFd] Hst]. unfold WebRtcCng_Encode. destruct (Z.eqb_spec (enc_initflag inst) 1) as [Ei|Ei]; cbn [negb].
  2:{ apply result_ret. split; [intros H; destruct Ei; exact H|]. split; [by split|by left]. }
  pose proof (Hwf Ei) as Hok. pose proof Hok as [Ho Hr He Hc Hs]. unfold WEBRTC_CNG_MAX_OUTSIZE_ORDER. destruct (Z.gtb_spec n 640).
  { apply result_ret. split; [intros _; by constructor|]. split; [by split|by left]. }
  assert (Hn' : 12 <= n <= zlen speech) by lia. clear Hn. eapply result_bind; [apply (result_assert _ (fun _ => True)); [by apply range_ok_spec; lia|done]|]. intros _ _.
  destruct (row_slice in_i16 speech 0 n HF ltac:(lia) ltac:(lia) ltac:(lia)) as [Hlb HFb]. cbv zeta. set (buf := slice speech 0 n) in *. clearbody buf.
  eapply result_bind; [apply frame_energy_ok|]. intros e Hee. eapply result_bind; [apply (analyse_ok buf hanningW); try done; lia|]. intros refCs Href.
  destruct refCs as [refCs|]; [|apply result_ret; split; [done|split; [by split|right; by left]]]. destruct Href as [Hrow _].
  eapply result_bind; [by apply average_ok|]. intros inst1 (coefs & energy & -> & Hc' & He').
  set (inst2 := if _ <? 1 then _ else _). assert (H2 : exists energy', inst2 = inst <| enc_reflCoefs := coefs |> <| enc_Energy := energy' |> /\ in_i32 energy').
  { unfold inst2. destruct (_ <? 1); [exists 1; split; [done|unfold in_i32; lia]|by exists energy]. }
  destruct H2 as (energy' & E2 & He2). rewrite E2. clear inst2 E2. set (inst2 := _ <| enc_Energy := energy' |>).
  assert (Hok2 : enc_ok inst2) by by constructor. destruct (_ || _).
  - eapply result_bind; [by apply write_sid_ok; [|unfold inst2; cbn; lia|]|]. intros sid Hsid.
    eapply result_bind; [apply frame_ms_ok; by constructor|]. intros ms Hms. apply result_ret. split.
    + intros _. constructor; try done. apply i16_range.
    + split; [done|]. right. right. unfold inst2. cbn. rewrite i32_id by (unfold in_i32; lia). done.
  - eapply result_bind; [apply frame_ms_ok; by constructor|]. intros ms Hms. apply result_ret. split.
    + intros _. constructor; try done. apply i16_range.
    + split; [by split|]. right. by left.
Qed.

Lemma InitEnc_ok inst fs interval quality : in_i32 fs -> fs <> 0 -> enc_wf (WebRtcCng_InitEnc inst fs interval quality).2.
Proof.
  intros Hf H0. unfold WebRtcCng_InitEnc, enc_wf. cbv zeta. unfold WEBRTC_CNG_MAX_LPC_ORDER. destruct (Z.gtb_spec quality 12); [done|]. destruct (Z.leb_spec quality 0); [done|]. cbn [orb].
  intros _. constructor; cbn; try done; try (unfold in_i32, in_i16; lia); try lia. split; [done|]. by apply Forall_replicate.
Qed.

(** ** The decoder *)

Record dec_wf (inst : WebRtcCngDecoder) : Prop := mkDecWf {
  dw_target : row in_i16 13 (dec_target_reflCoefs inst);
  dw_used : row in_i16 13 (dec_used_reflCoefs inst);
  dw_state : row in_i16 13 (dec_filtstate inst);
  dw_stateLow : row in_i16 13 (dec_filtstateLow inst);
  dw_energy : in_i32 (dec_used_energy inst) }.

Lemma InitDec_ok inst : dec_wf (WebRtcCng_InitDec inst).
Proof. constructor; cbn; try (split; [done|by apply Forall_replicate]). unfold in_i32. lia. Qed.

Lemma dequantise_range order v : in_i16 (dequantise order v).
Proof. unfold dequantise. destruct (_ =? _); apply i16_range. Qed.

(** A packet with at least a byte. *)
Lemma UpdateSid_ok inst SID length : dec_wf inst -> row in_u8 length SID -> 1 <= length ->
  WebRtcCng_UpdateSid inst SID length ⤳ (fun '(r, sid, inst') => dec_wf inst' /\ row in_u8 length sid /\
    (r = 0 /\ dec_order inst' = Z.min length 13 - 1 /\ dec_initflag inst = 1 \/ r = -1 /\ dec_initflag inst <> 1)).
Proof.
  intros [Ht Hu Hs Hl He] HS Hlen. unfold WebRtcCng_UpdateSid. destruct (Z.eqb_spec (dec_initflag inst) 1) as [Ei|Ei]; cbn [negb].
  2:{ apply result_ret. split; [by constructor|]. split; [done|by right]. }
  unfold WEBRTC_CNG_MAX_LPC_ORDER. cbv zeta. change (12 + 1) with 13. set (len := if length >? 13 then 13 else length).
  assert (Elen : len = Z.min length 13) by (unfold len; destruct (Z.gtb_spec length 13); lia). rewrite Elen. clear len Elen.
  assert (Eo : i16 (i16 (Z.min length 13) - 1) = Z.min length 13 - 1) by (rewrite !i16_id; unfold in_i16; try lia; rewrite i16_id; unfold in_i16; lia). rewrite Eo.
  destruct (aget_row _ _ _ 0 HS ltac:(lia)) as (sid & Es & Hsid). rewrite Es. cbn [mbind option_bind].
  assert (H93 : exists S' v, (if sid >? 93 then aset SID 0 93 else Some SID) = Some S' /\ row in_u8 length S' /\ aget S' 0 = Some v /\ 0 <= v <= 93).
  { unfold in_u8 in Hsid. destruct (Z.gtb_spec sid 93); [|exists SID, sid; split_and!; try done; lia]. destruct (aset_row in_u8 length SID 0 93 HS ltac:(lia) ltac:(unfold in_u8; lia)) as (S' & E & HS').
    exists S', 93. rewrite (aget_aset _ _ _ 0 _ E). by split_and!. }
  destruct H93 as (S' & v & -> & HS' & Ev & Hv). cbn [mbind option_bind]. rewrite Ev. cbn [mbind option_bind].
  rewrite (aget_znth WebRtcCng_kDbov v) by (cbn [Datatypes.length WebRtcCng_kDbov]; lia). cbn [mbind option_bind].
  eapply result_bind; [apply (loop_keeps_result (row in_i16 13)); [done|]|].
  - intros i l Hi Hl'. eapply result_bind; [apply (aget_row _ _ _ _ HS'); lia|]. intros w _. apply (aset_row in_i16 13); [done|lia|apply dequantise_range].
  - intros l Hl'. eapply result_bind; [apply (loop_keeps_result (row in_i16 13)); [exact Hl'|]|].
    + intros i l' Hi Hl2. apply (aset_row in_i16 13); [done|lia|unfold in_i16; lia].
    + intros l' Hl2. apply result_ret. split; [by constructor|]. split; [done|]. by left.
Qed.

(** Without a byte the packet has order -1, and the loop over the missing coefficients
    starts one entry before the array. *)
Lemma empty_sid_leaves_memory inst SID : dec_initflag inst = 1 -> zlen (dec_target_reflCoefs inst) = 13 -> WebRtcCng_UpdateSid inst SID 0 = None.
Proof.
  intros Ei Hl. unfold WebRtcCng_UpdateSid. rewrite Ei. cbv zeta. cbn [Z.eqb Pos.eqb negb]. change (if 0 >? _ then _ else 0) with 0. change (i16 (i16 0 - 1)) with (-1).
  destruct (aget SID 0) as [sid|]; [|done]. cbn [mbind option_bind]. destruct (if sid >? 93 then _ else _) as [S'|]; [|done]. cbn [mbind option_bind].
  destruct (aget S' 0) as [v|]; [|done]. cbn [mbind option_bind]. destruct (aget WebRtcCng_kDbov v); [|done]. cbn [mbind option_bind].
  change (Z.to_nat (-1)) with 0%nat. cbn [for_loop mbind option_bind]. change (Z.to_nat (WEBRTC_CNG_MAX_LPC_ORDER - -1)) with 13%nat. cbn [for_loop]. done.
Qed.

Lemma approach_range Beta BetaC used target : in_i16 (approach Beta BetaC used target).
Proof. apply i16_range. Qed.

(** The decoder after its values have moved towards the target. *)
Definition approached (inst inst' : WebRtcCngDecoder) : Prop := exists f coefs, row in_i16 13 coefs /\
  inst' = inst <| dec_used_scale_factor := f |> <| dec_used_energy := i32 (Z.shiftr (dec_used_energy inst) 1 + Z.shiftr (dec_target_energy inst) 1) |> <| dec_used_reflCoefs := coefs |>.

Lemma approach_target_ok inst new_period : dec_wf inst -> approach_target inst new_period ⤳ (fun inst' => approached inst inst').
Proof.
  intros [Ht Hu Hs Hl He]. unfold approach_target. destruct (betas new_period) as [Beta BetaC]. cbv zeta.
  set (inst1 := if negb _ then _ else _). assert (E1 : exists f, inst1 = inst <| dec_used_scale_factor := f |>).
  { unfold inst1. destruct (negb _); [by eexists|]. exists (dec_used_scale_factor inst). by destruct inst. }
  destruct E1 as [f ->]. eapply result_bind; [apply (loop_keeps_result (row in_i16 13)); [exact Hu|]|].
  - unfold WEBRTC_CNG_MAX_LPC_ORDER. intros i l Hi Hl'. eapply result_bind; [apply (aget_row _ _ _ _ Hl'); lia|]. intros u _.
    eapply result_bind; [apply (aget_row _ _ _ _ Ht); lia|]. intros t _. apply (aset_row in_i16 13); [done|lia|apply approach_range].
  - intros l Hl'. apply result_ret. by eexists _, l.
Qed.

Lemma approached_wf inst inst' : dec_wf inst -> approached inst inst' -> dec_wf inst'.
Proof. intros [Ht Hu Hs Hl He] (f & coefs & Hc & ->). constructor; try done. apply i32_range. Qed.

Lemma K2a16_ok k : row in_i16 13 k -> WebRtcCng_K2a16 k WEBRTC_CNG_MAX_LPC_ORDER ⤳ row in_i16 13.
Proof.
  intros Hk. unfold WebRtcCng_K2a16, WEBRTC_CNG_MAX_LPC_ORDER. eapply result_bind; [apply (aget_row _ _ _ _ Hk); lia|]. intros k0 _.
  apply (loop_result (fun m a => row in_i16 (m + 1) a) _ 1 11); [lia| |].
  - split; [done|]. repeat constructor; try apply i16_range; unfold in_i16; lia.
  - intros m a Hm Ha. unfold k2a_step. eapply result_bind; [apply (aget_row _ _ _ _ Hk); lia|]. intros km _.
    eapply result_bind; [apply (aget_row _ _ _ _ Ha); lia|]. intros a0 Ha0. eapply result_bind; [apply (mapM_row in_i16); [lia|]|].
    + intros i Hi. eapply result_bind; [apply (aget_row _ _ _ _ Ha); lia|]. intros x _. eapply result_bind; [apply (aget_row _ _ _ _ Ha); lia|]. intros y _.
      apply result_ret, i16_range.
    + intros any Hany. apply result_ret. destruct (row_snoc _ _ _ (i16 (Z.shiftr (km + 4) 3)) Hany (i16_range _)) as [Hla HFa].
      split; [cbn [length]; lia|by constructor].
Qed.

Lemma filter_energy_ok coefs : row in_i16 13 coefs -> filter_energy coefs ⤳ in_i16.
Proof.
  intros Hc. apply loop_keeps_result; [unfold in_i16; lia|]. unfold WEBRTC_CNG_MAX_LPC_ORDER. intros i En Hi _.
  eapply result_bind; [apply (aget_row _ _ _ _ Hc); lia|]. intros c _. apply result_ret, i16_range.
Qed.

Lemma scale_factor_ok inst : dec_wf inst -> scale_factor inst ⤳ (fun _ => True).
Proof.
  intros [Ht Hu Hs Hl He]. unfold scale_factor. eapply result_bind; [by apply filter_energy_ok|]. intros En HEn.
  eapply result_bind; [by apply Sqrt_ok|]. intros t _. eapply result_bind; [apply Sqrt_ok; unfold in_i16, in_i32 in *; lia|]. intros r _. by apply result_ret.
Qed.

Lemma RandN_ok seed : WebRtcSpl_RandN seed ⤳ (fun _ => True).
Proof.
  unfold WebRtcSpl_RandN. cbv zeta. assert (H : 0 <= Z.shiftr (IncreaseSeed seed) 23 < 256).
  { unfold IncreaseSeed, kMaxSeedUsed. change (2147483648 - 1) with (Z.ones 31). rewrite Z.land_ones by lia. rewrite Z.shiftr_div_pow2 by lia.
    pose proof (Z.mod_pos_bound (u32 (u32 (seed * 69069) + 1)) (2 ^ 31) ltac:(lia)) as Hm. set (v := _ mod 2 ^ 31) in *. clearbody v.
    change (2 ^ 31) with 2147483648 in Hm. change (2 ^ 23) with 8388608. dlia. }
  eapply result_bind; [apply (aget_row (fun _ => True) 512); [split; [vm_compute; reflexivity|by apply Forall_true]|lia]|]. intros r _. by apply result_ret.
Qed.

Lemma excite_ok n seed : 0 <= n -> excite n seed ⤳ (fun s => zlen s.1 = n).
Proof.
  intros Hn. unfold excite. apply (loop_result (fun i s => zlen s.1 = i)); [done|done|]. intros i [l sd] Hi Hl. cbn [fst snd] in *.
  eapply result_bind; [apply RandN_ok|]. intros [r sd'] _. apply result_ret. cbn [fst]. rewrite length_app. cbn [length]. lia.
Qed.

Lemma Generate_ok inst outData n new_period : dec_wf inst -> Forall in_i16 outData -> 640 < n \/ 0 <= n <= zlen outData ->
  WebRtcCng_Generate inst outData n new_period ⤳ (fun '(r, out, inst') => dec_wf inst' /\ row in_i16 (zlen outData) out /\
    (640 < n /\ r = -1 /\ out = outData \/ n <= 640 /\ r = 0 /\ dec_target_energy inst' = dec_target_energy inst /\
      dec_used_energy inst' = i32 (Z.shiftr (dec_used_energy inst) 1 + Z.shiftr (dec_target_energy inst) 1))).
Proof.
  intros Hwf HF Hn. unfold WebRtcCng_Generate. unfold WEBRTC_CNG_MAX_OUTSIZE_ORDER. destruct (Z.gtb_spec n 640).
  { apply result_ret. destruct Hwf. split; [by constructor|]. split; [by split|by left]. }
  destruct Hn as [|Hn]; [lia|]. eapply result_bind; [by apply approach_target_ok|]. intros inst1 Hap. pose proof (approached_wf _ _ Hwf Hap) as H1. destruct Hap as (f0 & coefs & _ & E1).
  eapply result_bind; [apply K2a16_ok, H1|]. intros a Ha. eapply result_bind; [by apply scale_factor_ok|]. intros scale _.
  eapply result_bind; [apply (excite_ok n); lia|]. intros [ex seed] Hex. cbn [fst] in Hex. cbv zeta. destruct H1 as [Ht Hu Hs Hl He]. destruct Ha as [Hla HFa].
  eapply result_bind; [apply (FilterAR_ok a 13 _ n _ 12 _ 13 13); [exact Hs|exact Hl|lia| | |lia|lia|lia|lia]|].
  - unfold WebRtcSpl_ScaleVector. rewrite length_fmap. lia.
  - unfold WebRtcSpl_ScaleVector. apply Forall_fmap. apply Forall_true. intros x. apply i16_range.
  - intros [[[f fl] s] l] (Hf & _ & Hs' & Hl'). destruct Hf as [Hlf HFf].
    eapply result_bind; [apply (memcpy_row in_i16 outData f 0 n (zlen outData)); [by split|done|lia|lia|lia]|]. intros out Hout.
    apply result_ret. split; [by constructor|]. split; [done|]. right. by rewrite E1.
Qed.

(** ** Sequences of calls *)

Inductive cng_call : Type :=
  | CallInitEnc (fs interval quality : Z)
  | CallEncode (speech : list Z) (nrOfSamples : Z) (SIDdata : list Z) (forceSID : Z) (hanningW : list Z)
  | CallInitDec
  | CallUpdateSid (SID : list Z) (length : Z)
  | CallGenerate (outData : list Z) (nrOfSamples new_period : Z).

(** The result and the array that the call has written. *)
Definition cng_run (c : cng_call) (s : WebRtcCngEncoder * WebRtcCngDecoder) : option (Z * list Z * (WebRtcCngEncoder * WebRtcCngDecoder)) :=
  let (e, d) := s in
  match c with
  | CallInitEnc fs interval quality => let (r, e) := WebRtcCng_InitEnc e fs interval quality in Some (r, [], (e, d))
  | CallEncode speech n SIDdata forceSID hanningW =>
      let* (r, _, sid, e) := WebRtcCng_Encode e speech n SIDdata 0 forceSID hanningW in Some (r, sid, (e, d))
  | CallInitDec => Some (0, [], (e, WebRtcCng_InitDec d))
  | CallUpdateSid SID length => let* (r, sid, d) := WebRtcCng_UpdateSid d SID length in Some (r, sid, (e, d))
  | CallGenerate outData n new_period => let* (r, out, d) := WebRtcCng_Generate d outData n new_period in Some (r, out, (e, d))
  end.

Fixpoint cng_calls (cs : list cng_call) (s : WebRtcCngEncoder * WebRtcCngDecoder)
    : option (list (Z * list Z) * (WebRtcCngEncoder * WebRtcCngDecoder)) :=
  match cs with
  | [] => Some ([], s)
  | c :: cs => let* (r, out, s) := cng_run c s in let* (rs, s) := cng_calls cs s in Some ((r, out) :: rs, s)
  end.

(** What a call needs: a rate that is not zero, frames of at least the largest order (or too
    long, which is refused), packets of at least a byte, arrays as long as announced. *)
Definition call_ok (c : cng_call) : Prop :=
  match c with
  | CallInitEnc fs _ _ => in_i32 fs /\ fs <> 0
  | CallEncode speech n SIDdata _ hanningW => frame_given speech n SIDdata hanningW
  | CallInitDec => True
  | CallUpdateSid SID length => row in_u8 length SID /\ 1 <= length
  | CallGenerate outData n _ => Forall in_i16 outData /\ (640 < n \/ 0 <= n <= zlen outData)
  end.

(** What a call returns. *)
Definition promised (c : cng_call) (res : Z * list Z) : Prop :=
  let (r, out) := res in
  match c with
  | CallInitEnc _ _ quality => r = if (1 <=? quality) && (quality <=? 12) then 0 else -1
  | CallEncode _ _ SIDdata _ _ => (r = -1 \/ r = 0 \/ 2 <= r <= 13) /\ row in_u8 (zlen SIDdata) out /\ (r <= 0 -> out = SIDdata)
  | CallInitDec => r = 0
  | CallUpdateSid SID length => (r = -1 \/ r = 0) /\ row in_u8 length out
  | CallGenerate outData n _ => r = (if 640 <? n then -1 else 0) /\ row in_i16 (zlen outData) out
  end.

Lemma cng_run_ok c e d : enc_wf e -> dec_wf d -> call_ok c ->
  cng_run c (e, d) ⤳ (fun '(r, out, (e', d')) => enc_wf e' /\ dec_wf d' /\ promised c (r, out)).
Proof.
  intros He Hd Hc. destruct c as [fs interval quality|speech n SIDdata force w| |SID length|outData n p]; cbn [cng_run call_ok promised] in *.
  - destruct Hc as [Hf H0]. pose proof (InitEnc_ok e fs interval quality Hf H0) as Hwf. destruct (WebRtcCng_InitEnc e fs interval quality) as [r e'] eqn:E. apply result_ret.
    split; [exact Hwf|]. split; [done|]. unfold WebRtcCng_InitEnc, WEBRTC_CNG_MAX_LPC_ORDER in E. cbv zeta in E.
    destruct (Z.gtb_spec quality 12), (Z.leb_spec quality 0), (Z.leb_spec 1 quality), (Z.leb_spec quality 12); cbn [orb andb] in *; try lia; by injection E as <- _.
  - eapply result_bind; [by apply Encode_ok|]. intros [[[r b] sid] e'] (He' & Hrow & Hr). apply result_ret. split; [done|]. split; [done|].
    destruct Hr as [(-> & _ & ->)|[(-> & _ & ->)|(Ei & -> & _)]]; [split; [by left|by split]|split; [right; by left|by split]|].
    pose proof (eo_order _ (He Ei)). split; [lia|]. split; [done|lia].
  - apply result_ret. split; [done|]. split; [apply InitDec_ok|done].
  - destruct Hc as [HS Hl]. eapply result_bind; [by apply UpdateSid_ok|]. intros [[r sid] d'] (Hd' & Hrow & Hr). apply result_ret. split; [done|]. split; [done|].
    split; [destruct Hr as [[-> _]|[-> _]]; [by right|by left]|done].
  - destruct Hc as [HF Hn]. eapply result_bind; [by apply Generate_ok|]. intros [[r out] d'] (Hd' & Hrow & Hr). apply result_ret. split; [done|]. split; [done|].
    split; [|done]. destruct (Z.ltb_spec 640 n), Hr as [(? & -> & _)|(? & -> & _)]; lia.
Qed.

(** C9. The comfort noise codec is defined for every sequence of calls from the creation of
    its instances, whatever their memory held, with the encoder and the decoder initialised or
    not, as long as every rate given is not zero, every frame has at least 12 samples (or more than 640,
    which is refused), every packet received has at least one byte, and the arrays are as long as announced, with 13 bytes for a packet.
    The initialisation of the encoder returns 0 for a quality of 1 to 12, otherwise -1. The encoder
    returns -1, or 0 without a packet, both times leaving its array alone, or the size of the packet, 2 to 13
    (where webrtc_cng.h lists 0 and -1 only). An update returns 0 or -1, and the generation of noise
    -1 for more than 640 samples and otherwise 0; its output is 16-bit samples. *)
Theorem cng_calls_safe e d calls : dec_wf d -> Forall call_ok calls ->
  exists e0 d0 results e' d', WebRtcCng_CreateEnc true (Some e) = (0, Some e0) /\ WebRtcCng_CreateDec true (Some d) = (0, Some d0) /\
    cng_calls calls (e0, d0) = Some (results, (e', d')) /\ Forall2 promised calls results.
Proof.
  intros Hd Hc. do 2 eexists. unfold WebRtcCng_CreateEnc, WebRtcCng_CreateDec. set (e0 := e <| enc_errorcode := 0 |> <| enc_initflag := 0 |>).
  set (d0 := d <| dec_errorcode := 0 |> <| dec_initflag := 0 |>). assert (He0 : enc_wf e0) by done. assert (Hd0 : dec_wf d0) by (destruct Hd; by constructor).
  assert (H : exists results e' d', cng_calls calls (e0, d0) = Some (results, (e', d')) /\ Forall2 promised calls results); [|by destruct H as (rs & e' & d' & H1 & H2); exists rs, e', d'].
  clearbody e0 d0. clear e d Hd. revert e0 d0 He0 Hd0. induction calls as [|c calls IH]; intros e d He Hd; [by exists [], e, d|].
  destruct (Forall_cons_1 _ _ _ Hc) as [Hc1 Hc2]. destruct (cng_run_ok c e d He Hd Hc1) as ([[r out] [e1 d1]] & E & He1 & Hd1 & Hp).
  destruct (IH Hc2 e1 d1 He1 Hd1) as (rs & e' & d' & E' & HF). exists ((r, out) :: rs), e', d'. cbn [cng_calls]. rewrite E. cbn [mbind option_bind]. rewrite E'.
  split; [done|]. by constructor.
Qed.

Lemma cng_calls_safe_witness : let calls := [CallUpdateSid [5; 1] 2; CallInitEnc 8000 100 2; CallInitDec; CallEncode (zreplicate 12 0) 12 (zreplicate 13 0) 1 (zreplicate 640 0);
    CallUpdateSid [200; 127; 100] 3; CallGenerate (zreplicate 2 0) 2 1; CallGenerate [] 700 0] in
  dec_wf zero_decoder /\ Forall call_ok calls /\
  exists e0 d0 results e' d', WebRtcCng_CreateEnc true (Some zero_encoder) = (0, Some e0) /\ WebRtcCng_CreateDec true (Some zero_decoder) = (0, Some d0) /\
    cng_calls calls (e0, d0) = Some (results, (e', d')) /\ Forall2 promised calls results.
Proof.
  cbv zeta. match goal with |- _ /\ Forall call_ok ?cs /\ _ => set (calls := cs) end.
  assert (Hd : dec_wf zero_decoder) by (constructor; try (split; [done|by apply Forall_replicate]); unfold in_i32; cbn; lia).
  assert (Hc : Forall call_ok calls).
  { repeat (apply Forall_cons_2; [cbn [call_ok]|]); [| | | | | | |apply Forall_nil_2]; try done.
    - split; [split; [done|]|lia]. repeat (apply Forall_cons_2; [unfold in_u8; lia|]). apply Forall_nil_2.
    - constructor; [|split; [done|by apply Forall_replicate]|done]. split; [by apply Forall_replicate|right; done].
    - split; [split; [done|]|lia]. repeat (apply Forall_cons_2; [unfold in_u8; lia|]). apply Forall_nil_2.
    - split; [by apply Forall_replicate|right; done].
    - split; [apply Forall_nil_2|left; lia]. }
  split; [exact Hd|]. split; [exact Hc|]. exact (cng_calls_safe zero_encoder zero_decoder calls Hd Hc).
Defined.

(** ** What a packet carries *)

(** The coefficient that arrives for [k]: rounded to eight bits, of which the largest value is
    missing. *)
Definition received (k : Z) : Z := if k <? 32640 then 256 * ((k + 128) / 256) else -32768.

Lemma quantise_dequantise order k : in_i16 k -> dequantise order (quantise order k) = received k.
Proof.
  unfold in_i16. intros Hk. unfold dequantise, quantise, received. rewrite !Z.shiftr_div_pow2, !Z.shiftl_mul_pow2 by lia. change (2 ^ 8) with 256.
  assert (Hm : -128 <= (k + 128) / 256 <= 128) by dlia. destruct (Z.ltb_spec k 32640).
  - assert ((k + 128) / 256 <= 127) by dlia. set (m := (k + 128) / 256) in *. clearbody m.
    destruct (order =? _); unfold u8, i16; [destruct (Z.ltb_spec m 0)|destruct (Z.eqb_spec m (-128)) as [->|]; [done|]; rewrite (Z.mod_small (127 + m)) by lia]; dlia.
  - replace ((k + 128) / 256) with 128 by dlia. by destruct (order =? _).
Qed.

Lemma received_error k : in_i16 k -> k < 32640 -> Z.abs (received k - k) <= 128.
Proof. unfold in_i16, received. intros Hk Hlt. destruct (Z.ltb_spec k 32640); [dlia|lia]. Qed.

(** The level found is the first below the energy. *)
Lemma find_dbov_level n i energy : 1 <= i -> i + Z.of_nat n <= 94 -> 1 <= energy <= 2147483647 -> (i = 1 \/ energy <= znth WebRtcCng_kDbov (i - 1)) ->
  exists k, find_dbov n i energy = Some k /\
    (i <= k < i + Z.of_nat n /\ znth WebRtcCng_kDbov k < energy /\ (k = 1 \/ energy <= znth WebRtcCng_kDbov (k - 1)) \/
     k = 94 /\ (i + Z.of_nat n = 1 \/ energy <= znth WebRtcCng_kDbov (i + Z.of_nat n - 1))).
Proof.
  revert i. induction n as [|n IH]; intros i Hi Hn He Hprev; cbn [find_dbov].
  - exists 94. split; [done|]. right. rewrite Z.add_0_r. done.
  - rewrite (aget_znth WebRtcCng_kDbov i) by (cbn [length WebRtcCng_kDbov]; lia). cbn [mbind option_bind].
    assert (Hl : 1 <= znth WebRtcCng_kDbov i <= 1081109975).
    { assert (C : all_from (fun i => (1 <=? znth WebRtcCng_kDbov i) && (znth WebRtcCng_kDbov i <=? 1081109975)) 0 94 = true) by (vm_compute; reflexivity).
      pose proof (all_from_spec _ _ _ C i ltac:(lia)) as H. cbv beta in H. by rewrite andb_true_iff, !Z.leb_le in H. }
    rewrite i32_id by (unfold in_i32; lia). destruct (Z.gtb_spec (energy - znth WebRtcCng_kDbov i) 0).
    + exists i. split; [done|]. left. split; [lia|]. split; [lia|done].
    + destruct (IH (i + 1) ltac:(lia) ltac:(lia) He) as (k & E & Hk); [right; replace (i + 1 - 1) with i by lia; lia|]. exists k. split; [done|].
      destruct Hk as [Hk|Hk]; [left; split; [lia|tauto]|right]. by replace (i + Z.of_nat (S n)) with (i + 1 + Z.of_nat n) by lia.
Qed.

Lemma levels_close : all_from (fun i => 100 * znth WebRtcCng_kDbov (i - 1) <=? 127 * znth WebRtcCng_kDbov i + 100) 1 93 = true.
Proof. vm_compute. reflexivity. Qed.

(** The level of the byte that is sent. *)
Lemma sent_level energy : 1 <= energy <= 1073741824 -> exists k, find_dbov 92 1 energy = Some k /\ 0 <= k <= 94 /\
  let level := znth WebRtcCng_kDbov (Z.min k 93) in level <= energy /\ 100 * energy <= 127 * level + 100.
Proof.
  intros He. destruct (find_dbov_level 92 1 energy) as (k & E & Hk); [lia|lia|lia|by left|]. exists k. split; [done|].
  destruct Hk as [(Hr & Hlt & Hprev)|[-> Hprev]].
  - split; [lia|]. cbv zeta. rewrite Z.min_l by lia. split; [lia|]. destruct Hprev as [->|Hprev]; [change (znth WebRtcCng_kDbov 1) with 858756178; lia|].
    pose proof (all_from_spec _ _ _ levels_close k ltac:(lia)) as H. cbv beta in H. apply Z.leb_le in H. lia.
  - split; [lia|]. cbv zeta. change (znth WebRtcCng_kDbov (Z.min 94 93)) with 1. destruct Hprev as [?|Hprev]; [lia|].
    change (znth WebRtcCng_kDbov (1 + Z.of_nat 92 - 1)) with 1 in Hprev. lia.
Qed.

(** The packet in full. *)
Lemma write_sid_exact inst SIDdata k : enc_ok inst -> enc_nrOfCoefs inst < zlen SIDdata -> find_dbov 92 1 (enc_Energy inst) = Some k ->
  write_sid inst SIDdata ⤳ (fun sid => zlen sid = zlen SIDdata /\ aget sid 0 = Some (u8 k) /\
    forall i, 0 <= i < enc_nrOfCoefs inst -> aget sid (i + 1) = Some (quantise (enc_nrOfCoefs inst) (znth (enc_reflCoefs inst) i))).
Proof.
  intros [Ho Hr He [Hlc Hc] Hs] Hl E. unfold write_sid. rewrite E. cbn [mbind option_bind]. rewrite aset_Some by lia. cbn [mbind option_bind].
  set (d0 := <[_ := _]> _). assert (E0 : aset SIDdata 0 (u8 k) = Some d0) by (by rewrite aset_Some by lia).
  replace (enc_nrOfCoefs inst) with (0 + enc_nrOfCoefs inst) at 3 4 by lia.
  eapply result_weaken; [apply (loop_result (fun j sid => zlen sid = zlen SIDdata /\ aget sid 0 = Some (u8 k) /\
    forall i, 0 <= i < j -> aget sid (i + 1) = Some (quantise (enc_nrOfCoefs inst) (znth (enc_reflCoefs inst) i)))); [lia| |]|].
  - split; [rewrite (length_aset _ _ _ _ E0); done|]. split; [by rewrite (aget_aset _ _ _ 0 _ E0)|lia].
  - intros j sid Hj (Hls & H0 & Hi). rewrite (aget_znth (enc_reflCoefs inst) j) by lia. cbn [mbind option_bind].
    rewrite aset_Some by lia. apply result_ret. set (q := quantise _ _). assert (E1 : aset sid (j + 1) q = Some (<[Z.to_nat (j + 1) := q]> sid)) by (by rewrite aset_Some by lia).
    split; [by rewrite length_insert|]. split; [rewrite (aget_aset _ _ _ _ _ E1); destruct (Z.eqb_spec 0 (j + 1)); [lia|done]|].
    intros i Hij. rewrite (aget_aset _ _ _ _ _ E1). destruct (Z.eqb_spec (i + 1) (j + 1)) as [Eij|]; [by replace i with j by lia|]. apply Hi. lia.
  - rewrite Z.add_0_l. done.
Qed.
(** What a packet of [length] bytes tells the decoder. *)
Lemma UpdateSid_exact inst SID length sid : dec_initflag inst = 1 -> zlen (dec_target_reflCoefs inst) = 13 -> 1 <= length <= 13 -> length <= zlen SID ->
  aget SID 0 = Some sid -> 0 <= sid ->
  WebRtcCng_UpdateSid inst SID length ⤳ (fun '(r, _, inst') => r = 0 /\ dec_order inst' = length - 1 /\
    (let e := Z.shiftr (znth WebRtcCng_kDbov (Z.min sid 93)) 1 in dec_target_energy inst' = i32 (e + Z.shiftr e 2)) /\
    forall i, 0 <= i < 12 -> aget (dec_target_reflCoefs inst') i = Some (if i <? length - 1 then dequantise (length - 1) (znth SID (i + 1)) else 0)).
Proof.
  intros Ei Ht Hl HS Es Hsid. unfold WebRtcCng_UpdateSid. rewrite Ei. cbn [Z.eqb Pos.eqb negb]. unfold WEBRTC_CNG_MAX_LPC_ORDER. cbv zeta. change (12 + 1) with 13.
  destruct (Z.gtb_spec length 13); [lia|]. rewrite Es. cbn [mbind option_bind].
  assert (H93 : exists S', (if sid >? 93 then aset SID 0 93 else Some SID) = Some S' /\ zlen S' = zlen SID /\ aget S' 0 = Some (Z.min sid 93) /\ forall i, 0 <= i -> aget S' (i + 1) = aget SID (i + 1)).
  { destruct (Z.gtb_spec sid 93); [|exists SID; rewrite Es, Z.min_l by lia; done]. rewrite aset_Some by lia. set (S' := <[_ := _]> SID).
    assert (E : aset SID 0 93 = Some S') by (by rewrite aset_Some by lia). exists S'. split; [done|]. split; [by rewrite (length_aset _ _ _ _ E)|].
    split; [rewrite (aget_aset _ _ _ 0 _ E), Z.min_r by lia; done|]. intros i Hi. rewrite (aget_aset _ _ _ _ _ E). by destruct (Z.eqb_spec (i + 1) 0); [lia|]. }
  destruct H93 as (S' & -> & HlS & E0 & Hrest). cbn [mbind option_bind]. rewrite E0. cbn [mbind option_bind].
  rewrite (aget_znth WebRtcCng_kDbov (Z.min sid 93)) by (cbn [Datatypes.length WebRtcCng_kDbov]; lia). cbn [mbind option_bind].
  assert (Eo : i16 (i16 length - 1) = length - 1) by (rewrite (i16_id length), i16_id by (unfold in_i16; lia); done). rewrite Eo.
  eapply result_bind; [apply (loop_result (fun j l => zlen l = 13 /\ forall i, 0 <= i < j -> aget l i = Some (dequantise (length - 1) (znth SID (i + 1))))); [lia|by split; [|lia]|]|].
  - intros j l Hj [Hll Hi]. rewrite (Hrest j) by lia. rewrite (aget_znth SID (j + 1)) by lia. cbn [mbind option_bind]. set (v := dequantise _ _).
    rewrite aset_Some by lia. apply result_ret. assert (E1 : aset l j v = Some (<[Z.to_nat j := v]> l)) by (by rewrite aset_Some by lia).
    split; [by rewrite length_insert|]. intros i Hij. rewrite (aget_aset _ _ _ _ _ E1). destruct (Z.eqb_spec i j) as [->|]; [done|]. apply Hi. lia.
  - rewrite Z.add_0_l. intros l [Hll Hi].
    eapply result_bind; [apply (loop_result (fun j l => zlen l = 13 /\ forall i, 0 <= i < j -> aget l i = Some (if i <? length - 1 then dequantise (length - 1) (znth SID (i + 1)) else 0)));
      [lia| |]|].
    + split; [done|]. intros i Hii. destruct (Z.ltb_spec i (length - 1)); [|lia]. by apply Hi.
    + intros j l' Hj [Hll' Hi']. rewrite aset_Some by lia. apply result_ret. assert (E1 : aset l' j 0 = Some (<[Z.to_nat j := 0]> l')) by (by rewrite aset_Some by lia).
      split; [by rewrite length_insert|]. intros i Hij. rewrite (aget_aset _ _ _ _ _ E1). destruct (Z.eqb_spec i j) as [->|]; [destruct (Z.ltb_spec j (length - 1)); [lia|done]|]. apply Hi'. lia.
    + intros l' [_ Hl']. apply result_ret. split; [done|]. split; [done|]. split; [done|]. intros i Hii. apply Hl'. lia.
Qed.

(** A frame that is not disregarded. *)
Definition frame_heard (order : Z) (speech : list Z) (n : Z) (hanningW : list Z) : Prop :=
  exists e refCs, frame_energy (slice speech 0 n) = Some e /\ analyse (slice speech 0 n) hanningW order e = Some (Some refCs).

(** The encoder after the averaging of such a frame. *)
Definition heard_by (inst inst2 : WebRtcCngEncoder) : Prop :=
  enc_ok inst2 /\ 1 <= enc_Energy inst2 /\ exists coefs energy, inst2 = inst <| enc_reflCoefs := coefs |> <| enc_Energy := energy |>.

Lemma Encode_heard inst speech n SIDdata bytesOut forceSID hanningW : enc_initflag inst = 1 -> enc_ok inst -> frame_given speech n SIDdata hanningW -> n <= 640 ->
  frame_heard (enc_nrOfCoefs inst) speech n hanningW ->
  exists inst2 ms, heard_by inst inst2 /\ frame_ms inst n = Some ms /\
    if (enc_msSinceSID inst >? enc_interval inst - 1) || negb (forceSID =? 0) then
      exists packet, write_sid inst2 SIDdata = Some packet /\ row in_u8 (zlen SIDdata) packet /\
        WebRtcCng_Encode inst speech n SIDdata bytesOut forceSID hanningW = Some (enc_nrOfCoefs inst + 1, enc_nrOfCoefs inst + 1, packet, inst2 <| enc_msSinceSID := i16 ms |>)
    else WebRtcCng_Encode inst speech n SIDdata bytesOut forceSID hanningW = Some (0, 0, SIDdata, inst2 <| enc_msSinceSID := i16 (enc_msSinceSID inst + ms) |>).
Proof.
  intros Ei Hok [[HF Hn] [Hd HFd] Hst] H640 (e & refCs & Ee & Ea). pose proof Hok as [Ho Hr He Hc Hs]. unfold WebRtcCng_Encode. rewrite Ei. cbn [Z.eqb Pos.eqb negb].
  unfold WEBRTC_CNG_MAX_OUTSIZE_ORDER. destruct (Z.gtb_spec n 640); [lia|]. assert (Hn' : 12 <= n <= zlen speech) by lia.
  assert (Er : range_ok speech 0 n = true) by (apply range_ok_spec; lia). rewrite Er. cbn [c_assert mbind option_bind]. cbv zeta.
  destruct (row_slice in_i16 speech 0 n HF ltac:(lia) ltac:(lia) ltac:(lia)) as [Hlb HFb].
  destruct (analyse_ok (slice speech 0 n) hanningW (enc_nrOfCoefs inst) e HFb Ho ltac:(lia) Hst) as (r' & Ea' & Hrow). rewrite Ea in Ea'. injection Ea' as <-. destruct Hrow as [Hrow _].
  destruct (frame_energy_ok (slice speech 0 n)) as (e' & Ee' & Hee). rewrite Ee in Ee'. injection Ee' as <-. rewrite Ee. cbn [mbind option_bind]. rewrite Ea. cbn [mbind option_bind].
  destruct (average_ok inst refCs e forceSID Hok Hrow Hee) as (inst1 & -> & coefs & energy & -> & Hc' & He'). cbn [mbind option_bind].
  set (inst2 := if _ <? 1 then _ else _). assert (H2 : exists energy', inst2 = inst <| enc_reflCoefs := coefs |> <| enc_Energy := energy' |> /\ in_i32 energy' /\ 1 <= energy').
  { unfold inst2. cbn. destruct (Z.ltb_spec energy 1); [exists 1; split; [done|unfold in_i32; lia]|by exists energy]. }
  destruct H2 as (energy' & E2 & He2 & H1). clearbody inst2. assert (Hok2 : enc_ok inst2) by (rewrite E2; by constructor).
  destruct (frame_ms_ok inst n Hok) as (ms & Ems & Hms). exists inst2, ms.
  assert (Ems2 : frame_ms inst2 n = Some ms) by (rewrite E2; exact Ems). assert (Eco : enc_nrOfCoefs inst2 = enc_nrOfCoefs inst) by (by rewrite E2).
  split; [split; [done|split; [by rewrite E2|by eexists _, _]]|]. split; [done|].
  replace (enc_msSinceSID inst2 >? enc_interval inst2 - 1) with (enc_msSinceSID inst >? enc_interval inst - 1) by (by rewrite E2). destruct (_ || _).
  - destruct (write_sid_ok inst2 SIDdata Hok2 ltac:(lia) HFd) as (packet & Ep & Hp). exists packet. split; [done|]. split; [done|]. rewrite Ep. cbn [mbind option_bind].
    replace (frame_ms _ n) with (Some ms) by (symmetry; exact Ems2). cbn [mbind option_bind]. cbn. rewrite Eco, i32_id by (unfold in_i32; lia). done.
  - rewrite Ems2. cbn [mbind option_bind]. replace (enc_msSinceSID inst2) with (enc_msSinceSID inst) by (by rewrite E2). done.
Qed.

(** A frame whose filter is not stable changes nothing, even when a packet is asked for. *)
Lemma unstable_frame_ignored inst speech n SIDdata bytesOut forceSID hanningW e : enc_initflag inst = 1 -> 0 <= n <= 640 -> n <= zlen speech ->
  frame_energy (slice speech 0 n) = Some e -> analyse (slice speech 0 n) hanningW (enc_nrOfCoefs inst) e = Some None ->
  WebRtcCng_Encode inst speech n SIDdata bytesOut forceSID hanningW = Some (0, 0, SIDdata, inst).
Proof.
  intros Ei Hn Hl Ee Ea. unfold WebRtcCng_Encode. rewrite Ei. unfold WEBRTC_CNG_MAX_OUTSIZE_ORDER. destruct (Z.gtb_spec n 640); [lia|]. cbn [Z.eqb Pos.eqb negb].
  assert (Er : range_ok speech 0 n = true) by (apply range_ok_spec; lia). rewrite Er. cbn [c_assert mbind option_bind]. cbv zeta. rewrite Ee. cbn [mbind option_bind]. by rewrite Ea.
Qed.

(** C10. A packet carries the noise the encoder has heard to within its quantisation. Both ends
    are initialised; the frame has 12 to 640 samples and room for a packet of 13 bytes, is not disregarded for an unstable
    filter ([frame_heard]), and a packet is forced or due. Then the encoder sends one, and a decoder that
    receives it aims at the encoder's reflection coefficients, each within 128 in Q15 unless it is 32640 or
    more (which arrives as -32768), and at no others, and at
    five eighths of a level (the comment in webrtc_cng.c says 75 per cent). If the encoder's energy is at
    most [2^30], this level is at most the energy and not below it by more than 27 per cent and a unit. *)
Theorem sid_carries_noise inst speech n SIDdata forceSID hanningW dec :
  enc_initflag inst = 1 -> enc_ok inst -> frame_given speech n SIDdata hanningW -> n <= 640 -> frame_heard (enc_nrOfCoefs inst) speech n hanningW ->
  forceSID <> 0 \/ enc_interval inst <= enc_msSinceSID inst -> dec_initflag dec = 1 -> dec_wf dec ->
  exists packet inst' packet' dec' level, let order := enc_nrOfCoefs inst in
    WebRtcCng_Encode inst speech n SIDdata 0 forceSID hanningW = Some (order + 1, order + 1, packet, inst') /\
    WebRtcCng_UpdateSid dec packet (order + 1) = Some (0, packet', dec') /\ dec_order dec' = order /\
    (forall i, 0 <= i < order -> exists k v, aget (enc_reflCoefs inst') i = Some k /\ aget (dec_target_reflCoefs dec') i = Some v /\
      if k <? 32640 then Z.abs (v - k) <= 128 else v = -32768) /\
    (forall i, order <= i < 12 -> aget (dec_target_reflCoefs dec') i = Some 0) /\
    dec_target_energy dec' = level / 2 + level / 2 / 4 /\
    (enc_Energy inst' <= 1073741824 -> level <= enc_Energy inst' /\ 100 * enc_Energy inst' <= 127 * level + 100).
Proof.
  intros Ei Hok Hg Hn Hh Hf Di Hd. destruct (Encode_heard inst speech n SIDdata 0 forceSID hanningW Ei Hok Hg Hn Hh) as (inst2 & ms & (Hok2 & H1 & coefs & energy & E2) & _ & H).
  assert (Eb : (enc_msSinceSID inst >? enc_interval inst - 1) || negb (forceSID =? 0) = true).
  { apply orb_true_iff. destruct Hf as [Hf|Hf]; [right; by apply negb_true_iff, Z.eqb_neq|left; apply Z.gtb_lt; lia]. }
  rewrite Eb in H. destruct H as (packet & Ep & Hp & EE). pose proof Hok as [Ho _ _ _ _]. assert (Eo : enc_nrOfCoefs inst2 = enc_nrOfCoefs inst) by (by rewrite E2).
  destruct Hg as [_ [Hsd _] _]. destruct (find_dbov_ok 92 1 (enc_Energy inst2)) as (k & Ek & Hk); [lia|lia|].
  destruct (write_sid_exact inst2 SIDdata k Hok2 ltac:(lia) Ek) as (packet2 & Ep2 & Hlp & H0 & Hq). rewrite Ep in Ep2. injection Ep2 as <-. rewrite Eo in Hq.
  destruct (UpdateSid_exact dec packet (enc_nrOfCoefs inst + 1) (u8 k)) as ([[r packet'] dec'] & ED & -> & Ed & Ht & Hc); [done|apply Hd|lia|lia|done|unfold u8; dlia|].
  exists packet, (inst2 <| enc_msSinceSID := i16 ms |>), packet', dec', (znth WebRtcCng_kDbov (Z.min k 93)). cbv zeta.
  split; [exact EE|]. split; [exact ED|]. split; [lia|]. replace (enc_nrOfCoefs inst + 1 - 1) with (enc_nrOfCoefs inst) in Hc by lia.
  destruct Hok2 as [_ _ _ [Hlc HFc] _]. split_and!.
  - intros i Hi. cbn. destruct (aget_range (enc_reflCoefs inst2) i ltac:(lia)) as [c Ec]. exists c. pose proof (Forall_aget _ _ _ _ HFc Ec) as Hci.
    rewrite (Hc i ltac:(lia)). destruct (Z.ltb_spec i (enc_nrOfCoefs inst)); [|lia]. rewrite (znth_aget _ _ _ (Hq i Hi)), (znth_aget _ _ _ Ec), quantise_dequantise by done.
    exists (received c). split; [done|]. split; [done|]. destruct (Z.ltb_spec c 32640) as [Hlt|]; [by apply received_error|]. unfold received. by destruct (Z.ltb_spec c 32640); [lia|].
  - intros i Hi. rewrite (Hc i ltac:(lia)). by destruct (Z.ltb_spec i (enc_nrOfCoefs inst)); [lia|].
  - rewrite Ht, u8_id by (unfold in_u8; lia). set (level := znth _ _). assert (Hl : 0 <= level <= 1081109975).
    { assert (C : all_from (fun i => (0 <=? znth WebRtcCng_kDbov i) && (znth WebRtcCng_kDbov i <=? 1081109975)) 0 94 = true) by (vm_compute; reflexivity).
      pose proof (all_from_spec _ _ _ C (Z.min k 93) ltac:(lia)) as H. cbv beta in H. by rewrite andb_true_iff, !Z.leb_le in H. }
    clearbody level. rewrite !Z.shiftr_div_pow2 by lia. change (2 ^ 1) with 2. change (2 ^ 2) with 4. cbv zeta. rewrite i32_id by (unfold in_i32; dlia). done.
  - cbn. intros He. destruct (sent_level (enc_Energy inst2) ltac:(lia)) as (k2 & Ek2 & _ & Hlev). rewrite Ek in Ek2. injection Ek2 as <-. exact Hlev.
Qed.

(** Some noise at 8 kHz, for an encoder of the largest order. *)
Definition some_noise : list Z := tab (fun i => (i * i * 7919 + i * 104729) mod 2003 - 1001) 60.
Definition listening : WebRtcCngEncoder := (WebRtcCng_InitEnc zero_encoder 8000 100 12).2.

Lemma listening_hears : enc_ok listening /\ frame_given some_noise 60 (zreplicate 13 0) (zreplicate 640 0) /\ frame_heard 12 some_noise 60 (zreplicate 640 0).
Proof.
  split; [apply (InitEnc_ok zero_encoder 8000 100 12); [unfold in_i32; lia|lia|done]|]. split.
  - constructor; [|split; [done|by apply Forall_replicate]|done]. split; [|right; done]. apply Forall_tab. intros i _. unfold in_i16. dlia.
  - eexists _, _. split; vm_compute; reflexivity.
Qed.

Lemma sid_carries_noise_witness : let SIDdata := zreplicate 13 0 in let dec := WebRtcCng_InitDec zero_decoder in let hanningW := zreplicate 640 0 in
  enc_initflag listening = 1 /\ enc_ok listening /\ frame_given some_noise 60 SIDdata hanningW /\ frame_heard 12 some_noise 60 hanningW /\
  exists packet inst' packet' dec' level, let order := 12 in
    WebRtcCng_Encode listening some_noise 60 SIDdata 0 1 hanningW = Some (order + 1, order + 1, packet, inst') /\
    WebRtcCng_UpdateSid dec packet (order + 1) = Some (0, packet', dec') /\ dec_order dec' = order /\
    (forall i, 0 <= i < order -> exists k v, aget (enc_reflCoefs inst') i = Some k /\ aget (dec_target_reflCoefs dec') i = Some v /\
      if k <? 32640 then Z.abs (v - k) <= 128 else v = -32768) /\
    (forall i, order <= i < 12 -> aget (dec_target_reflCoefs dec') i = Some 0) /\
    dec_target_energy dec' = level / 2 + level / 2 / 4 /\
    (enc_Energy inst' <= 1073741824 -> level <= enc_Energy inst' /\ 100 * enc_Energy inst' <= 127 * level + 100).
Proof.
  destruct listening_hears as (Hok & Hg & Hh). split_and!; try done. apply (sid_carries_noise listening some_noise 60); try done; [by left|apply InitDec_ok].
Defined.

(** ** The interval between packets *)




(** ** The noise that is generated *)

(** The output of successive frames. *)
Fixpoint generate_frames (inst : WebRtcCngDecoder) (frames : list (list Z * Z * Z)) : option (list (Z * list Z) * WebRtcCngDecoder) :=
  match frames with
  | [] => Some ([], inst)
  | (outData, n, new_period) :: frames =>
      let* (r, out, inst) := WebRtcCng_Generate inst outData n new_period in
      let* (rs, inst) := generate_frames inst frames in Some ((r, out) :: rs, inst)
  end.

Definition frame_fits (f : list Z * Z * Z) : Prop := let '(outData, n, _) := f in Forall in_i16 outData /\ 0 <= n <= zlen outData /\ n <= 640.

(** The distance of twice the halves of the energies, halved by every frame. *)
Lemma generate_frames_energy frames : forall inst, dec_wf inst -> in_i32 (dec_target_energy inst) -> Forall frame_fits frames ->
  exists rs inst', generate_frames inst frames = Some (rs, inst') /\ Forall (fun p => p.1 = 0) rs /\
    let goal := 2 * (dec_target_energy inst / 2) in dec_used_energy inst' = goal + (dec_used_energy inst - goal) / 2 ^ zlen frames.
Proof.
  induction frames as [|[[outData n] p] frames IH]; intros inst Hwf Ht HF; cbn [generate_frames length].
  - exists [], inst. split; [done|]. split; [done|]. cbv zeta. change (2 ^ Z.of_nat 0) with 1. rewrite Z.div_1_r. lia.
  - destruct (Forall_cons_1 _ _ _ HF) as [(Ho & Hn & H640) HF2]. destruct (Generate_ok inst outData n p Hwf Ho ltac:(by right)) as ([[r out] inst1] & E & Hwf1 & _ & [?|(_ & -> & Et & Eu)]); [lia|].
    rewrite E. cbn [mbind option_bind]. destruct (IH inst1 Hwf1) as (rs & inst' & E' & Hrs & Hu); [by rewrite Et|done|]. exists ((0, out) :: rs), inst'. rewrite E'. split; [done|].
    split; [by constructor|]. cbv zeta in Hu |- *. rewrite Hu, Et, Eu. pose proof (dw_energy _ Hwf) as He. unfold in_i32 in *. rewrite !Z.shiftr_div_pow2 by lia. change (2 ^ 1) with 2.
    set (u := dec_used_energy inst) in *. set (t := dec_target_energy inst) in *. rewrite i32_id by (unfold in_i32; dlia). f_equal.
    replace (Z.of_nat (S (length frames))) with (1 + zlen frames) by lia. rewrite Z.pow_add_r, Z.pow_1_r by lia. rewrite <- Z.div_div by lia. f_equal. dlia.
Qed.

(** C26. The energy of the generated noise reaches its target: whatever the decoder's state, after
    32 frames the energy in use is the target's but for its last bit and at most one less. *)
Theorem noise_reaches_level inst frames : dec_wf inst -> in_i32 (dec_target_energy inst) -> Forall frame_fits frames -> 32 <= zlen frames ->
  exists rs inst', generate_frames inst frames = Some (rs, inst') /\ Forall (fun p => p.1 = 0) rs /\
    let goal := 2 * (dec_target_energy inst / 2) in goal - 1 <= dec_used_energy inst' <= goal.
Proof.
  intros Hwf Ht HF HK. destruct (generate_frames_energy frames inst Hwf Ht HF) as (rs & inst' & E & Hrs & Hu). exists rs, inst'. split; [done|]. split; [done|].
  cbv zeta in Hu |- *. rewrite Hu. pose proof (dw_energy _ Hwf) as He. unfold in_i32 in *. set (goal := 2 * _) in *. assert (Hg : -2147483648 <= goal <= 2147483647) by (unfold goal; dlia).
  assert (Hp : 4294967296 <= 2 ^ zlen frames) by (change 4294967296 with (2 ^ 32); apply Z.pow_le_mono_r; lia). set (e := dec_used_energy inst - goal).
  assert (-1 <= e / 2 ^ zlen frames < 1); [|lia]. split; [apply Z.div_le_lower_bound; lia|apply Z.div_lt_upper_bound; lia].
Qed.

Lemma noise_reaches_level_witness : let frames := replicate 40 ([0; 0], 2, 0) in
  dec_wf (zero_decoder <| dec_target_energy := 1001 |>) /\ in_i32 1001 /\ Forall frame_fits frames /\ 32 <= zlen frames /\
  exists rs inst', generate_frames (zero_decoder <| dec_target_energy := 1001 |>) frames = Some (rs, inst') /\ Forall (fun p => p.1 = 0) rs /\
    let goal := 2 * (1001 / 2) in goal - 1 <= dec_used_energy inst' <= goal.
Proof.
  assert (Hwf : dec_wf (zero_decoder <| dec_target_energy := 1001 |>)) by (constructor; try (split; [done|by apply Forall_replicate]); unfold in_i32; cbn; lia).
  assert (Hf : Forall frame_fits (replicate 40 ([0; 0], 2, 0))) by (apply Forall_replicate; split_and!; try done; repeat constructor; unfold in_i16; lia).
  split_and!; try done. exact (noise_reaches_level _ _ Hwf ltac:(done) Hf ltac:(done)).
Defined.

(** *** Before the first packet *)

Record silent (inst : WebRtcCngDecoder) : Prop := mkSilent {
  si_energy : dec_used_energy inst = 0 /\ dec_target_energy inst = 0;
  si_state : row (eq 0) 13 (dec_filtstate inst);
  si_stateLow : row (eq 0) 13 (dec_filtstateLow inst) }.

Lemma InitDec_silent inst : silent (WebRtcCng_InitDec inst).
Proof. constructor; [done| |]; (split; [done|by apply Forall_replicate]). Qed.

Lemma scale_factor_silent inst : dec_wf inst -> dec_used_energy inst = 0 -> scale_factor inst = Some 0.
Proof.
  intros [Ht Hu Hs Hl He] E0. unfold scale_factor. destruct (filter_energy_ok _ Hu) as (En & -> & HEn). cbn [mbind option_bind]. rewrite E0. change (WebRtcSpl_Sqrt 0) with (Some 0). cbn [mbind option_bind].
  destruct (Sqrt_ok En) as (r & -> & _); [unfold in_i16, in_i32 in *; lia|]. cbn [mbind option_bind]. cbv zeta. by rewrite Z.mul_0_r.
Qed.

Lemma Generate_silent inst outData n new_period : dec_wf inst -> silent inst -> Forall in_i16 outData -> 0 <= n <= zlen outData -> n <= 640 ->
  exists inst', WebRtcCng_Generate inst outData n new_period = Some (0, zreplicate n 0 ++ drop (Z.to_nat n) outData, inst') /\ dec_wf inst' /\ silent inst'.
Proof.
  intros Hwf [[Eu Et] Ss Sl] HF Hn H640. destruct (Generate_ok inst outData n new_period Hwf HF ltac:(by right)) as ([[r out] inst'] & E & Hwf' & _ & [?|(_ & -> & Et' & Eu')]); [lia|].
  exists inst'. rewrite E. assert (H : out = zreplicate n 0 ++ drop (Z.to_nat n) outData /\ row (eq 0) 13 (dec_filtstate inst') /\ row (eq 0) 13 (dec_filtstateLow inst')); [|destruct H as (-> & ? & ?)].
  2:{ split; [done|]. split; [done|]. rewrite Eu, Et in Eu'. constructor; [split; [exact Eu'|by rewrite Et']|done|done]. }
  clear Et' Eu'. unfold WebRtcCng_Generate in E. unfold WEBRTC_CNG_MAX_OUTSIZE_ORDER in E. destruct (Z.gtb_spec n 640); [lia|].
  destruct (approach_target_ok inst new_period Hwf) as (inst1 & E1 & Hap). rewrite E1 in E. cbn [mbind option_bind] in E. pose proof (approached_wf _ _ Hwf Hap) as H1. destruct Hap as (f & coefs & Hc & Ei1).
  destruct (K2a16_ok _ (dw_used _ H1)) as (a & Ea & Hla & _). rewrite Ea in E. cbn [mbind option_bind] in E.
  rewrite (scale_factor_silent inst1 H1) in E by (rewrite Ei1; cbn; by rewrite Eu, Et). cbn [mbind option_bind] in E.
  destruct (excite_ok n (dec_seed inst1)) as ([ex seed] & Ex & Hex); [lia|]. cbn [fst] in Hex. rewrite Ex in E. cbn [mbind option_bind] in E. cbv zeta in E.
  destruct (FilterAR_silent a 13 (WebRtcSpl_ScaleVector ex 0 13) n (dec_filtstate inst) 12 (dec_filtstateLow inst) 13 13) as ([[[fd fl] s] l] & EF & [Hlf Hf] & _ & Hs' & Hl');
    [exact Ss|exact Sl|lia|unfold WebRtcSpl_ScaleVector; rewrite length_fmap; lia| |lia|lia|lia|lia|].
  { unfold WebRtcSpl_ScaleVector. apply Forall_fmap, Forall_true. intros x. unfold compose. by rewrite Z.mul_0_r. }
  change (WEBRTC_CNG_MAX_LPC_ORDER + 1) with 13 in E. unfold WEBRTC_CNG_MAX_LPC_ORDER in E.
  match type of E with context [WebRtcSpl_FilterAR _ _ _ _ ?s0 _ ?l0] =>
    replace s0 with (dec_filtstate inst) in E by (by rewrite Ei1); replace l0 with (dec_filtstateLow inst) in E by (by rewrite Ei1) end.
  rewrite EF in E. cbn [mbind option_bind] in E. rewrite memcpy_Some in E by lia. cbn [mbind option_bind] in E. injection E as <- <-. cbn. split; [|done].
  unfold splice, slice. change (Z.to_nat 0) with 0%nat. rewrite drop_0, take_0, firstn_all2 by lia. cbn [app]. f_equal; [|f_equal; lia].
  assert (Ef : fd = replicate (length fd) 0) by (symmetry; apply replicate_as_elem_of; split; [done|]; intros x Hx; symmetry; exact (Forall_elem _ _ Hf x Hx)). rewrite Ef. unfold zreplicate. f_equal. lia.
Qed.

(** Until the first packet arrives an initialised decoder generates silence, in frames of
    any length, and leaves the rest of each array alone. *)
Theorem no_packet_no_noise inst frames : Forall frame_fits frames ->
  exists inst', generate_frames (WebRtcCng_InitDec inst) frames =
    Some ((fun '(outData, n, _) => (0, zreplicate n 0 ++ drop (Z.to_nat n) outData)) <$> frames, inst').
Proof.
  pose proof (InitDec_ok inst) as Hwf. pose proof (InitDec_silent inst) as Hs. set (d := WebRtcCng_InitDec inst) in *. clearbody d. revert d Hwf Hs.
  induction frames as [|[[outData n] p] frames IH]; intros d Hwf Hs HF; [by exists d|]. destruct (Forall_cons_1 _ _ _ HF) as [(Ho & Hn & H640) HF2].
  destruct (Generate_silent d outData n p Hwf Hs Ho Hn H640) as (d1 & E & Hwf1 & Hs1). destruct (IH d1 Hwf1 Hs1 HF2) as (d2 & E2). exists d2. cbn [generate_frames]. rewrite E. cbn [mbind option_bind]. by rewrite E2.
Qed.

Lemma no_packet_no_noise_witness : Forall frame_fits [([7; 7; 7], 2, 1); ([], 0, 0)] /\ exists inst', generate_frames (WebRtcCng_InitDec zero_decoder) [([7; 7; 7], 2, 1); ([], 0, 0)] = Some ([(0, [0; 0; 7]); (0, [])], inst').
Proof.
  assert (HF : Forall frame_fits [([7; 7; 7], 2, 1); ([], 0, 0)]) by (repeat constructor; try (unfold in_i16; lia); cbn; lia).
  split; [exact HF|]. exact (no_packet_no_noise zero_decoder _ HF).
Defined.
End CngSpec.
