(* ===== verification/Float32.v ===== *)
(** IEEE 754 arithmetic of the C types [float] and [double], on the executable
    [spec_float] of the Standard Library: rounding to nearest even, expressions
    evaluated in their own type. *)

From S2P Require Import Prelude.
From Stdlib Require Import SpecFloat.

Abbreviation float := spec_float.

(** ** float: 24 bits of precision *)

Definition f32_of_Z (n : Z) : float := binary_normalize 24 128 n 0 false.
(** [m * 2^e], for the constants of the source. *)
Definition f32_lit (m e : Z) : float := binary_normalize 24 128 m e false.
Definition f32_add : float -> float -> float := SFadd 24 128.
Definition f32_sub : float -> float -> float := SFsub 24 128.
Definition f32_mul : float -> float -> float := SFmul 24 128.
Definition f32_div : float -> float -> float := SFdiv 24 128.

Declare Scope f32_scope.
Delimit Scope f32_scope with f32.
Notation "x ⊕ y" := (f32_add x y) (at level 50, left associativity) : f32_scope.
Notation "x ⊖ y" := (f32_sub x y) (at level 50, left associativity) : f32_scope.
Notation "x ⊗ y" := (f32_mul x y) (at level 40, left associativity) : f32_scope.
Notation "x ⊘ y" := (f32_div x y) (at level 40, left associativity) : f32_scope.

(** ** double: 53 bits of precision *)

Definition f64_of_Z (n : Z) : float := binary_normalize 53 1024 n 0 false.
Definition f64_lit (m e : Z) : float := binary_normalize 53 1024 m e false.
Definition f64_mul : float -> float -> float := SFmul 53 1024.
Definition f64_sub : float -> float -> float := SFsub 53 1024.
Definition f64_div : float -> float -> float := SFdiv 53 1024.

(** Conversions between the two types; the second one rounds. *)
Definition f64_of_f32 (x : float) : float :=
  match x with
  | S754_finite s m e => binary_normalize 53 1024 (if s then Zneg m else Zpos m) e s
  | _ => x
  end.
Definition f32_of_f64 (x : float) : float :=
  match x with
  | S754_finite s m e => binary_normalize 24 128 (if s then Zneg m else Zpos m) e s
  | _ => x
  end.

(** ** Comparisons, false on NaN *)

Definition flt (x y : float) : bool := SFltb x y.
Definition fle (x y : float) : bool := SFleb x y.
Definition fgt (x y : float) : bool := SFltb y x.
Definition fge (x y : float) : bool := SFleb y x.

(** Conversion to an integer type truncates. *)
Definition f_trunc (x : float) : Z :=
  match x with
  | S754_finite s m e =>
      let a := if e <? 0 then Z.shiftr (Z.pos m) (- e) else Z.shiftl (Z.pos m) e in
      if s then - a else a
  | _ => 0
  end.

(** [(int)x].  C leaves the conversion of NaN and of values outside [int]
    undefined; they get the value [INT_MIN] that x86-64 gives them. *)
Definition f32_to_int (x : float) : Z :=
  match x with
  | S754_zero _ => 0
  | S754_finite _ _ _ =>
      let v := f_trunc x in if (-2147483648 <=? v) && (v <=? 2147483647) then v else -2147483648
  | _ => -2147483648
  end.

Lemma f32_to_int_range x : in_i32 (f32_to_int x).
Proof. unfold in_i32. destruct x; simpl; try lia. case_match; breflect; lia. Qed.

(** ** Bit patterns

    The 32-bit pattern of a [float], for the unions of the source. *)

Definition f32_bits (x : float) : Z :=
  match x with
  | S754_zero s => if s then 0x80000000 else 0
  | S754_infinity s => (if s then 0x80000000 else 0) + 0x7F800000
  | S754_nan => 0x7FC00000
  | S754_finite s m e =>
      (if s then 0x80000000 else 0) +
      (if Z.pos m <? 8388608 then Z.pos m else (e + 150) * 8388608 + (Z.pos m - 8388608))
  end.

Definition f32_of_bits (b : Z) : float :=
  let s := 0x80000000 <=? b in
  let e := (b / 8388608) mod 256 in
  let f := b mod 8388608 in
  if e =? 255 then if f =? 0 then S754_infinity s else S754_nan
  else if e =? 0 then match f with Z.pos m => S754_finite s m (-149) | _ => S754_zero s end
  else match f + 8388608 with Z.pos m => S754_finite s m (e - 150) | _ => S754_nan end.
