(* ===== verification/DelayEstimator.v ===== *)
(** The binary delay estimator,
    src/webrtc/modules/audio_processing/utility/delay_estimator.c.

    [Module DelayEst] has the two structures and every operation;
    [Module DelayEstSpec] the invariant the operations keep and the theorems:
    the bit count, the far-end history, the range of the estimate, the absence
    of accesses outside the histories, the behaviour of the thresholds and of
    the soft resets.

    The far-end structure is shared by pointer between estimators; here it is a
    separate argument and result of the operations that use it. *)

From S2P Require Import Prelude Float32.

Module DelayEst.

(** ** Constants *)

Definition kShiftsAtZero : Z := 13.
Definition kShiftsLinearSlope : Z := 3.
Definition kProbabilityOffset : Z := 1024.
Definition kProbabilityLowerLimit : Z := 8704.
Definition kProbabilityMinSpread : Z := 2816.
Definition kHistogramMax : float := f32_of_Z 3000.
Definition kLastHistogramMax : float := f32_of_Z 250.
Definition kMinHistogramThreshold : float := f32_lit 3 (-1).
Definition kMinRequiredHits : Z := 10.
Definition kMaxHitsWhenPossiblyNonCausal : Z := 10.
Definition kMaxHitsWhenPossiblyCausal : Z := 1000.
Definition kQ14Scaling : float := f32_div (f32_of_Z 1) (f32_of_Z (Z.shiftl 1 14)).
(** 0.05f, whose nearest float is [13421773 * 2^-28]. *)
Definition kFractionSlope : float := f32_lit 13421773 (-28).
Definition kMinFractionWhenPossiblyCausal : float := f32_lit 1 (-1).
Definition kMinFractionWhenPossiblyNonCausal : float := f32_lit 1 (-2).
Definition kMaxBitCountsQ9 : Z := Z.shiftl 32 9.

(** ** Data *)

Record BinaryDelayEstimatorFarend := mkFarend {
  far_bit_counts : list Z;
  binary_far_history : list Z;
  far_history_size : Z }.

#[export] Instance rebuild_Farend : Rebuild BinaryDelayEstimatorFarend :=
  fun r => mkFarend (far_bit_counts r) (binary_far_history r) (far_history_size r).

Record BinaryDelayEstimator := mkEstimator {
  mean_bit_counts : list Z;
  bit_counts : list Z;
  binary_near_history : list Z;
  near_history_size : Z;
  history_size : Z;
  minimum_probability : Z;
  last_delay_probability : Z;
  last_delay : Z;
  robust_validation_enabled : Z;
  allowed_offset : Z;
  last_candidate_delay : Z;
  compare_delay : Z;
  candidate_hits : Z;
  histogram : list float;
  last_delay_histogram : float;
  lookahead : Z }.

#[export] Instance rebuild_Estimator : Rebuild BinaryDelayEstimator :=
  fun r => mkEstimator (mean_bit_counts r) (bit_counts r) (binary_near_history r)
    (near_history_size r) (history_size r) (minimum_probability r) (last_delay_probability r)
    (last_delay r) (robust_validation_enabled r) (allowed_offset r) (last_candidate_delay r)
    (compare_delay r) (candidate_hits r) (histogram r) (last_delay_histogram r) (lookahead r).

(** ** Bit counts *)

Definition BitCount (x : Z) : Z :=
  let tmp := u32 (u32 (x - Z.land (Z.shiftr x 1) 3681400539) - Z.land (Z.shiftr x 2) 1227133513) in
  let tmp := Z.land (u32 (tmp + Z.shiftr tmp 3)) 3340530119 in
  let tmp := u32 (tmp + Z.shiftr tmp 6) in
  Z.land (u32 (u32 (tmp + Z.shiftr tmp 12) + Z.shiftr tmp 24)) 63.

Definition BitCountComparison (binary_vector : Z) (binary_matrix : list Z) (matrix_size : Z)
    (bit_counts : list Z) : option (list Z) :=
  for_loop (fun n bit_counts =>
      let* row := aget binary_matrix n in
      aset bit_counts n (BitCount (Z.lxor binary_vector row)))
    0 (Z.to_nat matrix_size) bit_counts.

Definition WebRtc_MeanEstimatorFix (new_value factor mean_value : Z) : Z :=
  let diff := i32 (new_value - mean_value) in
  let diff := if diff <? 0 then i32 (- Z.shiftr (i32 (- diff)) factor) else Z.shiftr diff factor in
  i32 (mean_value + diff).

(** ** Robust validation *)

(** Turn [i] of the histogram loop. *)
Definition histogram_step (candidate_delay last_delay : Z) (decrease_in_last_set valley_depth : float)
    (i : Z) (histogram : list float) : option (list float) :=
  let is_in_last_set := (i >=? last_delay - 2) && (i <=? last_delay + 1) && negb (i =? candidate_delay) in
  let is_in_candidate_set := (i >=? candidate_delay - 2) && (i <=? candidate_delay + 1) in
  let* h := aget histogram i in
  let h := f32_sub h
    (f32_add (f32_mul decrease_in_last_set (f32_of_Z (c_bool is_in_last_set)))
             (f32_mul valley_depth (f32_of_Z (c_bool (negb is_in_last_set && negb is_in_candidate_set))))) in
  aset histogram i (if flt h (f32_of_Z 0) then f32_of_Z 0 else h).

Definition UpdateRobustValidationStatistics (far : BinaryDelayEstimatorFarend)
    (self : BinaryDelayEstimator) (candidate_delay valley_depth_q14 valley_level_q14 : Z)
    : option BinaryDelayEstimator :=
  let valley_depth := f32_mul (f32_of_Z valley_depth_q14) kQ14Scaling in
  let max_hits_for_slow_change :=
    if candidate_delay <? last_delay self then kMaxHitsWhenPossiblyNonCausal
    else kMaxHitsWhenPossiblyCausal in
  let* _ := c_assert (history_size self =? far_history_size far) in
  let self :=
    if negb (candidate_delay =? last_candidate_delay self)
    then self <| candidate_hits := 0 |> <| last_candidate_delay := candidate_delay |> else self in
  let self := self <| candidate_hits := i32 (candidate_hits self + 1) |> in
  let* h := aget (histogram self) candidate_delay in
  let h := f32_add h valley_depth in
  let h := if fgt h kHistogramMax then kHistogramMax else h in
  let* hist := aset (histogram self) candidate_delay h in
  let* decrease_in_last_set :=
    if candidate_hits self <? max_hits_for_slow_change then
      let* mean := aget (mean_bit_counts self) (compare_delay self) in
      Some (f32_mul (f32_of_Z (i32 (mean - valley_level_q14))) kQ14Scaling)
    else Some valley_depth in
  let* hist := for_loop (histogram_step candidate_delay (last_delay self) decrease_in_last_set valley_depth)
                 0 (Z.to_nat (history_size self)) hist in
  Some (self <| histogram := hist |>).

Definition HistogramBasedValidation (self : BinaryDelayEstimator) (candidate_delay : Z) : option bool :=
  let* histogram_threshold := aget (histogram self) (compare_delay self) in
  let delay_difference := i32 (candidate_delay - last_delay self) in
  let fraction :=
    if delay_difference >? allowed_offset self then
      let fraction := f32_sub (f32_of_Z 1)
        (f32_mul kFractionSlope (f32_of_Z (i32 (delay_difference - allowed_offset self)))) in
      if fgt fraction kMinFractionWhenPossiblyCausal then fraction else kMinFractionWhenPossiblyCausal
    else if delay_difference <? 0 then
      let fraction := f32_sub kMinFractionWhenPossiblyNonCausal
        (f32_mul kFractionSlope (f32_of_Z delay_difference)) in
      if fgt fraction (f32_of_Z 1) then f32_of_Z 1 else fraction
    else f32_of_Z 1 in
  let histogram_threshold := f32_mul histogram_threshold fraction in
  let histogram_threshold :=
    if fgt histogram_threshold kMinHistogramThreshold then histogram_threshold else kMinHistogramThreshold in
  let* h := aget (histogram self) candidate_delay in
  Some (fge h histogram_threshold && (candidate_hits self >? kMinRequiredHits)).

Definition RobustValidation (self : BinaryDelayEstimator) (candidate_delay : Z)
    (is_instantaneous_valid is_histogram_valid : bool) : option bool :=
  let is_robust := (last_delay self <? 0) && (is_instantaneous_valid || is_histogram_valid) in
  let is_robust := is_robust || (is_instantaneous_valid && is_histogram_valid) in
  let* strong :=
    if is_histogram_valid then
      let* h := aget (histogram self) candidate_delay in Some (fgt h (last_delay_histogram self))
    else Some false in
  Some (is_robust || strong).

(** ** The far-end history *)

(** [realloc] of an array: [None] on failure, else the old entries with
    arbitrary ones ([fresh]) in what is new. *)
Definition realloc {A} (old fresh : list A) (n : Z) : list A :=
  take (Z.to_nat n) old ++ drop (length old) (take (Z.to_nat n) fresh).

(** The allocations that may fail are arguments: [None], or the content of
    the memory beyond the entries kept. *)
Definition WebRtc_AllocateFarendBufferMemory (alloc_history alloc_counts : option (list Z))
    (self : BinaryDelayEstimatorFarend) (history_size : Z) : option (Z * BinaryDelayEstimatorFarend) :=
  let history := (fun fresh => realloc (binary_far_history self) fresh history_size) <$> alloc_history in
  let counts := (fun fresh => realloc (far_bit_counts self) fresh history_size) <$> alloc_counts in
  match history, counts with
  | Some h, Some c =>
      if history_size >? far_history_size self then
        let size_diff := history_size - far_history_size self in
        let* h := memset h (far_history_size self) 0 size_diff in
        let* c := memset c (far_history_size self) 0 size_diff in
        Some (history_size, mkFarend c h history_size)
      else Some (history_size, mkFarend c h history_size)
  | _, _ => Some (0, mkFarend (default [] counts) (default [] history) 0)
  end.

(** The result is [None] for NULL; the outer option is undefined behaviour. *)
Definition WebRtc_CreateBinaryDelayEstimatorFarend (malloc_self : bool)
    (alloc_history alloc_counts : option (list Z)) (history_size : Z)
    : option (option BinaryDelayEstimatorFarend) :=
  if (history_size >? 1) && malloc_self then
    let* (n, self) := WebRtc_AllocateFarendBufferMemory alloc_history alloc_counts
                        (mkFarend [] [] 0) history_size in
    Some (if n =? 0 then None else Some self)
  else Some None.

Definition WebRtc_InitBinaryDelayEstimatorFarend (self : BinaryDelayEstimatorFarend)
    : option BinaryDelayEstimatorFarend :=
  let* h := memset (binary_far_history self) 0 0 (far_history_size self) in
  let* c := memset (far_bit_counts self) 0 0 (far_history_size self) in
  Some (self <| binary_far_history := h |> <| far_bit_counts := c |>).

(** The memmove and the memset of one buffer. *)
Definition shift_pad (buf : list Z) (dest_index src_index padding_index shift_size abs_shift : Z)
    : option (list Z) :=
  let* buf := memcpy buf dest_index buf src_index shift_size in
  memset buf padding_index 0 abs_shift.

Definition WebRtc_SoftResetBinaryDelayEstimatorFarend (self : BinaryDelayEstimatorFarend) (delay_shift : Z)
    : option BinaryDelayEstimatorFarend :=
  let abs_shift := Z.abs delay_shift in
  let shift_size := far_history_size self - abs_shift in
  let* _ := c_assert (shift_size >? 0) in
  if delay_shift =? 0 then Some self
  else
    let '(dest_index, src_index, padding_index) :=
      if delay_shift >? 0 then (abs_shift, 0, 0) else (0, abs_shift, shift_size) in
    let* h := shift_pad (binary_far_history self) dest_index src_index padding_index shift_size abs_shift in
    let* c := shift_pad (far_bit_counts self) dest_index src_index padding_index shift_size abs_shift in
    Some (self <| binary_far_history := h |> <| far_bit_counts := c |>).

(** [memmove(&buf[1], &buf[0], size - 1)], then [buf[0] = x]. *)
Definition push_front (buf : list Z) (size x : Z) : option (list Z) :=
  let* buf := memcpy buf 1 buf 0 (size - 1) in aset buf 0 x.

Definition WebRtc_AddBinaryFarSpectrum (handle : BinaryDelayEstimatorFarend) (binary_far_spectrum : Z)
    : option BinaryDelayEstimatorFarend :=
  let* h := push_front (binary_far_history handle) (far_history_size handle) binary_far_spectrum in
  let* c := push_front (far_bit_counts handle) (far_history_size handle) (BitCount binary_far_spectrum) in
  Some (handle <| binary_far_history := h |> <| far_bit_counts := c |>).

(** ** The estimator *)

(** The outcomes of the allocations of the estimator's buffers. *)
Record Allocs := mkAllocs {
  a_far_history : option (list Z); a_far_counts : option (list Z);
  a_mean : option (list Z); a_bits : option (list Z); a_histogram : option (list float) }.

Definition WebRtc_AllocateHistoryBufferMemory (al : Allocs) (far : BinaryDelayEstimatorFarend)
    (self : BinaryDelayEstimator) (size : Z)
    : option (Z * BinaryDelayEstimatorFarend * BinaryDelayEstimator) :=
  let* (size, far) :=
    if negb (size =? far_history_size far)
    then WebRtc_AllocateFarendBufferMemory (a_far_history al) (a_far_counts al) far size
    else Some (size, far) in
  let mean := (fun fresh => realloc (mean_bit_counts self) fresh (size + 1)) <$> a_mean al in
  let bits := (fun fresh => realloc (bit_counts self) fresh size) <$> a_bits al in
  let hist := (fun fresh => realloc (histogram self) fresh (size + 1)) <$> a_histogram al in
  let size := match mean, bits, hist with Some _, Some _, Some _ => size | _, _, _ => 0 end in
  let self := self <| mean_bit_counts := default [] mean |> <| bit_counts := default [] bits |>
                   <| histogram := default [] hist |> in
  let* self :=
    if size >? history_size self then
      let size_diff := size - history_size self in
      let* m := memset (mean_bit_counts self) (history_size self) 0 size_diff in
      let* b := memset (bit_counts self) (history_size self) 0 size_diff in
      let* h := memset (histogram self) (history_size self) (f32_of_Z 0) size_diff in
      Some (self <| mean_bit_counts := m |> <| bit_counts := b |> <| histogram := h |>)
    else Some self in
  Some (size, far, self <| history_size := size |>).

(** [fresh] is the structure's memory as malloc leaves it, [malloc_near] the
    near-end history; the far-end pointer is [None] when NULL. *)
Definition WebRtc_CreateBinaryDelayEstimator (fresh : option BinaryDelayEstimator)
    (malloc_near : option (list Z)) (al : Allocs) (farend : option BinaryDelayEstimatorFarend)
    (max_lookahead : Z) : option (option BinaryDelayEstimator) :=
  match farend with
  | Some farend =>
      if max_lookahead >=? 0 then
        match fresh with
        | None => Some None
        | Some self =>
            let self := self <| near_history_size := i32 (max_lookahead + 1) |> <| history_size := 0 |>
              <| robust_validation_enabled := 0 |> <| allowed_offset := 0 |> <| lookahead := max_lookahead |>
              <| mean_bit_counts := [] |> <| bit_counts := [] |> <| histogram := [] |> in
            match malloc_near with
            | None => Some None
            | Some near =>
                let self := self <| binary_near_history := near |> in
                let* (n, _, self) :=
                  WebRtc_AllocateHistoryBufferMemory al farend self (far_history_size farend) in
                Some (if n =? 0 then None else Some self)
            end
        end
      else Some None
  | None => Some None
  end.

Definition WebRtc_InitBinaryDelayEstimator (self : BinaryDelayEstimator) : option BinaryDelayEstimator :=
  let* b := memset (bit_counts self) 0 0 (history_size self) in
  let* n := memset (binary_near_history self) 0 0 (near_history_size self) in
  let* m := memset (mean_bit_counts self) 0 (Z.shiftl 20 9) (history_size self + 1) in
  let* h := memset (histogram self) 0 (f32_of_Z 0) (history_size self + 1) in
  Some (self <| bit_counts := b |> <| binary_near_history := n |> <| mean_bit_counts := m |>
    <| histogram := h |> <| minimum_probability := kMaxBitCountsQ9 |>
    <| last_delay_probability := kMaxBitCountsQ9 |> <| last_delay := -2 |>
    <| last_candidate_delay := -2 |> <| compare_delay := history_size self |>
    <| candidate_hits := 0 |> <| last_delay_histogram := f32_of_Z 0 |>).

Definition WebRtc_SoftResetBinaryDelayEstimator (self : BinaryDelayEstimator) (delay_shift : Z)
    : Z * BinaryDelayEstimator :=
  let old := lookahead self in
  let self := self <| lookahead := i32 (lookahead self - delay_shift) |> in
  let self := if lookahead self <? 0 then self <| lookahead := 0 |> else self in
  let self := if lookahead self >? near_history_size self - 1
              then self <| lookahead := near_history_size self - 1 |> else self in
  (i32 (old - lookahead self), self).

(** *** WebRtc_ProcessBinarySpectrum, in the order of its body *)

Definition insert_near (self : BinaryDelayEstimator) (binary_near_spectrum : Z)
    : option (Z * BinaryDelayEstimator) :=
  if near_history_size self >? 1 then
    let* h := push_front (binary_near_history self) (near_history_size self) binary_near_spectrum in
    let self := self <| binary_near_history := h |> in
    let* x := aget h (lookahead self) in Some (x, self)
  else Some (binary_near_spectrum, self).

(** One turn of the smoothing loop, on [mean_bit_counts]. *)
Definition mean_step (far_bit_counts bit_counts : list Z) (i : Z) (mean : list Z) : option (list Z) :=
  let* b := aget bit_counts i in
  let bit_count := i32 (Z.shiftl b 9) in
  let* f := aget far_bit_counts i in
  if f >? 0 then
    let shifts := kShiftsAtZero - Z.shiftr (kShiftsLinearSlope * f) 4 in
    let* mv := aget mean i in
    aset mean i (WebRtc_MeanEstimatorFix bit_count shifts mv)
  else Some mean.

(** The search, on [(candidate_delay, value_best_candidate, value_worst_candidate)]. *)
Definition candidate_step (mean : list Z) (i : Z) (s : Z * Z * Z) : option (Z * Z * Z) :=
  let '(candidate_delay, best, worst) := s in
  let* mv := aget mean i in
  let '(candidate_delay, best) := if mv <? best then (i, mv) else (candidate_delay, best) in
  let worst := if mv >? worst then mv else worst in
  Some (candidate_delay, best, worst).

Definition update_minimum_probability (self : BinaryDelayEstimator) (valley_depth best : Z)
    : BinaryDelayEstimator :=
  if (minimum_probability self >? kProbabilityLowerLimit) && (valley_depth >? kProbabilityMinSpread) then
    let threshold := i32 (best + kProbabilityOffset) in
    let threshold := if threshold <? kProbabilityLowerLimit then kProbabilityLowerLimit else threshold in
    if minimum_probability self >? threshold then self <| minimum_probability := threshold |> else self
  else self.

(** The update under [if (valid_candidate)]. *)
Definition accept_candidate (self : BinaryDelayEstimator) (candidate_delay best : Z)
    : option BinaryDelayEstimator :=
  let* self :=
    if negb (candidate_delay =? last_delay self) then
      let* h := aget (histogram self) candidate_delay in
      let self := self <| last_delay_histogram :=
        if fgt h kLastHistogramMax then kLastHistogramMax else h |> in
      let* hc := aget (histogram self) (compare_delay self) in
      if flt h hc then
        let* hist := aset (histogram self) (compare_delay self) h in
        Some (self <| histogram := hist |>)
      else Some self
    else Some self in
  let self := self <| last_delay := candidate_delay |> in
  let self := if best <? last_delay_probability self
              then self <| last_delay_probability := best |> else self in
  Some (self <| compare_delay := last_delay self |>).

Definition WebRtc_ProcessBinarySpectrum (far : BinaryDelayEstimatorFarend) (self : BinaryDelayEstimator)
    (binary_near_spectrum : Z) : option (Z * BinaryDelayEstimator) :=
  if negb (far_history_size far =? history_size self) then Some (-1, self)
  else
    let* (spectrum, self) := insert_near self binary_near_spectrum in
    let* bits := BitCountComparison spectrum (binary_far_history far) (history_size self) (bit_counts self) in
    let self := self <| bit_counts := bits |> in
    let* mean := for_loop (mean_step (far_bit_counts far) bits) 0 (Z.to_nat (history_size self))
                   (mean_bit_counts self) in
    let self := self <| mean_bit_counts := mean |> in
    let* (candidate_delay, best, worst) :=
      for_loop (candidate_step mean) 0 (Z.to_nat (history_size self)) (-1, kMaxBitCountsQ9, 0) in
    let valley_depth := i32 (worst - best) in
    let self := update_minimum_probability self valley_depth best in
    let self := self <| last_delay_probability := i32 (last_delay_probability self + 1) |> in
    let valid_candidate := (valley_depth >? kProbabilityOffset) &&
      ((best <? minimum_probability self) || (best <? last_delay_probability self)) in
    let* self := UpdateRobustValidationStatistics far self candidate_delay valley_depth best in
    let* valid_candidate :=
      if negb (robust_validation_enabled self =? 0) then
        let* is_histogram_valid := HistogramBasedValidation self candidate_delay in
        RobustValidation self candidate_delay valid_candidate is_histogram_valid
      else Some valid_candidate in
    let* self := if valid_candidate : bool then accept_candidate self candidate_delay best else Some self in
    Some (last_delay self, self).

Definition WebRtc_binary_last_delay (self : BinaryDelayEstimator) : Z := last_delay self.

Definition WebRtc_binary_last_delay_quality (self : BinaryDelayEstimator) : option float :=
  if negb (robust_validation_enabled self =? 0) then
    let* h := aget (histogram self) (compare_delay self) in Some (f32_div h kHistogramMax)
  else
    let quality := f32_div (f32_of_Z (i32 (kMaxBitCountsQ9 - last_delay_probability self)))
                     (f32_of_Z kMaxBitCountsQ9) in
    Some (if flt quality (f32_of_Z 0) then f32_of_Z 0 else quality).

End DelayEst.

Module DelayEstSpec.
Import DelayEst.

(** ** The bit count *)

(** Number of one bits among the lowest [n]. *)
Definition popcount (n : nat) (x : Z) : Z := zsum (fun i => Z.b2z (Z.testbit x i)) 0 n.

(** A word as an octal digit and the rest. *)
Lemma testbit_digit d v i : 0 <= d < 8 -> 0 <= i ->
  Z.testbit (d + 8 * v) i = if i <? 3 then Z.testbit d i else Z.testbit v (i - 3).
Proof.
  intros Hd Hi. destruct (Z.ltb_spec i 3).
  - rewrite <- (Z.mod_pow2_bits_low (d + 8 * v) 3 i) by lia. do 2 f_equal. change (2 ^ 3) with 8. dlia.
  - replace (Z.testbit (d + 8 * v) i) with (Z.testbit ((d + 8 * v) / 2 ^ 3) (i - 3)).
    + do 2 f_equal. change (2 ^ 3) with 8. dlia.
    + rewrite Z.div_pow2_bits by lia. f_equal. lia.
Qed.

Lemma land_digit_range a b : 0 <= a < 8 -> 0 <= b -> 0 <= Z.land a b < 8.
Proof.
  intros Ha Hb. replace a with (Z.land a (Z.ones 3)) by (rewrite Z.land_ones, Z.mod_small; lia).
  rewrite <- Z.land_assoc, (Z.land_comm (Z.ones 3)), Z.land_assoc, Z.land_ones by lia.
  apply Z.mod_pos_bound. lia.
Qed.

Lemma land_digit a b x y : 0 <= a < 8 -> 0 <= b < 8 ->
  Z.land (a + 8 * x) (b + 8 * y) = Z.land a b + 8 * Z.land x y.
Proof.
  intros Ha Hb. apply Z.bits_inj'. intros i Hi. pose proof (land_digit_range a b Ha ltac:(lia)).
  rewrite Z.land_spec, !testbit_digit by lia. destruct (Z.ltb_spec i 3); by rewrite Z.land_spec.
Qed.

Lemma popcount_digit n d v : 0 <= d < 8 -> popcount (3 + n) (d + 8 * v) = popcount 3 d + popcount n v.
Proof.
  intros Hd. unfold popcount. cbn [zsum Nat.add]. rewrite !testbit_digit by lia. simpl (_ <? _). cbv iota.
  rewrite !Z.add_0_r, <- !Z.add_assoc. do 3 f_equal. change (0 + (1 + (1 + 1))) with 3.
  enough (G : forall lo, 0 <= lo -> zsum (fun i => Z.b2z (Z.testbit (d + 8 * v) i)) (lo + 3) n =
                zsum (fun i => Z.b2z (Z.testbit v i)) lo n) by apply (G 0 ltac:(lia)).
  induction n as [|n IH]; intros lo Hlo; cbn [zsum]; [done|].
  replace (lo + 3 + 1) with (lo + 1 + 3) by lia. rewrite IH, testbit_digit by lia.
  destruct (Z.ltb_spec (lo + 3) 3); [lia|]. by replace (lo + 3 - 3) with lo by lia.
Qed.

(** The first line of [BitCount] on one octal digit. *)
Lemma popcount_octal d : 0 <= d < 8 -> d - Z.land (d / 2) 3 - Z.land (d / 4) 1 = popcount 3 d /\ 0 <= popcount 3 d <= 3.
Proof.
  intros Hd. assert (C : all_from (fun d => (d - Z.land (d / 2) 3 - Z.land (d / 4) 1 =? popcount 3 d)
    && (0 <=? popcount 3 d) && (popcount 3 d <=? 3)) 0 8 = true) by reflexivity.
  pose proof (all_from_spec _ _ _ C d ltac:(lia)) as H. cbv beta in H. breflect. lia.
Qed.

Lemma octal_line1 d v M N : 0 <= d < 8 -> 0 <= v ->
  d + 8 * v - Z.land (Z.shiftr (d + 8 * v) 1) (3 + 8 * M) - Z.land (Z.shiftr (d + 8 * v) 2) (1 + 8 * N) =
  popcount 3 d + 8 * (v - Z.land (Z.shiftr v 1) M - Z.land (Z.shiftr v 2) N).
Proof.
  intros Hd Hv. rewrite !Z.shiftr_div_pow2 by lia. change (2 ^ 1) with 2. change (2 ^ 2) with 4.
  replace ((d + 8 * v) / 2) with ((d / 2 + 4 * (v mod 2)) + 8 * (v / 2)) by dlia.
  replace ((d + 8 * v) / 4) with ((d / 4 + 2 * (v mod 4)) + 8 * (v / 4)) by dlia.
  rewrite !land_digit by dlia.
  assert (E1 : Z.land (d / 2 + 4 * (v mod 2)) 3 = Z.land (d / 2) 3).
  { change 3 with (Z.ones 2). rewrite !Z.land_ones by lia. change (2 ^ 2) with 4. dlia. }
  assert (E2 : Z.land (d / 4 + 2 * (v mod 4)) 1 = Z.land (d / 4) 1).
  { change 1 with (Z.ones 1). rewrite !Z.land_ones by lia. change (2 ^ 1) with 2. dlia. }
  rewrite E1, E2. destruct (popcount_octal d Hd) as [<- _]. lia.
Qed.

(** Horner form of the eleven octal digits of a 32-bit word. *)
Definition horner (p0 p1 p2 p3 p4 p5 p6 p7 p8 p9 p10 : Z) : Z :=
  p0 + 8 * (p1 + 8 * (p2 + 8 * (p3 + 8 * (p4 + 8 * (p5 + 8 * (p6 + 8 * (p7 + 8 * (p8 + 8 * (p9 + 8 * p10))))))))).

(** The mask of the second line keeps the even digits. *)
Lemma octal_mask q0 q1 q2 q3 q4 q5 q6 q7 q8 q9 q10 :
  0 <= q0 < 8 -> 0 <= q1 < 8 -> 0 <= q2 < 8 -> 0 <= q3 < 8 -> 0 <= q4 < 8 -> 0 <= q5 < 8 ->
  0 <= q6 < 8 -> 0 <= q7 < 8 -> 0 <= q8 < 8 -> 0 <= q9 < 8 -> 0 <= q10 < 4 ->
  Z.land (horner q0 q1 q2 q3 q4 q5 q6 q7 q8 q9 q10) 3340530119 =
  q0 + 64 * (q2 + 64 * (q4 + 64 * (q6 + 64 * (q8 + 64 * q10)))).
Proof.
  intros. change 3340530119 with (horner 7 0 7 0 7 0 7 0 7 0 3). unfold horner. rewrite !land_digit by lia.
  rewrite !Z.land_0_r. change 7 with (Z.ones 3). rewrite !Z.land_ones by lia.
  replace (Z.land q10 3) with (q10 mod 2 ^ 2) by (rewrite <- Z.land_ones; [done|lia]).
  change (2 ^ 3) with 8. change (2 ^ 2) with 4. rewrite !Z.mod_small by lia. lia.
Qed.

(** The remaining lines of [BitCount] add up the digits. *)
Lemma octal_sum p0 p1 p2 p3 p4 p5 p6 p7 p8 p9 p10 :
  0 <= p0 <= 3 -> 0 <= p1 <= 3 -> 0 <= p2 <= 3 -> 0 <= p3 <= 3 -> 0 <= p4 <= 3 -> 0 <= p5 <= 3 ->
  0 <= p6 <= 3 -> 0 <= p7 <= 3 -> 0 <= p8 <= 3 -> 0 <= p9 <= 3 -> 0 <= p10 <= 2 ->
  let tmp := horner p0 p1 p2 p3 p4 p5 p6 p7 p8 p9 p10 in
  let tmp2 := Z.land (u32 (tmp + Z.shiftr tmp 3)) 3340530119 in
  let tmp3 := u32 (tmp2 + Z.shiftr tmp2 6) in
  Z.land (u32 (u32 (tmp3 + Z.shiftr tmp3 12) + Z.shiftr tmp3 24)) 63 =
  p0 + p1 + p2 + p3 + p4 + p5 + p6 + p7 + p8 + p9 + p10.
Proof.
  intros. unfold tmp3, tmp2, tmp. clear tmp tmp2 tmp3. rewrite !Z.shiftr_div_pow2 by lia.
  change (2 ^ 3) with 8. change (2 ^ 6) with 64. change (2 ^ 12) with 4096. change (2 ^ 24) with 16777216.
  replace (u32 (horner p0 p1 p2 p3 p4 p5 p6 p7 p8 p9 p10 + horner p0 p1 p2 p3 p4 p5 p6 p7 p8 p9 p10 / 8))
    with (horner (p0 + p1) (p1 + p2) (p2 + p3) (p3 + p4) (p4 + p5) (p5 + p6) (p6 + p7) (p7 + p8) (p8 + p9) (p9 + p10) p10).
  2:{ replace (horner p0 p1 p2 p3 p4 p5 p6 p7 p8 p9 p10 / 8) with (horner p1 p2 p3 p4 p5 p6 p7 p8 p9 p10 0)
        by (unfold horner; dlia).
      unfold horner. rewrite u32_id by (unfold in_u32; lia). lia. }
  rewrite octal_mask by lia. change 63 with (Z.ones 6). rewrite Z.land_ones by lia. change (2 ^ 6) with 64.
  match goal with |- context [u32 (?t + ?t / 64)] => set (x := t);
    assert (E : x / 64 = p2 + p3 + 64 * (p4 + p5 + 64 * (p6 + p7 + 64 * (p8 + p9 + 64 * p10))))
      by (subst x; dlia); rewrite E; subst x end.
  rewrite (u32_id (p0 + p1 + 64 * _ + _)) by (unfold in_u32; lia).
  match goal with |- context [u32 (?t + ?t / 4096)] => set (x := t);
    assert (E1 : x / 4096 = p4 + p5 + (p6 + p7) + 64 * (p6 + p7 + (p8 + p9) + 64 * (p8 + p9 + p10 + 64 * p10)))
      by (subst x; dlia);
    assert (E2 : x / 16777216 = p8 + p9 + p10 + 64 * p10) by (subst x; dlia);
    rewrite E1, E2; subst x end.
  rewrite (u32_id (_ + (p4 + p5 + (p6 + p7) + _))) by (unfold in_u32; lia).
  rewrite u32_id by (unfold in_u32; lia). dlia.
Qed.

Lemma BitCount_popcount x : in_u32 x -> BitCount x = popcount 32 x.
Proof.
  intros Hx. unfold in_u32 in Hx.
  assert (D : exists d0 d1 d2 d3 d4 d5 d6 d7 d8 d9 d10, x = horner d0 d1 d2 d3 d4 d5 d6 d7 d8 d9 d10 /\
    0 <= d0 < 8 /\ 0 <= d1 < 8 /\ 0 <= d2 < 8 /\ 0 <= d3 < 8 /\ 0 <= d4 < 8 /\ 0 <= d5 < 8 /\
    0 <= d6 < 8 /\ 0 <= d7 < 8 /\ 0 <= d8 < 8 /\ 0 <= d9 < 8 /\ 0 <= d10 < 4).
  { exists (x mod 8), (x / 8 mod 8), (x / 64 mod 8), (x / 512 mod 8), (x / 4096 mod 8), (x / 32768 mod 8),
      (x / 262144 mod 8), (x / 2097152 mod 8), (x / 16777216 mod 8), (x / 134217728 mod 8), (x / 1073741824).
    unfold horner. split_and!; dlia. }
  destruct D as (d0 & d1 & d2 & d3 & d4 & d5 & d6 & d7 & d8 & d9 & d10 & -> & ? & ? & ? & ? & ? & ? & ? & ? & ? & ? & ?).
  assert (Htop : d10 - Z.land (Z.shiftr d10 1) 3 - Z.land (Z.shiftr d10 2) 1 = popcount 2 d10 /\ 0 <= popcount 2 d10 <= 2).
  { assert (C : all_from (fun d => (d - Z.land (Z.shiftr d 1) 3 - Z.land (Z.shiftr d 2) 1 =? popcount 2 d)
      && (0 <=? popcount 2 d) && (popcount 2 d <=? 2)) 0 4 = true) by reflexivity.
    pose proof (all_from_spec _ _ _ C d10 ltac:(lia)) as C'. cbv beta in C'. breflect. lia. }
  unfold BitCount. set (X := horner d0 d1 d2 d3 d4 d5 d6 d7 d8 d9 d10) in *.
  assert (L1 : X - Z.land (Z.shiftr X 1) 3681400539 - Z.land (Z.shiftr X 2) 1227133513 =
    horner (popcount 3 d0) (popcount 3 d1) (popcount 3 d2) (popcount 3 d3) (popcount 3 d4) (popcount 3 d5)
      (popcount 3 d6) (popcount 3 d7) (popcount 3 d8) (popcount 3 d9) (popcount 2 d10)).
  { change 3681400539 with (horner 3 3 3 3 3 3 3 3 3 3 3). change 1227133513 with (horner 1 1 1 1 1 1 1 1 1 1 1).
    subst X. unfold horner. rewrite !octal_line1 by lia. destruct Htop as [-> _]. done. }
  pose proof (popcount_octal d0) as [_ ?]; [lia|]. pose proof (popcount_octal d1) as [_ ?]; [lia|].
  pose proof (popcount_octal d2) as [_ ?]; [lia|]. pose proof (popcount_octal d3) as [_ ?]; [lia|].
  pose proof (popcount_octal d4) as [_ ?]; [lia|]. pose proof (popcount_octal d5) as [_ ?]; [lia|].
  pose proof (popcount_octal d6) as [_ ?]; [lia|]. pose proof (popcount_octal d7) as [_ ?]; [lia|].
  pose proof (popcount_octal d8) as [_ ?]; [lia|]. pose proof (popcount_octal d9) as [_ ?]; [lia|].
  assert (HX : 0 <= Z.land (Z.shiftr X 1) 3681400539 /\ 0 <= Z.land (Z.shiftr X 2) 1227133513)
    by (split; apply Z.land_nonneg; lia).
  assert (0 <= X - Z.land (Z.shiftr X 1) 3681400539 - Z.land (Z.shiftr X 2) 1227133513)
    by (rewrite L1; unfold horner; lia).
  rewrite (u32_id (X - _)), (u32_id (X - _ - _)) by (unfold in_u32; lia). rewrite L1.
  rewrite octal_sum by lia. subst X. unfold horner.
  rewrite (popcount_digit 29), (popcount_digit 26), (popcount_digit 23), (popcount_digit 20), (popcount_digit 17),
    (popcount_digit 14), (popcount_digit 11), (popcount_digit 8), (popcount_digit 5), (popcount_digit 2) by lia. lia.
Qed.

Lemma popcount_range n x : 0 <= popcount n x <= Z.of_nat n.
Proof.
  unfold popcount.
  enough (G : forall lo, 0 <= zsum (fun i => Z.b2z (Z.testbit x i)) lo n <= Z.of_nat n) by apply G.
  induction n as [|n IH]; intros lo; cbn [zsum]; [lia|].
  specialize (IH (lo + 1)). destruct (Z.testbit x lo); cbn [Z.b2z]; lia.
Qed.

(** ** Smoothing *)

(** [WebRtc_MeanEstimatorFix] moves the mean towards the new value by the
    difference divided by [2^factor], rounded towards zero. *)
Lemma MeanEstimatorFix_quot v factor mean : 0 <= v <= 2147483647 -> 0 <= mean <= 2147483647 -> 0 <= factor ->
  WebRtc_MeanEstimatorFix v factor mean = mean + Z.quot (v - mean) (2 ^ factor).
Proof.
  intros Hv Hm Hf. unfold WebRtc_MeanEstimatorFix. rewrite (i32_id (v - mean)) by rng.
  assert (Hp : 0 < 2 ^ factor) by (apply Z.pow_pos_nonneg; lia).
  destruct (Z.ltb_spec (v - mean) 0) as [Hneg|Hpos].
  - rewrite (i32_id (- (v - mean))), Z.shiftr_div_pow2 by rng.
    assert (E : Z.quot (v - mean) (2 ^ factor) = - (- (v - mean) / 2 ^ factor)).
    { rewrite <- Z.quot_div_nonneg, Z.quot_opp_l by lia. lia. }
    rewrite E. pose proof (Z.div_pos (- (v - mean)) (2 ^ factor)).
    pose proof (Z.div_le_upper_bound (- (v - mean)) (2 ^ factor) (- (v - mean)) Hp ltac:(nia)).
    rewrite (i32_id (- (_ / _))), i32_id by rng. lia.
  - rewrite Z.shiftr_div_pow2, Z.quot_div_nonneg by lia.
    pose proof (Z.div_pos (v - mean) (2 ^ factor)).
    pose proof (Z.div_le_upper_bound (v - mean) (2 ^ factor) (v - mean) Hp ltac:(nia)).
    rewrite i32_id by rng. lia.
Qed.

Lemma MeanEstimatorFix_range v factor mean : 0 <= v <= 16384 -> 0 <= mean < 16384 -> 0 < factor ->
  0 <= WebRtc_MeanEstimatorFix v factor mean < 16384.
Proof.
  intros Hv Hm Hf. rewrite MeanEstimatorFix_quot by lia.
  assert (2 <= 2 ^ factor) by (change 2 with (2 ^ 1) at 1; apply Z.pow_le_mono_r; lia).
  pose proof (Z.quot_pos (v - mean) (2 ^ factor)) as Hp1. pose proof (Z.quot_pos (- (v - mean)) (2 ^ factor)) as Hp2.
  rewrite Z.quot_opp_l in Hp2 by lia.
  assert (2 * Z.abs (Z.quot (v - mean) (2 ^ factor)) <= Z.abs (v - mean)); [|lia].
  rewrite <- Z.quot_abs, Z.quot_div_nonneg by lia. rewrite (Z.abs_eq (2 ^ factor)) by lia.
  pose proof (Z.mul_div_le (Z.abs (v - mean)) (2 ^ factor) ltac:(lia)).
  pose proof (Z.div_pos (Z.abs (v - mean)) (2 ^ factor)). nia.
Qed.

Lemma MeanEstimatorFix_between v factor mean : 0 <= v <= 2147483647 -> 0 <= mean <= 2147483647 -> 0 <= factor ->
  Z.min v mean <= WebRtc_MeanEstimatorFix v factor mean <= Z.max v mean.
Proof.
  intros Hv Hm Hf. rewrite MeanEstimatorFix_quot by done.
  assert (Hp : 0 < 2 ^ factor) by (apply Z.pow_pos_nonneg; lia).
  pose proof (Z.quot_pos (v - mean) (2 ^ factor)) as Hp1. pose proof (Z.quot_pos (- (v - mean)) (2 ^ factor)) as Hp2.
  rewrite Z.quot_opp_l in Hp2 by lia.
  assert (Z.abs (Z.quot (v - mean) (2 ^ factor)) <= Z.abs (v - mean)); [|lia].
  rewrite <- Z.quot_abs, Z.quot_div_nonneg, (Z.abs_eq (2 ^ factor)) by lia. apply Z.div_le_upper_bound; nia.
Qed.

(** ** The far-end history *)

Lemma push_front_cons buf size x : zlen buf = size -> 1 <= size ->
  push_front buf size x = Some (x :: take (Z.to_nat (size - 1)) buf).
Proof.
  intros Hl Hs. unfold push_front. rewrite memcpy_Some by lia. simpl.
  assert (zlen (slice buf 0 (size - 1)) = size - 1) by (apply length_slice; lia).
  assert (length (splice buf 1 (slice buf 0 (size - 1))) = length buf) by (apply length_splice; lia).
  rewrite aset_Some by lia. f_equal. destruct buf as [|b buf]; [simpl in Hl; lia|].
  unfold splice. simpl (take (Z.to_nat 1) _). simpl (_ ++ _). change (Z.to_nat 0) with 0%nat. simpl. f_equal.
  unfold slice. rewrite drop_0. rewrite drop_ge, app_nil_r; [done|].
  unfold slice in *. simpl in *. lia.
Qed.

(** The entries of a shifted history. *)
Lemma znth_push x m l i : 0 < i <= m -> znth (x :: take (Z.to_nat m) l) i = znth l (i - 1).
Proof.
  intros Hi. unfold znth, aget. destruct (Z.leb_spec 0 i), (Z.leb_spec 0 (i - 1)); try lia.
  replace (Z.to_nat i) with (S (Z.to_nat (i - 1))) by lia. simpl. by rewrite lookup_take_lt by lia.
Qed.

(** The far-end structure: both histories have [far_history_size] entries and
    every count is the bit count of its spectrum. *)
Record far_wf (far : BinaryDelayEstimatorFarend) : Prop := mkFarWf {
  far_size : 1 < far_history_size far <= 1048576;
  far_history_len : zlen (binary_far_history far) = far_history_size far;
  far_history_u32 : Forall in_u32 (binary_far_history far);
  far_counts : far_bit_counts far = popcount 32 <$> binary_far_history far }.

Lemma far_count_at far i : far_wf far -> 0 <= i < far_history_size far ->
  exists h, aget (binary_far_history far) i = Some h /\ in_u32 h /\
    aget (far_bit_counts far) i = Some (popcount 32 h).
Proof.
  intros [Hs Hl Hu Hc] Hi. destruct (aget_range (binary_far_history far) i ltac:(lia)) as [h Hh].
  exists h. split_and!; [done|by eapply Forall_aget|]. rewrite Hc. unfold aget in *.
  destruct (0 <=? i); [|done]. by rewrite list_lookup_fmap, Hh.
Qed.

Lemma AddBinaryFarSpectrum_wf far x : far_wf far -> in_u32 x ->
  WebRtc_AddBinaryFarSpectrum far x =
    Some (mkFarend (popcount 32 x :: take (Z.to_nat (far_history_size far - 1)) (far_bit_counts far))
            (x :: take (Z.to_nat (far_history_size far - 1)) (binary_far_history far)) (far_history_size far)) /\
  far_wf (mkFarend (popcount 32 x :: take (Z.to_nat (far_history_size far - 1)) (far_bit_counts far))
            (x :: take (Z.to_nat (far_history_size far - 1)) (binary_far_history far)) (far_history_size far)).
Proof.
  intros Hw Hx. pose proof Hw as [Hs Hl Hu Hc]. unfold WebRtc_AddBinaryFarSpectrum.
  rewrite (push_front_cons (binary_far_history far)) by lia. simpl.
  rewrite (push_front_cons (far_bit_counts far)) by (rewrite ?Hc, ?length_fmap; lia). simpl.
  rewrite BitCount_popcount by done. split; [by destruct far|].
  constructor; simpl; [lia| | |].
  - rewrite length_take. lia.
  - constructor; [done|]. by apply Forall_take.
  - by rewrite Hc, <- fmap_take.
Qed.

(** ** The estimator *)

(** The sizes the allocation gives; [n] is the history size. *)
Record est_shape (n : Z) (self : BinaryDelayEstimator) : Prop := mkShape {
  sh_size : history_size self = n;
  sh_pos : 1 < n <= 1048576;
  sh_mean : zlen (mean_bit_counts self) = n + 1;
  sh_bits : zlen (bit_counts self) = n;
  sh_hist : zlen (histogram self) = n + 1;
  sh_near : zlen (binary_near_history self) = near_history_size self;
  sh_near_pos : 1 <= near_history_size self;
  sh_lookahead : 0 <= lookahead self < near_history_size self }.

(** The invariant of an initialised estimator. *)
Record est_wf (n : Z) (self : BinaryDelayEstimator) : Prop := mkEstWf {
  wf_shape : est_shape n self;
  wf_mean : Forall (fun m => 0 <= m < 16384) (mean_bit_counts self);
  wf_near : Forall in_u32 (binary_near_history self);
  wf_min : 8704 <= minimum_probability self <= 16384;
  wf_delay : last_delay self = -2 /\ compare_delay self = n \/
             0 <= last_delay self < n /\ compare_delay self = last_delay self }.

Lemma compare_delay_range n self : est_wf n self -> 0 <= compare_delay self <= n.
Proof. intros [Hs _ _ _ Hd]. pose proof (sh_pos _ _ Hs). lia. Qed.

Lemma Init_wf n self : est_shape n self ->
  exists self', WebRtc_InitBinaryDelayEstimator self = Some self' /\ est_wf n self' /\
    last_delay self' = -2 /\ mean_bit_counts self' = zreplicate (n + 1) 10240 /\
    robust_validation_enabled self' = robust_validation_enabled self /\
    near_history_size self' = near_history_size self.
Proof.
  intros [Hs Hp Hm Hb Hh Hn Hn1 Hl]. unfold WebRtc_InitBinaryDelayEstimator.
  rewrite !memset_all by lia. simpl. eexists. split; [done|]. rewrite Hs. split_and!; try done.
  constructor; simpl; [|apply Forall_replicate; change (Z.shiftl 20 9) with 10240; lia|apply Forall_replicate; unfold in_u32; lia|done|left; done].
  constructor; simpl; try lia; unfold zreplicate; rewrite length_replicate; lia.
Qed.

(** The spectrum compared with the far-end history: the current one, or the
    one [lookahead] blocks old. *)
Definition near_at (self : BinaryDelayEstimator) (x : Z) : Z :=
  if lookahead self =? 0 then x else znth (binary_near_history self) (lookahead self - 1).

(** The near-end history after a block; it is kept for a lookahead only. *)
Definition near_pushed (self : BinaryDelayEstimator) (x : Z) : list Z :=
  if near_history_size self >? 1
  then x :: take (Z.to_nat (near_history_size self - 1)) (binary_near_history self)
  else binary_near_history self.

Lemma insert_near_ok n self x : est_wf n self -> in_u32 x ->
  insert_near self x = Some (near_at self x, self <| binary_near_history := near_pushed self x |>) /\
    zlen (near_pushed self x) = near_history_size self /\ Forall in_u32 (near_pushed self x) /\
    in_u32 (near_at self x).
Proof.
  intros [[Hs Hp Hm Hb Hh Hn Hn1 Hl] _ Hu _ _] Hx. unfold insert_near, near_at, near_pushed.
  destruct (Z.gtb_spec (near_history_size self) 1).
  - rewrite push_front_cons by lia. simpl. set (h := x :: _).
    assert (Hlen : zlen h = near_history_size self) by (subst h; simpl; rewrite length_take; lia).
    assert (Hh' : Forall in_u32 h) by (constructor; [done|by apply Forall_take]).
    assert (Ha : aget h (lookahead self) = Some (if lookahead self =? 0 then x
              else znth (binary_near_history self) (lookahead self - 1))).
    { subst h. destruct (Z.eqb_spec (lookahead self) 0) as [->|]; [done|].
      rewrite <- aget_znth by lia. unfold aget. destruct (Z.leb_spec 0 (lookahead self)); [|lia].
      destruct (Z.leb_spec 0 (lookahead self - 1)); [|lia].
      replace (Z.to_nat (lookahead self)) with (S (Z.to_nat (lookahead self - 1))) by lia.
      simpl. apply lookup_take_lt. lia. }
    rewrite Ha. simpl. split_and!; [done|done|done|by apply (Forall_aget _ _ _ _ Hh' Ha)].
  - destruct (Z.eqb_spec (lookahead self) 0); [|lia].
    split_and!; [by destruct self|lia|done|done].
Qed.

Lemma lxor_u32 x y : in_u32 x -> in_u32 y -> in_u32 (Z.lxor x y).
Proof.
  unfold in_u32. intros Hx Hy. assert (0 <= Z.lxor x y) by (apply Z.lxor_nonneg; lia). split; [done|].
  destruct (Z.eqb_spec (Z.lxor x y) 0) as [->|]; [lia|]. enough (Z.lxor x y < 2 ^ 32) by lia.
  apply Z.log2_lt_pow2; [lia|]. pose proof (Z.log2_lxor x y ltac:(lia) ltac:(lia)).
  assert (forall z, 0 <= z <= 4294967295 -> Z.log2 z <= 31) as Hlog; [|pose proof (Hlog x Hx); pose proof (Hlog y Hy); lia].
  intros z Hz. change 31 with (Z.log2 4294967295). apply Z.log2_le_mono. lia.
Qed.

Lemma BitCountComparison_ok x far bits : far_wf far -> in_u32 x -> zlen bits = far_history_size far ->
  BitCountComparison x (binary_far_history far) (far_history_size far) bits =
  Some (tab (fun i => popcount 32 (Z.lxor x (znth (binary_far_history far) i))) (far_history_size far)).
Proof.
  intros Hw Hx Hb. pose proof (far_size _ Hw). unfold BitCountComparison.
  rewrite (fill_loop _ (fun i => popcount 32 (Z.lxor x (znth (binary_far_history far) i)))); [|lia|].
  - by rewrite drop_ge, app_nil_r by lia.
  - intros i l Hi _ _. destruct (far_count_at far i Hw Hi) as (h & Hh & Hu & _).
    rewrite (znth_aget _ _ _ Hh), Hh. simpl. rewrite BitCount_popcount; [done|by apply lxor_u32].
Qed.

(** The smoothed counts after a block. *)
Definition smoothed (far : BinaryDelayEstimatorFarend) (mean : list Z) (x i : Z) : Z :=
  let f := znth (far_bit_counts far) i in
  if f >? 0 then
    WebRtc_MeanEstimatorFix (popcount 32 (Z.lxor x (znth (binary_far_history far) i)) * 512)
      (13 - (3 * f) / 16) (znth mean i)
  else znth mean i.

Definition means (far : BinaryDelayEstimatorFarend) (mean : list Z) (x : Z) : list Z :=
  tab (smoothed far mean x) (far_history_size far) ++ drop (Z.to_nat (far_history_size far)) mean.

Lemma mean_loop_ok far x mean : far_wf far -> zlen mean = far_history_size far + 1 ->
  for_loop (mean_step (far_bit_counts far)
      (tab (fun i => popcount 32 (Z.lxor x (znth (binary_far_history far) i))) (far_history_size far)))
    0 (Z.to_nat (far_history_size far)) mean = Some (means far mean x).
Proof.
  intros Hw Hm. pose proof (far_size _ Hw). apply fill_loop; [lia|]. intros i l Hi Hl Hrest.
  destruct (far_count_at far i Hw Hi) as (h & Hh & _ & Hc). unfold mean_step, smoothed.
  rewrite aget_tab by lia. simpl. rewrite Hc, (znth_aget _ _ _ Hc). simpl.
  assert (Hmi : aget l i = Some (znth mean i)) by (rewrite Hrest by lia; apply aget_znth; lia).
  destruct (popcount 32 h >? 0) eqn:E; [|by rewrite aset_self].
  rewrite Hmi. simpl. rewrite Z.shiftl_mul_pow2, Z.shiftr_div_pow2 by lia.
  pose proof (popcount_range 32 (Z.lxor x (znth (binary_far_history far) i))).
  rewrite i32_id by (unfold in_i32; lia). done.
Qed.

Lemma smoothed_range far mean x i : far_wf far -> Forall (fun m => 0 <= m < 16384) mean ->
  zlen mean = far_history_size far + 1 -> 0 <= i < far_history_size far -> 0 <= smoothed far mean x i < 16384.
Proof.
  intros Hw Hm Hl Hi. unfold smoothed.
  destruct (far_count_at far i Hw Hi) as (h & _ & _ & Hc). rewrite (znth_aget _ _ _ Hc).
  pose proof (popcount_range 32 h). pose proof (popcount_range 32 (Z.lxor x (znth (binary_far_history far) i))).
  pose proof (Forall_aget _ _ _ _ Hm (aget_znth mean i ltac:(lia))) as Hmi. simpl in Hmi.
  destruct (popcount 32 h >? 0); [|done]. apply MeanEstimatorFix_range; [lia|done|]. dlia.
Qed.

Lemma means_ok far mean x : far_wf far -> Forall (fun m => 0 <= m < 16384) mean ->
  zlen mean = far_history_size far + 1 ->
  zlen (means far mean x) = far_history_size far + 1 /\ Forall (fun m => 0 <= m < 16384) (means far mean x).
Proof.
  intros Hw Hm Hl. pose proof (far_size _ Hw). unfold means. split.
  - rewrite length_app, length_drop. pose proof (length_tab (smoothed far mean x) (far_history_size far)). lia.
  - apply Forall_app_2; [|by apply Forall_drop]. apply Forall_tab. intros i Hi. by apply smoothed_range.
Qed.

(** [c] is the first of the delays [0 .. n-1] with the smallest value, [b]. *)
Definition first_min (mean : list Z) (n c b : Z) : Prop :=
  0 <= c < n /\ aget mean c = Some b /\ (forall j, 0 <= j < n -> b <= znth mean j) /\
  (forall j, 0 <= j < c -> b < znth mean j).

Definition is_max (mean : list Z) (n w : Z) : Prop :=
  (exists j, 0 <= j < n /\ znth mean j = w) /\ forall j, 0 <= j < n -> znth mean j <= w.

Lemma first_min_step mean i c b : 0 <= i < zlen mean -> znth mean i < 16384 ->
  i = 0 /\ b = 16384 \/ first_min mean i c b ->
  first_min mean (i + 1) (if znth mean i <? b then i else c) (if znth mean i <? b then znth mean i else b).
Proof.
  intros Hi Hlt [[-> ->]|(Hc & Hcb & Hmin & Hfst)].
  - destruct (Z.ltb_spec (znth mean 0) 16384); [|lia]. split_and!; [lia|lia|apply aget_znth; lia| |lia].
    intros j Hj. replace j with 0 by lia. lia.
  - destruct (Z.ltb_spec (znth mean i) b).
    + split_and!; [lia|lia|apply aget_znth; lia| |].
      * intros j Hj. destruct (Z.eqb_spec j i) as [->|]; [lia|]. specialize (Hmin j). lia.
      * intros j Hj. specialize (Hmin j). lia.
    + split_and!; [lia|lia|done| |done].
      intros j Hj. destruct (Z.eqb_spec j i) as [->|]; [lia|]. specialize (Hmin j). lia.
Qed.

Lemma is_max_step mean i w : 0 <= znth mean i ->
  i = 0 /\ w = 0 \/ 0 < i /\ is_max mean i w -> is_max mean (i + 1) (if znth mean i >? w then znth mean i else w).
Proof.
  intros Hpos [[-> ->]|(Hi & (j0 & Hj0 & E0) & Hmax)].
  - replace (if znth mean 0 >? 0 then znth mean 0 else 0) with (znth mean 0)
      by (destruct (Z.gtb_spec (znth mean 0) 0); lia).
    split; [exists 0; lia|]. intros j Hj. replace j with 0 by lia. lia.
  - destruct (Z.gtb_spec (znth mean i) w); (split; [first [exists i; lia | exists j0; lia]|]).
    all: intros j Hj; destruct (Z.eqb_spec j i) as [->|]; [lia|]; specialize (Hmax j); lia.
Qed.

Lemma candidate_loop_ok mean n : 1 <= n <= zlen mean -> Forall (fun m => 0 <= m < 16384) mean ->
  exists c b w, for_loop (candidate_step mean) 0 (Z.to_nat n) (-1, kMaxBitCountsQ9, 0) = Some (c, b, w) /\
    first_min mean n c b /\ is_max mean n w /\ 0 <= b <= w /\ w < 16384.
Proof.
  intros Hn Hm.
  destruct (for_loop_inv (fun i '(c, b, w) =>
      (i = 0 /\ c = -1 /\ b = 16384 /\ w = 0) \/ (0 < i /\ first_min mean i c b /\ is_max mean i w))
    (candidate_step mean) 0 (Z.to_nat n) (-1, kMaxBitCountsQ9, 0)) as ([[c b] w] & E & Hend).
  - left. done.
  - intros i [[c b] w] Hi Hinv. unfold candidate_step.
    rewrite (aget_znth mean i) by lia. simpl.
    pose proof (Forall_aget _ _ _ _ Hm (aget_znth mean i ltac:(lia))) as Hmi. simpl in Hmi.
    replace (if znth mean i <? b then (i, znth mean i) else (c, b))
      with (if znth mean i <? b then i else c, if znth mean i <? b then znth mean i else b)
      by (by destruct (znth mean i <? b)).
    eexists. split; [done|]. right. split; [lia|].
    split; [apply (first_min_step mean i c b); [lia|lia|] | apply (is_max_step mean i w); [lia|]];
      destruct Hinv as [(? & ? & ? & ?)|(? & ? & ?)]; auto.
  - rewrite Z.add_0_l, Z2Nat.id in Hend by lia. exists c, b, w. split; [done|].
    destruct Hend as [?|(_ & Hmin & Hmax)]; [lia|]. split_and!; [done|done|..];
    destruct Hmin as (Hc & Hcb & Hmin & _), Hmax as ((j & Hj & Ej) & Hmax);
    pose proof (Forall_aget _ _ _ _ Hm Hcb) as H1; pose proof (Forall_aget _ _ _ _ Hm (aget_znth mean j ltac:(lia))) as H2;
    simpl in H1, H2; specialize (Hmax c); rewrite (znth_aget _ _ _ Hcb) in Hmax; lia.
Qed.

(** *** Validation *)

(** What the robust validation may change: its counters and the histogram,
    whose length it keeps. *)
Definition same_but_validation (self self' : BinaryDelayEstimator) : Prop :=
  exists hits last hist ldh, length hist = length (histogram self) /\
    self' = self <| candidate_hits := hits |> <| last_candidate_delay := last |>
                 <| histogram := hist |> <| last_delay_histogram := ldh |>.

Lemma histogram_loop_ok c last dec depth n hist : 0 <= n <= zlen hist ->
  exists hist', for_loop (histogram_step c last dec depth) 0 (Z.to_nat n) hist = Some hist' /\
    length hist' = length hist.
Proof.
  intros Hn.
  destruct (for_loop_inv (fun _ h => length h = length hist) (histogram_step c last dec depth) 0 (Z.to_nat n) hist)
    as (h & E & Hl); [done| |eauto].
  intros i h Hi Hl. unfold histogram_step.
  destruct (aget_range h i ltac:(lia)) as [x ->]. cbn -[f32_of_Z f32_mul f32_sub f32_add flt].
  rewrite aset_Some by lia. eexists. split; [done|]. by rewrite length_insert.
Qed.

Lemma UpdateRobust_ok n far self c depth level : far_history_size far = n ->
  est_shape n self -> 0 <= c < n -> 0 <= compare_delay self <= n ->
  exists self', UpdateRobustValidationStatistics far self c depth level = Some self' /\
    same_but_validation self self'.
Proof.
  intros Hf [Hs Hp Hm Hb Hh Hn Hn1 Hl] Hc Hcmp. unfold UpdateRobustValidationStatistics.
  rewrite Hf, Hs, Z.eqb_refl. cbn [c_assert mbind option_bind].
  set (s1 := if negb (c =? last_candidate_delay self) then _ else self).
  assert (E1 : exists hits last, s1 = self <| candidate_hits := hits |> <| last_candidate_delay := last |>).
  { subst s1. destruct (negb _); [by exists 0, c|].
    exists (candidate_hits self), (last_candidate_delay self). by destruct self. }
  destruct E1 as (hits & last & ->). cbn -[histogram_step f32_of_Z f32_add f32_mul fgt].
  destruct (aget_range (histogram self) c ltac:(lia)) as [h Eh]. rewrite Eh.
  cbn -[histogram_step f32_of_Z f32_add f32_mul fgt].
  rewrite aset_Some by lia. cbn -[histogram_step f32_of_Z f32_add f32_mul fgt].
  set (hist1 := <[_ := _]> (histogram self)).
  assert (Hl1 : length hist1 = length (histogram self)) by apply length_insert.
  match goal with |- context [if ?b then _ else Some ?v] =>
    assert (Ed : exists dec, (if b then
      let* mean := aget (mean_bit_counts self) (compare_delay self) in
      Some (f32_mul (f32_of_Z (i32 (mean - level))) kQ14Scaling) else Some v) = Some dec) end.
  { destruct (aget_range (mean_bit_counts self) (compare_delay self) ltac:(lia)) as [m ->].
    cbn -[f32_of_Z f32_mul]. match goal with |- exists _, (if ?b then _ else _) = _ => destruct b; eauto end. }
  destruct Ed as [dec ->]. cbn -[histogram_step f32_of_Z f32_add f32_mul fgt].
  rewrite Hs. destruct (histogram_loop_ok c (last_delay self) dec (f32_mul (f32_of_Z depth) kQ14Scaling) n hist1)
    as (hist2 & -> & Hl2); [lia|].
  eexists. split; [reflexivity|].
  eexists _, _, hist2, (last_delay_histogram self). split; [congruence|]. rewrite <- Hs. reflexivity.
Qed.

Lemma HistogramBasedValidation_ok n self c : est_shape n self -> 0 <= c < n -> 0 <= compare_delay self <= n ->
  exists b, HistogramBasedValidation self c = Some b.
Proof.
  intros [Hs Hp Hm Hb Hh Hn Hn1 Hl] Hc Hcmp. unfold HistogramBasedValidation.
  destruct (aget_range (histogram self) (compare_delay self) ltac:(lia)) as [t ->].
  destruct (aget_range (histogram self) c ltac:(lia)) as [h ->]. cbn -[f32_of_Z f32_mul f32_sub fgt fge]. eauto.
Qed.

Lemma RobustValidation_ok n self c v h : est_shape n self -> 0 <= c < n ->
  exists b, RobustValidation self c v h = Some b.
Proof.
  intros [Hs Hp Hm Hb Hh Hn Hn1 Hl] Hc. unfold RobustValidation.
  destruct (aget_range (histogram self) c ltac:(lia)) as [x ->]. destruct h; simpl; eauto.
Qed.

Lemma accept_candidate_ok n self c b : est_shape n self -> 0 <= c < n -> 0 <= compare_delay self <= n ->
  exists hist ldh, length hist = length (histogram self) /\
    accept_candidate self c b =
    Some (self <| histogram := hist |> <| last_delay_histogram := ldh |> <| last_delay := c |>
               <| last_delay_probability := Z.min b (last_delay_probability self) |> <| compare_delay := c |>).
Proof.
  intros [Hs Hp Hm Hb Hh Hn Hn1 Hl] Hc Hcmp. unfold accept_candidate.
  destruct (aget_range (histogram self) c ltac:(lia)) as [x Ex].
  destruct (aget_range (histogram self) (compare_delay self) ltac:(lia)) as [y Ey].
  assert (Hltb : exists t, (b <? last_delay_probability self) = t /\
      Z.min b (last_delay_probability self) = if t then b else last_delay_probability self).
  { exists (b <? last_delay_probability self). split; [done|].
    destruct (Z.ltb_spec b (last_delay_probability self)); lia. }
  destruct Hltb as (t & Ht & ->). destruct (negb (c =? last_delay self)).
  - rewrite Ex. cbn -[fgt flt Z.ltb]. rewrite Ey. cbn -[fgt flt Z.ltb]. destruct (flt x y).
    + rewrite aset_Some by lia. cbn -[fgt flt Z.ltb]. rewrite Ht.
      eexists _, _. split; [apply length_insert|by destruct t].
    + cbn -[fgt flt Z.ltb]. rewrite Ht. eexists (histogram self), _. split; [done|by destruct t].
  - cbn -[Z.ltb]. rewrite Ht. exists (histogram self), (last_delay_histogram self). split; [done|by destruct t].
Qed.

(** *** One block *)

Definition new_minimum (m best worst : Z) : Z :=
  if (m >? 8704) && (worst - best >? 2816) then Z.min m (Z.max 8704 (best + 1024)) else m.

(** The instantaneous validation: a distinct valley, below the threshold or
    below the level of the current estimate. *)
Definition instantaneous_valid (m level best worst : Z) : bool :=
  (worst - best >? 1024) && ((best <? m) || (best <? level)).

Lemma update_minimum_ok self best worst : 0 <= best <= worst -> worst < 16384 ->
  8704 <= minimum_probability self <= 16384 ->
  update_minimum_probability self (worst - best) best =
  self <| minimum_probability := new_minimum (minimum_probability self) best worst |>.
Proof.
  intros Hb Hw Hm. unfold update_minimum_probability, new_minimum, kProbabilityLowerLimit,
    kProbabilityMinSpread, kProbabilityOffset.
  destruct (Z.gtb_spec (minimum_probability self) 8704); cbn -[Z.gtb Z.ltb Z.min Z.max]; [|by destruct self].
  destruct (Z.gtb_spec (worst - best) 2816); [|by destruct self].
  rewrite i32_id by (unfold in_i32; lia). destruct (Z.ltb_spec (best + 1024) 8704).
  - rewrite (Z.max_l 8704) by lia. destruct (Z.gtb_spec (minimum_probability self) 8704); [|lia].
    by rewrite Z.min_r by lia.
  - rewrite (Z.max_r 8704) by lia. destruct (Z.gtb_spec (minimum_probability self) (best + 1024)).
    + by rewrite Z.min_r by lia.
    + rewrite Z.min_l by lia. by destruct self.
Qed.

Lemma new_minimum_range m best worst : 8704 <= m <= 16384 -> 8704 <= new_minimum m best worst <= m.
Proof. intros. unfold new_minimum. destruct ((m >? 8704) && _); lia. Qed.

(** Everything [WebRtc_ProcessBinarySpectrum] does to a well-formed estimator,
    but for the histogram. *)
Record processed (n : Z) (far : BinaryDelayEstimatorFarend) (self : BinaryDelayEstimator) (x r : Z)
    (self' : BinaryDelayEstimator) (c best worst : Z) : Prop := mkProcessed {
  pr_wf : est_wf n self';
  pr_ret : r = last_delay self';
  pr_mean : mean_bit_counts self' = means far (mean_bit_counts self) (near_at self x);
  pr_best : first_min (mean_bit_counts self') n c best;
  pr_worst : is_max (mean_bit_counts self') n worst;
  pr_min : minimum_probability self' = new_minimum (minimum_probability self) best worst;
  pr_robust : robust_validation_enabled self' = robust_validation_enabled self;
  pr_lookahead : lookahead self' = lookahead self /\ near_history_size self' = near_history_size self;
  pr_near : binary_near_history self' = near_pushed self x;
  pr_choice : r = c \/ r = last_delay self;
  pr_level : exists accepted : bool,
    (r = if accepted then c else last_delay self) /\
    last_delay_probability self' =
      (if accepted then Z.min best (i32 (last_delay_probability self + 1))
       else i32 (last_delay_probability self + 1)) /\
    (robust_validation_enabled self = 0 -> accepted =
       instantaneous_valid (minimum_probability self') (i32 (last_delay_probability self + 1)) best worst) }.

Lemma validate_ok n self c v : est_shape n self -> 0 <= c < n -> 0 <= compare_delay self <= n ->
  exists accepted, (if negb (robust_validation_enabled self =? 0) then
      let* h := HistogramBasedValidation self c in RobustValidation self c v h else Some v) = Some accepted /\
    (robust_validation_enabled self = 0 -> accepted = v).
Proof.
  intros Hs Hc Hcmp. destruct (Z.eqb_spec (robust_validation_enabled self) 0) as [E|E]; simpl; [by exists v|].
  destruct (HistogramBasedValidation_ok n self c Hs Hc Hcmp) as [h ->]. simpl.
  destruct (RobustValidation_ok n self c v h Hs Hc) as [a ->]. exists a. done.
Qed.

(** Projections of updated records, and nothing of the computations. *)
Ltac proj := cbn -[popcount mean_step candidate_step f32_of_Z Z.gtb Z.ltb Z.eqb tab for_loop BitCountComparison
  UpdateRobustValidationStatistics HistogramBasedValidation RobustValidation accept_candidate
  update_minimum_probability new_minimum i32 kMaxBitCountsQ9 kProbabilityOffset Z.add Z.sub].

Lemma Process_ok n far self x : far_wf far -> far_history_size far = n -> est_wf n self -> in_u32 x ->
  exists r self' c best worst, WebRtc_ProcessBinarySpectrum far self x = Some (r, self') /\
    processed n far self x r self' c best worst.
Proof.
  intros Hfar <- Hself Hx. set (n := far_history_size far) in *. pose proof Hself as [Hshape Hmean Hnear Hmin Hdelay].
  pose proof Hshape as [Hs Hp Hm Hb Hh Hnl Hn1 Hl].
  unfold WebRtc_ProcessBinarySpectrum. fold n. rewrite Hs, Z.eqb_refl. cbn [negb].
  destruct (insert_near_ok n self x Hself Hx) as (-> & Hnear_len & Hnear_u & Hxu).
  proj. rewrite Hs. unfold n.
  rewrite (BitCountComparison_ok _ far) by (done || lia). proj.
  rewrite mean_loop_ok by (done || lia). proj.
  destruct (means_ok far (mean_bit_counts self) (near_at self x) Hfar Hmean ltac:(lia)) as [Hml Hmr].
  set (mean' := means far (mean_bit_counts self) (near_at self x)) in *.
  destruct (candidate_loop_ok mean' (far_history_size far) ltac:(lia) Hmr)
    as (c & best & worst & E & Hbest & Hworst & Hbw & Hw). rewrite E. cbn [mbind option_bind].
  clear E. rewrite (i32_id (worst - best)) by (unfold in_i32; lia).
  rewrite update_minimum_ok by done. proj.
  set (m' := new_minimum (minimum_probability self) best worst).
  set (level := i32 (last_delay_probability self + 1)).
  match goal with |- context [UpdateRobustValidationStatistics far ?s c] => set (s1 := s) end.
  assert (Hsh1 : est_shape n s1).
  { subst s1. constructor; simpl; try done; try lia.
    pose proof (length_tab (fun i => popcount 32 (Z.lxor (near_at self x) (znth (binary_far_history far) i)))
      (far_history_size far)). lia. }
  destruct (UpdateRobust_ok n far s1 c (worst - best) best eq_refl Hsh1) as (s2 & -> & Hsame).
  { destruct Hbest as [? _]. lia. }
  { by apply (compare_delay_range n self). }
  destruct Hsame as (hits & lastc & hist & ldh & Hhl & Es2). cbn [mbind option_bind].
  assert (Hsh2 : est_shape n s2) by (subst s2; destruct Hsh1; constructor; simpl in *; congruence || lia).
  change ((worst - best >? kProbabilityOffset) && _) with (instantaneous_valid m' level best worst).
  assert (Hc : 0 <= c < n) by (destruct Hbest as [? _]; lia).
  pose proof (compare_delay_range n self Hself) as Hcmp.
  destruct (validate_ok n s2 c (instantaneous_valid m' level best worst) Hsh2 Hc) as (acc & -> & Hacc);
    [by subst s2|].
  cbn [mbind option_bind]. pose proof (new_minimum_range _ best worst Hmin).
  destruct acc.
  - destruct (accept_candidate_ok n s2 c best Hsh2 Hc ltac:(by subst s2)) as (hist3 & ldh3 & Hl3 & ->).
    cbn [mbind option_bind]. eexists _, _, c, best, worst. split; [reflexivity|].
    subst s2 s1. destruct Hsh2; simpl in *. constructor; simpl; try done; [|by left|exists true; eauto].
    constructor; simpl; [constructor; simpl; lia|done|done|lia|right; lia].
  - eexists _, s2, c, best, worst. split; [reflexivity|].
    subst s2 s1. destruct Hsh2; simpl in *. constructor; simpl; try done; [|by right|exists false; eauto].
    constructor; simpl; [constructor; simpl; lia|done|done|lia|done].
Qed.

(** ** Creation *)

Lemma realloc_nil {A} (fresh : list A) n : realloc [] fresh n = take (Z.to_nat n) fresh.
Proof. unfold realloc. by rewrite take_nil, drop_0. Qed.

Lemma far_create_init n h c : 1 < n <= 1048576 -> n <= zlen h -> n <= zlen c ->
  exists far, WebRtc_CreateBinaryDelayEstimatorFarend true (Some h) (Some c) n = Some (Some far) /\
    WebRtc_InitBinaryDelayEstimatorFarend far = Some (mkFarend (zreplicate n 0) (zreplicate n 0) n) /\
    far_history_size far = n /\ far_wf (mkFarend (zreplicate n 0) (zreplicate n 0) n).
Proof.
  intros Hn Hh Hc. unfold WebRtc_CreateBinaryDelayEstimatorFarend, WebRtc_AllocateFarendBufferMemory.
  destruct (Z.gtb_spec n 1); [|lia]. simpl. rewrite !realloc_nil, Z.sub_0_r.
  destruct (Z.gtb_spec n 0); [|lia]. rewrite !memset_all by (rewrite length_take; lia). simpl.
  destruct (Z.eqb_spec n 0); [lia|]. eexists. split; [done|].
  unfold WebRtc_InitBinaryDelayEstimatorFarend. simpl.
  rewrite !memset_all by (unfold zreplicate; rewrite length_replicate; lia). split_and!; [done|done|].
  constructor; simpl; [done| | |].
  - unfold zreplicate. rewrite length_replicate. lia.
  - apply Forall_replicate. unfold in_u32. lia.
  - unfold zreplicate. by rewrite fmap_replicate.
Qed.

Lemma est_create n far fresh near am ab ah la : 1 < n <= 1048576 -> far_history_size far = n ->
  0 <= la < 2147483647 -> zlen near = la + 1 -> n < zlen am -> n <= zlen ab -> n < zlen ah ->
  exists self, WebRtc_CreateBinaryDelayEstimator (Some fresh) (Some near)
      (mkAllocs None None (Some am) (Some ab) (Some ah)) (Some far) la = Some (Some self) /\ est_shape n self /\
    robust_validation_enabled self = 0 /\ lookahead self = la /\ near_history_size self = la + 1.
Proof.
  intros Hn Hf Hla Hnear Hm Hb Hh. unfold WebRtc_CreateBinaryDelayEstimator.
  destruct (Z.geb_spec la 0); [|lia]. unfold WebRtc_AllocateHistoryBufferMemory.
  rewrite Hf, Z.eqb_refl. cbn [negb mbind option_bind]. cbn -[f32_of_Z memset Z.gtb].
  destruct (Z.gtb_spec n 0); [|lia]. rewrite !realloc_nil, Z.sub_0_r.
  rewrite !memset_Some by (try rewrite length_take; lia). cbn -[f32_of_Z Z.eqb].
  destruct (Z.eqb_spec n 0); [lia|]. eexists. split; [done|].
  rewrite i32_id by (unfold in_i32; lia). split; [|done].
  constructor; simpl; try lia; rewrite length_splice by (rewrite ?length_replicate, ?length_take; lia); rewrite length_take; lia.
Qed.

(** ** Soft resets *)

(** Adjusting the lookahead clips it to the near-end history; the shift really
    applied is returned. *)
Lemma SoftReset_ok n self shift : est_wf n self -> near_history_size self <= 2147483647 ->
  -2147483648 <= lookahead self - shift <= 2147483647 ->
  let la := Z.max 0 (Z.min (near_history_size self - 1) (lookahead self - shift)) in
  WebRtc_SoftResetBinaryDelayEstimator self shift = (lookahead self - la, self <| lookahead := la |>) /\
  est_wf n (self <| lookahead := la |>).
Proof.
  intros [[Hs Hp Hm Hb Hh Hnl Hn1 Hl] Hmean Hnear Hmin Hd] Hns Hr la.
  unfold WebRtc_SoftResetBinaryDelayEstimator. cbn -[i32 Z.ltb Z.gtb].
  rewrite (i32_id (lookahead self - shift)) by (unfold in_i32; lia). split.
  - destruct (Z.ltb_spec (lookahead self - shift) 0); cbn -[i32 Z.ltb Z.gtb];
      (match goal with |- context [?a >? ?b] => destruct (Z.gtb_spec a b) end); cbn -[i32 Z.ltb Z.gtb];
      match goal with |- (i32 (_ - ?a), _) = _ => replace la with a by lia end;
      rewrite i32_id by (unfold in_i32; lia); done.
  - constructor; simpl; try done. constructor; simpl; try done. lia.
Qed.

Lemma shift_pad_ok buf n k : zlen buf = n -> 0 < Z.abs k < n ->
  shift_pad buf (if k >? 0 then Z.abs k else 0) (if k >? 0 then 0 else Z.abs k)
    (if k >? 0 then 0 else n - Z.abs k) (n - Z.abs k) (Z.abs k) =
  Some (tab (fun i => if (0 <=? i - k) && (i - k <? n) then znth buf (i - k) else 0) n).
Proof.
  intros Hn Hk. unfold shift_pad.
  set (d := if k >? 0 then Z.abs k else 0). set (s := if k >? 0 then 0 else Z.abs k).
  set (p := if k >? 0 then 0 else n - Z.abs k).
  assert (Hds : 0 <= d <= Z.abs k /\ 0 <= s <= Z.abs k /\ d - s = k /\ (p = 0 /\ k > 0 \/ p = n - Z.abs k /\ k < 0))
    by (subst d s p; destruct (Z.gtb_spec k 0); lia).
  rewrite memcpy_Some by lia. simpl.
  assert (Hl1 : zlen (slice buf s (n - Z.abs k)) = n - Z.abs k) by (apply length_slice; lia).
  assert (Hl2 : length (splice buf d (slice buf s (n - Z.abs k))) = length buf) by (apply length_splice; lia).
  rewrite memset_Some by lia. f_equal.
  assert (Hl3 : zlen (replicate (Z.to_nat (Z.abs k)) 0) = Z.abs k) by (rewrite length_replicate; lia).
  apply list_ext.
  { apply Nat2Z.inj. rewrite length_splice, length_tab by lia. lia. }
  rewrite length_splice by lia. intros i Hi. rewrite aget_splice by lia. rewrite aget_tab by lia.
  destruct (Z.leb_spec p i), (Z.ltb_spec i (p + zlen (replicate (Z.to_nat (Z.abs k)) 0))); cbn [andb].
  1: { unfold aget. destruct (Z.leb_spec 0 (i - p)); [|lia]. rewrite lookup_replicate_2 by lia.
       destruct (Z.leb_spec 0 (i - k)), (Z.ltb_spec (i - k) n); cbn [andb]; done || lia. }
  all: rewrite aget_splice by lia; rewrite Hl1;
    destruct (Z.leb_spec d i), (Z.ltb_spec i (d + (n - Z.abs k))); try lia; cbn [andb];
    rewrite aget_slice by lia; destruct (Z.leb_spec 0 (i - k)), (Z.ltb_spec (i - k) n); try lia; cbn [andb];
    replace (i - k) with (s + (i - d)) by lia; apply aget_znth; lia.
Qed.

Lemma FarSoftReset_ok far k : far_wf far -> Z.abs k < far_history_size far ->
  exists far', WebRtc_SoftResetBinaryDelayEstimatorFarend far k = Some far' /\ far_wf far' /\
    far_history_size far' = far_history_size far /\
    forall i, 0 <= i < far_history_size far ->
      znth (binary_far_history far') i =
      (if (0 <=? i - k) && (i - k <? far_history_size far) then znth (binary_far_history far) (i - k) else 0).
Proof.
  intros Hw Hk. pose proof Hw as [Hs Hl Hu Hc]. unfold WebRtc_SoftResetBinaryDelayEstimatorFarend.
  destruct (Z.gtb_spec (far_history_size far - Z.abs k) 0); [|lia]. cbn [c_assert mbind option_bind].
  destruct (Z.eqb_spec k 0) as [->|Hk0].
  { exists far. split_and!; [done|done|done|]. intros i Hi. rewrite Z.sub_0_r.
    destruct (Z.leb_spec 0 i), (Z.ltb_spec i (far_history_size far)); done || lia. }
  replace (if k >? 0 then (Z.abs k, 0, 0) else (0, Z.abs k, far_history_size far - Z.abs k))
    with (if k >? 0 then Z.abs k else 0, if k >? 0 then 0 else Z.abs k,
          if k >? 0 then 0 else far_history_size far - Z.abs k) by (by destruct (k >? 0)).
  rewrite (shift_pad_ok (binary_far_history far) (far_history_size far) k) by lia. cbn [mbind option_bind].
  rewrite (shift_pad_ok (far_bit_counts far) (far_history_size far) k) by (rewrite ?Hc, ?length_fmap; lia). cbn [mbind option_bind].
  eexists. split; [reflexivity|]. cbn -[popcount]. split_and!; [|done|].
  - constructor; cbn -[popcount]; [done| | |].
    + apply length_tab. lia.
    + apply Forall_tab. intros i Hi. destruct ((0 <=? i - k) && (i - k <? far_history_size far)) eqn:E; [|unfold in_u32; lia].
      breflect. apply (Forall_aget _ _ (i - k) _ Hu). apply aget_znth. lia.
    + unfold tab. rewrite <- list_fmap_compose. apply list_fmap_ext. intros j x Hj%lookup_seqZ.
      cbn -[popcount]. destruct ((0 <=? x - k) && (x - k <? far_history_size far)) eqn:E; [|done]. breflect.
      destruct (far_count_at far (x - k) Hw) as (h & Hh & _ & Hcnt); [lia|].
      by rewrite (znth_aget _ _ _ Hh), (znth_aget _ _ _ Hcnt).
  - intros i Hi. apply znth_aget. by rewrite aget_tab by lia.
Qed.

(** ** Runs *)

(** What a client does with an estimator and its far end: add a far-end
    spectrum, process a near-end spectrum, or shift both after a known delay
    change. *)
Inductive EstOp := FarSpectrum (x : Z) | NearSpectrum (x : Z) | SoftReset (shift : Z).

Definition est_step (st : BinaryDelayEstimatorFarend * BinaryDelayEstimator) (op : EstOp)
    : option (list Z * (BinaryDelayEstimatorFarend * BinaryDelayEstimator)) :=
  let '(far, self) := st in
  match op with
  | FarSpectrum x => let* far := WebRtc_AddBinaryFarSpectrum far x in Some ([], (far, self))
  | NearSpectrum x => let* (r, self) := WebRtc_ProcessBinarySpectrum far self x in Some ([r], (far, self))
  | SoftReset k =>
      let* far := WebRtc_SoftResetBinaryDelayEstimatorFarend far k in
      let '(_, self) := WebRtc_SoftResetBinaryDelayEstimator self k in Some ([], (far, self))
  end.

Fixpoint est_run (st : BinaryDelayEstimatorFarend * BinaryDelayEstimator) (ops : list EstOp)
    : option (list Z * (BinaryDelayEstimatorFarend * BinaryDelayEstimator)) :=
  match ops with
  | [] => Some ([], st)
  | op :: ops => let* (r, st) := est_step st op in let* (rs, st) := est_run st ops in Some (r ++ rs, st)
  end.

Definition est_op_ok (n : Z) (op : EstOp) : Prop :=
  match op with FarSpectrum x | NearSpectrum x => in_u32 x | SoftReset k => Z.abs k < n end.

Record run_inv (n la : Z) (st : BinaryDelayEstimatorFarend * BinaryDelayEstimator) : Prop := mkRunInv {
  ri_far : far_wf st.1; ri_size : far_history_size st.1 = n; ri_est : est_wf n st.2;
  ri_near : near_history_size st.2 = la + 1 }.

Lemma est_step_ok n la st op : 0 <= la < 1048576 -> run_inv n la st -> est_op_ok n op ->
  exists rs st', est_step st op = Some (rs, st') /\ run_inv n la st' /\
    Forall (fun r => r = -2 \/ 0 <= r < n) rs.
Proof.
  intros Hla [Hf Hn He Hnear] Hop. destruct st as [far self], op as [x|x|k]; cbn [est_step est_op_ok fst snd] in *.
  - destruct (AddBinaryFarSpectrum_wf far x Hf Hop) as [-> Hf']. simpl. by eexists [], _.
  - destruct (Process_ok n far self x Hf Hn He Hop) as (r & self' & c & b & w & -> & [Hwf Hr _ _ _ _ _ [_ Hns] _ _ _]).
    simpl. eexists [r], _. split; [done|]. split; [constructor; simpl; congruence || done|].
    constructor; [|constructor]. destruct (wf_delay _ _ Hwf); lia.
  - destruct (FarSoftReset_ok far k Hf ltac:(lia)) as (far' & -> & Hf' & Hn' & _). cbn [mbind option_bind].
    pose proof (sh_lookahead _ _ (wf_shape _ _ He)). pose proof (sh_pos _ _ (wf_shape _ _ He)).
    destruct (SoftReset_ok n self k He) as [-> He']; [lia|lia|].
    eexists [], _. split; [done|]. split; [constructor; simpl; congruence || done|done].
Qed.

Lemma est_run_ok n la ops st : 0 <= la < 1048576 -> run_inv n la st -> Forall (est_op_ok n) ops ->
  exists rs st', est_run st ops = Some (rs, st') /\ run_inv n la st' /\
    Forall (fun r => r = -2 \/ 0 <= r < n) rs.
Proof.
  intros Hla. revert st. induction ops as [|op ops IH]; intros st Hi Hops; simpl.
  { exists [], st. done. }
  apply Forall_cons_1 in Hops as [Hop Hops].
  destruct (est_step_ok n la st op Hla Hi Hop) as (r & st1 & -> & Hi1 & Hr). simpl.
  destruct (IH st1 Hi1 Hops) as (rs & st2 & -> & Hi2 & Hrs). simpl.
  eexists _, _. split; [done|]. split; [done|by apply Forall_app_2].
Qed.

(** ** Properties *)

(** [BitCount], an addition of octal digits in parallel, counts the one
    bits of every 32-bit word. *)
Theorem bit_count_is_popcount x : in_u32 x -> BitCount x = popcount 32 x /\ 0 <= BitCount x <= 32.
Proof.
  intros Hx. rewrite BitCount_popcount by done. pose proof (popcount_range 32 x). lia.
Qed.

Lemma bit_count_is_popcount_witness : BitCount 0xF0F0A5A5 = 16 /\ 0 <= BitCount 0xF0F0A5A5 <= 32.
Proof. apply (bit_count_is_popcount 0xF0F0A5A5). unfold in_u32. lia. Defined.

(** C32. Memory safety and range of the estimate: after creation and
    initialisation (with any content of the fresh memory), every sequence of
    far-end spectra, near-end spectra and soft resets runs without an access
    outside a buffer and without a failed assertion, and every delay returned is
    [-2] (no estimate yet) or an index of the history. *)
Theorem delay_estimator_safe n la far_h far_c fresh near am ab ah ops :
  1 < n <= 1048576 -> 0 <= la < 1048576 -> n <= zlen far_h -> n <= zlen far_c ->
  zlen near = la + 1 -> n < zlen am -> n <= zlen ab -> n < zlen ah -> Forall (est_op_ok n) ops ->
  exists far far1 self self1 rs st,
    WebRtc_CreateBinaryDelayEstimatorFarend true (Some far_h) (Some far_c) n = Some (Some far) /\
    WebRtc_InitBinaryDelayEstimatorFarend far = Some far1 /\
    WebRtc_CreateBinaryDelayEstimator (Some fresh) (Some near)
      (mkAllocs None None (Some am) (Some ab) (Some ah)) (Some far) la = Some (Some self) /\
    WebRtc_InitBinaryDelayEstimator self = Some self1 /\
    est_run (far1, self1) ops = Some (rs, st) /\ Forall (fun r => r = -2 \/ 0 <= r < n) rs.
Proof.
  intros Hn Hla Hh Hc Hnear Hm Hb Hh' Hops.
  destruct (far_create_init n far_h far_c Hn Hh Hc) as (far & E1 & E2 & E3 & Hfw).
  destruct (est_create n far fresh near am ab ah la Hn E3 ltac:(lia) Hnear Hm Hb Hh') as (self & E4 & Hsh & _ & _ & Hns).
  destruct (Init_wf n self Hsh) as (self1 & E5 & Hew & _ & _ & _ & Hns').
  destruct (est_run_ok n la ops (mkFarend (zreplicate n 0) (zreplicate n 0) n, self1) Hla) as (rs & st & E6 & _ & Hrs);
    [constructor; simpl; congruence || done|done|].
  exists far, (mkFarend (zreplicate n 0) (zreplicate n 0) n), self, self1, rs, st. done.
Qed.

(** C27. The decision of one block, without robust validation (the setting of
    the echo canceller), for a far end and an estimator that keep their invariants and have one history size: the candidate is the first delay whose smoothed
    Hamming distance to the near-end spectrum is smallest; it becomes the
    estimate when the valley is distinct and the smallest distance lies below the adaptive minimum or
    below the distance of the last estimate, and otherwise the
    previous estimate is returned again. (The comment before the decision asks for both; the code
    takes either.) *)
Theorem delay_decision n far self x :
  far_wf far -> far_history_size far = n -> est_wf n self -> in_u32 x -> robust_validation_enabled self = 0 ->
  exists self' c best worst,
    mean_bit_counts self' = means far (mean_bit_counts self) (near_at self x) /\
    first_min (mean_bit_counts self') n c best /\ is_max (mean_bit_counts self') n worst /\
    minimum_probability self' = new_minimum (minimum_probability self) best worst /\
    WebRtc_ProcessBinarySpectrum far self x =
      Some (if instantaneous_valid (minimum_probability self') (i32 (last_delay_probability self + 1)) best worst
            then c else last_delay self, self').
Proof.
  intros Hf Hn He Hx Hr. destruct (Process_ok n far self x Hf Hn He Hx) as (r & self' & c & b & w & E & P).
  destruct (pr_level _ _ _ _ _ _ _ _ _ P) as (acc & Er & _ & Hacc). destruct P.
  exists self', c, b, w. split_and!; try done. rewrite E, Er, Hacc by done. done.
Qed.

(** The adaptive threshold only falls, and never below 17 in Q9; the level
    of the estimate rises by one per block unless a better candidate is taken. *)
Theorem thresholds_behave n far self x r self' :
  far_wf far -> far_history_size far = n -> est_wf n self -> in_u32 x ->
  WebRtc_ProcessBinarySpectrum far self x = Some (r, self') ->
  8704 <= minimum_probability self' <= minimum_probability self /\
  (last_delay_probability self < 2147483647 -> in_i32 (last_delay_probability self) ->
   last_delay_probability self' <= last_delay_probability self + 1).
Proof.
  intros Hf Hn He Hx E. destruct (Process_ok n far self x Hf Hn He Hx) as (r1 & self1 & c & b & w & E1 & P).
  rewrite E in E1. injection E1 as <- <-. split.
  - rewrite (pr_min _ _ _ _ _ _ _ _ _ P). apply new_minimum_range, (wf_min _ _ He).
  - intros Hlt Hi. destruct (pr_level _ _ _ _ _ _ _ _ _ P) as (acc & _ & -> & _). unfold in_i32 in Hi.
    rewrite i32_id by (unfold in_i32; lia). destruct acc; lia.
Qed.

(** [WebRtc_MeanEstimatorFix] is exponential smoothing with truncation: it
    never overshoots the new value, and stops moving when the difference is
    below [2^factor]. *)
Theorem mean_estimator_smooths v factor mean :
  0 <= v <= 2147483647 -> 0 <= mean <= 2147483647 -> 0 <= factor ->
  let mean' := WebRtc_MeanEstimatorFix v factor mean in
  Z.abs (v - mean') <= Z.abs (v - mean) /\ Z.min v mean <= mean' <= Z.max v mean /\
  (mean' = mean <-> Z.abs (v - mean) < 2 ^ factor).
Proof.
  intros Hv Hm Hf. cbv zeta. rewrite MeanEstimatorFix_quot by done.
  assert (Hp : 0 < 2 ^ factor) by (apply Z.pow_pos_nonneg; lia).
  pose proof (Z.quot_pos (v - mean) (2 ^ factor)) as Hp1. pose proof (Z.quot_pos (- (v - mean)) (2 ^ factor)) as Hp2.
  rewrite Z.quot_opp_l in Hp2 by lia.
  assert (Ha : Z.abs (Z.quot (v - mean) (2 ^ factor)) = Z.abs (v - mean) / 2 ^ factor).
  { rewrite <- Z.quot_abs, Z.quot_div_nonneg by lia. by rewrite (Z.abs_eq (2 ^ factor)) by lia. }
  assert (Z.abs (v - mean) / 2 ^ factor <= Z.abs (v - mean)) by (apply Z.div_le_upper_bound; nia).
  split_and!; [lia..|]. split.
  - intros E. assert (E0 : Z.abs (v - mean) / 2 ^ factor = 0) by lia. apply Z.div_small_iff in E0; lia.
  - intros E. rewrite Z.div_small in Ha by lia. lia.
Qed.

Lemma mean_estimator_smooths_witness :
  let mean' := WebRtc_MeanEstimatorFix 16384 7 10240 in
  Z.abs (16384 - mean') <= Z.abs (16384 - 10240) /\ Z.min 16384 10240 <= mean' <= Z.max 16384 10240 /\
  (mean' = 10240 <-> Z.abs (16384 - 10240) < 2 ^ 7).
Proof. apply mean_estimator_smooths; lia. Defined.

(** A small far end and estimator for the witnesses: four delays, a lookahead
    of one block. *)
Definition sample_far : BinaryDelayEstimatorFarend := mkFarend [4; 0; 16; 32] [15; 0; 65535; 4294967295] 4.
Definition sample_est : BinaryDelayEstimator :=
  mkEstimator [10000; 10240; 5000; 16000; 10240] [0; 0; 0; 0] [65535; 7] 2 4 16384 16384 (-2) 0 0 (-2) 4 0
    [f32_of_Z 0; f32_of_Z 0; f32_of_Z 0; f32_of_Z 0; f32_of_Z 0] (f32_of_Z 0) 1.

Lemma sample_far_wf : far_wf sample_far.
Proof. constructor; [simpl; lia|done| |by vm_compute]. repeat (constructor; [unfold in_u32; lia|]). constructor. Qed.

Lemma sample_est_wf : est_wf 4 sample_est.
Proof.
  constructor; [by constructor; simpl; lia| | |simpl; lia|by left].
  - repeat (constructor; [lia|]). constructor.
  - repeat (constructor; [unfold in_u32; lia|]). constructor.
Qed.

Lemma delay_decision_witness :
  exists self' c best worst,
    mean_bit_counts self' = means sample_far (mean_bit_counts sample_est) (near_at sample_est 3) /\
    first_min (mean_bit_counts self') 4 c best /\ is_max (mean_bit_counts self') 4 worst /\
    minimum_probability self' = new_minimum (minimum_probability sample_est) best worst /\
    WebRtc_ProcessBinarySpectrum sample_far sample_est 3 =
      Some (if instantaneous_valid (minimum_probability self') (i32 (last_delay_probability sample_est + 1)) best worst
            then c else last_delay sample_est, self').
Proof.
  apply (delay_decision 4 sample_far sample_est 3); [exact sample_far_wf|done|exact sample_est_wf| |done].
  unfold in_u32. lia.
Defined.

Lemma thresholds_behave_witness :
  exists r self', WebRtc_ProcessBinarySpectrum sample_far sample_est 3 = Some (r, self') /\
    8704 <= minimum_probability self' <= 16384.
Proof.
  destruct (WebRtc_ProcessBinarySpectrum sample_far sample_est 3) as [[r self']|] eqn:E.
  - exists r, self'. split; [done|].
    apply (thresholds_behave 4 sample_far sample_est 3 r self' sample_far_wf eq_refl sample_est_wf
             ltac:(unfold in_u32; lia) E).
  - exfalso. vm_compute in E. discriminate.
Defined.

Lemma delay_estimator_safe_witness :
  exists far far1 self self1 rs st,
    WebRtc_CreateBinaryDelayEstimatorFarend true (Some [9; 9; 9]) (Some [8; 8; 8]) 3 = Some (Some far) /\
    WebRtc_InitBinaryDelayEstimatorFarend far = Some far1 /\
    WebRtc_CreateBinaryDelayEstimator (Some sample_est) (Some [5; 5])
      (mkAllocs None None (Some [1; 2; 3; 4]) (Some [1; 2; 3]) (Some (repeat (f32_of_Z 7) 4))) (Some far) 1
      = Some (Some self) /\
    WebRtc_InitBinaryDelayEstimator self = Some self1 /\
    est_run (far1, self1) [FarSpectrum 255; NearSpectrum 3; SoftReset 1; NearSpectrum 255] = Some (rs, st) /\
    Forall (fun r => r = -2 \/ 0 <= r < 3) rs.
Proof.
  apply (delay_estimator_safe 3 1 [9; 9; 9] [8; 8; 8] sample_est [5; 5] [1; 2; 3; 4] [1; 2; 3]
           (repeat (f32_of_Z 7) 4)); try (simpl; lia).
  repeat (constructor; [simpl; unfold in_u32; lia|]). constructor.
Defined.

(** The far-end history is a shift register with matching counts: adding a
    spectrum puts it at delay [0] with its bit count and moves every older one
    a delay further, and a soft reset shifts the history by the given number of
    blocks, filling with zeros. *)
Theorem far_history_shifts far x k :
  far_wf far -> in_u32 x -> Z.abs k < far_history_size far ->
  (exists far', WebRtc_AddBinaryFarSpectrum far x = Some far' /\ far_wf far' /\
    znth (binary_far_history far') 0 = x /\
    forall i, 0 < i < far_history_size far -> znth (binary_far_history far') i = znth (binary_far_history far) (i - 1)) /\
  (exists far', WebRtc_SoftResetBinaryDelayEstimatorFarend far k = Some far' /\ far_wf far' /\
    forall i, 0 <= i < far_history_size far ->
      znth (binary_far_history far') i =
      (if (0 <=? i - k) && (i - k <? far_history_size far) then znth (binary_far_history far) (i - k) else 0)).
Proof.
  intros Hf Hx Hk. split.
  - destruct (AddBinaryFarSpectrum_wf far x Hf Hx) as [-> Hf']. eexists. split_and!; [done|done|done|].
    intros i Hi. cbn [binary_far_history]. apply znth_push. lia.
  - destruct (FarSoftReset_ok far k Hf Hk) as (far' & -> & Hf' & _ & H). eauto.
Qed.

Lemma far_history_shifts_witness :
  (exists far', WebRtc_AddBinaryFarSpectrum sample_far 7 = Some far' /\ far_wf far' /\
    znth (binary_far_history far') 0 = 7 /\
    forall i, 0 < i < far_history_size sample_far ->
      znth (binary_far_history far') i = znth (binary_far_history sample_far) (i - 1)) /\
  (exists far', WebRtc_SoftResetBinaryDelayEstimatorFarend sample_far (-2) = Some far' /\ far_wf far' /\
    forall i, 0 <= i < far_history_size sample_far ->
      znth (binary_far_history far') i =
      (if (0 <=? i - -2) && (i - -2 <? far_history_size sample_far)
       then znth (binary_far_history sample_far) (i - -2) else 0)).
Proof. apply far_history_shifts; [exact sample_far_wf|unfold in_u32; lia|simpl; lia]. Defined.

End DelayEstSpec.
