(* ===== verification/DelayTrack.v ===== *)
(** The delay estimator finds the echo.

    src/webrtc/modules/audio_processing/utility/delay_estimator.c is written to
    return the delay at which the near end repeats the far end. [Module
    DelayTrack] proves it does, for the definitions of DelayEstimator.v: from
    any well-formed state, an echo that stays at one delay while the spectra at
    the other delays differ from it in enough bits is found after a number of
    blocks that is computed here, and is never lost again. *)

From S2P Require Import Prelude Float32 DelayEstimator.

Module DelayTrack.
Import DelayEst DelayEstSpec.

(** ** How fast a smoothed count moves *)

(** What is left of a distance [m] after one step of the smoothing with a shift
    of at most [s], and of the largest distance after [k] steps. *)
Definition decay (s m : Z) : Z := m - m / 2 ^ s.
Definition settled (s : Z) (k : nat) : Z := Nat.iter k (decay s) 16384.

Lemma decay_mono s m m' : 0 <= s -> m <= m' -> decay s m <= decay s m'.
Proof.
  intros Hs Hm. unfold decay. assert (Hp : 0 < 2 ^ s) by (apply Z.pow_pos_nonneg; lia).
  enough (m' / 2 ^ s <= m / 2 ^ s + (m' - m)) by lia.
  rewrite <- Z.div_add by lia. apply Z.div_le_mono; nia.
Qed.

Lemma decay_nonneg s m : 0 <= s -> 0 <= m -> 0 <= decay s m <= m.
Proof.
  intros Hs Hm. pose proof (decay_mono s 0 m Hs Hm) as H. unfold decay in *.
  rewrite Z.div_0_l in H by (apply Z.pow_nonzero; lia).
  pose proof (Z.div_pos m (2 ^ s) Hm ltac:(apply Z.pow_pos_nonneg; lia)). lia.
Qed.

Lemma settled_nonneg s k : 0 <= s -> 0 <= settled s k.
Proof. intros Hs. induction k as [|k IH]; [done|]. apply (decay_nonneg s _ Hs IH). Qed.

Lemma settled_antitone s k k' : 0 <= s -> (k <= k')%nat -> settled s k' <= settled s k.
Proof.
  intros Hs. induction 1 as [|k' _ IH]; [done|].
  pose proof (decay_nonneg s _ Hs (settled_nonneg s k' Hs)) as H.
  change (settled s (S k')) with (decay s (settled s k')). lia.
Qed.

Lemma decay_shift f s m : 0 <= f <= s -> 0 <= m -> m - m / 2 ^ f <= decay s m.
Proof.
  intros Hf Hm. unfold decay. assert (Hp : 0 < 2 ^ f) by (apply Z.pow_pos_nonneg; lia).
  assert (2 ^ f <= 2 ^ s) by (apply Z.pow_le_mono_r; lia).
  enough (m / 2 ^ s <= m / 2 ^ f) by lia. by apply Z.div_le_compat_l.
Qed.

(** A count of zero pulls the mean down, a count of at least [B] pulls it up. *)
Lemma smoothing_falls f s mean D : 0 <= f <= s -> 0 <= mean <= 2147483647 -> mean <= D ->
  WebRtc_MeanEstimatorFix 0 f mean <= decay s D.
Proof.
  intros Hf Hm HD. rewrite MeanEstimatorFix_quot by lia.
  assert (0 < 2 ^ f) by (apply Z.pow_pos_nonneg; lia).
  replace (0 - mean) with (- mean) by lia. rewrite Z.quot_opp_l, Z.quot_div_nonneg by lia.
  pose proof (decay_shift f s mean Hf ltac:(lia)). pose proof (decay_mono s mean D). lia.
Qed.

Lemma smoothing_rises f s v mean B D : 0 <= f <= s -> B <= v <= 2147483647 -> 0 <= B ->
  0 <= mean <= 2147483647 -> B - mean <= D -> 0 <= D ->
  B - WebRtc_MeanEstimatorFix v f mean <= decay s D.
Proof.
  intros Hf Hv HB Hm HD HD0. pose proof (decay_nonneg s D ltac:(lia) HD0).
  destruct (Z.leb_spec B mean).
  { pose proof (MeanEstimatorFix_between v f mean). lia. }
  rewrite MeanEstimatorFix_quot by lia.
  assert (0 < 2 ^ f) by (apply Z.pow_pos_nonneg; lia). rewrite Z.quot_div_nonneg by lia.
  assert ((B - mean) / 2 ^ f <= (v - mean) / 2 ^ f) by (apply Z.div_le_mono; lia).
  pose proof (decay_shift f s (B - mean) Hf ltac:(lia)). pose proof (decay_mono s (B - mean) D). lia.
Qed.

(** ** An echo at one delay *)

(** The blocks [k .. k + m - 1]: the far end adds [X t], the near end [Y t]. *)
Definition echo_block (X Y : Z -> Z) (t : Z) : list EstOp := [FarSpectrum (X t); NearSpectrum (Y t)].
Definition echo_blocks (X Y : Z -> Z) (k : Z) (m : nat) : list EstOp :=
  seqZ k (Z.of_nat m) ≫= echo_block X Y.

Lemma est_run_app st ops1 ops2 r1 st1 r2 st2 : est_run st ops1 = Some (r1, st1) ->
  est_run st1 ops2 = Some (r2, st2) -> est_run st (ops1 ++ ops2) = Some (r1 ++ r2, st2).
Proof.
  revert st r1. induction ops1 as [|op ops IH]; intros st r1; simpl.
  { intros [= <- <-]. done. }
  destruct (est_step st op) as [[r st']|]; simpl; [|done].
  destruct (est_run st' ops) as [[rs st'']|] eqn:E; simpl; [|done]. intros [= <- <-] E2.
  rewrite (IH st' rs E E2). simpl. by rewrite app_assoc.
Qed.

Lemma mean_range n self i : est_wf n self -> 0 <= i <= n -> 0 <= znth (mean_bit_counts self) i < 16384.
Proof.
  intros He Hi. apply (Forall_aget _ _ i _ (wf_mean _ _ He)), aget_znth.
  rewrite (sh_mean _ _ (wf_shape _ _ He)). lia.
Qed.

Section echo.
(** The near end at block [t] is the far end of [d] blocks before; seen through
    the lookahead [la] it matches entry [D] of the history. *)
Context (n la d D b s : Z) (X Y : Z -> Z).
Context (Hla : 0 <= la) (Hd : 0 <= d) (HDeq : D = la + d) (HD : D < n) (Hs : 7 <= s).
Context (HX : forall t, 0 <= t -> in_u32 (X t)) (HY : forall t, in_u32 (Y t)).
Context (Hecho : forall t, d <= t -> Y t = X (t - d)).
Context (Hactive : forall t, 0 <= t -> 0 < popcount 32 (X t) /\ 13 - (3 * popcount 32 (X t)) / 16 <= s).
Context (Hdistinct : forall t i, n <= t -> 0 <= i < n -> i <> D ->
  b <= popcount 32 (Z.lxor (X (t - D)) (X (t - i)))).

Record echo_inv (k : Z) (st : BinaryDelayEstimatorFarend * BinaryDelayEstimator) : Prop := mkEchoInv {
  ei_far : far_wf st.1;
  ei_size : far_history_size st.1 = n;
  ei_est : est_wf n st.2;
  ei_robust : robust_validation_enabled st.2 = 0;
  ei_lookahead : lookahead st.2 = la;
  ei_history : forall i, 0 <= i < n -> i < k -> znth (binary_far_history st.1) i = X (k - 1 - i);
  ei_near : forall i, 0 <= i < la -> i < k -> znth (binary_near_history st.2) i = Y (k - 1 - i);
  ei_echo : n <= k -> znth (mean_bit_counts st.2) D <= settled s (Z.to_nat (k - n));
  ei_others : n <= k -> forall i, 0 <= i < n -> i <> D ->
    512 * b - znth (mean_bit_counts st.2) i <= settled s (Z.to_nat (k - n)) }.

(** Adding the far end of block [k]. *)
Lemma far_added k far : far_wf far -> far_history_size far = n -> 0 <= k ->
  (forall i, 0 <= i < n -> i < k -> znth (binary_far_history far) i = X (k - 1 - i)) ->
  exists far', WebRtc_AddBinaryFarSpectrum far (X k) = Some far' /\ far_wf far' /\ far_history_size far' = n /\
    forall i, 0 <= i < n -> i < k + 1 -> znth (binary_far_history far') i = X (k - i).
Proof.
  intros Hw Hn Hk Hh. destruct (AddBinaryFarSpectrum_wf far (X k) Hw (HX k Hk)) as [E Hw'].
  rewrite E. eexists. split; [done|]. split; [done|]. split; [done|]. intros i Hi Hik. simpl.
  destruct (Z.eqb_spec i 0) as [->|]; [by rewrite Z.sub_0_r|].
  rewrite znth_push by lia. rewrite Hh by lia. f_equal. lia.
Qed.

(** Once the histories are full, what is compared with the near end at delay
    [i] is known. *)
Lemma near_at_echo k self : n <= k -> lookahead self = la ->
  (forall i, 0 <= i < la -> i < k -> znth (binary_near_history self) i = Y (k - 1 - i)) ->
  near_at self (Y k) = X (k - D).
Proof.
  intros Hk Hl Hnear. unfold near_at. rewrite Hl. destruct (Z.eqb_spec la 0) as [E|E].
  - rewrite Hecho by lia. f_equal. lia.
  - rewrite Hnear by lia. rewrite Hecho by lia. f_equal. lia.
Qed.

Lemma near_pushed_echo k self : est_wf n self -> lookahead self = la -> 0 <= k ->
  (forall i, 0 <= i < la -> i < k -> znth (binary_near_history self) i = Y (k - 1 - i)) ->
  forall i, 0 <= i < la -> i < k + 1 -> znth (near_pushed self (Y k)) i = Y (k - i).
Proof.
  intros He Hl Hk Hnear i Hi Hik. pose proof (sh_lookahead _ _ (wf_shape _ _ He)). unfold near_pushed.
  destruct (Z.gtb_spec (near_history_size self) 1); [|lia].
  destruct (Z.eqb_spec i 0) as [->|]; [by rewrite Z.sub_0_r|].
  rewrite znth_push by lia. rewrite Hnear by lia. f_equal. lia.
Qed.

(** One smoothing step of every count. *)
Lemma smoothed_echo k far mean i m : far_wf far -> far_history_size far = n -> n <= k -> 0 <= i < n ->
  (forall i, 0 <= i < n -> znth (binary_far_history far) i = X (k - i)) ->
  0 <= znth mean i < 16384 -> 0 <= m -> 0 <= 512 * b ->
  (i = D -> znth mean i <= m -> smoothed far mean (X (k - D)) i <= decay s m) /\
  (i <> D -> 512 * b - znth mean i <= m -> 512 * b - smoothed far mean (X (k - D)) i <= decay s m).
Proof.
  intros Hw Hn Hk Hi Hh Hmi Hm Hb. unfold smoothed.
  destruct (far_count_at far i Hw ltac:(lia)) as (h & Eh & _ & Ec).
  apply znth_aget in Eh, Ec. rewrite Hh in Eh by done. rewrite Ec, Hh by done. subst h.
  destruct (Hactive (k - i) ltac:(lia)) as [Hpos Hshift]. destruct (Z.gtb_spec (popcount 32 (X (k - i))) 0); [|lia].
  pose proof (popcount_range 32 (X (k - i))) as Hr. assert (Hf : 0 <= 13 - 3 * popcount 32 (X (k - i)) / 16) by dlia.
  split; intros Hcase Hle.
  - subst i. rewrite Z.lxor_nilpotent. change (popcount 32 0 * 512) with 0. apply smoothing_falls; lia.
  - pose proof (popcount_range 32 (Z.lxor (X (k - D)) (X (k - i)))). pose proof (Hdistinct k i Hk Hi Hcase).
    apply smoothing_rises; lia.
Qed.

Lemma znth_means far mean x i : 0 <= i < far_history_size far -> znth (means far mean x) i = smoothed far mean x i.
Proof.
  intros Hi. unfold means. apply znth_aget. rewrite aget_app by lia. rewrite length_tab by lia.
  destruct (Z.ltb_spec i (far_history_size far)); [by apply aget_tab|lia].
Qed.

(** A settled valley decides the block. *)
Lemma settled_decides mean c best worst m level : 1 < n -> zlen mean = n + 1 -> 8704 <= m ->
  first_min mean n c best -> is_max mean n worst -> 2 * 2 ^ s + 1023 <= 512 * b <= 16384 ->
  znth mean D < 2 ^ s -> (forall i, 0 <= i < n -> i <> D -> 512 * b - znth mean i < 2 ^ s) ->
  c = D /\ instantaneous_valid m level best worst = true.
Proof.
  intros Hn Hl Hm (Hc & Hcb & Hmin & _) [_ Hmax] Hb Hlow Hhigh. apply znth_aget in Hcb.
  pose proof (Hmin D ltac:(lia)).
  assert (c = D) as ->. { destruct (Z.eqb_spec c D); [done|]. pose proof (Hhigh c Hc ltac:(done)). lia. }
  split; [done|]. unfold instantaneous_valid.
  set (o := if D =? 0 then 1 else 0). assert (Ho : 0 <= o < n /\ o <> D) by (subst o; destruct (Z.eqb_spec D 0); lia).
  pose proof (Hmax o ltac:(lia)). pose proof (Hhigh o ltac:(lia) ltac:(lia)).
  destruct (Z.gtb_spec (worst - best) 1024), (Z.ltb_spec best m); [done|lia..].
Qed.

(** A block keeps the invariant; once the counts have settled it returns the
    delay of the echo. *)
Lemma echo_block_ok k st : 0 <= k -> 2 * 2 ^ s + 1023 <= 512 * b <= 16384 -> echo_inv k st ->
  exists r st', est_run st (echo_block X Y k) = Some ([r], st') /\ echo_inv (k + 1) st' /\
    (n <= k -> settled s (Z.to_nat (k + 1 - n)) < 2 ^ s -> r = D).
Proof.
  intros Hk Hb [Hf Hn He Hr Hl Hh Hnear Hm Ho]. destruct st as [far self]; cbn [fst snd] in *.
  destruct (far_added k far Hf Hn Hk Hh) as (far' & E1 & Hf' & Hn' & Hh').
  destruct (Process_ok n far' self (Y k) Hf' Hn' He (HY k)) as (r & self' & c & best & worst & E2 & P).
  exists r, (far', self'). split. { cbn [est_run echo_block est_step]. rewrite E1. simpl. by rewrite E2. }
  assert (Hmeans : n <= k -> forall i, 0 <= i < n ->
    (i = D -> znth (mean_bit_counts self') i <= settled s (Z.to_nat (k + 1 - n))) /\
    (i <> D -> 512 * b - znth (mean_bit_counts self') i <= settled s (Z.to_nat (k + 1 - n)))).
  { intros Hnk i Hi. rewrite (pr_mean _ _ _ _ _ _ _ _ _ P), znth_means by lia.
    rewrite (near_at_echo k self Hnk Hl Hnear).
    replace (Z.to_nat (k + 1 - n)) with (S (Z.to_nat (k - n))) by lia.
    change (settled s (S ?j)) with (decay s (settled s j)).
    destruct (smoothed_echo k far' (mean_bit_counts self) i (settled s (Z.to_nat (k - n))) Hf' Hn' Hnk Hi) as [H1 H2].
    - intros j Hj. apply Hh'; lia.
    - apply (mean_range n); [done|lia].
    - apply settled_nonneg. lia.
    - lia.
    - split; intros Hc; [apply H1; [done|subst i; by apply Hm]|apply H2; [done|by apply Ho]]. }
  pose proof (pr_wf _ _ _ _ _ _ _ _ _ P) as He'. split.
  - destruct (pr_lookahead _ _ _ _ _ _ _ _ _ P) as [Hl' _]. constructor; cbn [fst snd]; [done|done|done| | | | | |].
    + by rewrite (pr_robust _ _ _ _ _ _ _ _ _ P).
    + by rewrite Hl'.
    + intros i Hi Hik. rewrite Hh' by done. f_equal. lia.
    + intros i Hi Hik. rewrite (pr_near _ _ _ _ _ _ _ _ _ P).
      rewrite (near_pushed_echo k self He Hl Hk Hnear i Hi Hik). f_equal. lia.
    + intros Hnk. destruct (Z.ltb_spec k n) as [Hlt|Hge]; [|by apply (Hmeans Hge D ltac:(lia))].
      replace (Z.to_nat (k + 1 - n)) with 0%nat by lia.
      pose proof (mean_range n self' D He' ltac:(lia)). change (settled s 0) with 16384. lia.
    + intros Hnk i Hi HiD. destruct (Z.ltb_spec k n) as [Hlt|Hge]; [|by apply (Hmeans Hge i Hi)].
      replace (Z.to_nat (k + 1 - n)) with 0%nat by lia.
      pose proof (mean_range n self' i He' ltac:(lia)). change (settled s 0) with 16384. lia.
  - intros Hnk Hsettled. specialize (Hmeans Hnk). pose proof (wf_min _ _ He') as Hmin.
    destruct (pr_level _ _ _ _ _ _ _ _ _ P) as (acc & -> & _ & Hacc). rewrite (Hacc Hr).
    destruct (settled_decides (mean_bit_counts self') c best worst (minimum_probability self')
      (i32 (last_delay_probability self + 1))) as [-> ->]; try done.
    + pose proof (sh_pos _ _ (wf_shape _ _ He')). lia.
    + apply (sh_mean _ _ (wf_shape _ _ He')).
    + lia.
    + apply P.
    + apply P.
    + destruct (Hmeans D) as [H _]; [lia|]. specialize (H eq_refl). lia.
    + intros i Hi HiD. destruct (Hmeans i Hi) as [_ H]. specialize (H HiD). lia.
Qed.

Lemma echo_blocks_ok m k st : 0 <= k -> 2 * 2 ^ s + 1023 <= 512 * b <= 16384 -> echo_inv k st ->
  exists rs st', est_run st (echo_blocks X Y k m) = Some (rs, st') /\ length rs = m /\
    forall j, (j < m)%nat -> n <= k + Z.of_nat j -> settled s (Z.to_nat (k + Z.of_nat j + 1 - n)) < 2 ^ s ->
      rs !! j = Some D.
Proof.
  revert k st. induction m as [|m IH]; intros k st Hk Hb Hi.
  { exists [], st. split_and!; [done|done|lia]. }
  destruct (echo_block_ok k st Hk Hb Hi) as (r & st1 & E1 & Hi1 & Hr).
  destruct (IH (k + 1) st1 ltac:(lia) Hb Hi1) as (rs & st2 & E2 & Hlen & Hrs).
  exists (r :: rs), st2. split_and!; [|by simpl; f_equal|].
  - replace (echo_blocks X Y k (S m)) with (echo_block X Y k ++ echo_blocks X Y (k + 1) m).
    + by apply (est_run_app _ _ _ [r] st1).
    + unfold echo_blocks. rewrite (seqZ_cons k) by lia. simpl. rewrite Z.add_1_r. do 5 f_equal. lia.
  - intros [|j] Hj Hn Hset; simpl.
    + rewrite Hr; [done|lia|]. replace (k + 1 - n) with (k + Z.of_nat 0 + 1 - n) by lia. done.
    + apply Hrs; [lia..|]. replace (k + 1 + Z.of_nat j + 1 - n) with (k + Z.of_nat (S j) + 1 - n) by lia. done.
Qed.

End echo.


(** C8. The estimator finds the echo, whatever it estimated before: from any
    well-formed state, if from now on the near end repeats the far end of [d]
    blocks before, every far-end spectrum has enough bits set for a shift of at
    most [s], and the spectra at the other delays of the history differ from the
    echo in at least [b] bits, then after the [n] blocks that fill the history
    and [N] more, where [N] steps of the slowest smoothing bring the largest
    distance below [2^s], every block returns [d] plus the lookahead. *)
Theorem delay_is_found n d b s N K far self X Y :
  far_wf far -> far_history_size far = n -> est_wf n self -> robust_validation_enabled self = 0 ->
  0 <= d -> lookahead self + d < n -> 7 <= s -> 2 * 2 ^ s + 1023 <= 512 * b <= 16384 ->
  settled s N < 2 ^ s ->
  (forall t, 0 <= t -> in_u32 (X t)) -> (forall t, in_u32 (Y t)) ->
  (forall t, d <= t -> Y t = X (t - d)) ->
  (forall t, 0 <= t -> 0 < popcount 32 (X t) /\ 13 - (3 * popcount 32 (X t)) / 16 <= s) ->
  (forall t i, n <= t -> 0 <= i < n -> i <> lookahead self + d ->
     b <= popcount 32 (Z.lxor (X (t - (lookahead self + d))) (X (t - i)))) ->
  exists rs st, est_run (far, self) (echo_blocks X Y 0 (Z.to_nat n + N + K)) = Some (rs, st) /\
    drop (Z.to_nat n + N) rs = replicate K (lookahead self + d).
Proof.
  intros Hf Hn He Hr Hd HD Hs Hb HN HX HY Hecho Hactive Hdistinct.
  pose proof (sh_lookahead _ _ (wf_shape _ _ He)) as Hla. pose proof (sh_pos _ _ (wf_shape _ _ He)) as Hpos.
  destruct (echo_blocks_ok n (lookahead self) d (lookahead self + d) b s X Y ltac:(lia) Hd eq_refl HD Hs HX HY
    Hecho Hactive Hdistinct (Z.to_nat n + N + K) 0 (far, self)) as (rs & st & E & Hlen & Hrs); [lia|done| |].
  { constructor; cbn [fst snd]; try done; lia. }
  exists rs, st. split; [done|]. apply list_eq. intros j. rewrite lookup_drop.
  destruct (decide (j < K)%nat) as [Hj|Hj].
  - rewrite lookup_replicate_2 by done. apply Hrs; [lia|lia|].
    pose proof (settled_antitone s N (Z.to_nat (0 + Z.of_nat (Z.to_nat n + N + j) + 1 - n)) ltac:(lia) ltac:(lia)). lia.
  - rewrite !lookup_ge_None_2; [done|rewrite length_replicate; lia|lia].
Qed.

(** Four spectra of sixteen bits that differ pairwise in sixteen bits, one
    after the other. *)
Definition walsh (t : Z) : Z :=
  match t mod 4 with 0 => 0x0000FFFF | 1 => 0x00FF00FF | 2 => 0x0F0F0F0F | _ => 0x33333333 end.

Lemma walsh_cases (P : Z -> Prop) t :
  P 0x0000FFFF -> P 0x00FF00FF -> P 0x0F0F0F0F -> P 0x33333333 -> P (walsh t).
Proof. intros H0 H1 H2 H3. unfold walsh. pose proof (Z.mod_pos_bound t 4). repeat case_match; done || lia. Qed.

Lemma walsh_differ t u : (t - u) mod 4 <> 0 -> popcount 32 (Z.lxor (walsh t) (walsh u)) = 16.
Proof.
  intros H. assert (E : t mod 4 <> u mod 4). { intros E. apply H. dlia. }
  unfold walsh. pose proof (Z.mod_pos_bound t 4 ltac:(lia)). pose proof (Z.mod_pos_bound u 4 ltac:(lia)).
  assert (t mod 4 = 0 \/ t mod 4 = 1 \/ t mod 4 = 2 \/ t mod 4 = 3) as Ht by lia.
  assert (u mod 4 = 0 \/ u mod 4 = 1 \/ u mod 4 = 2 \/ u mod 4 = 3) as Hu by lia.
  destruct Ht as [Ht|[Ht|[Ht|Ht]]], Hu as [Hu|[Hu|[Hu|Hu]]]; rewrite Ht, Hu in *; try done; try lia.
Qed.

(** The estimator of the witnesses, which starts with another estimate. *)
Definition lost_est : BinaryDelayEstimator := sample_est <| last_delay := 3 |> <| compare_delay := 3 |>.

Lemma delay_is_found_witness :
  exists rs st, est_run (sample_far, lost_est) (echo_blocks walsh (fun t => walsh (t - 1)) 0 (Z.to_nat 4 + Z.to_nat 3397 + 9)) =
      Some (rs, st) /\
    drop (Z.to_nat 4 + Z.to_nat 3397) rs = replicate 9 2.
Proof.
  apply (delay_is_found 4 1 16 10 (Z.to_nat 3397) 9 sample_far lost_est walsh (fun t => walsh (t - 1)));
    [exact sample_far_wf|reflexivity| |reflexivity|lia|simpl; lia|lia|lia|vm_compute; reflexivity| | | | |].
  - destruct sample_est_wf as [[] ? ? ? ?]. constructor; [constructor|..]; simpl in *; lia || done.
  - intros t _. apply walsh_cases; unfold in_u32; lia.
  - intros t. apply walsh_cases; unfold in_u32; lia.
  - intros t _. reflexivity.
  - intros t _. apply walsh_cases; vm_compute; split; done.
  - intros t i Ht Hi HiD. rewrite walsh_differ; [lia|]. simpl in *. dlia.
Defined.

End DelayTrack.
