(* ===== verification/DelayEstimatorWrapper.v ===== *)
(** The spectrum-level interface of the delay estimator,
    src/webrtc/modules/audio_processing/utility/delay_estimator_wrapper.c.

    A handle is an option, [None] for NULL.  The far-end part is shared by
    pointer: an operation on a [DelayEstimator] takes the binary far end it
    points to as an argument.  A [SpectrumType], a union of [float] and
    [int32_t], is its 32-bit pattern. *)

From S2P Require Import Prelude Float32 DelayEstimator.

Module DelayWrap.
Import DelayEst.

Definition kBandFirst : Z := 12.
Definition kBandLast : Z := 43.
Definition kBands : nat := Z.to_nat (kBandLast - kBandFirst + 1).

Record DelayEstimatorFarend := mkDelayFarend {
  mean_far_spectrum : list Z;
  far_spectrum_initialized : Z;
  far_spectrum_size : Z;
  binary_farend : BinaryDelayEstimatorFarend }.

#[export] Instance rebuild_DelayFarend : Rebuild DelayEstimatorFarend :=
  fun r => mkDelayFarend (mean_far_spectrum r) (far_spectrum_initialized r) (far_spectrum_size r) (binary_farend r).

Record DelayEstimator := mkDelayEstimator {
  mean_near_spectrum : list Z;
  near_spectrum_initialized : Z;
  spectrum_size : Z;
  binary_handle : BinaryDelayEstimator }.

#[export] Instance rebuild_DelayEstimator : Rebuild DelayEstimator :=
  fun r => mkDelayEstimator (mean_near_spectrum r) (near_spectrum_initialized r) (spectrum_size r) (binary_handle r).

(** ** Binary spectra *)

Definition SetBit (x pos : Z) : Z :=
  let mask := u32 (i32 (Z.shiftl 1 pos)) in
  Z.lor x mask.

Definition spectrum_q15 (x q_domain : Z) : Z := i32 (Z.shiftl x (15 - q_domain)).

(** The start of the thresholds, on [(threshold_spectrum, threshold_initialized)]. *)
Definition init_threshold_step (spectrum : list Z) (q_domain i : Z) (s : list Z * Z) : option (list Z * Z) :=
  let '(threshold, initialized) := s in
  let* x := aget spectrum i in
  if x >? 0 then
    let* threshold := aset threshold i (Z.shiftr (spectrum_q15 x q_domain) 1) in Some (threshold, 1)
  else Some (threshold, initialized).

(** The update and comparison, on [(threshold_spectrum, out)]. *)
Definition binary_step (spectrum : list Z) (q_domain i : Z) (s : list Z * Z) : option (list Z * Z) :=
  let '(threshold, out) := s in
  let* x := aget spectrum i in
  let* t := aget threshold i in
  let t := WebRtc_MeanEstimatorFix (spectrum_q15 x q_domain) 6 t in
  let* threshold := aset threshold i t in
  Some (threshold, if spectrum_q15 x q_domain >? t then SetBit out (i - kBandFirst) else out).

(** Returns [out], the thresholds and [*threshold_initialized]. *)
Definition BinarySpectrumFix (spectrum threshold_spectrum : list Z) (q_domain threshold_initialized : Z)
    : option (Z * list Z * Z) :=
  let* _ := c_assert (q_domain <? 16) in
  let* (threshold, initialized) :=
    if threshold_initialized =? 0
    then for_loop (init_threshold_step spectrum q_domain) kBandFirst kBands (threshold_spectrum, threshold_initialized)
    else Some (threshold_spectrum, threshold_initialized) in
  let* (threshold, out) := for_loop (binary_step spectrum q_domain) kBandFirst kBands (threshold, 0) in
  Some (out, threshold, initialized).

Definition MeanEstimatorFloat (new_value scale mean_value : float) : option float :=
  let* _ := c_assert (flt scale (f32_of_Z 1)) in
  Some (f32_add mean_value (f32_mul (f32_sub new_value mean_value) scale)).

Definition kScale : float := f32_lit 1 (-6).

Definition init_threshold_float_step (spectrum : list float) (i : Z) (s : list Z * Z) : option (list Z * Z) :=
  let '(threshold, initialized) := s in
  let* x := aget spectrum i in
  if fgt x (f32_of_Z 0) then
    let* threshold := aset threshold i (f32_bits (f32_div x (f32_of_Z 2))) in Some (threshold, 1)
  else Some (threshold, initialized).

Definition binary_float_step (spectrum : list float) (i : Z) (s : list Z * Z) : option (list Z * Z) :=
  let '(threshold, out) := s in
  let* x := aget spectrum i in
  let* t := aget threshold i in
  let* t := MeanEstimatorFloat x kScale (f32_of_bits t) in
  let* threshold := aset threshold i (f32_bits t) in
  Some (threshold, if fgt x t then SetBit out (i - kBandFirst) else out).

Definition BinarySpectrumFloat (spectrum : list float) (threshold_spectrum : list Z) (threshold_initialized : Z)
    : option (Z * list Z * Z) :=
  let* (threshold, initialized) :=
    if threshold_initialized =? 0
    then for_loop (init_threshold_float_step spectrum) kBandFirst kBands (threshold_spectrum, threshold_initialized)
    else Some (threshold_spectrum, threshold_initialized) in
  let* (threshold, out) := for_loop (binary_float_step spectrum) kBandFirst kBands (threshold, 0) in
  Some (out, threshold, initialized).

(** ** The far end *)

(** [fresh] is the structure's memory, [None] when malloc fails; the other
    arguments the outcomes of the remaining allocations. *)
Definition WebRtc_CreateDelayEstimatorFarend (fresh : option DelayEstimatorFarend) (malloc_binary : bool)
    (alloc_history alloc_counts malloc_mean : option (list Z)) (spectrum_size history_size : Z)
    : option (option DelayEstimatorFarend) :=
  match (if spectrum_size >=? kBandLast then fresh else None) with
  | None => Some None
  | Some self =>
      let* binary := WebRtc_CreateBinaryDelayEstimatorFarend malloc_binary alloc_history alloc_counts history_size in
      Some (match binary, malloc_mean with
            | Some binary, Some mean =>
                Some (self <| binary_farend := binary |> <| mean_far_spectrum := take (Z.to_nat spectrum_size) mean |>
                           <| far_spectrum_size := spectrum_size |>)
            | _, _ => None
            end)
  end.

Definition WebRtc_InitDelayEstimatorFarend (handle : option DelayEstimatorFarend)
    : option (Z * option DelayEstimatorFarend) :=
  match handle with
  | None => Some (-1, None)
  | Some self =>
      let* binary := WebRtc_InitBinaryDelayEstimatorFarend (binary_farend self) in
      let* mean := memset (mean_far_spectrum self) 0 0 (far_spectrum_size self) in
      Some (0, Some (self <| binary_farend := binary |> <| mean_far_spectrum := mean |>
                          <| far_spectrum_initialized := 0 |>))
  end.

Definition WebRtc_SoftResetDelayEstimatorFarend (self : DelayEstimatorFarend) (delay_shift : Z)
    : option DelayEstimatorFarend :=
  let* binary := WebRtc_SoftResetBinaryDelayEstimatorFarend (binary_farend self) delay_shift in
  Some (self <| binary_farend := binary |>).

Definition WebRtc_AddFarSpectrumFix (handle : option DelayEstimatorFarend) (far_spectrum : option (list Z))
    (spectrum_size far_q : Z) : option (Z * option DelayEstimatorFarend) :=
  match handle with
  | None => Some (-1, None)
  | Some self =>
      match far_spectrum with
      | None => Some (-1, handle)
      | Some spectrum =>
          if negb (spectrum_size =? far_spectrum_size self) then Some (-1, handle)
          else if far_q >? 15 then Some (-1, handle)
          else
            let* (x, mean, init) :=
              BinarySpectrumFix spectrum (mean_far_spectrum self) far_q (far_spectrum_initialized self) in
            let* binary := WebRtc_AddBinaryFarSpectrum (binary_farend self) x in
            Some (0, Some (self <| mean_far_spectrum := mean |> <| far_spectrum_initialized := init |>
                                <| binary_farend := binary |>))
      end
  end.

Definition WebRtc_AddFarSpectrumFloat (handle : option DelayEstimatorFarend) (far_spectrum : option (list float))
    (spectrum_size : Z) : option (Z * option DelayEstimatorFarend) :=
  match handle with
  | None => Some (-1, None)
  | Some self =>
      match far_spectrum with
      | None => Some (-1, handle)
      | Some spectrum =>
          if negb (spectrum_size =? far_spectrum_size self) then Some (-1, handle)
          else
            let* (x, mean, init) :=
              BinarySpectrumFloat spectrum (mean_far_spectrum self) (far_spectrum_initialized self) in
            let* binary := WebRtc_AddBinaryFarSpectrum (binary_farend self) x in
            Some (0, Some (self <| mean_far_spectrum := mean |> <| far_spectrum_initialized := init |>
                                <| binary_farend := binary |>))
      end
  end.

(** ** The estimator *)

Definition WebRtc_CreateDelayEstimator (fresh : option DelayEstimator) (fresh_binary : option BinaryDelayEstimator)
    (malloc_near malloc_mean : option (list Z)) (al : Allocs) (farend : option DelayEstimatorFarend)
    (max_lookahead : Z) : option (option DelayEstimator) :=
  match farend, fresh with
  | Some farend, Some self =>
      let* binary := WebRtc_CreateBinaryDelayEstimator fresh_binary malloc_near al
                       (Some (binary_farend farend)) max_lookahead in
      Some (match binary, malloc_mean with
            | Some binary, Some mean =>
                Some (self <| binary_handle := binary |>
                           <| mean_near_spectrum := take (Z.to_nat (far_spectrum_size farend)) mean |>
                           <| spectrum_size := far_spectrum_size farend |>)
            | _, _ => None
            end)
  | _, _ => Some None
  end.

Definition WebRtc_InitDelayEstimator (handle : option DelayEstimator) : option (Z * option DelayEstimator) :=
  match handle with
  | None => Some (-1, None)
  | Some self =>
      let* binary := WebRtc_InitBinaryDelayEstimator (binary_handle self) in
      let* mean := memset (mean_near_spectrum self) 0 0 (spectrum_size self) in
      Some (0, Some (self <| binary_handle := binary |> <| mean_near_spectrum := mean |>
                          <| near_spectrum_initialized := 0 |>))
  end.

Definition WebRtc_SoftResetDelayEstimator (self : DelayEstimator) (delay_shift : Z) : Z * DelayEstimator :=
  let '(r, binary) := WebRtc_SoftResetBinaryDelayEstimator (binary_handle self) delay_shift in
  (r, self <| binary_handle := binary |>).

Definition WebRtc_set_history_size (al : Allocs) (far : BinaryDelayEstimatorFarend) (handle : option DelayEstimator)
    (history_size : Z) : option (Z * BinaryDelayEstimatorFarend * option DelayEstimator) :=
  match handle with
  | None => Some (-1, far, None)
  | Some self =>
      if history_size <=? 1 then Some (-1, far, handle)
      else
        let* (n, far, binary) := WebRtc_AllocateHistoryBufferMemory al far (binary_handle self) history_size in
        Some (n, far, Some (self <| binary_handle := binary |>))
  end.

Definition WebRtc_history_size (far : BinaryDelayEstimatorFarend) (handle : option DelayEstimator) : Z :=
  match handle with
  | None => -1
  | Some self =>
      if negb (far_history_size far =? history_size (binary_handle self)) then -1
      else history_size (binary_handle self)
  end.

Definition WebRtc_set_lookahead (self : DelayEstimator) (la : Z) : Z * DelayEstimator :=
  if (la >? near_history_size (binary_handle self) - 1) || (la <? 0) then (-1, self)
  else (la, self <| binary_handle := (binary_handle self) <| lookahead := la |> |>).

Definition WebRtc_lookahead (self : DelayEstimator) : Z := lookahead (binary_handle self).

Definition WebRtc_set_allowed_offset (handle : option DelayEstimator) (offset : Z) : Z * option DelayEstimator :=
  match handle with
  | None => (-1, None)
  | Some self =>
      if offset <? 0 then (-1, handle)
      else (0, Some (self <| binary_handle := (binary_handle self) <| allowed_offset := offset |> |>))
  end.

Definition WebRtc_get_allowed_offset (handle : option DelayEstimator) : Z :=
  match handle with None => -1 | Some self => allowed_offset (binary_handle self) end.

Definition WebRtc_enable_robust_validation (handle : option DelayEstimator) (enable : Z) : Z * option DelayEstimator :=
  match handle with
  | None => (-1, None)
  | Some self =>
      if (enable <? 0) || (enable >? 1) then (-1, handle)
      else (0, Some (self <| binary_handle := (binary_handle self) <| robust_validation_enabled := enable |> |>))
  end.

Definition WebRtc_is_robust_validation_enabled (handle : option DelayEstimator) : Z :=
  match handle with None => -1 | Some self => robust_validation_enabled (binary_handle self) end.

Definition WebRtc_DelayEstimatorProcessFix (far : BinaryDelayEstimatorFarend) (handle : option DelayEstimator)
    (near_spectrum : option (list Z)) (size near_q : Z) : option (Z * option DelayEstimator) :=
  match handle with
  | None => Some (-1, None)
  | Some self =>
      match near_spectrum with
      | None => Some (-1, handle)
      | Some spectrum =>
          if negb (size =? spectrum_size self) then Some (-1, handle)
          else if near_q >? 15 then Some (-1, handle)
          else
            let* (x, mean, init) :=
              BinarySpectrumFix spectrum (mean_near_spectrum self) near_q (near_spectrum_initialized self) in
            let* (r, binary) := WebRtc_ProcessBinarySpectrum far (binary_handle self) x in
            Some (r, Some (self <| mean_near_spectrum := mean |> <| near_spectrum_initialized := init |>
                                <| binary_handle := binary |>))
      end
  end.

Definition WebRtc_DelayEstimatorProcessFloat (far : BinaryDelayEstimatorFarend) (handle : option DelayEstimator)
    (near_spectrum : option (list float)) (size : Z) : option (Z * option DelayEstimator) :=
  match handle with
  | None => Some (-1, None)
  | Some self =>
      match near_spectrum with
      | None => Some (-1, handle)
      | Some spectrum =>
          if negb (size =? spectrum_size self) then Some (-1, handle)
          else
            let* (x, mean, init) :=
              BinarySpectrumFloat spectrum (mean_near_spectrum self) (near_spectrum_initialized self) in
            let* (r, binary) := WebRtc_ProcessBinarySpectrum far (binary_handle self) x in
            Some (r, Some (self <| mean_near_spectrum := mean |> <| near_spectrum_initialized := init |>
                                <| binary_handle := binary |>))
      end
  end.

Definition WebRtc_last_delay (handle : option DelayEstimator) : Z :=
  match handle with None => -1 | Some self => WebRtc_binary_last_delay (binary_handle self) end.

Definition WebRtc_last_delay_quality (self : DelayEstimator) : option float :=
  WebRtc_binary_last_delay_quality (binary_handle self).

End DelayWrap.

Module DelayWrapSpec.
Import DelayEst DelayEstSpec DelayWrap.

Definition threshold_ok (threshold : list Z) : Prop := Forall (fun t => 0 <= t <= 2147483647) threshold.

Lemma spectrum_q15_ok x q : in_u16 x -> 0 <= q <= 15 ->
  spectrum_q15 x q = x * 2 ^ (15 - q) /\ 0 <= spectrum_q15 x q <= 2147450880.
Proof.
  intros Hx Hq. unfold in_u16 in Hx. unfold spectrum_q15. rewrite Z.shiftl_mul_pow2 by lia.
  assert (1 <= 2 ^ (15 - q) <= 32768).
  { split; [apply (Z.pow_le_mono_r 2 0)|apply (Z.pow_le_mono_r 2 (15 - q) 15)]; lia. }
  rewrite i32_id by (unfold in_i32; nia). nia.
Qed.

Lemma SetBit_testbit x p j : 0 <= p < 32 -> 0 <= j -> Z.testbit (SetBit x p) j = Z.testbit x j || (j =? p).
Proof.
  intros Hp Hj. unfold SetBit. rewrite Z.shiftl_1_l.
  replace (u32 (i32 (2 ^ p))) with (2 ^ p).
  - rewrite Z.lor_spec. f_equal. rewrite Z.pow2_bits_eqb by lia. apply Z.eqb_sym.
  - assert (0 < 2 ^ p <= 2147483648) by
      (split; [apply Z.pow_pos_nonneg; lia|apply (Z.pow_le_mono_r 2 p 31); lia]). cint_lia.
Qed.

Lemma testbit_u32 x : (forall j, 32 <= j -> Z.testbit x j = false) -> 0 <= x -> in_u32 x.
Proof.
  intros Hb Hx. unfold in_u32. split; [done|].
  enough (E : x = x mod 2 ^ 32) by (pose proof (Z.mod_pos_bound x (2 ^ 32)); lia).
  apply Z.bits_inj'. intros j Hj. destruct (Z.ltb_spec j 32).
  - by rewrite Z.mod_pow2_bits_low by lia.
  - rewrite Z.mod_pow2_bits_high by lia. apply Hb. lia.
Qed.

Section binary.
Context (spectrum : list Z) (q : Z).
Context (Hlen : 44 <= zlen spectrum) (Hsp : Forall in_u16 spectrum) (Hq : 0 <= q <= 15).

Definition in_q15 (i : Z) : Z := znth spectrum i * 2 ^ (15 - q).

Lemma at_band i : 12 <= i < 44 ->
  aget spectrum i = Some (znth spectrum i) /\ spectrum_q15 (znth spectrum i) q = in_q15 i /\
  0 <= in_q15 i <= 2147450880 /\ in_u16 (znth spectrum i).
Proof using Hlen Hsp Hq.
  intros Hi. pose proof (aget_znth spectrum i ltac:(lia)) as E.
  pose proof (Forall_aget _ _ _ _ Hsp E) as Hx. destruct (spectrum_q15_ok _ q Hx Hq) as [E1 E2].
  unfold in_q15. rewrite <- E1. done.
Qed.

(** The thresholds before the update: half the first spectrum, on its
    non-zero bands. *)
Definition start (threshold : list Z) (initialized i : Z) : Z :=
  if (initialized =? 0) && (12 <=? i) && (i <? 44) && (znth spectrum i >? 0)
  then in_q15 i / 2 else znth threshold i.

Lemma init_loop_ok th : 44 <= zlen th -> threshold_ok th ->
  exists th' init, for_loop (init_threshold_step spectrum q) kBandFirst kBands (th, 0) = Some (th', init) /\
    length th' = length th /\ threshold_ok th' /\ forall i, znth th' i = start th 0 i.
Proof using Hlen Hsp Hq.
  intros Hl Hok.
  destruct (for_loop_inv (fun i '(t, _) => length t = length th /\ threshold_ok t /\
      forall j, znth t j = if j <? i then start th 0 j else znth th j)
    (init_threshold_step spectrum q) kBandFirst kBands (th, 0)) as ([th' init] & E & Hl' & Hok' & Hv).
  - split_and!; [done|done|]. intros j. unfold start, kBandFirst.
    destruct (Z.ltb_spec j 12), (Z.leb_spec 12 j); try lia; done.
  - intros i [t init] Hi (Ht & Htok & Hv). change (kBandFirst + Z.of_nat kBands) with 44 in Hi. unfold kBandFirst in Hi.
    destruct (at_band i ltac:(lia)) as (E1 & E2 & E3 & E4). unfold init_threshold_step. rewrite E1. cbn [mbind option_bind].
    destruct (Z.gtb_spec (znth spectrum i) 0) as [Hpos|Hz].
    + rewrite aset_Some by lia. cbn [mbind option_bind]. eexists. split; [done|]. split_and!.
      * by rewrite length_insert.
      * apply Forall_insert; [done|]. rewrite E2, Z.shiftr_div_pow2 by lia. change (2 ^ 1) with 2. dlia.
      * intros j. unfold znth at 1. erewrite aget_aset by (apply aset_Some; lia).
        destruct (Z.eqb_spec j i) as [->|Hne].
        -- destruct (Z.ltb_spec i (i + 1)); [|lia]. unfold start.
           destruct (Z.leb_spec 12 i), (Z.ltb_spec i 44), (Z.gtb_spec (znth spectrum i) 0); try lia. simpl.
           rewrite E2, Z.shiftr_div_pow2 by lia. done.
        -- fold (znth t j). rewrite Hv. destruct (Z.ltb_spec j i), (Z.ltb_spec j (i + 1)); done || lia.
    + eexists. split; [done|]. split_and!; [done|done|]. intros j. rewrite Hv.
      destruct (Z.ltb_spec j i), (Z.ltb_spec j (i + 1)); try done; try lia.
      replace j with i by lia. unfold start. destruct (Z.gtb_spec (znth spectrum i) 0); [lia|].
      by rewrite andb_false_r.
  - exists th', init. split_and!; [done|done|done|]. intros i. rewrite Hv.
    change (kBandFirst + Z.of_nat kBands) with 44. destruct (Z.ltb_spec i 44); [done|].
    unfold start. destruct (Z.ltb_spec i 44); [lia|]. by rewrite andb_false_r.
Qed.

(** The thresholds after the update. *)
Definition updated (threshold : list Z) (i : Z) : Z :=
  if (12 <=? i) && (i <? 44) then WebRtc_MeanEstimatorFix (in_q15 i) 6 (znth threshold i) else znth threshold i.

Lemma binary_loop_ok th : 44 <= zlen th -> threshold_ok th ->
  exists th' out, for_loop (binary_step spectrum q) kBandFirst kBands (th, 0) = Some (th', out) /\
    length th' = length th /\ threshold_ok th' /\ (forall i, znth th' i = updated th i) /\ in_u32 out /\
    (forall j, 0 <= j < 32 -> Z.testbit out j = (in_q15 (j + 12) >? updated th (j + 12))).
Proof using Hlen Hsp Hq.
  intros Hl Hok.
  destruct (for_loop_inv (fun i '(t, out) => length t = length th /\ threshold_ok t /\
      (forall j, znth t j = if j <? i then updated th j else znth th j) /\ 0 <= out /\
      forall j, 0 <= j -> Z.testbit out j = (j <? i - 12) && (in_q15 (j + 12) >? updated th (j + 12)))
    (binary_step spectrum q) kBandFirst kBands (th, 0)) as ([th' out] & E & Hl' & Hok' & Hv & Hpos & Hb).
  - split_and!; [done|done| |done|].
    + intros j. unfold updated, kBandFirst. destruct (Z.ltb_spec j 12), (Z.leb_spec 12 j); try lia; done.
    + intros j Hj. unfold kBandFirst. rewrite Z.bits_0. destruct (Z.ltb_spec j (12 - 12)); [lia|done].
  - intros i [t out] Hi (Ht & Htok & Hv & Hpos & Hb). change (kBandFirst + Z.of_nat kBands) with 44 in Hi.
    unfold kBandFirst in Hi.
    destruct (at_band i ltac:(lia)) as (E1 & E2 & E3 & E4). unfold binary_step. rewrite E1. cbn [mbind option_bind].
    assert (Eti : znth t i = znth th i) by (rewrite Hv; destruct (Z.ltb_spec i i); [lia|done]).
    rewrite (aget_znth t i) by lia. cbn [mbind option_bind]. rewrite aset_Some by lia. cbn [mbind option_bind].
    rewrite E2, Eti.
    assert (Eu : WebRtc_MeanEstimatorFix (in_q15 i) 6 (znth th i) = updated th i)
      by (unfold updated; destruct (Z.leb_spec 12 i), (Z.ltb_spec i 44); done || lia).
    rewrite Eu. eexists. split; [done|]. split_and!.
    + by rewrite length_insert.
    + apply Forall_insert; [done|]. rewrite <- Eu.
      pose proof (Forall_aget _ _ _ _ Htok (aget_znth t i ltac:(lia))) as Hti. simpl in Hti. rewrite Eti in Hti.
      pose proof (MeanEstimatorFix_between (in_q15 i) 6 (znth th i)). lia.
    + intros j. unfold znth at 1. erewrite aget_aset by (apply aset_Some; lia).
      destruct (Z.eqb_spec j i) as [->|Hne].
      * destruct (Z.ltb_spec i (i + 1)); [done|lia].
      * fold (znth t j). rewrite Hv. destruct (Z.ltb_spec j i), (Z.ltb_spec j (i + 1)); done || lia.
    + destruct (in_q15 i >? updated th i); [|done]. unfold SetBit. apply Z.lor_nonneg. split; [done|].
      apply u32_range.
    + intros j Hj. unfold kBandFirst. destruct (in_q15 i >? updated th i) eqn:Eb.
      * rewrite SetBit_testbit, Hb by lia. destruct (Z.eqb_spec j (i - 12)) as [->|].
        -- replace (i - 12 + 12) with i by lia. rewrite Eb, orb_true_r.
           by destruct (Z.ltb_spec (i - 12) (i + 1 - 12)); [|lia].
        -- rewrite orb_false_r. destruct (Z.ltb_spec j (i - 12)), (Z.ltb_spec j (i + 1 - 12)); done || lia.
      * rewrite Hb by lia. destruct (Z.ltb_spec j (i - 12)), (Z.ltb_spec j (i + 1 - 12)); try done; try lia.
        replace (j + 12) with i by lia. by rewrite Eb.
  - change (kBandFirst + Z.of_nat kBands) with 44 in *. exists th', out. split_and!; [done|done|done| |..].
    + intros i. rewrite Hv. destruct (Z.ltb_spec i 44); [done|]. unfold updated.
      destruct (Z.ltb_spec i 44); [lia|]. by rewrite andb_false_r.
    + apply testbit_u32; [|done]. intros j Hj. rewrite Hb by lia.
      by destruct (Z.ltb_spec j (44 - 12)); [lia|].
    + intros j Hj. rewrite Hb by lia. by destruct (Z.ltb_spec j (44 - 12)); [|lia].
Qed.
End binary.

(** ** The interface *)

(** A far end, respectively an estimator, as creation with at least 44 bands
    and initialisation leave it. *)
Record wrap_far_wf (n : Z) (self : DelayEstimatorFarend) : Prop := mkWrapFar {
  wfar_size : 44 <= far_spectrum_size self;
  wfar_len : zlen (mean_far_spectrum self) = far_spectrum_size self;
  wfar_threshold : threshold_ok (mean_far_spectrum self);
  wfar_binary : far_wf (binary_farend self);
  wfar_history : far_history_size (binary_farend self) = n }.

Record wrap_est_wf (n : Z) (self : DelayEstimator) : Prop := mkWrapEst {
  west_size : 44 <= spectrum_size self;
  west_len : zlen (mean_near_spectrum self) = spectrum_size self;
  west_threshold : threshold_ok (mean_near_spectrum self);
  west_binary : est_wf n (binary_handle self) }.

Lemma start_ok spectrum q th init : 44 <= zlen spectrum -> Forall in_u16 spectrum -> 0 <= q <= 15 ->
  44 <= zlen th -> threshold_ok th ->
  exists th' init', (if init =? 0 then for_loop (init_threshold_step spectrum q) kBandFirst kBands (th, init)
      else Some (th, init)) = Some (th', init') /\ length th' = length th /\ threshold_ok th' /\
    forall i, znth th' i = start spectrum q th init i.
Proof.
  intros Hl Hs Hq Ht Hok. destruct (Z.eqb_spec init 0) as [->|Hne].
  - by apply init_loop_ok.
  - exists th, init. split_and!; [done..|]. intros i. unfold start. by destruct (Z.eqb_spec init 0).
Qed.

(** What the binary spectrum of [spectrum] is, for the thresholds [th]. *)
Record binary_spectrum (spectrum : list Z) (q init : Z) (th : list Z) (out : Z) (th' : list Z) : Prop := mkBinary {
  bs_len : length th' = length th;
  bs_ok : threshold_ok th';
  bs_u32 : in_u32 out;
  bs_threshold : forall i, znth th' i =
    if (12 <=? i) && (i <? 44)
    then WebRtc_MeanEstimatorFix (in_q15 spectrum q i) 6 (start spectrum q th init i) else znth th i;
  bs_bits : forall j, 0 <= j < 32 -> Z.testbit out j = (in_q15 spectrum q (j + 12) >? znth th' (j + 12)) }.

Lemma BinarySpectrumFix_ok spectrum th q init :
  44 <= zlen spectrum -> Forall in_u16 spectrum -> 0 <= q <= 15 -> 44 <= zlen th -> threshold_ok th ->
  exists out th' init', BinarySpectrumFix spectrum th q init = Some (out, th', init') /\
    binary_spectrum spectrum q init th out th'.
Proof.
  intros Hl Hs Hq Ht Hok. unfold BinarySpectrumFix. destruct (Z.ltb_spec q 16); [|lia]. cbn [c_assert mbind option_bind].
  destruct (start_ok spectrum q th init Hl Hs Hq Ht Hok) as (th1 & init1 & -> & Hl1 & Hok1 & Hv1).
  cbn [mbind option_bind].
  destruct (binary_loop_ok spectrum q Hl Hs Hq th1 ltac:(lia) Hok1) as (th2 & out & -> & Hl2 & Hok2 & Hv2 & Hu & Hb).
  cbn [mbind option_bind]. exists out, th2, init1. split; [done|]. constructor; [lia|done|done| |].
  - intros i. rewrite Hv2. unfold updated. destruct (Z.leb_spec 12 i), (Z.ltb_spec i 44); simpl; rewrite Hv1; try done.
    all: unfold start; destruct (Z.leb_spec 12 i), (Z.ltb_spec i 44); try lia; by rewrite ?andb_false_r.
  - intros j Hj. by rewrite Hv2, Hb by lia.
Qed.

Lemma AddFar_ok n far spectrum q : wrap_far_wf n far -> zlen spectrum = far_spectrum_size far ->
  Forall in_u16 spectrum -> 0 <= q <= 15 ->
  exists far', WebRtc_AddFarSpectrumFix (Some far) (Some spectrum) (zlen spectrum) q = Some (0, Some far') /\
    wrap_far_wf n far' /\ far_spectrum_size far' = far_spectrum_size far.
Proof.
  intros [Hs Hl Hok Hb Hn] Hlen Hsp Hq. unfold WebRtc_AddFarSpectrumFix. rewrite Hlen, Z.eqb_refl. cbn [negb].
  destruct (Z.gtb_spec q 15); [lia|].
  destruct (BinarySpectrumFix_ok spectrum (mean_far_spectrum far) q (far_spectrum_initialized far))
    as (x & mean & init & -> & Hbs); try done; try lia. cbn [mbind option_bind].
  destruct (AddBinaryFarSpectrum_wf (binary_farend far) x Hb (bs_u32 _ _ _ _ _ _ Hbs)) as [-> Hb'].
  cbn [mbind option_bind]. eexists. split; [done|]. destruct Hbs. split; [|done]. constructor; simpl; try done. lia.
Qed.

Lemma ProcessFix_ok n far self spectrum q : far_wf far -> far_history_size far = n -> wrap_est_wf n self ->
  zlen spectrum = spectrum_size self -> Forall in_u16 spectrum -> 0 <= q <= 15 ->
  exists r self', WebRtc_DelayEstimatorProcessFix far (Some self) (Some spectrum) (zlen spectrum) q =
      Some (r, Some self') /\ wrap_est_wf n self' /\ (r = -2 \/ 0 <= r < n) /\ r = WebRtc_last_delay (Some self') /\
      spectrum_size self' = spectrum_size self.
Proof.
  intros Hfar Hn [Hs Hl Hok Hb] Hlen Hsp Hq. unfold WebRtc_DelayEstimatorProcessFix. rewrite Hlen, Z.eqb_refl. cbn [negb].
  destruct (Z.gtb_spec q 15); [lia|].
  destruct (BinarySpectrumFix_ok spectrum (mean_near_spectrum self) q (near_spectrum_initialized self))
    as (x & mean & init & -> & Hbs); try done; try lia. cbn [mbind option_bind].
  destruct (Process_ok n far (binary_handle self) x Hfar Hn Hb (bs_u32 _ _ _ _ _ _ Hbs))
    as (r & binary & c & b & w & -> & P).
  cbn [mbind option_bind]. eexists r, _. split; [done|]. destruct Hbs, P. split_and!; try done.
  - constructor; simpl; try done. lia.
  - destruct (wf_delay _ _ pr_wf0); lia.
Qed.

(** ** Properties *)

(** The binary spectrum: bit [j] tells whether band [12 + j], brought to
    Q15, lies above its threshold, and the thresholds follow the spectrum by
    1/64 of the difference, starting from half the first spectrum.  With at
    least 44 bands and a Q-domain between 0 and 15 no access leaves the arrays
    and no shift overflows. *)
Theorem binary_spectrum_correct spectrum th q init :
  44 <= zlen spectrum -> Forall in_u16 spectrum -> 0 <= q <= 15 -> 44 <= zlen th -> threshold_ok th ->
  exists out th' init', BinarySpectrumFix spectrum th q init = Some (out, th', init') /\ in_u32 out /\
    (forall j, 0 <= j < 32 -> Z.testbit out j = (znth spectrum (j + 12) * 2 ^ (15 - q) >? znth th' (j + 12))) /\
    (forall i, 12 <= i < 44 -> znth th' i = WebRtc_MeanEstimatorFix (znth spectrum i * 2 ^ (15 - q)) 6
       (if (init =? 0) && (znth spectrum i >? 0) then znth spectrum i * 2 ^ (15 - q) / 2 else znth th i)).
Proof.
  intros Hl Hs Hq Ht Hok. destruct (BinarySpectrumFix_ok spectrum th q init Hl Hs Hq Ht Hok) as (out & th' & i' & E & B).
  exists out, th', i'. destruct B as [_ _ Hu Hth Hbits]. split_and!; [done|done|done|].
  intros i Hi. rewrite Hth. unfold start, in_q15. destruct (Z.leb_spec 12 i), (Z.ltb_spec i 44); try lia.
  by rewrite !andb_true_r.
Qed.

Lemma binary_spectrum_correct_witness :
  let spectrum := replicate 44 100 in let th := replicate 44 0 in
  exists out th' init', BinarySpectrumFix spectrum th 3 0 = Some (out, th', init') /\ in_u32 out /\
    (forall j, 0 <= j < 32 -> Z.testbit out j = (znth spectrum (j + 12) * 2 ^ (15 - 3) >? znth th' (j + 12))) /\
    (forall i, 12 <= i < 44 -> znth th' i = WebRtc_MeanEstimatorFix (znth spectrum i * 2 ^ (15 - 3)) 6
       (if (0 =? 0) && (znth spectrum i >? 0) then znth spectrum i * 2 ^ (15 - 3) / 2 else znth th i)).
Proof.
  intros spectrum th.
  apply (binary_spectrum_correct spectrum th 3 0 ltac:(simpl; lia)
           ltac:(apply Forall_replicate; unfold in_u16; lia) ltac:(lia) ltac:(simpl; lia)
           ltac:(apply Forall_replicate; lia)).
Defined.

(** The interface keeps its state well-formed and reports its errors: a
    NULL handle or spectrum, a spectrum of another size and a Q-domain above 15
    return [-1] and change nothing; a spectrum of the right size and domain is
    processed, and the delay returned is [-2] or an index of the history. *)
Theorem wrapper_contract n far self spectrum size q :
  wrap_far_wf n far -> wrap_est_wf n self -> far_spectrum_size far = spectrum_size self ->
  match spectrum with Some s => zlen s = size /\ Forall in_u16 s | None => True end -> 0 <= q ->
  let good := match spectrum with Some _ => (size =? spectrum_size self) && (q <=? 15) | None => false end in
  (if good : bool then
     (exists far', WebRtc_AddFarSpectrumFix (Some far) spectrum size q = Some (0, Some far') /\ wrap_far_wf n far') /\
     (exists r self', WebRtc_DelayEstimatorProcessFix (binary_farend far) (Some self) spectrum size q =
        Some (r, Some self') /\ wrap_est_wf n self' /\ (r = -2 \/ 0 <= r < n))
   else
     WebRtc_AddFarSpectrumFix (Some far) spectrum size q = Some (-1, Some far) /\
     WebRtc_DelayEstimatorProcessFix (binary_farend far) (Some self) spectrum size q = Some (-1, Some self)) /\
  WebRtc_AddFarSpectrumFix None spectrum size q = Some (-1, None) /\
  WebRtc_DelayEstimatorProcessFix (binary_farend far) None spectrum size q = Some (-1, None).
Proof.
  intros Hf He Hsz Hsp Hq good. split; [|done]. subst good. destruct spectrum as [s|]; [|done].
  destruct Hsp as [<- Hs]. destruct (Z.eqb_spec (zlen s) (spectrum_size self)) as [El|Nl].
  - destruct (Z.leb_spec q 15); cbn [andb].
    + split; [destruct (AddFar_ok n far s q) as (far' & ? & ? & _); [done|congruence|done|lia|eauto]|].
      destruct (ProcessFix_ok n (binary_farend far) self s q) as (r & self' & E & ? & ? & _);
        [apply (wfar_binary _ _ Hf)|apply (wfar_history _ _ Hf)|done..|eauto].
    + unfold WebRtc_AddFarSpectrumFix, WebRtc_DelayEstimatorProcessFix.
      rewrite El, Hsz, Z.eqb_refl. destruct (Z.gtb_spec q 15); [done|lia].
  - unfold WebRtc_AddFarSpectrumFix, WebRtc_DelayEstimatorProcessFix. rewrite Hsz.
    by destruct (Z.eqb_spec (zlen s) (spectrum_size self)).
Qed.

Definition sample_wrap_far : DelayEstimatorFarend := mkDelayFarend (replicate 44 0) 0 44 sample_far.
Definition sample_wrap_est : DelayEstimator := mkDelayEstimator (replicate 44 0) 0 44 sample_est.

Lemma wrapper_contract_witness :
  (exists far', WebRtc_AddFarSpectrumFix (Some sample_wrap_far) (Some (replicate 44 9)) 44 0 = Some (0, Some far') /\
     wrap_far_wf 4 far') /\
  (exists r self', WebRtc_DelayEstimatorProcessFix sample_far (Some sample_wrap_est) (Some (replicate 44 9)) 44 0 =
     Some (r, Some self') /\ wrap_est_wf 4 self' /\ (r = -2 \/ 0 <= r < 4)).
Proof.
  refine (proj1 (wrapper_contract 4 sample_wrap_far sample_wrap_est (Some (replicate 44 9)) 44 0 _ _ _ _ _)).
  - constructor; [simpl; lia|done|apply Forall_replicate; lia|exact sample_far_wf|done..].
  - constructor; [simpl; lia|done|apply Forall_replicate; lia|exact sample_est_wf|done..].
  - done.
  - split; [done|]. apply Forall_replicate. unfold in_u16. lia.
  - lia.
Defined.

(** The size check of [WebRtc_CreateDelayEstimatorFarend] is one short:
    43 bands are accepted, and the first spectrum of 43 bands is read (and the
    thresholds written) at index 43, outside both arrays. *)
Theorem create_accepts_43_bands :
  exists far, WebRtc_CreateDelayEstimatorFarend (Some sample_wrap_far) true (Some [0; 0]) (Some [0; 0])
      (Some (replicate 43 0)) 43 2 = Some (Some far) /\
    (let* (_, far) := WebRtc_InitDelayEstimatorFarend (Some far) in
     WebRtc_AddFarSpectrumFix far (Some (replicate 43 1)) 43 0) = None.
Proof. exists (mkDelayFarend (replicate 43 0) 0 43 (mkFarend [0; 0] [0; 0] 2)). split; vm_compute; reflexivity. Qed.

End DelayWrapSpec.
