(* ===== verification/AecmCore.v ===== *)
(** The core of the echo canceller,
    src/webrtc/modules/audio_processing/aecm/aecm_core.c, with the structures
    and constants of aecm_core.h and aecm_defines.h.

    [Module Aecm] has the state and the operations of aecm_core.c but for the
    frame function (file AecmFrame); the aligned buffers of the
    source ([xBuf_buf] and the pointer [xBuf] into it, and so on) are one array
    each, of the length the code uses. *)

From S2P Require Import Prelude Float32 RingBuffer SplInl SplVec RealFFT DelayEstimator DelayEstimatorWrapper.

Module Aecm.
Import Ring Spl RealFFT DelayEst DelayWrap.

(** ** aecm_defines.h *)

Definition FRAME_LEN : Z := 80.
Definition PART_LEN : Z := 256.
Definition PART_LEN_SHIFT : Z := 9.
Definition PART_LEN1 : Z := PART_LEN + 1.
Definition PART_LEN2 : Z := Z.shiftl PART_LEN 1.
Definition PART_LEN4 : Z := Z.shiftl PART_LEN 2.
Definition FAR_BUF_LEN : Z := PART_LEN4.
Definition MAX_DELAY : Z := 25.
Definition CONV_LEN : Z := 512.
Definition CONV_LEN2 : Z := Z.shiftl CONV_LEN 1.
Definition MAX_BUF_LEN : Z := 64.
Definition FAR_ENERGY_MIN : Z := 1025.
Definition FAR_ENERGY_DIFF : Z := 929.
Definition ENERGY_DEV_OFFSET : Z := 0.
Definition ENERGY_DEV_TOL : Z := 400.
Definition FAR_ENERGY_VAD_REGION : Z := 230.
Definition MU_MIN : Z := 10.
Definition MU_MAX : Z := 1.
Definition MU_DIFF : Z := 9.
Definition MIN_MSE_COUNT : Z := 20.
Definition MIN_MSE_DIFF : Z := 29.
Definition MSE_RESOLUTION : Z := 5.
Definition RESOLUTION_CHANNEL16 : Z := 12.
Definition RESOLUTION_CHANNEL32 : Z := 28.
Definition CHANNEL_VAD : Z := 16.
Definition RESOLUTION_SUPGAIN : Z := 8.
Definition SUPGAIN_DEFAULT : Z := Z.shiftl 1 RESOLUTION_SUPGAIN.
Definition SUPGAIN_ERROR_PARAM_A : Z := 16 * SUPGAIN_DEFAULT.
Definition SUPGAIN_ERROR_PARAM_B : Z := 8 * SUPGAIN_DEFAULT.
Definition SUPGAIN_ERROR_PARAM_D : Z := 3 * SUPGAIN_DEFAULT.
Definition SUPGAIN_EPC_DT : Z := 200.
Definition ONE_Q14 : Z := Z.shiftl 1 14.
Definition NLP_COMP_LOW : Z := 8192.
Definition NLP_COMP_HIGH : Z := ONE_Q14.
Definition AecmFalse : Z := 0.
Definition AecmTrue : Z := 1.

(** ** Data *)

Record ComplexInt16 := mkComplex { real : Z; imag : Z }.

Record AecmFloat := mkAecmFloat {
  FarSpectrumHistory : list float;
  FarWritePosition : Z;
  NearSpectrum : list float;
  EchoEstSpectrum : list float;
  ErrorSpectrum : list float;
  ErrorPower : list float;
  FarPower : list float;
  NearPower : list float;
  EchoPower : list float;
  FarNoise : list float;
  NearNoise : list float;
  CrossRelation : list float;
  AutoRelation : list float;
  gain : list float;
  H : list float;
  SmoothFactor : float }.

Record AecmCore := mkAecmCore {
  farBufWritePos : Z; farBufReadPos : Z; knownDelay : Z; lastKnownDelay : Z; firstVAD : Z;
  farFrameBuf : RingBuffer; nearNoisyFrameBuf : RingBuffer; nearCleanFrameBuf : RingBuffer;
  outFrameBuf : RingBuffer;
  farBuf : list Z;
  mult : Z; seed : Z;
  delay_estimator_farend : DelayEstimatorFarend; delay_estimator : DelayEstimator;
  currentDelay : Z;
  far_history : list Z; far_history_complex : list ComplexInt16; far_history_pos : Z; far_q_domains : list Z;
  nlpFlag : Z; fixedDelay : Z; totCount : Z;
  dfaCleanQDomain : Z; dfaCleanQDomainOld : Z; dfaNoisyQDomain : Z; dfaNoisyQDomainOld : Z;
  nearLogEnergy : list Z; farLogEnergy : Z; echoAdaptLogEnergy : list Z; echoStoredLogEnergy : list Z;
  channelStored : list Z; channelAdapt16 : list Z; channelAdapt32 : list Z;
  xBuf : list Z; dBufClean : list Z; dBufNoisy : list Z; outBuf : list Z;
  echoFilt : list Z; nearFilt : list Z; noiseEst : list Z;
  noiseEstTooLowCtr : list Z; noiseEstTooHighCtr : list Z; noiseEstCtr : Z; cngMode : Z;
  mseAdaptOld : Z; mseStoredOld : Z; mseThreshold : Z;
  farEnergyMin : Z; farEnergyMax : Z; farEnergyMaxMin : Z; farEnergyVAD : Z; farEnergyMSE : Z;
  currentVADValue : Z; vadUpdateCount : Z;
  startupState : Z; mseChannelCount : Z; supGain : Z; supGainOld : Z;
  supGainErrParamA : Z; supGainErrParamD : Z; supGainErrParamDiffAB : Z; supGainErrParamDiffBD : Z;
  enablefloatpro : Z; aecmfloat : AecmFloat }.

#[export] Instance rebuild_AecmFloat : Rebuild AecmFloat :=
  fun r => mkAecmFloat
    (FarSpectrumHistory r) (FarWritePosition r) (NearSpectrum r) (EchoEstSpectrum r) (ErrorSpectrum r)
    (ErrorPower r) (FarPower r) (NearPower r) (EchoPower r) (FarNoise r) (NearNoise r) (CrossRelation r)
    (AutoRelation r) (gain r) (H r) (SmoothFactor r).

#[export] Instance rebuild_AecmCore : Rebuild AecmCore :=
  fun r => mkAecmCore
    (farBufWritePos r) (farBufReadPos r) (knownDelay r) (lastKnownDelay r) (firstVAD r) (farFrameBuf r)
    (nearNoisyFrameBuf r) (nearCleanFrameBuf r) (outFrameBuf r) (farBuf r) (mult r) (seed r)
    (delay_estimator_farend r) (delay_estimator r) (currentDelay r) (far_history r) (far_history_complex r)
    (far_history_pos r) (far_q_domains r) (nlpFlag r) (fixedDelay r) (totCount r) (dfaCleanQDomain r)
    (dfaCleanQDomainOld r) (dfaNoisyQDomain r) (dfaNoisyQDomainOld r) (nearLogEnergy r) (farLogEnergy r)
    (echoAdaptLogEnergy r) (echoStoredLogEnergy r) (channelStored r) (channelAdapt16 r) (channelAdapt32 r)
    (xBuf r) (dBufClean r) (dBufNoisy r) (outBuf r) (echoFilt r) (nearFilt r) (noiseEst r)
    (noiseEstTooLowCtr r) (noiseEstTooHighCtr r) (noiseEstCtr r) (cngMode r) (mseAdaptOld r)
    (mseStoredOld r) (mseThreshold r) (farEnergyMin r) (farEnergyMax r) (farEnergyMaxMin r) (farEnergyVAD r)
    (farEnergyMSE r) (currentVADValue r) (vadUpdateCount r) (startupState r) (mseChannelCount r) (supGain r)
    (supGainOld r) (supGainErrParamA r) (supGainErrParamD r) (supGainErrParamDiffAB r)
    (supGainErrParamDiffBD r) (enablefloatpro r) (aecmfloat r).

(** ** Tables *)

Definition WebRtcAecm_kCosTable : list Z :=
  [
   8192; 8190; 8187; 8180; 8172; 8160; 8147; 8130; 8112; 8091; 8067; 8041; 8012; 7982;
   7948; 7912; 7874; 7834; 7791; 7745; 7697; 7647; 7595; 7540; 7483; 7424; 7362; 7299;
   7233; 7164; 7094; 7021; 6947; 6870; 6791; 6710; 6627; 6542; 6455; 6366; 6275; 6182;
   6087; 5991; 5892; 5792; 5690; 5586; 5481; 5374; 5265; 5155; 5043; 4930; 4815; 4698;
   4580; 4461; 4341; 4219; 4096; 3971; 3845; 3719; 3591; 3462; 3331; 3200; 3068; 2935;
   2801; 2667; 2531; 2395; 2258; 2120; 1981; 1842; 1703; 1563; 1422; 1281; 1140; 998;
   856; 713; 571; 428; 285; 142; 0; -142; -285; -428; -571; -713; -856; -998;
   -1140; -1281; -1422; -1563; -1703; -1842; -1981; -2120; -2258; -2395; -2531; -2667; -2801; -2935;
   -3068; -3200; -3331; -3462; -3591; -3719; -3845; -3971; -4095; -4219; -4341; -4461; -4580; -4698;
   -4815; -4930; -5043; -5155; -5265; -5374; -5481; -5586; -5690; -5792; -5892; -5991; -6087; -6182;
   -6275; -6366; -6455; -6542; -6627; -6710; -6791; -6870; -6947; -7021; -7094; -7164; -7233; -7299;
   -7362; -7424; -7483; -7540; -7595; -7647; -7697; -7745; -7791; -7834; -7874; -7912; -7948; -7982;
   -8012; -8041; -8067; -8091; -8112; -8130; -8147; -8160; -8172; -8180; -8187; -8190; -8191; -8190;
   -8187; -8180; -8172; -8160; -8147; -8130; -8112; -8091; -8067; -8041; -8012; -7982; -7948; -7912;
   -7874; -7834; -7791; -7745; -7697; -7647; -7595; -7540; -7483; -7424; -7362; -7299; -7233; -7164;
   -7094; -7021; -6947; -6870; -6791; -6710; -6627; -6542; -6455; -6366; -6275; -6182; -6087; -5991;
   -5892; -5792; -5690; -5586; -5481; -5374; -5265; -5155; -5043; -4930; -4815; -4698; -4580; -4461;
   -4341; -4219; -4096; -3971; -3845; -3719; -3591; -3462; -3331; -3200; -3068; -2935; -2801; -2667;
   -2531; -2395; -2258; -2120; -1981; -1842; -1703; -1563; -1422; -1281; -1140; -998; -856; -713;
   -571; -428; -285; -142; 0; 142; 285; 428; 571; 713; 856; 998; 1140; 1281;
   1422; 1563; 1703; 1842; 1981; 2120; 2258; 2395; 2531; 2667; 2801; 2935; 3068; 3200;
   3331; 3462; 3591; 3719; 3845; 3971; 4095; 4219; 4341; 4461; 4580; 4698; 4815; 4930;
   5043; 5155; 5265; 5374; 5481; 5586; 5690; 5792; 5892; 5991; 6087; 6182; 6275; 6366;
   6455; 6542; 6627; 6710; 6791; 6870; 6947; 7021; 7094; 7164; 7233; 7299; 7362; 7424;
   7483; 7540; 7595; 7647; 7697; 7745; 7791; 7834; 7874; 7912; 7948; 7982; 8012; 8041;
   8067; 8091; 8112; 8130; 8147; 8160; 8172; 8180; 8187; 8190].

Definition WebRtcAecm_kSinTable : list Z :=
  [
   0; 142; 285; 428; 571; 713; 856; 998; 1140; 1281; 1422; 1563; 1703; 1842;
   1981; 2120; 2258; 2395; 2531; 2667; 2801; 2935; 3068; 3200; 3331; 3462; 3591; 3719;
   3845; 3971; 4095; 4219; 4341; 4461; 4580; 4698; 4815; 4930; 5043; 5155; 5265; 5374;
   5481; 5586; 5690; 5792; 5892; 5991; 6087; 6182; 6275; 6366; 6455; 6542; 6627; 6710;
   6791; 6870; 6947; 7021; 7094; 7164; 7233; 7299; 7362; 7424; 7483; 7540; 7595; 7647;
   7697; 7745; 7791; 7834; 7874; 7912; 7948; 7982; 8012; 8041; 8067; 8091; 8112; 8130;
   8147; 8160; 8172; 8180; 8187; 8190; 8191; 8190; 8187; 8180; 8172; 8160; 8147; 8130;
   8112; 8091; 8067; 8041; 8012; 7982; 7948; 7912; 7874; 7834; 7791; 7745; 7697; 7647;
   7595; 7540; 7483; 7424; 7362; 7299; 7233; 7164; 7094; 7021; 6947; 6870; 6791; 6710;
   6627; 6542; 6455; 6366; 6275; 6182; 6087; 5991; 5892; 5792; 5690; 5586; 5481; 5374;
   5265; 5155; 5043; 4930; 4815; 4698; 4580; 4461; 4341; 4219; 4096; 3971; 3845; 3719;
   3591; 3462; 3331; 3200; 3068; 2935; 2801; 2667; 2531; 2395; 2258; 2120; 1981; 1842;
   1703; 1563; 1422; 1281; 1140; 998; 856; 713; 571; 428; 285; 142; 0; -142;
   -285; -428; -571; -713; -856; -998; -1140; -1281; -1422; -1563; -1703; -1842; -1981; -2120;
   -2258; -2395; -2531; -2667; -2801; -2935; -3068; -3200; -3331; -3462; -3591; -3719; -3845; -3971;
   -4095; -4219; -4341; -4461; -4580; -4698; -4815; -4930; -5043; -5155; -5265; -5374; -5481; -5586;
   -5690; -5792; -5892; -5991; -6087; -6182; -6275; -6366; -6455; -6542; -6627; -6710; -6791; -6870;
   -6947; -7021; -7094; -7164; -7233; -7299; -7362; -7424; -7483; -7540; -7595; -7647; -7697; -7745;
   -7791; -7834; -7874; -7912; -7948; -7982; -8012; -8041; -8067; -8091; -8112; -8130; -8147; -8160;
   -8172; -8180; -8187; -8190; -8191; -8190; -8187; -8180; -8172; -8160; -8147; -8130; -8112; -8091;
   -8067; -8041; -8012; -7982; -7948; -7912; -7874; -7834; -7791; -7745; -7697; -7647; -7595; -7540;
   -7483; -7424; -7362; -7299; -7233; -7164; -7094; -7021; -6947; -6870; -6791; -6710; -6627; -6542;
   -6455; -6366; -6275; -6182; -6087; -5991; -5892; -5792; -5690; -5586; -5481; -5374; -5265; -5155;
   -5043; -4930; -4815; -4698; -4580; -4461; -4341; -4219; -4096; -3971; -3845; -3719; -3591; -3462;
   -3331; -3200; -3068; -2935; -2801; -2667; -2531; -2395; -2258; -2120; -1981; -1842; -1703; -1563;
   -1422; -1281; -1140; -998; -856; -713; -571; -428; -285; -142].

Definition kChannelStored8kHz : list Z :=
  [
   2040; 1815; 1590; 1498; 1405; 1395; 1385; 1418; 1451; 1506; 1562; 1644; 1726; 1804;
   1882; 1918; 1953; 1982; 2010; 2025; 2040; 2034; 2027; 2021; 2014; 1997; 1980; 1925;
   1869; 1800; 1732; 1683; 1635; 1604; 1572; 1545; 1517; 1481; 1444; 1405; 1367; 1331;
   1294; 1270; 1245; 1239; 1233; 1247; 1260; 1282; 1303; 1338; 1373; 1407; 1441; 1470;
   1499; 1524; 1549; 1565; 1582; 1601; 1621; 1649; 1676] ++ zreplicate (PART_LEN1 - 65) 0.

Definition kChannelStored16kHz : list Z :=
  [
   2040; 1590; 1405; 1385; 1451; 1562; 1726; 1882; 1953; 2010; 2040; 2027; 2014; 1980;
   1869; 1732; 1635; 1572; 1517; 1444; 1367; 1294; 1245; 1233; 1260; 1303; 1373; 1441;
   1499; 1549; 1582; 1621; 1676; 1741; 1802; 1861; 1921; 1983; 2040; 2102; 2170; 2265;
   2375; 2515; 2651; 2781; 2922; 3075; 3253; 3471; 3738; 3976; 4151; 4258; 4308; 4288;
   4270; 4253; 4237; 4179; 4086; 3947; 3757; 3484; 3153] ++ zreplicate (PART_LEN1 - 65) 0.

(** ** The far-end spectrum history *)

Definition WebRtcAecm_UpdateFarHistory (self : AecmCore) (far_spectrum : list Z)
    (far_spectrum_complex : list ComplexInt16) (far_q : Z) : option AecmCore :=
  let pos := far_history_pos self + 1 in
  let pos := if pos >=? MAX_DELAY then 0 else pos in
  let* qs := aset (far_q_domains self) pos far_q in
  let* h := memcpy (far_history self) (pos * PART_LEN1) far_spectrum 0 PART_LEN1 in
  let* hc := memcpy (far_history_complex self) (pos * PART_LEN1) far_spectrum_complex 0 PART_LEN1 in
  Some (self <| far_history_pos := pos |> <| far_q_domains := qs |> <| far_history := h |>
             <| far_history_complex := hc |>).

(** Returns [*far_q] and the spectrum the pointer denotes. *)
Definition WebRtcAecm_AlignedFarend (self : AecmCore) (delay : Z) : option (Z * list Z) :=
  let buffer_position := far_history_pos self - delay in
  let buffer_position := if buffer_position <? 0 then buffer_position + MAX_DELAY else buffer_position in
  let* far_q := aget (far_q_domains self) buffer_position in
  let* _ := c_assert (range_ok (far_history self) (buffer_position * PART_LEN1) PART_LEN1) in
  Some (far_q, slice (far_history self) (buffer_position * PART_LEN1) PART_LEN1).

(** ** The echo channels *)

Definition WebRtcAecm_InitEchoPathCore (aecm : AecmCore) (echo_path : list Z) : option AecmCore :=
  let* stored := memcpy (channelStored aecm) 0 echo_path 0 PART_LEN1 in
  let* adapt16 := memcpy (channelAdapt16 aecm) 0 echo_path 0 PART_LEN1 in
  Some (aecm <| channelStored := stored |> <| channelAdapt16 := adapt16 |>
    <| channelAdapt32 := tab (fun i => i32 (Z.shiftl (znth adapt16 i) 16)) PART_LEN1 |>
    <| mseAdaptOld := 1000 |> <| mseStoredOld := 1000 |> <| mseThreshold := WEBRTC_SPL_WORD32_MAX |>
    <| mseChannelCount := 0 |>).

(** The accumulation [*sum += term(i)] in a [uint32_t] over the bins. *)
Definition sum_u32 (term : Z -> Z) (n : Z) : Z :=
  for_pure (fun i acc => u32 (acc + term i)) 0 (Z.to_nat n) 0.

(** The energies and the echo estimate, for output arguments that start at 0:
    [(echo_est, far_energy, echo_energy_adapt, echo_energy_stored)]. *)
Definition CalcLinearEnergiesC (aecm : AecmCore) (far_spectrum : list Z) : list Z * Z * Z * Z :=
  let est i := WEBRTC_SPL_MUL_16_U16 (znth (channelStored aecm) i) (znth far_spectrum i) in
  (tab est PART_LEN1,
   sum_u32 (fun i => znth far_spectrum i) PART_LEN1,
   sum_u32 (fun i => i32 (znth (channelAdapt16 aecm) i * znth far_spectrum i)) PART_LEN1,
   sum_u32 (fun i => u32 (est i)) PART_LEN1).

(** Returns the new state and echo estimate; the loop unrolled by four and its
    last statement cover all bins. *)
Definition StoreAdaptiveChannelC (aecm : AecmCore) (far_spectrum : list Z) : AecmCore * list Z :=
  let stored := channelAdapt16 aecm in
  (aecm <| channelStored := stored |>,
   tab (fun i => WEBRTC_SPL_MUL_16_U16 (znth stored i) (znth far_spectrum i)) PART_LEN1).

Definition ResetAdaptiveChannelC (aecm : AecmCore) : AecmCore :=
  aecm <| channelAdapt16 := channelStored aecm |>
       <| channelAdapt32 := tab (fun i => i32 (Z.shiftl (znth (channelStored aecm) i) 16)) PART_LEN1 |>.

(** ** Allocation *)

(** The outcomes of the allocations of [WebRtcAecm_CreateCore]: for each ring
    buffer its structure and its data, then those of the delay estimators and of
    the transform.  The result of the first [malloc] is used unchecked. *)
Record CoreAllocs := mkCoreAllocs {
  ca_core : option AecmCore;
  ca_far : bool * option (list Z); ca_noisy : bool * option (list Z);
  ca_clean : bool * option (list Z); ca_out : bool * option (list Z);
  ca_de_far : option DelayEstimatorFarend * bool * option (list Z) * option (list Z) * option (list Z);
  ca_de : option DelayEstimator * option BinaryDelayEstimator * option (list Z) * option (list Z) * Allocs;
  ca_fft : bool }.

Definition create_frame_buf (al : bool * option (list Z)) : option (option RingBuffer) :=
  WebRtc_CreateBuffer al.1 al.2 (FRAME_LEN + PART_LEN) 2.

(** [Some None] is a NULL result.  The structure comes from [malloc], and a failure
    hands all its pointers to [WebRtcAecm_FreeCore]: before the last allocation
    some of them have not been set, which is undefined. *)
Definition WebRtcAecm_CreateCore (al : CoreAllocs) : option (option AecmCore) :=
  let* aecm := ca_core al in
  let* far := create_frame_buf (ca_far al) in
  match far with None => None | Some far =>
  let* noisy := create_frame_buf (ca_noisy al) in
  match noisy with None => None | Some noisy =>
  let* clean := create_frame_buf (ca_clean al) in
  match clean with None => None | Some clean =>
  let* out := create_frame_buf (ca_out al) in
  match out with None => None | Some out =>
  let '(fresh, malloc_binary, alloc_history, alloc_counts, malloc_mean) := ca_de_far al in
  let* de_far := WebRtc_CreateDelayEstimatorFarend fresh malloc_binary alloc_history alloc_counts malloc_mean
                   PART_LEN1 MAX_DELAY in
  match de_far with None => None | Some de_far =>
  let '(fresh, fresh_binary, malloc_near, malloc_mean, al_de) := ca_de al in
  let* de := WebRtc_CreateDelayEstimator fresh fresh_binary malloc_near malloc_mean al_de (Some de_far) 0 in
  match de with None => None | Some de =>
  match (WebRtc_enable_robust_validation (Some de) 0).2 with None => None | Some de =>
  match WebRtcSpl_CreateRealFFT (ca_fft al) PART_LEN_SHIFT with None => Some None | Some _ =>
  Some (Some (aecm <| farFrameBuf := far |> <| nearNoisyFrameBuf := noisy |> <| nearCleanFrameBuf := clean |>
    <| outFrameBuf := out |> <| delay_estimator_farend := de_far |> <| delay_estimator := de |>))
  end end end end end end end end.

(** ** Initialisation *)

(** The noise shape loop: the value stored at [i] is [tmp32 << 8] after [i]
    turns, the last of the first [(PART_LEN1 >> 1) - 1] turns for the rest. *)
Definition noise_shape_step (s : Z * Z) : Z * Z :=
  let '(tmp32, tmp16) := s in
  let tmp16 := i16 (tmp16 - 1) in
  (i32 (tmp32 - i32 (Z.shiftl tmp16 1 + 1)), tmp16).

Definition noise_shape (i : Z) : Z :=
  let n := Z.min i (Z.shiftr PART_LEN1 1 - 1) in
  i32 (Z.shiftl (Nat.iter (Z.to_nat n) noise_shape_step (PART_LEN1 * PART_LEN1, PART_LEN1)).1 8).

(** [0.0000000149f*32768*32768], evaluated in float. *)
Definition NOISEGATE : float :=
  f32_mul (f32_mul (f32_lit 16775909 (-50)) (f32_of_Z 32768)) (f32_of_Z 32768).

Definition init_float : AecmFloat :=
  let z n := zreplicate n (f32_of_Z 0) in
  let noise := zreplicate PART_LEN1 (f32_mul NOISEGATE (f32_of_Z 10000)) in
  mkAecmFloat (z (PART_LEN2 * MAX_DELAY)) 0 (z PART_LEN2) (z PART_LEN2) (z PART_LEN2)
    (z PART_LEN1) (z PART_LEN1) (z PART_LEN1) (z PART_LEN1) noise noise
    (z PART_LEN2) (z PART_LEN2) (z PART_LEN1) (z PART_LEN2) (f32_lit 10066330 (-24)).

(** The part of [WebRtcAecm_InitCore] up to the delay estimator: positions and
    buffers. *)
Definition init_buffers (aecm : AecmCore) (samplingFreq : Z) : option AecmCore :=
  let aecm := aecm <| mult := c_div (i16 samplingFreq) 8000 |> <| farBufWritePos := 0 |>
    <| farBufReadPos := 0 |> <| knownDelay := 0 |> <| lastKnownDelay := 0 |> in
  let* far := WebRtc_InitBuffer (farFrameBuf aecm) in
  let* noisy := WebRtc_InitBuffer (nearNoisyFrameBuf aecm) in
  let* clean := WebRtc_InitBuffer (nearCleanFrameBuf aecm) in
  let* out := WebRtc_InitBuffer (outFrameBuf aecm) in
  Some (aecm <| farFrameBuf := far |> <| nearNoisyFrameBuf := noisy |> <| nearCleanFrameBuf := clean |>
    <| outFrameBuf := out |>
    <| xBuf := zreplicate PART_LEN2 0 |> <| dBufClean := zreplicate PART_LEN2 0 |>
    <| dBufNoisy := zreplicate PART_LEN2 0 |> <| outBuf := zreplicate PART_LEN 0 |>
    <| seed := 666 |> <| totCount := 0 |>).

(** The part after the delay estimator. *)
Definition init_state (aecm : AecmCore) (samplingFreq : Z) : option AecmCore :=
  let aecm := aecm <| far_history := zreplicate (PART_LEN1 * MAX_DELAY) 0 |>
    <| far_history_complex := zreplicate (PART_LEN1 * MAX_DELAY) (mkComplex 0 0) |>
    <| far_q_domains := zreplicate MAX_DELAY 0 |> <| far_history_pos := MAX_DELAY |>
    <| nlpFlag := 1 |> <| fixedDelay := -1 |>
    <| dfaCleanQDomain := 0 |> <| dfaCleanQDomainOld := 0 |>
    <| dfaNoisyQDomain := 0 |> <| dfaNoisyQDomainOld := 0 |>
    <| nearLogEnergy := zreplicate MAX_BUF_LEN 0 |> <| farLogEnergy := 0 |>
    <| echoAdaptLogEnergy := zreplicate MAX_BUF_LEN 0 |> <| echoStoredLogEnergy := zreplicate MAX_BUF_LEN 0 |> in
  let* aecm := WebRtcAecm_InitEchoPathCore aecm
                 (if samplingFreq =? 8000 then kChannelStored8kHz else kChannelStored16kHz) in
  Some (aecm <| echoFilt := zreplicate PART_LEN1 0 |> <| nearFilt := zreplicate PART_LEN1 0 |>
    <| noiseEstCtr := 0 |> <| cngMode := AecmTrue |>
    <| noiseEstTooLowCtr := zreplicate PART_LEN1 0 |> <| noiseEstTooHighCtr := zreplicate PART_LEN1 0 |>
    <| noiseEst := tab noise_shape PART_LEN1 |>
    <| farEnergyMin := WEBRTC_SPL_WORD16_MAX |> <| farEnergyMax := WEBRTC_SPL_WORD16_MIN |>
    <| farEnergyMaxMin := 0 |> <| farEnergyVAD := FAR_ENERGY_MIN |> <| farEnergyMSE := 0 |>
    <| currentVADValue := 0 |> <| vadUpdateCount := 0 |> <| firstVAD := 1 |>
    <| startupState := 0 |> <| supGain := SUPGAIN_DEFAULT |> <| supGainOld := SUPGAIN_DEFAULT |>
    <| supGainErrParamA := SUPGAIN_ERROR_PARAM_A |> <| supGainErrParamD := SUPGAIN_ERROR_PARAM_D |>
    <| supGainErrParamDiffAB := SUPGAIN_ERROR_PARAM_A - SUPGAIN_ERROR_PARAM_B |>
    <| supGainErrParamDiffBD := SUPGAIN_ERROR_PARAM_B - SUPGAIN_ERROR_PARAM_D |>
    <| enablefloatpro := 1 |> <| aecmfloat := init_float |>).

Definition WebRtcAecm_InitCore (aecm : AecmCore) (samplingFreq : Z) : option (Z * AecmCore) :=
  if negb (samplingFreq =? 8000) && negb (samplingFreq =? 16000) then Some (-1, aecm)
  else
    let* aecm := init_buffers aecm samplingFreq in
    let* (r, far) := WebRtc_InitDelayEstimatorFarend (Some (delay_estimator_farend aecm)) in
    match far with
    | None => Some (-1, aecm)
    | Some far =>
        if negb (r =? 0) then Some (-1, aecm)
        else
          let aecm := aecm <| delay_estimator_farend := far |> in
          let* (r, est) := WebRtc_InitDelayEstimator (Some (delay_estimator aecm)) in
          match est with
          | None => Some (-1, aecm)
          | Some est =>
              if negb (r =? 0) then Some (-1, aecm)
              else
                let* aecm := init_state (aecm <| delay_estimator := est |>) samplingFreq in
                Some (0, aecm)
          end
    end.

Definition WebRtcAecm_Control (aecm : AecmCore) (delay flag : Z) : Z * AecmCore :=
  (0, aecm <| nlpFlag := i16 flag |> <| fixedDelay := i16 delay |>).

(** ** Energies *)

Definition WebRtcAecm_AsymFilt (filtOld inVal stepSizePos stepSizeNeg : Z) : Z :=
  if (filtOld =? WEBRTC_SPL_WORD16_MAX) || (filtOld =? WEBRTC_SPL_WORD16_MIN) then inVal
  else if filtOld >? inVal then i16 (filtOld - Z.shiftr (filtOld - inVal) stepSizeNeg)
  else i16 (filtOld + Z.shiftr (inVal - filtOld) stepSizePos).

Definition ExtractFractionPart (a zeros : Z) : Z :=
  i16 (Z.shiftr (Z.land (u32 (Z.shiftl a zeros)) 0x7FFFFFFF) 23).

Definition kLogLowValue : Z := Z.shiftl PART_LEN_SHIFT 7.

Definition LogOfEnergyInQ8 (energy q_domain : Z) : Z :=
  let log_energy_q8 := kLogLowValue in
  if energy >? 0 then
    let zeros := WebRtcSpl_NormU32 energy in
    let frac := ExtractFractionPart energy zeros in
    i16 (log_energy_q8 + (Z.shiftl (31 - zeros) 8 + frac - Z.shiftl q_domain 8))
  else log_energy_q8.

(** [memmove(buf + 1, buf, MAX_BUF_LEN - 1); buf[0] = x]. *)
Definition push_energy (buf : list Z) (x : Z) : list Z := x :: take (Z.to_nat (MAX_BUF_LEN - 1)) buf.

(** The update of the decision levels, under [farLogEnergy > FAR_ENERGY_MIN]. *)
Definition update_levels (aecm : AecmCore) : AecmCore :=
  let startup := startupState aecm =? 0 in
  let increase_max_shifts := if startup then 2 else 4 in
  let decrease_max_shifts := 11 in
  let increase_min_shifts := if startup then 8 else 11 in
  let decrease_min_shifts := if startup then 2 else 3 in
  let aecm := aecm <| farEnergyMin :=
    WebRtcAecm_AsymFilt (farEnergyMin aecm) (farLogEnergy aecm) increase_min_shifts decrease_min_shifts |> in
  let aecm := aecm <| farEnergyMax :=
    WebRtcAecm_AsymFilt (farEnergyMax aecm) (farLogEnergy aecm) increase_max_shifts decrease_max_shifts |> in
  let aecm := aecm <| farEnergyMaxMin := i16 (farEnergyMax aecm - farEnergyMin aecm) |> in
  let tmp16 := i16 (2560 - farEnergyMin aecm) in
  let tmp16 := if tmp16 >? 0 then i16 (Z.shiftr (tmp16 * FAR_ENERGY_VAD_REGION) 9) else 0 in
  let tmp16 := i16 (tmp16 + FAR_ENERGY_VAD_REGION) in
  let aecm :=
    if startup || (vadUpdateCount aecm >? 1024) then
      aecm <| farEnergyVAD := i16 (farEnergyMin aecm + tmp16) |>
    else if farEnergyVAD aecm >? farLogEnergy aecm then
      aecm <| farEnergyVAD := i16 (farEnergyVAD aecm +
                 Z.shiftr (farLogEnergy aecm + tmp16 - farEnergyVAD aecm) 6) |> <| vadUpdateCount := 0 |>
    else aecm <| vadUpdateCount := i16 (vadUpdateCount aecm + 1) |> in
  aecm <| farEnergyMSE := i16 (farEnergyVAD aecm + Z.shiftl 1 8) |>.

(** The voice activity decision and the correction of the initial channel. *)
Definition update_vad (aecm : AecmCore) : AecmCore :=
  let aecm :=
    if farLogEnergy aecm >? farEnergyVAD aecm then
      if (startupState aecm =? 0) || (farEnergyMaxMin aecm >? FAR_ENERGY_DIFF)
      then aecm <| currentVADValue := 1 |> else aecm
    else aecm <| currentVADValue := 0 |> in
  if negb (currentVADValue aecm =? 0) && negb (firstVAD aecm =? 0) then
    let aecm := aecm <| firstVAD := 0 |> in
    if znth (echoAdaptLogEnergy aecm) 0 >? znth (nearLogEnergy aecm) 0 then
      aecm <| channelAdapt16 := tab (fun i => Z.shiftr (znth (channelAdapt16 aecm) i) 3) PART_LEN1 |>
           <| echoAdaptLogEnergy := i16 (znth (echoAdaptLogEnergy aecm) 0 - Z.shiftl 3 8)
                                      :: drop 1 (echoAdaptLogEnergy aecm) |>
           <| firstVAD := 1 |>
    else aecm
  else aecm.

(** Returns the new state and [echoEst]. *)
Definition WebRtcAecm_CalcEnergies (aecm : AecmCore) (far_spectrum : list Z) (far_q nearEner : Z)
    : AecmCore * list Z :=
  let aecm := aecm <| nearLogEnergy :=
    push_energy (nearLogEnergy aecm) (LogOfEnergyInQ8 nearEner (dfaNoisyQDomain aecm)) |> in
  let '(echoEst, tmpFar, tmpAdapt, tmpStored) := CalcLinearEnergiesC aecm far_spectrum in
  let aecm := aecm <| farLogEnergy := LogOfEnergyInQ8 tmpFar far_q |>
    <| echoAdaptLogEnergy :=
         push_energy (echoAdaptLogEnergy aecm) (LogOfEnergyInQ8 tmpAdapt (RESOLUTION_CHANNEL16 + far_q)) |>
    <| echoStoredLogEnergy :=
         push_energy (echoStoredLogEnergy aecm) (LogOfEnergyInQ8 tmpStored (RESOLUTION_CHANNEL16 + far_q)) |> in
  let aecm := if farLogEnergy aecm >? FAR_ENERGY_MIN then update_levels aecm else aecm in
  (update_vad aecm, echoEst).

Definition WebRtcAecm_CalcStepSize (aecm : AecmCore) : Z :=
  let mu := MU_MAX in
  if currentVADValue aecm =? 0 then 0
  else if startupState aecm >? 0 then
    let mu :=
      if farEnergyMin aecm >=? farEnergyMax aecm then MU_MIN
      else
        let tmp16 := i16 (farLogEnergy aecm - farEnergyMin aecm) in
        let tmp32 := WebRtcSpl_DivW32W16 (tmp16 * MU_DIFF) (farEnergyMaxMin aecm) in
        i16 (MU_MIN - 1 - i16 tmp32) in
    if mu <? MU_MAX then MU_MAX else mu
  else mu.


(** ** Channel estimation *)

(** The numerator of bin [i]: [(tmpU32no1, shiftChFar)]. *)
Definition channel_times_far (ch far : Z) : Z * Z :=
  let zerosCh := WebRtcSpl_NormU32 (u32 ch) in
  let zerosFar := WebRtcSpl_NormU32 far in
  if zerosCh + zerosFar >? 31 then (WEBRTC_SPL_UMUL_32_16 ch far, 0)
  else
    let shiftChFar := 32 - zerosCh - zerosFar in
    (u32 (i32 (Z.shiftr ch shiftChFar * far)), shiftChFar).

(** The error and its Q-domain: [(tmp32no1, xfaQ)]. *)
Definition channel_error (dfa_i dfaNoisyQ far_q tmpU32no1 shiftChFar : Z) : Z * Z :=
  let zerosNum := WebRtcSpl_NormU32 tmpU32no1 in
  let zerosDfa := if negb (dfa_i =? 0) then WebRtcSpl_NormU32 dfa_i else 32 in
  let tmp16no1 := i16 (zerosDfa - 2 + dfaNoisyQ - RESOLUTION_CHANNEL32 - far_q + shiftChFar) in
  let '(xfaQ, dfaQ) :=
    if zerosNum >? tmp16no1 + 1 then (tmp16no1, zerosDfa - 2)
    else
      let xfaQ := zerosNum - 2 in
      (xfaQ, i16 (RESOLUTION_CHANNEL32 + far_q - dfaNoisyQ - shiftChFar + xfaQ)) in
  let tmpU32no1 := WEBRTC_SPL_SHIFT_U32 tmpU32no1 xfaQ in
  let tmpU32no2 := WEBRTC_SPL_SHIFT_U32 dfa_i dfaQ in
  (i32 (i32 tmpU32no2 - i32 tmpU32no1), xfaQ).

(** The update term of bin [i], to be added to the channel. *)
Definition channel_update (i far mu tmp32no1 xfaQ shiftChFar : Z) : Z :=
  let zerosFar := WebRtcSpl_NormU32 far in
  let zerosNum := WebRtcSpl_NormW32 tmp32no1 in
  let '(tmp32no2, shiftNum) :=
    if zerosNum + zerosFar >? 31 then
      (if tmp32no1 >? 0 then i32 (WEBRTC_SPL_UMUL_32_16 tmp32no1 far)
       else i32 (- i32 (WEBRTC_SPL_UMUL_32_16 (i32 (- tmp32no1)) far)), 0)
    else
      let shiftNum := 32 - (zerosNum + zerosFar) in
      (if tmp32no1 >? 0 then i32 (Z.shiftr tmp32no1 shiftNum * far)
       else i32 (- i32 (Z.shiftr (i32 (- tmp32no1)) shiftNum * far)), shiftNum) in
  let tmp32no2 := WebRtcSpl_DivW32W16 tmp32no2 (i + 1) in
  let shift2ResChan := i16 (shiftNum + shiftChFar - xfaQ - mu - Z.shiftl (30 - zerosFar) 1) in
  if WebRtcSpl_NormW32 tmp32no2 <? shift2ResChan then WEBRTC_SPL_WORD32_MAX
  else WEBRTC_SPL_SHIFT_W32 tmp32no2 shift2ResChan.

(** Turn [i] of the NLMS loop: the new [channelAdapt32[i]] and
    [channelAdapt16[i]]. *)
Definition channel_step (aecm : AecmCore) (far_spectrum : list Z) (far_q : Z) (dfa : list Z) (mu i : Z) : Z * Z :=
  let ch := znth (channelAdapt32 aecm) i in
  let far := znth far_spectrum i in
  let '(tmpU32no1, shiftChFar) := channel_times_far ch far in
  let '(tmp32no1, xfaQ) := channel_error (znth dfa i) (dfaNoisyQDomain aecm) far_q tmpU32no1 shiftChFar in
  if negb (tmp32no1 =? 0) && (far >? i32 (Z.shiftl CHANNEL_VAD far_q)) then
    let ch := WebRtcSpl_AddSatW32 ch (channel_update i far mu tmp32no1 xfaQ shiftChFar) in
    let ch := if ch <? 0 then 0 else ch in
    (ch, i16 (Z.shiftr ch 16))
  else (ch, znth (channelAdapt16 aecm) i).

Definition adapt_channel (aecm : AecmCore) (far_spectrum : list Z) (far_q : Z) (dfa : list Z) (mu : Z) : AecmCore :=
  if negb (mu =? 0) then
    aecm <| channelAdapt32 := tab (fun i => (channel_step aecm far_spectrum far_q dfa mu i).1) PART_LEN1 |>
         <| channelAdapt16 := tab (fun i => (channel_step aecm far_spectrum far_q dfa mu i).2) PART_LEN1 |>
  else aecm.

(** The average absolute error of a log energy history. *)
Definition mse_loop (echo near : list Z) : Z :=
  for_pure (fun i acc => i32 (acc + WEBRTC_SPL_ABS_W32 (znth echo i - znth near i))) 0 (Z.to_nat MIN_MSE_COUNT) 0.

Definition update_threshold (aecm : AecmCore) (mseAdapt : Z) : AecmCore :=
  if mseThreshold aecm =? WEBRTC_SPL_WORD32_MAX
  then aecm <| mseThreshold := i32 (mseAdapt + mseAdaptOld aecm) |>
  else
    let scaled_threshold := c_div (i32 (mseThreshold aecm * 5)) 8 in
    aecm <| mseThreshold := i32 (mseThreshold aecm +
              Z.shiftr (i32 (i32 (mseAdapt - scaled_threshold) * 205)) 8) |>.

(** Whether the channel is stored or restored; returns the state and [echoEst]. *)
Definition store_or_restore (aecm : AecmCore) (far_spectrum echoEst : list Z) : AecmCore * list Z :=
  if (startupState aecm =? 0) && negb (Z.land 1 (currentVADValue aecm) =? 0)
  then StoreAdaptiveChannelC aecm far_spectrum
  else
    let aecm := if farLogEnergy aecm <? farEnergyMSE aecm then aecm <| mseChannelCount := 0 |>
                else aecm <| mseChannelCount := i16 (mseChannelCount aecm + 1) |> in
    if mseChannelCount aecm >=? MIN_MSE_COUNT + 10 then
      let mseStored := mse_loop (echoStoredLogEnergy aecm) (nearLogEnergy aecm) in
      let mseAdapt := mse_loop (echoAdaptLogEnergy aecm) (nearLogEnergy aecm) in
      let '(aecm, echoEst) :=
        if (i32 (Z.shiftl mseStored MSE_RESOLUTION) <? i32 (MIN_MSE_DIFF * mseAdapt)) &&
           (i32 (Z.shiftl (mseStoredOld aecm) MSE_RESOLUTION) <? i32 (MIN_MSE_DIFF * mseAdaptOld aecm))
        then (ResetAdaptiveChannelC aecm, echoEst)
        else if (i32 (MIN_MSE_DIFF * mseStored) >? i32 (Z.shiftl mseAdapt MSE_RESOLUTION)) &&
                (mseAdapt <? mseThreshold aecm) && (mseAdaptOld aecm <? mseThreshold aecm)
        then let '(aecm, echoEst) := StoreAdaptiveChannelC aecm far_spectrum in
             (update_threshold aecm mseAdapt, echoEst)
        else (aecm, echoEst) in
      (aecm <| mseChannelCount := 0 |> <| mseStoredOld := mseStored |> <| mseAdaptOld := mseAdapt |>, echoEst)
    else (aecm, echoEst).

Definition WebRtcAecm_UpdateChannel (aecm : AecmCore) (far_spectrum : list Z) (far_q : Z) (dfa : list Z)
    (mu : Z) (echoEst : list Z) : AecmCore * list Z :=
  store_or_restore (adapt_channel aecm far_spectrum far_q dfa mu) far_spectrum echoEst.

(** ** Suppression gain *)

(** The gain wanted for the current block. *)
Definition target_gain (aecm : AecmCore) : Z :=
  if currentVADValue aecm =? 0 then 0
  else
    let tmp16no1 := i16 (znth (nearLogEnergy aecm) 0 - znth (echoStoredLogEnergy aecm) 0 - ENERGY_DEV_OFFSET) in
    let dE := i16 (WEBRTC_SPL_ABS_W16 tmp16no1) in
    if dE <? ENERGY_DEV_TOL then
      if dE <? SUPGAIN_EPC_DT then
        let tmp32no1 := i32 (supGainErrParamDiffAB aecm * dE) + Z.shiftr SUPGAIN_EPC_DT 1 in
        let tmp16no1 := i16 (WebRtcSpl_DivW32W16 tmp32no1 SUPGAIN_EPC_DT) in
        i16 (supGainErrParamA aecm - tmp16no1)
      else
        let tmp32no1 := i32 (supGainErrParamDiffBD aecm * (ENERGY_DEV_TOL - dE)) +
                        Z.shiftr (ENERGY_DEV_TOL - SUPGAIN_EPC_DT) 1 in
        let tmp16no1 := i16 (WebRtcSpl_DivW32W16 tmp32no1 (ENERGY_DEV_TOL - SUPGAIN_EPC_DT)) in
        i16 (supGainErrParamD aecm + tmp16no1)
    else supGainErrParamD aecm.

Definition WebRtcAecm_CalcSuppressionGain (aecm : AecmCore) : Z * AecmCore :=
  let gain := target_gain aecm in
  let tmp16no1 := if gain >? supGainOld aecm then gain else supGainOld aecm in
  let aecm := aecm <| supGainOld := gain |> in
  let aecm := if tmp16no1 <? supGain aecm
    then aecm <| supGain := i16 (supGain aecm + i16 (Z.shiftr (tmp16no1 - supGain aecm) 4)) |>
    else aecm <| supGain := i16 (supGain aecm + i16 (Z.shiftr (tmp16no1 - supGain aecm) 4)) |> in
  (supGain aecm, aecm).

(** ** The far-end sample buffer *)

(** The wrapping loop of [WebRtcAecm_BufferFarFrame], on
    [(farBuf, farBufWritePos, writePos, writeLen)]; [None] when [fuel] turns
    are not enough. *)
Fixpoint buffer_far_loop (fuel : nat) (farend : list Z) (farLen : Z) (s : list Z * Z * Z * Z)
    : option (list Z * Z * Z * Z) :=
  let '(buf, bufPos, writePos, writeLen) := s in
  if bufPos + writeLen >? FAR_BUF_LEN then
    match fuel with
    | O => None
    | S fuel' =>
        let writeLen := FAR_BUF_LEN - bufPos in
        let* buf := memcpy buf bufPos farend writePos writeLen in
        buffer_far_loop fuel' farend farLen (buf, 0, writeLen, farLen - writeLen)
    end
  else Some s.

Definition WebRtcAecm_BufferFarFrame (aecm : AecmCore) (farend : list Z) (farLen : Z) : option AecmCore :=
  let* (buf, bufPos, writePos, writeLen) :=
    buffer_far_loop (S (Z.to_nat farLen)) farend farLen (farBuf aecm, farBufWritePos aecm, 0, farLen) in
  let* buf := memcpy buf bufPos farend writePos writeLen in
  Some (aecm <| farBuf := buf |> <| farBufWritePos := bufPos + writeLen |>).

(** The two loops that bring the read position back into the buffer. *)
Fixpoint wrap_up (fuel : nat) (pos : Z) : Z :=
  match fuel with O => pos | S f => if pos <? 0 then wrap_up f (pos + FAR_BUF_LEN) else pos end.
Fixpoint wrap_down (fuel : nat) (pos : Z) : Z :=
  match fuel with O => pos | S f => if pos >? FAR_BUF_LEN - 1 then wrap_down f (pos - FAR_BUF_LEN) else pos end.

(** The wrapping loop of [WebRtcAecm_FetchFarFrame], on
    [(farend, farBufReadPos, readPos, readLen)]. *)
Fixpoint fetch_far_loop (fuel : nat) (farBuf : list Z) (farLen : Z) (s : list Z * Z * Z * Z)
    : option (list Z * Z * Z * Z) :=
  let '(farend, bufPos, readPos, readLen) := s in
  if bufPos + readLen >? FAR_BUF_LEN then
    match fuel with
    | O => None
    | S fuel' =>
        let readLen := FAR_BUF_LEN - bufPos in
        let* farend := memcpy farend readPos farBuf bufPos readLen in
        fetch_far_loop fuel' farBuf farLen (farend, 0, readLen, farLen - readLen)
    end
  else Some s.

(** Returns [farend] (of length at least [farLen]) and the new state. *)
Definition WebRtcAecm_FetchFarFrame (aecm : AecmCore) (farend : list Z) (farLen known : Z)
    : option (list Z * AecmCore) :=
  let delayChange := known - lastKnownDelay aecm in
  let pos := farBufReadPos aecm - delayChange in
  let pos := wrap_up (Z.to_nat (Z.abs pos)) pos in
  let pos := wrap_down (Z.to_nat (Z.abs pos)) pos in
  let aecm := aecm <| lastKnownDelay := known |> in
  let* (farend, bufPos, readPos, readLen) :=
    fetch_far_loop (S (Z.to_nat farLen)) (farBuf aecm) farLen (farend, pos, 0, farLen) in
  let* farend := memcpy farend readPos (farBuf aecm) bufPos readLen in
  Some (farend, aecm <| farBufReadPos := bufPos + readLen |>).

End Aecm.

Module AecmSpec.
Import Ring Spl SplSpec DelayEst DelayWrap Aecm.

(** ** Log energies *)

(** The fraction below the leading bit of [e], in Q8. *)
Definition frac_q8 (e : Z) : Z := e * 256 / 2 ^ Z.log2 e - 256.

Lemma ExtractFractionPart_frac e : 0 < e < 4294967296 ->
  ExtractFractionPart e (WebRtcSpl_NormU32 e) = frac_q8 e /\ 0 <= frac_q8 e <= 255.
Proof.
  intros He. destruct (NormU32_bounds e He) as [Hn Hb]. pose proof (NormU32_log2 e He) as Hlog.
  unfold ExtractFractionPart, frac_q8. set (n := WebRtcSpl_NormU32 e) in *.
  rewrite Z.shiftl_mul_pow2, u32_id by (unfold in_u32; lia).
  change 0x7FFFFFFF with (Z.ones 31). rewrite Z.land_ones, Z.shiftr_div_pow2 by lia.
  change (2 ^ 31) with 2147483648. change (2 ^ 23) with 8388608.
  replace ((e * 2 ^ n) mod 2147483648) with (e * 2 ^ n - 2147483648) by dlia.
  assert (E : e * 256 / 2 ^ Z.log2 e = e * 2 ^ n / 8388608).
  { replace (Z.log2 e) with (31 - n) by lia.
    assert (Hn' : 0 < 2 ^ n) by (apply Z.pow_pos_nonneg; lia).
    assert (Hp : 0 < 2 ^ (31 - n)) by (apply Z.pow_pos_nonneg; lia).
    assert (E31 : 2 ^ (31 - n) * 2 ^ n = 8388608 * 256).
    { rewrite <- Z.pow_add_r by lia. by replace (31 - n + n) with 31 by lia. }
    rewrite <- (Z.div_mul_cancel_r (e * 256) (2 ^ (31 - n)) (2 ^ n)), E31 by lia.
    replace (e * 256 * 2 ^ n) with (e * 2 ^ n * 256) by lia. by rewrite Z.div_mul_cancel_r by lia. }
  rewrite E. replace ((e * 2 ^ n - 2147483648) / 8388608) with (e * 2 ^ n / 8388608 - 256) by dlia.
  assert (256 <= e * 2 ^ n / 8388608 <= 511) by dlia. rewrite i16_id by (unfold in_i16; lia). lia.
Qed.

(** The log energy in closed form. *)
Lemma LogOfEnergy_value e q : 0 < e < 4294967296 -> 0 <= q <= 31 ->
  LogOfEnergyInQ8 e q = 1152 + 256 * Z.log2 e + frac_q8 e - 256 * q.
Proof.
  intros He Hq. unfold LogOfEnergyInQ8. destruct (Z.gtb_spec e 0); [|lia].
  destruct (ExtractFractionPart_frac e He) as [-> Hf]. rewrite NormU32_log2 by done.
  assert (0 <= Z.log2 e <= 31).
  { split; [apply Z.log2_nonneg|]. change 31 with (Z.log2 4294967295). apply Z.log2_le_mono. lia. }
  rewrite !Z.shiftl_mul_pow2 by lia. change (kLogLowValue) with 1152. change (2 ^ 8) with 256.
  rewrite i16_id by (unfold in_i16; lia). lia.
Qed.

Lemma LogOfEnergy_range e q : 0 <= e < 4294967296 -> 0 <= q <= 31 -> -6784 <= LogOfEnergyInQ8 e q <= 9343.
Proof.
  intros He Hq. destruct (Z.eqb_spec e 0) as [->|]; [change (LogOfEnergyInQ8 0 q) with 1152; lia|].
  rewrite LogOfEnergy_value by lia. destruct (ExtractFractionPart_frac e ltac:(lia)) as [_ Hf].
  assert (0 <= Z.log2 e <= 31); [|lia].
  split; [apply Z.log2_nonneg|]. change 31 with (Z.log2 4294967295). apply Z.log2_le_mono. lia.
Qed.

Lemma LogOfEnergy_mono a b q : 0 < a <= b -> b < 4294967296 -> 0 <= q <= 31 ->
  LogOfEnergyInQ8 a q <= LogOfEnergyInQ8 b q.
Proof.
  intros Ha Hb Hq. rewrite !LogOfEnergy_value by lia.
  destruct (ExtractFractionPart_frac a ltac:(lia)) as [_ Hfa], (ExtractFractionPart_frac b ltac:(lia)) as [_ Hfb].
  pose proof (Z.log2_le_mono a b ltac:(lia)). destruct (Z.eqb_spec (Z.log2 a) (Z.log2 b)) as [E|]; [|lia].
  assert (frac_q8 a <= frac_q8 b); [|lia]. unfold frac_q8. rewrite E.
  apply Z.sub_le_mono_r, Z.div_le_mono; [apply Z.pow_pos_nonneg; [lia|apply Z.log2_nonneg]|lia].
Qed.

(** ** Asymmetric filter *)

Lemma AsymFilt_between old v p n : in_i16 old -> in_i16 v -> 0 <= p -> 0 <= n ->
  Z.min old v <= WebRtcAecm_AsymFilt old v p n <= Z.max old v.
Proof.
  intros Ho Hv Hp Hn. unfold in_i16 in *. unfold WebRtcAecm_AsymFilt.
  destruct ((old =? _) || (old =? _)); [lia|].
  rewrite !Z.shiftr_div_pow2 by lia.
  assert (H1 : 0 < 2 ^ n) by (apply Z.pow_pos_nonneg; lia). assert (H2 : 0 < 2 ^ p) by (apply Z.pow_pos_nonneg; lia).
  destruct (Z.gtb_spec old v).
  - pose proof (Z.div_pos (old - v) (2 ^ n)).
    pose proof (Z.div_le_upper_bound (old - v) (2 ^ n) (old - v) H1 ltac:(nia)).
    rewrite i16_id by (unfold in_i16; lia). lia.
  - pose proof (Z.div_pos (v - old) (2 ^ p)).
    pose proof (Z.div_le_upper_bound (v - old) (2 ^ p) (v - old) H2 ltac:(nia)).
    rewrite i16_id by (unfold in_i16; lia). lia.
Qed.

(** ** The numerator of the channel update *)

Lemma NormU32_u16 x : in_u16 x -> WebRtcSpl_NormU32 x = 0 \/ 16 <= WebRtcSpl_NormU32 x <= 31.
Proof.
  unfold in_u16. intros Hx. destruct (Z.eqb_spec x 0) as [->|]; [by left|]. right.
  rewrite NormU32_log2 by lia. assert (0 <= Z.log2 x <= 15); [|lia].
  split; [apply Z.log2_nonneg|]. change 15 with (Z.log2 65535). apply Z.log2_le_mono. lia.
Qed.

Lemma norm_bound x : 0 <= x < 4294967296 -> 0 <= WebRtcSpl_NormU32 x <= 31 /\ x * 2 ^ WebRtcSpl_NormU32 x < 4294967296.
Proof.
  intros Hx. destruct (Z.eqb_spec x 0) as [->|]; [done|]. destruct (NormU32_bounds x ltac:(lia)). lia.
Qed.

Lemma channel_times_far_exact ch far : 0 <= ch <= 2147483647 -> in_u16 far ->
  let '(num, shift) := channel_times_far ch far in
  num = Z.shiftr ch shift * far /\ in_u32 num /\ 0 <= shift <= 32.
Proof.
  intros Hch Hfar. unfold in_u16 in Hfar. unfold channel_times_far. rewrite (u32_id ch) by (unfold in_u32; lia).
  destruct (norm_bound ch ltac:(lia)) as [Hc1 Hc2], (norm_bound far ltac:(lia)) as [Hf1 Hf2].
  set (zc := WebRtcSpl_NormU32 ch) in *. set (zf := WebRtcSpl_NormU32 far) in *.
  assert (Hpc : 0 < 2 ^ zc) by (apply Z.pow_pos_nonneg; lia). assert (Hpf : 0 < 2 ^ zf) by (apply Z.pow_pos_nonneg; lia).
  assert (H2 : ch * far * 2 ^ (zc + zf) < 4294967296 * 4294967296).
  { rewrite Z.pow_add_r by lia. replace (ch * far * (2 ^ zc * 2 ^ zf)) with ((ch * 2 ^ zc) * (far * 2 ^ zf)) by lia.
    apply Z.mul_lt_mono_nonneg; nia. }
  destruct (Z.gtb_spec (zc + zf) 31).
  - rewrite Z.shiftr_0_r. unfold WEBRTC_SPL_UMUL_32_16. rewrite (u32_id ch), (u16_id far) by (unfold in_u32, in_u16; lia).
    assert (4294967296 <= 2 ^ (zc + zf)) by (apply (Z.pow_le_mono_r 2 32); lia).
    assert (ch * far < 4294967296) by nia. rewrite u32_id by (unfold in_u32; nia). unfold in_u32. nia.
  - set (s := 32 - zc - zf).
    assert (E : 2 ^ s * 2 ^ (zc + zf) = 4294967296) by (rewrite <- Z.pow_add_r by lia; by replace (s + (zc + zf)) with 32 by lia).
    assert (Hps : 0 < 2 ^ s) by (apply Z.pow_pos_nonneg; lia).
    rewrite Z.shiftr_div_pow2 by lia. pose proof (Z.mul_div_le ch (2 ^ s) Hps). pose proof (Z.div_pos ch (2 ^ s)).
    assert (Hlt : ch / 2 ^ s * far < 4294967296).
    { assert (ch / 2 ^ s * far * 2 ^ s <= ch * far) by nia.
      assert (ch / 2 ^ s * far * 4294967296 < 4294967296 * 4294967296); [|lia].
      rewrite <- E at 1. eapply Z.le_lt_trans; [|exact H2].
      replace (ch / 2 ^ s * far * (2 ^ s * 2 ^ (zc + zf))) with (ch / 2 ^ s * far * 2 ^ s * 2 ^ (zc + zf)) by lia.
      apply Z.mul_le_mono_nonneg_r; [apply Z.pow_nonneg; lia|done]. }
    assert (0 <= ch / 2 ^ s * far) by nia.
    replace (u32 (i32 (ch / 2 ^ s * far))) with (ch / 2 ^ s * far) by cint_lia. unfold in_u32. lia.
Qed.

(** ** The channels stay non-negative *)

Definition ch16 (x : Z) : Prop := 0 <= x <= 32767.
Definition ch32 (x : Z) : Prop := 0 <= x <= 2147483647.

Record channels_ok (c : AecmCore) : Prop := mkChannels {
  co_stored_len : zlen (channelStored c) = PART_LEN1;
  co_16_len : zlen (channelAdapt16 c) = PART_LEN1;
  co_32_len : zlen (channelAdapt32 c) = PART_LEN1;
  co_stored : Forall ch16 (channelStored c);
  co_16 : Forall ch16 (channelAdapt16 c);
  co_32 : Forall ch32 (channelAdapt32 c) }.

Lemma SHIFT_W32_range x c : in_i32 x -> in_i32 (WEBRTC_SPL_SHIFT_W32 x c).
Proof.
  intros Hx. unfold WEBRTC_SPL_SHIFT_W32. destruct (Z.geb_spec c 0); [apply i32_range|].
  rewrite Z.shiftr_div_pow2 by lia. assert (0 < 2 ^ (- c)) by (apply Z.pow_pos_nonneg; lia).
  unfold in_i32 in *. split; [apply Z.div_le_lower_bound; nia|].
  apply Z.lt_succ_r, Z.div_lt_upper_bound; nia.
Qed.

Lemma channel_update_range i far mu e xfaQ s : in_i32 (channel_update i far mu e xfaQ s).
Proof.
  unfold channel_update. destruct (_ + _ >? 31); cbv zeta;
    match goal with |- context [if ?b then WEBRTC_SPL_WORD32_MAX else _] => destruct b end;
    (unfold WEBRTC_SPL_WORD32_MAX, in_i32; lia) || apply SHIFT_W32_range, DivW32W16_range.
Qed.

Lemma channel_step_ok c fs fq dfa mu i : channels_ok c -> 0 <= i < PART_LEN1 ->
  ch32 (channel_step c fs fq dfa mu i).1 /\ ch16 (channel_step c fs fq dfa mu i).2.
Proof.
  intros [_ H16 H32 _ F16 F32] Hi. unfold channel_step.
  pose proof (Forall_aget _ _ _ _ F32 (aget_znth (channelAdapt32 c) i ltac:(lia))) as Hch.
  pose proof (Forall_aget _ _ _ _ F16 (aget_znth (channelAdapt16 c) i ltac:(lia))) as H16i.
  destruct (channel_times_far _ _) as [num sh]. destruct (channel_error _ _ _ _ _) as [err xfaQ].
  destruct (negb (err =? 0) && _); [|done]. unfold ch32, ch16 in *. cbn [fst snd].
  pose proof (channel_update_range i (znth fs i) mu err xfaQ sh) as Hu.
  rewrite AddSatW32_clamp by (done || (unfold in_i32; lia)). unfold in_i32, clamp in *.
  set (u := channel_update _ _ _ _ _ _) in *. set (ch := znth (channelAdapt32 c) i) in *.
  destruct (Z.ltb_spec (Z.max (-2147483648) (Z.min 2147483647 (ch + u))) 0); [by cbn|].
  split; [lia|]. rewrite Z.shiftr_div_pow2 by lia. change (2 ^ 16) with 65536.
  rewrite i16_id by (unfold in_i16; dlia). dlia.
Qed.

Lemma adapt_channel_ok c fs fq dfa mu : channels_ok c -> channels_ok (adapt_channel c fs fq dfa mu).
Proof.
  intros Hc. unfold adapt_channel. destruct (negb (mu =? 0)); [|done]. pose proof Hc as [? ? ? ? ? ?].
  constructor; cbn [channelStored channelAdapt16 channelAdapt32]; try done; try (apply length_tab; done).
  all: apply Forall_tab; intros i Hi; apply (channel_step_ok c fs fq dfa mu i Hc Hi).
Qed.

Lemma ResetAdaptiveChannel_ok c : channels_ok c -> channels_ok (ResetAdaptiveChannelC c).
Proof.
  intros [? ? ? Hs ? ?]. constructor; cbn; try done. apply Forall_tab. intros i Hi.
  pose proof (Forall_aget _ _ _ _ Hs (aget_znth (channelStored c) i ltac:(lia))) as Hx. unfold ch16, ch32 in *.
  rewrite Z.shiftl_mul_pow2 by lia. rewrite i32_id by (unfold in_i32; lia). lia.
Qed.

Lemma StoreAdaptiveChannel_ok c fs : channels_ok c -> channels_ok (StoreAdaptiveChannelC c fs).1.
Proof. intros [? ? ? ? ? ?]. by constructor. Qed.

Lemma channels_ok_ext c c' : channelStored c' = channelStored c -> channelAdapt16 c' = channelAdapt16 c ->
  channelAdapt32 c' = channelAdapt32 c -> channels_ok c -> channels_ok c'.
Proof. intros E1 E2 E3 [? ? ? ? ? ?]. constructor; congruence. Qed.

Lemma store_or_restore_ok c fs est : channels_ok c -> channels_ok (store_or_restore c fs est).1.
Proof.
  intros Hc. unfold store_or_restore. case_match; [by apply StoreAdaptiveChannel_ok|].
  set (c1 := if farLogEnergy c <? farEnergyMSE c then _ else _).
  assert (Hc1 : channels_ok c1) by (subst c1; case_match; by apply (channels_ok_ext c)).
  clearbody c1. case_match; [|done].
  match goal with |- context [let '(_, _) := ?p in _] => destruct p as [a l] eqn:E end.
  apply (channels_ok_ext a); try done. revert E. case_match; [intros [= <- _]; by apply ResetAdaptiveChannel_ok|].
  case_match; [|by intros [= <- _]]. unfold StoreAdaptiveChannelC, update_threshold. intros [= <- _].
  case_match; apply (channels_ok_ext (StoreAdaptiveChannelC c1 fs).1); try done; by apply StoreAdaptiveChannel_ok.
Qed.

(** ** The suppression gain *)

(** The parameters [WebRtcAecm_InitCore] sets. *)
Record gain_params (c : AecmCore) : Prop := mkGainParams {
  gp_A : supGainErrParamA c = 4096; gp_D : supGainErrParamD c = 768;
  gp_AB : supGainErrParamDiffAB c = 2048; gp_BD : supGainErrParamDiffBD c = 1280 }.

Definition log_range (x : Z) : Prop := -6784 <= x <= 9343.

Lemma target_gain_value c : gain_params c ->
  log_range (znth (nearLogEnergy c) 0) -> log_range (znth (echoStoredLogEnergy c) 0) ->
  let dE := Z.abs (znth (nearLogEnergy c) 0 - znth (echoStoredLogEnergy c) 0) in
  target_gain c = if currentVADValue c =? 0 then 0
    else if dE <? 200 then 4096 - (2048 * dE + 100) / 200
    else if dE <? 400 then 768 + (1280 * (400 - dE) + 100) / 200 else 768.
Proof.
  intros [HA HD HAB HBD] Hn He dE. unfold log_range in *. unfold target_gain, ENERGY_DEV_OFFSET, ENERGY_DEV_TOL, SUPGAIN_EPC_DT.
  destruct (currentVADValue c =? 0); [done|]. rewrite Z.sub_0_r, HA, HD, HAB, HBD.
  rewrite (i16_id (_ - _)) by (unfold in_i16; lia).
  assert (E : i16 (WEBRTC_SPL_ABS_W16 (znth (nearLogEnergy c) 0 - znth (echoStoredLogEnergy c) 0)) = dE).
  { unfold WEBRTC_SPL_ABS_W16. rewrite (i16_id (_ - _)) by (unfold in_i16; lia).
    subst dE. destruct (Z.geb_spec (znth (nearLogEnergy c) 0 - znth (echoStoredLogEnergy c) 0) 0);
      rewrite i16_id by (unfold in_i16; lia); lia. }
  rewrite E. assert (0 <= dE <= 16127) by (subst dE; lia). clearbody dE. clear E.
  unfold WebRtcSpl_DivW32W16, c_div. change (Z.shiftr 200 1) with 100. change (Z.shiftr (400 - 200) 1) with 100.
  change (negb (200 =? 0)) with true. change (negb (400 - 200 =? 0)) with true. cbv iota. change (400 - 200) with 200.
  destruct (Z.ltb_spec dE 400), (Z.ltb_spec dE 200); try lia; try done.
  - rewrite (i32_id (2048 * dE)) by (unfold in_i32; lia). rewrite Z.quot_div_nonneg by lia.
    rewrite (i32_id (_ / _)) by (unfold in_i32; dlia). rewrite (i16_id (_ / _)), i16_id by (unfold in_i16; dlia). done.
  - rewrite (i32_id (1280 * _)) by (unfold in_i32; lia). rewrite Z.quot_div_nonneg by lia.
    rewrite (i32_id (_ / _)) by (unfold in_i32; dlia). rewrite (i16_id (_ / _)), i16_id by (unfold in_i16; dlia). done.
Qed.

Lemma CalcSuppressionGain_ok c : gain_params c ->
  log_range (znth (nearLogEnergy c) 0) -> log_range (znth (echoStoredLogEnergy c) 0) ->
  0 <= supGain c <= 4096 -> 0 <= supGainOld c <= 4096 ->
  let t := Z.max (target_gain c) (supGainOld c) in
  let g := supGain c + (t - supGain c) / 16 in
  WebRtcAecm_CalcSuppressionGain c = (g, c <| supGainOld := target_gain c |> <| supGain := g |>) /\
  0 <= target_gain c <= 4096 /\ Z.min t (supGain c) <= g <= Z.max t (supGain c).
Proof.
  intros Hp Hn He Hs Hso t g. pose proof (target_gain_value c Hp Hn He) as Ht.
  assert (Htr : 0 <= target_gain c <= 4096).
  { rewrite Ht. unfold log_range in *. destruct (_ =? 0); [lia|].
    set (dE := Z.abs _). assert (0 <= dE) by (subst dE; lia). clearbody dE.
    destruct (Z.ltb_spec dE 200); [dlia|]. destruct (Z.ltb_spec dE 400); [dlia|lia]. }
  assert (Ht' : (if target_gain c >? supGainOld c then target_gain c else supGainOld c) = t)
    by (subst t; destruct (Z.gtb_spec (target_gain c) (supGainOld c)); lia).
  assert (Hg : i16 (supGain c + i16 (Z.shiftr (t - supGain c) 4)) = g).
  { rewrite Z.shiftr_div_pow2 by lia. change (2 ^ 4) with 16.
    rewrite (i16_id (_ / 16)), i16_id by (unfold in_i16; subst t; dlia). done. }
  split_and!; try lia.
  - unfold WebRtcAecm_CalcSuppressionGain. rewrite Ht'. cbn [supGain]. destruct (t <? _); cbn -[Z.shiftr]; rewrite Hg; done.
  - subst g t. dlia.
  - subst g t. dlia.
Qed.

(** ** The far-end spectrum history *)

Record history_ok (c : AecmCore) : Prop := mkHistory {
  hi_pos : 0 <= far_history_pos c <= MAX_DELAY;
  hi_q : zlen (far_q_domains c) = MAX_DELAY;
  hi_len : zlen (far_history c) = PART_LEN1 * MAX_DELAY;
  hi_clen : zlen (far_history_complex c) = PART_LEN1 * MAX_DELAY }.

Definition slot (pos d : Z) : Z := if pos - d <? 0 then pos - d + MAX_DELAY else pos - d.

Lemma AlignedFarend_slot c d : history_ok c -> 0 <= slot (far_history_pos c) d < MAX_DELAY ->
  WebRtcAecm_AlignedFarend c d =
  Some (znth (far_q_domains c) (slot (far_history_pos c) d),
        slice (far_history c) (slot (far_history_pos c) d * PART_LEN1) PART_LEN1).
Proof.
  intros [Hp Hq Hl Hc] Hs. unfold WebRtcAecm_AlignedFarend. fold (slot (far_history_pos c) d).
  rewrite (aget_znth (far_q_domains c)) by lia. cbn [mbind option_bind].
  rewrite (proj2 (range_ok_spec _ _ _)); [done|]. unfold PART_LEN1, PART_LEN, MAX_DELAY in *. lia.
Qed.

Lemma slice_splice {A} (l xs : list A) p q n : 0 <= p -> p + zlen xs <= zlen l -> 0 <= q -> 0 <= n -> q + n <= zlen l ->
  q + n <= p \/ p + zlen xs <= q -> slice (splice l p xs) q n = slice l q n.
Proof.
  intros. assert (length (splice l p xs) = length l) by (apply length_splice; lia).
  apply list_ext; [apply Nat2Z.inj; rewrite !length_slice; lia|].
  rewrite length_slice by lia. intros i Hi. rewrite !aget_slice, aget_splice by lia.
  destruct (Z.leb_spec p (q + i)), (Z.ltb_spec (q + i) (p + zlen xs)); done || lia.
Qed.

Lemma slice_splice_same {A} (l xs : list A) p : 0 <= p -> p + zlen xs <= zlen l ->
  slice (splice l p xs) p (zlen xs) = xs.
Proof.
  intros. assert (length (splice l p xs) = length l) by (apply length_splice; lia).
  apply list_ext; [apply Nat2Z.inj; rewrite length_slice; lia|].
  rewrite length_slice by lia. intros i Hi. rewrite aget_slice, aget_splice by lia.
  destruct (Z.leb_spec p (p + i)), (Z.ltb_spec (p + i) (p + zlen xs)); try lia. cbn. f_equal. lia.
Qed.

Lemma slice_all {A} (l : list A) n : n = zlen l -> slice l 0 n = l.
Proof. intros ->. unfold slice. rewrite drop_0. apply take_ge. lia. Qed.

Definition next_pos (pos : Z) : Z := if pos + 1 >=? MAX_DELAY then 0 else pos + 1.

Lemma UpdateFarHistory_ok c spec cspec q : history_ok c -> zlen spec = PART_LEN1 -> zlen cspec = PART_LEN1 ->
  exists c', WebRtcAecm_UpdateFarHistory c spec cspec q = Some c' /\ history_ok c' /\
    far_history_pos c' = next_pos (far_history_pos c) /\
    WebRtcAecm_AlignedFarend c' 0 = Some (q, spec) /\
    forall d, 0 <= d < MAX_DELAY - 1 -> 0 <= slot (far_history_pos c) d < MAX_DELAY -> far_history_pos c < MAX_DELAY ->
      WebRtcAecm_AlignedFarend c' (d + 1) = WebRtcAecm_AlignedFarend c d.
Proof.
  intros Hc Hs Hcs. pose proof Hc as [Hp Hq Hl Hcl]. unfold WebRtcAecm_UpdateFarHistory.
  fold (next_pos (far_history_pos c)). set (p := next_pos (far_history_pos c)).
  assert (Hpr : 0 <= p < MAX_DELAY) by (subst p; unfold next_pos, MAX_DELAY in *; destruct (Z.geb_spec (far_history_pos c + 1) 25); lia).
  unfold PART_LEN1, PART_LEN, MAX_DELAY in Hs, Hcs, Hl, Hcl, Hpr, Hp, Hq.
  rewrite aset_Some by lia. cbn [mbind option_bind]. unfold PART_LEN1, PART_LEN.
  rewrite !memcpy_Some by lia. cbn [mbind option_bind]. rewrite !slice_all by lia.
  eexists. split; [done|].
  match goal with |- history_ok ?x /\ _ => set (c' := x) end.
  assert (Hc' : history_ok c').
  { constructor; cbn; unfold PART_LEN1, PART_LEN, MAX_DELAY; [lia|by rewrite length_insert|rewrite length_splice; lia|rewrite length_splice; lia]. }
  split; [done|]. split; [done|]. split.
  - assert (E0 : slot p 0 = p) by (unfold slot; rewrite Z.sub_0_r; destruct (Z.ltb_spec p 0); lia).
    rewrite AlignedFarend_slot; change (far_history_pos c') with p; rewrite ?E0; [|done|done].
    subst c'. cbn [far_q_domains far_history].
    unfold znth. rewrite (aget_aset (far_q_domains c) _ p p q), Z.eqb_refl by (apply aset_Some; lia).
    pose proof (slice_splice_same (far_history c) spec (p * 257) ltac:(lia) ltac:(lia)) as Hss.
    replace (zlen spec) with 257 in Hss by lia. cbn [default]. do 2 f_equal. exact Hss.
  - intros d Hd Hsl Hlt. assert (Es : slot p (d + 1) = slot (far_history_pos c) d).
    { subst p. unfold slot, next_pos, MAX_DELAY in *. destruct (Z.geb_spec (far_history_pos c + 1) 25);
        repeat match goal with |- context [?a <? ?b] => destruct (Z.ltb_spec a b) end; lia. }
    assert (Hne : slot (far_history_pos c) d <> p).
    { rewrite <- Es. unfold slot, MAX_DELAY in *. destruct (Z.ltb_spec (p - (d + 1)) 0); lia. }
    rewrite (AlignedFarend_slot c' (d + 1)) by (done || (change (far_history_pos c') with p; by rewrite Es)).
    rewrite (AlignedFarend_slot c d) by done.
    change (far_history_pos c') with p. rewrite Es. unfold MAX_DELAY in *.
    set (s := slot (far_history_pos c) d) in *. subst c'. cbn [far_q_domains far_history]. do 2 f_equal.
    + unfold znth. by rewrite (aget_aset (far_q_domains c) _ p s q), (proj2 (Z.eqb_neq s p)) by (done || (apply aset_Some; lia)).
    + apply slice_splice; unfold PART_LEN1, PART_LEN; lia.
Qed.

(** A sequence of updates with [(spectrum, complex spectrum, Q-domain)]. *)
Fixpoint update_all (c : AecmCore) (us : list (list Z * list ComplexInt16 * Z)) : option AecmCore :=
  match us with
  | [] => Some c
  | (spec, cspec, q) :: us => let* c := WebRtcAecm_UpdateFarHistory c spec cspec q in update_all c us
  end.

Definition far_update_ok (u : list Z * list ComplexInt16 * Z) : Prop :=
  zlen u.1.1 = PART_LEN1 /\ zlen u.1.2 = PART_LEN1.

(** The spectra of [us], the latest first, are found at their delays. *)
Definition remembers (c : AecmCore) (us : list (list Z * list ComplexInt16 * Z)) : Prop :=
  history_ok c /\ (us <> [] -> far_history_pos c < MAX_DELAY) /\
  forall d spec cspec q, us !! d = Some (spec, cspec, q) -> Z.of_nat d < MAX_DELAY ->
    WebRtcAecm_AlignedFarend c (Z.of_nat d) = Some (q, spec).

Lemma update_remembers c us spec cspec q : remembers c us -> far_update_ok (spec, cspec, q) ->
  exists c', WebRtcAecm_UpdateFarHistory c spec cspec q = Some c' /\ remembers c' ((spec, cspec, q) :: us).
Proof.
  intros (Hc & Hpos & Hus) [Hs Hcs]. destruct (UpdateFarHistory_ok c spec cspec q Hc Hs Hcs)
    as (c' & E & Hc' & Hp' & H0 & Hrest).
  exists c'. split; [done|]. split; [done|]. pose proof (hi_pos _ Hc).
  split; [intros _; rewrite Hp'; unfold next_pos, MAX_DELAY in *; destruct (Z.geb_spec (far_history_pos c + 1) 25); lia|].
  intros [|d] spec' cspec' q' Hd Hlt; [by injection Hd as <- _ <-|]. cbn in Hd.
  assert (Hne : us <> []) by (by destruct us). specialize (Hpos Hne).
  replace (Z.of_nat (S d)) with (Z.of_nat d + 1) by lia. rewrite Hrest; [|lia| |done].
  - apply (Hus d spec' cspec' q'); [done|lia].
  - unfold slot. destruct (Z.ltb_spec (far_history_pos c - Z.of_nat d) 0); lia.
Qed.

Lemma update_all_remembers us : forall c done_, remembers c done_ -> Forall far_update_ok us ->
  exists c', update_all c us = Some c' /\ remembers c' (rev us ++ done_).
Proof.
  induction us as [|[[spec cspec] q] us IH]; intros c past Hc Hus; cbn [update_all].
  { exists c. done. }
  apply Forall_cons_1 in Hus as [Hu Hus].
  destruct (update_remembers c past spec cspec q Hc Hu) as (c1 & -> & Hc1). cbn [mbind option_bind].
  destruct (IH c1 _ Hc1 Hus) as (c2 & E & Hc2). exists c2. split; [done|].
  cbn [rev]. by rewrite <- app_assoc.
Qed.

(** ** The far-end delay line *)

(** The read position after the two wrapping loops. *)
Lemma wrap_up_spec fuel pos : - 1024 * Z.of_nat fuel <= pos ->
  let p := wrap_up fuel pos in 0 <= p /\ p mod 1024 = pos mod 1024 /\ p <= Z.max pos 1023.
Proof.
  revert pos. induction fuel as [|f IH]; intros pos Hf; cbn [wrap_up]; [lia|].
  change FAR_BUF_LEN with 1024. destruct (Z.ltb_spec pos 0); [|lia].
  specialize (IH (pos + 1024) ltac:(lia)). cbv zeta in IH.
  replace ((pos + 1024) mod 1024) with (pos mod 1024) in IH by dlia. lia.
Qed.

Lemma wrap_down_spec fuel pos : 0 <= pos < 1024 * (Z.of_nat fuel + 1) -> wrap_down fuel pos = pos mod 1024.
Proof.
  revert pos. induction fuel as [|f IH]; intros pos Hf; cbn [wrap_down]; [rewrite Z.mod_small; lia|].
  change FAR_BUF_LEN with 1024. destruct (Z.gtb_spec pos (1024 - 1)).
  - rewrite IH by lia. dlia.
  - rewrite Z.mod_small; lia.
Qed.

Lemma wrap_spec pos :
  let p := wrap_up (Z.to_nat (Z.abs pos)) pos in wrap_down (Z.to_nat (Z.abs p)) p = pos mod 1024.
Proof.
  destruct (wrap_up_spec (Z.to_nat (Z.abs pos)) pos) as (H1 & H2 & _); [lia|].
  cbv zeta. rewrite wrap_down_spec by lia. done.
Qed.

(** A buffer written from position [p], around its end. *)
Definition written_at (buf : list Z) (p : Z) (xs : list Z) : list Z :=
  tab (fun k => if (k - p) mod 1024 <? zlen xs then znth xs ((k - p) mod 1024) else znth buf k) 1024.

Lemma buffer_far_ok c farend : zlen (farBuf c) = 1024 -> 0 <= farBufWritePos c <= 1024 -> zlen farend <= 1024 ->
  exists pos, WebRtcAecm_BufferFarFrame c farend (zlen farend) =
      Some (c <| farBuf := written_at (farBuf c) (farBufWritePos c) farend |> <| farBufWritePos := pos |>) /\
    0 <= pos <= 1024 /\ pos mod 1024 = (farBufWritePos c + zlen farend) mod 1024.
Proof.
  intros Hb Hp Hn. unfold WebRtcAecm_BufferFarFrame.
  set (p := farBufWritePos c) in *. set (n := zlen farend) in *. assert (0 <= n) by lia.
  cbn [buffer_far_loop]. change FAR_BUF_LEN with 1024. destruct (Z.gtb_spec (p + n) 1024) as [Hw|Hw].
  - rewrite memcpy_Some by (fold n; lia). cbn [mbind option_bind].
    set (k := 1024 - p).
    assert (El : forall f, buffer_far_loop f farend n (splice (farBuf c) p (slice farend 0 k), 0, k, n - k) =
                  Some (splice (farBuf c) p (slice farend 0 k), 0, k, n - k)).
    { intros f. destruct f; cbn [buffer_far_loop]; change FAR_BUF_LEN with 1024;
        (destruct (Z.gtb_spec (0 + (n - k)) 1024); [lia|done]). }
    rewrite El. cbn [mbind option_bind].
    assert (Hs1 : zlen (slice farend 0 k) = k) by (apply length_slice; fold n; lia).
    assert (Hl1 : length (splice (farBuf c) p (slice farend 0 k)) = length (farBuf c)) by (apply length_splice; lia).
    rewrite memcpy_Some by (fold n; lia). cbn [mbind option_bind].
    assert (Hs2 : zlen (slice farend k (n - k)) = n - k) by (apply length_slice; fold n; lia).
    assert (Eb : splice (splice (farBuf c) p (slice farend 0 k)) 0 (slice farend k (n - k)) =
                 written_at (farBuf c) p farend).
    { apply list_ext.
      { apply Nat2Z.inj. unfold written_at. rewrite length_splice, length_tab by lia. lia. }
      rewrite length_splice by lia. intros i Hi. unfold written_at. fold p n. rewrite aget_tab by lia.
      rewrite aget_splice by lia. rewrite Hs2. destruct (Z.leb_spec 0 i); [|lia].
      destruct (Z.ltb_spec i (0 + (n - k))) as [Hlt|Hge]; cbn [andb].
      * rewrite aget_slice by lia. replace ((i - p) mod 1024) with (i + k) by dlia.
        destruct (Z.ltb_spec (i + k) n); [|lia]. replace (k + (i - 0)) with (i + k) by lia. apply aget_znth. fold n. lia.
      * rewrite aget_splice by lia. rewrite Hs1. destruct (Z.leb_spec p i) as [Hpi|Hpi].
        -- destruct (Z.ltb_spec i (p + k)); [|lia]. cbn [andb]. rewrite aget_slice by lia.
           replace ((i - p) mod 1024) with (i - p) by dlia. destruct (Z.ltb_spec (i - p) n); [|lia].
           replace (0 + (i - p)) with (i - p) by lia. apply aget_znth. fold n. lia.
        -- cbn [andb]. replace ((i - p) mod 1024) with (i + k) by dlia.
           destruct (Z.ltb_spec (i + k) n); [lia|]. apply aget_znth. lia. }
    rewrite Eb. eexists. split; [reflexivity|]. dlia.
  - cbn [mbind option_bind]. rewrite memcpy_Some by (fold n; lia). cbn [mbind option_bind].
    assert (Hs1 : zlen (slice farend 0 n) = n) by (apply length_slice; fold n; lia).
    assert (Eb : splice (farBuf c) p (slice farend 0 n) = written_at (farBuf c) p farend).
    { apply list_ext.
      { apply Nat2Z.inj. unfold written_at. rewrite length_splice, length_tab by lia. lia. }
      rewrite length_splice by lia. intros i Hi. unfold written_at. fold p n. rewrite aget_tab by lia.
      rewrite aget_splice by lia. rewrite Hs1. destruct (Z.leb_spec p i) as [Hpi|Hpi].
      * replace ((i - p) mod 1024) with (i - p) by dlia. destruct (Z.ltb_spec i (p + n)), (Z.ltb_spec (i - p) n); try lia.
        -- cbn [andb]. rewrite aget_slice by lia. replace (0 + (i - p)) with (i - p) by lia. apply aget_znth. fold n. lia.
        -- cbn [andb]. apply aget_znth. lia.
      * cbn [andb]. replace ((i - p) mod 1024) with (i - p + 1024) by dlia.
        destruct (Z.ltb_spec (i - p + 1024) n); [lia|]. apply aget_znth. lia. }
    rewrite Eb. eexists. split; [reflexivity|]. dlia.
Qed.

Lemma fetch_far_ok c out n known : zlen (farBuf c) = 1024 -> zlen out = n -> n <= 1024 ->
  let p := (farBufReadPos c - (known - lastKnownDelay c)) mod 1024 in
  exists pos, WebRtcAecm_FetchFarFrame c out n known =
      Some (tab (fun i => znth (farBuf c) ((p + i) mod 1024)) n,
            c <| lastKnownDelay := known |> <| farBufReadPos := pos |>) /\
    0 <= pos <= 1024 /\ pos mod 1024 = (p + n) mod 1024.
Proof.
  intros Hb Ho Hn p. unfold WebRtcAecm_FetchFarFrame. rewrite wrap_spec. fold p.
  assert (Hp : 0 <= p < 1024) by (apply Z.mod_pos_bound; lia). assert (0 <= n) by lia.
  cbn [fetch_far_loop farBuf]. change FAR_BUF_LEN with 1024.
  change (farBuf (c <| lastKnownDelay := known |>)) with (farBuf c). destruct (Z.gtb_spec (p + n) 1024) as [Hw|Hw].
  - rewrite memcpy_Some by lia. cbn [mbind option_bind]. set (k := 1024 - p).
    assert (El : forall f, fetch_far_loop f (farBuf c) n (splice out 0 (slice (farBuf c) p k), 0, k, n - k) =
                  Some (splice out 0 (slice (farBuf c) p k), 0, k, n - k)).
    { intros f. destruct f; cbn [fetch_far_loop]; change FAR_BUF_LEN with 1024;
        (destruct (Z.gtb_spec (0 + (n - k)) 1024); [lia|done]). }
    rewrite El. cbn [mbind option_bind].
    assert (Hs1 : zlen (slice (farBuf c) p k) = k) by (apply length_slice; lia).
    assert (Hl1 : length (splice out 0 (slice (farBuf c) p k)) = length out) by (apply length_splice; lia).
    rewrite memcpy_Some by lia. cbn [mbind option_bind].
    assert (Hs2 : zlen (slice (farBuf c) 0 (n - k)) = n - k) by (apply length_slice; lia).
    match goal with |- context [Some (?l, _) = _] => assert (Eb : l = tab (fun i => znth (farBuf c) ((p + i) mod 1024)) n) end;
      [|rewrite Eb; eexists; split; [reflexivity|]; dlia].
    apply list_ext; [apply Nat2Z.inj; rewrite length_splice, length_tab by lia; lia|].
    rewrite length_splice by lia. intros i Hi. rewrite aget_tab by lia. rewrite aget_splice by lia. rewrite Hs2.
    destruct (Z.leb_spec k i) as [Hk|Hk].
    + destruct (Z.ltb_spec i (k + (n - k))); [|lia]. cbn [andb]. rewrite aget_slice by lia.
      replace ((p + i) mod 1024) with (i - k) by dlia. replace (0 + (i - k)) with (i - k) by lia. apply aget_znth. lia.
    + cbn [andb]. rewrite aget_splice by lia. rewrite Hs1. destruct (Z.leb_spec 0 i), (Z.ltb_spec i (0 + k)); try lia.
      cbn [andb]. rewrite aget_slice by lia. replace ((p + i) mod 1024) with (p + (i - 0)) by dlia. apply aget_znth. lia.
  - cbn [mbind option_bind]. rewrite memcpy_Some by lia. cbn [mbind option_bind].
    assert (Hs1 : zlen (slice (farBuf c) p n) = n) by (apply length_slice; lia).
    match goal with |- context [Some (?l, _) = _] => assert (Eb : l = tab (fun i => znth (farBuf c) ((p + i) mod 1024)) n) end;
      [|rewrite Eb; eexists; split; [reflexivity|]; dlia].
    apply list_ext; [apply Nat2Z.inj; rewrite length_splice, length_tab by lia; lia|].
    rewrite length_splice by lia. intros i Hi. rewrite aget_tab by lia. rewrite aget_splice by lia. rewrite Hs1.
    destruct (Z.leb_spec 0 i), (Z.ltb_spec i (0 + n)); try lia. cbn [andb]. rewrite aget_slice by lia.
    replace ((p + i) mod 1024) with (p + (i - 0)) by dlia. apply aget_znth. lia.
Qed.

(** [S] is the far-end stream: sample [j] for [j >= 0], and the initial content
    of the buffer before; [W] samples have been buffered. *)
Record line_ok (c : AecmCore) (S : Z -> Z) (W : Z) : Prop := mkLine {
  li_len : zlen (farBuf c) = 1024;
  li_wp : 0 <= farBufWritePos c <= 1024;
  li_w : farBufWritePos c mod 1024 = W mod 1024;
  li_r : farBufReadPos c mod 1024 = (W - lastKnownDelay c) mod 1024;
  li_data : forall j, W - 1024 <= j < W -> znth (farBuf c) (j mod 1024) = S j }.

Lemma written_at_data buf p xs S W : zlen buf = 1024 -> p mod 1024 = W mod 1024 -> zlen xs <= 1024 ->
  (forall j, W - 1024 <= j < W -> znth buf (j mod 1024) = S j) ->
  (forall i, 0 <= i < zlen xs -> znth xs i = S (W + i)) ->
  forall j, W + zlen xs - 1024 <= j < W + zlen xs -> znth (written_at buf p xs) (j mod 1024) = S j.
Proof.
  intros Hb Hp Hx Hold Hnew j Hj. unfold written_at. apply znth_aget.
  rewrite aget_tab by (apply Z.mod_pos_bound; lia). f_equal.
  rewrite Zminus_mod, Z.mod_mod, Hp, <- Zminus_mod by lia.
  destruct (Z.ltb_spec ((j - W) mod 1024) (zlen xs)) as [Hlt|Hge].
  - replace ((j - W) mod 1024) with (j - W) by dlia. rewrite Hnew by dlia. f_equal. lia.
  - apply Hold. dlia.
Qed.

(** One frame: buffered, then fetched at a delay. *)
Definition line_step (c : AecmCore) (frame : list Z) (d : Z) : option (list Z * AecmCore) :=
  let* c := WebRtcAecm_BufferFarFrame c frame FRAME_LEN in
  WebRtcAecm_FetchFarFrame c (zreplicate FRAME_LEN 0) FRAME_LEN d.

Lemma line_step_ok c S W frame d : line_ok c S W -> zlen frame = FRAME_LEN -> 0 <= d <= 1024 - FRAME_LEN ->
  (forall i, 0 <= i < FRAME_LEN -> znth frame i = S (W + i)) ->
  exists c', line_step c frame d = Some (tab (fun i => S (W - d + i)) FRAME_LEN, c') /\ line_ok c' S (W + FRAME_LEN).
Proof.
  intros [Hl Hwp Hw Hr Hd] Hf Hdr HS. unfold FRAME_LEN in *. unfold line_step.
  destruct (buffer_far_ok c frame Hl Hwp ltac:(lia)) as (pos & E & Hpos & Hpm).
  rewrite Hf in E. change FRAME_LEN with 80. rewrite E. cbn [mbind option_bind].
  match goal with |- context [WebRtcAecm_FetchFarFrame ?x _ _ _] => set (c1 := x) end.
  assert (Hl1 : zlen (farBuf c1) = 1024) by (subst c1; cbn; unfold written_at; apply length_tab; lia).
  assert (Hd1 : forall j, W + 80 - 1024 <= j < W + 80 -> znth (farBuf c1) (j mod 1024) = S j).
  { subst c1. cbn [farBuf]. rewrite <- Hf. apply (written_at_data (farBuf c) (farBufWritePos c) frame S W Hl Hw ltac:(lia) Hd). intros i Hi. apply HS. lia. }
  destruct (fetch_far_ok c1 (zreplicate 80 0) 80 d Hl1 eq_refl ltac:(lia)) as (pos2 & E2 & Hpos2 & Hpm2).
  assert (Ep : (farBufReadPos c1 - (d - lastKnownDelay c1)) mod 1024 = (W - d) mod 1024).
  { change (farBufReadPos c1) with (farBufReadPos c). change (lastKnownDelay c1) with (lastKnownDelay c).
    rewrite Zminus_mod, Hr, <- Zminus_mod. f_equal. lia. }
  rewrite Ep in E2, Hpm2. rewrite E2. eexists. split.
  - f_equal. f_equal. apply tab_ext. intros i Hi.
    rewrite Z.add_mod_idemp_l by lia. apply Hd1. lia.
  - subst c1. constructor; cbn; [done|lia| | |exact Hd1].
    + rewrite Hpm, Hf, Z.add_mod, Hw, <- Z.add_mod by lia. done.
    + rewrite Hpm2, Z.add_mod_idemp_l by lia. f_equal. lia.
Qed.

Fixpoint line_run (c : AecmCore) (frames : list (list Z * Z)) : option (list (list Z) * AecmCore) :=
  match frames with
  | [] => Some ([], c)
  | (frame, d) :: rest =>
      let* (out, c) := line_step c frame d in
      let* (outs, c) := line_run c rest in Some (out :: outs, c)
  end.

Definition frame_ok (f : list Z * Z) : Prop := zlen f.1 = FRAME_LEN /\ 0 <= f.2 <= 1024 - FRAME_LEN.

(** Sample [j] of the frames of a run that starts after [W] samples. *)
Definition stream (S0 : Z -> Z) (W : Z) (frames : list (list Z * Z)) (j : Z) : Z :=
  if j <? W then S0 j else znth (concat (fst <$> frames)) (j - W).

Lemma line_run_ok frames : forall c S W, line_ok c S W -> Forall frame_ok frames ->
  (forall j, W <= j < W + FRAME_LEN * zlen frames -> znth (concat (fst <$> frames)) (j - W) = S j) ->
  exists outs c', line_run c frames = Some (outs, c') /\
    forall k frame d, frames !! k = Some (frame, d) ->
      outs !! k = Some (tab (fun i => S (W + FRAME_LEN * Z.of_nat k - d + i)) FRAME_LEN).
Proof.
  induction frames as [|[frame d] frames IH]; intros c S W Hc Hf HS; cbn [line_run].
  { exists [], c. split; [done|]. intros k ? ? Hk. by destruct k. }
  apply Forall_cons_1 in Hf as [[Hl Hd] Hf]. cbn in Hl, Hd.
  assert (Hhead : forall i, 0 <= i < FRAME_LEN -> znth frame i = S (W + i)).
  { intros i Hi. rewrite <- HS by (cbn [length]; lia). replace (W + i - W) with i by lia. unfold znth. cbn [fmap list_fmap concat fst].
    rewrite aget_app by lia. destruct (Z.ltb_spec i (zlen frame)); [done|lia]. }
  destruct (line_step_ok c S W frame d Hc Hl Hd Hhead) as (c1 & -> & Hc1). cbn [mbind option_bind].
  destruct (IH c1 S (W + FRAME_LEN) Hc1 Hf) as (outs & c2 & -> & Ho).
  { intros j Hj. rewrite <- HS by (cbn [length]; lia). unfold znth. cbn [fmap list_fmap concat fst].
    unfold FRAME_LEN in *. rewrite (aget_app frame) by lia. destruct (Z.ltb_spec (j - W) (zlen frame)); [lia|].
    do 2 f_equal. lia. }
  cbn [mbind option_bind]. eexists _, c2. split; [done|]. intros [|k] frame' d' Hk.
  - injection Hk as <- <-. cbn [lookup list_lookup]. f_equal. apply tab_ext. intros i _. f_equal. lia.
  - change (outs !! k = Some (tab (fun i => S (W + FRAME_LEN * Z.of_nat (Datatypes.S k) - d' + i)) FRAME_LEN)).
    rewrite (Ho k frame' d' Hk). f_equal. apply tab_ext. intros i _. f_equal. lia.
Qed.

(** ** A concrete state, for the instances below *)

(** A core as allocated, filled with zeros. *)
Definition blank_core : AecmCore :=
  let z n := zreplicate n 0 in
  let ring := mkRingBuffer 0 0 (FRAME_LEN + PART_LEN) 2 SAME_WRAP (z (FRAME_LEN + PART_LEN)) in
  let est := mkEstimator (z (MAX_DELAY + 1)) (z MAX_DELAY) (z 1) 1 MAX_DELAY 0 0 0 0 0 0 0 0
               (zreplicate (MAX_DELAY + 1) (f32_of_Z 0)) (f32_of_Z 0) 0 in
  mkAecmCore 0 0 0 0 0 ring ring ring ring (z FAR_BUF_LEN) 0 0
    (mkDelayFarend (z PART_LEN1) 0 PART_LEN1 (mkFarend (z MAX_DELAY) (z MAX_DELAY) MAX_DELAY))
    (mkDelayEstimator (z PART_LEN1) 0 PART_LEN1 est) 0
    (z (PART_LEN1 * MAX_DELAY)) (zreplicate (PART_LEN1 * MAX_DELAY) (mkComplex 0 0)) 0 (z MAX_DELAY) 0 0 0 0 0 0 0
    (z MAX_BUF_LEN) 0 (z MAX_BUF_LEN) (z MAX_BUF_LEN) (z PART_LEN1) (z PART_LEN1) (z PART_LEN1)
    (z PART_LEN2) (z PART_LEN2) (z PART_LEN2) (z PART_LEN) (z PART_LEN1) (z PART_LEN1) (z PART_LEN1) (z PART_LEN1)
    (z PART_LEN1) 0 0 0 0 0 0 0 0 0 0 1 0 0 0 256 1000
    SUPGAIN_ERROR_PARAM_A SUPGAIN_ERROR_PARAM_D (SUPGAIN_ERROR_PARAM_A - SUPGAIN_ERROR_PARAM_B)
    (SUPGAIN_ERROR_PARAM_B - SUPGAIN_ERROR_PARAM_D) 0 init_float.

Lemma blank_history : history_ok blank_core.
Proof. constructor; try (vm_compute; done). Qed.

Lemma blank_channels : channels_ok blank_core.
Proof.
  assert (H16 : Forall ch16 (zreplicate PART_LEN1 0)) by (apply Forall_replicate; unfold ch16; lia).
  assert (H32 : Forall ch32 (zreplicate PART_LEN1 0)) by (apply Forall_replicate; unfold ch32; lia).
  constructor; [vm_compute; reflexivity..|exact H16|exact H16|exact H32].
Qed.

(** ** Properties *)

(** C16. The far-end buffer is a delay line: over any sequence of 80-sample
    frames, each fetched with its own known delay between 0 and 944 samples,
    the frame fetched is the far-end stream delayed by exactly that many
    samples (samples before the first one being what the buffer held), and no
    copy leaves the buffer. *)
Theorem far_delay_line c frames :
  zlen (farBuf c) = FAR_BUF_LEN -> farBufWritePos c = 0 -> farBufReadPos c = 0 -> lastKnownDelay c = 0 ->
  Forall frame_ok frames ->
  let S := stream (fun j => znth (farBuf c) (j mod FAR_BUF_LEN)) 0 frames in
  exists outs c', line_run c frames = Some (outs, c') /\
    forall k frame d, frames !! k = Some (frame, d) ->
      outs !! k = Some (tab (fun i => S (FRAME_LEN * Z.of_nat k - d + i)) FRAME_LEN).
Proof.
  intros Hl Hw Hr Hk Hf S.
  destruct (line_run_ok frames c S 0) as (outs & c' & E & Ho); [|done| |exists outs, c'; split; [done|exact Ho]].
  - constructor; rewrite ?Hw, ?Hr, ?Hk; [done|lia|done|done|].
    intros j Hj. unfold S, stream. destruct (Z.ltb_spec j 0); [done|lia].
  - intros j Hj. unfold S, stream. destruct (Z.ltb_spec j 0); [lia|done].
Qed.

Lemma far_delay_line_witness :
  let frames := [(zreplicate 80 5, 0); (zreplicate 80 7, 100)] in
  let S := stream (fun j => znth (farBuf blank_core) (j mod FAR_BUF_LEN)) 0 frames in
  exists outs c', line_run blank_core frames = Some (outs, c') /\
    forall k frame d, frames !! k = Some (frame, d) ->
      outs !! k = Some (tab (fun i => S (FRAME_LEN * Z.of_nat k - d + i)) FRAME_LEN).
Proof.
  apply (far_delay_line blank_core [(zreplicate 80 5, 0); (zreplicate 80 7, 100)]); try (vm_compute; reflexivity).
  repeat (apply Forall_cons_2; [split; [vm_compute; reflexivity|cbn; unfold FRAME_LEN; lia]|]). apply Forall_nil_2.
Defined.

(** The spectrum history returns what it was given: after any number of
    updates the spectrum and Q-domain found at delay [d] (below 25) are those of
    the [d]-th latest update. *)
Theorem aligned_farend_is_delayed c us d spec cspec q :
  history_ok c -> Forall far_update_ok us -> 0 <= d < MAX_DELAY ->
  rev us !! Z.to_nat d = Some (spec, cspec, q) ->
  exists c', update_all c us = Some c' /\ WebRtcAecm_AlignedFarend c' d = Some (q, spec).
Proof.
  intros Hc Hus Hd Hu. destruct (update_all_remembers us c []) as (c' & E & (_ & _ & H)).
  - split_and!; [done|done|]. intros ? ? ? ? Hn. by rewrite lookup_nil in Hn.
  - done.
  - exists c'. split; [done|]. rewrite app_nil_r in H. specialize (H (Z.to_nat d) spec cspec q Hu).
    rewrite Z2Nat.id in H by lia. apply H. lia.
Qed.

Lemma aligned_farend_is_delayed_witness :
  let u x := (zreplicate PART_LEN1 x, zreplicate PART_LEN1 (mkComplex x x), x) in
  exists c', update_all blank_core [u 1; u 2; u 3] = Some c' /\
    WebRtcAecm_AlignedFarend c' 2 = Some (1, zreplicate PART_LEN1 1).
Proof.
  intros u. apply (aligned_farend_is_delayed blank_core [u 1; u 2; u 3] 2 _ (zreplicate PART_LEN1 (mkComplex 1 1)) 1).
  - exact blank_history.
  - repeat (apply Forall_cons_2; [split; vm_compute; reflexivity|]). apply Forall_nil_2.
  - unfold MAX_DELAY. lia.
  - reflexivity.
Defined.

(** The log energy is a base-2 logarithm in Q8 with an 8-bit linear
    mantissa, relative to the Q-domain; it is monotone in the energy and stays
    within 16 bits. *)
Theorem log_energy_correct a b q : 0 < a <= b -> b < 4294967296 -> 0 <= q <= 31 ->
  LogOfEnergyInQ8 a q = 1152 + 256 * Z.log2 a + (a * 256 / 2 ^ Z.log2 a - 256) - 256 * q /\
  LogOfEnergyInQ8 a q <= LogOfEnergyInQ8 b q /\ -6784 <= LogOfEnergyInQ8 a q <= 9343.
Proof.
  intros Ha Hb Hq. split_and!.
  - rewrite LogOfEnergy_value by lia. unfold frac_q8. lia.
  - by apply LogOfEnergy_mono.
  - apply LogOfEnergy_range; lia.
  - apply LogOfEnergy_range; lia.
Qed.

Lemma log_energy_correct_witness :
  LogOfEnergyInQ8 3 0 = 1536 /\ LogOfEnergyInQ8 3 0 <= LogOfEnergyInQ8 5 0 /\ -6784 <= LogOfEnergyInQ8 3 0 <= 9343.
Proof. apply (log_energy_correct 3 5 0); lia. Defined.

(** A silent far end passes the energy guard: the log energy of an all-zero
    spectrum is 1152 in every Q-domain, above FAR_ENERGY_MIN (1025), so silence
    updates the decision levels; and it is more than that of any spectrum of
    energy 1 that is not in Q0. *)
Theorem silence_passes_energy_guard q : 0 <= q <= 31 ->
  LogOfEnergyInQ8 0 q > FAR_ENERGY_MIN /\ (0 < q -> LogOfEnergyInQ8 1 q < LogOfEnergyInQ8 0 q).
Proof.
  intros Hq. change (LogOfEnergyInQ8 0 q) with 1152. unfold FAR_ENERGY_MIN. split; [lia|]. intros Hp.
  rewrite LogOfEnergy_value by lia. change (Z.log2 1) with 0. change (frac_q8 1) with 0. lia.
Qed.

Lemma silence_passes_energy_guard_witness :
  LogOfEnergyInQ8 0 5 > FAR_ENERGY_MIN /\ (0 < 5 -> LogOfEnergyInQ8 1 5 < LogOfEnergyInQ8 0 5).
Proof. apply silence_passes_energy_guard. lia. Defined.

(** C31. The channel update keeps the channels non-negative and within their
    types, whatever the spectra and the step size: the adaptive channel in 31
    bits, the 16-bit channels in 15; and the product of channel and far end that
    it starts from is exact after its normalising shift. *)
Theorem channel_update_invariant c far_spectrum far_q dfa mu echoEst ch far :
  channels_ok c -> 0 <= ch <= 2147483647 -> in_u16 far ->
  channels_ok (WebRtcAecm_UpdateChannel c far_spectrum far_q dfa mu echoEst).1 /\
  (let '(num, shift) := channel_times_far ch far in
   num = Z.shiftr ch shift * far /\ in_u32 num /\ 0 <= shift <= 32).
Proof.
  intros Hc Hch Hfar. split; [|by apply channel_times_far_exact].
  unfold WebRtcAecm_UpdateChannel. by apply store_or_restore_ok, adapt_channel_ok.
Qed.

Lemma channel_update_invariant_witness :
  channels_ok (WebRtcAecm_UpdateChannel blank_core (zreplicate PART_LEN1 900) 3 (zreplicate PART_LEN1 800) 5 []).1 /\
  (let '(num, shift) := channel_times_far 2147483647 65535 in
   num = Z.shiftr 2147483647 shift * 65535 /\ in_u32 num /\ 0 <= shift <= 32).
Proof.
  apply (channel_update_invariant blank_core); [exact blank_channels|lia|unfold in_u16; lia].
Defined.

(** The suppression gain is a piecewise linear function of the distance
    between the log energies of the near end and of the estimated echo, falling
    from 16 (4096 in Q8) at 0 to 3 (768) at 400; the gain in use moves a
    sixteenth of the way to the larger of the last two wanted gains, and stays
    between 0 and 16. *)
Theorem suppression_gain_correct c :
  gain_params c -> log_range (znth (nearLogEnergy c) 0) -> log_range (znth (echoStoredLogEnergy c) 0) ->
  0 <= supGain c <= 4096 -> 0 <= supGainOld c <= 4096 ->
  let dE := Z.abs (znth (nearLogEnergy c) 0 - znth (echoStoredLogEnergy c) 0) in
  let t := if currentVADValue c =? 0 then 0
    else if dE <? 200 then 4096 - (2048 * dE + 100) / 200
    else if dE <? 400 then 768 + (1280 * (400 - dE) + 100) / 200 else 768 in
  let wanted := Z.max t (supGainOld c) in
  let '(g, c') := WebRtcAecm_CalcSuppressionGain c in
  g = supGain c + (wanted - supGain c) / 16 /\ supGain c' = g /\ supGainOld c' = t /\
  0 <= g <= 4096 /\ 0 <= t <= 4096.
Proof.
  intros Hp Hn He Hs Hso dE t. destruct (CalcSuppressionGain_ok c Hp Hn He Hs Hso) as (E & Ht & Hg).
  rewrite E. pose proof (target_gain_value c Hp Hn He) as Etg. cbv zeta in Etg. fold dE in Etg. fold t in Etg.
  rewrite Etg in *. cbn [supGain supGainOld]. split_and!; try done; lia.
Qed.

Lemma suppression_gain_correct_witness :
  let '(g, c') := WebRtcAecm_CalcSuppressionGain blank_core in
  g = 256 + (4096 - 256) / 16 /\ supGain c' = g /\ supGainOld c' = 4096 /\ 0 <= g <= 4096 /\ 0 <= 4096 <= 4096.
Proof.
  apply (suppression_gain_correct blank_core); [by constructor|unfold log_range; vm_compute; split; discriminate..|
    vm_compute; split; discriminate|vm_compute; split; discriminate].
Defined.

End AecmSpec.
