(* ===== verification/AecmInv.v ===== *)
(** The invariant of the echo canceller's core state.

    [Module AecmInv] states [core_wf], the ranges and array lengths that every
    operation on an [AecmCore] relies on and keeps, in one record per part of
    the state; shows that the operations of aecm_core.c that branch on the
    energies leave the other parts alone; and that
    [WebRtcAecm_CreateCore] followed by [WebRtcAecm_InitCore] establishes it. *)

From S2P Require Import Prelude Float32 RingBuffer SplInl SplVec RealFFT DelayEstimator DelayEstimatorWrapper AecmCore.

Module AecmInv.
Import Ring RingSpec Spl SplSpec SplVec RealFFT DelayEst DelayEstSpec DelayWrap DelayWrapSpec Aecm AecmSpec.

(** ** The parts *)

(** A frame buffer of 336 samples. *)
Record frame_buf_wf (b : RingBuffer) : Prop := mkFrameBuf {
  fb_wf : wf b;
  fb_count : element_count b = FRAME_LEN + PART_LEN;
  fb_items : Forall in_i16 (items (abs b));
  fb_stale : Forall in_i16 (stale (abs b)) }.

Record rings_ok (c : AecmCore) : Prop := mkRings {
  ri_far : frame_buf_wf (farFrameBuf c);
  ri_noisy : frame_buf_wf (nearNoisyFrameBuf c);
  ri_clean : frame_buf_wf (nearCleanFrameBuf c);
  ri_out : frame_buf_wf (outFrameBuf c) }.

(** The far-end sample buffer.  [farBuf] holds what [malloc] left there until it
    is first written, samples of any value. *)
Record far_line_ok (c : AecmCore) : Prop := mkFarLine {
  fl_len : zlen (farBuf c) = FAR_BUF_LEN;
  fl_i16 : Forall in_i16 (farBuf c);
  fl_write : 0 <= farBufWritePos c <= FAR_BUF_LEN }.

Definition samples_ok (n : Z) (l : list Z) : Prop := zlen l = n /\ Forall in_i16 l.

Record buffers_ok (c : AecmCore) : Prop := mkBuffers {
  bu_x : samples_ok PART_LEN2 (xBuf c);
  bu_noisy : samples_ok PART_LEN2 (dBufNoisy c);
  bu_clean : samples_ok PART_LEN2 (dBufClean c);
  bu_out : samples_ok PART_LEN (outBuf c) }.

Definition q_ok (q : Z) : Prop := 0 <= q <= 15.

Record spectra_ok (c : AecmCore) : Prop := mkSpectraOk {
  so_history : history_ok c;
  so_u16 : Forall in_u16 (far_history c);
  so_q : Forall q_ok (far_q_domains c);
  so_clean_q : q_ok (dfaCleanQDomain c);
  so_noisy_q : q_ok (dfaNoisyQDomain c) }.

Record delay_ok (c : AecmCore) : Prop := mkDelayOk {
  do_far : wrap_far_wf MAX_DELAY (delay_estimator_farend c);
  do_far_size : far_spectrum_size (delay_estimator_farend c) = PART_LEN1;
  do_est : wrap_est_wf MAX_DELAY (delay_estimator c);
  do_est_size : spectrum_size (delay_estimator c) = PART_LEN1;
  do_fixed : in_i16 (fixedDelay c) /\ fixedDelay c < MAX_DELAY }.

(** The noise estimate of a bin, in Q15, and its counters. *)
Definition noise_range (x : Z) : Prop := 0 <= x < 1073741824.
Definition seed_range (x : Z) : Prop := 0 <= x < 2147483648.
Definition counter_range (x : Z) : Prop := 0 <= x < 5.
Definition bins_ok (P : Z -> Prop) (l : list Z) : Prop := zlen l = PART_LEN1 /\ Forall P l.

Record filters_ok (c : AecmCore) : Prop := mkFilters {
  fi_echo : bins_ok in_i32 (echoFilt c);
  fi_near : bins_ok in_i16 (nearFilt c);
  fi_noise : bins_ok noise_range (noiseEst c);
  fi_low : bins_ok counter_range (noiseEstTooLowCtr c);
  fi_high : bins_ok counter_range (noiseEstTooHighCtr c);
  fi_ctr : 0 <= noiseEstCtr c <= 100;
  fi_seed : seed_range (seed c);
  fi_mult : mult c = 1 \/ mult c = 2 }.

(** The lengths of the floating-point arrays, and the position in their history. *)
Record float_ok (fl : AecmFloat) : Prop := mkFloatOk {
  fo_history : zlen (FarSpectrumHistory fl) = PART_LEN2 * MAX_DELAY;
  fo_pos : 0 <= FarWritePosition fl < MAX_DELAY;
  fo_spectra : Forall (fun l => zlen l = PART_LEN2)
    [NearSpectrum fl; EchoEstSpectrum fl; ErrorSpectrum fl; CrossRelation fl; AutoRelation fl; H fl];
  fo_powers : Forall (fun l => zlen l = PART_LEN1)
    [ErrorPower fl; FarPower fl; NearPower fl; EchoPower fl; FarNoise fl; NearNoise fl; gain fl] }.

(** Log energies and gains. *)
Record levels_ok (c : AecmCore) : Prop := mkLevels {
  le_near_len : zlen (nearLogEnergy c) = MAX_BUF_LEN;
  le_stored_len : zlen (echoStoredLogEnergy c) = MAX_BUF_LEN;
  le_adapt_len : zlen (echoAdaptLogEnergy c) = MAX_BUF_LEN;
  le_near : Forall log_range (nearLogEnergy c);
  le_stored : Forall log_range (echoStoredLogEnergy c);
  le_gain : in_i16 (supGain c) }.

Record core_wf (c : AecmCore) : Prop := mkCoreWf {
  cw_rings : rings_ok c;
  cw_far_line : far_line_ok c;
  cw_buffers : buffers_ok c;
  cw_spectra : spectra_ok c;
  cw_delay : delay_ok c;
  cw_filters : filters_ok c;
  cw_float : float_ok (aecmfloat c);
  cw_channels : channels_ok c;
  cw_levels : levels_ok c }.

(** ** What the energy and channel functions leave alone *)

(** All fields but the channels, the log energies, the levels and the gains. *)
Definition frame (c : AecmCore) :=
  ((farFrameBuf c, nearNoisyFrameBuf c, nearCleanFrameBuf c, outFrameBuf c, farBuf c, farBufWritePos c, farBufReadPos c,
    knownDelay c, lastKnownDelay c),
   (xBuf c, dBufNoisy c, dBufClean c, outBuf c),
   (far_history c, far_history_complex c, far_history_pos c, far_q_domains c, dfaCleanQDomain c, dfaCleanQDomainOld c,
    dfaNoisyQDomain c, dfaNoisyQDomainOld c),
   (delay_estimator_farend c, delay_estimator c, fixedDelay c, currentDelay c),
   (echoFilt c, nearFilt c, seed c, noiseEst c, noiseEstTooLowCtr c, noiseEstTooHighCtr c, noiseEstCtr c),
   (aecmfloat c, mult c, nlpFlag c, cngMode c, enablefloatpro c)).

Definition frame_wf (c : AecmCore) : Prop :=
  rings_ok c /\ far_line_ok c /\ buffers_ok c /\ spectra_ok c /\ delay_ok c /\ filters_ok c /\ float_ok (aecmfloat c).

Lemma core_wf_parts c : core_wf c <-> frame_wf c /\ channels_ok c /\ levels_ok c.
Proof. split; [intros []; by split_and!|]. intros ((? & ? & ? & ? & ? & ? & ?) & ? & ?). by constructor. Qed.

Lemma frame_wf_ext c c' : frame c' = frame c -> frame_wf c -> frame_wf c'.
Proof.
  unfold frame. intros E (H1 & H2 & H3 & H4 & H5 & H6 & H7). injection E as
    E1 E2 E3 E4 E5 E6 E7 E8 E9 E10 E11 E12 E13 E14 E15 E16 E17 E18 E19 E20 E21 E22 E23 E24 E25 E26 E27 E28 E29
    E30 E31 E32 E33 E34 E35 E36 E37.
  split_and!.
  - destruct H1. constructor; congruence.
  - destruct H2. constructor; congruence.
  - destruct H3. constructor; congruence.
  - destruct H4 as [[] ? ? ? ?]. constructor; [constructor|..]; congruence.
  - destruct H5. constructor; congruence.
  - destruct H6. constructor; congruence.
  - congruence.
Qed.

Lemma levels_ok_ext c c' : nearLogEnergy c' = nearLogEnergy c -> echoStoredLogEnergy c' = echoStoredLogEnergy c ->
  echoAdaptLogEnergy c' = echoAdaptLogEnergy c -> supGain c' = supGain c -> levels_ok c -> levels_ok c'.
Proof. intros E1 E2 E3 E4 []. constructor; congruence. Qed.

(** *** Energies *)

Lemma push_energy_ok buf x : zlen buf = MAX_BUF_LEN -> zlen (push_energy buf x) = MAX_BUF_LEN.
Proof. intros H. unfold push_energy. cbn [length]. rewrite length_take. unfold MAX_BUF_LEN in *. lia. Qed.

Lemma push_energy_log buf x : Forall log_range buf -> log_range x -> Forall log_range (push_energy buf x).
Proof. intros. apply Forall_cons_2; [done|]. by apply Forall_take. Qed.

Lemma sum_u32_range term n : 0 <= sum_u32 term n < 4294967296.
Proof.
  unfold sum_u32. apply (for_pure_inv (fun _ x => 0 <= x < 4294967296)); [lia|].
  intros i s _ _. pose proof (u32_range (s + term i)). rng.
Qed.

Lemma update_levels_frame c : frame (update_levels c) = frame c /\
  channelStored (update_levels c) = channelStored c /\ channelAdapt16 (update_levels c) = channelAdapt16 c /\
  channelAdapt32 (update_levels c) = channelAdapt32 c /\ nearLogEnergy (update_levels c) = nearLogEnergy c /\
  echoStoredLogEnergy (update_levels c) = echoStoredLogEnergy c /\
  echoAdaptLogEnergy (update_levels c) = echoAdaptLogEnergy c /\ supGain (update_levels c) = supGain c.
Proof.
  unfold update_levels. cbv zeta. destruct (_ || (vadUpdateCount _ >? 1024)); [|destruct (farEnergyVAD _ >? farLogEnergy _)];
    split_and!; reflexivity.
Qed.

Lemma update_levels_ok c : core_wf c -> core_wf (update_levels c).
Proof.
  rewrite !core_wf_parts. intros (Hf & Hc & Hl).
  destruct (update_levels_frame c) as (E & E1 & E2 & E3 & E4 & E5 & E6 & E7).
  split_and!; [by apply (frame_wf_ext c)|by apply (channels_ok_ext c)|by apply (levels_ok_ext c)].
Qed.

Lemma update_vad_frame c : frame (update_vad c) = frame c /\
  channelStored (update_vad c) = channelStored c /\ channelAdapt32 (update_vad c) = channelAdapt32 c /\
  (channelAdapt16 (update_vad c) = channelAdapt16 c \/
   channelAdapt16 (update_vad c) = tab (fun i => Z.shiftr (znth (channelAdapt16 c) i) 3) PART_LEN1) /\
  nearLogEnergy (update_vad c) = nearLogEnergy c /\ echoStoredLogEnergy (update_vad c) = echoStoredLogEnergy c /\
  (echoAdaptLogEnergy (update_vad c) = echoAdaptLogEnergy c \/
   exists x, echoAdaptLogEnergy (update_vad c) = x :: drop 1 (echoAdaptLogEnergy c)) /\ supGain (update_vad c) = supGain c.
Proof.
  unfold update_vad. cbv zeta. repeat case_match; split_and!; try reflexivity; try (by left); right; try reflexivity;
    eexists; reflexivity.
Qed.

Lemma update_vad_ok c : core_wf c -> core_wf (update_vad c).
Proof.
  rewrite !core_wf_parts. intros (Hf & [? ? ? ? Ha ?] & [? ? ? ? ? ?]).
  destruct (update_vad_frame c) as (E & E1 & E2 & E3 & E4 & E5 & E6 & E7).
  split_and!; [by apply (frame_wf_ext c)| |].
  - assert (H16 : zlen (channelAdapt16 (update_vad c)) = PART_LEN1 /\ Forall ch16 (channelAdapt16 (update_vad c))).
    { destruct E3 as [-> | ->]; [done|]. split; [by apply length_tab|]. apply Forall_tab. intros i Hi.
      pose proof (Forall_aget _ _ _ _ Ha (aget_znth (channelAdapt16 c) i ltac:(lia))) as Hx. unfold ch16 in *.
      rewrite Z.shiftr_div_pow2 by lia. change (2 ^ 3) with 8. dlia. }
    destruct H16. constructor; congruence.
  - constructor; try congruence. destruct E6 as [-> | [x ->]]; [done|]. cbn [length]. rewrite length_drop.
    unfold MAX_BUF_LEN in *. lia.
Qed.

Lemma CalcEnergies_ok c far_spectrum q ener : core_wf c -> q_ok q -> 0 <= ener < 4294967296 ->
  core_wf (WebRtcAecm_CalcEnergies c far_spectrum q ener).1.
Proof.
  intros Hc Hq He. unfold WebRtcAecm_CalcEnergies, CalcLinearEnergiesC. cbv zeta.
  cbn [fst]. apply update_vad_ok.
  match goal with |- core_wf (if _ then update_levels ?d else _) => assert (Hd : core_wf d) end.
  2:{ case_match; [by apply update_levels_ok|done]. }
  pose proof Hc as [? ? ? Hs ? ? ? ? [? ? ? ? ? ?]]. unfold q_ok in Hq. pose proof (so_noisy_q _ Hs) as Hnq. unfold q_ok in Hnq.
  apply core_wf_parts. split_and!.
  - apply (frame_wf_ext c); [reflexivity|]. by apply core_wf_parts.
  - by apply (channels_ok_ext c).
  - constructor; cbn -[push_energy]; try done; try (by apply push_energy_ok).
    + apply push_energy_log; [done|]. unfold log_range. apply LogOfEnergy_range; lia.
    + apply push_energy_log; [done|]. unfold log_range. apply LogOfEnergy_range; [apply sum_u32_range|].
      unfold RESOLUTION_CHANNEL16. lia.
Qed.

(** *** Channel and gain *)

Lemma store_or_restore_frame c fs est :
  frame (store_or_restore c fs est).1 = frame c /\
  nearLogEnergy (store_or_restore c fs est).1 = nearLogEnergy c /\
  echoStoredLogEnergy (store_or_restore c fs est).1 = echoStoredLogEnergy c /\
  echoAdaptLogEnergy (store_or_restore c fs est).1 = echoAdaptLogEnergy c /\
  supGain (store_or_restore c fs est).1 = supGain c.
Proof.
  unfold store_or_restore, StoreAdaptiveChannelC, update_threshold. cbv zeta.
  repeat (case_match; simplify_eq); split_and!; reflexivity.
Qed.

Lemma UpdateChannel_ok c fs q dfa mu est : core_wf c -> core_wf (WebRtcAecm_UpdateChannel c fs q dfa mu est).1.
Proof.
  rewrite !core_wf_parts. intros (Hf & Hc & Hl). unfold WebRtcAecm_UpdateChannel.
  set (c1 := adapt_channel c fs q dfa mu).
  assert (E1 : frame c1 = frame c /\ levels_ok c1).
  { subst c1. unfold adapt_channel. case_match; [|done]. split; [reflexivity|]. by apply (levels_ok_ext c). }
  destruct E1 as [E1 Hl1]. destruct (store_or_restore_frame c1 fs est) as (E & E2 & E3 & E4 & E5).
  split_and!; [apply (frame_wf_ext c); congruence|apply store_or_restore_ok, adapt_channel_ok; done|
    by apply (levels_ok_ext c1)].
Qed.

Lemma CalcSuppressionGain_wf c : core_wf c ->
  core_wf (WebRtcAecm_CalcSuppressionGain c).2 /\ in_i16 (WebRtcAecm_CalcSuppressionGain c).1.
Proof.
  rewrite !core_wf_parts. intros (Hf & Hc & [? ? ? ? ? ?]). unfold WebRtcAecm_CalcSuppressionGain. cbv zeta.
  case_match; (split; [|apply i16_range]); (split_and!; [by apply (frame_wf_ext c)|by apply (channels_ok_ext c)|]);
    (constructor; try done; apply i16_range).
Qed.

(** ** History and delay *)

Lemma Forall_splice {A} (P : A -> Prop) l p xs : Forall P l -> Forall P xs -> Forall P (splice l p xs).
Proof.
  intros Hl Hx. unfold splice. apply Forall_app_2; [by apply Forall_take|].
  apply Forall_app_2; [done|by apply Forall_drop].
Qed.

Lemma Forall_aset {A} (P : A -> Prop) l l' i x : Forall P l -> P x -> aset l i x = Some l' -> Forall P l'.
Proof.
  unfold aset. intros Hl Hx. destruct ((0 <=? i) && (i <? zlen l)); [|done]. intros [= <-]. by apply Forall_insert.
Qed.

Lemma UpdateFarHistory_wf c spec cspec q : core_wf c -> zlen spec = PART_LEN1 -> Forall in_u16 spec ->
  zlen cspec = PART_LEN1 -> q_ok q ->
  exists c', WebRtcAecm_UpdateFarHistory c spec cspec q = Some c' /\ core_wf c' /\ 0 <= far_history_pos c' < MAX_DELAY.
Proof.
  intros Hc Hs Hu Hcs Hq. pose proof Hc as [? ? ? [[Hp Hql Hl Hcl] Hh Hqs ? ?] ? ? ? ? ?].
  unfold WebRtcAecm_UpdateFarHistory. fold (next_pos (far_history_pos c)).
  assert (Hn : 0 <= next_pos (far_history_pos c) < MAX_DELAY)
    by (unfold next_pos, MAX_DELAY in *; destruct (Z.geb_spec (far_history_pos c + 1) 25); lia).
  set (pos := next_pos (far_history_pos c)) in *. unfold MAX_DELAY, PART_LEN1, PART_LEN in *.
  destruct (aset (far_q_domains c) pos q) as [qs|] eqn:Eq; [|rewrite aset_Some in Eq by lia; done].
  cbn [mbind option_bind]. rewrite memcpy_Some by lia. cbn [mbind option_bind].
  rewrite memcpy_Some by lia. cbn [mbind option_bind]. eexists. split; [done|].
  split; [|exact Hn]. apply core_wf_parts. split_and!.
  - pose proof (proj1 (proj1 (core_wf_parts c) Hc)) as (H1 & H2 & H3 & H4 & H5 & H6 & H7). split_and!; try done.
    + by destruct H1.
    + by destruct H2.
    + by destruct H3.
    + constructor; cbn -[Z.mul]; try done.
      * constructor; cbn -[Z.mul]; unfold MAX_DELAY, PART_LEN1, PART_LEN; try lia.
        -- apply length_aset in Eq. congruence.
        -- rewrite length_splice; [done|lia|rewrite length_slice; lia].
        -- rewrite length_splice; [done|lia|rewrite length_slice; lia].
      * apply Forall_splice; [done|by apply Forall_slice].
      * by apply (Forall_aset _ _ _ _ _ Hqs Hq Eq).
    + by destruct H5.
    + by destruct H6.
  - by apply (channels_ok_ext c).
  - by apply (levels_ok_ext c).
Qed.

Lemma AlignedFarend_wf c d : core_wf c -> 0 <= far_history_pos c < MAX_DELAY -> 0 <= d < MAX_DELAY ->
  exists q spec, WebRtcAecm_AlignedFarend c d = Some (q, spec) /\ q_ok q /\ zlen spec = PART_LEN1 /\ Forall in_u16 spec.
Proof.
  intros Hc Hp Hd. pose proof (cw_spectra _ Hc) as [Hh Hu Hq _ _].
  assert (Hs : 0 <= slot (far_history_pos c) d < MAX_DELAY)
    by (unfold slot; destruct (Z.ltb_spec (far_history_pos c - d) 0); lia).
  rewrite (AlignedFarend_slot c d Hh Hs). destruct Hh as [? Hql Hl ?]. eexists _, _. split; [done|].
  unfold MAX_DELAY, PART_LEN1, PART_LEN in *. split_and!.
  - eapply Forall_aget; [exact Hq|]. apply aget_znth. lia.
  - apply length_slice; lia.
  - by apply Forall_slice.
Qed.

(** ** Creation and initialisation *)

Definition ring_shape (b : RingBuffer) : Prop :=
  element_count b = FRAME_LEN + PART_LEN /\ 0 < element_size b /\ zlen (data b) = element_count b.

(** The shape of an allocated core, initialised or not. *)
Record created (c : AecmCore) : Prop := mkCreated {
  cr_rings : ring_shape (farFrameBuf c) /\ ring_shape (nearNoisyFrameBuf c) /\ ring_shape (nearCleanFrameBuf c) /\
             ring_shape (outFrameBuf c);
  cr_far : exists b, WebRtc_InitBinaryDelayEstimatorFarend (binary_farend (delay_estimator_farend c)) = Some b /\
             far_wf b /\ far_history_size b = MAX_DELAY;
  cr_far_len : zlen (mean_far_spectrum (delay_estimator_farend c)) = PART_LEN1;
  cr_far_size : far_spectrum_size (delay_estimator_farend c) = PART_LEN1;
  cr_est : est_shape MAX_DELAY (binary_handle (delay_estimator c));
  cr_est_len : zlen (mean_near_spectrum (delay_estimator c)) = PART_LEN1;
  cr_est_size : spectrum_size (delay_estimator c) = PART_LEN1;
  cr_far_buf : samples_ok FAR_BUF_LEN (farBuf c);
  cr_stored : zlen (channelStored c) = PART_LEN1;
  cr_adapt : zlen (channelAdapt16 c) = PART_LEN1 }.

Lemma init_ring b : ring_shape b -> exists b', WebRtc_InitBuffer b = Some b' /\ frame_buf_wf b' /\
  abs b' = mkFifo [] (zreplicate (FRAME_LEN + PART_LEN) 0).
Proof.
  intros (Hn & Hs & Hd). destruct (init_refines b) as (b' & E & Hw & En & Ea); [|done..|].
  { rewrite Hn. unfold MAX_COUNT, FRAME_LEN, PART_LEN. lia. }
  rewrite Hn in *. exists b'. split_and!; [done| |done]. constructor; [done|congruence|..]; rewrite Ea; cbn -[zreplicate].
  - apply Forall_nil_2.
  - apply Forall_replicate. unfold in_i16. lia.
Qed.

Lemma table_ok l : forallb (fun x => (0 <=? x) && (x <=? 32767)) l = true -> Forall ch16 l.
Proof.
  intros H. rewrite forallb_forall in H. apply Forall_lookup_2. intros k x Hx.
  specialize (H x (proj1 (list_elem_of_In _ _) (list_elem_of_lookup_2 _ _ _ Hx))).
  unfold ch16. rewrite andb_true_iff, !Z.leb_le in H. lia.
Qed.

Lemma channel_tables : zlen kChannelStored8kHz = PART_LEN1 /\ Forall ch16 kChannelStored8kHz /\
  zlen kChannelStored16kHz = PART_LEN1 /\ Forall ch16 kChannelStored16kHz.
Proof. split_and!; try reflexivity; apply table_ok; vm_compute; reflexivity. Qed.

Lemma slice_splice_all (l xs : list Z) n : zlen l = n -> zlen xs = n -> splice l 0 (slice xs 0 n) = xs.
Proof.
  intros Hl Hx. rewrite slice_all by lia. unfold splice. rewrite take_0, drop_ge by lia. by rewrite app_nil_r.
Qed.

(** Setting the echo path, from the tables or from the user. *)
Lemma InitEchoPathCore_ok c path : zlen (channelStored c) = PART_LEN1 -> zlen (channelAdapt16 c) = PART_LEN1 ->
  zlen path = PART_LEN1 -> Forall ch16 path ->
  exists c', WebRtcAecm_InitEchoPathCore c path = Some c' /\ channels_ok c' /\ frame c' = frame c /\
    channelStored c' = path /\ channelAdapt16 c' = path /\
    nearLogEnergy c' = nearLogEnergy c /\ echoStoredLogEnergy c' = echoStoredLogEnergy c /\
    echoAdaptLogEnergy c' = echoAdaptLogEnergy c /\ supGain c' = supGain c.
Proof.
  intros Hs Ha Hp Hf. unfold WebRtcAecm_InitEchoPathCore. rewrite !memcpy_Some by (unfold PART_LEN1, PART_LEN in *; lia).
  cbn [mbind option_bind]. rewrite !slice_splice_all by done. eexists. split; [done|]. split_and!; try reflexivity.
  constructor; try done. apply Forall_tab. intros i Hi.
  pose proof (Forall_aget _ _ _ _ Hf (aget_znth path i ltac:(lia))) as Hx. unfold ch16, ch32 in *.
  rewrite Z.shiftl_mul_pow2 by lia. rewrite i32_id by (unfold in_i32; lia). lia.
Qed.

Lemma length_zreplicate {A} n (x : A) : 0 <= n -> zlen (zreplicate n x) = n.
Proof. intros. unfold zreplicate. rewrite length_replicate. lia. Qed.

Lemma samples_zero n : 0 <= n -> samples_ok n (zreplicate n 0).
Proof. intros. split; [by apply length_zreplicate|]. apply Forall_replicate. unfold in_i16. lia. Qed.

Lemma bins_zero (P : Z -> Prop) : P 0 -> bins_ok P (zreplicate PART_LEN1 0).
Proof. intros. split; [by apply length_zreplicate|]. by apply Forall_replicate. Qed.

Lemma init_far_estimator far : (exists b, WebRtc_InitBinaryDelayEstimatorFarend (binary_farend far) = Some b /\
    far_wf b /\ far_history_size b = MAX_DELAY) ->
  zlen (mean_far_spectrum far) = PART_LEN1 -> far_spectrum_size far = PART_LEN1 ->
  exists far', WebRtc_InitDelayEstimatorFarend (Some far) = Some (0, Some far') /\ wrap_far_wf MAX_DELAY far' /\
    far_spectrum_size far' = PART_LEN1.
Proof.
  intros (b & E & Hb & Hn) Hl Hs. unfold WebRtc_InitDelayEstimatorFarend. rewrite E. cbn [mbind option_bind].
  rewrite memset_all by lia. cbn [mbind option_bind]. eexists. split; [done|]. rewrite Hs. split; [|done].
  constructor; cbn -[zreplicate]; try done; try (by rewrite length_zreplicate); try (apply Forall_replicate; lia).
  all: rewrite ?Hs; unfold PART_LEN1, PART_LEN; lia.
Qed.

Lemma init_estimator est : est_shape MAX_DELAY (binary_handle est) ->
  zlen (mean_near_spectrum est) = PART_LEN1 -> spectrum_size est = PART_LEN1 ->
  exists est', WebRtc_InitDelayEstimator (Some est) = Some (0, Some est') /\ wrap_est_wf MAX_DELAY est' /\
    spectrum_size est' = PART_LEN1.
Proof.
  intros Hsh Hl Hs. unfold WebRtc_InitDelayEstimator. destruct (Init_wf _ _ Hsh) as (b & -> & Hb & _).
  cbn [mbind option_bind]. rewrite memset_all by lia. cbn [mbind option_bind]. eexists. split; [done|].
  rewrite Hs. split; [|done].
  constructor; cbn -[zreplicate]; try done; try (by rewrite length_zreplicate); try (apply Forall_replicate; lia).
  all: rewrite ?Hs; unfold PART_LEN1, PART_LEN; lia.
Qed.

Definition positions (c : AecmCore) := (farBufWritePos c, farBufReadPos c, knownDelay c, lastKnownDelay c).

Lemma init_buffers_ok c sf : created c -> sf = 8000 \/ sf = 16000 ->
  exists c', init_buffers c sf = Some c' /\ rings_ok c' /\ buffers_ok c' /\ created c' /\
    seed_range (seed c') /\ mult c' = sf / 8000 /\ positions c' = (0, 0, 0, 0) /\
    Forall (fun b => abs b = mkFifo [] (zreplicate (FRAME_LEN + PART_LEN) 0))
      [farFrameBuf c'; nearNoisyFrameBuf c'; nearCleanFrameBuf c'; outFrameBuf c'].
Proof.
  intros [(R1 & R2 & R3 & R4) F1 F2 F3 E1 E2 E3 B C1 C2] Hsf. unfold init_buffers. cbv zeta.
  destruct (init_ring _ R1) as (r1 & I1 & W1 & A1), (init_ring _ R2) as (r2 & I2 & W2 & A2),
    (init_ring _ R3) as (r3 & I3 & W3 & A3), (init_ring _ R4) as (r4 & I4 & W4 & A4).
  change (WebRtc_InitBuffer (farFrameBuf _)) with (WebRtc_InitBuffer (farFrameBuf c)). rewrite I1. cbn [mbind option_bind].
  change (WebRtc_InitBuffer (nearNoisyFrameBuf _)) with (WebRtc_InitBuffer (nearNoisyFrameBuf c)). rewrite I2. cbn [mbind option_bind].
  change (WebRtc_InitBuffer (nearCleanFrameBuf _)) with (WebRtc_InitBuffer (nearCleanFrameBuf c)). rewrite I3. cbn [mbind option_bind].
  change (WebRtc_InitBuffer (outFrameBuf _)) with (WebRtc_InitBuffer (outFrameBuf c)). rewrite I4. cbn [mbind option_bind].
  assert (Hr : forall b, frame_buf_wf b -> ring_shape b).
  { intros b [[] ? ? ?]. split_and!; [done|lia|lia]. }
  eexists. split; [done|]. split_and!; try done.
  - constructor; by apply samples_zero.
  - constructor; try done. split_and!; by apply Hr.
  - cbn. by destruct Hsf as [-> | ->].
  - repeat (apply Forall_cons_2; [done|]). apply Forall_nil_2.
Qed.

Lemma noise_shape_range : bins_ok noise_range (tab noise_shape PART_LEN1).
Proof.
  split; [by apply length_tab|]. apply Forall_tab. intros i Hi.
  assert (E : all_from (fun i => (0 <=? noise_shape i) && (noise_shape i <? 1073741824)) 0 257 = true)
    by (vm_compute; reflexivity).
  pose proof (all_from_spec _ _ _ E i) as H. unfold PART_LEN1, PART_LEN in Hi.
  specialize (H ltac:(lia)). unfold noise_range. apply andb_true_iff in H as [H1 H2].
  apply Z.leb_le in H1. apply Z.ltb_lt in H2. lia.
Qed.

Lemma init_state_ok c sf : rings_ok c -> buffers_ok c -> created c -> seed_range (seed c) ->
  mult c = 1 \/ mult c = 2 -> farBufWritePos c = 0 ->
  wrap_far_wf MAX_DELAY (delay_estimator_farend c) -> far_spectrum_size (delay_estimator_farend c) = PART_LEN1 ->
  wrap_est_wf MAX_DELAY (delay_estimator c) -> spectrum_size (delay_estimator c) = PART_LEN1 ->
  exists c', init_state c sf = Some c' /\ core_wf c' /\ gain_params c' /\ supGain c' = 256 /\ supGainOld c' = 256 /\
    farFrameBuf c' = farFrameBuf c /\ nearNoisyFrameBuf c' = nearNoisyFrameBuf c /\
    nearCleanFrameBuf c' = nearCleanFrameBuf c /\ outFrameBuf c' = outFrameBuf c /\
    positions c' = positions c /\ mult c' = mult c /\ enablefloatpro c' = 1.
Proof.
  intros Hr Hb Hc Hseed Hmult Hw Hf1 Hf2 He1 He2. unfold init_state. cbv zeta.
  destruct channel_tables as (T1 & T2 & T3 & T4). pose proof Hc as [_ _ _ _ _ _ _ HB HC1 HC2].
  match goal with |- context [WebRtcAecm_InitEchoPathCore ?d ?p] =>
    destruct (InitEchoPathCore_ok d p HC1 HC2) as (c1 & -> & Hch & Ef & Es & Ea & Hn1 & Hn2 & Hn3 & Hn4);
      [by case_match|by case_match|] end.
  unfold frame in Ef. cbn -[zreplicate kChannelStored8kHz kChannelStored16kHz] in Ef, Hn1, Hn2, Hn3.
  injection Ef as E1 E2 E3 E4 E5 E6 E7 E8 E9 E10 E11 E12 E13 E14 E15 E16 E17 E18 E19 E20 E21 E22 E23 E24 E25 E26 E27 E28
    E29 E30 E31 E32 E33 E34 E35 E36 E37.
  cbn [mbind option_bind]. eexists. split; [done|].
  split; [constructor|split_and!; first [assumption | reflexivity | by constructor | unfold positions; cbn -[zreplicate tab]; congruence]].
  - destruct Hr. constructor; cbn -[zreplicate tab]; congruence.
  - destruct HB. constructor; cbn -[zreplicate tab]; [congruence|congruence|rewrite E6, Hw; unfold FAR_BUF_LEN; done].
  - destruct Hb. constructor; cbn -[zreplicate tab]; congruence.
  - constructor; cbn -[zreplicate tab]; rewrite ?E14, ?E15, ?E16, ?E17, ?E18, ?E20;
      try (apply Forall_replicate; unfold q_ok, in_u16; lia); try (unfold q_ok; lia).
    constructor; cbn -[zreplicate tab Z.mul]; rewrite ?E14, ?E15, ?E16, ?E17, ?length_zreplicate by (vm_compute; done);
      reflexivity || (unfold MAX_DELAY; lia).
  - constructor; cbn -[zreplicate tab]; rewrite ?E22, ?E23, ?E24; done.
  - constructor; cbn -[zreplicate tab];
      first [exact noise_shape_range | apply bins_zero; unfold in_i32, in_i16, counter_range; lia | lia | congruence
            | rewrite E34; exact Hmult].
  - constructor; cbn -[zreplicate Z.mul]; [by rewrite length_zreplicate|unfold MAX_DELAY; lia|..];
      repeat (apply Forall_cons_2; [by rewrite length_zreplicate|]); apply Forall_nil_2.
  - destruct Hch. by constructor.
  - constructor; cbn -[zreplicate tab]; rewrite ?Hn1, ?Hn2, ?Hn3; try (by rewrite length_zreplicate);
      try (apply Forall_replicate; unfold log_range; lia). done.
Qed.

Lemma far_reinit b : far_wf b -> exists b', WebRtc_InitBinaryDelayEstimatorFarend b = Some b' /\ far_wf b' /\
  far_history_size b' = far_history_size b.
Proof.
  intros [Hs Hl Hu Hc]. unfold WebRtc_InitBinaryDelayEstimatorFarend.
  rewrite !memset_all by (rewrite ?Hc, ?length_fmap; done). cbn [mbind option_bind]. eexists. split_and!; [done| |done].
  constructor; cbn -[zreplicate]; [done|rewrite length_zreplicate by lia; done|..].
  - apply Forall_replicate. unfold in_u32. lia.
  - unfold zreplicate. by rewrite fmap_replicate.
Qed.

Lemma created_estimators c far est : created c ->
  wrap_far_wf MAX_DELAY far -> far_spectrum_size far = PART_LEN1 ->
  wrap_est_wf MAX_DELAY est -> spectrum_size est = PART_LEN1 ->
  created (c <| delay_estimator_farend := far |> <| delay_estimator := est |>).
Proof.
  intros [R1 F1 F2 F3 S1 S2 S3 B1 C1 C2] [? Hfl ? Hfb Hfn] Hf2 [? Hel ? [Hes]] He2.
  destruct (far_reinit _ Hfb) as (b & Eb & Hb & Hn).
  constructor; cbn; try done; try congruence. exists b. split_and!; try done. congruence.
Qed.

(** [WebRtcAecm_InitCore] when its four steps succeed. *)
Lemma InitCore_steps c sf c1 far est c2 : sf = 8000 \/ sf = 16000 ->
  init_buffers c sf = Some c1 ->
  WebRtc_InitDelayEstimatorFarend (Some (delay_estimator_farend c1)) = Some (0, Some far) ->
  WebRtc_InitDelayEstimator (Some (delay_estimator c1)) = Some (0, Some est) ->
  init_state (c1 <| delay_estimator_farend := far |> <| delay_estimator := est |>) sf = Some c2 ->
  WebRtcAecm_InitCore c sf = Some (0, c2).
Proof.
  intros Hsf E1 E2 E3 E4. unfold WebRtcAecm_InitCore.
  destruct (negb (sf =? 8000) && negb (sf =? 16000)) eqn:E; [exfalso; destruct Hsf as [-> | ->]; done|].
  revert E1 E2 E3 E4. generalize init_buffers, WebRtc_InitDelayEstimatorFarend, WebRtc_InitDelayEstimator, init_state.
  intros ib ifar iest ist E1 E2 E3 E4. rewrite E1. cbn [mbind option_bind]. rewrite E2. cbn [mbind option_bind negb Z.eqb].
  change (delay_estimator (c1 <| delay_estimator_farend := far |>)) with (delay_estimator c1).
  rewrite E3. cbn [mbind option_bind negb Z.eqb]. rewrite E4. reflexivity.
Qed.

Lemma InitCore_ok c sf : created c -> sf = 8000 \/ sf = 16000 ->
  exists c', WebRtcAecm_InitCore c sf = Some (0, c') /\ core_wf c' /\ gain_params c' /\
    supGain c' = 256 /\ supGainOld c' = 256 /\
    positions c' = (0, 0, 0, 0) /\ mult c' = sf / 8000 /\ enablefloatpro c' = 1 /\
    Forall (fun b => abs b = mkFifo [] (zreplicate (FRAME_LEN + PART_LEN) 0))
      [farFrameBuf c'; nearNoisyFrameBuf c'; nearCleanFrameBuf c'; outFrameBuf c'].
Proof.
  intros Hc Hsf.
  destruct (init_buffers_ok c sf Hc Hsf) as (c1 & E1 & Hr1 & Hb1 & Hc1 & Hs1 & Hm1 & P1 & HA).
  pose proof Hc1 as [R1 F1 F2 F3 S1 S2 S3 B1 C1 C2].
  destruct (init_far_estimator _ F1 F2 F3) as (far & E2 & Hf1 & Hf2).
  destruct (init_estimator _ S1 S2 S3) as (est & E3 & He1 & He2).
  pose proof (created_estimators c1 far est Hc1 Hf1 Hf2 He1 He2) as Hc2.
  destruct (init_state_ok (c1 <| delay_estimator_farend := far |> <| delay_estimator := est |>) sf) as
    (c2 & E4 & Hw & Hg & G1 & G2 & X1 & X2 & X3 & X4 & X5 & X6 & X7);
    [by destruct Hr1|by destruct Hb1|exact Hc2|exact Hs1|destruct Hsf as [-> | ->]; [by left|by right]|by injection P1|exact Hf1|exact Hf2|exact He1|exact He2|].
  exists c2. split; [exact (InitCore_steps c sf c1 far est c2 Hsf E1 E2 E3 E4)|].
  rewrite X1, X2, X3, X4. split_and!; try done; [exact (eq_trans X5 P1)|exact (eq_trans X6 Hm1)].
Qed.

(** A core in use can be initialised again. *)
Lemma core_wf_created c : core_wf c -> created c.
Proof.
  intros [[R1 R2 R3 R4] [] ? ? [[? ? ? Hfb Hfn] ? [? ? ? [Hes]] ? ?] ? ? [] ?].
  assert (Hr : forall b, frame_buf_wf b -> ring_shape b) by (intros b [[] ? ? ?]; split_and!; [done|lia|lia]).
  destruct (far_reinit _ Hfb) as (b & Eb & Hb & Hn).
  constructor; try done; try congruence; [split_and!; by apply Hr|exists b; split_and!; congruence].
Qed.

(** *** Allocation *)

Definition ring_alloc_ok (al : bool * option (list Z)) : Prop :=
  exists d, al = (true, Some d) /\ zlen d = FRAME_LEN + PART_LEN.

(** All allocations succeed and return memory of the size asked for, with any
    contents. *)
Record allocs_ok (al : CoreAllocs) : Prop := mkAllocsOk {
  ao_core : exists c, ca_core al = Some c /\ samples_ok FAR_BUF_LEN (farBuf c) /\
              zlen (channelStored c) = PART_LEN1 /\ zlen (channelAdapt16 c) = PART_LEN1;
  ao_far : ring_alloc_ok (ca_far al); ao_noisy : ring_alloc_ok (ca_noisy al);
  ao_clean : ring_alloc_ok (ca_clean al); ao_out : ring_alloc_ok (ca_out al);
  ao_de_far : exists fresh h cnt mean, ca_de_far al = (Some fresh, true, Some h, Some cnt, Some mean) /\
              MAX_DELAY <= zlen h /\ MAX_DELAY <= zlen cnt /\ PART_LEN1 <= zlen mean;
  ao_de : exists fresh fb near mean am ab ah,
              ca_de al = (Some fresh, Some fb, Some near, Some mean, mkAllocs None None (Some am) (Some ab) (Some ah)) /\
              zlen near = 1 /\ PART_LEN1 <= zlen mean /\
              MAX_DELAY < zlen am /\ MAX_DELAY <= zlen ab /\ MAX_DELAY < zlen ah;
  ao_fft : ca_fft al = true }.

Lemma create_ring al : ring_alloc_ok al -> exists b, create_frame_buf al = Some (Some b) /\ ring_shape b.
Proof.
  intros (d & -> & Hd). unfold create_frame_buf. cbn [fst snd].
  destruct (create_refines d (FRAME_LEN + PART_LEN) 2) as (b & E & Hw & En & _); [|done|done|].
  { unfold MAX_COUNT, FRAME_LEN, PART_LEN. lia. }
  exists b. split; [exact E|]. destruct Hw. split_and!; [done|lia|lia].
Qed.

Lemma create_far_estimator fresh h cnt mean :
  MAX_DELAY <= zlen h -> MAX_DELAY <= zlen cnt -> PART_LEN1 <= zlen mean ->
  exists far, WebRtc_CreateDelayEstimatorFarend (Some fresh) true (Some h) (Some cnt) (Some mean) PART_LEN1 MAX_DELAY =
      Some (Some far) /\ far_history_size (binary_farend far) = MAX_DELAY /\
    (exists b, WebRtc_InitBinaryDelayEstimatorFarend (binary_farend far) = Some b /\ far_wf b /\
       far_history_size b = MAX_DELAY) /\
    zlen (mean_far_spectrum far) = PART_LEN1 /\ far_spectrum_size far = PART_LEN1.
Proof.
  intros Hh Hc Hm. unfold WebRtc_CreateDelayEstimatorFarend. change (PART_LEN1 >=? kBandLast) with true. cbv iota.
  destruct (far_create_init MAX_DELAY h cnt) as (b & -> & E2 & Hs & Hw); [unfold MAX_DELAY in *; lia..|].
  cbn [mbind option_bind]. eexists. split; [done|].
  split_and!; [done|by eexists| |done].
  change (zlen (take (Z.to_nat PART_LEN1) mean) = PART_LEN1). rewrite length_take. unfold PART_LEN1, PART_LEN in *. lia.
Qed.

Lemma create_estimator fresh fb near mean am ab ah far : far_history_size (binary_farend far) = MAX_DELAY ->
  far_spectrum_size far = PART_LEN1 -> zlen near = 1 -> PART_LEN1 <= zlen mean ->
  MAX_DELAY < zlen am -> MAX_DELAY <= zlen ab -> MAX_DELAY < zlen ah ->
  exists est, WebRtc_CreateDelayEstimator (Some fresh) (Some fb) (Some near) (Some mean)
      (mkAllocs None None (Some am) (Some ab) (Some ah)) (Some far) 0 = Some (Some est) /\
    est_shape MAX_DELAY (binary_handle est) /\ zlen (mean_near_spectrum est) = PART_LEN1 /\ spectrum_size est = PART_LEN1.
Proof.
  intros Hf Hs Hn Hm Ham Hab Hah. unfold WebRtc_CreateDelayEstimator.
  destruct (est_create MAX_DELAY (binary_farend far) fb near am ab ah 0) as (b & -> & Hsh & _);
    [unfold MAX_DELAY in *; lia|done|lia|lia|lia|lia|lia|].
  cbn [mbind option_bind]. eexists. split; [done|].
  split_and!; [done| |done]. change (zlen (take (Z.to_nat (far_spectrum_size far)) mean) = PART_LEN1). rewrite length_take, Hs. unfold PART_LEN1, PART_LEN in *. lia.
Qed.

Lemma CreateCore_ok al : allocs_ok al -> exists c, WebRtcAecm_CreateCore al = Some (Some c) /\ created c.
Proof.
  intros [(c & Ec & HB & HC1 & HC2) R1 R2 R3 R4 (ff & h & cnt & mean & Ef & Hh & Hcn & Hm)
          (fe & fb & near & meann & am & ab & ah & Ee & Hn & Hmn & Ham & Hab & Hah) Hfft].
  unfold WebRtcAecm_CreateCore. rewrite Ec, Ef, Ee, Hfft. cbn [mbind option_bind].
  destruct (create_ring _ R1) as (r1 & -> & S1), (create_ring _ R2) as (r2 & -> & S2),
    (create_ring _ R3) as (r3 & -> & S3), (create_ring _ R4) as (r4 & -> & S4). cbn [mbind option_bind].
  destruct (create_far_estimator ff h cnt mean Hh Hcn Hm) as (far & -> & F1 & F2 & F3 & F4). cbn [mbind option_bind].
  destruct (create_estimator fe fb near meann am ab ah far F1 F4 Hn Hmn Ham Hab Hah) as (est & -> & [] & E2 & E3).
  cbn [mbind option_bind WebRtc_enable_robust_validation Z.ltb Z.gtb orb snd].
  change (WebRtcSpl_CreateRealFFT true PART_LEN_SHIFT) with (Some (mkRealFFT 9)). cbv iota.
  eexists. split; [done|]. constructor; try done.
Qed.

(** ** Properties *)

(** C13. Creation and initialisation establish the invariant: when the
    allocations succeed (with any memory contents) [WebRtcAecm_CreateCore]
    returns a core; [WebRtcAecm_InitCore] at 8000 or 16000 Hz returns 0 and
    leaves a well-formed state with empty frame buffers and the default
    suppression gain; any other frequency returns [-1] and changes nothing; and
    a core in use can be initialised again. *)
Theorem create_init_establishes al sf : allocs_ok al ->
  exists c, WebRtcAecm_CreateCore al = Some (Some c) /\
    (if (sf =? 8000) || (sf =? 16000)
     then exists c', WebRtcAecm_InitCore c sf = Some (0, c') /\ core_wf c' /\ gain_params c' /\ supGain c' = 256 /\
            Forall (fun b => items (abs b) = []) [farFrameBuf c'; nearNoisyFrameBuf c'; nearCleanFrameBuf c'; outFrameBuf c']
     else WebRtcAecm_InitCore c sf = Some (-1, c)) /\
    forall c1, core_wf c1 -> exists c2, WebRtcAecm_InitCore c1 16000 = Some (0, c2) /\ core_wf c2.
Proof.
  intros Hal. destruct (CreateCore_ok al Hal) as (c & E & Hc). exists c. split; [exact E|]. split.
  - destruct (Z.eqb_spec sf 8000), (Z.eqb_spec sf 16000); cbn [orb].
    4:{ unfold WebRtcAecm_InitCore. destruct (Z.eqb_spec sf 8000), (Z.eqb_spec sf 16000); done. }
    all: destruct (InitCore_ok c sf Hc ltac:(lia)) as (c' & E' & Hw & Hg & Hs & _ & _ & _ & _ & HA); exists c';
      (split_and!; [done..|]); eapply Forall_impl; [|exact HA]; intros b Hb; cbv beta in Hb; by rewrite Hb.
  - intros c1 H1. destruct (InitCore_ok c1 16000 (core_wf_created c1 H1) ltac:(lia)) as (c2 & E2 & Hw & _). eauto.
Qed.

Definition sample_ring_alloc : bool * option (list Z) := (true, Some (zreplicate (FRAME_LEN + PART_LEN) 11)).
Definition sample_allocs : CoreAllocs :=
  mkCoreAllocs (Some blank_core) sample_ring_alloc sample_ring_alloc sample_ring_alloc sample_ring_alloc
    (Some (delay_estimator_farend blank_core), true, Some (zreplicate 25 3), Some (zreplicate 25 4), Some (zreplicate 257 5))
    (Some (delay_estimator blank_core), Some (binary_handle (delay_estimator blank_core)), Some [7], Some (zreplicate 257 8),
     mkAllocs None None (Some (zreplicate 26 1)) (Some (zreplicate 25 1)) (Some (zreplicate 26 (f32_of_Z 2))))
    true.

Lemma sample_allocs_ok : allocs_ok sample_allocs.
Proof.
  assert (Hr : ring_alloc_ok sample_ring_alloc) by (eexists; split; [reflexivity|]; by rewrite length_zreplicate).
  constructor; try done.
  - exists blank_core. split_and!; try done. by apply samples_zero.
  - do 4 eexists. split; [reflexivity|]. rewrite !length_zreplicate by lia. done.
  - do 7 eexists. split; [reflexivity|]. rewrite !length_zreplicate by lia. done.
Qed.

Lemma create_init_establishes_witness :
  exists c, WebRtcAecm_CreateCore sample_allocs = Some (Some c) /\
    (exists c', WebRtcAecm_InitCore c 16000 = Some (0, c') /\ core_wf c' /\ gain_params c' /\ supGain c' = 256 /\
       Forall (fun b => items (abs b) = []) [farFrameBuf c'; nearNoisyFrameBuf c'; nearCleanFrameBuf c'; outFrameBuf c']) /\
    forall c1, core_wf c1 -> exists c2, WebRtcAecm_InitCore c1 16000 = Some (0, c2) /\ core_wf c2.
Proof. exact (create_init_establishes sample_allocs 16000 sample_allocs_ok). Defined.

End AecmInv.
