(* ===== verification/AecmBlock.v ===== *)
(** The processing of a block,
    src/webrtc/modules/audio_processing/aecm/aecm_core_c.c.

    [Module AecmBlock] has the windowed transforms, the block function
    [WebRtcAecm_ProcessBlock], the comfort noise, the floating-point echo
    estimate and the block function [WebRtcAecm_ProcessBlockwithFloat] that uses
    it; their properties are in AecmBlockSpec.v.  The two block functions repeat
    the same fixed-point statements, which are one definition each here.  The
    stack arrays of the source that a function fills before it reads them are
    values; the transform has the order [PART_LEN_SHIFT] that
    [WebRtcAecm_CreateCore] gives it, and zeros for its scratch buffer (which
    [RealFFTSpec.real_fft_safe] shows not to matter). *)

From S2P Require Import Prelude Float32 SplInl SplVec RealFFT DelayEstimator DelayEstimatorWrapper AecmCore.

Module AecmBlock.
Import Spl SplVec RealFFT DelayEst DelayWrap Aecm.

Definition WebRtcAecm_kSqrtHanning : list Z :=
  [
   0; 100; 201; 301; 401; 502; 602; 702; 802; 903; 1003; 1103; 1203; 1303;
   1403; 1503; 1603; 1703; 1802; 1902; 2002; 2101; 2201; 2300; 2399; 2499; 2598; 2697;
   2796; 2894; 2993; 3092; 3190; 3289; 3387; 3485; 3583; 3681; 3778; 3876; 3973; 4071;
   4168; 4265; 4362; 4458; 4555; 4651; 4747; 4843; 4939; 5034; 5130; 5225; 5320; 5415;
   5509; 5604; 5698; 5792; 5886; 5979; 6072; 6165; 6258; 6351; 6443; 6535; 6627; 6719;
   6810; 6901; 6992; 7083; 7173; 7263; 7353; 7443; 7532; 7621; 7710; 7798; 7886; 7974;
   8061; 8149; 8235; 8322; 8408; 8494; 8580; 8665; 8750; 8835; 8919; 9003; 9087; 9170;
   9253; 9336; 9418; 9500; 9582; 9663; 9744; 9824; 9904; 9984; 10063; 10142; 10221; 10299;
   10377; 10454; 10531; 10608; 10684; 10760; 10836; 10911; 10985; 11060; 11133; 11207; 11280; 11352;
   11425; 11496; 11567; 11638; 11709; 11779; 11848; 11917; 11986; 12054; 12122; 12189; 12256; 12322;
   12388; 12454; 12519; 12583; 12647; 12711; 12774; 12836; 12898; 12960; 13021; 13082; 13142; 13202;
   13261; 13320; 13378; 13435; 13493; 13549; 13605; 13661; 13716; 13771; 13825; 13878; 13932; 13984;
   14036; 14088; 14139; 14189; 14239; 14288; 14337; 14385; 14433; 14480; 14527; 14573; 14619; 14664;
   14708; 14752; 14796; 14838; 14881; 14922; 14963; 15004; 15044; 15084; 15122; 15161; 15198; 15236;
   15272; 15308; 15344; 15379; 15413; 15447; 15480; 15512; 15544; 15576; 15607; 15637; 15667; 15696;
   15724; 15752; 15779; 15806; 15832; 15858; 15883; 15907; 15931; 15954; 15976; 15998; 16020; 16040;
   16061; 16080; 16099; 16117; 16135; 16152; 16169; 16185; 16200; 16215; 16229; 16242; 16255; 16267;
   16279; 16290; 16300; 16310; 16319; 16328; 16336; 16343; 16350; 16356; 16362; 16367; 16371; 16375;
   16378; 16380; 16382; 16383; 16384].

Definition kNoiseEstQDomain : Z := 15.
Definition kNoiseEstIncCount : Z := 5.

Definition fft_scratch : list Z := zreplicate (Z.shiftl 2 kMaxFFTOrder) 0.
Definition core_fft : RealFFT := mkRealFFT PART_LEN_SHIFT.

(** Entry [i] of an array of complex numbers, in range by the loop bounds. *)
Definition cnth (l : list ComplexInt16) (i : Z) : ComplexInt16 := default (mkComplex 0 0) (aget l i).

(** ** Time to frequency *)

(** Returns [freq_signal]. *)
Definition WindowAndFFT (time_signal : list Z) (time_signal_scaling : Z) : option (list ComplexInt16) :=
  let windowed p w := i16 (Z.shiftr (i16 (Z.shiftl (znth time_signal p) time_signal_scaling) * w) 14) in
  let fft := tab (fun p => if p <? PART_LEN then windowed p (znth WebRtcAecm_kSqrtHanning p)
                           else windowed p (znth WebRtcAecm_kSqrtHanning (PART_LEN - (p - PART_LEN)))) PART_LEN2 in
  let* (_, freq) := WebRtcSpl_RealForwardFFT fft_scratch core_fft fft (zreplicate (PART_LEN2 + 2) 0) in
  Some (tab (fun i => mkComplex (znth freq (2 * i))
                        (if i <? PART_LEN then i16 (- znth freq (2 * i + 1)) else znth freq (2 * i + 1))) PART_LEN1).

(** The magnitude of bin [i]. *)
Definition freq_abs (freq_signal : list ComplexInt16) (i : Z) : Z :=
  let '(mkComplex re im) := cnth freq_signal i in
  if (i =? 0) || (i =? PART_LEN) then u16 (WEBRTC_SPL_ABS_W16 re)
  else if re =? 0 then u16 (WEBRTC_SPL_ABS_W16 im)
  else if im =? 0 then u16 (WEBRTC_SPL_ABS_W16 re)
  else
    let tmp16no1 := i16 (WEBRTC_SPL_ABS_W16 re) in
    let tmp16no2 := i16 (WEBRTC_SPL_ABS_W16 im) in
    let tmp32no2 := WebRtcSpl_AddSatW32 (i32 (tmp16no1 * tmp16no1)) (i32 (tmp16no2 * tmp16no2)) in
    u16 (WebRtcSpl_SqrtFloor tmp32no2).

(** Returns the scaling, [freq_signal], [freq_signal_abs] and
    [*freq_signal_sum_abs]. *)
Definition TimeToFrequencyDomain (time_signal : list Z) : option (Z * list ComplexInt16 * list Z * Z) :=
  let* tmp16no1 := WebRtcSpl_MaxAbsValueW16C (slice time_signal 0 PART_LEN2) in
  let time_signal_scaling := WebRtcSpl_NormW16 tmp16no1 in
  let* freq := WindowAndFFT time_signal time_signal_scaling in
  let freq_signal := tab (fun i => let c := cnth freq i in
    if (i =? 0) || (i =? PART_LEN) then mkComplex (real c) 0 else c) PART_LEN1 in
  let freq_signal_abs := tab (freq_abs freq_signal) PART_LEN1 in
  let sum_abs := for_pure (fun i acc => u32 (acc + znth freq_signal_abs i)) 1 (Z.to_nat (PART_LEN - 1))
                   (u32 (znth freq_signal_abs 0 + znth freq_signal_abs PART_LEN)) in
  Some (time_signal_scaling, freq_signal, freq_signal_abs, sum_abs).

(** ** Frequency to time *)

(** Returns [output] and the new state. *)
Definition InverseFFTAndWindow (aecm : AecmCore) (efw : list ComplexInt16) (nearendClean : option (list Z))
    : option (list Z * AecmCore) :=
  let fft := tab (fun p => if p mod 2 =? 0 then real (cnth efw (p / 2)) else i16 (- imag (cnth efw (p / 2))))
               (PART_LEN2 + 2) in
  let* (outCFFT, ifft_out) := WebRtcSpl_RealInverseFFT fft_scratch core_fft fft (zreplicate PART_LEN2 0) in
  let shift := outCFFT - dfaCleanQDomain aecm in
  let output := tab (fun i =>
    let x := i16 (WEBRTC_SPL_MUL_16_16_RSFT_WITH_ROUND (znth ifft_out i) (znth WebRtcAecm_kSqrtHanning i) 14) in
    let tmp32no1 := WEBRTC_SPL_SHIFT_W32 x shift in
    i16 (WEBRTC_SPL_SAT WEBRTC_SPL_WORD16_MAX (i32 (tmp32no1 + znth (outBuf aecm) i)) WEBRTC_SPL_WORD16_MIN)) PART_LEN in
  let outBuf' := tab (fun i =>
    let tmp32no1 := Z.shiftr (i32 (znth ifft_out (PART_LEN + i) * znth WebRtcAecm_kSqrtHanning (PART_LEN - i))) 14 in
    let tmp32no1 := WEBRTC_SPL_SHIFT_W32 tmp32no1 shift in
    i16 (WEBRTC_SPL_SAT WEBRTC_SPL_WORD16_MAX tmp32no1 WEBRTC_SPL_WORD16_MIN)) PART_LEN in
  let* x := memcpy (xBuf aecm) 0 (xBuf aecm) PART_LEN PART_LEN in
  let* noisy := memcpy (dBufNoisy aecm) 0 (dBufNoisy aecm) PART_LEN PART_LEN in
  let* clean := match nearendClean with
                | Some _ => memcpy (dBufClean aecm) 0 (dBufClean aecm) PART_LEN PART_LEN
                | None => Some (dBufClean aecm)
                end in
  Some (output, aecm <| outBuf := outBuf' |> <| xBuf := x |> <| dBufNoisy := noisy |> <| dBufClean := clean |>).

(** ** The head of a block: buffers and spectra *)

Record Spectra := mkSpectra {
  sp_core : AecmCore;
  sp_far : list ComplexInt16;    (* dfw after the far-end transform *)
  sp_noisy : list ComplexInt16;  (* dfw after the transform of the noisy near end *)
  dfw : list ComplexInt16;       (* dfw after all transforms *)
  xfa : list Z; far_q : Z;
  dfaNoisy : list Z; dfaNoisySum : Z; zerosDBufNoisy : Z;
  dfaClean : list Z }.

Definition startup_state (aecm : AecmCore) : AecmCore :=
  if startupState aecm <? 2
  then aecm <| startupState := c_bool (totCount aecm >=? CONV_LEN) + c_bool (totCount aecm >=? CONV_LEN2) |>
  else aecm.

Definition block_spectra (aecm : AecmCore) (farend nearendNoisy : list Z) (nearendClean : option (list Z))
    : option Spectra :=
  let aecm := startup_state aecm in
  let* x := memcpy (xBuf aecm) PART_LEN farend 0 PART_LEN in
  let* noisy := memcpy (dBufNoisy aecm) PART_LEN nearendNoisy 0 PART_LEN in
  let* clean := match nearendClean with
                | Some c => memcpy (dBufClean aecm) PART_LEN c 0 PART_LEN
                | None => Some (dBufClean aecm)
                end in
  let aecm := aecm <| xBuf := x |> <| dBufNoisy := noisy |> <| dBufClean := clean |> in
  let* (far_q, far, xfa, _) := TimeToFrequencyDomain (xBuf aecm) in
  let* (zerosDBufNoisy, near, dfaNoisy, dfaNoisySum) := TimeToFrequencyDomain (dBufNoisy aecm) in
  let aecm := aecm <| dfaNoisyQDomainOld := dfaNoisyQDomain aecm |> <| dfaNoisyQDomain := i16 zerosDBufNoisy |> in
  match nearendClean with
  | None =>
      let aecm := aecm <| dfaCleanQDomainOld := dfaNoisyQDomainOld aecm |>
                       <| dfaCleanQDomain := dfaNoisyQDomain aecm |> in
      Some (mkSpectra aecm far near near xfa far_q dfaNoisy dfaNoisySum zerosDBufNoisy dfaNoisy)
  | Some _ =>
      let* (zerosDBufClean, dfw, dfaClean, _) := TimeToFrequencyDomain (dBufClean aecm) in
      let aecm := aecm <| dfaCleanQDomainOld := dfaCleanQDomain aecm |>
                       <| dfaCleanQDomain := i16 zerosDBufClean |> in
      Some (mkSpectra aecm far near dfw xfa far_q dfaNoisy dfaNoisySum zerosDBufNoisy dfaClean)
  end.

(** The delay of the block, [-1] for an error of the delay estimator, and the
    new state, [currentDelay] included. *)
Definition block_delay (aecm : AecmCore) (xfa : list Z) (far_q : Z) (dfaNoisy : list Z) (zerosDBufNoisy : Z)
    : option (Z * AecmCore) :=
  let* (r, far) := WebRtc_AddFarSpectrumFix (Some (delay_estimator_farend aecm)) (Some xfa) PART_LEN1 far_q in
  match far with
  | None => Some (-1, aecm)
  | Some far =>
      let aecm := aecm <| delay_estimator_farend := far |> in
      if r =? -1 then Some (-1, aecm)
      else
        let* (delay, est) := WebRtc_DelayEstimatorProcessFix (binary_farend far) (Some (delay_estimator aecm))
                               (Some dfaNoisy) PART_LEN1 zerosDBufNoisy in
        match est with
        | None => Some (-1, aecm)
        | Some est =>
            let aecm := aecm <| delay_estimator := est |> in
            if delay =? -1 then Some (-1, aecm)
            else
              let delay := if delay =? -2 then 0 else delay in
              let delay := if fixedDelay aecm >=? 0 then fixedDelay aecm else delay in
              Some (delay, aecm <| currentDelay := i16 (delay + 1) |>)
        end
  end.

(** History, energies, step size, channel and gain: the new state, [echoEst32],
    [zerosXBuf] and [supGain]. *)
Definition block_channel (sp : Spectra) (aecm : AecmCore) (delay : Z) : option (AecmCore * list Z * Z * Z) :=
  let* aecm := WebRtcAecm_UpdateFarHistory aecm (xfa sp) (dfw sp) (far_q sp) in
  let* (far_q, far_spectrum) := WebRtcAecm_AlignedFarend aecm delay in
  let zerosXBuf := i16 far_q in
  let '(aecm, echoEst32) := WebRtcAecm_CalcEnergies aecm far_spectrum zerosXBuf (dfaNoisySum sp) in
  let mu := WebRtcAecm_CalcStepSize aecm in
  let aecm := aecm <| totCount := u32 (totCount aecm + 1) |> in
  let '(aecm, echoEst32) := WebRtcAecm_UpdateChannel aecm far_spectrum zerosXBuf (dfaNoisy sp) mu echoEst32 in
  let '(gain, aecm) := WebRtcAecm_CalcSuppressionGain aecm in
  Some (aecm, echoEst32, zerosXBuf, gain).

(** ** The Wiener filter *)

(** The echo estimate times the suppression gain: [(echoEst32Gained,
    resolutionDiff)]. *)
Definition gained_echo (echoFilt supGain dfaCleanQ : Z) : Z * Z :=
  let zeros32 := i16 (WebRtcSpl_NormW32 echoFilt + 1) in
  let zeros16 := i16 (WebRtcSpl_NormW16 supGain + 1) in
  if zeros32 + zeros16 >? 16 then
    (WEBRTC_SPL_UMUL_32_16 (u32 echoFilt) (u16 supGain),
     i16 (14 - RESOLUTION_CHANNEL16 - RESOLUTION_SUPGAIN + dfaCleanQ))
  else
    let tmp16no1 := i16 (17 - zeros32 - zeros16) in
    let resolutionDiff := i16 (i16 (14 + tmp16no1 - RESOLUTION_CHANNEL16 - RESOLUTION_SUPGAIN) + dfaCleanQ) in
    (if zeros32 >? tmp16no1 then WEBRTC_SPL_UMUL_32_16 (u32 echoFilt) (Z.shiftr supGain tmp16no1)
     else u32 (i32 (Z.shiftr echoFilt tmp16no1 * supGain)), resolutionDiff).

(** The smoothed near-end magnitude. *)
Definition near_filter (nearFilt dfa dfaCleanQ dfaCleanQOld : Z) : Z :=
  let zeros16 := WebRtcSpl_NormW16 nearFilt in
  let dfa_clean_q_domain_diff := i16 (dfaCleanQ - dfaCleanQOld) in
  let '(tmp16no1, qDomainDiff, tmp16no2) :=
    if (zeros16 <? dfa_clean_q_domain_diff) && negb (nearFilt =? 0) then
      let qDomainDiff := i16 (zeros16 - dfa_clean_q_domain_diff) in
      (i16 (Z.shiftl nearFilt zeros16), qDomainDiff, i16 (Z.shiftr dfa (- qDomainDiff)))
    else
      (if dfa_clean_q_domain_diff <? 0 then i16 (Z.shiftr nearFilt (- dfa_clean_q_domain_diff))
       else i16 (Z.shiftl nearFilt dfa_clean_q_domain_diff), 0, i16 dfa) in
  let tmp32no1 := tmp16no2 - tmp16no1 in
  let tmp16no2 := i16 (i16 (Z.shiftr tmp32no1 4) + tmp16no1) in
  let zeros16 := WebRtcSpl_NormW16 tmp16no2 in
  if negb (Z.land tmp16no2 (c_bool (- qDomainDiff >? zeros16)) =? 0) then WEBRTC_SPL_WORD16_MAX
  else if qDomainDiff <? 0 then i16 (Z.shiftl tmp16no2 (- qDomainDiff)) else i16 (Z.shiftr tmp16no2 qDomainDiff).

(** The coefficient in Q14. *)
Definition wiener_gain (echoEst32Gained resolutionDiff nearFilt : Z) : Z :=
  if echoEst32Gained =? 0 then ONE_Q14
  else if nearFilt =? 0 then 0
  else
    let echoEst32Gained := u32 (echoEst32Gained + u32 (Z.shiftr nearFilt 1)) in
    let tmpU32 := WebRtcSpl_DivU32U16 echoEst32Gained (u16 nearFilt) in
    let tmp32no1 := i32 (WEBRTC_SPL_SHIFT_U32 tmpU32 resolutionDiff) in
    if tmp32no1 >? ONE_Q14 then 0
    else if tmp32no1 <? 0 then ONE_Q14
    else
      let h := i16 (ONE_Q14 - i16 tmp32no1) in
      if h <? 0 then 0 else h.

(** The smoothed echo estimate. *)
Definition echo_filter (echoFilt echoEst32 zerosXBuf : Z) : Z :=
  let tmp32no1 := i32 (WEBRTC_SPL_SHIFT_W32 echoEst32 (- zerosXBuf) - echoFilt) in
  i32 (echoFilt + Z.shiftr (i32 (tmp32no1 * 50)) 8).

(** The loop over the bins: the new state and [hnl]. *)
Definition wiener_filter (aecm : AecmCore) (echoEst32 : list Z) (zerosXBuf supGain : Z) (dfaClean : list Z)
    : option (AecmCore * list Z) :=
  let* _ := c_assert (forallb (fun x => WebRtcSpl_NormW16 x >=? 0) (nearFilt aecm)) in
  let echo i := echo_filter (znth (echoFilt aecm) i) (znth echoEst32 i) zerosXBuf in
  let near i := near_filter (znth (nearFilt aecm) i) (znth dfaClean i) (dfaCleanQDomain aecm) (dfaCleanQDomainOld aecm) in
  let hnl i := let '(gained, resolutionDiff) := gained_echo (echo i) supGain (dfaCleanQDomain aecm) in
               wiener_gain gained resolutionDiff (near i) in
  Some (aecm <| echoFilt := tab echo PART_LEN1 |> <| nearFilt := tab near PART_LEN1 |>, tab hnl PART_LEN1).

Definition kMinPrefBand : Z := 4.
Definition kMaxPrefBand : Z := 24.

(** The upper-band limit in wideband. *)
Definition limit_wideband (hnl : list Z) : list Z :=
  let hnl := tab (fun i => i16 (Z.shiftr (znth hnl i * znth hnl i) 14)) PART_LEN1 in
  let avgHnl32 := for_pure (fun i acc => i32 (acc + znth hnl i)) kMinPrefBand (Z.to_nat (kMaxPrefBand - kMinPrefBand + 1)) 0 in
  let avgHnl32 := c_div avgHnl32 (kMaxPrefBand - kMinPrefBand + 1) in
  tab (fun i => if (kMaxPrefBand <=? i) && (znth hnl i >? i16 avgHnl32) then i16 avgHnl32 else znth hnl i) PART_LEN1.

(** ** The nonlinear processor *)

(** The energies behind and before the filter over the bins [lo .. lo+n-1]:
    [(eb, ea)]. *)
Definition nlp_energies (dfw : list ComplexInt16) (hnl : list Z) (lo : Z) (n : nat) : Z * Z :=
  for_pure (fun i s =>
    let '(eb, ea) := s in
    let '(mkComplex re im) := cnth dfw i in
    let sq x := Z.shiftr (u32 (WEBRTC_SPL_MUL_16_U16 x x)) 8 in
    let temp := i16 (WEBRTC_SPL_MUL_16_16_RSFT_WITH_ROUND re (znth hnl i) 14) in
    let eb := u32 (eb + sq temp) in
    let ea := u32 (ea + sq re) in
    let temp := i16 (WEBRTC_SPL_MUL_16_16_RSFT_WITH_ROUND im (znth hnl i) 14) in
    (u32 (eb + sq temp), u32 (ea + sq im))) lo n (0, 0).

(** [nlpGain], and [tmp16no2] for the low bins. *)
Definition nlp_gains (dfw : list ComplexInt16) (hnl : list Z) : Z * Z :=
  let '(eb, ea) := nlp_energies dfw hnl 5 (Z.to_nat (PART_LEN1 - 5)) in
  let tmpU32 := WebRtcSpl_DivU32U16 eb (Z.shiftr ea 16) in
  let nlpGain :=
    if tmpU32 >? 6231 then
      let nlpGain := i16 (Z.shiftr tmpU32 2) in if nlpGain >? ONE_Q14 then ONE_Q14 else nlpGain
    else 0 in
  let '(eb, ea) := nlp_energies dfw hnl 1 14 in
  let tmpU32 := WebRtcSpl_DivU32U16 eb (Z.shiftr ea 16) in
  let tmp16no2 :=
    if (nlpGain <? Z.shiftr ONE_Q14 7) && (tmpU32 <? ONE_Q14) then
      let tmp16no2 := i16 (Z.shiftr eb 22) in if tmp16no2 >? ONE_Q14 then ONE_Q14 else tmp16no2
    else ONE_Q14 in
  (nlpGain, tmp16no2).

Definition nlp_hnl (nlpGain tmp16no2 i h : Z) : Z :=
  if i >? 15 then
    let h := if h >? NLP_COMP_HIGH then ONE_Q14 else if h <? NLP_COMP_LOW then 0 else h in
    if (h =? ONE_Q14) && (nlpGain =? ONE_Q14) then ONE_Q14 else i16 (Z.shiftr (h * nlpGain) 14)
  else i16 (Z.shiftr (h * tmp16no2) 14).

(** Multiplication with the coefficients. *)
Definition apply_hnl (dfw : list ComplexInt16) (hnl : list Z) : list ComplexInt16 :=
  tab (fun i =>
    let '(mkComplex re im) := cnth dfw i in
    mkComplex (i16 (WEBRTC_SPL_MUL_16_16_RSFT_WITH_ROUND re (znth hnl i) 14))
              (i16 (WEBRTC_SPL_MUL_16_16_RSFT_WITH_ROUND im (znth hnl i) 14))) PART_LEN1.

(** From the filter to [efw] and the final [hnl]. *)
Definition suppress (aecm : AecmCore) (dfw : list ComplexInt16) (hnl : list Z) : list ComplexInt16 * list Z :=
  let hnl := if mult aecm =? 2 then limit_wideband hnl else hnl in
  let hnl := if negb (nlpFlag aecm =? 0)
    then let '(nlpGain, tmp16no2) := nlp_gains dfw hnl in
         tab (fun i => nlp_hnl nlpGain tmp16no2 i (znth hnl i)) PART_LEN1
    else hnl in
  (apply_hnl dfw hnl, hnl).

(** ** Comfort noise *)

(** The tracking of one bin, on [(noiseEst, noiseEstTooLowCtr,
    noiseEstTooHighCtr)]. *)
Definition track_noise (minTrackShift outLShift32 : Z) (s : Z * Z * Z) : Z * Z * Z :=
  let '(noiseEst, tooLow, tooHigh) := s in
  if outLShift32 <? noiseEst then
    if noiseEst <? Z.shiftl 1 minTrackShift then
      let tooHigh := i32 (tooHigh + 1) in
      if tooHigh >=? kNoiseEstIncCount then (i32 (noiseEst - 1), 0, 0) else (noiseEst, 0, tooHigh)
    else (i32 (noiseEst - Z.shiftr (i32 (noiseEst - outLShift32)) minTrackShift), 0, tooHigh)
  else if Z.shiftr noiseEst 19 >? 0 then (i32 (Z.shiftr noiseEst 11 * 2049), tooLow, 0)
  else if Z.shiftr noiseEst 11 >? 0 then (Z.shiftr (i32 (noiseEst * 2049)) 11, tooLow, 0)
  else
    let tooLow := i32 (tooLow + 1) in
    if tooLow >=? kNoiseEstIncCount then (i32 (noiseEst + (Z.shiftr noiseEst 9 + 1)), 0, 0) else (noiseEst, tooLow, 0).

(** The limit of the estimate and the noise level of the bin: [(noiseEst,
    noiseRShift16)]. *)
Definition noise_level (shiftFromNearToNoise noiseEst lambda : Z) : Z * Z :=
  let tmp32 := Z.shiftr noiseEst shiftFromNearToNoise in
  let '(tmp32, noiseEst) :=
    if tmp32 >? 32767 then (32767, i32 (Z.shiftl 32767 shiftFromNearToNoise)) else (tmp32, noiseEst) in
  let tmp16 := i16 (ONE_Q14 - lambda) in
  (noiseEst, i16 (Z.shiftr (tmp16 * i16 tmp32) 14)).

(** The noise of bin [i], [(uReal[i], uImag[i])]. *)
Definition noise_bin (randW16 : list Z) (level : Z -> Z) (i : Z) : option (Z * Z) :=
  if i =? 0 then Some (0, 0)
  else
    let* r := aget randW16 (i - 1) in
    let tmp16 := i16 (Z.shiftr (359 * r) 15) in
    let* c := aget WebRtcAecm_kCosTable tmp16 in
    let* s := aget WebRtcAecm_kSinTable tmp16 in
    Some (i16 (Z.shiftr (level i * c) 13), if i =? PART_LEN then 0 else i16 (Z.shiftr (- level i * s) 13)).

(** [out[i]] with the noise added. *)
Definition add_noise (randW16 : list Z) (level : Z -> Z) (i : Z) (out : list ComplexInt16) : option (list ComplexInt16) :=
  let* (uReal, uImag) := noise_bin randW16 level i in
  let* c := aget out i in
  aset out i (mkComplex (WebRtcSpl_AddSatW16 (real c) uReal) (WebRtcSpl_AddSatW16 (imag c) uImag)).

(** Returns [out] and the new state. *)
Definition ComfortNoise (aecm : AecmCore) (dfa : list Z) (out : list ComplexInt16) (lambda : list Z)
    : option (list ComplexInt16 * AecmCore) :=
  let shiftFromNearToNoise := i16 (kNoiseEstQDomain - dfaCleanQDomain aecm) in
  let* _ := c_assert (shiftFromNearToNoise >=? 0) in
  let* _ := c_assert (shiftFromNearToNoise <? 16) in
  let '(ctr, minTrackShift) :=
    if noiseEstCtr aecm <? 100 then (i16 (noiseEstCtr aecm + 1), 6) else (noiseEstCtr aecm, 9) in
  let tracked i := track_noise minTrackShift (i32 (Z.shiftl (znth dfa i) shiftFromNearToNoise))
    (znth (noiseEst aecm) i, znth (noiseEstTooLowCtr aecm) i, znth (noiseEstTooHighCtr aecm) i) in
  let leveled i := noise_level shiftFromNearToNoise (tracked i).1.1 (znth lambda i) in
  let '(randW16, seed') := WebRtcSpl_RandUArray PART_LEN (seed aecm) in
  let* out := for_loop (add_noise randW16 (fun i => (leveled i).2)) 0 (Z.to_nat PART_LEN1) out in
  Some (out, aecm <| noiseEstCtr := ctr |> <| noiseEst := tab (fun i => (leveled i).1) PART_LEN1 |>
    <| noiseEstTooLowCtr := tab (fun i => (tracked i).1.2) PART_LEN1 |>
    <| noiseEstTooHighCtr := tab (fun i => (tracked i).2) PART_LEN1 |> <| seed := seed' |>).

(** ** The block function *)

(** [output] is returned unchanged when the function returns [-1]. *)
Definition WebRtcAecm_ProcessBlock (aecm : AecmCore) (farend nearendNoisy : list Z) (nearendClean : option (list Z))
    (output : list Z) : option (Z * AecmCore * list Z) :=
  let* sp := block_spectra aecm farend nearendNoisy nearendClean in
  let* (delay, aecm) := block_delay (sp_core sp) (xfa sp) (far_q sp) (dfaNoisy sp) (zerosDBufNoisy sp) in
  if delay =? -1 then Some (-1, aecm, output)
  else
    let* (aecm, echoEst32, zerosXBuf, supGain) := block_channel sp aecm delay in
    let* (aecm, hnl) := wiener_filter aecm echoEst32 zerosXBuf supGain (dfaClean sp) in
    let '(efw, hnl) := suppress aecm (dfw sp) hnl in
    let* (efw, aecm) := if cngMode aecm =? AecmTrue then ComfortNoise aecm (dfaClean sp) efw hnl else Some (efw, aecm) in
    let* (output, aecm) := InverseFFTAndWindow aecm efw nearendClean in
    Some (0, aecm, output).

(** ** The floating-point echo estimate *)

Definition fnth (l : list float) (i : Z) : float := default (f32_of_Z 0) (aget l i).

(** An array of [n] complex numbers stored as alternating parts. *)
Definition tab2 (f : Z -> float * float) (n : Z) : list float :=
  tab (fun p => if p mod 2 =? 0 then (f (p / 2)).1 else (f (p / 2)).2) (2 * n).

#[local] Open Scope f32_scope.

Definition f0 : float := f32_of_Z 0.
Definition f1 : float := f32_of_Z 1.
Definition f_00001 : float := f32_lit 10995116 (-40).
Definition f_001 : float := f32_lit 8589935 (-33).
Definition f_01 : float := f32_lit 10737418 (-30).
Definition f_049 : float := f32_lit 13421746 (-28).
Definition f_05 : float := f32_lit 13421773 (-28).
Definition f_1 : float := f32_lit 13421773 (-27).
Definition f_15 : float := f32_lit 10066330 (-26).
Definition f_2 : float := f32_lit 13421773 (-26).
Definition f_25 : float := f32_lit 8388608 (-25).
Definition f_3 : float := f32_lit 10066330 (-25).
Definition f_315 : float := f32_lit 10569646 (-25).
Definition f_499 : float := f32_lit 16743662 (-25).
Definition f_5 : float := f32_lit 8388608 (-24).
Definition f_65 : float := f32_lit 10905190 (-24).
Definition f_7 : float := f32_lit 11744051 (-24).
Definition f_707 : float := f32_lit 11861492 (-24).
Definition f_8 : float := f32_lit 13421773 (-24).
Definition f_85 : float := f32_lit 14260634 (-24).
Definition f_9 : float := f32_lit 15099494 (-24).

(** The values written to [fp[0 .. 2*PART_LEN-1]]. *)
Definition CopyFixFFT2Float (freq_signal : list ComplexInt16) (zeros : Z) : list float :=
  let normalize := if zeros >? 0 then f1 ⊘ f32_of_Z (Z.shiftl 1 zeros) else f32_of_Z (Z.shiftl 1 (- zeros)) in
  tab2 (fun i => (f32_of_Z (real (cnth freq_signal i)) ⊗ normalize,
                  f32_of_Z (imag (cnth freq_signal i)) ⊗ normalize)) PART_LEN.

(** The new [fpout]. *)
Definition PowerEstimation (fpin fpout : list float) : list float :=
  let temp i := fnth fpin (2 * i) ⊗ fnth fpin (2 * i) ⊕ fnth fpin (2 * i + 1) ⊗ fnth fpin (2 * i + 1) in
  let mix i :=
    if i =? 0 then temp 0 ⊗ f_9 ⊕ temp 1 ⊗ f_1
    else if i <? 48 then temp (i - 1) ⊗ f_1 ⊕ temp i ⊗ f_8 ⊕ temp (i + 1) ⊗ f_1
    else if i <? PART_LEN - 2 then
      temp (i - 1) ⊗ f_1 ⊕ temp i ⊗ f_7 ⊕ temp (i + 1) ⊗ f_1 ⊕ temp (i + 2) ⊗ f_05 ⊕ temp (i - 2) ⊗ f_05
    else if i =? PART_LEN - 2 then
      temp (PART_LEN - 2) ⊗ f_7 ⊕ temp (PART_LEN - 3) ⊗ f_1 ⊕ temp (PART_LEN - 4) ⊗ f_05 ⊕ temp (PART_LEN - 1) ⊗ f_15
    else temp (PART_LEN - 1) ⊗ f_85 ⊕ temp (PART_LEN - 2) ⊗ f_1 ⊕ temp (PART_LEN - 3) ⊗ f_05 in
  tab (fun i => fnth fpout i ⊗ f_3 ⊕ f_7 ⊗ mix i) PART_LEN ++ drop (Z.to_nat PART_LEN) fpout.

(** One bin of the noise tracking. *)
Definition noise_step (i : Z) (noise power : float) : float :=
  let freqgain := if i >? 32 then f32_of_Z 16 ⊘ (f32_of_Z i ⊖ f32_of_Z 16) else f1 in
  let minnoise := freqgain ⊗ NOISEGATE in
  if fge noise power then if fgt power minnoise then power else minnoise
  else
    let smooth_alpah := noise ⊘ f32_of_Z 10 ⊘ power in
    let smooth_alpah := if fgt smooth_alpah f_01 then smooth_alpah else f_01 in
    noise ⊕ smooth_alpah ⊗ (power ⊖ noise).

Definition NoiseTrack (fl : AecmFloat) : AecmFloat :=
  let track noise power :=
    tab (fun i => noise_step i (fnth noise i) (fnth power i)) PART_LEN ++ drop (Z.to_nat PART_LEN) noise in
  fl <| FarNoise := track (FarNoise fl) (FarPower fl) |> <| NearNoise := track (NearNoise fl) (NearPower fl) |>.

(** Where the far-end spectrum of the block starts in the history. *)
Definition history_slot (fl : AecmFloat) (currentDelay : Z) : Z :=
  Z.rem (FarWritePosition fl - currentDelay + MAX_DELAY) MAX_DELAY.

(** The correlations and the transfer function of bin [i]: [(cross, auto, H)],
    each a pair of parts. *)
Definition h_bin (fl : AecmFloat) (delay i : Z) : (float * float) * (float * float) * (float * float) :=
  let far_r := fnth (FarSpectrumHistory fl) (delay + 2 * i) in
  let far_i := fnth (FarSpectrumHistory fl) (delay + 2 * i + 1) in
  let near_r := fnth (NearSpectrum fl) (2 * i) in
  let near_i := fnth (NearSpectrum fl) (2 * i + 1) in
  let part l := (fnth l (2 * i), fnth l (2 * i + 1)) in
  if fgt (f64_of_f32 (fnth (FarPower fl) i)) (f64_mul (f64_lit 6305039478318694 (-52)) (f64_of_f32 (fnth (FarNoise fl) i)))
  then
    let re := far_r ⊗ near_r ⊕ far_i ⊗ near_i in
    let im := far_r ⊗ near_i ⊖ far_i ⊗ near_r in
    let '(cross_r, cross_i) := part (CrossRelation fl) in
    let cross_r := cross_r ⊕ SmoothFactor fl ⊗ (re ⊖ cross_r) in
    let cross_i := cross_i ⊕ SmoothFactor fl ⊗ (im ⊖ cross_i) in
    let re := far_r ⊗ far_r ⊕ far_i ⊗ far_i in
    let auto_r := fnth (AutoRelation fl) (2 * i) in
    let auto_r := auto_r ⊕ SmoothFactor fl ⊗ (re ⊖ auto_r) in
    let den := auto_r ⊕ f_1 ⊗ fnth (FarNoise fl) i in
    ((cross_r, cross_i), (auto_r, f0), (cross_r ⊘ den, cross_i ⊘ den))
  else (part (CrossRelation fl), part (AutoRelation fl), part (H fl)).

(** The echo estimate of bin [i]. *)
Definition echo_bin (fl : AecmFloat) (delay i : Z) : float * float :=
  let far_r := fnth (FarSpectrumHistory fl) (delay + 2 * i) in
  let far_i := fnth (FarSpectrumHistory fl) (delay + 2 * i + 1) in
  let '(_, _, (h_r, h_i)) := h_bin fl delay i in
  (h_r ⊗ far_r ⊖ h_i ⊗ far_i, h_i ⊗ far_r ⊕ h_r ⊗ far_i).

(** The error of bin [i], the near end itself when the error is larger. *)
Definition error_bin (fl : AecmFloat) (delay i : Z) : float * float :=
  let near_r := fnth (NearSpectrum fl) (2 * i) in
  let near_i := fnth (NearSpectrum fl) (2 * i + 1) in
  let '(echo_r, echo_i) := echo_bin fl delay i in
  let e_r := near_r ⊖ echo_r in
  let e_i := near_i ⊖ echo_i in
  if fgt (e_r ⊗ e_r ⊕ e_i ⊗ e_i) (near_r ⊗ near_r ⊕ near_i ⊗ near_i) then (near_r, near_i) else (e_r, e_i).

Definition UpdateH (fl : AecmFloat) (currentDelay : Z) : option AecmFloat :=
  let delay := history_slot fl currentDelay * PART_LEN2 in
  let* _ := c_assert (range_ok (FarSpectrumHistory fl) delay PART_LEN2) in
  Some (fl <| CrossRelation := tab2 (fun i => (h_bin fl delay i).1.1) PART_LEN |>
           <| AutoRelation := tab2 (fun i => (h_bin fl delay i).1.2) PART_LEN |>
           <| H := tab2 (fun i => (h_bin fl delay i).2) PART_LEN |>
           <| EchoEstSpectrum := tab2 (echo_bin fl delay) PART_LEN |>
           <| ErrorSpectrum := tab2 (error_bin fl delay) PART_LEN |>).

(** The new [freq_signal]; the bin [PART_LEN] keeps its value. *)
Definition CopyFloatFFT2Fix (freq_signal : list ComplexInt16) (zeros : Z) (fp : list float) : list ComplexInt16 :=
  let normalize := if zeros >? 0 then f32_of_Z (Z.shiftl 1 zeros) else f1 ⊘ f32_of_Z (Z.shiftl 1 (- zeros)) in
  let convert x :=
    let tempvalue := f32_to_int (x ⊗ normalize) in
    if tempvalue >? 32767 then 32767 else if tempvalue <? -32768 then -32768 else i16 tempvalue in
  tab (fun i => mkComplex (convert (fnth fp (2 * i))) (convert (fnth fp (2 * i + 1)))) PART_LEN
    ++ drop (Z.to_nat PART_LEN) freq_signal.

(** *** NLP *)

(** [gainarray[i]]. *)
Definition nlp_bin_gain (fl : AecmFloat) (i : Z) : float :=
  if i =? 0 then f0
  else if fgt (fnth (NearPower fl) i) (fnth (NearNoise fl) i) then
    let ratio := fnth (ErrorPower fl) i ⊘ fnth (NearPower fl) i in
    let gain := if i >? 32 then (ratio ⊖ f_25) ⊘ f_65 else (ratio ⊖ f_2) ⊘ f_3 in
    let gain := if fgt (f64_of_f32 gain) (f64_lit 6044629098073146 (-79)) then gain else f0 in
    let gain := gain ⊗ gain in
    let gain := if flt gain f_001 then f_001 else gain in
    if fgt gain f1 then f1 else gain
  else f1.

(** The sums over all bands: [(allband1, allband2, allband3)]. *)
Definition nlp_sums (fl : AecmFloat) (gainarray : list float) : float * float * float :=
  for_pure (fun i s =>
    let '(allband1, allband2, allband3) := s in
    let gain := fnth gainarray i in
    (allband1 ⊕ fnth (ErrorPower fl) i ⊗ gain ⊗ gain, allband2 ⊕ fnth (EchoPower fl) i,
     allband3 ⊕ fnth (NearPower fl) i)) 1 (Z.to_nat (PART_LEN - 1)) (f0, f0, f0).

(** [ratio], and [allband2] as the rest of the function uses it. *)
Definition nlp_ratio (gain : float) (sums : float * float * float) : float * float :=
  let '(allband1, allband2, allband3) := sums in
  let gain := if fgt allband2 f_00001
    then let gain := allband1 ⊘ allband2 ⊗ f_707 in if flt gain f1 then gain else f1 else gain in
  if fgt allband3 f_001 then
    let ratio := f32_of_f64 (f64_div
      (f64_sub (f64_of_f32 allband1) (f64_mul (f64_lit 4611686018427388 (-62)) (f64_of_f32 allband3)))
      (f64_of_f32 (f_499 ⊗ allband3))) in
    let ratio := if fgt ratio f1 then f1 else ratio in
    let full := f32_of_Z 32768 ⊗ f32_of_Z 32768 in
    let allband2 := (full ⊗ f_05 ⊖ allband3) ⊘ (full ⊗ f_049) in
    let allband2 := if fgt allband2 f1 then f1 else allband2 in
    let allband2 := if flt allband2 f_001 then f_001 else allband2 in
    let ratio := if flt ratio (f_1 ⊗ allband2) then f_1 ⊗ allband2 else ratio in
    (ratio ⊗ gain, allband2)
  else (f1, allband2).

(** The new [gain[i]] and the factor of [ErrorSpectrum[2i], [2i+1]]. *)
Definition nlp_bin (fl : AecmFloat) (gainarray : list float) (ratio allband2 : float) (i : Z) : float * float :=
  let ga j := fnth gainarray j in
  let old := fnth (gain fl) i in
  if i =? 0 then
    let g := ga 0 ⊗ f_8 ⊕ f_2 ⊗ ga 1 in
    let new := old ⊕ f_7 ⊗ (g ⊖ old) in (new, new)
  else if i <? 32 then
    let g := ga i ⊗ f_7 ⊕ f_15 ⊗ ga (i + 1) ⊕ f_15 ⊗ ga (i - 1) in
    let new := old ⊕ f_7 ⊗ (g ⊖ old) in
    let floor := if fgt allband2 f_8 then f_315 else f_315 ⊗ (allband2 ⊘ f_8) in
    (new, new ⊗ (if fgt ratio floor then ratio else floor))
  else if i <? PART_LEN - 2 then
    let g := ga i ⊗ f_5 ⊕ f_15 ⊗ ga (i + 1) ⊕ f_15 ⊗ ga (i - 1) ⊕ f_1 ⊗ ga (i + 2) ⊕ f_1 ⊗ ga (i - 2) in
    let new := old ⊕ f_7 ⊗ (g ⊖ old) in (new, new ⊗ ratio)
  else if i =? PART_LEN - 1 then
    let g := ga (PART_LEN - 1) ⊗ f_8 ⊕ f_2 ⊗ ga (PART_LEN - 2) in
    let new := old ⊕ f_8 ⊗ (g ⊖ old) in (new, new ⊗ ratio)
  else (old, f1).

Definition NLP (fl : AecmFloat) : AecmFloat :=
  let gainarray := tab (nlp_bin_gain fl) PART_LEN in
  let '(ratio, allband2) := nlp_ratio (fnth gainarray (PART_LEN - 1)) (nlp_sums fl gainarray) in
  let bin i := nlp_bin fl gainarray ratio allband2 i in
  let err := ErrorSpectrum fl in
  fl <| gain := tab (fun i => (bin i).1) PART_LEN ++ drop (Z.to_nat PART_LEN) (gain fl) |>
     <| ErrorSpectrum := tab (fun p => if p / 2 =? PART_LEN - 2 then fnth err p else fnth err p ⊗ (bin (p / 2)).2)
                           (2 * PART_LEN) |>.

(** The far-end spectrum into the history. *)
Definition float_far (fl : AecmFloat) (far : list ComplexInt16) (far_q : Z) : option AecmFloat :=
  let* h := memcpy (FarSpectrumHistory fl) (FarWritePosition fl * PART_LEN2) (CopyFixFFT2Float far far_q) 0 PART_LEN2 in
  Some (fl <| FarSpectrumHistory := h |> <| FarWritePosition := Z.rem (FarWritePosition fl + 1) MAX_DELAY |>).

(** The estimate of the block. *)
Definition float_estimate (fl : AecmFloat) (currentDelay : Z) : option AecmFloat :=
  let fl := fl <| NearPower := PowerEstimation (NearSpectrum fl) (NearPower fl) |> in
  let delay := history_slot fl currentDelay in
  let* _ := c_assert (range_ok (FarSpectrumHistory fl) (delay * PART_LEN2) PART_LEN2) in
  let far := slice (FarSpectrumHistory fl) (delay * PART_LEN2) PART_LEN2 in
  let fl := fl <| FarPower := PowerEstimation far (FarPower fl) |> in
  let fl := NoiseTrack fl in
  let* fl := UpdateH fl currentDelay in
  let fl := fl <| ErrorPower := PowerEstimation (ErrorSpectrum fl) (ErrorPower fl) |> in
  let fl := fl <| EchoPower := PowerEstimation (EchoEstSpectrum fl) (EchoPower fl) |> in
  Some (NLP fl).

Definition WebRtcAecm_ProcessBlockwithFloat (aecm : AecmCore) (farend nearendNoisy : list Z)
    (nearendClean : option (list Z)) (output : list Z) : option (Z * AecmCore * list Z) :=
  let floatpro := enablefloatpro aecm =? 1 in
  let* sp := block_spectra aecm farend nearendNoisy nearendClean in
  let aecm := sp_core sp in
  let* fl := if floatpro then
      let* fl := float_far (aecmfloat aecm) (sp_far sp) (far_q sp) in
      Some (fl <| NearSpectrum := CopyFixFFT2Float (sp_noisy sp) (dfaNoisyQDomain aecm) |>)
    else Some (aecmfloat aecm) in
  let aecm := aecm <| aecmfloat := fl |> in
  let* (delay, aecm) := block_delay aecm (xfa sp) (far_q sp) (dfaNoisy sp) (zerosDBufNoisy sp) in
  if delay =? -1 then Some (-1, aecm, output)
  else
    let* fl := if floatpro then float_estimate (aecmfloat aecm) (currentDelay aecm) else Some (aecmfloat aecm) in
    let aecm := aecm <| aecmfloat := fl |> in
    let* (aecm, echoEst32, zerosXBuf, supGain) := block_channel sp aecm (currentDelay aecm - 1) in
    let* (aecm, hnl) := wiener_filter aecm echoEst32 zerosXBuf supGain (dfaClean sp) in
    let '(efw, hnl) := suppress aecm (dfw sp) hnl in
    let efw := if floatpro && (currentDelay aecm >? 1)
      then CopyFloatFFT2Fix efw (dfaNoisyQDomain aecm) (ErrorSpectrum (aecmfloat aecm)) else efw in
    let* (output, aecm) := InverseFFTAndWindow aecm efw nearendClean in
    Some (0, aecm, output).

End AecmBlock.
