(* ===== verification/AecmBlockSpec.v ===== *)
(** Properties of the block functions of
    src/webrtc/modules/audio_processing/aecm/aecm_core_c.c.

    [Module AecmBlockSpec] follows the stages of a block: the transforms, the
    delay, the channel, the Wiener filter, the nonlinear processor, the comfort
    noise and the floating-point estimate.  Each stage has a lemma [.._ok] of the
    form [m ⤳ Q]: from a well-formed core ([AecmInv.core_wf]) the stage succeeds,
    and its result satisfies [Q], which includes the invariant.  The lemmas
    compose to the safety of the two block functions. *)

From S2P Require Import Prelude Float32 RingBuffer SplInl SplVec RealFFT DelayEstimator DelayEstimatorWrapper AecmCore AecmInv AecmBlock.

Module AecmBlockSpec.
Import Spl SplSpec SplVec SplVecSpec RealFFT RealFFTSpec DelayEst DelayEstSpec DelayWrap DelayWrapSpec
  Aecm AecmSpec AecmInv AecmBlock.

(** ** Spectra *)

Definition cint16 (c : ComplexInt16) : Prop := in_i16 (real c) /\ in_i16 (imag c).

Definition spectrum_ok (l : list ComplexInt16) : Prop := zlen l = PART_LEN1 /\ Forall cint16 l.

Lemma cnth_ok l i : Forall cint16 l -> cint16 (cnth l i).
Proof.
  intros Hl. unfold cnth. destruct (aget l i) as [c|] eqn:E; cbn [default id].
  - by eapply Forall_aget.
  - split; cbn; unfold in_i16; lia.
Qed.

Lemma znth_ok (P : Z -> Prop) l i : Forall P l -> P 0 -> P (znth l i).
Proof. intros Hl H0. unfold znth. destruct (aget l i) eqn:E; cbn [default id]; [by eapply Forall_aget|done]. Qed.

Lemma spectrum_tab f : (forall i, 0 <= i < PART_LEN1 -> cint16 (f i)) -> spectrum_ok (tab f PART_LEN1).
Proof. intros Hf. split; [by apply length_tab|by apply Forall_tab]. Qed.

Lemma bins_tab (P : Z -> Prop) f : (forall i, 0 <= i < PART_LEN1 -> P (f i)) -> bins_ok P (tab f PART_LEN1).
Proof. intros Hf. split; [by apply length_tab|by apply Forall_tab]. Qed.

Lemma samples_tab f n : 0 <= n -> (forall i, 0 <= i < n -> in_i16 (f i)) -> samples_ok n (tab f n).
Proof. intros Hn Hf. split; [by apply length_tab|by apply Forall_tab]. Qed.

(** ** The transforms *)

Lemma fft_scratch_len : zlen fft_scratch = 2048.
Proof. vm_compute. reflexivity. Qed.

Lemma WindowAndFFT_ok x s : WindowAndFFT x s ⤳ spectrum_ok.
Proof.
  unfold WindowAndFFT. cbv zeta.
  match goal with |- context [WebRtcSpl_RealForwardFFT _ _ ?f ?o] => set (fft := f); set (out := o) end.
  assert (Hf : samples_ok PART_LEN2 fft)
    by (apply samples_tab; [done|]; intros i Hi; destruct (i <? PART_LEN); apply i16_range).
  destruct Hf as [Hfl Hfi]. change PART_LEN2 with 512 in Hfl.
  destruct (RealForward_ok (fun _ => int16s) (fft_bf 1) 9 fft_scratch fft out) as (freq & E & Hl & Hfreq).
  - lia.
  - intros a wr wi _ _. apply fft_bf_int16s.
  - exact fft_scratch_len.
  - change (2 ^ Z.of_nat 9) with 512. lia.
  - subst out. rewrite length_zreplicate by (vm_compute; discriminate). vm_compute. discriminate.
  - intros i _. split; [by apply SplVecSpec.znth_i16|unfold in_i16; lia].
  - change (mkRealFFT (Z.of_nat 9)) with core_fft in E. rewrite E. cbn [mbind option_bind]. apply result_ret.
    change (2 ^ (Z.of_nat 9 - 1) + 1) with PART_LEN1 in Hfreq. apply spectrum_tab. intros i Hi.
    destruct (Hfreq i Hi) as (re & im & Er & Ei & Hre & Him). rewrite (znth_aget _ _ _ Er), (znth_aget _ _ _ Ei).
    split; cbn; [done|]. destruct (i <? PART_LEN); [apply i16_range|done].
Qed.

Lemma ABS_W16_abs x : in_i16 x -> WEBRTC_SPL_ABS_W16 x = Z.abs x.
Proof. intros Hx. unfold WEBRTC_SPL_ABS_W16. rewrite i16_id by done. destruct (Z.geb_spec x 0); lia. Qed.

Lemma i16_square x : 0 <= x <= 32768 -> i16 x * i16 x = x * x.
Proof. intros Hx. destruct (Z.eqb_spec x 32768) as [->|]; [reflexivity|]. by rewrite i16_id by (unfold in_i16; lia). Qed.

(** The magnitude of a bin: the integer part of the Euclidean norm, also at the
    values the saturation and the 16-bit absolute value cut off. *)
Lemma freq_abs_norm l i : cint16 (cnth l i) ->
  let '(mkComplex re im) := cnth l i in
  freq_abs l i = (if (i =? 0) || (i =? PART_LEN) then Z.abs re else Z.sqrt (re * re + im * im)).
Proof.
  unfold freq_abs. destruct (cnth l i) as [re im]. intros [Hre Him]. cbn in Hre, Him.
  rewrite !ABS_W16_abs by done. unfold in_i16 in *.
  assert (Hu : forall x, -32768 <= x <= 32767 -> u16 (Z.abs x) = Z.abs x) by (intros; apply u16_id; unfold in_u16; lia).
  destruct ((i =? 0) || (i =? PART_LEN)); [by apply Hu|].
  assert (Hsq : forall x, Z.sqrt (x * x) = Z.abs x) by (intros x; rewrite <- Z.abs_square; apply Z.sqrt_square; lia).
  destruct (Z.eqb_spec re 0) as [->|Hr0]; [rewrite Hu by done; rewrite Z.mul_0_l, Z.add_0_l; symmetry; apply Hsq|].
  destruct (Z.eqb_spec im 0) as [->|Hi0]; [rewrite Hu by done; rewrite Z.mul_0_l, Z.add_0_r; symmetry; apply Hsq|].
  rewrite !i16_square by lia. rewrite !Z.abs_square.
  assert (Hb : forall x, -32768 <= x <= 32767 -> 0 <= x * x <= 1073741824) by (intros; nia).
  pose proof (Hb re Hre). pose proof (Hb im Him).
  rewrite !i32_id by (unfold in_i32; lia). rewrite AddSatW32_clamp by (unfold in_i32; lia). unfold clamp.
  rewrite SqrtFloor_sqrt by lia.
  assert (E : Z.sqrt (Z.max (-2147483648) (Z.min 2147483647 (re * re + im * im))) = Z.sqrt (re * re + im * im)).
  { destruct (Z.leb_spec (re * re + im * im) 2147483647); [f_equal; lia|].
    replace (re * re + im * im) with 2147483648 by lia. reflexivity. }
  rewrite E. apply u16_id. unfold in_u16. split; [apply Z.sqrt_nonneg|].
  transitivity (Z.sqrt 2147483648); [apply Z.sqrt_le_mono; lia|]. vm_compute. discriminate.
Qed.

Lemma freq_abs_u16 l i : Forall cint16 l -> 0 <= freq_abs l i <= 46340.
Proof.
  intros Hl. pose proof (freq_abs_norm l i (cnth_ok l i Hl)) as E. pose proof (cnth_ok l i Hl) as Hc.
  destruct (cnth l i) as [re im]. destruct Hc as [Hr Hi]. cbn in Hr, Hi. unfold in_i16 in *. rewrite E.
  destruct ((i =? 0) || (i =? PART_LEN)); [lia|]. split; [apply Z.sqrt_nonneg|].
  transitivity (Z.sqrt 2147483648); [apply Z.sqrt_le_mono; nia|]. vm_compute. discriminate.
Qed.

(** What a transform gives. *)
Record transformed (r : Z * list ComplexInt16 * list Z * Z) : Prop := mkTransformed {
  tf_q : q_ok r.1.1.1;
  tf_freq : spectrum_ok r.1.1.2;
  tf_abs : bins_ok in_u16 r.1.2;
  tf_norm : forall i, 0 <= i < PART_LEN1 ->
    let '(mkComplex re im) := cnth r.1.1.2 i in znth r.1.2 i = Z.sqrt (re * re + im * im);
  tf_sum : r.2 = zsum (znth r.1.2) 0 257 /\ 0 <= r.2 < 4294967296 }.

(** The 32-bit sum of the magnitudes is exact. *)
Lemma sum_abs_ok abs : (forall i, 0 <= znth abs i <= 46340) ->
  for_pure (fun i acc => u32 (acc + znth abs i)) 1 (Z.to_nat (PART_LEN - 1))
    (u32 (znth abs 0 + znth abs PART_LEN)) = zsum (znth abs) 0 257 /\
  0 <= zsum (znth abs) 0 257 < 4294967296.
Proof.
  intros Ha. change (Z.to_nat (PART_LEN - 1)) with 255%nat. change PART_LEN with 256.
  pose proof (Ha 0). pose proof (Ha 256). rewrite u32_id by (unfold in_u32; lia).
  rewrite (for_pure_sum _ 46340) by (done || lia). pose proof (zsum_bounds (znth abs) 46340 0 257 Ha). split; [|lia].
  rewrite (zsum_snoc _ 0 256). change (zsum (znth abs) 0 256) with (znth abs 0 + zsum (znth abs) (0 + 1) 255).
  change (0 + Z.of_nat 256) with 256. change (0 + 1) with 1. lia.
Qed.

Lemma transformed_ok q fs abs : q_ok q -> spectrum_ok fs -> imag (cnth fs 0) = 0 -> imag (cnth fs PART_LEN) = 0 ->
  abs = tab (freq_abs fs) PART_LEN1 ->
  transformed (q, fs, abs, for_pure (fun i acc => u32 (acc + znth abs i)) 1 (Z.to_nat (PART_LEN - 1))
    (u32 (znth abs 0 + znth abs PART_LEN))).
Proof.
  intros Hq Hfs H0 H256 Ea.
  assert (Habs : forall i, 0 <= i < PART_LEN1 -> znth abs i = freq_abs fs i)
    by (intros i Hi; apply znth_aget; subst abs; by rewrite aget_tab).
  assert (Hrange : forall i, 0 <= znth abs i <= 46340).
  { intros i. apply znth_ok; [|lia]. subst abs. apply Forall_tab. intros j Hj. apply freq_abs_u16, Hfs. }
  destruct (sum_abs_ok abs Hrange) as [-> Hsum].
  constructor; cbn [fst snd]; [done|done|..|done].
  - subst abs. apply bins_tab. intros i Hi. pose proof (freq_abs_u16 fs i (proj2 Hfs)). unfold in_u16. lia.
  - intros i Hi. rewrite Habs by done. pose proof (freq_abs_norm fs i (cnth_ok fs i (proj2 Hfs))) as E.
    assert (Hc : (i =? 0) || (i =? PART_LEN) = true -> imag (cnth fs i) = 0)
      by (intros [->%Z.eqb_eq | ->%Z.eqb_eq]%orb_true_iff; done).
    destruct (cnth fs i) as [re im]. rewrite E. destruct ((i =? 0) || (i =? PART_LEN)); [|done].
    specialize (Hc eq_refl). cbn in Hc. subst im. rewrite Z.mul_0_l, Z.add_0_r, <- Z.abs_square.
    symmetry. apply Z.sqrt_square. lia.
Qed.

Lemma cnth_tab f i : 0 <= i < PART_LEN1 -> cnth (tab f PART_LEN1) i = f i.
Proof. intros Hi. unfold cnth. by rewrite aget_tab. Qed.

Lemma TimeToFrequencyDomain_ok x : samples_ok PART_LEN2 x -> TimeToFrequencyDomain x ⤳ transformed.
Proof.
  intros [Hl Hx]. unfold TimeToFrequencyDomain. rewrite slice_all by done.
  destruct (MaxAbsValue_bound x) as (M0 & EM & HM & _); [by destruct x|done|].
  eapply result_bind; [exact (result_eq _ _ (fun M => 0 <= M <= 32767) EM HM)|]. clear M0 EM HM. intros M HM. cbv beta zeta in HM |- *.
  eapply result_bind; [apply WindowAndFFT_ok|]. intros freq [_ Hf]. cbv beta zeta. apply result_ret.
  apply transformed_ok; [|apply spectrum_tab|by rewrite cnth_tab..|done].
  - unfold q_ok. apply NormW16_range. unfold in_i16. lia.
  - intros i Hi. pose proof (cnth_ok freq i Hf) as [Hr Hm].
    destruct ((i =? 0) || (i =? PART_LEN)); [split; cbn; [done|unfold in_i16; lia]|by split].
Qed.

(** ** What a block leaves alone *)

(** The frame buffers, the far-end delay line and the modes, which belong to the
    functions around the block functions. *)
Definition outer (c : AecmCore) :=
  ((farFrameBuf c, nearNoisyFrameBuf c, nearCleanFrameBuf c, outFrameBuf c),
   (farBuf c, farBufWritePos c, farBufReadPos c, knownDelay c, lastKnownDelay c),
   (mult c, nlpFlag c, cngMode c, enablefloatpro c, fixedDelay c)).

Definition block_inv (c c' : AecmCore) : Prop := core_wf c' /\ outer c' = outer c.

Lemma block_inv_trans c1 c2 c3 : block_inv c1 c2 -> block_inv c2 c3 -> block_inv c1 c3.
Proof. intros [? ?] [? ?]. split; congruence. Qed.

Lemma frame_outer c c' : frame c' = frame c -> outer c' = outer c.
Proof. unfold frame, outer. intros E. repeat (injection E as E; subst). congruence. Qed.

(** A part of the invariant of an updated state whose fields are untouched. *)
Ltac same_part :=
  match goal with
  | H : ?P _ |- ?P _ => destruct H; constructor;
      first [assumption | match goal with H1 : ?Q _ |- ?Q _ => destruct H1; constructor; assumption end]
  end.
Ltac same_core H := pose proof H as [? ? ? ? ? ? ? ? ?]; constructor; [..|try assumption|try same_part|try same_part];
  try same_part.

(** ** From frequency to time *)

Lemma InverseFFTAndWindow_ok c efw clean : core_wf c -> spectrum_ok efw ->
  InverseFFTAndWindow c efw clean ⤳ fun r => samples_ok PART_LEN r.1 /\ block_inv c r.2.
Proof.
  intros Hc [Hel Hef]. unfold InverseFFTAndWindow. cbv zeta.
  match goal with |- context [WebRtcSpl_RealInverseFFT _ _ ?f ?o] => set (fft := f); set (out := o) end.
  assert (Hf : samples_ok 514 fft).
  { apply samples_tab; [done|]. intros i Hi. destruct (i mod 2 =? 0); [apply cnth_ok, Hef|apply i16_range]. }
  destruct (RealInverse_ok 9 fft_scratch fft out) as (r & x & E & Hl & Hx & Hr).
  { lia. } { exact fft_scratch_len. }
  { destruct Hf as [-> _]. vm_compute. discriminate. } { apply Hf. }
  { subst out. rewrite length_zreplicate by (vm_compute; discriminate). vm_compute. discriminate. }
  { apply Forall_replicate. unfold in_i16. lia. }
  change (mkRealFFT (Z.of_nat 9)) with core_fft in E.
  eapply result_bind; [exact (result_eq _ _ (fun p => Forall in_i16 p.2) E Hx)|]. clear r x E Hl Hx Hr.
  intros [r x] Hx. cbv beta iota.
  pose proof (cw_buffers _ Hc) as [[Bx1 Bx2] [Bn1 Bn2] [Bc1 Bc2] [Bo1 Bo2]].
  change PART_LEN2 with 512 in *. change PART_LEN with 256 in *.
  assert (Hmove : forall l, zlen l = 512 -> Forall in_i16 l -> memcpy l 0 l 256 256 ⤳ samples_ok 512).
  { intros l Hl Hi. eapply result_eq; [apply memcpy_Some; lia|]. split; [|by apply Forall_splice, Forall_slice].
    rewrite length_splice; [done|lia|]. rewrite length_slice by lia. lia. }
  eapply result_bind; [by apply Hmove|]. intros xb Hxb. cbv beta.
  eapply result_bind; [by apply Hmove|]. intros nb Hnb. cbv beta.
  eapply result_bind; [destruct clean; [by apply Hmove|by apply result_ret]|]. intros cb Hcb. cbv beta.
  apply result_ret. cbn [fst snd]. split; [by apply samples_tab; [done|intros; apply i16_range]|]. split; [|reflexivity].
  same_core Hc. constructor; [exact Hxb|exact Hnb|exact Hcb|].
  apply samples_tab; [done|]. intros. apply i16_range.
Qed.

(** ** The head of a block *)

Record spectra_inv (c : AecmCore) (sp : Spectra) : Prop := mkSpectraInv {
  si_core : block_inv c (sp_core sp);
  si_far_q : q_ok (far_q sp);
  si_noisy_q : q_ok (zerosDBufNoisy sp);
  si_far : spectrum_ok (sp_far sp);
  si_noisy : spectrum_ok (sp_noisy sp);
  si_dfw : spectrum_ok (dfw sp);
  si_xfa : bins_ok in_u16 (xfa sp);
  si_dfa : bins_ok in_u16 (dfaNoisy sp);
  si_clean : bins_ok in_u16 (dfaClean sp);
  si_sum : 0 <= dfaNoisySum sp < 4294967296 }.

Definition clean_ok (clean : option (list Z)) : Prop := forall l, clean = Some l -> samples_ok PART_LEN l.

Lemma startup_state_inv c : core_wf c -> block_inv c (startup_state c).
Proof. intros Hc. unfold startup_state. destruct (startupState c <? 2); split; try done. same_core Hc. Qed.

Lemma append_ok buf x : samples_ok PART_LEN2 buf -> samples_ok PART_LEN x ->
  memcpy buf PART_LEN x 0 PART_LEN ⤳ samples_ok PART_LEN2.
Proof.
  intros [Hb Hbi] [Hx Hxi]. change PART_LEN2 with 512 in *. change PART_LEN with 256 in *.
  eapply result_eq; [apply memcpy_Some; lia|]. split; [|by apply Forall_splice, Forall_slice].
  rewrite length_splice; [done|lia|]. rewrite length_slice by lia. lia.
Qed.

Lemma q_ok_i16 q : q_ok q -> i16 q = q.
Proof. unfold q_ok. intros. apply i16_id. unfold in_i16. lia. Qed.

Lemma block_spectra_ok c far noisy clean : core_wf c -> samples_ok PART_LEN far -> samples_ok PART_LEN noisy ->
  clean_ok clean -> block_spectra c far noisy clean ⤳ spectra_inv c.
Proof.
  intros Hc0 Hfar Hnoisy Hclean. unfold block_spectra. destruct (startup_state_inv c Hc0) as [Hc Eo].
  set (c1 := startup_state c) in *. clearbody c1. cbv zeta.
  pose proof (cw_buffers _ Hc) as [Bx Bn Bc Bo].
  eapply result_bind; [by apply append_ok|]. intros xb Hx. cbv beta.
  eapply result_bind; [by apply append_ok|]. intros nb Hn. cbv beta.
  eapply result_bind; [destruct clean as [l|]; [apply append_ok; [done|by apply Hclean]|by apply result_ret]|].
  intros cb Hcb. cbv beta.
  eapply result_bind; [by apply TimeToFrequencyDomain_ok|]. intros [[[fq far'] xfa'] fsum] [Tq Tf Ta _ _]. cbv beta iota.
  eapply result_bind; [by apply TimeToFrequencyDomain_ok|]. intros [[[nq near'] dfa'] nsum] [Uq Uf Ua _ Us]. cbv beta iota.
  cbn [fst snd] in *. destruct clean as [l|].
  - eapply result_bind; [by apply TimeToFrequencyDomain_ok|]. intros [[[cq dfw'] cl'] csum] [Vq Vf Va _ _]. cbv beta iota.
    cbn [fst snd] in *. apply result_ret. constructor; cbn; try done; [|apply Us]. split; [|exact Eo].
    same_core Hc.
    pose proof (cw_spectra _ Hc) as [[] ? ? ? ?]. rewrite !q_ok_i16 by done. by constructor.
  - apply result_ret. constructor; cbn; try done; [|apply Us]. split; [|exact Eo].
    same_core Hc.
    pose proof (cw_spectra _ Hc) as [[] ? ? ? ?]. rewrite !q_ok_i16 by done. by constructor.
Qed.

(** ** The delay *)

Lemma block_delay_ok c xfa fq dfa nq : core_wf c -> bins_ok in_u16 xfa -> q_ok fq -> bins_ok in_u16 dfa -> q_ok nq ->
  block_delay c xfa fq dfa nq ⤳ fun r => 0 <= r.1 < MAX_DELAY /\ block_inv c r.2 /\ currentDelay r.2 = r.1 + 1.
Proof.
  intros Hc [Hx Hxu] Hfq [Hd Hdu] Hnq. unfold block_delay. pose proof (cw_delay _ Hc) as [Df Dfs De Des [Dx1 Dx2]].
  destruct (AddFar_ok MAX_DELAY (delay_estimator_farend c) xfa fq Df) as (far & E & Hfar & Hfs); [congruence|done|done|].
  rewrite Hx in E. rewrite E. cbn [mbind option_bind]. change (0 =? -1) with false. cbv iota zeta.
  pose proof Hfar as [_ _ _ Hbin Hhist].
  destruct (ProcessFix_ok MAX_DELAY (binary_farend far) (delay_estimator c) dfa nq Hbin Hhist De) as
    (r & est & E' & Hest & Hr & _ & Hes); [congruence|done|done|].
  rewrite Hd in E'. change (delay_estimator (c <| delay_estimator_farend := far |>)) with (delay_estimator c).
  rewrite E'. cbn [mbind option_bind]. destruct (Z.eqb_spec r (-1)); [lia|].
  apply result_ret. cbn [fst snd]. unfold MAX_DELAY in *.
  change (fixedDelay (_ <| delay_estimator := est |>)) with (fixedDelay c).
  assert (Hdel : 0 <= (if fixedDelay c >=? 0 then fixedDelay c else if r =? -2 then 0 else r) < 25)
    by (destruct (Z.geb_spec (fixedDelay c) 0), (Z.eqb_spec r (-2)); lia).
  split; [exact Hdel|]. split; [split; [|reflexivity]|apply i16_id; unfold in_i16; lia].
  same_core Hc. constructor; [exact Hfar|cbn; congruence|exact Hest|cbn; congruence|by split].
Qed.

(** ** History, energies, channel and gain *)

Lemma UpdateFarHistory_outer c spec cspec q c' :
  WebRtcAecm_UpdateFarHistory c spec cspec q = Some c' -> outer c' = outer c.
Proof.
  unfold WebRtcAecm_UpdateFarHistory. intros E.
  repeat match type of E with mbind _ ?m = _ => destruct m; cbn [mbind option_bind] in E; [|done] end.
  by injection E as <-.
Qed.

Lemma CalcEnergies_frame c fs q ener : frame (WebRtcAecm_CalcEnergies c fs q ener).1 = frame c.
Proof.
  unfold WebRtcAecm_CalcEnergies, CalcLinearEnergiesC. cbv zeta. cbn [fst].
  rewrite (proj1 (update_vad_frame _)).
  case_match; [rewrite (proj1 (update_levels_frame _))|]; reflexivity.
Qed.

Lemma UpdateChannel_frame c fs q dfa mu est : frame (WebRtcAecm_UpdateChannel c fs q dfa mu est).1 = frame c.
Proof.
  unfold WebRtcAecm_UpdateChannel. rewrite (proj1 (store_or_restore_frame _ _ _)).
  unfold adapt_channel. by case_match.
Qed.

Lemma CalcSuppressionGain_frame c : frame (WebRtcAecm_CalcSuppressionGain c).2 = frame c.
Proof. unfold WebRtcAecm_CalcSuppressionGain. cbv zeta. by case_match. Qed.

Lemma block_channel_ok c0 sp c delay : spectra_inv c0 sp -> core_wf c -> 0 <= delay < MAX_DELAY ->
  block_channel sp c delay ⤳ fun r => block_inv c r.1.1.1 /\ q_ok r.1.2 /\ in_i16 r.2.
Proof.
  intros Hsp Hc Hd. unfold block_channel. pose proof Hsp as [_ Sfq _ _ _ [Sdl _] [Sxl Sxu] _ _ Ssum].
  destruct (UpdateFarHistory_wf c (xfa sp) (dfw sp) (far_q sp)) as (c1 & E1 & Hc1 & Hpos); [done..|].
  eapply result_bind; [exact (result_eq _ _ (fun d => core_wf d /\ outer d = outer c /\ 0 <= far_history_pos d < MAX_DELAY)
    E1 (conj Hc1 (conj (UpdateFarHistory_outer _ _ _ _ _ E1) Hpos)))|].
  clear c1 E1 Hc1 Hpos. intros c1 (Hc1 & Eo1 & Hpos). cbv beta.
  destruct (AlignedFarend_wf c1 delay Hc1 Hpos Hd) as (q & spec & E2 & Hq & Hsl & Hsu).
  eapply result_bind; [exact (result_eq _ _ (fun p => q_ok p.1) E2 Hq)|]. clear q spec E2 Hq Hsl Hsu.
  intros [q spec] Hq. cbn in Hq. cbv beta iota zeta. rewrite q_ok_i16 by done.
  pose proof (CalcEnergies_ok c1 spec q (dfaNoisySum sp) Hc1 Hq Ssum) as Hc2.
  pose proof (CalcEnergies_frame c1 spec q (dfaNoisySum sp)) as Ef2.
  destruct (WebRtcAecm_CalcEnergies c1 spec q (dfaNoisySum sp)) as [c2 est]. cbn [fst] in Hc2, Ef2.
  set (c3 := c2 <| totCount := u32 (totCount c2 + 1) |>).
  assert (Hc3 : core_wf c3) by (same_core Hc2).
  match goal with |- context [WebRtcAecm_UpdateChannel c3 ?a ?b ?d ?m ?e] =>
    pose proof (UpdateChannel_ok c3 a b d m e Hc3) as Hc4; pose proof (UpdateChannel_frame c3 a b d m e) as Ef4;
    destruct (WebRtcAecm_UpdateChannel c3 a b d m e) as [c4 est4] end. cbn [fst] in Hc4, Ef4.
  pose proof (CalcSuppressionGain_wf c4 Hc4) as [Hc5 Hg]. pose proof (CalcSuppressionGain_frame c4) as Ef5.
  destruct (WebRtcAecm_CalcSuppressionGain c4) as [g c5]. cbn [fst snd] in *.
  apply result_ret. cbn [fst snd]. split; [|done]. split; [done|].
  rewrite (frame_outer c4 c5), (frame_outer c3 c4), <- Eo1 by done. exact (frame_outer c1 c2 Ef2).
Qed.

(** ** The Wiener filter *)

Definition gain_range (h : Z) : Prop := 0 <= h <= ONE_Q14.

Lemma wiener_gain_range g r n : gain_range (wiener_gain g r n).
Proof.
  unfold gain_range, wiener_gain. change ONE_Q14 with 16384. cbv zeta. repeat case_match; breflect; try lia.
  all: rewrite (i16_id (i32 _)) in * by (unfold in_i16; lia); rewrite i16_id in * by (unfold in_i16; lia); lia.
Qed.

Lemma near_filter_i16 n d q q' : in_i16 (near_filter n d q q').
Proof.
  unfold near_filter. cbv zeta. repeat case_match; auto with cint; unfold WEBRTC_SPL_WORD16_MAX, in_i16; lia.
Qed.

Lemma wiener_filter_ok c est zx g dfa : core_wf c ->
  wiener_filter c est zx g dfa ⤳ fun r => block_inv c r.1 /\ bins_ok gain_range r.2.
Proof.
  intros Hc. unfold wiener_filter. pose proof (cw_filters _ Hc) as [? [_ Hn] ? ? ? ? ? ?].
  eapply result_bind; [apply (result_assert _ (fun _ => True)); [|done]|].
  { apply forallb_forall. intros x Hx. apply list_elem_of_In in Hx.
    pose proof (NormW16_range x (Forall_elem _ _ Hn x Hx)). destruct (Z.geb_spec (WebRtcSpl_NormW16 x) 0); [done|lia]. }
  intros _ _. cbv beta zeta. apply result_ret. cbn [fst snd]. split; [split; [|reflexivity]|].
  - same_core Hc. constructor; try done; apply bins_tab; intros; [apply i32_range|apply near_filter_i16].
  - apply bins_tab. intros i _. destruct (gained_echo _ _ _). apply wiener_gain_range.
Qed.

(** The wideband limit: coefficients are squared, and those from bin 24 on are
    limited by the mean of the squares of bins 4 to 24. *)
Definition squared (hnl : list Z) (i : Z) : Z := znth hnl i * znth hnl i / 16384.
Definition pref_mean (hnl : list Z) : Z := zsum (squared hnl) 4 21 / 21.

Lemma squared_range hnl i : Forall gain_range hnl -> 0 <= squared hnl i <= 16384.
Proof.
  intros Hh. assert (Hx : 0 <= znth hnl i <= 16384) by (apply (znth_ok gain_range); [done|split; vm_compute; discriminate]).
  unfold squared. set (x := znth hnl i) in *. split; [apply Z.div_pos; nia|]. apply Z.div_le_upper_bound; nia.
Qed.

Lemma for_pure_i32_sum g lo n a : (forall i, 0 <= g i <= 16384) -> 0 <= a -> a + Z.of_nat n * 16384 <= 2147483647 ->
  for_pure (fun i acc => i32 (acc + g i)) lo n a = a + zsum g lo n.
Proof.
  intros Hg. revert lo a. induction n as [|n IH]; intros lo a H0 Hn; cbn [for_pure zsum]; [lia|]. pose proof (Hg lo).
  rewrite i32_id by (unfold in_i32; lia). rewrite IH by lia. lia.
Qed.

Lemma limit_wideband_ok hnl : bins_ok gain_range hnl ->
  bins_ok gain_range (limit_wideband hnl) /\
  forall i, 0 <= i < PART_LEN1 ->
    znth (limit_wideband hnl) i = (if 24 <=? i then Z.min (squared hnl i) (pref_mean hnl) else squared hnl i).
Proof.
  intros [Hl Hh]. unfold limit_wideband. cbv zeta.
  set (sq := tab (fun i => i16 (Z.shiftr (znth hnl i * znth hnl i) 14)) PART_LEN1).
  assert (Hs : forall i, 0 <= i < PART_LEN1 -> znth sq i = squared hnl i).
  { intros i Hi. apply znth_aget. subst sq. rewrite aget_tab by done. f_equal. rewrite Z.shiftr_div_pow2 by lia.
    change (2 ^ 14) with 16384. fold (squared hnl i). pose proof (squared_range hnl i Hh). apply i16_id. unfold in_i16. lia. }
  assert (Hr : forall i, 0 <= znth sq i <= 16384).
  { intros i. apply (znth_ok (fun x => 0 <= x <= 16384)); [|lia]. apply Forall_lookup_2. intros k x Hk.
    rewrite <- aget_nat in Hk. pose proof (aget_Some_range _ _ _ Hk) as Hkr. subst sq. rewrite length_tab in Hkr by done.
    rewrite <- (znth_aget _ _ _ Hk), Hs by lia. by apply squared_range. }
  rewrite for_pure_i32_sum by (done || (unfold kMaxPrefBand, kMinPrefBand; lia)).
  change (Z.to_nat (kMaxPrefBand - kMinPrefBand + 1)) with 21%nat. change (kMaxPrefBand - kMinPrefBand + 1) with 21.
  unfold kMinPrefBand, kMaxPrefBand. rewrite Z.add_0_l.
  assert (Em : c_div (zsum (znth sq) 4 21) 21 = pref_mean hnl /\ 0 <= pref_mean hnl <= 16384).
  { rewrite (zsum_ext _ (squared hnl)) by (intros i Hi; apply Hs; unfold PART_LEN1, PART_LEN; lia).
    pose proof (zsum_bounds (squared hnl) 16384 4 21 (fun i => squared_range hnl i Hh)). unfold c_div, pref_mean.
    rewrite Z.quot_div_nonneg by lia. split; [done|]. dlia. }
  destruct Em as [-> Hm]. rewrite (i16_id (pref_mean hnl)) by (unfold in_i16; lia).
  assert (Hv : forall i, 0 <= i < PART_LEN1 ->
    (if (24 <=? i) && (znth sq i >? pref_mean hnl) then pref_mean hnl else znth sq i) =
    (if 24 <=? i then Z.min (squared hnl i) (pref_mean hnl) else squared hnl i)).
  { intros i Hi. rewrite Hs by done. destruct (24 <=? i); cbn [andb]; [|done].
    destruct (Z.gtb_spec (squared hnl i) (pref_mean hnl)); lia. }
  split; [apply bins_tab|]; intros i Hi; [|apply znth_aget; rewrite aget_tab by done; f_equal]; rewrite ?Hv by done; try done.
  pose proof (squared_range hnl i Hh). unfold gain_range. change ONE_Q14 with 16384. destruct (24 <=? i); lia.
Qed.

Lemma apply_hnl_ok d h : spectrum_ok (apply_hnl d h).
Proof. apply spectrum_tab. intros i _. destruct (cnth d i). split; cbn; apply i16_range. Qed.

Lemma suppress_ok c d h : spectrum_ok (suppress c d h).1.
Proof. apply apply_hnl_ok. Qed.

(** ** Comfort noise *)

(** One step of the minimum tracking: exact, with the counters below 5. *)
Record tracked (m o n : Z) (s : Z * Z * Z) : Prop := mkTracked {
  tr_down : o < n -> o <= s.1.1 <= n;
  tr_up : n <= o -> n - 1791 <= s.1.1 <= n + n / 512 + 1 /\ ((n < 524288 \/ 4194304 <= n) -> n <= s.1.1);
  tr_low : counter_range s.1.2;
  tr_high : counter_range s.2 }.

Lemma track_noise_ok m o n lo hi : m = 6 \/ m = 9 -> 0 <= o < 2147483648 -> noise_range n ->
  counter_range lo -> counter_range hi -> tracked m o n (track_noise m o (n, lo, hi)).
Proof.
  unfold noise_range, counter_range. intros Hm Ho Hn Hlo Hhi.
  assert (Hm0 : 0 <= m) by lia. assert (Hp : 64 <= 2 ^ m) by (destruct Hm as [-> | ->]; lia).
  unfold track_noise, kNoiseEstIncCount. rewrite Z.shiftl_1_l, !Z.shiftr_div_pow2 by lia.
  change (2 ^ 19) with 524288. change (2 ^ 11) with 2048. change (2 ^ 9) with 512.
  set (p := 2 ^ m) in *. clearbody p.
  destruct (Z.ltb_spec o n).
  - destruct (Z.ltb_spec n p).
    + rewrite (i32_id (hi + 1)) by (unfold in_i32; lia). destruct (Z.geb_spec (hi + 1) 5).
      * rewrite i32_id by (unfold in_i32; lia). constructor; cbn; unfold counter_range; lia.
      * constructor; cbn; unfold counter_range; lia.
    + rewrite (i32_id (n - o)) by (unfold in_i32; lia).
      assert (Hq : 0 <= (n - o) / p <= n - o).
      { split; [apply Z.div_pos; lia|]. apply Z.div_le_upper_bound; nia. }
      rewrite i32_id by (unfold in_i32; lia). constructor; cbn; unfold counter_range; lia.
  - destruct (Z.gtb_spec (n / 524288) 0).
    + rewrite i32_id by (unfold in_i32; dlia). constructor; cbn; unfold counter_range; [lia| |lia|lia]. intros _. dlia.
    + destruct (Z.gtb_spec (n / 2048) 0).
      * rewrite i32_id by (unfold in_i32; dlia). constructor; cbn; unfold counter_range; [lia| |lia|lia]. intros _. dlia.
      * rewrite (i32_id (lo + 1)) by (unfold in_i32; lia). destruct (Z.geb_spec (lo + 1) 5).
        -- rewrite i32_id by (unfold in_i32; dlia). constructor; cbn; unfold counter_range; [lia| |lia|lia]. intros _. dlia.
        -- constructor; cbn; unfold counter_range; try lia. intros _. dlia.
Qed.

Lemma noise_level_ok sh n h : 0 <= sh <= 15 -> 0 <= n < 2147483648 -> noise_range (noise_level sh n h).1.
Proof.
  intros Hs Hn. unfold noise_level, noise_range. cbv zeta. rewrite Z.shiftr_div_pow2, Z.shiftl_mul_pow2 by lia.
  assert (Hp : 1 <= 2 ^ sh <= 32768) by (change 1 with (2 ^ 0) at 1; change 32768 with (2 ^ 15); split; apply Z.pow_le_mono_r; lia).
  set (p := 2 ^ sh) in *. clearbody p. destruct (Z.gtb_spec (n / p) 32767); cbn [fst].
  - rewrite i32_id by (unfold in_i32; nia). nia.
  - split; [lia|]. assert (n < p * (n / p + 1)) by (pose proof (Z.mod_pos_bound n p); pose proof (Z.div_mod n p); lia). nia.
Qed.

Lemma tables_360 : zlen WebRtcAecm_kCosTable = 360 /\ zlen WebRtcAecm_kSinTable = 360.
Proof. split; reflexivity. Qed.

(** The noise of a bin: the index into the tables is at most 358. *)
Lemma noise_bin_ok rand level i : zlen rand = PART_LEN -> Forall (fun r => 0 <= r <= 32767) rand -> 0 <= i < PART_LEN1 ->
  exists u, noise_bin rand level i = Some u.
Proof.
  intros Hl Hr Hi. unfold noise_bin. destruct (Z.eqb_spec i 0); [by eexists|].
  destruct (aget_range rand (i - 1)) as [r E]; [unfold PART_LEN1, PART_LEN in *; lia|]. rewrite E. cbn [mbind option_bind].
  pose proof (Forall_aget _ _ _ _ Hr E) as Hb. cbv beta in Hb.
  assert (Hix : 0 <= Z.shiftr (359 * r) 15 <= 358)
    by (rewrite Z.shiftr_div_pow2 by lia; change (2 ^ 15) with 32768; dlia).
  rewrite i16_id by (unfold in_i16; lia). destruct tables_360 as [Hc Hs].
  destruct (aget_range WebRtcAecm_kCosTable (Z.shiftr (359 * r) 15)) as [c ->]; [lia|].
  destruct (aget_range WebRtcAecm_kSinTable (Z.shiftr (359 * r) 15)) as [s ->]; [lia|]. cbn [mbind option_bind]. by eexists.
Qed.

Lemma add_noise_loop rand level out : zlen rand = PART_LEN -> Forall (fun r => 0 <= r <= 32767) rand -> spectrum_ok out ->
  for_loop (add_noise rand level) 0 (Z.to_nat PART_LEN1) out ⤳ spectrum_ok.
Proof.
  intros Hl Hr Ho. edestruct (for_loop_inv (fun _ => spectrum_ok)) as (out' & E & H); [exact Ho| |by exists out'].
  intros i l Hi [Hll Hlf]. unfold add_noise. rewrite Z2Nat.id in Hi by done.
  destruct (noise_bin_ok rand level i Hl Hr ltac:(lia)) as [[ur ui] ->]. cbn [mbind option_bind].
  destruct (aget_range l i) as [c ->]; [lia|]. cbn [mbind option_bind].
  rewrite aset_Some by lia. eexists. split; [done|]. split; [by rewrite length_insert|].
  apply Forall_insert; [done|]. split; cbn; apply SatW32ToW16_range.
Qed.

Lemma shift_to_noise dfa i sh : Forall in_u16 dfa -> 0 <= sh <= 15 ->
  0 <= i32 (Z.shiftl (znth dfa i) sh) < 2147483648.
Proof.
  intros Hd Hs. assert (Hx : in_u16 (znth dfa i)) by (apply znth_ok; [done|unfold in_u16; lia]). unfold in_u16 in Hx.
  rewrite Z.shiftl_mul_pow2 by lia.
  assert (Hp : 1 <= 2 ^ sh <= 32768) by (change 1 with (2 ^ 0) at 1; change 32768 with (2 ^ 15); split; apply Z.pow_le_mono_r; lia).
  rewrite i32_id by (unfold in_i32; nia). nia.
Qed.

Lemma ComfortNoise_ok c dfa out lambda : core_wf c -> bins_ok in_u16 dfa -> spectrum_ok out ->
  ComfortNoise c dfa out lambda ⤳ fun r => spectrum_ok r.1 /\ block_inv c r.2.
Proof.
  intros Hc [_ Hd] Ho. unfold ComfortNoise. cbv zeta.
  pose proof (so_clean_q _ (cw_spectra _ Hc)) as Hq. unfold q_ok in Hq. unfold kNoiseEstQDomain.
  rewrite (i16_id (15 - dfaCleanQDomain c)) by (unfold in_i16; lia). set (sh := 15 - dfaCleanQDomain c). assert (Hsh : 0 <= sh <= 15) by (subst sh; lia). clearbody sh.
  eapply result_bind; [apply (result_assert _ (fun _ => True)); [destruct (Z.geb_spec sh 0); [done|lia]|done]|]. intros _ _. cbv beta.
  eapply result_bind; [apply (result_assert _ (fun _ => True)); [destruct (Z.ltb_spec sh 16); [done|lia]|done]|]. intros _ _. cbv beta.
  pose proof (cw_filters _ Hc) as [? ? [Nl Nr] [Ll Lr] [Hl Hr] Hctr Hseed ?].
  assert (Hcm : exists ctr m, (if noiseEstCtr c <? 100 then (i16 (noiseEstCtr c + 1), 6) else (noiseEstCtr c, 9)) = (ctr, m) /\
    0 <= ctr <= 100 /\ (m = 6 \/ m = 9)).
  { destruct (Z.ltb_spec (noiseEstCtr c) 100); eexists _, _; (split; [done|]); [rewrite i16_id by (unfold in_i16; lia)|]; lia. }
  destruct Hcm as (ctr & m & -> & Hctr' & Hm).
  destruct (RandUArray_range (Z.to_nat PART_LEN) (seed c) Hseed) as [Hrand Hseed'].
  pose proof (RandUArray_length (Z.to_nat PART_LEN) (seed c)) as Hrl.
  unfold WebRtcSpl_RandUArray. destruct (RandUArray_loop (Z.to_nat PART_LEN) (seed c)) as [rand seed']. cbn [fst snd] in *.
  eapply result_bind; [apply add_noise_loop; [by rewrite Hrl|done|done]|]. intros out' Hout. cbv beta.
  apply result_ret. cbn [fst snd]. split; [done|]. split; [|reflexivity].
  assert (Ht : forall i, 0 <= i < PART_LEN1 -> tracked m (i32 (Z.shiftl (znth dfa i) sh)) (znth (noiseEst c) i)
    (track_noise m (i32 (Z.shiftl (znth dfa i) sh)) (znth (noiseEst c) i, znth (noiseEstTooLowCtr c) i, znth (noiseEstTooHighCtr c) i))).
  { intros i Hi. apply track_noise_ok; [done|by apply shift_to_noise|..]; apply znth_ok; try done; unfold noise_range, counter_range; lia. }
  assert (Hn : forall i, noise_range (znth (noiseEst c) i)) by (intros; apply znth_ok; [done|unfold noise_range; lia]).
  same_core Hc. constructor; try done; apply bins_tab; intros i Hi; pose proof (Ht i Hi) as [T1 T2 T3 T4]; try done.
  apply noise_level_ok; [done|]. specialize (Hn i). pose proof (shift_to_noise dfa i sh Hd Hsh) as Hs. unfold noise_range in Hn.
  destruct (Z.ltb_spec (i32 (Z.shiftl (znth dfa i) sh)) (znth (noiseEst c) i)) as [Hlt|Hge]; [specialize (T1 Hlt); lia|].
  destruct (T2 Hge) as [Hb Hup]. clear T1 T2 T3 T4 Ht.
  match goal with |- 0 <= ?x < _ => set (x0 := x) in * end.
  assert (znth (noiseEst c) i - 1791 <= x0 <= znth (noiseEst c) i + znth (noiseEst c) i / 512 + 1) by exact Hb.
  split; [|dlia]. destruct (Z.ltb_spec (znth (noiseEst c) i) 524288); [|lia].
  assert (znth (noiseEst c) i <= x0) by (apply Hup; lia). lia.
Qed.

(** ** The fixed-point block function *)

Lemma ProcessBlock_ok c far noisy clean out : core_wf c -> samples_ok PART_LEN far -> samples_ok PART_LEN noisy ->
  clean_ok clean ->
  WebRtcAecm_ProcessBlock c far noisy clean out ⤳ fun r => r.1.1 = 0 /\ block_inv c r.1.2 /\ samples_ok PART_LEN r.2.
Proof.
  intros Hc Hfar Hnoisy Hclean. unfold WebRtcAecm_ProcessBlock.
  eapply result_bind; [by apply block_spectra_ok|]. intros sp Hsp. cbv beta. pose proof Hsp as [Si ? ? ? ? ? ? ? ? ?].
  pose proof Si as [Sc _].
  eapply result_bind; [by apply block_delay_ok|]. intros [delay c1] (Hd & Hc1 & _). cbn [fst snd] in *. cbv beta iota.
  destruct (Z.eqb_spec delay (-1)); [lia|].
  eapply result_bind; [eapply block_channel_ok; [exact Hsp|apply Hc1|done]|]. intros [[[c2 est] zx] g] (Hc2 & Hzx & Hg).
  cbn [fst snd] in *. cbv beta iota.
  eapply result_bind; [apply wiener_filter_ok, Hc2|]. intros [c3 hnl] (Hc3 & Hh). cbn [fst snd] in *. cbv beta iota.
  pose proof (suppress_ok c3 (dfw sp) hnl) as Hefw. destruct (suppress c3 (dfw sp) hnl) as [efw hnl']. cbn [fst] in Hefw.
  assert (Hcn : (if cngMode c3 =? AecmTrue then ComfortNoise c3 (dfaClean sp) efw hnl' else Some (efw, c3)) ⤳
    fun r => spectrum_ok r.1 /\ block_inv c3 r.2).
  { destruct (cngMode c3 =? AecmTrue); [apply ComfortNoise_ok; [apply Hc3|done|done]|].
    apply result_ret. split; [done|]. split; [apply Hc3|done]. }
  eapply result_bind; [exact Hcn|]. intros [efw' c4] [Hefw' Hc4]. cbn [fst snd] in *. cbv beta iota.
  eapply result_bind; [apply InverseFFTAndWindow_ok; [apply Hc4|done]|]. intros [out' c5] [Hout Hc5]. cbn [fst snd] in *. cbv beta iota.
  apply result_ret. cbn [fst snd]. split; [done|]. split; [|done].
  do 5 (eapply block_inv_trans; [eassumption|]). exact Hc5.
Qed.

(** ** The floating-point estimate *)

Lemma length_tab2 f n : 0 <= n -> zlen (tab2 f n) = 2 * n.
Proof. intros. unfold tab2. apply length_tab. lia. Qed.

Lemma length_prefix {A} (f : Z -> A) l : zlen l = PART_LEN1 -> zlen (tab f PART_LEN ++ drop (Z.to_nat PART_LEN) l) = PART_LEN1.
Proof.
  intros Hl. rewrite length_app, length_drop, Nat2Z.inj_add, length_tab by done. unfold PART_LEN1, PART_LEN in *. lia.
Qed.

Lemma length_power fpin fpout : zlen fpout = PART_LEN1 -> zlen (PowerEstimation fpin fpout) = PART_LEN1.
Proof. apply length_prefix. Qed.

Ltac lens := repeat match goal with H : Forall (fun l => zlen l = _) (_ :: _) |- _ => apply Forall_cons_1 in H as [? H] end.
Ltac lens_goal := repeat (apply Forall_cons_2; [|]); try apply Forall_nil_2.

Lemma float_far_ok fl far q : float_ok fl -> float_far fl far q ⤳ float_ok.
Proof.
  intros [Hh Hp Hs Hw]. unfold float_far. assert (Hl : zlen (CopyFixFFT2Float far q) = 512) by (by apply length_tab2).
  change PART_LEN2 with 512 in *. unfold MAX_DELAY in *.
  eapply result_bind; [eapply result_eq; [apply memcpy_Some; lia|]|].
  { instantiate (1 := fun h => zlen h = 512 * 25). cbv beta. rewrite length_splice; [done|lia|]. rewrite length_slice by lia. lia. }
  intros h Hh'. cbv beta. apply result_ret. constructor; [exact Hh'| |exact Hs|exact Hw].
  cbn. unfold MAX_DELAY. apply Z.rem_bound_pos; lia.
Qed.

Lemma UpdateH_ok fl d : float_ok fl -> 1 <= d <= MAX_DELAY -> UpdateH fl d ⤳ float_ok.
Proof.
  intros [Hh Hp Hs Hw] Hd. unfold UpdateH. cbv zeta.
  assert (Hslot : 0 <= history_slot fl d < 25)
    by (unfold history_slot, MAX_DELAY in *; apply Z.rem_bound_pos; lia).
  eapply result_bind; [apply (result_assert _ (fun _ => True)); [|done]|].
  { apply range_ok_spec. change PART_LEN2 with 512 in *. unfold MAX_DELAY in *. lia. }
  intros _ _. cbv beta. apply result_ret. lens. constructor; try done; cbn; lens_goal; first [assumption | by apply length_tab2].
Qed.

Lemma NLP_ok fl : float_ok fl -> float_ok (NLP fl).
Proof.
  intros [Hh Hp Hs Hw]. unfold NLP. destruct (nlp_ratio _ _). lens. constructor; try done; cbn -[tab]; lens_goal;
    first [assumption | by apply length_tab | by apply length_prefix].
Qed.

Lemma float_estimate_ok fl d : float_ok fl -> 1 <= d <= MAX_DELAY -> float_estimate fl d ⤳ float_ok.
Proof.
  intros [Hh Hp Hs Hw] Hd. unfold float_estimate. cbv zeta.
  match goal with |- context [history_slot ?f d] => set (fl1 := f) end.
  assert (Hslot : 0 <= history_slot fl1 d < 25)
    by (unfold history_slot, MAX_DELAY in *; apply Z.rem_bound_pos; cbn; lia).
  eapply result_bind; [apply (result_assert _ (fun _ => True)); [|done]|].
  { apply range_ok_spec. change (FarSpectrumHistory fl1) with (FarSpectrumHistory fl). change PART_LEN2 with 512 in *.
    unfold MAX_DELAY in *. lia. }
  intros _ _. cbv beta. eapply result_bind; [apply UpdateH_ok; [|done]|].
  { lens. constructor; try done; cbn -[PowerEstimation]; lens_goal;
      first [assumption | by apply length_power | apply length_prefix; by first [assumption | apply length_power]]. }
  clear. intros fl [Hh Hp Hs Hw]. cbv beta. apply result_ret. apply NLP_ok. lens.
  constructor; try done; cbn -[PowerEstimation]; lens_goal; first [assumption | by apply length_power].
Qed.

(** ** The block function with the floating-point estimate *)

Lemma core_wf_float c fl : core_wf c -> float_ok fl -> core_wf (c <| aecmfloat := fl |>).
Proof. intros Hc Hf. same_core Hc. Qed.

Lemma CopyFloatFFT2Fix_ok efw q fp : spectrum_ok efw -> spectrum_ok (CopyFloatFFT2Fix efw q fp).
Proof.
  intros [Hl He]. unfold CopyFloatFFT2Fix. cbv zeta. split; [by apply length_prefix|].
  apply Forall_app_2; [|by apply Forall_drop]. apply Forall_tab. intros i _.
  split; cbn; repeat case_match; auto with cint; unfold in_i16; lia.
Qed.

Lemma ProcessBlockwithFloat_ok c far noisy clean out : core_wf c -> samples_ok PART_LEN far -> samples_ok PART_LEN noisy ->
  clean_ok clean ->
  WebRtcAecm_ProcessBlockwithFloat c far noisy clean out ⤳
    fun r => r.1.1 = 0 /\ block_inv c r.1.2 /\ samples_ok PART_LEN r.2.
Proof.
  intros Hc Hfar Hnoisy Hclean. unfold WebRtcAecm_ProcessBlockwithFloat. cbv zeta. set (fp := enablefloatpro c =? 1).
  eapply result_bind; [by apply block_spectra_ok|]. intros sp Hsp. cbv beta. pose proof Hsp as [Si ? ? ? ? ? ? ? ? ?].
  pose proof Si as [Sc So]. pose proof (cw_float _ Sc) as Hfl.
  eapply result_bind.
  { instantiate (1 := float_ok). destruct fp; [|by apply result_ret].
    eapply result_bind; [by apply float_far_ok|]. intros fl [Fh Fp Fs Fw]. cbv beta. apply result_ret. lens.
    constructor; try done; cbn -[CopyFixFFT2Float]; lens_goal; first [assumption | by apply length_tab2]. }
  intros fl1 Hfl1. cbv beta.
  eapply result_bind; [apply block_delay_ok; [by apply core_wf_float|done..]|].
  intros [delay c1] (Hd & [Hc1 Ho1] & Hcur). cbn [fst snd] in *. cbv beta iota.
  destruct (Z.eqb_spec delay (-1)); [lia|].
  eapply result_bind.
  { instantiate (1 := float_ok). destruct fp; [|apply result_ret, (cw_float _ Hc1)].
    apply float_estimate_ok; [apply (cw_float _ Hc1)|]. lia. }
  intros fl2 Hfl2. cbv beta.
  change (currentDelay (c1 <| aecmfloat := fl2 |>)) with (currentDelay c1).
  eapply result_bind; [eapply block_channel_ok; [exact Hsp|by apply core_wf_float|lia]|].
  intros [[[c2 est] zx] g] ([Hc2 Ho2] & Hzx & Hg). cbn [fst snd] in *. cbv beta iota.
  eapply result_bind; [by apply wiener_filter_ok|]. intros [c3 hnl] ([Hc3 Ho3] & Hh). cbn [fst snd] in *. cbv beta iota.
  pose proof (suppress_ok c3 (dfw sp) hnl) as Hefw. destruct (suppress c3 (dfw sp) hnl) as [efw hnl']. cbn [fst] in Hefw.
  eapply result_bind; [apply InverseFFTAndWindow_ok; [done|]|].
  { destruct (fp && (currentDelay c3 >? 1)); [by apply CopyFloatFFT2Fix_ok|done]. }
  intros [out' c5] [Hout [Hc5 Ho5]]. cbn [fst snd] in *. cbv beta iota.
  apply result_ret. cbn [fst snd]. split; [done|]. split; [|done]. split; [done|].
  rewrite Ho5, Ho3, Ho2. change (outer (c1 <| aecmfloat := fl2 |>)) with (outer c1). rewrite Ho1. exact So.
Qed.

(** ** A concrete core *)

Lemma blank_created : created blank_core.
Proof.
  assert (Hr : ring_shape (farFrameBuf blank_core)) by (split_and!; reflexivity).
  assert (Hz : Forall (fun x : Z => in_u32 x) (zreplicate MAX_DELAY 0)) by (apply Forall_replicate; unfold in_u32; lia).
  constructor; try reflexivity; [by split_and!| | |apply samples_zero; done].
  - eexists. split; [reflexivity|]. split; [|reflexivity]. constructor; [vm_compute; split; done|reflexivity|exact Hz|reflexivity].
  - constructor; try reflexivity; vm_compute; try (split; intros; discriminate); try done.
Qed.

(** The core as initialised at 16 kHz. *)
Definition sample_core : AecmCore :=
  match WebRtcAecm_InitCore blank_core 16000 with Some (_, c) => c | None => blank_core end.

Lemma sample_core_wf : core_wf sample_core.
Proof.
  destruct (InitCore_ok blank_core 16000 blank_created ltac:(by right)) as (c & E & Hc & _).
  unfold sample_core. rewrite E. exact Hc.
Qed.

(** ** Properties *)

(** C3. Safety of the block functions: on a well-formed state and blocks of 256
    16-bit samples, with or without a clean near end, both functions run without
    leaving an array and without failing an assertion, return [0], give a block
    of 256 16-bit samples, keep the state well formed, and leave the frame
    buffers, the far-end delay line and the modes alone. *)
Theorem block_functions_safe c far noisy clean out :
  core_wf c -> samples_ok PART_LEN far -> samples_ok PART_LEN noisy -> clean_ok clean ->
  (exists c' out', WebRtcAecm_ProcessBlockwithFloat c far noisy clean out = Some (0, c', out') /\
     core_wf c' /\ outer c' = outer c /\ samples_ok PART_LEN out') /\
  (exists c' out', WebRtcAecm_ProcessBlock c far noisy clean out = Some (0, c', out') /\
     core_wf c' /\ outer c' = outer c /\ samples_ok PART_LEN out').
Proof.
  intros Hc Hf Hn Hcl. split.
  - destruct (ProcessBlockwithFloat_ok c far noisy clean out Hc Hf Hn Hcl) as ([[r c'] out'] & E & Hr & [Hw Ho] & Hs).
    cbn [fst snd] in *. subst r. eauto 10.
  - destruct (ProcessBlock_ok c far noisy clean out Hc Hf Hn Hcl) as ([[r c'] out'] & E & Hr & [Hw Ho] & Hs).
    cbn [fst snd] in *. subst r. eauto 10.
Qed.

Lemma block_functions_safe_witness :
  let ramp := tab (fun i => 100 * i - 12800) PART_LEN in
  (exists c' out', WebRtcAecm_ProcessBlockwithFloat sample_core ramp ramp None [] = Some (0, c', out') /\
     core_wf c' /\ outer c' = outer sample_core /\ samples_ok PART_LEN out') /\
  (exists c' out', WebRtcAecm_ProcessBlock sample_core ramp ramp None [] = Some (0, c', out') /\
     core_wf c' /\ outer c' = outer sample_core /\ samples_ok PART_LEN out').
Proof.
  intros ramp.
  assert (Hr : samples_ok PART_LEN ramp).
  { apply samples_tab; [done|]. unfold PART_LEN, in_i16. intros i Hi. lia. }
  apply (block_functions_safe sample_core ramp ramp None []); [exact sample_core_wf|exact Hr|exact Hr|]. intros l E. discriminate E.
Defined.

(** The spectrum of a block: the dynamic scaling shifts every sample without
    overflow, the magnitude of every bin is the integer part of the Euclidean
    norm of its parts (also where the 16-bit absolute value and the 32-bit sum
    saturate), and the sum of the magnitudes is exact. *)
Theorem spectrum_magnitudes_exact x : samples_ok PART_LEN2 x ->
  exists q freq abs sum, TimeToFrequencyDomain x = Some (q, freq, abs, sum) /\
    0 <= q <= 15 /\ Forall (fun v => in_i16 (v * 2 ^ q)) x /\
    (forall i, 0 <= i < PART_LEN1 ->
       let '(mkComplex re im) := cnth freq i in znth abs i = Z.sqrt (re * re + im * im)) /\
    sum = zsum (znth abs) 0 257.
Proof.
  intros Hx. destruct (TimeToFrequencyDomain_ok x Hx) as ([[[q freq] abs] sum] & E & [Tq _ _ Tn [Ts _]]).
  cbn [fst snd] in *. exists q, freq, abs, sum. split; [done|]. split; [exact Tq|]. split; [|by split].
  destruct Hx as [Hl Hx]. destruct (MaxAbsValue_bound x) as (M & EM & HM & Hb); [by destruct x|done|].
  assert (Eq : q = WebRtcSpl_NormW16 M).
  { revert E. unfold TimeToFrequencyDomain. rewrite slice_all, EM by done.
    generalize WindowAndFFT. intros wf. cbn [mbind option_bind]. destruct (wf x _); cbn [mbind option_bind]; [|done]. congruence. }
  clear E. subst q. apply Forall_lookup_2. intros k v Hk.
  pose proof (Forall_lookup_1 _ _ _ _ Hb Hk) as Hv. pose proof (Forall_lookup_1 _ _ _ _ Hx Hk) as Hvi. cbv beta in Hv.
  unfold in_i16 in *. destruct (Z.eqb_spec M 32767) as [->|]; [change (2 ^ WebRtcSpl_NormW16 32767) with 1; lia|].
  destruct (Z.eqb_spec M 0) as [->|]; [replace v with 0 by lia; lia|].
  destruct (NormW16_spec M) as (Hn & Hs & _); [unfold in_i16; lia|done|]. unfold in_i16 in Hs.
  assert (0 < 2 ^ WebRtcSpl_NormW16 M) by (apply Z.pow_pos_nonneg; lia). nia.
Qed.

Lemma spectrum_magnitudes_exact_witness :
  let x := tab (fun i => if i =? 3 then -32768 else i) PART_LEN2 in
  exists q freq abs sum, TimeToFrequencyDomain x = Some (q, freq, abs, sum) /\
    0 <= q <= 15 /\ Forall (fun v => in_i16 (v * 2 ^ q)) x /\
    (forall i, 0 <= i < PART_LEN1 ->
       let '(mkComplex re im) := cnth freq i in znth abs i = Z.sqrt (re * re + im * im)) /\
    sum = zsum (znth abs) 0 257.
Proof.
  intros x. apply (spectrum_magnitudes_exact x). apply samples_tab; [done|]. change PART_LEN2 with 512. unfold in_i16.
  intros i Hi. destruct (i =? 3); lia.
Defined.

(** The square-root window of analysis and synthesis is monotone from 0 to
    1, and its squares at [i] and [256 - i], which overlapping blocks add up,
    sum to 1 up to 0.32 percent and never to more, so that overlap-add never
    amplifies; windowing in 16 bits is exact up to the final shift. *)
Theorem window_overlaps_to_one i x : 0 <= i <= PART_LEN -> in_i16 x ->
  let w := znth WebRtcAecm_kSqrtHanning in
  0 <= w i <= 16384 /\ (i < PART_LEN -> w i < w (i + 1)) /\
  16384 * 16384 - 844478 <= w i * w i + w (PART_LEN - i) * w (PART_LEN - i) <= 16384 * 16384 /\
  i16 (Z.shiftr (x * w i) 14) = x * w i / 16384.
Proof.
  intros Hi Hx w. change PART_LEN with 256 in *.
  assert (E : all_from (fun i => (0 <=? w i) && (w i <=? 16384) && ((256 <=? i) || (w i <? w (i + 1))) &&
    (16384 * 16384 - 844478 <=? w i * w i + w (256 - i) * w (256 - i)) &&
    (w i * w i + w (256 - i) * w (256 - i) <=? 16384 * 16384)) 0 257 = true) by (vm_compute; reflexivity).
  pose proof (all_from_spec _ _ _ E i ltac:(lia)) as H. cbv beta in H.
  rewrite !andb_true_iff, orb_true_iff, !Z.leb_le, Z.ltb_lt in H.
  split; [lia|]. split; [lia|]. split; [lia|]. rewrite Z.shiftr_div_pow2 by lia. change (2 ^ 14) with 16384.
  unfold in_i16 in Hx. apply i16_id. unfold in_i16.
  split; [apply Z.div_le_lower_bound; nia|apply Z.lt_succ_r, Z.div_lt_upper_bound; nia].
Qed.

Lemma window_overlaps_to_one_witness :
  let w := znth WebRtcAecm_kSqrtHanning in
  0 <= w 128 <= 16384 /\ (128 < PART_LEN -> w 128 < w (128 + 1)) /\
  16384 * 16384 - 844478 <= w 128 * w 128 + w (PART_LEN - 128) * w (PART_LEN - 128) <= 16384 * 16384 /\
  i16 (Z.shiftr (-32768 * w 128) 14) = -32768 * w 128 / 16384.
Proof. apply (window_overlaps_to_one 128 (-32768)); unfold PART_LEN, in_i16; lia. Defined.

(** The Wiener coefficients: on every input they lie in [0, 1] (Q14); where
    the rounded quotient of gained echo and near end, brought to Q14, does not
    overflow, the coefficient is one minus it, at least 0; and in wideband the
    coefficients are squared and, from bin 24 on, limited by the mean of bins 4
    to 24. *)
Theorem wiener_coefficients c est zx g dfa : core_wf c ->
  exists c' hnl, wiener_filter c est zx g dfa = Some (c', hnl) /\ core_wf c' /\ bins_ok gain_range hnl /\
    bins_ok gain_range (limit_wideband hnl) /\
    (forall i, 24 <= i < PART_LEN1 -> znth (limit_wideband hnl) i = Z.min (squared hnl i) (pref_mean hnl)) /\
    (forall echo near r, 0 < echo -> 0 < near <= 32767 -> echo + near / 2 <= 4294967295 ->
       let quotient := (echo + near / 2) / near in
       let t := if 0 <=? r then quotient * 2 ^ r else quotient / 2 ^ (- r) in
       t <= 2147483647 -> wiener_gain echo r near = Z.max 0 (16384 - t)).
Proof.
  intros Hc. destruct (wiener_filter_ok c est zx g dfa Hc) as ([c' hnl] & E & [Hc' _] & Hh). cbn [fst snd] in *.
  destruct (limit_wideband_ok hnl Hh) as [Hl Hv].
  exists c', hnl. split_and!; [done|done|done|done| |].
  { intros i Hi. rewrite Hv by lia. by destruct (Z.leb_spec 24 i); [|lia]. }
  clear. intros echo near r He Hn Hs. set (quotient := (echo + near / 2) / near).
  set (t := if 0 <=? r then quotient * 2 ^ r else quotient / 2 ^ (- r)). intros Ht. unfold wiener_gain.
  destruct (Z.eqb_spec echo 0), (Z.eqb_spec near 0); try lia. cbv zeta.
  rewrite (Z.shiftr_div_pow2 near 1), (u32_id (near / 2 ^ 1)) by (unfold in_u32; dlia). change (2 ^ 1) with 2.
  rewrite u32_id by (unfold in_u32; dlia). unfold WebRtcSpl_DivU32U16. rewrite (u16_id near) by (unfold in_u16; lia).
  destruct (Z.eqb_spec near 0); [lia|]. cbn [negb]. unfold c_div. rewrite Z.quot_div_nonneg by dlia. fold quotient.
  assert (Hq : 0 <= quotient <= 4294967295).
  { subst quotient. split; [apply Z.div_pos; dlia|]. apply Z.div_le_upper_bound; dlia. }
  rewrite (u32_id quotient) by (unfold in_u32; lia).
  assert (Es : WEBRTC_SPL_SHIFT_U32 quotient r = t /\ 0 <= t).
  { unfold WEBRTC_SPL_SHIFT_U32. subst t. destruct (Z.geb_spec r 0), (Z.leb_spec 0 r); try lia.
    - rewrite Z.shiftl_mul_pow2 by lia. assert (0 < 2 ^ r) by (apply Z.pow_pos_nonneg; lia).
      rewrite u32_id by (unfold in_u32; nia). nia.
    - rewrite Z.shiftr_div_pow2 by lia. split; [done|]. apply Z.div_pos; [lia|]. apply Z.pow_pos_nonneg; lia. }
  destruct Es as [-> Ht0]. rewrite i32_id by (unfold in_i32; lia). change ONE_Q14 with 16384.
  destruct (Z.gtb_spec t 16384); [lia|]. destruct (Z.ltb_spec t 0); [lia|].
  rewrite (i16_id t), i16_id by (unfold in_i16; lia). destruct (Z.ltb_spec (16384 - t) 0); lia.
Qed.

Lemma wiener_coefficients_witness :
  exists c' hnl, wiener_filter sample_core (zreplicate PART_LEN1 4096) 0 256 (zreplicate PART_LEN1 1000) = Some (c', hnl) /\
    core_wf c' /\ bins_ok gain_range hnl /\ bins_ok gain_range (limit_wideband hnl) /\
    (forall i, 24 <= i < PART_LEN1 -> znth (limit_wideband hnl) i = Z.min (squared hnl i) (pref_mean hnl)) /\
    (forall echo near r, 0 < echo -> 0 < near <= 32767 -> echo + near / 2 <= 4294967295 ->
       let quotient := (echo + near / 2) / near in
       let t := if 0 <=? r then quotient * 2 ^ r else quotient / 2 ^ (- r) in
       t <= 2147483647 -> wiener_gain echo r near = Z.max 0 (16384 - t)).
Proof. exact (wiener_coefficients sample_core _ 0 256 _ sample_core_wf). Defined.

(** The noise estimate of a bin follows the minimum of the spectrum without
    overflow: it moves down towards a smaller magnitude and never below it; it
    ramps up by at most 1/512 (plus 1) when the magnitude is larger, and except
    between [2^19] and [2^22] never falls then; its counters stay below 5; and
    the limit applied afterwards brings it back below [2^30]. *)
Theorem noise_follows_minimum m o n lo hi sh lambda : m = 6 \/ m = 9 -> 0 <= o < 2147483648 -> noise_range n ->
  counter_range lo -> counter_range hi -> 0 <= sh <= 15 ->
  let '(n', lo', hi') := track_noise m o (n, lo, hi) in
  (o < n -> o <= n' <= n) /\ (n <= o -> n' <= n + n / 512 + 1 /\ (n < 524288 \/ 4194304 <= n -> n <= n')) /\
  counter_range lo' /\ counter_range hi' /\ noise_range (noise_level sh n' lambda).1.
Proof.
  intros Hm Ho Hn Hlo Hhi Hsh. pose proof (track_noise_ok m o n lo hi Hm Ho Hn Hlo Hhi) as [T1 T2 T3 T4].
  destruct (track_noise m o (n, lo, hi)) as [[n' lo'] hi']. cbn [fst snd] in *.
  split_and!; [exact T1|intros H; specialize (T2 H); lia|exact T3|exact T4|].
  apply noise_level_ok; [done|]. unfold noise_range in Hn.
  destruct (Z.ltb_spec o n) as [H|H]; [specialize (T1 H); lia|]. destruct (T2 H) as [Hb Hup].
  destruct (Z.ltb_spec n 524288); [specialize (Hup ltac:(lia)); dlia|dlia].
Qed.

Lemma noise_follows_minimum_witness :
  let '(n', lo', hi') := track_noise 9 70000 (70000, 4, 4) in
  (70000 < 70000 -> 70000 <= n' <= 70000) /\
  (70000 <= 70000 -> n' <= 70000 + 70000 / 512 + 1 /\ (70000 < 524288 \/ 4194304 <= 70000 -> 70000 <= n')) /\
  counter_range lo' /\ counter_range hi' /\ noise_range (noise_level 3 n' 8192).1.
Proof.
  apply (noise_follows_minimum 9 70000 70000 4 4 3 8192); unfold noise_range, counter_range; lia.
Defined.

(** The upward branch of the tracking multiplies after a truncating shift, and
    in this range lowers the estimate instead of raising it. *)
Lemma noise_ramp_can_fall : (track_noise 9 600000 (526335, 0, 0)).1.1 = 524544.
Proof. reflexivity. Qed.

Lemma fgt_irrefl x : fgt x x = false.
Proof.
  unfold fgt, SpecFloat.SFltb, SpecFloat.SFcompare. destruct x as [[]|[]| |[] m e]; try done;
    rewrite Z.compare_refl, Pos.compare_cont_refl; done.
Qed.

Lemma gain_clamped g : let g' := if flt g f_001 then f_001 else g in
  fgt (if fgt g' f1 then f1 else g') f1 = false /\ flt (if fgt g' f1 then f1 else g') f_001 = false.
Proof.
  cbv zeta. destruct (flt g f_001) eqn:E1; [vm_compute; done|].
  destruct (fgt g f1) eqn:E2; [vm_compute; done|by split].
Qed.

(** The floating-point estimate never amplifies: the power of the error
    spectrum of a bin does not exceed that of the near end (the error is
    replaced by the near end where subtracting the echo estimate would raise
    it), and the gain of a bin lies between 0.001 and 1 (NaN apart), whatever
    the estimates. *)
Theorem float_estimate_never_amplifies fl d i :
  let near_r := fnth (NearSpectrum fl) (2 * i) in
  let near_i := fnth (NearSpectrum fl) (2 * i + 1) in
  (let '(e_r, e_i) := error_bin fl d i in
   fgt (f32_add (f32_mul e_r e_r) (f32_mul e_i e_i))
       (f32_add (f32_mul near_r near_r) (f32_mul near_i near_i)) = false) /\
  fgt (nlp_bin_gain fl i) f1 = false /\ (i <> 0 -> flt (nlp_bin_gain fl i) f_001 = false).
Proof.
  intros near_r near_i. split.
  - unfold error_bin. fold near_r near_i. destruct (echo_bin fl d i) as [echo_r echo_i]. cbv zeta.
    match goal with |- context [if ?b then _ else _] => destruct b eqn:E end; [apply fgt_irrefl|exact E].
  - unfold nlp_bin_gain. destruct (Z.eqb_spec i 0); [vm_compute; done|].
    destruct (fgt (fnth (NearPower fl) i) (fnth (NearNoise fl) i)); [|vm_compute; done]. cbv zeta.
    match goal with |- context [if flt ?g f_001 then _ else ?g] => destruct (gain_clamped g) as [-> ->] end. done.
Qed.

(** Bin 254 is neither in the loop of [NLP] that ends before [PART_LEN - 2] nor
    the last bin: its gain and its error spectrum stay as they were. *)
Lemma nlp_skips_bin_254 fl :
  fnth (gain (NLP fl)) 254 = fnth (gain fl) 254 /\
  fnth (ErrorSpectrum (NLP fl)) 508 = fnth (ErrorSpectrum fl) 508 /\
  fnth (ErrorSpectrum (NLP fl)) 509 = fnth (ErrorSpectrum fl) 509.
Proof.
  unfold NLP. destruct (nlp_ratio _ _) as [ratio ab2].
  unfold fnth. cbn -[tab aget drop]. rewrite aget_app by lia.
  rewrite (length_tab _ PART_LEN) by done. change (254 <? PART_LEN) with true. cbv iota.
  rewrite !aget_tab by done. split_and!; reflexivity.
Qed.

(** The nonlinear processor squares a 16-bit value with a signed times unsigned
    product: the energy of [-1] is more than that of [32767]. *)
Lemma nlp_energy_of_negative :
  (nlp_energies [mkComplex (-1) 0] [] 0 1).2 = 16776960 /\ (nlp_energies [mkComplex 32767 0] [] 0 1).2 = 4194048.
Proof. split; vm_compute; reflexivity. Qed.

(** A near-end filter that should saturate at 32767 wraps instead: the test
    combines the value and the comparison with [&], so an even value fails it. *)
Lemma near_filter_wraps : near_filter 8 30000 13 0 = -2224.
Proof. vm_compute. reflexivity. Qed.

End AecmBlockSpec.
