(* ===== verification/AecmFrame.v ===== *)
(** The processing of a frame, [WebRtcAecm_ProcessFrame] of
    src/webrtc/modules/audio_processing/aecm/aecm_core.c.

    A frame has 80 samples and a block 256, so the function queues frames in
    ring buffers, runs a block function whenever a block is complete, and deals
    the output out in frames.  [Module AecmFrame] translates it over a block
    function [pb], of type [BlockFunction]; the source's choice between the two
    block functions is [process_block].  AecmFrameSpec.v proves its properties
    against the interface [BlockContract], which both block functions implement. *)

From S2P Require Import Prelude Float32 RingBuffer SplInl AecmCore AecmInv AecmBlock AecmBlockSpec.

Module AecmFrame.
Import Ring Aecm AecmBlock.

Definition BlockFunction : Type :=
  AecmCore -> list Z -> list Z -> option (list Z) -> list Z -> option (Z * AecmCore * list Z).

(** The block function in use. *)
Definition process_block : BlockFunction := fun aecm far noisy clean out =>
  if enablefloatpro aecm =? 1 then WebRtcAecm_ProcessBlockwithFloat aecm far noisy clean out
  else WebRtcAecm_ProcessBlock aecm far noisy clean out.

(** A block from a frame buffer: the [PART_LEN] samples where |data_ptr| points
    after the read, in the ring buffer's memory or in the local array (whose
    content is not initialised, here zeros). *)
Definition read_block (b : RingBuffer) : option (list Z * RingBuffer) :=
  let* r := WebRtc_ReadBuffer (Some b) true (Some (zreplicate PART_LEN 0)) PART_LEN in
  let* b := rr_self r in
  let* d := rr_data r in
  match rr_ptr r with
  | Some (InBuffer off) =>
      let* _ := c_assert (range_ok (data b) off PART_LEN) in Some (slice (data b) off PART_LEN, b)
  | _ => Some (d, b)
  end.

(** A write whose return value is ignored. *)
Definition write_samples (b : RingBuffer) (xs : list Z) (n : Z) : option RingBuffer :=
  let* (_, b) := WebRtc_WriteBuffer (Some b) (Some xs) n in b.

Section frame.
Variable pb : BlockFunction.

(** One turn of the loop over blocks; [has_clean] is [nearendClean != NULL].
    Returns what the block function returned. *)
Definition one_block (has_clean : bool) (aecm : AecmCore) : option (Z * AecmCore) :=
  let* (far, b) := read_block (farFrameBuf aecm) in
  let aecm := aecm <| farFrameBuf := b |> in
  let* (noisy, b) := read_block (nearNoisyFrameBuf aecm) in
  let aecm := aecm <| nearNoisyFrameBuf := b |> in
  let* (clean, aecm) :=
    if has_clean then
      let* (clean, b) := read_block (nearCleanFrameBuf aecm) in
      Some (Some clean, aecm <| nearCleanFrameBuf := b |>)
    else Some (None, aecm) in
  let* (r, aecm, outBlock) := pb aecm far noisy clean (zreplicate PART_LEN 0) in
  if r =? -1 then Some (-1, aecm)
  else
    let* b := write_samples (outFrameBuf aecm) outBlock PART_LEN in
    Some (0, aecm <| outFrameBuf := b |>).

(** The loop; [None] when [fuel] turns are not enough. *)
Fixpoint block_loop (fuel : nat) (has_clean : bool) (aecm : AecmCore) : option (Z * AecmCore) :=
  if WebRtc_available_read (Some (farFrameBuf aecm)) >=? PART_LEN then
    match fuel with
    | O => None
    | S fuel' =>
        let* (r, aecm) := one_block has_clean aecm in
        if r =? -1 then Some (-1, aecm) else block_loop fuel' has_clean aecm
    end
  else Some (0, aecm).

(** The far-end frame is buffered, and an older one that corresponds to the delay
    fetched. *)
Definition far_frame (aecm : AecmCore) (farend : list Z) : option (list Z * AecmCore) :=
  let* aecm := WebRtcAecm_BufferFarFrame aecm farend FRAME_LEN in
  WebRtcAecm_FetchFarFrame aecm (zreplicate FRAME_LEN 0) FRAME_LEN (knownDelay aecm).

(** The frame goes into the buffers. *)
Definition buffer_frame (aecm : AecmCore) (farend nearendNoisy : list Z) (nearendClean : option (list Z))
    : option AecmCore :=
  let* (farFrame, aecm) := far_frame aecm farend in
  let* b := write_samples (farFrameBuf aecm) farFrame FRAME_LEN in
  let aecm := aecm <| farFrameBuf := b |> in
  let* b := write_samples (nearNoisyFrameBuf aecm) nearendNoisy FRAME_LEN in
  let aecm := aecm <| nearNoisyFrameBuf := b |> in
  match nearendClean with
  | Some clean =>
      let* b := write_samples (nearCleanFrameBuf aecm) clean FRAME_LEN in
      Some (aecm <| nearCleanFrameBuf := b |>)
  | None => Some aecm
  end.

(** The output frame, stuffed when there is less than a frame to output, copied
    to the memory [out]. *)
Definition output_frame (b : RingBuffer) (out : list Z) : option (list Z * RingBuffer) :=
  let size := i32 (WebRtc_available_read (Some b)) in
  let* b := if size <? FRAME_LEN then (WebRtc_MoveReadPtr (Some b) (size - FRAME_LEN)).2 else Some b in
  let* r := WebRtc_ReadBuffer (Some b) true (Some out) FRAME_LEN in
  let* b := rr_self r in
  let* d := rr_data r in
  match rr_ptr r with
  | Some (InBuffer off) => let* d := memcpy d 0 (data b) off FRAME_LEN in Some (d, b)
  | _ => Some (d, b)
  end.

(** Returns the return value, the new state and the memory at [out].  A frame
    buffer holds 336 samples, so two turns of the loop are enough. *)
Definition ProcessFrame (aecm : AecmCore) (farend nearendNoisy : list Z) (nearendClean : option (list Z)) (out : list Z)
    : option (Z * AecmCore * list Z) :=
  let* aecm := buffer_frame aecm farend nearendNoisy nearendClean in
  let* (r, aecm) := block_loop 2 (bool_decide (is_Some nearendClean)) aecm in
  if r =? -1 then Some (-1, aecm, out)
  else
    let* (out, b) := output_frame (outFrameBuf aecm) out in
    Some (0, aecm <| outFrameBuf := b |>, out).

End frame.

Definition WebRtcAecm_ProcessFrame := ProcessFrame process_block.

End AecmFrame.
