(* ===== verification/AecmFrameSpec.v ===== *)
(** Properties of [WebRtcAecm_ProcessFrame].

    [Module AecmFrameSpec] states the interface [BlockContract] that a block
    function owes to the frame function, with its instances; shows what the
    queues of the frame function do; and proves that a run of frames is a
    sequential run of the block function on the consecutive blocks of the
    streams, delayed by 240 samples. *)

From S2P Require Import Prelude RingBuffer SplInl AecmCore AecmInv AecmBlock AecmBlockSpec AecmFrame.

Module AecmFrameSpec.
Import Ring RingSpec Aecm AecmSpec AecmInv AecmBlock AecmBlockSpec AecmFrame.

(** ** The contract of a block function *)

Class BlockContract (pb : BlockFunction) : Prop :=
  block_contract c far noisy clean out : core_wf c -> samples_ok PART_LEN far -> samples_ok PART_LEN noisy ->
    clean_ok clean ->
    pb c far noisy clean out ⤳ fun r => r.1.1 = 0 /\ block_inv c r.1.2 /\ samples_ok PART_LEN r.2.

#[export] Instance float_block : BlockContract WebRtcAecm_ProcessBlockwithFloat := ProcessBlockwithFloat_ok.
#[export] Instance fixed_block : BlockContract WebRtcAecm_ProcessBlock := ProcessBlock_ok.
#[export] Instance block_in_use : BlockContract process_block.
Proof.
  intros c far noisy clean out Hc Hf Hn Hcl. unfold process_block.
  destruct (enablefloatpro c =? 1); by apply block_contract.
Qed.

(** ** The queues *)

Lemma frame_buf_lengths b : frame_buf_wf b ->
  zlen (items (abs b)) = avail b /\ zlen (stale (abs b)) = 336 - avail b /\ 0 <= avail b <= 336.
Proof.
  intros [Hw Hn _ _]. pose proof (abs_lengths b Hw) as [H1 H2]. pose proof (avail_range b Hw).
  rewrite Hn in *. change (FRAME_LEN + PART_LEN) with 336 in *. done.
Qed.

Lemma write_samples_ok b xs n : frame_buf_wf b -> samples_ok n xs -> zlen (items (abs b)) + n <= 336 ->
  write_samples b xs n ⤳ fun b' => frame_buf_wf b' /\ items (abs b') = items (abs b) ++ xs /\
    stale (abs b') = drop (Z.to_nat n) (stale (abs b)).
Proof.
  intros Hb [Hx Hxi] Hfit. pose proof (frame_buf_lengths b Hb) as (Hi & Hs & _). destruct Hb as [Hw Hn Hit Hst].
  destruct (write_refines b xs n Hw ltac:(lia)) as (b' & E & Hw' & En & Ea).
  rewrite slice_all in Ea by lia. unfold write_samples. rewrite E. cbn [mbind option_bind]. apply result_ret.
  assert (Hmin : Nat.min (length xs) (length (stale (abs b))) = Z.to_nat n) by lia.
  unfold fifo_write in Ea. rewrite Hmin, firstn_all2 in Ea by lia.
  split; [|by rewrite Ea]. constructor; [done|congruence|..]; rewrite Ea; cbn [items stale].
  - by apply Forall_app_2.
  - by apply Forall_drop.
Qed.

Lemma read_block_ok b : frame_buf_wf b -> PART_LEN <= zlen (items (abs b)) ->
  read_block b ⤳ fun r => r.1 = take 256 (items (abs b)) /\ frame_buf_wf r.2 /\
    items (abs r.2) = drop 256 (items (abs b)).
Proof.
  intros Hb Hl. pose proof (frame_buf_lengths b Hb) as (Hi & Hs & _). destruct Hb as [Hw Hn Hit Hst].
  change PART_LEN with 256 in *.
  destruct (read_refines b true (zreplicate 256 0) 256 Hw) as (r & b' & E & Ec & Es & Hw' & En & Ea & d & Ed & Hd & p & Ep & Hp & Hoff).
  { rewrite length_zreplicate by lia. lia. }
  assert (Hc : read_count b 256 = 256) by (unfold read_count; lia). rewrite Hc in *.
  unfold read_block. change PART_LEN with 256. rewrite E. cbn [mbind option_bind]. rewrite Es. cbn [mbind option_bind].
  rewrite Ed. cbn [mbind option_bind]. rewrite Ep.
  assert (Hfb : frame_buf_wf b').
  { unfold fifo_skip in Ea. constructor; [done|rewrite En, Hn; reflexivity|..]; rewrite Ea; cbn [items stale].
    - by apply Forall_drop.
    - apply Forall_app_2; [done|by apply Forall_take]. }
  assert (Hit' : items (abs b') = drop 256 (items (abs b))) by (rewrite Ea; reflexivity).
  destruct p as [off|].
  - rewrite (Hoff off eq_refl). cbn [c_assert mbind option_bind]. by apply result_ret.
  - apply result_ret. split; [|done]. cbn [fst]. cbn [deref] in Hp. change (Z.to_nat 256) with 256%nat in *. rewrite <- Hp. symmetry. apply slice_all.
    rewrite Hd, length_zreplicate by lia. done.
Qed.

(** An output frame: the oldest 80 samples, or what there is preceded by stale
    samples. *)
Definition frame_of (f : Fifo) : list Z :=
  if zlen (items f) <? 80 then drop (length (stale f) - Z.to_nat (80 - zlen (items f))) (stale f) ++ items f
  else take 80 (items f).

Definition frame_taken (f : Fifo) : Fifo :=
  if zlen (items f) <? 80 then fifo_skip 80 (fifo_unread (80 - zlen (items f)) f) else fifo_skip 80 f.

Lemma frame_buf_of b f : wf b -> element_count b = 336 -> abs b = f -> Forall in_i16 (items f) -> Forall in_i16 (stale f) ->
  frame_buf_wf b.
Proof. intros. subst f. by constructor. Qed.

Lemma output_frame_ok b out : frame_buf_wf b -> zlen out = FRAME_LEN ->
  output_frame b out ⤳ fun r => r.1 = frame_of (abs b) /\ samples_ok FRAME_LEN r.1 /\ frame_buf_wf r.2 /\
    abs r.2 = frame_taken (abs b).
Proof.
  intros Hb Ho. pose proof (frame_buf_lengths b Hb) as (Hi & Hs & Ha). pose proof Hb as [Hw Hn Hit Hst].
  change FRAME_LEN with 80 in *. unfold output_frame. change FRAME_LEN with 80. rewrite available_read_avail by done.
  rewrite i32_id by (unfold in_i32; lia). cbv zeta.
  set (f1 := if avail b <? 80 then fifo_unread (80 - avail b) (abs b) else abs b).
  assert (Hmove : (if avail b <? 80 then (WebRtc_MoveReadPtr (Some b) (avail b - 80)).2 else Some b) ⤳
    fun b1 => wf b1 /\ element_count b1 = 336 /\ abs b1 = f1).
  { subst f1. destruct (Z.ltb_spec (avail b) 80).
    - destruct (move_refines b (avail b - 80) Hw) as (b1 & -> & Hw1 & En1 & Ea1). cbn [snd]. apply result_ret.
      split; [done|]. split; [rewrite En1, Hn; reflexivity|]. rewrite Ea1. unfold clamp_move, fifo_move.
      rewrite Hn. change (80 + PART_LEN) with 336.
      replace (Z.max (avail b - 336) (Z.min (avail b - 80) (avail b))) with (avail b - 80) by lia.
      destruct (Z.leb_spec 0 (avail b - 80)); [lia|]. f_equal. lia.
    - by apply result_ret. }
  assert (Hf1 : 80 <= zlen (items f1) /\ take 80 (items f1) = frame_of (abs b) /\ fifo_skip 80 f1 = frame_taken (abs b) /\
    Forall in_i16 (items f1) /\ Forall in_i16 (stale f1)).
  { subst f1. unfold frame_of, frame_taken. rewrite !Hi. destruct (Z.ltb_spec (avail b) 80); [|by split_and!; [lia|..]].
    cbn [fifo_unread items stale].
    assert (Hll : length (drop (length (stale (abs b)) - Z.to_nat (80 - avail b)) (stale (abs b)) ++ items (abs b)) = 80%nat)
      by (rewrite length_app, length_drop; lia).
    split_and!; [lia|apply firstn_all2; lia|done| |by apply Forall_take].
    apply Forall_app_2; [by apply Forall_drop|done]. }
  destruct Hf1 as (Hlen & Eframe & Etaken & Hf1i & Hf1s). clearbody f1.
  eapply result_bind; [exact Hmove|]. intros b1 (Hw1 & Hn1 & Ea1). cbv beta.
  pose proof (abs_lengths b1 Hw1) as [Hi1 _]. rewrite Ea1 in Hi1.
  destruct (read_refines b1 true out 80 Hw1) as (r & b' & E & Ec & Es & Hw' & En & Ea & d & Ed & Hd & p & Ep & Hp & Hoff); [lia|].
  assert (Hc : read_count b1 80 = 80) by (unfold read_count; lia). rewrite Hc in *. rewrite Ea1 in *.
  rewrite E. cbn [mbind option_bind]. rewrite Es. cbn [mbind option_bind]. rewrite Ed. cbn [mbind option_bind]. rewrite Ep.
  change (Z.to_nat 80) with 80%nat in *. rewrite Eframe in Hp.
  assert (Hsam : samples_ok 80 (frame_of (abs b))).
  { rewrite <- Eframe. split; [rewrite length_take; lia|by apply Forall_take]. }
  assert (Hfb : frame_buf_wf b').
  { eapply frame_buf_of; [done|lia|exact Ea|..]; cbn [fifo_skip items stale].
    - by apply Forall_drop.
    - apply Forall_app_2; [done|by apply Forall_take]. }
  assert (Hd' : zlen d = 80) by lia.
  destruct p as [off|]; cbn [deref] in Hp.
  - pose proof (proj1 (range_ok_spec _ _ _) (Hoff off eq_refl)) as Hr.
    rewrite memcpy_Some by lia. cbn [mbind option_bind]. apply result_ret. cbn [fst snd]. rewrite Hp.
    unfold splice. rewrite take_0. destruct Hsam as [Hsl Hsi]. rewrite drop_ge by lia. rewrite app_nil_r. cbn [app].
    split_and!; try done. congruence.
  - apply result_ret. cbn [fst snd]. rewrite slice_all in Hp by lia. rewrite Hp. split_and!; try apply Hsam; try done. congruence.
Qed.

(** What a read leaves of the buffer does not depend on the memory at [dst]. *)
Lemma read_self b w d k r : WebRtc_ReadBuffer (Some b) w (Some d) k = Some r ->
  rr_self r = (WebRtc_MoveReadPtr (Some b) (i32 (read_elements (GetBufferReadRegions b k)))).2.
Proof.
  unfold WebRtc_ReadBuffer. cbv zeta. destruct (if len_2 _ >? 0 then _ else _) as [[d' p]|]; [|done]. cbn [mbind option_bind].
  destruct (WebRtc_MoveReadPtr _ _) as [c b']. by intros [= <-].
Qed.

Lemma output_frame_ring b out d b' : output_frame b out = Some (d, b') ->
  exists b1, (if i32 (WebRtc_available_read (Some b)) <? FRAME_LEN
              then (WebRtc_MoveReadPtr (Some b) (i32 (WebRtc_available_read (Some b)) - FRAME_LEN)).2 else Some b) = Some b1 /\
    (WebRtc_MoveReadPtr (Some b1) (i32 (read_elements (GetBufferReadRegions b1 FRAME_LEN)))).2 = Some b'.
Proof.
  unfold output_frame. cbv zeta. destruct (if _ <? FRAME_LEN then _ else _) as [b1|]; [|done]. cbn [mbind option_bind].
  destruct (WebRtc_ReadBuffer _ _ _ _) as [r|] eqn:E; [|done]. cbn [mbind option_bind]. apply read_self in E. rewrite E.
  destruct (WebRtc_MoveReadPtr (Some b1) _).2 as [b2|] eqn:E2; [|done]. cbn [mbind option_bind].
  intros H. exists b1. split; [done|]. rewrite E2. destruct (rr_data r) as [d0|]; [|done]. cbn [mbind option_bind] in H.
  destruct (rr_ptr r) as [[off|]|]; cbn [mbind option_bind] in H; try (by injection H as _ <-).
  destruct (memcpy d0 0 (data b2) off FRAME_LEN); [|done]. by injection H as _ <-.
Qed.

Lemma output_frame_indep b out1 out2 : frame_buf_wf b -> zlen out1 = FRAME_LEN -> zlen out2 = FRAME_LEN ->
  output_frame b out1 = output_frame b out2.
Proof.
  intros Hb H1 H2. destruct (output_frame_ok b out1 Hb H1) as ([d1 b1] & E1 & F1 & _).
  destruct (output_frame_ok b out2 Hb H2) as ([d2 b2] & E2 & F2 & _). cbn [fst] in F1, F2.
  destruct (output_frame_ring b out1 d1 b1 E1) as (c1 & G1 & K1), (output_frame_ring b out2 d2 b2 E2) as (c2 & G2 & K2).
  rewrite E1, E2. rewrite G1 in G2. injection G2 as <-. rewrite K1 in K2. injection K2 as <-. congruence.
Qed.

(** ** The state outside the queues *)

(** All fields but the queues, that is the frame buffers and the far-end delay
    line. *)
Definition inner (c : AecmCore) :=
  ((xBuf c, dBufNoisy c, dBufClean c, outBuf c),
   (far_history c, far_history_complex c, far_history_pos c, far_q_domains c, dfaCleanQDomain c, dfaCleanQDomainOld c,
    dfaNoisyQDomain c, dfaNoisyQDomainOld c),
   (delay_estimator_farend c, delay_estimator c, fixedDelay c, currentDelay c),
   (echoFilt c, nearFilt c, seed c, noiseEst c, noiseEstTooLowCtr c, noiseEstTooHighCtr c, noiseEstCtr c),
   (aecmfloat c, mult c, nlpFlag c, cngMode c, enablefloatpro c),
   (channelStored c, channelAdapt16 c, channelAdapt32 c, mseAdaptOld c, mseStoredOld c, mseThreshold c, mseChannelCount c),
   (nearLogEnergy c, farLogEnergy c, echoAdaptLogEnergy c, echoStoredLogEnergy c, farEnergyMin c, farEnergyMax c,
    farEnergyMaxMin c, farEnergyVAD c, farEnergyMSE c, currentVADValue c, vadUpdateCount c, firstVAD c),
   (supGain c, supGainOld c, supGainErrParamA c, supGainErrParamD c, supGainErrParamDiffAB c, supGainErrParamDiffBD c,
    startupState c, totCount c, knownDelay c)).

Lemma inner_mult c d : inner d = inner c -> mult d = mult c.
Proof. unfold inner. intros E. by injection E. Qed.

Lemma same_rings c d : farFrameBuf d = farFrameBuf c -> nearNoisyFrameBuf d = nearNoisyFrameBuf c ->
  nearCleanFrameBuf d = nearCleanFrameBuf c -> outFrameBuf d = outFrameBuf c -> rings_ok c -> rings_ok d.
Proof. intros E1 E2 E3 E4 []. constructor; congruence. Qed.

(** The parts of the invariant that do not mention the queues. *)
Lemma same_inner_wf c d : inner d = inner c -> core_wf c -> rings_ok d -> far_line_ok d -> core_wf d.
Proof.
  unfold inner. intros E Hc Hr Hl. injection E. clear E. intros. pose proof Hc as [_ _ HB [[] ? ? ? ?] HD HF HFl HCh HLe].
  constructor; [exact Hr|exact Hl|destruct HB|constructor; [constructor|..]|destruct HD|destruct HF| |destruct HCh|destruct HLe];
    first [congruence | constructor; congruence].
Qed.

(** ** Queueing a frame *)

(** The far-end delay line hands a frame on at once: no delay is known to the
    core, which only [WebRtcAecm_InitCore] sets. *)
Record aligned (c : AecmCore) : Prop := mkAligned {
  al_known : knownDelay c = 0;
  al_last : lastKnownDelay c = 0;
  al_pos : farBufReadPos c mod 1024 = farBufWritePos c mod 1024 }.

Lemma written_at_fetch buf p xs : zlen buf = 1024 -> zlen xs <= 1024 ->
  tab (fun i => znth (written_at buf p xs) ((p mod 1024 + i) mod 1024)) (zlen xs) = xs.
Proof.
  intros Hb Hx. apply list_ext; [apply Nat2Z.inj; rewrite length_tab; lia|].
  rewrite length_tab by lia. intros i Hi. rewrite aget_tab by lia. rewrite (aget_znth xs i) by lia. f_equal.
  apply znth_aget. unfold written_at. rewrite aget_tab by (apply Z.mod_pos_bound; lia). f_equal.
  replace (((p mod 1024 + i) mod 1024 - p) mod 1024) with i by dlia.
  destruct (Z.ltb_spec i (zlen xs)); [done|lia].
Qed.

Lemma written_at_i16 buf p xs : zlen buf = 1024 -> Forall in_i16 buf -> Forall in_i16 xs -> Forall in_i16 (written_at buf p xs).
Proof.
  intros Hl Hb Hx. apply Forall_tab. intros i Hi. destruct (Z.ltb_spec ((i - p) mod 1024) (zlen xs)).
  - assert (Hm : 0 <= (i - p) mod 1024) by (apply Z.mod_pos_bound; lia).
    exact (Forall_aget _ _ _ _ Hx (aget_znth xs ((i - p) mod 1024) ltac:(lia))).
  - exact (Forall_aget _ _ _ _ Hb (aget_znth buf i ltac:(lia))).
Qed.

Lemma far_frame_ok c farend : core_wf c -> aligned c -> samples_ok FRAME_LEN farend ->
  far_frame c farend ⤳ fun r => r.1 = farend /\ core_wf r.2 /\ aligned r.2 /\ inner r.2 = inner c /\
    farFrameBuf r.2 = farFrameBuf c /\ nearNoisyFrameBuf r.2 = nearNoisyFrameBuf c /\
    nearCleanFrameBuf r.2 = nearCleanFrameBuf c /\ outFrameBuf r.2 = outFrameBuf c.
Proof.
  intros Hc [Hk Hlast Hpos] [Hf Hfi]. pose proof (cw_far_line _ Hc) as [Hl Hli Hw].
  change FRAME_LEN with 80 in *. change FAR_BUF_LEN with 1024 in *.
  unfold far_frame. change FRAME_LEN with 80.
  destruct (buffer_far_ok c farend Hl Hw ltac:(lia)) as (pos & E & Hp & Hpm). rewrite Hf in E, Hpm. rewrite E. cbn [mbind option_bind].
  match goal with |- context [WebRtcAecm_FetchFarFrame ?x _ _ _] => set (c1 := x) end.
  change (knownDelay c1) with (knownDelay c).
  assert (Hl1 : zlen (farBuf c1) = 1024) by (subst c1; cbn; unfold written_at; apply length_tab; lia).
  destruct (fetch_far_ok c1 (zreplicate 80 0) 80 (knownDelay c) Hl1 eq_refl ltac:(lia)) as (pos2 & E2 & Hpos2 & Hpm2).
  assert (Ep : (farBufReadPos c1 - (knownDelay c - lastKnownDelay c1)) mod 1024 = farBufWritePos c mod 1024).
  { change (farBufReadPos c1) with (farBufReadPos c). change (lastKnownDelay c1) with (lastKnownDelay c).
    rewrite Hk, Hlast, <- Hpos. f_equal. lia. }
  rewrite Ep in E2, Hpm2. eapply result_eq; [exact E2|]. cbn [fst snd].
  assert (Hin : inner (c1 <| lastKnownDelay := knownDelay c |> <| farBufReadPos := pos2 |>) = inner c) by reflexivity.
  split_and!; [| | |exact Hin|reflexivity..].
  - subst c1. cbn [farBuf]. rewrite <- Hf. apply written_at_fetch; lia.
  - apply (same_inner_wf c); [exact Hin|done|apply (same_rings c); [reflexivity..|apply Hc]|].
    constructor; [exact Hl1|by apply written_at_i16|exact Hp].
  - constructor; [exact Hk|exact Hk|]. change (pos2 mod 1024 = pos mod 1024). rewrite Hpm2, Hpm.
    by rewrite Zplus_mod_idemp_l.
Qed.

(** The clean signal of a frame, when there is one. *)
Definition clean_items (has_clean : bool) (c : AecmCore) : list Z :=
  if has_clean then items (abs (nearCleanFrameBuf c)) else [].

Definition frame_clean_ok (clean : option (list Z)) : Prop := from_option (samples_ok FRAME_LEN) True clean.

Lemma set_rings c f n cl o : core_wf c -> frame_buf_wf f -> frame_buf_wf n -> frame_buf_wf cl -> frame_buf_wf o ->
  core_wf (c <| farFrameBuf := f |> <| nearNoisyFrameBuf := n |> <| nearCleanFrameBuf := cl |> <| outFrameBuf := o |>).
Proof.
  intros Hc Hf Hn Hcl Ho. apply (same_inner_wf c); [reflexivity|done|by constructor|].
  pose proof (cw_far_line _ Hc) as []. by constructor.
Qed.

Lemma buffer_frame_ok c farend noisy clean : core_wf c -> aligned c ->
  samples_ok FRAME_LEN farend -> samples_ok FRAME_LEN noisy -> frame_clean_ok clean ->
  zlen (items (abs (farFrameBuf c))) <= 256 -> zlen (items (abs (nearNoisyFrameBuf c))) <= 256 ->
  zlen (clean_items (bool_decide (is_Some clean)) c) <= 256 ->
  buffer_frame c farend noisy clean ⤳ fun c' => core_wf c' /\ aligned c' /\ inner c' = inner c /\
    items (abs (farFrameBuf c')) = items (abs (farFrameBuf c)) ++ farend /\
    items (abs (nearNoisyFrameBuf c')) = items (abs (nearNoisyFrameBuf c)) ++ noisy /\
    clean_items (bool_decide (is_Some clean)) c' = clean_items (bool_decide (is_Some clean)) c ++ default [] clean /\
    outFrameBuf c' = outFrameBuf c.
Proof.
  intros Hc Ha Hf Hn Hcl Hqf Hqn Hqc. unfold buffer_frame.
  eapply result_bind; [exact (far_frame_ok c farend Hc Ha Hf)|].
  intros [farFrame c1] Hr. cbn [fst snd] in Hr. destruct Hr as (-> & Hc1 & Ha1 & Hi1 & Ef & En & Ecl & Eo). cbv iota zeta.
  pose proof (cw_rings _ Hc1) as [R1 R2 R3 R4].
  eapply result_bind; [apply (write_samples_ok _ _ FRAME_LEN R1 Hf); rewrite Ef; unfold FRAME_LEN; lia|].
  intros b1 (B1 & I1 & _). cbv beta zeta.
  eapply result_bind; [apply (write_samples_ok _ _ FRAME_LEN R2 Hn); rewrite En; unfold FRAME_LEN; lia|].
  intros b2 (B2 & I2 & _). cbv beta zeta. rewrite Ef in I1. rewrite En in I2.
  set (c2 := c1 <| farFrameBuf := b1 |> <| nearNoisyFrameBuf := b2 |>).
  destruct clean as [clean|].
  - eapply result_bind; [apply (write_samples_ok (nearCleanFrameBuf c1) clean FRAME_LEN R3 Hcl)|].
    { rewrite Ecl. revert Hqc. cbn. unfold FRAME_LEN. lia. }
    intros b3 (B3 & I3 & _). cbv beta. apply result_ret. rewrite Ecl in I3.
    split; [exact (set_rings c1 b1 b2 b3 _ Hc1 B1 B2 B3 R4)|].
    split; [destruct Ha1; by constructor|]. split; [exact Hi1|]. by split_and!.
  - apply result_ret. split; [exact (set_rings c1 b1 b2 _ _ Hc1 B1 B2 R3 R4)|].
    split; [destruct Ha1; by constructor|]. split; [exact Hi1|]. by split_and!.
Qed.

(** ** A block *)

(** A run of the block function: the states around it, its arguments and its
    output. *)
Record Block := mkBlock {
  b_before : AecmCore; b_far : list Z; b_noisy : list Z; b_clean : option (list Z);
  b_after : AecmCore; b_out : list Z }.

Definition block_runs (pb : BlockFunction) (b : Block) : Prop :=
  pb (b_before b) (b_far b) (b_noisy b) (b_clean b) (zreplicate PART_LEN 0) = Some (0, b_after b, b_out b).

Definition clean_block (has_clean : bool) (xs : list Z) : option (list Z) := if has_clean then Some xs else None.

(** The queues have a block to process, and room for its output. *)
Record block_ready (has_clean : bool) (c : AecmCore) : Prop := mkReady {
  br_far : PART_LEN <= zlen (items (abs (farFrameBuf c)));
  br_noisy : PART_LEN <= zlen (items (abs (nearNoisyFrameBuf c)));
  br_clean : has_clean = true -> PART_LEN <= zlen (items (abs (nearCleanFrameBuf c)));
  br_out : zlen (items (abs (outFrameBuf c))) <= FRAME_LEN }.

(** The turn of the loop from [c] to [c'] was the block [b]. *)
Record block_step (pb : BlockFunction) (has_clean : bool) (c : AecmCore) (b : Block) (c' : AecmCore) : Prop := mkStep {
  bs_runs : block_runs pb b;
  bs_before : inner (b_before b) = inner c;
  bs_after : inner c' = inner (b_after b);
  bs_out : samples_ok PART_LEN (b_out b);
  bs_far_block : b_far b = take 256 (items (abs (farFrameBuf c)));
  bs_noisy_block : b_noisy b = take 256 (items (abs (nearNoisyFrameBuf c)));
  bs_clean_block : b_clean b = clean_block has_clean (take 256 (clean_items has_clean c));
  bs_far : items (abs (farFrameBuf c')) = drop 256 (items (abs (farFrameBuf c)));
  bs_noisy : items (abs (nearNoisyFrameBuf c')) = drop 256 (items (abs (nearNoisyFrameBuf c)));
  bs_clean : clean_items has_clean c' = drop 256 (clean_items has_clean c);
  bs_queued : items (abs (outFrameBuf c')) = items (abs (outFrameBuf c)) ++ b_out b }.

Lemma outer_fields c d : outer d = outer c ->
  farFrameBuf d = farFrameBuf c /\ nearNoisyFrameBuf d = nearNoisyFrameBuf c /\ nearCleanFrameBuf d = nearCleanFrameBuf c /\
  outFrameBuf d = outFrameBuf c /\ farBufWritePos d = farBufWritePos c /\ farBufReadPos d = farBufReadPos c /\
  knownDelay d = knownDelay c /\ lastKnownDelay d = lastKnownDelay c /\ mult d = mult c.
Proof. unfold outer. intros E. injection E. intros. by split_and!. Qed.

Lemma block_samples b l : frame_buf_wf b -> l = take 256 (items (abs b)) -> PART_LEN <= zlen (items (abs b)) -> samples_ok PART_LEN l.
Proof.
  intros [_ _ Hi _] -> Hl. change PART_LEN with 256 in *. split; [rewrite length_take; lia|by apply Forall_take].
Qed.

(** The block read from the queue of the clean near end, if any. *)
Lemma clean_block_ok hc c : frame_buf_wf (nearCleanFrameBuf c) ->
  (hc = true -> PART_LEN <= zlen (items (abs (nearCleanFrameBuf c)))) ->
  (if hc then let* (clean, b) := read_block (nearCleanFrameBuf c) in Some (Some clean, c <| nearCleanFrameBuf := b |>)
   else Some (None, c)) ⤳ fun r => clean_ok r.1 /\ r.1 = clean_block hc (take 256 (clean_items hc c)) /\
     exists b, frame_buf_wf b /\ r.2 = c <| nearCleanFrameBuf := b |> /\
       (if hc then items (abs b) else []) = drop 256 (clean_items hc c).
Proof.
  intros Hb Hl. destruct hc; cbn [clean_items].
  - specialize (Hl eq_refl). eapply result_bind; [exact (read_block_ok _ Hb Hl)|].
    intros [l b] (El & Hw & Ei). cbn [fst snd] in *. apply result_ret. cbn [fst snd].
    split; [intros l0 [= <-]; exact (block_samples _ l Hb El Hl)|]. split; [by rewrite El|]. by exists b.
  - apply result_ret. cbn [fst snd]. split; [done|]. split; [done|]. exists (nearCleanFrameBuf c).
    split; [done|]. split; [by destruct c|done].
Qed.

Lemma one_block_ok pb `{!BlockContract pb} hc c : core_wf c -> block_ready hc c ->
  one_block pb hc c ⤳ fun r => r.1 = 0 /\ core_wf r.2 /\ (aligned c -> aligned r.2) /\ mult r.2 = mult c /\ exists b, block_step pb hc c b r.2.
Proof.
  intros Hc [Hqf Hqn Hqc Hqo]. pose proof (cw_rings _ Hc) as [R1 R2 R3 R4]. unfold one_block.
  eapply result_bind; [exact (read_block_ok _ R1 Hqf)|]. intros [far b1] (Ef & W1 & I1). cbn [fst snd] in Ef, W1, I1. cbv iota zeta.
  eapply result_bind; [exact (read_block_ok _ R2 Hqn)|]. intros [noisy b2] (En & W2 & I2). cbn [fst snd] in En, W2, I2. cbv iota zeta.
  set (c2 := c <| farFrameBuf := b1 |> <| nearNoisyFrameBuf := b2 |>).
  eapply result_bind; [exact (clean_block_ok hc c2 R3 Hqc)|].
  intros [clean c3] (Hcl & Ecl & b3 & W3 & E3 & I3). cbn [fst snd] in Hcl, Ecl, E3. cbv iota zeta.
  change (clean_items hc c2) with (clean_items hc c) in Ecl, I3.
  assert (Hc3 : core_wf c3) by (rewrite E3; exact (set_rings c b1 b2 b3 _ Hc W1 W2 W3 R4)).
  pose proof (block_samples _ _ R1 Ef Hqf) as Hfar. pose proof (block_samples _ _ R2 En Hqn) as Hnoisy.
  destruct (block_contract c3 far noisy clean (zreplicate PART_LEN 0) Hc3 Hfar Hnoisy Hcl) as ([[r c4] out] & E & Hr & [Hc4 Ho] & Hout).
  cbn [fst snd] in Hr, Hc4, Ho, Hout. subst r.
  eapply result_bind; [exact (result_eq _ _ (fun r => r = (0, c4, out)) E eq_refl)|]. intros r ->.
  change (0 =? -1) with false. cbv beta iota.
  apply outer_fields in Ho as (O1 & O2 & O3 & O4 & O5 & O6 & O7 & O8 & O9). rewrite E3 in O1, O2, O3, O4, O5, O6, O7, O8, O9.
  cbn in O1, O2, O3, O4, O5, O6, O7, O8, O9. pose proof (cw_rings _ Hc4) as [S1 S2 S3 S4].
  eapply result_bind; [apply (write_samples_ok _ _ PART_LEN S4 Hout); rewrite O4; unfold PART_LEN, FRAME_LEN in *; lia|].
  intros b4 (W4 & I4 & _). cbv beta. apply result_ret. cbn [fst snd]. split; [done|].
  split; [exact (set_rings c4 _ _ _ b4 Hc4 S1 S2 S3 W4)|].
  split; [intros [K1 K2 K3]; constructor; cbn; congruence|]. split; [exact O9|].
  exists (mkBlock c3 far noisy clean c4 out). constructor; cbn [b_before b_far b_noisy b_clean b_after b_out]; try done.
  - rewrite E3. reflexivity.
  - change (items (abs (farFrameBuf c4)) = drop 256 (items (abs (farFrameBuf c)))). congruence.
  - change (items (abs (nearNoisyFrameBuf c4)) = drop 256 (items (abs (nearNoisyFrameBuf c)))). congruence.
  - change (clean_items hc c4 = drop 256 (clean_items hc c)). rewrite <- I3. unfold clean_items. by rewrite O3.
  - change (items (abs b4) = items (abs (outFrameBuf c)) ++ out). congruence.
Qed.

(** ** A stream of frames *)

(** Blocks run one after the other, each from the state the one before it left. *)
Inductive chain (pb : BlockFunction) (c : AecmCore) : list Block -> AecmCore -> Prop :=
  | chain_nil d : inner d = inner c -> chain pb c [] d
  | chain_snoc bs d b e : chain pb c bs d -> block_runs pb b -> inner (b_before b) = inner d ->
      inner e = inner (b_after b) -> chain pb c (bs ++ [b]) e.

Lemma chain_inner pb c bs d e : chain pb c bs d -> inner e = inner d -> chain pb c bs e.
Proof. intros H E. destruct H; [apply chain_nil|eapply chain_snoc; [done..|]]; congruence. Qed.

(** The arguments and the output of a block have 256 samples. *)
Definition block_sized (hc : bool) (b : Block) : Prop :=
  zlen (b_far b) = PART_LEN /\ zlen (b_noisy b) = PART_LEN /\ zlen (b_out b) = PART_LEN /\
  match b_clean b with Some l => hc = true /\ zlen l = PART_LEN | None => hc = false end.

(** After [n] frames with the signals [F], [N] and [C] the blocks [bs] have been
    processed: the signals are cut into the blocks and what is queued. *)
Record cut (pb : BlockFunction) (hc : bool) (c0 : AecmCore) (n : Z) (F N C : list Z) (bs : list Block) (c : AecmCore)
    : Prop := mkCut {
  ct_wf : core_wf c;
  ct_aligned : aligned c;
  ct_chain : chain pb c0 bs c;
  ct_far : concat (b_far <$> bs) ++ items (abs (farFrameBuf c)) = F;
  ct_noisy : concat (b_noisy <$> bs) ++ items (abs (nearNoisyFrameBuf c)) = N;
  ct_clean : concat (default [] ∘ b_clean <$> bs) ++ clean_items hc c = C;
  ct_sized : Forall (block_sized hc) bs;
  ct_count : zlen (items (abs (farFrameBuf c))) + 256 * zlen bs = 80 * n;
  ct_noisy_len : zlen (items (abs (nearNoisyFrameBuf c))) = zlen (items (abs (farFrameBuf c)));
  ct_clean_len : hc = true -> zlen (items (abs (nearCleanFrameBuf c))) = zlen (items (abs (farFrameBuf c))) }.

Definition silence (n : Z) : list Z := zreplicate n 0.

(** The output [O] so far: silence until the queue has a block, then the blocks'
    output after 240 samples of silence. *)
Definition dealt (n : Z) (O : list Z) (bs : list Block) (c : AecmCore) : Prop :=
  (bs = [] /\ n <= 3 /\ abs (outFrameBuf c) = mkFifo [] (silence 336) /\ O = silence (80 * n)) \/
  (3 <= n /\ O ++ items (abs (outFrameBuf c)) = silence 240 ++ concat (b_out <$> bs) /\
   zlen (items (abs (outFrameBuf c))) = 240 - zlen (items (abs (farFrameBuf c)))).

Record stream_inv (pb : BlockFunction) (hc : bool) (c0 : AecmCore) (n : Z) (F N C : list Z) (bs : list Block) (O : list Z)
    (c : AecmCore) : Prop := mkStream {
  st_n : 0 <= n;
  st_len : zlen O = 80 * n;
  st_cut : cut pb hc c0 n F N C bs c;
  st_short : zlen (items (abs (farFrameBuf c))) < PART_LEN;
  st_dealt : dealt n O bs c }.

Lemma cut_frame pb hc c0 n F N C bs c farend noisy clean :
  cut pb hc c0 n F N C bs c -> zlen (items (abs (farFrameBuf c))) < PART_LEN ->
  samples_ok FRAME_LEN farend -> samples_ok FRAME_LEN noisy -> frame_clean_ok clean -> bool_decide (is_Some clean) = hc ->
  buffer_frame c farend noisy clean ⤳ fun c' =>
    cut pb hc c0 (n + 1) (F ++ farend) (N ++ noisy) (C ++ default [] clean) bs c' /\ outFrameBuf c' = outFrameBuf c /\
    zlen (items (abs (farFrameBuf c'))) = zlen (items (abs (farFrameBuf c))) + 80.
Proof.
  intros [Hc Ha Hch <- <- <- Hfl Hcnt Hnl Hcl] Hs Hf Hn Hclean Hhc. change PART_LEN with 256 in Hs.
  eapply result_weaken; [apply (buffer_frame_ok c farend noisy clean Hc Ha Hf Hn Hclean)|].
  { lia. } { lia. } { rewrite Hhc. unfold clean_items. destruct hc; [|cbn; lia]. rewrite (Hcl eq_refl). lia. }
  rewrite Hhc. intros c' (Hc' & Ha' & Hi & E1 & E2 & E3 & Eo). destruct Hf as [Hf _], Hn as [Hn _].
  change FRAME_LEN with 80 in *. split; [|split; [exact Eo|rewrite E1, length_app; lia]].
  constructor; try done.
  - exact (chain_inner _ _ _ _ _ Hch Hi).
  - by rewrite E1, app_assoc.
  - by rewrite E2, app_assoc.
  - by rewrite E3, app_assoc.
  - rewrite E1, length_app. lia.
  - rewrite E1, E2, !length_app. lia.
  - intros ->. unfold clean_items in E3. rewrite E3, E1, !length_app, Nat2Z.inj_add, (Hcl eq_refl).
    destruct clean as [clean|]; [|done]. destruct Hclean as [Hcll _]. cbn [default from_option]. unfold FRAME_LEN in Hcll.
    cbn [id]. lia.
Qed.

Lemma cut_block pb hc c0 n F N C bs c b c' : cut pb hc c0 n F N C bs c -> block_ready hc c ->
  core_wf c' -> aligned c' -> block_step pb hc c b c' -> cut pb hc c0 n F N C (bs ++ [b]) c'.
Proof.
  intros [Hc Ha Hch <- <- <- Hfl Hcnt Hnl Hcl] [Hq1 Hq2 Hq3 _] Hc' Ha' [B1 B2 B3 B4 B5 B6 B7 B8 B9 B10 B11].
  change PART_LEN with 256 in *. unfold clean_items in *.
  constructor; try done.
  - by eapply chain_snoc.
  - rewrite fmap_app, concat_app. cbn [fmap list_fmap concat]. by rewrite app_nil_r, B5, B8, <- app_assoc, take_drop.
  - rewrite fmap_app, concat_app. cbn [fmap list_fmap concat]. by rewrite app_nil_r, B6, B9, <- app_assoc, take_drop.
  - rewrite fmap_app, concat_app. cbn [fmap list_fmap concat compose]. rewrite app_nil_r, B7. unfold clean_items. rewrite B10, <- app_assoc.
    f_equal. destruct hc; cbn [clean_block default from_option]; [|done]. apply take_drop.
  - apply Forall_app_2; [done|]. apply Forall_cons_2; [|done]. unfold block_sized. rewrite B5, B6, B7, !length_take.
    destruct B4 as [B4 _]. change PART_LEN with 256 in *. split_and!; [lia..|].
    destruct hc; cbn [clean_block]; [|done]. rewrite length_take. specialize (Hcl eq_refl). split; [done|]. lia.
  - rewrite B8, length_drop, length_app. cbn [length]. lia.
  - rewrite B8, B9, !length_drop. lia.
  - intros ->. rewrite B10, B8, !length_drop. specialize (Hcl eq_refl). lia.
Qed.

(** The loop over the blocks runs at most one: the buffers hold less than two. *)
Lemma block_loop_done pb fuel hc c : core_wf c -> zlen (items (abs (farFrameBuf c))) < PART_LEN ->
  block_loop pb fuel hc c = Some (0, c).
Proof.
  intros Hc Hs. pose proof (cw_rings _ Hc) as [R1 _ _ _]. pose proof (frame_buf_lengths _ R1) as (E & _ & _).
  assert (Ht : (WebRtc_available_read (Some (farFrameBuf c)) >=? PART_LEN) = false)
    by (rewrite available_read_avail by apply R1; lia).
  destruct fuel; cbn [block_loop]; by rewrite Ht.
Qed.

Lemma block_loop_turn pb `{!BlockContract pb} hc c : core_wf c -> block_ready hc c ->
  exists c', core_wf c' /\ zlen (items (abs (farFrameBuf c'))) < PART_LEN /\
    forall fuel, block_loop pb (S fuel) hc c = block_loop pb fuel hc c'.
Proof.
  intros Hc Hready. pose proof (cw_rings _ Hc) as [R1 _ _ _]. pose proof (frame_buf_lengths _ R1) as (E & _ & Hr).
  destruct (one_block_ok pb hc c Hc Hready) as ([r c'] & Eb & Hr0 & Hc' & _ & _ & b & Hstep). cbn [fst snd] in Hr0, Hc', Hstep. subst r.
  exists c'. split; [done|]. split.
  - rewrite (bs_far _ _ _ _ _ Hstep), length_drop. unfold PART_LEN. lia.
  - intros fuel. cbn [block_loop]. rewrite available_read_avail by apply R1.
    destruct (Z.geb_spec (avail (farFrameBuf c)) PART_LEN) as [_|Hlt]; [|destruct Hready; lia]. by rewrite Eb.
Qed.

Lemma block_loop_ok pb `{!BlockContract pb} fuel hc c0 n F N C bs c : (0 < fuel)%nat -> cut pb hc c0 n F N C bs c ->
  (PART_LEN <= zlen (items (abs (farFrameBuf c))) -> zlen (items (abs (outFrameBuf c))) <= FRAME_LEN) ->
  block_loop pb fuel hc c ⤳ fun r => r.1 = 0 /\ zlen (items (abs (farFrameBuf r.2))) < PART_LEN /\
    ((r.2 = c /\ cut pb hc c0 n F N C bs c) \/
     exists b, cut pb hc c0 n F N C (bs ++ [b]) r.2 /\ PART_LEN <= zlen (items (abs (farFrameBuf c))) /\
       items (abs (outFrameBuf r.2)) = items (abs (outFrameBuf c)) ++ b_out b /\ zlen (b_out b) = PART_LEN).
Proof.
  intros Hfuel Hcut Hout. pose proof Hcut as [Hc Ha Hch HF HN HC Hfl Hcnt Hnl Hcl].
  destruct (Z.lt_ge_cases (zlen (items (abs (farFrameBuf c)))) PART_LEN) as [Hlt|Hge].
  { rewrite block_loop_done by done. apply result_ret. cbn [fst snd]. eauto 10. }
  pose proof (cw_rings _ Hc) as [R1 _ _ _]. pose proof (frame_buf_lengths _ R1) as (E & _ & Hr).
  assert (Ht : (WebRtc_available_read (Some (farFrameBuf c)) >=? PART_LEN) = true)
    by (rewrite available_read_avail by apply R1; lia).
  destruct fuel as [|fuel]; [lia|]. cbn [block_loop]. rewrite Ht.
  assert (Hready : block_ready hc c).
  { constructor; [lia|lia|intros Hh; specialize (Hcl Hh); lia|by apply Hout]. }
  eapply result_bind; [exact (one_block_ok pb hc c Hc Hready)|].
  intros [r c'] (Hr0 & Hc' & Ha' & _ & b & Hstep). cbn [fst snd] in Hr0, Hc', Ha', Hstep. subst r. change (0 =? -1) with false. cbv iota.
  pose proof (bs_far _ _ _ _ _ Hstep) as Efar. change PART_LEN with 256 in *.
  assert (Hshort : zlen (items (abs (farFrameBuf c'))) < PART_LEN) by (rewrite Efar, length_drop; unfold PART_LEN; lia).
  rewrite block_loop_done by done. apply result_ret. cbn [fst snd]. split; [done|]. split; [done|]. right. exists b.
  split; [exact (cut_block _ _ _ _ _ _ _ _ _ _ _ Hcut Hready Hc' (Ha' Ha) Hstep)|].
  split; [done|]. split; [apply Hstep|apply (bs_out _ _ _ _ _ Hstep)].
Qed.

(** The output frame of a queue that has one. *)
Lemma deal_frame O rest f : 80 <= zlen (items f) -> O ++ items f = rest ->
  (O ++ frame_of f) ++ items (frame_taken f) = rest /\ zlen (items (frame_taken f)) = zlen (items f) - 80.
Proof.
  intros Hl <-. unfold frame_of, frame_taken. destruct (Z.ltb_spec (zlen (items f)) 80); [lia|].
  cbn [fifo_skip items]. change (Z.to_nat 80) with 80%nat. rewrite <- app_assoc, take_drop, length_drop. split; [done|lia].
Qed.

Lemma silence_app a b : 0 <= a -> 0 <= b -> silence a ++ silence b = silence (a + b).
Proof. intros. unfold silence, zreplicate. rewrite <- replicate_add. f_equal. lia. Qed.

(** The output frame of a queue that has had none: silence. *)
Lemma stuff_frame : frame_of (mkFifo [] (silence 336)) = silence 80 /\
  frame_taken (mkFifo [] (silence 336)) = mkFifo [] (silence 336).
Proof. split; vm_compute; reflexivity. Qed.

(** Setting the output queue. *)
Lemma cut_out pb hc c0 n F N C bs c b : cut pb hc c0 n F N C bs c -> frame_buf_wf b ->
  cut pb hc c0 n F N C bs (c <| outFrameBuf := b |>).
Proof.
  intros [Hc Ha Hch HF HN HC Hfl Hcnt Hnl Hcl] Hb. pose proof (cw_rings _ Hc) as [R1 R2 R3 _].
  constructor; try done; [exact (set_rings c _ _ _ b Hc R1 R2 R3 Hb)|by destruct Ha|].
  eapply chain_inner; [exact Hch|reflexivity].
Qed.

Lemma frame_step pb `{!BlockContract pb} hc c0 n F N C bs O c farend noisy clean out :
  stream_inv pb hc c0 n F N C bs O c ->
  samples_ok FRAME_LEN farend -> samples_ok FRAME_LEN noisy -> frame_clean_ok clean -> bool_decide (is_Some clean) = hc ->
  zlen out = FRAME_LEN ->
  ProcessFrame pb c farend noisy clean out ⤳ fun r => r.1.1 = 0 /\ samples_ok FRAME_LEN r.2 /\
    exists bs', stream_inv pb hc c0 (n + 1) (F ++ farend) (N ++ noisy) (C ++ default [] clean) bs' (O ++ r.2) r.1.2.
Proof.
  intros [Hn HOl Hcut Hs Hd] Hf Hno Hcl Hhc Ho. unfold ProcessFrame.
  eapply result_bind; [exact (cut_frame _ _ _ _ _ _ _ _ _ _ _ _ Hcut Hs Hf Hno Hcl Hhc)|].
  intros c1 (Hcut1 & Eo & El). cbv beta. rewrite Hhc.
  pose proof (ct_count _ _ _ _ _ _ _ _ _ Hcut1) as Hcnt. pose proof (ct_count _ _ _ _ _ _ _ _ _ Hcut) as Hcnt0.
  change PART_LEN with 256 in *.
  eapply result_bind; [apply (block_loop_ok pb 2 hc c0 (n + 1) _ _ _ bs c1 ltac:(lia) Hcut1)|].
  { rewrite Eo. change PART_LEN with 256. change FRAME_LEN with 80. intros Hge.
    destruct Hd as [(-> & Hn3 & -> & _)|(_ & _ & ->)]; cbn [items length] in *; lia. }
  intros [r c2] (Hr0 & Hs2 & Hcases). cbn [fst snd] in Hr0, Hs2, Hcases. subst r. change (0 =? -1) with false. cbv iota.
  assert (Hwf2 : core_wf c2) by (destruct Hcases as [[-> []]|(b & [] & _)]; done).
  eapply result_bind; [exact (output_frame_ok _ out (ri_out _ (cw_rings _ Hwf2)) Ho)|].
  intros [out' b'] (Eout & Hsam & Hb' & Eab). cbn [fst snd] in Eout, Hsam, Hb', Eab. apply result_ret. cbn [fst snd].
  split; [done|]. split; [done|]. subst out'.
  assert (HOl' : zlen (O ++ frame_of (abs (outFrameBuf c2))) = 80 * (n + 1))
    by (rewrite length_app; destruct Hsam as [Hsl _]; unfold FRAME_LEN in Hsl; lia).
  change PART_LEN with 256 in *. destruct Hcases as [[-> _]|(b & Hcut2 & Hge & Eq & Hbl)].
  - exists bs. constructor; [lia|exact HOl'|by apply cut_out|exact Hs2|]. unfold dealt. cbn [outFrameBuf farFrameBuf].
    rewrite Eo in *. destruct Hd as [(-> & Hn3 & Eabs & ->)|(Hn3 & Eq & Hl)].
    + left. cbn [length] in *. destruct stuff_frame as [S1 S2]. rewrite Eabs in Eab. rewrite Eabs, S1.
      split; [done|]. split; [lia|]. split; [exact (eq_trans Eab S2)|]. rewrite silence_app by lia. f_equal. lia.
    + right. destruct (deal_frame O _ (abs (outFrameBuf c)) ltac:(lia) Eq) as [D1 D2]. rewrite <- Eab in D1, D2.
      split; [lia|]. split; [exact D1|]. refine (eq_trans D2 _). change (farFrameBuf (c1 <| outFrameBuf := b' |>)) with (farFrameBuf c1). lia.
  - exists (bs ++ [b]). constructor; [lia|exact HOl'|by apply cut_out|exact Hs2|]. right.
    pose proof (ct_count _ _ _ _ _ _ _ _ _ Hcut2) as Hcnt2. rewrite length_app in Hcnt2. cbn [length] in Hcnt2.
    assert (HB : O ++ items (abs (outFrameBuf c2)) = silence 240 ++ concat (b_out <$> bs ++ [b]) /\
      80 <= zlen (items (abs (outFrameBuf c2))) /\ 3 <= n /\
      zlen (items (abs (outFrameBuf c2))) - 80 = 240 - zlen (items (abs (farFrameBuf c2)))).
    { rewrite Eq, Eo, fmap_app, concat_app, length_app. cbn [fmap list_fmap concat]. rewrite app_nil_r.
      destruct Hd as [(-> & Hn3 & -> & ->)|(Hn3 & E2 & Hl)]; cbn [items length app fmap list_fmap concat] in *.
      - assert (n = 3) as -> by lia. split; [done|]. lia.
      - rewrite !app_assoc, E2. split; [done|]. lia. }
    destruct HB as (HB & Hl80 & Hn3 & Hl). destruct (deal_frame O _ _ Hl80 HB) as [D1 D2]. rewrite <- Eab in D1, D2.
    split; [lia|]. split; [exact D1|]. refine (eq_trans D2 _). exact Hl.
Qed.

(** ** Runs *)

Record Frame := mkFrame { fr_far : list Z; fr_noisy : list Z; fr_clean : option (list Z) }.

Definition FrameFunction : Type :=
  AecmCore -> list Z -> list Z -> option (list Z) -> list Z -> option (Z * AecmCore * list Z).

(** The frame function called on the frames in turn; its output, provided that
    it always returns [0]. *)
Fixpoint run_frames (pf : FrameFunction) (c : AecmCore) (fs : list Frame) : option (list Z * AecmCore) :=
  match fs with
  | [] => Some ([], c)
  | f :: fs =>
      let* (r, c, out) := pf c (fr_far f) (fr_noisy f) (fr_clean f) (zreplicate FRAME_LEN 0) in
      let* _ := c_assert (r =? 0) in
      let* (outs, c) := run_frames pf c fs in
      Some (out ++ outs, c)
  end.

(** A frame of 80 samples, with a clean near end or without. *)
Definition frame_fits (hc : bool) (f : Frame) : Prop :=
  samples_ok FRAME_LEN (fr_far f) /\ samples_ok FRAME_LEN (fr_noisy f) /\ frame_clean_ok (fr_clean f) /\
  bool_decide (is_Some (fr_clean f)) = hc.

Lemma run_frames_ok pb `{!BlockContract pb} hc c0 fs : forall n F N C bs O c,
  stream_inv pb hc c0 n F N C bs O c -> Forall (frame_fits hc) fs ->
  run_frames (ProcessFrame pb) c fs ⤳ fun r => exists bs',
    stream_inv pb hc c0 (n + zlen fs) (F ++ concat (fr_far <$> fs)) (N ++ concat (fr_noisy <$> fs))
      (C ++ concat (default [] ∘ fr_clean <$> fs)) bs' (O ++ r.1) r.2.
Proof.
  induction fs as [|f fs IH]; intros n F N C bs O c Hs Hfs; cbn [run_frames fmap list_fmap concat].
  { apply result_ret. cbn [fst snd length]. rewrite Z.add_0_r, !app_nil_r. by exists bs. }
  apply Forall_cons_1 in Hfs as [(Hf & Hn & Hcl & Hhc) Hfs].
  eapply result_bind; [exact (frame_step pb hc c0 n F N C bs O c _ _ _ (zreplicate FRAME_LEN 0) Hs Hf Hn Hcl Hhc eq_refl)|].
  intros [[r c1] out] (Hr & _ & bs1 & Hs1). cbn [fst snd] in Hr, Hs1. subst r. cbv iota.
  eapply result_bind; [by apply (result_assert _ (fun _ => True))|]. intros _ _.
  eapply result_bind; [exact (IH _ _ _ _ _ _ _ Hs1 Hfs)|]. intros [outs c2] (bs2 & Hs2). apply result_ret.
  cbn [fst snd length] in *. exists bs2. rewrite !app_assoc.
  replace (n + Z.of_nat (S (length fs))) with (n + 1 + zlen fs) by lia. exact Hs2.
Qed.

(** ** The initial state *)

Record fresh (c : AecmCore) : Prop := mkFresh {
  fc_wf : core_wf c;
  fc_aligned : aligned c;
  fc_queues : Forall (fun b => abs b = mkFifo [] (silence 336))
    [farFrameBuf c; nearNoisyFrameBuf c; nearCleanFrameBuf c; outFrameBuf c] }.

Lemma init_fresh c sf : created c -> sf = 8000 \/ sf = 16000 ->
  exists c0, WebRtcAecm_InitCore c sf = Some (0, c0) /\ fresh c0 /\ mult c0 = sf / 8000 /\ enablefloatpro c0 = 1 /\ gain_params c0.
Proof.
  intros Hc Hsf. destruct (InitCore_ok c sf Hc Hsf) as (c0 & E & Hw & Hg & _ & _ & Hp & Hm & He & HA).
  exists c0. split; [exact E|]. split_and!; [|exact Hm|exact He|exact Hg]. unfold positions in Hp. injection Hp as P1 P2 P3 P4.
  constructor; [exact Hw|constructor; congruence|exact HA].
Qed.

Lemma fresh_stream pb hc c : fresh c -> stream_inv pb hc c 0 [] [] [] [] [] c.
Proof.
  intros [Hw Ha HA]. apply Forall_cons_1 in HA as [E1 HA]. apply Forall_cons_1 in HA as [E2 HA].
  apply Forall_cons_1 in HA as [E3 HA]. apply Forall_cons_1 in HA as [E4 _].
  constructor; [lia|done|constructor; try done| |left; by split_and!].
  - by apply chain_nil.
  - by rewrite E1.
  - by rewrite E2.
  - unfold clean_items. rewrite E3. by destruct hc.
  - by rewrite E1.
  - by rewrite E1, E2.
  - by rewrite E1, E3.
  - by rewrite E1.
Qed.

(** What [n] frames have put out. *)
Lemma stream_output pb hc c0 n F N C bs O c : stream_inv pb hc c0 n F N C bs O c ->
  O = take (Z.to_nat (80 * n)) (silence 240 ++ concat (b_out <$> bs)) /\ zlen bs = 80 * n / 256.
Proof.
  intros [Hn Hl [] Hs Hd]. change PART_LEN with 256 in Hs. split; [|dlia].
  destruct Hd as [(-> & Hn3 & _ & ->)|(Hn3 & <- & _)].
  - cbn [fmap list_fmap concat]. rewrite app_nil_r. unfold silence, zreplicate. rewrite take_replicate. f_equal. lia.
  - rewrite take_app_le by lia. rewrite firstn_all2 by lia. done.
Qed.

(** ** The queues between frames

    What holds of the queues between calls, whatever happened to the rest of the
    state: the near-end queues hold as much as the far-end queue, and the output
    queue makes up for it to 240 samples, unless no block has been complete yet. *)

Record queue_inv (hc : bool) (c : AecmCore) : Prop := mkQueue {
  qi_wf : core_wf c;
  qi_aligned : aligned c;
  qi_far : zlen (items (abs (farFrameBuf c))) <= 240 /\ zlen (items (abs (farFrameBuf c))) mod 16 = 0;
  qi_noisy : zlen (items (abs (nearNoisyFrameBuf c))) = zlen (items (abs (farFrameBuf c)));
  qi_clean : hc = true -> zlen (items (abs (nearCleanFrameBuf c))) = zlen (items (abs (farFrameBuf c)));
  qi_out : (zlen (items (abs (outFrameBuf c))) = 0 /\ zlen (items (abs (farFrameBuf c))) mod 80 = 0) \/
           zlen (items (abs (outFrameBuf c))) = 240 - zlen (items (abs (farFrameBuf c))) }.

Lemma fresh_queue hc c : fresh c -> queue_inv hc c.
Proof.
  intros Hf. destruct (fresh_stream process_block hc c Hf) as [_ _ [] _ _]. pose proof Hf as [Hw Ha HA].
  apply Forall_cons_1 in HA as [E1 HA]. apply Forall_cons_1 in HA as [_ HA].
  apply Forall_cons_1 in HA as [_ HA]. apply Forall_cons_1 in HA as [E4 _].
  constructor; try done; rewrite ?E1, ?E4; [done|by left].
Qed.

(** The queues and the delay line as functions of [queue_inv]. *)
Lemma queue_inv_ext hc c d : queue_inv hc c -> core_wf d -> outer d = outer c -> queue_inv hc d.
Proof.
  intros [_ [] ? ? ? ?] Hd Ho. apply outer_fields in Ho as (O1 & O2 & O3 & O4 & O5 & O6 & O7 & O8 & _).
  constructor; rewrite ?O1, ?O2, ?O3, ?O4; try done. constructor; congruence.
Qed.

Lemma frame_taken_len f : zlen (items (frame_taken f)) = Z.max 0 (zlen (items f) - 80).
Proof.
  unfold frame_taken. destruct (Z.ltb_spec (zlen (items f)) 80); cbn [fifo_skip fifo_unread items];
    change (Z.to_nat 80) with 80%nat; rewrite length_drop, ?length_app, ?length_drop; lia.
Qed.

(** The loop on queues that held [q] samples before the frame. *)
Lemma loop_queue_ok pb `{!BlockContract pb} hc c q : core_wf c -> aligned c -> q <= 240 -> q mod 16 = 0 ->
  zlen (items (abs (farFrameBuf c))) = q + 80 -> zlen (items (abs (nearNoisyFrameBuf c))) = q + 80 ->
  (hc = true -> zlen (items (abs (nearCleanFrameBuf c))) = q + 80) ->
  (zlen (items (abs (outFrameBuf c))) = 0 /\ q mod 80 = 0) \/ zlen (items (abs (outFrameBuf c))) = 240 - q ->
  block_loop pb 2 hc c ⤳ fun r => r.1 = 0 /\ core_wf r.2 /\ aligned r.2 /\ mult r.2 = mult c /\
    exists n, zlen (items (abs (farFrameBuf r.2))) = n /\ n <= 240 /\ n mod 16 = 0 /\
      zlen (items (abs (nearNoisyFrameBuf r.2))) = n /\ (hc = true -> zlen (items (abs (nearCleanFrameBuf r.2))) = n) /\
      ((zlen (items (abs (outFrameBuf r.2))) = 0 /\ n mod 80 = 0) \/ zlen (items (abs (outFrameBuf r.2))) = 320 - n).
Proof.
  intros Hc Ha Hf1 Hf2 L1 L2 L3 Hqo.
  destruct (Z.lt_ge_cases (q + 80) PART_LEN) as [Hlt|Hge]; change PART_LEN with 256 in *.
  - rewrite block_loop_done by (done || (unfold PART_LEN; lia)). apply result_ret. cbn [fst snd]. split; [done|].
    split; [done|]. split; [done|]. split; [done|]. exists (q + 80). split_and!; [done|dlia|dlia|done|done|].
    destruct Hqo as [[H0 Hm]|H0]; [left; split; [done|dlia]|right; lia].
  - destruct (one_block_ok pb hc c Hc) as ([r c2] & E & Hr & Hc2 & Ha2 & Hm2 & b & Hstep).
    { constructor; change PART_LEN with 256; change FRAME_LEN with 80; [lia|lia|intros Hh; specialize (L3 Hh); lia|]. dlia. }
    cbn [fst snd] in Hr, Hc2, Ha2, Hm2, Hstep. subst r. destruct Hstep as [_ _ _ [Hbl _] _ _ _ B8 B9 B10 B11].
    pose proof (cw_rings _ Hc) as [R1 _ _ _]. pose proof (frame_buf_lengths _ R1) as (Ea & _ & _).
    change PART_LEN with 256 in *.
    assert (L4 : zlen (items (abs (farFrameBuf c2))) = q - 176) by (rewrite B8, length_drop; lia).
    assert (Hb : block_loop pb 2 hc c = Some (0, c2)).
    { cbn [block_loop]. rewrite available_read_avail by apply R1. change PART_LEN with 256.
      destruct (Z.geb_spec (avail (farFrameBuf c)) 256) as [_|Hx]; [|lia]. rewrite E. cbn [mbind option_bind].
      change (0 =? -1) with false. cbv iota. apply (block_loop_done pb 1 hc c2 Hc2). unfold PART_LEN. lia. }
    rewrite Hb. apply result_ret. cbn [fst snd]. split; [done|]. split; [done|]. split; [by apply Ha2|]. split; [exact Hm2|].
    exists (q - 176). split_and!; [done|lia|dlia|rewrite B9, length_drop; lia| |].
    + intros ->. unfold clean_items in B10. rewrite B10, length_drop. specialize (L3 eq_refl). lia.
    + right. rewrite B11, length_app. destruct Hqo as [[H0 Hm]|H0]; dlia.
Qed.

(** The part of a frame before the output. *)
Lemma frame_front_ok pb `{!BlockContract pb} hc c farend noisy clean : queue_inv hc c ->
  samples_ok FRAME_LEN farend -> samples_ok FRAME_LEN noisy -> frame_clean_ok clean -> bool_decide (is_Some clean) = hc ->
  (let* aecm := buffer_frame c farend noisy clean in block_loop pb 2 (bool_decide (is_Some clean)) aecm) ⤳ fun r =>
    r.1 = 0 /\ core_wf r.2 /\ aligned r.2 /\ mult r.2 = mult c /\
    exists n, zlen (items (abs (farFrameBuf r.2))) = n /\ n <= 240 /\ n mod 16 = 0 /\
      zlen (items (abs (nearNoisyFrameBuf r.2))) = n /\ (hc = true -> zlen (items (abs (nearCleanFrameBuf r.2))) = n) /\
      ((zlen (items (abs (outFrameBuf r.2))) = 0 /\ n mod 80 = 0) \/ zlen (items (abs (outFrameBuf r.2))) = 320 - n).
Proof.
  intros [Hc Ha [Hf1 Hf2] Hqn Hqc Hqo] Hf Hn Hcl Hhc.
  eapply result_bind; [apply (buffer_frame_ok c farend noisy clean Hc Ha Hf Hn Hcl)|].
  { lia. } { lia. } { rewrite Hhc. unfold clean_items. destruct hc; [|cbn; lia]. rewrite (Hqc eq_refl). lia. }
  rewrite Hhc. intros c1 (Hc1 & Ha1 & Ei & E1 & E2 & E3 & Eo). cbv beta. destruct Hf as [Hf _], Hn as [Hn _].
  set (q := zlen (items (abs (farFrameBuf c)))) in *. change FRAME_LEN with 80 in *.
  assert (L1 : zlen (items (abs (farFrameBuf c1))) = q + 80) by (rewrite E1, length_app; subst q; lia).
  assert (L2 : zlen (items (abs (nearNoisyFrameBuf c1))) = q + 80) by (rewrite E2, length_app; subst q; lia).
  assert (L3 : hc = true -> zlen (items (abs (nearCleanFrameBuf c1))) = q + 80).
  { intros ->. unfold clean_items in E3. rewrite E3, length_app, Nat2Z.inj_add, (Hqc eq_refl).
    destruct clean as [l|]; [|done]. destruct Hcl as [Hl _]. cbn [default from_option id]. unfold FRAME_LEN in Hl. lia. }
  rewrite <- Eo in Hqo. rewrite <- (inner_mult c c1 Ei).
  exact (loop_queue_ok pb hc c1 q Hc1 Ha1 Hf1 Hf2 L1 L2 L3 Hqo).
Qed.

(** A frame in terms of its front. *)
Lemma ProcessFrame_front pb c farend noisy clean out r c2 :
  (let* aecm := buffer_frame c farend noisy clean in block_loop pb 2 (bool_decide (is_Some clean)) aecm) = Some (r, c2) ->
  ProcessFrame pb c farend noisy clean out =
  if r =? -1 then Some (-1, c2, out)
  else let* (out, b) := output_frame (outFrameBuf c2) out in Some (0, c2 <| outFrameBuf := b |>, out).
Proof.
  unfold ProcessFrame. destruct (buffer_frame c farend noisy clean) as [c1|]; [|done]. cbn [mbind option_bind].
  intros ->. reflexivity.
Qed.

Lemma frame_queue_ok pb `{!BlockContract pb} hc c farend noisy clean out : queue_inv hc c ->
  samples_ok FRAME_LEN farend -> samples_ok FRAME_LEN noisy -> frame_clean_ok clean -> bool_decide (is_Some clean) = hc ->
  zlen out = FRAME_LEN ->
  ProcessFrame pb c farend noisy clean out ⤳ fun r => r.1.1 = 0 /\ samples_ok FRAME_LEN r.2 /\ queue_inv hc r.1.2 /\
    mult r.1.2 = mult c.
Proof.
  intros Hq Hf Hn Hcl Hhc Ho.
  destruct (frame_front_ok pb hc c farend noisy clean Hq Hf Hn Hcl Hhc) as ([r c2] & E & Hr & Hc2 & Ha2 & Hm2 & n & N1 & N2 & N3 & N4 & N5 & N6).
  rewrite (ProcessFrame_front _ _ _ _ _ out _ _ E). cbn [fst snd] in Hr, Hc2, Ha2, Hm2, N1, N4, N5, N6. subst r.
  change (0 =? -1) with false. cbv iota.
  eapply result_bind; [exact (output_frame_ok _ out (ri_out _ (cw_rings _ Hc2)) Ho)|].
  intros [out' b'] (_ & Hsam & Hb' & Eab). cbn [fst snd] in Hsam, Hb', Eab. apply result_ret. cbn [fst snd].
  split; [done|]. split; [done|]. split; [|exact Hm2].
  assert (Lo : zlen (items (abs b')) = Z.max 0 (zlen (items (abs (outFrameBuf c2))) - 80))
    by (rewrite Eab; apply frame_taken_len).
  pose proof (cw_rings _ Hc2) as [S1 S2 S3 _].
  constructor; change (farFrameBuf (c2 <| outFrameBuf := b' |>)) with (farFrameBuf c2).
  - exact (set_rings c2 _ _ _ b' Hc2 S1 S2 S3 Hb').
  - by destruct Ha2.
  - rewrite N1. done.
  - rewrite N1. exact N4.
  - rewrite N1. exact N5.
  - change (outFrameBuf (c2 <| outFrameBuf := b' |>)) with b'. rewrite N1, Lo. destruct N6 as [[H0 Hm]|H0]; [left; by rewrite H0|right; lia].
Qed.

(** A frame does not depend on what its output memory held. *)
Lemma frame_indep pb `{!BlockContract pb} hc c farend noisy clean out1 out2 : queue_inv hc c ->
  samples_ok FRAME_LEN farend -> samples_ok FRAME_LEN noisy -> frame_clean_ok clean -> bool_decide (is_Some clean) = hc ->
  zlen out1 = FRAME_LEN -> zlen out2 = FRAME_LEN ->
  ProcessFrame pb c farend noisy clean out1 = ProcessFrame pb c farend noisy clean out2.
Proof.
  intros Hq Hf Hn Hcl Hhc H1 H2.
  destruct (frame_front_ok pb hc c farend noisy clean Hq Hf Hn Hcl Hhc) as ([r c2] & E & Hr & Hc2 & _).
  rewrite !(ProcessFrame_front _ _ _ _ _ _ _ _ E). cbn [fst snd] in Hr, Hc2. subst r. change (0 =? -1) with false. cbv iota.
  by rewrite (output_frame_indep _ out1 out2 (ri_out _ (cw_rings _ Hc2)) H1 H2).
Qed.

(** ** Mixing frames with and without a clean near end *)

(** A block function for experiments with the queues: the output is the noisy
    near end. *)
Definition copy_block : BlockFunction := fun c far noisy clean out => Some (0, c, noisy).

#[export] Instance copy_block_contract : BlockContract copy_block.
Proof. intros c far noisy clean out Hc Hf Hn Hcl. apply result_ret. split; [done|]. split; [by split|done]. Qed.

Definition zero_frame (clean : bool) : Frame :=
  mkFrame (silence FRAME_LEN) (silence FRAME_LEN) (if clean then Some (silence FRAME_LEN) else None).

Lemma zero_frame_fits b : frame_fits b (zero_frame b).
Proof. assert (Hz : samples_ok FRAME_LEN (silence FRAME_LEN)) by (by apply samples_zero). by destruct b. Qed.

(** Frames 4, 7 and 10, which complete a block, have a clean near end. *)
Definition mixed_frames : list Frame :=
  zero_frame <$> [false; false; false; true; false; false; true; false; false; true].

(** The queue of the clean near end is filled only by the frames that have one,
    but read whenever a block is complete in a frame that has one: it falls
    behind, and the third such block of this run reaches outside the queue's
    memory. *)
Lemma mixed_clean_leaves_memory :
  option_map fst (run_frames (ProcessFrame copy_block) sample_core (take 9 mixed_frames)) = Some (silence 720) /\
  run_frames (ProcessFrame copy_block) sample_core mixed_frames = None.
Proof. split; vm_compute; reflexivity. Qed.

(** ** Properties *)

(** C1. A run of frames is a sequential run of blocks, delayed by 240 samples.
    From a core initialised at 8000 or 16000 Hz, and any number of frames of 80
    16-bit samples that all have, or all lack, a clean near end:
    [WebRtcAecm_ProcessFrame] returns [0] each time; the far, noisy and clean
    signals are cut, without loss and in order, into consecutive blocks of 256
    samples plus a rest; the block function has run on exactly these blocks, each
    time from the state the previous block left; there are [80 n / 256] of them;
    and the concatenated output frames are 240 samples of silence followed by the
    blocks' outputs. *)
Theorem frames_run_blocks c sf hc fs : created c -> sf = 8000 \/ sf = 16000 -> Forall (frame_fits hc) fs ->
  exists c0 outs c' bs restF restN restC,
    WebRtcAecm_InitCore c sf = Some (0, c0) /\
    run_frames WebRtcAecm_ProcessFrame c0 fs = Some (outs, c') /\ core_wf c' /\
    chain process_block c0 bs c' /\ Forall (block_sized hc) bs /\ zlen bs = 80 * zlen fs / 256 /\
    concat (fr_far <$> fs) = concat (b_far <$> bs) ++ restF /\
    concat (fr_noisy <$> fs) = concat (b_noisy <$> bs) ++ restN /\
    concat (default [] ∘ fr_clean <$> fs) = concat (default [] ∘ b_clean <$> bs) ++ restC /\
    outs = take (80 * length fs) (silence 240 ++ concat (b_out <$> bs)).
Proof.
  intros Hc Hsf Hfs. destruct (init_fresh c sf Hc Hsf) as (c0 & E & Hfresh & _).
  destruct (run_frames_ok process_block hc c0 fs _ _ _ _ _ _ _ (fresh_stream process_block hc c0 Hfresh) Hfs)
    as ([outs c'] & Er & bs & Hs). cbn [fst snd app] in Hs.
  destruct (stream_output _ _ _ _ _ _ _ _ _ _ Hs) as [Ho Hb]. rewrite Z.add_0_l in Ho, Hb. destruct Hs as [_ _ [] _ _].
  exists c0, outs, c', bs. do 3 eexists. split_and!; try done.
  rewrite Ho. f_equal. lia.
Qed.

Lemma frames_run_blocks_witness :
  exists c0 outs c' bs restF restN restC,
    WebRtcAecm_InitCore blank_core 16000 = Some (0, c0) /\
    run_frames WebRtcAecm_ProcessFrame c0 (replicate 7 (zero_frame true)) = Some (outs, c') /\ core_wf c' /\
    chain process_block c0 bs c' /\ Forall (block_sized true) bs /\ zlen bs = 2 /\
    concat (fr_far <$> replicate 7 (zero_frame true)) = concat (b_far <$> bs) ++ restF /\
    concat (fr_noisy <$> replicate 7 (zero_frame true)) = concat (b_noisy <$> bs) ++ restN /\
    concat (default [] ∘ fr_clean <$> replicate 7 (zero_frame true)) = concat (default [] ∘ b_clean <$> bs) ++ restC /\
    outs = take 560 (silence 240 ++ concat (b_out <$> bs)).
Proof.
  exact (frames_run_blocks blank_core 16000 true (replicate 7 (zero_frame true)) blank_created (or_intror eq_refl)
    (Forall_replicate _ _ _ (zero_frame_fits true))).
Defined.

(** C33. Termination of the loop over blocks: when the near-end queues hold as
    much as the far-end queue (and the output queue has room for a block), the
    loop ends after at most one turn; every bound on the number of turns from one
    on gives the same result, a well-formed state with less than a block queued. *)
Theorem block_loop_terminates hc c : core_wf c ->
  zlen (items (abs (nearNoisyFrameBuf c))) = zlen (items (abs (farFrameBuf c))) ->
  (hc = true -> zlen (items (abs (nearCleanFrameBuf c))) = zlen (items (abs (farFrameBuf c)))) ->
  zlen (items (abs (outFrameBuf c))) <= FRAME_LEN ->
  exists c', core_wf c' /\ zlen (items (abs (farFrameBuf c'))) < PART_LEN /\
    forall fuel, (1 <= fuel)%nat -> block_loop process_block fuel hc c = Some (0, c').
Proof.
  intros Hc Hn Hcl Ho. destruct (Z.lt_ge_cases (zlen (items (abs (farFrameBuf c)))) PART_LEN) as [Hlt|Hge].
  { exists c. split_and!; [done..|]. intros fuel _. by apply block_loop_done. }
  destruct (block_loop_turn process_block hc c Hc) as (c' & Hc' & Hs' & E);
    [constructor; [lia|lia|intros Hh; specialize (Hcl Hh); lia|done]|].
  exists c'. split_and!; [done..|]. intros [|fuel] Hfuel; [lia|]. rewrite E. by apply block_loop_done.
Qed.

(** A core with a block in each input queue. *)
Definition full_ring : RingBuffer :=
  default (farFrameBuf sample_core) (write_samples (farFrameBuf sample_core) (silence 300) 300).
Definition full_core : AecmCore :=
  sample_core <| farFrameBuf := full_ring |> <| nearNoisyFrameBuf := full_ring |> <| nearCleanFrameBuf := full_ring |>
    <| outFrameBuf := farFrameBuf sample_core |>.

Lemma full_core_wf : core_wf full_core.
Proof.
  pose proof (cw_rings _ sample_core_wf) as [R1 _ _ _].
  destruct (write_samples_ok _ (silence 300) 300 R1 (samples_zero 300 ltac:(lia))) as (b & E & Hb & _); [vm_compute; discriminate|].
  assert (Hr : frame_buf_wf full_ring) by (unfold full_ring; by rewrite E).
  exact (set_rings sample_core _ _ _ _ sample_core_wf Hr Hr Hr R1).
Qed.

Lemma block_loop_terminates_witness :
  exists c', core_wf c' /\ zlen (items (abs (farFrameBuf c'))) < PART_LEN /\
    forall fuel, (1 <= fuel)%nat -> block_loop process_block fuel true full_core = Some (0, c').
Proof.
  apply (block_loop_terminates true full_core full_core_wf); [reflexivity|intros _; reflexivity|].
  vm_compute. discriminate.
Defined.

End AecmFrameSpec.
