(* ===== verification/EchoControlMobile.v ===== *)
(** The interface of the echo canceller, translated from
    src/webrtc/modules/audio_processing/aecm/echo_control_mobile.c.

    [Module EchoMobile] has one definition per function of the file: creation and
    initialisation, buffering of the far end with its delay compensation,
    [WebRtcAecm_Process] with its start-up and running modes, the configuration
    and the echo path.  A handle is an [option], [None] for NULL; a function
    returns its return value and the state behind the handle, and [None] when its
    behaviour is undefined.  The arrays of samples and the output, which may be
    one of the input arrays, are in a record [Signals]. *)

From S2P Require Import Prelude Float32 RingBuffer SplInl AecmCore AecmFrame.

Module EchoMobile.
Import Ring Aecm AecmFrame.

(** ** Constants *)

Definition AECM_UNSPECIFIED_ERROR : Z := 12000.
Definition AECM_UNINITIALIZED_ERROR : Z := 12002.
Definition AECM_NULL_POINTER_ERROR : Z := 12003.
Definition AECM_BAD_PARAMETER_ERROR : Z := 12004.
Definition AECM_BAD_PARAMETER_WARNING : Z := 12100.

Definition BUF_SIZE_FRAMES : Z := 50.
Definition kBufSizeSamp : Z := BUF_SIZE_FRAMES * FRAME_LEN.
Definition kSampMsNb : Z := 8.
Definition kInitCheck : Z := 42.

(** ** State *)

(** [farendOld] is the array [short[2][FRAME_LEN]], row by row. *)
Record AecMobile := mkAecMobile {
  sampFreq : Z; bufSizeStart : Z; ecm_knownDelay : Z;
  farendOld : list Z; initFlag : Z;
  counter : Z; sum : Z; firstVal : Z; checkBufSizeCtr : Z;
  msInSndCardBuf : Z; filtDelay : Z; timeForDelayChange : Z; ECstartup : Z; checkBuffSize : Z; delayChange : Z;
  lastDelayDiff : Z; echoMode : Z;
  farendBuf : RingBuffer; aecmCore : AecmCore }.

#[export] Instance rebuild_AecMobile : Rebuild AecMobile :=
  fun r => mkAecMobile (sampFreq r) (bufSizeStart r) (ecm_knownDelay r) (farendOld r) (initFlag r) (counter r) (sum r)
    (firstVal r) (checkBufSizeCtr r) (msInSndCardBuf r) (filtDelay r) (timeForDelayChange r) (ECstartup r)
    (checkBuffSize r) (delayChange r) (lastDelayDiff r) (echoMode r) (farendBuf r) (aecmCore r).

Record AecmConfig := mkAecmConfig { cfg_cngMode : Z; cfg_echoMode : Z }.

(** ** Creation *)

(** The outcomes of the allocations: the structure, with the contents of the
    fresh memory, those of the core, and the far-end buffer. *)
Record MobileAllocs := mkMobileAllocs {
  ma_mobile : option AecMobile; ma_core : CoreAllocs; ma_farend : bool * option (list Z) }.

(** [Some None] is a NULL result.  The result of the first [malloc] is used
    unchecked, and a failure to create the core releases a far-end buffer that
    has not been set; both are undefined. *)
Definition WebRtcAecm_Create (al : MobileAllocs) : option (option AecMobile) :=
  let* aecm := ma_mobile al in
  let* core := WebRtcAecm_CreateCore (ma_core al) in
  match core with
  | None => None
  | Some core =>
      let* buf := WebRtc_CreateBuffer (ma_farend al).1 (ma_farend al).2 kBufSizeSamp 2 in
      match buf with
      | None => Some None
      | Some buf => Some (Some (aecm <| aecmCore := core |> <| farendBuf := buf |> <| initFlag := 0 |>))
      end
  end.

(** ** Configuration *)

(** The suppression gain and its parameters, scaled by the shift [f]. *)
Definition set_gains (f : Z -> Z) (core : AecmCore) : AecmCore :=
  core <| supGain := i16 (f SUPGAIN_DEFAULT) |> <| supGainOld := i16 (f SUPGAIN_DEFAULT) |>
       <| supGainErrParamA := i16 (f SUPGAIN_ERROR_PARAM_A) |> <| supGainErrParamD := i16 (f SUPGAIN_ERROR_PARAM_D) |>
       <| supGainErrParamDiffAB := i16 (f SUPGAIN_ERROR_PARAM_A - f SUPGAIN_ERROR_PARAM_B) |>
       <| supGainErrParamDiffBD := i16 (f SUPGAIN_ERROR_PARAM_B - f SUPGAIN_ERROR_PARAM_D) |>.

Definition WebRtcAecm_set_config (aecmInst : option AecMobile) (config : AecmConfig) : Z * option AecMobile :=
  match aecmInst with
  | None => (-1, None)
  | Some aecm =>
      if negb (initFlag aecm =? kInitCheck) then (AECM_UNINITIALIZED_ERROR, Some aecm)
      else if negb (cfg_cngMode config =? AecmFalse) && negb (cfg_cngMode config =? AecmTrue)
      then (AECM_BAD_PARAMETER_ERROR, Some aecm)
      else
        let aecm := aecm <| aecmCore := (aecmCore aecm) <| cngMode := cfg_cngMode config |> |> in
        if (cfg_echoMode config <? 0) || (cfg_echoMode config >? 4) then (AECM_BAD_PARAMETER_ERROR, Some aecm)
        else
          let aecm := aecm <| echoMode := cfg_echoMode config |> in
          let set f := aecm <| aecmCore := set_gains f (aecmCore aecm) |> in
          (0, Some (if echoMode aecm =? 0 then set (fun x => Z.shiftr x 3)
                    else if echoMode aecm =? 1 then set (fun x => Z.shiftr x 2)
                    else if echoMode aecm =? 2 then set (fun x => Z.shiftr x 1)
                    else if echoMode aecm =? 3 then set (fun x => x)
                    else if echoMode aecm =? 4 then set (fun x => Z.shiftl x 1)
                    else aecm))
  end.

(** ** Initialisation *)

Definition WebRtcAecm_Init (aecmInst : option AecMobile) (freq : Z) : option (Z * option AecMobile) :=
  match aecmInst with
  | None => Some (-1, None)
  | Some aecm =>
      if negb (freq =? 8000) && negb (freq =? 16000) then Some (AECM_BAD_PARAMETER_ERROR, Some aecm)
      else
        let aecm := aecm <| sampFreq := freq |> in
        let* (r, core) := WebRtcAecm_InitCore (aecmCore aecm) (sampFreq aecm) in
        let aecm := aecm <| aecmCore := core |> in
        if r =? -1 then Some (AECM_UNSPECIFIED_ERROR, Some aecm)
        else
          let* buf := WebRtc_InitBuffer (farendBuf aecm) in
          let aecm := aecm <| farendBuf := buf |> <| initFlag := kInitCheck |> <| delayChange := 1 |>
            <| sum := 0 |> <| counter := 0 |> <| checkBuffSize := 1 |> <| firstVal := 0 |>
            <| ECstartup := 1 |> <| bufSizeStart := 0 |> <| checkBufSizeCtr := 0 |> <| filtDelay := 0 |>
            <| timeForDelayChange := 0 |> <| ecm_knownDelay := 0 |> <| lastDelayDiff := 0 |> in
          (* 160 is a number of bytes: the first row *)
          let* old := memset (farendOld aecm) 0 0 (160 / 2) in
          let aecm := aecm <| farendOld := old |> in
          let (r, inst) := WebRtcAecm_set_config (Some aecm) (mkAecmConfig AecmTrue 3) in
          if r =? -1 then Some (AECM_UNSPECIFIED_ERROR, inst) else Some (0, inst)
  end.

(** ** The far end *)

Definition WebRtcAecm_GetBufferFarendError (aecmInst : option AecMobile) (farend : option (list Z)) (nrOfSamples : Z) : Z :=
  match aecmInst with
  | None => -1
  | Some aecm =>
      match farend with
      | None => AECM_NULL_POINTER_ERROR
      | Some _ =>
          if negb (initFlag aecm =? kInitCheck) then AECM_UNINITIALIZED_ERROR
          else if negb (nrOfSamples =? 80) && negb (nrOfSamples =? 160) then AECM_BAD_PARAMETER_ERROR
          else 0
      end
  end.

(** [WebRtc_MoveReadPtr] on the far-end buffer; its return value is ignored. *)
Definition move_farend (aecm : AecMobile) (count : Z) : option AecMobile :=
  let* b := (WebRtc_MoveReadPtr (Some (farendBuf aecm)) count).2 in Some (aecm <| farendBuf := b |>).

Definition WebRtcAecm_DelayComp (aecm : AecMobile) : option AecMobile :=
  let nSampFar := i32 (WebRtc_available_read (Some (farendBuf aecm))) in
  let maxStuffSamp := 10 * FRAME_LEN in
  let nSampSndCard := i32 (msInSndCardBuf aecm * kSampMsNb * mult (aecmCore aecm)) in
  let delayNew := i32 (nSampSndCard - nSampFar) in
  if delayNew >? FAR_BUF_LEN - FRAME_LEN * mult (aecmCore aecm) then
    let nSampAdd := Z.max (Z.shiftr nSampSndCard 1 - nSampFar) FRAME_LEN in
    let nSampAdd := Z.min nSampAdd maxStuffSamp in
    let* aecm := move_farend aecm (- nSampAdd) in
    Some (aecm <| delayChange := 1 |>)
  else Some aecm.

Definition WebRtcAecm_BufferFarend (aecmInst : option AecMobile) (farend : option (list Z)) (nrOfSamples : Z)
    : option (Z * option AecMobile) :=
  let err := WebRtcAecm_GetBufferFarendError aecmInst farend nrOfSamples in
  if negb (err =? 0) then Some (err, aecmInst)
  else
    let* aecm := aecmInst in
    let* aecm := if ECstartup aecm =? 0 then WebRtcAecm_DelayComp aecm else Some aecm in
    let* (_, b) := WebRtc_WriteBuffer (Some (farendBuf aecm)) farend nrOfSamples in
    let* b := b in
    Some (0, Some (aecm <| farendBuf := b |>)).

(** ** The delay estimate *)

Definition WebRtcAecm_EstBufDelay (aecm : AecMobile) (ms : Z) : option AecMobile :=
  let nSampFar := i16 (WebRtc_available_read (Some (farendBuf aecm))) in
  let nSampSndCard := i16 (ms * kSampMsNb * mult (aecmCore aecm)) in
  let delayNew := i16 (nSampSndCard - nSampFar) in
  let* (delayNew, aecm) :=
    if delayNew <? FRAME_LEN then
      let* aecm := move_farend aecm FRAME_LEN in Some (i16 (delayNew + FRAME_LEN), aecm)
    else Some (delayNew, aecm) in
  let aecm := aecm <| filtDelay := i16 (Z.max 0 (Z.quot (8 * filtDelay aecm + 2 * delayNew) 10)) |> in
  let diff := i16 (i32 (filtDelay aecm - ecm_knownDelay aecm)) in
  let count := if diff >? 224 then
      if lastDelayDiff aecm <? 96 then 0 else i32 (timeForDelayChange aecm + 1)
    else if (diff <? 96) && (ecm_knownDelay aecm >? 0) then
      if lastDelayDiff aecm >? 224 then 0 else i32 (timeForDelayChange aecm + 1)
    else 0 in
  let aecm := aecm <| timeForDelayChange := count |> <| lastDelayDiff := diff |> in
  if timeForDelayChange aecm >? 25 then Some (aecm <| ecm_knownDelay := Z.max (filtDelay aecm - 160) 0 |>)
  else Some aecm.

(** ** Processing *)

(** Where the output goes: memory of its own, or one of the near-end arrays. *)
Inductive OutArg := OutMem (l : list Z) | OutNoisy | OutClean.

(** The arrays behind the pointer arguments. *)
Record Signals := mkSignals {
  sg_noisy : option (list Z); sg_clean : option (list Z); sg_out : option OutArg }.

#[export] Instance rebuild_Signals : Rebuild Signals := fun r => mkSignals (sg_noisy r) (sg_clean r) (sg_out r).

Definition out_memory (sg : Signals) : option (list Z) :=
  match sg_out sg with
  | None => None
  | Some (OutMem l) => Some l
  | Some OutNoisy => sg_noisy sg
  | Some OutClean => sg_clean sg
  end.

Definition set_out (sg : Signals) (l : list Z) : Signals :=
  match sg_out sg with
  | None => sg
  | Some (OutMem _) => sg <| sg_out := Some (OutMem l) |>
  | Some OutNoisy => sg <| sg_noisy := Some l |>
  | Some OutClean => sg <| sg_clean := Some l |>
  end.

(** In start-up the near end is passed through, the clean one if there is one. *)
Definition pass_through (sg : Signals) (nrOfSamples : Z) : option Signals :=
  let copy src := let* out := out_memory sg in let* out := memcpy out 0 src 0 nrOfSamples in Some (set_out sg out) in
  match sg_clean sg, sg_out sg with
  | None, Some OutNoisy => Some sg
  | None, _ => let* noisy := sg_noisy sg in copy noisy
  | Some _, Some OutClean => Some sg
  | Some clean, _ => copy clean
  end.

(** [abs(firstVal - ms) < MAX(0.2 * ms, kSampMsNb)], in double. *)
Definition sound_card_stable (first ms : Z) : bool :=
  let tol := f64_mul (f64_lit 7205759403792794 (-55)) (f64_of_Z ms) in
  let tol := if fgt tol (f64_of_Z kSampMsNb) then tol else f64_of_Z kSampMsNb in
  flt (f64_of_Z (Z.abs (first - ms))) tol.

(** The count of delays close to the first one, and their sum. *)
Definition count_stable (aecm : AecMobile) : AecMobile :=
  let aecm := aecm <| checkBufSizeCtr := i16 (checkBufSizeCtr aecm + 1) |> in
  let aecm := if counter aecm =? 0 then aecm <| firstVal := msInSndCardBuf aecm |> <| sum := 0 |> else aecm in
  if sound_card_stable (firstVal aecm) (msInSndCardBuf aecm) then
    aecm <| sum := i16 (sum aecm + msInSndCardBuf aecm) |> <| counter := i16 (counter aecm + 1) |>
  else aecm <| counter := 0 |>.

(** The check that the sound card buffer is stable, under [checkBuffSize]. *)
Definition check_sound_card (aecm : AecMobile) (nBlocks10ms : Z) : option AecMobile :=
  let aecm := count_stable aecm in
  let* aecm :=
    if u64 (u64 (counter aecm) * nBlocks10ms) >=? 6 then
      let* _ := c_assert (negb (counter aecm * 40 =? 0)) in
      let size := Z.quot (i32 (i32 (3 * sum aecm) * mult (aecmCore aecm))) (counter aecm * 40) in
      Some (aecm <| bufSizeStart := i16 (Z.min size BUF_SIZE_FRAMES) |> <| checkBuffSize := 0 |>)
    else Some aecm in
  if u64 (u64 (checkBufSizeCtr aecm) * nBlocks10ms) >? 50 then
    let size := Z.quot (i32 (3 * msInSndCardBuf aecm * mult (aecmCore aecm))) 40 in
    Some (aecm <| bufSizeStart := i16 (Z.min size BUF_SIZE_FRAMES) |> <| checkBuffSize := 0 |>)
  else Some aecm.

(** Start-up ends when the far-end buffer is filled as needed. *)
Definition start_if_filled (aecm : AecMobile) (nmbrOfFilledBuffers : Z) : option AecMobile :=
  if nmbrOfFilledBuffers =? bufSizeStart aecm then Some (aecm <| ECstartup := 0 |>)
  else if nmbrOfFilledBuffers >? bufSizeStart aecm then
    let* aecm := move_farend aecm (i32 (WebRtc_available_read (Some (farendBuf aecm))) - bufSizeStart aecm * FRAME_LEN) in
    Some (aecm <| ECstartup := 0 |>)
  else Some aecm.

Definition filled_buffers (aecm : AecMobile) : Z :=
  i16 (Z.quot (i16 (WebRtc_available_read (Some (farendBuf aecm)))) FRAME_LEN).

Definition startup_step (aecm : AecMobile) (nBlocks10ms : Z) : option AecMobile :=
  let filled := filled_buffers aecm in
  let* aecm := if checkBuffSize aecm =? 0 then Some aecm else check_sound_card aecm nBlocks10ms in
  if checkBuffSize aecm =? 0 then start_if_filled aecm filled else Some aecm.

(** The far-end frame for turn [i]: from the buffer, which is remembered, or the
    frame remembered for this turn. *)
Definition next_far_frame (aecm : AecMobile) (i : Z) : option (list Z * AecMobile) :=
  if filled_buffers aecm >? 0 then
    let* r := WebRtc_ReadBuffer (Some (farendBuf aecm)) true (Some (zreplicate FRAME_LEN 0)) FRAME_LEN in
    let* b := rr_self r in
    let* d := rr_data r in
    let* farend :=
      match rr_ptr r with
      | Some (InBuffer off) => let* _ := c_assert (range_ok (data b) off FRAME_LEN) in Some (slice (data b) off FRAME_LEN)
      | _ => Some d
      end in
    let* old := memcpy (farendOld aecm) (FRAME_LEN * i) farend 0 FRAME_LEN in
    Some (farend, aecm <| farendBuf := b |> <| farendOld := old |>)
  else
    let* farend := memcpy (zreplicate FRAME_LEN 0) 0 (farendOld aecm) (FRAME_LEN * i) FRAME_LEN in
    Some (farend, aecm).

(** The [FRAME_LEN] samples from [off] on. *)
Definition frame_at (l : list Z) (off : Z) : option (list Z) :=
  let* _ := c_assert (range_ok l off FRAME_LEN) in Some (slice l off FRAME_LEN).

(** One turn of the loop over frames. *)
Definition process_frame (aecm : AecMobile) (sg : Signals) (i : Z) : option (Z * AecMobile * Signals) :=
  let* (farend, aecm) := next_far_frame aecm i in
  let* aecm :=
    if ((i =? 0) && (sampFreq aecm =? 8000)) || ((i =? 1) && (sampFreq aecm =? 16000))
    then WebRtcAecm_EstBufDelay aecm (msInSndCardBuf aecm) else Some aecm in
  let* noisy := sg_noisy sg in
  let* noisy := frame_at noisy (FRAME_LEN * i) in
  let* clean := match sg_clean sg with
                | Some clean => let* clean := frame_at clean (FRAME_LEN * i) in Some (Some clean)
                | None => Some None
                end in
  let* mem := out_memory sg in
  let* out := frame_at mem (FRAME_LEN * i) in
  let* (r, core, out) := WebRtcAecm_ProcessFrame (aecmCore aecm) farend noisy clean out in
  let* mem := memcpy mem (FRAME_LEN * i) out 0 FRAME_LEN in
  Some (r, aecm <| aecmCore := core |>, set_out sg mem).

Fixpoint process_frames (n : nat) (i : Z) (aecm : AecMobile) (sg : Signals) : option (Z * AecMobile * Signals) :=
  match n with
  | O => Some (0, aecm, sg)
  | S n =>
      let* (r, aecm, sg) := process_frame aecm sg i in
      if r =? -1 then Some (-1, aecm, sg) else process_frames n (i + 1) aecm sg
  end.

(** The sound card delay, limited, with the warning that it had to be. *)
Definition limit_delay (ms : Z) : Z * Z :=
  if ms <? 0 then (AECM_BAD_PARAMETER_WARNING, 0)
  else if ms >? 500 then (AECM_BAD_PARAMETER_WARNING, 500)
  else (0, ms).

Definition WebRtcAecm_Process (aecmInst : option AecMobile) (sg : Signals) (nrOfSamples ms : Z)
    : option (Z * option AecMobile * Signals) :=
  match aecmInst, sg_noisy sg, out_memory sg with
  | None, _, _ => Some (-1, None, sg)
  | Some _, None, _ | Some _, Some _, None => Some (AECM_NULL_POINTER_ERROR, aecmInst, sg)
  | Some aecm, Some _, Some _ =>
      if negb (initFlag aecm =? kInitCheck) then Some (AECM_UNINITIALIZED_ERROR, aecmInst, sg)
      else if negb (nrOfSamples =? 80) && negb (nrOfSamples =? 160) then Some (AECM_BAD_PARAMETER_ERROR, aecmInst, sg)
      else
        let (retVal, ms) := limit_delay ms in
        let aecm := aecm <| msInSndCardBuf := i16 (ms + 10) |> in
        let nFrames := nrOfSamples / FRAME_LEN in
        let* _ := c_assert (negb (mult (aecmCore aecm) =? 0)) in
        let nBlocks10ms := nFrames / u64 (mult (aecmCore aecm)) in
        if negb (ECstartup aecm =? 0) then
          let* sg := pass_through sg nrOfSamples in
          let* aecm := startup_step aecm nBlocks10ms in
          Some (retVal, Some aecm, sg)
        else
          let* (r, aecm, sg) := process_frames (Z.to_nat nFrames) 0 aecm sg in
          Some (if r =? -1 then -1 else retVal, Some aecm, sg)
  end.

(** ** The echo path *)

Definition WebRtcAecm_echo_path_size_bytes : Z := PART_LEN1 * 2.

Definition WebRtcAecm_InitEchoPath (aecmInst : option AecMobile) (echo_path : option (list Z)) (size_bytes : Z)
    : option (Z * option AecMobile) :=
  match aecmInst, echo_path with
  | None, _ => Some (-1, None)
  | Some _, None => Some (AECM_NULL_POINTER_ERROR, aecmInst)
  | Some aecm, Some path =>
      if negb (size_bytes =? WebRtcAecm_echo_path_size_bytes) then Some (AECM_BAD_PARAMETER_ERROR, aecmInst)
      else if negb (initFlag aecm =? kInitCheck) then Some (AECM_UNINITIALIZED_ERROR, aecmInst)
      else
        let* core := WebRtcAecm_InitEchoPathCore (aecmCore aecm) path in
        Some (0, Some (aecm <| aecmCore := core |>))
  end.

(** Returns the memory at [echo_path] as well. *)
Definition WebRtcAecm_GetEchoPath (aecmInst : option AecMobile) (echo_path : option (list Z)) (size_bytes : Z)
    : option (Z * option (list Z)) :=
  match aecmInst, echo_path with
  | None, _ => Some (-1, echo_path)
  | Some _, None => Some (AECM_NULL_POINTER_ERROR, echo_path)
  | Some aecm, Some path =>
      if negb (size_bytes =? WebRtcAecm_echo_path_size_bytes) then Some (AECM_BAD_PARAMETER_ERROR, echo_path)
      else if negb (initFlag aecm =? kInitCheck) then Some (AECM_UNINITIALIZED_ERROR, echo_path)
      else
        let* path := memcpy path 0 (channelStored (aecmCore aecm)) 0 (size_bytes / 2) in
        Some (0, Some path)
  end.

End EchoMobile.
