(* ===== verification/EchoControlMobileSpec.v ===== *)
(** Properties of the interface of the echo canceller.

    [Module EchoMobileSpec] states the invariant [ecm_wf] of an initialised
    instance and shows that every sequence of calls of the interface keeps it,
    what each call returns, errors included, and how the start-up phase ends. *)

From S2P Require Import Prelude Float32 RingBuffer SplInl AecmCore AecmInv AecmBlock AecmBlockSpec AecmFrame AecmFrameSpec EchoControlMobile.

Module EchoMobileSpec.
Import Ring RingSpec Aecm AecmSpec AecmInv AecmBlockSpec AecmFrame AecmFrameSpec EchoMobile.

(** ** The invariant *)

Record far_buf_wf (b : RingBuffer) : Prop := mkFarBuf {
  fbw_wf : wf b;
  fbw_count : element_count b = kBufSizeSamp;
  fbw_items : Forall in_i16 (items (abs b));
  fbw_stale : Forall in_i16 (stale (abs b)) }.

(** The delays, in samples and milliseconds. *)
Record delays_ok (e : AecMobile) : Prop := mkDelays {
  dy_filt : 0 <= filtDelay e <= 8160;
  dy_known : 0 <= ecm_knownDelay e <= 8000;
  dy_ms : ECstartup e = 0 -> 10 <= msInSndCardBuf e <= 510 }.

(** An initialised instance; [hc] tells whether it is used with a clean near end. *)
Record ecm_wf (hc : bool) (e : AecMobile) : Prop := mkEcmWf {
  ew_init : initFlag e = kInitCheck;
  ew_freq : sampFreq e = 8000 \/ sampFreq e = 16000;
  ew_mult : mult (aecmCore e) = sampFreq e / 8000;
  ew_farend : far_buf_wf (farendBuf e);
  ew_old : samples_ok 160 (farendOld e);
  ew_queue : queue_inv hc (aecmCore e);
  ew_delays : delays_ok e }.

(** ** The far-end buffer *)

Lemma far_buf_lengths b : far_buf_wf b ->
  zlen (items (abs b)) = avail b /\ zlen (stale (abs b)) = 4000 - avail b /\ 0 <= avail b <= 4000.
Proof.
  intros [Hw Hn _ _]. pose proof (abs_lengths b Hw) as [H1 H2]. pose proof (avail_range b Hw).
  rewrite Hn in *. change kBufSizeSamp with 4000 in *. done.
Qed.

Lemma fifo_move_i16 k f : Forall in_i16 (items f) -> Forall in_i16 (stale f) ->
  Forall in_i16 (items (fifo_move k f)) /\ Forall in_i16 (stale (fifo_move k f)).
Proof.
  intros Hi Hs. unfold fifo_move, fifo_skip, fifo_unread. destruct (0 <=? k); cbn [items stale];
    split; first [by apply Forall_drop | by apply Forall_take | apply Forall_app_2; [first [by apply Forall_drop | done]|first [by apply Forall_take | done]]].
Qed.

Lemma move_farend_ok e k : far_buf_wf (farendBuf e) ->
  move_farend e k ⤳ fun e' => exists b, far_buf_wf b /\ e' = e <| farendBuf := b |> /\
    avail b = avail (farendBuf e) - clamp_move (farendBuf e) k.
Proof.
  intros Hb. pose proof (far_buf_lengths _ Hb) as (Hl & Hsl & Hr). destruct Hb as [Hw Hn Hi Hs]. unfold move_farend.
  destruct (move_concrete _ k Hw) as (b0 & E0 & _ & _ & Ea0 & _).
  destruct (move_refines _ k Hw) as (b & E & Hw' & En & Ea). rewrite E in E0. injection E0 as <-.
  rewrite E. cbn [snd mbind option_bind]. apply result_ret. exists b. split; [|done].
  destruct (fifo_move_i16 (clamp_move (farendBuf e) k) _ Hi Hs). constructor; [done|congruence|..]; by rewrite Ea.
Qed.

Lemma filled_buffers_ok e : far_buf_wf (farendBuf e) -> filled_buffers e = avail (farendBuf e) / 80.
Proof.
  intros Hb. pose proof (far_buf_lengths _ Hb) as (_ & _ & Hr). unfold filled_buffers.
  rewrite available_read_avail by apply Hb. rewrite (i16_id (avail _)) by (unfold in_i16; lia).
  change FRAME_LEN with 80. rewrite Z.quot_div_nonneg by lia. apply i16_id. unfold in_i16. dlia.
Qed.

(** ** The delays *)

(** A part of the invariant of an updated instance whose fields are untouched. *)
Ltac same_ecm H := destruct H as [? ? ? ? ? ? ?]; constructor; first [assumption | same_part | idtac].

Lemma mult_range hc e : ecm_wf hc e -> mult (aecmCore e) = 1 \/ mult (aecmCore e) = 2.
Proof. intros [_ [H|H] -> _ _ _ _]; rewrite H; [by left|by right]. Qed.

(** The delay of the sound card less what is buffered; a frame is dropped from
    the buffer when that is less than a frame. *)
Definition new_delay (e : AecMobile) (ms : Z) : Z :=
  let d := ms * 8 * mult (aecmCore e) - avail (farendBuf e) in if d <? 80 then d + 80 else d.

Definition filtered_delay (e : AecMobile) (ms : Z) : Z :=
  Z.max 0 (Z.quot (8 * filtDelay e + 2 * new_delay e ms) 10).

Lemma filtered_delay_range hc e ms : ecm_wf hc e -> 10 <= ms <= 510 ->
  -3920 <= new_delay e ms <= 8160 /\ 0 <= filtered_delay e ms <= 8160.
Proof.
  intros He Hms. pose proof (mult_range hc e He) as Hm. pose proof (far_buf_lengths _ (ew_farend _ _ He)) as (_ & _ & Ha).
  pose proof (dy_filt _ (ew_delays _ _ He)) as Hf.
  assert (Hn : -3920 <= new_delay e ms <= 8160).
  { unfold new_delay. case_match; breflect; destruct Hm as [E | E]; rewrite E in *; lia. }
  split; [done|]. unfold filtered_delay. set (d := new_delay e ms) in *. clearbody d.
  Z.to_euclidean_division_equations. lia.
Qed.

Lemma EstBufDelay_ok hc e ms : ecm_wf hc e -> 10 <= ms <= 510 ->
  WebRtcAecm_EstBufDelay e ms ⤳ fun e' => ecm_wf hc e' /\ ECstartup e' = ECstartup e /\
    filtDelay e' = filtered_delay e ms /\
    (ecm_knownDelay e' = ecm_knownDelay e \/ ecm_knownDelay e' = Z.max (filtered_delay e ms - 160) 0).
Proof.
  intros He Hms. pose proof (filtered_delay_range hc e ms He Hms) as [Hd Hf]. pose proof (mult_range hc e He) as Hm.
  pose proof (far_buf_lengths _ (ew_farend _ _ He)) as (_ & _ & Ha). pose proof (dy_known _ (ew_delays _ _ He)) as Hk.
  unfold WebRtcAecm_EstBufDelay. rewrite available_read_avail by apply He.
  change (ms * kSampMsNb) with (ms * 8). change FRAME_LEN with 80.
  assert (Hs : 0 <= ms * 8 * mult (aecmCore e) <= 8160) by (destruct Hm as [-> | ->]; lia).
  rewrite (i16_id (avail _)), (i16_id (ms * 8 * _)) by (unfold in_i16; lia).
  rewrite (i16_id (ms * 8 * _ - _)) by (unfold in_i16; lia). cbv zeta.
  set (d := ms * 8 * mult (aecmCore e) - avail (farendBuf e)) in *.
  eapply (result_bind _ _ (fun r => r.1 = new_delay e ms /\ exists b, far_buf_wf b /\ r.2 = e <| farendBuf := b |>)).
  { unfold new_delay. fold d. destruct (Z.ltb_spec d 80).
    - eapply result_bind; [exact (move_farend_ok e 80 (ew_farend _ _ He))|]. intros e1 (b & Hb & -> & _).
      apply result_ret. cbn [fst snd]. split; [apply i16_id; unfold in_i16; lia|by exists b].
    - apply result_ret. cbn [fst snd]. split; [done|]. exists (farendBuf e). split; [apply He|by destruct e]. }
  intros [nd e1] (End & b & Hb & E1). cbn [fst snd] in End, E1. subst nd e1. cbv beta iota.
  change (filtDelay (e <| farendBuf := b |>)) with (filtDelay e). fold (filtered_delay e ms).
  rewrite (i16_id (filtered_delay e ms)) by (unfold in_i16; lia).
  match goal with |- (if _ >? 25 then Some (?x <| ecm_knownDelay := _ |>) else _) ⤳ _ => set (e2 := x) end.
  assert (Hwf : forall k, 0 <= k <= 8000 -> ecm_wf hc (e2 <| ecm_knownDelay := k |>)).
  { intros k Hk'. subst e2. destruct He as [? ? ? ? ? ? [? ? ?]]. constructor; try assumption. by constructor. }
  destruct (timeForDelayChange e2 >? 25); apply result_ret.
  - split_and!; [apply Hwf; change (filtDelay e2) with (filtered_delay e ms); lia|reflexivity|reflexivity|by right].
  - split_and!; [|reflexivity|reflexivity|by left]. specialize (Hwf (ecm_knownDelay e) Hk). destruct Hwf as [? ? ? ? ? ? []].
    constructor; try assumption. by constructor.
Qed.

Lemma clamp_back e k : far_buf_wf (farendBuf e) -> 0 <= k ->
  clamp_move (farendBuf e) (- k) = - Z.min k (4000 - avail (farendBuf e)).
Proof.
  intros Hb Hk. pose proof (far_buf_lengths _ Hb) as (_ & _ & Ha). unfold clamp_move.
  rewrite (fbw_count _ Hb). change kBufSizeSamp with 4000. lia.
Qed.

(** The stuffing of the far-end buffer, in samples. *)
Definition stuffing (e : AecMobile) : Z :=
  let card := msInSndCardBuf e * 8 * mult (aecmCore e) in
  if card - avail (farendBuf e) >? 1024 - 80 * mult (aecmCore e)
  then Z.min (Z.max (card / 2 - avail (farendBuf e)) 80) 800 else 0.

Lemma DelayComp_ok hc e : ecm_wf hc e -> ECstartup e = 0 ->
  WebRtcAecm_DelayComp e ⤳ fun e' => ecm_wf hc e' /\ ECstartup e' = 0 /\ initFlag e' = initFlag e /\
    avail (farendBuf e') = Z.min 4000 (avail (farendBuf e) + stuffing e) /\ 0 <= stuffing e <= 800.
Proof.
  intros He Hst. pose proof (mult_range hc e He) as Hm. pose proof (far_buf_lengths _ (ew_farend _ _ He)) as (_ & _ & Ha).
  pose proof (dy_ms _ (ew_delays _ _ He) Hst) as Hms. unfold WebRtcAecm_DelayComp, stuffing.
  change FRAME_LEN with 80. change FAR_BUF_LEN with 1024. change (msInSndCardBuf e * kSampMsNb) with (msInSndCardBuf e * 8).
  assert (Hs : 0 <= msInSndCardBuf e * 8 * mult (aecmCore e) <= 8160) by (destruct Hm as [-> | ->]; lia).
  set (card := msInSndCardBuf e * 8 * mult (aecmCore e)) in *. clearbody card.
  rewrite available_read_avail by apply He. rewrite (i32_id (avail _)), (i32_id card) by (unfold in_i32; lia).
  rewrite (i32_id (card - _)) by (unfold in_i32; lia). cbv zeta. rewrite Z.shiftr_div_pow2 by lia. change (2 ^ 1) with 2.
  destruct (card - avail (farendBuf e) >? 1024 - 80 * mult (aecmCore e)).
  - set (k := Z.min (Z.max (card / 2 - avail (farendBuf e)) 80) 800). change (10 * 80) with 800. fold k.
    assert (Hk : 80 <= k <= 800) by lia.
    eapply result_bind; [exact (move_farend_ok e (- k) (ew_farend _ _ He))|]. intros e1 (b & Hb & -> & Eb).
    rewrite clamp_back in Eb by (apply He || lia). apply result_ret. split_and!; [|exact Hst|done| |lia|lia].
    + destruct He as [? ? ? ? ? ? [? ? ?]]. constructor; try assumption. by constructor.
    + change (avail b = Z.min 4000 (avail (farendBuf e) + k)). lia.
  - apply result_ret. split_and!; try done; lia.
Qed.

Lemma ecm_farend hc e b : ecm_wf hc e -> far_buf_wf b -> ecm_wf hc (e <| farendBuf := b |>).
Proof. intros [? ? ? ? ? ? []] Hb. constructor; try assumption. by constructor. Qed.

Lemma write_farend_ok e xs n : far_buf_wf (farendBuf e) -> 0 <= n <= zlen xs -> Forall in_i16 xs ->
  exists b c, WebRtc_WriteBuffer (Some (farendBuf e)) (Some xs) n = Some (c, Some b) /\ far_buf_wf b /\
    items (abs b) = items (abs (farendBuf e)) ++ take (Z.to_nat (4000 - avail (farendBuf e))) (take (Z.to_nat n) xs).
Proof.
  intros Hb Hn Hx. pose proof (far_buf_lengths _ Hb) as (_ & Hsl & Ha). destruct Hb as [Hw Hc Hi Hs].
  destruct (write_refines (farendBuf e) xs n Hw Hn) as (b & E & Hw' & En & Ea). exists b. eexists. split; [exact E|].
  assert (Hx' : Forall in_i16 (slice xs 0 n)) by by apply Forall_slice.
  unfold fifo_write in Ea. split.
  - constructor; [done|congruence|..]; rewrite Ea; cbn [items stale]; [apply Forall_app_2; [done|by apply Forall_take]|by apply Forall_drop].
  - rewrite Ea. cbn [items]. f_equal. rewrite Nat.min_comm, <- take_take, firstn_all. unfold slice. cbn [drop Z.to_nat]. f_equal. lia.
Qed.

(** ** The near end and the output *)

(** Arrays of [n] samples; [hc] tells whether there is a clean near end. *)
Record signals_ok (hc : bool) (n : Z) (sg : Signals) : Prop := mkSignalsOk {
  sk_noisy : forall l, sg_noisy sg = Some l -> samples_ok n l;
  sk_clean : forall l, sg_clean sg = Some l -> samples_ok n l;
  sk_flag : bool_decide (is_Some (sg_clean sg)) = hc;
  sk_out : forall l, out_memory sg = Some l -> zlen l = n }.

Lemma set_out_ok hc n sg mem mem' : signals_ok hc n sg -> out_memory sg = Some mem -> zlen mem' = n ->
  (Forall in_i16 mem -> Forall in_i16 mem') ->
  signals_ok hc n (set_out sg mem') /\ out_memory (set_out sg mem') = Some mem'.
Proof.
  intros [Hn Hc Hf Ho] Em Hl Hi. destruct sg as [noisy clean [[l| |]|]]; cbn in Em; [| | |done]; simplify_eq.
  - split; [|done]. constructor; try done. intros l0 [= <-]. done.
  - split; [|done]. cbn in Hn. constructor; try done; cbn; intros l0 [= <-]; [|done]. split; [done|]. apply Hi, (Hn mem eq_refl).
  - split; [|done]. cbn in Hc. constructor; try done; cbn; intros l0 [= <-]; [|done]. split; [done|]. apply Hi, (Hc mem eq_refl).
Qed.

Lemma pass_through_ok hc n sg noisy mem : 0 <= n -> signals_ok hc n sg -> sg_noisy sg = Some noisy -> out_memory sg = Some mem ->
  pass_through sg n ⤳ fun sg' => signals_ok hc n sg' /\ out_memory sg' = Some (default noisy (sg_clean sg)).
Proof.
  intros Hn Hs En Em. unfold pass_through.
  assert (Hcopy : forall src, samples_ok n src ->
    (let* out := out_memory sg in let* out := memcpy out 0 src 0 n in Some (set_out sg out)) ⤳
    fun sg' => signals_ok hc n sg' /\ out_memory sg' = Some src).
  { intros src [Hl Hi]. rewrite Em. cbn [mbind option_bind]. pose proof (sk_out _ _ _ Hs _ Em) as Hm.
    rewrite memcpy_Some by lia. cbn [mbind option_bind]. rewrite slice_splice_all by lia. apply result_ret.
    apply (set_out_ok hc n sg mem src Hs Em); [lia|done]. }
  destruct (sg_clean sg) as [clean|] eqn:Ec.
  - pose proof (sk_clean _ _ _ Hs _ Ec) as Hcl. destruct (sg_out sg) as [[l| |]|] eqn:Eo; try by apply Hcopy.
    apply result_ret. split; [done|]. unfold out_memory. by rewrite Eo.
  - pose proof (sk_noisy _ _ _ Hs _ En) as Hno. rewrite En. cbn [mbind option_bind default].
    destruct (sg_out sg) as [[l| |]|] eqn:Eo; try by apply Hcopy.
    apply result_ret. split; [done|]. unfold out_memory. by rewrite Eo, En.
Qed.

(** ** Running *)

Lemma frame_at_ok n l off : samples_ok n l -> 0 <= off -> off + FRAME_LEN <= n -> frame_at l off ⤳ samples_ok FRAME_LEN.
Proof.
  intros [Hl Hi] H0 Hn. unfold frame_at. change FRAME_LEN with 80 in *.
  eapply result_bind; [by apply (result_assert _ (fun _ => True)); [apply range_ok_spec; lia|]|]. intros _ _.
  apply result_ret. split; [rewrite length_slice; lia|by apply Forall_slice].
Qed.

Lemma splice_whole {A} (l xs : list A) : zlen xs = zlen l -> splice l 0 xs = xs.
Proof. intros H. unfold splice. rewrite take_0, drop_ge by lia. by rewrite app_nil_r. Qed.

Lemma next_far_frame_ok hc e i : ecm_wf hc e -> 0 <= i <= 1 ->
  next_far_frame e i ⤳ fun r => samples_ok FRAME_LEN r.1 /\ ecm_wf hc r.2 /\
    ECstartup r.2 = ECstartup e /\ msInSndCardBuf r.2 = msInSndCardBuf e /\
    r.1 = (if 80 <=? avail (farendBuf e) then take 80 (items (abs (farendBuf e))) else slice (farendOld e) (80 * i) 80).
Proof.
  intros He Hi. pose proof (ew_farend _ _ He) as Hb. pose proof (far_buf_lengths _ Hb) as (Hil & Hsl & Ha).
  pose proof (ew_old _ _ He) as [Hol Hoi]. unfold next_far_frame. rewrite filled_buffers_ok by done. change FRAME_LEN with 80.
  destruct (Z.gtb_spec (avail (farendBuf e) / 80) 0) as [Hg|Hg].
  - assert (Hav : 80 <= avail (farendBuf e)) by dlia. destruct (Z.leb_spec 80 (avail (farendBuf e))); [|lia].
    destruct Hb as [Hw Hn Hit Hst].
    destruct (read_refines _ true (zreplicate 80 0) 80 Hw) as (r & b & E & _ & Es & Hw' & En & Ea & d & Ed & Hd & p & Ep & Hp & Hoff);
      [rewrite length_zreplicate; lia|].
    assert (Hc : read_count (farendBuf e) 80 = 80) by (unfold read_count; lia). rewrite Hc in *.
    change (Z.to_nat 80) with 80%nat in *. rewrite E. cbn [mbind option_bind]. rewrite Es. cbn [mbind option_bind].
    rewrite Ed. cbn [mbind option_bind]. rewrite Ep.
    set (fr := take 80 (items (abs (farendBuf e)))) in *.
    assert (Hfr : samples_ok 80 fr) by (subst fr; split; [rewrite length_take; lia|by apply Forall_take]).
    assert (Hfb : far_buf_wf b).
    { unfold fifo_skip in Ea. constructor; [done|congruence|..]; rewrite Ea; cbn [items stale];
        [by apply Forall_drop|apply Forall_app_2; [done|by apply Forall_take]]. }
    eapply (result_bind _ _ (fun x => x = fr)).
    { destruct p as [off|]; cbn [deref] in Hp.
      - rewrite (Hoff off eq_refl). by apply result_ret.
      - rewrite slice_all in Hp by (rewrite Hd, length_zreplicate; lia). by apply result_ret. }
    intros x ->. destruct Hfr as [Hfl Hfi]. rewrite memcpy_Some by lia. cbn [mbind option_bind]. apply result_ret. cbn [fst snd].
    split; [done|]. split; [|done]. destruct He as [? ? ? ? ? ? []]. constructor; try assumption; [|by constructor].
    split; [|by apply Forall_splice, Forall_slice]. change (zlen (splice (farendOld e) (80 * i) (slice fr 0 80)) = 160). rewrite length_splice; rewrite ?length_slice; lia.
  - destruct (Z.leb_spec 80 (avail (farendBuf e))); [dlia|].
    rewrite memcpy_Some by (rewrite ?length_zreplicate; lia). cbn [mbind option_bind]. apply result_ret. cbn [fst snd].
    rewrite splice_whole by (rewrite ?length_slice, ?length_zreplicate; lia).
    split; [|done]. split; [rewrite length_slice; lia|by apply Forall_slice].
Qed.

(** The arrays that a call needs are there. *)
Definition has_arrays (sg : Signals) : Prop := is_Some (sg_noisy sg) /\ is_Some (out_memory sg).

Lemma set_out_arrays sg mem : has_arrays sg -> has_arrays (set_out sg mem).
Proof.
  intros [Hn Ho]. destruct sg as [noisy clean [[l| |]|]]; cbn in *; split; cbn; try done.
Qed.

Lemma ecm_core hc e c : ecm_wf hc e -> queue_inv hc c -> mult c = mult (aecmCore e) -> ecm_wf hc (e <| aecmCore := c |>).
Proof.
  intros [? ? Hm ? ? ? []] Hc E. constructor; try assumption; [|by constructor].
  change (mult c = sampFreq e / 8000). congruence.
Qed.

(** The delay estimate of the turn that has all data. *)
Lemma ecm_est_step_ok hc e i : ecm_wf hc e -> ECstartup e = 0 ->
  (if (i =? 0) && (sampFreq e =? 8000) || (i =? 1) && (sampFreq e =? 16000)
   then WebRtcAecm_EstBufDelay e (msInSndCardBuf e) else Some e) ⤳ fun e2 => ecm_wf hc e2 /\ ECstartup e2 = 0.
Proof.
  intros He Hst. destruct (_ || _); [|by apply result_ret].
  eapply result_weaken; [exact (EstBufDelay_ok hc e _ He (dy_ms _ (ew_delays _ _ He) Hst))|].
  intros e2 (H2 & H3 & _). split; [done|congruence].
Qed.

Lemma process_frame_ok hc n e sg i : ecm_wf hc e -> ECstartup e = 0 -> signals_ok hc n sg -> has_arrays sg ->
  0 <= i <= 1 -> 80 * (i + 1) <= n ->
  process_frame e sg i ⤳ fun r => r.1.1 = 0 /\ ecm_wf hc r.1.2 /\ ECstartup r.1.2 = 0 /\ signals_ok hc n r.2 /\ has_arrays r.2.
Proof.
  intros He Hst Hs Harr Hi Hn. pose proof Harr as [[noisy En] [mem Em]]. unfold process_frame.
  change FRAME_LEN with 80 in *.
  eapply result_bind; [exact (next_far_frame_ok hc e i He Hi)|].
  intros [farend e1] (Hf & He1 & S1 & M1 & _). cbn [fst snd] in Hf, He1, S1, M1. cbv iota.
  eapply result_bind; [apply (ecm_est_step_ok hc e1 i He1); congruence|].
  intros e2 [He2 S2]. rewrite En. cbn [mbind option_bind].
  eapply result_bind; [exact (frame_at_ok n noisy (80 * i) (sk_noisy _ _ _ Hs _ En) ltac:(lia) ltac:(unfold FRAME_LEN; lia))|].
  intros fn Hfn. cbv beta.
  eapply (result_bind _ _ (fun c => frame_clean_ok c /\ bool_decide (is_Some c) = hc)).
  { pose proof (sk_flag _ _ _ Hs) as Hfl. destruct (sg_clean sg) as [clean|] eqn:Ec.
    - eapply result_bind; [exact (frame_at_ok n clean (80 * i) (sk_clean _ _ _ Hs _ Ec) ltac:(lia) ltac:(unfold FRAME_LEN; lia))|].
      intros fc Hfc. by apply result_ret.
    - by apply result_ret. }
  intros fc [Hfc Hhc]. rewrite Em. cbn [mbind option_bind]. pose proof (sk_out _ _ _ Hs _ Em) as Hml.
  eapply (result_bind _ _ (fun out => zlen out = 80)).
  { unfold frame_at. change FRAME_LEN with 80.
    eapply result_bind; [by apply (result_assert _ (fun _ => True)); [apply range_ok_spec; lia|]|]. intros _ _.
    apply result_ret. apply length_slice; lia. }
  intros out Hout. cbv beta.
  eapply result_bind; [exact (frame_queue_ok process_block hc _ farend fn fc out (ew_queue _ _ He2) Hf Hfn Hfc Hhc Hout)|].
  intros [[r core] out'] (Hr & [Hol Hoi] & Hq & Hmult). cbn [fst snd] in Hr, Hol, Hoi, Hq, Hmult. subst r. cbv iota.
  change FRAME_LEN with 80 in *. rewrite memcpy_Some by lia. cbn [mbind option_bind]. apply result_ret. cbn [fst snd].
  split; [done|]. split; [exact (ecm_core hc e2 core He2 Hq Hmult)|]. split; [exact S2|]. split; [|by apply set_out_arrays].
  apply (set_out_ok hc n sg mem); [done|done|rewrite length_splice; rewrite ?length_slice; lia|].
  intros Hmi. by apply Forall_splice, Forall_slice.
Qed.

Lemma process_frames_ok hc n k : forall i e sg, ecm_wf hc e -> ECstartup e = 0 -> signals_ok hc n sg -> has_arrays sg ->
  0 <= i -> i + Z.of_nat k <= 2 -> 80 * (i + Z.of_nat k) <= n ->
  process_frames k i e sg ⤳ fun r => r.1.1 = 0 /\ ecm_wf hc r.1.2 /\ ECstartup r.1.2 = 0 /\ signals_ok hc n r.2 /\ has_arrays r.2.
Proof.
  induction k as [|k IH]; intros i e sg He Hst Hs Harr Hi Hk Hn; cbn [process_frames]; [by apply result_ret|].
  eapply result_bind; [exact (process_frame_ok hc n e sg i He Hst Hs Harr ltac:(lia) ltac:(lia))|].
  intros [[r e1] sg1] (Hr & He1 & S1 & Hs1 & Ha1). cbn [fst snd] in Hr, He1, S1, Hs1, Ha1. subst r.
  change (0 =? -1) with false. cbv iota. apply IH; (done || lia).
Qed.

(** *** Processing in place *)

(** The arguments of two runs, before sample [p]: the second writes its output
    over one of its inputs, so that these agree from [p] on, and the outputs up to
    [p]. *)
Record twin (p : Z) (sg1 sg2 : Signals) : Prop := mkTwin {
  tw_noisy : exists x y, sg_noisy sg1 = Some x /\ sg_noisy sg2 = Some y /\ zlen x = zlen y /\
               drop (Z.to_nat p) x = drop (Z.to_nat p) y;
  tw_clean : (sg_clean sg1 = None /\ sg_clean sg2 = None) \/
             exists x y, sg_clean sg1 = Some x /\ sg_clean sg2 = Some y /\ zlen x = zlen y /\
               drop (Z.to_nat p) x = drop (Z.to_nat p) y;
  tw_out : exists x y, out_memory sg1 = Some x /\ out_memory sg2 = Some y /\ zlen x = zlen y /\
               take (Z.to_nat p) x = take (Z.to_nat p) y;
  tw_place : exists l, sg_out sg1 = Some (OutMem l) }.

Lemma frame_at_drop (x y : list Z) p : 0 <= p -> zlen x = zlen y -> drop (Z.to_nat p) x = drop (Z.to_nat p) y ->
  frame_at x p = frame_at y p.
Proof. intros Hp Hl Hd. unfold frame_at, range_ok, slice. by rewrite Hd, Hl. Qed.

Lemma drop_splice (x out : list Z) p n : 0 <= p -> zlen out = n -> p + n <= zlen x ->
  drop (Z.to_nat (p + n)) (splice x p out) = drop (Z.to_nat (p + n)) x.
Proof.
  intros Hp Ho Hx. unfold splice. rewrite drop_app_ge by (rewrite length_take; lia).
  rewrite length_take, drop_app_ge by lia. rewrite drop_drop. f_equal. lia.
Qed.

Lemma take_splice (x out : list Z) p n : 0 <= p -> zlen out = n -> p + n <= zlen x ->
  take (Z.to_nat (p + n)) (splice x p out) = take (Z.to_nat p) x ++ out.
Proof.
  intros Hp Ho Hx. unfold splice. rewrite app_assoc. rewrite take_app_le by (rewrite length_app, length_take; lia).
  apply firstn_all2. rewrite length_app, length_take. lia.
Qed.

Lemma drop_further (x y : list Z) p n : 0 <= p -> 0 <= n -> drop (Z.to_nat p) x = drop (Z.to_nat p) y ->
  drop (Z.to_nat (p + n)) x = drop (Z.to_nat (p + n)) y.
Proof. intros Hp Hn H. rewrite Z2Nat.inj_add, <- !drop_drop by lia. by rewrite H. Qed.

(** Writing an output frame keeps the runs together. *)
Lemma twin_write p n sg1 sg2 m1 m2 out : twin p sg1 sg2 -> 0 <= p -> zlen out = n -> 0 <= n -> p + n <= zlen m1 ->
  out_memory sg1 = Some m1 -> out_memory sg2 = Some m2 ->
  twin (p + n) (set_out sg1 (splice m1 p out)) (set_out sg2 (splice m2 p out)).
Proof.
  intros [(x & y & X & Y & Hl & Hd) Hcl (x' & y' & X' & Y' & Hl' & Ht) [l Hp]] Hp0 Ho Hn Hm E1 E2.
  rewrite E1 in X'. injection X' as <-. rewrite E2 in Y'. injection Y' as <-.
  destruct sg1 as [no1 cl1 ou1], sg2 as [no2 cl2 ou2]. cbn [sg_noisy sg_clean sg_out] in *. subst no1 no2 ou1.
  cbn in E1. injection E1 as ->.
  assert (Hout : zlen (splice m1 p out) = zlen (splice m2 p out) /\
    take (Z.to_nat (p + n)) (splice m1 p out) = take (Z.to_nat (p + n)) (splice m2 p out)).
  { rewrite !length_splice by lia. split; [lia|]. rewrite !take_splice by lia. by rewrite Ht. }
  assert (Hno : drop (Z.to_nat (p + n)) x = drop (Z.to_nat (p + n)) y) by (apply drop_further; (lia || done)).
  assert (Hdm : drop (Z.to_nat (p + n)) (splice m2 p out) = drop (Z.to_nat (p + n)) m2) by (apply drop_splice; lia).
  assert (Hlm : zlen (splice m2 p out) = zlen m2) by (rewrite length_splice; lia).
  assert (Hcl' : (cl1 = None /\ cl2 = None) \/ exists u v, cl1 = Some u /\ cl2 = Some v /\ zlen u = zlen v /\
    drop (Z.to_nat (p + n)) u = drop (Z.to_nat (p + n)) v).
  { destruct Hcl as [?|(u & v & -> & -> & H1 & H2)]; [by left|right]. exists u, v. split_and!; try done. apply drop_further; (lia || done). }
  destruct ou2 as [[l2| |]|]; [..|done]; cbn in E2; constructor; cbn; try (by eexists); try exact Hcl';
    try (by exists x, y; split_and!); try (by do 2 eexists; split_and!; [done|done|apply Hout..]).
  - injection E2 as ->. exists x, (splice m2 p out). by rewrite Hdm, Hlm.
  - destruct Hcl' as [[_ ->]|(u & v & -> & -> & H1 & H2)]; [done|]. injection E2 as ->. right.
    exists u, (splice m2 p out). by rewrite Hdm, Hlm.
Qed.

(** The clean near end of the frame, in both runs. *)
Lemma twin_clean hc n sg1 sg2 i : signals_ok hc n sg1 -> signals_ok hc n sg2 ->
  (sg_clean sg1 = None /\ sg_clean sg2 = None) \/ (exists x y, sg_clean sg1 = Some x /\ sg_clean sg2 = Some y /\
     zlen x = zlen y /\ drop (Z.to_nat (80 * i)) x = drop (Z.to_nat (80 * i)) y) ->
  0 <= i -> 80 * (i + 1) <= n ->
  exists fc, frame_clean_ok fc /\ bool_decide (is_Some fc) = hc /\ forall sg, sg = sg1 \/ sg = sg2 ->
    match sg_clean sg with
    | Some clean => let* clean := frame_at clean (80 * i) in Some (Some clean)
    | None => Some None
    end = Some fc.
Proof.
  intros Hs1 Hs2 Hcl Hi Hn. pose proof (sk_flag _ _ _ Hs1) as Hfl. destruct Hcl as [[C1 C2]|(u & v & C1 & C2 & Luv & Duv)].
  - exists None. split; [done|]. split; [by rewrite C1 in Hfl|]. intros sg [-> | ->]; by rewrite ?C1, ?C2.
  - destruct (frame_at_ok n v (80 * i) (sk_clean _ _ _ Hs2 _ C2)) as (fv & Ev & Hfv); [lia|unfold FRAME_LEN; lia|].
    exists (Some fv). split; [done|]. split; [by rewrite C1 in Hfl|].
    intros sg [-> | ->]; rewrite ?C1, ?C2, ?(frame_at_drop u v (80 * i)) by (lia || done); by rewrite Ev.
Qed.

(** The same frame for both runs. *)
Lemma twin_frame hc n e sg1 sg2 i : ecm_wf hc e -> ECstartup e = 0 -> signals_ok hc n sg1 -> signals_ok hc n sg2 ->
  twin (80 * i) sg1 sg2 -> 0 <= i <= 1 -> 80 * (i + 1) <= n ->
  exists e' sg1' sg2', process_frame e sg1 i = Some (0, e', sg1') /\ process_frame e sg2 i = Some (0, e', sg2') /\
    twin (80 * (i + 1)) sg1' sg2'.
Proof.
  intros He Hst Hs1 Hs2 Htw Hi Hn.
  assert (Harr : forall sg, sg = sg1 \/ sg = sg2 -> has_arrays sg).
  { destruct Htw as [(? & ? & ? & ? & _) _ (? & ? & ? & ? & _) _]. intros sg [-> | ->]; split; by eexists. }
  destruct (process_frame_ok hc n e sg1 i He Hst Hs1 (Harr sg1 (or_introl eq_refl)) Hi Hn) as ([[r e1] sg1'] & E1 & Hr & _).
  cbn [fst] in Hr. subst r. exists e1, sg1'. revert E1. unfold process_frame. change FRAME_LEN with 80.
  destruct (next_far_frame_ok hc e i He Hi) as ([farend ea] & -> & Hf & Hea & S1 & M1 & _). cbn [fst snd] in Hf, Hea, S1, M1.
  cbn [mbind option_bind].
  destruct (ecm_est_step_ok hc ea i Hea ltac:(congruence)) as (eb & -> & Heb & _). cbn [mbind option_bind].
  pose proof Htw as [(x & y & X & Y & Lxy & Dxy) Hcl (m1 & m2 & O1 & O2 & Lm & Tm) _].
  rewrite X, Y, O1, O2. cbn [mbind option_bind]. rewrite (frame_at_drop x y (80 * i)) by (lia || done).
  pose proof (sk_out _ _ _ Hs1 _ O1) as Lm1.
  destruct (frame_at_ok n y (80 * i) (sk_noisy _ _ _ Hs2 _ Y)) as (fn & -> & Hfn); [lia|unfold FRAME_LEN; lia|].
  cbn [mbind option_bind].
  destruct (twin_clean hc n sg1 sg2 i Hs1 Hs2 Hcl) as (fc & Hfc & Hhc & Ec); [lia|lia|]. rewrite (Ec sg1 (or_introl eq_refl)), (Ec sg2 (or_intror eq_refl)). cbn [mbind option_bind].
  assert (Hmem : forall m, zlen m = n -> exists o, frame_at m (80 * i) = Some o /\ zlen o = 80).
  { intros m Hm. unfold frame_at. change FRAME_LEN with 80. rewrite (proj2 (range_ok_spec m (80 * i) 80)) by lia.
    eexists. split; [reflexivity|]. apply length_slice; lia. }
  destruct (Hmem m1 Lm1) as (o1 & -> & Ho1), (Hmem m2 ltac:(lia)) as (o2 & -> & Ho2). cbn [mbind option_bind].
  unfold WebRtcAecm_ProcessFrame.
  rewrite (frame_indep process_block hc (aecmCore eb) farend fn fc o2 o1 (ew_queue _ _ Heb) Hf Hfn Hfc Hhc Ho2 Ho1).
  destruct (frame_queue_ok process_block hc (aecmCore eb) farend fn fc o1 (ew_queue _ _ Heb) Hf Hfn Hfc Hhc Ho1)
    as ([[r core] out] & -> & Hr & [Hol _] & _). cbn [fst snd] in Hr, Hol. subst r. cbn [mbind option_bind].
  change FRAME_LEN with 80 in Hol. rewrite !memcpy_Some by lia. cbn [mbind option_bind]. intros [= <- <-].
  eexists. split; [done|]. split; [reflexivity|]. rewrite !(slice_all out) by lia.
  replace (80 * (i + 1)) with (80 * i + 80) by lia. eapply twin_write; (done || lia).
Qed.

Lemma twin_frames hc n k : forall i e sg1 sg2, ecm_wf hc e -> ECstartup e = 0 -> signals_ok hc n sg1 -> signals_ok hc n sg2 ->
  twin (80 * i) sg1 sg2 -> 0 <= i -> i + Z.of_nat k <= 2 -> 80 * (i + Z.of_nat k) <= n ->
  exists e' sg1' sg2', process_frames k i e sg1 = Some (0, e', sg1') /\ process_frames k i e sg2 = Some (0, e', sg2') /\
    twin (80 * (i + Z.of_nat k)) sg1' sg2'.
Proof.
  induction k as [|k IH]; intros i e sg1 sg2 He Hst Hs1 Hs2 Htw Hi Hk Hn; cbn [process_frames].
  { exists e, sg1, sg2. by rewrite Z.add_0_r. }
  destruct (twin_frame hc n e sg1 sg2 i He Hst Hs1 Hs2 Htw ltac:(lia) ltac:(lia)) as (e1 & s1 & s2 & E1 & E2 & Htw1).
  assert (Harr : has_arrays sg1 /\ has_arrays sg2).
  { destruct Htw as [(? & ? & ? & ? & _) _ (? & ? & ? & ? & _) _]. split; split; by eexists. }
  destruct Harr as [A1 A2].
  destruct (process_frame_ok hc n e sg1 i He Hst Hs1 A1 ltac:(lia) ltac:(lia)) as ([[r1 e1'] s1'] & F1 & _ & He1 & S1 & G1 & _).
  destruct (process_frame_ok hc n e sg2 i He Hst Hs2 A2 ltac:(lia) ltac:(lia)) as ([[r2 e2'] s2'] & F2 & _ & _ & _ & G2 & _).
  cbn [fst snd] in He1, S1, G1, G2. rewrite E1 in F1. injection F1 as <- <- <-. rewrite E2 in F2. injection F2 as <- <- <-.
  rewrite E1, E2. cbn [mbind option_bind]. change (0 =? -1) with false. cbv iota.
  destruct (IH (i + 1) e1 s1 s2 He1 S1 G1 G2 Htw1) as (e' & t1 & t2 & E3 & E4 & H3); [lia..|].
  exists e', t1, t2. split_and!; [done|done|]. by replace (i + Z.of_nat (S k)) with (i + 1 + Z.of_nat k) by lia.
Qed.

(** ** Start-up *)

(** What the start-up mechanism leaves alone. *)
Definition settled (e : AecMobile) :=
  (sampFreq e, ecm_knownDelay e, farendOld e, initFlag e, msInSndCardBuf e, filtDelay e, aecmCore e).

Lemma ecm_settled hc e e' : ecm_wf hc e -> settled e' = settled e -> far_buf_wf (farendBuf e') ->
  10 <= msInSndCardBuf e <= 510 -> ecm_wf hc e'.
Proof.
  intros [? ? ? ? ? ? []] E Hb Hms. unfold settled in E. injection E. intros. constructor; [congruence..|].
  constructor; [congruence..|]. intros _. congruence.
Qed.

Lemma check_sound_card_ok e nb : check_sound_card e nb ⤳ fun e' =>
  settled e' = settled e /\ farendBuf e' = farendBuf e /\ ECstartup e' = ECstartup e.
Proof.
  unfold check_sound_card. cbv zeta.
  set (e1 := count_stable e).
  assert (H1 : settled e1 = settled e /\ farendBuf e1 = farendBuf e /\ ECstartup e1 = ECstartup e).
  { subst e1. unfold count_stable. cbv zeta. repeat case_match; split_and!; reflexivity. }
  clearbody e1.
  eapply (result_bind _ _ (fun e2 => settled e2 = settled e /\ farendBuf e2 = farendBuf e /\ ECstartup e2 = ECstartup e)).
  - destruct (Z.geb_spec (u64 (u64 (counter e1) * nb)) 6) as [Hge|_]; [|by apply result_ret].
    eapply result_bind; [apply (result_assert _ (fun _ => True)); [|done]|].
    + destruct (Z.eqb_spec (counter e1 * 40) 0) as [Hz|]; [|done]. replace (counter e1) with 0 in Hge by lia.
      change (u64 (u64 0 * nb)) with 0 in Hge. lia.
    + intros _ _. by apply result_ret.
  - intros e2 H2. destruct (_ >? 50); by apply result_ret.
Qed.

Lemma startup_step_ok hc e nb : ecm_wf hc e -> 10 <= msInSndCardBuf e <= 510 ->
  startup_step e nb ⤳ ecm_wf hc.
Proof.
  intros He Hms. unfold startup_step. set (filled := filled_buffers e). clearbody filled.
  eapply (result_bind _ _ (fun e1 => settled e1 = settled e /\ farendBuf e1 = farendBuf e /\ ECstartup e1 = ECstartup e)).
  { destruct (checkBuffSize e =? 0); [by apply result_ret|apply check_sound_card_ok]. }
  intros e1 (S1 & B1 & _).
  assert (He1 : ecm_wf hc e1) by (apply (ecm_settled hc e); [done|done|rewrite B1; apply He|done]).
  destruct (checkBuffSize e1 =? 0); [|by apply result_ret]. unfold start_if_filled.
  destruct (filled =? bufSizeStart e1).
  { apply result_ret. apply (ecm_settled hc e); [done|exact S1|apply He1|done]. }
  destruct (filled >? bufSizeStart e1); [|by apply result_ret].
  eapply result_bind; [exact (move_farend_ok e1 _ (ew_farend _ _ He1))|]. intros e2 (b & Hb & -> & _). apply result_ret.
  apply (ecm_settled hc e); [done|exact S1|exact Hb|done].
Qed.

(** ** The calls *)

Lemma i16_ms ms : 0 <= ms <= 500 -> 10 <= i16 (ms + 10) <= 510.
Proof. intros. rewrite i16_id by (unfold in_i16; lia). lia. Qed.

Lemma limit_delay_range ms : 0 <= (limit_delay ms).2 <= 500.
Proof. unfold limit_delay. destruct (Z.ltb_spec ms 0); [cbn; lia|]. destruct (Z.gtb_spec ms 500); cbn; lia. Qed.

Lemma Process_call_ok hc e sg n ms : ecm_wf hc e -> signals_ok hc n sg ->
  WebRtcAecm_Process (Some e) sg n ms ⤳ fun r => exists e', r.1.2 = Some e' /\ ecm_wf hc e' /\ signals_ok hc n r.2 /\
    (ECstartup e = 0 -> ECstartup e' = 0).
Proof.
  intros He Hs. unfold WebRtcAecm_Process.
  destruct (sg_noisy sg) as [noisy|] eqn:En; [|apply result_ret; by exists e].
  destruct (out_memory sg) as [mem|] eqn:Em; [|apply result_ret; by exists e].
  rewrite (ew_init _ _ He). change (negb (kInitCheck =? kInitCheck)) with false. cbv iota.
  destruct (negb (n =? 80) && negb (n =? 160)) eqn:Enn; [apply result_ret; by exists e|].
  assert (Hn : n = 80 \/ n = 160) by (breflect; lia). clear Enn.
  pose proof (limit_delay_range ms) as Hms. destruct (limit_delay ms) as [retVal ms']. cbn [snd] in Hms. cbv zeta.
  set (e1 := e <| msInSndCardBuf := i16 (ms' + 10) |>). pose proof (i16_ms ms' Hms) as Hms1.
  assert (He1 : ecm_wf hc e1) by (destruct He as [? ? ? ? ? ? []]; constructor; try assumption; by constructor).
  eapply result_bind; [apply (result_assert _ (fun _ => True)); [|done]|].
  { destruct (mult_range hc e1 He1) as [-> | ->]; done. }
  intros _ _. cbv beta.
  destruct (Z.eqb_spec (ECstartup e1) 0) as [Hst|Hst]; cbn [negb].
  - eapply result_bind; [apply (process_frames_ok hc n _ 0 e1 sg He1 Hst Hs)|].
    { split; by eexists. } { lia. } { destruct Hn as [-> | ->]; vm_compute; discriminate. }
    { destruct Hn as [-> | ->]; vm_compute; discriminate. }
    intros [[r e2] sg2] (Hr & He2 & S2 & Hs2 & _). cbn [fst snd] in Hr, He2, S2, Hs2. apply result_ret. cbn [fst snd]. by exists e2.
  - eapply result_bind; [apply (pass_through_ok hc n sg noisy mem); (done || lia)|]. intros sg2 [Hs2 _]. cbv beta.
    eapply result_bind; [exact (startup_step_ok hc e1 _ He1 Hms1)|]. intros e2 He2. apply result_ret. cbn [fst snd]. exists e2.
    split_and!; done.
Qed.

Lemma BufferFarend_ok hc e farend n : ecm_wf hc e -> (forall l, farend = Some l -> samples_ok n l) ->
  WebRtcAecm_BufferFarend (Some e) farend n ⤳ fun r => exists e', r.2 = Some e' /\ ecm_wf hc e' /\ ECstartup e' = ECstartup e.
Proof.
  intros He Hf. unfold WebRtcAecm_BufferFarend. destruct (Z.eqb_spec (WebRtcAecm_GetBufferFarendError (Some e) farend n) 0) as [E|E];
    cbn [negb]; [|apply result_ret; by exists e].
  destruct farend as [l|]; [|done]. destruct (Hf l eq_refl) as [Hl Hi]. cbn [mbind option_bind].
  eapply (result_bind _ _ (fun e1 => ecm_wf hc e1 /\ ECstartup e1 = ECstartup e)).
  { destruct (Z.eqb_spec (ECstartup e) 0) as [Hst|]; [|by apply result_ret].
    eapply result_weaken; [exact (DelayComp_ok hc e He Hst)|]. intros e1 (? & ? & _). split; [done|congruence]. }
  intros e1 [He1 S1]. cbv beta. destruct (write_farend_ok e1 l n (ew_farend _ _ He1)) as (b & c & Ew & Hb & _); [lia|done|].
  rewrite Ew. cbn [mbind option_bind]. apply result_ret. cbn [snd]. eexists. split; [done|]. split; [by apply ecm_farend|exact S1].
Qed.

(** The queues of a core that differs elsewhere. *)
Lemma queue_same hc c d : queue_inv hc c -> core_wf d ->
  (farFrameBuf d, nearNoisyFrameBuf d, nearCleanFrameBuf d, outFrameBuf d, positions d) =
  (farFrameBuf c, nearNoisyFrameBuf c, nearCleanFrameBuf c, outFrameBuf c, positions c) -> queue_inv hc d.
Proof.
  unfold positions. intros [_ [] ? ? ? ?] Hd E. injection E as E1 E2 E3 E4 E5 E6 E7 E8.
  constructor; rewrite ?E1, ?E2, ?E3, ?E4; try done. constructor; congruence.
Qed.

Lemma cng_wf c m : core_wf c -> core_wf (c <| cngMode := m |>).
Proof. intros Hc. same_core Hc. Qed.

Lemma set_gains_wf f c : core_wf c -> core_wf (set_gains f c).
Proof.
  intros Hc. pose proof Hc as [? ? ? [[] ? ? ? ?] ? ? ? ? []].
  constructor; try assumption; try same_part; [constructor; [constructor|..]; assumption|].
  constructor; try assumption. apply i16_range.
Qed.

Lemma set_config_ok hc e config : ecm_wf hc e ->
  exists e', (WebRtcAecm_set_config (Some e) config).2 = Some e' /\ ecm_wf hc e'.
Proof.
  intros He. unfold WebRtcAecm_set_config. rewrite (ew_init _ _ He). change (negb (kInitCheck =? kInitCheck)) with false. cbv iota.
  destruct (negb _ && negb _); [by exists e|]. cbv zeta.
  set (e1 := e <| aecmCore := (aecmCore e) <| cngMode := cfg_cngMode config |> |>).
  assert (He1 : ecm_wf hc e1).
  { apply ecm_core; [done| |done]. pose proof (ew_queue _ _ He) as Hq. by apply (queue_same hc (aecmCore e)); [|apply cng_wf, Hq|]. }
  clearbody e1. destruct (_ || _); [by exists e1|].
  set (e2 := e1 <| echoMode := cfg_echoMode config |>).
  assert (He2 : ecm_wf hc e2) by (destruct He1 as [? ? ? ? ? ? []]; constructor; try assumption; by constructor).
  clearbody e2. cbn [snd].
  assert (Hset : forall f, ecm_wf hc (e2 <| aecmCore := set_gains f (aecmCore e2) |>)).
  { intros f. apply ecm_core; [done| |done]. pose proof (ew_queue _ _ He2) as Hq.
    by apply (queue_same hc (aecmCore e2)); [|apply set_gains_wf, Hq|]. }
  eexists. split; [reflexivity|]. repeat case_match; done.
Qed.

Lemma InitEchoPath_ok hc e path n : ecm_wf hc e ->
  (forall l, path = Some l -> zlen l = PART_LEN1 /\ Forall ch16 l) ->
  WebRtcAecm_InitEchoPath (Some e) path n ⤳ fun r => exists e', r.2 = Some e' /\ ecm_wf hc e'.
Proof.
  intros He Hp. unfold WebRtcAecm_InitEchoPath. destruct path as [l|]; [|apply result_ret; by exists e].
  destruct (negb (n =? _)); [apply result_ret; by exists e|].
  destruct (negb _); [apply result_ret; by exists e|]. destruct (Hp l eq_refl) as [Hl Hi].
  pose proof (ew_queue _ _ He) as Hq. pose proof (qi_wf _ _ Hq) as Hc. pose proof (cw_channels _ Hc) as Hch.
  destruct (InitEchoPathCore_ok (aecmCore e) l) as (c & E & Hch' & Ef & _ & _ & N1 & N2 & N3 & N4); [apply Hch|apply Hch|done|done|].
  rewrite E. cbn [mbind option_bind]. apply result_ret. cbn [snd]. eexists. split; [done|].
  assert (Hc' : core_wf c).
  { apply core_wf_parts. apply core_wf_parts in Hc as (Hf & _ & Hl'). split_and!; [by apply (frame_wf_ext (aecmCore e))|done|].
    by apply (levels_ok_ext (aecmCore e)). }
  apply ecm_core; [done|eapply queue_inv_ext; [exact Hq|done|by apply frame_outer]|].
  unfold frame in Ef. congruence.
Qed.

(** ** Creation and initialisation *)

(** The shape of an allocated instance, initialised or not. *)
Record ecm_shape (e : AecMobile) : Prop := mkEcmShape {
  es_core : created (aecmCore e);
  es_count : element_count (farendBuf e) = kBufSizeSamp;
  es_size : 0 < element_size (farendBuf e);
  es_data : zlen (data (farendBuf e)) = element_count (farendBuf e);
  es_old : samples_ok 160 (farendOld e) }.

Lemma ecm_wf_shape hc e : ecm_wf hc e -> ecm_shape e.
Proof. intros [? ? ? [[] ? ? ?] ? Hq ?]. constructor; try done. apply core_wf_created, Hq. Qed.

(** The state [WebRtcAecm_Init] leaves. *)
Record initialised (freq : Z) (e : AecMobile) : Prop := mkInitialised {
  in_wf : forall hc, ecm_wf hc e;
  in_fresh : fresh (aecmCore e);
  in_freq : sampFreq e = freq;
  in_farend : abs (farendBuf e) = mkFifo [] (silence kBufSizeSamp);
  in_start : ECstartup e = 1;
  in_check : checkBuffSize e = 1;
  in_counters : (counter e, checkBufSizeCtr e, sum e) = (0, 0, 0);
  in_gains : supGain (aecmCore e) = 256 /\ gain_params (aecmCore e) }.

Lemma init_farend b : element_count b = kBufSizeSamp -> 0 < element_size b -> zlen (data b) = element_count b ->
  exists b', WebRtc_InitBuffer b = Some b' /\ far_buf_wf b' /\ abs b' = mkFifo [] (silence kBufSizeSamp).
Proof.
  intros Hn Hs Hd. destruct (init_refines b) as (b' & E & Hw & En & Ea); [|done..|].
  { rewrite Hn. unfold MAX_COUNT, kBufSizeSamp, BUF_SIZE_FRAMES, FRAME_LEN. lia. }
  rewrite Hn in *. exists b'. split; [done|]. split; [|done].
  constructor; [done|congruence|rewrite Ea; apply Forall_nil_2|rewrite Ea; apply Forall_replicate; unfold in_i16; lia].
Qed.

(** The fields of the state that initialisation sets. *)
Lemma initialised_fields freq e : freq = 8000 \/ freq = 16000 -> sampFreq e = freq -> initFlag e = kInitCheck ->
  mult (aecmCore e) = freq / 8000 -> far_buf_wf (farendBuf e) -> abs (farendBuf e) = mkFifo [] (silence kBufSizeSamp) ->
  samples_ok 160 (farendOld e) -> fresh (aecmCore e) -> supGain (aecmCore e) = 256 /\ gain_params (aecmCore e) ->
  (ECstartup e, checkBuffSize e, counter e, checkBufSizeCtr e, sum e, filtDelay e, ecm_knownDelay e) = (1, 1, 0, 0, 0, 0, 0) ->
  initialised freq e.
Proof.
  intros Hf E1 E2 Em Hb Ea Ho Hfr Hg E. injection E as S1 S2 S3 S4 S5 S6 S7.
  constructor; try done; [|congruence].
  intros hc. constructor; try done; [congruence|congruence|by apply fresh_queue|].
  constructor; [lia|lia|intros; congruence].
Qed.

(** The core after the default configuration. *)
Local Abbreviation default_core c := (set_gains (fun x : Z => x) (c <| cngMode := AecmTrue |>)).

Lemma default_core_fresh c : fresh c -> fresh (default_core c) /\ mult (default_core c) = mult c /\
  supGain (default_core c) = 256 /\ gain_params (default_core c).
Proof.
  intros [Hw [? ? ?] HA]. split; [|split; [reflexivity|split; [reflexivity|constructor; reflexivity]]].
  constructor; [exact (set_gains_wf (fun x => x) _ (cng_wf _ AecmTrue Hw))|constructor; assumption|exact HA].
Qed.

Lemma default_config e : initFlag e = kInitCheck ->
  WebRtcAecm_set_config (Some e) (mkAecmConfig AecmTrue 3) =
  (0, Some (e <| echoMode := 3 |> <| aecmCore := default_core (aecmCore e) |>)).
Proof. intros Hi. unfold WebRtcAecm_set_config. rewrite Hi. destruct e. reflexivity. Qed.

Lemma Init_ok e freq : ecm_shape e -> freq = 8000 \/ freq = 16000 ->
  exists e', WebRtcAecm_Init (Some e) freq = Some (0, Some e') /\ initialised freq e' /\
    farendOld e' = splice (farendOld e) 0 (zreplicate 80 0).
Proof.
  intros [Hc Hn Hsz Hd [Hol Hoi]] Hf. unfold WebRtcAecm_Init.
  destruct (negb (freq =? 8000) && negb (freq =? 16000)) eqn:Eb; [breflect; lia|]. clear Eb. cbv zeta.
  change (sampFreq (e <| sampFreq := freq |>)) with freq. change (aecmCore (e <| sampFreq := freq |>)) with (aecmCore e).
  destruct (init_fresh (aecmCore e) freq Hc Hf) as (c & Ec & Hfr & Hm & _ & _). rewrite Ec. cbn [mbind option_bind].
  change (0 =? -1) with false. cbv iota.
  match goal with |- context [WebRtc_InitBuffer (farendBuf ?x)] => change (farendBuf x) with (farendBuf e) end.
  destruct (init_farend _ Hn Hsz Hd) as (b & Eb & Hb & Ea). rewrite Eb. cbn [mbind option_bind].
  match goal with |- context [memset (farendOld ?x) _ _ _] => change (farendOld x) with (farendOld e) end.
  change (160 / 2) with 80. rewrite memset_Some by lia. cbn [mbind option_bind].
  match goal with |- context [WebRtcAecm_set_config (Some ?x)] => set (e1 := x) end.
  rewrite (default_config e1) by reflexivity. change (0 =? -1) with false. cbv iota. eexists. split; [reflexivity|].
  split; [|reflexivity]. destruct (default_core_fresh c Hfr) as (F1 & F2 & F3).
  apply initialised_fields; try reflexivity; try assumption.
  change (samples_ok 160 (splice (farendOld e) 0 (zreplicate 80 0))).
  split; [rewrite length_splice; rewrite ?length_zreplicate; lia|].
  apply Forall_splice; [done|]. apply Forall_replicate. unfold in_i16. lia.
Qed.

Definition mobile_allocs_ok (al : MobileAllocs) : Prop :=
  (exists e, ma_mobile al = Some e /\ samples_ok 160 (farendOld e)) /\ allocs_ok (ma_core al) /\
  exists d, ma_farend al = (true, Some d) /\ zlen d = kBufSizeSamp.

Lemma Create_ok al : mobile_allocs_ok al ->
  exists e, WebRtcAecm_Create al = Some (Some e) /\ ecm_shape e /\ initFlag e = 0.
Proof.
  intros ((e & Ee & Ho) & Hcore & d & Ed & Hd). unfold WebRtcAecm_Create. rewrite Ee, Ed. cbn [mbind option_bind fst snd].
  destruct (CreateCore_ok _ Hcore) as (c & -> & Hc). cbn [mbind option_bind].
  destruct (create_refines d kBufSizeSamp 2) as (b & -> & Hw & Hn & _); [|done|done|].
  { unfold MAX_COUNT, kBufSizeSamp, BUF_SIZE_FRAMES, FRAME_LEN. lia. }
  cbn [mbind option_bind]. eexists. split; [done|]. split; [|done]. by destruct Hw.
Qed.

(** ** Sequences of calls *)

(** A call of the interface on one instance. *)
Inductive ApiCall :=
  | CInit (freq : Z)
  | CBufferFarend (farend : option (list Z)) (n : Z)
  | CProcess (sg : Signals) (n ms : Z)
  | CSetConfig (config : AecmConfig)
  | CInitEchoPath (path : option (list Z)) (n : Z)
  | CGetEchoPath (path : option (list Z)) (n : Z).

(** The return value and the instance after a call. *)
Definition api_call (e : AecMobile) (call : ApiCall) : option (Z * option AecMobile) :=
  match call with
  | CInit freq => WebRtcAecm_Init (Some e) freq
  | CBufferFarend farend n => WebRtcAecm_BufferFarend (Some e) farend n
  | CProcess sg n ms => let* (r, e, _) := WebRtcAecm_Process (Some e) sg n ms in Some (r, e)
  | CSetConfig config => Some (WebRtcAecm_set_config (Some e) config)
  | CInitEchoPath path n => WebRtcAecm_InitEchoPath (Some e) path n
  | CGetEchoPath path n => let* (r, _) := WebRtcAecm_GetEchoPath (Some e) path n in Some (r, Some e)
  end.

(** The arrays passed have the length they are passed with and hold 16-bit
    samples; an echo path has a value per bin, none negative. *)
Definition call_ok (hc : bool) (call : ApiCall) : Prop :=
  match call with
  | CInit _ | CSetConfig _ => True
  | CBufferFarend farend n => forall l, farend = Some l -> samples_ok n l
  | CProcess sg n _ => signals_ok hc n sg
  | CInitEchoPath path _ => forall l, path = Some l -> zlen l = PART_LEN1 /\ Forall ch16 l
  | CGetEchoPath path _ => forall l, path = Some l -> zlen l = PART_LEN1
  end.

Definition api_inv (hc : bool) (e : AecMobile) : Prop := ecm_wf hc e \/ (ecm_shape e /\ initFlag e <> kInitCheck).

Lemma unsupported_rate e freq : freq <> 8000 -> freq <> 16000 ->
  WebRtcAecm_Init (Some e) freq = Some (AECM_BAD_PARAMETER_ERROR, Some e).
Proof.
  intros H1 H2. unfold WebRtcAecm_Init. destruct (Z.eqb_spec freq 8000), (Z.eqb_spec freq 16000); done.
Qed.

(** Without initialisation every call but [WebRtcAecm_Init] changes nothing. *)
Lemma uninitialised_call e call : initFlag e <> kInitCheck -> (forall freq, call <> CInit freq) ->
  exists r, api_call e call = Some (r, Some e) /\ r <> 0.
Proof.
  intros Hi Hc. assert (Ei : (initFlag e =? kInitCheck) = false) by by apply Z.eqb_neq.
  destruct call as [freq|farend n|sg n ms|config|path n|path n]; cbn [api_call]; [by destruct (Hc freq)|..];
    unfold WebRtcAecm_BufferFarend, WebRtcAecm_GetBufferFarendError, WebRtcAecm_Process, WebRtcAecm_set_config,
      WebRtcAecm_InitEchoPath, WebRtcAecm_GetEchoPath; rewrite ?Ei; cbn [negb].
  - destruct farend; eexists; by split.
  - destruct (sg_noisy sg), (out_memory sg); eexists; by split.
  - eexists; by split.
  - destruct path; [destruct (negb _)|]; eexists; by split.
  - destruct path; [destruct (negb _)|]; eexists; by split.
Qed.

Lemma GetEchoPath_ok hc e path n : ecm_wf hc e -> (forall l, path = Some l -> zlen l = PART_LEN1) ->
  WebRtcAecm_GetEchoPath (Some e) path n ⤳ fun r => r.1 = 0 -> r.2 = Some (channelStored (aecmCore e)).
Proof.
  intros He Hp. unfold WebRtcAecm_GetEchoPath. destruct path as [l|]; [|by apply result_ret].
  destruct (Z.eqb_spec n WebRtcAecm_echo_path_size_bytes) as [->|]; [|by apply result_ret]. cbn [negb].
  rewrite (ew_init _ _ He). change (negb (kInitCheck =? kInitCheck)) with false. cbv iota.
  pose proof (co_stored_len _ (cw_channels _ (qi_wf _ _ (ew_queue _ _ He)))) as Hs. specialize (Hp l eq_refl).
  change (WebRtcAecm_echo_path_size_bytes / 2) with PART_LEN1.
  rewrite memcpy_Some by (unfold PART_LEN1, PART_LEN in *; lia). cbn [mbind option_bind]. apply result_ret. intros _. cbn [snd].
  by rewrite slice_splice_all.
Qed.

Lemma api_call_ok hc e call : api_inv hc e -> call_ok hc call ->
  api_call e call ⤳ fun r => exists e', r.2 = Some e' /\ api_inv hc e'.
Proof.
  intros Hinv Hcall.
  assert (Hinit : ecm_shape e -> forall freq, call = CInit freq -> api_call e call ⤳ fun r => exists e', r.2 = Some e' /\ api_inv hc e').
  { intros Hsh freq ->. cbn [api_call]. destruct (decide (freq = 8000 \/ freq = 16000)) as [Hf|Hf].
    - destruct (Init_ok e freq Hsh Hf) as (e' & -> & Hi & _). apply result_ret. exists e'. split; [done|]. left. apply Hi.
    - rewrite unsupported_rate by lia. apply result_ret. by exists e. }
  destruct Hinv as [He|[Hsh Hi]].
  2:{ destruct call as [freq| | | | |] eqn:Ec; [by apply (Hinit Hsh freq)|..];
      (destruct (uninitialised_call e call Hi) as (r & E & _); [subst; done|]; subst; rewrite E; apply result_ret;
       exists e; split; [done|by right]). }
  destruct call as [freq|farend n|sg n ms|config|path n|path n]; cbn [api_call call_ok] in *.
  - apply (Hinit (ecm_wf_shape hc e He) freq eq_refl).
  - eapply result_weaken; [exact (BufferFarend_ok hc e farend n He Hcall)|]. intros r (e' & ? & ? & _). exists e'. by split; [|left].
  - eapply result_bind; [exact (Process_call_ok hc e sg n ms He Hcall)|]. intros [[r e1] sg1] (e' & E & H' & _).
    apply result_ret. exists e'. by split; [|left].
  - destruct (set_config_ok hc e config He) as (e' & E & H'). apply result_ret. exists e'. by split; [|left].
  - eapply result_weaken; [exact (InitEchoPath_ok hc e path n He Hcall)|]. intros r (e' & ? & ?). exists e'. by split; [|left].
  - eapply result_bind; [exact (GetEchoPath_ok hc e path n He Hcall)|]. intros [r path'] _. apply result_ret. exists e.
    by split; [|left].
Qed.

(** ** The end of start-up *)

(** A round: a far-end frame is buffered, then a near-end frame processed. *)
Record Round := mkRound { rd_far : list Z; rd_signals : Signals; rd_ms : Z }.

Definition round (n : Z) (e : AecMobile) (r : Round) : option AecMobile :=
  let* (_, e) := WebRtcAecm_BufferFarend (Some e) (Some (rd_far r)) n in
  let* (_, e, _) := WebRtcAecm_Process e (rd_signals r) n (rd_ms r) in
  e.

Fixpoint rounds (n : Z) (e : AecMobile) (rs : list Round) : option AecMobile :=
  match rs with [] => Some e | r :: rs => let* e := round n e r in rounds n e rs end.

Definition round_ok (hc : bool) (n : Z) (r : Round) : Prop :=
  samples_ok n (rd_far r) /\ signals_ok hc n (rd_signals r) /\ has_arrays (rd_signals r).

(** Processing in start-up: the near end is passed through, and the mechanism
    makes a step. *)
Lemma Process_startup hc e sg n ms : ecm_wf hc e -> ECstartup e <> 0 -> signals_ok hc n sg -> has_arrays sg ->
  n = 80 \/ n = 160 ->
  exists e' sg', WebRtcAecm_Process (Some e) sg n ms = Some ((limit_delay ms).1, Some e', sg') /\
    out_memory sg' = Some (default (default [] (sg_noisy sg)) (sg_clean sg)) /\
    startup_step (e <| msInSndCardBuf := i16 ((limit_delay ms).2 + 10) |>) (n / 80 / mult (aecmCore e)) = Some e' /\ ecm_wf hc e'.
Proof.
  intros He Hst Hs [[noisy En] [mem Em]] Hn. unfold WebRtcAecm_Process. rewrite En, Em.
  rewrite (ew_init _ _ He). change (negb (kInitCheck =? kInitCheck)) with false. cbv iota.
  destruct (negb (n =? 80) && negb (n =? 160)) eqn:Enn; [breflect; lia|]. clear Enn.
  pose proof (limit_delay_range ms) as Hms. destruct (limit_delay ms) as [retVal ms']. cbn [fst snd] in *. cbv zeta.
  set (e1 := e <| msInSndCardBuf := i16 (ms' + 10) |>). pose proof (i16_ms ms' Hms) as Hms1.
  assert (He1 : ecm_wf hc e1) by (destruct He as [? ? ? ? ? ? []]; constructor; try assumption; by constructor).
  change (aecmCore e1) with (aecmCore e). change (ECstartup e1) with (ECstartup e).
  assert (Hm : u64 (mult (aecmCore e)) = mult (aecmCore e) /\ (mult (aecmCore e) =? 0) = false)
    by (destruct (mult_range hc e He) as [-> | ->]; done).
  destruct Hm as [-> ->]. cbn [negb c_assert mbind option_bind]. apply Z.eqb_neq in Hst. rewrite Hst. cbn [negb].
  destruct (pass_through_ok hc n sg noisy mem ltac:(lia) Hs En Em) as (sg' & Ep & _ & Eo).
  destruct (startup_step_ok hc e1 (n / 80 / mult (aecmCore e)) He1 Hms1) as (e' & Es & He').
  exists e', sg'. rewrite Ep. cbn [mbind option_bind]. change FRAME_LEN with 80. rewrite Es. cbn [mbind option_bind default].
  by split_and!.
Qed.

Lemma ecm_delay hc e ms : ecm_wf hc e -> ecm_wf hc (e <| msInSndCardBuf := i16 ((limit_delay ms).2 + 10) |>).
Proof.
  intros He. pose proof (i16_ms _ (limit_delay_range ms)). destruct He as [? ? ? ? ? ? []]. constructor; try assumption. by constructor.
Qed.

(** The guards of a call are passed. *)
Lemma Process_running hc e sg n ms : ecm_wf hc e -> ECstartup e = 0 -> n = 80 \/ n = 160 -> has_arrays sg ->
  WebRtcAecm_Process (Some e) sg n ms =
  let* (r, aecm, sg) := process_frames (Z.to_nat (n / 80)) 0 (e <| msInSndCardBuf := i16 ((limit_delay ms).2 + 10) |>) sg in
  Some (if r =? -1 then -1 else (limit_delay ms).1, Some aecm, sg).
Proof.
  intros He Hst Hn [[noisy En] [mem Em]]. unfold WebRtcAecm_Process. rewrite En, Em.
  rewrite (ew_init _ _ He). change (negb (kInitCheck =? kInitCheck)) with false. cbv iota.
  destruct (negb (n =? 80) && negb (n =? 160)) eqn:Enn; [breflect; lia|]. clear Enn.
  destruct (limit_delay ms) as [retVal ms']. cbn [fst snd]. cbv zeta.
  set (e1 := e <| msInSndCardBuf := i16 (ms' + 10) |>).
  change (aecmCore e1) with (aecmCore e). change (ECstartup e1) with (ECstartup e). rewrite Hst.
  assert (Hm : (mult (aecmCore e) =? 0) = false) by (destruct (mult_range hc e He) as [-> | ->]; done).
  rewrite Hm. cbn [negb c_assert mbind option_bind]. reflexivity.
Qed.

(** A call with the arrays it needs returns with an output array. *)
Lemma Process_arrays hc e sg n ms : ecm_wf hc e -> signals_ok hc n sg -> has_arrays sg -> n = 80 \/ n = 160 ->
  exists r e' sg' out, WebRtcAecm_Process (Some e) sg n ms = Some (r, Some e', sg') /\ ecm_wf hc e' /\
    out_memory sg' = Some out /\ zlen out = n.
Proof.
  intros He Hs Ha Hn. destruct (Z.eq_dec (ECstartup e) 0) as [Hst|Hst].
  - rewrite (Process_running hc) by done. pose proof (ecm_delay hc e ms He) as He1. set (e1 := e <| msInSndCardBuf := _ |>) in *.
    assert (Hk : 80 * (0 + Z.of_nat (Z.to_nat (n / 80))) <= n /\ 0 + Z.of_nat (Z.to_nat (n / 80)) <= 2) by (destruct Hn as [-> | ->]; by split).
    destruct (process_frames_ok hc n (Z.to_nat (n / 80)) 0 e1 sg He1 Hst Hs Ha) as ([[r e'] sg'] & -> & _ & He' & _ & Hs' & _ & out & Eo); [lia..|].
    cbn [fst snd mbind option_bind] in *. do 4 eexists. split; [reflexivity|]. split; [done|]. split; [exact Eo|]. exact (sk_out _ _ _ Hs' _ Eo).
  - destruct (Process_startup hc e sg n ms He Hst Hs Ha Hn) as (e' & sg' & E & Eo & _ & He'). do 4 eexists. split; [exact E|].
    split; [done|]. split; [exact Eo|]. destruct Hs as [H1 H2 _ _], Ha as [[no En] _]. rewrite En. cbn [default].
    destruct (sg_clean sg) as [cl|]; [by apply H2|by apply H1].
Qed.

(** The memory of the caller after a run of frames. *)
Lemma twin_end n sg1 sg2 : twin n sg1 sg2 -> 0 <= n -> (forall l, out_memory sg1 = Some l -> zlen l = n) ->
  exists out, out_memory sg1 = Some out /\ out_memory sg2 = Some out.
Proof.
  intros [_ _ (x & y & X & Y & Hl & Ht) _] Hn Hm. exists x. split; [done|]. rewrite Y. f_equal.
  specialize (Hm x X). by rewrite !firstn_all2 in Ht by lia.
Qed.

(** The counters of the sound card check after [k] calls. *)
Record checking (k : Z) (e : AecMobile) : Prop := mkChecking {
  ch_ctr : checkBufSizeCtr e = k;
  ch_counter : 0 <= counter e <= 5;
  ch_sum : 0 <= sum e <= 3060;
  ch_sum_counter : 0 < counter e -> sum e <= 510 * counter e }.

(** Start-up after [k] rounds of [n] samples. *)
Record starting (hc : bool) (freq n k : Z) (e : AecMobile) : Prop := mkStarting {
  sr_wf : ecm_wf hc e;
  sr_freq : sampFreq e = freq;
  sr_start : ECstartup e = 1;
  sr_filled : avail (farendBuf e) = Z.min 4000 (n * k);
  sr_check : checkBuffSize e <> 0 -> checking k e;
  sr_size : checkBuffSize e = 0 -> 0 <= bufSizeStart e <= 50 }.

Lemma buffer_startup hc freq n k e far : starting hc freq n k e -> 0 <= k -> (n = 80 \/ n = 160) -> samples_ok n far ->
  exists e', WebRtcAecm_BufferFarend (Some e) (Some far) n = Some (0, Some e') /\ ecm_wf hc e' /\
    avail (farendBuf e') = Z.min 4000 (n * (k + 1)) /\ ECstartup e' = 1 /\
    (sampFreq e', checkBuffSize e', checkBufSizeCtr e', counter e', sum e', bufSizeStart e') =
    (sampFreq e, checkBuffSize e, checkBufSizeCtr e, counter e, sum e, bufSizeStart e).
Proof.
  intros [He _ Hst Hf _ _] Hk Hn [Hl Hi]. unfold WebRtcAecm_BufferFarend, WebRtcAecm_GetBufferFarendError.
  rewrite (ew_init _ _ He). change (negb (kInitCheck =? kInitCheck)) with false. cbv iota.
  destruct (negb (n =? 80) && negb (n =? 160)) eqn:Enn; [breflect; lia|]. clear Enn. cbn [negb Z.eqb mbind option_bind].
  rewrite Hst. cbn [Z.eqb mbind option_bind].
  destruct (write_farend_ok e far n (ew_farend _ _ He)) as (b & c & -> & Hb & Eb); [lia|done|].
  cbn [mbind option_bind]. eexists. split; [done|]. split; [by apply ecm_farend|]. split; [|by split].
  pose proof (far_buf_lengths _ (ew_farend _ _ He)) as (L1 & _ & _). pose proof (far_buf_lengths _ Hb) as (L2 & _ & _).
  change (avail b = Z.min 4000 (n * (k + 1))). rewrite <- L2, Eb, length_app, !length_take. lia.
Qed.

Lemma count_stable_ok k e : checking k e -> 0 <= k <= 50 -> 10 <= msInSndCardBuf e <= 510 ->
  checkBufSizeCtr (count_stable e) = k + 1 /\ 0 <= counter (count_stable e) <= 6 /\ 0 <= sum (count_stable e) <= 3060 /\
  (0 < counter (count_stable e) -> sum (count_stable e) <= 510 * counter (count_stable e)) /\
  settled (count_stable e) = settled e /\ checkBuffSize (count_stable e) = checkBuffSize e /\
  farendBuf (count_stable e) = farendBuf e /\ ECstartup (count_stable e) = ECstartup e.
Proof.
  intros [Hk Hc Hs Hsc] Hk' Hms. unfold count_stable. cbv zeta. change (counter (e <| checkBufSizeCtr := _ |>)) with (counter e).
  set (e1 := if counter e =? 0 then _ else _).
  assert (H1 : checkBufSizeCtr e1 = k + 1 /\ counter e1 = counter e /\ 0 <= sum e1 <= 3060 /\ sum e1 <= 510 * counter e /\
    settled e1 = settled e /\ checkBuffSize e1 = checkBuffSize e /\ farendBuf e1 = farendBuf e /\ ECstartup e1 = ECstartup e /\
    msInSndCardBuf e1 = msInSndCardBuf e).
  { assert (Hi : i16 (checkBufSizeCtr e + 1) = k + 1) by (rewrite i16_id; unfold in_i16; lia).
    subst e1. destruct (Z.eqb_spec (counter e) 0) as [E|E].
    - split; [exact Hi|]. split; [reflexivity|]. change (0 <= 0 <= 3060 /\ 0 <= 510 * counter e /\ settled e = settled e /\
        checkBuffSize e = checkBuffSize e /\ farendBuf e = farendBuf e /\ ECstartup e = ECstartup e /\ msInSndCardBuf e = msInSndCardBuf e).
      split_and!; try done; lia.
    - split; [exact Hi|]. split; [reflexivity|]. change (0 <= sum e <= 3060 /\ sum e <= 510 * counter e /\ settled e = settled e /\
        checkBuffSize e = checkBuffSize e /\ farendBuf e = farendBuf e /\ ECstartup e = ECstartup e /\ msInSndCardBuf e = msInSndCardBuf e).
      split_and!; try done; lia. }
  destruct H1 as (C1 & C2 & C3 & C4 & C5 & C6 & C7 & C8 & C9). clearbody e1.
  destruct (sound_card_stable (firstVal e1) (msInSndCardBuf e1)).
  - assert (Hsum : i16 (sum e1 + msInSndCardBuf e1) = sum e1 + msInSndCardBuf e1) by (apply i16_id; unfold in_i16; lia).
    assert (Hcnt : i16 (counter e1 + 1) = counter e + 1) by (rewrite i16_id; unfold in_i16; lia).
    cbn [checkBufSizeCtr counter sum]. split_and!; try assumption.
    + change (0 <= i16 (counter e1 + 1)). lia.
    + change (i16 (counter e1 + 1) <= 6). lia.
    + change (0 <= i16 (sum e1 + msInSndCardBuf e1)). lia.
    + change (i16 (sum e1 + msInSndCardBuf e1) <= 3060). lia.
    + intros _. change (i16 (sum e1 + msInSndCardBuf e1) <= 510 * i16 (counter e1 + 1)). lia.
  - split_and!; try assumption; try (cbn; lia); try apply C3.
Qed.

(** The far-end buffer size that start-up waits for is at most 50 frames. *)
Lemma start_size_range s m c : 0 <= s <= 3060 -> m = 1 \/ m = 2 -> 0 < c -> 0 <= c <= 6 ->
  0 <= i16 (Z.min (Z.quot (i32 (i32 (3 * s) * m)) (c * 40)) BUF_SIZE_FRAMES) <= 50.
Proof.
  intros Hs Hm Hc Hc'. rewrite (i32_id (3 * s)) by (unfold in_i32; lia). rewrite (i32_id (3 * s * m)) by (unfold in_i32; lia).
  rewrite Z.quot_div_nonneg by lia. assert (0 <= 3 * s * m / (c * 40)) by (apply Z.div_pos; lia).
  unfold BUF_SIZE_FRAMES. rewrite i16_id by (unfold in_i16; lia). lia.
Qed.

Lemma late_size_range ms m : 10 <= ms <= 510 -> m = 1 \/ m = 2 ->
  0 <= i16 (Z.min (Z.quot (i32 (3 * ms * m)) 40) BUF_SIZE_FRAMES) <= 50.
Proof.
  intros Hs Hm. rewrite (i32_id (3 * ms * m)) by (unfold in_i32; lia).
  rewrite Z.quot_div_nonneg by lia. assert (0 <= 3 * ms * m / 40) by (apply Z.div_pos; lia).
  unfold BUF_SIZE_FRAMES. rewrite i16_id by (unfold in_i16; lia). lia.
Qed.

Lemma check_sound_card_startup k e nb : checking k e -> checkBuffSize e <> 0 -> 0 <= k <= 50 -> 10 <= msInSndCardBuf e <= 510 ->
  nb = 1 \/ nb = 2 -> mult (aecmCore e) = 1 \/ mult (aecmCore e) = 2 ->
  check_sound_card e nb ⤳ fun e' => settled e' = settled e /\ farendBuf e' = farendBuf e /\ ECstartup e' = ECstartup e /\
    (checkBuffSize e' <> 0 -> checking (k + 1) e' /\ (k + 1) * nb <= 50) /\
    (checkBuffSize e' = 0 -> 0 <= bufSizeStart e' <= 50).
Proof.
  intros Hc Hcb Hk Hms Hnb Hm. destruct (count_stable_ok k e Hc Hk Hms) as (C1 & C2 & C3 & C4 & C5 & C6 & C7 & C8).
  unfold check_sound_card. cbv zeta.
  set (e1 := count_stable e) in *. clearbody e1.
  assert (Ec : aecmCore e1 = aecmCore e) by (unfold settled in C5; congruence).
  rewrite (u64_id (counter e1)), (u64_id (counter e1 * nb)) by lia.
  eapply (result_bind _ _ (fun e2 => settled e2 = settled e /\ farendBuf e2 = farendBuf e /\ ECstartup e2 = ECstartup e /\
    checkBufSizeCtr e2 = k + 1 /\ (checkBuffSize e2 <> 0 -> checking (k + 1) e2) /\
    (checkBuffSize e2 = 0 -> 0 <= bufSizeStart e2 <= 50))).
  { destruct (Z.geb_spec (counter e1 * nb) 6) as [Hge|Hlt].
    - eapply result_bind; [apply (result_assert _ (fun _ => True)); [|done]|].
      + destruct (Z.eqb_spec (counter e1 * 40) 0); [lia|done].
      + intros _ _. apply result_ret. split_and!; try assumption; [intros Hx; by destruct Hx|]. intros _.
        match goal with |- 0 <= bufSizeStart (_ <| bufSizeStart := ?x |> <| checkBuffSize := 0 |>) <= 50 => change (0 <= x <= 50) end.
        rewrite Ec. apply start_size_range; lia.
    - apply result_ret. split_and!; try assumption; [|congruence]. intros _. constructor; [done|lia|lia|done]. }
  intros e2 (D1 & D2 & D3 & D4 & D5 & D6). rewrite D4.
  rewrite (u64_id (k + 1)), (u64_id ((k + 1) * nb)) by lia.
  destruct (Z.gtb_spec ((k + 1) * nb) 50).
  - apply result_ret. split_and!; try assumption; [intros Hx; by destruct Hx|]. intros _.
    match goal with |- 0 <= bufSizeStart (_ <| bufSizeStart := ?x |> <| checkBuffSize := 0 |>) <= 50 => change (0 <= x <= 50) end.
    assert (Ec2 : aecmCore e2 = aecmCore e /\ msInSndCardBuf e2 = msInSndCardBuf e) by (unfold settled in D1; split; congruence).
    destruct Ec2 as [-> ->]. apply late_size_range; lia.
  - apply result_ret. split_and!; try assumption. intros Hx. split; [by apply D5|done].
Qed.

(** Blocks of 10 ms per call, by the source's division. *)
Definition blocks_10ms (freq n : Z) : Z := n / 80 / (freq / 8000).

Lemma start_if_filled_ok hc freq n k e filled : ecm_wf hc e -> sampFreq e = freq -> ECstartup e = 1 -> 10 <= msInSndCardBuf e <= 510 ->
  avail (farendBuf e) = Z.min 4000 (n * k) -> checkBuffSize e = 0 -> 0 <= bufSizeStart e <= 50 ->
  filled = Z.min 4000 (n * k) / 80 -> 80 <= n ->
  start_if_filled e filled ⤳ fun e' => ECstartup e' = 0 \/ (starting hc freq n k e' /\ k < 50).
Proof.
  intros He Hfr Hst Hms Hav Hcb Hsz -> Hn. unfold start_if_filled.
  destruct (Z.eqb_spec (Z.min 4000 (n * k) / 80) (bufSizeStart e)) as [E|E]; [apply result_ret; by left|].
  destruct (Z.gtb_spec (Z.min 4000 (n * k) / 80) (bufSizeStart e)) as [G|G].
  - eapply result_bind; [exact (move_farend_ok e _ (ew_farend _ _ He))|]. intros e2 (b & Hb & -> & _). apply result_ret. by left.
  - apply result_ret. right. assert (Hk : k < 50) by (destruct (Z.lt_ge_cases k 50); [done|];
      replace (Z.min 4000 (n * k)) with 4000 in * by nia; change (4000 / 80) with 50 in *; lia).
    split; [|done]. constructor; done.
Qed.

Lemma startup_step_starting hc freq n k e nb : ecm_wf hc e -> sampFreq e = freq -> ECstartup e = 1 -> 10 <= msInSndCardBuf e <= 510 ->
  avail (farendBuf e) = Z.min 4000 (n * (k + 1)) -> (checkBuffSize e <> 0 -> checking k e) ->
  (checkBuffSize e = 0 -> 0 <= bufSizeStart e <= 50) -> 0 <= k <= 50 -> 80 <= n -> nb = 1 \/ nb = 2 ->
  startup_step e nb ⤳ fun e' => ECstartup e' = 0 \/ (starting hc freq n (k + 1) e' /\ k < 50).
Proof.
  intros He Hfr Hst Hms Hav Hch Hsz Hk Hn Hnb. unfold startup_step.
  rewrite filled_buffers_ok by apply He. rewrite Hav.
  destruct (Z.eqb_spec (checkBuffSize e) 0) as [Ecb|Ecb].
  - cbn [mbind option_bind]. destruct (Z.eqb_spec (checkBuffSize e) 0); [|done].
    eapply result_weaken; [apply (start_if_filled_ok hc freq n (k + 1) e); auto|]. intros e' [?|[? ?]]; [by left|right; split; [done|lia]].
  - eapply result_bind; [apply (check_sound_card_startup k e nb (Hch Ecb) Ecb Hk Hms Hnb (mult_range hc e He))|].
    intros e1 (S1 & B1 & T1 & C1 & Z1).
    assert (He1 : ecm_wf hc e1) by (apply (ecm_settled hc e); [done|done|rewrite B1; apply He|done]).
    assert (Hms1 : msInSndCardBuf e1 = msInSndCardBuf e /\ sampFreq e1 = freq) by (unfold settled in S1; split; congruence).
    destruct Hms1 as [Hms1 Hfr1].
    cbv beta. destruct (Z.eqb_spec (checkBuffSize e1) 0) as [Ecb1|Ecb1].
    + eapply result_weaken; [apply (start_if_filled_ok hc freq n (k + 1) e1); rewrite ?B1, ?Hms1; auto; congruence|].
      intros e' [?|[? ?]]; [by left|right; split; [done|lia]].
    + apply result_ret. right. destruct (C1 Ecb1) as [Hc1 Hk1]. split; [|destruct Hnb; subst nb; lia].
      constructor; [done|congruence|congruence|by rewrite B1|done|done].
Qed.

Lemma startup_round hc freq n k e r : starting hc freq n k e -> 0 <= k <= 50 -> (n = 80 \/ n = 160) ->
  blocks_10ms freq n = 1 \/ blocks_10ms freq n = 2 -> round_ok hc n r ->
  exists e', round n e r = Some e' /\ ecm_wf hc e' /\ (ECstartup e' = 0 \/ (starting hc freq n (k + 1) e' /\ k < 50)).
Proof.
  intros Hs Hk Hn Hnb (Hfar & Hsig & Harr). unfold round.
  destruct (buffer_startup hc freq n k e (rd_far r) Hs ltac:(lia) Hn Hfar) as (e1 & -> & He1 & Hav & Hst & E).
  injection E as F1 F2 F3 F4 F5 F6. cbn [mbind option_bind].
  destruct (Process_startup hc e1 (rd_signals r) n (rd_ms r) He1 ltac:(lia) Hsig Harr Hn) as (e' & sg' & -> & _ & Es & He').
  cbn [mbind option_bind]. exists e'. split; [done|]. split; [done|].
  pose proof (limit_delay_range (rd_ms r)) as Hms. pose proof (i16_ms _ Hms) as Hms1.
  set (e2 := e1 <| msInSndCardBuf := _ |>) in *. pose proof Hs as [_ Hfr _ _ Hch Hsz].
  assert (He2 : ecm_wf hc e2) by (destruct He1 as [? ? ? ? ? ? []]; constructor; try assumption; by constructor).
  assert (Enb : n / 80 / mult (aecmCore e1) = blocks_10ms freq n) by (rewrite (ew_mult _ _ He1), F1, Hfr; reflexivity).
  destruct (startup_step_starting hc freq n k e2 (n / 80 / mult (aecmCore e1)) He2) as (e3 & E3 & H3).
  - change (sampFreq e1 = freq). congruence.
  - exact Hst.
  - exact Hms1.
  - exact Hav.
  - change (checkBuffSize e1 <> 0 -> checking k e2). rewrite F2. intros Hx. destruct (Hch Hx) as [? ? ? ?].
    constructor; [change (checkBufSizeCtr e1 = k)|change (0 <= counter e1 <= 5)|change (0 <= sum e1 <= 3060)|
                  change (0 < counter e1 -> sum e1 <= 510 * counter e1)]; rewrite ?F3, ?F4, ?F5; done.
  - change (checkBuffSize e1 = 0 -> 0 <= bufSizeStart e1 <= 50). by rewrite F2, F6.
  - lia.
  - lia.
  - rewrite Enb. lia.
  - rewrite E3 in Es. by simplify_eq.
Qed.

(** Once cancelling, always cancelling. *)
Lemma running_round hc n e r : ecm_wf hc e -> ECstartup e = 0 -> round_ok hc n r ->
  exists e', round n e r = Some e' /\ ecm_wf hc e' /\ ECstartup e' = 0.
Proof.
  intros He Hst (Hfar & Hsig & Harr). unfold round.
  destruct (BufferFarend_ok hc e (Some (rd_far r)) n He) as ([r1 x1] & E & e1 & Ex & He1 & S1); [by intros l [= <-]|].
  cbn [snd] in Ex. subst x1. rewrite E. cbn [mbind option_bind].
  destruct (Process_call_ok hc e1 (rd_signals r) n (rd_ms r) He1 Hsig) as ([[r2 x2] sg2] & E2 & e2 & Ex & He2 & _ & S2).
  cbn [fst snd] in Ex. subst x2. rewrite E2. cbn [mbind option_bind]. exists e2. split_and!; [done|done|]. apply S2. congruence.
Qed.

Lemma startup_rounds hc freq n rs : (n = 80 \/ n = 160) -> blocks_10ms freq n = 1 \/ blocks_10ms freq n = 2 ->
  Forall (round_ok hc n) rs -> forall k e, 0 <= k <= 51 -> ecm_wf hc e ->
  (ECstartup e = 0 \/ (starting hc freq n k e /\ k <= 50)) ->
  exists e', rounds n e rs = Some e' /\ ecm_wf hc e' /\ (51 <= k + zlen rs -> ECstartup e' = 0).
Proof.
  intros Hn Hnb. induction 1 as [|r rs Hr Hrs IH]; intros k e Hk He Hcase; cbn [rounds].
  - exists e. split_and!; [done|done|]. cbn [length]. intros Hl. destruct Hcase as [?|[? ?]]; [done|lia].
  - destruct Hcase as [Hst|[Hs Hk']].
    + destruct (running_round hc n e r He Hst Hr) as (e1 & -> & He1 & S1). cbn [mbind option_bind].
      destruct (IH 51 e1 ltac:(lia) He1 (or_introl S1)) as (e' & E & He' & Hd). exists e'. split_and!; [done|done|]. intros _. apply Hd. lia.
    + destruct (startup_round hc freq n k e r Hs ltac:(lia) Hn Hnb Hr) as (e1 & -> & He1 & Hc1). cbn [mbind option_bind].
      destruct (IH (k + 1) e1 ltac:(lia) He1) as (e' & E & He' & Hd).
      { destruct Hc1 as [?|[? ?]]; [by left|right; split; [done|lia]]. }
      exists e'. split_and!; [done|done|]. cbn [length]. intros Hl. apply Hd. lia.
Qed.

(** ** A stable sound card *)

Lemma stable_same ms : 10 <= ms <= 510 -> sound_card_stable ms ms = true.
Proof.
  intros H. assert (E : all_from (fun ms => sound_card_stable ms ms) 10 501 = true) by (vm_compute; reflexivity).
  apply (all_from_spec _ _ _ E). lia.
Qed.

(** [n] checks in a row. *)
Fixpoint checks (n : nat) (e : AecMobile) (nb : Z) : option AecMobile :=
  match n with O => Some e | S n => let* e := check_sound_card e nb in checks n e nb end.

(** After [j] checks with the delay [m]. *)
Definition counted (j m : Z) (e : AecMobile) : Prop :=
  counter e = j /\ checkBufSizeCtr e = j /\ (0 < j -> sum e = j * m /\ firstVal e = m) /\ msInSndCardBuf e = m /\ checkBuffSize e = 1.

Lemma count_stable_step j m e : counted j m e -> 0 <= j <= 5 -> 10 <= m <= 510 ->
  counted (j + 1) m (count_stable e) /\ aecmCore (count_stable e) = aecmCore e.
Proof.
  intros (E1 & E2 & E3 & E4 & E5) Hj Hm. unfold count_stable. cbv zeta.
  change (counter (e <| checkBufSizeCtr := _ |>)) with (counter e).
  set (e1 := if counter e =? 0 then _ else _).
  assert (H1 : counter e1 = j /\ checkBufSizeCtr e1 = j + 1 /\ sum e1 = j * m /\ firstVal e1 = m /\ msInSndCardBuf e1 = m /\
    checkBuffSize e1 = 1 /\ aecmCore e1 = aecmCore e).
  { assert (Hi : i16 (checkBufSizeCtr e + 1) = j + 1) by (rewrite E2, i16_id; unfold in_i16; lia).
    subst e1. destruct (Z.eqb_spec (counter e) 0) as [E|E].
    - split; [exact E1|]. split; [exact Hi|]. split; [change (0 = j * m); lia|]. split; [exact E4|]. by split_and!.
    - destruct (E3 ltac:(lia)) as [E6 E7]. split; [exact E1|]. split; [exact Hi|]. by split_and!. }
  destruct H1 as (C1 & C2 & C3 & C4 & C5 & C6 & C7). clearbody e1. rewrite C4, C5, (stable_same m Hm). split; [|exact C7].
  unfold counted. split; [change (i16 (counter e1 + 1) = j + 1); rewrite C1, i16_id; unfold in_i16; lia|].
  split; [exact C2|]. split; [|by split]. intros _. split; [|exact C4].
  change (i16 (sum e1 + m) = (j + 1) * m). rewrite C3, i16_id by (unfold in_i16; nia). lia.
Qed.

Lemma check_step j m nb e : counted j m e -> 0 <= j <= 5 -> 10 <= m <= 510 -> nb = 1 \/ nb = 2 ->
  mult (aecmCore e) = 1 \/ mult (aecmCore e) = 2 ->
  if (j + 1) * nb <? 6
  then exists e', check_sound_card e nb = Some e' /\ counted (j + 1) m e' /\ aecmCore e' = aecmCore e
  else exists e', check_sound_card e nb = Some e' /\ checkBuffSize e' = 0 /\
         bufSizeStart e' = Z.min (3 * m * mult (aecmCore e) / 40) 50.
Proof.
  intros Hc Hj Hm Hnb Hmu. destruct (count_stable_step j m e Hc Hj Hm) as [(C1 & C2 & C3 & C4 & C5) Ec].
  unfold check_sound_card. cbv zeta. set (e1 := count_stable e) in *. clearbody e1. destruct (C3 ltac:(lia)) as [C6 _].
  rewrite C1. rewrite (u64_id (j + 1)), (u64_id ((j + 1) * nb)) by lia.
  destruct (Z.ltb_spec ((j + 1) * nb) 6) as [Hlt|Hge].
  - destruct (Z.geb_spec ((j + 1) * nb) 6); [lia|]. cbn [mbind option_bind]. rewrite C2, (u64_id (j + 1)), u64_id by lia.
    destruct (Z.gtb_spec ((j + 1) * nb) 50); [lia|]. exists e1. by split_and!.
  - destruct (Z.geb_spec ((j + 1) * nb) 6); [|lia]. destruct (Z.eqb_spec ((j + 1) * 40) 0); [lia|]. cbn [negb c_assert mbind option_bind].
    match goal with |- context [checkBufSizeCtr ?x] => change (checkBufSizeCtr x) with (checkBufSizeCtr e1) end.
    rewrite C2, (u64_id (j + 1)), u64_id by lia. destruct (Z.gtb_spec ((j + 1) * nb) 50); [lia|].
    eexists. split; [reflexivity|]. split; [reflexivity|].
    match goal with |- bufSizeStart (_ <| bufSizeStart := ?x |> <| checkBuffSize := 0 |>) = _ => change (x = Z.min (3 * m * mult (aecmCore e) / 40) 50) end.
    rewrite C6, Ec. rewrite (i32_id (3 * _)) by (unfold in_i32; nia). rewrite i32_id by (unfold in_i32; nia).
    rewrite Z.quot_div_nonneg by nia. replace (3 * ((j + 1) * m) * mult (aecmCore e)) with ((j + 1) * (3 * m * mult (aecmCore e))) by lia.
    rewrite Z.div_mul_cancel_l by lia. unfold BUF_SIZE_FRAMES. apply i16_id.
    assert (0 <= 3 * m * mult (aecmCore e) / 40) by (apply Z.div_pos; nia). unfold in_i16. lia.
Qed.

Lemma checks_snoc n e nb : checks (S n) e nb = let* e := checks n e nb in check_sound_card e nb.
Proof.
  revert e. induction n as [|n IH]; intros e; [cbn [checks mbind option_bind]; by destruct (check_sound_card e nb)|].
  change (checks (S (S n)) e nb) with (let* e := check_sound_card e nb in checks (S n) e nb). cbn [checks].
  destruct (check_sound_card e nb) as [e1|]; [|done]. cbn [mbind option_bind]. apply IH.
Qed.

Lemma checks_count m nb : 10 <= m <= 510 -> (nb = 1 \/ nb = 2) -> forall n j e, counted j m e -> 0 <= j ->
  mult (aecmCore e) = 1 \/ mult (aecmCore e) = 2 -> (j + Z.of_nat n) * nb < 6 ->
  exists e', checks n e nb = Some e' /\ counted (j + Z.of_nat n) m e' /\ aecmCore e' = aecmCore e.
Proof.
  intros Hm Hnb. induction n as [|n IH]; intros j e Hc Hj Hmu Hlt; cbn [checks].
  - exists e. by rewrite Z.add_0_r.
  - pose proof (check_step j m nb e Hc ltac:(lia) Hm Hnb Hmu) as Hs.
    destruct (Z.ltb_spec ((j + 1) * nb) 6); [|lia]. destruct Hs as (e1 & -> & Hc1 & Ec1). cbn [mbind option_bind].
    destruct (IH (j + 1) e1 Hc1) as (e2 & E2 & Hc2 & Ec2); [lia|by rewrite Ec1|lia|].
    exists e2. replace (j + Z.of_nat (S n)) with (j + 1 + Z.of_nat n) by lia. split_and!; [done|done|congruence].
Qed.

(** ** The start-up that never ends *)

(** At 16 kHz a call with 80 samples counts as no block of 10 ms. *)
Definition stuck (hc : bool) (e : AecMobile) : Prop :=
  ecm_wf hc e /\ sampFreq e = 16000 /\ ECstartup e = 1 /\ checkBuffSize e = 1.

Lemma check_sound_card_none e : checkBuffSize e = 1 ->
  check_sound_card e 0 ⤳ fun e' => checkBuffSize e' = 1 /\ settled e' = settled e /\ farendBuf e' = farendBuf e /\
    ECstartup e' = ECstartup e.
Proof.
  intros He. unfold check_sound_card. cbv zeta. set (e1 := count_stable e).
  assert (H1 : checkBuffSize e1 = 1 /\ settled e1 = settled e /\ farendBuf e1 = farendBuf e /\ ECstartup e1 = ECstartup e).
  { subst e1. unfold count_stable. cbv zeta. repeat case_match; split_and!; try reflexivity; exact He. }
  clearbody e1. rewrite !Z.mul_0_r. change (u64 0) with 0. change (0 >=? 6) with false. cbv iota.
  cbn [mbind option_bind]. rewrite Z.mul_0_r. change (u64 0 >? 50) with false. cbv iota. by apply result_ret.
Qed.

Lemma stuck_round hc e r : stuck hc e -> round_ok hc 80 r -> exists e', round 80 e r = Some e' /\ stuck hc e'.
Proof.
  intros (He & Hf & Hst & Hcb) (Hfar & Hsig & Harr). unfold round, WebRtcAecm_BufferFarend, WebRtcAecm_GetBufferFarendError.
  rewrite (ew_init _ _ He). change (negb (kInitCheck =? kInitCheck)) with false. cbn [negb andb Z.eqb Pos.eqb mbind option_bind].
  rewrite Hst. cbn [Z.eqb mbind option_bind]. destruct Hfar as [Hl Hi].
  destruct (write_farend_ok e (rd_far r) 80 (ew_farend _ _ He)) as (b & c & -> & Hb & _); [lia|done|].
  cbn [mbind option_bind]. set (e1 := e <| farendBuf := b |>). assert (He1 : ecm_wf hc e1) by by apply ecm_farend.
  destruct (Process_startup hc e1 (rd_signals r) 80 (rd_ms r) He1) as (e' & sg' & -> & _ & Es & He');
    [change (ECstartup e <> 0); lia|done|done|by left|].
  cbn [mbind option_bind]. exists e'. split; [done|]. split; [done|].
  assert (Hm : 80 / 80 / mult (aecmCore e1) = 0) by (rewrite (ew_mult _ _ He1); change (sampFreq e1) with (sampFreq e); by rewrite Hf).
  rewrite Hm in Es. unfold startup_step in Es.
  change (checkBuffSize (e1 <| msInSndCardBuf := _ |>)) with (checkBuffSize e) in Es. rewrite Hcb in Es. cbn [Z.eqb] in Es.
  match type of Es with context [check_sound_card ?x 0] => destruct (check_sound_card_none x Hcb) as (e2 & E2 & C2 & S2 & _ & T2) end.
  rewrite E2 in Es. cbn [mbind option_bind] in Es. rewrite C2 in Es. injection Es as <-.
  unfold settled in S2. split_and!; [|rewrite T2; exact Hst|exact C2]. injection S2. intros. exact (eq_trans H6 Hf).
Qed.

Lemma initialised_counted freq e m : initialised freq e -> counted 0 m (e <| msInSndCardBuf := m |>).
Proof.
  intros [_ _ _ _ _ Hcb Hcnt _]. injection Hcnt as C1 C2 C3. split; [exact C1|]. split; [exact C2|]. split; [lia|]. split; [reflexivity|exact Hcb].
Qed.

Lemma initialised_mult freq e m : initialised freq e ->
  mult (aecmCore (e <| msInSndCardBuf := m |>)) = 1 \/ mult (aecmCore (e <| msInSndCardBuf := m |>)) = 2.
Proof. intros [Hw _ _ _ _ _ _ _]. exact (mult_range false e (Hw false)). Qed.

(** ** Concrete instances *)

(** An instance as allocated. *)
Definition blank_mobile : AecMobile :=
  mkAecMobile 7 7 7 (zreplicate 160 7) 7 7 7 7 7 7 7 7 7 7 7 7 7 (mkRingBuffer 0 0 4000 2 SAME_WRAP (zreplicate 4000 9)) blank_core.

Definition sample_mobile_allocs : MobileAllocs :=
  mkMobileAllocs (Some blank_mobile) sample_allocs (true, Some (zreplicate 4000 9)).

Lemma sample_mobile_allocs_ok : mobile_allocs_ok sample_mobile_allocs.
Proof.
  split; [|split; [exact sample_allocs_ok|by exists (zreplicate 4000 9)]]. exists blank_mobile. split; [done|].
  split; [done|]. apply Forall_replicate. unfold in_i16. lia.
Qed.

Lemma blank_mobile_shape : ecm_shape blank_mobile.
Proof.
  constructor; [exact blank_created|done|done|done|]. split; [done|]. apply Forall_replicate. unfold in_i16. lia.
Qed.

(** The instance as initialised at a rate. *)
Definition sample_mobile (freq : Z) : AecMobile :=
  match WebRtcAecm_Init (Some blank_mobile) freq with Some (_, Some e) => e | _ => blank_mobile end.

Lemma sample_mobile_ok freq : freq = 8000 \/ freq = 16000 -> initialised freq (sample_mobile freq).
Proof.
  intros Hf. destruct (Init_ok blank_mobile freq blank_mobile_shape Hf) as (e & E & Hi & _). unfold sample_mobile. by rewrite E.
Qed.

Lemma sample_mobile_wf hc freq : freq = 8000 \/ freq = 16000 -> ecm_wf hc (sample_mobile freq).
Proof. intros Hf. apply (in_wf _ _ (sample_mobile_ok freq Hf)). Qed.

(** Silence, written over the near end. *)
Definition silent_signals (n : Z) : Signals := mkSignals (Some (silence n)) None (Some OutNoisy).
Definition silent_round (n : Z) : Round := mkRound (silence n) (silent_signals n) 100.

Lemma silent_signals_ok n : 0 <= n -> signals_ok false n (silent_signals n) /\ has_arrays (silent_signals n).
Proof.
  intros Hn. split; [|split; by eexists]. constructor; cbn; try done; intros l [= <-]; [by apply samples_zero|].
  by apply length_zreplicate.
Qed.

Lemma silent_round_ok n : 0 <= n -> round_ok false n (silent_round n).
Proof. intros Hn. destruct (silent_signals_ok n Hn). split; [by apply samples_zero|done]. Qed.

(** ** Properties *)

(** The state after a sequence of calls. *)
Fixpoint run_calls (e : AecMobile) (calls : list ApiCall) : option AecMobile :=
  match calls with
  | [] => Some e
  | call :: calls => let* (_, e) := api_call e call in let* e := e in run_calls e calls
  end.

Lemma run_calls_ok hc calls : Forall (call_ok hc) calls -> forall e, api_inv hc e ->
  exists e', run_calls e calls = Some e' /\ api_inv hc e'.
Proof.
  induction 1 as [|call calls Hc _ IH]; intros e He; cbn [run_calls]; [by exists e|].
  destruct (api_call_ok hc e call He Hc) as ([r x] & -> & e1 & Ex & He1). cbn [snd] in Ex. subst x. cbn [mbind option_bind].
  by apply IH.
Qed.

(** C2. Safety of the interface: from [WebRtcAecm_Create] on, every sequence of
    calls - initialisation at any rate, far-end buffering, processing in start-up
    or running, configuration, setting and getting the echo path, in any order,
    with valid or invalid arguments - is defined: no access leaves an array, no
    division by zero, no assertion fails.  What is left is a well-formed instance,
    or one still to be initialised.  The arrays passed must have the length they
    are passed with, echo paths must not be negative, and the clean near end must
    be given always or never. *)
Theorem api_calls_safe al hc calls : mobile_allocs_ok al -> Forall (call_ok hc) calls ->
  exists e e', WebRtcAecm_Create al = Some (Some e) /\ run_calls e calls = Some e' /\
    ((initFlag e' = kInitCheck /\ ecm_wf hc e') \/ (initFlag e' <> kInitCheck /\ ecm_shape e')).
Proof.
  intros Hal Hcalls. destruct (Create_ok al Hal) as (e & E & Hs & Hi). exists e.
  destruct (run_calls_ok hc calls Hcalls e) as (e' & Er & He'); [right; split; [done|by rewrite Hi]|].
  exists e'. split; [done|]. split; [done|]. destruct He' as [He'|[? ?]]; [left; split; [apply He'|done]|by right].
Qed.

Definition sample_calls : list ApiCall :=
  [CSetConfig (mkAecmConfig 1 3); CInit 8000; CBufferFarend (Some (silence 80)) 80; CProcess (silent_signals 80) 80 (-5);
   CInitEchoPath None 514; CInit 44100; CBufferFarend None 80; CSetConfig (mkAecmConfig 1 9)].

Lemma api_calls_safe_witness :
  exists e e', WebRtcAecm_Create sample_mobile_allocs = Some (Some e) /\ run_calls e sample_calls = Some e' /\
    ((initFlag e' = kInitCheck /\ ecm_wf false e') \/ (initFlag e' <> kInitCheck /\ ecm_shape e')).
Proof.
  apply (api_calls_safe sample_mobile_allocs false sample_calls sample_mobile_allocs_ok).
  repeat apply Forall_cons_2; try done; [|exact (proj1 (silent_signals_ok 80 ltac:(lia)))].
  intros l [= <-]. by apply samples_zero.
Defined.

(** C5. Start-up ends: after initialisation at 8 or 16 kHz, and rounds of one
    far-end and one near-end frame of 10 or 20 ms, the canceller is running after
    at most 51 rounds, whatever delays the sound card reports and whatever the
    signals; and it keeps running. *)
Theorem startup_ends hc freq n e rs : initialised freq e -> freq = 8000 \/ freq = 16000 -> n = 80 \/ n = 160 ->
  1 <= blocks_10ms freq n -> Forall (round_ok hc n) rs -> 51 <= zlen rs ->
  exists e', rounds n e rs = Some e' /\ ecm_wf hc e' /\ ECstartup e' = 0.
Proof.
  intros Hi Hf Hn Hnb Hrs Hl.
  assert (Hnb2 : blocks_10ms freq n = 1 \/ blocks_10ms freq n = 2).
  { revert Hnb. destruct Hf as [-> | ->], Hn as [-> | ->]; vm_compute; intuition congruence. }
  pose proof Hi as [Hw _ Hfr Ha Hst Hcb Hcnt _]. injection Hcnt as C1 C2 C3. specialize (Hw hc).
  destruct (startup_rounds hc freq n rs Hn Hnb2 Hrs 0 e) as (e' & E & He' & Hd); [lia|done| |].
  { right. split; [|lia]. constructor; try done; [|by constructor; rewrite ?C1, ?C2, ?C3|rewrite Hcb; done].
    pose proof (far_buf_lengths _ (ew_farend _ _ Hw)) as (L & _ & _). rewrite Ha in L. cbn in L. lia. }
  exists e'. split_and!; [done|done|]. apply Hd. lia.
Qed.

Lemma startup_ends_witness :
  exists e', rounds 80 (sample_mobile 8000) (replicate 51 (silent_round 80)) = Some e' /\ ecm_wf false e' /\ ECstartup e' = 0.
Proof.
  apply (startup_ends false 8000 80 (sample_mobile 8000) (replicate 51 (silent_round 80)));
    [apply sample_mobile_ok; by left|by left|by left|vm_compute; discriminate| |vm_compute; discriminate].
  apply Forall_replicate, silent_round_ok. lia.
Defined.

(** At 16 kHz with 80 samples per call start-up never ends: however many
    rounds, the near end is only passed through. *)
Theorem wideband_80_never_starts hc e rs : initialised 16000 e -> Forall (round_ok hc 80) rs ->
  exists e', rounds 80 e rs = Some e' /\ ecm_wf hc e' /\ ECstartup e' = 1.
Proof.
  intros Hi Hrs. assert (Hs : stuck hc e) by (destruct Hi; by split_and!). clear Hi. revert e Hs.
  induction Hrs as [|r rs Hr _ IH]; intros e Hs; cbn [rounds]; [exists e; destruct Hs as (? & _ & ? & _); by split_and!|].
  destruct (stuck_round hc e r Hs Hr) as (e1 & -> & Hs1). by apply IH.
Qed.

Lemma wideband_80_never_starts_witness :
  exists e', rounds 80 (sample_mobile 16000) (replicate 1000 (silent_round 80)) = Some e' /\ ecm_wf false e' /\ ECstartup e' = 1.
Proof.
  apply (wideband_80_never_starts false (sample_mobile 16000) (replicate 1000 (silent_round 80)));
    [apply sample_mobile_ok; by right|]. apply Forall_replicate, silent_round_ok. lia.
Defined.

(** A stable sound card: when the check sees the same delay [m] each time it
    ends after exactly six blocks of 10 ms, and asks for three quarters of the
    delay in the far-end buffer, in frames of 80 samples, at most 50. *)
Theorem stable_delay_sets_size m nb e : counted 0 m e -> 10 <= m <= 510 -> (nb = 1%Z \/ nb = 2) ->
  mult (aecmCore e) = 1 \/ mult (aecmCore e) = 2 ->
  let n := Z.to_nat (6 / nb) in
  (exists e', checks (pred n) e nb = Some e' /\ checkBuffSize e' = 1) /\
  (exists e', checks n e nb = Some e' /\ checkBuffSize e' = 0 /\ bufSizeStart e' = Z.min (3 * m * mult (aecmCore e) / 40) 50).
Proof.
  intros Hc Hm Hnb Hmu n.
  assert (Hn : n = S (pred n) /\ (0 + Z.of_nat (pred n)) * nb < 6 /\ 6 <= (Z.of_nat (pred n) + 1) * nb /\ Z.of_nat (pred n) <= 5)
    by (subst n; destruct Hnb as [-> | ->]; split_and!; vm_compute; congruence).
  destruct Hn as (Hn & Hlt & Hge & H5).
  destruct (checks_count m nb Hm Hnb (pred n) 0 e Hc) as (e1 & E1 & Hc1 & Ec1); [lia|done|done|].
  split; [exists e1; split; [done|apply Hc1]|].
  rewrite Z.add_0_l in Hc1. pose proof (check_step _ m nb e1 Hc1 ltac:(lia) Hm Hnb) as Hs. rewrite Ec1 in Hs. specialize (Hs Hmu).
  destruct (Z.ltb_spec ((Z.of_nat (pred n) + 1) * nb) 6); [lia|]. destruct Hs as (e2 & E2 & H2).
  exists e2. split; [|done]. rewrite Hn, checks_snoc, E1. exact E2.
Qed.

Lemma stable_delay_sets_size_witness :
  let e := (sample_mobile 16000) <| msInSndCardBuf := 110 |> in
  (exists e', checks 2 e 2 = Some e' /\ checkBuffSize e' = 1) /\
  (exists e', checks 3 e 2 = Some e' /\ checkBuffSize e' = 0 /\ bufSizeStart e' = Z.min (3 * 110 * mult (aecmCore e) / 40) 50).
Proof.
  exact (stable_delay_sets_size 110 2 _ (initialised_counted 16000 (sample_mobile 16000) 110 (sample_mobile_ok 16000 (or_intror eq_refl)))
    ltac:(lia) (or_intror eq_refl) (initialised_mult 16000 (sample_mobile 16000) 110 (sample_mobile_ok 16000 (or_intror eq_refl)))).
Defined.

(** Start-up passes the near end through: the call succeeds (with a warning
    when the delay was out of range), and the output is the clean near end if
    there is one, else the noisy one, also when the output overwrites its input. *)
Theorem startup_passes_near_end hc e sg n ms : ecm_wf hc e -> ECstartup e <> 0 -> signals_ok hc n sg -> has_arrays sg ->
  n = 80 \/ n = 160 ->
  exists e' sg', WebRtcAecm_Process (Some e) sg n ms =
      Some (if (0 <=? ms) && (ms <=? 500) then 0 else AECM_BAD_PARAMETER_WARNING, Some e', sg') /\
    out_memory sg' = match sg_clean sg with Some clean => Some clean | None => sg_noisy sg end /\ ecm_wf hc e'.
Proof.
  intros He Hst Hs Harr Hn. destruct (Process_startup hc e sg n ms He Hst Hs Harr Hn) as (e' & sg' & E & Eo & _ & He').
  exists e', sg'. split; [|split; [|done]].
  - rewrite E. do 3 f_equal. unfold limit_delay. destruct (Z.ltb_spec ms 0), (Z.gtb_spec ms 500), (Z.leb_spec 0 ms), (Z.leb_spec ms 500); try lia; done.
  - rewrite Eo. destruct Harr as [[noisy ->] _]. by destruct (sg_clean sg).
Qed.

Lemma startup_passes_near_end_witness :
  exists e' sg', WebRtcAecm_Process (Some (sample_mobile 8000)) (silent_signals 160) 160 600 =
      Some (AECM_BAD_PARAMETER_WARNING, Some e', sg') /\
    out_memory sg' = Some (silence 160) /\ ecm_wf false e'.
Proof.
  pose proof (sample_mobile_ok 8000 (or_introl eq_refl)) as [Hw _ _ _ Hst _ _ _]. destruct (silent_signals_ok 160 ltac:(lia)).
  apply (startup_passes_near_end false (sample_mobile 8000) (silent_signals 160) 160 600); [apply Hw|rewrite Hst; done|done|done|by right].
Defined.

(** Processing in place: a call whose output overwrites one of its inputs, the
    noisy or the clean near end, returns the same value, leaves the same state and
    writes the same samples as a call with an output array of its own, in the
    start-up phase and after it. *)
Theorem process_in_place hc e noisy clean l place n ms : ecm_wf hc e -> n = 80 \/ n = 160 -> samples_ok n noisy ->
  (forall c, clean = Some c -> samples_ok n c) -> bool_decide (is_Some clean) = hc -> zlen l = n ->
  place = OutNoisy \/ (place = OutClean /\ is_Some clean) ->
  exists r e' sg1 sg2 out,
    WebRtcAecm_Process (Some e) (mkSignals (Some noisy) clean (Some (OutMem l))) n ms = Some (r, Some e', sg1) /\
    WebRtcAecm_Process (Some e) (mkSignals (Some noisy) clean (Some place)) n ms = Some (r, Some e', sg2) /\
    out_memory sg1 = Some out /\ out_memory sg2 = Some out.
Proof.
  intros He Hn Hno Hcl Hhc Hl Hp.
  set (sg1 := mkSignals (Some noisy) clean (Some (OutMem l))). set (sg2 := mkSignals (Some noisy) clean (Some place)).
  assert (Hs1 : signals_ok hc n sg1) by (constructor; cbn; try done; by intros ? [= <-]).
  assert (Ho2 : exists m, out_memory sg2 = Some m /\ zlen m = n).
  { destruct Hp as [-> |[-> [c ->]]]; eexists; (split; [reflexivity|]); [apply Hno|by apply Hcl]. }
  destruct Ho2 as (m & Em & Lm).
  assert (Hs2 : signals_ok hc n sg2).
  { constructor; try done; [by intros ? [= <-]|]. intros l0 E0. rewrite Em in E0. by injection E0 as <-. }
  assert (A1 : has_arrays sg1) by (split; by eexists). assert (A2 : has_arrays sg2) by (split; [by eexists|by exists m]).
  destruct (Z.eq_dec (ECstartup e) 0) as [Hst|Hst].
  - rewrite !(Process_running hc e _ n ms He Hst) by done.
    assert (Htw : twin (80 * 0) sg1 sg2).
    { constructor; [by exists noisy, noisy| |exists l, m; split_and!; [done|done|lia|done]|by exists l].
      destruct clean as [c|]; [right; by exists c, c|by left]. }
    pose proof (ecm_delay hc e ms He) as He1. set (e1 := e <| msInSndCardBuf := _ |>) in *.
    assert (Hk : 80 * (0 + Z.of_nat (Z.to_nat (n / 80))) = n /\ 0 + Z.of_nat (Z.to_nat (n / 80)) <= 2) by (destruct Hn as [-> | ->]; by split).
    destruct Hk as [Hk1 Hk2].
    destruct (twin_frames hc n (Z.to_nat (n / 80)) 0 e1 sg1 sg2 He1 Hst Hs1 Hs2 Htw) as (e' & t1 & t2 & E1 & E2 & Ht); [lia..|].
    destruct (process_frames_ok hc n (Z.to_nat (n / 80)) 0 e1 sg1 He1 Hst Hs1 A1) as ([[r e1'] t1'] & F1 & _ & _ & _ & G1 & _); [lia..|].
    rewrite E1 in F1. injection F1 as <- <- <-. rewrite Hk1 in Ht. cbn [snd] in G1.
    destruct (twin_end n t1 t2 Ht) as (out & O1 & O2); [lia|apply G1|].
    rewrite E1, E2. cbn [mbind option_bind]. by exists (limit_delay ms).1, e', t1, t2, out.
  - destruct (Process_startup hc e sg1 n ms He Hst Hs1 A1 Hn) as (e1 & t1 & E1 & O1 & S1 & _).
    destruct (Process_startup hc e sg2 n ms He Hst Hs2 A2 Hn) as (e2 & t2 & E2 & O2 & S2 & _).
    rewrite S1 in S2. injection S2 as <-. by exists (limit_delay ms).1, e1, t1, t2, (default noisy clean).
Qed.

Lemma process_in_place_witness :
  exists r e' sg1 sg2 out,
    WebRtcAecm_Process (Some (sample_mobile 8000)) (mkSignals (Some (silence 80)) None (Some (OutMem (silence 80)))) 80 40 = Some (r, Some e', sg1) /\
    WebRtcAecm_Process (Some (sample_mobile 8000)) (mkSignals (Some (silence 80)) None (Some OutNoisy)) 80 40 = Some (r, Some e', sg2) /\
    out_memory sg1 = Some out /\ out_memory sg2 = Some out.
Proof.
  destruct (silent_signals_ok 80 ltac:(lia)) as [Hs _].
  apply (process_in_place false (sample_mobile 8000) (silence 80) None (silence 80) OutNoisy 80 40);
    [apply sample_mobile_wf; by left|by left|apply (sk_noisy _ _ _ Hs _ eq_refl)|done|done|reflexivity|by left].
Defined.

(** C29. Errors. In every function that takes a handle and returns a code, a NULL handle gives [-1], which the header does not list. Then
    a missing array gives 12003. Then, for the two functions of the echo path, a size other than
    514 bytes gives 12004, and for a right size an instance that is not initialised 12002; for
    buffering and processing, an instance that is not initialised gives 12002 and
    then a frame of other than 80 or 160 samples 12004; for the configuration, an instance that is
    not initialised gives 12002, and then a comfort noise mode or an echo mode out of
    range 12004. A rate other than 8000 or 16000 gives 12004 at initialisation. All of them
    change nothing, except that a bad echo mode
    is noticed after the comfort noise mode has been set. *)
Theorem api_errors e farend sg path config freq n ms :
  (WebRtcAecm_Init None freq = Some (-1, None) /\ WebRtcAecm_BufferFarend None farend n = Some (-1, None) /\
   WebRtcAecm_GetBufferFarendError None farend n = -1 /\ WebRtcAecm_Process None sg n ms = Some (-1, None, sg) /\ WebRtcAecm_set_config None config = (-1, None) /\
   WebRtcAecm_InitEchoPath None path n = Some (-1, None) /\ WebRtcAecm_GetEchoPath None path n = Some (-1, path)) /\
  (WebRtcAecm_BufferFarend (Some e) None n = Some (AECM_NULL_POINTER_ERROR, Some e) /\
   WebRtcAecm_InitEchoPath (Some e) None n = Some (AECM_NULL_POINTER_ERROR, Some e) /\
   WebRtcAecm_GetEchoPath (Some e) None n = Some (AECM_NULL_POINTER_ERROR, None) /\
   (sg_noisy sg = None \/ out_memory sg = None ->
      WebRtcAecm_Process (Some e) sg n ms = Some (AECM_NULL_POINTER_ERROR, Some e, sg))) /\
  (initFlag e <> kInitCheck ->
     WebRtcAecm_set_config (Some e) config = (AECM_UNINITIALIZED_ERROR, Some e) /\
     (is_Some farend -> WebRtcAecm_BufferFarend (Some e) farend n = Some (AECM_UNINITIALIZED_ERROR, Some e)) /\
     (has_arrays sg -> WebRtcAecm_Process (Some e) sg n ms = Some (AECM_UNINITIALIZED_ERROR, Some e, sg)) /\
     (n = 514 -> is_Some path ->
        WebRtcAecm_InitEchoPath (Some e) path n = Some (AECM_UNINITIALIZED_ERROR, Some e) /\
        WebRtcAecm_GetEchoPath (Some e) path n = Some (AECM_UNINITIALIZED_ERROR, path))) /\
  (initFlag e = kInitCheck -> n <> 80 -> n <> 160 ->
     (is_Some farend -> WebRtcAecm_BufferFarend (Some e) farend n = Some (AECM_BAD_PARAMETER_ERROR, Some e)) /\
     (has_arrays sg -> WebRtcAecm_Process (Some e) sg n ms = Some (AECM_BAD_PARAMETER_ERROR, Some e, sg))) /\
  (freq <> 8000 -> freq <> 16000 -> WebRtcAecm_Init (Some e) freq = Some (AECM_BAD_PARAMETER_ERROR, Some e)) /\
  (n <> 514 -> is_Some path ->
     WebRtcAecm_InitEchoPath (Some e) path n = Some (AECM_BAD_PARAMETER_ERROR, Some e) /\
     WebRtcAecm_GetEchoPath (Some e) path n = Some (AECM_BAD_PARAMETER_ERROR, path)) /\
  (initFlag e = kInitCheck -> cfg_cngMode config <> 0 -> cfg_cngMode config <> 1 ->
     WebRtcAecm_set_config (Some e) config = (AECM_BAD_PARAMETER_ERROR, Some e)) /\
  (initFlag e = kInitCheck -> cfg_cngMode config = 0 \/ cfg_cngMode config = 1 ->
     cfg_echoMode config < 0 \/ 4 < cfg_echoMode config ->
     WebRtcAecm_set_config (Some e) config =
     (AECM_BAD_PARAMETER_ERROR, Some (e <| aecmCore := (aecmCore e) <| cngMode := cfg_cngMode config |> |>))).
Proof.
  unfold WebRtcAecm_BufferFarend, WebRtcAecm_GetBufferFarendError, WebRtcAecm_Process, WebRtcAecm_set_config,
    WebRtcAecm_InitEchoPath, WebRtcAecm_GetEchoPath.
  assert (Hn : n <> 80 -> n <> 160 -> negb (n =? 80) && negb (n =? 160) = true)
    by (intros; destruct (Z.eqb_spec n 80), (Z.eqb_spec n 160); done).
  split; [by split_and!|]. split; [split_and!; try done; intros [-> | ->]; [done|by destruct (sg_noisy sg)]|].
  split.
  { intros Hi. apply Z.eqb_neq in Hi. rewrite Hi. split; [done|]. split; [by intros [l ->]|]. split; [by intros [[l ->] [l' ->]]|]. by intros -> [l ->]. }
  split.
  { intros -> H1 H2. rewrite (Hn H1 H2). split; [by intros [l ->]|]. by intros [[l ->] [l' ->]]. }
  split; [intros; by apply unsupported_rate|]. split.
  { intros Hn' [l ->]. apply Z.eqb_neq in Hn'. change WebRtcAecm_echo_path_size_bytes with 514. by rewrite Hn'. }
  split.
  { intros -> H1 H2. apply Z.eqb_neq in H1, H2. change AecmFalse with 0. change AecmTrue with 1. by rewrite H1, H2. }
  intros -> H1 H2. change AecmFalse with 0. change AecmTrue with 1.
  assert (E1 : negb (cfg_cngMode config =? 0) && negb (cfg_cngMode config =? 1) = false) by (destruct H1 as [-> | ->]; done).
  assert (E2 : (cfg_echoMode config <? 0) || (cfg_echoMode config >? 4) = true)
    by (destruct (Z.ltb_spec (cfg_echoMode config) 0), (Z.gtb_spec (cfg_echoMode config) 4); (lia || done)).
  rewrite E1, E2. reflexivity.
Qed.

Lemma api_errors_witness :
  WebRtcAecm_set_config (Some blank_mobile) (mkAecmConfig 1 3) = (AECM_UNINITIALIZED_ERROR, Some blank_mobile) /\
  WebRtcAecm_GetEchoPath (Some blank_mobile) (Some [1; 2]) 514 = Some (AECM_UNINITIALIZED_ERROR, Some [1; 2]) /\
  WebRtcAecm_InitEchoPath (Some blank_mobile) (Some [1; 2]) 513 = Some (AECM_BAD_PARAMETER_ERROR, Some blank_mobile).
Proof.
  destruct (api_errors blank_mobile None (silent_signals 80) (Some [1; 2]) (mkAecmConfig 1 3) 8000 514 0) as (_ & _ & Hu & _).
  destruct (api_errors blank_mobile None (silent_signals 80) (Some [1; 2]) (mkAecmConfig 1 3) 8000 513 0) as (_ & _ & _ & _ & _ & Hs & _).
  destruct Hu as (H1 & _ & _ & H2); [discriminate|]. split; [exact H1|].
  split; [apply H2; [reflexivity|by eexists]|apply Hs; [discriminate|by eexists]].
Defined.

(** The configuration: each step of the echo mode doubles the suppression gain
    and its parameters, which keep their proportions; the comfort noise mode is
    set, and the queues, the spectra, the filters and the channel are left alone. *)
Theorem set_config_scales hc e cng mode : ecm_wf hc e -> cng = 0 \/ cng = 1 -> 0 <= mode <= 4 ->
  exists e', WebRtcAecm_set_config (Some e) (mkAecmConfig cng mode) = (0, Some e') /\ ecm_wf hc e' /\
    echoMode e' = mode /\ cngMode (aecmCore e') = cng /\
    (supGain (aecmCore e'), supGainOld (aecmCore e')) = (32 * 2 ^ mode, 32 * 2 ^ mode) /\
    (supGainErrParamA (aecmCore e'), supGainErrParamD (aecmCore e')) = (16 * (32 * 2 ^ mode), 3 * (32 * 2 ^ mode)) /\
    (supGainErrParamDiffAB (aecmCore e'), supGainErrParamDiffBD (aecmCore e')) = (8 * (32 * 2 ^ mode), 5 * (32 * 2 ^ mode)) /\
    frame (aecmCore e') = frame ((aecmCore e) <| cngMode := cng |>) /\
    channelStored (aecmCore e') = channelStored (aecmCore e) /\ farendBuf e' = farendBuf e.
Proof.
  intros He Hc Hm. destruct (set_config_ok hc e (mkAecmConfig cng mode) He) as (e' & E & He').
  exists e'. revert E. unfold WebRtcAecm_set_config. rewrite (ew_init _ _ He).
  assert (E1 : negb (cng =? AecmFalse) && negb (cng =? AecmTrue) = false) by (destruct Hc as [-> | ->]; done).
  cbn [cfg_cngMode cfg_echoMode]. rewrite E1. clear E1. assert (Hmode : mode = 0 \/ mode = 1 \/ mode = 2 \/ mode = 3 \/ mode = 4) by lia.
  intros E. split; [|split; [exact He'|]]; revert E; destruct Hmode as [-> |[-> |[-> |[-> | ->]]]]; cbv beta zeta; cbn [snd];
    intros [= <-]; try reflexivity; split_and!; reflexivity.
Qed.

Lemma set_config_scales_witness :
  exists e', WebRtcAecm_set_config (Some (sample_mobile 8000)) (mkAecmConfig 0 4) = (0, Some e') /\ ecm_wf true e' /\
    supGain (aecmCore e') = 512.
Proof.
  destruct (set_config_scales true (sample_mobile 8000) 0 4) as (e' & E & Hw & _ & _ & Hg & _);
    [apply sample_mobile_wf; by left|by left|lia|]. exists e'. split; [exact E|]. split; [exact Hw|]. exact (f_equal fst Hg).
Defined.

(** The echo path: what is set is read back, and both channels and the adaptive
    filter start from it. *)
Theorem echo_path_roundtrip hc e path mem : ecm_wf hc e -> zlen path = PART_LEN1 -> Forall ch16 path -> zlen mem = PART_LEN1 ->
  exists e', WebRtcAecm_InitEchoPath (Some e) (Some path) WebRtcAecm_echo_path_size_bytes = Some (0, Some e') /\
    WebRtcAecm_GetEchoPath (Some e') (Some mem) WebRtcAecm_echo_path_size_bytes = Some (0, Some path) /\
    channelAdapt16 (aecmCore e') = path /\ ecm_wf hc e'.
Proof.
  intros He Hp Hi Hm.
  destruct (InitEchoPath_ok hc e (Some path) WebRtcAecm_echo_path_size_bytes He) as ([r x] & E & e' & Ex & He'); [by intros l [= <-]|].
  cbn [snd] in Ex. subst x. exists e'.
  destruct (InitEchoPathCore_ok (aecmCore e) path) as (c & Ec & _ & _ & Es & Ea & _);
    [apply (qi_wf _ _ (ew_queue _ _ He))|apply (qi_wf _ _ (ew_queue _ _ He))|done|done|].
  revert E. unfold WebRtcAecm_InitEchoPath. rewrite Z.eqb_refl, (ew_init _ _ He), Ec. cbn [negb mbind option_bind]. change (kInitCheck =? kInitCheck) with true.
  cbn [negb]. intros [= <- <-]. split; [done|]. split; [|split; [exact Ea|exact He']].
  destruct (GetEchoPath_ok hc _ (Some mem) WebRtcAecm_echo_path_size_bytes He') as ([r y] & Eg & Hg); [by intros l [= <-]|].
  cbn [fst snd] in Hg. assert (Hr : r = 0).
  { revert Eg. unfold WebRtcAecm_GetEchoPath. rewrite Z.eqb_refl, (ew_init _ _ He'). change (kInitCheck =? kInitCheck) with true. cbn [negb].
    destruct (memcpy mem 0 _ 0 _); cbn [mbind option_bind]; congruence. }
  rewrite Eg, (Hg Hr), Hr. do 3 f_equal. exact Es.
Qed.

Lemma echo_path_roundtrip_witness :
  exists e', WebRtcAecm_InitEchoPath (Some (sample_mobile 8000)) (Some kChannelStored16kHz) WebRtcAecm_echo_path_size_bytes = Some (0, Some e') /\
    WebRtcAecm_GetEchoPath (Some e') (Some (silence PART_LEN1)) WebRtcAecm_echo_path_size_bytes = Some (0, Some kChannelStored16kHz) /\
    channelAdapt16 (aecmCore e') = kChannelStored16kHz /\ ecm_wf true e'.
Proof.
  destruct channel_tables as (_ & _ & T1 & T2).
  apply (echo_path_roundtrip true (sample_mobile 8000)); [apply sample_mobile_wf; by left|exact T1|exact T2|reflexivity].
Defined.

End EchoMobileSpec.
