(* ===== verification/WaveIO.v ===== *)
(** The wave files of the test program, translated from src/WaveIO.cpp and
    src/WaveIO.h.

    [Module WaveIO] models a stdio stream as its contents and a position, the
    header of a wave file as a record with its image in memory, and the class
    [CWavFileOp] as a record with one definition per method.  Memory is a list
    of bytes.  What a method stores through a pointer it returns; [None] is an
    undefined execution: a NULL stream, a store outside the caller's memory, a
    division by zero, or a recursion that outruns its fuel. *)

From S2P Require Import Prelude Float32.
From Stdlib Require Import Ascii String.
From stdpp Require Import list.

Module WaveIO.
#[local] Open Scope Z_scope.
#[local] Open Scope list_scope.

(** ** Bytes

    A byte is a [Z] from 0 to 255; words are stored with the low byte first. *)

Definition is_byte (b : Z) : Prop := 0 <= b <= 255.

Fixpoint le_bytes (n : nat) (v : Z) : list Z :=
  match n with O => [] | S n => v mod 256 :: le_bytes n (v / 256) end.

Fixpoint le_word (bs : list Z) : Z :=
  match bs with [] => 0 | b :: bs => b + 256 * le_word bs end.

(** The characters of a string literal, without the terminator. *)
Definition chars (s : string) : list Z := (fun a => Z.of_nat (nat_of_ascii a)) <$> list_ascii_of_string s.

(** The string in a [char] array ends before the first NUL; [strcmp] compares
    two of them. *)
Fixpoint c_string (l : list Z) : list Z :=
  match l with [] => [] | b :: l => if b =? 0 then [] else b :: c_string l end.
Definition strcmp_eq (a b : list Z) : bool := bool_decide (c_string a = c_string b).

Definition strchr (s : string) (c : ascii) : bool := existsb (Ascii.eqb c) (list_ascii_of_string s).

(** ** Words in memory *)

Definition load16 (mem : list Z) (p : Z) : option Z :=
  let* _ := c_assert (range_ok mem p 2) in Some (i16 (le_word (slice mem p 2))).
Definition store16 (mem : list Z) (p v : Z) : option (list Z) := memcpy mem p (le_bytes 2 v) 0 2.
Definition load32 (mem : list Z) (p : Z) : option Z :=
  let* _ := c_assert (range_ok mem p 4) in Some (le_word (slice mem p 4)).
Definition store32 (mem : list Z) (p v : Z) : option (list Z) := memcpy mem p (le_bytes 4 v) 0 4.

(** Arrays of 16-bit samples in memory. *)
Definition samples16 (xs : list Z) : list Z := mjoin (le_bytes 2 <$> xs).
Fixpoint words16 (bs : list Z) : list Z :=
  match bs with a :: b :: bs => i16 (le_word [a; b]) :: words16 bs | _ => [] end.
Definition shorts_at (mem : list Z) (p n : Z) : option (list Z) :=
  let* _ := c_assert (range_ok mem p (2 * n)) in Some (words16 (slice mem p (2 * n))).
Definition store_shorts (mem : list Z) (p : Z) (xs : list Z) : option (list Z) :=
  memcpy mem p (samples16 xs) 0 (2 * zlen xs).

(** ** Streams

    [fread] stops at the end of the file and counts the complete elements;
    [fwrite] overwrites and extends the file from the position. *)

Record File := mkFile { contents : list Z; fpos : Z }.
#[export] Instance rebuild_File : Rebuild File := fun r => mkFile (contents r) (fpos r).

Definition fread_bytes (fp : File) (n : Z) : list Z * File :=
  let bs := slice (contents fp) (fpos fp) (Z.min n (zlen (contents fp) - fpos fp)) in
  (bs, fp <| fpos := fpos fp + zlen bs |>).

Definition fread (mem : list Z) (p size n : Z) (fp : File) : option (list Z * Z * File) :=
  let (bs, fp) := fread_bytes fp (size * n) in
  let* mem := memcpy mem p bs 0 (zlen bs) in
  Some (mem, zlen bs / size, fp).

Definition fwrite (bs : list Z) (fp : File) : File :=
  mkFile (splice (contents fp) (fpos fp) bs) (fpos fp + zlen bs).

Definition rewind (fp : File) : File := fp <| fpos := 0 |>.

(** ** The header *)

Record SWavFileHead := mkHead {
  RIFF : list Z; FileLength : Z; WAVEfmt_ : list Z; fmtSize : Z; FormatCategory : Z; NChannels : Z;
  SampleRate : Z; byteRate : Z; BytesPerSample : Z; NBitsPersample : Z; data_flag : list Z; RawDataFileLength : Z }.
#[export] Instance rebuild_SWavFileHead : Rebuild SWavFileHead := fun r =>
  mkHead (RIFF r) (FileLength r) (WAVEfmt_ r) (fmtSize r) (FormatCategory r) (NChannels r)
    (SampleRate r) (byteRate r) (BytesPerSample r) (NBitsPersample r) (data_flag r) (RawDataFileLength r).

Definition head_size : Z := 44.

(** The image of a header in memory; the structure has no padding. *)
Definition encode_head (h : SWavFileHead) : list Z :=
  RIFF h ++ le_bytes 4 (FileLength h) ++ WAVEfmt_ h ++ le_bytes 4 (fmtSize h) ++ le_bytes 2 (FormatCategory h) ++
  le_bytes 2 (NChannels h) ++ le_bytes 4 (SampleRate h) ++ le_bytes 4 (byteRate h) ++ le_bytes 2 (BytesPerSample h) ++
  le_bytes 2 (NBitsPersample h) ++ data_flag h ++ le_bytes 4 (RawDataFileLength h).

(** The offsets of the members. *)
Definition off_RIFF : Z := 0.
Definition off_FileLength : Z := 4.
Definition off_WAVEfmt_ : Z := 8.
Definition off_fmtSize : Z := 16.
Definition off_FormatCategory : Z := 20.
Definition off_NChannels : Z := 22.
Definition off_SampleRate : Z := 24.
Definition off_byteRate : Z := 28.
Definition off_BytesPerSample : Z := 32.
Definition off_NBitsPersample : Z := 34.
Definition off_data : Z := 36.
Definition off_RawDataFileLength : Z := 40.

Definition decode_head (l : list Z) : SWavFileHead :=
  let word p n := le_word (slice l p n) in
  mkHead (slice l off_RIFF 4) (i32 (word off_FileLength 4)) (slice l off_WAVEfmt_ 8) (word off_fmtSize 4)
    (i16 (word off_FormatCategory 2)) (i16 (word off_NChannels 2)) (i32 (word off_SampleRate 4)) (i32 (word off_byteRate 4))
    (i16 (word off_BytesPerSample 2)) (i16 (word off_NBitsPersample 2)) (slice l off_data 4)
    (i32 (word off_RawDataFileLength 4)).

(** A store of [bs] at offset [off] of the structure. *)
Definition head_store (off : Z) (bs : list Z) (h : SWavFileHead) : SWavFileHead :=
  decode_head (splice (encode_head h) off bs).

(** [sprintf] stores the string and its terminator. *)
Definition sprintf_head (off : Z) (s : string) (h : SWavFileHead) : SWavFileHead :=
  head_store off (chars s ++ [0]) h.

(** ** The class *)

Record CWavFileOp := mkWav { m_head : SWavFileHead; m_fp : option File; m_DATApos : Z; m_FileStatus : Z }.
#[export] Instance rebuild_CWavFileOp : Rebuild CWavFileOp := fun r =>
  mkWav (m_head r) (m_fp r) (m_DATApos r) (m_FileStatus r).

(** [fread(&m_head.member, n, 1, m_fp)] *)
Definition fread_head (off n : Z) (w : CWavFileOp) : option CWavFileOp :=
  let* fp := m_fp w in
  let (bs, fp) := fread_bytes fp n in
  Some (w <| m_head := head_store off bs (m_head w) |> <| m_fp := Some fp |>).

(** The loop that reads a chunk one byte at a time. *)
Definition skip_chunk (fp : File) (n : Z) : File :=
  for_pure (fun _ fp => (fread_bytes fp 1).2) 0 (Z.to_nat n) fp.

Fixpoint Scan2Data (fuel : nat) (w : CWavFileOp) : option (Z * CWavFileOp) :=
  match fuel with
  | O => None
  | S fuel =>
      if negb (m_FileStatus w =? 0) then Some (m_FileStatus w, w)
      else if strcmp_eq (data_flag (m_head w) ++ [0]) (chars "data") then Some (m_FileStatus w, w)
      else
        let* fp := m_fp w in
        let w := w <| m_fp := Some (skip_chunk fp (RawDataFileLength (m_head w))) |> in
        let* w := fread_head off_data 4 w in
        let* w := fread_head off_RawDataFileLength 4 w in
        let* (_, w) := Scan2Data fuel w in
        Some (m_FileStatus w, w)
  end.

(** Skips the part of the format chunk after its first 16 bytes, by a buffer of
    32 bytes. *)
Definition skip_extra (w : CWavFileOp) : option CWavFileOp :=
  if fmtSize (m_head w) >? 16 then
    let* fp := m_fp w in
    let (bs, fp) := fread_bytes fp (fmtSize (m_head w) - 16) in
    let* _ := c_assert (zlen bs <=? 32) in
    Some (w <| m_fp := Some fp |>)
  else Some w.

(** The first tag after the format, and the place of the data. *)
Definition find_data (fuel : nat) (w : CWavFileOp) : option CWavFileOp :=
  let* w := fread_head off_data 4 w in
  let* w := fread_head off_RawDataFileLength 4 w in
  let* (_, w) := Scan2Data fuel w in
  let* fp := m_fp w in
  Some (w <| m_DATApos := fpos fp |>).

(** The format and the place of the data, for a file with the right tags. *)
Definition read_format (fuel : nat) (w : CWavFileOp) : option CWavFileOp :=
  let w := w <| m_FileStatus := 0 |> in
  let* w := fread_head off_fmtSize 4 w in
  let* w := fread_head off_FormatCategory 2 w in
  let* w := fread_head off_NChannels 2 w in
  let* w := fread_head off_SampleRate 4 w in
  let* w := fread_head off_byteRate 4 w in
  let* w := fread_head off_BytesPerSample 2 w in
  let* w := fread_head off_NBitsPersample 2 w in
  let* w := skip_extra w in
  find_data fuel w.

(** The constructor: [fresh] is what the memory of the object holds, [fp] the
    result of [fopen]. *)
Definition CWavFileOp_open (fuel : nat) (fresh : CWavFileOp) (fp : option File) (mode : string) : option CWavFileOp :=
  let w := fresh <| m_fp := fp |> in
  match fp with
  | None => Some (w <| m_FileStatus := -2 |>)
  | Some _ =>
      if strchr mode "r" then
        let* w := fread_head off_RIFF 4 w in
        let* w := fread_head off_FileLength 4 w in
        let* w := fread_head off_WAVEfmt_ 8 w in
        let riff := RIFF (m_head w) ++ [0] in
        let wavefmt := take 7 (WAVEfmt_ (m_head w)) ++ [0] in
        if strcmp_eq riff (chars "RIFF") && strcmp_eq wavefmt (chars "WAVEfmt") then read_format fuel w
        else Some (w <| m_FileStatus := -1 |>)
      else if strchr mode "w" then
        let h := decode_head (zreplicate head_size 0) in
        let h := sprintf_head off_RIFF "RIFF" h in
        let h := sprintf_head off_WAVEfmt_ "WAVEfmt " h in
        let h := sprintf_head off_data "data" h in
        Some (w <| m_head := h |> <| m_FileStatus := 0 |>)
      else Some w
  end.

(** [head] is what the caller's structure holds before. *)
Definition ReadHeader (w : CWavFileOp) (head : SWavFileHead) : Z * SWavFileHead :=
  (m_FileStatus w, if m_FileStatus w =? 0 then m_head w else head).

Definition write_bytes (bs : list Z) (w : CWavFileOp) : option CWavFileOp :=
  let* fp := m_fp w in Some (w <| m_fp := Some (fwrite bs fp) |>).

Definition WriteHeader (w : CWavFileOp) (head : SWavFileHead) : option (Z * CWavFileOp) :=
  if m_FileStatus w =? 0 then
    let w := w <| m_head := head |> in
    let* w := write_bytes (encode_head (m_head w)) w in
    Some (m_FileStatus w, w)
  else Some (m_FileStatus w, w).

(** ** Samples

    The caller's array is at [p] of its memory [mem]; [len] is an [int] that
    [fread] takes as a [size_t]. *)

(** [int ReadSample(short *Data, int len)] *)
Definition ReadSample_short (w : CWavFileOp) (mem : list Z) (p len : Z) : option (Z * list Z * CWavFileOp) :=
  if m_FileStatus w =? 0 then
    let* fp := m_fp w in
    let* (mem, n, fp) := fread mem p 2 (u64 len) fp in
    Some (i32 n, mem, w <| m_fp := Some fp |>)
  else Some (m_FileStatus w, mem, w).

(** [Data[i] *= 32767.0]: the product is a [double]. *)
Definition scale_sample (b : Z) : Z :=
  f32_bits (f32_of_f64 (f64_mul (f64_of_f32 (f32_of_bits b)) (f64_of_Z 32767))).

Definition scale_step (p i : Z) (mem : list Z) : option (list Z) :=
  let* b := load32 mem (p + 4 * i) in store32 mem (p + 4 * i) (scale_sample b).

Definition ReadFloatSample (w : CWavFileOp) (mem : list Z) (p len : Z) : option (Z * list Z * CWavFileOp) :=
  let* (n, mem, w) :=
    (if m_FileStatus w =? 0 then
       let* fp := m_fp w in
       let* (mem, n, fp) := fread mem p 4 (u64 len) fp in
       Some (i32 n, mem, w <| m_fp := Some fp |>)
     else Some (m_FileStatus w, mem, w)) in
  let* mem := for_loop (scale_step p) 0 (Z.to_nat n) mem in
  Some (n, mem, w).

(** [read_len /= size * m_head.NChannels], in [size_t] *)
Definition per_channel (w : CWavFileOp) (size read_len : Z) : option Z :=
  let d := u64 (size * NChannels (m_head w)) in
  let* _ := c_assert (negb (d =? 0)) in
  Some (i32 (u64 read_len / d)).

(** [int ReadSample(unsigned char *Data, int len)] *)
Definition ReadSample (w : CWavFileOp) (mem : list Z) (p len : Z) : option (Z * list Z * CWavFileOp) :=
  if m_FileStatus w =? 0 then
    if FormatCategory (m_head w) =? 3 then
      let* (n, mem, w) := ReadFloatSample w mem p (i32 (len * NChannels (m_head w))) in
      let* n := per_channel w 4 n in Some (n, mem, w)
    else if FormatCategory (m_head w) =? 1 then
      let* (n, mem, w) := ReadSample_short w mem p (i32 (len * NChannels (m_head w))) in
      let* n := per_channel w 2 n in Some (n, mem, w)
    else Some (m_FileStatus w, mem, w)
  else Some (m_FileStatus w, mem, w).

(** [fwrite(Data, size, len, m_fp)] from the array at [p] of [mem] *)
Definition write_array (w : CWavFileOp) (mem : list Z) (p size len : Z) : option CWavFileOp :=
  if m_FileStatus w =? 0 then
    let n := size * u64 len in
    let* _ := c_assert (range_ok mem p n) in
    write_bytes (slice mem p n) w
  else Some w.

Definition WriteSample (w : CWavFileOp) (mem : list Z) (p len : Z) : option (Z * CWavFileOp) :=
  let* w := write_array w mem p 2 len in
  let h := m_head w in
  let h := h <| RawDataFileLength := i32 (RawDataFileLength h + i32 (len * 2)) |> in
  let h := h <| FormatCategory := 1 |> in
  Some (m_FileStatus w, w <| m_head := h |>).

Definition WriteFloatSample (w : CWavFileOp) (mem : list Z) (p len : Z) : option (Z * CWavFileOp) :=
  let* w := write_array w mem p 4 len in
  let h := m_head w in
  let h := h <| RawDataFileLength := i32 (RawDataFileLength h + i32 (len * 4)) |> in
  let h := h <| FormatCategory := 3 |> in
  Some (m_FileStatus w, w <| m_head := h |>).

(** ** The final header *)

Definition set_bits (h : SWavFileHead) : SWavFileHead :=
  if FormatCategory h =? 3 then h <| NBitsPersample := 32 |>
  else if FormatCategory h =? 1 then h <| NBitsPersample := 16 |> else h.

(** The header for [outCh] channels at [samplerate]. *)
Definition finish_head (h : SWavFileHead) (outCh samplerate : Z) : SWavFileHead :=
  let h := set_bits h in
  let h := h <| fmtSize := 16 |> in
  let h := h <| NChannels := i16 outCh |> in
  let h := h <| BytesPerSample := i16 (c_div (i32 (outCh * NBitsPersample h)) 8) |> in
  let h := h <| SampleRate := samplerate |> in
  let h := h <| FileLength := i32 (RawDataFileLength h + 36) |> in
  h <| byteRate := i32 (BytesPerSample h * samplerate) |>.

(** The header goes to the beginning of the file. *)
Definition write_front (w : CWavFileOp) (h : SWavFileHead) : option (Z * CWavFileOp) :=
  let* fp := m_fp w in
  let* w := write_bytes (encode_head h) (mkWav h (Some (rewind fp)) (m_DATApos w) (m_FileStatus w)) in
  Some (m_FileStatus w, w).

(** Keeps the rate; the second argument is not used. *)
Definition UpdateHeader (w : CWavFileOp) (outCh datanum : Z) : option (Z * CWavFileOp) :=
  if m_FileStatus w =? 0 then write_front w (finish_head (m_head w) outCh (SampleRate (m_head w)))
  else Some (m_FileStatus w, w).

Definition UpdateHeader_new (w : CWavFileOp) (outCh samplerate : Z) : option (Z * CWavFileOp) :=
  if m_FileStatus w =? 0 then write_front w (finish_head (m_head w) outCh samplerate)
  else Some (m_FileStatus w, w).

(** [fsetpos(m_fp, &m_DATApos)] *)
Definition LoopHead (w : CWavFileOp) : option (Z * CWavFileOp) :=
  let* fp := m_fp w in
  Some (0, w <| m_fp := Some (fp <| fpos := m_DATApos w |>) |>).

(** The destructor leaves the contents of the file. *)
Definition CWavFileOp_close (w : CWavFileOp) : option (list Z) := contents <$> m_fp w.

End WaveIO.
