(* ===== verification/WaveIOSpec.v ===== *)
(** Properties of the wave files of the test program: words in memory, the image
    of the header, opening a file and finding its data, reading back what was
    written. *)

From S2P Require Import Prelude Float32 WaveIO.
From Stdlib Require Import Ascii String.
From stdpp Require Import list.

Module WaveIOSpec.
Import WaveIO.
#[local] Open Scope Z_scope.
#[local] Open Scope list_scope.

(** ** Words *)

Lemma length_le_bytes n v : length (le_bytes n v) = n.
Proof. revert v. induction n as [|n IH]; intros v; cbn; [done|]. by rewrite IH. Qed.

Lemma le_bytes_ok n v : Forall is_byte (le_bytes n v).
Proof.
  revert v. induction n as [|n IH]; intros v; cbn [le_bytes]; constructor; [|done].
  unfold is_byte. pose proof (Z.mod_pos_bound v 256). lia.
Qed.

Lemma le_word_bytes n v : le_word (le_bytes n v) = v mod 256 ^ Z.of_nat n.
Proof.
  revert v. induction n as [|n IH]; intros v; cbn [le_bytes le_word]; [by rewrite Z.mod_1_r|].
  rewrite IH, Nat2Z.inj_succ, Z.pow_succ_r by lia. rewrite Z.rem_mul_r by lia. lia.
Qed.

Lemma low_high a x : 0 <= a < 256 -> (a + 256 * x) mod 256 = a /\ (a + 256 * x) / 256 = x.
Proof. intros. dlia. Qed.

Lemma le_bytes_mod n v : le_bytes n (v mod 256 ^ Z.of_nat n) = le_bytes n v.
Proof.
  revert v. induction n as [|n IH]; intros v; cbn [le_bytes]; [done|].
  rewrite Nat2Z.inj_succ, Z.pow_succ_r by lia. rewrite Z.rem_mul_r by (try apply Z.pow_nonzero; lia).
  destruct (low_high (v mod 256) ((v / 256) mod 256 ^ Z.of_nat n)) as [-> ->]; [apply Z.mod_pos_bound; lia|]. by rewrite IH.
Qed.

Lemma le_word_range bs : Forall is_byte bs -> 0 <= le_word bs < 256 ^ zlen bs.
Proof.
  induction 1 as [|b bs Hb _ IH]; cbn [le_word length]; [lia|]. rewrite Nat2Z.inj_succ, Z.pow_succ_r by lia.
  unfold is_byte in Hb. lia.
Qed.

Lemma le_bytes_word bs : Forall is_byte bs -> le_bytes (length bs) (le_word bs) = bs.
Proof.
  induction 1 as [|b bs Hb _ IH]; cbn [length le_word le_bytes]; [done|]. unfold is_byte in Hb.
  destruct (low_high b (le_word bs)) as [-> ->]; [lia|]. by rewrite IH.
Qed.

Lemma word16_id v : in_i16 v -> i16 (le_word (le_bytes 2 v)) = v.
Proof. intros. rewrite le_word_bytes. change (256 ^ Z.of_nat 2) with 65536. cint_lia. Qed.

Lemma word32_id v : in_i32 v -> i32 (le_word (le_bytes 4 v)) = v.
Proof. intros. rewrite le_word_bytes. change (256 ^ Z.of_nat 4) with 4294967296. cint_lia. Qed.

Lemma word32u_id v : in_u32 v -> le_word (le_bytes 4 v) = v.
Proof. intros. rewrite le_word_bytes. change (256 ^ Z.of_nat 4) with 4294967296. apply Z.mod_small. rng. Qed.

(** ** The header *)

Record head_ok (h : SWavFileHead) : Prop := mkHeadOk {
  ho_riff : length (RIFF h) = 4%nat; ho_wave : length (WAVEfmt_ h) = 8%nat; ho_data : length (data_flag h) = 4%nat;
  ho_length : in_i32 (FileLength h); ho_fmt : in_u32 (fmtSize h); ho_format : in_i16 (FormatCategory h);
  ho_channels : in_i16 (NChannels h); ho_rate : in_i32 (SampleRate h); ho_brate : in_i32 (byteRate h);
  ho_frame : in_i16 (BytesPerSample h); ho_bits : in_i16 (NBitsPersample h); ho_raw : in_i32 (RawDataFileLength h) }.

Lemma length_encode_head h : head_ok h -> zlen (encode_head h) = head_size.
Proof.
  intros [H1 H2 H3 _ _ _ _ _ _ _ _ _]. unfold encode_head. rewrite !length_app, !length_le_bytes, H1, H2, H3. done.
Qed.

(** The lists of the header as their elements. *)
Lemma head_lists h : head_ok h -> exists a b c d e f g i j k l m n o p q,
  RIFF h = [a; b; c; d] /\ WAVEfmt_ h = [e; f; g; i; j; k; l; m] /\ data_flag h = [n; o; p; q].
Proof.
  intros [H1 H2 H3 _ _ _ _ _ _ _ _ _].
  destruct (RIFF h) as [|? [|? [|? [|? [|]]]]]; try done.
  destruct (WAVEfmt_ h) as [|? [|? [|? [|? [|? [|? [|? [|? [|]]]]]]]]]; try done.
  destruct (data_flag h) as [|? [|? [|? [|? [|]]]]]; try done. by do 16 eexists.
Qed.

Ltac open_head h :=
  let E1 := fresh in let E2 := fresh in let E3 := fresh in
  match goal with H : head_ok h |- _ =>
    destruct (head_lists h H) as (? & ? & ? & ? & ? & ? & ? & ? & ? & ? & ? & ? & ? & ? & ? & ? & E1 & E2 & E3)
  end; destruct h; cbn in E1, E2, E3; subst.

(** Each member lies at its offset. *)
Lemma head_members h : head_ok h ->
  slice (encode_head h) off_RIFF 4 = RIFF h /\ slice (encode_head h) off_FileLength 4 = le_bytes 4 (FileLength h) /\
  slice (encode_head h) off_WAVEfmt_ 8 = WAVEfmt_ h /\ slice (encode_head h) off_fmtSize 4 = le_bytes 4 (fmtSize h) /\
  slice (encode_head h) off_FormatCategory 2 = le_bytes 2 (FormatCategory h) /\
  slice (encode_head h) off_NChannels 2 = le_bytes 2 (NChannels h) /\
  slice (encode_head h) off_SampleRate 4 = le_bytes 4 (SampleRate h) /\
  slice (encode_head h) off_byteRate 4 = le_bytes 4 (byteRate h) /\
  slice (encode_head h) off_BytesPerSample 2 = le_bytes 2 (BytesPerSample h) /\
  slice (encode_head h) off_NBitsPersample 2 = le_bytes 2 (NBitsPersample h) /\
  slice (encode_head h) off_data 4 = data_flag h /\
  slice (encode_head h) off_RawDataFileLength 4 = le_bytes 4 (RawDataFileLength h).
Proof. intros Hok. open_head h. split_and!; reflexivity. Qed.

Lemma decode_encode_head h : head_ok h -> decode_head (encode_head h) = h.
Proof.
  intros Hok. unfold decode_head. cbv zeta. destruct (head_members h Hok) as (-> & -> & -> & -> & -> & -> & -> & -> & -> & -> & -> & ->).
  destruct Hok. rewrite !word32_id, !word16_id, word32u_id by assumption. by destruct h.
Qed.

(** A member is set by a store at its offset. *)
Lemma store_member off bs h h' : head_ok h' -> splice (encode_head h) off bs = encode_head h' -> head_store off bs h = h'.
Proof. intros Hok E. unfold head_store. rewrite E. by apply decode_encode_head. Qed.

Ltac member Hok := apply store_member; [destruct Hok; by constructor|open_head_of Hok; reflexivity]
with open_head_of Hok := match type of Hok with head_ok ?h => open_head h end.

Section stores.
Context (h : SWavFileHead) (Hok : head_ok h).

Lemma store_riff bs : length bs = 4%nat -> head_store off_RIFF bs h = h <| RIFF := bs |>.
Proof. intros Hl. destruct bs as [|? [|? [|? [|? [|]]]]]; try done. member Hok. Qed.
Lemma store_wave bs : length bs = 8%nat -> head_store off_WAVEfmt_ bs h = h <| WAVEfmt_ := bs |>.
Proof. intros Hl. destruct bs as [|? [|? [|? [|? [|? [|? [|? [|? [|]]]]]]]]]; try done. member Hok. Qed.
Lemma store_data bs : length bs = 4%nat -> head_store off_data bs h = h <| data_flag := bs |>.
Proof. intros Hl. destruct bs as [|? [|? [|? [|? [|]]]]]; try done. member Hok. Qed.
Lemma store_length v : in_i32 v -> head_store off_FileLength (le_bytes 4 v) h = h <| FileLength := v |>.
Proof. intros Hv. member Hok. Qed.
Lemma store_fmt v : in_u32 v -> head_store off_fmtSize (le_bytes 4 v) h = h <| fmtSize := v |>.
Proof. intros Hv. member Hok. Qed.
Lemma store_format v : in_i16 v -> head_store off_FormatCategory (le_bytes 2 v) h = h <| FormatCategory := v |>.
Proof. intros Hv. member Hok. Qed.
Lemma store_channels v : in_i16 v -> head_store off_NChannels (le_bytes 2 v) h = h <| NChannels := v |>.
Proof. intros Hv. member Hok. Qed.
Lemma store_rate v : in_i32 v -> head_store off_SampleRate (le_bytes 4 v) h = h <| SampleRate := v |>.
Proof. intros Hv. member Hok. Qed.
Lemma store_brate v : in_i32 v -> head_store off_byteRate (le_bytes 4 v) h = h <| byteRate := v |>.
Proof. intros Hv. member Hok. Qed.
Lemma store_frame v : in_i16 v -> head_store off_BytesPerSample (le_bytes 2 v) h = h <| BytesPerSample := v |>.
Proof. intros Hv. member Hok. Qed.
Lemma store_bits v : in_i16 v -> head_store off_NBitsPersample (le_bytes 2 v) h = h <| NBitsPersample := v |>.
Proof. intros Hv. member Hok. Qed.
Lemma store_raw v : in_i32 v -> head_store off_RawDataFileLength (le_bytes 4 v) h = h <| RawDataFileLength := v |>.
Proof. intros Hv. member Hok. Qed.
Lemma store_nothing off : 0 <= off <= head_size -> head_store off [] h = h.
Proof.
  intros Ho. apply store_member; [done|]. unfold splice. cbn [length app]. rewrite Nat.add_0_r. apply take_drop.
Qed.
End stores.

(** ** Reading *)

(** [c] holds [bs] at position [p], then [rest]. *)
Definition at_pos (c : list Z) (p : Z) (bs rest : list Z) : Prop :=
  0 <= p <= zlen c /\ drop (Z.to_nat p) c = bs ++ rest.

Lemma at_pos_len c p bs rest : at_pos c p bs rest -> p + zlen bs + zlen rest = zlen c.
Proof. intros [Hp E]. apply (f_equal length) in E. rewrite length_drop, length_app in E. lia. Qed.

Lemma at_pos_next c p bs rest : at_pos c p bs rest -> at_pos c (p + zlen bs) [] rest.
Proof.
  intros H. pose proof (at_pos_len _ _ _ _ H). destruct H as [Hp E]. split; [lia|].
  rewrite Z2Nat.inj_add, <- drop_drop, E, Nat2Z.id by lia. apply drop_app_length.
Qed.

Lemma at_pos_split c p bs bs' rest : at_pos c p [] (bs ++ bs' ++ rest) -> at_pos c p bs (bs' ++ rest).
Proof. done. Qed.

Lemma fread_bytes_at c p bs rest n : at_pos c p bs rest -> n = zlen bs \/ (rest = [] /\ zlen bs <= n) ->
  fread_bytes (mkFile c p) n = (bs, mkFile c (p + zlen bs)).
Proof.
  intros H Hn. pose proof (at_pos_len _ _ _ _ H). destruct H as [Hp E]. unfold fread_bytes. cbn [contents fpos].
  assert (Hs : slice c p (Z.min n (zlen c - p)) = bs).
  { unfold slice. rewrite E. destruct Hn as [-> |[-> Hn]].
    - rewrite Z.min_l by lia. rewrite Nat2Z.id. apply take_app_length.
    - rewrite app_nil_r in *. apply firstn_all2. cbn [length] in *. lia. }
  rewrite Hs. reflexivity.
Qed.

Lemma fread_head_at off n bs rest h c p d s : at_pos c p bs rest -> zlen bs = n ->
  fread_head off n (mkWav h (Some (mkFile c p)) d s) = Some (mkWav (head_store off bs h) (Some (mkFile c (p + n))) d s).
Proof.
  intros H Hn. unfold fread_head. cbn [m_fp mbind option_bind]. rewrite (fread_bytes_at c p bs rest) by (done || lia).
  by rewrite Hn.
Qed.

(** At the end of the file nothing is stored. *)
Lemma fread_head_eof off n h c d s : head_ok h -> 0 <= n -> 0 <= off <= head_size ->
  fread_head off n (mkWav h (Some (mkFile c (zlen c))) d s) = Some (mkWav h (Some (mkFile c (zlen c))) d s).
Proof.
  intros Hok Hn Ho. unfold fread_head. cbn [m_fp mbind option_bind].
  rewrite (fread_bytes_at c (zlen c) [] []).
  - cbn [length]. rewrite Z.add_0_r. rewrite store_nothing by done. done.
  - split; [lia|]. rewrite Nat2Z.id. by apply drop_all.
  - right. by split.
Qed.

Lemma skip_bytes_at c k : forall i p, 0 <= p -> Z.of_nat k <= zlen c - p ->
  for_pure (fun _ fp => (fread_bytes fp 1).2) i k (mkFile c p) = mkFile c (p + Z.of_nat k).
Proof.
  induction k as [|k IH]; intros i p Hp Hk; cbn [for_pure]; [by rewrite Z.add_0_r|].
  assert (H : exists b l, at_pos c p [b] l).
  { destruct (drop (Z.to_nat p) c) as [|b l] eqn:E; [apply (f_equal length) in E; rewrite length_drop in E; cbn [length] in E; lia|].
    exists b, l. split; [lia|done]. }
  destruct H as (b & l & H). rewrite (fread_bytes_at c p [b] l) by (done || by left). cbn [snd length].
  rewrite IH by lia. f_equal. lia.
Qed.

Lemma skip_chunk_at c n p : 0 <= p -> 0 <= n <= zlen c - p -> skip_chunk (mkFile c p) n = mkFile c (p + n).
Proof. intros Hp Hn. unfold skip_chunk. rewrite skip_bytes_at by lia. f_equal. lia. Qed.

(** ** The layout of a wave file *)

(** A chunk that is not the data: its tag and its bytes. *)
Record Chunk := mkChunk { ck_id : list Z; ck_data : list Z }.
Record chunk_ok (c : Chunk) : Prop := mkChunkOk {
  co_id : length (ck_id c) = 4%nat; co_tag : strcmp_eq (ck_id c ++ [0]) (chars "data") = false;
  co_size : zlen (ck_data c) <= 2147483647 }.

Definition chunk_bytes (c : Chunk) : list Z := ck_id c ++ le_bytes 4 (zlen (ck_data c)) ++ ck_data c.

(** The tags and the format of [h]. *)
Definition format_bytes (h : SWavFileHead) : list Z :=
  RIFF h ++ le_bytes 4 (FileLength h) ++ WAVEfmt_ h ++ le_bytes 4 (fmtSize h) ++ le_bytes 2 (FormatCategory h) ++
  le_bytes 2 (NChannels h) ++ le_bytes 4 (SampleRate h) ++ le_bytes 4 (byteRate h) ++ le_bytes 2 (BytesPerSample h) ++
  le_bytes 2 (NBitsPersample h).

(** A wave file: [extra] is the part of the format chunk after its first 16
    bytes, [chunks] stand between format and data. *)
Definition wave_bytes (h : SWavFileHead) (extra : list Z) (chunks : list Chunk) (payload : list Z) : list Z :=
  format_bytes h ++ extra ++ mjoin (chunk_bytes <$> chunks) ++ data_flag h ++ le_bytes 4 (RawDataFileLength h) ++ payload.

Record wave_ok (h : SWavFileHead) (extra : list Z) : Prop := mkWaveOk {
  wo_head : head_ok h; wo_riff : RIFF h = chars "RIFF"; wo_wave : WAVEfmt_ h = chars "WAVEfmt ";
  wo_extra : zlen extra = Z.max 0 (fmtSize h - 16); wo_fits : zlen extra <= 32 }.

Lemma wave_bytes_plain h payload : wave_bytes h [] [] payload = encode_head h ++ payload.
Proof. unfold wave_bytes, format_bytes, encode_head. cbn [mjoin list_join fmap list_fmap app]. by rewrite <- !app_assoc. Qed.

(** ** Opening *)

(** [h] with another chunk's tag and length. *)
Definition tagged (h : SWavFileHead) (id : list Z) (n : Z) : SWavFileHead := h <| data_flag := id |> <| RawDataFileLength := n |>.

Lemma tagged_ok h id n : head_ok h -> length id = 4%nat -> in_i32 n -> head_ok (tagged h id n).
Proof. intros [] ? ?. by constructor. Qed.

(** Reading a tag and a length. *)
Lemma read_tag h id n id' n' rest c p d s : head_ok h -> length id = 4%nat -> in_i32 n -> length id' = 4%nat -> in_i32 n' ->
  at_pos c p id' (le_bytes 4 n' ++ rest) ->
  (let* w := fread_head off_data 4 (mkWav (tagged h id n) (Some (mkFile c p)) d s) in fread_head off_RawDataFileLength 4 w) =
    Some (mkWav (tagged h id' n') (Some (mkFile c (p + 8))) d s) /\ at_pos c (p + 8) [] rest.
Proof.
  intros Hok Hl Hn Hl' Hn' H. rewrite (fread_head_at _ _ id' (le_bytes 4 n' ++ rest)) by (done || lia). cbn [mbind option_bind].
  pose proof (at_pos_next _ _ _ _ H) as H1. rewrite Hl' in H1. change (Z.of_nat 4) with 4 in H1.
  rewrite store_data by (try done; by apply tagged_ok).
  rewrite (fread_head_at _ _ (le_bytes 4 n') rest) by (done || by rewrite length_le_bytes).
  change ((tagged h id n) <| data_flag := id' |>) with (tagged h id' n).
  rewrite store_raw by (try done; by apply tagged_ok).
  apply at_pos_split in H1. pose proof (at_pos_next _ _ (le_bytes 4 n') rest H1) as H2. rewrite length_le_bytes in H2.
  replace (p + 8) with (p + 4 + 4) by lia. done.
Qed.

(** One turn of the scan. *)
Lemma Scan2Data_turn h id n ck rest fuel c p d : head_ok h -> length id = 4%nat -> in_i32 n -> chunk_ok ck ->
  at_pos c p (ck_data ck) (id ++ le_bytes 4 n ++ rest) ->
  Scan2Data (S fuel) (mkWav (tagged h (ck_id ck) (zlen (ck_data ck))) (Some (mkFile c p)) d 0) =
  (let* (_, w) := Scan2Data fuel (mkWav (tagged h id n) (Some (mkFile c (p + zlen (ck_data ck) + 8))) d 0) in
   Some (m_FileStatus w, w)) /\ at_pos c (p + zlen (ck_data ck) + 8) [] rest.
Proof.
  intros Hok Hid Hn [Hl Ht Hz] H. cbn [Scan2Data].
  change (m_FileStatus _) with 0 at 1. change (data_flag (m_head _)) with (ck_id ck) at 1.
  rewrite Ht. change (negb (0 =? 0)) with false. cbv iota. cbn [m_fp mbind option_bind].
  change (RawDataFileLength (m_head _)) with (zlen (ck_data ck)).
  pose proof (at_pos_len _ _ _ _ H) as Hlen. pose proof (proj1 H) as Hp. rewrite skip_chunk_at by lia.
  pose proof (at_pos_next _ _ _ _ H) as H1. apply at_pos_split in H1.
  destruct (read_tag h (ck_id ck) (zlen (ck_data ck)) id n rest c (p + zlen (ck_data ck)) d 0) as [E H2]; try done; [rng|].
  split; [|done]. cbv zeta. cbn [mbind option_bind] in E |- *.
  change ((mkWav (tagged h (ck_id ck) (zlen (ck_data ck))) (Some (mkFile c p)) d 0) <| m_fp := Some (mkFile c (p + zlen (ck_data ck))) |>)
    with (mkWav (tagged h (ck_id ck) (zlen (ck_data ck))) (Some (mkFile c (p + zlen (ck_data ck)))) d 0).
  destruct (fread_head off_data 4 _) as [w|]; [|done]. cbn [mbind option_bind] in E |- *. by rewrite E.
Qed.

(** The scan ends at once at the data. *)
Lemma Scan2Data_here h fuel fp d : strcmp_eq (data_flag h ++ [0]) (chars "data") = true ->
  Scan2Data (S fuel) (mkWav h fp d 0) = Some (0, mkWav h fp d 0).
Proof. intros H. cbn [Scan2Data m_FileStatus m_head]. rewrite H. done. Qed.

Lemma tagged_self h : tagged h (data_flag h) (RawDataFileLength h) = h.
Proof. by destruct h. Qed.

(** The tag and the length that stand first in [chunks], else those of [h]. *)
Definition first_tag (h : SWavFileHead) (chunks : list Chunk) : list Z * Z :=
  match chunks with [] => (data_flag h, RawDataFileLength h) | ck :: _ => (ck_id ck, zlen (ck_data ck)) end.

(** The scan finds the data behind the chunks. *)
Lemma Scan2Data_finds h payload chunks : head_ok h -> data_flag h = chars "data" -> Forall chunk_ok chunks ->
  forall fuel c p d, (length chunks < fuel)%nat ->
  at_pos c p [] (match chunks with [] => payload | ck :: cks =>
    ck_data ck ++ mjoin (chunk_bytes <$> cks) ++ data_flag h ++ le_bytes 4 (RawDataFileLength h) ++ payload end) ->
  Scan2Data fuel (mkWav (tagged h (first_tag h chunks).1 (first_tag h chunks).2) (Some (mkFile c p)) d 0) =
  Some (0, mkWav h (Some (mkFile c (zlen c - zlen payload))) d 0).
Proof.
  intros Hok Htag. induction 1 as [|ck cks Hck Hcks IH]; intros fuel c p d Hf Hat;
    (destruct fuel as [|fuel]; [cbn [length] in Hf; lia|]); cbn [first_tag fst snd].
  { rewrite tagged_self, Scan2Data_here by (by rewrite Htag). pose proof (at_pos_len _ _ _ _ Hat) as Hl. cbn [length] in Hl.
    do 4 f_equal. f_equal. lia. }
  cbn [length] in Hf. apply at_pos_split in Hat. pose proof Hok as [_ _ Hd _ _ _ _ _ _ _ _ Hr].
  destruct cks as [|ck' cks].
  - cbn [mjoin list_join fmap list_fmap app] in Hat.
    destruct (Scan2Data_turn h (data_flag h) (RawDataFileLength h) ck payload fuel c p d Hok Hd Hr Hck Hat) as [-> H1].
    specialize (IH fuel c _ d ltac:(cbn [length]; lia) H1). cbn [first_tag fst snd] in IH. by rewrite IH.
  - inversion Hcks as [|? ? Hck' _]; subst. destruct Hck' as [Hl' _ Hz'].
    cbn [mjoin list_join fmap list_fmap] in Hat. unfold chunk_bytes at 1 in Hat. rewrite <- !app_assoc in Hat.
    destruct (Scan2Data_turn h (ck_id ck') (zlen (ck_data ck')) ck _ fuel c p d Hok Hl' ltac:(rng) Hck Hat) as [-> H1].
    specialize (IH fuel c _ d ltac:(cbn [length] in *; lia) H1). cbn [first_tag fst snd] in IH. by rewrite IH.
Qed.

(** The first tag of [chunks] and what follows it. *)
Lemma chunks_first h chunks payload :
  mjoin (chunk_bytes <$> chunks) ++ data_flag h ++ le_bytes 4 (RawDataFileLength h) ++ payload =
  (first_tag h chunks).1 ++ le_bytes 4 (first_tag h chunks).2 ++ match chunks with [] => payload | ck :: cks =>
    ck_data ck ++ mjoin (chunk_bytes <$> cks) ++ data_flag h ++ le_bytes 4 (RawDataFileLength h) ++ payload end.
Proof.
  destruct chunks as [|ck cks]; cbn [mjoin list_join fmap list_fmap first_tag fst snd]; [done|].
  unfold chunk_bytes at 1. by rewrite <- !app_assoc.
Qed.

Lemma first_tag_ok h chunks : head_ok h -> Forall chunk_ok chunks ->
  length (first_tag h chunks).1 = 4%nat /\ in_i32 (first_tag h chunks).2.
Proof. intros [] [|ck cks [] _]; cbn [first_tag fst snd]; split; (done || rng). Qed.

Lemma at_pos_take c p bs rest : at_pos c p [] (bs ++ rest) -> at_pos c p bs rest.
Proof. done. Qed.

(** Reads the next member, whose bytes stand first in [H]. *)
Ltac read_member H st :=
  apply at_pos_take in H; erewrite (fread_head_at _ _ _ _ _ _ _ _ _ H) by (rewrite ?length_le_bytes; reflexivity || lia);
  cbn [mbind option_bind]; rewrite st by (assumption || (constructor; assumption));
  match goal with |- context [mkWav ?g _ _ _] =>
    let g' := eval cbn beta iota delta [update RIFF FileLength WAVEfmt_ fmtSize FormatCategory NChannels SampleRate byteRate
      BytesPerSample NBitsPersample data_flag RawDataFileLength] in g in change g with g' end;
  apply at_pos_next in H; rewrite ?length_le_bytes in H;
  repeat match goal with E : length ?l = _ |- _ => rewrite E in H end.

Lemma skip_extra_ok h extra rest c p d : zlen extra = Z.max 0 (fmtSize h - 16) -> zlen extra <= 32 -> at_pos c p extra rest ->
  skip_extra (mkWav h (Some (mkFile c p)) d 0) = Some (mkWav h (Some (mkFile c (p + zlen extra))) d 0).
Proof.
  intros He Hf Hat. unfold skip_extra. cbn [m_head m_fp]. destruct (Z.gtb_spec (fmtSize h) 16).
  - cbn [mbind option_bind]. rewrite (fread_bytes_at _ _ _ _ _ Hat) by lia. destruct (Z.leb_spec (zlen extra) 32); [|lia]. done.
  - replace (zlen extra) with 0 by lia. by rewrite Z.add_0_r.
Qed.

(** The format of [h] is read over any format. *)
Lemma read_format_ok h extra tail fuel c p d s id n fs fc nc sr br bps nb :
  wave_ok h extra -> head_ok (mkHead (RIFF h) (FileLength h) (WAVEfmt_ h) fs fc nc sr br bps nb id n) ->
  at_pos c p [] (le_bytes 4 (fmtSize h) ++ le_bytes 2 (FormatCategory h) ++ le_bytes 2 (NChannels h) ++ le_bytes 4 (SampleRate h) ++
    le_bytes 4 (byteRate h) ++ le_bytes 2 (BytesPerSample h) ++ le_bytes 2 (NBitsPersample h) ++ extra ++ tail) ->
  read_format fuel (mkWav (mkHead (RIFF h) (FileLength h) (WAVEfmt_ h) fs fc nc sr br bps nb id n) (Some (mkFile c p)) d s) =
  find_data fuel (mkWav (tagged h id n) (Some (mkFile c (zlen c - zlen tail))) d 0).
Proof.
  intros [Hok _ _ Hex Hfit] H0 Hat. pose proof Hok as [? ? ? ? ? ? ? ? ? ? ? ?]. destruct H0 as [? ? ? ? ? ? ? ? ? ? ? ?].
  cbn [RIFF FileLength WAVEfmt_ fmtSize FormatCategory NChannels SampleRate byteRate BytesPerSample NBitsPersample data_flag RawDataFileLength] in *.
  unfold read_format. match goal with |- context [?w <| m_FileStatus := 0 |>] => 
    change (w <| m_FileStatus := 0 |>) with (mkWav (m_head w) (m_fp w) (m_DATApos w) 0) end. cbn [m_head m_fp m_DATApos].
  read_member Hat store_fmt. read_member Hat store_format. read_member Hat store_channels. read_member Hat store_rate.
  read_member Hat store_brate. read_member Hat store_frame. read_member Hat store_bits.
  match goal with |- context [skip_extra (mkWav ?g _ _ _)] => change g with (tagged h id n) end.
  apply at_pos_take in Hat. erewrite (skip_extra_ok _ extra) by (exact Hat || done). cbn [mbind option_bind].
  pose proof (at_pos_len _ _ _ _ Hat). do 4 f_equal. f_equal. lia.
Qed.

(** Opening a file with the right tags reads its format. *)
Lemma open_format h extra tail fuel fresh : wave_ok h extra -> head_ok (m_head fresh) ->
  let c := format_bytes h ++ extra ++ tail in
  CWavFileOp_open fuel fresh (Some (mkFile c 0)) "r" =
  find_data fuel (mkWav (tagged h (data_flag (m_head fresh)) (RawDataFileLength (m_head fresh)))
    (Some (mkFile c (zlen c - zlen tail))) (m_DATApos fresh) 0) /\ at_pos c (zlen c - zlen tail) [] tail.
Proof.
  intros Hw Hfr c. pose proof Hw as [Hok Hri Hwa _ _]. pose proof Hok as [? ? ? ? ? ? ? ? ? ? ? ?].
  assert (Hat : at_pos c 0 [] c) by (split; [lia|done]).
  assert (E : c = format_bytes h ++ extra ++ tail) by done. unfold format_bytes in E. rewrite <- !app_assoc in E.
  assert (Htail : at_pos c (zlen c - zlen tail) [] tail).
  { subst c. rewrite app_assoc. split; [rewrite length_app; lia|]. apply drop_app_length'. rewrite length_app. lia. }
  clearbody c. rewrite E in Hat at 2. clear E. split; [|done].
  destruct fresh as [h0 fp0 d0 s0]. cbn [m_head m_DATApos] in Hfr |- *. destruct h0. pose proof Hfr as [? ? ? ? ? ? ? ? ? ? ? ?].
  cbn [RIFF FileLength WAVEfmt_ fmtSize FormatCategory NChannels SampleRate byteRate BytesPerSample NBitsPersample data_flag RawDataFileLength] in *.
  unfold CWavFileOp_open. change (strchr "r" "r") with true. cbv iota zeta.
  match goal with |- context [?w <| m_fp := ?f |>] => 
    change (w <| m_fp := f |>) with (mkWav (m_head w) f (m_DATApos w) (m_FileStatus w)) end. cbn [m_head m_DATApos m_FileStatus].
  read_member Hat store_riff. read_member Hat store_length. read_member Hat store_wave.
  match goal with |- context [mkWav ?g _ _ _] => set (g0 := g) end.
  change (RIFF (m_head _)) with (RIFF h). change (WAVEfmt_ (m_head _)) with (WAVEfmt_ h). rewrite Hri, Hwa.
  match goal with |- (if ?b then _ else _) = _ => change b with true end. cbv iota. subst g0.
  by eapply read_format_ok.
Qed.

(** Opening a wave file for reading: the header is that of the file, and the
    stream stands at the first sample. *)
Lemma open_wave h extra chunks payload fuel fresh : wave_ok h extra -> data_flag h = chars "data" -> Forall chunk_ok chunks ->
  (length chunks < fuel)%nat -> head_ok (m_head fresh) ->
  let c := wave_bytes h extra chunks payload in
  CWavFileOp_open fuel fresh (Some (mkFile c 0)) "r" =
  Some (mkWav h (Some (mkFile c (zlen c - zlen payload))) (zlen c - zlen payload) 0).
Proof.
  intros Hw Htag Hcks Hf Hfr c. subst c. unfold wave_bytes. set (tail := mjoin _ ++ _). set (c := format_bytes h ++ extra ++ tail).
  destruct (open_format h extra tail fuel fresh Hw Hfr) as [E0 Hat]. fold c in Hat, E0. rewrite E0. clear E0. clearbody c.
  subst tail. rewrite chunks_first in Hat at 2. unfold find_data. pose proof (wo_head _ _ Hw) as Hok.
  destruct (first_tag_ok h chunks Hok Hcks) as [Hl1 Hn1]. apply at_pos_take in Hat.
  edestruct (read_tag h _ _ _ _ _ c _ (m_DATApos fresh) 0 Hok (ho_data _ Hfr) (ho_raw _ Hfr) Hl1 Hn1 Hat) as [E H1].
  destruct (fread_head off_data 4 _) as [w|]; [|done]. cbn [mbind option_bind] in E |- *. rewrite E. cbn [mbind option_bind].
  by rewrite (Scan2Data_finds h payload chunks Hok Htag Hcks fuel c _ _ Hf H1).
Qed.

(** ** No data chunk *)

Lemma fread_eof c n : 0 <= n -> fread_bytes (mkFile c (zlen c)) n = ([], mkFile c (zlen c)).
Proof.
  intros Hn. rewrite (fread_bytes_at c (zlen c) [] []).
  - cbn [length]. by rewrite Z.add_0_r.
  - split; [lia|]. rewrite Nat2Z.id. by apply drop_all.
  - by right.
Qed.

Lemma skip_eof c n : skip_chunk (mkFile c (zlen c)) n = mkFile c (zlen c).
Proof.
  unfold skip_chunk. generalize (Z.to_nat n) as k. intros k. generalize 0 as i.
  induction k as [|k IH]; intros i; cbn [for_pure]; [done|]. rewrite fread_eof by lia. apply IH.
Qed.

(** At the end of the file the scan calls itself for ever. *)
Lemma Scan2Data_eof h c d fuel : head_ok h -> strcmp_eq (data_flag h ++ [0]) (chars "data") = false ->
  Scan2Data fuel (mkWav h (Some (mkFile c (zlen c))) d 0) = None.
Proof.
  intros Hok Ht. induction fuel as [|fuel IH]; cbn [Scan2Data m_FileStatus m_head]; [done|]. rewrite Ht.
  change (negb (0 =? 0)) with false. cbv iota. cbn [m_fp mbind option_bind]. rewrite skip_eof.
  match goal with |- context [?w <| m_fp := ?f |>] =>
    change (w <| m_fp := f |>) with (mkWav (m_head w) f (m_DATApos w) (m_FileStatus w)) end. cbn [m_head m_DATApos m_FileStatus]. cbv zeta.
  do 2 (rewrite fread_head_eof by (done || by compute); cbn [mbind option_bind]). by rewrite IH.
Qed.

Lemma Scan2Data_misses h chunks : head_ok h -> Forall chunk_ok chunks -> forall fuel c p d ck, chunk_ok ck ->
  at_pos c p (ck_data ck) (mjoin (chunk_bytes <$> chunks)) ->
  Scan2Data fuel (mkWav (tagged h (ck_id ck) (zlen (ck_data ck))) (Some (mkFile c p)) d 0) = None.
Proof.
  intros Hok. induction 1 as [|ck' cks Hck' _ IH]; intros fuel c p d ck Hck Hat; (destruct fuel as [|fuel]; [done|]).
  - pose proof Hck as [Hl Ht Hz]. pose proof (at_pos_len _ _ _ _ Hat) as Hlen. pose proof (proj1 Hat). cbn [mjoin list_join fmap list_fmap length] in Hlen.
    cbn [Scan2Data]. change (m_FileStatus _) with 0 at 1. change (data_flag (m_head _)) with (ck_id ck) at 1. rewrite Ht.
    change (negb (0 =? 0)) with false. cbv iota. cbn [m_fp mbind option_bind].
    change (RawDataFileLength (m_head _)) with (zlen (ck_data ck)). rewrite skip_chunk_at by lia.
    replace (p + zlen (ck_data ck)) with (zlen c) by lia. cbv zeta.
    match goal with |- context [?w <| m_fp := ?f |>] =>
      change (w <| m_fp := f |>) with (mkWav (m_head w) f (m_DATApos w) (m_FileStatus w)) end. cbn [m_head m_DATApos m_FileStatus].
    assert (Hto : head_ok (tagged h (ck_id ck) (zlen (ck_data ck)))) by (apply tagged_ok; (done || rng)).
    do 2 (rewrite fread_head_eof by (done || by compute); cbn [mbind option_bind]). by rewrite Scan2Data_eof.
  - pose proof Hck' as [Hl' _ Hz']. cbn [mjoin list_join fmap list_fmap] in Hat. unfold chunk_bytes at 1 in Hat. rewrite <- !app_assoc in Hat.
    destruct (Scan2Data_turn h (ck_id ck') (zlen (ck_data ck')) ck _ fuel c p d Hok Hl' ltac:(rng) Hck Hat) as [-> H1].
    by rewrite (IH fuel c _ d ck' Hck' H1).
Qed.

Lemma open_without_data h extra ck chunks fuel fresh : wave_ok h extra -> chunk_ok ck -> Forall chunk_ok chunks -> head_ok (m_head fresh) ->
  CWavFileOp_open fuel fresh (Some (mkFile (format_bytes h ++ extra ++ mjoin (chunk_bytes <$> ck :: chunks)) 0)) "r" = None.
Proof.
  intros Hw Hck Hcks Hfr. set (tail := mjoin _). destruct (open_format h extra tail fuel fresh Hw Hfr) as [-> Hat].
  set (c := format_bytes h ++ extra ++ tail) in *. clearbody c. pose proof (wo_head _ _ Hw) as Hok. pose proof Hck as [Hl Ht Hz].
  unfold find_data. subst tail. 
  set (q := zlen c - _) in *. clearbody q. cbn [mjoin list_join fmap list_fmap] in Hat. unfold chunk_bytes at 1 in Hat.
  rewrite <- !app_assoc in Hat. apply at_pos_take in Hat.
  edestruct (read_tag h _ _ _ _ _ c _ (m_DATApos fresh) 0 Hok (ho_data _ Hfr) (ho_raw _ Hfr) Hl (ltac:(rng) : in_i32 (zlen (ck_data ck))) Hat) as [E H1].
  destruct (fread_head off_data 4 _) as [w|]; [|done]. cbn [mbind option_bind] in E |- *. rewrite E. cbn [mbind option_bind].
  by rewrite (Scan2Data_misses h chunks Hok Hcks fuel c _ _ ck Hck H1).
Qed.

(** ** Writing *)

Lemma length_samples16 xs : zlen (samples16 xs) = 2 * zlen xs.
Proof. induction xs as [|x xs IH]; [done|]. change (samples16 (x :: xs)) with (le_bytes 2 x ++ samples16 xs). rewrite length_app, length_le_bytes. cbn [length]. lia. Qed.

Lemma samples16_app xs ys : samples16 (xs ++ ys) = samples16 xs ++ samples16 ys.
Proof. unfold samples16. by rewrite fmap_app, join_app. Qed.

Lemma slice_self {A} (l : list A) n : n = zlen l -> slice l 0 n = l.
Proof. intros ->. unfold slice. rewrite Nat2Z.id. apply firstn_all. Qed.

Lemma splice_end {A} (c bs : list A) : splice c (zlen c) bs = c ++ bs.
Proof. unfold splice. rewrite Nat2Z.id, firstn_all, drop_ge by lia. by rewrite app_nil_r. Qed.

(** An object that has written [c], with the header [h] in memory. *)
Definition writing (h : SWavFileHead) (c : list Z) (d : Z) : CWavFileOp := mkWav h (Some (mkFile c (zlen c))) d 0.

Lemma open_new fuel fresh : exists h, CWavFileOp_open fuel fresh (Some (mkFile [] 0)) "wb" = Some (writing h [] (m_DATApos fresh)).
Proof. eexists. reflexivity. Qed.

Ltac wav_simpl := cbn [update m_head m_fp m_DATApos m_FileStatus mbind option_bind contents fpos].

Lemma WriteHeader_new h0 h d : WriteHeader (writing h0 [] d) h = Some (0, writing h (encode_head h) d).
Proof.
  unfold WriteHeader, write_bytes, writing. wav_simpl. change (0 =? 0) with true. cbv iota. wav_simpl.
  unfold fwrite. wav_simpl. by rewrite (splice_end []).
Qed.

(** The header after samples of [n] bytes. *)
Definition recounted (h : SWavFileHead) (n : Z) : SWavFileHead :=
  h <| RawDataFileLength := i32 (RawDataFileLength h + n) |> <| FormatCategory := 1 |>.

Lemma WriteSample_ok h c d mem p len : 0 <= p -> 0 <= len <= 1073741823 -> p + 2 * len <= zlen mem ->
  WriteSample (writing h c d) mem p len = Some (0, writing (recounted h (2 * len)) (c ++ slice mem p (2 * len)) d).
Proof.
  intros Hp Hl Hm. unfold WriteSample, write_array, writing. wav_simpl. change (0 =? 0) with true. cbv iota.
  rewrite u64_id, (i32_id (len * 2)) by (unfold in_i32; lia). rewrite (proj2 (range_ok_spec mem p (2 * len))) by lia.
  unfold c_assert, write_bytes. wav_simpl. unfold fwrite. wav_simpl.
  rewrite splice_end, (Z.mul_comm len), length_app, Nat2Z.inj_add, length_slice by lia. done.
Qed.

(** Blocks of samples, each in an array of its own. *)
Fixpoint write_blocks (w : CWavFileOp) (xss : list (list Z)) : option CWavFileOp :=
  match xss with
  | [] => Some w
  | xs :: xss => let* (_, w) := WriteSample w (samples16 xs) 0 (zlen xs) in write_blocks w xss
  end.

Lemma write_blocks_cons w xs xss :
  write_blocks w (xs :: xss) = let* (_, w) := WriteSample w (samples16 xs) 0 (zlen xs) in write_blocks w xss.
Proof. done. Qed.

Lemma recounted_add h n m : recounted (recounted h n) m = recounted h (n + m).
Proof. unfold recounted. cbn. f_equal. cint_lia. Qed.

Lemma write_blocks_ok h c d xs xss : Forall (fun xs => zlen xs <= 1073741823) (xs :: xss) ->
  write_blocks (writing h c d) (xs :: xss) =
  Some (writing (recounted h (2 * zlen (mjoin (xs :: xss)))) (c ++ samples16 (mjoin (xs :: xss))) d).
Proof.
  revert h c xs. induction xss as [|ys xss IH]; intros h c xs H; inversion H as [|? ? Hx Hxs]; subst;
    rewrite write_blocks_cons;
    rewrite WriteSample_ok by (rewrite ?length_samples16; lia); cbn [mbind option_bind];
    rewrite slice_self by (rewrite length_samples16; lia); change (mjoin (xs :: ?l)) with (xs ++ mjoin l).
  - cbn [mjoin list_join write_blocks]. by rewrite app_nil_r.
  - rewrite IH by done. rewrite recounted_add, samples16_app, length_app, <- app_assoc. do 3 f_equal. lia.
Qed.

(** The header of a file of [ch] channels at [rate], after its samples. *)
Definition final_head (h : SWavFileHead) (ch rate : Z) : SWavFileHead :=
  mkHead (RIFF h) (i32 (RawDataFileLength h + 36)) (WAVEfmt_ h) 16 1 ch rate (i32 (2 * ch * rate)) (2 * ch) 16 (data_flag h)
    (RawDataFileLength h).

Lemma finish_head_ok h ch rate : FormatCategory h = 1 -> 0 <= ch <= 16383 -> finish_head h ch rate = final_head h ch rate.
Proof.
  intros Hf Hch. destruct h as [riff fl wave fs fc nc sr br bps nb data raw]. cbn [FormatCategory] in Hf. subst fc.
  unfold finish_head, set_bits, final_head. cbn. rewrite (i32_id (ch * 16)), (i16_id ch) by rng.
  assert (E : c_div (ch * 16) 8 = 2 * ch) by (unfold c_div; rewrite Z.quot_div_nonneg by lia; dlia).
  rewrite E, (i16_id (2 * ch)) by rng. done.
Qed.

Lemma UpdateHeader_new_ok h c d ch rate : FormatCategory h = 1 -> 0 <= ch <= 16383 -> head_size <= zlen c ->
  head_ok (final_head h ch rate) ->
  UpdateHeader_new (writing h c d) ch rate =
  Some (0, mkWav (final_head h ch rate)
    (Some (mkFile (encode_head (final_head h ch rate) ++ drop (Z.to_nat head_size) c) head_size)) d 0).
Proof.
  intros Hf Hch Hc Hok. pose proof (length_encode_head _ Hok) as Hlen. unfold UpdateHeader_new, write_front, writing.
  cbn [m_FileStatus m_head m_fp m_DATApos]. rewrite (finish_head_ok h ch rate Hf Hch). set (g := final_head h ch rate) in *.
  clearbody g. change (0 =? 0) with true. unfold write_bytes, rewind, fwrite. wav_simpl.
  unfold splice. rewrite take_0. cbn [app]. rewrite Hlen. replace (Z.to_nat 0 + length (encode_head g))%nat with (Z.to_nat head_size) by lia.
  done.
Qed.

(** ** Reading samples *)

Lemma words16_samples xs : Forall in_i16 xs -> words16 (samples16 xs) = xs.
Proof.
  induction 1 as [|x xs Hx _ IH]; [done|]. change (samples16 (x :: xs)) with (le_bytes 2 x ++ samples16 xs).
  cbn [le_bytes app words16]. rewrite IH. f_equal. exact (word16_id x Hx).
Qed.

(** The bytes from position [q], at most [n]. *)
Definition next_bytes (c : list Z) (q n : Z) : list Z := slice c q (Z.min n (zlen c - q)).

Lemma length_next_bytes c q n : 0 <= q <= zlen c -> 0 <= n -> zlen (next_bytes c q n) = Z.min n (zlen c - q).
Proof. intros. apply length_slice; lia. Qed.

Lemma fread_ok mem p size n c q : 0 <= q <= zlen c -> 0 < size -> 0 <= n -> 0 <= p -> p + size * n <= zlen mem ->
  fread mem p size n (mkFile c q) =
  Some (splice mem p (next_bytes c q (size * n)), zlen (next_bytes c q (size * n)) / size,
        mkFile c (q + zlen (next_bytes c q (size * n)))).
Proof.
  intros Hq Hs Hn Hp Hm. unfold fread, fread_bytes. cbn [contents fpos]. fold (next_bytes c q (size * n)).
  pose proof (length_next_bytes c q (size * n) Hq ltac:(nia)) as Hl. cbv zeta.
  rewrite memcpy_Some by lia. cbn [mbind option_bind]. by rewrite slice_self.
Qed.

Lemma ReadSample_short_ok h c q d mem p len : 0 <= q <= zlen c -> 0 <= p -> 0 <= len <= 1073741823 -> p + 2 * len <= zlen mem ->
  let bs := next_bytes c q (2 * len) in
  ReadSample_short (mkWav h (Some (mkFile c q)) d 0) mem p len =
  Some (zlen bs / 2, splice mem p bs, mkWav h (Some (mkFile c (q + zlen bs))) d 0).
Proof.
  intros Hq Hp Hl Hm bs. pose proof (length_next_bytes c q (2 * len) Hq ltac:(lia)) as Hb. fold bs in Hb.
  unfold ReadSample_short. wav_simpl. change (0 =? 0) with true. cbv iota. rewrite u64_id by lia.
  rewrite fread_ok by lia. fold bs. cbn [mbind option_bind]. rewrite i32_id by (unfold in_i32; dlia). done.
Qed.

(** 16-bit samples of [NChannels] channels; the count returned is divided by the
    size of a sample once more. *)
Lemma ReadSample_pcm_ok h c q d mem p len : FormatCategory h = 1 -> 1 <= NChannels h <= 16383 ->
  0 <= q <= zlen c -> 0 <= p -> 0 <= len * NChannels h <= 1073741823 -> p + 2 * (len * NChannels h) <= zlen mem ->
  let bs := next_bytes c q (2 * (len * NChannels h)) in
  ReadSample (mkWav h (Some (mkFile c q)) d 0) mem p len =
  Some (zlen bs / 2 / (2 * NChannels h), splice mem p bs, mkWav h (Some (mkFile c (q + zlen bs))) d 0).
Proof.
  intros Hf Hc Hq Hp Hl Hm bs. pose proof (length_next_bytes c q (2 * (len * NChannels h)) Hq ltac:(lia)) as Hb. fold bs in Hb.
  unfold ReadSample. cbn [m_FileStatus m_head]. rewrite Hf. change (0 =? 0) with true. change (1 =? 3) with false.
  change (1 =? 1) with true. cbv iota. rewrite (i32_id (len * NChannels h)) by (unfold in_i32; lia).
  rewrite ReadSample_short_ok by lia. fold bs. cbn [mbind option_bind]. unfold per_channel. cbn [m_head].
  rewrite (u64_id (2 * NChannels h)), (u64_id (zlen bs / 2)) by dlia.
  destruct (Z.eqb_spec (2 * NChannels h) 0); [lia|]. cbn [negb c_assert mbind option_bind].
  rewrite i32_id; [done|]. pose proof (Z.div_le_upper_bound (zlen bs / 2) (2 * NChannels h) (zlen bs / 2)).
  pose proof (Z.div_pos (zlen bs / 2) (2 * NChannels h)). unfold in_i32. assert (0 <= zlen bs / 2 <= 1073741823) by dlia. nia.
Qed.

Lemma shorts_at_splice mem p xs : 0 <= p -> p + 2 * zlen xs <= zlen mem -> Forall in_i16 xs ->
  shorts_at (splice mem p (samples16 xs)) p (zlen xs) = Some xs.
Proof.
  intros Hp Hm Hx. pose proof (length_samples16 xs) as Hl. unfold shorts_at.
  rewrite (proj2 (range_ok_spec _ p (2 * zlen xs))) by (rewrite length_splice; lia). cbn [c_assert mbind option_bind].
  f_equal. transitivity (words16 (samples16 xs)); [f_equal|by apply words16_samples]. unfold slice, splice.
  rewrite drop_app_length' by (rewrite length_take; lia). apply take_app_length'. lia.
Qed.

(** ** Theorems *)

(** A header with the tags of a wave file, kept by what is written after it. *)
Record wave_tags (h : SWavFileHead) : Prop := mkTags {
  wt_riff : RIFF h = chars "RIFF"; wt_wave : WAVEfmt_ h = chars "WAVEfmt "; wt_data : data_flag h = chars "data" }.

Lemma final_ok h n ch rate : wave_tags h -> 0 <= ch <= 16383 -> in_i32 rate ->
  wave_ok (final_head (recounted h n) ch rate) [] /\ data_flag (final_head (recounted h n) ch rate) = chars "data".
Proof.
  intros [H1 H2 H3] Hch Hr. destruct h. cbn in H1, H2, H3. subst. split; [|reflexivity].
  constructor; try reflexivity; [|cbn; lia]. constructor; cbn -[i32]; auto with cint; try reflexivity; rng.
Qed.

(** A program that writes a file: header, blocks of samples, final header. *)
Definition write_file (fuel : nat) (fresh : CWavFileOp) (h : SWavFileHead) (xss : list (list Z)) (ch rate : Z) : option (list Z) :=
  let* w := CWavFileOp_open fuel fresh (Some (mkFile [] 0)) "wb" in
  let* (_, w) := WriteHeader w h in
  let* w := write_blocks w xss in
  let* (_, w) := UpdateHeader_new w ch rate in
  CWavFileOp_close w.

Lemma drop_head h c : head_ok h -> drop (Z.to_nat head_size) (encode_head h ++ c) = c.
Proof. intros Hok. apply drop_app_length'. pose proof (length_encode_head h Hok). lia. Qed.

Lemma write_file_ok fuel fresh h xs xss ch rate : wave_tags h -> head_ok h -> 0 <= ch <= 16383 -> in_i32 rate ->
  Forall (fun xs => zlen xs <= 1073741823) (xs :: xss) ->
  let l := mjoin (xs :: xss) in let g := final_head (recounted h (2 * zlen l)) ch rate in
  write_file fuel fresh h (xs :: xss) ch rate = Some (encode_head g ++ samples16 l).
Proof.
  intros Ht Hok Hch Hr Hx l g. destruct (final_ok h (2 * zlen l) ch rate Ht Hch Hr) as [[Hg _ _ _ _] _].
  unfold write_file. destruct (open_new fuel fresh) as (h0 & ->). cbn [mbind option_bind].
  rewrite WriteHeader_new. cbn [mbind option_bind]. rewrite write_blocks_ok by done. fold l. cbn [mbind option_bind].
  rewrite UpdateHeader_new_ok; [|done|done|rewrite length_app, Nat2Z.inj_add, (length_encode_head h Hok); lia|exact Hg].
  cbn [mbind option_bind]. by rewrite drop_head.
Qed.

(** A header of mono samples at 16 kHz, and an object in fresh memory. *)
Definition sample_head (raw : Z) : SWavFileHead :=
  mkHead (chars "RIFF") (36 + raw) (chars "WAVEfmt ") 16 1 1 16000 32000 2 16 (chars "data") raw.
Definition blank_wav : CWavFileOp := mkWav (decode_head (zreplicate head_size 0)) None 0 0.

Lemma sample_head_ok raw : 0 <= raw <= 2147483611 -> head_ok (sample_head raw) /\ wave_tags (sample_head raw).
Proof.
  intros. split; constructor; try reflexivity; unfold sample_head;
    cbn [FileLength fmtSize FormatCategory NChannels SampleRate byteRate BytesPerSample NBitsPersample RawDataFileLength]; rng.
Qed.

Lemma sample_wave_ok raw : 0 <= raw <= 2147483611 -> wave_ok (sample_head raw) [].
Proof. intros. destruct (sample_head_ok raw) as [? []]; [done|]. by constructor. Qed.

Lemma blank_wav_ok : head_ok (m_head blank_wav).
Proof. constructor; first [reflexivity | vm_compute; split; discriminate]. Qed.

Lemma final_counts h n ch rate : RawDataFileLength h = 0 -> 0 <= n <= 2147483611 ->
  RawDataFileLength (final_head (recounted h n) ch rate) = n /\ FileLength (final_head (recounted h n) ch rate) = 36 + n.
Proof.
  intros E Hn. change (i32 (RawDataFileLength h + n) = n /\ i32 (i32 (RawDataFileLength h + n) + 36) = 36 + n).
  rewrite E, (i32_id (0 + n)), i32_id by rng. lia.
Qed.

(** C19. Round trip: what a program writes as blocks of 16-bit mono samples between
    a header with the tags of a wave file and its update - at least one block, up to [2^30 - 1] samples - is read back in one piece when the file is opened again, by a
    [ReadSample] that returns half of the number of samples. The header of the file gives
    one channel, samples of 16 bits and the rate of the update; its count of data bytes is
    the count of the first header plus twice the number of samples, modulo [2^32]. So
    the header describes the data if the first one counts nothing and the file stays
    below [2^31] bytes; a count that the first header brings is counted again. *)
Theorem wave_roundtrip fuel fuel' fresh fresh' h xs xss rate : wave_tags h -> head_ok h -> in_i32 rate ->
  Forall (fun xs => zlen xs <= 1073741823) (xs :: xss) -> Forall in_i16 (mjoin (xs :: xss)) -> head_ok (m_head fresh') ->
  let l := mjoin (xs :: xss) in zlen l <= 1073741823 -> (0 < fuel')%nat ->
  (exists file w, write_file fuel fresh h (xs :: xss) 1 rate = Some file /\
    CWavFileOp_open fuel' fresh' (Some (mkFile file 0)) "r" = Some w /\
    ReadHeader w h = (0, final_head (recounted h (2 * zlen l)) 1 rate) /\
    forall mem p, 0 <= p -> p + 2 * zlen l <= zlen mem ->
      exists mem' w', ReadSample w mem p (zlen l) = Some (zlen l / 2, mem', w') /\ shorts_at mem' p (zlen l) = Some l) /\
  let g := final_head (recounted h (2 * zlen l)) 1 rate in
  (NChannels g = 1 /\ NBitsPersample g = 16 /\ FormatCategory g = 1 /\ SampleRate g = rate /\
    RawDataFileLength g = i32 (RawDataFileLength h + 2 * zlen l)) /\
  (RawDataFileLength h = 0 -> 2 * zlen l <= 2147483611 -> RawDataFileLength g = 2 * zlen l /\ FileLength g = 36 + 2 * zlen l).
Proof.
  intros Ht Hok Hr Hx Hi Hf l Hl Hfu. split; [|split; [done|intros E Hs; apply final_counts; [done|lia]]].
  destruct (final_ok h (2 * zlen l) 1 rate Ht ltac:(lia) Hr) as [Hw Hd].
  set (g := final_head (recounted h (2 * zlen l)) 1 rate) in *. assert (Hc : FormatCategory g = 1 /\ NChannels g = 1) by done.
  exists (encode_head g ++ samples16 l). eexists. split; [by apply write_file_ok|].
  rewrite <- wave_bytes_plain. split; [by apply open_wave|]. split; [done|]. intros mem p Hp Hm. clearbody g.
  destruct Hc as [Hc1 Hc2]. pose proof (length_samples16 l) as Hls. rewrite wave_bytes_plain. set (c := encode_head g ++ samples16 l).
  assert (Hcl : zlen c = head_size + zlen (samples16 l))
    by (subst c; rewrite length_app, Nat2Z.inj_add, length_encode_head by apply Hw; done).
  assert (Hb : next_bytes c (zlen c - zlen (samples16 l)) (2 * (zlen l * NChannels g)) = samples16 l).
  { unfold next_bytes, slice. rewrite Hc2, Hcl. replace (head_size + zlen (samples16 l) - zlen (samples16 l)) with head_size by lia.
    subst c. rewrite drop_head by apply Hw. apply firstn_all2. unfold head_size in *. lia. }
  rewrite ReadSample_pcm_ok; [|done|lia|unfold head_size in *; lia|done|lia|lia]. cbv zeta. rewrite Hb, Hc2.
  do 2 eexists. split; [|by apply shorts_at_splice]. do 3 f_equal. rewrite Hls. dlia.
Qed.

Lemma wave_roundtrip_witness :
  (exists file w, write_file 1 blank_wav (sample_head 0) [[1; -2; 3]; [-32768; 32767]] 1 8000 = Some file /\
    CWavFileOp_open 1 blank_wav (Some (mkFile file 0)) "r" = Some w /\
    ReadHeader w (sample_head 0) = (0, final_head (recounted (sample_head 0) 10) 1 8000) /\
    forall mem p, 0 <= p -> p + 10 <= zlen mem ->
      exists mem' w', ReadSample w mem p 5 = Some (2, mem', w') /\ shorts_at mem' p 5 = Some [1; -2; 3; -32768; 32767]) /\
  let g := final_head (recounted (sample_head 0) 10) 1 8000 in
  (NChannels g = 1 /\ NBitsPersample g = 16 /\ FormatCategory g = 1 /\ SampleRate g = 8000 /\
    RawDataFileLength g = i32 (RawDataFileLength (sample_head 0) + 10)) /\
  (RawDataFileLength (sample_head 0) = 0 -> 10 <= 2147483611 -> RawDataFileLength g = 10 /\ FileLength g = 46).
Proof.
  destruct (sample_head_ok 0 ltac:(lia)) as [H1 H2].
  apply (wave_roundtrip 1 1 blank_wav blank_wav (sample_head 0) [1; -2; 3] [[-32768; 32767]] 8000 H2 H1);
    [rng|repeat constructor; cbn; lia|forall_i16|apply blank_wav_ok|cbn; lia|lia].
Defined.

(** C37. Opening: the header of a wave file is read whatever the memory held, chunks
    between the format and the data are skipped, and the stream stands at the
    first sample; a recursion per chunk is enough. *)
Theorem open_finds_data h extra chunks payload fuel fresh : wave_ok h extra -> data_flag h = chars "data" ->
  Forall chunk_ok chunks -> (length chunks < fuel)%nat -> head_ok (m_head fresh) ->
  exists w, CWavFileOp_open fuel fresh (Some (mkFile (wave_bytes h extra chunks payload) 0)) "r" = Some w /\
    m_FileStatus w = 0 /\ m_head w = h /\ drop (Z.to_nat (m_DATApos w)) (wave_bytes h extra chunks payload) = payload /\
    LoopHead w = Some (0, w).
Proof.
  intros Hw Hd Hck Hf Hfr. eexists. split; [by apply open_wave|]. split; [done|]. split; [done|]. split; [|done].
  cbn [m_DATApos]. unfold wave_bytes. rewrite !app_assoc. apply drop_app_length'. rewrite !length_app. lia.
Qed.

Lemma open_finds_data_witness :
  let h := sample_head 4 in let cs := [mkChunk (chars "LIST") [7; 8; 9]] in
  exists w, CWavFileOp_open 2 blank_wav (Some (mkFile (wave_bytes h [] cs [1; 2; 3; 4]) 0)) "r" = Some w /\
    m_FileStatus w = 0 /\ m_head w = h /\ drop (Z.to_nat (m_DATApos w)) (wave_bytes h [] cs [1; 2; 3; 4]) = [1; 2; 3; 4] /\
    LoopHead w = Some (0, w).
Proof.
  apply open_finds_data; [apply sample_wave_ok; lia|reflexivity| |cbn; lia|apply blank_wav_ok].
  constructor; [constructor; [reflexivity|reflexivity|cbn; lia]|constructor].
Defined.

(** C38. A file without a data chunk: at its end the scan calls itself with nothing
    changed, so that the constructor never returns, whatever the fuel. *)
Theorem open_without_data_never_returns h extra ck chunks fuel fresh : wave_ok h extra -> chunk_ok ck -> Forall chunk_ok chunks ->
  head_ok (m_head fresh) ->
  CWavFileOp_open fuel fresh (Some (mkFile (format_bytes h ++ extra ++ mjoin (chunk_bytes <$> ck :: chunks)) 0)) "r" = None.
Proof. apply open_without_data. Qed.

Lemma open_without_data_never_returns_witness :
  CWavFileOp_open 1000 blank_wav (Some (mkFile (format_bytes (sample_head 0) ++ [] ++
    mjoin (chunk_bytes <$> [mkChunk (chars "LIST") [7; 8; 9]])) 0)) "r" = None.
Proof.
  apply open_without_data_never_returns; [apply sample_wave_ok; lia|constructor; [reflexivity|reflexivity|cbn; lia]|constructor|apply blank_wav_ok].
Defined.

End WaveIOSpec.
