(* ===== verification/TestProgram.v ===== *)
(** The test program, translated from src/main.cpp.

    [Module TestProgram] models the playback filters of [playprocess] over their
    global state, the conversion of a frame of a wave file to 16-bit samples, the
    loop over frames around the calls of the echo canceller, and [main] as a
    function from the contents of the input files to those of the output file.
    The pointers of [main] into its one buffer are offsets, [None] for NULL. *)

From S2P Require Import Prelude Float32 RingBuffer SplInl AecmCore AecmFrame EchoControlMobile WaveIO.
From Stdlib Require Import String.
From stdpp Require Import list.

Module TestProgram.
Import EchoMobile WaveIO.
#[local] Open Scope Z_scope.
#[local] Open Scope list_scope.

Definition FRAME_IN_TIME_MS : Z := 10.

(** ** Playback filters *)

Record Globals := mkGlobals {
  history_filter_ : list Z; a_ : list Z; b_ : list Z; g_ : Z;
  LPa_ : list Z; LPb_ : list Z; history_lp_ : list Z;
  android_play_process_enalbed_ : bool; android_play_lowpass_enalbed_ : bool }.
#[export] Instance rebuild_Globals : Rebuild Globals := fun r =>
  mkGlobals (history_filter_ r) (a_ r) (b_ r) (g_ r) (LPa_ r) (LPb_ r) (history_lp_ r)
    (android_play_process_enalbed_ r) (android_play_lowpass_enalbed_ r).

(** Saturation to 16 bits. *)
Definition clip16 (temp : Z) : Z :=
  if temp >? 32767 then 32767 else if temp <? -32768 then -32768 else i16 temp.

(** [(a * b) >> s] in [int] *)
Definition mul_shift (a b s : Z) : Z := Z.shiftr (i32 (a * b)) s.

(** One sample through the filter that is enabled by
    [android_play_process_enalbed_]: the history and the output. *)
Definition highpass_sample (g : Globals) (h : list Z) (sample_in : Z) : list Z * Z :=
  let temp := mul_shift sample_in (g_ g) 12 in
  let sample_out := i32 (temp + znth h 0) in
  let h0 := i32 (i32 (Z.shiftl (i32 (- temp)) 1) - mul_shift sample_out (znth (b_ g) 1) 12) in
  let h0 := i32 (h0 + znth h 1) in
  let h1 := i32 (temp - mul_shift sample_out (znth (b_ g) 2) 12) in
  let temp := i32 (sample_out + Z.shiftr sample_out 1) in
  ([h0; h1], clip16 temp).

(** One sample through the low pass. *)
Definition lowpass_sample (g : Globals) (h : list Z) (sample_in : Z) : list Z * Z :=
  let a i := mul_shift sample_in (znth (LPa_ g) i) 13 in
  let sample_out := i32 (a 0 + znth h 0) in
  let b i := mul_shift sample_out (znth (LPb_ g) i) 13 in
  let h0 := i32 (i32 (a 1 - b 1) + znth h 1) in
  let h1 := i32 (i32 (a 2 - b 2) + znth h 2) in
  let h2 := i32 (i32 (a 3 - b 3) + znth h 3) in
  let h3 := i32 (i32 (a 4 - b 4) + znth h 4) in
  let h4 := i32 (a 5 - b 5) in
  ([h0; h1; h2; h3; h4], clip16 sample_out).

(** The loop over the samples of an array, in place. *)
Definition filter_loop (step : list Z -> Z -> list Z * Z) (n : Z) (h data : list Z) : option (list Z * list Z) :=
  for_loop (fun i (s : list Z * list Z) =>
    let (h, data) := s in
    let* x := aget data i in
    let (h, y) := step h x in
    let* data := aset data i y in Some (h, data)) 0 (Z.to_nat n) (h, data).

(** The loop over the channels: [data] is the same array for each. *)
Definition channel_loop (step : list Z -> Z -> list Z * Z) (channels n : Z) (h data : list Z) : option (list Z * list Z) :=
  for_loop (fun _ (s : list Z * list Z) => let (h, data) := s in filter_loop step n h data) 0 (Z.to_nat channels) (h, data).

Definition playprocess (g : Globals) (channels number_sample : Z) (data_in : list Z) : option (Globals * list Z) :=
  let* (g, data) :=
    (if android_play_process_enalbed_ g then
       let* (h, data) := channel_loop (highpass_sample g) channels number_sample (history_filter_ g) data_in in
       Some (g <| history_filter_ := h |>, data)
     else Some (g, data_in)) in
  if android_play_lowpass_enalbed_ g then
    let* (h, data) := channel_loop (lowpass_sample g) channels number_sample (history_lp_ g) data in
    Some (g <| history_lp_ := h |>, data)
  else Some (g, data).

(** The settings at the beginning of [main]. *)
Definition start_globals : Globals :=
  mkGlobals [0; 0] [4096; -8192; 4096] [4096; -7240; 3243] 3644
    [502; 2511; 5022; 5022; 2511; 502] [8192; 1565; 5293; 533; 472; 14] [0; 0; 0; 0; 0] false true.

(** ** Conversion of a frame *)

(** [32766.9f] and [-32767.9f] *)
Definition clip_high : float := f32_lit 16776653 (-9).
Definition clip_low : float := f32_lit (-16777165) (-9).

Definition float_to_short (x : float) : Z :=
  if flt clip_high x then 32767
  else if fgt clip_low x then -32768
  else i16 (f32_to_int x).

(** The first channel of the [n] frames at [src] goes to [dst].  An unknown format
    leaves memory and pointer alone. *)
Definition convert_frame (format channels src dst n : Z) (mem : list Z) (ptr : option Z) : option (list Z * option Z) :=
  if format =? 3 then
    let* mem := for_loop (fun i mem =>
      let* b := load32 mem (src + 4 * i32 (i * channels)) in
      store16 mem (dst + 2 * i) (float_to_short (f32_of_bits b))) 0 (Z.to_nat n) mem in
    Some (mem, Some dst)
  else if format =? 1 then
    let* mem := for_loop (fun i mem =>
      let* v := load16 mem (src + 2 * i32 (i * channels)) in
      store16 mem (dst + 2 * i) v) 0 (Z.to_nat n) mem in
    Some (mem, Some dst)
  else Some (mem, ptr).

(** ** The loop *)

Record MainState := mkMain {
  ms_mem : list Z; ms_read1 : CWavFileOp; ms_read2 : CWavFileOp; ms_write1 : CWavFileOp;
  ms_aecm : option AecMobile; ms_globals : Globals; process_in : option Z; reffer_in : option Z }.

(** The places in the buffer. *)
Section frame.
Context (wavhead1 wavhead2 : SWavFileHead).

Definition frame_size : Z := u32 (c_div (i32 (SampleRate wavhead1 * FRAME_IN_TIME_MS)) 1000).
Definition frame_bytes (h : SWavFileHead) : Z := u32 (frame_size * BytesPerSample h).
Definition processing_buffer : Z := frame_bytes wavhead1.
Definition buffer2 : Z := processing_buffer + frame_bytes wavhead1.
Definition refer_buffer : Z := buffer2 + frame_bytes wavhead2.
Definition buffer_size : Z := u32 (2 * frame_size * BytesPerSample wavhead1 + 2 * frame_size * BytesPerSample wavhead2).

(** The call of [WebRtcAecm_Process]: no clean near end, the output at the start
    of the buffer, and a delay of 0.  An input that overlaps the output is left out: the header would have to give
    less than two bytes per sample. *)
Definition process_call (aecm : option AecMobile) (mem : list Z) (ptr : option Z) : option (option AecMobile * list Z) :=
  match ptr with
  | None =>
      let* (_, aecm, _) := WebRtcAecm_Process aecm (mkSignals None None (Some (OutMem []))) frame_size 0 in
      Some (aecm, mem)
  | Some p =>
      let* _ := c_assert (2 * frame_size <=? p) in
      let* noisy := shorts_at mem p frame_size in
      let* out := shorts_at mem 0 frame_size in
      let* (_, aecm, sg) := WebRtcAecm_Process aecm (mkSignals (Some noisy) None (Some (OutMem out))) frame_size 0 in
      let* out := out_memory sg in
      let* mem := store_shorts mem 0 out in
      Some (aecm, mem)
  end.

Definition buffer_call (aecm : option AecMobile) (mem : list Z) (ptr : option Z) : option (option AecMobile) :=
  let* far := match ptr with
              | None => Some None
              | Some p => let* far := shorts_at mem p frame_size in Some (Some far)
              end in
  let* (_, aecm) := WebRtcAecm_BufferFarend aecm far frame_size in
  Some aecm.

(** [playprocess] and [WriteSample], which use the far end without a test for
    NULL. *)
Definition play_frame (g : Globals) (w : CWavFileOp) (mem : list Z) (ptr : option Z) : option (Globals * CWavFileOp * list Z) :=
  let* p := ptr in
  let* data := shorts_at mem p frame_size in
  let* (g, data) := playprocess g 1 frame_size data in
  let* mem := store_shorts mem p data in
  let* (_, w) := WriteSample w mem p (i32 frame_size) in
  Some (g, w, mem).

(** The body of the loop. *)
Definition run_frame (s : MainState) : option MainState :=
  let* (_, mem, read1) := ReadSample (ms_read1 s) (ms_mem s) 0 (i32 frame_size) in
  let* (mem, near) := convert_frame (FormatCategory wavhead1) (NChannels wavhead1) 0 processing_buffer frame_size mem (process_in s) in
  let* (_, mem, read2) := ReadSample (ms_read2 s) mem buffer2 (i32 frame_size) in
  let* (mem, far) := convert_frame (FormatCategory wavhead2) (NChannels wavhead2) buffer2 refer_buffer frame_size mem (reffer_in s) in
  let* aecm := buffer_call (ms_aecm s) mem far in
  let* (aecm, mem) := process_call aecm mem near in
  let* (g, write1, mem) := play_frame (ms_globals s) (ms_write1 s) mem far in
  Some (mkMain mem read1 read2 write1 aecm g near far).

Fixpoint main_loop (fuel : nat) (loop : Z) (s : MainState) : option MainState :=
  match fuel with
  | O => None
  | S fuel =>
      if loop <? RawDataFileLength wavhead1 then
        let* s := run_frame s in
        main_loop fuel (i32 (loop + frame_bytes wavhead1)) s
      else Some s
  end.

End frame.

(** ** main *)

Definition zero_head : SWavFileHead := decode_head (zreplicate head_size 0).

(** What the program meets: the memory of its objects, the contents of the input
    files ([None] for a file that cannot be opened), whether the output file can be
    opened, and the outcome of the allocations of the echo canceller. *)
Record World := mkWorld {
  wd_fresh1 : CWavFileOp; wd_fresh2 : CWavFileOp; wd_fresh3 : CWavFileOp;
  wd_near : option (list Z); wd_far : option (list Z); wd_out : bool; wd_allocs : MobileAllocs }.

Definition open_file (contents : option (list Z)) : option File :=
  match contents with Some c => Some (mkFile c 0) | None => None end.

(** The part of [main] after the files are open. *)
Definition main_process (fuel : nat) (al : MobileAllocs) (read1 read2 write1 : CWavFileOp) : option (Z * option (list Z)) :=
  let (_, wavhead1) := ReadHeader read1 zero_head in
  let (_, wavhead2) := ReadHeader read2 zero_head in
  if negb (SampleRate wavhead1 =? SampleRate wavhead2) then Some (0, CWavFileOp_close write1)
  else
    let* (_, write1) := WriteHeader write1 wavhead1 in
    let buffer := zreplicate (buffer_size wavhead1 wavhead2) 0 in
    let* aecm := WebRtcAecm_Create al in
    let* (r, aecm) := WebRtcAecm_Init aecm (SampleRate wavhead1) in
    if negb (r =? 0) then Some (0, CWavFileOp_close write1)
    else
      let* s := main_loop wavhead1 wavhead2 fuel 0 (mkMain buffer read1 read2 write1 aecm start_globals None None) in
      let* (_, write1) := UpdateHeader_new (ms_write1 s) 1 (SampleRate wavhead1) in
      Some (0, CWavFileOp_close write1).

(** The exit status and the contents of the output file.  [fuel] bounds the
    recursion over the chunks of the inputs and the loop over frames. *)
Definition main (fuel : nat) (wd : World) : option (Z * option (list Z)) :=
  let* read1 := CWavFileOp_open fuel (wd_fresh1 wd) (open_file (wd_near wd)) "r" in
  if m_FileStatus read1 =? -2 then Some (0, None)
  else
    let* read2 := CWavFileOp_open fuel (wd_fresh2 wd) (open_file (wd_far wd)) "r" in
    if m_FileStatus read2 =? -2 then Some (0, None)
    else
      let* write1 := CWavFileOp_open fuel (wd_fresh3 wd) (if wd_out wd then Some (mkFile [] 0) else None) "wb" in
      if m_FileStatus write1 =? -2 then Some (0, None)
      else main_process fuel (wd_allocs wd) read1 read2 write1.

End TestProgram.
