(* ===== verification/TestProgramSpec.v ===== *)
(** Properties of the test program: its low pass is the recursive filter of its
    coefficients over unbounded integers; the program writes the filtered far end
    whatever the echo canceller does; its errors. *)

From S2P Require Import Prelude Float32 RingBuffer SplInl AecmCore AecmInv AecmBlock AecmBlockSpec AecmFrame AecmFrameSpec EchoControlMobile EchoControlMobileSpec WaveIO WaveIOSpec TestProgram.
From Stdlib Require Import String.
From stdpp Require Import list.

Module TestProgramSpec.
Import AecmInv EchoMobile EchoMobileSpec WaveIO WaveIOSpec TestProgram.
#[local] Open Scope Z_scope.
#[local] Open Scope list_scope.

(** ** Filters over lists *)

Fixpoint filter_list (step : list Z -> Z -> list Z * Z) (h xs : list Z) : list Z * list Z :=
  match xs with
  | [] => (h, [])
  | x :: xs => let (h, y) := step h x in let (h, ys) := filter_list step h xs in (h, y :: ys)
  end.

Lemma filter_list_app step xs ys : forall h,
  filter_list step h (xs ++ ys) =
  let (h, us) := filter_list step h xs in let (h, vs) := filter_list step h ys in (h, us ++ vs).
Proof.
  induction xs as [|x xs IH]; intros h; cbn [filter_list app]; [by destruct (filter_list step h ys)|].
  destruct (step h x) as [h1 y]. rewrite IH. destruct (filter_list step h1 xs) as [h2 us]. by destruct (filter_list step h2 ys).
Qed.

Lemma length_filter_list step xs : forall h, length (filter_list step h xs).2 = length xs.
Proof.
  induction xs as [|x xs IH]; intros h; cbn [filter_list]; [done|]. destruct (step h x) as [h1 y].
  specialize (IH h1). destruct (filter_list step h1 xs). cbn [snd length] in *. by rewrite IH.
Qed.

(** The loop in place. *)
Lemma filter_loop_list (step : list Z -> Z -> list Z * Z) xs : forall (pre h : list Z),
  for_loop (fun i (s : list Z * list Z) => let (h, data) := s in
    let* x := aget data i in let (h, y) := step h x in let* data := aset data i y in Some (h, data)) (zlen pre) (length xs) (h, pre ++ xs) =
  Some ((filter_list step h xs).1, pre ++ (filter_list step h xs).2).
Proof.
  induction xs as [|x xs IH]; intros pre h; cbn [length for_loop filter_list]; [done|].
  assert (E : aget (pre ++ x :: xs) (zlen pre) = Some x).
  { rewrite aget_app by lia. destruct (Z.ltb_spec (zlen pre) (zlen pre)); [lia|]. by rewrite Z.sub_diag. }
  rewrite E. cbn [mbind option_bind]. destruct (step h x) as [h1 y].
  rewrite aset_Some by (rewrite length_app; cbn [length]; lia). cbn [mbind option_bind].
  rewrite Nat2Z.id, insert_app_r_alt, Nat.sub_diag by lia. cbn [list_insert insert].
  specialize (IH (pre ++ [y]) h1). rewrite length_app in IH. cbn [length] in IH. rewrite <- !app_assoc in IH. cbn [app] in IH.
  replace (zlen pre + 1) with (Z.of_nat (length pre + 1)) by lia. rewrite IH.
  by destruct (filter_list step h1 xs).
Qed.

Lemma filter_loop_ok step n h data : n = zlen data ->
  filter_loop step n h data = Some (filter_list step h data).
Proof.
  intros ->. unfold filter_loop. rewrite Nat2Z.id. pose proof (filter_loop_list step data [] h) as E. cbn [app length] in E.
  change (Z.of_nat 0) with 0 in E. rewrite E. by destruct (filter_list step h data).
Qed.

(** ** The low pass *)

(** The contribution of the [i]-th last input and output. *)
Definition lp_term (i : Z) (p : Z * Z) : Z :=
  p.1 * znth (LPa_ start_globals) i / 8192 - p.2 * znth (LPb_ start_globals) i / 8192.
Definition nth_pair (past : list (Z * Z)) (i : nat) : Z * Z := nth i past (0, 0).

(** The recursive filter with the coefficients of [start_globals], in Q13, over
    unbounded integers; [past] holds inputs and outputs, the latest first. *)
Definition lp_out (past : list (Z * Z)) (x : Z) : Z :=
  x * znth (LPa_ start_globals) 0 / 8192 + lp_term 1 (nth_pair past 0) + lp_term 2 (nth_pair past 1) +
  lp_term 3 (nth_pair past 2) + lp_term 4 (nth_pair past 3) + lp_term 5 (nth_pair past 4).

Fixpoint lp_ref (past : list (Z * Z)) (xs : list Z) : list Z :=
  match xs with
  | [] => []
  | x :: xs => let y := lp_out past x in clip16 y :: lp_ref ((x, y) :: past) xs
  end.

(** The largest output before saturation. *)
Definition lp_bound : Z := 213000.

Inductive past_ok : list (Z * Z) -> Prop :=
  | past_nil : past_ok []
  | past_cons x past : past_ok past -> in_i16 x -> past_ok ((x, lp_out past x) :: past).

(** The arithmetic of the bound: one output is replaced by its own equation. *)
Lemma lp_bound_step (x0 x1 x2 x3 x4 x5 x6 x7 y1 y2 y3 y4 y5 y6 y7 : Z) :
  -32768 <= x0 <= 32767 -> -32768 <= x1 <= 32767 -> -32768 <= x2 <= 32767 -> -32768 <= x3 <= 32767 ->
  -32768 <= x4 <= 32767 -> -32768 <= x5 <= 32767 -> -32768 <= x6 <= 32767 -> -32768 <= x7 <= 32767 ->
  -213000 <= y1 <= 213000 -> -213000 <= y3 <= 213000 -> -213000 <= y4 <= 213000 -> -213000 <= y5 <= 213000 ->
  -213000 <= y6 <= 213000 -> -213000 <= y7 <= 213000 ->
  y2 = x2 * 502 / 8192 + (x3 * 2511 / 8192 - y3 * 1565 / 8192) + (x4 * 5022 / 8192 - y4 * 5293 / 8192) +
       (x5 * 5022 / 8192 - y5 * 533 / 8192) + (x6 * 2511 / 8192 - y6 * 472 / 8192) + (x7 * 502 / 8192 - y7 * 14 / 8192) ->
  -213000 <= x0 * 502 / 8192 + (x1 * 2511 / 8192 - y1 * 1565 / 8192) + (x2 * 5022 / 8192 - y2 * 5293 / 8192) +
       (x3 * 5022 / 8192 - y3 * 533 / 8192) + (x4 * 2511 / 8192 - y4 * 472 / 8192) + (x5 * 502 / 8192 - y5 * 14 / 8192) <= 213000.
Proof. dlia. Qed.

Lemma lp_coefs :
  (znth (LPa_ start_globals) 0 = 502 /\ znth (LPa_ start_globals) 1 = 2511 /\ znth (LPa_ start_globals) 2 = 5022 /\
   znth (LPa_ start_globals) 3 = 5022 /\ znth (LPa_ start_globals) 4 = 2511 /\ znth (LPa_ start_globals) 5 = 502) /\
  znth (LPb_ start_globals) 1 = 1565 /\ znth (LPb_ start_globals) 2 = 5293 /\ znth (LPb_ start_globals) 3 = 533 /\
  znth (LPb_ start_globals) 4 = 472 /\ znth (LPb_ start_globals) 5 = 14.
Proof. by split_and!. Qed.
Ltac coefs := destruct lp_coefs as [(A0 & A1 & A2 & A3 & A4 & A5) (B1 & B2 & B3 & B4 & B5)];
  rewrite ?A0, ?A1, ?A2, ?A3, ?A4, ?A5, ?B1, ?B2, ?B3, ?B4, ?B5 in *; clear A0 A1 A2 A3 A4 A5 B1 B2 B3 B4 B5.

Lemma past_in past k : past_ok past -> in_i16 (nth_pair past k).1.
Proof.
  intros H. revert k. unfold nth_pair. induction H as [|x past _ IH Hx]; intros [|k]; cbn [nth fst]; (done || apply IH || rng).
Qed.

(** Every output in the past satisfies the equation of the filter. *)
Lemma past_out past k : past_ok past -> (nth_pair past k).2 = lp_out (drop (S k) past) (nth_pair past k).1.
Proof.
  intros H. revert k. unfold nth_pair. induction H as [|x past Hp IH Hx]; intros k.
  - by destruct k.
  - destruct k as [|k]; cbn [nth fst snd drop]; [done|]. apply IH.
Qed.

Lemma nth_drop past j k : nth_pair (drop j past) k = nth_pair past (j + k).
Proof. revert past. induction j as [|j IH]; intros past; [done|]. destruct past as [|p past]; cbn [drop]; [by destruct k|]. apply IH. Qed.

Definition bounded (y : Z) : Prop := -213000 <= y <= 213000.

Lemma out_bounded past x : in_i16 x -> past_ok past -> (forall k, bounded (nth_pair past k).2) -> bounded (lp_out past x).
Proof.
  intros Hx Hp Hb. pose proof (past_out past 1 Hp) as E. unfold lp_out, lp_term in E. rewrite !nth_drop in E. cbn [Nat.add] in E.
  pose proof (fun k => past_in past k Hp) as Hi. unfold lp_out, lp_term.
  unfold bounded, in_i16 in *. coefs.
  pose proof (lp_bound_step x (nth_pair past 0).1 (nth_pair past 1).1 (nth_pair past 2).1 (nth_pair past 3).1 (nth_pair past 4).1
    (nth_pair past 5).1 (nth_pair past 6).1 (nth_pair past 0).2 (nth_pair past 1).2 (nth_pair past 2).2 (nth_pair past 3).2
    (nth_pair past 4).2 (nth_pair past 5).2 (nth_pair past 6).2) as H.
  pose proof (H Hx (Hi 0%nat) (Hi 1%nat) (Hi 2%nat) (Hi 3%nat) (Hi 4%nat) (Hi 5%nat) (Hi 6%nat)
    (Hb 0%nat) (Hb 2%nat) (Hb 3%nat) (Hb 4%nat) (Hb 5%nat) (Hb 6%nat)) as H'. lia.
Qed.

Lemma past_bounded past : past_ok past -> forall k, bounded (nth_pair past k).2.
Proof.
  induction 1 as [|x past Hp IH Hx]; intros [|k]; cbn; try (unfold bounded; lia).
  - by apply out_bounded.
  - apply IH.
Qed.

(** The history of the filter after a past. *)
Definition lp_history (past : list (Z * Z)) : list Z :=
  let t i k := lp_term i (nth_pair past k) in
  [t 1 0%nat + t 2 1%nat + t 3 2%nat + t 4 3%nat + t 5 4%nat; t 2 0%nat + t 3 1%nat + t 4 2%nat + t 5 3%nat;
   t 3 0%nat + t 4 1%nat + t 5 2%nat; t 4 0%nat + t 5 1%nat; t 5 0%nat].

Lemma mul_shift_ok a b : Z.abs (a * b) <= 2147483647 -> mul_shift a b 13 = a * b / 8192.
Proof. intros H. unfold mul_shift. rewrite i32_id by rng. rewrite Z.shiftr_div_pow2 by lia. done. Qed.

Lemma clip16_range y : in_i16 (clip16 y).
Proof.
  unfold clip16. destruct (Z.gtb_spec y 32767); [rng|]. destruct (Z.ltb_spec y (-32768)); [rng|]. apply i16_range.
Qed.

Lemma term_bounded past i k : past_ok past -> (forall k, bounded (nth_pair past k).2) -> 1 <= i <= 5 ->
  Z.abs (lp_term i (nth_pair past k)) <= 158000 /\
  Z.abs ((nth_pair past k).1 * znth (LPa_ start_globals) i) <= 2147483647 /\
  Z.abs ((nth_pair past k).2 * znth (LPb_ start_globals) i) <= 2147483647.
Proof.
  intros Hp Hb Hi. pose proof (past_in past k Hp) as H1. pose proof (Hb k) as H2. unfold lp_term, bounded, in_i16 in *.
  destruct (nth_pair past k) as [x y]. cbn [fst snd] in *.
  assert (E : i = 1 \/ i = 2 \/ i = 3 \/ i = 4 \/ i = 5) by lia.
  destruct E as [-> |[-> |[-> |[-> | ->]]]]; coefs; dlia.
Qed.

Lemma wrap_sum t s : Z.abs t <= 158000 -> Z.abs s <= 1000000 -> i32 (i32 t + s) = t + s.
Proof. intros. rewrite (i32_id t), i32_id by rng. done. Qed.
Lemma sum4 a b c d : Z.abs a <= 158000 -> Z.abs b <= 158000 -> Z.abs c <= 158000 -> Z.abs d <= 158000 -> Z.abs (a + b + c + d) <= 1000000.
Proof. lia. Qed.
Lemma sum3 a b c : Z.abs a <= 158000 -> Z.abs b <= 158000 -> Z.abs c <= 158000 -> Z.abs (a + b + c) <= 1000000.
Proof. lia. Qed.

(** One sample: the machine computes the output of the filter. *)
Lemma lowpass_step past x : in_i16 x -> past_ok past ->
  lowpass_sample start_globals (lp_history past) x =
  (lp_history ((x, lp_out past x) :: past), clip16 (lp_out past x)).
Proof.
  intros Hx Hp. pose proof (past_bounded past Hp) as Hb. assert (Hp' : past_ok ((x, lp_out past x) :: past)) by by constructor.
  pose proof (past_bounded _ Hp') as Hb'. set (y := lp_out past x) in *.
  assert (B : forall i k, 1 <= i <= 5 -> Z.abs (lp_term i (nth_pair past k)) <= 158000)
    by (intros i k Hi; exact (proj1 (term_bounded past i k Hp Hb Hi))).
  assert (B' : forall i, 1 <= i <= 5 -> Z.abs (lp_term i (x, y)) <= 158000 /\
    mul_shift x (znth (LPa_ start_globals) i) 13 - mul_shift y (znth (LPb_ start_globals) i) 13 = lp_term i (x, y)).
  { intros i Hi. destruct (term_bounded _ i 0 Hp' Hb' Hi) as (H1 & H2 & H3). split; [exact H1|]. by rewrite !mul_shift_ok. }
  assert (O : i32 (mul_shift x (znth (LPa_ start_globals) 0) 13 + znth (lp_history past) 0) = y).
  { assert (Hy : bounded y) by exact (Hb' 0%nat). assert (E : x * znth (LPa_ start_globals) 0 / 8192 + znth (lp_history past) 0 = y).
    { subst y. unfold lp_out. change (znth (lp_history past) 0) with (lp_term 1 (nth_pair past 0) + lp_term 2 (nth_pair past 1) +
        lp_term 3 (nth_pair past 2) + lp_term 4 (nth_pair past 3) + lp_term 5 (nth_pair past 4)). lia. }
    rewrite mul_shift_ok by (coefs; rng). rewrite E. apply i32_id. unfold bounded in Hy. rng. }
  unfold lowpass_sample. cbv zeta. rewrite O. clearbody y. clear O Hb Hb' Hp' Hp Hx.
  destruct (B' 1 ltac:(lia)) as [M1 ->], (B' 2 ltac:(lia)) as [M2 ->], (B' 3 ltac:(lia)) as [M3 ->], (B' 4 ltac:(lia)) as [M4 ->],
    (B' 5 ltac:(lia)) as [M5 ->].
  set (t := fun i k => lp_term i (nth_pair past k)) in *.
  change (znth (lp_history past) 1) with (t 2 0%nat + t 3 1%nat + t 4 2%nat + t 5 3%nat).
  change (znth (lp_history past) 2) with (t 3 0%nat + t 4 1%nat + t 5 2%nat).
  change (znth (lp_history past) 3) with (t 4 0%nat + t 5 1%nat). change (znth (lp_history past) 4) with (t 5 0%nat).
  assert (Bt : forall i k, 1 <= i <= 5 -> Z.abs (t i k) <= 158000) by exact B. clear B.
  rewrite (wrap_sum _ _ M1) by (apply sum4; apply Bt; lia). rewrite (wrap_sum _ _ M2) by (apply sum3; apply Bt; lia).
  rewrite (wrap_sum _ _ M3) by (pose proof (Bt 4 0%nat); pose proof (Bt 5 1%nat); lia).
  rewrite (wrap_sum _ _ M4) by (pose proof (Bt 5 0%nat); lia). rewrite (i32_id (lp_term 5 (x, y))) by rng.
  unfold lp_history. cbv zeta. change (nth_pair ((x, y) :: past) 0) with (x, y).
  change (fun i k => lp_term i (nth_pair past k)) with t.
  change (lp_term 2 (nth_pair ((x, y) :: past) 1)) with (t 2 0%nat). change (lp_term 3 (nth_pair ((x, y) :: past) 2)) with (t 3 1%nat).
  change (lp_term 4 (nth_pair ((x, y) :: past) 3)) with (t 4 2%nat). change (lp_term 5 (nth_pair ((x, y) :: past) 4)) with (t 5 3%nat).
  change (lp_term 3 (nth_pair ((x, y) :: past) 1)) with (t 3 0%nat). change (lp_term 4 (nth_pair ((x, y) :: past) 2)) with (t 4 1%nat).
  change (lp_term 5 (nth_pair ((x, y) :: past) 3)) with (t 5 2%nat). change (lp_term 4 (nth_pair ((x, y) :: past) 1)) with (t 4 0%nat).
  change (lp_term 5 (nth_pair ((x, y) :: past) 2)) with (t 5 1%nat). change (lp_term 5 (nth_pair ((x, y) :: past) 1)) with (t 5 0%nat).
  by rewrite !Z.add_assoc.
Qed.

(** The inputs and the outputs before saturation after the signal [xs], the latest first. *)
Fixpoint lp_past (past : list (Z * Z)) (xs : list Z) : list (Z * Z) :=
  match xs with [] => past | x :: xs => lp_past ((x, lp_out past x) :: past) xs end.

Lemma lp_past_ok past xs : past_ok past -> Forall in_i16 xs -> past_ok (lp_past past xs).
Proof. intros Hp Hx. revert past Hp. induction Hx as [|x xs Hx _ IH]; intros past Hp; [done|]. apply IH. by constructor. Qed.

Lemma past_within past : past_ok past -> Forall (fun p => in_i16 p.1 /\ Z.abs p.2 <= lp_bound) past.
Proof.
  induction 1 as [|x past Hp IH Hx]; constructor; [|done]. split; [done|].
  pose proof (out_bounded past x Hx Hp (past_bounded past Hp)) as H. cbn [snd]. unfold bounded, lp_bound in *. lia.
Qed.

(** C18. The low pass of [playprocess] is, for every signal, the recursive filter
    with its coefficients over unbounded integers, saturated at the output: the outputs
    are those of the filter, the five sums that the program keeps in 32 bits between the
    samples are the sums over the unbounded integers, and no output before saturation
    exceeds 213000 in magnitude. *)
Theorem lowpass_is_recursive_filter xs : Forall in_i16 xs ->
  filter_list (lowpass_sample start_globals) (history_lp_ start_globals) xs = (lp_history (lp_past [] xs), lp_ref [] xs) /\
  Forall (fun p => in_i16 p.1 /\ Z.abs p.2 <= lp_bound) (lp_past [] xs).
Proof.
  intros Hx. split; [|apply past_within, lp_past_ok; [constructor|done]].
  change (history_lp_ start_globals) with (lp_history []). pose proof past_nil as Hp. revert Hp. generalize (@nil (Z * Z)).
  induction Hx as [|x xs Hx _ IH]; intros past Hp; cbn [filter_list lp_ref lp_past]; [done|].
  rewrite lowpass_step by done. by rewrite IH by by constructor.
Qed.

Lemma lowpass_is_recursive_filter_witness :
  filter_list (lowpass_sample start_globals) (history_lp_ start_globals) [32767; -32768; 100] =
    (lp_history (lp_past [] [32767; -32768; 100]), lp_ref [] [32767; -32768; 100]) /\
  Forall (fun p => in_i16 p.1 /\ Z.abs p.2 <= lp_bound) (lp_past [] [32767; -32768; 100]).
Proof. apply (lowpass_is_recursive_filter [32767; -32768; 100]). forall_i16. Defined.

(** ** Pieces of the buffer *)

Section pieces.
Context (pre R post : list Z) (p : Z) (Hp : p = zlen pre).

Lemma range_piece k n : 0 <= k -> 0 <= n -> k + n <= zlen R -> range_ok (pre ++ R ++ post) (p + k) n = true.
Proof. intros. apply range_ok_spec. rewrite !length_app. lia. Qed.

Lemma slice_piece k n : 0 <= k -> 0 <= n -> k + n <= zlen R -> slice (pre ++ R ++ post) (p + k) n = slice R k n.
Proof.
  intros H1 H2 H3. unfold slice. subst p. rewrite Z2Nat.inj_add, Nat2Z.id, <- drop_drop, drop_app_length by lia.
  rewrite drop_app_le by lia. rewrite take_app_le; [done|]. rewrite length_drop. lia.
Qed.

Lemma splice_piece k bs : 0 <= k -> k + zlen bs <= zlen R ->
  splice (pre ++ R ++ post) (p + k) bs = pre ++ splice R k bs ++ post.
Proof.
  intros H1 H2. unfold splice. subst p. rewrite Z2Nat.inj_add, Nat2Z.id by lia.
  rewrite take_app_add, <- app_assoc. f_equal. rewrite take_app_le by lia. rewrite <- !app_assoc. do 2 f_equal.
  rewrite <- Nat.add_assoc, drop_app_add. rewrite drop_app_le by lia. done.
Qed.
End pieces.

Lemma splice_front (pre R post bs : list Z) : zlen bs <= zlen R ->
  splice (pre ++ R ++ post) (zlen pre) bs = pre ++ splice R 0 bs ++ post.
Proof. intros. rewrite <- (splice_piece pre R post (zlen pre) eq_refl) by lia. by rewrite Z.add_0_r. Qed.

Lemma slice_front (pre R post : list Z) n : 0 <= n <= zlen R -> slice (pre ++ R ++ post) (zlen pre) n = slice R 0 n.
Proof. intros. rewrite <- (slice_piece pre R post (zlen pre) eq_refl) by lia. by rewrite Z.add_0_r. Qed.

(** The bytes of a sample of [h], and the samples of its first channel that are
    converted from the bytes [R] of a frame. *)
Definition sample_size (h : SWavFileHead) : Z := if FormatCategory h =? 3 then 4 else 2.

Definition frame_sample (h : SWavFileHead) (R : list Z) (i : Z) : Z :=
  let w := le_word (slice R (sample_size h * (i * NChannels h)) (sample_size h)) in
  if FormatCategory h =? 3 then float_to_short (f32_of_bits w) else i16 w.
Definition frame_samples (h : SWavFileHead) (n : Z) (R : list Z) : list Z := tab (frame_sample h R) n.

(** The formats that the program converts. *)
Record format_ok (h : SWavFileHead) : Prop := mkFormatOk {
  fo_format : FormatCategory h = 1 \/ FormatCategory h = 3;
  fo_channels : 1 <= NChannels h <= 1000;
  fo_bytes : BytesPerSample h = sample_size h * NChannels h }.

Lemma frame_sample_i16 h R i : in_i16 (frame_sample h R i).
Proof.
  unfold frame_sample. cbv zeta. destruct (FormatCategory h =? 3); [|apply i16_range]. unfold float_to_short.
  repeat case_match; first [apply i16_range | rng].
Qed.

Lemma frame_samples_i16 h n R : 0 <= n -> samples_ok n (frame_samples h n R).
Proof. intros Hn. split; [by apply length_tab|]. apply Forall_tab. intros i _. apply frame_sample_i16. Qed.

Lemma splice_splice (l xs ys : list Z) : zlen xs + zlen ys <= zlen l ->
  splice (splice l 0 xs) (zlen xs) ys = splice l 0 (xs ++ ys).
Proof.
  intros H. unfold splice. rewrite !take_0, Nat2Z.id. cbn [app]. rewrite take_app_length, <- app_assoc. do 2 f_equal.
  by rewrite drop_app_add, drop_drop, length_app.
Qed.

Lemma load_piece pre R post k : 0 <= k ->
  (k + 2 <= zlen R -> load16 (pre ++ R ++ post) (zlen pre + k) = Some (i16 (le_word (slice R k 2)))) /\
  (k + 4 <= zlen R -> load32 (pre ++ R ++ post) (zlen pre + k) = Some (le_word (slice R k 4))).
Proof.
  intros Hk. split; intros Hl; unfold load16, load32; rewrite (range_piece pre R post (zlen pre) eq_refl) by lia;
    cbn [c_assert mbind option_bind]; by rewrite (slice_piece pre R post (zlen pre) eq_refl) by lia.
Qed.

(** The conversion of a frame into the next piece. *)
Lemma convert_loop (body : Z -> list Z -> option (list Z)) (f : Z -> Z) pre R T post n : 0 <= n -> 2 * n <= zlen T ->
  (forall i T', 0 <= i < n ->
     body i (pre ++ R ++ T' ++ post) = store16 (pre ++ R ++ T' ++ post) (zlen pre + zlen R + 2 * i) (f i)) ->
  for_loop body 0 (Z.to_nat n) (pre ++ R ++ T ++ post) =
  Some (pre ++ R ++ splice T 0 (samples16 (tab f n)) ++ post).
Proof.
  intros Hn HT Hbody.
  destruct (for_loop_inv (fun i mem => mem = pre ++ R ++ splice T 0 (samples16 (tab f i)) ++ post)
    body 0 (Z.to_nat n) (pre ++ R ++ T ++ post))
    as (m & E & Hm).
  - change (tab f 0) with (@nil Z). unfold samples16, splice. cbn. done.
  - intros i m Hi ->. rewrite Hbody by lia. unfold store16.
    pose proof (length_samples16 (tab f i)) as Hs. rewrite length_tab in Hs by lia.
    assert (Hl : length (splice T 0 (samples16 (tab f i))) = length T) by (apply length_splice; lia).
    eexists. split; [apply memcpy_Some; rewrite ?length_le_bytes, ?length_app; lia|].
    rewrite slice_self by (by rewrite length_le_bytes).
    rewrite !(app_assoc pre R). rewrite (splice_piece (pre ++ R) _ post (zlen pre + zlen R)) by (rewrite ?length_app, ?length_le_bytes; lia).
    rewrite tab_snoc, samples16_app by lia. do 2 f_equal. replace (2 * i) with (zlen (samples16 (tab f i))) by lia.
    change (samples16 [f i]) with (le_bytes 2 (f i) ++ []). rewrite app_nil_r. apply splice_splice. rewrite length_le_bytes. lia.
  - rewrite E. rewrite Hm. do 2 f_equal. by rewrite Z.add_0_l, Z2Nat.id.
Qed.

Lemma convert_frame_ok h pre R T post n ptr : format_ok h -> 0 <= n <= 1000 -> zlen R = n * BytesPerSample h -> 2 * n <= zlen T ->
  convert_frame (FormatCategory h) (NChannels h) (zlen pre) (zlen pre + zlen R) n (pre ++ R ++ T ++ post) ptr =
  Some (pre ++ R ++ splice T 0 (samples16 (frame_samples h n R)) ++ post, Some (zlen pre + zlen R)).
Proof.
  intros [Hf Hc Hb] Hn HR HT. rewrite Hb in HR. unfold convert_frame, frame_samples.
  assert (Hi : forall i, 0 <= i < n -> i32 (i * NChannels h) = i * NChannels h /\ 0 <= i * NChannels h /\ i * NChannels h + 1 <= n * NChannels h).
  { intros i Hi. assert (0 <= i * NChannels h <= 1000 * 1000) by nia. rewrite i32_id by rng. nia. }
  assert (Hs : sample_size h = (if FormatCategory h =? 3 then 4 else 2)) by done.
  destruct Hf as [E | E]; rewrite E in Hs |- *; [change (1 =? 3) with false in *; change (1 =? 1) with true|change (3 =? 3) with true in *];
    cbv iota in *; rewrite Hs in HR;
    (erewrite (convert_loop _ (frame_sample h R)); [reflexivity|lia|lia|]; intros i T' Hin; cbv beta; destruct (Hi i Hin) as (-> & ? & ?)).
  - rewrite (proj1 (load_piece pre R (T' ++ post) (2 * (i * NChannels h)) ltac:(lia))) by lia. cbn [mbind option_bind].
    unfold frame_sample. by rewrite E, Hs.
  - rewrite (proj2 (load_piece pre R (T' ++ post) (4 * (i * NChannels h)) ltac:(lia))) by lia. cbn [mbind option_bind].
    unfold frame_sample. by rewrite E, Hs.
Qed.

(** ** Reading a frame *)

(** The floating-point samples in a list of bytes, scaled. *)
Fixpoint scale_floats (bs : list Z) : list Z :=
  match bs with
  | a :: b :: c :: d :: bs => le_bytes 4 (scale_sample (le_word [a; b; c; d])) ++ scale_floats bs
  | _ => bs
  end.

(** The bytes [R] of a frame after [bs] have been read into it. *)
Definition read_into (h : SWavFileHead) (bs R : list Z) : list Z :=
  splice R 0 (if FormatCategory h =? 3 then scale_floats bs else bs).

Lemma length_scale_floats bs : length (scale_floats bs) = length bs.
Proof.
  assert (H : forall n bs, (length bs < n)%nat -> length (scale_floats bs) = length bs).
  { clear bs. induction n as [|n IH]; intros bs Hn; [lia|]. destruct bs as [|a [|b [|c [|d bs]]]]; try done.
    cbn [scale_floats]. rewrite length_app, length_le_bytes. cbn [length] in *. rewrite IH by lia. done. }
  apply (H (S (length bs))). lia.
Qed.

Lemma scale_step_eq p i mem :
  scale_step p i mem = let* b := load32 mem (p + 4 * i) in store32 mem (p + 4 * i) (scale_sample b).
Proof. done. Qed.

Lemma scale_loop p post k : forall bs X i, zlen bs / 4 = Z.of_nat k -> p + 4 * i = zlen X ->
  for_loop (scale_step p) i k (X ++ bs ++ post) = Some (X ++ scale_floats bs ++ post).
Proof.
  induction k as [|k IH]; intros bs X i Hk Hp; cbn [for_loop].
  { assert (zlen bs < 4) by dlia. destruct bs as [|a [|b [|c [|d bs]]]]; try done. cbn [length] in *. lia. }
  assert (4 <= zlen bs) by dlia. destruct bs as [|a [|b [|c [|d bs]]]]; [cbn [length] in *; lia..|].
  cbn [scale_floats]. set (w := [a; b; c; d]). assert (Hw : zlen w = 4) by done. change (a :: b :: c :: d :: bs) with (w ++ bs). rewrite scale_step_eq, Hp.
  rewrite <- app_assoc. replace (zlen X) with (zlen X + 0) by lia.
  rewrite (proj2 (load_piece X w (bs ++ post) 0 ltac:(lia))) by lia. cbn [mbind option_bind].
  change (slice w 0 4) with w. unfold store32.
  rewrite memcpy_Some by (rewrite ?length_le_bytes, ?length_app; lia). cbn [mbind option_bind].
  rewrite slice_self by (by rewrite length_le_bytes).
  rewrite (splice_piece X w (bs ++ post) (zlen X)) by (rewrite ?length_le_bytes; lia).
  rewrite splice_whole by (by rewrite length_le_bytes). set (v := le_bytes 4 (scale_sample (le_word w))).
  specialize (IH bs (X ++ v) (i + 1)). rewrite <- !app_assoc in IH. rewrite IH; [by rewrite <- app_assoc| |].
  - subst w. cbn [length] in Hk. dlia.
  - rewrite length_app. subst v. rewrite length_le_bytes. lia.
Qed.

Lemma read_float_ok h c q d pre R post len : 0 <= q <= zlen c -> 0 <= len <= 500000000 -> zlen R = 4 * len ->
  let bs := next_bytes c q (4 * len) in
  ReadFloatSample (mkWav h (Some (mkFile c q)) d 0) (pre ++ R ++ post) (zlen pre) len =
  Some (zlen bs / 4, pre ++ splice R 0 (scale_floats bs) ++ post, mkWav h (Some (mkFile c (q + zlen bs))) d 0).
Proof.
  intros Hq Hl HR bs. pose proof (length_next_bytes c q (4 * len) Hq ltac:(lia)) as Hb. fold bs in Hb.
  unfold ReadFloatSample. wav_simpl. change (0 =? 0) with true. cbv iota. rewrite u64_id by lia.
  rewrite fread_ok by (rewrite ?length_app; lia). fold bs. cbn [mbind option_bind]. rewrite i32_id by (unfold in_i32; dlia).
  rewrite splice_front by lia.
  assert (E : forall ys, length ys = length bs -> splice R 0 ys ++ post = ys ++ drop (length bs) R ++ post).
  { intros ys Hys. unfold splice. rewrite take_0, Hys. cbn [app]. by rewrite <- app_assoc. }
  rewrite E by done. rewrite (scale_loop (zlen pre) (drop (length bs) R ++ post)) by (rewrite ?Z2Nat.id; dlia).
  cbn [mbind option_bind]. rewrite E by apply length_scale_floats. done.
Qed.

Lemma quotient_in_i32 x d : 0 <= x <= 2147483647 -> 1 <= d -> i32 (x / d) = x / d.
Proof. intros Hx Hd. apply i32_id. pose proof (Z.div_pos x d). pose proof (Z.div_le_upper_bound x d x). unfold in_i32. nia. Qed.

(** Reading a frame, in either format. *)
Lemma read_frame_ok h c q d pre R post n : format_ok h -> 0 <= q <= zlen c -> 0 <= n <= 1000 -> zlen R = n * BytesPerSample h ->
  let bs := next_bytes c q (n * BytesPerSample h) in
  exists r, ReadSample (mkWav h (Some (mkFile c q)) d 0) (pre ++ R ++ post) (zlen pre) n =
  Some (r, pre ++ read_into h bs R ++ post, mkWav h (Some (mkFile c (q + zlen bs))) d 0).
Proof.
  intros [Hf Hc Hb] Hq Hn HR bs. assert (Hnc : 0 <= n * NChannels h <= 1000 * 1000) by nia.
  pose proof (length_next_bytes c q (n * BytesPerSample h) Hq) as Hbl. fold bs in Hbl.
  assert (Hs : sample_size h = (if FormatCategory h =? 3 then 4 else 2)) by done. unfold read_into.
  destruct Hf as [E | E]; rewrite E in Hs |- *; [change (1 =? 3) with false in *|change (3 =? 3) with true in *];
    cbv iota in *; rewrite Hs in Hb.
  - assert (Ebs : next_bytes c q (2 * (n * NChannels h)) = bs) by (subst bs; rewrite Hb; f_equal; lia).
    rewrite ReadSample_pcm_ok; [|done|lia|done|lia|lia|rewrite !length_app; lia]. cbv zeta. rewrite Ebs.
    eexists. do 3 f_equal. apply splice_front. lia.
  - assert (Ebs : next_bytes c q (4 * (n * NChannels h)) = bs) by (subst bs; rewrite Hb; f_equal; lia).
    unfold ReadSample. cbn [m_FileStatus m_head]. rewrite E. change (0 =? 0) with true. change (3 =? 3) with true. cbv iota.
    rewrite (i32_id (n * NChannels h)) by rng. rewrite read_float_ok by lia. rewrite Ebs. cbn [mbind option_bind].
    unfold per_channel. cbn [m_head]. rewrite (u64_id (4 * NChannels h)), (u64_id (zlen bs / 4)) by dlia.
    destruct (Z.eqb_spec (4 * NChannels h) 0); [lia|]. cbn [negb c_assert mbind option_bind]. by eexists.
Qed.

Lemma length_read_into h bs R : zlen bs <= zlen R -> length (read_into h bs R) = length R.
Proof. intros H. unfold read_into. apply length_splice; [lia|]. destruct (FormatCategory h =? 3); rewrite ?length_scale_floats; lia. Qed.

(** ** The calls of a frame *)

Lemma shorts_piece (pre T post xs : list Z) : Forall in_i16 xs -> 2 * zlen xs <= zlen T ->
  shorts_at (pre ++ splice T 0 (samples16 xs) ++ post) (zlen pre) (zlen xs) = Some xs.
Proof.
  intros Hx HT. pose proof (length_samples16 xs). rewrite <- splice_front by lia. apply shorts_at_splice; [lia|rewrite !length_app; lia|done].
Qed.

Lemma store_piece (pre T post xs : list Z) : 2 * zlen xs <= zlen T ->
  store_shorts (pre ++ T ++ post) (zlen pre) xs = Some (pre ++ splice T 0 (samples16 xs) ++ post).
Proof.
  intros HT. pose proof (length_samples16 xs). unfold store_shorts. rewrite memcpy_Some by (rewrite ?length_app; lia).
  rewrite slice_self by lia. by rewrite splice_front by lia.
Qed.

Lemma length_words16 k : forall l, length l = (2 * k)%nat -> length (words16 l) = k.
Proof.
  induction k as [|k IH]; intros l Hl; [by destruct l|]. destruct l as [|a [|b l]]; cbn [length] in *; [lia..|].
  cbn [words16 length]. by rewrite IH by lia.
Qed.

Lemma shorts_at_length mem p n : 0 <= p -> 0 <= n -> p + 2 * n <= zlen mem -> exists l, shorts_at mem p n = Some l /\ zlen l = n.
Proof.
  intros Hp Hn Hm. unfold shorts_at. rewrite (proj2 (range_ok_spec mem p (2 * n))) by lia. eexists. split; [reflexivity|].
  rewrite (length_words16 (Z.to_nat n)); [lia|]. apply Nat2Z.inj. rewrite length_slice by lia. lia.
Qed.

(** The low pass of a run of the program. *)
Definition lowpass (h xs : list Z) : list Z * list Z := filter_list (lowpass_sample start_globals) h xs.
Definition playing (h : list Z) : Globals := start_globals <| history_lp_ := h |>.

Lemma playprocess_ok h xs : playprocess (playing h) 1 (zlen xs) xs = Some (playing (lowpass h xs).1, (lowpass h xs).2).
Proof.
  unfold playprocess, playing, channel_loop. cbn [android_play_process_enalbed_ android_play_lowpass_enalbed_ update start_globals mbind option_bind history_lp_].
  change (Z.to_nat 1) with 1%nat. cbn [for_loop].
  rewrite filter_loop_ok by done. cbn [mbind option_bind]. unfold lowpass.
  change (lowpass_sample _) with (lowpass_sample start_globals). by destruct (filter_list (lowpass_sample start_globals) h xs).
Qed.

(** Memory after a write keeps its pieces. *)
Lemma length_splice_samples T n xs : zlen xs = n -> 2 * n <= zlen T -> length (splice T 0 (samples16 xs)) = length T.
Proof. intros Hx HT. pose proof (length_samples16 xs). apply length_splice; lia. Qed.

Section run.
Context (h1 h2 : SWavFileHead) (n : Z).
Context (Hn : frame_size h1 = n) (Hrate : n = 80 \/ n = 160) (Hf1 : format_ok h1) (Hf2 : format_ok h2).

Lemma bytes_range h : format_ok h -> 2 <= BytesPerSample h <= 4000.
Proof. intros [[E|E] Hc ->]; unfold sample_size; rewrite E; [change (1 =? 3) with false|change (3 =? 3) with true]; cbv iota; lia. Qed.

Lemma frame_bytes_ok h : format_ok h -> frame_bytes h1 h = n * BytesPerSample h /\ 2 * n <= n * BytesPerSample h <= 640000.
Proof.
  intros Hf. pose proof (bytes_range h Hf). unfold frame_bytes. rewrite Hn. assert (2 * n <= n * BytesPerSample h <= 640000) by nia.
  rewrite u32_id by rng. done.
Qed.

(** The call of the echo canceller changes only the first piece. *)
Lemma process_call_ok e A B post noisy T : ecm_wf false e -> B = splice T 0 (samples16 noisy) -> samples_ok n noisy ->
  2 * n <= zlen A -> 2 * n <= zlen T ->
  exists e' A', process_call h1 (Some e) (A ++ B ++ post) (Some (zlen A)) = Some (Some e', A' ++ B ++ post) /\
    ecm_wf false e' /\ length A' = length A.
Proof.
  intros He HB [Hl Hi] HA HT. unfold process_call. rewrite Hn. destruct (Z.leb_spec (2 * n) (zlen A)); [|lia].
  cbn [c_assert mbind option_bind].
  replace (shorts_at (A ++ B ++ post) (zlen A) n) with (Some noisy) by (rewrite HB, <- Hl; symmetry; apply shorts_piece; (done || lia)).
  cbn [mbind option_bind].
  destruct (shorts_at_length (A ++ B ++ post) 0 n) as (out & -> & Ho); [lia|lia|rewrite !length_app; lia|]. cbn [mbind option_bind].
  destruct (Process_arrays false e (mkSignals (Some noisy) None (Some (OutMem out))) n 0 He) as (r & e' & sg & out' & -> & He' & Eo & Hl');
    [constructor; cbn; try done; by intros ? [= <-]|split; by eexists|done|].
  cbn [mbind option_bind]. rewrite Eo. cbn [mbind option_bind].
  pose proof (store_piece [] A (B ++ post) out' ltac:(lia)) as E. cbn [app length] in E. change (Z.of_nat 0) with 0 in E. rewrite E.
  cbn [mbind option_bind]. exists e', (splice A 0 (samples16 out')). split_and!; [done|done|]. by eapply length_splice_samples.
Qed.

(** The calls of the far end. *)
Lemma buffer_call_ok e pre T post far : ecm_wf false e -> samples_ok n far -> 2 * n <= zlen T ->
  exists e', buffer_call h1 (Some e) (pre ++ splice T 0 (samples16 far) ++ post) (Some (zlen pre)) = Some (Some e') /\ ecm_wf false e'.
Proof.
  intros He [Hl Hi] HT. unfold buffer_call. rewrite Hn, <- Hl, shorts_piece by (done || lia). cbn [mbind option_bind]. rewrite Hl.
  destruct (BufferFarend_ok false e (Some far) n He) as ([r x] & -> & e' & Ex & He' & _); [by intros ? [= <-]|].
  cbn [snd] in Ex. subst x. cbn [mbind option_bind]. by exists e'.
Qed.

Lemma play_frame_ok h pre T post far hd c d : samples_ok n far -> 2 * n <= zlen T ->
  play_frame h1 (playing h) (writing hd c d) (pre ++ splice T 0 (samples16 far) ++ post) (Some (zlen pre)) =
  Some (playing (lowpass h far).1, writing (recounted hd (2 * n)) (c ++ samples16 (lowpass h far).2) d,
    pre ++ splice T 0 (samples16 (lowpass h far).2) ++ post).
Proof.
  intros [Hl Hi] HT. pose proof (length_filter_list (lowpass_sample start_globals) far h) as Hlf. fold (lowpass h far) in Hlf.
  unfold play_frame. rewrite Hn. cbn [mbind option_bind]. rewrite <- Hl. rewrite shorts_piece by (done || lia). cbn [mbind option_bind].
  rewrite playprocess_ok. cbn [mbind option_bind]. destruct (lowpass h far) as [h' ys]. cbn [fst snd] in *.
  pose proof (length_splice_samples T _ far Hl ltac:(lia)) as HT'.
  rewrite store_piece by lia. cbn [mbind option_bind].
  assert (E : splice (splice T 0 (samples16 far)) 0 (samples16 ys) = splice T 0 (samples16 ys)).
  { pose proof (length_samples16 far). pose proof (length_samples16 ys). unfold splice at 1. rewrite take_0. unfold splice at 1.
    cbn [app]. rewrite take_0. cbn [app]. unfold splice. rewrite take_0. cbn [app]. f_equal.
    rewrite drop_app_ge by lia. rewrite drop_drop. f_equal. lia. }
  rewrite E. pose proof (length_splice_samples T _ ys eq_refl ltac:(lia)) as HT2. pose proof (length_samples16 ys) as Hls.
  rewrite i32_id by (rewrite Hl; rng). rewrite WriteSample_ok by (rewrite ?length_app; lia). cbn [mbind option_bind].
  rewrite slice_front by lia. assert (E2 : slice (splice T 0 (samples16 ys)) 0 (2 * zlen far) = samples16 ys).
  { unfold slice, splice. rewrite take_0. cbn [app drop Z.to_nat]. apply take_app_length'. lia. }
  by rewrite E2.
Qed.
(** The state of the loop: the far-end frame as it was read, the positions of the
    inputs, what has been written, and the history of the low pass. *)
Record run_state (c1 c2 C : list Z) (d1 d2 d3 q2 : Z) (hd : SWavFileHead) (c h : list Z) (s : MainState) : Prop := mkRunState {
  rs_mem : exists A B D, ms_mem s = A ++ B ++ C ++ D /\ zlen A = n * BytesPerSample h1 /\ zlen B = n * BytesPerSample h1 /\
             zlen C = n * BytesPerSample h2 /\ zlen D = n * BytesPerSample h2;
  rs_read1 : exists q1, ms_read1 s = mkWav h1 (Some (mkFile c1 q1)) d1 0 /\ 0 <= q1 <= zlen c1;
  rs_read2 : ms_read2 s = mkWav h2 (Some (mkFile c2 q2)) d2 0 /\ 0 <= q2 <= zlen c2;
  rs_write1 : ms_write1 s = writing hd c d3;
  rs_aecm : exists e, ms_aecm s = Some e /\ ecm_wf false e;
  rs_globals : ms_globals s = playing h }.

Lemma next_bytes_pos c q m : 0 <= q <= zlen c -> 0 <= m -> 0 <= q + zlen (next_bytes c q m) <= zlen c /\ zlen (next_bytes c q m) <= m.
Proof. intros Hq Hm. rewrite length_next_bytes by done. lia. Qed.

Lemma run_frame_ok c1 c2 C d1 d2 d3 q2 hd c h s : run_state c1 c2 C d1 d2 d3 q2 hd c h s ->
  let bs := next_bytes c2 q2 (n * BytesPerSample h2) in
  let C' := read_into h2 bs C in
  let far := frame_samples h2 n C' in
  exists s', run_frame h1 h2 s = Some s' /\
    run_state c1 c2 C' d1 d2 d3 (q2 + zlen bs) (recounted hd (2 * n)) (c ++ samples16 (lowpass h far).2) (lowpass h far).1 s'.
Proof.
  intros [(A & B & D & Em & LA & LB & LC & LD) (q1 & E1 & Hq1) [E2 Hq2] Ew (e & Ee & He) Eg] bs C' far.
  destruct (frame_bytes_ok h1 Hf1) as [F1 R1]. destruct (frame_bytes_ok h2 Hf2) as [F2 R2].
  assert (Hbuf : processing_buffer h1 = zlen A /\ buffer2 h1 = zlen (A ++ B) /\ refer_buffer h1 h2 = zlen (A ++ B) + zlen C).
  { unfold refer_buffer, buffer2, processing_buffer. rewrite F1, F2, length_app. lia. }
  destruct Hbuf as (P1 & P2 & P3). unfold run_frame. rewrite P1, P2, P3, Em, E1, E2, Ew, Ee, Eg, Hn, (i32_id n) by rng.
  pose proof (next_bytes_pos c1 q1 (n * BytesPerSample h1) Hq1 ltac:(lia)) as [Hq1' Hb1].
  pose proof (next_bytes_pos c2 q2 (n * BytesPerSample h2) Hq2 ltac:(lia)) as [Hq2' Hb2]. fold bs in Hq2', Hb2.
  (* the near end *)
  destruct (read_frame_ok h1 c1 q1 d1 [] A (B ++ C ++ D) n Hf1 Hq1 ltac:(lia) LA) as (r1 & Er1). cbn [app length] in Er1.
  change (Z.of_nat 0) with 0 in Er1. rewrite Er1. cbn [mbind option_bind]. clear Er1.
  set (A1 := read_into h1 _ A). assert (LA1 : length A1 = length A) by (apply length_read_into; lia).
  pose proof (convert_frame_ok h1 [] A1 B (C ++ D) n (process_in s) Hf1 ltac:(lia) ltac:(lia) ltac:(lia)) as Ec1.
  cbn [app length] in Ec1. change (Z.of_nat 0) with 0 in Ec1. rewrite Z.add_0_l, LA1 in Ec1. rewrite Ec1. cbn [mbind option_bind]. clear Ec1.
  set (near := frame_samples h1 n A1). pose proof (frame_samples_i16 h1 n A1 ltac:(lia)) as Hnear. fold near in Hnear.
  set (B1 := splice B 0 (samples16 near)). assert (LB1 : length B1 = length B) by (apply (length_splice_samples B n); [apply Hnear|lia]).
  (* the far end *)
  rewrite (app_assoc A1 B1). replace (zlen (A ++ B)) with (zlen (A1 ++ B1)) by (rewrite !length_app; lia).
  destruct (read_frame_ok h2 c2 q2 d2 (A1 ++ B1) C D n Hf2 Hq2 ltac:(lia) LC) as (r2 & ->). fold bs. fold C'. cbn [mbind option_bind].
  assert (LC' : length C' = length C) by (apply length_read_into; lia).
  pose proof (convert_frame_ok h2 (A1 ++ B1) C' D [] n (reffer_in s) Hf2 ltac:(lia) ltac:(lia) ltac:(lia)) as Ec2.
  rewrite !app_nil_r, LC' in Ec2. rewrite Ec2. cbn [mbind option_bind]. clear Ec2. fold far.
  pose proof (frame_samples_i16 h2 n C' ltac:(lia)) as Hfar. fold far in Hfar.
  assert (Hpre : zlen (A1 ++ B1) + zlen C = zlen ((A1 ++ B1) ++ C')) by (rewrite (length_app (A1 ++ B1)); lia). rewrite Hpre.
  rewrite (app_assoc (A1 ++ B1) C'). set (D1 := splice D 0 (samples16 far)).
  (* the calls *)
  destruct (buffer_call_ok e ((A1 ++ B1) ++ C') D [] far He Hfar ltac:(lia)) as (e1 & Eb & He1). rewrite app_nil_r in Eb. fold D1 in Eb.
  rewrite Eb. cbn [mbind option_bind]. clear Eb. rewrite <- !app_assoc.
  destruct (process_call_ok e1 A1 B1 (C' ++ D1) near B He1 eq_refl Hnear ltac:(lia) ltac:(lia)) as (e2 & A2 & Ep & He2 & LA2).
  rewrite LA1 in Ep. rewrite Ep. cbn [mbind option_bind]. clear Ep.
  replace (A2 ++ B1 ++ C' ++ D1) with ((A2 ++ B1 ++ C') ++ D1) by (by rewrite <- !app_assoc).
  replace (zlen (A1 ++ B1 ++ C')) with (zlen (A2 ++ B1 ++ C')) by (rewrite !length_app; lia).
  pose proof (play_frame_ok h (A2 ++ B1 ++ C') D [] far hd c d3 Hfar ltac:(lia)) as Epl. rewrite !app_nil_r in Epl. fold D1 in Epl.
  rewrite Epl. cbn [mbind option_bind]. eexists. split; [reflexivity|].
  assert (Llp : zlen (lowpass h far).2 = n) by (unfold lowpass; rewrite length_filter_list; apply Hfar).
  constructor; cbn [ms_mem ms_read1 ms_read2 ms_write1 ms_aecm ms_globals]; try done.
  - exists A2, B1, (splice D 0 (samples16 (lowpass h far).2)). rewrite <- !app_assoc. pose proof (length_splice_samples D n _ Llp ltac:(lia)).
    split_and!; (done || lia).
  - by eexists.
  - by exists e2.
Qed.
(** ** The loop *)

(** The samples of [k] frames, converted from the bytes [rest] of the far-end
    file: a frame that is not complete keeps the end of the one before. *)
Fixpoint far_samples (k : nat) (C rest : list Z) : list Z :=
  match k with
  | O => []
  | S k =>
      let m := Z.to_nat (n * BytesPerSample h2) in
      let C := read_into h2 (take m rest) C in
      frame_samples h2 n C ++ far_samples k C (drop m rest)
  end.

Lemma next_bytes_take c q m : 0 <= q <= zlen c -> 0 <= m -> let bs := next_bytes c q m in
  bs = take (Z.to_nat m) (drop (Z.to_nat q) c) /\ drop (Z.to_nat (q + zlen bs)) c = drop (Z.to_nat m) (drop (Z.to_nat q) c).
Proof.
  intros Hq Hm bs. assert (E : bs = take (Z.to_nat m) (drop (Z.to_nat q) c)).
  { subst bs. unfold next_bytes, slice. destruct (Z.le_ge_cases m (zlen c - q)) as [H|H].
    - by rewrite Z.min_l by lia.
    - rewrite Z.min_r by lia. rewrite !firstn_all2 by (rewrite length_drop; lia). done. }
  split; [done|]. pose proof (length_next_bytes c q m Hq Hm) as Hl. fold bs in Hl. rewrite drop_drop.
  destruct (Z.le_ge_cases m (zlen c - q)) as [H|H]; [f_equal; lia|]. rewrite !drop_ge by lia. done.
Qed.

Definition recounted_times (k : nat) (hd : SWavFileHead) : SWavFileHead := Nat.iter k (fun hd => recounted hd (2 * n)) hd.

Lemma recounted_times_add k hd : recounted_times (S k) hd = recounted hd (2 * n * Z.of_nat (S k)).
Proof.
  induction k as [|k IH]; [change (recounted_times 1 hd) with (recounted hd (2 * n)); f_equal; lia|].
  change (recounted_times (S (S k)) hd) with (recounted (recounted_times (S k) hd) (2 * n)). rewrite IH, recounted_add. f_equal. lia.
Qed.

Lemma recounted_times_shift k hd : recounted_times k (recounted hd (2 * n)) = recounted_times (S k) hd.
Proof. unfold recounted_times. by rewrite Nat.iter_succ_r. Qed.

Lemma main_loop_ok c1 c2 d1 d2 d3 k : forall fuel loop C q2 hd c h s, run_state c1 c2 C d1 d2 d3 q2 hd c h s -> (k < fuel)%nat ->
  let fb := n * BytesPerSample h1 in let raw := RawDataFileLength h1 in
  0 <= loop -> loop + Z.of_nat k * fb - fb < raw <= loop + Z.of_nat k * fb -> raw + fb <= 2147483647 ->
  let r := lowpass h (far_samples k C (drop (Z.to_nat q2) c2)) in
  exists s' C' q', main_loop h1 h2 fuel loop s = Some s' /\
    run_state c1 c2 C' d1 d2 d3 q' (recounted_times k hd) (c ++ samples16 r.2) r.1 s'.
Proof.
  intros fuel. revert fuel. induction k as [|k IH]; intros [|fuel] loop C q2 hd c h s Hs Hk; [lia| |lia|]; intros fb raw Hloop Hraw Hmax;
    cbn [main_loop far_samples]; fold raw; destruct (frame_bytes_ok h1 Hf1) as [F1 R1]; fold fb in F1, R1.
  - destruct (Z.ltb_spec loop raw); [lia|]. exists s, C, q2. split; [done|]. cbn [lowpass filter_list fst snd]. by rewrite app_nil_r.
  - destruct (Z.ltb_spec loop raw) as [_|?]; [|nia]. destruct (run_frame_ok _ _ _ _ _ _ _ _ _ _ _ Hs) as (s1 & -> & Hs1). cbn [mbind option_bind].
    pose proof (rs_read2 _ _ _ _ _ _ _ _ _ _ _ Hs) as [_ Hq]. destruct (frame_bytes_ok h2 Hf2) as [_ R2].
    destruct (next_bytes_take c2 q2 (n * BytesPerSample h2) Hq ltac:(lia)) as [E1 E2]. rewrite F1, i32_id by (unfold in_i32; nia).
    set (m := Z.to_nat (n * BytesPerSample h2)) in *. set (C1 := read_into h2 (take m (drop (Z.to_nat q2) c2)) C).
    assert (EC : read_into h2 (next_bytes c2 q2 (n * BytesPerSample h2)) C = C1) by (by rewrite E1). rewrite !EC in Hs1.
    edestruct (IH fuel (loop + fb) C1 _ _ _ _ s1 Hs1) as (s' & C' & q' & E & Hs'); [lia|lia|fold fb raw; lia|done|].
    rewrite E2 in Hs'. exists s', C', q'. split; [exact E|]. rewrite recounted_times_shift, <- app_assoc, <- samples16_app in Hs'.
    unfold lowpass in *. rewrite filter_list_app. destruct (filter_list _ h (frame_samples h2 n C1)) as [h1' us]. cbn [fst snd] in *.
    by destruct (filter_list _ h1' _) as [h2' vs].
Qed.
End run.

(** ** main *)

(** A readable wave file. *)
Record wave_file (h : SWavFileHead) (extra : list Z) (chunks : list Chunk) : Prop := mkWaveFile {
  wf_wave : wave_ok h extra; wf_data : data_flag h = chars "data"; wf_chunks : Forall chunk_ok chunks; wf_format : format_ok h }.

Lemma wave_file_tags h extra chunks : wave_file h extra chunks -> wave_tags h.
Proof. intros [[_ ? ? _ _] ? _ _]. by constructor. Qed.

(** The world of a run: both inputs exist, and the output can be written. *)
Definition inputs (wd : World) (near far : list Z) : Prop :=
  wd_near wd = Some near /\ wd_far wd = Some far /\ wd_out wd = true /\
  head_ok (m_head (wd_fresh1 wd)) /\ head_ok (m_head (wd_fresh2 wd)) /\ mobile_allocs_ok (wd_allocs wd).

(** The number of frames that the loop makes of the near-end file. *)
Definition frames (h : SWavFileHead) : Z :=
  let fb := SampleRate h / 100 * BytesPerSample h in (RawDataFileLength h + fb - 1) / fb.

Lemma open_output fuel fresh : exists h0,
  CWavFileOp_open fuel fresh (Some (mkFile [] 0)) "wb" = Some (writing h0 [] (m_DATApos fresh)).
Proof. apply open_new. Qed.

Lemma main_split fuel wd w1 w2 w3 :
  CWavFileOp_open fuel (wd_fresh1 wd) (open_file (wd_near wd)) "r" = Some w1 -> m_FileStatus w1 = 0 ->
  CWavFileOp_open fuel (wd_fresh2 wd) (open_file (wd_far wd)) "r" = Some w2 -> m_FileStatus w2 = 0 ->
  CWavFileOp_open fuel (wd_fresh3 wd) (if wd_out wd then Some (mkFile [] 0) else None) "wb" = Some w3 -> m_FileStatus w3 = 0 ->
  main fuel wd = main_process fuel (wd_allocs wd) w1 w2 w3.
Proof.
  intros E1 S1 E2 S2 E3 S3.
  unfold main. rewrite E1. cbn [mbind option_bind]. rewrite S1. change (0 =? -2) with false. cbv iota.
  rewrite E2. cbn [mbind option_bind]. rewrite S2. change (0 =? -2) with false. cbv iota.
  rewrite E3. cbn [mbind option_bind]. rewrite S3. reflexivity.
Qed.

Lemma main_opens fuel wd h1 h2 x1 x2 k1 k2 p1 p2 : wave_file h1 x1 k1 -> wave_file h2 x2 k2 ->
  inputs wd (wave_bytes h1 x1 k1 p1) (wave_bytes h2 x2 k2 p2) -> (length k1 < fuel)%nat -> (length k2 < fuel)%nat ->
  let c1 := wave_bytes h1 x1 k1 p1 in let c2 := wave_bytes h2 x2 k2 p2 in
  exists h0, main fuel wd = main_process fuel (wd_allocs wd)
    (mkWav h1 (Some (mkFile c1 (zlen c1 - zlen p1))) (zlen c1 - zlen p1) 0)
    (mkWav h2 (Some (mkFile c2 (zlen c2 - zlen p2))) (zlen c2 - zlen p2) 0) (writing h0 [] (m_DATApos (wd_fresh3 wd))).
Proof.
  intros [W1 D1 K1 _] [W2 D2 K2 _] (E1 & E2 & E3 & F1 & F2 & _) Hf1 Hf2 c1 c2.
  destruct (open_output fuel (wd_fresh3 wd)) as (h0 & Eo). exists h0. apply main_split; [|done| |done| |done].
  - rewrite E1. exact (open_wave h1 x1 k1 p1 fuel _ W1 D1 K1 Hf1 F1).
  - rewrite E2. exact (open_wave h2 x2 k2 p2 fuel _ W2 D2 K2 Hf2 F2).
  - rewrite E3. exact Eo.
Qed.

Lemma main_no_near fuel wd : wd_near wd = None -> main fuel wd = Some (0, None).
Proof. intros E. unfold main. rewrite E. reflexivity. Qed.

Lemma main_no_far fuel wd w1 : CWavFileOp_open fuel (wd_fresh1 wd) (open_file (wd_near wd)) "r" = Some w1 -> m_FileStatus w1 = 0 ->
  wd_far wd = None -> main fuel wd = Some (0, None).
Proof. intros E1 S1 E2. unfold main. rewrite E1. cbn [mbind option_bind]. rewrite S1, E2. reflexivity. Qed.

Lemma main_no_output fuel wd w1 w2 : CWavFileOp_open fuel (wd_fresh1 wd) (open_file (wd_near wd)) "r" = Some w1 -> m_FileStatus w1 = 0 ->
  CWavFileOp_open fuel (wd_fresh2 wd) (open_file (wd_far wd)) "r" = Some w2 -> m_FileStatus w2 = 0 ->
  wd_out wd = false -> main fuel wd = Some (0, None).
Proof.
  intros E1 S1 E2 S2 E3. unfold main. rewrite E1. cbn [mbind option_bind]. rewrite S1. change (0 =? -2) with false. cbv iota.
  rewrite E2. cbn [mbind option_bind]. rewrite S2, E3. reflexivity.
Qed.

Lemma payload_at h x k p : let c := wave_bytes h x k p in 0 <= zlen c - zlen p <= zlen c /\ drop (Z.to_nat (zlen c - zlen p)) c = p.
Proof.
  intros c. subst c. unfold wave_bytes. rewrite !app_assoc. set (l := _ ++ le_bytes 4 _). rewrite length_app. split; [lia|].
  apply drop_app_length'. lia.
Qed.

Lemma zeros_app a b : 0 <= a -> 0 <= b -> zreplicate (a + b) 0 = zreplicate a 0 ++ zreplicate b 0.
Proof. intros. unfold zreplicate. rewrite Z2Nat.inj_add, replicate_add by lia. done. Qed.

(** The silence of a new low pass. *)
Definition lp_start : list Z := [0; 0; 0; 0; 0].

Lemma frame_size_rate h : SampleRate h = 8000 \/ SampleRate h = 16000 ->
  frame_size h = SampleRate h / 100 /\ (SampleRate h / 100 = 80 \/ SampleRate h / 100 = 160).
Proof. unfold frame_size. intros [-> | ->]; (split; [reflexivity|]); [by left|by right]. Qed.

(** The state before the loop. *)
Lemma start_state h1 h2 n c1 c2 d1 d2 d3 q1 q2 c e : frame_size h1 = n -> n = 80 \/ n = 160 -> format_ok h1 -> format_ok h2 ->
  0 <= q1 <= zlen c1 -> 0 <= q2 <= zlen c2 -> ecm_wf false e ->
  run_state h1 h2 n c1 c2 (zreplicate (n * BytesPerSample h2) 0) d1 d2 d3 q2 h1 c lp_start
    (mkMain (zreplicate (buffer_size h1 h2) 0) (mkWav h1 (Some (mkFile c1 q1)) d1 0) (mkWav h2 (Some (mkFile c2 q2)) d2 0)
       (writing h1 c d3) (Some e) start_globals None None).
Proof.
  intros Hn Hr Hf1 Hf2 Hq1 Hq2 He. pose proof (bytes_range h1 Hf1). pose proof (bytes_range h2 Hf2).
  set (a := n * BytesPerSample h1). set (b := n * BytesPerSample h2). assert (Ha : 0 <= a <= 640000 /\ 0 <= b <= 640000) by (subst a b; nia).
  assert (E : buffer_size h1 h2 = a + (a + (b + b))) by (unfold buffer_size; rewrite Hn, u32_id by (unfold in_u32; subst a b; lia); subst a b; lia).
  constructor; cbn [ms_mem ms_read1 ms_read2 ms_write1 ms_aecm ms_globals]; try done; [|by eexists|by exists e].
  exists (zreplicate a 0), (zreplicate a 0), (zreplicate b 0). rewrite E, !zeros_app by lia.
  unfold zreplicate. rewrite !length_replicate. split_and!; (done || lia).
Qed.

(** C4. The test program: for two wave files of one supported rate, in 16-bit or
    floating-point format with any number of channels, [main] returns, and the
    output file holds a header and the far end, its first channel converted to
    16 bits and passed through the low pass; one frame is written for each started
    frame of the near-end file, whose samples, like the output of the echo
    canceller, are not used. *)
Theorem main_writes_filtered_far_end fuel wd h1 h2 x1 x2 k1 k2 p1 p2 : wave_file h1 x1 k1 -> wave_file h2 x2 k2 ->
  inputs wd (wave_bytes h1 x1 k1 p1) (wave_bytes h2 x2 k2 p2) -> SampleRate h1 = SampleRate h2 ->
  SampleRate h1 = 8000 \/ SampleRate h1 = 16000 -> 0 < RawDataFileLength h1 <= 2146843647 ->
  (length k1 < fuel)%nat -> (length k2 < fuel)%nat -> frames h1 < Z.of_nat fuel ->
  let n := SampleRate h1 / 100 in
  let far := far_samples h2 n (Z.to_nat (frames h1)) (zreplicate (n * BytesPerSample h2) 0) p2 in
  let g := final_head (recounted h1 (2 * n * frames h1)) 1 (SampleRate h1) in
  main fuel wd = Some (0, Some (encode_head g ++ samples16 (lowpass lp_start far).2)).
Proof.
  intros W1 W2 Hin Hrate Hsr Hraw Hk1 Hk2 Hfu n far g.
  destruct (main_opens fuel wd h1 h2 x1 x2 k1 k2 p1 p2 W1 W2 Hin Hk1 Hk2) as (h0 & ->). destruct Hin as (_ & _ & _ & _ & _ & Hal).
  pose proof (payload_at h1 x1 k1 p1) as [Hq1 _]. pose proof (payload_at h2 x2 k2 p2) as [Hq2 Hp2]. cbv zeta in Hq1, Hq2, Hp2.
  destruct (frame_size_rate h1 Hsr) as [Hn Hnr]. fold n in Hn, Hnr. pose proof (wf_format _ _ _ W1) as Hf1. pose proof (wf_format _ _ _ W2) as Hf2.
  unfold main_process, ReadHeader. cbn [m_FileStatus m_head]. change (0 =? 0) with true. cbv iota.
  rewrite (proj2 (Z.eqb_eq _ _) Hrate). cbn [negb]. rewrite WriteHeader_new. cbn [mbind option_bind].
  destruct (Create_ok _ Hal) as (e0 & -> & He0 & _). cbn [mbind option_bind].
  destruct (Init_ok e0 (SampleRate h1) He0 Hsr) as (e & -> & [He _ _ _ _ _ _ _] & _). cbn [mbind option_bind]. change (negb (0 =? 0)) with false. cbv iota.
  pose proof (frame_bytes_ok h1 n Hn Hnr h1 Hf1) as [_ R1].
  assert (Hfr : 0 + frames h1 * (n * BytesPerSample h1) - n * BytesPerSample h1 < RawDataFileLength h1 <= 0 + frames h1 * (n * BytesPerSample h1) /\ 0 < frames h1).
  { unfold frames. fold n. set (fb := n * BytesPerSample h1) in *. clearbody fb. set (raw := RawDataFileLength h1) in *. clearbody raw. cbv zeta.
    pose proof (Z.div_mod (raw + fb - 1) fb). pose proof (Z.mod_pos_bound (raw + fb - 1) fb).
    assert (0 < (raw + fb - 1) / fb) by (apply Z.div_str_pos; lia). lia. }
  destruct Hfr as [Hfr Hk].
  pose proof (start_state h1 h2 n _ _ (zlen (wave_bytes h1 x1 k1 p1) - zlen p1) (zlen (wave_bytes h2 x2 k2 p2) - zlen p2) (m_DATApos (wd_fresh3 wd))
    _ _ (encode_head h1) e Hn Hnr Hf1 Hf2 Hq1 Hq2 (He false)) as Hst.
  edestruct (main_loop_ok h1 h2 n Hn Hnr Hf1 Hf2 _ _ _ _ _ (Z.to_nat (frames h1)) fuel 0 _ _ _ _ _ _ Hst) as (s' & C' & q' & -> & Hs');
    [lia|lia|by rewrite Z2Nat.id by lia|lia|].
  cbn [mbind option_bind]. rewrite (rs_write1 _ _ _ _ _ _ _ _ _ _ _ _ _ _ Hs'). rewrite Hp2. fold far.
  destruct (Z.to_nat (frames h1)) as [|k] eqn:Ek; [lia|]. rewrite recounted_times_add, <- Ek, Z2Nat.id by lia.
  destruct (final_ok h1 (2 * n * frames h1) 1 (SampleRate h1) (wave_file_tags _ _ _ W1)) as [[Hg _ _ _ _] _]; [lia|destruct Hsr as [-> | ->]; rng|].
  pose proof (wo_head _ _ (wf_wave _ _ _ W1)) as Hok.
  rewrite UpdateHeader_new_ok; [|done|lia|rewrite length_app, Nat2Z.inj_add, (length_encode_head h1 Hok); lia|exact Hg].
  cbn [mbind option_bind]. by rewrite drop_head.
Qed.

(** A world of mono files at 16 kHz in 16-bit format. *)
Definition sample_world (near far : list Z) : World :=
  mkWorld blank_wav blank_wav blank_wav (Some (encode_head (sample_head 640) ++ samples16 near))
    (Some (encode_head (sample_head 640) ++ samples16 far)) true sample_mobile_allocs.

Lemma sample_wave_file raw : 0 <= raw <= 2147483611 -> wave_file (sample_head raw) [] [].
Proof. intros. constructor; [by apply sample_wave_ok|reflexivity|constructor|constructor; [by left|cbn; lia|reflexivity]]. Qed.

Lemma main_writes_filtered_far_end_witness :
  let far := [1000; 2000; -3000] in let h := sample_head 640 in
  main 3 (sample_world [5; 6; 7] far) =
  Some (0, Some (encode_head (final_head (recounted h 640) 1 16000) ++
    samples16 (lowpass lp_start (far_samples h 160 2 (zreplicate 320 0) (samples16 far))).2)).
Proof.
  pose proof (sample_wave_file 640 ltac:(lia)) as Hw.
  apply (main_writes_filtered_far_end 3 (sample_world [5; 6; 7] [1000; 2000; -3000]) (sample_head 640) (sample_head 640) [] [] [] []
    (samples16 [5; 6; 7]) (samples16 [1000; 2000; -3000]) Hw Hw);
    [|reflexivity|by right|cbn; lia|cbn; lia|cbn; lia|vm_compute; reflexivity].
  rewrite !wave_bytes_plain. split_and!; [reflexivity|reflexivity|reflexivity|apply blank_wav_ok|apply blank_wav_ok|apply sample_mobile_allocs_ok].
Defined.

(** ** The far end that is written *)

Lemma slice_samples xs i x : aget xs i = Some x -> slice (samples16 xs) (2 * i) 2 = le_bytes 2 x.
Proof.
  intros Hx. pose proof (aget_Some_range _ _ _ Hx) as Hi. unfold aget in Hx. destruct (Z.leb_spec 0 i); [|done].
  rewrite <- (take_drop_middle xs (Z.to_nat i) x Hx). rewrite samples16_app.
  change (samples16 (x :: drop ?k xs)) with (le_bytes 2 x ++ samples16 (drop k xs)).
  assert (E : 2 * i = zlen (samples16 (take (Z.to_nat i) xs))) by (rewrite length_samples16, length_take; lia).
  rewrite E, slice_front by (rewrite length_le_bytes; lia). by apply slice_self.
Qed.

(** A complete frame of 16-bit mono samples. *)
Lemma frame_samples_pcm h n ys C : FormatCategory h = 1 -> NChannels h = 1 -> zlen ys = n -> Forall in_i16 ys -> zlen C = 2 * n ->
  frame_samples h n (read_into h (samples16 ys) C) = ys.
Proof.
  intros Hf Hc Hl Hy HC. pose proof (length_samples16 ys) as Hs. unfold frame_samples, read_into. rewrite Hf. change (1 =? 3) with false. cbv iota.
  rewrite splice_whole by lia. rewrite <- Hl. apply tab_list. intros i y Hi. unfold frame_sample, sample_size. rewrite Hf.
  change (1 =? 3) with false. cbv iota zeta. rewrite Hc, Z.mul_1_r, (slice_samples ys i y Hi). apply word16_id. by apply (Forall_aget _ _ _ _ Hy Hi).
Qed.

Lemma far_samples_end h n k C : FormatCategory h = 1 -> far_samples h n k C [] = mjoin (replicate k (frame_samples h n C)).
Proof.
  intros Hf. assert (E : read_into h [] C = C) by (unfold read_into; rewrite Hf; change (1 =? 3) with false; cbv iota; apply take_drop).
  induction k as [|k IH]; [done|]. cbn [far_samples replicate]. rewrite take_nil, drop_nil, E, IH. reflexivity.
Qed.

Lemma far_samples_pcm h n j yss : FormatCategory h = 1 -> NChannels h = 1 -> BytesPerSample h = 2 -> 0 <= n ->
  Forall (fun ys => zlen ys = n /\ Forall in_i16 ys) yss -> forall C, zlen C = 2 * n ->
  far_samples h n (length yss + j) C (samples16 (mjoin yss)) =
  mjoin yss ++ far_samples h n j (match last yss with Some ys => samples16 ys | None => C end) [].
Proof.
  intros Hf Hc Hb Hn. induction 1 as [|ys yss [Hl Hy] Hys IH]; intros C HC; cbn [length Nat.add]; [done|].
  cbn [far_samples]. change (mjoin (ys :: yss)) with (ys ++ mjoin yss). rewrite samples16_app, Hb.
  pose proof (length_samples16 ys) as Hs. rewrite take_app_length', drop_app_length' by lia. rewrite frame_samples_pcm by done.
  assert (E : read_into h (samples16 ys) C = samples16 ys)
    by (unfold read_into; rewrite Hf; change (1 =? 3) with false; cbv iota; apply splice_whole; lia).
  rewrite E, IH by lia. rewrite <- app_assoc. do 2 f_equal. destruct yss as [|zs yss]; [done|].
  change (last (ys :: zs :: yss)) with (last (zs :: yss)). destruct (last (zs :: yss)) eqn:El; [done|]. by apply last_None in El.
Qed.

(** The far end of a 16-bit mono file: as long as the file lasts its samples
    are taken in order; when it is shorter than the near-end file its last frame
    is taken again for every frame that is missing. *)
Theorem far_end_in_order h n ys yss j : FormatCategory h = 1 -> NChannels h = 1 -> BytesPerSample h = 2 -> 0 <= n ->
  Forall (fun ys => zlen ys = n /\ Forall in_i16 ys) (yss ++ [ys]) ->
  far_samples h n (length (yss ++ [ys]) + j) (zreplicate (n * BytesPerSample h) 0) (samples16 (mjoin (yss ++ [ys]))) =
  mjoin (yss ++ [ys]) ++ mjoin (replicate j ys).
Proof.
  intros Hf Hc Hb Hn Hys. rewrite far_samples_pcm; [|done..|unfold zreplicate; rewrite length_replicate; lia].
  rewrite last_snoc, far_samples_end by done. do 2 f_equal. apply Forall_app in Hys as [_ Hy]. apply Forall_singleton in Hy as [Hl Hi].
  f_equal. assert (E : read_into h (samples16 ys) (samples16 ys) = samples16 ys)
    by (unfold read_into; rewrite Hf; change (1 =? 3) with false; cbv iota; by apply splice_whole).
  rewrite <- E. apply frame_samples_pcm; [done..|]. rewrite length_samples16. lia.
Qed.

Lemma far_end_in_order_witness :
  far_samples (sample_head 4) 2 3 (zreplicate 4 0) (samples16 [7; -8]) = [7; -8] ++ [7; -8; 7; -8].
Proof.
  apply (far_end_in_order (sample_head 4) 2 [7; -8] [] 2); [reflexivity|reflexivity|reflexivity|lia|].
  repeat constructor; rng.
Defined.

(** The header of the output counts the bytes of the near-end file as well as
    those that were written. *)
Lemma output_header_counts_twice h n : RawDataFileLength h = 2 * n * frames h -> 0 <= 4 * n * frames h <= 2147483647 ->
  RawDataFileLength (final_head (recounted h (2 * n * frames h)) 1 (SampleRate h)) = 2 * (2 * n * frames h).
Proof.
  intros E H. set (m := 2 * n * frames h) in *.
  change (i32 (RawDataFileLength h + m) = 2 * m).
  rewrite E, i32_id by rng. lia.
Qed.

(** C30. The errors of the test program: it returns 0 in every case; when a file cannot
    be opened nothing is written, when the rates differ the output is left empty,
    and a rate that the echo canceller does not support leaves the header of the
    near-end file. *)
Theorem main_errors fuel wd h1 h2 x1 x2 k1 k2 p1 p2 : wave_file h1 x1 k1 -> wave_file h2 x2 k2 ->
  (length k1 < fuel)%nat -> (length k2 < fuel)%nat -> head_ok (m_head (wd_fresh1 wd)) -> head_ok (m_head (wd_fresh2 wd)) ->
  mobile_allocs_ok (wd_allocs wd) ->
  let c1 := wave_bytes h1 x1 k1 p1 in let c2 := wave_bytes h2 x2 k2 p2 in
  (wd_near wd = None -> main fuel wd = Some (0, None)) /\
  (wd_near wd = Some c1 -> wd_far wd = None -> main fuel wd = Some (0, None)) /\
  (wd_near wd = Some c1 -> wd_far wd = Some c2 -> wd_out wd = false -> main fuel wd = Some (0, None)) /\
  (wd_near wd = Some c1 -> wd_far wd = Some c2 -> wd_out wd = true -> SampleRate h1 <> SampleRate h2 ->
     main fuel wd = Some (0, Some [])) /\
  (wd_near wd = Some c1 -> wd_far wd = Some c2 -> wd_out wd = true -> SampleRate h1 = SampleRate h2 ->
     SampleRate h1 <> 8000 -> SampleRate h1 <> 16000 -> main fuel wd = Some (0, Some (encode_head h1))).
Proof.
  intros W1 W2 Hk1 Hk2 F1 F2 Hal c1 c2. pose proof W1 as [V1 D1 K1 _]. pose proof W2 as [V2 D2 K2 _].
  pose proof (open_wave h1 x1 k1 p1 fuel _ V1 D1 K1 Hk1 F1) as O1. pose proof (open_wave h2 x2 k2 p2 fuel _ V2 D2 K2 Hk2 F2) as O2.
  cbv zeta in O1, O2. fold c1 in O1. fold c2 in O2.
  split; [by apply main_no_near|]. split; [intros E1 E2; eapply main_no_far; [rewrite E1; exact O1|done|done]|].
  split; [intros E1 E2 E3; eapply main_no_output; [rewrite E1; exact O1|done|rewrite E2; exact O2|done|done]|].
  assert (Hin : wd_near wd = Some c1 -> wd_far wd = Some c2 -> wd_out wd = true -> inputs wd c1 c2) by (intros; by split_and!).
  split; intros E1 E2 E3 Hr; destruct (main_opens fuel wd h1 h2 x1 x2 k1 k2 p1 p2 W1 W2 (Hin E1 E2 E3) Hk1 Hk2) as (h0 & ->);
    unfold main_process, ReadHeader; cbn [m_FileStatus m_head]; change (0 =? 0) with true; cbv iota.
  - rewrite (proj2 (Z.eqb_neq _ _) Hr). reflexivity.
  - intros Hr1 Hr2. rewrite (proj2 (Z.eqb_eq _ _) Hr). cbn [negb]. rewrite WriteHeader_new. cbn [mbind option_bind].
    destruct (Create_ok _ Hal) as (e0 & -> & _). cbn [mbind option_bind]. rewrite unsupported_rate by done. reflexivity.
Qed.

Lemma main_errors_witness : main 1 (mkWorld blank_wav blank_wav blank_wav None None true sample_mobile_allocs) = Some (0, None).
Proof.
  pose proof (sample_wave_file 0 ltac:(lia)) as Hw.
  exact (proj1 (main_errors 1 (mkWorld blank_wav blank_wav blank_wav None None true sample_mobile_allocs) _ _ [] [] [] [] [] [] Hw Hw
    ltac:(cbn; lia) ltac:(cbn; lia) blank_wav_ok blank_wav_ok sample_mobile_allocs_ok) eq_refl).
Defined.
End TestProgramSpec.
